(* ===== verification/_CoqProject ===== *)
-Q . S2P
Prelude.v
Stream.v
Buffer.v
Tpkt.v
X224.v
Mcs.v
Fastpath.v
Codec.v
VirtualChannel.v
DynamicChannel.v
Udp.v
Udp2.v
Bits.v
Window.v
BitReader.v
Mppc.v
Huffman.v
Rdp6.v
Bulk.v
Rle.v
Bitmap.v
Charset.v
Security.v
ClientInfo.v
Planar.v
Nscodec.v
Reassembly.v
ServerDvc.v
ClientDvc.v
DvcDelivery.v
