(* ===== verification/Prelude.v ===== *)
(** * librdp: a verification library for the protocol core

    librdp (the C code under [src/src/]) implements both ends of the Remote
    Desktop Protocol.  This development models the code every byte from the
    network goes through: the bounds-checked reader and the growable buffer, the
    framing layers (TPKT, X.224, MCS, fast path), Standard Security, the virtual
    channels (static and dynamic, and the state the two ends keep for them), the
    RDP-UDP transports, the bulk decompressors and the bitmap codecs.  The
    definitions are shallow embeddings of the C functions under their C names,
    one per function, with its guards in their order; the theorems say what each
    component promises to its callers.

    ** How the parts fit together

    A connection starts with X.224 negotiation and the MCS Connect-Initial and
    Connect-Response inside X.224 data TPDUs, inside TPKT frames ([Tpkt],
    [X224], [Mcs]); the protocol selected decides whether Standard Security is
    in use, whose keys come from the exchanged randoms and whose packets are
    encrypted and signed ([Security]); the client then sends its user
    information ([ClientInfo], text through [Charset]).  MCS send-data PDUs
    carry the static virtual channels, which fragment their messages
    ([VirtualChannel]) and put them together again at the other end
    ([Reassembly]); one of them carries the dynamic channels ([DynamicChannel]),
    whose tables the two ends keep in [ServerDvc] and [ClientDvc]
    ([DvcDelivery] puts the ends together) and which soft-sync can move to an
    RDP-UDP transport ([Udp], [Udp2]).  Graphics arrives as fast-path packets,
    encrypted or not ([Fastpath]), whose updates may be compressed ([Mppc],
    [Huffman], [Rdp6], [Bulk]); bitmap updates among them carry rectangles in
    several depths, run-length coded or not ([Rle], [Bitmap]), and surfaces come
    in the planar codec and NSCodec ([Planar], [Nscodec]).  Every parser reads
    through [Stream] and every encoder writes through [Buffer].

    ** The files

    - [Prelude] (this file): status codes, the outcome type [res], the monad
      [M S] of stateful fallible code, machine integers, byte layouts, lists
      with C indices, and the tactics and hint databases of the development.
    - [Stream]: [common/stream.c]; the interfaces [Safe] and [Parses].
    - [Buffer]: [common/buffer.c]; the interfaces [Writes], [WritesAtomic] and
      [Total].
    - [Tpkt], [X224], [Mcs], [Fastpath]: the files of these names in
      [protocol/].
    - [Codec]: the class of parser/encoder pairs that are inverse to each other,
      with combinators; used for the fixed layouts of [Udp] and [Udp2].
    - [VirtualChannel], [DynamicChannel]: the files of [channels/].
    - [Udp], [Udp2]: [transport/udp_transport.c], versions 1 and 2.
    - [Bits]: bit sources ([BitSource]) and what it is to consume or parse bits.
    - [Window]: the class [History] of decompressor windows, and LZ77 matches.
    - [BitReader], [Mppc], [Huffman], [Rdp6], [Bulk]: [protocol/bulk.c].
    - [Rle], [Bitmap]: [graphics/bitmap.c], the run-length decoder and the rest.
    - [Charset]: [common/charset.c], over the class [Iconv].
    - [Security], [ClientInfo]: [security/security.c], over the class [OpenSSL];
      [Security] also gives the instance of the class [StandardSecurity] that
      [Fastpath] is written against.
    - [Planar], [Nscodec]: [graphics/planar.c], [graphics/nscodec.c].
    - [Reassembly]: the static channels in [server/server_channels.c] and
      [client/session_channels.c].
    - [ServerDvc]: the dynamic channels in [server/server_channels.c].
    - [ClientDvc]: those in [client/session_channels.c], with their senders in
      [client/session_protocol_io.c] and [rdp_session_handle_dynamic_channel] of
      [client/session.c].
    - [DvcDelivery]: messages from one end to the other, over [ServerDvc],
      [ClientDvc] and [Reassembly]; it models no code of its own.

    ** Conventions of the model

    A C call returns [Ok] with its outputs, [Err] with a status, or [Fault]:
    undefined behaviour (an access outside an object) or a loop that used up its
    fuel.  No theorem of safety or totality leaves room for [Fault].
    Integers are [Z] at their C width: every operation that can wrap is written
    with [u8], [u16], [u32] or [size_t] (64 bits), and checks that prevent a wrap
    are proved to do so.  Bytes are lists of [Z]; a pointer and a length are a
    [view], either [View l], a pointer to the bytes [l], or [NullView n]; a
    pointer field that may be NULL is an [option].  Pointers to output
    parameters, structures and streams are never NULL in a caller of the
    library, so the guards that test for it are not in the model.  What a parser
    leaves in its output parameters when it fails is not modelled.

    Memory allocation takes its outcomes from a list, the [heap] of the state:
    the next [false] in it is a failing [malloc], [calloc] or [realloc], and an
    exhausted list means success.  Theorems hold for every heap; those that
    promise success assume the empty one and a size below 2^63.  Cells a
    [realloc] leaves indeterminate are 0 and no theorem depends on them.

    Code outside the repository is a class with laws: [OpenSSL] (MD5, SHA-1,
    RC4), [Iconv].  What a component calls in the rest of the library is a
    parameter as well: the dispatch of a complete message, the connection a
    packet goes to, the callbacks of the application ([DvcHost] and [ClientHost]
    for the dynamic channels, [SegmentedDecoder] for their compressed data).  These have a state of their own and any outcome but undefined
    behaviour; they do not change the component's state before they return.

    Loops are structural where the C loop counts, and take fuel elsewhere:
    doubling the capacity of a buffer needs at most 65 rounds, and so does the
    output of a text conversion, which doubles as well; a BER length eight
    digits, the nested scan of the Connect-Response nine levels; loops over the
    items of a packet take one unit per byte of it, as do the planes of [Planar]
    and [Nscodec] and the loops that send a message in parts ([Reassembly],
    [ServerDvc], [ClientDvc]); those over the bits of a compressed packet take one per byte
    ([Mppc], whose items are eight bits or more) or eight per byte ([Rdp6]); the
    orders of a bitmap ([Rle]) one per byte.  In each case the theorems show that
    the fuel is never used up.

    ** What the theorems show

    - The two data structures refine their abstract values: a stream is the list
      of its unread bytes ([stream_refines_list]), a buffer the list of bytes
      written ([buffer_refines_list], appends of a buffer to itself included);
      capacities double and do not overflow ([reserve_doubles]).
    - Parsers have no undefined behaviour and terminate on any bytes, and read
      no byte past the packet (the theorems named [_safe]).
    - Encoders and parsers agree: what is written parses back ([_roundtrip]),
      and, for the formats where it is so, exactly the encodings parse
      ([_iff], [_codec]).
    - Packets that must not be trusted are refused: a fast-path packet whose
      signature is wrong leaves nothing in the output
      ([fastpath_unwrap_verified]), inconsistent soft-sync lists are rejected
      ([dvc_soft_sync_request_iff]), and the selection of a protocol never falls
      below what was asked for ([security_no_downgrade]).
    - Standard Security: both ends derive the same keys, each the other's
      direction ([security_init_derives]); what one end sends in a session, over
      any number of key updates, the other receives, and every packet of it is
      given, with the key of its turn and a fresh stream every 4096 packets
      ([security_session_delivers]); a packet is accepted exactly if it verifies,
      and otherwise nothing changes ([security_unwrap_refines]); with salted
      signatures the packet of a key update is refused, and the one after it
      arrives ([security_salted_turn_refused]).  The licensing cipher is its own inverse
      ([license_crypt_involutive]); the client information is parsed back
      ([client_info_roundtrip]); a text conversion ends with the text of the
      converter or an error ([charset_converts]).
    - Channels: a message sent over a static channel arrives once and whole,
      in the server and in the client ([static_channel_delivers]), and each
      handler is a machine with one message in progress
      ([server_static_refines], [client_static_refines]).  The 64 slots of the
      server's dynamic channels are a finite map from numbers to phases, for
      every call and every PDU ([server_dvc_refines]), and stay so, with the
      enumeration that the application sees ([server_dvc_invariant]).  The 64
      entries of the client keep theirs ([client_dvc_invariant]), and a handle is
      good for one channel, never for a later one in the same entry
      ([client_handle_lifetime]).  A message sent on a dynamic channel by either
      end arrives at the other, once and whole, in one PDU or more, and leaves
      the channel idle ([dvc_server_message_delivered],
      [dvc_client_message_delivered]).
    - Decompression is LZ77: [mppc_lz77], [rdp6_lz77] and [rdp61_lz77] give the
      decompressed bytes of every encoding of a token list (RDP 6.0 refuses one
      shorter than four bytes); the tables of RDP
      6.0 are those of the canonical Huffman code ([rdp6_tables_canonical]).
      [mppc_decompress_invariant], [rdp6_decode_invariant] and
      [bulk_decompress_safe] state the invariant of the five histories over any
      sequence of packets, well formed or not, and what a bad packet leaves
      behind.
    - Bitmaps: the run-length decoder accepts exactly the streams of a grammar
      of orders that paint the whole rectangle, and paints what the orders say
      ([rle_decode_iff]); a rectangle of any depth becomes its image
      ([bitmap_decode_rect]); updates are parsed exactly
      ([bitmap_updates_parsed], [bitmap_update_roundtrip]); the planar codec
      and NSCodec decode exactly the streams of their planes
      ([planar_decode_iff], [nscodec_region_iff]).
    - Lemmas that record what the model shows the code to get wrong:
      [bitmap_compressed_upside_down], [bitmap_fastpath_misread],
      [rle_insert_after_first_line], [nscodec_planar_exchange],
      [client_fragment_kept], [server_empty_first_dispatched],
      [server_close_unanswered].

    ** Not modelled

    Sockets, TLS, threads and event loops; certificates; licensing, GCC and
    capability sets; the slow path; the redirection channels (clipboard, devices,
    audio and the like) and what the client sets up for the channels they use;
    ClearCodec, RemoteFX, AVC and the drawing orders; the
    rest of the client session and of the server; the gateway; code that is
    calls to OpenSSL, GSSAPI, libcurl, FFmpeg, Cairo or iconv; device backends;
    applications, tests and fuzzers.  An application that calls back into the
    library from a callback is not modelled either.
*)

From Stdlib Require Export ZArith Lia Bool.
From stdpp Require Export base list numbers decidable.

#[export] Set Warnings "-clear-no-such-hyp".
Global Open Scope Z_scope.

(** ** Status codes and outcomes *)

Inductive librdp_status : Set :=
| LIBRDP_STATUS_OK
| LIBRDP_STATUS_INVALID_ARGUMENT
| LIBRDP_STATUS_NO_MEMORY
| LIBRDP_STATUS_IO_ERROR
| LIBRDP_STATUS_PROTOCOL_ERROR
| LIBRDP_STATUS_UNSUPPORTED
| LIBRDP_STATUS_TIMEOUT
| LIBRDP_STATUS_CLOSED
| LIBRDP_STATUS_AGAIN
| LIBRDP_STATUS_STATE
| LIBRDP_STATUS_TLS_CERTIFICATE_REJECTED
| LIBRDP_STATUS_TLS_HOSTNAME_MISMATCH
| LIBRDP_STATUS_TLS_HANDSHAKE_FAILED
| LIBRDP_STATUS_SECURITY_DOWNGRADE
| LIBRDP_STATUS_LIMIT_EXCEEDED
| LIBRDP_STATUS_CANCELLED
| LIBRDP_STATUS_AUTHENTICATION_FAILED
| LIBRDP_STATUS_CREDENTIALS_EXPIRED
| LIBRDP_STATUS_ACCOUNT_LOCKED.

#[export] Instance librdp_status_eq_dec : EqDecision librdp_status.
Proof. solve_decision. Defined.

(** The outcome of a C call: [Ok a] is LIBRDP_STATUS_OK with the outputs [a],
    [Err st] is an early return of the status [st], and [Fault] is undefined
    behaviour (a read or a write outside an object, or a loop whose fuel ran
    out).  Every safety theorem of the development says that [Fault] is not
    reached. *)
Inductive res (A : Type) : Type :=
| Ok (a : A)
| Err (st : librdp_status)
| Fault.
Arguments Ok {A} _.
Arguments Err {A} _.
Arguments Fault {A}.

#[export] Instance res_eq_dec {A} `{EqDecision A} : EqDecision (res A).
Proof. solve_decision. Defined.

Definition is_ok {A} (r : res A) : bool :=
  match r with Ok _ => true | _ => false end.

(** The C status a call returns; [None] for undefined behaviour. *)
Definition status_of {A} (r : res A) : option librdp_status :=
  match r with
  | Ok _ => Some LIBRDP_STATUS_OK
  | Err st => Some st
  | Fault => None
  end.

#[export] Instance res_ret : MRet res := fun A a => Ok a.
#[export] Instance res_bind : MBind res := fun A B f r =>
  match r with
  | Ok a => f a
  | Err st => Err st
  | Fault => Fault
  end.

(** ** The state and error monad

    [M S A] is a computation over the mutable state [S].  An early return
    keeps the state it had reached, as the C code does. *)
Definition M (S A : Type) : Type := S -> res A * S.

#[export] Instance M_ret S : MRet (M S) := fun A a s => (Ok a, s).
#[export] Instance M_bind S : MBind (M S) := fun A B f m s =>
  match m s with
  | (Ok a, s') => f a s'
  | (Err st, s') => (Err st, s')
  | (Fault, s') => (Fault, s')
  end.

Definition fail {S A} (st : librdp_status) : M S A := fun s => (Err st, s).
Definition lift {S A} (r : res A) : M S A := fun s => (r, s).
Definition gets {S A} (f : S -> A) : M S A := fun s => (Ok (f s), s).
Definition modify {S} (f : S -> S) : M S unit := fun s => (Ok tt, f s).

(** [require c st]: the guard [if (!c) return st;]. *)
Definition require {S} (c : bool) (st : librdp_status) : M S unit :=
  if c then mret tt else fail st.

(** The guard in a function without state. *)
Definition ensure (c : bool) (st : librdp_status) : res unit :=
  if c then Ok tt else Err st.

(** [coerce st m]: [if (m != LIBRDP_STATUS_OK) return st;]. *)
Definition coerce {S A} (st : librdp_status) (m : M S A) : M S A := fun s =>
  match m s with
  | (Err _, s') => (Err st, s')
  | r => r
  end.

Section monad_lemmas.
Context {S A B : Type}.
Implicit Types (m : M S A) (k : A -> M S B) (s : S).

Lemma bind_ok m k s a s' : m s = (Ok a, s') -> (m ≫= k) s = k a s'.
Proof. intros H. unfold mbind, M_bind. by rewrite H. Qed.

Lemma bind_err m k s st s' : m s = (Err st, s') -> (m ≫= k) s = (Err st, s').
Proof. intros H. unfold mbind, M_bind. by rewrite H. Qed.

Lemma bind_Ok_inv m k s b s' :
  (m ≫= k) s = (Ok b, s') -> exists a s1, m s = (Ok a, s1) /\ k a s1 = (Ok b, s').
Proof.
  unfold mbind, M_bind. destruct (m s) as [[a|st|] s1]; intros H; try discriminate.
  eauto.
Qed.
End monad_lemmas.

Lemma bind_lift {S A B} (o : res A) (k : A -> M S B) (s : S) :
  (lift o ≫= k) s =
    match o with Ok a => k a s | Err st => (Err st, s) | Fault => (Fault, s) end.
Proof. by destruct o. Qed.

Lemma bind_gets {S A B} (f : S -> A) (k : A -> M S B) (s : S) : (gets f ≫= k) s = k (f s) s.
Proof. done. Qed.
Lemma bind_modify {S B} (f : S -> S) (k : unit -> M S B) (s : S) : (modify f ≫= k) s = k tt (f s).
Proof. done. Qed.

Lemma bind_require {S A} (k : unit -> M S A) c st s :
  (require c st ≫= k) s = if c then k tt s else (Err st, s).
Proof. by destruct c. Qed.

Lemma require_true {S} (s : S) c st : c = true -> require c st s = (Ok tt, s).
Proof. intros Hc. rewrite Hc. reflexivity. Qed.

Lemma require_false {S} (s : S) c st : c = false -> require c st s = (Err st, s).
Proof. intros Hc. rewrite Hc. reflexivity. Qed.

Lemma require_Ok_inv {S} (s s' : S) c st u :
  require c st s = (Ok u, s') -> c = true /\ s' = s.
Proof. destruct c; unfold require, mret, M_ret, fail; intros [=]; auto. Qed.

Lemma coerce_Ok_inv {S A} (m : M S A) st s a s' :
  coerce st m s = (Ok a, s') -> m s = (Ok a, s').
Proof. unfold coerce. destruct (m s) as [[] ?]; congruence. Qed.

Lemma lift_Ok_inv {S A} (r : res A) (s s' : S) a :
  lift r s = (Ok a, s') -> r = Ok a /\ s' = s.
Proof. unfold lift. intros [=]; auto. Qed.

Lemma ensure_bind {A} c st (k : unit -> res A) :
  (ensure c st ≫= k) = if c then k tt else Err st.
Proof. by destruct c. Qed.
Lemma ensure_true {A} c st (k : unit -> res A) : c = true -> (ensure c st ≫= k) = k tt.
Proof. by intros ->. Qed.

(** Run a computation on one half of the state. *)
Definition on_fst {S T A} (m : M S A) : M (S * T) A := fun s =>
  let '(r, s1) := m s.1 in (r, (s1, s.2)).
Definition on_snd {S T A} (m : M T A) : M (S * T) A := fun s =>
  let '(r, s2) := m s.2 in (r, (s.1, s2)).
(** A reader local to a function. *)
Definition with_reader {R S A} (r : R) (m : M (R * S) A) : M S A := fun s =>
  let '(o, (_, s')) := m (r, s) in (o, s').
Section on_pair.
Context {S T A B : Type}.
Lemma bind_on_fst (m : M S A) (k : A -> M (S * T) B) s t :
  (on_fst m ≫= k) (s, t) =
    match m s with
    | (Ok a, s') => k a (s', t)
    | (Err e, s') => (Err e, (s', t))
    | (Fault, s') => (Fault, (s', t))
    end.
Proof. unfold mbind at 1, M_bind, on_fst. cbn [fst snd]. by destruct (m s) as [[] s']. Qed.
Lemma bind_on_snd (m : M T A) (k : A -> M (S * T) B) s t :
  (on_snd m ≫= k) (s, t) =
    match m t with
    | (Ok a, t') => k a (s, t')
    | (Err e, t') => (Err e, (s, t'))
    | (Fault, t') => (Fault, (s, t'))
    end.
Proof. unfold mbind at 1, M_bind, on_snd. cbn [fst snd]. by destruct (m t) as [[] t']. Qed.
End on_pair.

(** ** Machine integers: unsigned arithmetic of the C types *)

Definition u8 (x : Z) : Z := x mod 0x100.
Definition u16 (x : Z) : Z := x mod 0x10000.
Definition u32 (x : Z) : Z := x mod 0x100000000.
(** [size_t] of the LP64 targets of the library. *)
Definition size_t (x : Z) : Z := x mod 0x10000000000000000.
Definition SIZE_MAX : Z := 0xffffffffffffffff.
Definition UINT16_MAX : Z := 0xffff.
Definition UINT32_MAX : Z := 0xffffffff.

(** [(flags & flag) != 0] *)
Definition has_flag (flags flag : Z) : bool := negb (Z.land flags flag =? 0).

Definition is_byte (b : Z) : Prop := 0 <= b < 0x100.
Definition is_u16 (v : Z) : Prop := 0 <= v < 0x10000.
Definition is_u32 (v : Z) : Prop := 0 <= v < 0x100000000.
Definition is_size (v : Z) : Prop := 0 <= v <= SIZE_MAX.
Abbreviation bytes := (Forall is_byte).

#[export] Instance is_byte_dec b : Decision (is_byte b).
Proof. unfold is_byte. apply _. Defined.
#[export] Instance is_u16_dec b : Decision (is_u16 b).
Proof. unfold is_u16. apply _. Defined.
#[export] Instance is_u32_dec b : Decision (is_u32 b).
Proof. unfold is_u32. apply _. Defined.

(** ** Memory: lists of cells addressed by [Z] offsets *)

Definition blen {A} (l : list A) : Z := Z.of_nat (length l).
Definition ztake {A} (n : Z) (l : list A) : list A := take (Z.to_nat n) l.
Definition zdrop {A} (n : Z) (l : list A) : list A := drop (Z.to_nat n) l.

(** [l[i]]: a read outside the object is undefined behaviour. *)
Definition rd {A} (l : list A) (i : Z) : res A :=
  if (0 <=? i) && (i <? blen l) then
    match l !! Z.to_nat i with Some a => Ok a | None => Fault end
  else Fault.

(** [l[i] = a]. *)
Definition wr {A} (l : list A) (i : Z) (a : A) : res (list A) :=
  if (0 <=? i) && (i <? blen l) then Ok (<[Z.to_nat i := a]> l) else Fault.

(** The [n] cells at offset [off]. *)
Definition slice {A} (l : list A) (off n : Z) : res (list A) :=
  if (0 <=? off) && (0 <=? n) && (off + n <=? blen l)
  then Ok (ztake n (zdrop off l)) else Fault.

(** memcpy / memmove of the cells [src] to offset [off] of [l]. *)
Definition write_at {A} (l : list A) (off : Z) (src : list A) : res (list A) :=
  if (0 <=? off) && (off + blen src <=? blen l)
  then Ok (ztake off l ++ src ++ zdrop (off + blen src) l) else Fault.

(** A [(const void* data, size_t length)] pair of arguments: NULL with a
    length, or [length] readable bytes. *)
Inductive view : Type :=
| NullView (n : Z)
| View (l : list Z).

Definition view_len (v : view) : Z :=
  match v with NullView n => n | View l => blen l end.
Definition view_null (v : view) : bool :=
  match v with NullView _ => true | View _ => false end.
(** The readable bytes behind the pointer. *)
Definition view_bytes (v : view) : list Z :=
  match v with NullView _ => [] | View l => l end.

Section list_lemmas.
Context {A : Type}.
Implicit Types (l k : list A) (i n off : Z).

Lemma blen_nonneg l : 0 <= blen l.
Proof. unfold blen. lia. Qed.
Lemma blen_nil : blen (@nil A) = 0.
Proof. reflexivity. Qed.
Lemma blen_cons (a : A) l : blen (a :: l) = 1 + blen l.
Proof. unfold blen. rewrite length_cons. lia. Qed.
Lemma blen_app l k : blen (l ++ k) = blen l + blen k.
Proof. unfold blen. rewrite length_app. lia. Qed.
Lemma blen_replicate (n : nat) (a : A) : blen (replicate n a) = Z.of_nat n.
Proof. unfold blen. by rewrite length_replicate. Qed.
Lemma blen_0_nil l : blen l = 0 -> l = [].
Proof. destruct l; [done|]. rewrite blen_cons. pose proof (blen_nonneg l). lia. Qed.

Lemma blen_ztake n l : 0 <= n <= blen l -> blen (ztake n l) = n.
Proof. unfold blen, ztake. rewrite length_take. lia. Qed.
Lemma blen_zdrop n l : 0 <= n <= blen l -> blen (zdrop n l) = blen l - n.
Proof. unfold blen, zdrop. rewrite length_drop. lia. Qed.

Lemma ztake_app_blen l k : ztake (blen l) (l ++ k) = l.
Proof. unfold ztake, blen. rewrite Nat2Z.id. apply take_app_length. Qed.
Lemma zdrop_app_blen l k : zdrop (blen l) (l ++ k) = k.
Proof. unfold zdrop, blen. rewrite Nat2Z.id. apply drop_app_length. Qed.
Lemma ztake_all n l : blen l <= n -> ztake n l = l.
Proof. unfold ztake, blen. intros. apply take_ge. lia. Qed.
Lemma zdrop_0 l : zdrop 0 l = l.
Proof. done. Qed.
Lemma ztake_zdrop n l : ztake n l ++ zdrop n l = l.
Proof. apply take_drop. Qed.
Lemma zdrop_zdrop i n l : 0 <= i -> 0 <= n -> zdrop i (zdrop n l) = zdrop (n + i) l.
Proof. unfold zdrop. intros. rewrite drop_drop. f_equal. lia. Qed.

Lemma ztake_snoc_slice l off n :
  0 <= off -> 0 <= n -> ztake (off + n) l = ztake off l ++ ztake n (zdrop off l).
Proof.
  unfold ztake, zdrop. intros. rewrite Z2Nat.inj_add by lia.
  by rewrite take_take_drop.
Qed.

Lemma slice_ok l off n :
  0 <= off -> 0 <= n -> off + n <= blen l -> slice l off n = Ok (ztake n (zdrop off l)).
Proof.
  intros. unfold slice.
  destruct (Z.leb_spec 0 off), (Z.leb_spec 0 n), (Z.leb_spec (off + n) (blen l)); done || lia.
Qed.
Lemma slice_Ok_inv l off n r :
  slice l off n = Ok r ->
  0 <= off /\ 0 <= n /\ off + n <= blen l /\ r = ztake n (zdrop off l).
Proof.
  unfold slice.
  destruct (Z.leb_spec 0 off), (Z.leb_spec 0 n), (Z.leb_spec (off + n) (blen l));
    intros [=]; auto.
Qed.

(** The segment after a known prefix. *)
Lemma slice_app l1 l2 l3 off n :
  blen l1 = off -> blen l2 = n -> slice (l1 ++ l2 ++ l3) off n = Ok l2.
Proof.
  intros <- <-. pose proof (blen_nonneg l1). pose proof (blen_nonneg l2).
  pose proof (blen_nonneg l3).
  rewrite slice_ok by (rewrite ?blen_app; lia).
  by rewrite zdrop_app_blen, ztake_app_blen.
Qed.

Lemma rd_app_r l1 l2 i : 0 <= i -> rd (l1 ++ l2) (blen l1 + i) = rd l2 i.
Proof.
  intros Hi. unfold rd. rewrite blen_app. pose proof (blen_nonneg l1).
  assert (E : (0 <=? blen l1 + i) && (blen l1 + i <? blen l1 + blen l2)
            = (0 <=? i) && (i <? blen l2)) by lia.
  rewrite E. destruct ((0 <=? i) && (i <? blen l2)); [|done].
  rewrite lookup_app_r by (unfold blen; lia).
  replace (Z.to_nat (blen l1 + i) - length l1)%nat with (Z.to_nat i) by (unfold blen; lia).
  done.
Qed.
Lemma rd_app_l l1 l2 i : i < blen l1 -> rd (l1 ++ l2) i = rd l1 i.
Proof.
  intros Hi. unfold rd. rewrite blen_app. pose proof (blen_nonneg l2).
  assert (E : (0 <=? i) && (i <? blen l1 + blen l2) = (0 <=? i) && (i <? blen l1)) by lia.
  rewrite E. destruct (Z.leb_spec 0 i), (Z.ltb_spec i (blen l1)); try done.
  cbn. rewrite lookup_app_l by (unfold blen in *; lia). done.
Qed.

Lemma rd_ok l i : 0 <= i < blen l -> exists a, rd l i = Ok a /\ l !! Z.to_nat i = Some a.
Proof.
  intros Hi. unfold rd.
  destruct (Z.leb_spec 0 i), (Z.ltb_spec i (blen l)); try lia. cbn.
  destruct (l !! Z.to_nat i) eqn:E; [eauto|].
  apply lookup_ge_None in E. unfold blen in *. lia.
Qed.
Lemma rd_lookup l i a : 0 <= i -> l !! Z.to_nat i = Some a -> rd l i = Ok a.
Proof.
  intros Hi E. unfold rd. pose proof (lookup_lt_Some _ _ _ E).
  destruct (Z.leb_spec 0 i), (Z.ltb_spec i (blen l)); unfold blen in *; try lia.
  cbn. by rewrite E.
Qed.
Lemma rd_Ok_inv l i a :
  rd l i = Ok a -> 0 <= i < blen l /\ l !! Z.to_nat i = Some a.
Proof.
  unfold rd. destruct (Z.leb_spec 0 i), (Z.ltb_spec i (blen l)); cbn; try done.
  destruct (l !! Z.to_nat i); [|done]. intros [=]; subst; auto.
Qed.
Lemma rd_Forall (P : A -> Prop) l i a : Forall P l -> rd l i = Ok a -> P a.
Proof. intros HF [_ H]%rd_Ok_inv. by eapply Forall_lookup_1. Qed.

Lemma wr_ok l i (a : A) : 0 <= i < blen l -> wr l i a = Ok (<[Z.to_nat i := a]> l).
Proof.
  intros. unfold wr. destruct (Z.leb_spec 0 i), (Z.ltb_spec i (blen l)); done || lia.
Qed.
Lemma write_at_ok l off k :
  0 <= off -> off + blen k <= blen l ->
  write_at l off k = Ok (ztake off l ++ k ++ zdrop (off + blen k) l).
Proof.
  intros. unfold write_at.
  destruct (Z.leb_spec 0 off), (Z.leb_spec (off + blen k) (blen l)); done || lia.
Qed.
Lemma blen_write_at l off k l' : write_at l off k = Ok l' -> blen l' = blen l.
Proof.
  unfold write_at. pose proof (blen_nonneg k).
  destruct (Z.leb_spec 0 off), (Z.leb_spec (off + blen k) (blen l)); intros [=]; subst.
  rewrite !blen_app, blen_ztake, blen_zdrop; lia.
Qed.
End list_lemmas.

(** Slices and reads the guards keep inside the payload. *)
Lemma slice_no_fault {A} (l : list A) off n :
  0 <= off -> 0 <= n -> off + n <= blen l -> slice l off n <> Fault.
Proof. intros. by rewrite slice_ok. Qed.
Lemma rd_no_fault {A} (l : list A) i : 0 <= i < blen l -> rd l i <> Fault.
Proof. intros Hi. by destruct (rd_ok l i Hi) as (a & -> & _). Qed.

Lemma Forall_ztake {A} (P : A -> Prop) n l : Forall P l -> Forall P (ztake n l).
Proof. apply Forall_take. Qed.
Lemma Forall_zdrop {A} (P : A -> Prop) n l : Forall P l -> Forall P (zdrop n l).
Proof. apply Forall_drop. Qed.

Create Rewrite HintDb blen.
Create Rewrite HintDb bits.
#[export] Hint Rewrite @blen_nil @blen_cons @blen_app @blen_replicate : blen.
Ltac blen_pos :=
  repeat match goal with
  | |- context [blen ?l] =>
      lazymatch goal with _ : 0 <= blen l |- _ => fail | _ => pose proof (blen_nonneg l) end
  | _ : context [blen ?l] |- _ =>
      lazymatch goal with _ : 0 <= blen l |- _ => fail | _ => pose proof (blen_nonneg l) end
  end.
(** Normalise lengths and close linear goals. *)
Ltac zlen := autorewrite with blen in *; blen_pos; try lia.

(** Evaluate the reads at constant offsets of lists written out. *)
Ltac rd_eval :=
  repeat match goal with
  | |- context [rd ?l ?i] =>
      let r := eval cbv -[Z.land Z.shiftr Z.shiftl Z.lor Z.add Z.sub Z.mul Z.modulo Z.div] in (rd l i) in
      lazymatch r with Ok _ => change (rd l i) with r | Fault => change (rd l i) with r end
  end; cbv beta iota.

(** ** Bit operations as arithmetic *)

Lemma land_mask n x : 0 <= n -> Z.land x (2 ^ n - 1) = x mod 2 ^ n.
Proof. intros. rewrite <- Z.land_ones by lia. by rewrite Z.ones_equiv, <- Z.sub_1_r. Qed.

Lemma land_0x01 x : Z.land x 0x01 = x mod 2.    Proof. apply (land_mask 1); lia. Qed.
Lemma land_0x03 x : Z.land x 0x03 = x mod 4.    Proof. apply (land_mask 2); lia. Qed.
Lemma land_0x07 x : Z.land x 0x07 = x mod 8.    Proof. apply (land_mask 3); lia. Qed.
Lemma land_0x0f x : Z.land x 0x0f = x mod 16.   Proof. apply (land_mask 4); lia. Qed.
Lemma land_0x1f x : Z.land x 0x1f = x mod 32.   Proof. apply (land_mask 5); lia. Qed.
Lemma land_0x3f x : Z.land x 0x3f = x mod 64.   Proof. apply (land_mask 6); lia. Qed.
Lemma land_0x7f x : Z.land x 0x7f = x mod 128.  Proof. apply (land_mask 7); lia. Qed.
Lemma land_0xff x : Z.land x 0xff = x mod 256.  Proof. apply (land_mask 8); lia. Qed.
Lemma land_0xfff x : Z.land x 0x0fff = x mod 0x1000.  Proof. apply (land_mask 12); lia. Qed.
Lemma land_0x1fff x : Z.land x 0x1fff = x mod 0x2000.  Proof. apply (land_mask 13); lia. Qed.
Lemma land_0xffff x : Z.land x 0xffff = x mod 0x10000.  Proof. apply (land_mask 16); lia. Qed.

Lemma lor_add n a b : 0 <= n -> 0 <= a < 2 ^ n -> Z.lor a (b * 2 ^ n) = a + b * 2 ^ n.
Proof.
  intros Hn Ha. rewrite <- Z.add_lor_land.
  replace (Z.land a (b * 2 ^ n)) with 0; [lia|].
  symmetry. apply Z.bits_inj_0. intros i. rewrite Z.land_spec.
  destruct (Z.ltb_spec i n).
  - rewrite Z.mul_pow2_bits_low by lia. apply andb_false_r.
  - destruct (decide (a = 0)) as [->|]; [by rewrite Z.bits_0|].
    rewrite (Z.bits_above_log2 a); [done|lia|].
    assert (Z.log2 a < n) by (apply Z.log2_lt_pow2; lia). lia.
Qed.

Lemma lor_shiftl n a b : 0 <= n -> 0 <= a < 2 ^ n -> Z.lor a (Z.shiftl b n) = a + b * 2 ^ n.
Proof. intros. rewrite Z.shiftl_mul_pow2 by lia. by apply lor_add. Qed.
Lemma lor_shiftl' n a b : 0 <= n -> 0 <= a < 2 ^ n -> Z.lor (Z.shiftl b n) a = b * 2 ^ n + a.
Proof. intros. rewrite Z.lor_comm, lor_shiftl by lia. lia. Qed.

#[export] Hint Rewrite land_0x01 land_0x03 land_0x07 land_0x0f land_0x1f land_0x3f
  land_0x7f land_0xff land_0xfff land_0x1fff land_0xffff : bits.
#[export] Hint Rewrite Z.shiftr_div_pow2 Z.shiftl_mul_pow2 using lia : bits.

(** Turn masks and shifts into [mod], [/] and [*] by constants. *)
Ltac bits_norm :=
  autorewrite with bits in *;
  repeat match goal with
  | |- context [2 ^ ?n] => let v := eval vm_compute in (2 ^ n) in
                           lazymatch v with Zpos _ => change (2 ^ n) with v end
  | H : context [2 ^ ?n] |- _ => let v := eval vm_compute in (2 ^ n) in
                           lazymatch v with Zpos _ => change (2 ^ n) with v in H end
  end.
Ltac bits_lia := bits_norm; Z.div_mod_to_equations; lia.

(** Decide a property of all bytes by evaluation. *)
Definition all_bytes : list Z := seqZ 0 256.
Lemma byte_cases (P : Z -> bool) :
  forallb P all_bytes = true -> forall b, is_byte b -> P b = true.
Proof.
  intros H b Hb. rewrite forallb_forall in H. apply H, list_elem_of_In.
  apply elem_of_seqZ. unfold is_byte in Hb. lia.
Qed.

(** ** Automation shared by the components *)

Create Rewrite HintDb breflect.
#[export] Hint Rewrite andb_true_iff orb_true_iff andb_false_iff orb_false_iff
  negb_true_iff negb_false_iff Z.eqb_eq Z.eqb_neq Z.leb_le Z.leb_gt Z.ltb_lt Z.ltb_ge
  : breflect.

(** Turn boolean guards into propositions. *)
Ltac bool_prop := cbv beta in *; autorewrite with breflect in *; destruct_and?.
(** Prove a guard ([lia] knows the boolean connectives and comparisons). *)
Ltac guard_lia :=
  unfold UINT16_MAX, UINT32_MAX, SIZE_MAX, is_byte, is_u16, is_u32, is_size in *;
  autorewrite with blen in *; blen_pos; bits_norm; lia.

(** Close a goal about a conditional by its two branches. *)
Ltac case_if_done :=
  match goal with |- context [if ?c then _ else _] => destruct c; done || discriminate end.

(** Prove a decidable fact about a concrete value. *)
Ltac by_evaluation := apply (bool_decide_unpack _); vm_compute; exact I.

(** Take one monadic step of a successful run apart. *)
Ltac run_step H :=
  let a := fresh "a" in let s1 := fresh "s" in let E := fresh "E" in
  apply bind_Ok_inv in H as (a & s1 & E & H).

(** Single-bit tests of a byte. *)
Lemma byte_hi b : is_byte b -> (Z.land b 0x80 =? 0) = (b <? 0x80).
Proof.
  intros Hb. apply Bool.eqb_prop.
  by apply (byte_cases (fun b => Bool.eqb (Z.land b 0x80 =? 0) (b <? 0x80))).
Qed.

(** ** Multi-byte integers on the wire *)

Definition le16 (v : Z) : list Z := [Z.land v 0xff; Z.land (Z.shiftr v 8) 0xff].
Definition be16 (v : Z) : list Z := [Z.land (Z.shiftr v 8) 0xff; Z.land v 0xff].
Definition le24 (v : Z) : list Z :=
  [Z.land v 0xff; Z.land (Z.shiftr v 8) 0xff; Z.land (Z.shiftr v 16) 0xff].
Definition le32 (v : Z) : list Z :=
  [Z.land v 0xff; Z.land (Z.shiftr v 8) 0xff;
   Z.land (Z.shiftr v 16) 0xff; Z.land (Z.shiftr v 24) 0xff].
Definition be32 (v : Z) : list Z :=
  [Z.land (Z.shiftr v 24) 0xff; Z.land (Z.shiftr v 16) 0xff;
   Z.land (Z.shiftr v 8) 0xff; Z.land v 0xff].

Lemma blen_le16 v : blen (le16 v) = 2.   Proof. done. Qed.
Lemma blen_be16 v : blen (be16 v) = 2.   Proof. done. Qed.
Lemma blen_le24 v : blen (le24 v) = 3.   Proof. done. Qed.
Lemma blen_le32 v : blen (le32 v) = 4.   Proof. done. Qed.
Lemma blen_be32 v : blen (be32 v) = 4.   Proof. done. Qed.
#[export] Hint Rewrite blen_le16 blen_be16 blen_le24 blen_le32 blen_be32 : blen.

(** The expressions the readers evaluate. *)
Definition val16 (lo hi : Z) : Z := Z.lor lo (Z.shiftl hi 8).
Definition val16_be (hi lo : Z) : Z := Z.lor (Z.shiftl hi 8) lo.
Definition val24 (p0 p1 p2 : Z) : Z :=
  Z.lor (Z.lor p0 (Z.shiftl p1 8)) (Z.shiftl p2 16).
Definition val32 (p0 p1 p2 p3 : Z) : Z :=
  Z.lor (Z.lor (Z.lor p0 (Z.shiftl p1 8)) (Z.shiftl p2 16)) (Z.shiftl p3 24).
Definition val32_be (p0 p1 p2 p3 : Z) : Z :=
  Z.lor (Z.lor (Z.lor (Z.shiftl p0 24) (Z.shiftl p1 16)) (Z.shiftl p2 8)) p3.

Section wire_integers.
Implicit Types (v p : Z).

Lemma val16_arith p0 p1 : is_byte p0 -> val16 p0 p1 = p0 + p1 * 0x100.
Proof. intros. apply lor_shiftl; unfold is_byte in *; lia. Qed.
Lemma val16_be_arith p0 p1 : is_byte p1 -> val16_be p0 p1 = p0 * 0x100 + p1.
Proof. intros. apply lor_shiftl'; unfold is_byte in *; lia. Qed.
Lemma val24_arith p0 p1 p2 :
  is_byte p0 -> is_byte p1 -> val24 p0 p1 p2 = p0 + p1 * 0x100 + p2 * 0x10000.
Proof.
  unfold is_byte, val24. intros.
  rewrite (lor_shiftl 8), (lor_shiftl 16) by lia. lia.
Qed.
Lemma val32_arith p0 p1 p2 p3 :
  is_byte p0 -> is_byte p1 -> is_byte p2 ->
  val32 p0 p1 p2 p3 = p0 + p1 * 0x100 + p2 * 0x10000 + p3 * 0x1000000.
Proof.
  unfold is_byte, val32. intros.
  rewrite (lor_shiftl 8), (lor_shiftl 16), (lor_shiftl 24) by lia. lia.
Qed.
Lemma val32_be_arith p0 p1 p2 p3 :
  is_byte p1 -> is_byte p2 -> is_byte p3 ->
  val32_be p0 p1 p2 p3 = p0 * 0x1000000 + p1 * 0x10000 + p2 * 0x100 + p3.
Proof.
  unfold is_byte, val32_be. intros. rewrite <- !Z.lor_assoc.
  rewrite (lor_shiftl' 8), (lor_shiftl' 16), (lor_shiftl' 24) by bits_lia.
  lia.
Qed.
End wire_integers.

Ltac bytes_split :=
  repeat first [apply Forall_cons_2 | apply Forall_nil_2]; unfold is_byte; bits_lia.

Lemma bytes_le16 v : bytes (le16 v).   Proof. unfold le16. bytes_split. Qed.
Lemma bytes_be16 v : bytes (be16 v).   Proof. unfold be16. bytes_split. Qed.
Lemma bytes_le24 v : bytes (le24 v).   Proof. unfold le24. bytes_split. Qed.
Lemma bytes_le32 v : bytes (le32 v).   Proof. unfold le32. bytes_split. Qed.
Lemma bytes_be32 v : bytes (be32 v).   Proof. unfold be32. bytes_split. Qed.

Lemma is_byte_land v : is_byte (Z.land v 0xff).
Proof. unfold is_byte. bits_lia. Qed.
#[export] Hint Resolve is_byte_land : core.

Lemma val16_le16 v : is_u16 v -> val16 (Z.land v 0xff) (Z.land (Z.shiftr v 8) 0xff) = v.
Proof. unfold is_u16. intros. rewrite val16_arith by done. bits_lia. Qed.
Lemma val16_be16 v : is_u16 v -> val16_be (Z.land (Z.shiftr v 8) 0xff) (Z.land v 0xff) = v.
Proof. unfold is_u16. intros. rewrite val16_be_arith by done. bits_lia. Qed.
Lemma val24_le24 v : 0 <= v < 0x1000000 ->
  val24 (Z.land v 0xff) (Z.land (Z.shiftr v 8) 0xff) (Z.land (Z.shiftr v 16) 0xff) = v.
Proof. intros. rewrite val24_arith by done. bits_lia. Qed.
Lemma val32_le32 v : is_u32 v ->
  val32 (Z.land v 0xff) (Z.land (Z.shiftr v 8) 0xff)
        (Z.land (Z.shiftr v 16) 0xff) (Z.land (Z.shiftr v 24) 0xff) = v.
Proof. unfold is_u32. intros. rewrite val32_arith by done. bits_lia. Qed.
Lemma val32_be32 v : is_u32 v ->
  val32_be (Z.land (Z.shiftr v 24) 0xff) (Z.land (Z.shiftr v 16) 0xff)
           (Z.land (Z.shiftr v 8) 0xff) (Z.land v 0xff) = v.
Proof. unfold is_u32. intros. rewrite val32_be_arith by done. bits_lia. Qed.

Lemma le16_val16 p0 p1 : is_byte p0 -> is_byte p1 -> le16 (val16 p0 p1) = [p0; p1].
Proof.
  intros. rewrite val16_arith by done. unfold le16, is_byte in *.
  repeat f_equal; bits_lia.
Qed.
Lemma be16_val16 p0 p1 : is_byte p0 -> is_byte p1 -> be16 (val16_be p0 p1) = [p0; p1].
Proof.
  intros. rewrite val16_be_arith by done. unfold be16, is_byte in *.
  repeat f_equal; bits_lia.
Qed.
Lemma le32_val32 p0 p1 p2 p3 :
  is_byte p0 -> is_byte p1 -> is_byte p2 -> is_byte p3 ->
  le32 (val32 p0 p1 p2 p3) = [p0; p1; p2; p3].
Proof.
  intros. rewrite val32_arith by done. unfold le32, is_byte in *.
  repeat f_equal; bits_lia.
Qed.
Lemma be32_val32 p0 p1 p2 p3 :
  is_byte p0 -> is_byte p1 -> is_byte p2 -> is_byte p3 ->
  be32 (val32_be p0 p1 p2 p3) = [p0; p1; p2; p3].
Proof.
  intros. rewrite val32_be_arith by done. unfold be32, is_byte in *.
  repeat f_equal; bits_lia.
Qed.

Lemma is_u16_val16 p0 p1 : is_byte p0 -> is_byte p1 -> is_u16 (val16 p0 p1).
Proof. intros. rewrite val16_arith by done. unfold is_byte, is_u16 in *. lia. Qed.
Lemma is_u16_val16_be p0 p1 : is_byte p0 -> is_byte p1 -> is_u16 (val16_be p0 p1).
Proof. intros. rewrite val16_be_arith by done. unfold is_byte, is_u16 in *. lia. Qed.
Lemma is_u32_val32 p0 p1 p2 p3 :
  is_byte p0 -> is_byte p1 -> is_byte p2 -> is_byte p3 -> is_u32 (val32 p0 p1 p2 p3).
Proof. intros. rewrite val32_arith by done. unfold is_byte, is_u32 in *. lia. Qed.
Lemma is_u32_val32_be p0 p1 p2 p3 :
  is_byte p0 -> is_byte p1 -> is_byte p2 -> is_byte p3 -> is_u32 (val32_be p0 p1 p2 p3).
Proof. intros. rewrite val32_be_arith by done. unfold is_byte, is_u32 in *. lia. Qed.

Create HintDb wire.
#[export] Hint Resolve bytes_le16 bytes_be16 bytes_le24 bytes_le32 bytes_be32
  is_u16_val16 is_u16_val16_be is_u32_val32 is_u32_val32_be : wire.
#[export] Hint Resolve Forall_app_2 Forall_cons_2 Forall_nil_2 : wire.

(** Prove that an encoding is made of bytes. *)
Ltac solve_bytes :=
  repeat first
  [ assumption | apply bytes_le16 | apply bytes_be16 | apply bytes_le24 | apply bytes_le32
  | apply bytes_be32 | apply Forall_app_2 | apply Forall_cons_2 | apply Forall_nil_2
  | apply Forall_ztake | apply Forall_zdrop ];
  try (guard_lia); try (unfold is_byte; bits_lia).

#[export] Hint Opaque le16 be16 le24 le32 be32 val16 val16_be val24 val32 val32_be
  : wire typeclass_instances.

