(* ===== verification/Stream.v ===== *)
(** * Stream: the bounds-checked byte reader

    Models [src/src/common/stream.c] and [stream.h]: the record [rdp_stream],
    its operations in the state monad, and three interfaces the parsers of the
    library are verified against:
    - [Safe r]: on a well-formed stream [r] never reads outside the data and
      leaves a well-formed stream (a class, solved by instance resolution);
    - [Parses r inp rest a]: on the unread bytes [inp], [r] returns [a] and
      leaves [rest] unread;
    - the inversion lemmas, which say what was read when a read succeeded. *)

From S2P Require Import Prelude.

Record rdp_stream := mk_rdp_stream {
  s_data : list Z;
  s_length : Z;
  s_position : Z;
}.

Abbreviation reader := (M rdp_stream).

(** ** Operations *)

Definition rdp_stream_init (v : view) : rdp_stream :=
  {| s_data := view_bytes v;
     s_length := if view_null v then 0 else view_len v;
     s_position := 0 |}.

Definition stream_remaining (s : rdp_stream) : Z :=
  if s_length s <? s_position s then 0 else s_length s - s_position s.

Definition rdp_stream_remaining : reader Z := gets stream_remaining.

Definition set_position (p : Z) (s : rdp_stream) : rdp_stream :=
  {| s_data := s_data s; s_length := s_length s; s_position := p |}.

Definition rdp_stream_read_u8 : reader Z := fun s =>
  if stream_remaining s <? 1 then (Err LIBRDP_STATUS_PROTOCOL_ERROR, s)
  else (rd (s_data s) (s_position s), set_position (s_position s + 1) s).

Definition rdp_stream_read_bytes (length : Z) : reader (list Z) := fun s =>
  if stream_remaining s <? length then (Err LIBRDP_STATUS_PROTOCOL_ERROR, s)
  else (slice (s_data s) (s_position s) length,
        set_position (s_position s + length) s).

Definition rdp_stream_skip (length : Z) : reader unit := fun s =>
  if stream_remaining s <? length then (Err LIBRDP_STATUS_PROTOCOL_ERROR, s)
  else (Ok tt, set_position (s_position s + length) s).

Definition rdp_stream_read_u16_le : reader Z :=
  p ← rdp_stream_read_bytes 2;
  p0 ← lift (rd p 0); p1 ← lift (rd p 1);
  mret (val16 p0 p1).

Definition rdp_stream_read_u16_be : reader Z :=
  p ← rdp_stream_read_bytes 2;
  p0 ← lift (rd p 0); p1 ← lift (rd p 1);
  mret (val16_be p0 p1).

Definition rdp_stream_read_u32_le : reader Z :=
  p ← rdp_stream_read_bytes 4;
  p0 ← lift (rd p 0); p1 ← lift (rd p 1); p2 ← lift (rd p 2); p3 ← lift (rd p 3);
  mret (val32 p0 p1 p2 p3).

Definition rdp_stream_read_u32_be : reader Z :=
  p ← rdp_stream_read_bytes 4;
  p0 ← lift (rd p 0); p1 ← lift (rd p 1); p2 ← lift (rd p 2); p3 ← lift (rd p 3);
  mret (val32_be p0 p1 p2 p3).

(** Run a parser body on a local stream over [v] ([rdp_stream stream;
    rdp_stream_init(&stream, data, length)]); the stream is dropped on return. *)
Definition with_stream {A} (v : view) (r : reader A) : res A :=
  (r (rdp_stream_init v)).1.

(** ** Well-formed streams *)

Record stream_wf (s : rdp_stream) : Prop := {
  stream_wf_length : s_length s = blen (s_data s);
  stream_wf_position : 0 <= s_position s <= s_length s;
  stream_wf_bytes : bytes (s_data s);
}.

(** The unread bytes. *)
Definition unread (s : rdp_stream) : list Z := zdrop (s_position s) (s_data s).

Lemma stream_init_wf v : bytes (view_bytes v) -> stream_wf (rdp_stream_init v).
Proof.
  intros Hb. destruct v as [n|l]; split; cbn in *; try done; zlen.
Qed.

Lemma unread_init v : unread (rdp_stream_init v) = view_bytes v.
Proof. by destruct v. Qed.

Lemma stream_remaining_unread s : stream_wf s -> stream_remaining s = blen (unread s).
Proof.
  intros [Hl Hp _]. unfold stream_remaining, unread.
  rewrite blen_zdrop by lia.
  destruct (Z.ltb_spec (s_length s) (s_position s)); lia.
Qed.

Lemma unread_bytes s : stream_wf s -> bytes (unread s).
Proof. intros [_ _ Hb]. by apply Forall_zdrop. Qed.

Lemma set_position_wf s n :
  stream_wf s -> 0 <= n <= stream_remaining s ->
  stream_wf (set_position (s_position s + n) s).
Proof.
  intros Hs Hn. pose proof (stream_wf_position s Hs). destruct Hs as [Hl Hp Hb].
  unfold stream_remaining in Hn. destruct (Z.ltb_spec (s_length s) (s_position s)); [lia|].
  split; cbn; try done; lia.
Qed.

Lemma unread_set_position s n :
  stream_wf s -> 0 <= n -> unread (set_position (s_position s + n) s) = zdrop n (unread s).
Proof.
  intros [_ Hp _] Hn. unfold unread. cbn. rewrite zdrop_zdrop by lia. done.
Qed.

(** ** Safety: a parser never reads outside the data *)

(** On a well-formed stream [r] has no undefined behaviour, leaves a
    well-formed stream with no more unread bytes than before, and its results
    satisfy [P]. *)
Record safe_run {A} (r : reader A) (P : A -> Prop) (s : rdp_stream) : Prop := {
  safe_no_fault : (r s).1 <> Fault;
  safe_wf : stream_wf (r s).2;
  safe_mono : blen (unread (r s).2) <= blen (unread s);
  safe_post : forall a, (r s).1 = Ok a -> P a;
}.
Class Safe {A} (r : reader A) (P : A -> Prop) : Prop :=
  safe s : stream_wf s -> safe_run r P s.

#[export] Hint Mode Safe - ! - : typeclass_instances.

Section safe.
Context {A B : Type}.
Implicit Types (P : A -> Prop) (Q : B -> Prop).

Lemma safe_ret (a : A) P : P a -> Safe (mret a) P.
Proof. intros HP s Hs. split; cbn; try done. by intros ? [= <-]. Qed.
(** The same at one stream, where the continuation may use what was read. *)
Lemma safe_run_bind (r : reader A) (k : A -> reader B) P Q s :
  safe_run r P s ->
  (forall a s', r s = (Ok a, s') -> P a -> stream_wf s' ->
     blen (unread s') <= blen (unread s) -> safe_run (k a) Q s') ->
  safe_run (r ≫= k) Q s.
Proof.
  intros [Hf Hw Hm HP] Hk.
  assert (E : (r ≫= k) s = match r s with
    | (Ok a, s') => k a s' | (Err st, s') => (Err st, s') | (Fault, s') => (Fault, s') end) by done.
  destruct (r s) as [[a|st|] s1]; cbn in *; [|by split; rewrite E|done].
  destruct (Hk a s1 eq_refl (HP a eq_refl) Hw Hm) as [Hf' Hw' Hm' HQ].
  split; rewrite E; try done. lia.
Qed.
Lemma safe_bind (r : reader A) (k : A -> reader B) P Q :
  Safe r P -> (forall a, P a -> Safe (k a) Q) -> Safe (r ≫= k) Q.
Proof.
  intros Hr Hk s Hs. apply (safe_run_bind _ _ P); [by apply Hr|].
  intros a s' _ HP Hw _. by apply Hk.
Qed.
Lemma safe_if (c : bool) (r1 r2 : reader A) P :
  (c = true -> Safe r1 P) -> (c = false -> Safe r2 P) -> Safe (if c then r1 else r2) P.
Proof. destruct c; auto. Qed.
Lemma safe_coerce st (r : reader A) P : Safe r P -> Safe (coerce st r) P.
Proof.
  intros Hr s Hs. destruct (Hr s Hs) as [Hf Hw Hm HP].
  assert (E : coerce st r s = match r s with (Err _, s') => (Err st, s') | o => o end) by done.
  destruct (r s) as [[a|st'|] s1]; cbn in *; [by split; rewrite E..|done].
Qed.
Lemma safe_weaken (r : reader A) P P' : Safe r P -> (forall a, P a -> P' a) -> Safe r P'.
Proof. intros Hr HP s Hs. destruct (Hr s Hs) as [????]. split; auto. Qed.
Lemma safe_lift (o : res A) P :
  o <> Fault -> (forall a, o = Ok a -> P a) -> Safe (lift o) P.
Proof. intros Ho HP s Hs. by split. Qed.
#[export] Instance safe_fail st P : Safe (fail st) P.
Proof. intros s Hs. by split. Qed.
End safe.

#[export] Existing Instance safe_coerce.
#[export] Instance safe_require c st : Safe (require c st) (fun _ => c = true).
Proof. intros s Hs. by destruct c; split. Qed.
#[export] Instance safe_remaining : Safe rdp_stream_remaining (fun n => 0 <= n).
Proof.
  intros s Hs. split; try done. cbn. intros a [= <-].
  rewrite stream_remaining_unread by done. apply blen_nonneg.
Qed.

Lemma blen_unread_advance s n :
  stream_wf s -> 0 <= n <= blen (unread s) ->
  blen (unread (set_position (s_position s + n) s)) = blen (unread s) - n.
Proof. intros Hs Hn. rewrite unread_set_position by (done || lia). by apply blen_zdrop. Qed.

Lemma rdp_stream_read_bytes_spec n s :
  stream_wf s -> 0 <= n ->
  rdp_stream_read_bytes n s =
    if blen (unread s) <? n then (Err LIBRDP_STATUS_PROTOCOL_ERROR, s)
    else (Ok (ztake n (unread s)), set_position (s_position s + n) s).
Proof.
  intros Hs Hn. unfold rdp_stream_read_bytes.
  rewrite stream_remaining_unread by done.
  destruct (Z.ltb_spec (blen (unread s)) n) as [|Hle]; [done|].
  destruct Hs as [Hl Hp Hb]. unfold unread in *. rewrite blen_zdrop in Hle by lia.
  rewrite slice_ok by lia. done.
Qed.

Lemma rdp_stream_skip_spec n s :
  stream_wf s ->
  rdp_stream_skip n s =
    if blen (unread s) <? n then (Err LIBRDP_STATUS_PROTOCOL_ERROR, s)
    else (Ok tt, set_position (s_position s + n) s).
Proof. intros Hs. unfold rdp_stream_skip. by rewrite stream_remaining_unread. Qed.

Lemma rdp_stream_read_u8_spec s :
  stream_wf s ->
  rdp_stream_read_u8 s =
    match unread s with
    | [] => (Err LIBRDP_STATUS_PROTOCOL_ERROR, s)
    | b :: _ => (Ok b, set_position (s_position s + 1) s)
    end.
Proof.
  intros Hs. unfold rdp_stream_read_u8. rewrite stream_remaining_unread by done.
  destruct (unread s) as [|b l] eqn:E; [done|]. rewrite blen_cons.
  destruct (Z.ltb_spec (1 + blen l) 1); [zlen|]. f_equal.
  destruct Hs as [_ Hp _]. apply rd_lookup; [lia|].
  unfold unread, zdrop in E. rewrite <- (Nat.add_0_r (Z.to_nat _)).
  by rewrite <- lookup_drop, E.
Qed.

(** A successful read of [n] bytes. *)
Lemma read_bytes_inv n s l s' :
  stream_wf s -> 0 <= n -> rdp_stream_read_bytes n s = (Ok l, s') ->
  unread s = l ++ unread s' /\ blen l = n /\ stream_wf s' /\ bytes l.
Proof.
  intros Hs Hn. rewrite rdp_stream_read_bytes_spec by done.
  destruct (Z.ltb_spec (blen (unread s)) n) as [|Hle]; intros [= <- <-].
  rewrite unread_set_position, ztake_zdrop by done. repeat split_and.
  - done.
  - by apply blen_ztake.
  - apply set_position_wf; [done|]. rewrite stream_remaining_unread by done. lia.
  - by apply Forall_ztake, unread_bytes.
Qed.

Lemma read_bytes_err n s r s' :
  stream_wf s -> 0 <= n -> rdp_stream_read_bytes n s = (r, s') ->
  is_ok r = false -> r = Err LIBRDP_STATUS_PROTOCOL_ERROR /\ s' = s /\ blen (unread s) < n.
Proof.
  intros Hs Hn. rewrite rdp_stream_read_bytes_spec by done.
  destruct (Z.ltb_spec (blen (unread s)) n) as [|Hle]; intros [= <- <-]; done.
Qed.

Lemma blen_2 {A} (l : list A) : blen l = 2 -> exists a b, l = [a; b].
Proof.
  destruct l as [|a [|b [|c l]]]; intros H; rewrite ?blen_cons, ?blen_nil in H; zlen; eauto.
Qed.
Lemma blen_4 {A} (l : list A) : blen l = 4 -> exists a b c d, l = [a; b; c; d].
Proof.
  destruct l as [|a [|b [|c [|d [|e l]]]]]; intros H;
    rewrite ?blen_cons, ?blen_nil in H; zlen; eauto 10.
Qed.

(** The multi-byte readers take their bytes from the front of the unread ones. *)
Section read_ints.
Context (s : rdp_stream) (Hs : stream_wf s).

Local Ltac two :=
  destruct (rdp_stream_read_bytes 2 s) as [[l|st|] s1] eqn:E;
  [ destruct (read_bytes_inv 2 _ _ _ Hs ltac:(lia) E) as (Hu & Hl & Hw & Hb);
    destruct (blen_2 l Hl) as (p0 & p1 & ->);
    apply Forall_cons_1 in Hb as [? Hb]; apply Forall_cons_1 in Hb as [? Hb]
  | destruct (read_bytes_err 2 _ _ _ Hs ltac:(lia) E eq_refl) as (? & ? & ?)
  | destruct (read_bytes_err 2 _ _ _ Hs ltac:(lia) E eq_refl) as (? & ? & ?) ].
Local Ltac four :=
  destruct (rdp_stream_read_bytes 4 s) as [[l|st|] s1] eqn:E;
  [ destruct (read_bytes_inv 4 _ _ _ Hs ltac:(lia) E) as (Hu & Hl & Hw & Hb);
    destruct (blen_4 l Hl) as (p0 & p1 & p2 & p3 & ->);
    apply Forall_cons_1 in Hb as [? Hb]; apply Forall_cons_1 in Hb as [? Hb];
    apply Forall_cons_1 in Hb as [? Hb]; apply Forall_cons_1 in Hb as [? Hb]
  | destruct (read_bytes_err 4 _ _ _ Hs ltac:(lia) E eq_refl) as (? & ? & ?)
  | destruct (read_bytes_err 4 _ _ _ Hs ltac:(lia) E eq_refl) as (? & ? & ?) ].

Definition int_read (n : Z) (enc : Z -> list Z) (rng : Z -> Prop) (r : reader Z) : Prop :=
  (exists v s', r s = (Ok v, s') /\ unread s = enc v ++ unread s' /\ rng v /\ stream_wf s') \/
  (r s = (Err LIBRDP_STATUS_PROTOCOL_ERROR, s) /\ blen (unread s) < n).

Lemma read_u8_cases : int_read 1 (fun b => [b]) is_byte rdp_stream_read_u8.
Proof.
  unfold int_read. rewrite rdp_stream_read_u8_spec by done.
  pose proof (unread_bytes s Hs) as Hb.
  destruct (unread s) as [|b l] eqn:E.
  - right. split; [done|]. rewrite blen_nil. lia.
  - left. apply Forall_cons_1 in Hb as [? _]. eexists _, _. split; [done|].
    rewrite unread_set_position, E by done. split; [done|]. split; [done|].
    apply set_position_wf; [done|].
    rewrite stream_remaining_unread, E, blen_cons by done. zlen.
Qed.

Lemma read_u16_le_cases : int_read 2 le16 is_u16 rdp_stream_read_u16_le.
Proof.
  unfold int_read, rdp_stream_read_u16_le, mbind, M_bind. two; simplify_eq.
  - left. exists (val16 p0 p1), s1. split; [done|]. rewrite le16_val16 by done. eauto with wire.
  - right. by split.
Qed.
Lemma read_u16_be_cases : int_read 2 be16 is_u16 rdp_stream_read_u16_be.
Proof.
  unfold int_read, rdp_stream_read_u16_be, mbind, M_bind. two; simplify_eq.
  - left. exists (val16_be p0 p1), s1. split; [done|]. rewrite be16_val16 by done. eauto with wire.
  - right. by split.
Qed.
Lemma read_u32_le_cases : int_read 4 le32 is_u32 rdp_stream_read_u32_le.
Proof.
  unfold int_read, rdp_stream_read_u32_le, mbind, M_bind. four; simplify_eq.
  - left. exists (val32 p0 p1 p2 p3), s1. split; [done|]. rewrite le32_val32 by done. eauto with wire.
  - right. by split.
Qed.
Lemma read_u32_be_cases : int_read 4 be32 is_u32 rdp_stream_read_u32_be.
Proof.
  unfold int_read, rdp_stream_read_u32_be, mbind, M_bind. four; simplify_eq.
  - left. exists (val32_be p0 p1 p2 p3), s1. split; [done|]. rewrite be32_val32 by done. eauto with wire.
  - right. by split.
Qed.
End read_ints.

Lemma int_read_safe n enc rng r :
  (forall s, stream_wf s -> int_read s n enc rng r) -> Safe r rng.
Proof.
  intros H s Hs. destruct (H s Hs) as [(v & s' & E & Hu & ? & Hw)|(E & _)]; split; rewrite E; try done.
  - cbn. rewrite Hu, blen_app. pose proof (blen_nonneg (enc v)). lia.
  - cbn. by intros ? [= <-].
Qed.

#[export] Instance safe_read_u8 : Safe rdp_stream_read_u8 is_byte.
Proof. eapply int_read_safe, read_u8_cases. Qed.
#[export] Instance safe_read_u16_le : Safe rdp_stream_read_u16_le is_u16.
Proof. eapply int_read_safe, read_u16_le_cases. Qed.
#[export] Instance safe_read_u16_be : Safe rdp_stream_read_u16_be is_u16.
Proof. eapply int_read_safe, read_u16_be_cases. Qed.
#[export] Instance safe_read_u32_le : Safe rdp_stream_read_u32_le is_u32.
Proof. eapply int_read_safe, read_u32_le_cases. Qed.
#[export] Instance safe_read_u32_be : Safe rdp_stream_read_u32_be is_u32.
Proof. eapply int_read_safe, read_u32_be_cases. Qed.

Lemma safe_read_bytes n :
  0 <= n -> Safe (rdp_stream_read_bytes n) (fun l => blen l = n /\ bytes l).
Proof.
  intros Hn s Hs. pose proof (rdp_stream_read_bytes_spec n s Hs Hn) as E.
  destruct (Z.ltb_spec (blen (unread s)) n); split; rewrite E; try done; cbn.
  - apply set_position_wf; [done|]. rewrite stream_remaining_unread by done. lia.
  - rewrite blen_unread_advance by (done || lia). lia.
  - intros ? [= <-]. split; [by apply blen_ztake|]. by apply Forall_ztake, unread_bytes.
Qed.
Lemma safe_skip n : 0 <= n -> Safe (rdp_stream_skip n) (fun _ => True).
Proof.
  intros Hn s Hs. pose proof (rdp_stream_skip_spec n s Hs) as E.
  destruct (Z.ltb_spec (blen (unread s)) n); split; rewrite E; try done; cbn.
  - apply set_position_wf; [done|]. rewrite stream_remaining_unread by done. lia.
  - rewrite blen_unread_advance by (done || lia). lia.
Qed.

(** Inversion of a successful integer read. *)
Section read_invs.
Context (s s' : rdp_stream) (v : Z) (Hs : stream_wf s).
Local Ltac go cases :=
  intros E; destruct (cases s Hs) as [(v' & s1 & E' & H)|(E' & _)];
  rewrite E' in E; simplify_eq; tauto.

Lemma read_u8_inv : rdp_stream_read_u8 s = (Ok v, s') ->
  unread s = v :: unread s' /\ is_byte v /\ stream_wf s'.
Proof. go read_u8_cases. Qed.
Lemma read_u16_le_inv : rdp_stream_read_u16_le s = (Ok v, s') ->
  unread s = le16 v ++ unread s' /\ is_u16 v /\ stream_wf s'.
Proof. go read_u16_le_cases. Qed.
Lemma read_u16_be_inv : rdp_stream_read_u16_be s = (Ok v, s') ->
  unread s = be16 v ++ unread s' /\ is_u16 v /\ stream_wf s'.
Proof. go read_u16_be_cases. Qed.
Lemma read_u32_le_inv : rdp_stream_read_u32_le s = (Ok v, s') ->
  unread s = le32 v ++ unread s' /\ is_u32 v /\ stream_wf s'.
Proof. go read_u32_le_cases. Qed.
Lemma read_u32_be_inv : rdp_stream_read_u32_be s = (Ok v, s') ->
  unread s = be32 v ++ unread s' /\ is_u32 v /\ stream_wf s'.
Proof. go read_u32_be_cases. Qed.
End read_invs.

(** ** Parsing: what a reader returns on given bytes *)

(** On the unread bytes [inp] the reader [r] returns [a], leaving [rest]. *)
Definition Parses {A} (r : reader A) (inp rest : list Z) (a : A) : Prop :=
  forall s, stream_wf s -> unread s = inp ->
  exists s', r s = (Ok a, s') /\ stream_wf s' /\ unread s' = rest.

Section parses.
Context {A B : Type}.

Lemma parses_ret (a : A) l : Parses (mret a) l l a.
Proof. intros s Hs Hu. by exists s. Qed.

Lemma parses_ret_eq (a b : A) l : a = b -> Parses (mret a) l l b.
Proof. intros ->. apply parses_ret. Qed.

Lemma parses_bind (r : reader A) (k : A -> reader B) l1 l2 l3 a b :
  Parses r l1 l2 a -> Parses (k a) l2 l3 b -> Parses (r ≫= k) l1 l3 b.
Proof.
  intros Hr Hk s Hs Hu. destruct (Hr s Hs Hu) as (s1 & E1 & Hs1 & Hu1).
  destruct (Hk s1 Hs1 Hu1) as (s2 & E2 & Hs2 & Hu2).
  exists s2. by rewrite (bind_ok _ _ _ _ _ E1).
Qed.

Lemma parses_require c st l : c = true -> Parses (require c st) l l tt.
Proof. intros -> s Hs Hu. by exists s. Qed.

Lemma parses_lift (o : res A) l a : o = Ok a -> Parses (lift o) l l a.
Proof. intros -> s Hs Hu. by exists s. Qed.

Lemma parses_coerce (r : reader A) st l l' a : Parses r l l' a -> Parses (coerce st r) l l' a.
Proof.
  intros Hr s Hs Hu. destruct (Hr s Hs Hu) as (s1 & E1 & Hs1 & Hu1).
  exists s1. unfold coerce. by rewrite E1.
Qed.

Lemma parses_if_true (c : bool) (r1 r2 : reader A) l l' a :
  c = true -> Parses r1 l l' a -> Parses (if c then r1 else r2) l l' a.
Proof. by intros ->. Qed.
Lemma parses_if_false (c : bool) (r1 r2 : reader A) l l' a :
  c = false -> Parses r2 l l' a -> Parses (if c then r1 else r2) l l' a.
Proof. by intros ->. Qed.

(** A parser run on a local stream over exactly these bytes. *)
Lemma parses_with_stream (r : reader A) l l' a :
  bytes l -> Parses r l l' a -> with_stream (View l) r = Ok a.
Proof.
  intros Hb Hr. unfold with_stream.
  destruct (Hr (rdp_stream_init (View l))) as (s' & -> & _); [|done..].
  by apply stream_init_wf.
Qed.

Lemma parses_inv (r : reader A) l l' a s b s' :
  Parses r l l' a -> stream_wf s -> unread s = l -> r s = (Ok b, s') ->
  b = a /\ unread s' = l'.
Proof. intros Hr Hs Hu E. destruct (Hr s Hs Hu) as (s1 & E1 & _ & ?).
  rewrite E1 in E. by injection E as <- <-. Qed.
End parses.

(** On the unread bytes [inp] the reader [r] fails with the status [st]. *)
Definition Refuses {A} (r : reader A) (inp : list Z) (st : librdp_status) : Prop :=
  forall s, stream_wf s -> unread s = inp -> exists s', r s = (Err st, s').

Section refuses.
Context {A B : Type}.

Lemma refuses_bind (r : reader A) (k : A -> reader B) l1 l2 a st :
  Parses r l1 l2 a -> Refuses (k a) l2 st -> Refuses (r ≫= k) l1 st.
Proof.
  intros Hr Hk s Hs Hu. destruct (Hr s Hs Hu) as (s1 & E & Hs1 & Hu1).
  destruct (Hk s1 Hs1 Hu1) as [s2 E2]. exists s2. by rewrite (bind_ok _ _ _ _ _ E).
Qed.
Lemma refuses_head (r : reader A) (k : A -> reader B) l st : Refuses r l st -> Refuses (r ≫= k) l st.
Proof. intros Hr s Hs Hu. destruct (Hr s Hs Hu) as [s1 E]. exists s1. by rewrite (bind_err _ _ _ _ _ E). Qed.
Lemma refuses_require (c : bool) l st : c = false -> Refuses (require c st) l st.
Proof. intros -> s _ _. by exists s. Qed.
Lemma refuses_lift l st : Refuses (lift (@Err A st)) l st.
Proof. intros s _ _. by exists s. Qed.
Lemma refuses_with_stream (r : reader A) l st : bytes l -> Refuses r l st -> with_stream (View l) r = Err st.
Proof.
  intros Hb Hr. unfold with_stream. destruct (Hr (rdp_stream_init (View l))) as [s' ->]; [by apply stream_init_wf|done|done].
Qed.
End refuses.

Lemma parses_remaining l : Parses rdp_stream_remaining l l (blen l).
Proof.
  intros s Hs Hu. exists s. split; [|done]. unfold rdp_stream_remaining, gets.
  by rewrite stream_remaining_unread, Hu.
Qed.

Lemma parses_read_u8 b rest : Parses rdp_stream_read_u8 (b :: rest) rest b.
Proof.
  intros s Hs Hu. destruct (read_u8_cases s Hs) as [(v & s1 & E & Hu1 & _ & Hw)|[_ H]].
  - rewrite Hu in Hu1. injection Hu1 as -> ->. eauto.
  - rewrite Hu, blen_cons in H. zlen.
Qed.

Lemma parses_read_bytes n l rest :
  blen l = n -> Parses (rdp_stream_read_bytes n) (l ++ rest) rest l.
Proof.
  intros <- s Hs Hu.
  rewrite rdp_stream_read_bytes_spec; [|done|apply blen_nonneg].
  rewrite Hu, blen_app. destruct (Z.ltb_spec (blen l + blen rest) (blen l)); [zlen|].
  rewrite ztake_app_blen. eexists. split; [done|]. split.
  - apply set_position_wf; [done|]. rewrite stream_remaining_unread, Hu by done. zlen.
  - rewrite unread_set_position, Hu by (done || apply blen_nonneg). apply zdrop_app_blen.
Qed.

Lemma parses_skip n l rest : blen l = n -> Parses (rdp_stream_skip n) (l ++ rest) rest tt.
Proof.
  intros <- s Hs Hu. rewrite rdp_stream_skip_spec by done.
  rewrite Hu, blen_app. destruct (Z.ltb_spec (blen l + blen rest) (blen l)); [zlen|].
  eexists. split; [done|]. split.
  - apply set_position_wf; [done|]. rewrite stream_remaining_unread, Hu by done. zlen.
  - rewrite unread_set_position, Hu by (done || apply blen_nonneg). apply zdrop_app_blen.
Qed.

Section parses_ints.
Context (v : Z) (rest : list Z).

Local Ltac go lem :=
  intros ?; eapply parses_bind;
  [by apply parses_read_bytes|];
  intros s Hs Hu; eexists; split; [cbv [mbind M_bind lift mret M_ret]; rd_eval; by rewrite lem|done].

Lemma parses_read_u16_le : is_u16 v -> Parses rdp_stream_read_u16_le (le16 v ++ rest) rest v.
Proof. go val16_le16. Qed.
Lemma parses_read_u16_be : is_u16 v -> Parses rdp_stream_read_u16_be (be16 v ++ rest) rest v.
Proof. go val16_be16. Qed.
Lemma parses_read_u32_le : is_u32 v -> Parses rdp_stream_read_u32_le (le32 v ++ rest) rest v.
Proof. go val32_le32. Qed.
Lemma parses_read_u32_be : is_u32 v -> Parses rdp_stream_read_u32_be (be32 v ++ rest) rest v.
Proof. go val32_be32. Qed.
End parses_ints.

Create HintDb parses.
#[export] Hint Resolve parses_ret parses_require parses_coerce parses_remaining
  parses_read_u8 parses_read_bytes parses_skip parses_read_u16_le parses_read_u16_be
  parses_read_u32_le parses_read_u32_be : parses.

(** ** Inversion of a successful parse *)

Lemma remaining_inv s n s' :
  stream_wf s -> rdp_stream_remaining s = (Ok n, s') -> n = blen (unread s) /\ s' = s.
Proof.
  intros Hs. unfold rdp_stream_remaining, gets. rewrite stream_remaining_unread by done.
  by intros [= <- <-].
Qed.

Lemma skip_inv n s s' u :
  stream_wf s -> 0 <= n -> rdp_stream_skip n s = (Ok u, s') ->
  exists l, unread s = l ++ unread s' /\ blen l = n /\ stream_wf s'.
Proof.
  intros Hs Hn. rewrite rdp_stream_skip_spec by done.
  destruct (Z.ltb_spec (blen (unread s)) n) as [|Hle]; intros [= <- <-].
  exists (ztake n (unread s)). rewrite unread_set_position, ztake_zdrop by done.
  split; [done|]. split; [by apply blen_ztake|].
  apply set_position_wf; [done|]. rewrite stream_remaining_unread by done. lia.
Qed.

Lemma with_stream_Ok_inv {A} v (r : reader A) a :
  with_stream v r = Ok a -> exists s', r (rdp_stream_init v) = (Ok a, s').
Proof.
  unfold with_stream. destruct (r (rdp_stream_init v)) as [o s'] eqn:E. cbn.
  intros ->. eauto.
Qed.

Lemma with_stream_safe {A} v (r : reader A) (P : A -> Prop) :
  Safe r P -> bytes (view_bytes v) ->
  with_stream v r <> Fault /\ forall a, with_stream v r = Ok a -> P a.
Proof. intros Hr Hb. by destruct (Hr _ (stream_init_wf v Hb)) as [????]. Qed.

(** Walk through a parser body, keeping the facts each guard and read gives. *)
Ltac safe_step :=
  cbv beta;
  lazymatch goal with
  | |- Safe (mret _) _ => apply safe_ret
  | |- Safe (fail _) _ => apply safe_fail
  | |- Safe (coerce _ _) _ => apply safe_coerce
  | |- Safe (if _ then _ else _) _ => apply safe_if; intros ?
  | |- Safe (let _ := _ in _) _ => cbv zeta
  | |- Safe (lift ?o ≫= _) _ =>
      eapply (safe_bind _ _ (fun a => o = Ok a)); [apply safe_lift; [|by intros]|intros ? ?]
  | |- Safe (rdp_stream_read_bytes _ ≫= _) _ =>
      eapply safe_bind; [apply safe_read_bytes; try guard_lia|intros ? [? ?]]
  | |- Safe (rdp_stream_skip _ ≫= _) _ =>
      eapply safe_bind; [apply safe_skip; try guard_lia|intros ? _]
  | |- Safe ((if _ then _ else _) ≫= _) _ => fail
  | |- Safe (_ ≫= _) _ => eapply safe_bind; [solve [typeclasses eauto]|intros ? ?]
  end.

(** Invert every primitive read among the hypotheses. *)
Ltac read_inv :=
  match goal with
  | E : rdp_stream_read_u8 ?s = (Ok ?v, ?s'), W : stream_wf ?s |- _ =>
      apply (read_u8_inv s s' v W) in E as (? & ? & ?)
  | E : rdp_stream_read_u16_le ?s = (Ok ?v, ?s'), W : stream_wf ?s |- _ =>
      apply (read_u16_le_inv s s' v W) in E as (? & ? & ?)
  | E : rdp_stream_read_u16_be ?s = (Ok ?v, ?s'), W : stream_wf ?s |- _ =>
      apply (read_u16_be_inv s s' v W) in E as (? & ? & ?)
  | E : rdp_stream_read_u32_le ?s = (Ok ?v, ?s'), W : stream_wf ?s |- _ =>
      apply (read_u32_le_inv s s' v W) in E as (? & ? & ?)
  | E : rdp_stream_read_u32_be ?s = (Ok ?v, ?s'), W : stream_wf ?s |- _ =>
      apply (read_u32_be_inv s s' v W) in E as (? & ? & ?)
  | E : rdp_stream_remaining ?s = (Ok ?v, ?s'), W : stream_wf ?s |- _ =>
      apply (remaining_inv s v s' W) in E as [-> ->]
  | E : require _ _ _ = (Ok _, _) |- _ => apply require_Ok_inv in E as [? ->]
  | E : lift _ _ = (Ok _, _) |- _ => apply lift_Ok_inv in E as [? ->]
  | E : coerce _ _ _ = (Ok _, _) |- _ => apply coerce_Ok_inv in E
  | E : mret _ _ = (Ok _, _) |- _ => injection E as ? ?; subst
  | E : fail _ _ = (Ok _, _) |- _ => discriminate E
  end.

(** Invert a whole successful parse [H : r s = (Ok a, s')], and chain the
    equations between the unread bytes before and after each read. *)
Ltac unread_chain :=
  repeat match goal with
  | E : unread ?s = _, F : unread ?s0 = ?r |- _ =>
      lazymatch r with context [unread s] => rewrite E in F; clear E end
  end.
Ltac parse_inv H :=
  repeat (run_step H; try read_inv); try read_inv; unread_chain; bool_prop.

(** Start from [with_stream (View d) r = Ok a]. *)
Lemma with_view_Ok_inv {A} d (r : reader A) a :
  bytes d -> with_stream (View d) r = Ok a ->
  exists s s', stream_wf s /\ unread s = d /\ r s = (Ok a, s').
Proof.
  intros Hb [s' H]%with_stream_Ok_inv. exists (rdp_stream_init (View d)), s'.
  split; [by apply stream_init_wf|]. split; [apply unread_init|exact H].
Qed.

(** One step of a parse of given bytes; side conditions are left to [guard_lia]. *)
Ltac pstep :=
  cbv beta;
  lazymatch goal with
  | |- Parses (mret _) _ _ _ => apply parses_ret
  | |- Parses (require _ _ ≫= _) _ _ _ =>
      eapply parses_bind; [apply parses_require; try guard_lia|]
  | |- Parses (lift _ ≫= _) _ _ _ => eapply parses_bind; [apply parses_lift|]
  | |- Parses (rdp_stream_remaining ≫= _) _ _ _ =>
      eapply parses_bind; [apply parses_remaining|]
  | |- Parses (rdp_stream_read_u8 ≫= _) _ _ _ =>
      eapply parses_bind; [apply parses_read_u8|]
  | |- Parses (rdp_stream_read_u16_le ≫= _) _ _ _ =>
      eapply parses_bind; [apply parses_read_u16_le; try guard_lia|]
  | |- Parses (rdp_stream_read_u16_be ≫= _) _ _ _ =>
      eapply parses_bind; [apply parses_read_u16_be; try guard_lia|]
  | |- Parses (rdp_stream_read_u32_le ≫= _) _ _ _ =>
      eapply parses_bind; [apply parses_read_u32_le; try guard_lia|]
  | |- Parses (rdp_stream_read_u32_be ≫= _) _ _ _ =>
      eapply parses_bind; [apply parses_read_u32_be; try guard_lia|]
  | |- Parses (rdp_stream_read_bytes _ ≫= _) _ _ _ =>
      eapply parses_bind; [apply parses_read_bytes; try guard_lia|]
  | |- Parses (rdp_stream_skip _ ≫= _) _ _ _ =>
      eapply parses_bind; [apply parses_skip; try guard_lia|]
  | |- Parses (coerce _ _ ≫= _) _ _ _ =>
      eapply parses_bind; [apply parses_coerce|]
  end.

(** ** Properties *)

(** C35: the stream refines the list of its unread bytes: every integer reader
    takes its bytes off the front and returns their value in the order it is
    named for, a block read or a skip of [n] takes [n] bytes, and when too few
    are left each of them returns PROTOCOL_ERROR and leaves the stream as it
    was; the stream stays well formed, so nothing is ever read outside it. *)
Theorem stream_refines_list s n :
  stream_wf s -> is_size n ->
  let s1 := set_position (s_position s + n) s in
  (int_read s 1 (fun b => [b]) is_byte rdp_stream_read_u8 /\
   int_read s 2 le16 is_u16 rdp_stream_read_u16_le /\
   int_read s 2 be16 is_u16 rdp_stream_read_u16_be /\
   int_read s 4 le32 is_u32 rdp_stream_read_u32_le /\
   int_read s 4 be32 is_u32 rdp_stream_read_u32_be) /\
  rdp_stream_remaining s = (Ok (blen (unread s)), s) /\
  (n <= blen (unread s) ->
   rdp_stream_read_bytes n s = (Ok (ztake n (unread s)), s1) /\
   rdp_stream_skip n s = (Ok tt, s1) /\ stream_wf s1 /\ unread s1 = zdrop n (unread s)) /\
  (blen (unread s) < n ->
   rdp_stream_read_bytes n s = (Err LIBRDP_STATUS_PROTOCOL_ERROR, s) /\
   rdp_stream_skip n s = (Err LIBRDP_STATUS_PROTOCOL_ERROR, s)).
Proof.
  intros Hs [Hn _] s1. split.
  { split; [|split; [|split; [|split]]];
      auto using read_u8_cases, read_u16_le_cases, read_u16_be_cases, read_u32_le_cases,
        read_u32_be_cases. }
  unfold rdp_stream_remaining, gets. pose proof (stream_remaining_unread s Hs) as Hr.
  rewrite rdp_stream_read_bytes_spec, rdp_stream_skip_spec, Hr by done. split; [done|].
  split; intros Hlt; destruct (Z.ltb_spec (blen (unread s)) n); try lia; [|done].
  split; [done|]. split; [done|]. split; [apply set_position_wf; [done|lia]|].
  by apply unread_set_position.
Qed.

Lemma stream_refines_list_witness :
  let s := rdp_stream_init (View [1; 2; 3; 4; 5]) in
  (exists s1, rdp_stream_read_u32_be s = (Ok 0x01020304, s1)) /\
  rdp_stream_read_bytes 6 s = (Err LIBRDP_STATUS_PROTOCOL_ERROR, s).
Proof.
  destruct (stream_refines_list (rdp_stream_init (View [1; 2; 3; 4; 5])) 6) as (_ & _ & _ & Herr).
  - apply stream_init_wf. apply (bool_decide_unpack _). vm_compute. reflexivity.
  - split; vm_compute; discriminate.
  - split; [eexists; vm_compute; reflexivity|]. apply Herr. vm_compute. reflexivity.
Defined.
