(* ===== verification/Buffer.v ===== *)
(** * Buffer: the growable byte buffer

    Models [src/src/common/buffer.c] and [buffer.h]: the record [rdp_buffer],
    its representation check, growth by doubling, and appends (from memory
    outside the buffer and from inside the buffer itself).  Allocation outcomes
    are an input: a heap is the list of the outcomes of the next
    malloc/calloc/realloc calls, and when the list is exhausted allocation
    succeeds.

    The interface the encoders are verified against is [Writes w l P]: [w]
    appends exactly the bytes [l], or runs out of memory after a prefix of
    them. *)

From S2P Require Import Prelude.

Record rdp_buffer := mk_rdp_buffer {
  b_data : option (list Z);   (** the allocated block, [None] for NULL *)
  b_length : Z;
  b_capacity : Z;
}.

Definition heap : Type := list bool.

(** The outcome of one allocation call. *)
Definition heap_alloc (h : heap) : bool * heap :=
  match h with [] => (true, []) | ok :: h' => (ok, h') end.

Definition wstate : Type := rdp_buffer * heap.
Abbreviation writer := (M wstate).

(** ** Operations *)

Definition rdp_buffer_state_valid (b : rdp_buffer) : bool :=
  if b_capacity b <? b_length b then false
  else Bool.eqb (match b_data b with None => true | Some _ => false end)
                (b_capacity b =? 0).

Definition rdp_buffer_init : rdp_buffer :=
  {| b_data := None; b_length := 0; b_capacity := 0 |}.

Definition rdp_buffer_free (b : rdp_buffer) : rdp_buffer :=
  {| b_data := None; b_length := 0; b_capacity := 0 |}.

(** The doubling loop of [rdp_buffer_reserve]; 65 iterations are enough for a
    64-bit size. *)
Fixpoint reserve_loop (fuel : nat) (next capacity : Z) : res Z :=
  match fuel with
  | O => Fault
  | S fuel =>
      if next <? capacity then
        if SIZE_MAX / 2 <? next then Err LIBRDP_STATUS_NO_MEMORY
        else reserve_loop fuel (size_t (next * 2)) capacity
      else Ok next
  end.
Definition reserve_fuel : nat := 65.

Definition set_block (blk : list Z) (cap : Z) (b : rdp_buffer) : rdp_buffer :=
  {| b_data := Some blk; b_length := b_length b; b_capacity := cap |}.
Definition set_length (n : Z) (b : rdp_buffer) : rdp_buffer :=
  {| b_data := b_data b; b_length := n; b_capacity := b_capacity b |}.

Definition block (b : rdp_buffer) : list Z := default [] (b_data b).

(** realloc: the old cells are kept; the new ones are indeterminate in C and
    are zero here, beyond [length] and so outside every statement. *)
Definition realloc (old : list Z) (size : Z) : list Z :=
  ztake size old ++ replicate (Z.to_nat (size - blen old)) 0.

Definition get_buffer : writer rdp_buffer := gets fst.
Definition put_buffer (b : rdp_buffer) : writer unit := modify (fun s => (b, s.2)).
Definition alloc : writer unit := fun s =>
  let '(ok, h) := heap_alloc s.2 in
  if ok then (Ok tt, (s.1, h)) else (Err LIBRDP_STATUS_NO_MEMORY, (s.1, h)).

Definition rdp_buffer_reserve (capacity : Z) : writer unit :=
  b ← get_buffer;
  require (rdp_buffer_state_valid b) LIBRDP_STATUS_INVALID_ARGUMENT;;
  if capacity <=? b_capacity b then mret tt else
  next ← lift (reserve_loop reserve_fuel
                 (if b_capacity b =? 0 then 64 else b_capacity b) capacity);
  alloc;;
  put_buffer (set_block (realloc (block b) next) next b).

(** Where the bytes of an append come from: a caller's object, or [len] bytes
    at offset [off] of the buffer's own block. *)
Inductive source : Type :=
| Outside (v : view)
| Inside (off len : Z).

Definition source_null (b : rdp_buffer) (src : source) : bool :=
  match src with
  | Outside v => view_null v
  | Inside _ _ => match b_data b with None => true | Some _ => false end
  end.
Definition source_len (src : source) : Z :=
  match src with Outside v => view_len v | Inside _ len => len end.

(** The address-range test of the source ([source >= base && source < capacity_end]). *)
Definition source_in_buffer (b : rdp_buffer) (src : source) : option Z :=
  match src, b_data b with
  | Inside off _, Some _ =>
      if (0 <? b_capacity b) && (0 <=? off) && (off <? b_capacity b) then Some off else None
  | _, _ => None
  end.

(** The bytes the append copies, after the checks on an aliased source. *)
Definition source_snapshot (b : rdp_buffer) (src : source) : writer (list Z) :=
  let length := source_len src in
  match source_in_buffer b src with
  | Some off =>
      require (length <=? b_capacity b - off) LIBRDP_STATUS_INVALID_ARGUMENT;;
      if 0 <? length then alloc;; lift (slice (block b) off length) else mret []
  | None =>
      match src with
      | Outside v => mret (view_bytes v)
      | Inside off len => if len =? 0 then mret [] else lift Fault
      end
  end.

(** Make room, copy, and publish the new length. *)
Definition append_store (b : rdp_buffer) (length : Z) (data : list Z) : writer unit :=
  rdp_buffer_reserve (b_length b + length);;
  b' ← get_buffer;
  (if 0 <? length
   then blk ← lift (write_at (block b') (b_length b') data);
        put_buffer (set_block blk (b_capacity b') b')
   else mret tt);;
  b'' ← get_buffer;
  put_buffer (set_length (b_length b'' + length) b'').

Definition rdp_buffer_append_from (src : source) : writer unit :=
  b ← get_buffer;
  let length := source_len src in
  require (rdp_buffer_state_valid b && negb (source_null b src && (0 <? length)))
    LIBRDP_STATUS_INVALID_ARGUMENT;;
  require (length <=? SIZE_MAX - b_length b) LIBRDP_STATUS_NO_MEMORY;;
  data ← source_snapshot b src;
  append_store b length data.

Definition rdp_buffer_append (v : view) : writer unit := rdp_buffer_append_from (Outside v).

Definition rdp_buffer_append_u8 (value : Z) : writer unit := rdp_buffer_append (View [value]).
Definition rdp_buffer_append_u16_le (value : Z) : writer unit := rdp_buffer_append (View (le16 value)).
Definition rdp_buffer_append_u16_be (value : Z) : writer unit := rdp_buffer_append (View (be16 value)).
Definition rdp_buffer_append_u32_le (value : Z) : writer unit := rdp_buffer_append (View (le32 value)).
Definition rdp_buffer_append_u32_be (value : Z) : writer unit := rdp_buffer_append (View (be32 value)).

Definition rdp_buffer_consume (length : Z) : writer unit :=
  b ← get_buffer;
  require (rdp_buffer_state_valid b && (length <=? b_length b))
    LIBRDP_STATUS_INVALID_ARGUMENT;;
  (if 0 <? length
   then tail ← lift (slice (block b) length (b_length b - length));
        blk ← lift (write_at (block b) 0 tail);
        put_buffer (set_block blk (b_capacity b) b)
   else mret tt);;
  b' ← get_buffer;
  put_buffer (set_length (b_length b' - length) b').

(** What callers do to the bytes of a buffer directly: [memcpy(buffer->data + off, l, n)]. *)
Definition store_bytes (off : Z) (l : list Z) : writer unit :=
  if blen l =? 0 then mret tt
  else
    b ← get_buffer;
    blk ← lift (write_at (block b) off l);
    put_buffer (set_block blk (b_capacity b) b).

(** [rdp_buffer_reserve(&output, size); output.length = size;] *)
Definition resize (size : Z) : writer unit :=
  rdp_buffer_reserve size;;
  b ← get_buffer;
  put_buffer (set_length size b).

(** A buffer local to a function: [rdp_buffer_init(&tmp); body; ...
    rdp_buffer_free(&tmp)].  It shares the heap with the caller's buffer. *)
Definition with_local_buffer {A} (body : writer A) : writer (A * rdp_buffer) := fun s =>
  match body (rdp_buffer_init, s.2) with
  | (Ok a, (tmp, h)) => (Ok (a, tmp), (s.1, h))
  | (Err st, (_, h)) => (Err st, (s.1, h))
  | (Fault, (_, h)) => (Fault, (s.1, h))
  end.

(** The [(buffer.data, buffer.length)] argument pair. *)
Definition buffer_view (b : rdp_buffer) : view :=
  match b_data b with
  | None => NullView (b_length b)
  | Some blk => View (ztake (b_length b) blk)
  end.

(** [start = buffer->length; ...; if (status != OK) buffer->length = start;] *)
Definition restore_on_error {A} (m : writer A) : writer A := fun s =>
  match m s with
  | (Err st, (b, h)) => (Err st, (set_length (b_length s.1) b, h))
  | r => r
  end.

(** ** The representation invariant and the abstraction *)

Record buffer_wf (b : rdp_buffer) : Prop := {
  buffer_wf_valid : rdp_buffer_state_valid b = true;
  buffer_wf_block : blen (block b) = b_capacity b;
  buffer_wf_length : 0 <= b_length b;
  buffer_wf_capacity : b_capacity b <= SIZE_MAX;
}.

(** The abstract value: the bytes written so far. *)
Definition contents (b : rdp_buffer) : list Z := ztake (b_length b) (block b).

(** ** The writer interface *)

(** [Writes w l P]: from any well-formed buffer and any heap, [w] either
    succeeds having appended exactly [l], with a result satisfying [P], or
    returns NO_MEMORY having appended a prefix of [l]; the second is excluded
    when allocation succeeds and the result is at most 2^63 bytes long. *)
Definition Writes {A} (w : writer A) (l : list Z) (P : A -> Prop) : Prop :=
  forall b h, buffer_wf b ->
  exists r b' h', w (b, h) = (r, (b', h')) /\ buffer_wf b' /\
    ((exists a, r = Ok a /\ P a /\ contents b' = contents b ++ l) \/
     (r = Err LIBRDP_STATUS_NO_MEMORY /\
      exists n, contents b' = contents b ++ take n l)) /\
    (h = [] -> b_length b + blen l <= 2 ^ 63 -> is_ok r = true /\ h' = []).

(** The same for a writer that rolls its output back when it fails. *)
Definition WritesAtomic {A} (w : writer A) (l : list Z) (P : A -> Prop) : Prop :=
  forall b h, buffer_wf b ->
  exists r b' h', w (b, h) = (r, (b', h')) /\ buffer_wf b' /\
    ((exists a, r = Ok a /\ P a /\ contents b' = contents b ++ l) \/
     (r = Err LIBRDP_STATUS_NO_MEMORY /\ contents b' = contents b)) /\
    (h = [] -> b_length b + blen l <= 2 ^ 63 -> is_ok r = true /\ h' = []).

(** A rejected call: the status is returned and the buffer is untouched. *)
Definition Rejects {A} (w : writer A) (st : librdp_status) : Prop :=
  forall b h, buffer_wf b -> w (b, h) = (Err st, (b, h)).

(** ** Lemmas *)

Lemma state_valid_iff b :
  rdp_buffer_state_valid b = true <->
  b_length b <= b_capacity b /\ (b_data b = None <-> b_capacity b = 0).
Proof.
  unfold rdp_buffer_state_valid.
  destruct (Z.ltb_spec (b_capacity b) (b_length b)).
  { split; [done|lia]. }
  rewrite Bool.eqb_true_iff.
  destruct (b_data b), (Z.eqb_spec (b_capacity b) 0); split;
    intros; try done; repeat split; try done; naive_solver lia.
Qed.

Lemma buffer_init_wf : buffer_wf rdp_buffer_init.
Proof. by split. Qed.

Lemma contents_init : contents rdp_buffer_init = [].
Proof. done. Qed.

Lemma blen_contents b : buffer_wf b -> blen (contents b) = b_length b.
Proof.
  intros [Hv Hb Hl Hc]. apply state_valid_iff in Hv as [Hle _].
  unfold contents. apply blen_ztake. lia.
Qed.

Lemma buffer_length_max b : buffer_wf b -> b_length b <= SIZE_MAX.
Proof. intros [Hv _ _ Hc]. apply state_valid_iff in Hv as [Hle _]. lia. Qed.

Lemma reserve_loop_spec fuel next cap :
  0 < next <= SIZE_MAX -> SIZE_MAX < next * 2 ^ Z.of_nat fuel ->
  (exists k, 0 <= k /\ reserve_loop (S fuel) next cap = Ok (next * 2 ^ k) /\
     cap <= next * 2 ^ k <= SIZE_MAX /\ (k = 0 \/ next * 2 ^ k < 2 * cap)) \/
  (reserve_loop (S fuel) next cap = Err LIBRDP_STATUS_NO_MEMORY /\ 2 ^ 63 < cap /\
     forall k, 0 <= k -> next * 2 ^ k <= SIZE_MAX -> next * 2 ^ k < cap).
Proof.
  assert (HS : SIZE_MAX / 2 = 2 ^ 63 - 1) by done.
  revert next. induction fuel as [|fuel IH]; intros next Hn Hf.
  { cbn in Hf. lia. }
  remember (S fuel) as f eqn:Ef. cbn [reserve_loop]. rewrite HS.
  destruct (Z.ltb_spec next cap).
  2: { left. exists 0. split; [lia|]. split; [by rewrite Z.mul_1_r|]. lia. }
  assert (Hdouble : forall k, 1 <= k -> next * 2 ^ k = next * 2 * 2 ^ (k - 1)).
  { intros k Hk. replace k with (1 + (k - 1)) at 1 by lia. rewrite Z.pow_add_r by lia. ring. }
  destruct (Z.ltb_spec (2 ^ 63 - 1) next).
  { right. split; [done|]. split; [lia|]. intros k Hk Hle. destruct (Z.eq_dec k 0) as [->|]; [lia|]. rewrite Hdouble in * by lia.
    pose proof (Z.pow_pos_nonneg 2 (k - 1) ltac:(lia) ltac:(lia)). unfold SIZE_MAX in Hle. nia. }
  assert (Hsz : size_t (next * 2) = next * 2).
  { unfold size_t. apply Z.mod_small. unfold SIZE_MAX in *. lia. }
  rewrite Hsz. destruct (IH (next * 2)) as [(k & Hk & E & Hb & Hm)|(E & Hc & Hno)].
  - unfold SIZE_MAX. lia.
  - rewrite Ef, Nat2Z.inj_succ, Z.pow_succ_r in Hf by lia. lia.
  - left. exists (Z.succ k). rewrite Z.pow_succ_r by lia.
    replace (next * (2 * 2 ^ k)) with (next * 2 * 2 ^ k) by ring.
    split; [lia|]. split; [done|]. split; [done|]. right.
    destruct Hm as [-> |]; [|done]. rewrite Z.mul_1_r in *. lia.
  - right. split; [done|]. split; [done|]. intros k Hk. destruct (Z.eq_dec k 0) as [->|]; [lia|].
    rewrite Hdouble by lia. apply Hno. lia.
Qed.

Lemma blen_realloc old size : blen old <= size -> blen (realloc old size) = size.
Proof.
  intros. unfold realloc. rewrite ztake_all by done.
  rewrite blen_app, blen_replicate. lia.
Qed.

Lemma ztake_realloc old size n :
  n <= blen old -> blen old <= size -> ztake n (realloc old size) = ztake n old.
Proof.
  intros. unfold realloc. rewrite (ztake_all size) by done.
  unfold ztake, blen in *. apply take_app_le. lia.
Qed.

(** Growth: enough room, the same contents, and a minimal doubling. *)
Lemma rdp_buffer_reserve_spec b h n :
  buffer_wf b ->
  exists r b' h', rdp_buffer_reserve n (b, h) = (r, (b', h')) /\ buffer_wf b' /\
    contents b' = contents b /\ b_length b' = b_length b /\
    ((r = Ok tt /\ n <= b_capacity b') \/ (r = Err LIBRDP_STATUS_NO_MEMORY /\ b' = b)) /\
    (h = [] -> n <= 2 ^ 63 -> r = Ok tt /\ h' = []).
Proof.
  intros Hwf. pose proof Hwf as [Hv Hb Hl Hc].
  apply state_valid_iff in Hv as Hv'. destruct Hv' as [Hle Hnull].
  unfold rdp_buffer_reserve, get_buffer, gets, mbind, M_bind. cbn [fst].
  rewrite Hv. cbn [require mret M_ret].
  destruct (Z.leb_spec n (b_capacity b)).
  { exists (Ok tt), b, h. split; [done|]. naive_solver. }
  set (start := if b_capacity b =? 0 then 64 else b_capacity b).
  assert (Hstart : 0 < start <= SIZE_MAX /\ b_capacity b <= start).
  { unfold start, SIZE_MAX in *. destruct (Z.eqb_spec (b_capacity b) 0); lia. }
  unfold lift, reserve_fuel.
  destruct (reserve_loop_spec 64 start n) as [(k & Hk & -> & Hfit & _)|(-> & Hbig & _)];
    [lia| | |].
  { unfold SIZE_MAX. change (Z.of_nat 64) with 64. lia. }
  - set (next := start * 2 ^ k) in *.
    assert (Hge : b_capacity b <= next) by lia.
    unfold alloc. cbn [snd fst].
    destruct (heap_alloc h) as [ok h'] eqn:Eh. destruct ok.
    + eexists _, _, _. split; [done|]. cbn.
      assert (Hblk : blen (realloc (block b) next) = next) by (apply blen_realloc; lia).
      assert (Hcont : contents (set_block (realloc (block b) next) next b) = contents b).
      { unfold contents. cbn. apply ztake_realloc; lia. }
      split; [split; cbn; try done; try lia|].
      { apply state_valid_iff. cbn. split; [lia|]. split; [done|lia]. }
      split; [done|]. split; [done|]. split; [left; split; [done|lia]|].
      intros ->. by injection Eh as <-.
    + exists (Err LIBRDP_STATUS_NO_MEMORY), b, h'. split; [done|].
      split; [done|]. split; [done|]. split; [done|]. split; [by right|].
      intros ->. done.
  - exists (Err LIBRDP_STATUS_NO_MEMORY), b, h. split; [done|].
    split; [done|]. split; [done|]. split; [done|]. split; [by right|]. lia.
Qed.

(** Storing [data] after the contents of a buffer with room for it. *)
Lemma store_contents b data :
  buffer_wf b -> b_length b + blen data <= b_capacity b ->
  exists blk, write_at (block b) (b_length b) data = Ok blk /\
    blen blk = b_capacity b /\
    ztake (b_length b + blen data) blk = contents b ++ data.
Proof.
  intros Hwf Hroom. pose proof (blen_contents b Hwf) as Hlen.
  destruct Hwf as [Hv Hb Hl Hc]. pose proof (blen_nonneg data).
  assert (E : write_at (block b) (b_length b) data
    = Ok (contents b ++ data ++ zdrop (b_length b + blen data) (block b))).
  { rewrite write_at_ok by lia. done. }
  eexists. split; [exact E|]. split.
  - by rewrite (blen_write_at _ _ _ _ E).
  - rewrite app_assoc. rewrite <- Hlen, <- blen_app. apply ztake_app_blen.
Qed.

Lemma append_store_spec b h data n :
  buffer_wf b -> blen data = n -> b_length b + n <= SIZE_MAX ->
  exists r b' h', append_store b n data (b, h) = (r, (b', h')) /\ buffer_wf b' /\
    ((r = Ok tt /\ contents b' = contents b ++ data) \/
     (r = Err LIBRDP_STATUS_NO_MEMORY /\ b' = b)) /\
    (h = [] -> b_length b + n <= 2 ^ 63 -> r = Ok tt /\ h' = []).
Proof.
  intros Hwf Hn Hmax. pose proof (blen_nonneg data) as Hn0.
  unfold append_store.
  destruct (rdp_buffer_reserve_spec b h (b_length b + n) Hwf)
    as (r & b1 & h1 & E & Hwf1 & Hcont & Hlen & [[-> Hcap]|[-> ->]] & Hok).
  2: { rewrite (bind_err _ _ _ _ _ E). exists (Err LIBRDP_STATUS_NO_MEMORY), b, h1.
       split; [done|]. split; [done|]. split; [by right|]. intros ? Hb.
       destruct (Hok ltac:(done) Hb). done. }
  rewrite (bind_ok _ _ _ _ _ E).
  destruct (store_contents b1 data Hwf1 ltac:(lia)) as (blk & Ew & Hblk & Hd).
  rewrite Hlen in Hd. unfold get_buffer, put_buffer, gets, modify, mbind, M_bind, lift.
  cbn [fst snd].
  destruct (Z.ltb_spec 0 n) as [Hpos|Hz].
  - rewrite Ew. eexists _, _, _. split; [done|]. cbn [b_length set_block].
    destruct Hwf1 as [Hv1 Hb1 Hl1 Hc1]. apply state_valid_iff in Hv1 as [Hle1 Hnull1].
    split; [split; cbn; try done; try lia|].
    { apply state_valid_iff. cbn. split; [lia|]. split; [done|lia]. }
    split; [|naive_solver]. left. split; [done|].
    unfold contents at 1. cbn. by rewrite Hlen, <- Hn, Hd, Hcont.
  - assert (data = []) as -> by (apply blen_0_nil; lia).
    eexists _, _, _. split; [done|]. replace n with 0 by lia. rewrite Z.add_0_r.
    split; [by destruct Hwf1|]. split; [|naive_solver].
    left. split; [done|]. rewrite app_nil_r, <- Hcont. done.
Qed.

Lemma bind_get_buffer {A} (k : rdp_buffer -> writer A) b h :
  (get_buffer ≫= k) (b, h) = k b (b, h).
Proof. done. Qed.

(** The common part of every append: the two guards and the store. *)
Lemma append_from_spec src data b h :
  buffer_wf b -> blen data = source_len src ->
  source_null b src && (0 <? source_len src) = false ->
  (forall h', exists h'', source_snapshot b src (b, h') = (Ok data, (b, h'')) /\
                          (h' = [] -> h'' = [])) ->
  exists r b' h', rdp_buffer_append_from src (b, h) = (r, (b', h')) /\ buffer_wf b' /\
    ((r = Ok tt /\ contents b' = contents b ++ data) \/
     (r = Err LIBRDP_STATUS_NO_MEMORY /\ b' = b)) /\
    (h = [] -> b_length b + blen data <= 2 ^ 63 -> r = Ok tt /\ h' = []).
Proof.
  intros Hwf Hlen Hnull Hsnap. unfold rdp_buffer_append_from.
  rewrite bind_get_buffer, bind_require, (buffer_wf_valid b Hwf), Hnull. cbn [andb negb].
  rewrite bind_require. rewrite <- Hlen.
  pose proof (blen_nonneg data). pose proof (buffer_wf_length b Hwf).
  destruct (Z.leb_spec (blen data) (SIZE_MAX - b_length b)).
  2: { eexists _, b, h. split; [done|]. split; [done|]. split; [by right|].
       unfold SIZE_MAX in *. lia. }
  destruct (Hsnap h) as (h1 & Es & Hh1). rewrite (bind_ok _ _ _ _ _ Es).
  destruct (append_store_spec b h1 data (blen data) Hwf eq_refl ltac:(lia))
    as (r & b1 & h2 & -> & Hwf1 & Hr & Hok).
  exists r, b1, h2. split; [done|]. split; [done|]. split; [done|].
  intros Hh Hb. by apply Hok; [apply Hh1|].
Qed.

(** Appending bytes of another object: all of them or none. *)
Lemma append_atomic l v :
  view_bytes v = l -> view_len v = blen l ->
  WritesAtomic (rdp_buffer_append v) l (fun _ => True).
Proof.
  intros Hv Hl b h Hwf.
  destruct (append_from_spec (Outside v) l b h Hwf) as (r & b1 & h1 & E & Hwf1 & Hr & Hok).
  - done.
  - destruct v; cbn in *; [|done]. subst l. rewrite Hl. done.
  - intros h'. exists h'. split; [|done]. cbn. by rewrite Hv.
  - exists r, b1, h1. split; [exact E|]. split; [done|]. split.
    + destruct Hr as [[-> Hc]|[-> ->]]; [left; by exists tt|by right].
    + intros Hh Hb. by destruct (Hok Hh Hb) as [-> ->].
Qed.

Section writes_rules.
Context {A B : Type}.

Lemma writes_ret (a : A) (P : A -> Prop) : P a -> Writes (mret a) [] P.
Proof.
  intros HP b h Hwf. exists (Ok a), b, h. split; [done|]. split; [done|]. split; [|done].
  left. exists a. by rewrite app_nil_r.
Qed.

Lemma writes_weaken (w : writer A) l (P Q : A -> Prop) :
  (forall a, P a -> Q a) -> Writes w l P -> Writes w l Q.
Proof.
  intros HPQ Hw b h Hwf. destruct (Hw b h Hwf) as (r & b1 & h1 & E & Hwf1 & Hr & Hok).
  exists r, b1, h1. split; [done|]. split; [done|]. split; [|done].
  destruct Hr as [(a & ? & ? & ?)|?]; [left; eauto|by right].
Qed.

Lemma writes_bind (w : writer A) (k : A -> writer B) l1 l2 P Q :
  Writes w l1 P -> (forall a, P a -> Writes (k a) l2 Q) -> Writes (w ≫= k) (l1 ++ l2) Q.
Proof.
  intros Hw Hk b h Hwf. destruct (Hw b h Hwf) as (r & b1 & h1 & E & Hwf1 & Hr & Hok).
  pose proof (blen_contents b Hwf) as Hlb. pose proof (blen_contents b1 Hwf1) as Hlb1.
  destruct Hr as [(a & -> & HP & Hc)|(-> & n & Hc)].
  - destruct (Hk a HP b1 h1 Hwf1) as (r2 & b2 & h2 & E2 & Hwf2 & Hr2 & Hok2).
    exists r2, b2, h2. rewrite (bind_ok _ _ _ _ _ E). split; [done|]. split; [done|]. split.
    + destruct Hr2 as [(c & -> & HQ & Hc2)|(-> & n & Hc2)]; rewrite Hc2, Hc.
      * left. exists c. by rewrite app_assoc.
      * right. split; [done|]. exists (length l1 + n)%nat.
        by rewrite take_app_add, app_assoc.
    + rewrite blen_app. intros Hh Hb. pose proof (blen_nonneg l2).
      destruct (Hok Hh ltac:(lia)) as [_ Hh1]. apply Hok2; [done|].
      rewrite <- Hlb1, Hc, blen_app. lia.
  - exists (Err LIBRDP_STATUS_NO_MEMORY), b1, h1. rewrite (bind_err _ _ _ _ _ E).
    split; [done|]. split; [done|]. split.
    + right. split; [done|]. exists (n `min` length l1)%nat.
      rewrite take_app_le by lia. rewrite Hc. f_equal.
      destruct (decide (n <= length l1)%nat).
      * by rewrite Nat.min_l by lia.
      * rewrite Nat.min_r by lia. rewrite !take_ge by lia. done.
    + rewrite blen_app. pose proof (blen_nonneg l2). intros Hh Hb.
      destruct (Hok Hh ltac:(lia)) as [? _]. done.
Qed.

Lemma writes_require (w : writer A) c st l P :
  c = true -> Writes w l P -> Writes (require c st;; w) l P.
Proof. by intros ->. Qed.

Lemma writes_lift {C} (o : res C) (k : C -> writer A) c l P :
  o = Ok c -> Writes (k c) l P -> Writes (lift o ≫= k) l P.
Proof. by intros ->. Qed.

Lemma writes_atomic_lift {C} (o : res C) (k : C -> writer A) c l P :
  o = Ok c -> WritesAtomic (k c) l P -> WritesAtomic (lift o ≫= k) l P.
Proof. by intros ->. Qed.

Lemma writes_app_nil (w : writer A) l P : Writes w (l ++ []) P -> Writes w l P.
Proof. by rewrite app_nil_r. Qed.

Lemma writes_eq (w : writer A) l l' P : l = l' -> Writes w l' P -> Writes w l P.
Proof. by intros ->. Qed.

(** A local buffer: nothing is written to the caller's one, and the local
    contents are those of the body. *)
Lemma writes_local (body : writer A) l P :
  blen l <= 2 ^ 63 -> Writes body l P ->
  Writes (with_local_buffer body) []
    (fun r => P r.1 /\ buffer_wf r.2 /\ contents r.2 = l).
Proof.
  intros Hl Hw b h Hwf. unfold with_local_buffer. cbn [fst snd].
  destruct (Hw rdp_buffer_init h buffer_init_wf) as (r & t & h1 & E & Hwf1 & Hr & Hok).
  rewrite E. rewrite contents_init in Hr. cbn [b_length rdp_buffer_init] in Hok.
  destruct Hr as [(a & -> & HP & Hc)|(-> & n & Hc)].
  - exists (Ok (a, t)), b, h1. split; [done|]. split; [done|]. split.
    + left. exists (a, t). by rewrite app_nil_r.
    + intros Hh _. destruct (Hok Hh); [lia|done].
  - exists (Err LIBRDP_STATUS_NO_MEMORY), b, h1. split; [done|]. split; [done|]. split.
    + right. split; [done|]. exists 0%nat. by rewrite app_nil_r.
    + intros Hh _. destruct (Hok Hh); [lia|done].
Qed.

Lemma writes_atomic (w : writer A) l P : Writes w l P -> WritesAtomic (restore_on_error w) l P.
Proof.
  intros Hw b h Hwf. destruct (Hw b h Hwf) as (r & b1 & h1 & E & Hwf1 & Hr & Hok).
  unfold restore_on_error. rewrite E.
  destruct Hr as [(a & -> & HP & Hc)|(-> & n & Hc)].
  - exists (Ok a), b1, h1. split; [done|]. split; [done|]. split; [left; eauto|done].
  - cbn [fst]. eexists _, _, _. split; [done|].
    pose proof (blen_contents b Hwf) as Hlb. pose proof (blen_contents b1 Hwf1) as Hlb1.
    assert (Hle : b_length b <= b_length b1).
    { rewrite Hc, blen_app in Hlb1. pose proof (blen_nonneg (take n l)). lia. }
    destruct Hwf1 as [Hv1 Hb1 Hl1 Hc1]. apply state_valid_iff in Hv1 as [Hle1 Hnull1].
    pose proof (buffer_wf_length b Hwf). split.
    { split; cbn; try done. apply state_valid_iff. cbn. split; [lia|done]. }
    split; [right; split; [done|]|naive_solver].
    unfold contents at 1. cbn.
    assert (Ht : ztake (b_length b) (contents b1) = contents b).
    { rewrite Hc, <- Hlb. apply ztake_app_blen. }
    rewrite <- Ht. unfold contents, ztake, block. cbn. rewrite take_take. f_equal. lia.
Qed.

Lemma writes_atomic_writes (w : writer A) l P : WritesAtomic w l P -> Writes w l P.
Proof.
  intros Hw b h Hwf. destruct (Hw b h Hwf) as (r & b1 & h1 & E & Hwf1 & Hr & Hok).
  exists r, b1, h1. split; [done|]. split; [done|]. split; [|done].
  destruct Hr as [?|[-> Hc]]; [by left|right]. split; [done|].
  exists 0%nat. by rewrite app_nil_r.
Qed.

Lemma writes_atomic_bind {C} (w : writer C) (k : C -> writer A) l P Q :
  Writes w [] P -> (forall c, P c -> WritesAtomic (k c) l Q) -> WritesAtomic (w ≫= k) l Q.
Proof.
  intros Hw Hk b h Hwf. destruct (Hw b h Hwf) as (r & b1 & h1 & E & Hwf1 & Hr & Hok).
  pose proof (blen_contents b Hwf) as Hlb. pose proof (blen_contents b1 Hwf1) as Hlb1.
  destruct Hr as [(a & -> & HP & Hc)|(-> & n & Hc)]; rewrite ?take_nil in Hc;
    rewrite app_nil_r in Hc; rewrite Hc, Hlb in Hlb1.
  - destruct (Hk a HP b1 h1 Hwf1) as (r2 & b2 & h2 & E2 & Hwf2 & Hr2 & Hok2).
    exists r2, b2, h2. rewrite (bind_ok _ _ _ _ _ E), <- Hc. split; [done|]. split; [done|].
    split; [done|]. intros Hh Hb. apply Hok2; [|lia].
    apply Hok; [done|]. rewrite blen_nil. pose proof (blen_nonneg l). lia.
  - exists (Err LIBRDP_STATUS_NO_MEMORY), b1, h1. rewrite (bind_err _ _ _ _ _ E).
    split; [done|]. split; [done|]. split; [by right|]. intros Hh Hb.
    apply Hok; [done|]. rewrite blen_nil. pose proof (blen_nonneg l). lia.
Qed.

Lemma writes_atomic_require (w : writer A) c st l P :
  c = true -> WritesAtomic w l P -> WritesAtomic (require c st;; w) l P.
Proof. by intros ->. Qed.

Lemma writes_atomic_Ok_inv (w : writer A) l P b h a b' h' :
  WritesAtomic w l P -> buffer_wf b -> w (b, h) = (Ok a, (b', h')) ->
  P a /\ buffer_wf b' /\ contents b' = contents b ++ l.
Proof.
  intros Hw Hwf E. destruct (Hw b h Hwf) as (r & b1 & h1 & E1 & Hwf1 & Hr & _).
  rewrite E1 in E. injection E as -> -> ->. naive_solver.
Qed.

Lemma writes_gets (f : wstate -> A) : Writes (gets f) [] (fun _ => True).
Proof.
  intros b h Hwf. exists (Ok (f (b, h))), b, h. split; [done|]. split; [done|]. split; [|done].
  left. exists (f (b, h)). by rewrite app_nil_r.
Qed.

Lemma restore_on_error_Ok_inv (w : writer A) s a s' :
  restore_on_error w s = (Ok a, s') -> w s = (Ok a, s').
Proof. unfold restore_on_error. destruct (w s) as [[] []]; congruence. Qed.

(** What a successful call has appended. *)
Lemma writes_Ok_inv (w : writer A) l P b h a b' h' :
  Writes w l P -> buffer_wf b -> w (b, h) = (Ok a, (b', h')) ->
  P a /\ buffer_wf b' /\ contents b' = contents b ++ l.
Proof.
  intros Hw Hwf E. destruct (Hw b h Hwf) as (r & b1 & h1 & E1 & Hwf1 & Hr & _).
  rewrite E1 in E. injection E as -> -> ->. naive_solver.
Qed.
End writes_rules.

Lemma writes_append_bytes l v :
  view_bytes v = l -> view_len v = blen l -> Writes (rdp_buffer_append v) l (fun _ => True).
Proof. intros. by apply writes_atomic_writes, append_atomic. Qed.

Lemma writes_append l : Writes (rdp_buffer_append (View l)) l (fun _ => True).
Proof. by apply writes_append_bytes. Qed.

Lemma buffer_view_contents b :
  buffer_wf b -> view_bytes (buffer_view b) = contents b /\ view_len (buffer_view b) = blen (contents b).
Proof.
  intros Hwf. pose proof (blen_contents b Hwf) as Hlen. rewrite Hlen.
  destruct Hwf as [Hv Hb Hl Hc]. apply state_valid_iff in Hv as [Hle Hnull].
  unfold buffer_view, contents, block in *. destruct (b_data b) as [blk|] eqn:E; cbn in *.
  - split; [done|]. apply blen_ztake. lia.
  - split; [by unfold ztake; destruct (Z.to_nat _)|done].
Qed.

(** Append another buffer's contents. *)
Lemma writes_append_buffer t l :
  buffer_wf t -> contents t = l ->
  Writes (rdp_buffer_append (buffer_view t)) l (fun _ => True).
Proof. intros Hwf <-. destruct (buffer_view_contents t Hwf). by apply writes_append_bytes. Qed.

Lemma append_buffer_atomic t l :
  buffer_wf t -> contents t = l ->
  WritesAtomic (rdp_buffer_append (buffer_view t)) l (fun _ => True).
Proof. intros Hwf <-. destruct (buffer_view_contents t Hwf). by apply append_atomic. Qed.

Lemma writes_u8 v : Writes (rdp_buffer_append_u8 v) [v] (fun _ => True).
Proof. apply writes_append. Qed.
Lemma writes_u16_le v : Writes (rdp_buffer_append_u16_le v) (le16 v) (fun _ => True).
Proof. apply writes_append. Qed.
Lemma writes_u16_be v : Writes (rdp_buffer_append_u16_be v) (be16 v) (fun _ => True).
Proof. apply writes_append. Qed.
Lemma writes_u32_le v : Writes (rdp_buffer_append_u32_le v) (le32 v) (fun _ => True).
Proof. apply writes_append. Qed.
Lemma writes_u32_be v : Writes (rdp_buffer_append_u32_be v) (be32 v) (fun _ => True).
Proof. apply writes_append. Qed.

Lemma rejects_require {A} (k : unit -> writer A) c st :
  c = false -> Rejects (require c st ≫= k) st.
Proof. by intros -> b h Hwf. Qed.

Create HintDb writes.
#[export] Hint Resolve writes_append writes_u8 writes_u16_le writes_u16_be writes_u32_le
  writes_u32_be writes_append_buffer : writes.

(** One step of a straight-line writer: the head writes the first segment of
    the encoding. *)
Ltac wstep :=
  eapply writes_bind; [solve [eauto with writes]|intros [] _].

(** ** Writers that always answer *)

(** From any well-formed buffer and any heap, a status other than undefined
    behaviour, a buffer at least as long, and an exhausted heap stays so. *)
Definition Total {A} (w : writer A) : Prop :=
  forall b h, buffer_wf b ->
    exists r b' h', w (b, h) = (r, (b', h')) /\ buffer_wf b' /\ b_length b <= b_length b' /\ r <> Fault /\ (h = [] -> h' = []).

Section total_rules.
Context {A B : Type}.

Lemma total_same (w : writer A) : (forall s, exists r, w s = (r, s) /\ r <> Fault) -> Total w.
Proof. intros H b h Hwf. destruct (H (b, h)) as (r & -> & Hr). by exists r, b, h. Qed.
Lemma total_ret (a : A) : Total (mret a).
Proof. apply total_same. intros s. by exists (Ok a). Qed.
Lemma total_fail st : Total (@fail _ A st).
Proof. apply total_same. intros s. by exists (Err st). Qed.
Lemma total_bind (w : writer A) (k : A -> writer B) : Total w -> (forall a, Total (k a)) -> Total (w ≫= k).
Proof.
  intros Hw Hk b h Hwf. destruct (Hw b h Hwf) as (r & b1 & h1 & E & Hwf1 & Hl1 & Hr & Hh1). destruct r as [a|st|]; [|clear Hk|done].
  - rewrite (bind_ok _ _ _ _ _ E). destruct (Hk a b1 h1 Hwf1) as (r2 & b2 & h2 & E2 & Hwf2 & Hl2 & Hr2 & Hh2).
    exists r2, b2, h2. split; [done|]. split; [done|]. split; [lia|]. split; [done|]. auto.
  - rewrite (bind_err _ _ _ _ _ E). by exists (Err st), b1, h1.
Qed.
Lemma total_if (c : bool) (w1 w2 : writer A) : Total w1 -> Total w2 -> Total (if c then w1 else w2).
Proof. by destruct c. Qed.
Lemma total_restore (w : writer A) : Total w -> Total (restore_on_error w).
Proof.
  intros Hw b h Hwf. unfold restore_on_error. destruct (Hw b h Hwf) as (r & b1 & h1 & -> & Hwf1 & Hl1 & Hr & Hh1).
  destruct r as [a|st|]; [by exists (Ok a), b1, h1| |done]. exists (Err st), (set_length (b_length b) b1), h1. cbn [fst].
  split; [done|]. split; [|done]. destruct Hwf1 as [Hv1 Hb1 Hl Hc1]. apply state_valid_iff in Hv1 as [Hle1 Hnull1].
  pose proof (buffer_wf_length b Hwf). split; cbn; try done. apply state_valid_iff. cbn. split; [lia|done].
Qed.
End total_rules.

Lemma total_require c st : Total (require c st).
Proof. destruct c; [apply total_ret|apply total_fail]. Qed.
Lemma total_lift {A} (o : res A) : o <> Fault -> Total (lift o).
Proof. intros Ho. apply total_same. intros s. by exists o. Qed.

(** An append leaves the exhausted heap exhausted. *)
Definition keeps_nil {A} (w : writer A) : Prop := forall b, (w (b, [])).2.2 = [].
Lemma keeps_nil_bind {A B} (w : writer A) (k : A -> writer B) : keeps_nil w -> (forall a, keeps_nil (k a)) -> keeps_nil (w ≫= k).
Proof.
  intros Hw Hk b. specialize (Hw b). unfold mbind, M_bind. destruct (w (b, [])) as [[a|st|] [b' h']]; cbn in Hw; subst h'; [apply Hk|done..].
Qed.
Lemma keeps_nil_require c st : keeps_nil (require c st).
Proof. by destruct c. Qed.
Lemma append_heap_nil v : keeps_nil (rdp_buffer_append v).
Proof.
  unfold rdp_buffer_append, rdp_buffer_append_from. apply keeps_nil_bind; [done|]. intros b.
  apply keeps_nil_bind; [apply keeps_nil_require|]. intros _. apply keeps_nil_bind; [apply keeps_nil_require|]. intros _.
  apply keeps_nil_bind; [done|]. intros data. unfold append_store, rdp_buffer_reserve.
  apply keeps_nil_bind; [|intros _].
  - apply keeps_nil_bind; [done|]. intros b1. apply keeps_nil_bind; [apply keeps_nil_require|]. intros _.
    case_match; [done|]. apply keeps_nil_bind; [done|]. intros next. by apply keeps_nil_bind.
  - apply keeps_nil_bind; [done|]. intros b1. apply keeps_nil_bind; [|done]. case_match; [|done]. by apply keeps_nil_bind.
Qed.
Lemma total_append l : Total (rdp_buffer_append (View l)).
Proof.
  intros b h Hwf. destruct (append_atomic l (View l) eq_refl eq_refl b h Hwf) as (r & b1 & h1 & E & Hwf1 & Hr & _).
  exists r, b1, h1. split; [done|]. split; [done|]. pose proof (blen_contents b Hwf) as Hl. pose proof (blen_contents b1 Hwf1) as Hl1.
  split; [|split].
  - rewrite <- Hl, <- Hl1. destruct Hr as [(? & _ & _ & ->)|[_ ->]]; [|done]. rewrite blen_app. pose proof (blen_nonneg l). lia.
  - by destruct Hr as [(? & -> & _)|[-> _]].
  - intros ->. exact (eq_trans (eq_sym (f_equal (fun x => x.2.2) E)) (append_heap_nil (View l) b)).
Qed.
Lemma total_append_null : Total (rdp_buffer_append (NullView 0)).
Proof.
  intros b h Hwf. destruct (append_atomic [] (NullView 0) eq_refl eq_refl b h Hwf) as (r & b1 & h1 & E & Hwf1 & Hr & _).
  exists r, b1, h1. split; [done|]. split; [done|]. pose proof (blen_contents b Hwf). pose proof (blen_contents b1 Hwf1).
  split; [|split].
  - destruct Hr as [(? & _ & _ & Hc)|[_ Hc]]; rewrite Hc, ?app_nil_r in *; lia.
  - by destruct Hr as [(? & -> & _)|[-> _]].
  - intros ->. exact (eq_trans (eq_sym (f_equal (fun x => x.2.2) E)) (append_heap_nil (NullView 0) b)).
Qed.
Lemma total_u8 v : Total (rdp_buffer_append_u8 v).
Proof. apply total_append. Qed.
Lemma total_u16_le v : Total (rdp_buffer_append_u16_le v).
Proof. apply total_append. Qed.
Lemma total_u32_le v : Total (rdp_buffer_append_u32_le v).
Proof. apply total_append. Qed.
Create HintDb total discriminated.
#[export] Hint Constants Opaque : total.
#[export] Hint Resolve total_ret total_fail total_require total_append total_append_null total_u8 total_u16_le total_u32_le : total.
Ltac solve_total :=
  repeat first [progress intros | solve [auto with total nocore] | simple apply total_restore | simple apply total_bind
               | simple apply total_if].

Lemma ztake_contents b n : buffer_wf b -> n <= b_length b -> ztake n (block b) = ztake n (contents b).
Proof. intros Hb Hn. unfold contents, ztake. rewrite take_take. f_equal. lia. Qed.

(** A local buffer, from a run of its body. *)
Lemma bind_local_ok {B C} (body : writer B) (k : B * rdp_buffer -> writer C) b h a tmp h1 :
  body (rdp_buffer_init, h) = (Ok a, (tmp, h1)) -> (with_local_buffer body ≫= k) (b, h) = k (a, tmp) (b, h1).
Proof. intros E. unfold mbind, M_bind, with_local_buffer. cbn [fst snd]. by rewrite E. Qed.
Lemma bind_local_err {B C} (body : writer B) (k : B * rdp_buffer -> writer C) b h st tmp h1 :
  body (rdp_buffer_init, h) = (Err st, (tmp, h1)) -> (with_local_buffer body ≫= k) (b, h) = (Err st, (b, h1)).
Proof. intros E. unfold mbind, M_bind, with_local_buffer. cbn [fst snd]. by rewrite E. Qed.

(** Making room. *)
Lemma resize_spec n b h : buffer_wf b -> 0 < n <= SIZE_MAX -> exists r b' h', resize n (b, h) = (r, (b', h')) /\ buffer_wf b' /\
  ((r = Ok tt /\ b_length b' = n) \/ r = Err LIBRDP_STATUS_NO_MEMORY) /\ (h = [] -> n <= 2 ^ 63 -> r = Ok tt /\ h' = []).
Proof.
  intros Hb Hn. unfold resize. destruct (rdp_buffer_reserve_spec b h n Hb) as (r & b1 & h1 & E & Hb1 & _ & _ & [[-> Hcap]|[-> ->]] & Hok).
  2: { rewrite (bind_err _ _ _ _ _ E). exists (Err LIBRDP_STATUS_NO_MEMORY), b, h1. split; [done|]. split; [done|].
       split; [by right|]. intros Hh H63. by destruct (Hok Hh H63). }
  rewrite (bind_ok _ _ _ _ _ E). unfold get_buffer, put_buffer. rewrite bind_gets. cbn [fst].
  eexists (Ok tt), (set_length n b1), h1. split; [done|].
  destruct Hb1 as [Hv1 Hb1 Hl1 Hc1]. apply state_valid_iff in Hv1 as [Hle1 Hnull1].
  split; [split; cbn; try done; try lia; apply state_valid_iff; cbn; split; [lia|done]|].
  split; [by left|]. intros Hh H63. by destruct (Hok Hh H63).
Qed.

(** Overwriting bytes of the contents in place. *)
Lemma store_bytes_spec off l b h : buffer_wf b -> 0 <= off -> off + blen l <= b_length b ->
  exists b', store_bytes off l (b, h) = (Ok tt, (b', h)) /\ buffer_wf b' /\ b_length b' = b_length b /\
    contents b' = ztake off (contents b) ++ l ++ zdrop (off + blen l) (contents b).
Proof.
  intros Hb Ho Hl. pose proof Hb as [Hv Hbl Hlen Hcap]. apply state_valid_iff in Hv as [Hle Hnull].
  pose proof (blen_nonneg l) as Hn. pose proof (blen_contents b Hb) as Hc. unfold store_bytes.
  destruct (Z.eqb_spec (blen l) 0) as [E0|E0].
  { exists b. split; [done|]. split; [done|]. split; [done|]. apply blen_0_nil in E0 as ->.
    cbn [app]. change (blen []) with 0. by rewrite Z.add_0_r, ztake_zdrop. }
  unfold get_buffer, put_buffer. rewrite bind_gets, write_at_ok, bind_lift by (cbn [fst]; lia). cbn [fst].
  set (blk := _ ++ _ ++ _). assert (Hblk : blen blk = blen (block b)).
  { apply (blen_write_at (block b) off l). rewrite write_at_ok by lia. done. }
  eexists. split; [reflexivity|]. split; [|split; [done|]].
  - split; cbn; try done; try lia. apply state_valid_iff. cbn. split; [lia|]. split; [done|lia].
  - unfold contents at 1. cbn. unfold blk. rewrite <- (ztake_zdrop (b_length b) (block b)) at 1 2.
    fold (contents b).
    assert (E1 : ztake off (contents b ++ zdrop (b_length b) (block b)) = ztake off (contents b)).
    { unfold ztake. apply take_app_le. unfold blen in *. lia. }
    assert (E2 : zdrop (off + blen l) (contents b ++ zdrop (b_length b) (block b)) =
      zdrop (off + blen l) (contents b) ++ zdrop (b_length b) (block b)).
    { unfold zdrop at 1 2. apply drop_app_le. unfold blen in *. lia. }
    rewrite E1, E2. set (k := ztake off (contents b) ++ l ++ zdrop (off + blen l) (contents b)).
    transitivity (ztake (b_length b) (k ++ zdrop (b_length b) (block b))).
    { unfold k. by rewrite <- !app_assoc. }
    assert (Hk : blen k = b_length b).
    { unfold k. rewrite !blen_app, blen_ztake, blen_zdrop by lia. lia. }
    rewrite <- Hk at 1. apply ztake_app_blen.
Qed.

(** ** The buffer as a list: functional refinement *)

Lemma consume_spec n b h :
  buffer_wf b -> 0 <= n ->
  exists r b', rdp_buffer_consume n (b, h) = (r, (b', h)) /\ buffer_wf b' /\
    b_capacity b' = b_capacity b /\
    ((r = Ok tt /\ n <= b_length b /\ contents b' = zdrop n (contents b)) \/
     (r = Err LIBRDP_STATUS_INVALID_ARGUMENT /\ b_length b < n /\ b' = b)).
Proof.
  intros Hwf Hn. pose proof Hwf as [Hv Hb Hl Hc]. apply state_valid_iff in Hv as Hv'.
  destruct Hv' as [Hle Hnull]. unfold rdp_buffer_consume.
  rewrite bind_get_buffer, bind_require, Hv. cbn [andb].
  destruct (Z.leb_spec n (b_length b)) as [Hnl|Hnl].
  2: { exists (Err LIBRDP_STATUS_INVALID_ARGUMENT), b. split; [done|]. split; [done|].
       split; [done|]. right. split; [done|]. split; [lia|done]. }
  unfold get_buffer, put_buffer, gets, modify, mbind, M_bind, lift. cbn [fst snd].
  destruct (Z.ltb_spec 0 n).
  - rewrite slice_ok by lia. set (tail := ztake (b_length b - n) (zdrop n (block b))).
    assert (Htail : blen tail = b_length b - n).
    { unfold tail. apply blen_ztake. rewrite blen_zdrop; lia. }
    destruct (write_at (block b) 0 tail) as [blk| |] eqn:Ew;
      unfold write_at in Ew; rewrite Htail in Ew;
      destruct (Z.leb_spec (0 + (b_length b - n)) (blen (block b))); try lia; try discriminate Ew.
    cbn [Z.leb andb] in Ew. injection Ew as <-.
    eexists _, _. split; [done|]. cbn [set_length set_block b_capacity].
    split; [split; cbn; try done; try lia|].
    { apply state_valid_iff. cbn. split; [lia|]. split; [done|lia]. }
    { rewrite blen_app. change (ztake 0 (block b)) with (@nil Z). cbn [app].
      rewrite Htail, blen_zdrop; lia. }
    split; [done|]. left. split; [done|]. split; [lia|].
    unfold contents. cbn. rewrite <- Htail, ztake_app_blen. unfold tail, contents.
    unfold ztake, zdrop. rewrite skipn_firstn_comm. f_equal. lia.
  - replace n with 0 by lia. exists (Ok tt), (set_length (b_length b - 0) b).
    split; [done|]. rewrite Z.sub_0_r. destruct b as [d len cap]; cbn in *.
    split; [done|]. split; [done|]. left. split; [done|]. split; [lia|done].
Qed.

(** Bytes of the buffer itself, read before the block may move. *)
Lemma self_snapshot b off len h :
  buffer_wf b -> 0 <= off -> 0 <= len -> off + len <= b_length b ->
  exists r h', source_snapshot b (Inside off len) (b, h) = (r, (b, h')) /\
    (r = Ok (ztake len (zdrop off (contents b))) \/ r = Err LIBRDP_STATUS_NO_MEMORY) /\
    (h = [] -> is_ok r = true /\ h' = []).
Proof.
  intros Hwf Ho Hl Hle. pose proof Hwf as [Hv Hb Hlen Hc]. apply state_valid_iff in Hv as [Hcap Hnull].
  assert (Heq : ztake len (zdrop off (contents b)) = ztake len (zdrop off (block b))).
  { unfold contents, ztake, zdrop. rewrite skipn_firstn_comm, take_take. f_equal. lia. }
  unfold source_snapshot, source_in_buffer. cbn [source_len].
  destruct (Z.eqb_spec len 0) as [->|Hpos].
  { exists (Ok []), h. split; [|split; [by left|done]].
    destruct (b_data b); [|done]. destruct (_ && _); [|done].
    rewrite bind_require. destruct (Z.leb_spec 0 (b_capacity b - off)); [done|lia]. }
  destruct (b_data b) as [blk|] eqn:Ed; [|destruct Hnull as [Hz _]; specialize (Hz eq_refl); lia].
  destruct (Z.ltb_spec 0 (b_capacity b)), (Z.leb_spec 0 off), (Z.ltb_spec off (b_capacity b));
    try lia. cbn [andb].
  rewrite bind_require. destruct (Z.leb_spec len (b_capacity b - off)); [|lia].
  destruct (Z.ltb_spec 0 len); [|lia]. unfold alloc, mbind, M_bind, lift. cbn [fst snd].
  destruct (heap_alloc h) as [[|] h1] eqn:Eh.
  - rewrite slice_ok by lia. eexists _, _. split; [done|]. split; [left; by rewrite Heq|].
    intros ->. by injection Eh as <-.
  - eexists _, _. split; [done|]. split; [by right|]. intros ->. done.
Qed.

Lemma self_append_spec b off len h :
  buffer_wf b -> 0 <= off -> 0 <= len -> off + len <= b_length b ->
  let data := ztake len (zdrop off (contents b)) in
  exists r b' h', rdp_buffer_append_from (Inside off len) (b, h) = (r, (b', h')) /\ buffer_wf b' /\
    ((r = Ok tt /\ contents b' = contents b ++ data) \/
     (r = Err LIBRDP_STATUS_NO_MEMORY /\ b' = b)).
Proof.
  intros Hwf Ho Hl Hle data. pose proof (blen_contents b Hwf) as Hlen.
  assert (Hd : blen data = len) by (apply blen_ztake; rewrite blen_zdrop; lia).
  pose proof (buffer_wf_valid b Hwf) as Hv. unfold rdp_buffer_append_from.
  rewrite bind_get_buffer, bind_require, Hv. cbn [source_len source_null andb].
  assert (Hnull : (match b_data b with None => true | Some _ => false end) && (0 <? len) = false).
  { apply state_valid_iff in Hv as [? Hn]. pose proof (buffer_wf_length b Hwf).
    destruct (b_data b); [done|]. destruct Hn as [Hn _]. specialize (Hn eq_refl). lia. }
  rewrite Hnull. cbn [negb]. rewrite bind_require.
  destruct (Z.leb_spec len (SIZE_MAX - b_length b)).
  2: { eexists _, b, h. split; [done|]. split; [done|]. by right. }
  destruct (self_snapshot b off len h Hwf Ho Hl Hle) as (r & h1 & E & [->| ->] & _).
  - rewrite (bind_ok _ _ _ _ _ E). cbv beta. fold data.
    destruct (append_store_spec b h1 data len Hwf Hd ltac:(lia))
      as (r & b1 & h2 & -> & Hwf1 & Hr & _). eauto 10.
  - rewrite (bind_err _ _ _ _ _ E). eexists _, b, h1. split; [done|]. split; [done|]. by right.
Qed.

(** The calls of the buffer interface, and what each means for the list of
    bytes the buffer stands for ([None]: the arguments are rejected). *)
Inductive buffer_op : Type :=
| OpAppend (l : list Z)
| OpAppendSelf (off len : Z)
| OpReserve (n : Z)
| OpConsume (n : Z).

Definition run_op (op : buffer_op) : writer unit :=
  match op with
  | OpAppend l => rdp_buffer_append (View l)
  | OpAppendSelf off len => rdp_buffer_append_from (Inside off len)
  | OpReserve n => rdp_buffer_reserve n
  | OpConsume n => rdp_buffer_consume n
  end.

Definition op_ok (l : list Z) (op : buffer_op) : Prop :=
  match op with
  | OpAppend _ | OpReserve _ => True
  | OpAppendSelf off len => 0 <= off /\ 0 <= len /\ off + len <= blen l
  | OpConsume n => 0 <= n
  end.

Definition spec_op (l : list Z) (op : buffer_op) : option (list Z) :=
  match op with
  | OpAppend k => Some (l ++ k)
  | OpAppendSelf off len => Some (l ++ ztake len (zdrop off l))
  | OpReserve _ => Some l
  | OpConsume n => if n <=? blen l then Some (zdrop n l) else None
  end.

(** One call, and a sequence of calls with their outcomes. *)
Inductive buffer_trace : wstate -> list (buffer_op * res unit) -> wstate -> Prop :=
| trace_nil s : buffer_trace s [] s
| trace_cons s op r s1 tr s2 :
    op_ok (contents s.1) op -> run_op op s = (r, s1) -> buffer_trace s1 tr s2 ->
    buffer_trace s ((op, r) :: tr) s2.

Definition outcome_ok (l : list Z) (op : buffer_op) (r : res unit) (l' : list Z) : Prop :=
  match r with
  | Ok _ => spec_op l op = Some l'
  | Err LIBRDP_STATUS_NO_MEMORY => l' = l
  | Err LIBRDP_STATUS_INVALID_ARGUMENT => spec_op l op = None /\ l' = l
  | _ => False
  end.

Fixpoint outcomes_ok (l : list Z) (tr : list (buffer_op * res unit)) (l' : list Z) : Prop :=
  match tr with
  | [] => l' = l
  | (op, r) :: tr => exists l1, outcome_ok l op r l1 /\ outcomes_ok l1 tr l'
  end.

Lemma run_op_refines op b h r b' h' :
  buffer_wf b -> op_ok (contents b) op -> run_op op (b, h) = (r, (b', h')) ->
  buffer_wf b' /\ outcome_ok (contents b) op r (contents b').
Proof.
  intros Hwf Hop E. destruct op as [l|off len|n|n]; cbn [run_op op_ok] in *.
  - destruct (append_atomic l (View l) eq_refl eq_refl b h Hwf)
      as (r1 & b1 & h1 & E1 & Hwf1 & Hr & _). rewrite E1 in E. injection E as -> -> ->.
    split; [done|]. destruct Hr as [([] & -> & _ & Hc)|[-> Hc]]; cbn; by rewrite Hc.
  - destruct Hop as (Ho & Hl & Hle). rewrite blen_contents in Hle by done.
    destruct (self_append_spec b off len h Hwf Ho Hl Hle) as (r1 & b1 & h1 & E1 & Hwf1 & Hr).
    rewrite E1 in E. injection E as -> -> ->.
    split; [done|]. destruct Hr as [[-> Hc]|[-> ->]]; cbn; by rewrite ?Hc.
  - destruct (rdp_buffer_reserve_spec b h n Hwf) as (r1 & b1 & h1 & E1 & Hwf1 & Hc & _ & Hr & _).
    rewrite E1 in E. injection E as -> -> ->.
    split; [done|]. destruct Hr as [[-> _]|[-> ->]]; cbn; by rewrite ?Hc.
  - destruct (consume_spec n b h Hwf Hop) as (r1 & b1 & E1 & Hwf1 & _ & Hr).
    rewrite E1 in E. injection E as -> -> ->. split; [done|].
    rewrite <- (blen_contents b Hwf) in Hr.
    destruct Hr as [(-> & Hn & Hc)|(-> & Hn & ->)]; cbn;
      destruct (Z.leb_spec n (blen (contents b))); try lia; by rewrite ?Hc.
Qed.

(** C23: the buffer refines a list of bytes: along any sequence of appends (also
    of bytes inside the buffer itself, which growth may move), reservations and
    consumptions, under any pattern of allocation failures, every call that
    succeeds has exactly its effect on the list, every call that fails leaves the
    bytes alone and fails only for want of memory or for a length beyond the
    contents, and the representation invariant holds throughout. *)
Theorem buffer_refines_list s tr s' :
  buffer_wf s.1 -> buffer_trace s tr s' ->
  buffer_wf s'.1 /\ outcomes_ok (contents s.1) tr (contents s'.1).
Proof.
  intros Hwf Ht. induction Ht as [s|s op r s1 tr s2 Hop E Ht IH]; [done|].
  destruct s as [b h], s1 as [b1 h1]. cbn [fst] in *.
  destruct (run_op_refines op b h r b1 h1 Hwf Hop E) as [Hwf1 Ho].
  destruct (IH Hwf1) as [Hwf2 Hos]. split; [done|]. cbn [outcomes_ok]. eauto.
Qed.

(** C40: growth: a request within the capacity changes nothing; any other is rounded up
    to the first of the old capacity (or 64), its double and so on that is
    enough, so less than twice the request unless it is the starting value, and
    one allocation decides: the buffer has that capacity and the same contents,
    or the answer is [NO_MEMORY] and the buffer is as it was.  When no such
    double below 2^64 is enough, for which the request must be above 2^63, the
    answer is [NO_MEMORY] before anything is allocated. *)
Theorem reserve_doubles b h n b' h' r :
  buffer_wf b -> rdp_buffer_reserve n (b, h) = (r, (b', h')) ->
  let start := if b_capacity b =? 0 then 64 else b_capacity b in
  (r = Ok tt /\ n <= b_capacity b /\ b' = b /\ h' = h) \/
  (b_capacity b < n /\ h' = (heap_alloc h).2 /\
   exists k, 0 <= k /\ n <= start * 2 ^ k <= SIZE_MAX /\ (k = 0 \/ start * 2 ^ k < 2 * n) /\
     if (heap_alloc h).1 then r = Ok tt /\ b_capacity b' = start * 2 ^ k /\ contents b' = contents b
     else r = Err LIBRDP_STATUS_NO_MEMORY /\ b' = b) \/
  (r = Err LIBRDP_STATUS_NO_MEMORY /\ b' = b /\ h' = h /\ 2 ^ 63 < n /\
   forall k, 0 <= k -> start * 2 ^ k <= SIZE_MAX -> start * 2 ^ k < n).
Proof.
  intros Hwf E start. pose proof Hwf as [Hv Hb Hl Hc].
  destruct (rdp_buffer_reserve_spec b h n Hwf) as (r1 & b1 & h1 & E1 & _ & Hcont & _).
  pose proof E as E0. rewrite E1 in E0. injection E0 as -> -> ->. clear E1.
  unfold rdp_buffer_reserve in E. rewrite bind_get_buffer, bind_require, Hv in E.
  destruct (Z.leb_spec n (b_capacity b)); [injection E as <- <- <-; by left|].
  fold start in E. unfold mbind at 1, M_bind at 1, lift, reserve_fuel in E.
  assert (Hstart : 0 < start <= SIZE_MAX).
  { apply state_valid_iff in Hv as [? _].
    unfold start, SIZE_MAX in *. destruct (Z.eqb_spec (b_capacity b) 0); lia. }
  destruct (reserve_loop_spec 64 start n Hstart) as [(k & Hk & El & Hfit & Hm)|(El & Hbig & Hno)].
  { unfold SIZE_MAX. change (Z.of_nat 64) with 64. lia. }
  - right. left. rewrite El in E. unfold alloc, put_buffer, modify, mbind, M_bind in E. cbn [fst snd] in E.
    destruct (heap_alloc h) as [[|] h2]; cbn [fst snd] in E |- *; injection E as <- <- <-;
      (split; [lia|]); (split; [done|]); exists k; done.
  - rewrite El in E. injection E as <- <- <-. by right; right.
Qed.

(** A buffer of three bytes that appends itself, is consumed in part, and meets
    a failed allocation. *)
Lemma buffer_refines_list_witness :
  let s := ((run_op (OpAppend [1; 2; 3])) (rdp_buffer_init, [])).2 in
  exists tr s', buffer_trace s tr s' /\ contents s'.1 = [2; 3; 1; 2] /\
    buffer_wf s'.1 /\ outcomes_ok (contents s.1) tr (contents s'.1).
Proof.
  set (s := ((run_op (OpAppend [1; 2; 3])) (rdp_buffer_init, [])).2).
  set (s' := ((run_op (OpConsume 1)) ((run_op (OpAppendSelf 0 2)) s).2).2).
  assert (Ht : buffer_trace s [(OpAppendSelf 0 2, Ok tt); (OpConsume 1, Ok tt);
      (OpConsume 9, Err LIBRDP_STATUS_INVALID_ARGUMENT)] s').
  { do 3 (eapply trace_cons; [vm_compute; repeat split; discriminate|vm_compute; reflexivity|]).
    apply trace_nil. }
  eexists _, s'. split; [exact Ht|]. split; [vm_compute; reflexivity|].
  apply (buffer_refines_list s _ s'); [|exact Ht].
  split; vm_compute; [reflexivity|reflexivity|discriminate|discriminate].
Defined.

Lemma reserve_doubles_witness :
  exists b', (rdp_buffer_reserve 200 (rdp_buffer_init, [])) = (Ok tt, (b', [])) /\
    b_capacity b' = 256 /\ exists k, b_capacity b' = 64 * 2 ^ k.
Proof.
  eexists. split; [vm_compute; reflexivity|]. split; [vm_compute; reflexivity|].
  destruct (reserve_doubles rdp_buffer_init [] 200 _ _ _ buffer_init_wf eq_refl)
    as [(_ & H & _)|[(_ & _ & k & _ & _ & _ & _ & H & _)|(H & _)]].
  - vm_compute in H. destruct (H eq_refl).
  - exists k. exact H.
  - vm_compute in H. discriminate H.
Defined.
