(* ===== verification/Tpkt.v ===== *)
(** * Tpkt: TPKT framing

    Models [src/src/protocol/tpkt.c]: the four-byte header 03 00 len_be16 and
    its parser.  The parser accepts exactly the frames the writer produces
    (followed by any bytes). *)

From S2P Require Import Prelude Stream Buffer.

Record rdp_tpkt := mk_rdp_tpkt {
  tpkt_payload : list Z;
  tpkt_payload_len : Z;
  tpkt_total_len : Z;
}.

Definition rdp_tpkt_write (payload : view) : writer unit :=
  require (negb (view_null payload && (0 <? view_len payload)) &&
           (view_len payload <=? UINT16_MAX - 4)) LIBRDP_STATUS_INVALID_ARGUMENT;;
  let total := view_len payload + 4 in
  frame ← with_local_buffer (
    rdp_buffer_append_u8 3;;
    rdp_buffer_append_u8 0;;
    rdp_buffer_append_u16_be (u16 total);;
    rdp_buffer_append payload);
  rdp_buffer_append (buffer_view frame.2).

Definition rdp_tpkt_parse (data : view) : res rdp_tpkt :=
  ensure (negb (view_null data) && (4 <=? view_len data)) LIBRDP_STATUS_PROTOCOL_ERROR;;
  with_stream data (
    version ← rdp_stream_read_u8;
    reserved ← rdp_stream_read_u8;
    total ← rdp_stream_read_u16_be;
    require ((version =? 3) && (reserved =? 0) && (4 <=? total) && (total <=? view_len data))
      LIBRDP_STATUS_PROTOCOL_ERROR;;
    payload ← lift (slice (view_bytes data) 4 (total - 4));
    mret {| tpkt_payload := payload; tpkt_payload_len := total - 4; tpkt_total_len := total |}).

(** The wire format. *)
Definition tpkt_frame (payload : list Z) : list Z :=
  [3] ++ [0] ++ be16 (blen payload + 4) ++ payload.

Definition tpkt_fits (payload : list Z) : Prop := blen payload <= UINT16_MAX - 4.

Lemma rdp_tpkt_write_spec v l :
  view_bytes v = l -> view_len v = blen l -> tpkt_fits l ->
  WritesAtomic (rdp_tpkt_write v) (tpkt_frame l) (fun _ => True).
Proof.
  intros Hv Hl Hfit. unfold tpkt_fits in Hfit. pose proof (blen_nonneg l).
  unfold rdp_tpkt_write. rewrite Hl. apply writes_atomic_require.
  { destruct v; cbn [view_null view_len] in *; [subst l; cbn in *|]; guard_lia. }
  eapply writes_atomic_bind.
  - apply (writes_local _ (tpkt_frame l)).
    { unfold tpkt_frame, UINT16_MAX in *. zlen. }
    unfold tpkt_frame. do 2 wstep.
    replace (be16 (blen l + 4)) with (be16 (u16 (blen l + 4))).
    2: { unfold u16. rewrite Z.mod_small; [done|]. unfold UINT16_MAX in *. lia. }
    wstep. by apply writes_append_bytes.
  - intros [[] t] (_ & Ht & Hc). by apply append_buffer_atomic.
Qed.

Lemma bytes_tpkt_frame l : bytes l -> bytes (tpkt_frame l).
Proof. unfold tpkt_frame. intros. solve_bytes. Qed.

(** C36: TPKT parsing and framing are inverse: the parser accepts exactly the
    byte strings that start with the frame of some payload of at most 65531
    bytes, and returns that payload. *)
Theorem tpkt_parse_iff_frame (d : list Z) (p : rdp_tpkt) :
  bytes d ->
  rdp_tpkt_parse (View d) = Ok p <->
  exists l rest, d = tpkt_frame l ++ rest /\ tpkt_fits l /\
    p = {| tpkt_payload := l; tpkt_payload_len := blen l; tpkt_total_len := blen l + 4 |}.
Proof.
  intros Hb. split.
  - unfold rdp_tpkt_parse. cbn [view_null view_len negb andb]. unfold ensure.
    destruct (Z.leb_spec 4 (blen d)); [|done]. intros Hp.
    apply with_view_Ok_inv in Hp as (s0 & s' & Hw & Hu & Hp); [|done].
    parse_inv Hp. subst.
    match goal with E : slice _ _ _ = Ok ?l |- _ =>
      apply slice_Ok_inv in E as (_ & _ & Hle & ->) end.
    match goal with E : unread s0 = _ |- _ => rename E into Hd end.
    cbn [view_bytes] in *. rewrite Hd in *. set (rest := unread s') in *.
    change (zdrop 4 (3 :: 0 :: be16 ?a ++ rest)) with rest.
    set (n := _ - 4) in *.
    assert (Hn : blen (ztake n rest) = n) by (apply blen_ztake; zlen).
    exists (ztake n rest), (zdrop n rest). unfold tpkt_frame, tpkt_fits. rewrite Hn.
    split; [|split; [guard_lia|f_equal; lia]].
    cbn [app]. rewrite <- app_assoc, ztake_zdrop. unfold n. by rewrite Z.sub_add.
  - intros (l & rest & -> & Hfit & ->). pose proof (blen_nonneg l).
    apply Forall_app in Hb as [Hbl Hbr].
    assert (Hl : blen (tpkt_frame l) = blen l + 4) by (unfold tpkt_frame; zlen).
    unfold rdp_tpkt_parse, ensure. cbn [view_null view_len view_bytes negb andb].
    rewrite blen_app, Hl. destruct (Z.leb_spec 4 (blen l + 4 + blen rest)); [|zlen].
    unfold mbind at 1, res_bind at 1.
    apply (parses_with_stream _ _ (l ++ rest)); [by apply Forall_app_2|].
    unfold tpkt_frame, tpkt_fits in *. rewrite <- !app_assoc. cbn [app].
    do 5 pstep.
    + apply (slice_app (3 :: 0 :: be16 (blen l + 4))); zlen.
    + replace (blen l + 4 - 4) with (blen l) by lia. pstep.
Qed.

Lemma tpkt_parse_iff_frame_witness :
  rdp_tpkt_parse (View [3; 0; 0; 6; 7; 8; 9]) = Ok (mk_rdp_tpkt [7; 8] 2 6).
Proof.
  apply (tpkt_parse_iff_frame [3; 0; 0; 6; 7; 8; 9] (mk_rdp_tpkt [7; 8] 2 6)); [by_evaluation|].
  exists [7; 8], [9]. split; [vm_compute; reflexivity|].
  split; [vm_compute; discriminate|vm_compute; reflexivity].
Defined.
