(* ===== verification/X224.v ===== *)
(** * X224: connection negotiation and data TPDUs

    Models [src/src/protocol/x224.c].  C strings are the lists of their
    characters before the terminating NUL. *)

From S2P Require Import Prelude Stream Buffer Tpkt.

Definition RDP_X224_PROTOCOL_STANDARD : Z := 0.

Record rdp_x224_negotiation := mk_negotiation {
  neg_present : bool;
  neg_failure : bool;
  neg_type : Z;
  neg_flags : Z;
  neg_length : Z;
  neg_selected_protocol : Z;
  neg_failure_code : Z;
}.
Definition no_negotiation : rdp_x224_negotiation := mk_negotiation false false 0 0 0 0 0.

Record rdp_x224_connection_confirm := mk_confirm {
  cc_destination_ref : Z;
  cc_source_ref : Z;
  cc_class_option : Z;
  cc_negotiation : rdp_x224_negotiation;
}.

Record rdp_x224_connection_request := mk_request {
  cr_destination_ref : Z;
  cr_source_ref : Z;
  cr_class_option : Z;
  cr_negotiation : rdp_x224_negotiation;
  cr_requested_protocols : Z;
  cr_routing_data : list Z;
  cr_routing_data_len : Z;
}.

(** "Cookie: mstshash=" and CR LF. *)
Definition cookie_prefix : list Z :=
  [67; 111; 111; 107; 105; 101; 58; 32; 109; 115; 116; 115; 104; 97; 115; 104; 61].
Definition cookie_suffix : list Z := [13; 10].

(** [user_len]: at most 64 characters of the cookie are sent. *)
Definition cookie_user (name : list Z) : list Z :=
  ztake (if 64 <? blen name then 64 else blen name) name.

(** The bytes between the fixed header and the negotiation block. *)
Definition connection_data_len (cookie_name : option (list Z)) (routing_data : view) : Z :=
  if 0 <? view_len routing_data then view_len routing_data
  else match cookie_name with
       | Some (c :: name) =>
           blen cookie_prefix + blen (cookie_user (c :: name)) + blen cookie_suffix
       | _ => 0
       end.

Definition rdp_x224_build_connection_request_ex (cookie_name : option (list Z))
    (routing_data : view) (protocols : Z) : writer unit :=
  require (negb (view_null routing_data && (0 <? view_len routing_data)))
    LIBRDP_STATUS_INVALID_ARGUMENT;;
  let negotiation_len := if protocols =? RDP_X224_PROTOCOL_STANDARD then 0 else 8 in
  let data_len := connection_data_len cookie_name routing_data in
  require (negb ((255 - 6 <? data_len) || (size_t (255 - 6 - data_len) <? negotiation_len)))
    LIBRDP_STATUS_INVALID_ARGUMENT;;
  let li := u8 (6 + data_len + negotiation_len) in
  rdp_buffer_append_u8 li;;
  rdp_buffer_append_u8 0xe0;;
  rdp_buffer_append_u16_be 0;;
  rdp_buffer_append_u16_be 0;;
  rdp_buffer_append_u8 0;;
  (if 0 <? view_len routing_data then rdp_buffer_append routing_data
   else match cookie_name with
        | Some (c :: name) =>
            rdp_buffer_append (View cookie_prefix);;
            rdp_buffer_append (View (cookie_user (c :: name)));;
            rdp_buffer_append (View cookie_suffix)
        | _ => mret tt
        end);;
  if protocols =? RDP_X224_PROTOCOL_STANDARD then mret tt
  else
    rdp_buffer_append_u8 1;;
    rdp_buffer_append_u8 0;;
    rdp_buffer_append_u16_le 8;;
    rdp_buffer_append_u32_le protocols.

Definition rdp_x224_build_connection_request (cookie_name : option (list Z)) (protocols : Z) :
    writer unit :=
  rdp_x224_build_connection_request_ex cookie_name (NullView 0) protocols.

Definition rdp_x224_parse_connection_request (payload : view) :
    res rdp_x224_connection_request :=
  ensure (negb (view_null payload) && (7 <=? view_len payload)) LIBRDP_STATUS_PROTOCOL_ERROR;;
  with_stream payload (
    li ← rdp_stream_read_u8;
    type ← rdp_stream_read_u8;
    require (negb (negb (type =? 0xe0) || (li <? 6) || (view_len payload <? li + 1)))
      LIBRDP_STATUS_PROTOCOL_ERROR;;
    destination_ref ← rdp_stream_read_u16_be;
    source_ref ← rdp_stream_read_u16_be;
    class_option ← rdp_stream_read_u8;
    let bytes := view_bytes payload in
    let end_ := li + 1 in
    negotiated ← (if 15 <=? end_ then
                    b ← lift (rd bytes (end_ - 8)); mret (b =? 1)
                  else mret false);
    '(negotiation, requested) ←
      (if (negotiated : bool) then
         block ← lift (slice bytes (end_ - 8) 8);
         lift (with_stream (View block) (
           neg_type ← rdp_stream_read_u8;
           flags ← rdp_stream_read_u8;
           length ← rdp_stream_read_u16_le;
           protocols ← rdp_stream_read_u32_le;
           require (negb (negb (neg_type =? 1) || negb (length =? 8)))
             LIBRDP_STATUS_PROTOCOL_ERROR;;
           mret (mk_negotiation true false neg_type flags length protocols 0, protocols)))
       else mret (no_negotiation, RDP_X224_PROTOCOL_STANDARD));
    let routing_len := end_ - 7 - (if neg_present negotiation then 8 else 0) in
    routing ← lift (slice bytes 7 routing_len);
    mret (mk_request destination_ref source_ref class_option negotiation requested
            routing routing_len)).

Definition rdp_x224_build_confirm_payload (negotiation_type negotiation_value : Z) : writer unit :=
  let nt := negb (negotiation_type =? 0) in
  rdp_buffer_append_u8 (u8 (6 + (if nt then 8 else 0)));;
  rdp_buffer_append_u8 0xd0;;
  rdp_buffer_append_u16_be 0;;
  rdp_buffer_append_u16_be 0;;
  rdp_buffer_append_u8 0;;
  if nt then
    rdp_buffer_append_u8 negotiation_type;;
    rdp_buffer_append_u8 0;;
    rdp_buffer_append_u16_le 8;;
    rdp_buffer_append_u32_le negotiation_value
  else mret tt.

Definition rdp_x224_build_connection_confirm_ex (selected_protocol : Z)
    (include_negotiation : bool) : writer unit :=
  payload ← with_local_buffer
    (rdp_x224_build_confirm_payload (if include_negotiation then 2 else 0) selected_protocol);
  rdp_tpkt_write (buffer_view payload.2).

Definition rdp_x224_build_connection_confirm (selected_protocol : Z) : writer unit :=
  rdp_x224_build_connection_confirm_ex selected_protocol
    (negb (selected_protocol =? RDP_X224_PROTOCOL_STANDARD)).

Definition rdp_x224_build_negotiation_failure (failure_code : Z) : writer unit :=
  payload ← with_local_buffer (rdp_x224_build_confirm_payload 3 failure_code);
  rdp_tpkt_write (buffer_view payload.2).

Definition rdp_x224_parse_connection_confirm (payload : view) :
    res rdp_x224_connection_confirm :=
  ensure (negb (view_null payload) && (7 <=? view_len payload)) LIBRDP_STATUS_PROTOCOL_ERROR;;
  with_stream payload (
    li ← rdp_stream_read_u8;
    type ← rdp_stream_read_u8;
    require (negb (negb (type =? 0xd0) || (view_len payload <? li + 1) || (li <? 6)))
      LIBRDP_STATUS_PROTOCOL_ERROR;;
    destination_ref ← rdp_stream_read_u16_be;
    source_ref ← rdp_stream_read_u16_be;
    class_option ← rdp_stream_read_u8;
    remaining ← rdp_stream_remaining;
    negotiation ←
      (if 8 <=? remaining then
         neg_type ← rdp_stream_read_u8;
         flags ← rdp_stream_read_u8;
         length ← rdp_stream_read_u16_le;
         value ← rdp_stream_read_u32_le;
         require (negb ((negb (neg_type =? 2) && negb (neg_type =? 3)) || negb (length =? 8)))
           LIBRDP_STATUS_PROTOCOL_ERROR;;
         mret (mk_negotiation true (neg_type =? 3) neg_type flags length
                 (if neg_type =? 2 then value else 0)
                 (if neg_type =? 2 then 0 else value))
       else mret no_negotiation);
    mret (mk_confirm destination_ref source_ref class_option negotiation)).

Definition rdp_x224_wrap_data (payload : view) : writer unit :=
  require (negb (view_null payload && (0 <? view_len payload))) LIBRDP_STATUS_INVALID_ARGUMENT;;
  rdp_buffer_append_u8 0x02;;
  rdp_buffer_append_u8 0xf0;;
  rdp_buffer_append_u8 0x80;;
  rdp_buffer_append payload.

Definition rdp_x224_parse_data (payload : view) : res (list Z) :=
  ensure (negb (view_null payload) && (3 <=? view_len payload)) LIBRDP_STATUS_PROTOCOL_ERROR;;
  b0 ← rd (view_bytes payload) 0;
  b1 ← rd (view_bytes payload) 1;
  b2 ← rd (view_bytes payload) 2;
  ensure (negb (negb (b0 =? 0x02) || negb (b1 =? 0xf0) || negb (b2 =? 0x80)))
    LIBRDP_STATUS_PROTOCOL_ERROR;;
  slice (view_bytes payload) 3 (view_len payload - 3).

(** ** The wire formats *)

Definition negotiation_enc (type value : Z) : list Z :=
  [type] ++ [0] ++ le16 8 ++ le32 value.

(** The routing token or the cookie line. *)
Definition connection_data (cookie_name : option (list Z)) (routing_data : view) : list Z :=
  if 0 <? view_len routing_data then view_bytes routing_data
  else match cookie_name with
       | Some (c :: name) => cookie_prefix ++ cookie_user (c :: name) ++ cookie_suffix
       | _ => []
       end.

Definition request_negotiation_enc (protocols : Z) : list Z :=
  if protocols =? RDP_X224_PROTOCOL_STANDARD then [] else negotiation_enc 1 protocols.

Definition connection_request_enc (data : list Z) (protocols : Z) : list Z :=
  let negotiation := request_negotiation_enc protocols in
  [6 + blen data + blen negotiation] ++ [0xe0] ++ be16 0 ++ be16 0 ++ [0] ++
  data ++ negotiation.

Definition confirm_enc (type value : Z) : list Z :=
  [6 + (if type =? 0 then 0 else 8)] ++ [0xd0] ++ be16 0 ++ be16 0 ++ [0] ++
  (if type =? 0 then [] else negotiation_enc type value).

Definition data_header : list Z := [0x02; 0xf0; 0x80].

(** ** Lemmas *)

Lemma blen_cookie_user name : blen (cookie_user name) = Z.min 64 (blen name).
Proof.
  unfold cookie_user. pose proof (blen_nonneg name).
  destruct (Z.ltb_spec 64 (blen name)); rewrite blen_ztake; lia.
Qed.

Lemma blen_negotiation_enc t v : blen (negotiation_enc t v) = 8.
Proof. done. Qed.
#[export] Hint Rewrite blen_negotiation_enc blen_cookie_user : blen.

(** A view whose NULL case has length zero, as every caller passes. *)
Definition view_ok (v : view) : Prop := view_len v = blen (view_bytes v).

Lemma view_ok_guard v : view_ok v -> negb (view_null v && (0 <? view_len v)) = true.
Proof. destruct v; [|done]. unfold view_ok. cbn. intros ->. done. Qed.

Lemma connection_data_len_ok cookie v :
  view_ok v -> connection_data_len cookie v = blen (connection_data cookie v).
Proof.
  intros Hv. unfold connection_data_len, connection_data.
  destruct (Z.ltb_spec 0 (view_len v)); [done|].
  destruct cookie as [[|c name]|]; [done| |done]. rewrite !blen_app. lia.
Qed.

Lemma rdp_x224_build_connection_request_ex_spec cookie v protocols :
  view_ok v -> blen (connection_data cookie v) + blen (request_negotiation_enc protocols) <= 249 ->
  Writes (rdp_x224_build_connection_request_ex cookie v protocols)
    (connection_request_enc (connection_data cookie v) protocols) (fun _ => True).
Proof.
  intros Hv Hfit. unfold rdp_x224_build_connection_request_ex.
  rewrite connection_data_len_ok by done. set (data := connection_data cookie v) in *.
  assert (Hn : blen (request_negotiation_enc protocols) =
    if protocols =? RDP_X224_PROTOCOL_STANDARD then 0 else 8).
  { unfold request_negotiation_enc. by destruct (protocols =? _). }
  rewrite Hn in Hfit. apply writes_require; [by apply view_ok_guard|]. apply writes_require.
  { unfold size_t. rewrite Z.mod_small; [|zlen; destruct (protocols =? _); lia].
    destruct (protocols =? _); guard_lia. }
  unfold connection_request_enc. rewrite Hn.
  replace (u8 (6 + blen data + _)) with (6 + blen data + (if protocols =? RDP_X224_PROTOCOL_STANDARD then 0 else 8)).
  2: { unfold u8. rewrite Z.mod_small; [done|]. destruct (protocols =? _); zlen. }
  do 5 wstep. eapply writes_bind.
  - unfold data, connection_data. destruct (Z.ltb_spec 0 (view_len v)).
    + by apply writes_append_bytes.
    + destruct cookie as [[|c name]|]; [by apply writes_ret| |by apply writes_ret].
      do 2 wstep. eauto with writes.
  - intros [] _. unfold request_negotiation_enc.
    destruct (protocols =? RDP_X224_PROTOCOL_STANDARD); [by apply writes_ret|].
    unfold negotiation_enc. do 3 wstep. eauto with writes.
Qed.

Lemma rdp_x224_build_confirm_payload_spec type value :
  Writes (rdp_x224_build_confirm_payload type value) (confirm_enc type value) (fun _ => True).
Proof.
  unfold rdp_x224_build_confirm_payload, confirm_enc, negotiation_enc.
  destruct (type =? 0); cbn [negb]; do 5 wstep; [by apply writes_ret|].
  do 3 wstep. eauto with writes.
Qed.

Lemma build_confirm_frame type value :
  WritesAtomic (payload ← with_local_buffer (rdp_x224_build_confirm_payload type value);
                rdp_tpkt_write (buffer_view payload.2))
    (tpkt_frame (confirm_enc type value)) (fun _ => True).
Proof.
  assert (Hlen : blen (confirm_enc type value) <= 15).
  { unfold confirm_enc. destruct (type =? 0); done. }
  eapply writes_atomic_bind.
  - apply (writes_local _ (confirm_enc type value)); [lia|].
    apply rdp_x224_build_confirm_payload_spec.
  - intros [[] t] (_ & Ht & Hc). cbn [snd] in *. destruct (buffer_view_contents t Ht) as [Hv Hl].
    apply rdp_tpkt_write_spec; [congruence|congruence|]. unfold tpkt_fits, UINT16_MAX. lia.
Qed.

(** The parse of the negotiation block of a request. *)
Lemma parse_request_negotiation protocols :
  is_u32 protocols ->
  with_stream (View (negotiation_enc 1 protocols)) (
    neg_type ← rdp_stream_read_u8;
    flags ← rdp_stream_read_u8;
    length ← rdp_stream_read_u16_le;
    protocols ← rdp_stream_read_u32_le;
    require (negb (negb (neg_type =? 1) || negb (length =? 8))) LIBRDP_STATUS_PROTOCOL_ERROR;;
    mret (mk_negotiation true false neg_type flags length protocols 0, protocols)) =
  Ok (mk_negotiation true false 1 0 8 protocols 0, protocols).
Proof.
  intros Hp. apply (parses_with_stream _ _ []).
  { unfold negotiation_enc. solve_bytes. }
  unfold negotiation_enc. rewrite <- (app_nil_r (le32 protocols)). do 6 pstep.
Qed.

Lemma parses_rd_test c (o : res Z) l f b :
  (if (c : bool) then x ← o; Ok (f x) else Ok false) = Ok b ->
  Parses (if c then x ← lift o; mret (f x) else mret false) l l b.
Proof.
  destruct c; [|intros [= <-]; apply parses_ret]. destruct o as [x| |]; [|done..]. intros [= <-].
  eapply parses_bind; [by apply parses_lift|]. apply parses_ret.
Qed.

(** The byte the parser takes for the negotiation tag. *)
Lemma request_tag hd data protocols rest :
  blen hd = 7 ->
  (protocols = RDP_X224_PROTOCOL_STANDARD -> 8 <= blen data ->
     data !! Z.to_nat (blen data - 8) <> Some 1) ->
  let neg := request_negotiation_enc protocols in
  let end_ := 7 + blen data + blen neg in
  exists b, (if 15 <=? end_ then x ← rd (hd ++ data ++ neg ++ rest) (end_ - 8); Ok (x =? 1)
             else Ok false) = Ok b /\ b = negb (protocols =? RDP_X224_PROTOCOL_STANDARD).
Proof.
  intros Hhd Htail neg end_. eexists; split; [|done]. unfold end_, neg, request_negotiation_enc.
  destruct (Z.eqb_spec protocols RDP_X224_PROTOCOL_STANDARD) as [E|E]; cbn [negb].
  - specialize (Htail E). rewrite blen_nil.
    destruct (Z.leb_spec 15 (7 + blen data + 0)) as [Hle|]; [|done].
    replace (7 + blen data + 0 - 8) with (blen hd + (blen data - 8)) by lia.
    rewrite rd_app_r, rd_app_l by lia.
    destruct (rd_ok data (blen data - 8)) as (x & Hx & Hl); [lia|]. rewrite Hx. cbn.
    f_equal. apply Z.eqb_neq. intros ->. by apply Htail; [lia|].
  - rewrite blen_negotiation_enc. destruct (Z.leb_spec 15 (7 + blen data + 8)); [|zlen].
    replace (7 + blen data + 8 - 8) with (blen hd + (blen data + 0)) by lia.
    rewrite !rd_app_r by zlen. done.
Qed.

(** The client's parse of a confirm with a negotiation block. *)
Lemma parse_confirm type value :
  is_u32 value -> (type = 2 \/ type = 3) ->
  rdp_x224_parse_connection_confirm (View (confirm_enc type value)) =
    Ok (mk_confirm 0 0 0 (mk_negotiation true (type =? 3) type 0 8
          (if type =? 2 then value else 0) (if type =? 2 then 0 else value))).
Proof.
  intros Hv Ht. assert (Ht0 : (type =? 0) = false) by lia.
  assert (He : confirm_enc type value =
    [14; 0xd0] ++ be16 0 ++ be16 0 ++ [0; type; 0] ++ le16 8 ++ le32 value ++ []).
  { unfold confirm_enc, negotiation_enc. rewrite Ht0, app_nil_r. done. }
  unfold rdp_x224_parse_connection_confirm. rewrite He. cbn [view_null view_len].
  rewrite ensure_true by guard_lia. apply (parses_with_stream _ _ []).
  { solve_bytes. }
  do 7 pstep.
  eapply parses_bind; [apply parses_if_true; [guard_lia|]; do 6 pstep|]. pstep.
Qed.

(** round trip of the client's connection request: whatever cookie or
    routing token and protocols are asked for, the request the client builds is
    accepted by the server's parser, which recovers the routing bytes and the
    requested protocols (when no negotiation block is sent, the eighth byte from
    the end of the routing bytes must not be 1, the tag the parser looks for). *)
Theorem connection_request_roundtrip cookie v protocols rest :
  view_ok v -> bytes (connection_data cookie v) -> is_u32 protocols -> bytes rest ->
  let data := connection_data cookie v in
  blen data + blen (request_negotiation_enc protocols) <= 249 ->
  (protocols = RDP_X224_PROTOCOL_STANDARD -> 8 <= blen data ->
     data !! Z.to_nat (blen data - 8) <> Some 1) ->
  Writes (rdp_x224_build_connection_request_ex cookie v protocols)
    (connection_request_enc data protocols) (fun _ => True) /\
  rdp_x224_parse_connection_request (View (connection_request_enc data protocols ++ rest)) =
    Ok (mk_request 0 0 0
          (if protocols =? RDP_X224_PROTOCOL_STANDARD then no_negotiation
           else mk_negotiation true false 1 0 8 protocols 0)
          protocols data (blen data)).
Proof.
  intros Hv Hb Hp Hr data Hfit Htail. split.
  { by apply rdp_x224_build_connection_request_ex_spec. }
  set (neg := request_negotiation_enc protocols) in *.
  set (li := 6 + blen data + blen neg).
  set (hd := [li] ++ [0xe0] ++ be16 0 ++ be16 0 ++ [0]).
  assert (Henc : connection_request_enc data protocols ++ rest = hd ++ data ++ neg ++ rest).
  { unfold connection_request_enc, hd. fold neg li. by rewrite <- !app_assoc. }
  assert (Hhd : blen hd = 7) by done. rewrite Henc.
  assert (Hbn : bytes neg).
  { unfold neg, request_negotiation_enc, negotiation_enc. destruct (protocols =? _); [constructor|].
    solve_bytes. }
  unfold rdp_x224_parse_connection_request. cbn [view_null view_len view_bytes].
  rewrite ensure_true by guard_lia. apply (parses_with_stream _ _ (data ++ neg ++ rest)).
  { unfold hd, li. solve_bytes. }
  unfold hd at 2. do 6 pstep. cbv zeta.
  destruct (request_tag hd data protocols rest Hhd Htail) as (b & Htag & ->).
  fold neg in Htag. replace (li + 1) with (7 + blen data + blen neg) by (unfold li; lia).
  set (end_ := 7 + blen data + blen neg) in *.
  eapply parses_bind.
  { eapply (parses_rd_test _ _ _ (fun x => x =? 1)). exact Htag. }
  assert (Hroute : slice (hd ++ data ++ neg ++ rest) 7 (blen data) = Ok data)
    by (by apply slice_app).
  destruct (Z.eqb_spec protocols RDP_X224_PROTOCOL_STANDARD) as [E|E]; cbn [negb].
  - eapply parses_bind; [apply parses_ret|]. cbv beta iota zeta. cbn [neg_present no_negotiation].
    assert (Hn : blen neg = 0) by (unfold neg; by rewrite E).
    replace (end_ - 7 - 0) with (blen data) by (unfold end_; lia).
    pstep; [exact Hroute|]. rewrite E. pstep.
  - assert (Hn : neg = negotiation_enc 1 protocols).
    { unfold neg, request_negotiation_enc. by destruct (Z.eqb_spec protocols RDP_X224_PROTOCOL_STANDARD). }
    assert (Hend : end_ = 15 + blen data) by (unfold end_; rewrite Hn; zlen).
    eapply parses_bind.
    { pstep.
      - rewrite Hend, app_assoc. apply (slice_app (hd ++ data) neg rest); [|by rewrite Hn].
        rewrite blen_app, Hhd. lia.
      - apply parses_lift. rewrite Hn. by apply parse_request_negotiation. }
    cbv beta iota zeta. cbn [neg_present].
    replace (end_ - 7 - 8) with (blen data) by lia. pstep; [exact Hroute|]. pstep.
Qed.

(** Round trip of the server's answer: the confirm and the failure PDUs are
    TPKT frames whose payload the client's parser accepts, returning the selected
    protocol (or none, when no negotiation block was asked for) or the failure
    code. *)
Theorem connection_confirm_roundtrip value (include_negotiation : bool) :
  is_u32 value ->
  let type := if include_negotiation then 2 else 0 in
  WritesAtomic (rdp_x224_build_connection_confirm_ex value include_negotiation)
    (tpkt_frame (confirm_enc type value)) (fun _ => True) /\
  rdp_x224_parse_connection_confirm (View (confirm_enc type value)) =
    Ok (mk_confirm 0 0 0 (if include_negotiation then mk_negotiation true false 2 0 8 value 0
                          else no_negotiation)) /\
  WritesAtomic (rdp_x224_build_negotiation_failure value)
    (tpkt_frame (confirm_enc 3 value)) (fun _ => True) /\
  rdp_x224_parse_connection_confirm (View (confirm_enc 3 value)) =
    Ok (mk_confirm 0 0 0 (mk_negotiation true true 3 0 8 0 value)).
Proof.
  intros Hv type. split; [apply build_confirm_frame|]. split.
  { destruct include_negotiation; [apply (parse_confirm 2); auto|done]. }
  split; [apply build_confirm_frame|]. apply (parse_confirm 3); auto.
Qed.

(** The data TPDU parser accepts exactly the wrapped payloads. *)
Theorem x224_data_iff (d l : list Z) :
  rdp_x224_parse_data (View d) = Ok l <-> d = data_header ++ l.
Proof.
  unfold rdp_x224_parse_data, data_header. cbn [view_null view_len view_bytes].
  rewrite ensure_bind. split.
  - destruct d as [|b0 [|b1 [|b2 r]]]; [intros H; discriminate H..|].
    destruct (Z.leb_spec 3 (blen (b0 :: b1 :: b2 :: r))); [|zlen]. cbn [negb andb].
    rewrite (rd_lookup _ 0 b0), (rd_lookup _ 1 b1), (rd_lookup _ 2 b2) by done.
    cbn [mbind res_bind]. rewrite ensure_bind.
    destruct (negb _) eqn:E; [|done]. bool_prop. subst.
    intros (_ & _ & _ & ->)%slice_Ok_inv.
    change (zdrop 3 (0x02 :: 0xf0 :: 0x80 :: r)) with r. rewrite ztake_all by zlen. done.
  - intros ->. cbn [app].
    destruct (Z.leb_spec 3 (blen (0x02 :: 0xf0 :: 0x80 :: l))); [|zlen]. cbn [negb andb].
    rewrite (rd_lookup _ 0 2), (rd_lookup _ 1 0xf0), (rd_lookup _ 2 0x80) by done.
    cbn [mbind res_bind]. rewrite ensure_true by done.
    rewrite <- (app_nil_r l) at 1. apply (slice_app [0x02; 0xf0; 0x80]); [done|zlen].
Qed.

Lemma tpkt_parse_safe d : bytes d -> rdp_tpkt_parse (View d) <> Fault.
Proof.
  intros Hb. unfold rdp_tpkt_parse. rewrite ensure_bind. destruct (_ && _); [|done].
  apply with_stream_safe with (fun _ => True); [|done]. repeat safe_step; try done.
  bool_prop. apply slice_no_fault; cbn in *; lia.
Qed.

Lemma request_parse_safe d : bytes d -> rdp_x224_parse_connection_request (View d) <> Fault.
Proof.
  intros Hb. unfold rdp_x224_parse_connection_request. rewrite ensure_bind.
  destruct (_ && _); [|done]. apply with_stream_safe with (fun _ => True); [|done].
  cbn [view_len view_bytes]. do 6 safe_step. cbv zeta. bool_prop.
  eapply (safe_bind _ _ (fun b => b = true -> 15 <= a + 1)).
  { safe_step; [|by apply safe_ret]. bool_prop. repeat safe_step; [apply rd_no_fault; lia|lia]. }
  intros b Hn. eapply (safe_bind _ _ (fun p => neg_present p.1 = true -> b = true)).
  { safe_step; [|by apply safe_ret]. subst b. specialize (Hn eq_refl). repeat safe_step.
    - apply slice_no_fault; lia.
    - match goal with E : slice _ _ _ = Ok _ |- _ => apply slice_Ok_inv in E as (_ & _ & _ & ->) end.
      apply safe_lift; [|by intros].
      apply with_stream_safe with (fun _ => True); [|by apply Forall_ztake, Forall_zdrop].
      by repeat safe_step. }
  intros [neg req] Hp. cbn [fst] in Hp. safe_step; [|by apply safe_ret].
  apply slice_no_fault; [lia|destruct (neg_present neg)..]; try lia.
  - specialize (Hn (Hp eq_refl)). lia.
Qed.

(** Memory safety of the TPKT and X.224 parsers: whatever bytes arrive, no
    parser reads outside them. *)
Theorem x224_parsers_safe (d : list Z) :
  bytes d ->
  rdp_tpkt_parse (View d) <> Fault /\
  rdp_x224_parse_connection_request (View d) <> Fault /\
  rdp_x224_parse_connection_confirm (View d) <> Fault /\
  rdp_x224_parse_data (View d) <> Fault.
Proof.
  intros Hb. split; [by apply tpkt_parse_safe|]. split; [by apply request_parse_safe|]. split.
  - unfold rdp_x224_parse_connection_confirm. rewrite ensure_bind. destruct (_ && _); [|done].
    apply with_stream_safe with (fun _ => True); [|done]. do 7 safe_step.
    eapply (safe_bind _ _ (fun _ => True)); [|by intros; apply safe_ret].
    by repeat safe_step.
  - unfold rdp_x224_parse_data. rewrite ensure_bind. cbn [view_null view_len view_bytes].
    destruct (Z.leb_spec 3 (blen d)); [|done]. cbn [negb andb].
    destruct d as [|b0 [|b1 [|b2 r]]]; [zlen..|].
    rewrite (rd_lookup _ 0 b0), (rd_lookup _ 1 b1), (rd_lookup _ 2 b2) by done.
    cbn [mbind res_bind]. rewrite ensure_bind. destruct (negb _); [|done].
    apply slice_no_fault; zlen.
Qed.

Lemma connection_request_roundtrip_witness :
  rdp_x224_parse_connection_request
    (View (connection_request_enc (connection_data (Some [0x75; 0x73]) (NullView 0)) 3 ++ [])) =
  Ok (mk_request 0 0 0 (mk_negotiation true false 1 0 8 3 0) 3
        (connection_data (Some [0x75; 0x73]) (NullView 0))
        (blen (connection_data (Some [0x75; 0x73]) (NullView 0)))).
Proof.
  apply (connection_request_roundtrip (Some [0x75; 0x73]) (NullView 0) 3 []).
  - vm_compute. reflexivity.
  - by_evaluation.
  - by_evaluation.
  - by_evaluation.
  - vm_compute. discriminate.
  - vm_compute. discriminate.
Defined.

Lemma connection_confirm_roundtrip_witness :
  rdp_x224_parse_connection_confirm (View (confirm_enc 2 2)) =
    Ok (mk_confirm 0 0 0 (mk_negotiation true false 2 0 8 2 0)).
Proof. apply (connection_confirm_roundtrip 2 true). by_evaluation. Defined.

Lemma x224_parsers_safe_witness :
  rdp_x224_parse_connection_request (View [14; 0xe0; 0; 0; 0; 0; 0; 1; 0; 8; 0; 1; 0; 0; 0]) <> Fault.
Proof. apply (x224_parsers_safe [14; 0xe0; 0; 0; 0; 0; 0; 1; 0; 8; 0; 1; 0; 0; 0]). by_evaluation. Defined.
