(* ===== verification/Mcs.v ===== *)
(** * Mcs: T.125 connect and domain PDUs

    Models [src/src/protocol/mcs.c]: the BER and aligned-PER primitives, the
    Connect-Initial / Connect-Response PDUs (with the recursive scan of the
    response), and the domain PDUs of the channel-join sequence. *)

From S2P Require Import Prelude Stream Buffer.

Definition RDP_MCS_PDU_ERECT_DOMAIN_REQUEST : Z := 1.
Definition RDP_MCS_DOMAIN_PDU_DISCONNECT_PROVIDER_ULTIMATUM : Z := 8.
Definition RDP_MCS_PDU_ATTACH_USER_REQUEST : Z := 10.
Definition RDP_MCS_PDU_ATTACH_USER_CONFIRM : Z := 11.
Definition RDP_MCS_PDU_CHANNEL_JOIN_REQUEST : Z := 14.
Definition RDP_MCS_PDU_CHANNEL_JOIN_CONFIRM : Z := 15.
Definition RDP_MCS_PDU_SEND_DATA_REQUEST : Z := 25.
Definition RDP_MCS_PDU_SEND_DATA_INDICATION : Z := 26.
Definition RDP_MCS_BASE_CHANNEL_ID : Z := 1001.
Definition RDP_MCS_MAX_PDU_SIZE : Z := 65528.

Record rdp_mcs_connect_response := mk_connect_response {
  mcr_has_result : bool;
  mcr_result : Z;
  mcr_user_data : list Z;
  mcr_user_data_len : Z;
}.
Record rdp_mcs_connect_initial := mk_connect_initial {
  mci_user_data : list Z;
  mci_user_data_len : Z;
}.
Record rdp_mcs_attach_user_confirm := mk_attach_user_confirm {
  auc_result : Z;
  auc_user_id : Z;
}.
Record rdp_mcs_channel_join_confirm := mk_channel_join_confirm {
  cjc_result : Z;
  cjc_initiator : Z;
  cjc_requested_channel_id : Z;
  cjc_channel_id : Z;
}.
Record rdp_mcs_channel_join_request := mk_channel_join_request {
  cjr_initiator : Z;
  cjr_channel_id : Z;
}.
Record rdp_mcs_send_data_indication := mk_send_data_indication {
  sdi_initiator : Z;
  sdi_channel_id : Z;
  sdi_payload : list Z;
  sdi_payload_len : Z;
}.

(** ** Aligned PER *)

Definition rdp_mcs_write_per_length (length : Z) : writer unit :=
  require (length <=? 0x7fff) LIBRDP_STATUS_INVALID_ARGUMENT;;
  if 0x7f <? length then rdp_buffer_append_u16_be (u16 (Z.lor length 0x8000))
  else rdp_buffer_append_u8 (u8 length).

Definition rdp_mcs_write_domain_choice (pdu_type options : Z) : writer unit :=
  require (negb ((0x3f <? pdu_type) || (0x03 <? options))) LIBRDP_STATUS_INVALID_ARGUMENT;;
  rdp_buffer_append_u8 (u8 (Z.lor (Z.shiftl pdu_type 2) options)).

Definition rdp_mcs_read_domain_choice (expected_type : Z) : reader Z :=
  value ← rdp_stream_read_u8;
  require (u8 (Z.shiftr value 2) =? expected_type) LIBRDP_STATUS_PROTOCOL_ERROR;;
  mret (Z.land value 0x03).

Definition rdp_mcs_write_per_integer (value : Z) : writer unit :=
  if value <=? 0xff then
    rdp_buffer_append_u8 1;; rdp_buffer_append_u8 (u8 value)
  else if value <=? 0xffff then
    rdp_buffer_append_u8 2;; rdp_buffer_append_u16_be (u16 value)
  else
    rdp_buffer_append_u8 4;; rdp_buffer_append_u32_be value.

Definition rdp_mcs_read_per_length : reader Z :=
  first ← rdp_stream_read_u8;
  if Z.land first 0x80 =? 0 then mret first
  else
    second ← rdp_stream_read_u8;
    mret (Z.lor (Z.shiftl (Z.land first 0x7f) 8) second).

Definition rdp_mcs_read_per_integer : reader Z :=
  length ← rdp_mcs_read_per_length;
  if length =? 1 then rdp_stream_read_u8
  else if length =? 2 then rdp_stream_read_u16_be
  else if length =? 4 then rdp_stream_read_u32_be
  else fail LIBRDP_STATUS_PROTOCOL_ERROR.

Definition rdp_mcs_write_per_integer16 (value min : Z) : writer unit :=
  require (negb (value <? min)) LIBRDP_STATUS_INVALID_ARGUMENT;;
  rdp_buffer_append_u16_be (u16 (value - min)).

Definition rdp_mcs_read_per_integer16 (min : Z) : reader Z :=
  raw ← rdp_stream_read_u16_be;
  let decoded := u32 (raw + min) in
  require (negb (UINT16_MAX <? decoded)) LIBRDP_STATUS_PROTOCOL_ERROR;;
  mret (u16 decoded).

Definition rdp_mcs_read_per_enum : reader Z := rdp_stream_read_u8.

(** ** BER *)

(** The loop that stores the bytes of [value] backwards into [tmp[8]]; [acc] is
    the part of [tmp] already stored, so [count] is its length. *)
Fixpoint ber_length_digits (fuel : nat) (value : Z) (acc : list Z) : res (list Z) :=
  if 0 <? value then
    match fuel with
    | O => Fault
    | S fuel =>
        if 8 <=? blen acc then Fault
        else ber_length_digits fuel (Z.shiftr value 8) (Z.land value 0xff :: acc)
    end
  else Ok acc.

(** [for (...) append_u8(tmp[i])]. *)
Fixpoint append_each (l : list Z) : writer unit :=
  match l with
  | [] => mret tt
  | b :: l => rdp_buffer_append_u8 b;; append_each l
  end.

Definition rdp_mcs_write_ber_length (length : Z) : writer unit :=
  if length <? 0x80 then rdp_buffer_append_u8 (u8 length)
  else
    digits ← lift (ber_length_digits 8 length []);
    require (negb (0x7f <? blen digits)) LIBRDP_STATUS_INVALID_ARGUMENT;;
    rdp_buffer_append_u8 (u8 (Z.lor 0x80 (blen digits)));;
    append_each digits.

Fixpoint ber_length_value (count : nat) (value : Z) : reader Z :=
  match count with
  | O => mret value
  | S count =>
      byte ← rdp_stream_read_u8;
      ber_length_value count (Z.lor (size_t (Z.shiftl value 8)) byte)
  end.

Definition rdp_mcs_read_ber_length : reader Z :=
  first ← rdp_stream_read_u8;
  if Z.land first 0x80 =? 0 then mret first
  else
    let count := Z.land first 0x7f in
    remaining ← rdp_stream_remaining;
    require (negb ((count =? 0) || (8 <? count) || (remaining <? count)))
      LIBRDP_STATUS_PROTOCOL_ERROR;;
    ber_length_value (Z.to_nat count) 0.

Definition rdp_mcs_write_ber_tag (tag : list Z) (length : Z) : writer unit :=
  require (negb (blen tag =? 0)) LIBRDP_STATUS_INVALID_ARGUMENT;;
  rdp_buffer_append (View tag);;
  rdp_mcs_write_ber_length length.

(** [while (first < 3 && bytes[first] == 0 && (bytes[first+1] & 0x80) == 0) first++;]
    over the bytes from [first] on. *)
Fixpoint ber_strip (bytes : list Z) : list Z :=
  match bytes with
  | b0 :: (b1 :: _) as rest =>
      if (b0 =? 0) && (Z.land b1 0x80 =? 0) then ber_strip rest else bytes
  | _ => bytes
  end.

Definition ber_integer_body (value : Z) : list Z :=
  let bytes := ber_strip (be32 value) in
  if negb (Z.land (default 0 (head bytes)) 0x80 =? 0) then 0 :: bytes else bytes.

Definition rdp_mcs_write_ber_integer (value : Z) : writer unit :=
  rdp_buffer_append_u8 0x02;;
  rdp_mcs_write_ber_length (blen (ber_integer_body value));;
  rdp_buffer_append (View (ber_integer_body value)).

Definition rdp_mcs_write_ber_octet_string (data : view) : writer unit :=
  require (negb (view_null data && (0 <? view_len data))) LIBRDP_STATUS_INVALID_ARGUMENT;;
  rdp_buffer_append_u8 0x04;;
  rdp_mcs_write_ber_length (view_len data);;
  rdp_buffer_append data.

Definition rdp_mcs_read_ber_octet_string : reader (list Z * Z) :=
  tag ← rdp_stream_read_u8;
  require (tag =? 0x04) LIBRDP_STATUS_PROTOCOL_ERROR;;
  length ← rdp_mcs_read_ber_length;
  data ← rdp_stream_read_bytes length;
  mret (data, length).

Definition rdp_mcs_skip_ber_sequence : reader unit :=
  tag ← rdp_stream_read_u8;
  require (tag =? 0x30) LIBRDP_STATUS_PROTOCOL_ERROR;;
  length ← rdp_mcs_read_ber_length;
  rdp_stream_skip length.

Definition rdp_mcs_read_upward_flag : reader unit :=
  tag ← rdp_stream_read_u8;
  require (tag =? 0x01) LIBRDP_STATUS_PROTOCOL_ERROR;;
  length ← rdp_mcs_read_ber_length;
  require (length =? 1) LIBRDP_STATUS_PROTOCOL_ERROR;;
  value ← rdp_stream_read_u8;
  require (negb (value =? 0)) LIBRDP_STATUS_PROTOCOL_ERROR.

(** ** Connect-Initial and Connect-Response *)

Definition rdp_mcs_write_domain_parameters
    (max_channels max_users max_tokens priorities min_throughput max_height max_pdu_size
     protocol_version : Z) : writer unit :=
  body ← with_local_buffer (
    rdp_mcs_write_ber_integer max_channels;;
    rdp_mcs_write_ber_integer max_users;;
    rdp_mcs_write_ber_integer max_tokens;;
    rdp_mcs_write_ber_integer priorities;;
    rdp_mcs_write_ber_integer min_throughput;;
    rdp_mcs_write_ber_integer max_height;;
    rdp_mcs_write_ber_integer max_pdu_size;;
    rdp_mcs_write_ber_integer protocol_version);
  rdp_mcs_write_ber_tag [0x30] (b_length body.2);;
  rdp_buffer_append (buffer_view body.2).

Definition rdp_mcs_write_connect_initial (gcc_data : view) : writer unit :=
  require (negb (view_null gcc_data && (0 <? view_len gcc_data))) LIBRDP_STATUS_INVALID_ARGUMENT;;
  body ← with_local_buffer (
    rdp_mcs_write_ber_octet_string (View [0x01]);;
    rdp_mcs_write_ber_octet_string (View [0x01]);;
    rdp_buffer_append (View [0x01; 0x01; 0xff]);;
    rdp_mcs_write_domain_parameters 34 2 0 1 0 1 65535 2;;
    rdp_mcs_write_domain_parameters 1 1 1 1 0 1 1056 2;;
    rdp_mcs_write_domain_parameters 65535 64535 65535 1 0 1 65535 2;;
    rdp_mcs_write_ber_octet_string gcc_data);
  rdp_mcs_write_ber_tag [0x7f; 0x65] (b_length body.2);;
  rdp_buffer_append (buffer_view body.2).

Definition rdp_mcs_write_connect_response (gcc_data : view) : writer unit :=
  require (negb (view_null gcc_data && (0 <? view_len gcc_data))) LIBRDP_STATUS_INVALID_ARGUMENT;;
  body ← with_local_buffer (
    rdp_buffer_append_u8 0x0a;;
    rdp_mcs_write_ber_length 1;;
    rdp_buffer_append_u8 0;;
    rdp_mcs_write_ber_integer 0;;
    rdp_mcs_write_domain_parameters 34 3 0 1 0 1 RDP_MCS_MAX_PDU_SIZE 2;;
    rdp_mcs_write_ber_octet_string gcc_data);
  rdp_mcs_write_ber_tag [0x7f; 0x66] (b_length body.2);;
  rdp_buffer_append (buffer_view body.2).

Definition rdp_mcs_parse_connect_initial (data : view) : res rdp_mcs_connect_initial :=
  ensure (negb (view_null data)) LIBRDP_STATUS_INVALID_ARGUMENT;;
  with_stream data (
    tag0 ← rdp_stream_read_u8;
    tag1 ← rdp_stream_read_u8;
    require ((tag0 =? 0x7f) && (tag1 =? 0x65)) LIBRDP_STATUS_PROTOCOL_ERROR;;
    body_len ← rdp_mcs_read_ber_length;
    remaining ← rdp_stream_remaining;
    require (body_len =? remaining) LIBRDP_STATUS_PROTOCOL_ERROR;;
    calling ← rdp_mcs_read_ber_octet_string;
    require (negb (calling.2 =? 0)) LIBRDP_STATUS_PROTOCOL_ERROR;;
    called ← rdp_mcs_read_ber_octet_string;
    require (negb (called.2 =? 0)) LIBRDP_STATUS_PROTOCOL_ERROR;;
    rdp_mcs_read_upward_flag;;
    rdp_mcs_skip_ber_sequence;;
    rdp_mcs_skip_ber_sequence;;
    rdp_mcs_skip_ber_sequence;;
    user_data ← rdp_mcs_read_ber_octet_string;
    remaining' ← rdp_stream_remaining;
    require (negb (user_data.2 =? 0) && (remaining' =? 0)) LIBRDP_STATUS_PROTOCOL_ERROR;;
    mret (mk_connect_initial user_data.1 user_data.2)).

(** The do-while loop over the subsequent tag octets ([tag[8]]). *)
Fixpoint ber_tag_octets (fuel : nat) (tag : list Z) : reader (list Z) :=
  match fuel with
  | O => fail LIBRDP_STATUS_PROTOCOL_ERROR   (* count >= 8 *)
  | S fuel =>
      next ← rdp_stream_read_u8;
      if negb (Z.land next 0x80 =? 0) then ber_tag_octets fuel (tag ++ [next])
      else mret (tag ++ [next])
  end.

Definition rdp_mcs_read_ber_tag : reader (list Z * bool) :=
  first ← rdp_stream_read_u8;
  let constructed := negb (Z.land first 0x20 =? 0) in
  tag ← (if Z.land first 0x1f =? 0x1f then ber_tag_octets 7 [first] else mret [first]);
  mret (tag, constructed).

(** The item loop of [rdp_mcs_scan_connect_response]; [scan] is the recursive
    call at the next depth. *)
Fixpoint scan_items
    (scan : list Z -> rdp_mcs_connect_response -> res rdp_mcs_connect_response)
    (fuel : nat) (response : rdp_mcs_connect_response) : reader rdp_mcs_connect_response :=
  remaining ← rdp_stream_remaining;
  if 0 <? remaining then
    match fuel with
    | O => lift Fault
    | S fuel =>
        '(tag, constructed) ← rdp_mcs_read_ber_tag;
        item_len ← rdp_mcs_read_ber_length;
        remaining' ← rdp_stream_remaining;
        require (negb (remaining' <? item_len)) LIBRDP_STATUS_PROTOCOL_ERROR;;
        payload ← rdp_stream_read_bytes item_len;
        response' ←
          (if bool_decide (tag = [0x0a]) && (item_len =? 1) then
             result ← lift (rd payload 0);
             mret (mk_connect_response true result (mcr_user_data response)
                     (mcr_user_data_len response))
           else if bool_decide (tag = [0x04]) then
             mret (mk_connect_response (mcr_has_result response) (mcr_result response)
                     payload item_len)
           else if (constructed : bool) then lift (scan payload response)
           else mret response);
        scan_items scan fuel response'
    end
  else
    require (mcr_has_result response) LIBRDP_STATUS_PROTOCOL_ERROR;;
    mret response.

(** [levels] is [9 - depth]: the scan is refused when [depth > 8].  Every item
    takes at least two bytes, so [length data] iterations are enough. *)
Fixpoint rdp_mcs_scan_connect_response (levels : nat) (data : list Z)
    (response : rdp_mcs_connect_response) : res rdp_mcs_connect_response :=
  match levels with
  | O => Err LIBRDP_STATUS_PROTOCOL_ERROR
  | S levels =>
      with_stream (View data)
        (scan_items (rdp_mcs_scan_connect_response levels) (length data) response)
  end.

Definition rdp_mcs_parse_connect_response (data : view) : res rdp_mcs_connect_response :=
  ensure (negb (view_null data)) LIBRDP_STATUS_INVALID_ARGUMENT;;
  rdp_mcs_scan_connect_response 9 (view_bytes data) (mk_connect_response false 0 [] 0).

(** ** Domain PDUs *)

Definition rdp_mcs_write_erect_domain_request : writer unit :=
  rdp_mcs_write_domain_choice RDP_MCS_PDU_ERECT_DOMAIN_REQUEST 0;;
  rdp_mcs_write_per_integer 0;;
  rdp_mcs_write_per_integer 0.

Definition rdp_mcs_parse_erect_domain_request (data : view) : res unit :=
  ensure (negb (view_null data)) LIBRDP_STATUS_INVALID_ARGUMENT;;
  with_stream data (
    rdp_mcs_read_domain_choice RDP_MCS_PDU_ERECT_DOMAIN_REQUEST;;
    rdp_mcs_read_per_integer;;
    rdp_mcs_read_per_integer;;
    remaining ← rdp_stream_remaining;
    require (remaining =? 0) LIBRDP_STATUS_PROTOCOL_ERROR).

Definition rdp_mcs_write_attach_user_request : writer unit :=
  rdp_mcs_write_domain_choice RDP_MCS_PDU_ATTACH_USER_REQUEST 0.

Definition rdp_mcs_parse_attach_user_request (data : view) : res unit :=
  ensure (negb (view_null data)) LIBRDP_STATUS_INVALID_ARGUMENT;;
  with_stream data (
    rdp_mcs_read_domain_choice RDP_MCS_PDU_ATTACH_USER_REQUEST;;
    remaining ← rdp_stream_remaining;
    require (remaining =? 0) LIBRDP_STATUS_PROTOCOL_ERROR).

Definition rdp_mcs_write_attach_user_confirm (user_id : Z) : writer unit :=
  require (negb (user_id <? RDP_MCS_BASE_CHANNEL_ID)) LIBRDP_STATUS_INVALID_ARGUMENT;;
  rdp_mcs_write_domain_choice RDP_MCS_PDU_ATTACH_USER_CONFIRM 2;;
  rdp_buffer_append_u8 0;;
  rdp_mcs_write_per_integer16 user_id RDP_MCS_BASE_CHANNEL_ID.

Definition rdp_mcs_parse_attach_user_confirm (data : view) : res rdp_mcs_attach_user_confirm :=
  ensure (negb (view_null data)) LIBRDP_STATUS_INVALID_ARGUMENT;;
  with_stream data (
    options ← rdp_mcs_read_domain_choice RDP_MCS_PDU_ATTACH_USER_CONFIRM;
    require (options =? 2) LIBRDP_STATUS_PROTOCOL_ERROR;;
    result ← rdp_mcs_read_per_enum;
    user_id ← rdp_mcs_read_per_integer16 RDP_MCS_BASE_CHANNEL_ID;
    remaining ← rdp_stream_remaining;
    require (remaining =? 0) LIBRDP_STATUS_PROTOCOL_ERROR;;
    mret (mk_attach_user_confirm result user_id)).

Definition rdp_mcs_write_channel_join_request (user_id channel_id : Z) : writer unit :=
  require (negb (user_id <? RDP_MCS_BASE_CHANNEL_ID)) LIBRDP_STATUS_INVALID_ARGUMENT;;
  rdp_mcs_write_domain_choice RDP_MCS_PDU_CHANNEL_JOIN_REQUEST 0;;
  rdp_mcs_write_per_integer16 user_id RDP_MCS_BASE_CHANNEL_ID;;
  rdp_mcs_write_per_integer16 channel_id 0.

Definition rdp_mcs_parse_channel_join_request (data : view) : res rdp_mcs_channel_join_request :=
  ensure (negb (view_null data)) LIBRDP_STATUS_INVALID_ARGUMENT;;
  with_stream data (
    rdp_mcs_read_domain_choice RDP_MCS_PDU_CHANNEL_JOIN_REQUEST;;
    initiator ← rdp_mcs_read_per_integer16 RDP_MCS_BASE_CHANNEL_ID;
    channel_id ← rdp_mcs_read_per_integer16 0;
    remaining ← rdp_stream_remaining;
    require (remaining =? 0) LIBRDP_STATUS_PROTOCOL_ERROR;;
    mret (mk_channel_join_request initiator channel_id)).

Definition rdp_mcs_write_channel_join_confirm (user_id requested_channel_id : Z) : writer unit :=
  require (negb (user_id <? RDP_MCS_BASE_CHANNEL_ID)) LIBRDP_STATUS_INVALID_ARGUMENT;;
  rdp_mcs_write_domain_choice RDP_MCS_PDU_CHANNEL_JOIN_CONFIRM 2;;
  rdp_buffer_append_u8 0;;
  rdp_mcs_write_per_integer16 user_id RDP_MCS_BASE_CHANNEL_ID;;
  rdp_mcs_write_per_integer16 requested_channel_id 0;;
  rdp_mcs_write_per_integer16 requested_channel_id 0.

Definition rdp_mcs_parse_channel_join_confirm (data : view) : res rdp_mcs_channel_join_confirm :=
  ensure (negb (view_null data)) LIBRDP_STATUS_INVALID_ARGUMENT;;
  with_stream data (
    options ← rdp_mcs_read_domain_choice RDP_MCS_PDU_CHANNEL_JOIN_CONFIRM;
    require (options =? 2) LIBRDP_STATUS_PROTOCOL_ERROR;;
    result ← rdp_mcs_read_per_enum;
    initiator ← rdp_mcs_read_per_integer16 RDP_MCS_BASE_CHANNEL_ID;
    requested ← rdp_mcs_read_per_integer16 0;
    channel_id ← rdp_mcs_read_per_integer16 0;
    remaining ← rdp_stream_remaining;
    require (remaining =? 0) LIBRDP_STATUS_PROTOCOL_ERROR;;
    mret (mk_channel_join_confirm result initiator requested channel_id)).

Definition rdp_mcs_parse_send_data_common (data : view) (pdu_type : Z) :
    res rdp_mcs_send_data_indication :=
  ensure (negb (view_null data)) LIBRDP_STATUS_INVALID_ARGUMENT;;
  with_stream data (
    rdp_mcs_read_domain_choice pdu_type;;
    initiator ← rdp_mcs_read_per_integer16 RDP_MCS_BASE_CHANNEL_ID;
    channel_id ← rdp_mcs_read_per_integer16 0;
    rdp_mcs_read_per_enum;;
    payload_len ← rdp_mcs_read_per_length;
    remaining ← rdp_stream_remaining;
    require (negb ((payload_len =? 0) || (remaining <? payload_len))) LIBRDP_STATUS_PROTOCOL_ERROR;;
    payload ← rdp_stream_read_bytes payload_len;
    mret (mk_send_data_indication initiator channel_id payload payload_len)).

Definition rdp_mcs_parse_send_data_request (data : view) : res rdp_mcs_send_data_indication :=
  rdp_mcs_parse_send_data_common data RDP_MCS_PDU_SEND_DATA_REQUEST.

Definition rdp_mcs_parse_send_data_indication (data : view) : res rdp_mcs_send_data_indication :=
  rdp_mcs_parse_send_data_common data RDP_MCS_PDU_SEND_DATA_INDICATION.

Definition rdp_mcs_parse_disconnect_provider_ultimatum (data : view) : res Z :=
  ensure (negb (view_null data)) LIBRDP_STATUS_INVALID_ARGUMENT;;
  ensure (view_len data =? 2) LIBRDP_STATUS_PROTOCOL_ERROR;;
  b0 ← rd (view_bytes data) 0;
  b1 ← rd (view_bytes data) 1;
  ensure (negb (negb (Z.shiftr b0 2 =? RDP_MCS_DOMAIN_PDU_DISCONNECT_PROVIDER_ULTIMATUM) ||
                negb (Z.land b0 0x02 =? 0) || negb (Z.land b1 0x7f =? 0)))
    LIBRDP_STATUS_PROTOCOL_ERROR;;
  mret (u8 (Z.lor (Z.shiftl (Z.land b0 0x01) 1) (Z.shiftr b1 7))).

Definition rdp_mcs_write_send_data_indication (user_id channel_id : Z) (payload : view) :
    writer unit :=
  require (negb ((user_id <? RDP_MCS_BASE_CHANNEL_ID) ||
                 (view_null payload && (0 <? view_len payload)) ||
                 (0x7fff <? view_len payload)))
    LIBRDP_STATUS_INVALID_ARGUMENT;;
  rdp_mcs_write_domain_choice RDP_MCS_PDU_SEND_DATA_INDICATION 0;;
  rdp_mcs_write_per_integer16 user_id RDP_MCS_BASE_CHANNEL_ID;;
  rdp_mcs_write_per_integer16 channel_id 0;;
  rdp_buffer_append_u8 0x70;;
  rdp_mcs_write_per_length (view_len payload);;
  rdp_buffer_append payload.

(** ** The wire formats *)

Definition per_length_enc (n : Z) : list Z :=
  if 0x7f <? n then be16 (Z.lor n 0x8000) else [n].
Definition domain_choice_enc (pdu_type options : Z) : list Z :=
  [Z.lor (Z.shiftl pdu_type 2) options].
Definition per_integer_enc (v : Z) : list Z :=
  if v <=? 0xff then [1] ++ [v]
  else if v <=? 0xffff then [2] ++ be16 v
  else [4] ++ be32 v.

(** The big-endian digits of a length, least number of octets. *)
Fixpoint be_digits (fuel : nat) (v : Z) (acc : list Z) : list Z :=
  match fuel with
  | O => acc
  | S fuel => if 0 <? v then be_digits fuel (v / 256) (v mod 256 :: acc) else acc
  end.
Definition be_value (l : list Z) : Z := fold_left (fun v b => v * 256 + b) l 0.

Definition ber_length_enc (n : Z) : list Z :=
  if n <? 0x80 then [n]
  else [0x80 + blen (be_digits 8 n [])] ++ be_digits 8 n [].
Definition ber_integer_enc (v : Z) : list Z :=
  [0x02] ++ ber_length_enc (blen (ber_integer_body v)) ++ ber_integer_body v.
Definition octet_string_enc (l : list Z) : list Z := [0x04] ++ ber_length_enc (blen l) ++ l.
Definition tlv_enc (tag body : list Z) : list Z := tag ++ ber_length_enc (blen body) ++ body.

Definition domain_parameters_body (a b c d e f g h : Z) : list Z :=
  ber_integer_enc a ++ ber_integer_enc b ++ ber_integer_enc c ++ ber_integer_enc d ++
  ber_integer_enc e ++ ber_integer_enc f ++ ber_integer_enc g ++ ber_integer_enc h.
Definition domain_parameters_enc (a b c d e f g h : Z) : list Z :=
  tlv_enc [0x30] (domain_parameters_body a b c d e f g h).

Definition connect_initial_body (gcc : list Z) : list Z :=
  octet_string_enc [0x01] ++ octet_string_enc [0x01] ++ [0x01; 0x01; 0xff] ++
  domain_parameters_enc 34 2 0 1 0 1 65535 2 ++
  domain_parameters_enc 1 1 1 1 0 1 1056 2 ++
  domain_parameters_enc 65535 64535 65535 1 0 1 65535 2 ++
  octet_string_enc gcc.
Definition connect_initial_enc (gcc : list Z) : list Z :=
  tlv_enc [0x7f; 0x65] (connect_initial_body gcc).

Definition connect_response_body (gcc : list Z) : list Z :=
  [0x0a] ++ ber_length_enc 1 ++ [0] ++ ber_integer_enc 0 ++
  domain_parameters_enc 34 3 0 1 0 1 RDP_MCS_MAX_PDU_SIZE 2 ++ octet_string_enc gcc.
Definition connect_response_enc (gcc : list Z) : list Z :=
  tlv_enc [0x7f; 0x66] (connect_response_body gcc).

Definition send_data_enc (pdu_type user_id channel_id : Z) (payload : list Z) : list Z :=
  domain_choice_enc pdu_type 0 ++ be16 (user_id - RDP_MCS_BASE_CHANNEL_ID) ++
  be16 (channel_id - 0) ++ [0x70] ++ per_length_enc (blen payload) ++ payload.

Definition erect_domain_enc : list Z :=
  domain_choice_enc RDP_MCS_PDU_ERECT_DOMAIN_REQUEST 0 ++ per_integer_enc 0 ++ per_integer_enc 0.
Definition attach_user_confirm_enc (user_id : Z) : list Z :=
  domain_choice_enc RDP_MCS_PDU_ATTACH_USER_CONFIRM 2 ++ [0] ++
  be16 (user_id - RDP_MCS_BASE_CHANNEL_ID).
Definition channel_join_request_enc (user_id channel_id : Z) : list Z :=
  domain_choice_enc RDP_MCS_PDU_CHANNEL_JOIN_REQUEST 0 ++
  be16 (user_id - RDP_MCS_BASE_CHANNEL_ID) ++ be16 (channel_id - 0).
Definition channel_join_confirm_enc (user_id channel_id : Z) : list Z :=
  domain_choice_enc RDP_MCS_PDU_CHANNEL_JOIN_CONFIRM 2 ++ [0] ++
  be16 (user_id - RDP_MCS_BASE_CHANNEL_ID) ++ be16 (channel_id - 0) ++ be16 (channel_id - 0).

(** ** Aligned PER: lemmas *)

Lemma per_length_bits n :
  0x7f < n <= 0x7fff -> Z.lor n 0x8000 = n + 0x8000.
Proof. intros. change 0x8000 with (1 * 2 ^ 15). rewrite (lor_add 15); lia. Qed.

Lemma writes_per_length n :
  0 <= n <= 0x7fff -> Writes (rdp_mcs_write_per_length n) (per_length_enc n) (fun _ => True).
Proof.
  intros Hn. unfold rdp_mcs_write_per_length, per_length_enc. apply writes_require; [guard_lia|].
  destruct (Z.ltb_spec 0x7f n).
  - rewrite per_length_bits by lia. unfold u16. rewrite Z.mod_small by lia. eauto with writes.
  - unfold u8. rewrite Z.mod_small by lia. eauto with writes.
Qed.

Lemma bytes_per_length n : 0 <= n -> bytes (per_length_enc n).
Proof.
  intros. unfold per_length_enc. destruct (Z.ltb_spec 0x7f n); solve_bytes.
Qed.

Lemma parses_per_length n rest :
  0 <= n <= 0x7fff -> Parses rdp_mcs_read_per_length (per_length_enc n ++ rest) rest n.
Proof.
  intros Hn. unfold rdp_mcs_read_per_length, per_length_enc.
  destruct (Z.ltb_spec 0x7f n).
  - rewrite per_length_bits by lia. unfold be16. cbn [app]. pstep.
    rewrite byte_hi by done. apply parses_if_false; [bits_lia|]. pstep.
    apply parses_ret_eq. rewrite (lor_shiftl' 8) by bits_lia. bits_lia.
  - cbn [app]. pstep. rewrite byte_hi by (unfold is_byte; lia).
    apply parses_if_true; [lia|]. pstep.
Qed.

Lemma safe_per_length : Safe rdp_mcs_read_per_length (fun n => 0 <= n <= 0x7fff).
Proof.
  unfold rdp_mcs_read_per_length. repeat safe_step.
  - unfold is_byte in *. lia.
  - unfold is_byte in *. rewrite (lor_shiftl' 8) by lia. bits_lia.
Qed.
#[export] Existing Instance safe_per_length.

Lemma domain_choice_bits pdu_type options :
  0 <= pdu_type <= 0x3f -> 0 <= options <= 3 ->
  Z.lor (Z.shiftl pdu_type 2) options = pdu_type * 4 + options.
Proof. intros. rewrite (lor_shiftl' 2) by lia. lia. Qed.

Lemma writes_domain_choice pdu_type options :
  0 <= pdu_type <= 0x3f -> 0 <= options <= 3 ->
  Writes (rdp_mcs_write_domain_choice pdu_type options) (domain_choice_enc pdu_type options)
    (fun _ => True).
Proof.
  intros. unfold rdp_mcs_write_domain_choice, domain_choice_enc. apply writes_require; [guard_lia|].
  rewrite domain_choice_bits by lia. unfold u8. rewrite Z.mod_small by lia. eauto with writes.
Qed.

Lemma parses_domain_choice pdu_type options rest :
  0 <= pdu_type <= 0x3f -> 0 <= options <= 3 ->
  Parses (rdp_mcs_read_domain_choice pdu_type) (domain_choice_enc pdu_type options ++ rest)
    rest options.
Proof.
  intros. unfold rdp_mcs_read_domain_choice, domain_choice_enc.
  rewrite domain_choice_bits by lia. cbn [app]. pstep. pstep.
  { unfold u8. bits_norm. Z.div_mod_to_equations. lia. }
  apply parses_ret_eq. bits_lia.
Qed.

Lemma writes_per_integer v :
  is_u32 v -> Writes (rdp_mcs_write_per_integer v) (per_integer_enc v) (fun _ => True).
Proof.
  unfold is_u32. intros. unfold rdp_mcs_write_per_integer, per_integer_enc.
  destruct (Z.leb_spec v 0xff); [|destruct (Z.leb_spec v 0xffff)].
  - unfold u8. rewrite Z.mod_small by lia. wstep. eauto with writes.
  - unfold u16. rewrite Z.mod_small by lia. wstep. eauto with writes.
  - wstep. eauto with writes.
Qed.

Lemma parses_per_integer v rest :
  is_u32 v -> Parses rdp_mcs_read_per_integer (per_integer_enc v ++ rest) rest v.
Proof.
  unfold is_u32. intros. unfold rdp_mcs_read_per_integer, per_integer_enc.
  destruct (Z.leb_spec v 0xff); [|destruct (Z.leb_spec v 0xffff)].
  - eapply parses_bind; [apply (parses_per_length 1 (v :: rest)); lia|]. apply parses_read_u8.
  - eapply parses_bind; [apply (parses_per_length 2 (be16 v ++ rest)); lia|].
    apply parses_read_u16_be; guard_lia.
  - eapply parses_bind; [apply (parses_per_length 4 (be32 v ++ rest)); lia|].
    apply parses_read_u32_be; guard_lia.
Qed.

Lemma safe_per_integer : Safe rdp_mcs_read_per_integer is_u32.
Proof.
  unfold rdp_mcs_read_per_integer. safe_step. repeat (apply safe_if; intros _).
  - eapply safe_weaken; [apply _|]. unfold is_byte, is_u32. lia.
  - eapply safe_weaken; [apply _|]. unfold is_u16, is_u32. lia.
  - apply _.
  - apply _.
Qed.
#[export] Existing Instance safe_per_integer.

Lemma writes_per_integer16 v min :
  is_u16 v -> 0 <= min <= v ->
  Writes (rdp_mcs_write_per_integer16 v min) (be16 (v - min)) (fun _ => True).
Proof.
  unfold is_u16. intros. unfold rdp_mcs_write_per_integer16. apply writes_require; [guard_lia|].
  unfold u16. rewrite Z.mod_small by lia. eauto with writes.
Qed.

Lemma parses_per_integer16 v min rest :
  is_u16 v -> 0 <= min <= v ->
  Parses (rdp_mcs_read_per_integer16 min) (be16 (v - min) ++ rest) rest v.
Proof.
  unfold is_u16. intros. unfold rdp_mcs_read_per_integer16. pstep. cbv zeta.
  rewrite Z.sub_add. unfold u32. rewrite Z.mod_small by lia. pstep.
  apply parses_ret_eq. unfold u16. by rewrite Z.mod_small by lia.
Qed.

Lemma safe_per_integer16 min :
  0 <= min <= 0xffff -> Safe (rdp_mcs_read_per_integer16 min) is_u16.
Proof.
  intros. unfold rdp_mcs_read_per_integer16. repeat safe_step. bool_prop.
  unfold is_u16, u16, u32, UINT16_MAX in *. Z.div_mod_to_equations. lia.
Qed.
#[export] Instance safe_per_integer16_base :
  Safe (rdp_mcs_read_per_integer16 RDP_MCS_BASE_CHANNEL_ID) is_u16.
Proof. by apply safe_per_integer16. Qed.
#[export] Instance safe_per_integer16_zero : Safe (rdp_mcs_read_per_integer16 0) is_u16.
Proof. by apply safe_per_integer16. Qed.
#[export] Instance safe_per_enum : Safe rdp_mcs_read_per_enum is_byte.
Proof. apply safe_read_u8. Qed.
#[export] Instance safe_domain_choice t : Safe (rdp_mcs_read_domain_choice t) (fun _ => True).
Proof. unfold rdp_mcs_read_domain_choice. by repeat safe_step. Qed.

Create HintDb mcs.
#[export] Hint Resolve writes_per_length writes_domain_choice writes_per_integer
  writes_per_integer16 : writes.

(** ** BER: lemmas *)

Lemma be_digits_app fuel v acc : be_digits fuel v acc = be_digits fuel v [] ++ acc.
Proof.
  revert v acc. induction fuel as [|fuel IH]; intros v acc; [done|]. cbn [be_digits].
  destruct (0 <? v); [|done]. rewrite (IH _ (_ :: acc)), (IH _ [_]), <- app_assoc. done.
Qed.

Lemma be_value_app l k : be_value (l ++ k) = fold_left (fun v b => v * 256 + b) k (be_value l).
Proof. unfold be_value. apply fold_left_app. Qed.

(** The digits are bytes, denote the value, and there are at most [fuel]. *)
Lemma be_digits_spec fuel v :
  0 <= v < 256 ^ Z.of_nat fuel ->
  be_value (be_digits fuel v []) = v /\ bytes (be_digits fuel v []) /\
  blen (be_digits fuel v []) <= Z.of_nat fuel.
Proof.
  revert v. induction fuel as [|fuel IH]; intros v Hv.
  { cbn in *. split; [unfold be_value; cbn; lia|]. split; [constructor|done]. }
  rewrite Nat2Z.inj_succ, Z.pow_succ_r in Hv by lia. cbn [be_digits].
  destruct (Z.ltb_spec 0 v).
  - rewrite be_digits_app. destruct (IH (v / 256)) as (Hval & Hb & Hl).
    { split; [apply Z.div_pos; lia|]. apply Z.div_lt_upper_bound; lia. }
    split; [|split].
    + rewrite be_value_app, Hval. cbn. Z.div_mod_to_equations. lia.
    + apply Forall_app_2; [done|]. solve_bytes.
    + zlen.
  - split; [unfold be_value; cbn; lia|]. split; [constructor|]. zlen.
Qed.

Lemma be_digits_pos fuel v : 0 < v -> 0 < blen (be_digits (S fuel) v []).
Proof.
  intros Hv. cbn [be_digits]. destruct (Z.ltb_spec 0 v); [|lia].
  rewrite be_digits_app. zlen.
Qed.

(** The code's digit loop computes them, within the eight bytes of [tmp]. *)
Lemma ber_length_digits_spec fuel v acc :
  0 <= v < 256 ^ Z.of_nat fuel -> Z.of_nat fuel + blen acc <= 8 ->
  ber_length_digits fuel v acc = Ok (be_digits fuel v acc).
Proof.
  revert v acc. induction fuel as [|fuel IH]; intros v acc Hv Hl.
  { cbn in *. destruct (Z.ltb_spec 0 v); [lia|done]. }
  rewrite Nat2Z.inj_succ in *. rewrite Z.pow_succ_r in Hv by lia.
  cbn [ber_length_digits be_digits]. destruct (Z.ltb_spec 0 v); [|done].
  destruct (Z.leb_spec 8 (blen acc)); [lia|].
  rewrite Z.shiftr_div_pow2, land_0xff by lia. change (2 ^ 8) with 256.
  apply IH; [|rewrite blen_cons; lia].
  split; [apply Z.div_pos; lia|]. apply Z.div_lt_upper_bound; lia.
Qed.

Lemma writes_each l : Writes (append_each l) l (fun _ => True).
Proof.
  induction l as [|b l IH]; [by apply writes_ret|]. cbn [append_each].
  apply (writes_bind _ _ [b] l (fun _ => True)); [apply writes_u8|by intros _ _].
Qed.

Lemma size_digits n : 0 <= n <= SIZE_MAX -> 0 <= n < 256 ^ Z.of_nat 8.
Proof. unfold SIZE_MAX. change (256 ^ Z.of_nat 8) with 0x10000000000000000. lia. Qed.

Lemma writes_ber_length n :
  0 <= n <= SIZE_MAX -> Writes (rdp_mcs_write_ber_length n) (ber_length_enc n) (fun _ => True).
Proof.
  intros Hn. unfold rdp_mcs_write_ber_length, ber_length_enc.
  destruct (Z.ltb_spec n 0x80).
  { unfold u8. rewrite Z.mod_small by lia. eauto with writes. }
  apply size_digits in Hn.
  eapply writes_lift; [apply ber_length_digits_spec; [done|rewrite blen_nil; lia]|].
  destruct (be_digits_spec 8 n Hn) as (_ & _ & Hl). change (Z.of_nat 8) with 8 in Hl.
  set (D := be_digits 8 n []) in *. pose proof (blen_nonneg D).
  apply writes_require; [guard_lia|].
  replace (u8 (Z.lor 0x80 (blen D))) with (0x80 + blen D).
  2: { rewrite Z.lor_comm. change 0x80 with (1 * 2 ^ 7) at 2. rewrite (lor_add 7) by lia.
       unfold u8. rewrite Z.mod_small; lia. }
  wstep. apply writes_each.
Qed.

Lemma fold_left_ge D v : bytes D -> 0 <= v -> v <= fold_left (fun v b => v * 256 + b) D v.
Proof.
  intros HD. revert v. induction HD as [|b D Hb HD IH]; intros v Hv; cbn; [lia|].
  unfold is_byte in Hb. specialize (IH (v * 256 + b) ltac:(lia)). lia.
Qed.

Lemma parses_ber_length_value D v rest :
  bytes D -> 0 <= v -> fold_left (fun v b => v * 256 + b) D v <= SIZE_MAX ->
  Parses (ber_length_value (length D) v) (D ++ rest) rest
    (fold_left (fun v b => v * 256 + b) D v).
Proof.
  intros HD. revert v. induction HD as [|b D Hb HD IH]; intros v Hv Hmax; cbn in *.
  { apply parses_ret. }
  unfold is_byte in Hb. pose proof (fold_left_ge D (v * 256 + b) HD ltac:(lia)).
  pstep. replace (Z.lor (size_t (Z.shiftl v 8)) b) with (v * 256 + b); [apply IH; [lia|done]|].
  unfold size_t, SIZE_MAX in *. rewrite Z.shiftl_mul_pow2, Z.mod_small by lia.
  rewrite Z.lor_comm, (lor_add 8) by lia. lia.
Qed.

Lemma parses_ber_length n rest :
  0 <= n <= SIZE_MAX -> Parses rdp_mcs_read_ber_length (ber_length_enc n ++ rest) rest n.
Proof.
  intros Hn. unfold rdp_mcs_read_ber_length, ber_length_enc.
  destruct (Z.ltb_spec n 0x80).
  { cbn [app]. pstep. rewrite byte_hi by (unfold is_byte; lia).
    apply parses_if_true; [lia|]. pstep. }
  destruct (be_digits_spec 8 n (size_digits n Hn)) as (Hval & HD & Hl).
  change (Z.of_nat 8) with 8 in Hl. pose proof (be_digits_pos 7 n ltac:(lia)).
  set (D := be_digits 8 n []) in *. cbn [app]. pstep.
  rewrite byte_hi by (unfold is_byte; lia). apply parses_if_false; [lia|]. cbv zeta.
  assert (Hc : Z.land (0x80 + blen D) 0x7f = blen D).
  { rewrite land_0x7f. Z.div_mod_to_equations. lia. }
  rewrite Hc. pstep. pstep.
  replace (Z.to_nat (blen D)) with (length D) by (unfold blen; lia).
  unfold be_value in Hval. rewrite <- Hval.
  apply parses_ber_length_value; [done|lia|]. rewrite Hval. lia.
Qed.

Lemma bytes_ber_length n : 0 <= n <= SIZE_MAX -> bytes (ber_length_enc n).
Proof.
  intros Hn. unfold ber_length_enc. destruct (Z.ltb_spec n 0x80); [solve_bytes|].
  destruct (be_digits_spec 8 n (size_digits n Hn)) as (_ & HD & Hl).
  change (Z.of_nat 8) with 8 in Hl. solve_bytes.
Qed.

Lemma blen_ber_length n : 0 <= n <= SIZE_MAX -> 1 <= blen (ber_length_enc n) <= 9.
Proof.
  intros Hn. unfold ber_length_enc. destruct (Z.ltb_spec n 0x80); [zlen|].
  destruct (be_digits_spec 8 n (size_digits n Hn)) as (_ & HD & Hl). zlen.
Qed.

Lemma safe_ber_length_value count v :
  0 <= v -> Safe (ber_length_value count v) (fun n => 0 <= n).
Proof.
  revert v. induction count as [|count IH]; intros v Hv; cbn [ber_length_value].
  { by apply safe_ret. }
  safe_step. apply IH. apply Z.lor_nonneg. unfold is_byte, size_t in *.
  split; [apply Z.mod_pos_bound; lia|lia].
Qed.
#[export] Instance safe_ber_length : Safe rdp_mcs_read_ber_length (fun n => 0 <= n).
Proof.
  unfold rdp_mcs_read_ber_length. repeat safe_step; [unfold is_byte in *; lia|].
  by apply safe_ber_length_value.
Qed.

Lemma writes_ber_tag tag n :
  tag <> [] -> 0 <= n <= SIZE_MAX ->
  Writes (rdp_mcs_write_ber_tag tag n) (tag ++ ber_length_enc n) (fun _ => True).
Proof.
  intros Ht Hn. unfold rdp_mcs_write_ber_tag. apply writes_require.
  { destruct tag; [done|]. guard_lia. }
  wstep. by apply writes_ber_length.
Qed.

(** *** BER integers *)

Lemma be32_arith v : is_u32 v ->
  exists b0 b1 b2 b3, be32 v = [b0; b1; b2; b3] /\ is_byte b0 /\ is_byte b1 /\ is_byte b2 /\
    is_byte b3 /\ v = b0 * 0x1000000 + b1 * 0x10000 + b2 * 0x100 + b3.
Proof.
  intros Hv. unfold be32. do 4 eexists. split; [done|]. do 4 (split; [done|]).
  rewrite <- (val32_be32 v Hv) at 1. by apply val32_be_arith.
Qed.

(** The body is the shortest two's-complement encoding of the value. *)
Lemma ber_integer_body_spec v :
  is_u32 v ->
  let l := ber_integer_body v in
  bytes l /\ 1 <= blen l <= 5 /\ be_value l = v /\ default 0 (head l) < 0x80 /\
  (forall b0 b1 r, l = b0 :: b1 :: r -> b0 = 0 -> 0x80 <= b1).
Proof.
  intros Hv l. destruct (be32_arith v Hv) as (b0 & b1 & b2 & b3 & E & H0 & H1 & H2 & H3 & Hval).
  unfold l, ber_integer_body. rewrite E. cbn [ber_strip].
  assert (Hz : be_value [b0; b1; b2; b3] = v) by (unfold be_value; cbn; lia).
  assert (Hb : bytes [b0; b1; b2; b3]) by (repeat apply Forall_cons_2; done).
  rewrite (byte_hi b1), (byte_hi b2), (byte_hi b3) by done.
  repeat match goal with |- context [if ?c then _ else _] =>
    lazymatch c with context [if _ then _ else _] => fail | _ => destruct c eqn:? end end;
  cbn [default head from_option id] in *; rewrite ?byte_hi in * by done; bool_prop; subst;
  unfold be_value, is_byte in *; cbn in *;
  (split; [solve_bytes|]); (split; [zlen|]); (split; [lia|]); (split; [lia|]);
  intros ??? [=] ?; subst; try lia.
Qed.

Lemma writes_ber_integer v :
  is_u32 v -> Writes (rdp_mcs_write_ber_integer v) (ber_integer_enc v) (fun _ => True).
Proof.
  intros Hv. destruct (ber_integer_body_spec v Hv) as (_ & Hl & _).
  unfold rdp_mcs_write_ber_integer, ber_integer_enc. wstep.
  eapply writes_bind; [apply writes_ber_length; unfold SIZE_MAX; lia|]. intros [] _.
  apply writes_append.
Qed.

Lemma bytes_ber_integer v : is_u32 v -> bytes (ber_integer_enc v).
Proof.
  intros Hv. destruct (ber_integer_body_spec v Hv) as (Hb & Hl & _).
  unfold ber_integer_enc. apply Forall_app_2; [solve_bytes|]. apply Forall_app_2; [|done].
  apply bytes_ber_length. unfold SIZE_MAX. lia.
Qed.
#[export] Hint Resolve writes_ber_integer writes_ber_length : writes.

(** *** Octet strings and sequences *)

Lemma writes_octet_string v l :
  view_bytes v = l -> view_len v = blen l -> blen l <= SIZE_MAX ->
  Writes (rdp_mcs_write_ber_octet_string v) (octet_string_enc l) (fun _ => True).
Proof.
  intros Hv Hl Hmax. unfold rdp_mcs_write_ber_octet_string, octet_string_enc.
  apply writes_require. { destruct v; cbn in *; [|done]. subst l. by rewrite Hl. }
  wstep. rewrite Hl. eapply writes_bind; [apply writes_ber_length; zlen|]. intros [] _.
  by apply writes_append_bytes.
Qed.

Lemma parses_octet_string l rest :
  blen l <= SIZE_MAX ->
  Parses rdp_mcs_read_ber_octet_string (octet_string_enc l ++ rest) rest (l, blen l).
Proof.
  intros Hl. unfold rdp_mcs_read_ber_octet_string, octet_string_enc.
  rewrite <- !app_assoc. cbn [app]. pstep. pstep.
  eapply parses_bind; [apply parses_ber_length; zlen|]. pstep. pstep.
Qed.

Lemma bytes_octet_string l : bytes l -> blen l <= SIZE_MAX -> bytes (octet_string_enc l).
Proof.
  intros Hb Hl. unfold octet_string_enc. apply Forall_app_2; [solve_bytes|].
  apply Forall_app_2; [|done]. apply bytes_ber_length. zlen.
Qed.

Lemma parses_skip_sequence l rest :
  blen l <= SIZE_MAX -> Parses rdp_mcs_skip_ber_sequence (tlv_enc [0x30] l ++ rest) rest tt.
Proof.
  intros Hl. unfold rdp_mcs_skip_ber_sequence, tlv_enc. rewrite <- !app_assoc. cbn [app].
  pstep. pstep. eapply parses_bind; [apply parses_ber_length; zlen|].
  by apply parses_skip.
Qed.

#[export] Instance safe_octet_string :
  Safe rdp_mcs_read_ber_octet_string (fun r => blen r.1 = r.2 /\ bytes r.1).
Proof. unfold rdp_mcs_read_ber_octet_string. repeat safe_step. done. Qed.
#[export] Instance safe_skip_sequence : Safe rdp_mcs_skip_ber_sequence (fun _ => True).
Proof. unfold rdp_mcs_skip_ber_sequence. repeat safe_step. by apply safe_skip. Qed.
#[export] Instance safe_upward_flag : Safe rdp_mcs_read_upward_flag (fun _ => True).
Proof.
  unfold rdp_mcs_read_upward_flag. repeat safe_step.
  eapply safe_weaken; [apply safe_require|done].
Qed.

(** ** Connect PDUs: lemmas *)

Lemma blen_octet_string l :
  blen l <= SIZE_MAX -> blen l + 2 <= blen (octet_string_enc l) <= blen l + 10.
Proof.
  intros Hl. pose proof (blen_nonneg l).
  pose proof (blen_ber_length (blen l) ltac:(lia)). unfold octet_string_enc. zlen.
Qed.

Lemma blen_ber_integer v : is_u32 v -> blen (ber_integer_enc v) <= 15.
Proof.
  intros Hv. destruct (ber_integer_body_spec v Hv) as (_ & Hl & _).
  pose proof (blen_ber_length (blen (ber_integer_body v)) ltac:(unfold SIZE_MAX; lia)).
  unfold ber_integer_enc. zlen.
Qed.

(** The header and a body built in a local buffer. *)
Lemma writes_tlv (body : writer unit) tag l :
  tag <> [] -> blen l <= 2 ^ 63 -> Writes body l (fun _ => True) ->
  Writes (b ← with_local_buffer body;
          rdp_mcs_write_ber_tag tag (b_length b.2);;
          rdp_buffer_append (buffer_view b.2)) (tlv_enc tag l) (fun _ => True).
Proof.
  intros Ht Hl Hw. eapply (writes_bind _ _ [] (tlv_enc tag l)); [by apply (writes_local _ l)|].
  intros [[] t] (_ & Hwf & Hc). cbn [snd] in *.
  rewrite <- (blen_contents t Hwf), Hc. unfold tlv_enc. rewrite app_assoc.
  eapply writes_bind; [apply writes_ber_tag; [done|unfold SIZE_MAX; zlen]|]. intros [] _.
  by apply writes_append_buffer.
Qed.

Lemma writes_domain_parameters a b c d e f g h :
  Forall is_u32 [a; b; c; d; e; f; g; h] ->
  Writes (rdp_mcs_write_domain_parameters a b c d e f g h)
    (domain_parameters_enc a b c d e f g h) (fun _ => True).
Proof.
  intros Hu. repeat (apply Forall_cons_1 in Hu as [? Hu]).
  apply writes_tlv; [done| |].
  - unfold domain_parameters_body. autorewrite with blen.
    repeat match goal with H : is_u32 _ |- _ => apply blen_ber_integer in H end. lia.
  - unfold domain_parameters_body. do 7 wstep. by apply writes_ber_integer.
Qed.

Ltac solve_u32s := repeat apply Forall_cons_2; try apply Forall_nil_2; by unfold is_u32.

(** The constant part of a body, followed by the GCC octet string. *)
Definition connect_initial_head : list Z :=
  octet_string_enc [0x01] ++ octet_string_enc [0x01] ++ [0x01; 0x01; 0xff] ++
  domain_parameters_enc 34 2 0 1 0 1 65535 2 ++
  domain_parameters_enc 1 1 1 1 0 1 1056 2 ++
  domain_parameters_enc 65535 64535 65535 1 0 1 65535 2.

Lemma connect_initial_body_split gcc :
  connect_initial_body gcc = connect_initial_head ++ octet_string_enc gcc.
Proof. unfold connect_initial_body, connect_initial_head. by rewrite <- !app_assoc. Qed.

Definition gcc_fits (gcc : list Z) : Prop := bytes gcc /\ 0 < blen gcc <= 2 ^ 62.

Lemma gcc_fits_max gcc : gcc_fits gcc -> blen gcc <= SIZE_MAX.
Proof. unfold gcc_fits, SIZE_MAX. lia. Qed.

Lemma blen_connect_initial_body gcc :
  gcc_fits gcc -> blen (connect_initial_body gcc) <= 2 ^ 63.
Proof.
  intros Hg. pose proof (blen_octet_string gcc (gcc_fits_max _ Hg)). destruct Hg.
  rewrite connect_initial_body_split, blen_app.
  assert (blen connect_initial_head <= 200) by (by vm_compute). lia.
Qed.

Lemma connect_initial_written v gcc :
  gcc_fits gcc -> view_bytes v = gcc -> view_len v = blen gcc ->
  Writes (rdp_mcs_write_connect_initial v) (connect_initial_enc gcc) (fun _ => True).
Proof.
  intros Hg Hv Hl. unfold rdp_mcs_write_connect_initial. apply writes_require.
  { destruct v; cbn in *; [|done]. subst gcc. by rewrite Hl. }
  apply (writes_tlv _ [0x7f; 0x65]); [done|by apply blen_connect_initial_body|].
  unfold connect_initial_body.
  do 2 (eapply writes_bind; [by apply writes_octet_string|intros [] _]).
  eapply writes_bind; [apply writes_append|intros [] _].
  do 3 (eapply writes_bind; [apply writes_domain_parameters; solve_u32s|intros [] _]).
  apply writes_octet_string; [done|done|by apply gcc_fits_max].
Qed.

Lemma connect_initial_parsed gcc :
  gcc_fits gcc ->
  rdp_mcs_parse_connect_initial (View (connect_initial_enc gcc)) =
    Ok (mk_connect_initial gcc (blen gcc)).
Proof.
  intros Hg. pose proof (blen_connect_initial_body gcc Hg). pose proof (gcc_fits_max _ Hg).
  destruct Hg as [Hb Hlen].
  unfold rdp_mcs_parse_connect_initial. rewrite ensure_true by done.
  apply (parses_with_stream _ _ []).
  { unfold connect_initial_enc, tlv_enc. apply Forall_app_2; [solve_bytes|].
    apply Forall_app_2; [apply bytes_ber_length; unfold SIZE_MAX; zlen|].
    rewrite connect_initial_body_split. apply Forall_app_2; [|by apply bytes_octet_string].
    apply (bool_decide_unpack _). by vm_compute. }
  unfold connect_initial_enc, tlv_enc. cbn [app]. do 3 pstep.
  eapply parses_bind; [apply parses_ber_length; unfold SIZE_MAX; zlen|]. do 2 pstep.
  unfold connect_initial_body. rewrite <- (app_nil_r (octet_string_enc gcc)).
  do 2 (eapply parses_bind; [by apply parses_octet_string|cbn [fst snd]; pstep]).
  eapply (parses_bind _ _ _ (domain_parameters_enc 34 2 0 1 0 1 65535 2 ++ _)).
  { cbn [app]. unfold rdp_mcs_read_upward_flag. do 2 pstep.
    eapply parses_bind; [apply (parses_ber_length 1); unfold SIZE_MAX; lia|].
    do 2 pstep. by apply parses_require. }
  do 3 (eapply parses_bind; [by apply parses_skip_sequence|]).
  eapply parses_bind; [by apply parses_octet_string|]. cbn [fst snd]. do 2 pstep. pstep.
Qed.

(** *** Connect-Response: the writer and the recursive scan *)

Definition connect_response_head : list Z :=
  [0x0a] ++ ber_length_enc 1 ++ [0] ++ ber_integer_enc 0 ++
  domain_parameters_enc 34 3 0 1 0 1 RDP_MCS_MAX_PDU_SIZE 2.

Lemma connect_response_body_split gcc :
  connect_response_body gcc = connect_response_head ++ octet_string_enc gcc.
Proof. unfold connect_response_body, connect_response_head. by rewrite <- !app_assoc. Qed.

Lemma blen_connect_response_body gcc :
  gcc_fits gcc -> blen (connect_response_body gcc) <= 2 ^ 63.
Proof.
  intros Hg. pose proof (blen_octet_string gcc (gcc_fits_max _ Hg)). destruct Hg.
  rewrite connect_response_body_split, blen_app.
  assert (blen connect_response_head <= 200) by (by vm_compute). lia.
Qed.

Lemma connect_response_written v gcc :
  gcc_fits gcc -> view_bytes v = gcc -> view_len v = blen gcc ->
  Writes (rdp_mcs_write_connect_response v) (connect_response_enc gcc) (fun _ => True).
Proof.
  intros Hg Hv Hl. unfold rdp_mcs_write_connect_response. apply writes_require.
  { destruct v; cbn in *; [|done]. subst gcc. by rewrite Hl. }
  apply (writes_tlv _ [0x7f; 0x66]); [done|by apply blen_connect_response_body|].
  unfold connect_response_body. wstep.
  eapply writes_bind; [apply writes_ber_length; unfold SIZE_MAX; lia|intros [] _]. wstep.
  eapply writes_bind; [apply writes_ber_integer; by unfold is_u32|intros [] _].
  eapply writes_bind; [apply writes_domain_parameters; solve_u32s|intros [] _].
  apply writes_octet_string; [done|done|by apply gcc_fits_max].
Qed.

Section scan.
Context (scan : list Z -> rdp_mcs_connect_response -> res rdp_mcs_connect_response).
Implicit Types (resp : rdp_mcs_connect_response).

(** What one item with the tag [tag] does to the response. *)
Definition item_effect (tag : list Z) (constructed : bool) (l : list Z) resp :
    res rdp_mcs_connect_response :=
  if bool_decide (tag = [0x0a]) && (blen l =? 1) then
    result ← rd l 0;
    Ok (mk_connect_response true result (mcr_user_data resp) (mcr_user_data_len resp))
  else if bool_decide (tag = [0x04]) then
    Ok (mk_connect_response (mcr_has_result resp) (mcr_result resp) l (blen l))
  else if constructed then scan l resp else Ok resp.

Lemma scan_item tag constructed l rest fuel resp resp' a :
  Parses rdp_mcs_read_ber_tag (tag ++ ber_length_enc (blen l) ++ l ++ rest)
    (ber_length_enc (blen l) ++ l ++ rest) (tag, constructed) ->
  tag <> [] -> blen l <= SIZE_MAX -> (0 < fuel)%nat ->
  item_effect tag constructed l resp = Ok resp' ->
  Parses (scan_items scan (pred fuel) resp') rest [] a ->
  Parses (scan_items scan fuel resp) (tag ++ ber_length_enc (blen l) ++ l ++ rest) [] a.
Proof.
  intros Htag Hne Hl Hf He Hk. destruct fuel as [|fuel]; [lia|]. cbn [pred] in Hk.
  cbn [scan_items]. pstep.
  apply parses_if_true; [destruct tag; [done|guard_lia]|].
  eapply parses_bind; [exact Htag|]. cbv beta iota.
  eapply parses_bind; [apply parses_ber_length; zlen|]. do 2 pstep. pstep.
  eapply parses_bind; [|exact Hk]. unfold item_effect in He.
  destruct (bool_decide (tag = [0x0a]) && (blen l =? 1)).
  { unfold mbind, res_bind in He. destruct (rd l 0) as [x| |]; [|discriminate He..].
    injection He as <-. pstep; [done|]. apply parses_ret. }
  destruct (bool_decide (tag = [0x04])).
  { injection He as <-. apply parses_ret. }
  destruct constructed; [by apply parses_lift|]. injection He as <-. apply parses_ret.
Qed.

Lemma scan_end fuel resp :
  mcr_has_result resp = true -> Parses (scan_items scan fuel resp) [] [] resp.
Proof.
  intros Hr. destruct fuel; cbn [scan_items]; pstep;
    (apply parses_if_false; [done|]; pstep; [done|]; pstep).
Qed.

(** Single-octet tags. *)
Lemma parses_ber_tag1 t rest :
  is_byte t -> Z.land t 0x1f <> 0x1f ->
  Parses rdp_mcs_read_ber_tag (t :: rest) rest ([t], negb (Z.land t 0x20 =? 0)).
Proof.
  intros Hb Ht. unfold rdp_mcs_read_ber_tag. pstep. cbv zeta.
  eapply parses_bind; [apply parses_if_false; [lia|]; pstep|]. pstep.
Qed.

(** An INTEGER is skipped. *)
Lemma scan_integer v rest fuel resp a :
  is_u32 v -> (0 < fuel)%nat ->
  Parses (scan_items scan (pred fuel) resp) rest [] a ->
  Parses (scan_items scan fuel resp) (ber_integer_enc v ++ rest) [] a.
Proof.
  intros Hv Hf Hk. destruct (ber_integer_body_spec v Hv) as (_ & Hl & _).
  unfold ber_integer_enc. rewrite <- !app_assoc.
  eapply (scan_item [0x02]); [by apply parses_ber_tag1|done| |done|done|exact Hk].
  unfold SIZE_MAX. lia.
Qed.
End scan.

(** The domain parameters are a constructed item of eight integers. *)
Lemma scan_domain_parameters levels a b c d e f g h resp :
  Forall is_u32 [a; b; c; d; e; f; g; h] -> mcr_has_result resp = true ->
  rdp_mcs_scan_connect_response (S levels) (domain_parameters_body a b c d e f g h) resp = Ok resp.
Proof.
  intros Hu Hr. repeat (apply Forall_cons_1 in Hu as [? Hu]).
  assert (Hbytes : bytes (domain_parameters_body a b c d e f g h)).
  { unfold domain_parameters_body.
    do 7 (apply Forall_app_2; [by apply bytes_ber_integer|]). by apply bytes_ber_integer. }
  cbn [rdp_mcs_scan_connect_response]. apply (parses_with_stream _ _ []); [done|].
  assert (Hf : (8 < length (domain_parameters_body a b c d e f g h))%nat).
  { unfold domain_parameters_body. rewrite !length_app.
    assert (Hp : forall v, (2 <= length (ber_integer_enc v))%nat).
    { intros v. unfold ber_integer_enc, ber_length_enc. destruct (_ <? _); cbn; lia. }
    pose proof (Hp a). pose proof (Hp b). pose proof (Hp c). pose proof (Hp d).
    pose proof (Hp e). lia. }
  revert Hf. generalize (length (domain_parameters_body a b c d e f g h)). intros fuel Hf.
  unfold domain_parameters_body.
  do 7 (apply scan_integer; [done|lia|]).
  rewrite <- (app_nil_r (ber_integer_enc h)). apply scan_integer; [done|lia|].
  by apply scan_end.
Qed.

Lemma connect_response_parsed gcc :
  gcc_fits gcc ->
  rdp_mcs_parse_connect_response (View (connect_response_enc gcc)) =
    Ok (mk_connect_response true 0 gcc (blen gcc)).
Proof.
  intros Hg. pose proof (blen_connect_response_body gcc Hg). pose proof (gcc_fits_max _ Hg).
  pose proof Hg as [Hb Hlen].
  assert (Hbody : bytes (connect_response_body gcc)).
  { rewrite connect_response_body_split. apply Forall_app_2; [|by apply bytes_octet_string].
    apply (bool_decide_unpack _). by vm_compute. }
  unfold rdp_mcs_parse_connect_response. rewrite ensure_true by done. cbn [view_bytes].
  remember 8%nat as lv eqn:Elv.
  cbn [rdp_mcs_scan_connect_response].
  apply (parses_with_stream _ _ []).
  { unfold connect_response_enc, tlv_enc. apply Forall_app_2; [solve_bytes|].
    apply Forall_app_2; [apply bytes_ber_length; unfold SIZE_MAX; zlen|done]. }
  assert (Hf : (1 < length (connect_response_enc gcc))%nat) by (cbn; lia).
  revert Hf. generalize (length (connect_response_enc gcc)). intros fuel Hf.
  unfold connect_response_enc, tlv_enc. rewrite <- (app_nil_r (connect_response_body gcc)) at 2.
  eapply (scan_item _ _ true); [|done|unfold SIZE_MAX; lia|lia| |by apply scan_end].
  { cbn [app]. unfold rdp_mcs_read_ber_tag. pstep. cbv zeta.
    eapply parses_bind; [apply parses_if_true; [done|]; cbn [ber_tag_octets]; pstep;
      apply parses_if_false; [done|]; pstep|]. pstep. }
  unfold item_effect. rewrite !bool_decide_eq_false_2 by done. cbn [andb].
  subst lv. cbn [rdp_mcs_scan_connect_response]. apply (parses_with_stream _ _ []); [done|].
  assert (Hf' : (5 < length (connect_response_body gcc))%nat).
  { rewrite connect_response_body_split, length_app.
    assert (10 <= length connect_response_head)%nat by (apply Nat.leb_le; by vm_compute). lia. }
  revert Hf'. generalize (length (connect_response_body gcc)). intros fuel' Hf'.
  unfold connect_response_body.
  change ([0x0a] ++ ber_length_enc 1 ++ [0] ++ ?x) with ([0x0a] ++ ber_length_enc (blen [0]) ++ [0] ++ x).
  eapply (scan_item _ [0x0a]); [by apply parses_ber_tag1|done|unfold SIZE_MAX; zlen|lia|done|].
  apply scan_integer; [by unfold is_u32|lia|].
  unfold domain_parameters_enc, tlv_enc. rewrite <- !app_assoc.
  eapply (scan_item _ [0x30]); [by apply parses_ber_tag1| done | | lia | |].
  { apply Z.leb_le. by vm_compute. }
  { unfold item_effect. rewrite !bool_decide_eq_false_2 by done. cbn [andb].
    apply (scan_domain_parameters 6); [solve_u32s|done]. }
  unfold octet_string_enc. rewrite <- (app_nil_r gcc) at 2.
  eapply (scan_item _ [0x04]); [by apply parses_ber_tag1|done|done|lia|done|].
  by apply scan_end.
Qed.

(** *** The scan terminates and stays inside the response *)

#[export] Instance safe_ber_tag_octets fuel tag :
  Safe (ber_tag_octets fuel tag) (fun _ => True).
Proof.
  revert tag. induction fuel as [|fuel IH]; intros tag; cbn [ber_tag_octets]; repeat safe_step;
    [apply IH|done].
Qed.

(** Reading a tag consumes at least one byte. *)
Lemma ber_tag_run s :
  stream_wf s ->
  safe_run rdp_mcs_read_ber_tag (fun _ => True) s /\
  (is_ok (rdp_mcs_read_ber_tag s).1 = true ->
   blen (unread (rdp_mcs_read_ber_tag s).2) < blen (unread s)).
Proof.
  intros Hs. set (k := fun first => tag ← (if Z.land first 0x1f =? 0x1f then ber_tag_octets 7 [first]
    else mret [first]); mret (tag, negb (Z.land first 0x20 =? 0)) : reader (list Z * bool)).
  assert (Hk : forall first, Safe (k first) (fun _ => True)).
  { intros first. unfold k. eapply (safe_bind _ _ (fun _ => True)); [|by intros; apply safe_ret].
    safe_step; [apply _|by apply safe_ret]. }
  change rdp_mcs_read_ber_tag with (rdp_stream_read_u8 ≫= k).
  destruct (read_u8_cases s Hs) as [(b & s1 & E & Hu & _ & Hw)|(E & _)].
  - destruct (Hk b s1 Hw) as [Hf Hwf Hm _].
    assert (Hlen : blen (unread s) = 1 + blen (unread s1)) by (rewrite Hu; zlen).
    pose proof (bind_ok _ k _ _ _ E) as Eb.
    split; [split; rewrite Eb; try done; lia|]. rewrite Eb. lia.
  - pose proof (bind_err _ k _ _ _ E) as Eb. by split; [split|]; rewrite Eb.
Qed.

Section scan_safe.
Context (scan : list Z -> rdp_mcs_connect_response -> res rdp_mcs_connect_response).
Hypothesis scan_ok : forall l resp, bytes l -> scan l resp <> Fault.

#[local] Instance safe_item_effect l tag (constructed : bool) item_len resp :
  bytes l -> blen l = item_len ->
  Safe (if bool_decide (tag = [0x0a]) && (item_len =? 1) then
          result ← lift (rd l 0);
          mret (mk_connect_response true result (mcr_user_data resp) (mcr_user_data_len resp))
        else if bool_decide (tag = [0x04]) then
          mret (mk_connect_response (mcr_has_result resp) (mcr_result resp) l item_len)
        else if constructed then lift (scan l resp) else mret resp) (fun _ => True).
Proof.
  intros Hb Hl. apply safe_if; intros Hc.
  { bool_prop. safe_step; [apply rd_no_fault; lia|]. by apply safe_ret. }
  apply safe_if; intros _; [by apply safe_ret|].
  apply safe_if; intros _; [|by apply safe_ret].
  apply safe_lift; [by apply scan_ok|done].
Qed.

Lemma scan_items_safe fuel resp s :
  stream_wf s -> blen (unread s) <= Z.of_nat fuel ->
  safe_run (scan_items scan fuel resp) (fun _ => True) s.
Proof.
  revert resp s. induction fuel as [|fuel IH]; intros resp s Hs Hf; cbn [scan_items];
    (apply (safe_run_bind _ _ (fun n => n = blen (unread s)));
     [by split; try done; cbn; intros ? [= <-]; apply stream_remaining_unread|]);
    intros n s' [-> ->]%remaining_inv Hn _ _; try done;
    assert (Hend : safe_run (require (mcr_has_result resp) LIBRDP_STATUS_PROTOCOL_ERROR;;
        mret resp) (fun _ => True) s)
      by (revert s Hs Hf Hn; intros; eapply (safe_bind _ _ _ (fun _ => True));
          [apply safe_require|intros ? _; by apply safe_ret|done]).
  { destruct (Z.ltb_spec 0 (blen (unread s))); [zlen|done]. }
  destruct (Z.ltb_spec 0 (blen (unread s))); [|done].
  destruct (ber_tag_run s Hs) as [Hrun Hlt].
  eapply safe_run_bind; [exact Hrun|]. intros [tag constructed] s1 E _ Hw1 _.
  rewrite E in Hlt. specialize (Hlt eq_refl). cbn [snd] in Hlt.
  eapply safe_run_bind; [by apply safe_ber_length|]. intros item_len s2 _ Hil Hw2 Hm2.
  eapply safe_run_bind; [by apply safe_remaining|]. intros rem s3 [-> ->]%remaining_inv _ _ _; [|done].
  eapply safe_run_bind; [by apply safe_require|]. intros [] s3 [_ ->]%require_Ok_inv Hr _ _.
  eapply safe_run_bind; [by apply safe_read_bytes|]. intros payload s4 _ [Hl Hb] Hw4 Hm4.
  eapply safe_run_bind; [by apply safe_item_effect|]. intros resp' s5 _ _ Hw5 Hm5.
  apply IH; [done|]. lia.
Qed.
End scan_safe.

Lemma scan_safe levels d resp :
  bytes d -> rdp_mcs_scan_connect_response levels d resp <> Fault.
Proof.
  revert d resp. induction levels as [|levels IH]; intros d resp Hb; [done|].
  cbn [rdp_mcs_scan_connect_response]. unfold with_stream.
  destruct (scan_items_safe (rdp_mcs_scan_connect_response levels) IH (length d) resp
    (rdp_stream_init (View d))) as [Hf _ _ _]; [|rewrite unread_init; cbn; unfold blen; lia|done].
  by apply stream_init_wf.
Qed.

(** ** Domain PDUs: lemmas *)

Lemma is_u16_minus v m : is_u16 v -> 0 <= m <= v -> is_u16 (v - m).
Proof. unfold is_u16. lia. Qed.

Lemma bytes_domain_choice t o : 0 <= t <= 0x3f -> 0 <= o <= 3 -> bytes (domain_choice_enc t o).
Proof. intros. unfold domain_choice_enc. rewrite domain_choice_bits by lia. solve_bytes. Qed.

(** A user id is a channel id in the dynamic range. *)
Definition is_user_id (v : Z) : Prop := is_u16 v /\ RDP_MCS_BASE_CHANNEL_ID <= v.

Lemma writes_user_id v :
  is_user_id v ->
  Writes (rdp_mcs_write_per_integer16 v RDP_MCS_BASE_CHANNEL_ID)
    (be16 (v - RDP_MCS_BASE_CHANNEL_ID)) (fun _ => True).
Proof. unfold is_user_id, RDP_MCS_BASE_CHANNEL_ID. intros []. apply writes_per_integer16; [done|lia]. Qed.
Lemma parses_user_id v rest :
  is_user_id v ->
  Parses (rdp_mcs_read_per_integer16 RDP_MCS_BASE_CHANNEL_ID)
    (be16 (v - RDP_MCS_BASE_CHANNEL_ID) ++ rest) rest v.
Proof. unfold is_user_id, RDP_MCS_BASE_CHANNEL_ID. intros []. apply parses_per_integer16; [done|lia]. Qed.
Lemma writes_channel_id v :
  is_u16 v -> Writes (rdp_mcs_write_per_integer16 v 0) (be16 (v - 0)) (fun _ => True).
Proof. intros. apply writes_per_integer16; [done|unfold is_u16 in *; lia]. Qed.
Lemma parses_channel_id v rest :
  is_u16 v -> Parses (rdp_mcs_read_per_integer16 0) (be16 (v - 0) ++ rest) rest v.
Proof. intros. apply parses_per_integer16; [done|unfold is_u16 in *; lia]. Qed.
Lemma user_id_guard v : is_user_id v -> negb (v <? RDP_MCS_BASE_CHANNEL_ID) = true.
Proof. unfold is_user_id. intros []. lia. Qed.
Lemma writes_choice t o :
  0 <= t <= 0x3f -> 0 <= o <= 3 ->
  Writes (rdp_mcs_write_domain_choice t o) (domain_choice_enc t o) (fun _ => True).
Proof. apply writes_domain_choice. Qed.
#[export] Hint Resolve writes_user_id writes_channel_id : writes.

(** The tag of a PDU, a compile-time constant. *)
Ltac wchoice :=
  eapply writes_bind;
  [apply writes_choice; (split; vm_compute; discriminate)|intros [] _].
Ltac pchoice :=
  eapply parses_bind;
  [apply parses_domain_choice; (split; vm_compute; discriminate)|].

Ltac pdu_bytes := solve_bytes; try (split; vm_compute; congruence).

Section domain_roundtrips.
Context (user_id channel_id : Z).
Hypothesis (Hu : is_user_id user_id) (Hc : is_u16 channel_id).

Lemma attach_user_confirm_written :
  Writes (rdp_mcs_write_attach_user_confirm user_id) (attach_user_confirm_enc user_id)
    (fun _ => True).
Proof.
  unfold rdp_mcs_write_attach_user_confirm, attach_user_confirm_enc.
  apply writes_require; [by apply user_id_guard|]. wchoice. wstep. by apply writes_user_id.
Qed.
Lemma attach_user_confirm_parsed :
  rdp_mcs_parse_attach_user_confirm (View (attach_user_confirm_enc user_id)) =
    Ok (mk_attach_user_confirm 0 user_id).
Proof.
  unfold rdp_mcs_parse_attach_user_confirm. rewrite ensure_true by done.
  unfold attach_user_confirm_enc. rewrite <- (app_nil_r (be16 _)).
  apply (parses_with_stream _ _ []); [pdu_bytes|]. pchoice. pstep. cbn [app].
  eapply parses_bind; [apply parses_read_u8|].
  eapply parses_bind; [by apply parses_user_id|]. do 2 pstep. pstep.
Qed.
Lemma channel_join_request_written :
  Writes (rdp_mcs_write_channel_join_request user_id channel_id)
    (channel_join_request_enc user_id channel_id) (fun _ => True).
Proof.
  unfold rdp_mcs_write_channel_join_request, channel_join_request_enc.
  apply writes_require; [by apply user_id_guard|]. wchoice. wstep. by apply writes_channel_id.
Qed.
Lemma channel_join_request_parsed :
  rdp_mcs_parse_channel_join_request (View (channel_join_request_enc user_id channel_id)) =
    Ok (mk_channel_join_request user_id channel_id).
Proof.
  unfold rdp_mcs_parse_channel_join_request. rewrite ensure_true by done.
  unfold channel_join_request_enc. rewrite <- (app_nil_r (be16 (channel_id - 0))).
  apply (parses_with_stream _ _ []); [pdu_bytes|]. pchoice.
  eapply parses_bind; [by apply parses_user_id|].
  eapply parses_bind; [by apply parses_channel_id|]. do 2 pstep. pstep.
Qed.
Lemma channel_join_confirm_written :
  Writes (rdp_mcs_write_channel_join_confirm user_id channel_id)
    (channel_join_confirm_enc user_id channel_id) (fun _ => True).
Proof.
  unfold rdp_mcs_write_channel_join_confirm, channel_join_confirm_enc.
  apply writes_require; [by apply user_id_guard|]. wchoice. do 3 wstep.
  by apply writes_channel_id.
Qed.
Lemma channel_join_confirm_parsed :
  rdp_mcs_parse_channel_join_confirm (View (channel_join_confirm_enc user_id channel_id)) =
    Ok (mk_channel_join_confirm 0 user_id channel_id channel_id).
Proof.
  unfold rdp_mcs_parse_channel_join_confirm. rewrite ensure_true by done.
  unfold channel_join_confirm_enc. rewrite <- (app_nil_r (be16 (channel_id - 0))) at 2.
  apply (parses_with_stream _ _ []); [pdu_bytes|]. pchoice. pstep. cbn [app].
  eapply parses_bind; [apply parses_read_u8|].
  eapply parses_bind; [by apply parses_user_id|].
  do 2 (eapply parses_bind; [by apply parses_channel_id|]). do 2 pstep. pstep.
Qed.

Context (v : view) (l : list Z).
Hypothesis (Hv : view_bytes v = l) (Hlen : view_len v = blen l) (Hl : 0 < blen l <= 0x7fff).

Lemma send_data_indication_written :
  Writes (rdp_mcs_write_send_data_indication user_id channel_id v)
    (send_data_enc RDP_MCS_PDU_SEND_DATA_INDICATION user_id channel_id l) (fun _ => True).
Proof.
  unfold rdp_mcs_write_send_data_indication, send_data_enc. rewrite Hlen.
  apply writes_require.
  { apply user_id_guard in Hu as Hg. destruct v; cbn in *; [subst l; cbn in *|]; guard_lia. }
  wchoice. do 3 wstep. eapply writes_bind; [apply writes_per_length; lia|]. intros [] _.
  by apply writes_append_bytes.
Qed.
(** Both directions of the data PDU; the parser tolerates trailing bytes. *)
Lemma send_data_parsed pdu_type rest :
  bytes l -> bytes rest -> 0 <= pdu_type <= 0x3f ->
  rdp_mcs_parse_send_data_common (View (send_data_enc pdu_type user_id channel_id l ++ rest))
    pdu_type = Ok (mk_send_data_indication user_id channel_id l (blen l)).
Proof.
  intros Hb Hr Ht. unfold rdp_mcs_parse_send_data_common. rewrite ensure_true by done.
  apply (parses_with_stream _ _ rest).
  { unfold send_data_enc. apply Forall_app_2; [|done].
    apply Forall_app_2; [apply bytes_domain_choice; lia|]. solve_bytes.
    apply bytes_per_length. lia. }
  unfold send_data_enc. rewrite <- !app_assoc.
  eapply parses_bind; [apply parses_domain_choice; lia|].
  eapply parses_bind; [by apply parses_user_id|].
  eapply parses_bind; [by apply parses_channel_id|].
  eapply parses_bind; [apply parses_read_u8|].
  eapply parses_bind; [apply parses_per_length; lia|]. do 3 pstep. pstep.
Qed.
End domain_roundtrips.

(** ** Properties *)

(** BER and PER lengths and integers: what the writers append, the readers
    read back, for every BER length of a 64-bit size, every PER length up to
    0x7fff and every 32-bit PER integer, whatever bytes follow. *)
Theorem mcs_lengths_roundtrip n m v rest :
  is_size n -> 0 <= m <= 0x7fff -> is_u32 v ->
  (Writes (rdp_mcs_write_ber_length n) (ber_length_enc n) (fun _ => True) /\
   Parses rdp_mcs_read_ber_length (ber_length_enc n ++ rest) rest n) /\
  (Writes (rdp_mcs_write_per_length m) (per_length_enc m) (fun _ => True) /\
   Parses rdp_mcs_read_per_length (per_length_enc m ++ rest) rest m) /\
  (Writes (rdp_mcs_write_per_integer v) (per_integer_enc v) (fun _ => True) /\
   Parses rdp_mcs_read_per_integer (per_integer_enc v ++ rest) rest v).
Proof.
  intros Hn Hm Hv. split; [|split]; split.
  - by apply writes_ber_length.
  - by apply parses_ber_length.
  - by apply writes_per_length.
  - by apply parses_per_length.
  - by apply writes_per_integer.
  - by apply parses_per_integer.
Qed.

(** The BER INTEGER writer emits the tag, the length and the shortest
    two's-complement body of the unsigned value: the body's big-endian value is
    the integer, its sign bit is clear, and no leading zero octet is redundant. *)
Theorem ber_integer_minimal v :
  is_u32 v ->
  Writes (rdp_mcs_write_ber_integer v)
    ([0x02] ++ [blen (ber_integer_body v)] ++ ber_integer_body v) (fun _ => True) /\
  be_value (ber_integer_body v) = v /\ 1 <= blen (ber_integer_body v) <= 5 /\
  default 0 (head (ber_integer_body v)) < 0x80 /\
  (forall b0 b1 r, ber_integer_body v = b0 :: b1 :: r -> b0 = 0 -> 0x80 <= b1).
Proof.
  intros Hv. destruct (ber_integer_body_spec v Hv) as (_ & Hl & Hval & Hs & Hmin).
  split; [|done]. assert (E : ber_length_enc (blen (ber_integer_body v)) = [blen (ber_integer_body v)]).
  { unfold ber_length_enc. destruct (Z.ltb_spec (blen (ber_integer_body v)) 0x80); [done|lia]. }
  rewrite <- E. by apply writes_ber_integer.
Qed.

(** C38: round trip of the MCS connect exchange: the Connect-Initial and the
    Connect-Response that wrap any non-empty GCC user data are accepted by the
    peer's parser, which recovers exactly that user data (and the rt-successful
    result found by the recursive scan of the response). *)
Theorem mcs_connect_roundtrip v gcc :
  view_bytes v = gcc -> view_len v = blen gcc -> gcc_fits gcc ->
  (Writes (rdp_mcs_write_connect_initial v) (connect_initial_enc gcc) (fun _ => True) /\
   rdp_mcs_parse_connect_initial (View (connect_initial_enc gcc)) =
     Ok (mk_connect_initial gcc (blen gcc))) /\
  (Writes (rdp_mcs_write_connect_response v) (connect_response_enc gcc) (fun _ => True) /\
   rdp_mcs_parse_connect_response (View (connect_response_enc gcc)) =
     Ok (mk_connect_response true 0 gcc (blen gcc))).
Proof.
  intros Hv Hl Hg. split; split.
  - by apply connect_initial_written.
  - by apply connect_initial_parsed.
  - by apply connect_response_written.
  - by apply connect_response_parsed.
Qed.

(** Round trip of the channel-join sequence: Erect-Domain, Attach-User
    request and confirm, Channel-Join request and confirm. *)
Theorem mcs_domain_roundtrip user_id channel_id :
  is_user_id user_id -> is_u16 channel_id ->
  (Writes rdp_mcs_write_erect_domain_request erect_domain_enc (fun _ => True) /\
   rdp_mcs_parse_erect_domain_request (View erect_domain_enc) = Ok tt) /\
  (Writes rdp_mcs_write_attach_user_request [0x28] (fun _ => True) /\
   rdp_mcs_parse_attach_user_request (View [0x28]) = Ok tt) /\
  (Writes (rdp_mcs_write_attach_user_confirm user_id) (attach_user_confirm_enc user_id)
     (fun _ => True) /\
   rdp_mcs_parse_attach_user_confirm (View (attach_user_confirm_enc user_id)) =
     Ok (mk_attach_user_confirm 0 user_id)) /\
  (Writes (rdp_mcs_write_channel_join_request user_id channel_id)
     (channel_join_request_enc user_id channel_id) (fun _ => True) /\
   rdp_mcs_parse_channel_join_request (View (channel_join_request_enc user_id channel_id)) =
     Ok (mk_channel_join_request user_id channel_id)) /\
  (Writes (rdp_mcs_write_channel_join_confirm user_id channel_id)
     (channel_join_confirm_enc user_id channel_id) (fun _ => True) /\
   rdp_mcs_parse_channel_join_confirm (View (channel_join_confirm_enc user_id channel_id)) =
     Ok (mk_channel_join_confirm 0 user_id channel_id channel_id)).
Proof.
  intros Hu Hc. split; [split; [|done]|split; [split; [|done]|split; [|split]]].
  - unfold rdp_mcs_write_erect_domain_request, erect_domain_enc. wchoice.
    eapply writes_bind; [by apply writes_per_integer|intros [] _]. by apply writes_per_integer.
  - by apply (writes_choice RDP_MCS_PDU_ATTACH_USER_REQUEST 0).
  - split; [by apply attach_user_confirm_written|by apply attach_user_confirm_parsed].
  - split; [by apply channel_join_request_written|by apply channel_join_request_parsed].
  - split; [by apply channel_join_confirm_written|by apply channel_join_confirm_parsed].
Qed.

(** Round trip of a data PDU: the indication the server sends for a payload
    of 1 to 32767 bytes is parsed by the client to the same channel, initiator
    and payload (and so is the request with the same layout), whatever follows. *)
Theorem mcs_send_data_roundtrip user_id channel_id v l rest :
  is_user_id user_id -> is_u16 channel_id ->
  view_bytes v = l -> view_len v = blen l -> 0 < blen l <= 0x7fff -> bytes l -> bytes rest ->
  let sdi := mk_send_data_indication user_id channel_id l (blen l) in
  Writes (rdp_mcs_write_send_data_indication user_id channel_id v)
    (send_data_enc RDP_MCS_PDU_SEND_DATA_INDICATION user_id channel_id l) (fun _ => True) /\
  rdp_mcs_parse_send_data_indication
    (View (send_data_enc RDP_MCS_PDU_SEND_DATA_INDICATION user_id channel_id l ++ rest)) = Ok sdi /\
  rdp_mcs_parse_send_data_request
    (View (send_data_enc RDP_MCS_PDU_SEND_DATA_REQUEST user_id channel_id l ++ rest)) = Ok sdi.
Proof.
  intros Hu Hc Hv Hlen Hl Hb Hr sdi. split; [by apply send_data_indication_written|].
  split; by apply send_data_parsed.
Qed.

(** Memory safety of every MCS parser, and termination of the recursive scan
    of the Connect-Response: on any bytes, no parser reads outside them, and the
    fuel of the item loop (one unit per byte) never runs out. *)
Theorem mcs_parsers_safe (d : list Z) :
  bytes d ->
  rdp_mcs_parse_connect_initial (View d) <> Fault /\
  rdp_mcs_parse_connect_response (View d) <> Fault /\
  rdp_mcs_parse_erect_domain_request (View d) <> Fault /\
  rdp_mcs_parse_attach_user_request (View d) <> Fault /\
  rdp_mcs_parse_attach_user_confirm (View d) <> Fault /\
  rdp_mcs_parse_channel_join_request (View d) <> Fault /\
  rdp_mcs_parse_channel_join_confirm (View d) <> Fault /\
  rdp_mcs_parse_send_data_request (View d) <> Fault /\
  rdp_mcs_parse_send_data_indication (View d) <> Fault /\
  rdp_mcs_parse_disconnect_provider_ultimatum (View d) <> Fault.
Proof.
  intros Hb.
  repeat match goal with |- _ /\ _ => split end;
    [|unfold rdp_mcs_parse_connect_response; rewrite ensure_true by done; by apply scan_safe|..|];
    cbv delta [rdp_mcs_parse_connect_initial rdp_mcs_parse_erect_domain_request
      rdp_mcs_parse_attach_user_request rdp_mcs_parse_attach_user_confirm
      rdp_mcs_parse_channel_join_request rdp_mcs_parse_channel_join_confirm
      rdp_mcs_parse_send_data_request rdp_mcs_parse_send_data_indication
      rdp_mcs_parse_send_data_common rdp_mcs_parse_disconnect_provider_ultimatum]; cbv beta;
    rewrite ensure_true by done.
  1-8: apply with_stream_safe with (fun _ => True); [|done];
    repeat safe_step; try done; by apply (safe_weaken _ _ _ (safe_require _ _)).
  rewrite ensure_bind. cbn [view_len view_bytes]. destruct (Z.eqb_spec (blen d) 2) as [E|]; [|done].
  destruct (blen_2 d E) as (b0 & b1 & ->).
  rewrite (rd_lookup _ 0 b0), (rd_lookup _ 1 b1) by done. cbn [mbind res_bind].
  rewrite ensure_bind. by destruct (negb _).
Qed.

Lemma mcs_lengths_roundtrip_witness :
  Parses rdp_mcs_read_ber_length ([0x82; 0x01; 0x00] ++ [7]) [7] 256.
Proof.
  apply (mcs_lengths_roundtrip 256 5 70000 [7]).
  - split; vm_compute; discriminate.
  - split; vm_compute; discriminate.
  - by_evaluation.
Defined.

Lemma ber_integer_minimal_witness :
  be_value (ber_integer_body 65535) = 65535 /\ ber_integer_body 65535 = [0; 0xff; 0xff].
Proof. split; [apply (ber_integer_minimal 65535); by_evaluation|vm_compute; reflexivity]. Defined.

Lemma mcs_connect_roundtrip_witness :
  rdp_mcs_parse_connect_response (View (connect_response_enc [1; 2; 3])) =
    Ok (mk_connect_response true 0 [1; 2; 3] 3).
Proof.
  apply (mcs_connect_roundtrip (View [1; 2; 3]) [1; 2; 3]).
  - vm_compute. reflexivity.
  - vm_compute. reflexivity.
  - split; [by_evaluation|]. split; vm_compute; [reflexivity|discriminate].
Defined.

Lemma mcs_domain_roundtrip_witness :
  rdp_mcs_parse_channel_join_confirm (View (channel_join_confirm_enc 1007 1003)) =
    Ok (mk_channel_join_confirm 0 1007 1003 1003).
Proof.
  apply (mcs_domain_roundtrip 1007 1003).
  - split; [by_evaluation|vm_compute; discriminate].
  - by_evaluation.
Defined.

Lemma mcs_send_data_roundtrip_witness :
  rdp_mcs_parse_send_data_indication
    (View (send_data_enc RDP_MCS_PDU_SEND_DATA_INDICATION 1007 1003 [1; 2; 3] ++ [])) =
  Ok (mk_send_data_indication 1007 1003 [1; 2; 3] 3).
Proof.
  apply (mcs_send_data_roundtrip 1007 1003 (View [1; 2; 3]) [1; 2; 3] []).
  - split; [by_evaluation|vm_compute; discriminate].
  - by_evaluation.
  - vm_compute. reflexivity.
  - vm_compute. reflexivity.
  - split; vm_compute; [reflexivity|discriminate].
  - by_evaluation.
  - by_evaluation.
Defined.

Lemma mcs_parsers_safe_witness :
  rdp_mcs_parse_connect_response (View [0x7f; 0x66; 0x82; 0xff; 0xff; 0x0a]) <> Fault.
Proof. apply (mcs_parsers_safe [0x7f; 0x66; 0x82; 0xff; 0xff; 0x0a]). by_evaluation. Defined.
