(* ===== verification/Fastpath.v ===== *)
(** * Fastpath: fast-path output packets

    Models [src/src/protocol/fastpath.c]: the packet header with its one- or
    two-byte length, the list of updates of a packet, and the removal of
    Standard Security encryption.  The Standard Security operations of
    [src/src/security/security.c] that the removal calls are the interface
    [StandardSecurity]: the theorems about it hold for every implementation. *)

From S2P Require Import Prelude Stream Buffer.

Definition RDP_FASTPATH_OUTPUT_ACTION_FASTPATH : Z := 0x00.
Definition RDP_FASTPATH_OUTPUT_ACTION_X224 : Z := 0x03.
Definition RDP_FASTPATH_OUTPUT_ENCRYPTED : Z := 0x01.
Definition RDP_FASTPATH_OUTPUT_SECURE_CHECKSUM : Z := 0x02.
Definition RDP_FASTPATH_OUTPUT_COMPRESSION_USED : Z := 0x02.
Definition RDP_FASTPATH_FRAGMENT_SINGLE : Z := 0x00.
Definition RDP_FASTPATH_FRAGMENT_NEXT : Z := 0x03.
Definition RDP_FASTPATH_UPDATE_SYNCHRONIZE : Z := 0x03.
Definition RDP_FASTPATH_MAX_UPDATES : Z := 64.

Record rdp_fastpath_header := mk_fastpath_header {
  fh_action : Z;
  fh_security_flags : Z;
  fh_length : Z;
  fh_header_length : Z;
  fh_long_length : bool;
}.

(** [fu_data] is the [(data, data_len)] pair. *)
Record rdp_fastpath_update := mk_fastpath_update {
  fu_update_code : Z;
  fu_fragmentation : Z;
  fu_compression : Z;
  fu_compression_flags : Z;
  fu_data : view;
}.

Definition rdp_fastpath_valid_action (action : Z) : bool :=
  (action =? RDP_FASTPATH_OUTPUT_ACTION_FASTPATH) || (action =? RDP_FASTPATH_OUTPUT_ACTION_X224).

Definition rdp_fastpath_valid_update_code (update_code : Z) : bool :=
  (update_code =? 0x00) || (update_code =? 0x01) || (update_code =? 0x02) ||
  (update_code =? 0x03) || (update_code =? 0x04) || (update_code =? 0x05) ||
  (update_code =? 0x06) || (update_code =? 0x08) || (update_code =? 0x09) ||
  (update_code =? 0x0a) || (update_code =? 0x0b) || (update_code =? 0x0c).

(** ** The header *)

Definition rdp_fastpath_parse_header (data : view) : res rdp_fastpath_header :=
  ensure (negb (view_null data || (view_len data <? 2))) LIBRDP_STATUS_PROTOCOL_ERROR;;
  let p := view_bytes data in
  p0 ← rd p 0;
  let action := Z.land p0 0x03 in
  let security_flags := Z.land (Z.shiftr p0 6) 0x03 in
  ensure (rdp_fastpath_valid_action action) LIBRDP_STATUS_PROTOCOL_ERROR;;
  p1 ← rd p 1;
  '(packet_length, header_length, long_length) ←
    (if negb (Z.land p1 0x80 =? 0) then
       ensure (negb (view_len data <? 3)) LIBRDP_STATUS_PROTOCOL_ERROR;;
       p2 ← rd p 2;
       mret (Z.lor (Z.shiftl (Z.land p1 0x7f) 8) p2, 3, true)
     else mret (p1, 2, false));
  ensure (negb ((packet_length <? header_length) || (view_len data <? packet_length)))
    LIBRDP_STATUS_PROTOCOL_ERROR;;
  mret (mk_fastpath_header action security_flags packet_length header_length long_length).

Definition rdp_fastpath_write_header (action security_flags payload_len : Z) : writer unit :=
  let packet_length := size_t (payload_len + 2) in
  require (negb (negb (rdp_fastpath_valid_action action) || (3 <? security_flags)))
    LIBRDP_STATUS_INVALID_ARGUMENT;;
  let packet_length :=
    if 127 <? packet_length then size_t (payload_len + 3) else packet_length in
  require (negb ((0x7fff <? packet_length) || (packet_length <? payload_len)))
    LIBRDP_STATUS_INVALID_ARGUMENT;;
  rdp_buffer_append_u8 (u8 (Z.lor action (u8 (Z.shiftl security_flags 6))));;
  if packet_length <=? 127 then rdp_buffer_append_u8 (u8 packet_length)
  else
    rdp_buffer_append_u8 (u8 (Z.lor 0x80 (Z.land (Z.shiftr packet_length 8) 0x7f)));;
    rdp_buffer_append_u8 (u8 (Z.land packet_length 0xff)).

(** ** The updates *)

Definition rdp_fastpath_write_update (update : rdp_fastpath_update) : writer unit :=
  let update_code := fu_update_code update in
  let fragmentation := fu_fragmentation update in
  let compression := fu_compression update in
  let data := fu_data update in
  require (negb (negb (rdp_fastpath_valid_update_code update_code) ||
                 (RDP_FASTPATH_FRAGMENT_NEXT <? fragmentation) ||
                 (negb (compression =? 0) &&
                  negb (compression =? RDP_FASTPATH_OUTPUT_COMPRESSION_USED)) ||
                 (view_null data && (0 <? view_len data)) || (UINT16_MAX <? view_len data)))
    LIBRDP_STATUS_INVALID_ARGUMENT;;
  require (negb ((update_code =? RDP_FASTPATH_UPDATE_SYNCHRONIZE) &&
                 (negb (fragmentation =? RDP_FASTPATH_FRAGMENT_SINGLE) ||
                  negb (compression =? 0) || negb (view_len data =? 0))))
    LIBRDP_STATUS_INVALID_ARGUMENT;;
  rdp_buffer_append_u8
    (u8 (Z.lor (Z.lor update_code (u8 (Z.shiftl fragmentation 4))) (u8 (Z.shiftl compression 6))));;
  (if compression =? RDP_FASTPATH_OUTPUT_COMPRESSION_USED
   then rdp_buffer_append_u8 (fu_compression_flags update) else mret tt);;
  rdp_buffer_append_u16_le (u16 (view_len data));;
  rdp_buffer_append data.

Fixpoint write_updates_loop (updates : list rdp_fastpath_update) : writer unit :=
  match updates with
  | [] => mret tt
  | update :: updates => rdp_fastpath_write_update update;; write_updates_loop updates
  end.

Definition rdp_fastpath_write_updates (updates : list rdp_fastpath_update) : writer unit :=
  require (blen updates <=? RDP_FASTPATH_MAX_UPDATES) LIBRDP_STATUS_INVALID_ARGUMENT;;
  payload ← with_local_buffer (write_updates_loop updates);
  rdp_fastpath_write_header RDP_FASTPATH_OUTPUT_ACTION_FASTPATH 0 (b_length payload.2);;
  rdp_buffer_append (buffer_view payload.2).

(** One round of the parser's loop. *)
Definition parse_update : reader rdp_fastpath_update :=
  update_header ← coerce LIBRDP_STATUS_PROTOCOL_ERROR rdp_stream_read_u8;
  let update_code := Z.land update_header 0x0f in
  let fragmentation := Z.land (Z.shiftr update_header 4) 0x03 in
  let compression := Z.land (Z.shiftr update_header 6) 0x03 in
  require (rdp_fastpath_valid_update_code update_code) LIBRDP_STATUS_PROTOCOL_ERROR;;
  require (negb (negb (compression =? 0) &&
                 negb (compression =? RDP_FASTPATH_OUTPUT_COMPRESSION_USED)))
    LIBRDP_STATUS_PROTOCOL_ERROR;;
  compression_flags ←
    (if compression =? RDP_FASTPATH_OUTPUT_COMPRESSION_USED
     then coerce LIBRDP_STATUS_PROTOCOL_ERROR rdp_stream_read_u8 else mret 0);
  size ← coerce LIBRDP_STATUS_PROTOCOL_ERROR rdp_stream_read_u16_le;
  remaining ← rdp_stream_remaining;
  require (negb (remaining <? size)) LIBRDP_STATUS_PROTOCOL_ERROR;;
  require (negb ((update_code =? RDP_FASTPATH_UPDATE_SYNCHRONIZE) &&
                 (negb (fragmentation =? RDP_FASTPATH_FRAGMENT_SINGLE) ||
                  negb (compression =? 0) || negb (size =? 0))))
    LIBRDP_STATUS_PROTOCOL_ERROR;;
  data ← (if 0 <? size
          then l ← coerce LIBRDP_STATUS_PROTOCOL_ERROR (rdp_stream_read_bytes size); mret (View l)
          else mret (NullView 0));
  mret (mk_fastpath_update update_code fragmentation compression compression_flags data).

(** The loop over [parsed.updates]; [room] is the number of free entries. *)
Fixpoint parse_updates_loop (room : nat) : reader (list rdp_fastpath_update) :=
  remaining ← rdp_stream_remaining;
  if 0 <? remaining then
    match room with
    | O => fail LIBRDP_STATUS_PROTOCOL_ERROR
    | S room =>
        update ← parse_update;
        updates ← parse_updates_loop room;
        mret (update :: updates)
    end
  else mret [].

Definition rdp_fastpath_parse_updates_payload (data : view) : res (list rdp_fastpath_update) :=
  ensure (negb (view_null data)) LIBRDP_STATUS_INVALID_ARGUMENT;;
  with_stream data (parse_updates_loop (Z.to_nat RDP_FASTPATH_MAX_UPDATES)).

Definition rdp_fastpath_parse_updates (data : view) : res (list rdp_fastpath_update) :=
  ensure (negb (view_null data)) LIBRDP_STATUS_INVALID_ARGUMENT;;
  header ← rdp_fastpath_parse_header data;
  ensure (fh_action header =? RDP_FASTPATH_OUTPUT_ACTION_FASTPATH) LIBRDP_STATUS_PROTOCOL_ERROR;;
  ensure (fh_security_flags header =? 0) LIBRDP_STATUS_STATE;;
  payload ← slice (view_bytes data) (fh_header_length header)
              (fh_length header - fh_header_length header);
  rdp_fastpath_parse_updates_payload (View payload).

(** ** Removal of Standard Security *)

(** What the removal asks of a Standard Security context [ctx] and of the
    cryptographic provider behind it: decryption in place, the two signatures, and
    the decryption counter.  Security.v has the instance. *)
Class StandardSecurity (ctx : Type) := {
  security_decrypt : ctx -> list Z -> res (list Z) * ctx;
  security_mac : ctx -> list Z -> res (list Z) * ctx;
  security_salted_mac : ctx -> list Z -> Z -> res (list Z) * ctx;
  security_decrypt_count : ctx -> Z;
}.

(** The contract: in-place decryption keeps the length and yields bytes, and
    neither call has undefined behaviour. *)
Class StandardSecurityLaws (ctx : Type) `{StandardSecurity ctx} : Prop := {
  decrypt_payload_ok c l l' c' :
    security_decrypt c l = (Ok l', c') -> bytes l -> blen l' = blen l /\ bytes l';
  decrypt_payload_defined c l : (security_decrypt c l).1 <> Fault;
  mac_signature_defined c l : (security_mac c l).1 <> Fault;
  salted_mac_signature_defined c l n : (security_salted_mac c l n).1 <> Fault;
}.

Section unwrap.
Context {ctx : Type} `{StandardSecurity ctx}.

Definition ustate : Type := wstate * ctx.

(** A buffer operation, a decryption. *)
Definition on_buffer {A} (w : writer A) : M ustate A := fun s =>
  let '(r, ws) := w s.1 in (r, (ws, s.2)).
Definition on_security (f : ctx -> res (list Z) * ctx) : M ustate (list Z) := fun s =>
  let '(r, c) := f s.2 in (r, (s.1, c)).

(** [OPENSSL_cleanse(plaintext, len); decoded->length = previous_len; return st;] *)
Definition rollback {A} (offset len previous_len : Z) (st : librdp_status) : M ustate A :=
  on_buffer (
    b ← get_buffer;
    blk ← lift (write_at (block b) offset (replicate (Z.to_nat len) 0));
    put_buffer (set_length previous_len (set_block blk (b_capacity b) b)));;
  fail st.

Definition catch {A} (m : M ustate A) (handler : librdp_status -> M ustate A) : M ustate A :=
  fun s => match m s with (Err st, s') => handler st s' | r => r end.

(** The result is [*used_decoded]. *)
Definition rdp_fastpath_unwrap_security (security_active : bool) (data : view) : M ustate bool :=
  require (negb (view_null data)) LIBRDP_STATUS_INVALID_ARGUMENT;;
  header ← lift (rdp_fastpath_parse_header data);
  if Z.land (fh_security_flags header) RDP_FASTPATH_OUTPUT_ENCRYPTED =? 0 then
    require (fh_security_flags header =? 0) LIBRDP_STATUS_UNSUPPORTED;; mret false
  else
    require (negb (negb security_active || (fh_length header <? fh_header_length header + 8)))
      LIBRDP_STATUS_PROTOCOL_ERROR;;
    signature ← lift (slice (view_bytes data) (fh_header_length header) 8);
    let encrypted_len := fh_length header - fh_header_length header - 8 in
    encrypted ← lift (slice (view_bytes data) (fh_header_length header + 8) encrypted_len);
    previous_len ← on_buffer (gets (fun s => b_length s.1));
    offset ← on_buffer (restore_on_error (
      rdp_fastpath_write_header RDP_FASTPATH_OUTPUT_ACTION_FASTPATH 0 encrypted_len;;
      offset ← gets (fun s => b_length s.1);
      rdp_buffer_append (View encrypted);;
      mret offset));
    b ← on_buffer get_buffer;
    ciphertext ← lift (slice (block b) offset encrypted_len);
    plaintext ← catch (on_security (fun c => security_decrypt c ciphertext))
      (rollback offset encrypted_len previous_len);
    on_buffer (
      blk ← lift (write_at (block b) offset plaintext);
      put_buffer (set_block blk (b_capacity b) b));;
    expected ← catch (on_security (fun c =>
        if Z.land (fh_security_flags header) RDP_FASTPATH_OUTPUT_SECURE_CHECKSUM =? 0
        then security_mac c plaintext
        else security_salted_mac c plaintext
               (if security_decrypt_count c =? 0 then 0 else u32 (security_decrypt_count c - 1))))
      (rollback offset encrypted_len previous_len);
    if bool_decide (signature = expected) then mret true
    else rollback offset encrypted_len previous_len LIBRDP_STATUS_PROTOCOL_ERROR.
End unwrap.

(** ** The wire formats *)

Definition fastpath_header_enc (action security_flags payload_len : Z) : list Z :=
  [action + 64 * security_flags] ++
  (if payload_len + 2 <=? 127 then [payload_len + 2]
   else [0x80 + (payload_len + 3) / 256] ++ [(payload_len + 3) mod 256]).

Definition fastpath_update_enc (u : rdp_fastpath_update) : list Z :=
  [fu_update_code u + 16 * fu_fragmentation u + 64 * fu_compression u] ++
  (if fu_compression u =? RDP_FASTPATH_OUTPUT_COMPRESSION_USED
   then [fu_compression_flags u] else []) ++
  le16 (view_len (fu_data u)) ++ view_bytes (fu_data u).

Definition fastpath_updates_enc (us : list rdp_fastpath_update) : list Z :=
  concat (fastpath_update_enc <$> us).

(** What the parser returns for a written update: no data is NULL, and the
    compression flags of an uncompressed update are zero. *)
Definition normalise (u : rdp_fastpath_update) : rdp_fastpath_update :=
  mk_fastpath_update (fu_update_code u) (fu_fragmentation u) (fu_compression u)
    (if fu_compression u =? RDP_FASTPATH_OUTPUT_COMPRESSION_USED
     then fu_compression_flags u else 0)
    (match view_bytes (fu_data u) with [] => NullView 0 | l => View l end).

Record update_ok (u : rdp_fastpath_update) : Prop := {
  update_ok_code : rdp_fastpath_valid_update_code (fu_update_code u) = true;
  update_ok_fragmentation : 0 <= fu_fragmentation u <= 3;
  update_ok_compression : fu_compression u = 0 \/ fu_compression u = 2;
  update_ok_flags : is_byte (fu_compression_flags u);
  update_ok_data : bytes (view_bytes (fu_data u));
  update_ok_len : view_len (fu_data u) = blen (view_bytes (fu_data u)) /\
    view_len (fu_data u) <= UINT16_MAX;
  update_ok_sync : fu_update_code u = RDP_FASTPATH_UPDATE_SYNCHRONIZE ->
    fu_fragmentation u = 0 /\ fu_compression u = 0 /\ view_len (fu_data u) = 0;
}.

(** ** Lemmas: the header *)

Lemma valid_action_cases a : rdp_fastpath_valid_action a = true -> a = 0 \/ a = 3.
Proof. unfold rdp_fastpath_valid_action. intros. bool_prop. done. Qed.

Lemma action_bits a f :
  0 <= a <= 3 -> 0 <= f <= 3 -> u8 (Z.lor a (u8 (Z.shiftl f 6))) = a + 64 * f.
Proof.
  intros. unfold u8. rewrite (Z.mod_small (Z.shiftl f 6)) by bits_lia.
  rewrite (lor_shiftl 6) by lia. rewrite Z.mod_small; lia.
Qed.

Lemma bytes_header_enc a f n :
  0 <= a <= 3 -> 0 <= f <= 3 -> 0 <= n <= 0x7ffc -> bytes (fastpath_header_enc a f n).
Proof.
  intros. unfold fastpath_header_enc. apply Forall_app_2; [solve_bytes|].
  destruct (Z.leb_spec (n + 2) 127); solve_bytes.
Qed.

Lemma blen_header_enc a f n :
  blen (fastpath_header_enc a f n) = if n + 2 <=? 127 then 2 else 3.
Proof. unfold fastpath_header_enc. by destruct (n + 2 <=? 127). Qed.

Lemma header_written a f n :
  rdp_fastpath_valid_action a = true -> 0 <= f <= 3 -> 0 <= n <= 0x7ffc ->
  Writes (rdp_fastpath_write_header a f n) (fastpath_header_enc a f n) (fun _ => True).
Proof.
  intros Ha Hf Hn. pose proof (valid_action_cases a Ha) as Hc.
  unfold rdp_fastpath_write_header, fastpath_header_enc. rewrite Ha, action_bits by lia.
  cbv zeta. apply writes_require; [guard_lia|].
  unfold size_t. rewrite !(Z.mod_small (n + _)) by lia.
  destruct (Z.leb_spec (n + 2) 127), (Z.ltb_spec 127 (n + 2)); try lia.
  - apply writes_require; [guard_lia|]. wstep.
    destruct (Z.leb_spec (n + 2) 127); [|lia]. unfold u8. rewrite Z.mod_small by lia.
    apply writes_u8.
  - apply writes_require; [guard_lia|]. wstep.
    destruct (Z.leb_spec (n + 3) 127); [lia|].
    replace (u8 (Z.lor 0x80 (Z.land (Z.shiftr (n + 3) 8) 0x7f))) with (0x80 + (n + 3) / 256).
    2: { rewrite Z.lor_comm. change 0x80 with (1 * 2 ^ 7) at 2. rewrite (lor_add 7) by bits_lia.
         unfold u8. bits_norm. Z.div_mod_to_equations. lia. }
    wstep. replace (u8 (Z.land (n + 3) 255)) with ((n + 3) mod 256) by (unfold u8; bits_lia).
    apply writes_u8.
Qed.

(** A length of the packet beyond 0x7fff is refused, also when it wraps around. *)
Lemma header_refused a f n :
  is_size n -> 0x7ffc < n -> Rejects (rdp_fastpath_write_header a f n) LIBRDP_STATUS_INVALID_ARGUMENT.
Proof.
  unfold is_size, SIZE_MAX. intros Hn Hbig. unfold rdp_fastpath_write_header. cbv zeta.
  intros b h Hwf. rewrite bind_require.
  destruct (negb (_ || (3 <? f))); [|done]. rewrite bind_require.
  replace (negb _) with false; [done|]. symmetry. apply negb_false_iff, orb_true_iff.
  unfold size_t. destruct (Z.ltb_spec 127 ((n + 2) mod 0x10000000000000000));
    Z.div_mod_to_equations; lia.
Qed.

Lemma header_parsed a f n l :
  rdp_fastpath_valid_action a = true -> 0 <= f <= 3 -> 0 <= n <= 0x7ffc -> n <= blen l ->
  rdp_fastpath_parse_header (View (fastpath_header_enc a f n ++ l)) =
    Ok (mk_fastpath_header a f (blen (fastpath_header_enc a f n) + n)
          (blen (fastpath_header_enc a f n)) (127 <? n + 2)).
Proof.
  intros Ha Hf Hn Hl. pose proof (valid_action_cases a Ha) as Hc.
  assert (Hact : Z.land (a + 64 * f) 0x03 = a) by bits_lia.
  assert (Hflags : Z.land (Z.shiftr (a + 64 * f) 6) 0x03 = f) by bits_lia.
  unfold rdp_fastpath_parse_header. cbn [view_null view_len view_bytes].
  rewrite blen_header_enc. unfold fastpath_header_enc.
  destruct (Z.leb_spec (n + 2) 127), (Z.ltb_spec 127 (n + 2)); try lia; cbn [app].
  - rewrite ensure_true by guard_lia.
    rewrite (rd_lookup _ 0 (a + 64 * f)), (rd_lookup _ 1 (n + 2)) by done.
    cbn [mbind res_bind]. rewrite Hact, Hflags, ensure_true by done. cbn [mbind res_bind].
    rewrite byte_hi by (unfold is_byte; lia). destruct (Z.ltb_spec (n + 2) 0x80); [|lia].
    cbn [negb mret res_ret mbind res_bind]. rewrite ensure_true by guard_lia. cbn. do 2 f_equal. lia.
  - rewrite ensure_true by guard_lia.
    rewrite (rd_lookup _ 0 (a + 64 * f)), (rd_lookup _ 1 (0x80 + (n + 3) / 256)),
      (rd_lookup _ 2 ((n + 3) mod 256)) by done.
    cbn [mbind res_bind]. rewrite Hact, Hflags, ensure_true by done. cbn [mbind res_bind].
    assert (is_byte (0x80 + (n + 3) / 256)) by (unfold is_byte; Z.div_mod_to_equations; lia).
    rewrite byte_hi by done.
    destruct (Z.ltb_spec (0x80 + (n + 3) / 256) 0x80); [Z.div_mod_to_equations; lia|].
    cbn [negb]. rewrite ensure_true by guard_lia. cbn [mbind res_bind mret res_ret].
    rewrite (lor_shiftl' 8) by (Z.div_mod_to_equations; lia).
    replace (Z.land (0x80 + (n + 3) / 256) 0x7f * 2 ^ 8 + (n + 3) mod 256) with (3 + n)
      by bits_lia.
    by rewrite ensure_true by guard_lia.
Qed.

Lemma parse_header_inv d hdr :
  bytes d -> rdp_fastpath_parse_header (View d) = Ok hdr ->
  rdp_fastpath_valid_action (fh_action hdr) = true /\ 0 <= fh_security_flags hdr <= 3 /\
  2 <= fh_header_length hdr <= fh_length hdr /\ fh_length hdr <= blen d /\
  fh_length hdr <= 0x7fff /\ fh_header_length hdr <= 3.
Proof.
  intros Hb. unfold rdp_fastpath_parse_header. rewrite ensure_bind. cbn [view_null view_len view_bytes].
  destruct (Z.ltb_spec (blen d) 2); [done|]. cbn [negb orb].
  destruct d as [|p0 [|p1 r]]; [zlen..|].
  rewrite (rd_lookup _ 0 p0), (rd_lookup _ 1 p1) by done. cbn [mbind res_bind].
  rewrite ensure_bind. destruct (rdp_fastpath_valid_action _) eqn:Ha; [|done].
  apply Forall_cons_1 in Hb as [H0 Hb]. apply Forall_cons_1 in Hb as [H1 Hb].
  rewrite byte_hi by done. destruct (Z.ltb_spec p1 0x80); cbn [negb mret res_ret mbind res_bind].
  - rewrite ensure_bind. destruct (negb _) eqn:E; [|done]. intros [= <-]. bool_prop.
    cbn. unfold is_byte in *. repeat split; try done; bits_lia.
  - destruct r as [|p2 r]; [done|]. rewrite ensure_true by guard_lia.
    rewrite (rd_lookup _ 2 p2) by done. cbn [mbind res_bind mret res_ret]. rewrite ensure_bind.
    apply Forall_cons_1 in Hb as [Hp2 _]. unfold is_byte in *.
    rewrite (lor_shiftl' 8) by lia.
    destruct (negb _) eqn:E; [|done]. intros [= <-]. bool_prop.
    cbn in *. repeat split; try done; bits_lia.
Qed.

(** ** Lemmas: the updates *)

Lemma valid_code_range c : rdp_fastpath_valid_update_code c = true -> 0 <= c <= 12.
Proof. unfold rdp_fastpath_valid_update_code. intros. bool_prop. lia. Qed.

Lemma update_header_bits c f k :
  0 <= c <= 15 -> 0 <= f <= 3 -> 0 <= k <= 3 ->
  u8 (Z.lor (Z.lor c (u8 (Z.shiftl f 4))) (u8 (Z.shiftl k 6))) = c + 16 * f + 64 * k.
Proof.
  intros. unfold u8. rewrite (Z.mod_small (Z.shiftl f 4)), (Z.mod_small (Z.shiftl k 6)) by bits_lia.
  rewrite (lor_shiftl 4), (lor_shiftl 6) by lia. rewrite Z.mod_small; lia.
Qed.

Lemma bytes_update_enc u : update_ok u -> bytes (fastpath_update_enc u).
Proof.
  intros [Hc Hf Hk Hfl Hb Hl Hs]. apply valid_code_range in Hc. unfold fastpath_update_enc.
  destruct (_ =? _); solve_bytes.
Qed.

Lemma update_written u :
  update_ok u -> Writes (rdp_fastpath_write_update u) (fastpath_update_enc u) (fun _ => True).
Proof.
  intros [Hc Hf Hk Hfl Hb [Hl Hmax] Hs]. pose proof (valid_code_range _ Hc).
  unfold rdp_fastpath_write_update, fastpath_update_enc. cbv zeta.
  rewrite Hc, update_header_bits by lia. rewrite Hl in *.
  apply writes_require.
  { destruct (fu_data u); cbn [view_null view_bytes blen length] in *;
      unfold RDP_FASTPATH_FRAGMENT_NEXT, RDP_FASTPATH_OUTPUT_COMPRESSION_USED; guard_lia. }
  apply writes_require.
  { destruct (Z.eqb_spec (fu_update_code u) RDP_FASTPATH_UPDATE_SYNCHRONIZE) as [E|]; [|done].
    destruct (Hs E) as (-> & -> & ->). done. }
  wstep. eapply writes_bind.
  { destruct (_ =? _); [apply writes_u8|by apply writes_ret]. }
  intros [] _. assert (Hu16 : u16 (blen (view_bytes (fu_data u))) = blen (view_bytes (fu_data u))).
  { unfold u16, UINT16_MAX in *. zlen. apply Z.mod_small. lia. }
  rewrite Hu16. wstep. by apply writes_append_bytes.
Qed.

Lemma update_parsed u rest :
  update_ok u -> Parses parse_update (fastpath_update_enc u ++ rest) rest (normalise u).
Proof.
  intros [Hc Hf Hk Hfl Hb [Hl Hmax] Hs]. pose proof (valid_code_range _ Hc).
  unfold parse_update, fastpath_update_enc. rewrite Hl in *.
  rewrite <- !app_assoc. cbn [app]. pstep; [apply parses_read_u8|]. cbv zeta.
  set (w := fu_update_code u + 16 * fu_fragmentation u + 64 * fu_compression u).
  assert (E1 : Z.land w 0x0f = fu_update_code u) by (unfold w; bits_lia).
  assert (E2 : Z.land (Z.shiftr w 4) 0x03 = fu_fragmentation u) by (unfold w; bits_lia).
  assert (E3 : Z.land (Z.shiftr w 6) 0x03 = fu_compression u) by (unfold w; bits_lia).
  rewrite E1, E2, E3. pstep; [done|].
  pstep; [unfold RDP_FASTPATH_OUTPUT_COMPRESSION_USED; guard_lia|].
  set (l := view_bytes (fu_data u)) in *. pose proof (blen_nonneg l).
  eapply (parses_bind _ _ _ (le16 (blen l) ++ l ++ rest)).
  { instantiate (1 := if fu_compression u =? RDP_FASTPATH_OUTPUT_COMPRESSION_USED
      then fu_compression_flags u else 0).
    destruct (_ =? _); [apply parses_coerce, parses_read_u8|apply parses_ret]. }
  pstep; [apply parses_read_u16_le; guard_lia|]. pstep. pstep. pstep.
  { destruct (Z.eqb_spec (fu_update_code u) RDP_FASTPATH_UPDATE_SYNCHRONIZE) as [E|]; [|done].
    destruct (Hs E) as (-> & -> & ->). done. }
  unfold normalise. fold l. eapply parses_bind; [|apply parses_ret].
  destruct (Z.ltb_spec 0 (blen l)).
  - pstep; [by apply parses_read_bytes|]. apply parses_ret_eq. destruct l; [zlen|done].
  - assert (l = []) as -> by (apply blen_0_nil; lia). apply parses_ret.
Qed.

Lemma updates_written us :
  Forall update_ok us ->
  Writes (write_updates_loop us) (fastpath_updates_enc us) (fun _ => True).
Proof.
  induction 1 as [|u us Hu Hus IH]; [by apply writes_ret|].
  unfold fastpath_updates_enc. cbn [write_updates_loop fmap list_fmap concat].
  eapply writes_bind; [by apply update_written|]. by intros [] _.
Qed.

Lemma bytes_updates_enc us : Forall update_ok us -> bytes (fastpath_updates_enc us).
Proof.
  induction 1 as [|u us Hu Hus IH]; [constructor|].
  unfold fastpath_updates_enc. cbn [fmap list_fmap concat].
  apply Forall_app_2; [by apply bytes_update_enc|done].
Qed.

Lemma updates_parsed room us :
  Forall update_ok us -> (length us <= room)%nat ->
  Parses (parse_updates_loop room) (fastpath_updates_enc us) [] (normalise <$> us).
Proof.
  intros Hus. revert room. induction Hus as [|u us Hu Hus IH]; intros room Hr.
  - unfold fastpath_updates_enc. cbn [fmap list_fmap concat].
    destruct room; cbn [parse_updates_loop]; pstep; (apply parses_if_false; [done|]; pstep).
  - unfold fastpath_updates_enc. cbn [fmap list_fmap concat]. fold (fastpath_updates_enc us).
    destruct room as [|room]; [cbn in Hr; lia|]. cbn [parse_updates_loop]. pstep.
    apply parses_if_true; [unfold fastpath_update_enc; guard_lia|].
    eapply parses_bind; [by apply update_parsed|].
    eapply parses_bind; [apply IH; cbn in Hr; lia|]. pstep.
Qed.

(** *** What an accepted list of updates is made of *)

Lemma update_inv s u s' :
  stream_wf s -> parse_update s = (Ok u, s') ->
  update_ok u /\ normalise u = u /\ unread s = fastpath_update_enc u ++ unread s' /\ stream_wf s'.
Proof.
  intros Hs H. unfold parse_update in H.
  run_step H. read_inv. read_inv. cbv zeta in H.
  run_step H. read_inv. run_step H. read_inv.
  rename a into w, s0 into s1. rename H0 into Hu0, H1 into Hw, H2 into Hs1.
  set (code := Z.land w 0x0f) in *. set (frag := Z.land (Z.shiftr w 4) 0x03) in *.
  set (comp := Z.land (Z.shiftr w 6) 0x03) in *.
  assert (Hcomp : comp = 0 \/ comp = 2).
  { unfold RDP_FASTPATH_OUTPUT_COMPRESSION_USED in *. bool_prop. lia. }
  run_step H. rename a into flags, s0 into s2.
  assert (Hfl : stream_wf s2 /\ is_byte flags /\
    unread s1 = (if comp =? RDP_FASTPATH_OUTPUT_COMPRESSION_USED then [flags] else []) ++ unread s2 /\
    (comp = 0 -> flags = 0)).
  { destruct (Z.eqb_spec comp RDP_FASTPATH_OUTPUT_COMPRESSION_USED) as [Ec|Ec].
    - apply coerce_Ok_inv in E. read_inv. unfold RDP_FASTPATH_OUTPUT_COMPRESSION_USED in Ec.
      split; [done|]. split; [done|]. split; [done|]. lia.
    - injection E as <- <-. split; [done|]. split; [by unfold is_byte|]. by split. }
  clear E. destruct Hfl as (Hs2 & Hflb & Hu1 & Hfl0).
  run_step H. apply coerce_Ok_inv in E. read_inv.
  rename a into size, s0 into s3. run_step H. read_inv. run_step H. read_inv. run_step H. read_inv.
  run_step H. injection H as <- <-.
  match type of E with _ = (Ok ?x, ?y) => rename x into data, y into s4 end.
  assert (Hd : stream_wf s4 /\ unread s3 = view_bytes data ++ unread s4 /\
    bytes (view_bytes data) /\ blen (view_bytes data) = size /\ view_len data = size /\
    (match view_bytes data with [] => NullView 0 | l => View l end) = data).
  { destruct (Z.ltb_spec 0 size).
    - run_step E. injection E as <- <-. apply coerce_Ok_inv in E0.
      apply (read_bytes_inv size) in E0 as (? & Hlen & ? & ?); try done; try lia.
      do 5 (split; [done|]). cbn.
      match goal with |- match ?x with _ => _ end = _ => destruct x; [zlen|done] end.
    - injection E as <- <-. unfold is_u16 in *. cbn. split; [done|]. split; [done|].
      split; [constructor|]. split; [rewrite blen_nil; lia|]. split; [lia|done]. }
  clear E. destruct Hd as (Hs4 & Hu3 & Hdb & Hdl & Hvl & Hdn).
  assert (Hbits : w = code + 16 * frag + 64 * comp).
  { unfold code, frag, comp, is_byte in *. bits_lia. }
  split; [|split; [|split; [|done]]].
  - split; cbn; try done.
    + unfold frag. bits_lia.
    + unfold is_u16, UINT16_MAX in *. lia.
    + intros E. unfold RDP_FASTPATH_FRAGMENT_SINGLE in *. lia.
  - unfold normalise. cbn. rewrite Hdn. f_equal.
    destruct (Z.eqb_spec comp RDP_FASTPATH_OUTPUT_COMPRESSION_USED); [done|].
    unfold RDP_FASTPATH_OUTPUT_COMPRESSION_USED in *. symmetry. apply Hfl0. lia.
  - unfold fastpath_update_enc. cbn. rewrite <- Hbits, Hvl, Hu0. f_equal.
    rewrite Hu1, <- !app_assoc. f_equal.
    repeat match goal with E : unread s2 = _ |- _ => rewrite E end.
    by rewrite Hu3.
Qed.

Lemma updates_inv room s us s' :
  stream_wf s -> parse_updates_loop room s = (Ok us, s') ->
  Forall update_ok us /\ normalise <$> us = us /\ unread s = fastpath_updates_enc us /\
  (length us <= room)%nat.
Proof.
  revert s us s'. induction room as [|room IH]; intros s us s' Hs H; cbn [parse_updates_loop] in H;
    run_step H; read_inv; pose proof (blen_nonneg (unread s)).
  - destruct (Z.ltb_spec 0 (blen (unread s))); [discriminate H|]. injection H as <- <-.
    split; [constructor|]. split; [done|]. split; [|done]. apply blen_0_nil. lia.
  - destruct (Z.ltb_spec 0 (blen (unread s))).
    2: { injection H as <- <-. split; [constructor|]. split; [done|].
         split; [apply blen_0_nil; lia|cbn; lia]. }
    run_step H. apply update_inv in E as (Hu & Hn & Hu0 & Hs1); [|done].
    run_step H. apply IH in E as (Hus & Hns & Hu1 & Hlen); [|done]. injection H as <- <-.
    split; [by constructor|]. split; [cbn; by rewrite Hn, Hns|]. split; [|cbn; lia].
    rewrite Hu0, Hu1. done.
Qed.


#[export] Instance safe_parse_update : Safe parse_update (fun _ => True).
Proof.
  unfold parse_update. repeat safe_step. cbv zeta. repeat safe_step.
  eapply (safe_bind _ _ is_byte); [safe_step; [apply _|by apply safe_ret]|].
  intros. repeat safe_step. eapply (safe_bind _ _ (fun _ => True)); [|by intros; apply safe_ret].
  safe_step; [|by apply safe_ret].
  eapply safe_bind; [apply safe_coerce, safe_read_bytes; guard_lia|]. by intros; apply safe_ret.
Qed.

#[export] Instance safe_updates_loop room : Safe (parse_updates_loop room) (fun _ => True).
Proof.
  induction room as [|room IH]; cbn [parse_updates_loop]; repeat safe_step; done.
Qed.

Lemma payload_safe d : bytes d -> rdp_fastpath_parse_updates_payload (View d) <> Fault.
Proof.
  intros Hb. unfold rdp_fastpath_parse_updates_payload. rewrite ensure_true by done.
  apply with_stream_safe with (fun _ => True); [apply _|done].
Qed.

Lemma parse_header_safe d : bytes d -> rdp_fastpath_parse_header (View d) <> Fault.
Proof.
  intros Hb. unfold rdp_fastpath_parse_header. rewrite ensure_bind. cbn [view_null view_len view_bytes].
  destruct (Z.ltb_spec (blen d) 2); [done|]. cbn [negb orb].
  destruct d as [|p0 [|p1 r]]; [zlen..|].
  rewrite (rd_lookup _ 0 p0), (rd_lookup _ 1 p1) by done. cbn [mbind res_bind].
  rewrite ensure_bind. destruct (rdp_fastpath_valid_action _); [|done].
  destruct (negb (Z.land p1 0x80 =? 0)); cbn [mret res_ret mbind res_bind].
  - rewrite ensure_bind. destruct (negb (_ <? 3)) eqn:E; [|done].
    destruct r as [|p2 r]; [discriminate E|]. rewrite (rd_lookup _ 2 p2) by done.
    cbn [mret res_ret mbind res_bind]. rewrite ensure_bind. case_if_done.
  - rewrite ensure_bind. case_if_done.
Qed.

(** ** Lemmas: the removal of Standard Security *)

Section unwrap_lemmas.
Context {ctx : Type} `{StandardSecurity ctx} `{!StandardSecurityLaws ctx}.

(** The signature the removal expects of a plaintext. *)
Definition expected_signature (flags : Z) (plaintext : list Z) (c : ctx) : res (list Z) * ctx :=
  if Z.land flags RDP_FASTPATH_OUTPUT_SECURE_CHECKSUM =? 0
  then security_mac c plaintext
  else security_salted_mac c plaintext
         (if security_decrypt_count c =? 0 then 0 else u32 (security_decrypt_count c - 1)).

(** Overwriting the tail of the contents in place. *)
Lemma overwrite_tail b l k l' :
  buffer_wf b -> contents b = l ++ k -> blen l' = blen k -> 0 < blen l ->
  exists blk, write_at (block b) (blen l) l' = Ok blk /\
    buffer_wf (set_block blk (b_capacity b) b) /\
    contents (set_block blk (b_capacity b) b) = l ++ l'.
Proof.
  intros Hwf Hc Hl Hpos. pose proof (blen_contents b Hwf) as Hlen.
  rewrite Hc, blen_app in Hlen. pose proof (blen_nonneg l). pose proof (blen_nonneg k).
  destruct Hwf as [Hv Hb Hl0 Hcap]. apply state_valid_iff in Hv as [Hle Hnull].
  set (blk := ztake (blen l) (block b) ++ l' ++ zdrop (blen l + blen l') (block b)).
  assert (Ew : write_at (block b) (blen l) l' = Ok blk) by (apply write_at_ok; lia).
  exists blk. split; [done|].
  assert (Hblk : blen blk = b_capacity b) by (by rewrite (blen_write_at _ _ _ _ Ew)).
  split; [split; cbn; try done; apply state_valid_iff; cbn; split; [lia|split; [done|lia]]|].
  unfold contents. cbn [set_block block b_data b_length default from_option].
  assert (Ht : ztake (blen l) (block b) = l).
  { transitivity (ztake (blen l) (contents b)); [|by rewrite Hc, ztake_app_blen].
    unfold contents, ztake. rewrite take_take. f_equal. lia. }
  unfold blk. rewrite Ht, app_assoc. rewrite <- Hlen, <- Hl, <- blen_app. apply ztake_app_blen.
Qed.

(** The bytes appended last. *)
Lemma slice_tail b l k :
  buffer_wf b -> contents b = l ++ k -> slice (block b) (blen l) (blen k) = Ok k.
Proof.
  intros Hwf Hc. pose proof (blen_contents b Hwf) as Hlen.
  rewrite Hc, blen_app in Hlen. pose proof (blen_nonneg l). pose proof (blen_nonneg k).
  destruct Hwf as [Hv Hb Hl0 Hcap]. apply state_valid_iff in Hv as [Hle Hnull].
  rewrite slice_ok by lia. f_equal.
  assert (E : block b = l ++ k ++ zdrop (b_length b) (block b)).
  { rewrite app_assoc, <- Hc. unfold contents. by rewrite ztake_zdrop. }
  rewrite E, zdrop_app_blen, ztake_app_blen. done.
Qed.

Lemma rollback_spec {A} b h c l k st :
  buffer_wf b -> contents b = l ++ k -> 0 < blen l ->
  forall l0 r0, l = l0 ++ r0 ->
  exists b', rollback (ctx:=ctx) (A:=A) (blen l) (blen k) (blen l0) st ((b, h), c) = (Err st, ((b', h), c)) /\
    buffer_wf b' /\ contents b' = l0.
Proof.
  intros Hwf Hc Hpos l0 r0 Hl. pose proof (blen_nonneg k).
  destruct (overwrite_tail b l k (replicate (Z.to_nat (blen k)) 0) Hwf Hc)
    as (blk & Ew & Hwf' & Hc'); [rewrite blen_replicate; lia|done|].
  unfold rollback, on_buffer, get_buffer, put_buffer, gets, modify, lift, fail, mbind, M_bind.
  cbn [fst snd]. rewrite Ew. cbn [fst snd]. eexists. split; [done|].
  pose proof (blen_contents _ Hwf') as Hlen. rewrite Hc', Hl in Hlen.
  destruct Hwf' as [Hv Hb Hl0 Hcap]. apply state_valid_iff in Hv as [Hle Hnull].
  cbn in Hlen, Hb, Hl0, Hcap, Hle, Hnull. rewrite !blen_app in Hlen.
  pose proof (blen_nonneg l0). pose proof (blen_nonneg r0).
  pose proof (blen_nonneg (replicate (Z.to_nat (blen k)) 0)).
  split.
  { split; cbn; try done. apply state_valid_iff. cbn. split; [lia|done]. }
  unfold contents. cbn. transitivity (ztake (blen l0) (contents (set_block blk (b_capacity b) b))).
  { unfold contents, ztake. cbn. rewrite take_take. f_equal. lia. }
  rewrite Hc', Hl, <- !app_assoc. apply ztake_app_blen.
Qed.

(** The header and the ciphertext, or nothing. *)
Definition unwrap_output (encrypted_len : Z) (encrypted : list Z) : writer Z :=
  restore_on_error (
    rdp_fastpath_write_header RDP_FASTPATH_OUTPUT_ACTION_FASTPATH 0 encrypted_len;;
    offset ← gets (fun s => b_length s.1);
    rdp_buffer_append (View encrypted);;
    mret offset).

Lemma unwrap_output_spec b h enc :
  buffer_wf b -> blen enc <= 0x7ffc ->
  exists r b1 h1, unwrap_output (blen enc) enc (b, h) = (r, (b1, h1)) /\ buffer_wf b1 /\
    ((r = Ok (blen (contents b ++ fastpath_header_enc 0 0 (blen enc))) /\
      contents b1 = (contents b ++ fastpath_header_enc 0 0 (blen enc)) ++ enc) \/
     (r = Err LIBRDP_STATUS_NO_MEMORY /\ contents b1 = contents b)).
Proof.
  intros Hwf Hlen. pose proof (blen_nonneg enc).
  pose proof (header_written RDP_FASTPATH_OUTPUT_ACTION_FASTPATH 0 (blen enc)
    eq_refl ltac:(lia) ltac:(lia)) as Hh.
  assert (Hw : WritesAtomic (unwrap_output (blen enc) enc)
    (fastpath_header_enc 0 0 (blen enc) ++ [] ++ enc ++ []) (fun _ => True)).
  { apply writes_atomic. eapply writes_bind; [exact Hh|intros [] _].
    eapply writes_bind; [apply writes_gets|intros off _].
    eapply writes_bind; [apply writes_append|intros [] _]. by apply writes_ret. }
  destruct (Hw b h Hwf) as (r & b1 & h1 & E & Hwf1 & Hr & _).
  exists r, b1, h1. split; [done|]. split; [done|].
  destruct Hr as [(a & -> & _ & Hc)|[-> Hc]]; [left|by right].
  cbn [app] in Hc. rewrite app_nil_r, app_assoc in Hc. split; [|done]. f_equal.
  apply restore_on_error_Ok_inv in E. run_step E.
  destruct s as [b2 h2]. apply (writes_Ok_inv _ _ _ _ _ _ _ _ Hh Hwf) in E0 as (_ & Hwf2 & Hc2).
  run_step E. injection E0 as <- <-. run_step E. injection E as <- _.
  cbn [fst]. by rewrite <- (blen_contents b2 Hwf2), Hc2.
Qed.
(** The removal from the decryption on. *)
Definition unwrap_tail (header : rdp_fastpath_header) (signature : list Z)
    (encrypted_len previous_len offset : Z) : M (ustate (ctx:=ctx)) bool :=
  b ← on_buffer get_buffer;
  ciphertext ← lift (slice (block b) offset encrypted_len);
  plaintext ← catch (on_security (fun c => security_decrypt c ciphertext))
    (rollback offset encrypted_len previous_len);
  on_buffer (
    blk ← lift (write_at (block b) offset plaintext);
    put_buffer (set_block blk (b_capacity b) b));;
  expected ← catch (on_security (expected_signature (fh_security_flags header) plaintext))
    (rollback offset encrypted_len previous_len);
  if bool_decide (signature = expected) then mret true
  else rollback offset encrypted_len previous_len LIBRDP_STATUS_PROTOCOL_ERROR.

Lemma catch_err {A} (m : M (ustate (ctx:=ctx)) A) hnd s st s' :
  m s = (Err st, s') -> catch m hnd s = hnd st s'.
Proof. unfold catch. by intros ->. Qed.
Lemma catch_ok {A} (m : M (ustate (ctx:=ctx)) A) hnd s a s' :
  m s = (Ok a, s') -> catch m hnd s = (Ok a, s').
Proof. unfold catch. by intros ->. Qed.

Lemma unwrap_tail_spec hdr sig enc prev b h c r b' h' c' :
  buffer_wf b -> bytes enc -> forall l l0 r0, contents b = l ++ enc -> 0 < blen l ->
  l = l0 ++ r0 -> prev = blen l0 ->
  unwrap_tail hdr sig (blen enc) prev (blen l) ((b, h), c) = (r, ((b', h'), c')) ->
  r <> Fault /\ buffer_wf b' /\
  ((exists plaintext c1, r = Ok true /\ security_decrypt c enc = (Ok plaintext, c1) /\
     expected_signature (fh_security_flags hdr) plaintext c1 = (Ok sig, c') /\
     blen plaintext = blen enc /\ contents b' = l ++ plaintext) \/
   (is_ok r = false /\ contents b' = l0)).
Proof.
  intros Hwf Henc l l0 r0 Hc Hpos Hl -> E. unfold unwrap_tail in E.
  rewrite (bind_ok (on_buffer get_buffer) _ _ b ((b, h), c)) in E by done.
  rewrite (bind_ok (lift _) _ _ enc ((b, h), c)) in E by (unfold lift; by rewrite (slice_tail b l enc)).
  destruct (security_decrypt c enc) as [[pt|st|] c1] eqn:Ed.
  3: { pose proof (decrypt_payload_defined c enc) as Hf. by rewrite Ed in Hf. }
  2: { destruct (rollback_spec (A:=list Z) b h c1 l enc st Hwf Hc Hpos l0 r0 Hl)
         as (b2 & Er & Hwf2 & Hc2).
       rewrite (bind_err _ _ _ st ((b2, h), c1)) in E.
       2: { rewrite (catch_err _ _ _ st ((b, h), c1)); [exact Er|].
            unfold on_security. cbn [snd]. by rewrite Ed. }
       injection E as <- <- <- <-. split; [done|]. split; [done|]. by right. }
  destruct (decrypt_payload_ok c enc pt c1 Ed Henc) as [Hpt _].
  rewrite (bind_ok _ _ _ pt ((b, h), c1)) in E.
  2: { apply catch_ok. unfold on_security. cbn [snd]. by rewrite Ed. }
  destruct (overwrite_tail b l enc pt Hwf Hc Hpt Hpos) as (blk & Ew & Hwf1 & Hc1).
  set (b1 := set_block blk (b_capacity b) b) in *.
  rewrite (bind_ok _ _ _ tt ((b1, h), c1)) in E.
  2: { unfold on_buffer, lift, put_buffer, modify, mbind, M_bind. cbn [fst snd]. by rewrite Ew. }
  rewrite <- Hpt in E.
  destruct (expected_signature (fh_security_flags hdr) pt c1) as [[ex|st|] c2] eqn:Eex.
  3: { exfalso. unfold expected_signature in Eex. destruct (_ =? 0);
       [pose proof (mac_signature_defined c1 pt) as Hf|epose proof (salted_mac_signature_defined c1 pt _) as Hf];
       rewrite Eex in Hf; by apply Hf. }
  2: { destruct (rollback_spec (A:=list Z) b1 h c2 l pt st Hwf1 Hc1 Hpos l0 r0 Hl)
         as (b2 & Er & Hwf2 & Hc2).
       rewrite (bind_err _ _ _ st ((b2, h), c2)) in E.
       2: { rewrite (catch_err _ _ _ st ((b1, h), c2)); [exact Er|]. unfold on_security. cbn [snd]. by rewrite Eex. }
       injection E as <- <- <- <-. split; [done|]. split; [done|]. by right. }
  rewrite (bind_ok _ _ _ ex ((b1, h), c2)) in E by (apply catch_ok; unfold on_security; cbn [snd]; by rewrite Eex).
  destruct (bool_decide_reflect (sig = ex)) as [->|].
  - injection E as <- <- <- <-. split; [done|]. split; [done|]. left. by exists pt, c1.
  - destruct (rollback_spec (A:=bool) b1 h c2 l pt LIBRDP_STATUS_PROTOCOL_ERROR Hwf1 Hc1 Hpos l0 r0 Hl)
      as (b2 & Er & Hwf2 & Hc2).
    rewrite Er in E. injection E as <- <- <- <-. split; [done|]. split; [done|]. by right.
Qed.
End unwrap_lemmas.

(** ** Properties *)

(** The fast-path header: for every action and flags the writer accepts and
    every payload of at most 0x7ffc bytes it emits a two- or three-byte header
    whose length field the parser reads back, whenever the payload is there; a
    larger payload (also one whose length plus the header wraps around size_t)
    is refused and nothing is written. *)
Theorem fastpath_header_roundtrip a f n l :
  rdp_fastpath_valid_action a = true -> 0 <= f <= 3 -> is_size n ->
  (n <= 0x7ffc ->
   Writes (rdp_fastpath_write_header a f n) (fastpath_header_enc a f n) (fun _ => True) /\
   (n <= blen l ->
    rdp_fastpath_parse_header (View (fastpath_header_enc a f n ++ l)) =
      Ok (mk_fastpath_header a f (blen (fastpath_header_enc a f n) + n)
            (blen (fastpath_header_enc a f n)) (127 <? n + 2)))) /\
  (0x7ffc < n -> Rejects (rdp_fastpath_write_header a f n) LIBRDP_STATUS_INVALID_ARGUMENT).
Proof.
  intros Ha Hf Hn. split; [|by apply header_refused]. intros Hmax. unfold is_size in Hn. split.
  - apply header_written; [done|done|lia].
  - intros Hl. apply header_parsed; (done || lia).
Qed.

(** The update list: what the writer emits for a list of at most 64
    well-formed updates is the packet header and the concatenated updates, and
    the parser returns the same updates from it, whatever bytes follow. *)
Theorem fastpath_updates_roundtrip us rest :
  Forall update_ok us -> blen us <= RDP_FASTPATH_MAX_UPDATES ->
  let payload := fastpath_updates_enc us in
  let packet := fastpath_header_enc RDP_FASTPATH_OUTPUT_ACTION_FASTPATH 0 (blen payload) ++ payload in
  blen payload <= 0x7ffc -> bytes rest ->
  Writes (rdp_fastpath_write_updates us) packet (fun _ => True) /\
  rdp_fastpath_parse_updates (View (packet ++ rest)) = Ok (normalise <$> us).
Proof.
  intros Hus Hmax payload packet Hlen Hr. pose proof (blen_nonneg payload).
  assert (Ha : rdp_fastpath_valid_action RDP_FASTPATH_OUTPUT_ACTION_FASTPATH = true) by done.
  split.
  - unfold rdp_fastpath_write_updates. apply writes_require; [by apply Z.leb_le|].
    eapply (writes_bind _ _ [] packet).
    { apply (writes_local _ payload); [lia|by apply updates_written]. }
    intros [[] t] (_ & Ht & Hc). cbn [snd] in *. rewrite <- (blen_contents t Ht), Hc.
    eapply writes_bind; [apply header_written; (done || lia)|]. intros [] _.
    by apply writes_append_buffer.
  - unfold rdp_fastpath_parse_updates. rewrite ensure_true by done. unfold packet.
    rewrite <- app_assoc, header_parsed by (done || lia || zlen).
    cbn [mbind res_bind fh_action fh_security_flags fh_length fh_header_length view_bytes].
    rewrite !ensure_true by done. rewrite Z.add_simpl_l.
    rewrite (slice_app _ payload rest) by done. cbn [mbind res_bind].
    unfold rdp_fastpath_parse_updates_payload. rewrite ensure_true by done.
    apply (parses_with_stream _ _ []); [by apply bytes_updates_enc|].
    apply updates_parsed; [done|]. unfold blen, RDP_FASTPATH_MAX_UPDATES in *. lia.
Qed.

(** C37: the update parser accepts exactly the encodings: what it returns is a
    list of at most 64 well-formed updates whose encoding is the whole input,
    and the encoding of any such list is accepted. *)
Theorem fastpath_updates_iff d us :
  bytes d ->
  rdp_fastpath_parse_updates_payload (View d) = Ok us <->
  Forall update_ok us /\ normalise <$> us = us /\ blen us <= RDP_FASTPATH_MAX_UPDATES /\
  d = fastpath_updates_enc us.
Proof.
  intros Hb. unfold rdp_fastpath_parse_updates_payload. rewrite ensure_true by done. split.
  - intros Hp. apply with_view_Ok_inv in Hp as (s & s' & Hs & Hu & E); [|done].
    apply updates_inv in E as (Hus & Hn & He & Hl); [|done]. rewrite <- Hu.
    split; [done|]. split; [done|]. split; [|done]. unfold blen, RDP_FASTPATH_MAX_UPDATES in *. lia.
  - intros (Hus & Hn & Hl & ->). apply (parses_with_stream _ _ []); [done|]. rewrite <- Hn at 2.
    apply updates_parsed; [done|]. unfold blen, RDP_FASTPATH_MAX_UPDATES in *. lia.
Qed.

(** Memory safety of the fast-path parsers: on any bytes, the header and the
    update parsers stay inside the packet and the update table. *)
Theorem fastpath_parsers_safe d :
  bytes d ->
  rdp_fastpath_parse_header (View d) <> Fault /\
  rdp_fastpath_parse_updates_payload (View d) <> Fault /\
  rdp_fastpath_parse_updates (View d) <> Fault.
Proof.
  intros Hb. split; [by apply parse_header_safe|]. split; [by apply payload_safe|].
  unfold rdp_fastpath_parse_updates. rewrite ensure_true by done.
  pose proof (parse_header_safe d Hb) as Hs.
  destruct (rdp_fastpath_parse_header (View d)) as [hdr| |] eqn:E; [|done|done]. cbn [mbind res_bind].
  destruct (parse_header_inv d hdr Hb E) as (_ & _ & Hl & Hd & _).
  rewrite ensure_bind. destruct (_ =? _); [|done]. rewrite ensure_bind. destruct (_ =? _); [|done].
  cbn [view_bytes]. rewrite slice_ok by lia. cbn [mbind res_bind].
  by apply payload_safe, Forall_ztake, Forall_zdrop.
Qed.

(** What the removal of Standard Security has established when it reports
    decoded output: the packet's ciphertext was decrypted, the signature in the
    packet is the one computed over the plaintext, and the output gained a
    cleartext packet around the plaintext. *)
Definition unwrapped {ctx} `{StandardSecurity ctx} (d : list Z) (l l' : list Z) (c' : ctx) (c : ctx) : Prop :=
  exists hdr signature encrypted plaintext c1,
    rdp_fastpath_parse_header (View d) = Ok hdr /\
    slice d (fh_header_length hdr) 8 = Ok signature /\
    slice d (fh_header_length hdr + 8) (fh_length hdr - fh_header_length hdr - 8) = Ok encrypted /\
    security_decrypt c encrypted = (Ok plaintext, c1) /\
    expected_signature (fh_security_flags hdr) plaintext c1 = (Ok signature, c') /\
    l' = l ++ fastpath_header_enc RDP_FASTPATH_OUTPUT_ACTION_FASTPATH 0 (blen plaintext) ++ plaintext.

(** C24: removal of Standard Security: for any packet and any implementation of
    the security interface, the call has no undefined behaviour; it reports
    decoded output only when the signature over the decrypted bytes matches,
    and then the output has gained exactly the cleartext packet; in every other
    case, errors included, the contents of the output are what they were. *)
Theorem fastpath_unwrap_verified {ctx : Type} `{StandardSecurityLaws ctx}
    active d b h (c : ctx) r b' h' c' :
  buffer_wf b -> bytes d ->
  rdp_fastpath_unwrap_security active (View d) ((b, h), c) = (r, ((b', h'), c')) ->
  r <> Fault /\ buffer_wf b' /\
  (if bool_decide (r = Ok true) then unwrapped d (contents b) (contents b') c' c
   else contents b' = contents b).
Proof.
  intros Hwf Hb E. unfold rdp_fastpath_unwrap_security in E. rewrite bind_require in E.
  cbn [view_null negb] in E. pose proof (parse_header_safe d Hb) as Hs.
  rewrite bind_lift in E. destruct (rdp_fastpath_parse_header (View d)) as [hdr|st|] eqn:Eh; [|by injection E as <- <- <- <-|done].
  destruct (parse_header_inv d hdr Hb Eh) as (_ & _ & Hl & Hd & Hmax & _).
  destruct (Z.land (fh_security_flags hdr) RDP_FASTPATH_OUTPUT_ENCRYPTED =? 0).
  { rewrite bind_require in E. destruct (fh_security_flags hdr =? 0); by injection E as <- <- <- <-. }
  rewrite bind_require in E.
  destruct (negb (negb active || (fh_length hdr <? fh_header_length hdr + 8))) eqn:Eg;
    [|by injection E as <- <- <- <-].
  bool_prop. cbn [view_bytes] in E. rewrite bind_lift in E.
  destruct (slice d (fh_header_length hdr) 8) as [sig| |] eqn:Esig;
    [|rewrite slice_ok in Esig by lia; discriminate..].
  cbv zeta in E. rewrite bind_lift in E.
  destruct (slice d (fh_header_length hdr + 8) (fh_length hdr - fh_header_length hdr - 8))
    as [enc| |] eqn:Eenc; [|rewrite slice_ok in Eenc by lia; discriminate..].
  pose proof (slice_Ok_inv _ _ _ _ Eenc) as (_ & Hn0 & Hn & ->).
  set (enc := ztake _ (zdrop _ d)) in *.
  assert (Henc : blen enc = fh_length hdr - fh_header_length hdr - 8).
  { apply blen_ztake. rewrite blen_zdrop; lia. }
  rewrite <- Henc in E. rewrite <- Henc in Eenc.
  change (((prev ← on_buffer (gets (fun s => b_length s.1));
            off ← on_buffer (unwrap_output (blen enc) enc);
            unwrap_tail hdr sig (blen enc) prev off) : M ustate bool) ((b, h), c) =
          (r, ((b', h'), c'))) in E.
  rewrite (bind_ok (on_buffer _) _ _ (b_length b) ((b, h), c)) in E by done.
  destruct (unwrap_output_spec b h enc Hwf ltac:(lia)) as (r1 & b1 & h1 & E1 & Hwf1 & Hr).
  set (L := contents b ++ fastpath_header_enc 0 0 (blen enc)) in *.
  destruct Hr as [[-> Hc]|[-> Hc]].
  2: { rewrite (bind_err (on_buffer _) _ _ LIBRDP_STATUS_NO_MEMORY ((b1, h1), c)) in E
         by (unfold on_buffer; cbn [fst snd]; by rewrite E1).
       by injection E as <- <- <- <-. }
  rewrite (bind_ok (on_buffer _) _ _ (blen L) ((b1, h1), c)) in E
    by (unfold on_buffer; cbn [fst snd]; by rewrite E1).
  eapply unwrap_tail_spec in E as (Hf & Hwf' & Hr); try done.
  - split; [done|]. split; [done|].
    destruct Hr as [(pt & c1 & -> & Ed & Eex & Hpt & Hc')|[Hno Hc']].
    + rewrite bool_decide_eq_true_2 by done. exists hdr, sig, enc, pt, c1. rewrite Hpt, <- Henc.
      unfold L in Hc'. by rewrite <- app_assoc in Hc'.
    + rewrite bool_decide_eq_false_2; [done|]. intros ->. done.
  - by apply Forall_ztake, Forall_zdrop.
  - unfold L. rewrite blen_app, blen_header_enc. destruct (_ <=? _); zlen.
  - by rewrite blen_contents.
Qed.

Lemma fastpath_header_roundtrip_witness :
  rdp_fastpath_parse_header (View (fastpath_header_enc 0 2 126 ++ replicate 126 7)) =
    Ok (mk_fastpath_header 0 2 129 3 true) /\
  Rejects (rdp_fastpath_write_header 3 0 SIZE_MAX) LIBRDP_STATUS_INVALID_ARGUMENT.
Proof.
  split.
  - apply (fastpath_header_roundtrip 0 2 126 (replicate 126 7));
      [reflexivity|lia|split; vm_compute; discriminate|lia|vm_compute; discriminate].
  - apply (fastpath_header_roundtrip 3 0 SIZE_MAX []);
      [reflexivity|lia|split; vm_compute; discriminate|vm_compute; reflexivity].
Defined.

Definition sample_updates : list rdp_fastpath_update :=
  [mk_fastpath_update 1 0 2 0x21 (View [1; 2; 3]); mk_fastpath_update 3 0 0 0 (NullView 0)].

Lemma sample_updates_ok : Forall update_ok sample_updates.
Proof.
  repeat apply Forall_cons_2; try apply Forall_nil_2; split; try (vm_compute; done);
    try by_evaluation; try (vm_compute; auto; fail); try (vm_compute; repeat split; discriminate);
    try (vm_compute; auto).
Qed.

Lemma fastpath_updates_roundtrip_witness :
  rdp_fastpath_parse_updates
    (View ((fastpath_header_enc RDP_FASTPATH_OUTPUT_ACTION_FASTPATH 0
              (blen (fastpath_updates_enc sample_updates)) ++
            fastpath_updates_enc sample_updates) ++ [9])) = Ok (normalise <$> sample_updates).
Proof.
  apply (fastpath_updates_roundtrip sample_updates [9]).
  - apply sample_updates_ok.
  - vm_compute. discriminate.
  - vm_compute. discriminate.
  - by_evaluation.
Defined.

Lemma fastpath_updates_iff_witness :
  rdp_fastpath_parse_updates_payload (View [0x81; 0x21; 3; 0; 1; 2; 3; 3; 0; 0]) = Ok sample_updates.
Proof.
  apply (fastpath_updates_iff [0x81; 0x21; 3; 0; 1; 2; 3; 3; 0; 0] sample_updates); [by_evaluation|].
  split; [apply sample_updates_ok|]. split; [vm_compute; reflexivity|].
  split; [vm_compute; discriminate|vm_compute; reflexivity].
Defined.

Lemma fastpath_parsers_safe_witness :
  rdp_fastpath_parse_updates (View [0; 0x85; 0xff; 1; 2]) <> Fault.
Proof. apply (fastpath_parsers_safe [0; 0x85; 0xff; 1; 2]). by_evaluation. Defined.

(** A security context for the examples: the counter, a byte-wise cipher, and a
    signature that repeats the length of the text. *)
Definition sample_security : StandardSecurity nat :=
  {| security_decrypt c l := (Ok ((fun b => (255 - b) mod 256) <$> l), S c);
     security_mac c l := (Ok (replicate 8 (blen l mod 256)), c);
     security_salted_mac c l n := (Ok (replicate 8 (n mod 256)), c);
     security_decrypt_count c := Z.of_nat c |}.

Lemma sample_security_laws : StandardSecurityLaws (H := sample_security) nat.
Proof.
  split; cbn; try done. intros c l l' c' [= <- <-] _. split.
  - unfold blen. by rewrite length_fmap.
  - apply Forall_fmap, Forall_true. intros b. unfold is_byte. cbn. apply Z.mod_pos_bound. lia.
Qed.

Lemma fastpath_unwrap_verified_witness :
  let d := [0x40; 12; 2; 2; 2; 2; 2; 2; 2; 2; 0; 1] in
  let run := rdp_fastpath_unwrap_security (H := sample_security) true (View d)
               ((rdp_buffer_init, []), 0%nat) in
  run.1 = Ok true /\ contents run.2.1.1 = [0; 4; 255; 254] /\
  unwrapped (H := sample_security) d [] (contents run.2.1.1) run.2.2 0%nat.
Proof.
  intros d run. split; [vm_compute; reflexivity|]. split; [vm_compute; reflexivity|].
  assert (Hrun : run = (Ok true, ((run.2.1.1, run.2.1.2), run.2.2))) by (vm_compute; reflexivity).
  pose proof (@fastpath_unwrap_verified nat sample_security sample_security_laws
    true d rdp_buffer_init [] 0%nat (Ok true) run.2.1.1 run.2.1.2 run.2.2
    buffer_init_wf ltac:(by_evaluation) Hrun) as (_ & _ & H).
  rewrite bool_decide_eq_true_2 in H by reflexivity. exact H.
Defined.
