(* ===== verification/Codec.v ===== *)
(** * Codec: the interface of a wire structure

    What the parser and the writer of one structure promise to the code that
    composes them.  The class [Codec] relates a parser, a writer and an encoding
    function; its laws are the contract, and every structure whose parser and
    writer live in the same file discharges it with an [Instance].  The lemmas
    of the section [wire_bodies] reduce those laws to facts about the body of the
    parser: [Decodes] (what was read when it succeeded), [Parses], [Safe] and
    [OnlyErr] (the one status it fails with). *)

From S2P Require Import Prelude Stream Buffer.

(** ** Parsers with a single failure status *)

Class OnlyErr {A} (r : reader A) (st : librdp_status) : Prop :=
  only_err s st' : (r s).1 = Err st' -> st' = st.
#[export] Hint Mode OnlyErr - ! - : typeclass_instances.

Section only_err.
Context {A B : Type} (st : librdp_status).

#[export] Instance only_err_ret (a : A) : OnlyErr (mret a) st.
Proof. intros s st' [=]. Qed.
#[export] Instance only_err_fail : OnlyErr (@fail _ A st) st.
Proof. by intros s st' [= <-]. Qed.
#[export] Instance only_err_coerce (r : reader A) : OnlyErr (coerce st r) st.
Proof. intros s st'. unfold coerce. destruct (r s) as [[] ?]; cbn; congruence. Qed.
#[export] Instance only_err_bind (r : reader A) (k : A -> reader B) :
  OnlyErr r st -> (forall a, OnlyErr (k a) st) -> OnlyErr (r ≫= k) st.
Proof.
  intros Hr Hk s st'. unfold mbind, M_bind. specialize (Hr s).
  destruct (r s) as [[a|e|] s1]; cbn in *; [intros E; by apply (Hk a s1)|intros [= <-]; by apply Hr|done].
Qed.
#[export] Instance only_err_if (c : bool) (r1 r2 : reader A) :
  OnlyErr r1 st -> OnlyErr r2 st -> OnlyErr (if c then r1 else r2) st.
Proof. by destruct c. Qed.
End only_err.
#[export] Instance only_err_require c st : OnlyErr (require c st) st.
Proof. intros s st'. destruct c; cbn; congruence. Qed.
#[export] Instance only_err_remaining st : OnlyErr rdp_stream_remaining st.
Proof. intros s st' [=]. Qed.

#[export] Instance only_err_read_bytes n :
  OnlyErr (rdp_stream_read_bytes n) LIBRDP_STATUS_PROTOCOL_ERROR.
Proof.
  intros s st'. unfold rdp_stream_read_bytes, slice. repeat case_match; cbn; congruence.
Qed.
#[export] Instance only_err_rd (l : list Z) i st : OnlyErr (lift (rd l i)) st.
Proof. intros s st'. unfold lift, rd. repeat case_match; cbn; congruence. Qed.
#[export] Instance only_err_read_u8 : OnlyErr rdp_stream_read_u8 LIBRDP_STATUS_PROTOCOL_ERROR.
Proof. intros s st'. unfold rdp_stream_read_u8, rd. repeat case_match; cbn; congruence. Qed.
#[export] Instance only_err_read_u16_le :
  OnlyErr rdp_stream_read_u16_le LIBRDP_STATUS_PROTOCOL_ERROR.
Proof. unfold rdp_stream_read_u16_le. apply _. Qed.
#[export] Instance only_err_read_u32_le :
  OnlyErr rdp_stream_read_u32_le LIBRDP_STATUS_PROTOCOL_ERROR.
Proof. unfold rdp_stream_read_u32_le. apply _. Qed.

(** ** Readers and what they decode *)

(** What may follow a structure: [any_tail] for a parser that ignores the bytes
    after it, [no_tail] for one that rejects them. *)
Definition any_tail (_ : list Z) : Prop := True.
Definition no_tail (rest : list Z) : Prop := rest = [].

(** When [r] succeeds it has read the encoding of a value it accepts. *)
Definition Decodes {A} (r : reader A) (enc : A -> list Z) (ok : A -> Prop)
    (tail : list Z -> Prop) : Prop :=
  forall s a s', stream_wf s -> r s = (Ok a, s') ->
  unread s = enc a ++ unread s' /\ ok a /\ tail (unread s') /\ stream_wf s'.

(** The contract of a reader of one structure. *)
Record WireReader {A} (r : reader A) (enc : A -> list Z) (ok : A -> Prop)
    (tail : list Z -> Prop) : Prop := {
  wire_parses a rest : ok a -> tail rest -> Parses r (enc a ++ rest) rest a;
  wire_decodes : Decodes r enc ok tail;
  wire_safe : Safe r (fun _ => True);
  wire_only_err : OnlyErr r LIBRDP_STATUS_PROTOCOL_ERROR;
}.

Section wire_combinators.
Context {A : Type} (r : reader A) (enc : A -> list Z) (ok : A -> Prop).

Lemma wire_coerce tail :
  WireReader r enc ok tail -> WireReader (coerce LIBRDP_STATUS_PROTOCOL_ERROR r) enc ok tail.
Proof.
  intros [Hp Hd Hs _]. split; [|intros s a s' Hw H%coerce_Ok_inv; by apply Hd|apply _|apply _].
  intros a rest Hok Ht. by apply parses_coerce, Hp.
Qed.

(** An optional section: read when the flag [c] is set, [z] otherwise. *)
Definition optional_enc (c : bool) (a : A) : list Z := if c then enc a else [].
Definition optional_ok (c : bool) (z a : A) : Prop := if c then ok a else a = z.

Lemma wire_optional (c : bool) z :
  WireReader r enc ok any_tail ->
  WireReader (if c then r else mret z) (optional_enc c) (optional_ok c z) any_tail.
Proof.
  intros [Hp Hd Hs He]. unfold optional_enc, optional_ok. destruct c; [by split|]. split.
  - intros a rest -> _. apply parses_ret.
  - intros s a s' Hw [= <- <-]. done.
  - by apply safe_ret.
  - apply _.
Qed.
End wire_combinators.

Lemma wire_u8 : WireReader rdp_stream_read_u8 (fun b => [b]) is_byte any_tail.
Proof.
  split; [intros; apply parses_read_u8| |eapply safe_weaken; [apply _|done]|apply _].
  intros s a s' Hs H. read_inv. done.
Qed.
Lemma wire_u16_le : WireReader rdp_stream_read_u16_le le16 is_u16 any_tail.
Proof.
  split; [intros; by apply parses_read_u16_le| |eapply safe_weaken; [apply _|done]|apply _].
  intros s a s' Hs H. read_inv. done.
Qed.

(** ** The class *)

(** [typed]: the values the C structure can hold; [valid]: what the parser and
    the writer check; [tail]: the bytes the parser tolerates after the structure. *)
Class Codec {A} (parse : view -> res A) (write : A -> writer unit) (enc : A -> list Z)
    (typed : A -> Prop) (valid : A -> bool) (tail : list Z -> Prop) : Prop := {
  codec_parse d a : bytes d ->
    parse (View d) = Ok a <->
    typed a /\ valid a = true /\ exists rest, tail rest /\ d = enc a ++ rest;
  codec_error d st : bytes d -> parse (View d) = Err st -> st = LIBRDP_STATUS_PROTOCOL_ERROR;
  codec_defined d : bytes d -> parse (View d) <> Fault;
  codec_null n : parse (NullView n) = Err LIBRDP_STATUS_INVALID_ARGUMENT;
  codec_write a : typed a -> valid a = true -> WritesAtomic (write a) (enc a) (fun _ => True);
  codec_reject a : typed a -> valid a = false -> Rejects (write a) LIBRDP_STATUS_INVALID_ARGUMENT;
}.

(** The round trip every codec has: what the writer appends to any buffer is
    parsed back to the value written. *)
Lemma codec_roundtrip {A} (parse : view -> res A) (write : A -> writer unit) enc typed valid tail
    `{!Codec parse write enc typed valid tail} a b h b' h' :
  typed a -> valid a = true -> bytes (enc a) -> tail [] -> buffer_wf b ->
  write a (b, h) = (Ok tt, (b', h')) ->
  contents b' = contents b ++ enc a /\ parse (View (enc a)) = Ok a.
Proof.
  intros Ht Hv Hb Htl Hwf E. split.
  - destruct (codec_write a Ht Hv b h Hwf) as (r & b1 & h1 & E1 & _ & Hr & _).
    rewrite E1 in E. simplify_eq. naive_solver.
  - apply codec_parse; [done|]. split; [done|]. split; [done|].
    exists []. by rewrite app_nil_r.
Qed.

(** ** From the body of a parser to its contract *)

Section wire_bodies.
Context {A : Type} (body : reader A) (enc : A -> list Z) (ok : A -> Prop).
Context (tail : list Z -> Prop).

(** The opening of the parsers: the NULL guard, a length check, the body on a
    local stream.  [accept] is the length check. *)
Context (parse : view -> res A) (accept : Z -> bool).
Hypothesis parse_view : forall d, parse (View d) =
  if accept (blen d) then with_stream (View d) body else Err LIBRDP_STATUS_PROTOCOL_ERROR.

Hypothesis wire : WireReader body enc ok tail.

Lemma wire_parse_iff :
  (forall a rest, ok a -> tail rest -> accept (blen (enc a ++ rest)) = true) ->
  forall d a, bytes d ->
  parse (View d) = Ok a <-> ok a /\ exists rest, tail rest /\ d = enc a ++ rest.
Proof.
  destruct wire as [Hp Hd _ _]. intros Hacc d a Hb. rewrite parse_view. split.
  - destruct (accept (blen d)) eqn:Ea; [|done]. intros E.
    apply with_view_Ok_inv in E as (s & s' & Hs & Hu & E); [|done].
    destruct (Hd s a s' Hs E) as (Hu' & Hok & Ht & _). split; [done|].
    exists (unread s'). split; [done|]. by rewrite <- Hu', Hu.
  - intros (Hok & rest & Ht & ->). rewrite Hacc by done.
    eapply parses_with_stream; [done|]. by apply Hp.
Qed.

Lemma wire_parse_error d st : parse (View d) = Err st -> st = LIBRDP_STATUS_PROTOCOL_ERROR.
Proof.
  destruct wire as [_ _ _ He]. rewrite parse_view. destruct (accept (blen d)); [|by intros [=]].
  apply He.
Qed.

Lemma wire_parse_defined d : bytes d -> parse (View d) <> Fault.
Proof.
  destruct wire as [_ _ Hs _]. intros Hb. rewrite parse_view. destruct (accept (blen d)); [|done].
  by apply (with_stream_safe (View d) body (fun _ => True)).
Qed.
End wire_bodies.

(** Assemble a codec from the reader's contract and the writer's. *)
Lemma codec_intro {A} (parse : view -> res A) (write : A -> writer unit) enc typed valid tail
    (body : reader A) (accept : Z -> bool) :
  (forall d, parse (View d) =
     if accept (blen d) then with_stream (View d) body else Err LIBRDP_STATUS_PROTOCOL_ERROR) ->
  (forall n, parse (NullView n) = Err LIBRDP_STATUS_INVALID_ARGUMENT) ->
  WireReader body enc (fun a => typed a /\ valid a = true) tail ->
  (forall a rest, typed a -> tail rest -> accept (blen (enc a ++ rest)) = true) ->
  (forall a, typed a -> valid a = true -> WritesAtomic (write a) (enc a) (fun _ => True)) ->
  (forall a, typed a -> valid a = false -> Rejects (write a) LIBRDP_STATUS_INVALID_ARGUMENT) ->
  Codec parse write enc typed valid tail.
Proof.
  intros Hp Hn Hr Ha Hw Hj.
  pose proof (wire_parse_iff body enc _ tail parse accept Hp Hr) as Hiff.
  pose proof (wire_parse_error body enc _ tail parse accept Hp Hr) as Herr.
  pose proof (wire_parse_defined body enc _ tail parse accept Hp Hr) as Hdef.
  split; [|eauto|auto|done..].
  intros d a Hb. rewrite Hiff; [tauto|naive_solver|done].
Qed.

(** The reader's contract of a straight-line body: [enc_ty] unfolds the encoding
    and the typing of the structure at hand. *)
Ltac decode_inv H :=
  repeat (run_step H; repeat read_inv); repeat read_inv; unread_chain; bool_prop.

(** Invert a successful block read. *)
Ltac block_inv :=
  match goal with
  | E : rdp_stream_read_bytes ?n ?s = (Ok ?l, ?s'), W : stream_wf ?s |- _ =>
      apply (read_bytes_inv n s l s' W) in E as (? & ? & ? & ?); [|guard_lia]
  end.

(** Safety of a body whose block reads have their length checked. *)
Ltac safe_walk :=
  repeat first
    [ safe_step
    | eapply safe_bind; [apply safe_coerce, safe_read_bytes; cbv beta in *; guard_lia|intros ? [? ?]]
    | eapply safe_bind; [apply safe_coerce, safe_skip; cbv beta in *; guard_lia|intros ? _] ];
  try done.

(** ** Prefixes of arrays the parser requires to be zero *)

Definition all_zero (l : list Z) : bool := forallb (Z.eqb 0) l.

Lemma all_zero_iff l : all_zero l = true <-> l = replicate (length l) 0.
Proof.
  unfold all_zero. induction l as [|x l IH]; [done|].
  cbn [forallb length replicate]. rewrite andb_true_iff, Z.eqb_eq, IH.
  split; [intros [<- E]; by rewrite <- E|intros [= -> E]; by rewrite <- E at 1].
Qed.

Lemma all_zero_replicate (n : nat) : all_zero (replicate n 0) = true.
Proof. apply all_zero_iff. by rewrite length_replicate. Qed.

(** ** Repeated structures *)

Section repeated.
Context {A : Type}.

(** Read [n] structures in a row. *)
Fixpoint read_many (r : reader A) (n : nat) : reader (list A) :=
  match n with
  | O => mret []
  | S n => a ← r; l ← read_many r n; mret (a :: l)
  end.
Definition many_enc (enc : A -> list Z) (l : list A) : list Z := concat (enc <$> l).
Definition many_ok (ok : A -> Prop) (n : nat) (l : list A) : Prop := length l = n /\ Forall ok l.

Lemma many_enc_cons enc a l : many_enc enc (a :: l) = enc a ++ many_enc enc l.
Proof. done. Qed.

Lemma wire_many r enc ok n :
  WireReader r enc ok any_tail -> WireReader (read_many r n) (many_enc enc) (many_ok ok n) any_tail.
Proof.
  intros [Hp Hd Hs He]. split.
  - induction n as [|n IH]; intros l rest [Hl Hok] _; destruct l as [|a l]; try done; cbn [read_many].
    { apply parses_ret. }
    inversion Hok as [|? ? Ha Hok']; subst. rewrite many_enc_cons, <- app_assoc.
    eapply parses_bind; [by apply Hp|]. eapply parses_bind; [apply IH; [|done]; split; [by injection Hl|done]|].
    apply parses_ret.
  - induction n as [|n IH]; intros s l s' Hw E; cbn [read_many] in E.
    { injection E as <- <-. done. }
    run_step E. apply (Hd _ _ _ Hw) in E0 as (Hu & Ha & _ & Hw1). run_step E.
    apply IH in E0 as (Hu' & [Hl Hok] & _ & Hw2); [|done]. injection E as <- <-.
    rewrite many_enc_cons, Hu, Hu', app_assoc. split; [done|]. split; [|done].
    split; [by rewrite <- Hl|by apply Forall_cons].
  - induction n as [|n IH]; cbn [read_many]; [by apply safe_ret|].
    eapply safe_bind; [exact Hs|]. intros a _. eapply safe_bind; [exact IH|]. intros l _. by apply safe_ret.
  - induction n as [|n IH]; cbn [read_many]; [apply _|]. apply only_err_bind; [done|]. intros a.
    apply only_err_bind; [done|]. intros l. apply _.
Qed.

(** Write a list of structures in a row. *)
Fixpoint write_each (w : A -> writer unit) (l : list A) : writer unit :=
  match l with
  | [] => mret tt
  | a :: l => w a;; write_each w l
  end.
Lemma many_written w enc l :
  (forall a, a ∈ l -> Writes (w a) (enc a) (fun _ => True)) -> Writes (write_each w l) (many_enc enc l) (fun _ => True).
Proof.
  induction l as [|a l IH]; intros Hw; cbn [write_each]; [by apply writes_ret|]. rewrite many_enc_cons.
  eapply writes_bind; [apply Hw, elem_of_cons; by left|]. intros _ _. apply IH. intros b Hb. apply Hw, elem_of_cons. by right.
Qed.
End repeated.

(** ** What a contract decides *)

(** The outcome of a reader on the bytes [d]: the structure they start with, or
    a protocol error when there is none. *)
Definition Outcome {A} (enc : A -> list Z) (ok : A -> Prop) (tail : list Z -> Prop) (d : list Z) (r : res A) : Prop :=
  (exists a rest, r = Ok a /\ ok a /\ tail rest /\ d = enc a ++ rest) \/
  (r = Err LIBRDP_STATUS_PROTOCOL_ERROR /\ forall a rest, ok a -> tail rest -> d <> enc a ++ rest).

Section outcome.
Context {A : Type} (r : reader A) (enc : A -> list Z) (ok : A -> Prop) (tail : list Z -> Prop).
Hypothesis wire : WireReader r enc ok tail.

Lemma wire_outcome s : stream_wf s -> Outcome enc ok tail (unread s) (r s).1.
Proof.
  destruct wire as [Hp Hd Hs He]. intros Hw. specialize (He s). destruct (Hs s Hw) as [Hf _ _ _].
  destruct (r s) as [[a|st|] s'] eqn:E; cbn [fst] in *; [left|right|done].
  - destruct (Hd s a s' Hw E) as (Hu & Hok & Ht & _). by exists a, (unread s').
  - split; [by rewrite (He st)|]. intros a rest Hok Ht Hu.
    destruct (Hp a rest Hok Ht s Hw Hu) as (s1 & E1 & _). by rewrite E in E1.
Qed.

Lemma wire_view_outcome d : bytes d -> Outcome enc ok tail d (with_stream (View d) r).
Proof. intros Hd. apply (wire_outcome (rdp_stream_init (View d))). by apply stream_init_wf. Qed.

(** The same after a prefix of known length. *)
Lemma wire_skip_outcome p d n st : bytes (p ++ d) -> blen p = n ->
  Outcome enc ok tail d (with_stream (View (p ++ d)) (coerce st (rdp_stream_skip n);; r)).
Proof.
  intros Hb Hn. destruct (parses_coerce _ st _ _ _ (parses_skip n p d Hn) (rdp_stream_init (View (p ++ d))))
    as (s & E & Hw & Hu); [by apply stream_init_wf|done|].
  unfold with_stream. rewrite (bind_ok _ _ _ _ _ E), <- Hu. by apply wire_outcome.
Qed.
End outcome.

Section outcome_iff.
Context {A : Type} (r : reader A) (enc : A -> list Z) (ok : A -> Prop) (tail : list Z -> Prop).
Hypothesis wire : WireReader r enc ok tail.

(** A wire format with a reader is unambiguous. *)
Lemma wire_unique a b x y : bytes (enc a ++ x) -> ok a -> ok b -> tail x -> tail y ->
  enc a ++ x = enc b ++ y -> a = b /\ x = y.
Proof.
  destruct wire as [Hp _ _ _]. intros Hb Ha Hb' Hx Hy E. pose proof (stream_init_wf (View (enc a ++ x)) Hb) as Hw.
  destruct (Hp a x Ha Hx _ Hw eq_refl) as (s & Es & _ & Hs).
  destruct (Hp b y Hb' Hy _ Hw E) as (s' & Es' & _ & Hs'). rewrite Es in Es'. injection Es' as -> ->. by rewrite <- Hs.
Qed.
End outcome_iff.

(** No undefined behaviour, and no failure but a protocol error. *)
Definition protocol_only {A} (r : res A) : Prop :=
  match r with Ok _ => True | Err st => st = LIBRDP_STATUS_PROTOCOL_ERROR | Fault => False end.

Lemma view_protocol_only {A} (r : reader A) d : bytes d -> Safe r (fun _ => True) ->
  OnlyErr r LIBRDP_STATUS_PROTOCOL_ERROR -> protocol_only (with_stream (View d) r).
Proof.
  intros Hd Hs He. pose proof (safe_no_fault _ _ _ (Hs _ (stream_init_wf (View d) Hd))) as Hf.
  specialize (He (rdp_stream_init (View d))). unfold with_stream, protocol_only. by destruct (r _).1; auto.
Qed.
Lemma lift_protocol_only {A} (o : res A) : protocol_only o ->
  Safe (lift o) (fun _ => True) /\ OnlyErr (lift o) LIBRDP_STATUS_PROTOCOL_ERROR.
Proof.
  intros Ho. split; [by apply safe_lift; [intros ->|]|]. intros s st. cbn. by intros ->.
Qed.
