(* ===== verification/VirtualChannel.v ===== *)
(** * VirtualChannel: static virtual channel fragments

    Models [src/src/channels/virtual_channel.c]: the eight-byte header (total
    length of the message, flags) in front of each fragment of a message. *)

From S2P Require Import Prelude Stream Buffer.

Definition RDP_VIRTUAL_CHANNEL_FLAG_FIRST : Z := 0x00000001.
Definition RDP_VIRTUAL_CHANNEL_FLAG_LAST : Z := 0x00000002.
Definition flags_first_last : Z :=
  Z.lor RDP_VIRTUAL_CHANNEL_FLAG_FIRST RDP_VIRTUAL_CHANNEL_FLAG_LAST.

Record rdp_virtual_channel_packet := mk_virtual_channel_packet {
  vcp_length : Z;
  vcp_flags : Z;
  vcp_payload : list Z;
  vcp_payload_len : Z;
}.

Definition rdp_virtual_channel_parse_packet (data : view) : res rdp_virtual_channel_packet :=
  ensure (negb (view_null data)) LIBRDP_STATUS_INVALID_ARGUMENT;;
  with_stream data (
    length ← coerce LIBRDP_STATUS_PROTOCOL_ERROR rdp_stream_read_u32_le;
    flags ← coerce LIBRDP_STATUS_PROTOCOL_ERROR rdp_stream_read_u32_le;
    remaining ← rdp_stream_remaining;
    require (negb ((remaining <? length) && (Z.land flags flags_first_last =? flags_first_last)))
      LIBRDP_STATUS_PROTOCOL_ERROR;;
    let payload_len := if length <? remaining then length else remaining in
    payload ← rdp_stream_read_bytes payload_len;
    mret (mk_virtual_channel_packet length flags payload payload_len)).

Definition rdp_virtual_channel_write_fragment (payload : view) (total_len flags : Z) : writer unit :=
  require (negb ((view_null payload && (0 <? view_len payload)) ||
                 (UINT32_MAX <? total_len) || (total_len <? view_len payload)))
    LIBRDP_STATUS_INVALID_ARGUMENT;;
  require (negb ((Z.land flags flags_first_last =? flags_first_last) &&
                 negb (view_len payload =? total_len))) LIBRDP_STATUS_INVALID_ARGUMENT;;
  rdp_buffer_append_u32_le (u32 total_len);;
  rdp_buffer_append_u32_le flags;;
  rdp_buffer_append payload.

Definition rdp_virtual_channel_write_packet (payload : view) (flags : Z) : writer unit :=
  rdp_virtual_channel_write_fragment payload (view_len payload) flags.

(** ** The wire format *)

Definition fragment_enc (payload : list Z) (total_len flags : Z) : list Z :=
  le32 total_len ++ le32 flags ++ payload.

(** A fragment that claims to be the whole message carries all of it. *)
Definition fragment_ok (payload : list Z) (total_len flags : Z) : Prop :=
  blen payload <= total_len <= UINT32_MAX /\
  (Z.land flags flags_first_last = flags_first_last -> blen payload = total_len).

Lemma fragment_written v l total flags :
  view_bytes v = l -> view_len v = blen l -> fragment_ok l total flags ->
  Writes (rdp_virtual_channel_write_fragment v total flags) (fragment_enc l total flags)
    (fun _ => True).
Proof.
  intros Hv Hl [Ht Hfl]. pose proof (blen_nonneg l). unfold rdp_virtual_channel_write_fragment.
  rewrite Hl. apply writes_require.
  { destruct v; cbn [view_null view_bytes] in *; [subst l; cbn in *|]; guard_lia. }
  apply writes_require.
  { destruct (Z.eqb_spec (Z.land flags flags_first_last) flags_first_last) as [E|]; [|done].
    rewrite (Hfl E), Z.eqb_refl. done. }
  unfold u32. rewrite Z.mod_small by (unfold UINT32_MAX in *; lia).
  unfold fragment_enc. do 2 wstep. by apply writes_append_bytes.
Qed.

Lemma fragment_parsed l total flags :
  bytes l -> is_u32 flags -> fragment_ok l total flags ->
  rdp_virtual_channel_parse_packet (View (fragment_enc l total flags)) =
    Ok (mk_virtual_channel_packet total flags l (blen l)).
Proof.
  intros Hb Hf [Ht Hfl]. pose proof (blen_nonneg l).
  unfold rdp_virtual_channel_parse_packet. rewrite ensure_true by done.
  unfold fragment_enc. rewrite <- (app_nil_r l) at 1.
  apply (parses_with_stream _ _ []); [solve_bytes|].
  pstep; [apply parses_read_u32_le; guard_lia|]. pstep; [by apply parses_read_u32_le|].
  do 2 pstep.
  cbv zeta. assert (Hlen : (if total <? blen (l ++ []) then total else blen (l ++ [])) = blen l).
  { rewrite app_nil_r. destruct (Z.ltb_spec total (blen l)); lia. }
  rewrite Hlen. pstep. pstep.
Qed.

(** A message of any number of fragments. *)
Definition message_enc (fragments : list (list Z * Z)) : list (list Z) :=
  (fun f => fragment_enc f.1 (blen (concat (fst <$> fragments))) f.2) <$> fragments.

Lemma blen_concat_le (l : list Z) ls : l ∈ ls -> blen l <= blen (concat ls).
Proof.
  induction 1 as [l ls|l k ls _ IH]; cbn; rewrite blen_app; blen_pos; lia.
Qed.

(** ** Properties *)

(** Fragmentation and reassembly: a message of at most 2^32 - 1 bytes cut
    into fragments anywhere (only a lone fragment may be flagged both first and
    last) is written as packets that the parser accepts; each carries the total
    length, its flags and its bytes, so the payloads in order are the message. *)
Theorem virtual_channel_fragments_roundtrip (fragments : list (list Z * Z)) :
  let message := concat (fst <$> fragments) in
  blen message <= UINT32_MAX -> bytes message -> Forall (fun f => is_u32 f.2) fragments ->
  (forall f, f ∈ fragments -> Z.land f.2 flags_first_last = flags_first_last -> f.1 = message) ->
  Forall2 (fun f packet =>
      Writes (rdp_virtual_channel_write_fragment (View f.1) (blen message) f.2) packet
        (fun _ => True) /\
      rdp_virtual_channel_parse_packet (View packet) =
        Ok (mk_virtual_channel_packet (blen message) f.2 f.1 (blen f.1)))
    fragments (message_enc fragments).
Proof.
  intros message Hmax Hb Hf Hone. unfold message_enc. fold message.
  apply Forall2_fmap_r, Forall_Forall2_diag, list.Forall_forall. intros [l flags] Hin. cbn [fst snd].
  assert (Hl : l ∈ fst <$> fragments) by (apply (list_elem_of_fmap_2 fst _ _ Hin)).
  assert (Hok : fragment_ok l (blen message) flags).
  { split; [split; [by apply blen_concat_le|done]|]. intros E.
    by rewrite <- (Hone _ Hin E). }
  split; [by apply fragment_written|]. apply fragment_parsed; [| |done].
  - unfold message in Hb. rewrite Forall_concat, list.Forall_forall in Hb. by apply Hb.
  - rewrite list.Forall_forall in Hf. by apply (Hf _ Hin).
Qed.

(** Memory safety of the fragment parser, and what it accepts: the payload
    is the available bytes up to the total length, and the whole message when
    the fragment is flagged first and last. *)
Theorem virtual_channel_parse_safe d :
  bytes d ->
  rdp_virtual_channel_parse_packet (View d) <> Fault /\
  forall p, rdp_virtual_channel_parse_packet (View d) = Ok p ->
    blen (vcp_payload p) = vcp_payload_len p /\
    d = le32 (vcp_length p) ++ le32 (vcp_flags p) ++ vcp_payload p ++ zdrop (8 + vcp_payload_len p) d /\
    vcp_payload_len p = Z.min (vcp_length p) (blen d - 8) /\
    (Z.land (vcp_flags p) flags_first_last = flags_first_last -> vcp_payload_len p = vcp_length p).
Proof.
  intros Hb. unfold rdp_virtual_channel_parse_packet. rewrite ensure_true by done. split.
  - apply with_stream_safe with (fun _ => True); [|done]. repeat safe_step; [|done].
    cbv beta in *. unfold is_u32 in *; case_match; lia.
  - intros p Hp. apply with_view_Ok_inv in Hp as (s & s' & Hs & Hu & E); [|done].
    run_step E. apply coerce_Ok_inv in E0. read_inv. run_step E. apply coerce_Ok_inv in E0. read_inv.
    run_step E. read_inv. run_step E. read_inv. cbv zeta in E. run_step E.
    match type of E0 with rdp_stream_read_bytes ?e ?s2 = (Ok ?l, ?s3) =>
      set (n := e) in *; rename s2 into mid, s3 into fin, l into payload end.
    apply (read_bytes_inv n) in E0 as (Hu3 & Hlen & Hs3 & _); [|done|].
    2: { unfold n, is_u32 in *. case_match; [lia|apply blen_nonneg]. }
    injection E as <- <-. cbn [vcp_payload vcp_payload_len vcp_length vcp_flags]. split; [done|].
    match goal with F : unread s = le32 ?x ++ _, G : _ = le32 ?y ++ _ |- _ =>
      rename x into len, y into flags; rewrite G in F end.
    rewrite Hu in *. rewrite Hu3 in *.
    match goal with F : d = _ |- _ => rename F into Hd end.
    assert (Hbl : blen d = 8 + (n + blen (unread fin))) by (rewrite Hd; zlen).
    assert (Hn : n = if len <? n + blen (unread fin) then len else n + blen (unread fin)).
    { unfold n at 1. by rewrite Hu3, blen_app, Hlen. }
    split; [|split].
    + assert (Htail : zdrop (8 + n) d = unread fin); [|by rewrite Htail].
      rewrite Hd. replace (8 + n) with (blen (le32 len ++ le32 flags ++ payload)) by zlen.
      rewrite !app_assoc. rewrite <- (app_assoc (le32 len)). apply zdrop_app_blen.
    + destruct (Z.ltb_spec len (n + blen (unread fin))); lia.
    + intros Efl. rewrite Efl, Z.eqb_refl in *. bool_prop. rewrite blen_app, Hlen in *.
      destruct (Z.ltb_spec len (n + blen (unread fin))); [done|].
      match goal with F : _ \/ _ |- _ => destruct F; [lia|done] end.
Qed.

Lemma virtual_channel_fragments_roundtrip_witness :
  message_enc [([1; 2], 1); ([3], 2)] = [fragment_enc [1; 2] 3 1; fragment_enc [3] 3 2] /\
  rdp_virtual_channel_parse_packet (View (fragment_enc [3] 3 2)) =
    Ok (mk_virtual_channel_packet 3 2 [3] 1).
Proof.
  split; [vm_compute; reflexivity|].
  assert (H := virtual_channel_fragments_roundtrip [([1; 2], 1); ([3], 2)]).
  apply Forall2_cons_1 in H as [_ H].
  - apply Forall2_cons_1 in H as [H _]. apply H.
  - vm_compute. discriminate.
  - by_evaluation.
  - by_evaluation.
  - intros f Hf E. exfalso. repeat (apply elem_of_cons in Hf as [->|Hf]; [vm_compute in E; discriminate E|]).
    by apply elem_of_nil in Hf.
Defined.

Lemma virtual_channel_parse_safe_witness :
  rdp_virtual_channel_parse_packet (View [9; 0; 0; 0; 3; 0; 0; 0; 1]) <> Fault.
Proof. apply (virtual_channel_parse_safe [9; 0; 0; 0; 3; 0; 0; 0; 1]). by_evaluation. Defined.
