(* ===== verification/DynamicChannel.v ===== *)
(** * DynamicChannel: dynamic virtual channel PDUs

    Models [src/src/channels/dynamic_channel.c]: the header byte (command,
    priority or length code, channel-id code), the variable-width channel ids
    and lengths, and the capability, create, data, close, compressed-data and
    soft-sync PDUs with their writers, parsers and accessors. *)

From S2P Require Import Prelude Stream Buffer.

Definition RDP_DYNAMIC_CHANNEL_CMD_CREATE : Z := 0x01.
Definition RDP_DYNAMIC_CHANNEL_CMD_DATA_FIRST : Z := 0x02.
Definition RDP_DYNAMIC_CHANNEL_CMD_DATA : Z := 0x03.
Definition RDP_DYNAMIC_CHANNEL_CMD_CLOSE : Z := 0x04.
Definition RDP_DYNAMIC_CHANNEL_CMD_CAPABILITIES : Z := 0x05.
Definition RDP_DYNAMIC_CHANNEL_CMD_DATA_FIRST_COMPRESSED : Z := 0x06.
Definition RDP_DYNAMIC_CHANNEL_CMD_DATA_COMPRESSED : Z := 0x07.
Definition RDP_DYNAMIC_CHANNEL_CMD_SOFT_SYNC_REQUEST : Z := 0x08.
Definition RDP_DYNAMIC_CHANNEL_CMD_SOFT_SYNC_RESPONSE : Z := 0x09.
Definition RDP_DYNAMIC_CHANNEL_MAX_PDU_SIZE : Z := 1600.
Definition RDP_DYNAMIC_CHANNEL_SOFT_SYNC_TCP_FLUSHED : Z := 0x0001.
Definition RDP_DYNAMIC_CHANNEL_SOFT_SYNC_CHANNEL_LIST_PRESENT : Z := 0x0002.
Definition RDP_DYNAMIC_CHANNEL_TUNNEL_UDP_RELIABLE : Z := 0x00000001.
Definition RDP_DYNAMIC_CHANNEL_TUNNEL_UDP_LOSSY : Z := 0x00000003.

Record rdp_dynamic_channel_header := mk_dvc_header {
  dh_command : Z;
  dh_priority : Z;
  dh_length_bytes : Z;
  dh_channel_id_bytes : Z;
  dh_raw : Z;
}.
Record rdp_dynamic_channel_capabilities := mk_dvc_capabilities {
  dc_version : Z;
  dc_has_priority_charges : bool;
  dc_priority_charge : list Z;
}.
Record rdp_dynamic_channel_create_request := mk_dvc_create_request {
  dcr_channel_id : Z;
  dcr_channel_id_bytes : Z;
  dcr_priority : Z;
  dcr_name : list Z;      (** [name_len] bytes from [name] *)
}.
Record rdp_dynamic_channel_create_response := mk_dvc_create_response {
  dcs_channel_id : Z;
  dcs_channel_id_bytes : Z;
  dcs_status_code : Z;
}.
Record rdp_dynamic_channel_data_pdu := mk_dvc_data {
  dd_channel_id : Z;
  dd_channel_id_bytes : Z;
  dd_data : view;         (** [data], [data_len] *)
}.
Record rdp_dynamic_channel_data_first_pdu := mk_dvc_data_first {
  df_channel_id : Z;
  df_channel_id_bytes : Z;
  df_total_length : Z;
  df_data : view;
}.
Record rdp_dynamic_channel_close_pdu := mk_dvc_close {
  dx_channel_id : Z;
  dx_channel_id_bytes : Z;
}.
Record rdp_dynamic_channel_soft_sync_request := mk_soft_sync_request {
  ss_length : Z;
  ss_flags : Z;
  ss_tunnel_count : Z;
  ss_lists : view;
}.
Record rdp_dynamic_channel_soft_sync_channel_list := mk_soft_sync_list {
  sl_tunnel_type : Z;
  sl_channel_count : Z;
  sl_channel_ids : list Z;
  sl_channel_ids_len : Z;
}.
Record rdp_dynamic_channel_soft_sync_response := mk_soft_sync_response {
  sr_tunnel_count : Z;
  sr_tunnel_types : list Z;
  sr_tunnel_types_len : Z;
}.

(** [if (call != LIBRDP_STATUS_OK) return LIBRDP_STATUS_PROTOCOL_ERROR;] *)
Abbreviation pr := (coerce LIBRDP_STATUS_PROTOCOL_ERROR).

(** ** Variable-width fields *)

Definition rdp_dynamic_channel_read_channel_id (channel_id_bytes : Z) : reader Z :=
  if channel_id_bytes =? 1 then pr rdp_stream_read_u8
  else if channel_id_bytes =? 2 then pr rdp_stream_read_u16_le
  else if channel_id_bytes =? 4 then rdp_stream_read_u32_le
  else fail LIBRDP_STATUS_PROTOCOL_ERROR.

Definition rdp_dynamic_channel_write_channel_id (channel_id channel_id_bytes : Z) : writer unit :=
  if channel_id_bytes =? 1 then
    require (channel_id <=? 0xff) LIBRDP_STATUS_INVALID_ARGUMENT;;
    rdp_buffer_append_u8 (u8 channel_id)
  else if channel_id_bytes =? 2 then
    require (channel_id <=? 0xffff) LIBRDP_STATUS_INVALID_ARGUMENT;;
    rdp_buffer_append_u16_le (u16 channel_id)
  else if channel_id_bytes =? 4 then rdp_buffer_append_u32_le channel_id
  else fail LIBRDP_STATUS_INVALID_ARGUMENT.

Definition rdp_dynamic_channel_channel_id_code (channel_id channel_id_bytes : Z) : res Z :=
  if channel_id_bytes =? 1 then
    ensure (channel_id <=? 0xff) LIBRDP_STATUS_INVALID_ARGUMENT;; mret 0
  else if channel_id_bytes =? 2 then
    ensure (channel_id <=? 0xffff) LIBRDP_STATUS_INVALID_ARGUMENT;; mret 1
  else if channel_id_bytes =? 4 then mret 2
  else Err LIBRDP_STATUS_INVALID_ARGUMENT.

Definition rdp_dynamic_channel_read_length (length_bytes : Z) : reader Z :=
  if length_bytes =? 1 then pr rdp_stream_read_u8
  else if length_bytes =? 2 then pr rdp_stream_read_u16_le
  else if length_bytes =? 4 then rdp_stream_read_u32_le
  else fail LIBRDP_STATUS_PROTOCOL_ERROR.

Definition rdp_dynamic_channel_write_length (length length_bytes : Z) : writer unit :=
  if length_bytes =? 1 then
    require (length <=? 0xff) LIBRDP_STATUS_INVALID_ARGUMENT;;
    rdp_buffer_append_u8 (u8 length)
  else if length_bytes =? 2 then
    require (length <=? 0xffff) LIBRDP_STATUS_INVALID_ARGUMENT;;
    rdp_buffer_append_u16_le (u16 length)
  else if length_bytes =? 4 then rdp_buffer_append_u32_le length
  else fail LIBRDP_STATUS_INVALID_ARGUMENT.

Definition rdp_dynamic_channel_length_bytes (length : Z) : Z :=
  if length <=? 0xff then 1 else if length <=? 0xffff then 2 else 4.

Definition rdp_dynamic_channel_length_code (length_bytes : Z) : Z :=
  if length_bytes =? 1 then 0 else if length_bytes =? 2 then 1 else 2.

Definition rdp_dynamic_channel_validate_priority (priority : Z) : res unit :=
  if priority <=? 3 then Ok tt else Err LIBRDP_STATUS_INVALID_ARGUMENT.

Definition rdp_dynamic_channel_select_version (server_version : Z) : Z :=
  if server_version =? 0 then 0 else if 3 <? server_version then 3 else server_version.

Definition rdp_dynamic_channel_select_channel_id_bytes (channel_id : Z) : Z :=
  if channel_id <=? 0xff then 1 else if channel_id <=? 0xffff then 2 else 4.

Definition rdp_dynamic_channel_data_pdu_header_size (channel_id_bytes : Z) : Z :=
  if negb (channel_id_bytes =? 1) && negb (channel_id_bytes =? 2) && negb (channel_id_bytes =? 4)
  then 0 else 1 + channel_id_bytes.

Definition rdp_dynamic_channel_data_first_pdu_header_size (channel_id_bytes total_length : Z) : Z :=
  if negb (channel_id_bytes =? 1) && negb (channel_id_bytes =? 2) && negb (channel_id_bytes =? 4)
  then 0 else 1 + channel_id_bytes + rdp_dynamic_channel_length_bytes total_length.

(** ** The header *)

Definition rdp_dynamic_channel_parse_header (data : view) : res rdp_dynamic_channel_header :=
  ensure (negb (view_null data || (view_len data <? 1))) LIBRDP_STATUS_PROTOCOL_ERROR;;
  raw ← rd (view_bytes data) 0;
  let command := u8 (Z.shiftr raw 4) in
  ensure (negb ((command =? 0) || (RDP_DYNAMIC_CHANNEL_CMD_SOFT_SYNC_RESPONSE <? command)))
    LIBRDP_STATUS_PROTOCOL_ERROR;;
  let priority := Z.land (Z.shiftr raw 2) 0x03 in
  let cb_id := Z.land raw 0x03 in
  ensure (negb (cb_id =? 3)) LIBRDP_STATUS_PROTOCOL_ERROR;;
  let channel_id_bytes := if cb_id =? 0 then 1 else if cb_id =? 1 then 2 else 4 in
  if (command =? RDP_DYNAMIC_CHANNEL_CMD_DATA_FIRST) ||
     (command =? RDP_DYNAMIC_CHANNEL_CMD_DATA_FIRST_COMPRESSED) then
    ensure (negb (priority =? 3)) LIBRDP_STATUS_PROTOCOL_ERROR;;
    let length_bytes := if priority =? 0 then 1 else if priority =? 1 then 2 else 4 in
    mret (mk_dvc_header command priority length_bytes channel_id_bytes raw)
  else mret (mk_dvc_header command priority 0 channel_id_bytes raw).

(** The opening shared by the parsers: the NULL guard, the header, the expected
    command (and what else the parser asks of the header). *)
Definition parse_expected (data : view) (accept : rdp_dynamic_channel_header -> bool) :
    res rdp_dynamic_channel_header :=
  ensure (negb (view_null data)) LIBRDP_STATUS_INVALID_ARGUMENT;;
  header ← match rdp_dynamic_channel_parse_header data with
           | Err _ => Err LIBRDP_STATUS_PROTOCOL_ERROR
           | r => r
           end;
  ensure (accept header) LIBRDP_STATUS_PROTOCOL_ERROR;;
  mret header.

Definition is_command (command : Z) (header : rdp_dynamic_channel_header) : bool :=
  dh_command header =? command.

(** ** Capabilities *)

Definition rdp_dynamic_channel_parse_capabilities (data : view) :
    res rdp_dynamic_channel_capabilities :=
  parse_expected data (fun header =>
    negb (negb (dh_command header =? RDP_DYNAMIC_CHANNEL_CMD_CAPABILITIES) || (view_len data <? 4)));;
  with_stream data (
    pr (rdp_stream_skip 1);;
    pr rdp_stream_read_u8;;
    version ← pr rdp_stream_read_u16_le;
    require (negb (version =? 0)) LIBRDP_STATUS_PROTOCOL_ERROR;;
    remaining ← rdp_stream_remaining;
    if 2 <=? version then
      if remaining =? 0 then mret (mk_dvc_capabilities version false [0; 0; 0; 0])
      else
        require (remaining =? 8) LIBRDP_STATUS_PROTOCOL_ERROR;;
        c0 ← pr rdp_stream_read_u16_le;
        c1 ← pr rdp_stream_read_u16_le;
        c2 ← pr rdp_stream_read_u16_le;
        c3 ← pr rdp_stream_read_u16_le;
        mret (mk_dvc_capabilities version true [c0; c1; c2; c3])
    else
      require (remaining =? 0) LIBRDP_STATUS_PROTOCOL_ERROR;;
      mret (mk_dvc_capabilities version false [0; 0; 0; 0])).

(** [for (index = 0; ... index < 4; index++) append_u16_le(priority_charge[index])]. *)
Fixpoint append_charges (charges : list Z) : writer unit :=
  match charges with
  | [] => mret tt
  | c :: charges => rdp_buffer_append_u16_le c;; append_charges charges
  end.

(** [priority_charge] is NULL or an array of four. *)
Definition rdp_dynamic_channel_write_capabilities_request (version : Z)
    (priority_charge : option (Z * Z * Z * Z)) : writer unit :=
  require (negb ((version =? 0) || (3 <? version) ||
                 ((2 <=? version) && match priority_charge with None => true | _ => false end)))
    LIBRDP_STATUS_INVALID_ARGUMENT;;
  restore_on_error (
    rdp_buffer_append_u8 (u8 (Z.shiftl RDP_DYNAMIC_CHANNEL_CMD_CAPABILITIES 4));;
    rdp_buffer_append_u8 0;;
    rdp_buffer_append_u16_le version;;
    (if 2 <=? version then
       match priority_charge with
       | Some (c0, c1, c2, c3) => append_charges [c0; c1; c2; c3]
       | None => lift Fault
       end
     else mret tt)).

Definition rdp_dynamic_channel_write_capabilities_response (version : Z) : writer unit :=
  require (negb ((version =? 0) || (3 <? version))) LIBRDP_STATUS_INVALID_ARGUMENT;;
  restore_on_error (
    rdp_buffer_append_u8 (u8 (Z.shiftl RDP_DYNAMIC_CHANNEL_CMD_CAPABILITIES 4));;
    rdp_buffer_append_u8 0;;
    rdp_buffer_append_u16_le version).

(** ** Create *)

(** The loop looking for the terminator: its index. *)
Fixpoint name_end (name : list Z) (i : Z) : option Z :=
  match name with
  | [] => None
  | c :: name => if c =? 0 then Some i else name_end name (i + 1)
  end.

Definition rdp_dynamic_channel_parse_create_request (data : view) :
    res rdp_dynamic_channel_create_request :=
  header ← parse_expected data (is_command RDP_DYNAMIC_CHANNEL_CMD_CREATE);
  with_stream data (
    pr (rdp_stream_skip 1);;
    channel_id ← pr (rdp_dynamic_channel_read_channel_id (dh_channel_id_bytes header));
    remaining ← rdp_stream_remaining;
    require (negb (remaining =? 0)) LIBRDP_STATUS_PROTOCOL_ERROR;;
    name ← pr (rdp_stream_read_bytes remaining);
    match name_end name 0 with
    | Some i =>
        require (negb (i =? 0)) LIBRDP_STATUS_PROTOCOL_ERROR;;
        mret (mk_dvc_create_request channel_id (dh_channel_id_bytes header)
                (dh_priority header) (ztake i name))
    | None => fail LIBRDP_STATUS_PROTOCOL_ERROR
    end).

Definition rdp_dynamic_channel_write_create_request (channel_id channel_id_bytes priority : Z)
    (name : view) : writer unit :=
  require (negb (view_null name || (view_len name =? 0))) LIBRDP_STATUS_INVALID_ARGUMENT;;
  lift (rdp_dynamic_channel_validate_priority priority);;
  cb_id ← lift (rdp_dynamic_channel_channel_id_code channel_id channel_id_bytes);
  restore_on_error (
    rdp_buffer_append_u8 (u8 (Z.lor (Z.lor (Z.shiftl RDP_DYNAMIC_CHANNEL_CMD_CREATE 4)
                                           (Z.shiftl priority 2)) cb_id));;
    rdp_dynamic_channel_write_channel_id channel_id channel_id_bytes;;
    rdp_buffer_append name;;
    rdp_buffer_append_u8 0).

Definition rdp_dynamic_channel_write_create_response (channel_id channel_id_bytes status_code : Z) :
    writer unit :=
  cb_id ← lift (rdp_dynamic_channel_channel_id_code channel_id channel_id_bytes);
  restore_on_error (
    rdp_buffer_append_u8 (u8 (Z.lor (Z.shiftl RDP_DYNAMIC_CHANNEL_CMD_CREATE 4) cb_id));;
    rdp_dynamic_channel_write_channel_id channel_id channel_id_bytes;;
    rdp_buffer_append_u32_le status_code).

Definition rdp_dynamic_channel_parse_create_response (data : view) :
    res rdp_dynamic_channel_create_response :=
  header ← parse_expected data (is_command RDP_DYNAMIC_CHANNEL_CMD_CREATE);
  with_stream data (
    pr (rdp_stream_skip 1);;
    channel_id ← pr (rdp_dynamic_channel_read_channel_id (dh_channel_id_bytes header));
    status_code ← pr rdp_stream_read_u32_le;
    remaining ← rdp_stream_remaining;
    require (remaining =? 0) LIBRDP_STATUS_PROTOCOL_ERROR;;
    mret (mk_dvc_create_response channel_id (dh_channel_id_bytes header) status_code)).

(** ** Data and close *)

(** [if (len > 0 && read_bytes(...) != OK) return PROTOCOL_ERROR;], where the
    pointer of an empty payload stays NULL. *)
Definition read_optional (len : Z) : reader view :=
  if 0 <? len then l ← pr (rdp_stream_read_bytes len); mret (View l) else mret (NullView 0).

Definition rdp_dynamic_channel_parse_data (data : view) : res rdp_dynamic_channel_data_pdu :=
  header ← parse_expected data (is_command RDP_DYNAMIC_CHANNEL_CMD_DATA);
  with_stream data (
    pr (rdp_stream_skip 1);;
    channel_id ← pr (rdp_dynamic_channel_read_channel_id (dh_channel_id_bytes header));
    data_len ← rdp_stream_remaining;
    payload ← read_optional data_len;
    mret (mk_dvc_data channel_id (dh_channel_id_bytes header) payload)).

Definition rdp_dynamic_channel_write_data_ex (channel_id channel_id_bytes priority : Z)
    (data : view) : writer unit :=
  require (negb (view_null data && (0 <? view_len data))) LIBRDP_STATUS_INVALID_ARGUMENT;;
  lift (rdp_dynamic_channel_validate_priority priority);;
  cb_id ← lift (rdp_dynamic_channel_channel_id_code channel_id channel_id_bytes);
  restore_on_error (
    rdp_buffer_append_u8 (u8 (Z.lor (Z.lor (Z.shiftl RDP_DYNAMIC_CHANNEL_CMD_DATA 4)
                                           (Z.shiftl priority 2)) cb_id));;
    rdp_dynamic_channel_write_channel_id channel_id channel_id_bytes;;
    rdp_buffer_append data).

Definition rdp_dynamic_channel_write_data (channel_id channel_id_bytes : Z) (data : view) :
    writer unit :=
  rdp_dynamic_channel_write_data_ex channel_id channel_id_bytes 0 data.

Definition rdp_dynamic_channel_parse_data_first (data : view) :
    res rdp_dynamic_channel_data_first_pdu :=
  header ← parse_expected data (is_command RDP_DYNAMIC_CHANNEL_CMD_DATA_FIRST);
  with_stream data (
    pr (rdp_stream_skip 1);;
    channel_id ← pr (rdp_dynamic_channel_read_channel_id (dh_channel_id_bytes header));
    total_length ← pr (rdp_dynamic_channel_read_length (dh_length_bytes header));
    require (negb (total_length =? 0)) LIBRDP_STATUS_PROTOCOL_ERROR;;
    data_len ← rdp_stream_remaining;
    require (negb (total_length <? data_len)) LIBRDP_STATUS_PROTOCOL_ERROR;;
    payload ← read_optional data_len;
    mret (mk_dvc_data_first channel_id (dh_channel_id_bytes header) total_length payload)).

Definition rdp_dynamic_channel_write_data_first_ex (channel_id channel_id_bytes priority
    total_length : Z) (data : view) : writer unit :=
  require (negb ((view_null data && (0 <? view_len data)) || (total_length =? 0) ||
                 (total_length <? view_len data))) LIBRDP_STATUS_INVALID_ARGUMENT;;
  lift (rdp_dynamic_channel_validate_priority priority);;
  cb_id ← lift (rdp_dynamic_channel_channel_id_code channel_id channel_id_bytes);
  let length_bytes := rdp_dynamic_channel_length_bytes total_length in
  let length_code := rdp_dynamic_channel_length_code length_bytes in
  require (negb (RDP_DYNAMIC_CHANNEL_MAX_PDU_SIZE <?
                 size_t (1 + channel_id_bytes + length_bytes + view_len data)))
    LIBRDP_STATUS_INVALID_ARGUMENT;;
  restore_on_error (
    rdp_buffer_append_u8 (u8 (Z.lor (Z.lor (Z.shiftl RDP_DYNAMIC_CHANNEL_CMD_DATA_FIRST 4)
                                           (Z.shiftl length_code 2)) cb_id));;
    rdp_dynamic_channel_write_channel_id channel_id channel_id_bytes;;
    rdp_dynamic_channel_write_length total_length length_bytes;;
    rdp_buffer_append data).

Definition rdp_dynamic_channel_write_data_first (channel_id channel_id_bytes total_length : Z)
    (data : view) : writer unit :=
  rdp_dynamic_channel_write_data_first_ex channel_id channel_id_bytes 0 total_length data.

Definition rdp_dynamic_channel_parse_close (data : view) : res rdp_dynamic_channel_close_pdu :=
  header ← parse_expected data (is_command RDP_DYNAMIC_CHANNEL_CMD_CLOSE);
  with_stream data (
    pr (rdp_stream_skip 1);;
    channel_id ← pr (rdp_dynamic_channel_read_channel_id (dh_channel_id_bytes header));
    remaining ← rdp_stream_remaining;
    require (remaining =? 0) LIBRDP_STATUS_PROTOCOL_ERROR;;
    mret (mk_dvc_close channel_id (dh_channel_id_bytes header))).

Definition rdp_dynamic_channel_write_close (channel_id channel_id_bytes : Z) : writer unit :=
  cb_id ← lift (rdp_dynamic_channel_channel_id_code channel_id channel_id_bytes);
  restore_on_error (
    rdp_buffer_append_u8 (u8 (Z.lor (Z.shiftl RDP_DYNAMIC_CHANNEL_CMD_CLOSE 4) cb_id));;
    rdp_dynamic_channel_write_channel_id channel_id channel_id_bytes).

(** ** Compressed data *)

Definition rdp_dynamic_channel_parse_compressed_data (data : view) :
    res rdp_dynamic_channel_data_pdu :=
  header ← parse_expected data (is_command RDP_DYNAMIC_CHANNEL_CMD_DATA_COMPRESSED);
  with_stream data (
    pr (rdp_stream_skip 1);;
    channel_id ← pr (rdp_dynamic_channel_read_channel_id (dh_channel_id_bytes header));
    data_len ← rdp_stream_remaining;
    require (negb (data_len <? 2)) LIBRDP_STATUS_PROTOCOL_ERROR;;
    payload ← pr (rdp_stream_read_bytes data_len);
    mret (mk_dvc_data channel_id (dh_channel_id_bytes header) (View payload))).

Definition rdp_dynamic_channel_write_compressed_data (channel_id channel_id_bytes : Z)
    (data : view) : writer unit :=
  require (negb (view_null data || (view_len data <? 2) ||
                 (RDP_DYNAMIC_CHANNEL_MAX_PDU_SIZE <? size_t (1 + channel_id_bytes + view_len data))))
    LIBRDP_STATUS_INVALID_ARGUMENT;;
  cb_id ← lift (rdp_dynamic_channel_channel_id_code channel_id channel_id_bytes);
  restore_on_error (
    rdp_buffer_append_u8 (u8 (Z.lor (Z.shiftl RDP_DYNAMIC_CHANNEL_CMD_DATA_COMPRESSED 4) cb_id));;
    rdp_dynamic_channel_write_channel_id channel_id channel_id_bytes;;
    rdp_buffer_append data).

Definition rdp_dynamic_channel_parse_compressed_data_first (data : view) :
    res rdp_dynamic_channel_data_first_pdu :=
  header ← parse_expected data (is_command RDP_DYNAMIC_CHANNEL_CMD_DATA_FIRST_COMPRESSED);
  with_stream data (
    pr (rdp_stream_skip 1);;
    channel_id ← pr (rdp_dynamic_channel_read_channel_id (dh_channel_id_bytes header));
    total_length ← pr (rdp_dynamic_channel_read_length (dh_length_bytes header));
    require (negb (total_length =? 0)) LIBRDP_STATUS_PROTOCOL_ERROR;;
    data_len ← rdp_stream_remaining;
    require (negb (data_len <? 2)) LIBRDP_STATUS_PROTOCOL_ERROR;;
    require (negb (total_length <? data_len)) LIBRDP_STATUS_PROTOCOL_ERROR;;
    payload ← pr (rdp_stream_read_bytes data_len);
    mret (mk_dvc_data_first channel_id (dh_channel_id_bytes header) total_length (View payload))).

Definition rdp_dynamic_channel_write_compressed_data_first (channel_id channel_id_bytes
    total_length : Z) (data : view) : writer unit :=
  require (negb (view_null data || (total_length =? 0) || (view_len data <? 2) ||
                 (total_length <? view_len data))) LIBRDP_STATUS_INVALID_ARGUMENT;;
  cb_id ← lift (rdp_dynamic_channel_channel_id_code channel_id channel_id_bytes);
  let length_bytes := rdp_dynamic_channel_length_bytes total_length in
  let length_code := rdp_dynamic_channel_length_code length_bytes in
  require (negb (RDP_DYNAMIC_CHANNEL_MAX_PDU_SIZE <?
                 size_t (1 + channel_id_bytes + length_bytes + view_len data)))
    LIBRDP_STATUS_INVALID_ARGUMENT;;
  restore_on_error (
    rdp_buffer_append_u8 (u8 (Z.lor (Z.lor (Z.shiftl RDP_DYNAMIC_CHANNEL_CMD_DATA_FIRST_COMPRESSED 4)
                                           (Z.shiftl length_code 2)) cb_id));;
    rdp_dynamic_channel_write_channel_id channel_id channel_id_bytes;;
    rdp_dynamic_channel_write_length total_length length_bytes;;
    rdp_buffer_append data).

(** ** Soft-sync *)

Definition valid_tunnel (tunnel_type : Z) : bool :=
  (tunnel_type =? RDP_DYNAMIC_CHANNEL_TUNNEL_UDP_RELIABLE) ||
  (tunnel_type =? RDP_DYNAMIC_CHANNEL_TUNNEL_UDP_LOSSY).

Fixpoint validate_lists_loop (tunnels : nat) : reader unit :=
  match tunnels with
  | O =>
      remaining ← rdp_stream_remaining;
      require (remaining =? 0) LIBRDP_STATUS_PROTOCOL_ERROR
  | S tunnels =>
      tunnel_type ← pr rdp_stream_read_u32_le;
      channel_count ← pr rdp_stream_read_u16_le;
      require (valid_tunnel tunnel_type) LIBRDP_STATUS_PROTOCOL_ERROR;;
      let ids_len := size_t (channel_count * 4) in
      require (negb ((channel_count =? 0) || negb (ids_len / 4 =? channel_count)))
        LIBRDP_STATUS_PROTOCOL_ERROR;;
      pr (rdp_stream_skip ids_len);;
      validate_lists_loop tunnels
  end.

Definition rdp_dynamic_channel_validate_soft_sync_lists (data : view) (tunnel_count : Z) : res unit :=
  ensure (negb (view_null data && (0 <? view_len data))) LIBRDP_STATUS_INVALID_ARGUMENT;;
  with_stream data (validate_lists_loop (Z.to_nat tunnel_count)).

Fixpoint validate_tunnels_loop (tunnels : nat) : reader unit :=
  match tunnels with
  | O =>
      remaining ← rdp_stream_remaining;
      require (remaining =? 0) LIBRDP_STATUS_PROTOCOL_ERROR
  | S tunnels =>
      tunnel_type ← pr rdp_stream_read_u32_le;
      require (valid_tunnel tunnel_type) LIBRDP_STATUS_PROTOCOL_ERROR;;
      validate_tunnels_loop tunnels
  end.

Definition rdp_dynamic_channel_validate_soft_sync_tunnels (data : view) (tunnel_count : Z) : res unit :=
  ensure (negb (view_null data && (0 <? view_len data))) LIBRDP_STATUS_INVALID_ARGUMENT;;
  ensure (view_len data =? size_t (tunnel_count * 4)) LIBRDP_STATUS_PROTOCOL_ERROR;;
  with_stream data (validate_tunnels_loop (Z.to_nat tunnel_count)).

Definition rdp_dynamic_channel_parse_soft_sync_request (data : view) :
    res rdp_dynamic_channel_soft_sync_request :=
  parse_expected data (fun header =>
    negb (negb (dh_command header =? RDP_DYNAMIC_CHANNEL_CMD_SOFT_SYNC_REQUEST) ||
          negb (dh_raw header =? u8 (Z.shiftl RDP_DYNAMIC_CHANNEL_CMD_SOFT_SYNC_REQUEST 4)) ||
          (view_len data <? 10)));;
  with_stream data (
    pr (rdp_stream_skip 1);;
    pad ← pr rdp_stream_read_u8;
    length ← pr rdp_stream_read_u32_le;
    flags ← pr rdp_stream_read_u16_le;
    tunnel_count ← pr rdp_stream_read_u16_le;
    require (negb (negb (pad =? 0) || negb (length =? view_len data - 2) ||
                   (Z.land flags RDP_DYNAMIC_CHANNEL_SOFT_SYNC_TCP_FLUSHED =? 0) ||
                   negb (Z.land flags (u32 (Z.lnot (Z.lor
                     RDP_DYNAMIC_CHANNEL_SOFT_SYNC_TCP_FLUSHED
                     RDP_DYNAMIC_CHANNEL_SOFT_SYNC_CHANNEL_LIST_PRESENT))) =? 0)))
      LIBRDP_STATUS_PROTOCOL_ERROR;;
    lists_len ← rdp_stream_remaining;
    if Z.land flags RDP_DYNAMIC_CHANNEL_SOFT_SYNC_CHANNEL_LIST_PRESENT =? 0 then
      require (negb (negb (tunnel_count =? 0) || negb (lists_len =? 0)))
        LIBRDP_STATUS_PROTOCOL_ERROR;;
      mret (mk_soft_sync_request length flags tunnel_count (NullView lists_len))
    else
      require (negb ((tunnel_count =? 0) || (lists_len =? 0))) LIBRDP_STATUS_PROTOCOL_ERROR;;
      lists ← pr (rdp_stream_read_bytes lists_len);
      lift (rdp_dynamic_channel_validate_soft_sync_lists (View lists) tunnel_count);;
      mret (mk_soft_sync_request length flags tunnel_count (View lists))).

(** The loop of [rdp_dynamic_channel_soft_sync_request_get_list]; [before] is the
    number of lists in front of the requested one. *)
Fixpoint get_list_loop (before : nat) : reader rdp_dynamic_channel_soft_sync_channel_list :=
  tunnel_type ← pr rdp_stream_read_u32_le;
  channel_count ← pr rdp_stream_read_u16_le;
  let ids_len := size_t (channel_count * 4) in
  require (negb (negb (valid_tunnel tunnel_type) || (channel_count =? 0) ||
                 negb (ids_len / 4 =? channel_count))) LIBRDP_STATUS_PROTOCOL_ERROR;;
  ids ← pr (rdp_stream_read_bytes ids_len);
  match before with
  | O => mret (mk_soft_sync_list tunnel_type channel_count ids ids_len)
  | S before => get_list_loop before
  end.

Definition rdp_dynamic_channel_soft_sync_request_get_list
    (request : rdp_dynamic_channel_soft_sync_request) (index : Z) :
    res rdp_dynamic_channel_soft_sync_channel_list :=
  ensure (negb (ss_tunnel_count request <=? index)) LIBRDP_STATUS_INVALID_ARGUMENT;;
  with_stream (ss_lists request) (get_list_loop (Z.to_nat index)).

Definition rdp_dynamic_channel_soft_sync_channel_list_get_id
    (list : rdp_dynamic_channel_soft_sync_channel_list) (index : Z) : res Z :=
  ensure (negb ((sl_channel_count list <=? index) ||
                negb (sl_channel_ids_len list =? size_t (sl_channel_count list * 4))))
    LIBRDP_STATUS_INVALID_ARGUMENT;;
  let item := size_t (index * 4) in
  p0 ← rd (sl_channel_ids list) item;
  p1 ← rd (sl_channel_ids list) (item + 1);
  p2 ← rd (sl_channel_ids list) (item + 2);
  p3 ← rd (sl_channel_ids list) (item + 3);
  mret (val32 p0 p1 p2 p3).

Fixpoint append_tunnels (tunnel_types : list Z) : writer unit :=
  match tunnel_types with
  | [] => mret tt
  | t :: tunnel_types => rdp_buffer_append_u32_le t;; append_tunnels tunnel_types
  end.

(** [tunnel_types] and [tunnel_count] are the list and its length. *)
Definition rdp_dynamic_channel_write_soft_sync_response (tunnel_types : list Z) : writer unit :=
  require (forallb valid_tunnel tunnel_types) LIBRDP_STATUS_INVALID_ARGUMENT;;
  restore_on_error (
    rdp_buffer_append_u8 (u8 (Z.shiftl RDP_DYNAMIC_CHANNEL_CMD_SOFT_SYNC_RESPONSE 4));;
    rdp_buffer_append_u8 0;;
    rdp_buffer_append_u32_le (blen tunnel_types);;
    append_tunnels tunnel_types).

Definition rdp_dynamic_channel_parse_soft_sync_response (data : view) :
    res rdp_dynamic_channel_soft_sync_response :=
  parse_expected data (fun header =>
    negb (negb (dh_command header =? RDP_DYNAMIC_CHANNEL_CMD_SOFT_SYNC_RESPONSE) ||
          negb (dh_raw header =? u8 (Z.shiftl RDP_DYNAMIC_CHANNEL_CMD_SOFT_SYNC_RESPONSE 4)) ||
          (view_len data <? 6)));;
  with_stream data (
    pr (rdp_stream_skip 1);;
    pad ← pr rdp_stream_read_u8;
    tunnel_count ← pr rdp_stream_read_u32_le;
    remaining ← rdp_stream_remaining;
    require (negb (negb (pad =? 0) || negb (remaining =? size_t (tunnel_count * 4))))
      LIBRDP_STATUS_PROTOCOL_ERROR;;
    tunnel_types ← pr (rdp_stream_read_bytes remaining);
    pr (lift (rdp_dynamic_channel_validate_soft_sync_tunnels (View tunnel_types) tunnel_count));;
    mret (mk_soft_sync_response tunnel_count tunnel_types remaining)).

Definition rdp_dynamic_channel_soft_sync_response_get_tunnel
    (response : rdp_dynamic_channel_soft_sync_response) (index : Z) : res Z :=
  ensure (negb ((sr_tunnel_count response <=? index) ||
                negb (sr_tunnel_types_len response =? size_t (sr_tunnel_count response * 4))))
    LIBRDP_STATUS_INVALID_ARGUMENT;;
  let item := size_t (index * 4) in
  p0 ← rd (sr_tunnel_types response) item;
  p1 ← rd (sr_tunnel_types response) (item + 1);
  p2 ← rd (sr_tunnel_types response) (item + 2);
  p3 ← rd (sr_tunnel_types response) (item + 3);
  let parsed := val32 p0 p1 p2 p3 in
  ensure (valid_tunnel parsed) LIBRDP_STATUS_PROTOCOL_ERROR;;
  mret parsed.

(** ** The wire formats *)

Definition header_byte (command sp cb_id : Z) : Z := command * 16 + sp * 4 + cb_id.
Definition id_code (n : Z) : Z := if n =? 1 then 0 else if n =? 2 then 1 else 2.
Definition id_enc (n id : Z) : list Z :=
  if n =? 1 then [id] else if n =? 2 then le16 id else le32 id.
(** A channel id that its width can hold. *)
Definition id_fits (n id : Z) : Prop :=
  (n = 1 /\ 0 <= id <= 0xff) \/ (n = 2 /\ 0 <= id <= 0xffff) \/ (n = 4 /\ 0 <= id <= UINT32_MAX).
Definition pdu_enc (command sp n id : Z) (body : list Z) : list Z :=
  [header_byte command sp (id_code n)] ++ id_enc n id ++ body.
Definition length_enc (len : Z) : list Z := id_enc (rdp_dynamic_channel_length_bytes len) len.

(** The header the parser makes of a PDU. *)
Definition pdu_header (command sp n : Z) : rdp_dynamic_channel_header :=
  mk_dvc_header command sp
    (if (command =? RDP_DYNAMIC_CHANNEL_CMD_DATA_FIRST) ||
        (command =? RDP_DYNAMIC_CHANNEL_CMD_DATA_FIRST_COMPRESSED)
     then if sp =? 0 then 1 else if sp =? 1 then 2 else 4 else 0)
    n (header_byte command sp (id_code n)).

Definition header_ok (command sp n : Z) : Prop :=
  1 <= command <= 9 /\ 0 <= sp <= 3 /\ (n = 1 \/ n = 2 \/ n = 4) /\
  (command = RDP_DYNAMIC_CHANNEL_CMD_DATA_FIRST \/
   command = RDP_DYNAMIC_CHANNEL_CMD_DATA_FIRST_COMPRESSED -> sp <> 3).

(** ** Lemmas: fields *)

Lemma id_code_range n : 0 <= id_code n <= 2.
Proof. unfold id_code. repeat case_match; lia. Qed.

Lemma id_fits_u32 n id : id_fits n id -> is_u32 id.
Proof. unfold id_fits, is_u32, UINT32_MAX. lia. Qed.

Lemma channel_id_code_ok n id :
  id_fits n id -> rdp_dynamic_channel_channel_id_code id n = Ok (id_code n).
Proof.
  unfold rdp_dynamic_channel_channel_id_code, id_code.
  intros [(-> & H)|[(-> & H)|(-> & H)]]; cbn [Z.eqb Pos.eqb]; rewrite ?ensure_true by lia; done.
Qed.

Lemma channel_id_code_refused n id :
  0 <= id <= UINT32_MAX -> ~ id_fits n id ->
  rdp_dynamic_channel_channel_id_code id n = Err LIBRDP_STATUS_INVALID_ARGUMENT.
Proof.
  unfold rdp_dynamic_channel_channel_id_code, id_fits. intros Hid H.
  destruct (Z.eqb_spec n 1); [|destruct (Z.eqb_spec n 2); [|destruct (Z.eqb_spec n 4); [lia|done]]];
    rewrite ensure_bind; case_match; bool_prop; (lia || done).
Qed.

Lemma bytes_id_enc n id : id_fits n id -> bytes (id_enc n id).
Proof.
  unfold id_enc. intros [(-> & H)|[(-> & H)|(-> & H)]]; cbn [Z.eqb Pos.eqb]; solve_bytes.
Qed.

Lemma writes_dvc_id n id :
  id_fits n id ->
  Writes (rdp_dynamic_channel_write_channel_id id n) (id_enc n id) (fun _ => True).
Proof.
  unfold rdp_dynamic_channel_write_channel_id, id_enc, UINT32_MAX.
  intros [(-> & H)|[(-> & H)|(-> & H)]]; cbn [Z.eqb Pos.eqb].
  - apply writes_require; [lia|]. unfold u8. rewrite Z.mod_small by lia. apply writes_u8.
  - apply writes_require; [lia|]. unfold u16. rewrite Z.mod_small by lia. apply writes_u16_le.
  - apply writes_u32_le.
Qed.

Lemma parses_dvc_id n id rest :
  id_fits n id ->
  Parses (pr (rdp_dynamic_channel_read_channel_id n)) (id_enc n id ++ rest) rest id.
Proof.
  intros Hf. apply parses_coerce. revert Hf.
  unfold rdp_dynamic_channel_read_channel_id, id_enc, UINT32_MAX.
  intros [(-> & H)|[(-> & H)|(-> & H)]]; cbn [Z.eqb Pos.eqb app].
  - apply parses_coerce, parses_read_u8.
  - apply parses_coerce, parses_read_u16_le. unfold is_u16. lia.
  - apply parses_read_u32_le. unfold is_u32, UINT32_MAX in *. lia.
Qed.

Lemma length_fits len : is_u32 len -> id_fits (rdp_dynamic_channel_length_bytes len) len.
Proof.
  unfold is_u32, id_fits, rdp_dynamic_channel_length_bytes, UINT32_MAX. intros.
  destruct (Z.leb_spec len 0xff), (Z.leb_spec len 0xffff); lia.
Qed.

Lemma writes_dvc_length len :
  is_u32 len ->
  Writes (rdp_dynamic_channel_write_length len (rdp_dynamic_channel_length_bytes len))
    (length_enc len) (fun _ => True).
Proof. intros. by apply writes_dvc_id, length_fits. Qed.

Lemma parses_dvc_length len rest :
  is_u32 len ->
  Parses (pr (rdp_dynamic_channel_read_length (rdp_dynamic_channel_length_bytes len)))
    (length_enc len ++ rest) rest len.
Proof. intros. by apply parses_dvc_id, length_fits. Qed.

#[export] Instance safe_dvc_id n : Safe (rdp_dynamic_channel_read_channel_id n) is_u32.
Proof.
  unfold rdp_dynamic_channel_read_channel_id.
  repeat (apply safe_if; intros _); try apply _;
    (eapply safe_weaken; [apply _|unfold is_byte, is_u16, is_u32; lia]).
Qed.
#[export] Instance safe_dvc_length n : Safe (rdp_dynamic_channel_read_length n) is_u32.
Proof. apply (safe_dvc_id n). Qed.
Definition optional_view (l : list Z) : view :=
  match l with [] => NullView 0 | _ => View l end.

Lemma optional_view_len l : view_len (optional_view l) = blen l /\ view_bytes (optional_view l) = l.
Proof. by destruct l. Qed.
#[export] Instance safe_read_optional len :
  Safe (read_optional len) (fun v => exists l, v = optional_view l /\ bytes l /\ (0 <= len -> blen l = len)).
Proof.
  unfold read_optional. apply safe_if; intros Hl; bool_prop.
  - eapply safe_bind; [apply safe_coerce, safe_read_bytes; lia|]. cbv beta. intros l [Hl' Hb]. apply safe_ret. exists l.
    split; [|done]. destruct l; [change (0 = len) in Hl'; lia|done].
  - apply safe_ret. exists []. split; [done|]. split; [done|]. intros. change (0 = len). lia.
Qed.
(** A number that was read fits its width. *)
Lemma safe_dvc_id_fits n : Safe (rdp_dynamic_channel_read_channel_id n) (id_fits n).
Proof.
  unfold rdp_dynamic_channel_read_channel_id, id_fits.
  repeat (apply safe_if; intros ?; bool_prop); try apply _; subst;
    (eapply safe_weaken; [apply _|cbv beta; unfold is_byte, is_u16, is_u32, UINT32_MAX; lia]).
Qed.

(** ** Lemmas: the header *)

Lemma header_byte_bits command sp cb :
  0 <= command <= 9 -> 0 <= sp <= 3 -> 0 <= cb <= 2 ->
  u8 (Z.lor (Z.lor (Z.shiftl command 4) (Z.shiftl sp 2)) cb) = header_byte command sp cb.
Proof.
  intros. unfold u8, header_byte.
  rewrite <- Z.lor_assoc, (lor_shiftl' 2 cb), (lor_shiftl' 4) by lia.
  rewrite Z.mod_small; lia.
Qed.

Lemma header_byte_bits0 command cb :
  0 <= command <= 9 -> 0 <= cb <= 2 ->
  u8 (Z.lor (Z.shiftl command 4) cb) = header_byte command 0 cb.
Proof. intros. rewrite <- (header_byte_bits command 0 cb) by lia. by rewrite Z.lor_0_r. Qed.

Lemma dvc_header_parsed command sp n rest :
  header_ok command sp n ->
  rdp_dynamic_channel_parse_header (View (header_byte command sp (id_code n) :: rest)) =
    Ok (pdu_header command sp n).
Proof.
  intros (Hc & Hs & Hn & Hsp). pose proof (id_code_range n).
  unfold rdp_dynamic_channel_parse_header, pdu_header.
  cbn [view_null view_len view_bytes]. rewrite ensure_true by guard_lia.
  set (raw := header_byte command sp (id_code n)).
  rewrite (rd_lookup _ 0 raw) by done. cbn [mbind res_bind].
  assert (E1 : u8 (Z.shiftr raw 4) = command).
  { unfold raw, header_byte, u8. bits_norm. Z.div_mod_to_equations. lia. }
  assert (E2 : Z.land (Z.shiftr raw 2) 0x03 = sp) by (unfold raw, header_byte; bits_lia).
  assert (E3 : Z.land raw 0x03 = id_code n) by (unfold raw, header_byte; bits_lia).
  rewrite E1, E2, E3.
  rewrite ensure_true by (unfold RDP_DYNAMIC_CHANNEL_CMD_SOFT_SYNC_RESPONSE; lia).
  cbn [mbind res_bind]. rewrite ensure_true by lia. cbn [mbind res_bind].
  assert (Hid : (if id_code n =? 0 then 1 else if id_code n =? 1 then 2 else 4) = n).
  { unfold id_code. destruct Hn as [->|[->| ->]]; done. }
  rewrite Hid. destruct (_ || _) eqn:Ef; [|done].
  rewrite ensure_true; [done|]. bool_prop. lia.
Qed.

(** The header parser's result on any byte. *)
Lemma header_inv d hdr :
  bytes d -> rdp_dynamic_channel_parse_header (View d) = Ok hdr ->
  exists command sp n rest, d = header_byte command sp (id_code n) :: rest /\
    header_ok command sp n /\ hdr = pdu_header command sp n.
Proof.
  intros Hb. unfold rdp_dynamic_channel_parse_header. cbn [view_null view_len view_bytes].
  rewrite ensure_bind. destruct d as [|raw rest]; [done|].
  destruct (negb _); [|done]. rewrite (rd_lookup _ 0 raw) by done. cbn [mbind res_bind].
  apply Forall_cons_1 in Hb as [Hr _]. unfold is_byte in Hr.
  set (command := u8 (Z.shiftr raw 4)). set (sp := Z.land (Z.shiftr raw 2) 0x03).
  set (cb := Z.land raw 0x03). rewrite ensure_bind. destruct (negb (_ || _)) eqn:Ec; [|done].
  rewrite ensure_bind. destruct (negb (cb =? 3)) eqn:Ecb; [|done].
  set (n := if cb =? 0 then 1 else if cb =? 1 then 2 else 4).
  assert (Hcb : 0 <= cb <= 3) by (unfold cb; bits_lia).
  assert (Hcmd : 0 <= command) by (unfold command, u8; apply Z.mod_pos_bound; lia).
  assert (Hsp : 0 <= sp <= 3) by (unfold sp; bits_lia).
  assert (Hn : (n = 1 \/ n = 2 \/ n = 4) /\ id_code n = cb).
  { unfold n, id_code. destruct (Z.eqb_spec cb 0), (Z.eqb_spec cb 1); cbn; lia. }
  assert (Hraw : raw = header_byte command sp (id_code n)).
  { destruct Hn as [_ ->]. unfold header_byte, command, sp, cb, u8. bits_norm.
    Z.div_mod_to_equations. lia. }
  unfold RDP_DYNAMIC_CHANNEL_CMD_SOFT_SYNC_RESPONSE in Ec.
  intros E. exists command, sp, n, rest. rewrite <- Hraw. split; [done|].
  unfold pdu_header, header_ok. rewrite <- Hraw. revert E.
  destruct ((command =? RDP_DYNAMIC_CHANNEL_CMD_DATA_FIRST) ||
            (command =? RDP_DYNAMIC_CHANNEL_CMD_DATA_FIRST_COMPRESSED)) eqn:Ef.
  - rewrite ensure_bind. destruct (negb (sp =? 3)) eqn:Es; [|discriminate]. intros [= <-].
    split; [|done]. split; [lia|]. split; [done|]. split; [tauto|lia].
  - intros [= <-]. split; [|done]. split; [lia|]. split; [done|]. split; [tauto|lia].
Qed.

Lemma header_safe d : bytes d -> rdp_dynamic_channel_parse_header (View d) <> Fault.
Proof.
  intros Hb. unfold rdp_dynamic_channel_parse_header. cbn [view_null view_len view_bytes].
  rewrite ensure_bind. destruct d as [|raw rest]; [done|].
  destruct (negb _); [|done]. rewrite (rd_lookup _ 0 raw) by done. cbn [mbind res_bind].
  rewrite ensure_bind. destruct (negb _); [|done]. rewrite ensure_bind. destruct (negb _); [|done].
  destruct (_ || _); [|done]. rewrite ensure_bind. by destruct (negb _).
Qed.

Lemma expected_safe {A} d accept (k : rdp_dynamic_channel_header -> res A) :
  bytes d -> (forall hdr, rdp_dynamic_channel_parse_header (View d) = Ok hdr ->
    accept hdr = true -> k hdr <> Fault) ->
  (parse_expected (View d) accept ≫= k) <> Fault.
Proof.
  intros Hb Hk. unfold parse_expected. rewrite ensure_true by done. pose proof (header_safe d Hb).
  destruct (rdp_dynamic_channel_parse_header (View d)) as [hdr| |]; cbn [mbind res_bind]; [|done|done].
  rewrite ensure_bind. destruct (accept hdr) eqn:E; [|done]. cbn. by apply Hk.
Qed.

Lemma expected_ok command sp n rest accept :
  header_ok command sp n -> accept (pdu_header command sp n) = true ->
  parse_expected (View (header_byte command sp (id_code n) :: rest)) accept =
    Ok (pdu_header command sp n).
Proof.
  intros Hh Ha. unfold parse_expected. rewrite ensure_true, dvc_header_parsed by done.
  cbn [mbind res_bind]. by rewrite ensure_true.
Qed.

(** ** Lemmas: the frame shared by the PDUs *)

Section frames.
Context {A : Type} (command sp n id : Z) (body : list Z).
Hypothesis (Hid : id_fits n id).

Lemma id_fits_width : n = 1 \/ n = 2 \/ n = 4.
Proof. unfold id_fits in Hid. lia. Qed.

Lemma framed_writes (k : writer A) P :
  Writes k body P ->
  Writes (rdp_buffer_append_u8 (header_byte command sp (id_code n));;
          rdp_dynamic_channel_write_channel_id id n;; k) (pdu_enc command sp n id body) P.
Proof.
  intros Hk. unfold pdu_enc. wstep.
  eapply writes_bind; [by apply writes_dvc_id|]. by intros [] _.
Qed.

Lemma framed_parses (k : Z -> reader A) rest a :
  Parses (k id) body rest a ->
  Parses (pr (rdp_stream_skip 1);; channel_id ← pr (rdp_dynamic_channel_read_channel_id n);
          k channel_id) (pdu_enc command sp n id body) rest a.
Proof.
  intros Hk. unfold pdu_enc. pstep; [by apply parses_skip|].
  eapply parses_bind; [by apply parses_dvc_id|done].
Qed.

Lemma bytes_pdu_enc :
  header_ok command sp n -> bytes body -> bytes (pdu_enc command sp n id body).
Proof.
  intros (Hc & Hs & _) Hb. pose proof (id_code_range n). unfold pdu_enc, header_byte.
  apply Forall_app_2; [solve_bytes|]. apply Forall_app_2; [by apply bytes_id_enc|done].
Qed.

(** A parser of the file run on a framed PDU. *)
Lemma framed_run (k : Z -> rdp_dynamic_channel_header -> reader A) accept a :
  header_ok command sp n -> bytes body -> accept (pdu_header command sp n) = true ->
  Parses (k id (pdu_header command sp n)) body [] a ->
  (header ← parse_expected (View (pdu_enc command sp n id body)) accept;
   with_stream (View (pdu_enc command sp n id body)) (
     pr (rdp_stream_skip 1);;
     channel_id ← pr (rdp_dynamic_channel_read_channel_id (dh_channel_id_bytes header));
     k channel_id header)) = Ok a.
Proof.
  intros Hh Hb Ha Hk.
  assert (He : parse_expected (View (pdu_enc command sp n id body)) accept =
    Ok (pdu_header command sp n)) by (by apply (expected_ok command sp n (id_enc n id ++ body))).
  rewrite He. cbn [mbind res_bind]. apply (parses_with_stream _ _ []); [by apply bytes_pdu_enc|].
  by apply framed_parses.
Qed.
End frames.

Lemma parses_optional l : Parses (read_optional (blen l)) l [] (optional_view l).
Proof.
  unfold read_optional. destruct l as [|b l].
  - apply parses_if_false; [done|]. apply parses_ret.
  - apply parses_if_true; [guard_lia|]. rewrite <- (app_nil_r (b :: l)) at 2. pstep.
    { by apply parses_read_bytes. }
    apply parses_ret.
Qed.

Lemma header_ok_plain command sp n id :
  1 <= command <= 9 -> command <> 2 -> command <> 6 -> 0 <= sp <= 3 -> id_fits n id ->
  header_ok command sp n.
Proof. unfold header_ok, id_fits. intros. split; [done|]. split; [done|]. split; [lia|]. 
  unfold RDP_DYNAMIC_CHANNEL_CMD_DATA_FIRST, RDP_DYNAMIC_CHANNEL_CMD_DATA_FIRST_COMPRESSED. lia. Qed.

(** The length code of the first fragment, and what the header parser makes of it. *)
Lemma length_code_ok command n len id :
  command = 2 \/ command = 6 -> is_u32 len -> id_fits n id ->
  let sp := rdp_dynamic_channel_length_code (rdp_dynamic_channel_length_bytes len) in
  header_ok command sp n /\ 0 <= sp <= 2 /\
  dh_length_bytes (pdu_header command sp n) = rdp_dynamic_channel_length_bytes len.
Proof.
  intros Hc Hl Hid sp. pose proof (id_fits_width n id Hid).
  assert (Hsp : 0 <= sp <= 2).
  { unfold sp, rdp_dynamic_channel_length_code. repeat case_match; lia. }
  split; [|split; [done|]].
  - unfold header_ok. repeat split; lia.
  - unfold pdu_header, sp, rdp_dynamic_channel_length_code, rdp_dynamic_channel_length_bytes.
    cbn [dh_length_bytes]. destruct Hc as [->| ->]; cbn [Z.eqb Pos.eqb orb];
      destruct (len <=? 0xff), (len <=? 0xffff); done.
Qed.

Lemma blen_id_enc n id : id_fits n id -> blen (id_enc n id) = n.
Proof. unfold id_enc. intros [(-> & _)|[(-> & _)|(-> & _)]]; done. Qed.

(** ** Lemmas: soft-sync *)

Lemma append_tunnels_written ts :
  Writes (append_tunnels ts) (concat (le32 <$> ts)) (fun _ => True).
Proof.
  induction ts as [|t ts IH]; [by apply writes_ret|]. cbn [append_tunnels fmap list_fmap concat].
  eapply writes_bind; [apply writes_u32_le|]. by intros [] _.
Qed.

Lemma blen_concat_le32 ts : blen (concat (le32 <$> ts)) = 4 * blen ts.
Proof. induction ts as [|t ts IH]; [done|]. cbn [fmap list_fmap concat]. zlen. Qed.

Lemma bytes_concat_le32 ts : bytes (concat (le32 <$> ts)).
Proof.
  induction ts as [|t ts IH]; [constructor|]. cbn [fmap list_fmap concat].
  apply Forall_app_2; [apply bytes_le32|done].
Qed.

Lemma valid_tunnel_u32 t : valid_tunnel t = true -> is_u32 t.
Proof. unfold valid_tunnel, is_u32. intros H. bool_prop. destruct H as [->| ->]; by vm_compute. Qed.

Lemma tunnels_parsed ts :
  forallb valid_tunnel ts = true ->
  Parses (validate_tunnels_loop (length ts)) (concat (le32 <$> ts)) [] tt.
Proof.
  induction ts as [|t ts IH]; cbn [length forallb fmap list_fmap concat validate_tunnels_loop].
  - intros _. pstep. apply parses_require. done.
  - intros [Ht Hts]%andb_true_iff. pstep; [by apply parses_read_u32_le, valid_tunnel_u32|].
    pstep; [done|]. by apply IH.
Qed.

(** Entry [i] of an array of 32-bit words. *)
Lemma rd_le32_entry {A} ts i t (k : Z -> Z -> Z -> Z -> res A) :
  Forall is_u32 ts -> ts !! Z.to_nat i = Some t -> 0 <= i < 0x100000000 ->
  (let item := size_t (i * 4) in
   p0 ← rd (concat (le32 <$> ts)) item; p1 ← rd (concat (le32 <$> ts)) (item + 1);
   p2 ← rd (concat (le32 <$> ts)) (item + 2); p3 ← rd (concat (le32 <$> ts)) (item + 3);
   k p0 p1 p2 p3) =
  k (Z.land t 0xff) (Z.land (Z.shiftr t 8) 0xff) (Z.land (Z.shiftr t 16) 0xff)
    (Z.land (Z.shiftr t 24) 0xff).
Proof.
  intros Hts Hi Hr. cbv zeta. unfold size_t. rewrite Z.mod_small by lia.
  apply list_elem_of_split_length in Hi as (l1 & l2 & -> & Hl).
  rewrite fmap_app, concat_app. cbn [fmap list_fmap concat].
  assert (Hlen : i * 4 = blen (concat (le32 <$> l1))).
  { rewrite blen_concat_le32. unfold blen. lia. }
  rewrite <- (Z.add_0_r (i * 4)) at 1. rewrite Hlen, !rd_app_r by lia.
  by rewrite !rd_app_l by (rewrite blen_le32; lia).
Qed.

(** A channel list of a soft-sync request. *)
Definition tunnel_list_enc (l : Z * list Z) : list Z :=
  le32 l.1 ++ le16 (blen l.2) ++ concat (le32 <$> l.2).
Definition tunnel_list_ok (l : Z * list Z) : Prop :=
  valid_tunnel l.1 = true /\ 1 <= blen l.2 <= UINT16_MAX /\ Forall is_u32 l.2.
(** What the accessor returns for it. *)
Definition tunnel_list_view (l : Z * list Z) : rdp_dynamic_channel_soft_sync_channel_list :=
  mk_soft_sync_list l.1 (blen l.2) (concat (le32 <$> l.2)) (4 * blen l.2).

Lemma words_of_bytes (k : nat) l :
  bytes l -> blen l = 4 * Z.of_nat k ->
  exists ids, blen ids = Z.of_nat k /\ Forall is_u32 ids /\ l = concat (le32 <$> ids).
Proof.
  revert l. induction k as [|k IH]; intros l Hb Hl.
  { exists []. split; [done|]. split; [constructor|]. apply blen_0_nil. lia. }
  destruct l as [|b0 [|b1 [|b2 [|b3 r]]]]; try zlen.
  repeat (apply Forall_cons_1 in Hb as [? Hb]).
  destruct (IH r Hb ltac:(zlen)) as (ids & Hi & Hu & ->).
  exists (val32 b0 b1 b2 b3 :: ids). split; [zlen|]. split.
  - apply Forall_cons_2; [by apply is_u32_val32|done].
  - cbn [fmap list_fmap concat]. rewrite le32_val32 by done. done.
Qed.

Lemma ids_len_ok n : is_u16 n -> size_t (n * 4) = n * 4 /\ (size_t (n * 4) / 4 =? n) = true.
Proof.
  unfold is_u16, size_t. intros. rewrite Z.mod_small by lia. split; [done|].
  rewrite Z.div_mul by done. by rewrite Z.eqb_refl.
Qed.

Lemma validate_lists_inv tunnels s s' u :
  stream_wf s -> validate_lists_loop tunnels s = (Ok u, s') ->
  exists ls, length ls = tunnels /\ Forall tunnel_list_ok ls /\
    unread s = concat (tunnel_list_enc <$> ls).
Proof.
  revert s. induction tunnels as [|tunnels IH]; intros s Hs E; cbn [validate_lists_loop] in E.
  - run_step E. read_inv. read_inv. exists []. split; [done|]. split; [constructor|].
    apply blen_0_nil. by bool_prop.
  - run_step E. apply coerce_Ok_inv in E0. read_inv. rename a into t.
    run_step E. apply coerce_Ok_inv in E0. read_inv. rename a into count.
    run_step E. read_inv. cbv zeta in E.
    match goal with F : is_u16 count |- _ => destruct (ids_len_ok count F) as [Hn Hd]; rename F into Hc end.
    run_step E. read_inv. rewrite Hn in *.
    run_step E. apply coerce_Ok_inv in E0.
    apply skip_inv in E0 as (l & Hu & Hl & Hs'); [|done|unfold is_u16 in *; lia].
    apply IH in E as (ls & Hlen & Hok & Hu'); [|done].
    match goal with F : valid_tunnel t = true |- _ => rename F into Ht end.
    unfold is_u16 in Hc.
    destruct (words_of_bytes (Z.to_nat count) l) as (ids & Hids & Hu32 & ->); [|lia|].
    { match goal with F : unread ?s2 = l ++ _ |- _ =>
        assert (Hb : bytes (unread s2)) by (by apply unread_bytes); rewrite F in Hb end.
      by apply Forall_app in Hb as [? _]. }
    rewrite Z2Nat.id in Hids by lia.
    exists ((t, ids) :: ls). split; [cbn; lia|]. split.
    + apply Forall_cons_2; [|done]. unfold tunnel_list_ok. cbn [fst snd].
      split; [done|]. split; [|done]. bool_prop. unfold UINT16_MAX. lia.
    + cbn [fmap list_fmap concat]. unfold tunnel_list_enc at 1. cbn [fst snd]. rewrite Hids.
      repeat match goal with F : unread ?x = _ |- context [unread ?x] => rewrite F end.
      by rewrite <- !app_assoc.
Qed.

Lemma validate_lists_parsed ls :
  Forall tunnel_list_ok ls ->
  Parses (validate_lists_loop (length ls)) (concat (tunnel_list_enc <$> ls)) [] tt.
Proof.
  induction 1 as [|[t ids] ls (Ht & Hn & Hids) Hls IH]; cbn [length validate_lists_loop fmap list_fmap concat].
  { pstep. by apply parses_require. }
  cbn [fst snd] in *. unfold UINT16_MAX in Hn.
  destruct (ids_len_ok (blen ids) ltac:(unfold is_u16; lia)) as [Hs Hd].
  unfold tunnel_list_enc at 1. cbn [fst snd]. rewrite <- !app_assoc.
  pstep; [by apply parses_read_u32_le, valid_tunnel_u32|].
  pstep; [apply parses_read_u16_le; unfold is_u16; lia|]. pstep; [done|]. cbv zeta.
  rewrite Hd, Hs. pstep. pstep; [apply parses_skip; rewrite blen_concat_le32; lia|]. done.
Qed.

Lemma get_list_parsed before ls l :
  Forall tunnel_list_ok ls -> ls !! before = Some l ->
  exists rest, Parses (get_list_loop before) (concat (tunnel_list_enc <$> ls)) rest (tunnel_list_view l).
Proof.
  intros Hls. revert before. induction Hls as [|[t ids] ls (Ht & Hn & Hids) Hls IH];
    intros before Hl; [done|]. cbn [fst snd] in *. unfold UINT16_MAX in Hn.
  destruct (ids_len_ok (blen ids) ltac:(unfold is_u16; lia)) as [Hs Hd].
  assert (Hstep : forall rest a,
    Parses (match before with
            | O => mret (tunnel_list_view (t, ids))
            | S before => get_list_loop before
            end) (concat (tunnel_list_enc <$> ls)) rest a ->
    Parses (get_list_loop before) (concat (tunnel_list_enc <$> (t, ids) :: ls)) rest a).
  { intros rest a Hk. unfold tunnel_list_view in Hk. cbn [fst snd] in Hk.
    destruct before as [|before]; cbn [get_list_loop fmap list_fmap concat];
      unfold tunnel_list_enc at 1; cbn [fst snd]; rewrite <- !app_assoc;
      (pstep; [by apply parses_read_u32_le, valid_tunnel_u32|]);
      (pstep; [apply parses_read_u16_le; unfold is_u16; lia|]); cbv zeta;
      rewrite Ht, Hd, Hs; pstep;
      (pstep; [apply parses_read_bytes; rewrite blen_concat_le32; lia|]); [|done].
    by rewrite (Z.mul_comm (blen ids)). }
  destruct before as [|before].
  - injection Hl as <-. eexists. apply Hstep, parses_ret.
  - destruct (IH before Hl) as [rest Hr]. eauto.
Qed.

Lemma bytes_tunnel_lists ls : Forall tunnel_list_ok ls -> bytes (concat (tunnel_list_enc <$> ls)).
Proof.
  induction 1 as [|l ls _ _ IH]; [constructor|]. cbn [fmap list_fmap concat].
  unfold tunnel_list_enc at 1. repeat apply Forall_app_2;
    [apply bytes_le32|apply bytes_le16|apply bytes_concat_le32|done].
Qed.

Lemma name_end_ok name rest i :
  Forall (fun c => c <> 0) name -> name_end (name ++ 0 :: rest) i = Some (i + blen name).
Proof.
  intros Hn. revert i. induction Hn as [|c name Hc Hn IH]; intros i; cbn [name_end app].
  - f_equal. rewrite blen_nil. lia.
  - destruct (Z.eqb_spec c 0); [done|]. rewrite IH, blen_cons. f_equal. lia.
Qed.

(** A name found is the bytes before the first zero. *)
Lemma name_end_inv l i j :
  name_end l i = Some j ->
  exists name rest, l = name ++ 0 :: rest /\ Forall (fun c => c <> 0) name /\ j = i + blen name.
Proof.
  revert i. induction l as [|c l IH]; intros i; cbn [name_end]; [done|].
  destruct (Z.eqb_spec c 0) as [->|Hc].
  - intros [= <-]. exists [], l. split; [done|]. split; [constructor|]. rewrite blen_nil. lia.
  - intros E. destruct (IH _ E) as (name & rest & -> & Hn & ->).
    exists (c :: name), rest. split; [done|]. split; [by constructor|]. rewrite blen_cons. lia.
Qed.

Lemma view_guard v l :
  view_bytes v = l -> view_len v = blen l -> negb (view_null v && (0 <? view_len v)) = true.
Proof. intros <- Hl. destruct v; [|done]. cbn in *. by rewrite Hl. Qed.

Lemma nonempty_not_null v l : view_bytes v = l -> 0 < blen l -> view_null v = false.
Proof. intros <- Hl. by destruct v. Qed.

(** ** Properties *)

(** The create exchange: for every channel id its width can hold, every
    priority and every non-empty name without a zero byte, the request the server
    writes (all of it or, when memory runs out, none of it) is parsed to the same
    id, width, priority and name, and so is the response with its status; an id
    that does not fit its width is refused and nothing is written. *)
Theorem dvc_create_roundtrip n id priority v name status :
  0 <= id <= UINT32_MAX -> 0 <= priority <= 3 -> view_bytes v = name -> view_len v = blen name ->
  bytes name -> name <> [] -> Forall (fun c => c <> 0) name -> is_u32 status ->
  let request := pdu_enc RDP_DYNAMIC_CHANNEL_CMD_CREATE priority n id (name ++ [0]) in
  let response := pdu_enc RDP_DYNAMIC_CHANNEL_CMD_CREATE 0 n id (le32 status) in
  (id_fits n id ->
   WritesAtomic (rdp_dynamic_channel_write_create_request id n priority v) request (fun _ => True) /\
   rdp_dynamic_channel_parse_create_request (View request) =
     Ok (mk_dvc_create_request id n priority name) /\
   WritesAtomic (rdp_dynamic_channel_write_create_response id n status) response (fun _ => True) /\
   rdp_dynamic_channel_parse_create_response (View response) = Ok (mk_dvc_create_response id n status)) /\
  (~ id_fits n id ->
   Rejects (rdp_dynamic_channel_write_create_request id n priority v) LIBRDP_STATUS_INVALID_ARGUMENT /\
   Rejects (rdp_dynamic_channel_write_create_response id n status) LIBRDP_STATUS_INVALID_ARGUMENT).
Proof.
  intros Hid Hp Hv Hl Hb Hne Hz Hst request response.
  assert (Hpos : 0 < blen name) by (destruct name; [done|zlen]).
  assert (Hok : forall sp, 0 <= sp <= 3 -> id_fits n id -> header_ok RDP_DYNAMIC_CHANNEL_CMD_CREATE sp n).
  { intros sp Hsp Hf. by apply (header_ok_plain _ _ _ id). }
  assert (Hpri : rdp_dynamic_channel_validate_priority priority = Ok tt).
  { unfold rdp_dynamic_channel_validate_priority. destruct (Z.leb_spec priority 3); [done|lia]. }
  assert (Hg : negb (view_null v || (view_len v =? 0)) = true).
  { rewrite (nonempty_not_null v name), Hl by done. lia. }
  split.
  - intros Hf. pose proof (id_code_range n). split; [|split; [|split]].
    + unfold rdp_dynamic_channel_write_create_request. apply writes_atomic_require; [done|].
      eapply writes_atomic_lift; [done|].
      eapply writes_atomic_lift; [by apply channel_id_code_ok|]. apply writes_atomic. rewrite header_byte_bits by (done || lia).
      apply framed_writes; [done|]. eapply writes_bind; [by apply writes_append_bytes|].
      intros [] _. apply writes_u8.
    + unfold rdp_dynamic_channel_parse_create_request.
      apply (framed_run _ _ n id _ Hf (fun channel_id header =>
        remaining ← rdp_stream_remaining;
        require (negb (remaining =? 0)) LIBRDP_STATUS_PROTOCOL_ERROR;;
        name ← pr (rdp_stream_read_bytes remaining);
        match name_end name 0 with
        | Some i =>
            require (negb (i =? 0)) LIBRDP_STATUS_PROTOCOL_ERROR;;
            mret (mk_dvc_create_request channel_id (dh_channel_id_bytes header)
                    (dh_priority header) (ztake i name))
        | None => fail LIBRDP_STATUS_PROTOCOL_ERROR
        end)); [by apply Hok|solve_bytes|done|].
      rewrite <- (app_nil_r (name ++ [0])). pstep. pstep. pstep; [apply parses_read_bytes; zlen|].
      rewrite name_end_ok by done. pstep.
      rewrite Z.add_0_l, ztake_app_blen. apply parses_ret.
    + unfold rdp_dynamic_channel_write_create_response. 
      eapply writes_atomic_lift; [by apply channel_id_code_ok|]. apply writes_atomic. rewrite header_byte_bits0 by (done || lia).
      apply framed_writes; [done|]. apply writes_u32_le.
    + unfold rdp_dynamic_channel_parse_create_response.
      apply (framed_run _ _ n id _ Hf (fun channel_id header =>
        status_code ← pr rdp_stream_read_u32_le;
        remaining ← rdp_stream_remaining;
        require (remaining =? 0) LIBRDP_STATUS_PROTOCOL_ERROR;;
        mret (mk_dvc_create_response channel_id (dh_channel_id_bytes header) status_code)));
        [apply Hok; [lia|done]|solve_bytes|done|].
      rewrite <- (app_nil_r (le32 status)). pstep; [by apply parses_read_u32_le|]. do 2 pstep. pstep.
  - intros Hf. pose proof (channel_id_code_refused n id Hid Hf) as Hc. split; intros b h Hwf.
    + unfold rdp_dynamic_channel_write_create_request. by rewrite bind_require, Hg, bind_lift, Hpri, bind_lift, Hc.
    + unfold rdp_dynamic_channel_write_create_response. by rewrite bind_lift, Hc.
Qed.

(** The MAX_PDU_SIZE test of the fragment writers. *)
Lemma pdu_size_guard n len k :
  (n = 1 \/ n = 2 \/ n = 4) -> 0 <= len -> 0 <= k ->
  n + k + len + 1 <= RDP_DYNAMIC_CHANNEL_MAX_PDU_SIZE ->
  negb (RDP_DYNAMIC_CHANNEL_MAX_PDU_SIZE <? size_t (1 + n + k + len)) = true.
Proof.
  unfold RDP_DYNAMIC_CHANNEL_MAX_PDU_SIZE, size_t. intros. rewrite Z.mod_small by lia. lia.
Qed.

Lemma length_bytes_range len : 1 <= rdp_dynamic_channel_length_bytes len <= 4.
Proof. unfold rdp_dynamic_channel_length_bytes. repeat case_match; lia. Qed.

(** The size of a fragment on the wire, as the writers count it. *)
Definition fragment_size (n total : Z) (l : list Z) : Z :=
  n + rdp_dynamic_channel_length_bytes total + blen l + 1.

(** The data PDUs: for every channel id its width can hold, the data PDU, the
    first fragment with its total length, and the close PDU are written
    atomically and parsed back to the same id, width, length and bytes (an empty
    payload comes back as NULL). *)
Theorem dvc_data_roundtrip n id priority total v l :
  id_fits n id -> 0 <= priority <= 3 -> view_bytes v = l -> view_len v = blen l -> bytes l ->
  is_u32 total ->
  let sp := rdp_dynamic_channel_length_code (rdp_dynamic_channel_length_bytes total) in
  let data := pdu_enc RDP_DYNAMIC_CHANNEL_CMD_DATA priority n id l in
  let first := pdu_enc RDP_DYNAMIC_CHANNEL_CMD_DATA_FIRST sp n id (length_enc total ++ l) in
  let close := pdu_enc RDP_DYNAMIC_CHANNEL_CMD_CLOSE 0 n id [] in
  (WritesAtomic (rdp_dynamic_channel_write_data_ex id n priority v) data (fun _ => True) /\
   rdp_dynamic_channel_parse_data (View data) = Ok (mk_dvc_data id n (optional_view l))) /\
  (1 <= total -> blen l <= total -> fragment_size n total l <= RDP_DYNAMIC_CHANNEL_MAX_PDU_SIZE ->
   WritesAtomic (rdp_dynamic_channel_write_data_first_ex id n priority total v) first (fun _ => True) /\
   rdp_dynamic_channel_parse_data_first (View first) =
     Ok (mk_dvc_data_first id n total (optional_view l))) /\
  (WritesAtomic (rdp_dynamic_channel_write_close id n) close (fun _ => True) /\
   rdp_dynamic_channel_parse_close (View close) = Ok (mk_dvc_close id n)).
Proof.
  intros Hf Hp Hv Hl Hb Ht sp data first close. pose proof (id_code_range n).
  pose proof (id_fits_width n id Hf). pose proof (blen_nonneg l).
  assert (Hpri : rdp_dynamic_channel_validate_priority priority = Ok tt).
  { unfold rdp_dynamic_channel_validate_priority. destruct (Z.leb_spec priority 3); [done|lia]. }
  pose proof (view_guard v l Hv Hl) as Hg.
  split; [split|split].
  - unfold rdp_dynamic_channel_write_data_ex. apply writes_atomic_require; [done|].
    eapply writes_atomic_lift; [done|]. eapply writes_atomic_lift; [by apply channel_id_code_ok|].
    apply writes_atomic. rewrite header_byte_bits by (done || lia).
    apply framed_writes; [done|]. by apply writes_append_bytes.
  - unfold rdp_dynamic_channel_parse_data.
    apply (framed_run _ _ n id _ Hf (fun channel_id header =>
      data_len ← rdp_stream_remaining; payload ← read_optional data_len;
      mret (mk_dvc_data channel_id (dh_channel_id_bytes header) payload)));
      [by apply (header_ok_plain _ _ _ id)|done|done|].
    pstep. eapply parses_bind; [apply parses_optional|]. apply parses_ret.
  - intros Hpos Hle Hsz. pose proof (length_bytes_range total).
    destruct (length_code_ok RDP_DYNAMIC_CHANNEL_CMD_DATA_FIRST n total id) as (Hok & Hsp & Hlb);
      [by left|done|done|]. fold sp in Hok, Hsp, Hlb. split.
    + unfold rdp_dynamic_channel_write_data_first_ex.
      apply writes_atomic_require; [rewrite Hl in *; destruct (view_null v); cbn in *; lia|].
      eapply writes_atomic_lift; [done|]. eapply writes_atomic_lift; [by apply channel_id_code_ok|].
      cbv zeta. fold sp. unfold fragment_size in Hsz.
      apply writes_atomic_require; [rewrite Hl; apply pdu_size_guard; (done || lia)|].
      apply writes_atomic. rewrite header_byte_bits by (done || lia).
      apply framed_writes; [done|]. eapply writes_bind; [by apply writes_dvc_length|].
      intros [] _. by apply writes_append_bytes.
    + unfold rdp_dynamic_channel_parse_data_first.
      apply (framed_run _ _ n id _ Hf (fun channel_id header =>
        total_length ← pr (rdp_dynamic_channel_read_length (dh_length_bytes header));
        require (negb (total_length =? 0)) LIBRDP_STATUS_PROTOCOL_ERROR;;
        data_len ← rdp_stream_remaining;
        require (negb (total_length <? data_len)) LIBRDP_STATUS_PROTOCOL_ERROR;;
        payload ← read_optional data_len;
        mret (mk_dvc_data_first channel_id (dh_channel_id_bytes header) total_length payload)));
        [done| |done|].
      { apply Forall_app_2; [by apply bytes_id_enc, length_fits|done]. }
      rewrite Hlb. eapply parses_bind; [by apply parses_dvc_length|]. do 3 pstep.
      eapply parses_bind; [apply parses_optional|]. apply parses_ret.
  - split.
    + unfold rdp_dynamic_channel_write_close.
      eapply writes_atomic_lift; [by apply channel_id_code_ok|]. apply writes_atomic.
      rewrite header_byte_bits0 by (done || lia). unfold close, pdu_enc. rewrite app_nil_r.
      wstep. by apply writes_dvc_id.
    + unfold rdp_dynamic_channel_parse_close.
      apply (framed_run _ _ n id _ Hf (fun channel_id header =>
        remaining ← rdp_stream_remaining;
        require (remaining =? 0) LIBRDP_STATUS_PROTOCOL_ERROR;;
        mret (mk_dvc_close channel_id (dh_channel_id_bytes header))));
        [by apply (header_ok_plain _ _ _ id)|constructor|done|].
      do 2 pstep. apply parses_ret.
Qed.

(** The compressed data PDUs: payloads of two bytes or more, alone or as a
    first fragment, that fit the maximum PDU size are written atomically and
    parsed back. *)
Theorem dvc_compressed_roundtrip n id total v l :
  id_fits n id -> view_bytes v = l -> view_len v = blen l -> bytes l -> 2 <= blen l ->
  is_u32 total ->
  let sp := rdp_dynamic_channel_length_code (rdp_dynamic_channel_length_bytes total) in
  let data := pdu_enc RDP_DYNAMIC_CHANNEL_CMD_DATA_COMPRESSED 0 n id l in
  let first := pdu_enc RDP_DYNAMIC_CHANNEL_CMD_DATA_FIRST_COMPRESSED sp n id (length_enc total ++ l) in
  (1 + n + blen l <= RDP_DYNAMIC_CHANNEL_MAX_PDU_SIZE ->
   WritesAtomic (rdp_dynamic_channel_write_compressed_data id n v) data (fun _ => True) /\
   rdp_dynamic_channel_parse_compressed_data (View data) = Ok (mk_dvc_data id n (View l))) /\
  (blen l <= total -> fragment_size n total l <= RDP_DYNAMIC_CHANNEL_MAX_PDU_SIZE ->
   WritesAtomic (rdp_dynamic_channel_write_compressed_data_first id n total v) first (fun _ => True) /\
   rdp_dynamic_channel_parse_compressed_data_first (View first) =
     Ok (mk_dvc_data_first id n total (View l))).
Proof.
  intros Hf Hv Hl Hb Hmin Ht sp data first. pose proof (id_code_range n).
  pose proof (id_fits_width n id Hf).
  assert (Hnull : view_null v = false) by (apply (nonempty_not_null v l); (done || lia)).
  split.
  - intros Hsz. split.
    + unfold rdp_dynamic_channel_write_compressed_data. apply writes_atomic_require.
      { rewrite Hnull, Hl. unfold RDP_DYNAMIC_CHANNEL_MAX_PDU_SIZE, size_t in *.
        rewrite Z.mod_small by lia. lia. }
      eapply writes_atomic_lift; [by apply channel_id_code_ok|]. apply writes_atomic.
      rewrite header_byte_bits0 by (done || lia). apply framed_writes; [done|].
      by apply writes_append_bytes.
    + unfold rdp_dynamic_channel_parse_compressed_data.
      apply (framed_run _ _ n id _ Hf (fun channel_id header =>
        data_len ← rdp_stream_remaining;
        require (negb (data_len <? 2)) LIBRDP_STATUS_PROTOCOL_ERROR;;
        payload ← pr (rdp_stream_read_bytes data_len);
        mret (mk_dvc_data channel_id (dh_channel_id_bytes header) (View payload))));
        [by apply (header_ok_plain _ _ _ id)|done|done|].
      do 2 pstep. rewrite <- (app_nil_r l) at 2. pstep; [by apply parses_read_bytes|].
      apply parses_ret.
  - intros Hle Hsz. pose proof (length_bytes_range total).
    destruct (length_code_ok RDP_DYNAMIC_CHANNEL_CMD_DATA_FIRST_COMPRESSED n total id)
      as (Hok & Hsp & Hlb); [by right|done|done|]. fold sp in Hok, Hsp, Hlb. split.
    + unfold rdp_dynamic_channel_write_compressed_data_first.
      apply writes_atomic_require; [rewrite Hnull, Hl; lia|].
      eapply writes_atomic_lift; [by apply channel_id_code_ok|].
      cbv zeta. fold sp. unfold fragment_size in Hsz.
      apply writes_atomic_require; [rewrite Hl; apply pdu_size_guard; (done || lia)|].
      apply writes_atomic. rewrite header_byte_bits by (done || lia).
      apply framed_writes; [done|]. eapply writes_bind; [by apply writes_dvc_length|].
      intros [] _. by apply writes_append_bytes.
    + unfold rdp_dynamic_channel_parse_compressed_data_first.
      apply (framed_run _ _ n id _ Hf (fun channel_id header =>
        total_length ← pr (rdp_dynamic_channel_read_length (dh_length_bytes header));
        require (negb (total_length =? 0)) LIBRDP_STATUS_PROTOCOL_ERROR;;
        data_len ← rdp_stream_remaining;
        require (negb (data_len <? 2)) LIBRDP_STATUS_PROTOCOL_ERROR;;
        require (negb (total_length <? data_len)) LIBRDP_STATUS_PROTOCOL_ERROR;;
        payload ← pr (rdp_stream_read_bytes data_len);
        mret (mk_dvc_data_first channel_id (dh_channel_id_bytes header) total_length (View payload))));
        [done| |done|].
      { apply Forall_app_2; [by apply bytes_id_enc, length_fits|done]. }
      rewrite Hlb. eapply parses_bind; [by apply parses_dvc_length|]. do 4 pstep.
      rewrite <- (app_nil_r l) at 2. pstep; [by apply parses_read_bytes|]. apply parses_ret.
Qed.

(** The capability exchange: the request of a version 1 server, and of a
    version 2 or 3 server with its four priority charges, and the client's
    response, are written atomically and parsed back; the version the client
    selects is the server's, capped at 3. *)
Theorem dvc_capabilities_roundtrip version c0 c1 c2 c3 :
  1 <= version <= 3 -> Forall is_u16 [c0; c1; c2; c3] ->
  let head := [0x50] ++ [0] ++ le16 version in
  let charges := if 2 <=? version then le16 c0 ++ le16 c1 ++ le16 c2 ++ le16 c3 else [] in
  (WritesAtomic (rdp_dynamic_channel_write_capabilities_request version (Some (c0, c1, c2, c3)))
     (head ++ charges) (fun _ => True) /\
   rdp_dynamic_channel_parse_capabilities (View (head ++ charges)) =
     Ok (mk_dvc_capabilities version (2 <=? version)
           (if 2 <=? version then [c0; c1; c2; c3] else [0; 0; 0; 0]))) /\
  (WritesAtomic (rdp_dynamic_channel_write_capabilities_response version) head (fun _ => True) /\
   rdp_dynamic_channel_parse_capabilities (View head) =
     Ok (mk_dvc_capabilities version false [0; 0; 0; 0])) /\
  forall server, is_u16 server ->
    rdp_dynamic_channel_select_version server = Z.min server 3.
Proof.
  intros Hver Hc head charges. repeat (apply Forall_cons_1 in Hc as [? Hc]).
  assert (Hexp : forall rest accept, accept (pdu_header 5 0 1) = true ->
    parse_expected (View (head ++ rest)) accept = Ok (pdu_header 5 0 1)).
  { intros rest accept Ha. apply (expected_ok 5 0 1 (0 :: le16 version ++ rest)); [|done].
    apply (header_ok_plain _ _ _ 0); unfold id_fits; lia. }
  assert (Hpre : forall (k : Z -> reader rdp_dynamic_channel_capabilities) inp rest a,
    Parses (k version) inp rest a ->
    Parses (pr (rdp_stream_skip 1);; pr rdp_stream_read_u8;; version ← pr rdp_stream_read_u16_le;
            k version) (head ++ inp) rest a).
  { intros k inp rest a Hk. pstep; [by apply (parses_skip 1 [0x50])|].
    pstep; [apply parses_read_u8|]. pstep; [apply parses_read_u16_le; unfold is_u16; lia|]. done. }
  split; [split|split; [split|]].
  - unfold rdp_dynamic_channel_write_capabilities_request.
    apply writes_atomic_require; [rewrite andb_false_r; lia|]. apply writes_atomic.
    unfold head. rewrite <- !app_assoc. do 3 wstep. unfold charges.
    destruct (2 <=? version); [|by apply writes_ret]. cbn [append_charges].
    do 3 wstep. apply writes_app_nil. eapply writes_bind; [apply writes_u16_le|].
    intros [] _. by apply writes_ret.
  - unfold rdp_dynamic_channel_parse_capabilities. rewrite Hexp.
    2: { unfold charges. cbn. by destruct (2 <=? version). }
    cbn [mbind res_bind]. apply (parses_with_stream _ _ []).
    { unfold head, charges. destruct (2 <=? version); solve_bytes. }
    apply Hpre. pstep. pstep. unfold charges. destruct (Z.leb_spec 2 version).
    + apply parses_if_false; [done|]. pstep.
      rewrite <- (app_nil_r (le16 c3)). do 4 (pstep; [by apply parses_read_u16_le|]). apply parses_ret.
    + pstep. apply parses_ret.
  - unfold rdp_dynamic_channel_write_capabilities_response.
    apply writes_atomic_require; [lia|]. apply writes_atomic. do 2 wstep. apply writes_u16_le.
  - unfold rdp_dynamic_channel_parse_capabilities. rewrite <- (app_nil_r head) at 1. rewrite Hexp by reflexivity.
    cbn [mbind res_bind]. apply (parses_with_stream _ _ []); [unfold head; solve_bytes|].
    rewrite <- (app_nil_r head) at 1. apply Hpre. pstep. pstep. destruct (2 <=? version).
    + by apply parses_if_true, parses_ret.
    + pstep. apply parses_ret.
  - unfold rdp_dynamic_channel_select_version, is_u16. intros server Hs.
    destruct (Z.eqb_spec server 0), (Z.ltb_spec 3 server); lia.
Qed.

(** The flags of a request with lists. *)
Lemma soft_sync_flags flags :
  is_u16 flags -> Z.land flags 1 <> 0 -> Z.land flags 2 <> 0 ->
  Z.land flags (u32 (Z.lnot (Z.lor 1 2))) = 0 -> flags = 3.
Proof.
  unfold is_u16. intros Hf H1 H2 H3. change (u32 (Z.lnot (Z.lor 1 2))) with 0xfffffffc in H3.
  assert (E : flags = Z.land flags 3).
  { transitivity (Z.land flags (Z.lor 3 0xfffffffc)).
    - change (Z.lor 3 0xfffffffc) with (2 ^ 32 - 1). rewrite land_mask, Z.mod_small; lia.
    - by rewrite Z.land_lor_distr_r, H3, Z.lor_0_r. }
  rewrite land_0x03 in E. assert (Hc : flags = 0 \/ flags = 1 \/ flags = 2 \/ flags = 3).
  { Z.div_mod_to_equations. lia. }
  by destruct Hc as [->|[->|[->| ->]]].
Qed.

Lemma soft_sync_header_inv d hdr :
  bytes d -> rdp_dynamic_channel_parse_header (View d) = Ok hdr -> dh_raw hdr = 0x80 ->
  exists rest, d = 0x80 :: rest.
Proof.
  intros Hb E Hraw. destruct (header_inv d hdr Hb E) as (c & sp & n & rest & -> & _ & ->).
  unfold pdu_header in Hraw. cbn [dh_raw] in Hraw. rewrite Hraw. eauto.
Qed.

(** The opening of a request with lists, and the rest of the parse. *)
Lemma soft_sync_request_inv d req :
  bytes d -> ss_tunnel_count req <> 0 ->
  rdp_dynamic_channel_parse_soft_sync_request (View d) = Ok req ->
  exists ls, Forall tunnel_list_ok ls /\ 1 <= blen ls <= UINT16_MAX /\
    blen d - 2 <= UINT32_MAX /\
    d = [0x80; 0] ++ le32 (blen d - 2) ++ le16 3 ++ le16 (blen ls) ++ concat (tunnel_list_enc <$> ls) /\
    req = mk_soft_sync_request (blen d - 2) 3 (blen ls) (View (concat (tunnel_list_enc <$> ls))).
Proof.
  intros Hb Hcount H. unfold rdp_dynamic_channel_parse_soft_sync_request, parse_expected in H.
  rewrite ensure_true in H by done.
  destruct (rdp_dynamic_channel_parse_header (View d)) as [hdr| |] eqn:Eh; cbn [mbind res_bind] in H;
    [|discriminate..].
  rewrite ensure_bind in H. destruct (negb _) eqn:Ea in H; [|discriminate].
  cbn [mbind res_bind mret res_ret] in H. cbn [view_len] in *. bool_prop.
  destruct (soft_sync_header_inv d hdr Hb Eh) as [rest0 Hd0]; [done|].
  apply with_view_Ok_inv in H as (s & s' & Hs & Hu & E); [|done].
  run_step E. apply coerce_Ok_inv in E0. apply skip_inv in E0 as (l1 & Hu1 & Hl1 & Hs1); [|done|lia].
  run_step E. apply coerce_Ok_inv in E0. read_inv. rename a0 into pad.
  run_step E. apply coerce_Ok_inv in E0. read_inv. rename a0 into len.
  run_step E. apply coerce_Ok_inv in E0. read_inv. rename a0 into flags.
  run_step E. apply coerce_Ok_inv in E0. read_inv. rename a0 into count.
  run_step E. read_inv. bool_prop. run_step E. read_inv.
  destruct (Z.eqb_spec (Z.land flags RDP_DYNAMIC_CHANNEL_SOFT_SYNC_CHANNEL_LIST_PRESENT) 0).
  { run_step E. read_inv. injection E as <- _. bool_prop. done. }
  run_step E. read_inv. run_step E. apply coerce_Ok_inv in E0.
  apply read_bytes_inv in E0 as (Hu6 & Hl6 & Hs6 & Hb6); [|done|apply blen_nonneg].
  run_step E. read_inv.
  match goal with F : rdp_dynamic_channel_validate_soft_sync_lists (View ?l) _ = _ |- _ =>
    rename F into Hv, l into lists end.
  injection E as <- _. cbn [ss_tunnel_count] in *.
  unfold rdp_dynamic_channel_validate_soft_sync_lists in Hv. rewrite ensure_true in Hv by done.
  apply with_view_Ok_inv in Hv as (s7 & s8 & Hs7 & Hu7 & Hv); [|done].
  apply validate_lists_inv in Hv as (ls & Hlen & Hok & Hls); [|done]. rewrite Hu7 in Hls.
  assert (Hc : count = blen ls) by (unfold blen, is_u16 in *; lia).
  assert (Hflags : flags = 3) by (by apply soft_sync_flags).
  assert (Hl1' : l1 = [0x80]).
  { destruct l1 as [|x [|y l1]]; [zlen| |zlen]. rewrite Hu, Hd0 in Hu1. by injection Hu1 as ->. }
  match type of Hu6 with unread _ = _ ++ unread ?e => assert (Hend : unread e = []) end.
  { rewrite Hu6, blen_app in Hl6. apply blen_0_nil. lia. }
  assert (Hne : blen ls <> 0 /\ is_u16 (blen ls)) by (by rewrite <- Hc).
  pose proof (blen_nonneg ls). unfold is_u16, is_u32, UINT16_MAX, UINT32_MAX in *.
  exists ls. split; [done|]. split; [lia|]. split; [lia|]. split.
  - rewrite <- Hu at 1. rewrite Hu1, Hl1'.
    repeat match goal with F : unread ?x = _ |- context [unread ?x] => rewrite F end.
    rewrite app_nil_r, <- Hls. simplify_eq. done.
  - by rewrite <- Hls, <- Hc; simplify_eq.
Qed.

(** C32: the soft-sync request: the parser accepts a request with channel lists
    exactly when it is the header, the length and flags, and between 1 and 65535
    well-formed lists that fill it to the end. *)
Theorem dvc_soft_sync_request_iff d req :
  bytes d -> ss_tunnel_count req <> 0 ->
  rdp_dynamic_channel_parse_soft_sync_request (View d) = Ok req <->
  exists ls, Forall tunnel_list_ok ls /\ 1 <= blen ls <= UINT16_MAX /\
    blen d - 2 <= UINT32_MAX /\
    d = [0x80; 0] ++ le32 (blen d - 2) ++ le16 3 ++ le16 (blen ls) ++ concat (tunnel_list_enc <$> ls) /\
    req = mk_soft_sync_request (blen d - 2) 3 (blen ls) (View (concat (tunnel_list_enc <$> ls))).
Proof.
  intros Hb Hcount. split; [by apply soft_sync_request_inv|].
  intros (ls & Hok & Hn & Hmax & Hd & ->). unfold UINT16_MAX, UINT32_MAX in *.
  set (body := concat (tunnel_list_enc <$> ls)) in *. set (len := blen d - 2) in *.
  assert (Hlen : blen d = 10 + blen body) by (rewrite Hd; zlen).
  assert (Hbody : 0 < blen body).
  { unfold body. destruct ls as [|l ls]; [done|]. cbn [fmap list_fmap concat].
    unfold tunnel_list_enc at 1. zlen. }
  unfold rdp_dynamic_channel_parse_soft_sync_request.
  assert (He : forall accept, accept (pdu_header 8 0 1) = true ->
    parse_expected (View d) accept = Ok (pdu_header 8 0 1)).
  { intros accept Ha. rewrite Hd. apply (expected_ok 8 0 1); [|done].
    apply (header_ok_plain _ _ _ 0); unfold id_fits; lia. }
  rewrite He by (change (negb (blen d <? 10) = true); lia). cbn [mbind res_bind view_len].
  apply (parses_with_stream _ _ []); [done|]. fold len.
  assert (Hlr : is_u32 len) by (unfold is_u32, len in *; lia).
  clearbody len. rewrite Hd.
  pstep; [by apply (parses_skip 1 [0x80])|]. cbn [app]. pstep; [apply parses_read_u8|].
  pstep; [by apply parses_read_u32_le|].
  pstep; [apply parses_read_u16_le; by unfold is_u16|].
  pstep; [apply parses_read_u16_le; unfold is_u16; lia|].
  pstep; [by rewrite !Z.eqb_refl|]. pstep. apply parses_if_false; [done|]. pstep.
  rewrite <- (app_nil_r body) at 2. pstep; [by apply parses_read_bytes|].
  pstep; [|apply parses_ret].
  unfold rdp_dynamic_channel_validate_soft_sync_lists. rewrite ensure_true by done.
  apply (parses_with_stream _ _ []); [by apply bytes_tunnel_lists|].
  replace (Z.to_nat (blen ls)) with (length ls) by (unfold blen; lia).
  by apply validate_lists_parsed.
Qed.

(** The accessors of a parsed soft-sync request: list [i] of the request and
    id [j] of that list are returned, every other index is refused. *)
Theorem dvc_soft_sync_access req ls :
  Forall tunnel_list_ok ls ->
  ss_tunnel_count req = blen ls -> ss_lists req = View (concat (tunnel_list_enc <$> ls)) ->
  (forall i l, is_u16 i -> ls !! Z.to_nat i = Some l ->
     rdp_dynamic_channel_soft_sync_request_get_list req i = Ok (tunnel_list_view l) /\
     (forall j id, is_u16 j -> l.2 !! Z.to_nat j = Some id ->
        rdp_dynamic_channel_soft_sync_channel_list_get_id (tunnel_list_view l) j = Ok id) /\
     (forall j, blen l.2 <= j ->
        rdp_dynamic_channel_soft_sync_channel_list_get_id (tunnel_list_view l) j =
          Err LIBRDP_STATUS_INVALID_ARGUMENT)) /\
  (forall i, blen ls <= i ->
     rdp_dynamic_channel_soft_sync_request_get_list req i = Err LIBRDP_STATUS_INVALID_ARGUMENT).
Proof.
  intros Hok Hc Hv. split.
  - intros i l Hi Hl. pose proof (lookup_lt_Some _ _ _ Hl) as Hlt. unfold is_u16 in Hi.
    assert (Hlok : tunnel_list_ok l) by (by eapply Forall_lookup_1).
    destruct Hlok as (Ht & Hn & Hids). unfold UINT16_MAX in Hn.
    destruct (ids_len_ok (blen l.2) ltac:(unfold is_u16; lia)) as [Hs Hd].
    split; [|split].
    + unfold rdp_dynamic_channel_soft_sync_request_get_list. rewrite Hc, Hv.
      rewrite ensure_true by (unfold blen; lia).
      destruct (get_list_parsed (Z.to_nat i) ls l Hok Hl) as [rest Hp].
      apply (parses_with_stream _ _ rest); [by apply bytes_tunnel_lists|done].
    + intros j id Hj Hid. pose proof (lookup_lt_Some _ _ _ Hid). unfold is_u16 in Hj.
      unfold rdp_dynamic_channel_soft_sync_channel_list_get_id, tunnel_list_view.
      cbn [sl_channel_count sl_channel_ids_len sl_channel_ids].
      rewrite ensure_true by (rewrite Hs; unfold blen in *; lia).
      rewrite (rd_le32_entry l.2 j id (fun p0 p1 p2 p3 => mret (val32 p0 p1 p2 p3))) by (done || lia).
      rewrite val32_le32; [done|]. by eapply Forall_lookup_1.
    + intros j Hj. unfold rdp_dynamic_channel_soft_sync_channel_list_get_id, tunnel_list_view.
      cbn [sl_channel_count]. rewrite ensure_bind. destruct (Z.leb_spec (blen l.2) j); [done|lia].
  - intros i Hi. unfold rdp_dynamic_channel_soft_sync_request_get_list. rewrite Hc, ensure_bind.
    destruct (Z.leb_spec (blen ls) i); [done|lia].
Qed.

(** The soft-sync response: the response for any list of valid tunnel types
    (up to 2^32 - 1 of them) is written atomically and parsed back; the accessor
    returns every tunnel of it and refuses every other index; a list with an
    invalid tunnel type is refused and nothing is written. *)
Theorem dvc_soft_sync_response_roundtrip ts :
  blen ts <= UINT32_MAX ->
  let packet := [0x90] ++ [0] ++ le32 (blen ts) ++ concat (le32 <$> ts) in
  let response := mk_soft_sync_response (blen ts) (concat (le32 <$> ts)) (4 * blen ts) in
  (forallb valid_tunnel ts = true ->
   WritesAtomic (rdp_dynamic_channel_write_soft_sync_response ts) packet (fun _ => True) /\
   rdp_dynamic_channel_parse_soft_sync_response (View packet) = Ok response /\
   (forall i t, is_u32 i -> ts !! Z.to_nat i = Some t ->
      rdp_dynamic_channel_soft_sync_response_get_tunnel response i = Ok t) /\
   (forall i, blen ts <= i ->
      rdp_dynamic_channel_soft_sync_response_get_tunnel response i =
        Err LIBRDP_STATUS_INVALID_ARGUMENT)) /\
  (forallb valid_tunnel ts = false ->
   Rejects (rdp_dynamic_channel_write_soft_sync_response ts) LIBRDP_STATUS_INVALID_ARGUMENT).
Proof.
  intros Hmax packet response. pose proof (blen_nonneg ts). unfold UINT32_MAX in Hmax.
  assert (Hsz : size_t (blen ts * 4) = 4 * blen ts).
  { unfold size_t. rewrite Z.mod_small; lia. }
  split; [|by apply rejects_require]. intros Hts.
  split; [|split; [|split]].
  - unfold rdp_dynamic_channel_write_soft_sync_response. apply writes_atomic_require; [done|].
    apply writes_atomic. do 3 wstep. apply append_tunnels_written.
  - unfold rdp_dynamic_channel_parse_soft_sync_response.
    assert (He : forall accept, accept (pdu_header 9 0 1) = true ->
      parse_expected (View packet) accept = Ok (pdu_header 9 0 1)).
    { intros accept Ha. apply (expected_ok 9 0 1); [|done].
      apply (header_ok_plain _ _ _ 0); unfold id_fits; lia. }
    assert (Hlen : blen packet = 6 + 4 * blen ts).
    { unfold packet. pose proof (blen_concat_le32 ts). zlen. }
    rewrite He by (change (negb (blen packet <? 6) = true); lia).
    cbn [mbind res_bind]. apply (parses_with_stream _ _ []).
    { unfold packet. repeat apply Forall_app_2; try apply bytes_concat_le32; solve_bytes. }
    unfold packet. pstep; [by apply (parses_skip 1 [0x90])|]. cbn [app].
    pstep; [apply parses_read_u8|]. pstep; [apply parses_read_u32_le; unfold is_u32; lia|].
    pstep. rewrite blen_concat_le32, Hsz. pstep.
    rewrite <- (app_nil_r (concat _)) at 1.
    pstep; [apply parses_read_bytes, blen_concat_le32|].
    pstep; [|apply parses_ret]. apply parses_lift.
    unfold rdp_dynamic_channel_validate_soft_sync_tunnels. rewrite ensure_true by done.
    cbn [mbind res_bind view_len]. rewrite blen_concat_le32, Hsz, ensure_true by apply Z.eqb_refl.
    apply (parses_with_stream _ _ []); [apply bytes_concat_le32|].
    replace (Z.to_nat (blen ts)) with (length ts) by (unfold blen; lia). by apply tunnels_parsed.
  - intros i t Hi Ht. pose proof (lookup_lt_Some _ _ _ Ht). unfold is_u32 in Hi.
    unfold rdp_dynamic_channel_soft_sync_response_get_tunnel, response.
    cbn [sr_tunnel_count sr_tunnel_types_len sr_tunnel_types].
    rewrite ensure_true by (rewrite Hsz; unfold blen in *; lia).
    assert (Hall : Forall is_u32 ts /\ valid_tunnel t = true).
    { rewrite forallb_forall in Hts. split.
      - apply list.Forall_forall. intros x Hx. apply valid_tunnel_u32, Hts. by apply list_elem_of_In.
      - apply Hts, list_elem_of_In. by eapply list_elem_of_lookup_2. }
    destruct Hall as [Hu Hv].
    rewrite (rd_le32_entry ts i t (fun p0 p1 p2 p3 =>
      let parsed := val32 p0 p1 p2 p3 in
      ensure (valid_tunnel parsed) LIBRDP_STATUS_PROTOCOL_ERROR;; mret parsed)) by (done || lia).
    cbv zeta. rewrite val32_le32 by (by apply valid_tunnel_u32). by rewrite ensure_true.
  - intros i Hi. unfold rdp_dynamic_channel_soft_sync_response_get_tunnel, response.
    cbn [sr_tunnel_count]. rewrite ensure_bind. destruct (Z.leb_spec (blen ts) i); [done|lia].
Qed.

#[export] Instance safe_validate_lists tunnels : Safe (validate_lists_loop tunnels) (fun _ => True).
Proof.
  induction tunnels as [|tunnels IH]; cbn [validate_lists_loop]; repeat safe_step.
  - eapply safe_weaken; [apply safe_require|done].
  - eapply safe_bind; [apply safe_coerce, safe_skip|intros _ _; apply IH].
    unfold size_t. apply Z.mod_pos_bound. lia.
Qed.
#[export] Instance safe_validate_tunnels tunnels : Safe (validate_tunnels_loop tunnels) (fun _ => True).
Proof.
  induction tunnels as [|tunnels IH]; cbn [validate_tunnels_loop]; repeat safe_step.
  - eapply safe_weaken; [apply safe_require|done].
  - apply IH.
Qed.
#[export] Instance safe_skip_1 : Safe (rdp_stream_skip 1) (fun _ => True).
Proof. by apply safe_skip. Qed.

Lemma safe_pr_bytes n :
  0 <= n -> Safe (pr (rdp_stream_read_bytes n)) (fun l => blen l = n /\ bytes l).
Proof. intros. by apply safe_coerce, safe_read_bytes. Qed.

(** Walk through a parser body whose block reads are guarded by [remaining]. *)
Ltac dvc_safe :=
  repeat first
    [ safe_step
    | eapply safe_bind; [apply safe_pr_bytes; cbv beta in *; lia|intros ? [? ?]]
    | match goal with |- Safe (match ?o with _ => _ end) _ => destruct o end ].

Lemma lists_safe l n :
  bytes l -> rdp_dynamic_channel_validate_soft_sync_lists (View l) n <> Fault.
Proof.
  intros Hb. unfold rdp_dynamic_channel_validate_soft_sync_lists. rewrite ensure_true by done.
  by apply with_stream_safe with (fun _ => True); [apply _|].
Qed.
Lemma tunnels_safe l n :
  bytes l -> rdp_dynamic_channel_validate_soft_sync_tunnels (View l) n <> Fault.
Proof.
  intros Hb. unfold rdp_dynamic_channel_validate_soft_sync_tunnels. rewrite ensure_true by done.
  cbn [mbind res_bind]. rewrite ensure_bind. case_match; [|done].
  by apply with_stream_safe with (fun _ => True); [apply _|].
Qed.

(** What the parsers of the data PDUs and of the requests return. *)
Section parsed.
Context (d : list Z) (Hb : bytes d).

Lemma expected_inv accept hdr : parse_expected (View d) accept = Ok hdr ->
  0 <= dh_priority hdr <= 3 /\ accept hdr = true.
Proof.
  unfold parse_expected. rewrite ensure_true by done.
  destruct (rdp_dynamic_channel_parse_header (View d)) as [h| |] eqn:E; cbn [mbind res_bind]; [|done..].
  rewrite ensure_bind. destruct (accept h) eqn:Ea; [|done]. intros [= <-]. split; [|done].
  destruct (header_inv d h Hb E) as (c & sp & n & rest & _ & (_ & Hs & _) & ->). exact Hs.
Qed.

Lemma data_parsed pdu : rdp_dynamic_channel_parse_data (View d) = Ok pdu ->
  id_fits (dd_channel_id_bytes pdu) (dd_channel_id pdu) /\ exists l, dd_data pdu = optional_view l /\ bytes l.
Proof.
  unfold rdp_dynamic_channel_parse_data. destruct (parse_expected _ _) as [hdr| |]; cbn [mbind res_bind]; [|done..].
  revert pdu. apply with_stream_safe; [|done]. safe_step. eapply safe_bind; [apply safe_coerce, safe_dvc_id_fits|]. intros id Hid.
  safe_step. safe_step. apply safe_ret. split; [done|]. naive_solver.
Qed.
Lemma data_first_parsed pdu : rdp_dynamic_channel_parse_data_first (View d) = Ok pdu ->
  id_fits (df_channel_id_bytes pdu) (df_channel_id pdu) /\ is_u32 (df_total_length pdu) /\ 0 < df_total_length pdu /\
  exists l, df_data pdu = optional_view l /\ bytes l /\ blen l <= df_total_length pdu.
Proof.
  unfold rdp_dynamic_channel_parse_data_first. destruct (parse_expected _ _) as [hdr| |]; cbn [mbind res_bind]; [|done..].
  revert pdu. apply with_stream_safe; [|done]. safe_step. eapply safe_bind; [apply safe_coerce, safe_dvc_id_fits|]. intros id Hid.
  repeat safe_step. cbv beta in *. bool_prop. unfold is_u32 in *. cbn. split; [done|]. split; [lia|]. split; [lia|].
  destruct_and?. match goal with H : exists l, _ |- _ => destruct H as (l & -> & Hl & Hlen) end. exists l. split; [done|]. split; [done|].
  rewrite Hlen; lia.
Qed.
Lemma create_request_parsed request : rdp_dynamic_channel_parse_create_request (View d) = Ok request ->
  id_fits (dcr_channel_id_bytes request) (dcr_channel_id request) /\ 0 <= dcr_priority request <= 3.
Proof.
  unfold rdp_dynamic_channel_parse_create_request. destruct (parse_expected _ _) as [hdr| |] eqn:E; cbn [mbind res_bind]; [|done..].
  apply expected_inv in E as [Hp _].
  revert request. apply with_stream_safe; [|done]. safe_step. eapply safe_bind; [apply safe_coerce, safe_dvc_id_fits|]. intros id Hid.
  safe_step. safe_step. eapply safe_bind; [apply safe_pr_bytes; cbv beta in *; lia|]. intros name _.
  destruct (name_end name 0) as [i|]; [|apply _]. safe_step. by apply safe_ret.
Qed.
End parsed.

(** Memory safety of every dynamic-channel parser: on any bytes, none reads
    outside them, whatever lengths, counts and names the PDU claims. *)
Theorem dvc_parsers_safe d :
  bytes d ->
  rdp_dynamic_channel_parse_header (View d) <> Fault /\
  rdp_dynamic_channel_parse_capabilities (View d) <> Fault /\
  rdp_dynamic_channel_parse_create_request (View d) <> Fault /\
  rdp_dynamic_channel_parse_create_response (View d) <> Fault /\
  rdp_dynamic_channel_parse_data (View d) <> Fault /\
  rdp_dynamic_channel_parse_data_first (View d) <> Fault /\
  rdp_dynamic_channel_parse_close (View d) <> Fault /\
  rdp_dynamic_channel_parse_compressed_data (View d) <> Fault /\
  rdp_dynamic_channel_parse_compressed_data_first (View d) <> Fault /\
  rdp_dynamic_channel_parse_soft_sync_request (View d) <> Fault /\
  rdp_dynamic_channel_parse_soft_sync_response (View d) <> Fault.
Proof.
  intros Hb. split; [by apply header_safe|].
  assert (Hrun : forall A (r : rdp_dynamic_channel_header -> reader A) accept,
    (forall hdr, Safe (r hdr) (fun _ => True)) ->
    (header ← parse_expected (View d) accept; with_stream (View d) (r header)) <> Fault).
  { intros A r accept Hr. apply expected_safe; [done|]. intros hdr _ _.
    by apply with_stream_safe with (fun _ => True). }
  repeat match goal with |- _ /\ _ => split end; apply Hrun; intros hdr; dvc_safe; try done;
    try (eapply safe_weaken; [apply safe_require|done]).
  - by apply lists_safe.
  - eapply (safe_bind _ _ (fun _ => True)); [|by intros; apply safe_ret].
    apply safe_coerce, safe_lift; [by apply tunnels_safe|done].
Qed.

Lemma dvc_create_roundtrip_witness :
  rdp_dynamic_channel_parse_create_request
    (View (pdu_enc RDP_DYNAMIC_CHANNEL_CMD_CREATE 2 2 300 ([0x65; 0x63; 0x68; 0x6f] ++ [0]))) =
  Ok (mk_dvc_create_request 300 2 2 [0x65; 0x63; 0x68; 0x6f]).
Proof.
  apply (dvc_create_roundtrip 2 300 2 (View [0x65; 0x63; 0x68; 0x6f]) [0x65; 0x63; 0x68; 0x6f] 0).
  - split; vm_compute; discriminate.
  - lia.
  - reflexivity.
  - reflexivity.
  - by_evaluation.
  - discriminate.
  - by_evaluation.
  - by_evaluation.
  - right. left. split; [reflexivity|lia].
Defined.

Lemma dvc_data_roundtrip_witness :
  rdp_dynamic_channel_parse_data_first
    (View (pdu_enc RDP_DYNAMIC_CHANNEL_CMD_DATA_FIRST 1 1 7 (length_enc 5000 ++ [1; 2; 3]))) =
  Ok (mk_dvc_data_first 7 1 5000 (View [1; 2; 3])).
Proof.
  apply (dvc_data_roundtrip 1 7 0 5000 (View [1; 2; 3]) [1; 2; 3]).
  - left. split; [reflexivity|lia].
  - lia.
  - reflexivity.
  - reflexivity.
  - by_evaluation.
  - by_evaluation.
  - lia.
  - vm_compute. discriminate.
  - vm_compute. discriminate.
Defined.

Lemma dvc_compressed_roundtrip_witness :
  rdp_dynamic_channel_parse_compressed_data
    (View (pdu_enc RDP_DYNAMIC_CHANNEL_CMD_DATA_COMPRESSED 0 4 70000 [0xe0; 4; 9])) =
  Ok (mk_dvc_data 70000 4 (View [0xe0; 4; 9])).
Proof.
  apply (dvc_compressed_roundtrip 4 70000 3 (View [0xe0; 4; 9]) [0xe0; 4; 9]).
  - right. right. split; [reflexivity|]. split; vm_compute; discriminate.
  - reflexivity.
  - reflexivity.
  - by_evaluation.
  - vm_compute. discriminate.
  - by_evaluation.
  - vm_compute. discriminate.
Defined.

Lemma dvc_capabilities_roundtrip_witness :
  rdp_dynamic_channel_parse_capabilities (View [0x50; 0; 2; 0; 0xa8; 3; 0xcc; 0x0c; 0x92; 0x24; 0x55; 0x55]) =
    Ok (mk_dvc_capabilities 2 true [936; 3276; 9362; 21845]).
Proof.
  apply (dvc_capabilities_roundtrip 2 936 3276 9362 21845).
  - lia.
  - by_evaluation.
Defined.

Definition sample_soft_sync : list Z :=
  [0x80; 0; 22; 0; 0; 0; 3; 0; 1; 0; 1; 0; 0; 0; 2; 0; 7; 0; 0; 0; 9; 0; 0; 0].
Definition sample_lists : list (Z * list Z) := [(1, [7; 9])].

Lemma sample_lists_ok : Forall tunnel_list_ok sample_lists.
Proof.
  apply Forall_cons_2; [|apply Forall_nil_2]. split; [reflexivity|].
  split; [split; vm_compute; discriminate|by_evaluation].
Qed.

Lemma dvc_soft_sync_request_iff_witness :
  rdp_dynamic_channel_parse_soft_sync_request (View sample_soft_sync) =
    Ok (mk_soft_sync_request 22 3 1 (View (concat (tunnel_list_enc <$> sample_lists)))).
Proof.
  apply (dvc_soft_sync_request_iff sample_soft_sync); [by_evaluation|discriminate|].
  exists sample_lists. split; [apply sample_lists_ok|].
  split; [split; vm_compute; discriminate|]. split; [vm_compute; discriminate|].
  split; vm_compute; reflexivity.
Defined.

Lemma dvc_soft_sync_access_witness :
  rdp_dynamic_channel_soft_sync_channel_list_get_id (tunnel_list_view (1, [7; 9])) 1 = Ok 9.
Proof.
  destruct (dvc_soft_sync_access
    (mk_soft_sync_request 22 3 1 (View (concat (tunnel_list_enc <$> sample_lists)))) sample_lists)
    as [H _]; [apply sample_lists_ok|reflexivity|reflexivity|].
  destruct (H 0 (1, [7; 9])) as (_ & Hid & _); [by_evaluation|reflexivity|].
  apply Hid; [by_evaluation|reflexivity].
Defined.

Lemma dvc_soft_sync_response_roundtrip_witness :
  rdp_dynamic_channel_parse_soft_sync_response (View [0x90; 0; 2; 0; 0; 0; 1; 0; 0; 0; 3; 0; 0; 0]) =
    Ok (mk_soft_sync_response 2 [1; 0; 0; 0; 3; 0; 0; 0] 8).
Proof.
  apply (dvc_soft_sync_response_roundtrip [1; 3]); [vm_compute; discriminate|reflexivity].
Defined.

Lemma dvc_parsers_safe_witness :
  rdp_dynamic_channel_parse_soft_sync_request (View sample_soft_sync) <> Fault.
Proof. apply (dvc_parsers_safe sample_soft_sync). by_evaluation. Defined.
