(* ===== verification/Udp.v ===== *)
(** * Udp: the headers of the UDP transport

    Models the first half of [src/src/transport/udp_transport.c]: the headers
    and payloads of RDP-UDP version 1 (the FEC headers, the SYN data and its
    extension, the correlation id, the ACK vector and its run-length entries).
    Every structure discharges the interface of [Codec]. *)

From S2P Require Import Prelude Stream Buffer Codec.

Definition RDP_UDP_KNOWN_FLAGS : Z := 0x1fff.
Definition RDP_UDP_FEC_HEADER_LENGTH : Z := 8.
Definition RDP_UDP_FEC_PAYLOAD_HEADER_LENGTH : Z := 12.
Definition RDP_UDP_SOURCE_PAYLOAD_HEADER_LENGTH : Z := 8.
Definition RDP_UDP_SYN_DATA_LENGTH : Z := 8.
Definition RDP_UDP_ACK_OF_ACK_VECTOR_LENGTH : Z := 4.
Definition RDP_UDP_CORRELATION_ID_LENGTH : Z := 32.
Definition RDP_UDP_SYN_DATA_EX_BASE_LENGTH : Z := 4.
Definition RDP_UDP_SYN_DATA_EX_COOKIE_LENGTH : Z := 36.

Definition RDP_UDP_PROTOCOL_VERSION_1 : Z := 0x0001.
Definition RDP_UDP_PROTOCOL_VERSION_2 : Z := 0x0002.
Definition RDP_UDP_PROTOCOL_VERSION_3 : Z := 0x0101.
Definition RDP_UDP_SYNEX_VERSION_INFO_VALID : Z := 0x0001.
Definition RDP_UDP_ACK_VECTOR_MAX_SIZE : Z := 2048.
Definition RDP_UDP_MIN_MTU : Z := 1132.
Definition RDP_UDP_MAX_MTU : Z := 1232.
Definition RDP_UDP_ACK_VECTOR_STATE_RECEIVED : Z := 0x00.
Definition RDP_UDP_ACK_VECTOR_STATE_PENDING : Z := 0x03.

Record rdp_udp_fec_header := mk_fec_header {
  fec_source_ack : Z;
  fec_receive_window_size : Z;
  fec_flags : Z;
}.
Record rdp_udp_fec_payload_header := mk_fec_payload_header {
  fp_coded_sequence : Z;
  fp_source_start : Z;
  fp_range : Z;
  fp_fec_index : Z;
  fp_padding : Z;
}.
Record rdp_udp_payload_prefix := mk_payload_prefix { pp_payload_size : Z }.
Record rdp_udp_source_payload_header := mk_source_payload_header {
  sp_coded_sequence : Z;
  sp_source_start : Z;
}.
Record rdp_udp_syn_data := mk_syn_data {
  syn_initial_sequence_number : Z;
  syn_upstream_mtu : Z;
  syn_downstream_mtu : Z;
}.
Record rdp_udp_ack_of_ack_vector := mk_ack_of_ack_vector { aoa_reset_sequence_number : Z }.
(** [vector] is NULL or points to the bytes. *)
Record rdp_udp_ack_vector := mk_ack_vector {
  av_size : Z;
  av_vector : option (list Z);
  av_padding_len : Z;
}.
Record rdp_udp_ack_vector_entry := mk_ack_vector_entry {
  ave_state : Z;
  ave_run_length : Z;
}.
Record rdp_udp_correlation_id := mk_correlation_id {
  cid_correlation_id : list Z;
  cid_reserved : list Z;
}.
Record rdp_udp_syn_data_ex := mk_syn_data_ex {
  sx_flags : Z;
  sx_udp_version : Z;
  sx_has_cookie_hash : bool;
  sx_cookie_hash : list Z;
}.

(** [if (call != LIBRDP_STATUS_OK ...) return LIBRDP_STATUS_PROTOCOL_ERROR;] *)
Abbreviation pr := (coerce LIBRDP_STATUS_PROTOCOL_ERROR).

(** ** Helpers *)

Definition rdp_udp_valid_flags (flags : Z) : bool :=
  Z.land flags (u32 (Z.lnot RDP_UDP_KNOWN_FLAGS)) =? 0.

Definition rdp_udp_valid_mtu (mtu : Z) : bool :=
  (RDP_UDP_MIN_MTU <=? mtu) && (mtu <=? RDP_UDP_MAX_MTU).

(** [rdp_udp_read_u24_le], on the bytes behind the pointer. *)
Definition rdp_udp_read_u24_le (data : list Z) : res Z :=
  p0 ← rd data 0; p1 ← rd data 1; p2 ← rd data 2; mret (val24 p0 p1 p2).

Definition rdp_udp_append_u24_le (value : Z) : writer unit :=
  require (negb (0x00ffffff <? value)) LIBRDP_STATUS_INVALID_ARGUMENT;;
  rdp_buffer_append (View (le24 value)).

(** [rdp_udp_restore_on_error(buffer, start, status)]. *)
Definition rdp_udp_restore_on_error {A} (m : writer A) : writer A := restore_on_error m.

(** ** FEC headers *)

Definition rdp_udp_parse_fec_header (data : view) : res rdp_udp_fec_header :=
  ensure (negb (view_null data)) LIBRDP_STATUS_INVALID_ARGUMENT;;
  ensure (negb (view_len data <? RDP_UDP_FEC_HEADER_LENGTH)) LIBRDP_STATUS_PROTOCOL_ERROR;;
  with_stream data (
    source_ack ← pr rdp_stream_read_u32_le;
    receive_window_size ← pr rdp_stream_read_u16_le;
    flags ← pr rdp_stream_read_u16_le;
    require (rdp_udp_valid_flags flags) LIBRDP_STATUS_PROTOCOL_ERROR;;
    mret (mk_fec_header source_ack receive_window_size flags)).

Definition rdp_udp_write_fec_header (header : rdp_udp_fec_header) : writer unit :=
  require (rdp_udp_valid_flags (fec_flags header)) LIBRDP_STATUS_INVALID_ARGUMENT;;
  rdp_udp_restore_on_error (
    rdp_buffer_append_u32_le (fec_source_ack header);;
    rdp_buffer_append_u16_le (fec_receive_window_size header);;
    rdp_buffer_append_u16_le (fec_flags header)).

Definition rdp_udp_parse_fec_payload_header (data : view) : res rdp_udp_fec_payload_header :=
  ensure (negb (view_null data)) LIBRDP_STATUS_INVALID_ARGUMENT;;
  ensure (negb (view_len data <? RDP_UDP_FEC_PAYLOAD_HEADER_LENGTH)) LIBRDP_STATUS_PROTOCOL_ERROR;;
  with_stream data (
    coded_sequence ← pr rdp_stream_read_u32_le;
    source_start ← pr rdp_stream_read_u32_le;
    range ← pr rdp_stream_read_u8;
    fec_index ← pr rdp_stream_read_u8;
    padding ← pr rdp_stream_read_u16_le;
    require (padding =? 0) LIBRDP_STATUS_PROTOCOL_ERROR;;
    mret (mk_fec_payload_header coded_sequence source_start range fec_index padding)).

Definition rdp_udp_write_fec_payload_header (header : rdp_udp_fec_payload_header) : writer unit :=
  require (fp_padding header =? 0) LIBRDP_STATUS_INVALID_ARGUMENT;;
  rdp_udp_restore_on_error (
    rdp_buffer_append_u32_le (fp_coded_sequence header);;
    rdp_buffer_append_u32_le (fp_source_start header);;
    rdp_buffer_append_u8 (fp_range header);;
    rdp_buffer_append_u8 (fp_fec_index header);;
    rdp_buffer_append_u16_le (fp_padding header)).

Definition rdp_udp_parse_payload_prefix (data : view) : res rdp_udp_payload_prefix :=
  ensure (negb (view_null data)) LIBRDP_STATUS_INVALID_ARGUMENT;;
  ensure (negb (view_len data <? 2)) LIBRDP_STATUS_PROTOCOL_ERROR;;
  with_stream data (
    payload_size ← pr rdp_stream_read_u16_le;
    mret (mk_payload_prefix payload_size)).

Definition rdp_udp_write_payload_prefix (payload_size : Z) : writer unit :=
  rdp_udp_restore_on_error (rdp_buffer_append_u16_le payload_size).

Definition rdp_udp_parse_source_payload_header (data : view) : res rdp_udp_source_payload_header :=
  ensure (negb (view_null data)) LIBRDP_STATUS_INVALID_ARGUMENT;;
  ensure (negb (view_len data <? RDP_UDP_SOURCE_PAYLOAD_HEADER_LENGTH)) LIBRDP_STATUS_PROTOCOL_ERROR;;
  with_stream data (
    coded_sequence ← pr rdp_stream_read_u32_le;
    source_start ← pr rdp_stream_read_u32_le;
    mret (mk_source_payload_header coded_sequence source_start)).

Definition rdp_udp_write_source_payload_header (header : rdp_udp_source_payload_header) :
    writer unit :=
  rdp_udp_restore_on_error (
    rdp_buffer_append_u32_le (sp_coded_sequence header);;
    rdp_buffer_append_u32_le (sp_source_start header)).

(** ** SYN data *)

Definition rdp_udp_parse_syn_data (data : view) : res rdp_udp_syn_data :=
  ensure (negb (view_null data)) LIBRDP_STATUS_INVALID_ARGUMENT;;
  ensure (negb (view_len data <? RDP_UDP_SYN_DATA_LENGTH)) LIBRDP_STATUS_PROTOCOL_ERROR;;
  with_stream data (
    initial_sequence_number ← pr rdp_stream_read_u32_le;
    upstream_mtu ← pr rdp_stream_read_u16_le;
    downstream_mtu ← pr rdp_stream_read_u16_le;
    require (negb (negb (rdp_udp_valid_mtu upstream_mtu) || negb (rdp_udp_valid_mtu downstream_mtu)))
      LIBRDP_STATUS_PROTOCOL_ERROR;;
    mret (mk_syn_data initial_sequence_number upstream_mtu downstream_mtu)).

Definition rdp_udp_write_syn_data (syn : rdp_udp_syn_data) : writer unit :=
  require (negb (negb (rdp_udp_valid_mtu (syn_upstream_mtu syn)) ||
                 negb (rdp_udp_valid_mtu (syn_downstream_mtu syn)))) LIBRDP_STATUS_INVALID_ARGUMENT;;
  rdp_udp_restore_on_error (
    rdp_buffer_append_u32_le (syn_initial_sequence_number syn);;
    rdp_buffer_append_u16_le (syn_upstream_mtu syn);;
    rdp_buffer_append_u16_le (syn_downstream_mtu syn)).

Definition rdp_udp_parse_ack_of_ack_vector (data : view) : res rdp_udp_ack_of_ack_vector :=
  ensure (negb (view_null data)) LIBRDP_STATUS_INVALID_ARGUMENT;;
  ensure (negb (view_len data <? RDP_UDP_ACK_OF_ACK_VECTOR_LENGTH)) LIBRDP_STATUS_PROTOCOL_ERROR;;
  with_stream data (
    reset_sequence_number ← pr rdp_stream_read_u32_le;
    mret (mk_ack_of_ack_vector reset_sequence_number)).

Definition rdp_udp_write_ack_of_ack_vector (ack : rdp_udp_ack_of_ack_vector) : writer unit :=
  rdp_udp_restore_on_error (rdp_buffer_append_u32_le (aoa_reset_sequence_number ack)).

(** ** The ACK vector *)

(** [(4u - (used % 4u)) % 4u] with [used = 2u + size]. *)
Definition ack_vector_padding (size : Z) : Z :=
  let used := size_t (2 + size) in size_t (4 - used mod 4) mod 4.

Definition rdp_udp_parse_ack_vector (data : view) : res rdp_udp_ack_vector :=
  ensure (negb (view_null data)) LIBRDP_STATUS_INVALID_ARGUMENT;;
  ensure (negb (view_len data <? 2)) LIBRDP_STATUS_PROTOCOL_ERROR;;
  with_stream data (
    size ← pr rdp_stream_read_u16_le;
    require (negb (RDP_UDP_ACK_VECTOR_MAX_SIZE <? size)) LIBRDP_STATUS_PROTOCOL_ERROR;;
    remaining ← rdp_stream_remaining;
    require (negb (remaining <? size)) LIBRDP_STATUS_PROTOCOL_ERROR;;
    vector ← pr (rdp_stream_read_bytes size);
    let padding := ack_vector_padding size in
    remaining ← rdp_stream_remaining;
    require (remaining =? padding) LIBRDP_STATUS_PROTOCOL_ERROR;;
    pad ← (if 0 <? padding then pr (rdp_stream_read_bytes padding) else mret []);
    require (all_zero pad) LIBRDP_STATUS_PROTOCOL_ERROR;;
    mret (mk_ack_vector size (Some vector) padding)).

Definition rdp_udp_write_ack_vector (vector : view) : writer unit :=
  let vector_size := view_len vector in
  require (negb ((view_null vector && (0 <? vector_size)) ||
                 (RDP_UDP_ACK_VECTOR_MAX_SIZE <? vector_size))) LIBRDP_STATUS_INVALID_ARGUMENT;;
  rdp_udp_restore_on_error (
    rdp_buffer_append_u16_le vector_size;;
    rdp_buffer_append vector;;
    zeroes ← lift (slice [0; 0; 0] 0 (ack_vector_padding vector_size));
    rdp_buffer_append (View zeroes)).

Definition rdp_udp_ack_vector_decode_entry (value : Z) : res rdp_udp_ack_vector_entry :=
  let state := u8 (Z.shiftr value 6) in
  let run_length := u8 (Z.land value 0x3f) in
  ensure (negb (negb (state =? RDP_UDP_ACK_VECTOR_STATE_RECEIVED) &&
                negb (state =? RDP_UDP_ACK_VECTOR_STATE_PENDING))) LIBRDP_STATUS_PROTOCOL_ERROR;;
  mret (mk_ack_vector_entry state run_length).

(** The loop over the vector; [n] iterations are left, the index is [i]. *)
Fixpoint ack_vector_count_loop (vector : list Z) (n : nat) (i received pending : Z) : res (Z * Z) :=
  match n with
  | O => mret (received, pending)
  | S n =>
      value ← rd vector i;
      entry ← rdp_udp_ack_vector_decode_entry value;
      let run := u32 (ave_run_length entry + 1) in
      if ave_state entry =? RDP_UDP_ACK_VECTOR_STATE_RECEIVED
      then ack_vector_count_loop vector n (i + 1) (u32 (received + run)) pending
      else ack_vector_count_loop vector n (i + 1) received (u32 (pending + run))
  end.

Definition rdp_udp_ack_vector_count (ack_vector : rdp_udp_ack_vector) : res (Z * Z) :=
  match av_vector ack_vector with
  | None =>
      ensure (negb (0 <? av_size ack_vector)) LIBRDP_STATUS_INVALID_ARGUMENT;; mret (0, 0)
  | Some vector => ack_vector_count_loop vector (Z.to_nat (av_size ack_vector)) 0 0 0
  end.

(** ** Correlation id *)

Definition rdp_udp_parse_correlation_id (data : view) : res rdp_udp_correlation_id :=
  ensure (negb (view_null data)) LIBRDP_STATUS_INVALID_ARGUMENT;;
  ensure (negb (view_len data <? RDP_UDP_CORRELATION_ID_LENGTH)) LIBRDP_STATUS_PROTOCOL_ERROR;;
  with_stream data (
    id ← pr (rdp_stream_read_bytes 16);
    reserved ← pr (rdp_stream_read_bytes 16);
    require (all_zero reserved) LIBRDP_STATUS_PROTOCOL_ERROR;;
    mret (mk_correlation_id id reserved)).

(** [correlation_id] is the array of 16 bytes. *)
Definition rdp_udp_write_correlation_id (correlation_id : list Z) : writer unit :=
  rdp_udp_restore_on_error (
    rdp_buffer_append (View correlation_id);;
    rdp_buffer_append (View (replicate 16 0))).

(** ** SYN extension *)

(** The tests on the flags and the version the parser and the writer share. *)
Definition syn_ex_flags_bad (flags : Z) : bool :=
  negb (Z.land flags (u32 (Z.lnot RDP_UDP_SYNEX_VERSION_INFO_VALID)) =? 0) ||
  (Z.land flags RDP_UDP_SYNEX_VERSION_INFO_VALID =? 0).
Definition syn_ex_version_bad (version : Z) : bool :=
  negb (version =? RDP_UDP_PROTOCOL_VERSION_1) && negb (version =? RDP_UDP_PROTOCOL_VERSION_2) &&
  negb (version =? RDP_UDP_PROTOCOL_VERSION_3).

Definition rdp_udp_parse_syn_data_ex (data : view) : res rdp_udp_syn_data_ex :=
  ensure (negb (view_null data)) LIBRDP_STATUS_INVALID_ARGUMENT;;
  ensure (negb (negb (view_len data =? RDP_UDP_SYN_DATA_EX_BASE_LENGTH) &&
                negb (view_len data =? RDP_UDP_SYN_DATA_EX_COOKIE_LENGTH)))
    LIBRDP_STATUS_PROTOCOL_ERROR;;
  with_stream data (
    flags ← pr rdp_stream_read_u16_le;
    udp_version ← pr rdp_stream_read_u16_le;
    require (negb (syn_ex_flags_bad flags)) LIBRDP_STATUS_PROTOCOL_ERROR;;
    require (negb (syn_ex_version_bad udp_version)) LIBRDP_STATUS_PROTOCOL_ERROR;;
    remaining ← rdp_stream_remaining;
    if udp_version =? RDP_UDP_PROTOCOL_VERSION_3 then
      require (remaining =? 32) LIBRDP_STATUS_PROTOCOL_ERROR;;
      hash ← pr (rdp_stream_read_bytes 32);
      mret (mk_syn_data_ex flags udp_version true hash)
    else
      require (remaining =? 0) LIBRDP_STATUS_PROTOCOL_ERROR;;
      mret (mk_syn_data_ex flags udp_version false (replicate 32 0))).

Definition rdp_udp_write_syn_data_ex (syn_ex : rdp_udp_syn_data_ex) : writer unit :=
  require (negb (syn_ex_flags_bad (sx_flags syn_ex) || syn_ex_version_bad (sx_udp_version syn_ex) ||
    ((sx_udp_version syn_ex =? RDP_UDP_PROTOCOL_VERSION_3) && negb (sx_has_cookie_hash syn_ex)) ||
    (negb (sx_udp_version syn_ex =? RDP_UDP_PROTOCOL_VERSION_3) && sx_has_cookie_hash syn_ex)))
    LIBRDP_STATUS_INVALID_ARGUMENT;;
  rdp_udp_restore_on_error (
    rdp_buffer_append_u16_le (sx_flags syn_ex);;
    rdp_buffer_append_u16_le (sx_udp_version syn_ex);;
    if sx_has_cookie_hash syn_ex then rdp_buffer_append (View (sx_cookie_hash syn_ex)) else mret tt).

(** ** Lemmas *)

(** Clearing the low bits of a 16-bit value with a mask of high ones. *)
Lemma land_high f m n :
  is_u16 f -> 0 <= m -> 0 <= n -> 16 <= m + n ->
  Z.land f (Z.shiftl (Z.ones m) n) = Z.shiftl (Z.shiftr f n) n.
Proof.
  unfold is_u16. intros Hf Hm Hn Hmn. apply Z.bits_inj'. intros i Hi. rewrite Z.land_spec.
  destruct (Z.ltb_spec i n).
  - rewrite !Z.shiftl_spec_low by lia. apply andb_false_r.
  - rewrite !Z.shiftl_spec, Z.shiftr_spec by lia. rewrite Z.sub_add.
    destruct (Z.ltb_spec (i - n) m).
    + rewrite Z.ones_spec_low by lia. apply andb_true_r.
    + rewrite Z.ones_spec_high by lia. rewrite andb_false_r. symmetry.
      apply Z.bits_above_log2; [lia|].
      destruct (decide (f = 0)) as [->|]; [cbn; lia|].
      assert (Z.log2 f < 16) by (apply Z.log2_lt_pow2; lia). lia.
Qed.

Lemma valid_flags_spec flags :
  is_u16 flags -> rdp_udp_valid_flags flags = (flags <? 0x2000).
Proof.
  unfold rdp_udp_valid_flags. intros Hf.
  change (u32 (Z.lnot RDP_UDP_KNOWN_FLAGS)) with (Z.shiftl (Z.ones 19) 13).
  rewrite land_high by (done || lia). unfold is_u16 in Hf. bits_norm.
  Z.div_mod_to_equations. lia.
Qed.

(** ** Encodings, typing and validity of the structures *)

#[local] Arguments le16 : simpl never.
#[local] Arguments le24 : simpl never.
#[local] Arguments le32 : simpl never.
#[local] Arguments replicate : simpl never.

Definition fec_header_enc (h : rdp_udp_fec_header) : list Z :=
  le32 (fec_source_ack h) ++ le16 (fec_receive_window_size h) ++ le16 (fec_flags h).
Definition fec_header_typed (h : rdp_udp_fec_header) : Prop :=
  is_u32 (fec_source_ack h) /\ is_u16 (fec_receive_window_size h) /\ is_u16 (fec_flags h).
Definition fec_header_valid (h : rdp_udp_fec_header) : bool := fec_flags h <? 0x2000.

Definition fec_payload_header_enc (h : rdp_udp_fec_payload_header) : list Z :=
  le32 (fp_coded_sequence h) ++ le32 (fp_source_start h) ++ [fp_range h] ++ [fp_fec_index h] ++
  le16 (fp_padding h).
Definition fec_payload_header_typed (h : rdp_udp_fec_payload_header) : Prop :=
  is_u32 (fp_coded_sequence h) /\ is_u32 (fp_source_start h) /\ is_byte (fp_range h) /\
  is_byte (fp_fec_index h) /\ is_u16 (fp_padding h).

Definition source_payload_header_enc (h : rdp_udp_source_payload_header) : list Z :=
  le32 (sp_coded_sequence h) ++ le32 (sp_source_start h).
Definition source_payload_header_typed (h : rdp_udp_source_payload_header) : Prop :=
  is_u32 (sp_coded_sequence h) /\ is_u32 (sp_source_start h).

Definition syn_data_enc (s : rdp_udp_syn_data) : list Z :=
  le32 (syn_initial_sequence_number s) ++ le16 (syn_upstream_mtu s) ++ le16 (syn_downstream_mtu s).
Definition syn_data_typed (s : rdp_udp_syn_data) : Prop :=
  is_u32 (syn_initial_sequence_number s) /\ is_u16 (syn_upstream_mtu s) /\
  is_u16 (syn_downstream_mtu s).
Definition syn_data_valid (s : rdp_udp_syn_data) : bool :=
  (1132 <=? syn_upstream_mtu s) && (syn_upstream_mtu s <=? 1232) &&
  (1132 <=? syn_downstream_mtu s) && (syn_downstream_mtu s <=? 1232).

Definition correlation_id_enc (c : rdp_udp_correlation_id) : list Z :=
  cid_correlation_id c ++ replicate 16 0.
Definition correlation_id_typed (c : rdp_udp_correlation_id) : Prop :=
  blen (cid_correlation_id c) = 16 /\ bytes (cid_correlation_id c) /\
  cid_reserved c = replicate 16 0.

Definition ack_vector_bytes (a : rdp_udp_ack_vector) : list Z := default [] (av_vector a).
Definition zeros (n : Z) : list Z := replicate (Z.to_nat n) 0.
Definition ack_vector_enc (a : rdp_udp_ack_vector) : list Z :=
  le16 (av_size a) ++ ack_vector_bytes a ++ zeros ((- (2 + av_size a)) mod 4).
Definition ack_vector_typed (a : rdp_udp_ack_vector) : Prop :=
  is_u16 (av_size a) /\ av_size a = blen (ack_vector_bytes a) /\ bytes (ack_vector_bytes a) /\
  av_vector a <> None /\ av_padding_len a = (- (2 + av_size a)) mod 4.

Definition syn_data_ex_enc (s : rdp_udp_syn_data_ex) : list Z :=
  le16 (sx_flags s) ++ le16 (sx_udp_version s) ++
  (if sx_has_cookie_hash s then sx_cookie_hash s else []).
Definition syn_data_ex_typed (s : rdp_udp_syn_data_ex) : Prop :=
  is_u16 (sx_flags s) /\ is_u16 (sx_udp_version s) /\ blen (sx_cookie_hash s) = 32 /\
  bytes (sx_cookie_hash s) /\ (sx_has_cookie_hash s = false -> sx_cookie_hash s = zeros 32).
Definition syn_data_ex_valid (s : rdp_udp_syn_data_ex) : bool :=
  (sx_flags s =? 1) &&
  ((sx_udp_version s =? 1) || (sx_udp_version s =? 2) || (sx_udp_version s =? 0x101)) &&
  Bool.eqb (sx_has_cookie_hash s) (sx_udp_version s =? 0x101).

Definition no_check {A} (_ : A) : bool := true.

(** ** The structures are codecs *)

(** The opening of a parser; the body on a local stream remains. *)
Local Ltac open_parser f :=
  intros ?; unfold f; rewrite ensure_true, ensure_bind by done; reflexivity.
(** Read one field after the other. *)
Local Ltac parse_fields := 
  repeat (pstep; [first [apply parses_read_u8 | by apply parses_read_u16_le
                        | by apply parses_read_u32_le]|]).
Local Ltac read_structure := intros ? ? ? ? H; decode_inv H; unfold any_tail, no_tail; cbn.

#[export] Instance fec_header_codec :
  Codec rdp_udp_parse_fec_header rdp_udp_write_fec_header
    fec_header_enc fec_header_typed fec_header_valid any_tail.
Proof.
  eapply (codec_intro _ _ _ _ _ _ _ (fun n => negb (n <? 8))).
  - open_parser rdp_udp_parse_fec_header.
  - done.
  - split; [|read_structure|repeat safe_step; done|apply _].
    + intros [a w f] rest [(Ha & Hw & Hf) Hv] _. unfold fec_header_enc. cbn in *.
      rewrite <- !app_assoc. parse_fields.
      pstep; [by rewrite valid_flags_spec|]. apply parses_ret.
    + unfold fec_header_enc, fec_header_typed, fec_header_valid. cbn.
      rewrite valid_flags_spec in * by done. by rewrite <- !app_assoc.
  - unfold fec_header_enc. intros. zlen.
  - intros h (Ha & Hw & Hf) Hv. unfold rdp_udp_write_fec_header.
    apply writes_atomic_require; [by rewrite valid_flags_spec|]. apply writes_atomic.
    unfold fec_header_enc. do 2 wstep. apply writes_u16_le.
  - intros h (Ha & Hw & Hf) Hv. apply rejects_require. by rewrite valid_flags_spec.
Qed.

#[export] Instance fec_payload_header_codec :
  Codec rdp_udp_parse_fec_payload_header rdp_udp_write_fec_payload_header
    fec_payload_header_enc fec_payload_header_typed (fun h => fp_padding h =? 0) any_tail.
Proof.
  eapply (codec_intro _ _ _ _ _ _ _ (fun n => negb (n <? 12))).
  - open_parser rdp_udp_parse_fec_payload_header.
  - done.
  - split; [|read_structure|repeat safe_step; done|apply _].
    + intros [c s r f p] rest [(Hc & Hs & Hr & Hf & Hp) Hv] _.
      unfold fec_payload_header_enc. cbn in *. rewrite <- !app_assoc. parse_fields.
      pstep. apply parses_ret.
    + unfold fec_payload_header_enc, fec_payload_header_typed. cbn. by rewrite <- !app_assoc.
  - unfold fec_payload_header_enc. intros. zlen.
  - intros h (Hc & Hs & Hr & Hf & Hp) Hv. unfold rdp_udp_write_fec_payload_header.
    apply writes_atomic_require; [done|]. apply writes_atomic.
    unfold fec_payload_header_enc. do 4 wstep. apply writes_u16_le.
  - intros h _ Hv. by apply rejects_require.
Qed.

#[export] Instance payload_prefix_codec :
  Codec rdp_udp_parse_payload_prefix (fun p => rdp_udp_write_payload_prefix (pp_payload_size p))
    (fun p => le16 (pp_payload_size p)) (fun p => is_u16 (pp_payload_size p)) no_check any_tail.
Proof.
  eapply (codec_intro _ _ _ _ _ _ _ (fun n => negb (n <? 2))).
  - open_parser rdp_udp_parse_payload_prefix.
  - done.
  - split; [|read_structure; done|repeat safe_step; done|apply _].
    intros [p] rest [Hp _] _. cbn in *. parse_fields. apply parses_ret.
  - intros. zlen.
  - intros h _ _. apply writes_atomic, writes_u16_le.
  - done.
Qed.

#[export] Instance source_payload_header_codec :
  Codec rdp_udp_parse_source_payload_header rdp_udp_write_source_payload_header
    source_payload_header_enc source_payload_header_typed no_check any_tail.
Proof.
  eapply (codec_intro _ _ _ _ _ _ _ (fun n => negb (n <? 8))).
  - open_parser rdp_udp_parse_source_payload_header.
  - done.
  - split; [|read_structure|repeat safe_step; done|apply _].
    + intros [c s] rest [[Hc Hs] _] _. unfold source_payload_header_enc. cbn in *.
      rewrite <- !app_assoc. parse_fields. apply parses_ret.
    + unfold source_payload_header_enc, source_payload_header_typed. cbn. by rewrite <- !app_assoc.
  - unfold source_payload_header_enc. intros. zlen.
  - intros h _ _. apply writes_atomic. unfold source_payload_header_enc. wstep. apply writes_u32_le.
  - done.
Qed.

Lemma syn_data_guard s :
  negb (negb (rdp_udp_valid_mtu (syn_upstream_mtu s)) ||
        negb (rdp_udp_valid_mtu (syn_downstream_mtu s))) = syn_data_valid s.
Proof.
  unfold rdp_udp_valid_mtu, syn_data_valid, RDP_UDP_MIN_MTU, RDP_UDP_MAX_MTU.
  rewrite negb_orb, !negb_involutive. by rewrite !andb_assoc.
Qed.

#[export] Instance syn_data_codec :
  Codec rdp_udp_parse_syn_data rdp_udp_write_syn_data
    syn_data_enc syn_data_typed syn_data_valid any_tail.
Proof.
  eapply (codec_intro _ _ _ _ _ _ _ (fun n => negb (n <? 8))).
  - open_parser rdp_udp_parse_syn_data.
  - done.
  - split; [|intros ? ? ? ? H|repeat safe_step; done|apply _].
    + intros [i u d] rest [(Hi & Hu & Hd) Hv] _. unfold syn_data_enc. cbn in *.
      rewrite <- !app_assoc. parse_fields.
      pstep; [by rewrite <- Hv, <- syn_data_guard|]. apply parses_ret.
    + repeat (run_step H; repeat read_inv); repeat read_inv; unread_chain.
      match goal with G : negb _ = true |- _ => rename G into Hg end.
      rewrite <- syn_data_guard. unfold syn_data_enc, syn_data_typed, any_tail. cbn.
      by rewrite <- !app_assoc.
  - unfold syn_data_enc. intros. zlen.
  - intros h _ Hv. unfold rdp_udp_write_syn_data.
    apply writes_atomic_require; [by rewrite syn_data_guard|]. apply writes_atomic.
    unfold syn_data_enc. do 2 wstep. apply writes_u16_le.
  - intros h _ Hv. apply rejects_require. by rewrite syn_data_guard.
Qed.

#[export] Instance ack_of_ack_vector_codec :
  Codec rdp_udp_parse_ack_of_ack_vector rdp_udp_write_ack_of_ack_vector
    (fun a => le32 (aoa_reset_sequence_number a)) (fun a => is_u32 (aoa_reset_sequence_number a))
    no_check any_tail.
Proof.
  eapply (codec_intro _ _ _ _ _ _ _ (fun n => negb (n <? 4))).
  - open_parser rdp_udp_parse_ack_of_ack_vector.
  - done.
  - split; [|read_structure; done|repeat safe_step; done|apply _].
    intros [p] rest [Hp _] _. cbn in *. parse_fields. apply parses_ret.
  - intros. zlen.
  - intros h _ _. apply writes_atomic, writes_u32_le.
  - done.
Qed.

Lemma all_zero_blen l n : all_zero l = true -> blen l = n -> l = zeros n.
Proof. intros H%all_zero_iff <-. unfold zeros, blen. by rewrite Nat2Z.id. Qed.
Lemma all_zero_zeros n : all_zero (zeros n) = true.
Proof. apply all_zero_replicate. Qed.
Lemma blen_zeros n : 0 <= n -> blen (zeros n) = n.
Proof. unfold zeros. rewrite blen_replicate. lia. Qed.

#[export] Instance correlation_id_codec :
  Codec rdp_udp_parse_correlation_id (fun c => rdp_udp_write_correlation_id (cid_correlation_id c))
    correlation_id_enc correlation_id_typed no_check any_tail.
Proof.
  eapply (codec_intro _ _ _ _ _ _ _ (fun n => negb (n <? 32))).
  - open_parser rdp_udp_parse_correlation_id.
  - done.
  - split; [|intros ? ? ? ? H|safe_walk|apply _].
    + intros [c r] rest [(Hl & Hb & Hr) _] _. unfold correlation_id_enc. cbn in *. subst r.
      rewrite <- !app_assoc. pstep; [by apply parses_read_bytes|].
      pstep; [by apply (parses_read_bytes 16 (zeros 16))|].
      pstep; [apply (all_zero_zeros 16)|]. apply parses_ret.
    + repeat (run_step H; repeat first [read_inv|block_inv]). repeat read_inv. unread_chain.
      match goal with G : all_zero _ = true |- _ => apply (all_zero_blen _ 16) in G as ->; [|done] end.
      unfold correlation_id_enc, correlation_id_typed. cbn.
      by rewrite <- app_assoc.
  - unfold correlation_id_enc. intros c rest (Hl & _) _.
    rewrite !blen_app, Hl, (blen_replicate 16).
    change (Z.of_nat 16) with 16. zlen.
  - intros c (Hl & _) _. apply writes_atomic. unfold correlation_id_enc. wstep. apply writes_append.
  - done.
Qed.

Lemma ack_vector_padding_spec n : is_u16 n -> ack_vector_padding n = (- (2 + n)) mod 4.
Proof.
  unfold is_u16, ack_vector_padding, size_t. intros.
  rewrite (Z.mod_small (2 + n)) by lia. rewrite (Z.mod_small (4 - _)) by (Z.div_mod_to_equations; lia).
  Z.div_mod_to_equations; lia.
Qed.

Lemma padding_parses p rest :
  0 <= p -> Parses (if 0 <? p then pr (rdp_stream_read_bytes p) else mret []) (zeros p ++ rest) rest (zeros p).
Proof.
  intros Hp. destruct (Z.ltb_spec 0 p).
  - apply parses_coerce, parses_read_bytes. by apply blen_zeros.
  - replace p with 0 by lia. apply parses_ret.
Qed.

Lemma padding_inv p s l s' :
  0 <= p -> stream_wf s ->
  (if 0 <? p then pr (rdp_stream_read_bytes p) else mret []) s = (Ok l, s') ->
  unread s = l ++ unread s' /\ blen l = p /\ stream_wf s'.
Proof.
  intros Hp Hs. destruct (Z.ltb_spec 0 p); intros E; repeat read_inv.
  - block_inv. done.
  - split; [done|]. split; [zlen|done].
Qed.

Lemma padding_safe p :
  Safe (if 0 <? p then pr (rdp_stream_read_bytes p) else mret []) (fun _ => True).
Proof.
  apply safe_if; intros; [|by apply safe_ret].
  apply safe_coerce. eapply safe_weaken; [apply safe_read_bytes; lia|done].
Qed.

#[export] Instance ack_vector_codec :
  Codec rdp_udp_parse_ack_vector (fun a => rdp_udp_write_ack_vector (View (ack_vector_bytes a)))
    ack_vector_enc ack_vector_typed (fun a => av_size a <=? 2048) no_tail.
Proof.
  eapply (codec_intro _ _ _ _ _ _ _ (fun n => negb (n <? 2))).
  - open_parser rdp_udp_parse_ack_vector.
  - done.
  - split; [|intros ? ? ? ? H| |apply _].
    + intros [n [v|] p] rest [(Hn & Hl & Hb & Hv & Hp) Hm] ->; [|done].
      unfold ack_vector_enc, ack_vector_bytes in *. cbn in *. rewrite app_nil_r.
      parse_fields. pstep; [unfold RDP_UDP_ACK_VECTOR_MAX_SIZE; lia|]. pstep. 
      pstep. pstep; [by apply parses_read_bytes|]. cbv zeta.
      rewrite ack_vector_padding_spec by done. rewrite <- Hp. pose proof (Z.mod_pos_bound (- (2 + n)) 4).
      pstep. pstep; [rewrite blen_zeros; lia|].
      eapply parses_bind; [rewrite <- (app_nil_r (zeros p)); apply padding_parses; lia|].
      pstep; [apply all_zero_zeros|]. apply parses_ret.
    + repeat (run_step H; repeat first [read_inv|block_inv]). repeat read_inv. unread_chain.
      pose proof (Z.mod_pos_bound (- (2 + blen a3)) 4 ltac:(lia)).
      rewrite ack_vector_padding_spec in * by done. apply padding_inv in E as (Hu & Hlp & Hw); [|lia|done].
      apply (all_zero_blen _ _ H11) in Hlp. subst a5.
      assert (Hrest : unread s' = []).
      { apply blen_0_nil. rewrite Hu in H10. rewrite blen_app, blen_zeros in H10 by lia. lia. }
      unfold ack_vector_enc, ack_vector_typed, ack_vector_bytes, no_tail. cbn.
      unfold RDP_UDP_ACK_VECTOR_MAX_SIZE in *. rewrite H1, Hu, <- !app_assoc.
      split_and!; try done; unfold is_u16 in *; lia.
    + safe_walk. eapply safe_bind; [apply padding_safe|intros ? _]. safe_walk.
  - unfold ack_vector_enc. intros. zlen.
  - intros [n [v|] p] (Hn & Hl & Hb & Hv & Hp) Hm; [|done].
    unfold ack_vector_enc, ack_vector_bytes in *. cbn in *.
    pose proof (Z.mod_pos_bound (- (2 + n)) 4 ltac:(lia)) as Hpad.
    unfold rdp_udp_write_ack_vector. cbn [view_len view_null]. rewrite <- Hl.
    apply writes_atomic_require; [unfold RDP_UDP_ACK_VECTOR_MAX_SIZE; lia|].
    apply writes_atomic. do 2 wstep. rewrite ack_vector_padding_spec by done.
    apply (writes_lift _ _ (zeros ((- (2 + n)) mod 4))); [|apply writes_append].
    assert (Hc : (- (2 + n)) mod 4 = 0 \/ (- (2 + n)) mod 4 = 1 \/ (- (2 + n)) mod 4 = 2 \/
      (- (2 + n)) mod 4 = 3) by lia.
    by destruct Hc as [->|[->|[->| ->]]].
  - intros [n [v|] p] (Hn & Hl & Hb & Hv & Hp) Hm; [|done]. apply rejects_require. cbn in *.
    unfold RDP_UDP_ACK_VECTOR_MAX_SIZE. lia.
Qed.

Lemma syn_ex_version_guard v :
  syn_ex_version_bad v = negb ((v =? 1) || (v =? 2) || (v =? 0x101)).
Proof.
  unfold syn_ex_version_bad, RDP_UDP_PROTOCOL_VERSION_1, RDP_UDP_PROTOCOL_VERSION_2,
    RDP_UDP_PROTOCOL_VERSION_3. lia.
Qed.

Lemma syn_ex_flags_guard f : is_u16 f -> syn_ex_flags_bad f = negb (f =? 1).
Proof.
  unfold syn_ex_flags_bad, RDP_UDP_SYNEX_VERSION_INFO_VALID. intros Hf.
  change (u32 (Z.lnot 1)) with (Z.shiftl 0x7fffffff 1).
  change 0x7fffffff with (Z.ones 31). rewrite land_high by (done || lia).
  unfold is_u16 in Hf. bits_norm.
  Z.div_mod_to_equations. lia.
Qed.

Lemma syn_ex_guard s :
  is_u16 (sx_flags s) ->
  negb (syn_ex_flags_bad (sx_flags s) || syn_ex_version_bad (sx_udp_version s) ||
    ((sx_udp_version s =? RDP_UDP_PROTOCOL_VERSION_3) && negb (sx_has_cookie_hash s)) ||
    (negb (sx_udp_version s =? RDP_UDP_PROTOCOL_VERSION_3) && sx_has_cookie_hash s)) =
  syn_data_ex_valid s.
Proof.
  intros Hf. rewrite syn_ex_flags_guard, syn_ex_version_guard by done.
  unfold syn_data_ex_valid, RDP_UDP_PROTOCOL_VERSION_3.
  destruct (sx_flags s =? 1), (sx_udp_version s =? 1), (sx_udp_version s =? 2),
    (sx_udp_version s =? 0x101), (sx_has_cookie_hash s); done.
Qed.

#[export] Instance syn_data_ex_codec :
  Codec rdp_udp_parse_syn_data_ex rdp_udp_write_syn_data_ex
    syn_data_ex_enc syn_data_ex_typed syn_data_ex_valid no_tail.
Proof.
  eapply (codec_intro _ _ _ _ _ _ _ (fun n => negb (negb (n =? 4) && negb (n =? 36)))).
  - open_parser rdp_udp_parse_syn_data_ex.
  - done.
  - split; [|intros ? ? ? ? H|safe_walk|apply _].
    + intros [f v c h] rest [(Hf & Hv & Hl & Hb & Hz) Hok] ->. unfold syn_data_ex_enc, syn_data_ex_valid in *.
      cbn in *. rewrite app_nil_r. parse_fields.
      pstep; [rewrite syn_ex_flags_guard by done; lia|].
      pstep; [rewrite syn_ex_version_guard; lia|]. pstep.
      unfold RDP_UDP_PROTOCOL_VERSION_3. destruct (v =? 0x101) eqn:E.
      * assert (c = true) as -> by (destruct c; [done|lia]).
        pstep. rewrite <- (app_nil_r h) at 1. pstep; [by apply parses_read_bytes|]. apply parses_ret.
      * assert (c = false) as -> by (destruct c; [lia|done]). rewrite Hz by done.
        pstep. apply parses_ret.
    + do 5 (run_step H; repeat read_inv).
      unfold syn_data_ex_enc, syn_data_ex_typed, syn_data_ex_valid, no_tail, RDP_UDP_PROTOCOL_VERSION_3 in *.
      rewrite syn_ex_flags_guard, syn_ex_version_guard in * by done.
      destruct (a1 =? 0x101) eqn:Ev;
        repeat (run_step H; repeat first [read_inv|block_inv]); repeat read_inv.
      * assert (Hr : blen (unread s') = 0).
        { match goal with G : unread s1 = ?l |- _ => assert (blen (unread s1) = blen l) by (by rewrite G) end.
          zlen. }
        unread_chain. cbn. rewrite Ev, <- !app_assoc. split_and!; try done; [lia|by apply blen_0_nil].
      * assert (Hr : blen (unread s') = 0) by lia.
        unread_chain. cbn. rewrite Ev, <- !app_assoc. split_and!; try done; [|lia|by apply blen_0_nil].
        apply Forall_replicate. unfold is_byte. lia.
  - unfold syn_data_ex_enc. intros s rest (_ & _ & Hl & _) ->. rewrite app_nil_r.
    destruct (sx_has_cookie_hash s); zlen.
  - intros s (Hf & Hv & Hl & Hb & Hz) Hok. unfold rdp_udp_write_syn_data_ex.
    apply writes_atomic_require; [by rewrite syn_ex_guard|]. apply writes_atomic.
    unfold syn_data_ex_enc. do 2 wstep. destruct (sx_has_cookie_hash s); [apply writes_append|by apply writes_ret].
  - intros s (Hf & _) Hok. apply rejects_require. by rewrite syn_ex_guard.
Qed.

(** ** What an ACK vector says of each datagram *)

(** The run an entry stands for: [true] for a datagram received, [false] for one
    still pending. *)
Definition ack_run (b : Z) : list bool := replicate (Z.to_nat (b mod 64 + 1)) (b / 64 =? 0).
Definition ack_runs (v : list Z) : list bool := concat (ack_run <$> v).
Definition ack_entry_valid (b : Z) : bool := (b / 64 =? 0) || (b / 64 =? 3).

(** The number of datagrams in state [s]. *)
Definition datagrams (s : bool) (l : list bool) : Z := blen (filter (fun b => b = s) l).

Lemma datagrams_app s l k : datagrams s (l ++ k) = datagrams s l + datagrams s k.
Proof. unfold datagrams. by rewrite list.filter_app, blen_app. Qed.
Lemma datagrams_replicate s b (n : nat) :
  datagrams s (replicate n b) = if Bool.eqb b s then Z.of_nat n else 0.
Proof.
  unfold datagrams. induction n as [|n IH]; [by case_match|].
  change (replicate (S n) b) with (b :: replicate n b).
  destruct b, s; cbn [Bool.eqb] in *; rewrite list.filter_cons; case_decide; try done; zlen.
Qed.
Lemma datagrams_total l : datagrams true l + datagrams false l = blen l.
Proof.
  unfold datagrams. induction l as [|b l IH]; [done|].
  rewrite !list.filter_cons, blen_cons. destruct b; cbn [decide]; repeat case_decide; try done; zlen.
Qed.
Lemma datagrams_nonneg s l : 0 <= datagrams s l.
Proof. apply blen_nonneg. Qed.

Lemma decode_entry_spec b :
  is_byte b ->
  rdp_udp_ack_vector_decode_entry b =
    if ack_entry_valid b then Ok (mk_ack_vector_entry (b / 64) (b mod 64))
    else Err LIBRDP_STATUS_PROTOCOL_ERROR.
Proof.
  unfold is_byte, rdp_udp_ack_vector_decode_entry, ack_entry_valid, u8. intros Hb.
  unfold RDP_UDP_ACK_VECTOR_STATE_RECEIVED, RDP_UDP_ACK_VECTOR_STATE_PENDING. rewrite ensure_bind.
  assert (E1 : Z.shiftr b 6 mod 0x100 = b / 64) by (bits_norm; Z.div_mod_to_equations; lia).
  assert (E2 : Z.land b 0x3f mod 0x100 = b mod 64) by (bits_norm; Z.div_mod_to_equations; lia).
  rewrite E1, E2. rewrite negb_andb, !negb_involutive. by destruct (_ || _).
Qed.

Lemma blen_ack_run b : is_byte b -> blen (ack_run b) = b mod 64 + 1.
Proof. unfold is_byte, ack_run. intros. rewrite blen_replicate. Z.div_mod_to_equations. lia. Qed.

Lemma blen_ack_runs v : bytes v -> 0 <= blen (ack_runs v) <= 64 * blen v.
Proof.
  induction 1 as [|b v Hb _ IH]; [done|]. unfold ack_runs in *. cbn.
  rewrite blen_app, blen_ack_run, blen_cons by done. Z.div_mod_to_equations. lia.
Qed.

Lemma count_loop_spec pre v received pending :
  bytes v -> 0 <= received -> 0 <= pending ->
  received + pending + blen (ack_runs v) < 0x100000000 ->
  ack_vector_count_loop (pre ++ v) (length v) (blen pre) received pending =
    if forallb ack_entry_valid v
    then Ok (received + datagrams true (ack_runs v), pending + datagrams false (ack_runs v))
    else Err LIBRDP_STATUS_PROTOCOL_ERROR.
Proof.
  intros Hb. revert pre received pending.
  induction Hb as [|b v Hb Hv IH]; intros pre received pending Hr Hp Hsum.
  { cbn. unfold datagrams. cbn. by rewrite !Z.add_0_r. }
  cbn [length ack_vector_count_loop forallb].
  replace (rd (pre ++ b :: v) (blen pre)) with (Ok b).
  2: { rewrite <- (Z.add_0_r (blen pre)), rd_app_r by done. symmetry. by apply rd_lookup. }
  cbn [mbind res_bind]. rewrite decode_entry_spec by done.
  destruct (ack_entry_valid b) eqn:Ev; [|done]. cbn [mbind res_bind ave_state ave_run_length andb].
  unfold RDP_UDP_ACK_VECTOR_STATE_RECEIVED.
  assert (Hruns : ack_runs (b :: v) = ack_run b ++ ack_runs v) by done.
  rewrite Hruns, blen_app, blen_ack_run in Hsum by done. pose proof (blen_ack_runs v Hv).
  pose proof (Z.mod_pos_bound b 64 ltac:(lia)).
  rewrite Hruns, !datagrams_app. unfold ack_run at 1 2. rewrite !datagrams_replicate.
  unfold u32. rewrite (Z.mod_small (b mod 64 + 1)) by lia.
  assert (Happ : pre ++ b :: v = (pre ++ [b]) ++ v) by (by rewrite <- app_assoc).
  assert (Hi : blen pre + 1 = blen (pre ++ [b])) by zlen.
  rewrite Happ, Hi, Z2Nat.id by lia.
  assert (Hrun : 1 <= b mod 64 + 1 <= 64) by lia. set (run := b mod 64 + 1) in *.
  destruct (b / 64 =? 0); cbn [Bool.eqb];
    [rewrite (Z.mod_small (received + run)) by lia|rewrite (Z.mod_small (pending + run)) by lia];
    rewrite IH by lia; destruct (forallb _ _); try done; do 2 f_equal; lia.
Qed.

(** ** Properties *)

(** every structure of the UDP transport is a codec: its parser accepts exactly
    the encodings of the values the C structure can hold and the checks allow (known
    flags, zero padding and reserved bytes, MTUs from 1132 to 1232, ...), returns
    PROTOCOL_ERROR on any other bytes without reading outside them, and its writer
    appends that encoding, all of it or nothing, and refuses the other values
    before it touches the buffer. *)
Theorem udp_structures_codec :
  Codec rdp_udp_parse_fec_header rdp_udp_write_fec_header
    fec_header_enc fec_header_typed fec_header_valid any_tail /\
  Codec rdp_udp_parse_fec_payload_header rdp_udp_write_fec_payload_header
    fec_payload_header_enc fec_payload_header_typed (fun h => fp_padding h =? 0) any_tail /\
  Codec rdp_udp_parse_payload_prefix (fun p => rdp_udp_write_payload_prefix (pp_payload_size p))
    (fun p => le16 (pp_payload_size p)) (fun p => is_u16 (pp_payload_size p)) no_check any_tail /\
  Codec rdp_udp_parse_source_payload_header rdp_udp_write_source_payload_header
    source_payload_header_enc source_payload_header_typed no_check any_tail /\
  Codec rdp_udp_parse_syn_data rdp_udp_write_syn_data
    syn_data_enc syn_data_typed syn_data_valid any_tail /\
  Codec rdp_udp_parse_ack_of_ack_vector rdp_udp_write_ack_of_ack_vector
    (fun a => le32 (aoa_reset_sequence_number a)) (fun a => is_u32 (aoa_reset_sequence_number a))
    no_check any_tail /\
  Codec rdp_udp_parse_correlation_id (fun c => rdp_udp_write_correlation_id (cid_correlation_id c))
    correlation_id_enc correlation_id_typed no_check any_tail /\
  Codec rdp_udp_parse_ack_vector (fun a => rdp_udp_write_ack_vector (View (ack_vector_bytes a)))
    ack_vector_enc ack_vector_typed (fun a => av_size a <=? 2048) no_tail /\
  Codec rdp_udp_parse_syn_data_ex rdp_udp_write_syn_data_ex
    syn_data_ex_enc syn_data_ex_typed syn_data_ex_valid no_tail.
Proof. split_and!; apply _. Qed.

(** The ACK vector counts: for every vector the parser can return, the counts
    are the numbers of received and of pending datagrams among the runs the
    entries stand for, all runs together; a vector with an entry in one of the
    two other states is refused; 2048 entries cannot wrap the 32-bit counters. *)
Theorem udp_ack_vector_count_runs a :
  ack_vector_typed a -> av_size a <= RDP_UDP_ACK_VECTOR_MAX_SIZE ->
  let runs := ack_runs (ack_vector_bytes a) in
  rdp_udp_ack_vector_count a =
    (if forallb ack_entry_valid (ack_vector_bytes a)
     then Ok (datagrams true runs, datagrams false runs)
     else Err LIBRDP_STATUS_PROTOCOL_ERROR) /\
  datagrams true runs + datagrams false runs = blen runs /\
  av_size a <= blen runs <= 64 * RDP_UDP_ACK_VECTOR_MAX_SIZE.
Proof.
  intros (Hn & Hl & Hb & Hv & _) Hm runs. unfold RDP_UDP_ACK_VECTOR_MAX_SIZE in *.
  pose proof (blen_ack_runs _ Hb) as Hruns. split; [|split; [apply datagrams_total|]].
  - unfold rdp_udp_ack_vector_count. destruct a as [n [v|] p]; [|done].
    unfold ack_vector_bytes in *. cbn [av_vector av_size] in *.
    change (default [] (Some v)) with v in *. subst n.
    replace (Z.to_nat (blen v)) with (length v) by (unfold blen; lia).
    pose proof (count_loop_spec [] v 0 0) as E. change (blen []) with 0 in E. cbn [app] in E.
    rewrite E by (done || lia). by rewrite !Z.add_0_l.
  - split; [|unfold runs; lia]. rewrite Hl. unfold runs. clear -Hb.
    induction Hb as [|b v Hb _ IH]; [done|]. unfold ack_runs in *. cbn.
    rewrite blen_app, blen_ack_run, blen_cons by done. Z.div_mod_to_equations. lia.
Qed.

(** Three received, then sixty-four pending, one received; and a bad state. *)
Lemma udp_ack_vector_count_runs_witness :
  let v := [2; 0xff; 0] in
  rdp_udp_ack_vector_count (mk_ack_vector 3 (Some v) 3) = Ok (4, 64) /\
  rdp_udp_ack_vector_count (mk_ack_vector 1 (Some [0x40]) 1) = Err LIBRDP_STATUS_PROTOCOL_ERROR.
Proof.
  split.
  - refine (proj1 (udp_ack_vector_count_runs (mk_ack_vector 3 (Some [2; 0xff; 0]) 3) _ _));
      [|by vm_compute]. split_and!; by_evaluation.
  - refine (proj1 (udp_ack_vector_count_runs (mk_ack_vector 1 (Some [0x40]) 1) _ _));
      [|by vm_compute]. split_and!; by_evaluation.
Defined.
