(* ===== verification/Udp2.v ===== *)
(** * Udp2: UDP2 packets and their wire layout

    Models the second half of [src/src/transport/udp_transport.c]: the UDP2
    header, the optional sections of a packet, its validation, classification
    and writing, the coded ACK vector, and the wrapping of a packet into a
    datagram whose eighth byte is the prefix. *)

From S2P Require Import Prelude Stream Buffer Codec Udp.

Definition RDP_UDP2_HEADER_LENGTH : Z := 2.
Definition RDP_UDP2_FLAG_ACK : Z := 0x0001.
Definition RDP_UDP2_FLAG_DATA : Z := 0x0004.
Definition RDP_UDP2_FLAG_ACKVEC : Z := 0x0008.
Definition RDP_UDP2_FLAG_AOA : Z := 0x0010.
Definition RDP_UDP2_FLAG_OVERHEADSIZE : Z := 0x0040.
Definition RDP_UDP2_FLAG_DELAYACKINFO : Z := 0x0100.
Definition RDP_UDP2_KNOWN_FLAGS : Z := 0x015d.
Definition RDP_UDP2_PACKET_TYPE_DATA : Z := 0x0.
Definition RDP_UDP2_PACKET_TYPE_DUMMY : Z := 0x8.
Definition RDP_UDP2_ACK_VECTOR_MODE_BITMAP : Z := 0x00.
Definition RDP_UDP2_ACK_VECTOR_MODE_RLE : Z := 0x01.
Definition RDP_UDP2_ACK_VECTOR_STATE_LOST : Z := 0x00.
Definition RDP_UDP2_ACK_VECTOR_STATE_RECEIVED : Z := 0x01.

Record rdp_udp2_header := mk_udp2_header {
  h2_flags : Z;
  h2_log_window_size : Z;
}.
(** A pointer to an array is NULL ([None]) or the bytes behind it. *)
Record rdp_udp2_ack := mk_udp2_ack {
  a2_sequence_number : Z;
  a2_received_timestamp : Z;
  a2_send_ack_time_gap_ms : Z;
  a2_delayed_ack_count : Z;
  a2_delayed_ack_time_scale : Z;
  a2_delayed_ack_time_additions : option (list Z);
}.
Record rdp_udp2_ack_vector := mk_udp2_ack_vector {
  v2_base_sequence_number : Z;
  v2_coded_ack_vector_size : Z;
  v2_timestamp_present : Z;
  v2_timestamp : Z;
  v2_send_ack_time_gap_ms : Z;
  v2_coded_ack_vector : option (list Z);
}.
Record rdp_udp2_ack_vector_entry := mk_udp2_ack_vector_entry {
  e2_mode : Z;
  e2_state : Z;
  e2_run_length : Z;
  e2_bitmap : Z;
}.
Record rdp_udp2_packet := mk_udp2_packet {
  p2_header : rdp_udp2_header;
  p2_has_ack : bool;
  p2_ack : rdp_udp2_ack;
  p2_has_overhead_size : bool;
  p2_overhead_size : Z;
  p2_has_delay_ack_info : bool;
  p2_max_delayed_acks : Z;
  p2_delayed_ack_timeout_ms : Z;
  p2_has_ack_of_acks : bool;
  p2_ack_of_acks_sequence_number : Z;
  p2_has_data : bool;
  p2_data_sequence_number : Z;
  p2_has_ack_vector : bool;
  p2_ack_vector : rdp_udp2_ack_vector;
  p2_data_body : view;         (** [data_body], [data_body_len] *)
}.
Record rdp_udp2_prefix := mk_udp2_prefix {
  px_packet_type : Z;
  px_short_packet_length : Z;
}.
Inductive rdp_udp2_packet_kind : Set :=
| RDP_UDP2_PACKET_KIND_ACK
| RDP_UDP2_PACKET_KIND_ACK_VECTOR
| RDP_UDP2_PACKET_KIND_ACK_OF_ACKS
| RDP_UDP2_PACKET_KIND_DATA
| RDP_UDP2_PACKET_KIND_DATA_WITH_ACK
| RDP_UDP2_PACKET_KIND_CONTROL.

(** What [memset(&packet, 0, sizeof(packet))] leaves in the sections. *)
Definition zero_ack : rdp_udp2_ack := mk_udp2_ack 0 0 0 0 0 None.
Definition zero_ack_vector : rdp_udp2_ack_vector := mk_udp2_ack_vector 0 0 0 0 0 None.

(** The test on the header's flags the parser, the writer and the validation share. *)
Definition udp2_flags_bad (flags : Z) : bool :=
  (flags =? 0) || negb (Z.land flags (u32 (Z.lnot RDP_UDP2_KNOWN_FLAGS)) =? 0) ||
  (has_flag flags RDP_UDP2_FLAG_ACK && has_flag flags RDP_UDP2_FLAG_ACKVEC).

(** The (pointer, length) pair of an append. *)
Definition pointer_view (p : option (list Z)) (n : Z) : res view :=
  match p with
  | None => Ok (NullView n)
  | Some l => l' ← slice l 0 n; mret (View l')
  end.
Definition pointer_null (p : option (list Z)) : bool :=
  match p with None => true | Some _ => false end.

(** ** Header *)

Definition rdp_udp2_parse_header (data : view) : res rdp_udp2_header :=
  ensure (negb (view_null data)) LIBRDP_STATUS_INVALID_ARGUMENT;;
  ensure (negb (view_len data <? RDP_UDP2_HEADER_LENGTH)) LIBRDP_STATUS_PROTOCOL_ERROR;;
  with_stream data (
    raw ← pr rdp_stream_read_u16_le;
    let flags := Z.land raw 0x0fff in
    let log_window_size := u8 (Z.shiftr raw 12) in
    require (negb (udp2_flags_bad flags)) LIBRDP_STATUS_PROTOCOL_ERROR;;
    mret (mk_udp2_header flags log_window_size)).

Definition rdp_udp2_write_header (header : rdp_udp2_header) : writer unit :=
  require (negb ((15 <? h2_log_window_size header) || udp2_flags_bad (h2_flags header)))
    LIBRDP_STATUS_INVALID_ARGUMENT;;
  rdp_buffer_append_u16_le (u16 (Z.lor (h2_flags header) (Z.shiftl (h2_log_window_size header) 12))).

(** ** Sections *)

Definition rdp_udp2_parse_ack : reader rdp_udp2_ack :=
  remaining ← rdp_stream_remaining;
  require (negb (remaining <? 7)) LIBRDP_STATUS_PROTOCOL_ERROR;;
  sequence_number ← pr rdp_stream_read_u16_le;
  timestamp ← pr (rdp_stream_read_bytes 3);
  gap ← pr rdp_stream_read_u8;
  packed ← pr rdp_stream_read_u8;
  received_timestamp ← lift (rdp_udp_read_u24_le timestamp);
  let count := Z.land packed 0x0f in
  let scale := u8 (Z.shiftr packed 4) in
  remaining ← rdp_stream_remaining;
  require (negb (remaining <? count)) LIBRDP_STATUS_PROTOCOL_ERROR;;
  additions ← pr (rdp_stream_read_bytes count);
  mret (mk_udp2_ack sequence_number received_timestamp gap count scale (Some additions)).

Definition rdp_udp2_parse_ack_vector_payload : reader rdp_udp2_ack_vector :=
  remaining ← rdp_stream_remaining;
  require (negb (remaining <? 3)) LIBRDP_STATUS_PROTOCOL_ERROR;;
  base ← pr rdp_stream_read_u16_le;
  packed ← pr rdp_stream_read_u8;
  let size := Z.land packed 0x7f in
  let present := u8 (Z.land (Z.shiftr packed 7) 1) in
  '(timestamp, gap) ←
    (if negb (present =? 0) then
       remaining ← rdp_stream_remaining;
       require (negb (remaining <? 4)) LIBRDP_STATUS_PROTOCOL_ERROR;;
       bytes ← pr (rdp_stream_read_bytes 3);
       gap ← pr rdp_stream_read_u8;
       timestamp ← lift (rdp_udp_read_u24_le bytes);
       mret (timestamp, gap)
     else mret (0, 0));
  remaining ← rdp_stream_remaining;
  require (negb (remaining <? size)) LIBRDP_STATUS_PROTOCOL_ERROR;;
  vector ← pr (rdp_stream_read_bytes size);
  mret (mk_udp2_ack_vector base size present timestamp gap (Some vector)).

(** The guard shared by the validation and the writer of the ACK section. *)
Definition ack_bad (ack : rdp_udp2_ack) : bool :=
  (0x00ffffff <? a2_received_timestamp ack) || (15 <? a2_delayed_ack_count ack) ||
  (15 <? a2_delayed_ack_time_scale ack) ||
  (pointer_null (a2_delayed_ack_time_additions ack) && (0 <? a2_delayed_ack_count ack)).

Definition ack_vector_bad (v : rdp_udp2_ack_vector) : bool :=
  (0x7f <? v2_coded_ack_vector_size v) || (1 <? v2_timestamp_present v) ||
  (negb (v2_timestamp_present v =? 0) && (0x00ffffff <? v2_timestamp v)) ||
  (pointer_null (v2_coded_ack_vector v) && (0 <? v2_coded_ack_vector_size v)).

Definition rdp_udp2_write_ack (ack : rdp_udp2_ack) : writer unit :=
  require (negb (ack_bad ack)) LIBRDP_STATUS_INVALID_ARGUMENT;;
  rdp_buffer_append_u16_le (a2_sequence_number ack);;
  rdp_udp_append_u24_le (a2_received_timestamp ack);;
  rdp_buffer_append_u8 (a2_send_ack_time_gap_ms ack);;
  rdp_buffer_append_u8 (u8 (Z.lor (a2_delayed_ack_count ack)
                                  (u8 (Z.shiftl (a2_delayed_ack_time_scale ack) 4))));;
  additions ← lift (pointer_view (a2_delayed_ack_time_additions ack) (a2_delayed_ack_count ack));
  rdp_buffer_append additions.

Definition rdp_udp2_write_ack_vector_payload (v : rdp_udp2_ack_vector) : writer unit :=
  require (negb (ack_vector_bad v)) LIBRDP_STATUS_INVALID_ARGUMENT;;
  rdp_buffer_append_u16_le (v2_base_sequence_number v);;
  rdp_buffer_append_u8 (if negb (v2_timestamp_present v =? 0)
                        then u8 (Z.lor (v2_coded_ack_vector_size v) 0x80)
                        else v2_coded_ack_vector_size v);;
  (if negb (v2_timestamp_present v =? 0) then
     rdp_udp_append_u24_le (v2_timestamp v);;
     rdp_buffer_append_u8 (v2_send_ack_time_gap_ms v)
   else mret tt);;
  vector ← lift (pointer_view (v2_coded_ack_vector v) (v2_coded_ack_vector_size v));
  rdp_buffer_append vector.

(** ** Packets *)

(** The [expected_flags |= ...] chain. *)
Definition expected_flags (p : rdp_udp2_packet) : Z :=
  let add (c : bool) (flag flags : Z) := if c then Z.lor flags flag else flags in
  add (p2_has_ack_vector p) RDP_UDP2_FLAG_ACKVEC
    (add (p2_has_data p) RDP_UDP2_FLAG_DATA
      (add (p2_has_ack_of_acks p) RDP_UDP2_FLAG_AOA
        (add (p2_has_delay_ack_info p) RDP_UDP2_FLAG_DELAYACKINFO
          (add (p2_has_overhead_size p) RDP_UDP2_FLAG_OVERHEADSIZE
            (add (p2_has_ack p) RDP_UDP2_FLAG_ACK 0))))).

Definition rdp_udp2_validate_packet (p : rdp_udp2_packet) : res unit :=
  ensure (negb ((15 <? h2_log_window_size (p2_header p)) || udp2_flags_bad (h2_flags (p2_header p))))
    LIBRDP_STATUS_PROTOCOL_ERROR;;
  ensure (h2_flags (p2_header p) =? expected_flags p) LIBRDP_STATUS_PROTOCOL_ERROR;;
  ensure (negb (p2_has_ack p && ack_bad (p2_ack p))) LIBRDP_STATUS_PROTOCOL_ERROR;;
  ensure (negb (p2_has_delay_ack_info p && (15 <? p2_max_delayed_acks p)))
    LIBRDP_STATUS_PROTOCOL_ERROR;;
  ensure (negb (p2_has_ack_vector p && ack_vector_bad (p2_ack_vector p)))
    LIBRDP_STATUS_PROTOCOL_ERROR;;
  ensure (negb (negb (p2_has_data p) && (0 <? view_len (p2_data_body p))))
    LIBRDP_STATUS_PROTOCOL_ERROR;;
  ensure (negb (p2_has_data p && (view_len (p2_data_body p) =? 0))) LIBRDP_STATUS_PROTOCOL_ERROR;;
  ensure (negb (p2_has_data p && view_null (p2_data_body p))) LIBRDP_STATUS_PROTOCOL_ERROR.

(** What follows the header: the sections its flags announce, in their order on
    the wire, and the checks on the packet they make up. *)
Definition parse_sections (header : rdp_udp2_header) : reader rdp_udp2_packet :=
  let has := has_flag (h2_flags header) in
  pr (rdp_stream_skip RDP_UDP2_HEADER_LENGTH);;
  ack ← (if has RDP_UDP2_FLAG_ACK then pr rdp_udp2_parse_ack else mret zero_ack);
  overhead_size ← (if has RDP_UDP2_FLAG_OVERHEADSIZE then pr rdp_stream_read_u8 else mret 0);
  '(max_delayed_acks, timeout) ←
    (if has RDP_UDP2_FLAG_DELAYACKINFO then
       max ← pr rdp_stream_read_u8;
       require (negb (15 <? max)) LIBRDP_STATUS_PROTOCOL_ERROR;;
       timeout ← pr rdp_stream_read_u16_le;
       mret (max, timeout)
     else mret (0, 0));
  ack_of_acks ← (if has RDP_UDP2_FLAG_AOA then pr rdp_stream_read_u16_le else mret 0);
  data_sequence ← (if has RDP_UDP2_FLAG_DATA then pr rdp_stream_read_u16_le else mret 0);
  ack_vector ← (if has RDP_UDP2_FLAG_ACKVEC then pr rdp_udp2_parse_ack_vector_payload
                else mret zero_ack_vector);
  let packet := mk_udp2_packet header (has RDP_UDP2_FLAG_ACK) ack
    (has RDP_UDP2_FLAG_OVERHEADSIZE) overhead_size
    (has RDP_UDP2_FLAG_DELAYACKINFO) max_delayed_acks timeout
    (has RDP_UDP2_FLAG_AOA) ack_of_acks (has RDP_UDP2_FLAG_DATA) data_sequence
    (has RDP_UDP2_FLAG_ACKVEC) ack_vector in
  if has RDP_UDP2_FLAG_DATA then
    body ← gets unread;
    lift (rdp_udp2_validate_packet (packet (View body)));;
    mret (packet (View body))
  else
    remaining ← rdp_stream_remaining;
    require (remaining =? 0) LIBRDP_STATUS_PROTOCOL_ERROR;;
    lift (rdp_udp2_validate_packet (packet (NullView 0)));;
    mret (packet (NullView 0)).

Definition rdp_udp2_parse_packet (data : view) : res rdp_udp2_packet :=
  ensure (negb (view_null data)) LIBRDP_STATUS_INVALID_ARGUMENT;;
  ensure (negb (view_len data <? RDP_UDP2_HEADER_LENGTH)) LIBRDP_STATUS_PROTOCOL_ERROR;;
  header ← match rdp_udp2_parse_header data with
           | Err _ => Err LIBRDP_STATUS_PROTOCOL_ERROR
           | r => r
           end;
  with_stream data (parse_sections header).

Definition rdp_udp2_write_packet (p : rdp_udp2_packet) : writer unit :=
  require (is_ok (rdp_udp2_validate_packet p)) LIBRDP_STATUS_INVALID_ARGUMENT;;
  rdp_udp_restore_on_error (
    rdp_udp2_write_header (p2_header p);;
    (if p2_has_ack p then rdp_udp2_write_ack (p2_ack p) else mret tt);;
    (if p2_has_overhead_size p then rdp_buffer_append_u8 (p2_overhead_size p) else mret tt);;
    (if p2_has_delay_ack_info p then
       rdp_buffer_append_u8 (p2_max_delayed_acks p);;
       rdp_buffer_append_u16_le (p2_delayed_ack_timeout_ms p)
     else mret tt);;
    (if p2_has_ack_of_acks p then rdp_buffer_append_u16_le (p2_ack_of_acks_sequence_number p)
     else mret tt);;
    (if p2_has_data p then rdp_buffer_append_u16_le (p2_data_sequence_number p) else mret tt);;
    (if p2_has_ack_vector p then rdp_udp2_write_ack_vector_payload (p2_ack_vector p) else mret tt);;
    if p2_has_data p then rdp_buffer_append (p2_data_body p) else mret tt).

Definition rdp_udp2_classify_packet (p : rdp_udp2_packet) : res rdp_udp2_packet_kind :=
  ensure (is_ok (rdp_udp2_validate_packet p)) LIBRDP_STATUS_PROTOCOL_ERROR;;
  mret (if p2_has_data p && (p2_has_ack p || p2_has_ack_vector p || p2_has_ack_of_acks p)
        then RDP_UDP2_PACKET_KIND_DATA_WITH_ACK
        else if p2_has_data p then RDP_UDP2_PACKET_KIND_DATA
        else if p2_has_ack_vector p then RDP_UDP2_PACKET_KIND_ACK_VECTOR
        else if p2_has_ack p then RDP_UDP2_PACKET_KIND_ACK
        else if p2_has_ack_of_acks p then RDP_UDP2_PACKET_KIND_ACK_OF_ACKS
        else RDP_UDP2_PACKET_KIND_CONTROL).

(** ** The coded ACK vector *)

Definition rdp_udp2_ack_vector_decode_entry (value : Z) : res rdp_udp2_ack_vector_entry :=
  if negb (Z.land value 0x80 =? 0) then
    mret (mk_udp2_ack_vector_entry RDP_UDP2_ACK_VECTOR_MODE_RLE
            (if negb (Z.land value 0x40 =? 0) then RDP_UDP2_ACK_VECTOR_STATE_RECEIVED
             else RDP_UDP2_ACK_VECTOR_STATE_LOST)
            (u8 (Z.land value 0x3f)) 0)
  else
    mret (mk_udp2_ack_vector_entry RDP_UDP2_ACK_VECTOR_MODE_BITMAP 0 0 (u8 (Z.land value 0x7f))).

(** [for (bit = 0; bit < 7u; bit++)]; [n] iterations are left. *)
Fixpoint bitmap_count_loop (bitmap : Z) (n : nat) (bit received lost : Z) : Z * Z :=
  match n with
  | O => (received, lost)
  | S n =>
      if negb (Z.land bitmap (u8 (Z.shiftl 1 bit)) =? 0)
      then bitmap_count_loop bitmap n (bit + 1) (u32 (received + 1)) lost
      else bitmap_count_loop bitmap n (bit + 1) received (u32 (lost + 1))
  end.

Fixpoint udp2_ack_vector_count_loop (vector : list Z) (n : nat) (i received lost : Z) :
    res (Z * Z) :=
  match n with
  | O => mret (received, lost)
  | S n =>
      value ← rd vector i;
      entry ← rdp_udp2_ack_vector_decode_entry value;
      if e2_mode entry =? RDP_UDP2_ACK_VECTOR_MODE_RLE then
        let run := u32 (e2_run_length entry + 1) in
        if e2_state entry =? RDP_UDP2_ACK_VECTOR_STATE_RECEIVED
        then udp2_ack_vector_count_loop vector n (i + 1) (u32 (received + run)) lost
        else udp2_ack_vector_count_loop vector n (i + 1) received (u32 (lost + run))
      else
        let '(received, lost) := bitmap_count_loop (e2_bitmap entry) 7 0 received lost in
        udp2_ack_vector_count_loop vector n (i + 1) received lost
  end.

Definition rdp_udp2_ack_vector_count (v : rdp_udp2_ack_vector) : res (Z * Z) :=
  match v2_coded_ack_vector v with
  | None =>
      ensure (negb (0 <? v2_coded_ack_vector_size v)) LIBRDP_STATUS_INVALID_ARGUMENT;; mret (0, 0)
  | Some vector => udp2_ack_vector_count_loop vector (Z.to_nat (v2_coded_ack_vector_size v)) 0 0 0
  end.

(** ** Packets of one section *)

Definition rdp_udp2_write_data_packet (log_window_size data_sequence_number : Z) (data : view) :
    writer unit :=
  require (negb (view_null data && (0 <? view_len data))) LIBRDP_STATUS_INVALID_ARGUMENT;;
  rdp_udp2_write_packet (mk_udp2_packet (mk_udp2_header RDP_UDP2_FLAG_DATA log_window_size)
    false zero_ack false 0 false 0 0 false 0 true data_sequence_number false zero_ack_vector data).

Definition rdp_udp2_write_ack_packet (log_window_size sequence_number received_timestamp
    send_ack_time_gap_ms : Z) (delayed_ack_time_additions : option (list Z))
    (delayed_ack_count delayed_ack_time_scale : Z) : writer unit :=
  require (negb ((0x00ffffff <? received_timestamp) || (15 <? delayed_ack_count) ||
                 (15 <? delayed_ack_time_scale) ||
                 (pointer_null delayed_ack_time_additions && (0 <? delayed_ack_count))))
    LIBRDP_STATUS_INVALID_ARGUMENT;;
  rdp_udp2_write_packet (mk_udp2_packet (mk_udp2_header RDP_UDP2_FLAG_ACK log_window_size)
    true (mk_udp2_ack sequence_number received_timestamp send_ack_time_gap_ms delayed_ack_count
            delayed_ack_time_scale delayed_ack_time_additions)
    false 0 false 0 0 false 0 false 0 false zero_ack_vector (NullView 0)).

Definition rdp_udp2_write_ack_vector_packet (log_window_size base_sequence_number
    timestamp_present timestamp send_ack_time_gap_ms : Z) (coded_ack_vector : option (list Z))
    (coded_ack_vector_size : Z) : writer unit :=
  require (negb ((1 <? timestamp_present) ||
                 (negb (timestamp_present =? 0) && (0x00ffffff <? timestamp)) ||
                 (pointer_null coded_ack_vector && (0 <? coded_ack_vector_size)) ||
                 (0x7f <? coded_ack_vector_size))) LIBRDP_STATUS_INVALID_ARGUMENT;;
  rdp_udp2_write_packet (mk_udp2_packet (mk_udp2_header RDP_UDP2_FLAG_ACKVEC log_window_size)
    false zero_ack false 0 false 0 0 false 0 false 0 true
    (mk_udp2_ack_vector base_sequence_number coded_ack_vector_size timestamp_present timestamp
       send_ack_time_gap_ms coded_ack_vector) (NullView 0)).

Definition rdp_udp2_write_ack_of_acks_packet (log_window_size sequence_number : Z) : writer unit :=
  rdp_udp2_write_packet (mk_udp2_packet (mk_udp2_header RDP_UDP2_FLAG_AOA log_window_size)
    false zero_ack false 0 false 0 0 true sequence_number false 0 false zero_ack_vector (NullView 0)).

(** ** The wire layout: the prefix byte takes the place of the packet's seventh
    byte, which moves to the front *)

Definition rdp_udp2_parse_prefix (value : Z) : res rdp_udp2_prefix :=
  ensure (Z.land value 0x01 =? 0) LIBRDP_STATUS_PROTOCOL_ERROR;;
  let packet_type := u8 (Z.shiftr (Z.land value 0x1e) 1) in
  let short_packet_length := u8 (Z.shiftr value 5) in
  ensure (negb (negb (packet_type =? RDP_UDP2_PACKET_TYPE_DATA) &&
                negb (packet_type =? RDP_UDP2_PACKET_TYPE_DUMMY))) LIBRDP_STATUS_PROTOCOL_ERROR;;
  ensure (negb ((packet_type =? RDP_UDP2_PACKET_TYPE_DATA) && (short_packet_length =? 0)))
    LIBRDP_STATUS_PROTOCOL_ERROR;;
  mret (mk_udp2_prefix packet_type short_packet_length).

(** The raw stores of [rdp_udp2_wrap_packet] into the reserved block, at [at_]. *)
Definition wrap_store (block : list Z) (at_ : Z) (bytes : list Z) (output_len prefix : Z) :
    res (list Z) :=
  block ← write_at block at_ (replicate (Z.to_nat output_len) 0);
  block ← wr block at_ prefix;
  block ← (if 0 <? blen bytes then write_at block (at_ + 1) bytes else Ok block);
  seventh ← rd block (at_ + 7);
  block ← wr block at_ seventh;
  wr block (at_ + 7) prefix.

Definition rdp_udp2_wrap_packet (packet : view) (packet_type : Z) : writer unit :=
  let packet_len := view_len packet in
  require (negb ((view_null packet && (0 <? packet_len)) ||
      (negb (packet_type =? RDP_UDP2_PACKET_TYPE_DATA) &&
       negb (packet_type =? RDP_UDP2_PACKET_TYPE_DUMMY)) ||
      (UINT16_MAX <? packet_len) ||
      ((packet_type =? RDP_UDP2_PACKET_TYPE_DATA) && (packet_len =? 0))))
    LIBRDP_STATUS_INVALID_ARGUMENT;;
  let padded_len := if packet_len <? 7 then 7 else packet_len in
  let short_len := if packet_len <? 7 then u8 packet_len else 7 in
  let prefix := u8 (Z.lor (Z.shiftl packet_type 1) (Z.shiftl short_len 5)) in
  let output_len := size_t (padded_len + 1) in
  output ← get_buffer;
  require (negb (SIZE_MAX - b_length output <? output_len)) LIBRDP_STATUS_NO_MEMORY;;
  rdp_buffer_reserve (b_length output + output_len);;
  output ← get_buffer;
  blk ← lift (wrap_store (block output) (b_length output) (view_bytes packet) output_len prefix);
  put_buffer (set_block blk (b_capacity output) output);;
  output ← get_buffer;
  put_buffer (set_length (b_length output + output_len) output);;
  mret tt.

(** [for (i = first; i < 7u; i++) if (bytes[i] != 0) return PROTOCOL_ERROR;], with
    [n] iterations left. *)
Fixpoint check_zero_loop (bytes : list Z) (n : nat) (i : Z) : res unit :=
  match n with
  | O => mret tt
  | S n =>
      b ← rd bytes i;
      ensure (b =? 0) LIBRDP_STATUS_PROTOCOL_ERROR;;
      check_zero_loop bytes n (i + 1)
  end.

(** The length of the packet inside the datagram. *)
Definition unwrap_layout_len (bytes : list Z) (prefix : rdp_udp2_prefix) : res Z :=
  let short := px_short_packet_length prefix in
  b0 ← rd bytes 0;
  if (0 <? short) && (short <? 7) then
    ensure (negb (negb (blen bytes =? 8) || negb (b0 =? 0))) LIBRDP_STATUS_PROTOCOL_ERROR;;
    check_zero_loop bytes (Z.to_nat (7 - (short + 1))) (short + 1);;
    mret short
  else if (short =? 0) && (blen bytes =? 8) && (b0 =? 0) then
    check_zero_loop bytes 6 1;;
    mret 0
  else mret (blen bytes - 1).

(** The raw stores of [rdp_udp2_unwrap_packet]. *)
Definition unwrap_store (block : list Z) (at_ : Z) (bytes : list Z) (layout_len : Z) :
    res (list Z) :=
  if layout_len <=? 6 then src ← slice bytes 1 layout_len; write_at block at_ src
  else
    src ← slice bytes 1 6;
    block ← write_at block at_ src;
    b0 ← rd bytes 0;
    block ← wr block (at_ + 6) b0;
    if 7 <? layout_len then
      src ← slice bytes 8 (layout_len - 7);
      write_at block (at_ + 7) src
    else Ok block.

Definition rdp_udp2_unwrap_packet (wire : view) : writer rdp_udp2_prefix :=
  let wire_len := view_len wire in
  require (negb (view_null wire || (wire_len <=? 7))) LIBRDP_STATUS_INVALID_ARGUMENT;;
  let bytes := view_bytes wire in
  prefix_byte ← lift (rd bytes 7);
  prefix ← lift (rdp_udp2_parse_prefix prefix_byte);
  layout_len ← lift (unwrap_layout_len bytes prefix);
  output ← get_buffer;
  require (negb (SIZE_MAX - b_length output <? layout_len)) LIBRDP_STATUS_NO_MEMORY;;
  rdp_buffer_reserve (b_length output + layout_len);;
  if layout_len =? 0 then mret prefix else
  output ← get_buffer;
  blk ← lift (unwrap_store (block output) (b_length output) bytes layout_len);
  put_buffer (set_block blk (b_capacity output) output);;
  output ← get_buffer;
  put_buffer (set_length (b_length output + layout_len) output);;
  mret prefix.

(** ** Encodings and typing *)

#[local] Arguments le16 : simpl never.
#[local] Arguments le24 : simpl never.

Definition udp2_header_enc (h : rdp_udp2_header) : list Z :=
  le16 (h2_flags h + h2_log_window_size h * 0x1000).
Definition udp2_header_typed (h : rdp_udp2_header) : Prop :=
  is_u16 (h2_flags h) /\ is_byte (h2_log_window_size h).
Definition udp2_header_valid (h : rdp_udp2_header) : bool :=
  negb ((15 <? h2_log_window_size h) || udp2_flags_bad (h2_flags h)).

Definition udp2_ack_enc (a : rdp_udp2_ack) : list Z :=
  le16 (a2_sequence_number a) ++ le24 (a2_received_timestamp a) ++ [a2_send_ack_time_gap_ms a] ++
  [a2_delayed_ack_count a + a2_delayed_ack_time_scale a * 16] ++
  default [] (a2_delayed_ack_time_additions a).
Definition udp2_ack_typed (a : rdp_udp2_ack) : Prop :=
  is_u16 (a2_sequence_number a) /\ is_u32 (a2_received_timestamp a) /\
  is_byte (a2_send_ack_time_gap_ms a) /\ is_byte (a2_delayed_ack_count a) /\
  is_byte (a2_delayed_ack_time_scale a) /\
  exists l, a2_delayed_ack_time_additions a = Some l /\ blen l = a2_delayed_ack_count a /\ bytes l.

Definition udp2_ack_vector_enc (v : rdp_udp2_ack_vector) : list Z :=
  le16 (v2_base_sequence_number v) ++
  [v2_coded_ack_vector_size v + v2_timestamp_present v * 128] ++
  (if v2_timestamp_present v =? 0 then []
   else le24 (v2_timestamp v) ++ [v2_send_ack_time_gap_ms v]) ++
  default [] (v2_coded_ack_vector v).
Definition udp2_ack_vector_typed (v : rdp_udp2_ack_vector) : Prop :=
  is_u16 (v2_base_sequence_number v) /\ is_byte (v2_coded_ack_vector_size v) /\
  is_byte (v2_timestamp_present v) /\ is_u32 (v2_timestamp v) /\
  is_byte (v2_send_ack_time_gap_ms v) /\
  (v2_timestamp_present v = 0 -> v2_timestamp v = 0 /\ v2_send_ack_time_gap_ms v = 0) /\
  exists l, v2_coded_ack_vector v = Some l /\ blen l = v2_coded_ack_vector_size v /\ bytes l.

(** ** Lemmas: flags and packed bytes *)

Lemma flags_below f : is_u16 f -> udp2_flags_bad f = false -> 0 < f < 0x1000.
Proof.
  unfold udp2_flags_bad. intros Hf H. bool_prop.
  assert (E : Z.land f (u32 (Z.lnot RDP_UDP2_KNOWN_FLAGS)) = 0) by lia.
  change (u32 (Z.lnot RDP_UDP2_KNOWN_FLAGS)) with (Z.lor (Z.shiftl (Z.ones 23) 9) 0xa2) in E.
  rewrite Z.land_lor_distr_r in E. apply Z.lor_eq_0_iff in E as [E _].
  rewrite land_high in E by (done || lia). unfold is_u16 in Hf. bits_norm.
  Z.div_mod_to_equations. lia.
Qed.

#[export] Instance udp2_header_codec :
  Codec rdp_udp2_parse_header rdp_udp2_write_header
    udp2_header_enc udp2_header_typed udp2_header_valid any_tail.
Proof.
  eapply (codec_intro _ _ _ _ _ _ _ (fun n => negb (n <? 2))).
  - intros d. unfold rdp_udp2_parse_header. rewrite ensure_true, ensure_bind by done. reflexivity.
  - done.
  - split; [|intros ? ? ? ? H|safe_walk|apply _].
    + intros [f w] rest [(Hf & Hw) Hv] _. unfold udp2_header_enc, udp2_header_valid in *. cbn in *.
      bool_prop. pose proof (flags_below f Hf ltac:(done)). unfold is_byte in Hw.
      pstep; [apply parses_read_u16_le; unfold is_u16; lia|]. cbv zeta.
      assert (E1 : Z.land (f + w * 0x1000) 0x0fff = f) by bits_lia.
      assert (E2 : u8 (Z.shiftr (f + w * 0x1000) 12) = w).
      { unfold u8. bits_norm. Z.div_mod_to_equations. lia. }
      rewrite E1, E2. pstep; [by apply negb_true_iff|]. apply parses_ret.
    + run_step H. repeat read_inv. cbv zeta in H. run_step H. repeat read_inv.
      unfold udp2_header_enc, udp2_header_typed, udp2_header_valid, any_tail. cbn.
      match goal with G : is_u16 a0 |- _ => unfold is_u16 in G end.
      set (w := u8 (Z.shiftr a0 12)). set (f := Z.land a0 0x0fff).
      assert (Hw : 0 <= w < 16) by (unfold w, u8; bits_norm; Z.div_mod_to_equations; lia).
      assert (Hf : 0 <= f < 0x1000) by (unfold f; bits_lia).
      assert (E : f + w * 0x1000 = a0) by (unfold f, w, u8; bits_norm; Z.div_mod_to_equations; lia).
      rewrite E. split_and!; try done; [unfold is_u16; lia|unfold is_byte; lia|].
      apply negb_true_iff, orb_false_iff. split; [lia|by apply negb_true_iff].
  - unfold udp2_header_enc. intros. zlen.
  - intros [f w] (Hf & Hw) Hv. unfold rdp_udp2_write_header, udp2_header_valid, udp2_header_enc in *.
    cbn in *. apply writes_atomic_require; [done|]. bool_prop.
    pose proof (flags_below f Hf ltac:(done)). unfold is_byte in Hw.
    rewrite (lor_shiftl 12) by lia. unfold u16. rewrite Z.mod_small by lia.
    by apply append_atomic.
  - intros h _ Hv. by apply rejects_require.
Qed.

Lemma u24_parses v rest : 0 <= v < 0x1000000 ->
  Parses (pr (rdp_stream_read_bytes 3)) (le24 v ++ rest) rest (le24 v).
Proof. intros. by apply parses_coerce, parses_read_bytes. Qed.

Lemma read_u24_le24 v : 0 <= v < 0x1000000 -> rdp_udp_read_u24_le (le24 v) = Ok v.
Proof. intros. unfold rdp_udp_read_u24_le, le24. rd_eval. cbn [mbind res_bind]. by rewrite val24_le24. Qed.

Lemma read_u24_inv l v :
  bytes l -> blen l = 3 -> rdp_udp_read_u24_le l = Ok v -> l = le24 v /\ 0 <= v < 0x1000000.
Proof.
  intros Hb Hl. destruct l as [|p0 [|p1 [|p2 [|]]]]; try zlen.
  repeat (apply Forall_cons_1 in Hb as [? Hb]). unfold rdp_udp_read_u24_le. cbn -[val24].
  intros [= <-]. rewrite val24_arith by done. unfold le24, is_byte in *.
  split; [repeat f_equal; bits_lia|lia].
Qed.

Lemma append_u24_writes v : 0 <= v < 0x1000000 ->
  Writes (rdp_udp_append_u24_le v) (le24 v) (fun _ => True).
Proof. intros. apply writes_require; [lia|]. apply writes_append. Qed.

(** ** Lemmas: the sections *)

Lemma nibbles p : is_byte p ->
  let lo := Z.land p 0x0f in let hi := u8 (Z.shiftr p 4) in
  0 <= lo < 16 /\ 0 <= hi < 16 /\ lo + hi * 16 = p.
Proof.
  intros Hp lo hi. unfold is_byte in Hp. subst lo hi. unfold u8. bits_norm.
  Z.div_mod_to_equations. lia.
Qed.
Lemma nibbles_packed lo hi : 0 <= lo < 16 -> 0 <= hi < 16 ->
  Z.land (lo + hi * 16) 0x0f = lo /\ u8 (Z.shiftr (lo + hi * 16) 4) = hi /\
  u8 (Z.lor lo (u8 (Z.shiftl hi 4))) = lo + hi * 16.
Proof.
  intros Hlo Hhi. assert (E : u8 (Z.shiftl hi 4) = hi * 2 ^ 4).
  { unfold u8. bits_norm. rewrite Z.mod_small by lia. done. }
  rewrite E, lor_add by lia. unfold u8. bits_norm.
  split; [Z.div_mod_to_equations; lia|]. split; [Z.div_mod_to_equations; lia|].
  rewrite Z.mod_small; lia.
Qed.
Lemma size_flag p : is_byte p ->
  let lo := Z.land p 0x7f in let hi := u8 (Z.land (Z.shiftr p 7) 1) in
  0 <= lo < 128 /\ 0 <= hi <= 1 /\ lo + hi * 128 = p.
Proof.
  intros Hp lo hi. unfold is_byte in Hp. subst lo hi. unfold u8.
  change (Z.land (Z.shiftr p 7) 1) with (Z.land (Z.shiftr p 7) 0x01). bits_norm.
  Z.div_mod_to_equations. lia.
Qed.
Lemma size_flag_packed lo hi : 0 <= lo < 128 -> 0 <= hi <= 1 ->
  Z.land (lo + hi * 128) 0x7f = lo /\ u8 (Z.land (Z.shiftr (lo + hi * 128) 7) 1) = hi /\
  (if negb (hi =? 0) then u8 (Z.lor lo 0x80) else lo) = lo + hi * 128.
Proof.
  intros Hlo Hhi. change 0x80 with (1 * 2 ^ 7). rewrite lor_add by lia.
  change (Z.land (Z.shiftr (lo + hi * 128) 7) 1) with (Z.land (Z.shiftr (lo + hi * 128) 7) 0x01).
  unfold u8. bits_norm.
  split; [Z.div_mod_to_equations; lia|]. split; [Z.div_mod_to_equations; lia|].
  destruct (Z.eqb_spec hi 0); cbn [negb]; [lia|]. rewrite Z.mod_small; lia.
Qed.

Definition udp2_ack_ok (a : rdp_udp2_ack) : Prop := udp2_ack_typed a /\ ack_bad a = false.
Definition udp2_ack_vector_ok (v : rdp_udp2_ack_vector) : Prop :=
  udp2_ack_vector_typed v /\ ack_vector_bad v = false.

Lemma read_u24_defined l : blen l = 3 -> rdp_udp_read_u24_le l <> Fault.
Proof. intros Hl. destruct l as [|? [|? [|? [|]]]]; try zlen. done. Qed.
#[export] Instance only_err_u24 l st : OnlyErr (lift (rdp_udp_read_u24_le l)) st.
Proof.
  intros s st'. unfold lift, rdp_udp_read_u24_le. cbn [fst].
  unfold rd. repeat (case_match; cbn; try done).
Qed.

Lemma udp2_ack_wire : WireReader rdp_udp2_parse_ack udp2_ack_enc udp2_ack_ok any_tail.
Proof.
  split; [| | |apply _].
  - intros [sq ts g c sc ad] rest [(Hs & Ht & Hg & Hc & Hsc & l & Hl & Hn & Hb) Hbad] _.
    unfold udp2_ack_enc, ack_bad in *. cbn in Hs, Ht, Hg, Hc, Hsc, Hl, Hn, Hbad. subst ad.
    unfold is_u32, is_byte in *. cbn [a2_sequence_number a2_received_timestamp
      a2_send_ack_time_gap_ms a2_delayed_ack_count a2_delayed_ack_time_scale
      a2_delayed_ack_time_additions default from_option id].
    destruct (nibbles_packed c sc ltac:(lia) ltac:(lia)) as (E1 & E2 & _).
    rewrite <- !app_assoc. unfold rdp_udp2_parse_ack. pstep. pstep. pstep; [by apply parses_read_u16_le|].
    eapply parses_bind; [apply u24_parses; lia|].
    pstep; [apply parses_read_u8|]. pstep; [apply parses_read_u8|].
    eapply parses_bind; [apply parses_lift, read_u24_le24; lia|]. cbv zeta. rewrite E1, E2.
    pstep. pstep. pstep; [by apply parses_read_bytes|]. apply parses_ret.
  - intros s a s' Hs H. unfold rdp_udp2_parse_ack in H.
    repeat (run_step H; repeat first [read_inv|block_inv]). repeat read_inv.
    match goal with G : is_byte a4 |- _ => destruct (nibbles a4 G) as (Hlo & Hhi & Hp) end.
    apply read_bytes_inv in E as (Hu & Hl & Hw & Hb); [|done|lia].
    match goal with G : rdp_udp_read_u24_le a2 = _ |- _ =>
      apply read_u24_inv in G as [-> Hts]; [|done..] end.
    unread_chain. unfold udp2_ack_enc, udp2_ack_ok, udp2_ack_typed, ack_bad, any_tail.
    cbn. rewrite Hp, <- !app_assoc. split_and!; try done; unfold is_u32, is_byte in *; try lia.
    by exists a7.
  - unfold rdp_udp2_parse_ack. safe_walk; [by apply read_u24_defined|].
    eapply safe_bind; [apply safe_coerce, safe_read_bytes; bits_lia|intros; by apply safe_ret].
Qed.

(** The optional timestamp of an ACK vector. *)
Definition timestamp_enc (present ts gap : Z) : list Z :=
  if present =? 0 then [] else le24 ts ++ [gap].

Section timestamp.
Context (present : Z) (Hpresent : 0 <= present <= 1).
Let body : reader (Z * Z) :=
  if negb (present =? 0) then
    remaining ← rdp_stream_remaining;
    require (negb (remaining <? 4)) LIBRDP_STATUS_PROTOCOL_ERROR;;
    bytes ← pr (rdp_stream_read_bytes 3);
    gap ← pr rdp_stream_read_u8;
    timestamp ← lift (rdp_udp_read_u24_le bytes);
    mret (timestamp, gap)
  else mret (0, 0).

Lemma timestamp_parses ts gap rest :
  0 <= ts < 0x1000000 -> (present = 0 -> ts = 0 /\ gap = 0) ->
  Parses body (timestamp_enc present ts gap ++ rest) rest (ts, gap).
Proof.
  intros Ht Hz. unfold body, timestamp_enc. destruct (Z.eqb_spec present 0) as [E|E]; cbn [negb].
  - destruct (Hz E) as [-> ->]. apply parses_ret.
  - rewrite <- app_assoc. pstep. pstep. eapply parses_bind; [by apply u24_parses|].
    pstep; [apply parses_read_u8|]. eapply parses_bind; [by apply parses_lift, read_u24_le24|].
    apply parses_ret.
Qed.

Lemma timestamp_inv s r s' :
  stream_wf s -> body s = (Ok r, s') ->
  unread s = timestamp_enc present r.1 r.2 ++ unread s' /\ 0 <= r.1 < 0x1000000 /\
  is_byte r.2 /\ (present = 0 -> r.1 = 0 /\ r.2 = 0) /\ stream_wf s'.
Proof.
  intros Hs. unfold body, timestamp_enc. destruct (Z.eqb_spec present 0) as [E|E]; cbn [negb]; intros H.
  - injection H as <- <-. split_and!; try done; unfold is_byte; lia.
  - repeat (run_step H; repeat first [read_inv|block_inv]). repeat read_inv.
    match goal with G : rdp_udp_read_u24_le _ = _ |- _ =>
      apply read_u24_inv in G as [-> Hts]; [|done..] end.
    unread_chain. cbn [fst snd]. rewrite <- app_assoc. split_and!; try done; lia.
Qed.

Lemma timestamp_safe : Safe body (fun _ => True).
Proof. unfold body. safe_walk. by apply read_u24_defined. Qed.
Lemma timestamp_only_err : OnlyErr body LIBRDP_STATUS_PROTOCOL_ERROR.
Proof. unfold body. apply _. Qed.
End timestamp.

Lemma udp2_ack_vector_wire :
  WireReader rdp_udp2_parse_ack_vector_payload udp2_ack_vector_enc udp2_ack_vector_ok any_tail.
Proof.
  split.
  - intros [b n p ts g v] rest [(Hs & Hn & Hp & Ht & Hg & Hz & l & Hl & Hln & Hb) Hbad] _.
    unfold udp2_ack_vector_enc, ack_vector_bad in *. cbn in Hs, Hn, Hp, Ht, Hg, Hz, Hl, Hln, Hbad.
    subst v. unfold is_u32, is_byte in *. cbn [v2_base_sequence_number v2_coded_ack_vector_size
      v2_timestamp_present v2_timestamp v2_send_ack_time_gap_ms v2_coded_ack_vector default
      from_option id]. fold (timestamp_enc p ts g).
    destruct (size_flag_packed n p ltac:(lia) ltac:(lia)) as (E1 & E2 & _).
    rewrite <- !app_assoc. unfold rdp_udp2_parse_ack_vector_payload. pstep.
    pstep. pstep; [by apply parses_read_u16_le|]. pstep; [apply parses_read_u8|].
    cbv zeta. rewrite E1, E2.
    eapply parses_bind; [apply (timestamp_parses p ltac:(lia) ts g); [|done]|].
    { destruct (Z.eqb_spec p 0); [destruct Hz; [done|]|]; lia. }
    cbn. pstep. pstep. pstep; [by apply parses_read_bytes|]. apply parses_ret.
  - intros s a s' Hs H. unfold rdp_udp2_parse_ack_vector_payload in H.
    do 4 (run_step H; repeat first [read_inv|block_inv]). cbv zeta in H.
    match goal with G : is_byte ?x |- _ => destruct (size_flag x G) as (Hlo & Hhi & Hp) end.
    run_step H. apply timestamp_inv in E as (Hu & Hts & Hgap & Hz & Hw); [|lia|done].
    destruct a3 as [ts gap]. cbn [fst snd] in *.
    do 2 (run_step H; repeat read_inv). run_step H. apply coerce_Ok_inv in E.
    apply read_bytes_inv in E as (Hu2 & Hl & Hw2 & Hb); [|done|lia]. repeat read_inv.
    unread_chain. unfold udp2_ack_vector_enc, udp2_ack_vector_ok, udp2_ack_vector_typed,
      ack_vector_bad, any_tail. cbn. rewrite Hp. fold (timestamp_enc (u8 (Z.land (a2 ≫ 7) 1)) ts gap).
    rewrite <- !app_assoc. cbn [app]. rewrite <- !app_assoc.
    split_and!; try done; unfold is_u32, is_byte in *; try lia.
    by eexists.
  - unfold rdp_udp2_parse_ack_vector_payload. do 4 safe_step. cbv zeta.
    eapply safe_bind; [apply timestamp_safe|intros [ts gap] _]. safe_walk.
    eapply safe_bind; [apply safe_coerce, safe_read_bytes; bits_lia|intros; by apply safe_ret].
  - unfold rdp_udp2_parse_ack_vector_payload. do 5 (apply only_err_bind; [apply _|intros ?]).
    match goal with p : (Z * Z)%type |- _ => destruct p end. apply _.
Qed.

(** ** Lemmas: packets *)

Definition delay_info_enc (d : Z * Z) : list Z := [d.1] ++ le16 d.2.
Definition delay_info_typed (d : Z * Z) : Prop := is_byte d.1 /\ is_u16 d.2.
Definition delay_info_ok (d : Z * Z) : Prop := 0 <= d.1 <= 15 /\ is_u16 d.2.

Definition udp2_packet_enc (p : rdp_udp2_packet) : list Z :=
  udp2_header_enc (p2_header p) ++
  optional_enc udp2_ack_enc (p2_has_ack p) (p2_ack p) ++
  optional_enc (fun b => [b]) (p2_has_overhead_size p) (p2_overhead_size p) ++
  optional_enc delay_info_enc (p2_has_delay_ack_info p)
    (p2_max_delayed_acks p, p2_delayed_ack_timeout_ms p) ++
  optional_enc le16 (p2_has_ack_of_acks p) (p2_ack_of_acks_sequence_number p) ++
  optional_enc le16 (p2_has_data p) (p2_data_sequence_number p) ++
  optional_enc udp2_ack_vector_enc (p2_has_ack_vector p) (p2_ack_vector p) ++
  view_bytes (p2_data_body p).

(** The packets the C structure can hold, with the sections that are absent zeroed. *)
Record udp2_packet_typed (p : rdp_udp2_packet) : Prop := {
  packet_typed_header : udp2_header_typed (p2_header p);
  packet_typed_ack : optional_ok udp2_ack_typed (p2_has_ack p) zero_ack (p2_ack p);
  packet_typed_overhead : optional_ok is_byte (p2_has_overhead_size p) 0 (p2_overhead_size p);
  packet_typed_delay : optional_ok delay_info_typed (p2_has_delay_ack_info p) (0, 0)
    (p2_max_delayed_acks p, p2_delayed_ack_timeout_ms p);
  packet_typed_aoa : optional_ok is_u16 (p2_has_ack_of_acks p) 0 (p2_ack_of_acks_sequence_number p);
  packet_typed_data : optional_ok is_u16 (p2_has_data p) 0 (p2_data_sequence_number p);
  packet_typed_vector :
    optional_ok udp2_ack_vector_typed (p2_has_ack_vector p) zero_ack_vector (p2_ack_vector p);
  packet_typed_body :
    if p2_has_data p then exists l, p2_data_body p = View l /\ bytes l
    else p2_data_body p = NullView 0;
}.
Definition udp2_packet_valid (p : rdp_udp2_packet) : bool := is_ok (rdp_udp2_validate_packet p).

(** What the validation establishes. *)
Record udp2_packet_checked (p : rdp_udp2_packet) : Prop := {
  checked_header : udp2_header_valid (p2_header p) = true;
  checked_flags : h2_flags (p2_header p) = expected_flags p;
  checked_ack : p2_has_ack p = true -> ack_bad (p2_ack p) = false;
  checked_delay : p2_has_delay_ack_info p = true -> p2_max_delayed_acks p <= 15;
  checked_vector : p2_has_ack_vector p = true -> ack_vector_bad (p2_ack_vector p) = false;
  checked_data : p2_has_data p = true ->
    view_len (p2_data_body p) <> 0 /\ view_null (p2_data_body p) = false;
  checked_no_data : p2_has_data p = false -> view_len (p2_data_body p) <= 0;
}.

Lemma validate_iff p : rdp_udp2_validate_packet p = Ok tt <-> udp2_packet_checked p.
Proof.
  unfold rdp_udp2_validate_packet. fold (udp2_header_valid (p2_header p)). rewrite !ensure_bind.
  split.
  - intros H. repeat (case_match; [|discriminate]). unfold ensure in H. case_match; [|discriminate].
    split; [done| | | | | | ]; try intros E; rewrite ?E in *; cbn [andb negb] in *; bool_prop; try lia; done.
  - intros [Hh Hf Ha Hd Hv Hb Hn]. rewrite Hh, Hf, Z.eqb_refl.
    replace (p2_has_ack p && _) with false by (destruct (p2_has_ack p); [rewrite Ha|]; done).
    replace (p2_has_delay_ack_info p && _) with false
      by (destruct (p2_has_delay_ack_info p); [specialize (Hd eq_refl); cbn; lia|done]).
    replace (p2_has_ack_vector p && _) with false
      by (destruct (p2_has_ack_vector p); [rewrite Hv|]; done).
    destruct (p2_has_data p); cbn [andb negb].
    + destruct (Hb eq_refl) as [Hl ->]. apply Z.eqb_neq in Hl as ->. done.
    + specialize (Hn eq_refl). destruct (Z.ltb_spec 0 (view_len (p2_data_body p))); [lia|done].
Qed.

Lemma validate_error p st : rdp_udp2_validate_packet p = Err st -> st = LIBRDP_STATUS_PROTOCOL_ERROR.
Proof.
  unfold rdp_udp2_validate_packet. rewrite !ensure_bind. unfold ensure.
  repeat case_match; by intros [=].
Qed.
Lemma validate_defined p : rdp_udp2_validate_packet p <> Fault.
Proof.
  unfold rdp_udp2_validate_packet. rewrite !ensure_bind. unfold ensure. by repeat case_match.
Qed.

Lemma valid_checked p : udp2_packet_valid p = true <-> udp2_packet_checked p.
Proof.
  rewrite <- validate_iff. unfold udp2_packet_valid.
  destruct (rdp_udp2_validate_packet p) as [[]| |]; done.
Qed.

(** The flags of a valid packet say which sections are there. *)
Lemma expected_flags_spec p :
  let has := has_flag (expected_flags p) in
  has RDP_UDP2_FLAG_ACK = p2_has_ack p /\
  has RDP_UDP2_FLAG_OVERHEADSIZE = p2_has_overhead_size p /\
  has RDP_UDP2_FLAG_DELAYACKINFO = p2_has_delay_ack_info p /\
  has RDP_UDP2_FLAG_AOA = p2_has_ack_of_acks p /\
  has RDP_UDP2_FLAG_DATA = p2_has_data p /\
  has RDP_UDP2_FLAG_ACKVEC = p2_has_ack_vector p.
Proof.
  destruct p as [h b1 ? b2 ? b3 ? ? b4 ? b5 ? b6 ? ?]. unfold expected_flags.
  cbn [p2_has_ack p2_has_overhead_size p2_has_delay_ack_info p2_has_ack_of_acks p2_has_data
    p2_has_ack_vector].
  destruct b1, b2, b3, b4, b5, b6; vm_compute; done.
Qed.

Lemma delay_info_wire :
  WireReader (max ← pr rdp_stream_read_u8;
              require (negb (15 <? max)) LIBRDP_STATUS_PROTOCOL_ERROR;;
              timeout ← pr rdp_stream_read_u16_le;
              mret (max, timeout)) delay_info_enc delay_info_ok any_tail.
Proof.
  split; [|intros s a s' Hs H|safe_walk|apply _].
  - intros [m t] rest [Hm Ht] _. unfold delay_info_enc. cbn [fst snd] in *. rewrite <- app_assoc.
    pstep; [apply parses_read_u8|]. pstep. pstep; [by apply parses_read_u16_le|]. apply parses_ret.
  - repeat (run_step H; repeat read_inv). repeat read_inv. unread_chain.
    unfold delay_info_enc, delay_info_ok, any_tail. cbn [fst snd]. unfold is_byte in *.
    rewrite <- app_assoc. split_and!; try done; lia.
Qed.

Lemma parses_unread l : Parses (gets unread) l l l.
Proof. intros s Hs <-. by exists s. Qed.

(** The contract of each optional section, for whatever packet. *)
Lemma sections_wire (c1 c2 c3 c4 c5 c6 : bool) :
  WireReader (if c1 then pr rdp_udp2_parse_ack else mret zero_ack)
    (optional_enc udp2_ack_enc c1) (optional_ok udp2_ack_ok c1 zero_ack) any_tail /\
  WireReader (if c2 then pr rdp_stream_read_u8 else mret 0)
    (optional_enc (fun b => [b]) c2) (optional_ok is_byte c2 0) any_tail /\
  WireReader (if c3 then
                max ← pr rdp_stream_read_u8;
                require (negb (15 <? max)) LIBRDP_STATUS_PROTOCOL_ERROR;;
                timeout ← pr rdp_stream_read_u16_le;
                mret (max, timeout)
              else mret (0, 0))
    (optional_enc delay_info_enc c3) (optional_ok delay_info_ok c3 (0, 0)) any_tail /\
  WireReader (if c4 then pr rdp_stream_read_u16_le else mret 0)
    (optional_enc le16 c4) (optional_ok is_u16 c4 0) any_tail /\
  WireReader (if c5 then pr rdp_stream_read_u16_le else mret 0)
    (optional_enc le16 c5) (optional_ok is_u16 c5 0) any_tail /\
  WireReader (if c6 then pr rdp_udp2_parse_ack_vector_payload else mret zero_ack_vector)
    (optional_enc udp2_ack_vector_enc c6) (optional_ok udp2_ack_vector_ok c6 zero_ack_vector) any_tail.
Proof.
  split_and!; apply wire_optional; try apply wire_coerce;
    auto using udp2_ack_wire, wire_u8, delay_info_wire, wire_u16_le, udp2_ack_vector_wire.
Qed.

Lemma header_enc_blen h : blen (udp2_header_enc h) = 2.
Proof. done. Qed.

Lemma sections_parse p :
  udp2_packet_typed p -> udp2_packet_checked p ->
  Parses (parse_sections (p2_header p)) (udp2_packet_enc p) (view_bytes (p2_data_body p)) p.
Proof.
  intros [Th Ta To Td Tk Tn Tv Tb] [Ch Cf Ca Cd Cv Cb Cn].
  destruct (expected_flags_spec p) as (F1 & F2 & F3 & F4 & F5 & F6).
  unfold parse_sections, udp2_packet_enc. rewrite Cf, F1, F2, F3, F4, F5, F6. cbv zeta.
  destruct (sections_wire (p2_has_ack p) (p2_has_overhead_size p) (p2_has_delay_ack_info p)
    (p2_has_ack_of_acks p) (p2_has_data p) (p2_has_ack_vector p)) as (W1 & W2 & W3 & W4 & W5 & W6).
  pstep; [by apply parses_skip|].
  eapply parses_bind; [apply (wire_parses _ _ _ _ W1); [|done]|].
  { unfold optional_ok in *. destruct (p2_has_ack p); [by split; auto|done]. }
  eapply parses_bind; [by apply (wire_parses _ _ _ _ W2)|].
  eapply parses_bind; [apply (wire_parses _ _ _ _ W3); [|done]|].
  { unfold optional_ok, delay_info_typed, delay_info_ok, is_byte in *.
    destruct (p2_has_delay_ack_info p); [|done]. cbn [fst snd] in *.
    destruct Td. specialize (Cd eq_refl). split; [lia|done]. }
  eapply parses_bind; [by apply (wire_parses _ _ _ _ W4)|].
  eapply parses_bind; [by apply (wire_parses _ _ _ _ W5)|].
  eapply parses_bind; [apply (wire_parses _ _ _ _ W6); [|done]|].
  { unfold optional_ok in *. destruct (p2_has_ack_vector p); [by split; auto|done]. }
  clear W1 W2 W3 W4 W5 W6.
  assert (Hv : rdp_udp2_validate_packet p = Ok tt) by (apply validate_iff; by split).
  destruct p as [h b1 x1 b2 x2 b3 x3 y3 b4 x4 b5 x5 b6 x6 body]. cbn in *. destruct b5.
  - destruct Tb as (l & -> & Hb). cbn [view_bytes].
    eapply parses_bind; [apply parses_unread|].
    eapply parses_bind; [by apply parses_lift|]. apply parses_ret.
  - subst body. cbn [view_bytes]. pstep. pstep.
    eapply parses_bind; [by apply parses_lift|]. apply parses_ret.
Qed.

Lemma sections_decode h s p s' :
  udp2_header_typed h -> udp2_header_valid h = true -> stream_wf s ->
  ztake 2 (unread s) = udp2_header_enc h -> parse_sections h s = (Ok p, s') ->
  unread s = udp2_packet_enc p /\ udp2_packet_typed p /\ udp2_packet_checked p.
Proof.
  intros Hh Hv Hs Hu0 H. unfold parse_sections in H. cbv zeta in H.
  set (has := has_flag (h2_flags h)) in *.
  destruct (sections_wire (has RDP_UDP2_FLAG_ACK) (has RDP_UDP2_FLAG_OVERHEADSIZE)
    (has RDP_UDP2_FLAG_DELAYACKINFO) (has RDP_UDP2_FLAG_AOA) (has RDP_UDP2_FLAG_DATA)
    (has RDP_UDP2_FLAG_ACKVEC)) as (W1 & W2 & W3 & W4 & W5 & W6).
  run_step H. apply coerce_Ok_inv in E. apply skip_inv in E as (l & Hu & Hl & Hw); [|done..].
  assert (l = udp2_header_enc h) as ->.
  { rewrite <- Hu0, Hu. change RDP_UDP2_HEADER_LENGTH with 2 in Hl. rewrite <- Hl.
    by rewrite ztake_app_blen. }
  run_step H. apply (wire_decodes _ _ _ _ W1) in E as (U1 & K1 & _ & ?); [|done].
  run_step H. apply (wire_decodes _ _ _ _ W2) in E as (U2 & K2 & _ & ?); [|done].
  run_step H. apply (wire_decodes _ _ _ _ W3) in E as (U3 & K3 & _ & ?); [|done].
  destruct a2 as [m t].
  run_step H. apply (wire_decodes _ _ _ _ W4) in E as (U4 & K4 & _ & ?); [|done].
  run_step H. apply (wire_decodes _ _ _ _ W5) in E as (U5 & K5 & _ & ?); [|done].
  run_step H. apply (wire_decodes _ _ _ _ W6) in E as (U6 & K6 & _ & Hw6); [|done].
  clear W1 W2 W3 W4 W5 W6.
  assert (Hbody : exists body, p = mk_udp2_packet h (has RDP_UDP2_FLAG_ACK) a0
      (has RDP_UDP2_FLAG_OVERHEADSIZE) a1 (has RDP_UDP2_FLAG_DELAYACKINFO) m t
      (has RDP_UDP2_FLAG_AOA) a2 (has RDP_UDP2_FLAG_DATA) a3 (has RDP_UDP2_FLAG_ACKVEC) a4 body /\
    rdp_udp2_validate_packet p = Ok tt /\ view_bytes body = unread s6 /\
    (if has RDP_UDP2_FLAG_DATA then exists l, body = View l /\ bytes l else body = NullView 0)).
  { destruct (has RDP_UDP2_FLAG_DATA).
    - run_step H. injection E as <- <-. run_step H. apply lift_Ok_inv in E as [E ->].
      injection H as <- <-. repeat match goal with u : unit |- _ => destruct u end. exists (View (unread s6)). split_and!; try done.
      exists (unread s6). split; [done|]. by apply unread_bytes.
    - run_step H. read_inv. run_step H. read_inv. run_step H. apply lift_Ok_inv in E as [E ->].
      injection H as <- <-. repeat match goal with u : unit |- _ => destruct u end. exists (NullView 0). split_and!; try done.
      cbn. symmetry. apply blen_0_nil. lia. }
  clear H. destruct Hbody as (body & -> & Hval & Hbytes & Hbody). apply validate_iff in Hval.
  split; [|split; [|done]].
  - unfold udp2_packet_enc. cbn [p2_header p2_has_ack p2_ack p2_has_overhead_size p2_overhead_size
      p2_has_delay_ack_info p2_max_delayed_acks p2_delayed_ack_timeout_ms p2_has_ack_of_acks
      p2_ack_of_acks_sequence_number p2_has_data p2_data_sequence_number p2_has_ack_vector
      p2_ack_vector p2_data_body].
    by rewrite Hbytes, Hu, U1, U2, U3, U4, U5, U6.
  - unfold optional_ok in *. split; cbn; unfold optional_ok; try done.
    + destruct (has RDP_UDP2_FLAG_ACK); [apply K1|done].
    + destruct (has RDP_UDP2_FLAG_DELAYACKINFO); [|done]. unfold delay_info_ok, delay_info_typed, is_byte in *.
      destruct K3. split; [cbn in *; lia|done].
    + destruct (has RDP_UDP2_FLAG_ACKVEC); [apply K6|done].
Qed.

#[export] Instance only_err_validate p :
  OnlyErr (lift (rdp_udp2_validate_packet p)) LIBRDP_STATUS_PROTOCOL_ERROR.
Proof. intros s st'. apply validate_error. Qed.

Lemma sections_safe h : Safe (parse_sections h) (fun _ => True).
Proof.
  unfold parse_sections. cbv zeta.
  destruct (sections_wire (has_flag (h2_flags h) RDP_UDP2_FLAG_ACK)
    (has_flag (h2_flags h) RDP_UDP2_FLAG_OVERHEADSIZE)
    (has_flag (h2_flags h) RDP_UDP2_FLAG_DELAYACKINFO) (has_flag (h2_flags h) RDP_UDP2_FLAG_AOA)
    (has_flag (h2_flags h) RDP_UDP2_FLAG_DATA) (has_flag (h2_flags h) RDP_UDP2_FLAG_ACKVEC))
    as (W1 & W2 & W3 & W4 & W5 & W6).
  eapply safe_bind; [by apply safe_coerce, safe_skip|intros _ _].
  eapply safe_bind; [apply (wire_safe _ _ _ _ W1)|intros ack _].
  eapply safe_bind; [apply (wire_safe _ _ _ _ W2)|intros ov _].
  eapply safe_bind; [apply (wire_safe _ _ _ _ W3)|intros [m t] _].
  eapply safe_bind; [apply (wire_safe _ _ _ _ W4)|intros aoa _].
  eapply safe_bind; [apply (wire_safe _ _ _ _ W5)|intros sq _].
  eapply safe_bind; [apply (wire_safe _ _ _ _ W6)|intros v _].
  apply safe_if; intros _.
  - eapply (safe_bind _ _ (fun _ => True)); [intros s Hs; by split|intros body _].
    eapply (safe_bind _ _ (fun _ => True)); [apply safe_lift; [apply validate_defined|done]|].
    intros _ _. by apply safe_ret.
  - do 2 safe_step.
    eapply (safe_bind _ _ (fun _ => True)); [apply safe_lift; [apply validate_defined|done]|].
    intros _ _. by apply safe_ret.
Qed.

Lemma sections_only_err h : OnlyErr (parse_sections h) LIBRDP_STATUS_PROTOCOL_ERROR.
Proof.
  unfold parse_sections. cbv zeta.
  do 3 (apply only_err_bind; [apply _|intros ?]).
  apply only_err_bind; [apply _|intros [m t]].
  do 3 (apply only_err_bind; [apply _|intros ?]).
  apply only_err_if; [|apply _].
  apply only_err_bind; [by intros s st' [=]|intros ?]. apply _.
Qed.

(** ** Lemmas: the writers of the sections *)

Lemma pointer_view_spec (p : option (list Z)) l n :
  p = Some l -> blen l = n -> pointer_view p n = Ok (View l).
Proof.
  intros -> <-. unfold pointer_view. pose proof (blen_nonneg l).
  rewrite slice_ok by lia. by rewrite zdrop_0, ztake_all.
Qed.

Lemma ack_written a :
  udp2_ack_ok a -> Writes (rdp_udp2_write_ack a) (udp2_ack_enc a) (fun _ => True).
Proof.
  intros [(Hs & Ht & Hg & Hc & Hsc & l & Hl & Hn & Hb) Hbad].
  unfold rdp_udp2_write_ack. rewrite Hbad. apply writes_require; [done|].
  unfold ack_bad in Hbad. bool_prop. unfold is_u32, is_byte in *.
  destruct (nibbles_packed (a2_delayed_ack_count a) (a2_delayed_ack_time_scale a)) as (_ & _ & ->); [lia..|].
  unfold udp2_ack_enc. rewrite Hl. cbn [default from_option id]. wstep.
  eapply writes_bind; [apply append_u24_writes; lia|intros [] _]. wstep. wstep.
  eapply writes_lift; [by apply pointer_view_spec|]. apply writes_append.
Qed.

Lemma ack_vector_written v :
  udp2_ack_vector_ok v -> Writes (rdp_udp2_write_ack_vector_payload v) (udp2_ack_vector_enc v) (fun _ => True).
Proof.
  intros [(Hs & Hn & Hp & Ht & Hg & Hz & l & Hl & Hln & Hb) Hbad].
  unfold rdp_udp2_write_ack_vector_payload. rewrite Hbad. apply writes_require; [done|].
  unfold ack_vector_bad in Hbad. bool_prop. unfold is_u32, is_byte in *.
  destruct (size_flag_packed (v2_coded_ack_vector_size v) (v2_timestamp_present v)) as (_ & _ & ->); [lia..|].
  unfold udp2_ack_vector_enc. rewrite Hl. cbn [default from_option id]. wstep. wstep.
  eapply writes_bind with (P := fun _ => True).
  - destruct (Z.eqb_spec (v2_timestamp_present v) 0); cbn [negb]; [by apply writes_ret|].
    eapply writes_bind; [apply append_u24_writes; lia|intros [] _]. apply writes_u8.
  - intros [] _. eapply writes_lift; [by apply pointer_view_spec|]. apply writes_append.
Qed.

Lemma writes_optional {A} (c : bool) (w : writer unit) (enc : A -> list Z) a :
  (c = true -> Writes w (enc a) (fun _ => True)) ->
  Writes (if c then w else mret tt) (optional_enc enc c a) (fun _ => True).
Proof. unfold optional_enc. destruct c; [auto|]. intros _. by apply writes_ret. Qed.

Lemma packet_written p :
  udp2_packet_typed p -> udp2_packet_checked p ->
  WritesAtomic (rdp_udp2_write_packet p) (udp2_packet_enc p) (fun _ => True).
Proof.
  intros [Th Ta To Td Tk Tn Tv Tb] Hc. unfold rdp_udp2_write_packet.
  apply writes_atomic_require; [by apply valid_checked|].
  destruct Hc as [Ch Cf Ca Cd Cv Cb Cn]. unfold optional_ok in *.
  apply writes_atomic. unfold udp2_packet_enc.
  eapply writes_bind; [by apply writes_atomic_writes, (codec_write (p2_header p))|intros [] _].
  eapply writes_bind; [apply writes_optional|intros [] _].
  { intros E. apply ack_written. rewrite E in *. by split; auto. }
  eapply writes_bind; [apply writes_optional; intros; apply writes_u8|intros [] _].
  eapply writes_bind; [apply writes_optional|intros [] _].
  { intros E. unfold delay_info_enc. wstep. apply writes_u16_le. }
  eapply writes_bind; [apply writes_optional; intros; apply writes_u16_le|intros [] _].
  eapply writes_bind; [apply writes_optional; intros; apply writes_u16_le|intros [] _].
  eapply writes_bind; [apply writes_optional|intros [] _].
  { intros E. apply ack_vector_written. rewrite E in *. by split; auto. }
  destruct (p2_has_data p).
  - destruct Tb as (l & -> & Hl). apply writes_append.
  - rewrite Tb. by apply writes_ret.
Qed.

#[export] Instance udp2_packet_codec :
  Codec rdp_udp2_parse_packet rdp_udp2_write_packet
    udp2_packet_enc udp2_packet_typed udp2_packet_valid no_tail.
Proof.
  assert (Hopen : forall d, bytes d -> rdp_udp2_parse_packet (View d) =
    match rdp_udp2_parse_header (View d) with
    | Ok h => with_stream (View d) (parse_sections h)
    | _ => Err LIBRDP_STATUS_PROTOCOL_ERROR
    end).
  { intros d Hb. unfold rdp_udp2_parse_packet. rewrite ensure_true, ensure_bind by done.
    cbn [view_len]. pose proof (codec_defined d Hb) as Hdef.
    destruct (negb (blen d <? RDP_UDP2_HEADER_LENGTH)) eqn:E.
    - by destruct (rdp_udp2_parse_header (View d)).
    - unfold rdp_udp2_parse_header. rewrite ensure_true, ensure_bind by done.
      cbn [view_len]. by rewrite E. }
  split.
  - intros d p Hb. rewrite Hopen by done. split.
    + destruct (rdp_udp2_parse_header (View d)) as [h| |] eqn:Eh; [|done..].
      apply codec_parse in Eh as (Ht & Hv & rest & _ & Hd); [|done].
      intros (s & s' & Hs & Hu & E)%with_view_Ok_inv; [|done].
      destruct (sections_decode h s p s') as (Hp & Htp & Hcp); try done.
      { by rewrite Hu, Hd, <- (header_enc_blen h), ztake_app_blen. }
      split; [done|]. split; [by apply valid_checked|]. exists [].
      rewrite app_nil_r, <- Hu. done.
    + intros (Ht & Hv%valid_checked & rest & -> & ->). rewrite app_nil_r in *.
      assert (Eh : rdp_udp2_parse_header (View (udp2_packet_enc p)) = Ok (p2_header p)).
      { apply codec_parse; [done|]. destruct Ht, Hv. split; [done|]. split; [done|]. by eexists. }
      rewrite Eh. eapply parses_with_stream; [done|]. by apply sections_parse.
  - intros d st Hb. rewrite Hopen by done.
    destruct (rdp_udp2_parse_header (View d)); [apply sections_only_err|by intros [=]..].
  - intros d Hb. rewrite Hopen by done. destruct (rdp_udp2_parse_header (View d)); [|done..].
    by apply (with_stream_safe (View d) _ (fun _ => True) (sections_safe a)).
  - done.
  - intros p Ht Hv%valid_checked. by apply packet_written.
  - intros p _ Hv. apply rejects_require. exact Hv.
Qed.

(** ** Lemmas: the coded ACK vector *)

(** The datagrams an entry of the coded vector stands for, in sequence order:
    [true] for one received. *)
Definition udp2_entry_run (b : Z) : list bool :=
  if b <? 128
  then (fun i => Z.testbit b i) <$> [0; 1; 2; 3; 4; 5; 6]
  else replicate (Z.to_nat (b mod 64 + 1)) (64 <=? b - 128).
Definition udp2_runs (v : list Z) : list bool := concat (udp2_entry_run <$> v).

Lemma blen_udp2_run b : is_byte b -> 1 <= blen (udp2_entry_run b) <= 64.
Proof.
  unfold is_byte, udp2_entry_run. intros Hb. destruct (b <? 128); [done|].
  rewrite blen_replicate. Z.div_mod_to_equations. lia.
Qed.
Lemma blen_udp2_runs v : bytes v -> blen v <= blen (udp2_runs v) <= 64 * blen v.
Proof.
  induction 1 as [|b v Hb _ IH]; [done|]. unfold udp2_runs in *. cbn [fmap list_fmap concat].
  rewrite blen_app, blen_cons. pose proof (blen_udp2_run b Hb). lia.
Qed.

(** The bits of a bitmap from position [bit] on. *)
Fixpoint bits_from (b : Z) (n : nat) (bit : Z) : list bool :=
  match n with O => [] | S n => Z.testbit b bit :: bits_from b n (bit + 1) end.

Lemma datagrams_cons s b l : datagrams s (b :: l) = (if Bool.eqb b s then 1 else 0) + datagrams s l.
Proof. change (b :: l) with ([b] ++ l). rewrite datagrams_app. by destruct b, s. Qed.

Lemma bit_test b i :
  is_byte b -> 0 <= i < 7 -> negb (Z.land b (u8 (Z.shiftl 1 i)) =? 0) = Z.testbit b i.
Proof.
  intros Hb Hi. unfold is_byte in Hb. apply Bool.eqb_prop.
  assert (Hi' : i = 0 \/ i = 1 \/ i = 2 \/ i = 3 \/ i = 4 \/ i = 5 \/ i = 6) by lia.
  pose proof (fun j => byte_cases
    (fun b => Bool.eqb (negb (Z.land b (u8 (Z.shiftl 1 j)) =? 0)) (Z.testbit b j))) as Hall.
  destruct Hi' as [->|[->|[->|[->|[->|[->| ->]]]]]]; by apply Hall.
Qed.

Lemma bitmap_loop_spec b n bit received lost :
  is_byte b -> 0 <= bit -> bit + Z.of_nat n <= 7 -> 0 <= received -> 0 <= lost ->
  received + lost + Z.of_nat n < 0x100000000 ->
  bitmap_count_loop b n bit received lost =
    (received + datagrams true (bits_from b n bit), lost + datagrams false (bits_from b n bit)).
Proof.
  intros Hb. revert bit received lost. induction n as [|n IH]; intros bit received lost Hbit Hn Hr Hl Hsum.
  { cbn. unfold datagrams. cbn. by rewrite !Z.add_0_r. }
  cbn [bitmap_count_loop bits_from]. rewrite bit_test by (done || lia). rewrite !datagrams_cons.
  unfold u32. destruct (Z.testbit b bit); cbn [Bool.eqb]; rewrite Z.mod_small by lia;
    rewrite IH by lia; f_equal; lia.
Qed.

(** The state bit of a run-length entry. *)
Lemma rle_state b : is_byte b -> 128 <= b -> negb (Z.land b 0x40 =? 0) = (64 <=? b - 128).
Proof.
  intros Hb Hge.
  pose proof (byte_cases (fun b => implb (128 <=? b)
    (Bool.eqb (negb (Z.land b 0x40 =? 0)) (64 <=? b - 128))) eq_refl b Hb) as H.
  cbv beta in H. destruct (Z.leb_spec 128 b); [|lia]. by apply Bool.eqb_prop.
Qed.

Lemma udp2_count_loop_spec pre v received lost :
  bytes v -> 0 <= received -> 0 <= lost ->
  received + lost + blen (udp2_runs v) < 0x100000000 ->
  udp2_ack_vector_count_loop (pre ++ v) (length v) (blen pre) received lost =
    Ok (received + datagrams true (udp2_runs v), lost + datagrams false (udp2_runs v)).
Proof.
  intros Hb. revert pre received lost.
  induction Hb as [|b v Hb Hv IH]; intros pre received lost Hr Hp Hsum.
  { cbn. unfold datagrams. cbn. by rewrite !Z.add_0_r. }
  cbn [length udp2_ack_vector_count_loop].
  replace (rd (pre ++ b :: v) (blen pre)) with (Ok b).
  2: { rewrite <- (Z.add_0_r (blen pre)), rd_app_r by done. symmetry. by apply rd_lookup. }
  assert (Hruns : udp2_runs (b :: v) = udp2_entry_run b ++ udp2_runs v) by done.
  rewrite Hruns, blen_app in Hsum. rewrite Hruns, !datagrams_app.
  pose proof (blen_udp2_runs v Hv). pose proof (blen_nonneg v). pose proof (blen_udp2_run b Hb) as Hrun.
  assert (Happ : pre ++ b :: v = (pre ++ [b]) ++ v) by (by rewrite <- app_assoc).
  assert (Hi : blen pre + 1 = blen (pre ++ [b])) by zlen. rewrite Happ, Hi.
  unfold rdp_udp2_ack_vector_decode_entry. cbn [mbind res_bind]. rewrite byte_hi by done.
  pose proof (datagrams_total (udp2_entry_run b)) as Htot.
  pose proof (datagrams_nonneg true (udp2_entry_run b)).
  pose proof (datagrams_nonneg false (udp2_entry_run b)).
  destruct (Z.ltb_spec b 0x80) as [Hlt|Hge]; cbn [negb mbind res_bind mret res_ret e2_mode e2_bitmap
    e2_state e2_run_length RDP_UDP2_ACK_VECTOR_MODE_BITMAP RDP_UDP2_ACK_VECTOR_MODE_RLE Z.eqb Pos.eqb].
  - assert (E : u8 (Z.land b 0x7f) = b).
    { unfold u8. bits_norm. unfold is_byte in Hb. rewrite !Z.mod_small; try lia.
      rewrite Z.mod_small; lia. }
    assert (Er : udp2_entry_run b = bits_from b 7 0).
    { unfold udp2_entry_run. by destruct (Z.ltb_spec b 128); [|lia]. }
    rewrite Er in *. change (blen (bits_from b 7 0)) with 7 in *.
    rewrite E, bitmap_loop_spec by (done || lia). rewrite IH by lia. do 2 f_equal; lia.
  - rewrite rle_state by done.
    assert (E : u32 (u8 (Z.land b 0x3f) + 1) = b mod 64 + 1).
    { unfold u8, u32. bits_norm. Z.div_mod_to_equations. lia. }
    rewrite E. set (run := b mod 64 + 1) in *.
    assert (Hd : forall s, datagrams s (udp2_entry_run b) =
      if Bool.eqb (64 <=? b - 128) s then run else 0).
    { intros s. unfold udp2_entry_run. destruct (Z.ltb_spec b 128); [lia|].
      rewrite datagrams_replicate. fold run.
      rewrite Z2Nat.id; [done|]. unfold run. Z.div_mod_to_equations. lia. }
    rewrite !Hd in *. unfold u32, RDP_UDP2_ACK_VECTOR_STATE_RECEIVED, RDP_UDP2_ACK_VECTOR_STATE_LOST.
    destruct (64 <=? b - 128); cbn [Bool.eqb Z.eqb Pos.eqb] in *; rewrite Z.mod_small by lia;
      rewrite IH by lia; do 2 f_equal; lia.
Qed.

(** ** Lemmas: the wire layout *)

(** The stores of [rdp_udp2_wrap_packet] amount to one store of the datagram. *)
Definition padded (l : list Z) : list Z := l ++ zeros (7 - blen l).
Definition wrap_prefix (packet_type : Z) (l : list Z) : Z :=
  packet_type * 2 + (if blen l <? 7 then blen l else 7) * 32.
Definition wrap_enc (packet_type : Z) (l : list Z) : list Z :=
  let p := padded l in
  zdrop 6 (ztake 7 p) ++ ztake 6 p ++ [wrap_prefix packet_type l] ++ zdrop 7 p.

(** Stores in the middle of a block written out. *)
Section splits.
Context {A : Type}.
Implicit Types (l m : list A) (a b : A).

Lemma wr_split l1 l2 i a b : blen l1 = i -> wr (l1 ++ b :: l2) i a = Ok (l1 ++ a :: l2).
Proof.
  intros <-. rewrite wr_ok by zlen. f_equal. unfold blen. rewrite Nat2Z.id.
  rewrite insert_app_r_alt, Nat.sub_diag by lia. done.
Qed.
Lemma rd_split l1 l2 i b : blen l1 = i -> rd (l1 ++ b :: l2) i = Ok b.
Proof. intros <-. rewrite <- (Z.add_0_r (blen l1)), rd_app_r by done. by apply rd_lookup. Qed.
Lemma write_split l1 m k l2 i :
  blen l1 = i -> blen m = blen k -> write_at (l1 ++ m ++ l2) i k = Ok (l1 ++ k ++ l2).
Proof.
  intros <- Hm. rewrite write_at_ok by zlen. rewrite ztake_app_blen, <- Hm.
  rewrite (app_assoc l1 m l2), <- (blen_app l1 m), zdrop_app_blen. done.
Qed.
(** The part of a block a store covers. *)
Lemma block_split l i n : 0 <= i -> 0 <= n -> i + n <= blen l ->
  exists l1 m l2, l = l1 ++ m ++ l2 /\ blen l1 = i /\ blen m = n.
Proof.
  intros. exists (ztake i l), (ztake n (zdrop i l)), (zdrop n (zdrop i l)).
  rewrite !ztake_zdrop. split; [done|]. split; apply blen_ztake; rewrite ?blen_zdrop; lia.
Qed.
End splits.

Lemma zeros_app n m : 0 <= n -> 0 <= m -> zeros (n + m) = zeros n ++ zeros m.
Proof. intros. unfold zeros. rewrite Z2Nat.inj_add by lia. by rewrite replicate_add. Qed.

(** A padded packet: six bytes, the seventh, the rest. *)
Lemma padded_split l : exists q s r, padded l = q ++ s :: r /\ blen q = 6 /\
  blen (padded l) = (if blen l <? 7 then 7 else blen l).
Proof.
  pose proof (blen_nonneg l). assert (Hlen : blen (padded l) = if blen l <? 7 then 7 else blen l).
  { unfold padded. destruct (Z.ltb_spec (blen l) 7).
    - rewrite blen_app, blen_zeros by lia. lia.
    - unfold zeros. rewrite blen_app, blen_replicate. lia. }
  destruct (block_split (padded l) 6 1) as (q & m & r & E & Hq & Hm); [lia|lia| |].
  { rewrite Hlen. destruct (Z.ltb_spec (blen l) 7); lia. }
  destruct m as [|s [|]]; [done| |zlen]. by exists q, s, r.
Qed.

Lemma wrap_enc_split t l q s r :
  padded l = q ++ s :: r -> blen q = 6 -> wrap_enc t l = s :: q ++ wrap_prefix t l :: r.
Proof.
  intros E Hq. unfold wrap_enc. rewrite E.
  assert (E7 : ztake 7 (q ++ s :: r) = q ++ [s]).
  { change (s :: r) with ([s] ++ r). rewrite app_assoc.
    replace 7 with (blen (q ++ [s])) by zlen. apply ztake_app_blen. }
  assert (D7 : zdrop 7 (q ++ s :: r) = r).
  { change (s :: r) with ([s] ++ r). rewrite app_assoc.
    replace 7 with (blen (q ++ [s])) by zlen. apply zdrop_app_blen. }
  rewrite E7, D7, <- Hq, zdrop_app_blen, ztake_app_blen. done.
Qed.

Lemma wrap_store_spec blk at_ t l n :
  0 <= at_ -> at_ + n <= blen blk -> n = blen (padded l) + 1 ->
  wrap_store blk at_ l n (wrap_prefix t l) = write_at blk at_ (wrap_enc t l).
Proof.
  intros Hat Hroom Hn. destruct (padded_split l) as (q & s & r & Ep & Hq & _).
  pose proof (blen_nonneg (padded l)). pose proof (blen_nonneg l).
  destruct (block_split blk at_ n) as (pre & mid & post & -> & Hpre & Hmid); [lia..|].
  unfold wrap_store. fold (zeros n).
  rewrite (write_split pre mid (zeros n)) by (rewrite ?blen_zeros; lia). cbn [mbind res_bind].
  assert (Hz : zeros n = 0 :: zeros (blen l) ++ zeros (7 - blen l)).
  { rewrite Hn. unfold padded. rewrite blen_app. unfold zeros. rewrite blen_replicate.
    rewrite <- replicate_add. change (0 :: replicate ?k 0) with (replicate (S k) 0). f_equal. lia. }
  rewrite Hz. cbn [app]. rewrite wr_split by done. cbn [mbind res_bind].
  assert (E2 : (if 0 <? blen l then write_at (pre ++ wrap_prefix t l :: (zeros (blen l) ++ zeros (7 - blen l)) ++ post) (at_ + 1) l
               else Ok (pre ++ wrap_prefix t l :: (zeros (blen l) ++ zeros (7 - blen l)) ++ post)) =
    Ok (pre ++ wrap_prefix t l :: q ++ s :: r ++ post)).
  { assert (Et : q ++ s :: r ++ post = l ++ zeros (7 - blen l) ++ post).
    { rewrite app_assoc. fold (padded l). rewrite Ep, <- app_assoc. done. }
    rewrite Et. destruct (Z.ltb_spec 0 (blen l)).
    - change (pre ++ wrap_prefix t l :: ?x) with (pre ++ [wrap_prefix t l] ++ x).
      rewrite !(app_assoc pre), <- (app_assoc (zeros _)).
      apply write_split; [zlen|]. apply blen_zeros. lia.
    - assert (l = []) as -> by (apply blen_0_nil; lia). done. }
  rewrite E2. cbn [mbind res_bind].
  assert (Er : rd (pre ++ wrap_prefix t l :: q ++ s :: r ++ post) (at_ + 7) = Ok s).
  { change (pre ++ wrap_prefix t l :: q ++ s :: r ++ post)
      with (pre ++ ([wrap_prefix t l] ++ q) ++ s :: r ++ post).
    rewrite (app_assoc pre). apply rd_split. zlen. }
  rewrite Er. cbn [mbind res_bind]. rewrite wr_split by done. cbn [mbind res_bind].
  rewrite (wrap_enc_split t l q s r Ep Hq).
  change (pre ++ s :: q ++ s :: r ++ post) with (pre ++ ([s] ++ q) ++ s :: r ++ post).
  rewrite (app_assoc pre), wr_split by zlen.
  pose proof (f_equal blen Ep) as Hlen. 
  rewrite (write_split pre _ (s :: q ++ wrap_prefix t l :: r)) by zlen.
  rewrite <- !app_assoc. cbn [app]. by rewrite <- app_assoc.
Qed.

(** The stores a function makes into the room it has reserved are one append. *)
Lemma raw_store_spec {A} (a : A) n data (f : list Z -> Z -> res (list Z)) b h :
  blen data = n -> 0 < n ->
  (forall blk at_, 0 <= at_ -> at_ + n <= blen blk -> f blk at_ = write_at blk at_ data) ->
  buffer_wf b -> b_length b + n <= SIZE_MAX ->
  exists r b' h',
    (rdp_buffer_reserve (b_length b + n);;
     output ← get_buffer;
     blk ← lift (f (block output) (b_length output));
     put_buffer (set_block blk (b_capacity output) output);;
     output ← get_buffer;
     put_buffer (set_length (b_length output + n) output);;
     mret a) (b, h) = (r, (b', h')) /\ buffer_wf b' /\
    ((r = Ok a /\ contents b' = contents b ++ data) \/
     (r = Err LIBRDP_STATUS_NO_MEMORY /\ contents b' = contents b)) /\
    (h = [] -> b_length b + n <= 2 ^ 63 -> is_ok r = true /\ h' = []).
Proof.
  intros Hd Hn Hf Hwf Hmax.
  destruct (append_store_spec b h data n Hwf Hd Hmax) as (r & b' & h' & E & Hwf' & Hr & Hok).
  unfold append_store in E.
  destruct (rdp_buffer_reserve_spec b h (b_length b + n) Hwf)
    as (r1 & b1 & h1 & E1 & Hwf1 & Hcont & Hlen & [[-> Hcap]|[-> ->]] & _).
  - rewrite (bind_ok _ _ _ _ _ E1) in E. rewrite (bind_ok _ _ _ _ _ E1).
    rewrite bind_get_buffer in *. rewrite Hf.
    2: by apply buffer_wf_length. 2: { rewrite (buffer_wf_block b1 Hwf1). lia. }
    destruct (Z.ltb_spec 0 n); [|lia].
    unfold get_buffer, put_buffer, gets, modify, mbind, M_bind, lift, mret, M_ret in *.
    cbn [fst snd] in *.
    destruct (write_at (block b1) (b_length b1) data) as [blk|st|] eqn:Ew; cbn [fst snd] in *.
    + injection E as <- <- <-. eexists _, _, _. split; [done|]. split; [done|].
      destruct Hr as [[_ Hc]|[? _]]; [|done]. split; [by left|]. intros. split; [done|]. by apply Hok.
    + destruct Hr as [[-> _]|[-> ->]]; unfold write_at in Ew; case_match; done.
    + destruct Hr as [[-> _]|[-> ->]]; done.
  - rewrite (bind_err _ _ _ _ _ E1) in E. rewrite (bind_err _ _ _ _ _ E1).
    injection E as <- <- <-. eexists _, _, _. split; [done|]. split; [done|].
    split; [by right|]. intros Hh Hb. destruct (Hok Hh Hb). done.
Qed.

(** A datagram of eight bytes or more, and the packet inside it. *)
Lemma wire_split d : 8 <= blen d ->
  exists (b0 : Z) (q : list Z) (px : Z) (r : list Z), d = b0 :: q ++ px :: r /\ blen q = 6 /\ blen d = 8 + blen r.
Proof.
  intros Hd. destruct d as [|b0 d]; [zlen|]. rewrite blen_cons in Hd.
  destruct (block_split d 6 1) as (q & m & r & -> & Hq & Hm); [lia..|].
  destruct m as [|px [|]]; [done| |zlen]. exists b0, q, px, r. split; [done|]. split; [done|].
  change ([px] ++ r) with (px :: r). zlen.
Qed.

(** The packet a datagram carries, before it is cut to its length. *)
Definition wire_layout (d : list Z) : list Z := ztake 6 (zdrop 1 d) ++ ztake 1 d ++ zdrop 8 d.

Lemma wire_layout_split b0 q px r : blen q = 6 -> wire_layout (b0 :: q ++ px :: r) = q ++ b0 :: r.
Proof.
  intros Hq. unfold wire_layout. change (zdrop 1 (b0 :: ?x)) with x. change (ztake 1 (b0 :: ?x)) with [b0].
  assert (E : b0 :: q ++ px :: r = (b0 :: q ++ [px]) ++ r) by (cbn [app]; by rewrite <- app_assoc).
  rewrite E. replace 8 with (blen (b0 :: q ++ [px])) by zlen. rewrite zdrop_app_blen, <- Hq.
  by rewrite ztake_app_blen.
Qed.

Lemma ztake_app_l {A} n (l k : list A) : 0 <= n <= blen l -> ztake n (l ++ k) = ztake n l.
Proof. unfold ztake, blen. intros. rewrite take_app_le by lia. done. Qed.
Lemma ztake_app_r {A} n (l k : list A) :
  blen l <= n -> ztake n (l ++ k) = l ++ ztake (n - blen l) k.
Proof. unfold ztake, blen. intros. rewrite take_app_ge by lia. do 2 f_equal. lia. Qed.

Lemma unwrap_store_spec blk at_ d n :
  8 <= blen d -> 1 <= n <= blen d - 1 -> 0 <= at_ -> at_ + n <= blen blk ->
  unwrap_store blk at_ d n = write_at blk at_ (ztake n (wire_layout d)).
Proof.
  intros Hd Hn Hat Hroom. destruct (wire_split d Hd) as (b0 & q & px & r & -> & Hq & Hlen).
  rewrite (wire_layout_split b0 q px r Hq). unfold unwrap_store.
  pose proof (blen_nonneg r). rewrite Hlen in *.
  destruct (Z.leb_spec n 6).
  - rewrite slice_ok by lia. change (zdrop 1 (b0 :: ?x)) with x. cbn [mbind res_bind].
    by rewrite !ztake_app_l by lia.
  - rewrite (slice_ok _ 1 6) by lia. change (zdrop 1 (b0 :: ?x)) with x. cbn [mbind res_bind].
    assert (Eq : ztake 6 (q ++ px :: r) = q) by (rewrite <- Hq; apply ztake_app_blen).
    rewrite Eq, ztake_app_r, Hq by lia.
    destruct (block_split blk at_ 6) as (pre & m6 & rest & -> & Hpre & Hm6); [lia..|].
    rewrite !blen_app in Hroom. destruct rest as [|x rest]; [zlen|].
    rewrite (write_split pre m6 q) by lia. cbn [mbind res_bind].
    rewrite (rd_lookup _ 0 b0) by done. cbn [mbind res_bind].
    rewrite (app_assoc pre q), wr_split by zlen. cbn [mbind res_bind].
    assert (En : ztake (n - 6) (b0 :: r) = b0 :: ztake (n - 7) r).
    { change (b0 :: r) with ([b0] ++ r). rewrite ztake_app_r by zlen. cbn [app]. f_equal.
      change (blen [b0]) with 1. f_equal. lia. }
    rewrite En. rewrite blen_cons in Hroom.
    destruct (block_split rest 0 (n - 7)) as (e & m & post & -> & He & Hm); [lia..|].
    apply blen_0_nil in He as ->. cbn [app].
    assert (Hr : blen (ztake (n - 7) r) = n - 7) by (apply blen_ztake; lia).
    change (pre ++ m6 ++ x :: m ++ post) with (pre ++ m6 ++ ([x] ++ m) ++ post).
    rewrite (app_assoc m6), (write_split pre (m6 ++ [x] ++ m) (q ++ b0 :: ztake (n - 7) r))
      by (autorewrite with blen; lia).
    destruct (Z.ltb_spec 7 n).
    + assert (Es : slice (b0 :: q ++ px :: r) 8 (n - 7) = Ok (ztake (n - 7) r)).
      { rewrite slice_ok by lia. f_equal. f_equal.
        assert (E : b0 :: q ++ px :: r = (b0 :: q ++ [px]) ++ r) by (cbn [app]; by rewrite <- app_assoc).
        rewrite E. replace 8 with (blen (b0 :: q ++ [px])) by zlen. apply zdrop_app_blen. }
      rewrite Es. cbn [mbind res_bind].
      change ((pre ++ q) ++ b0 :: m ++ post) with ((pre ++ q) ++ [b0] ++ m ++ post).
      rewrite (app_assoc (pre ++ q)), write_split by zlen. f_equal.
      by rewrite <- !app_assoc.
    + replace (n - 7) with 0 in * by lia. apply blen_0_nil in Hm as ->.
      change (ztake 0 r) with (@nil Z). f_equal. by rewrite <- !app_assoc.
Qed.

Lemma check_zero_ok l n i :
  0 <= i -> i + Z.of_nat n <= blen l ->
  check_zero_loop l n i = Ok tt \/ check_zero_loop l n i = Err LIBRDP_STATUS_PROTOCOL_ERROR.
Proof.
  revert i. induction n as [|n IH]; intros i Hi Hn; [by left|]. cbn [check_zero_loop].
  destruct (rd_ok l i) as (b & E & _); [lia|]. rewrite E. cbn [mbind res_bind].
  rewrite ensure_bind. destruct (b =? 0); [apply IH; lia|by right].
Qed.

(** The length found inside a datagram never exceeds what the datagram holds. *)
Lemma layout_len_bounds d prefix :
  8 <= blen d -> 0 <= px_short_packet_length prefix ->
  match unwrap_layout_len d prefix with
  | Ok n => 0 <= n <= blen d - 1
  | Err st => st = LIBRDP_STATUS_PROTOCOL_ERROR
  | Fault => False
  end.
Proof.
  intros Hd Hs. unfold unwrap_layout_len. set (short := px_short_packet_length prefix) in *.
  destruct (rd_ok d 0) as (b0 & E & _); [lia|]. rewrite E. cbn [mbind res_bind].
  destruct ((0 <? short) && (short <? 7)) eqn:Es.
  - rewrite ensure_bind. destruct (negb _); [|done].
    destruct (check_zero_ok d (Z.to_nat (7 - (short + 1))) (short + 1)) as [->| ->]; [lia|lia| |done].
    cbn. lia.
  - clear Es. destruct (_ && _); [|unfold mret, res_ret; lia].
    destruct (check_zero_ok d 6 1) as [->| ->]; [lia|lia| |done]. cbn. lia.
Qed.

Lemma parse_prefix_range v p :
  is_byte v -> rdp_udp2_parse_prefix v = Ok p -> 0 <= px_short_packet_length p < 8.
Proof.
  intros Hv. unfold rdp_udp2_parse_prefix, is_byte in *. rewrite !ensure_bind.
  repeat (case_match; [|discriminate]). intros [= <-]. cbn. unfold u8. bits_norm.
  Z.div_mod_to_equations. lia.
Qed.

(** What unwrapping finds in a datagram: the length and the prefix. *)
Definition unwrap_result (d : list Z) : res (Z * rdp_udp2_prefix) :=
  prefix_byte ← rd d 7;
  prefix ← rdp_udp2_parse_prefix prefix_byte;
  layout_len ← unwrap_layout_len d prefix;
  mret (layout_len, prefix).

Lemma unwrap_result_cases d :
  bytes d -> 8 <= blen d ->
  match unwrap_result d with
  | Ok (n, p) => 0 <= n <= blen d - 1
  | Err st => st = LIBRDP_STATUS_PROTOCOL_ERROR
  | Fault => False
  end.
Proof.
  intros Hb Hd. unfold unwrap_result. destruct (rd_ok d 7) as (v & E & _); [lia|].
  rewrite E. pose proof (rd_Forall _ _ _ _ Hb E) as Hv. cbn [mbind res_bind].
  destruct (rdp_udp2_parse_prefix v) as [p|st|] eqn:Ep; cbn [mbind res_bind].
  - pose proof (layout_len_bounds d p Hd) as H. destruct (parse_prefix_range v p Hv Ep).
    specialize (H ltac:(done)). by destruct (unwrap_layout_len d p).
  - unfold rdp_udp2_parse_prefix in Ep. rewrite !ensure_bind in Ep.
    by repeat case_match; simplify_eq.
  - unfold rdp_udp2_parse_prefix in Ep. rewrite !ensure_bind in Ep. by repeat case_match.
Qed.

Lemma unwrap_written d n p :
  8 <= blen d -> blen d <= SIZE_MAX -> unwrap_result d = Ok (n, p) -> 0 <= n <= blen d - 1 ->
  WritesAtomic (rdp_udp2_unwrap_packet (View d)) (ztake n (wire_layout d)) (eq p).
Proof.
  intros Hd Hmax E Hn b h Hwf. unfold rdp_udp2_unwrap_packet. cbn [view_null view_len view_bytes].
  rewrite bind_require. replace (negb _) with true by lia.
  unfold unwrap_result in E. 
  destruct (rd d 7) as [v| |]; cbn [mbind res_bind] in E; [|done..].
  destruct (rdp_udp2_parse_prefix v) as [p'| |] eqn:Ep; cbn [mbind res_bind] in E; [|done..].
  destruct (unwrap_layout_len d p') as [n'| |] eqn:El; cbn [mbind res_bind] in E; [|done..].
  injection E as -> ->. rewrite bind_lift, bind_lift, Ep, bind_lift, El, bind_get_buffer, bind_require.
  cbn [fst].
  pose proof (buffer_wf_length b Hwf).
  assert (Hlen : blen (ztake n (wire_layout d)) = n).
  { apply blen_ztake. destruct (wire_split d Hd) as (b0 & q & px & r & -> & Hq & Hl).
    rewrite (wire_layout_split b0 q px r Hq). zlen. }
  destruct (Z.ltb_spec (SIZE_MAX - b_length b) n); cbn [negb].
  { eexists _, b, h. split; [done|]. split; [done|]. split; [by right|].
    rewrite Hlen. unfold SIZE_MAX in *. lia. }
  destruct (Z.eqb_spec n 0) as [->|Hpos].
  - destruct (rdp_buffer_reserve_spec b h (b_length b + 0) Hwf)
      as (r1 & b1 & h1 & E1 & Hwf1 & Hcont & Hl1 & [[-> Hcap]|[-> ->]] & Hok).
    + rewrite (bind_ok _ _ _ _ _ E1). eexists _, b1, h1. split; [done|]. split; [done|].
      split; [left; exists p; by rewrite app_nil_r|]. rewrite Hlen. intros. split; [done|]. by apply Hok.
    + rewrite (bind_err _ _ _ _ _ E1). eexists _, b, h1. split; [done|]. split; [done|].
      split; [by right|]. rewrite Hlen. intros ? Hb. by destruct (Hok ltac:(done) Hb).
  - destruct (raw_store_spec p n (ztake n (wire_layout d))
      (fun blk at_ => unwrap_store blk at_ d n) b h) as (r & b' & h' & E & Hwf' & Hr & Hok);
      [done|lia| |done|lia|].
    { intros. apply unwrap_store_spec; lia. }
    exists r, b', h'. split; [exact E|]. split; [done|]. rewrite Hlen. split; [|done].
    destruct Hr as [[-> Hc]|[-> Hc]]; [left; by exists p|by right].
Qed.

Lemma wrap_prefix_bits t l :
  t = RDP_UDP2_PACKET_TYPE_DATA \/ t = RDP_UDP2_PACKET_TYPE_DUMMY ->
  let short := if blen l <? 7 then u8 (blen l) else 7 in
  u8 (Z.lor (Z.shiftl t 1) (Z.shiftl short 5)) = wrap_prefix t l.
Proof.
  intros Ht short. pose proof (blen_nonneg l).
  assert (Hs : short = if blen l <? 7 then blen l else 7).
  { unfold short, u8. destruct (Z.ltb_spec (blen l) 7); [apply Z.mod_small; lia|done]. }
  rewrite Hs. unfold wrap_prefix. set (s := if blen l <? 7 then blen l else 7).
  assert (Hs7 : 0 <= s <= 7) by (unfold s; destruct (Z.ltb_spec (blen l) 7); lia).
  unfold RDP_UDP2_PACKET_TYPE_DATA, RDP_UDP2_PACKET_TYPE_DUMMY in Ht.
  rewrite (lor_shiftl 5) by (by destruct Ht as [->| ->]; vm_compute).
  unfold u8. bits_norm. rewrite Z.mod_small; [lia|]. destruct Ht as [->| ->]; lia.
Qed.

(** The prefix of a datagram, as the receiver decodes it. *)
Lemma wrap_prefix_parsed t l :
  t = RDP_UDP2_PACKET_TYPE_DATA \/ t = RDP_UDP2_PACKET_TYPE_DUMMY ->
  (t = RDP_UDP2_PACKET_TYPE_DATA -> l <> []) ->
  rdp_udp2_parse_prefix (wrap_prefix t l) =
    Ok (mk_udp2_prefix t (if blen l <? 7 then blen l else 7)).
Proof.
  intros Ht Hne. pose proof (blen_nonneg l). unfold wrap_prefix.
  set (s := if blen l <? 7 then blen l else 7).
  assert (Hs7 : 0 <= s <= 7) by (unfold s; destruct (Z.ltb_spec (blen l) 7); lia).
  assert (Hs0 : t = RDP_UDP2_PACKET_TYPE_DATA -> s <> 0).
  { intros E Hs. apply (Hne E). apply blen_0_nil. revert Hs. unfold s.
    destruct (Z.ltb_spec (blen l) 7); lia. }
  assert (Hc : s = 0 \/ s = 1 \/ s = 2 \/ s = 3 \/ s = 4 \/ s = 5 \/ s = 6 \/ s = 7) by lia.
  unfold RDP_UDP2_PACKET_TYPE_DATA, RDP_UDP2_PACKET_TYPE_DUMMY in *.
  destruct Ht as [->| ->]; destruct Hc as [->|[->|[->|[->|[->|[->|[->| ->]]]]]]];
    try done. by destruct Hs0.
Qed.

Lemma check_zero_zeros l1 n m rest :
  (n <= m)%nat -> check_zero_loop (l1 ++ replicate m 0 ++ rest) n (blen l1) = Ok tt.
Proof.
  revert l1 m. induction n as [|n IH]; intros l1 m Hm; [done|]. destruct m as [|m]; [lia|].
  change (replicate (S m) 0) with (0 :: replicate m 0). cbn [check_zero_loop app].
  rewrite rd_split by done. cbn [mbind res_bind]. rewrite ensure_true by done.
  replace (blen l1 + 1) with (blen (l1 ++ [0])) by zlen.
  change (l1 ++ 0 :: ?x) with (l1 ++ [0] ++ x). rewrite app_assoc. apply IH. lia.
Qed.

(** A short packet: its bytes, zeros up to six, the prefix; the first byte is zero. *)
Lemma wrap_short t l :
  blen l < 7 ->
  wrap_enc t l = 0 :: (l ++ zeros (6 - blen l)) ++ wrap_prefix t l :: [] /\
  wire_layout (wrap_enc t l) = l ++ zeros (7 - blen l).
Proof.
  intros Hlt. pose proof (blen_nonneg l).
  assert (Hq : blen (l ++ zeros (6 - blen l)) = 6) by (rewrite blen_app, blen_zeros; lia).
  assert (E : padded l = (l ++ zeros (6 - blen l)) ++ 0 :: []).
  { unfold padded. rewrite <- app_assoc. f_equal.
    replace (7 - blen l) with (6 - blen l + 1) by lia. by rewrite zeros_app by lia. }
  rewrite (wrap_enc_split t l _ _ _ E Hq). split; [done|].
  rewrite wire_layout_split by done. by rewrite <- E.
Qed.

Lemma wrap_result t l :
  t = RDP_UDP2_PACKET_TYPE_DATA \/ t = RDP_UDP2_PACKET_TYPE_DUMMY ->
  (t = RDP_UDP2_PACKET_TYPE_DATA -> l <> []) ->
  unwrap_result (wrap_enc t l) =
    Ok (blen l, mk_udp2_prefix t (if blen l <? 7 then blen l else 7)) /\
  8 <= blen (wrap_enc t l) /\ ztake (blen l) (wire_layout (wrap_enc t l)) = l.
Proof.
  intros Ht Hne. pose proof (blen_nonneg l).
  destruct (padded_split l) as (q & s & r & Ep & Hq & Hlen).
  pose proof (wrap_enc_split t l q s r Ep Hq) as Ew.
  assert (H7 : rd (wrap_enc t l) 7 = Ok (wrap_prefix t l)).
  { rewrite Ew. change (s :: q ++ ?x :: r) with ((s :: q) ++ x :: r). apply rd_split. zlen. }
  unfold unwrap_result. rewrite H7. cbn [mbind res_bind]. rewrite wrap_prefix_parsed by done.
  cbn [mbind res_bind]. unfold unwrap_layout_len. cbn [px_short_packet_length].
  destruct (Z.ltb_spec (blen l) 7) as [Hlt|Hge].
  - destruct (wrap_short t l Hlt) as [Es El].
    assert (Hl8 : blen (wrap_enc t l) = 8).
    { rewrite Es. rewrite blen_cons, !blen_app, blen_zeros, blen_cons, blen_nil by lia. lia. }
    assert (Hz : forall n, (n <= Z.to_nat (6 - blen l))%nat ->
      check_zero_loop (wrap_enc t l) n (blen l + 1) = Ok tt).
    { intros n Hn. rewrite Es, <- app_assoc. change (0 :: l ++ ?x) with ((0 :: l) ++ x).
      replace (blen l + 1) with (blen (0 :: l)) by zlen. by apply check_zero_zeros. }
    rewrite Hl8, El, (ztake_app_l (blen l)), (ztake_all (blen l) l) by lia.
    split; [|split; [lia|done]].
    assert (H0 : rd (wrap_enc t l) 0 = Ok 0) by (rewrite Es; by apply rd_lookup).
    rewrite H0. cbn [mbind res_bind Z.eqb negb orb Pos.eqb andb].
    destruct (Z.ltb_spec 0 (blen l)); cbn [andb].
    + destruct (Z.ltb_spec (blen l) 7); [|lia]. rewrite ensure_true by done.
      rewrite Hz by lia. done.
    + replace (blen l) with 0 in * by lia. cbn [Z.eqb andb].
      pose proof (Hz 6%nat ltac:(lia)) as E6. change (0 + 1) with 1 in E6. by rewrite E6.
  - assert (Hz0 : zeros (7 - blen l) = []) by (unfold zeros; by replace (Z.to_nat _) with 0%nat by lia).
    assert (Hp : padded l = l) by (unfold padded; by rewrite Hz0, app_nil_r).
    rewrite Hp in Ep. pose proof (f_equal blen Ep) as Hbl.
    assert (Hlw : blen (wrap_enc t l) = blen l + 1) by (rewrite Ew, Hbl; zlen).
    split; [|split; [lia|]].
    + destruct (rd_ok (wrap_enc t l) 0) as (b0 & -> & _); [lia|]. cbn. rewrite Hlw.
      unfold mret, res_ret. repeat f_equal. lia.
    + rewrite Ew, wire_layout_split, <- Ep by done. by apply ztake_all.
Qed.

Lemma wrap_guard t v l :
  t = RDP_UDP2_PACKET_TYPE_DATA \/ t = RDP_UDP2_PACKET_TYPE_DUMMY ->
  (t = RDP_UDP2_PACKET_TYPE_DATA -> l <> []) ->
  view_bytes v = l -> view_len v = blen l -> blen l <= UINT16_MAX ->
  negb ((view_null v && (0 <? blen l)) ||
    (negb (t =? RDP_UDP2_PACKET_TYPE_DATA) && negb (t =? RDP_UDP2_PACKET_TYPE_DUMMY)) ||
    (UINT16_MAX <? blen l) || ((t =? RDP_UDP2_PACKET_TYPE_DATA) && (blen l =? 0))) = true.
Proof.
  intros Ht Hne Hv Hl Hmax.
  assert (Hnull : view_null v && (0 <? blen l) = false) by (destruct v; cbn in *; subst l; done).
  assert (Hz : (t =? RDP_UDP2_PACKET_TYPE_DATA) && (blen l =? 0) = false).
  { destruct (Z.eqb_spec t RDP_UDP2_PACKET_TYPE_DATA) as [E|]; [|done].
    destruct (Z.eqb_spec (blen l) 0) as [E0|]; [|done]. by destruct (Hne E); apply blen_0_nil. }
  rewrite Hnull, Hz. unfold UINT16_MAX in *. destruct (Z.ltb_spec 65535 (blen l)); [lia|].
  by destruct Ht as [->| ->].
Qed.

Lemma blen_wrap_enc t l : blen (wrap_enc t l) = blen (padded l) + 1.
Proof.
  destruct (padded_split l) as (q & s & r & Ep & Hq & _).
  rewrite (wrap_enc_split t l q s r Ep Hq), Ep. zlen.
Qed.
Lemma blen_padded l : blen (padded l) = if blen l <? 7 then 7 else blen l.
Proof. by destruct (padded_split l) as (q & s & r & _ & _ & H). Qed.

Lemma wrap_written t v l :
  t = RDP_UDP2_PACKET_TYPE_DATA \/ t = RDP_UDP2_PACKET_TYPE_DUMMY ->
  (t = RDP_UDP2_PACKET_TYPE_DATA -> l <> []) ->
  view_bytes v = l -> view_len v = blen l -> blen l <= UINT16_MAX ->
  WritesAtomic (rdp_udp2_wrap_packet v t) (wrap_enc t l) (fun _ => True).
Proof.
  intros Ht Hne Hv Hl Hmax b h Hwf. pose proof (blen_nonneg l) as Hl0.
  pose proof (buffer_wf_length b Hwf). pose proof (blen_padded l) as Hp.
  assert (Hpos : 7 <= blen (padded l) <= UINT16_MAX).
  { rewrite Hp. unfold UINT16_MAX in *. destruct (Z.ltb_spec (blen l) 7); lia. }
  unfold UINT16_MAX in Hpos.
  unfold rdp_udp2_wrap_packet. rewrite Hl, Hv, bind_require, wrap_guard by done.
  rewrite wrap_prefix_bits, <- Hp by done.
  assert (Hout : size_t (blen (padded l) + 1) = blen (wrap_enc t l)).
  { rewrite blen_wrap_enc. unfold size_t. apply Z.mod_small. lia. }
  rewrite Hout, bind_get_buffer, bind_require. cbn [fst].
  destruct (Z.ltb_spec (SIZE_MAX - b_length b) (blen (wrap_enc t l))); cbn [negb].
  { eexists _, b, h. split; [done|]. split; [done|]. split; [by right|].
    rewrite blen_wrap_enc in *. unfold SIZE_MAX in *. lia. }
  destruct (raw_store_spec tt (blen (wrap_enc t l)) (wrap_enc t l)
    (fun blk at_ => wrap_store blk at_ l (blen (wrap_enc t l)) (wrap_prefix t l)) b h)
    as (r' & b' & h' & E & Hwf' & Hr & Hok); [done|rewrite blen_wrap_enc; lia| |done|lia|].
  { intros. apply wrap_store_spec; [lia|lia|apply blen_wrap_enc]. }
  exists r', b', h'. split; [exact E|]. split; [done|]. split; [|done].
  destruct Hr as [[-> Hc]|[-> Hc]]; [left; by exists tt|by right].
Qed.

(** ** Properties *)

(** C31: UDP2 packets are a codec: the parser accepts exactly the encodings of the
    packets the validation allows (each flag with its section, absent sections
    zero, data if and only if the data flag, nothing after the last section), and
    fails on every other byte string with PROTOCOL_ERROR and without reading
    outside it; the writer appends that encoding, all of it or nothing, and
    refuses the packets the validation refuses. *)
Theorem udp2_packets_codec :
  Codec rdp_udp2_parse_header rdp_udp2_write_header
    udp2_header_enc udp2_header_typed udp2_header_valid any_tail /\
  Codec rdp_udp2_parse_packet rdp_udp2_write_packet
    udp2_packet_enc udp2_packet_typed udp2_packet_valid no_tail /\
  (forall p, udp2_packet_valid p = true <-> udp2_packet_checked p).
Proof. split_and!; [apply _|apply _|apply valid_checked]. Qed.

(** Classification: a packet the validation refuses has no kind; a valid one
    has exactly the kind its sections make it, data with any acknowledgement
    first, and every valid packet that is nothing but control carries neither. *)
Theorem udp2_classify p :
  rdp_udp2_classify_packet p =
    (if udp2_packet_valid p then Ok
      (match p2_has_data p, p2_has_ack p, p2_has_ack_vector p, p2_has_ack_of_acks p with
       | true, false, false, false => RDP_UDP2_PACKET_KIND_DATA
       | true, _, _, _ => RDP_UDP2_PACKET_KIND_DATA_WITH_ACK
       | false, _, true, _ => RDP_UDP2_PACKET_KIND_ACK_VECTOR
       | false, true, false, _ => RDP_UDP2_PACKET_KIND_ACK
       | false, false, false, true => RDP_UDP2_PACKET_KIND_ACK_OF_ACKS
       | false, false, false, false => RDP_UDP2_PACKET_KIND_CONTROL
       end)
     else Err LIBRDP_STATUS_PROTOCOL_ERROR) /\
  (rdp_udp2_classify_packet p = Ok RDP_UDP2_PACKET_KIND_CONTROL ->
   p2_has_overhead_size p = true \/ p2_has_delay_ack_info p = true).
Proof.
  assert (E : rdp_udp2_classify_packet p = _) by
    (unfold rdp_udp2_classify_packet; rewrite ensure_bind; reflexivity).
  fold (udp2_packet_valid p) in E. split.
  - rewrite E. destruct (udp2_packet_valid p); [|done].
    by destruct (p2_has_data p), (p2_has_ack p), (p2_has_ack_vector p), (p2_has_ack_of_acks p).
  - rewrite E. destruct (udp2_packet_valid p) eqn:Ev; [|done].
    apply valid_checked in Ev as [Ch Cf _ _ _ _ _].
    unfold udp2_header_valid in Ch. rewrite Cf in Ch. unfold expected_flags in Ch.
    destruct (p2_has_data p), (p2_has_ack p), (p2_has_ack_vector p), (p2_has_ack_of_acks p),
      (p2_has_overhead_size p), (p2_has_delay_ack_info p); cbn [andb orb]; intros [=]; auto.
    rewrite orb_true_r in Ch. done.
Qed.

(** the coded ACK vector counts: for every vector a packet can carry, the counts
    are the numbers of received and of lost datagrams among those its run-length
    and bitmap entries stand for, all entries together, whatever the bytes; at
    most 127 entries cannot wrap the 32-bit counters. *)
Theorem udp2_ack_vector_count_runs v :
  udp2_ack_vector_ok v ->
  let runs := udp2_runs (default [] (v2_coded_ack_vector v)) in
  rdp_udp2_ack_vector_count v = Ok (datagrams true runs, datagrams false runs) /\
  datagrams true runs + datagrams false runs = blen runs /\
  v2_coded_ack_vector_size v <= blen runs <= 64 * 127.
Proof.
  intros [(_ & Hn & _ & _ & _ & _ & l & Hl & Hln & Hb) Hbad] runs.
  unfold runs, rdp_udp2_ack_vector_count. rewrite Hl. change (default [] (Some l)) with l.
  unfold ack_vector_bad in Hbad. bool_prop. pose proof (blen_udp2_runs l Hb) as Hr.
  split; [|split; [apply datagrams_total|lia]].
  pose proof (udp2_count_loop_spec [] l 0 0 Hb) as E. cbn [app] in E.
  change (blen (@nil Z)) with 0 in E. rewrite <- Hln. unfold blen at 1. rewrite Nat2Z.id.
  rewrite E by lia. by rewrite !Z.add_0_l.
Qed.

(** C39: the wire layout: wrapping a packet of either type (data packets not empty,
    65535 bytes at most) and unwrapping the datagram gives the packet back, with
    its type and its length up to seven in the prefix; both write all of their
    output or none of it. *)
Theorem udp2_wrap_roundtrip t v l :
  t = RDP_UDP2_PACKET_TYPE_DATA \/ t = RDP_UDP2_PACKET_TYPE_DUMMY ->
  (t = RDP_UDP2_PACKET_TYPE_DATA -> l <> []) ->
  view_bytes v = l -> view_len v = blen l -> blen l <= UINT16_MAX ->
  let wire := wrap_enc t l in
  WritesAtomic (rdp_udp2_wrap_packet v t) wire (fun _ => True) /\
  WritesAtomic (rdp_udp2_unwrap_packet (View wire)) l
    (eq (mk_udp2_prefix t (if blen l <? 7 then blen l else 7))).
Proof.
  intros Ht Hne Hv Hl Hmax wire. split; [by apply wrap_written|].
  destruct (wrap_result t l Ht Hne) as (E & H8 & Hlay). fold wire in E, H8, Hlay.
  pose proof (blen_wrap_enc t l) as Hw. fold wire in Hw. rewrite blen_padded in Hw.
  pose proof (blen_nonneg l). unfold SIZE_MAX, UINT16_MAX in *.
  pose proof (unwrap_written wire (blen l) _ H8 ltac:(unfold SIZE_MAX; destruct (Z.ltb_spec (blen l) 7); lia) E) as H1.
  rewrite Hlay in H1. apply H1. destruct (Z.ltb_spec (blen l) 7); lia.
Qed.

(** Unwrapping is safe on any datagram: seven bytes or fewer are refused with
    INVALID_ARGUMENT; a bad prefix byte or bad padding with PROTOCOL_ERROR and the
    buffer untouched; otherwise the packet is appended, all of it or nothing, and
    it is never longer than the datagram without its prefix. *)
Theorem udp2_unwrap_safe d :
  bytes d -> blen d <= SIZE_MAX ->
  if blen d <=? 7 then Rejects (rdp_udp2_unwrap_packet (View d)) LIBRDP_STATUS_INVALID_ARGUMENT
  else match unwrap_result d with
  | Ok (n, p) => 0 <= n <= blen d - 1 /\
      WritesAtomic (rdp_udp2_unwrap_packet (View d)) (ztake n (wire_layout d)) (eq p)
  | Err st => st = LIBRDP_STATUS_PROTOCOL_ERROR /\
      Rejects (rdp_udp2_unwrap_packet (View d)) LIBRDP_STATUS_PROTOCOL_ERROR
  | Fault => False
  end.
Proof.
  intros Hb Hmax. destruct (Z.leb_spec (blen d) 7).
  { apply rejects_require. cbn [view_null view_len]. lia. }
  pose proof (unwrap_result_cases d Hb ltac:(lia)) as Hc.
  destruct (unwrap_result d) as [[n p]|st|] eqn:E; [|subst st; split; [done|]|done].
  - split; [done|]. apply unwrap_written; [lia|done|done|done].
  - intros b h Hwf. unfold rdp_udp2_unwrap_packet. cbn [view_null view_len view_bytes].
    rewrite bind_require. replace (negb _) with true by lia. unfold unwrap_result in E.
    destruct (rd_ok d 7) as (v & Ev & _); [lia|]. rewrite Ev in *. cbn [mbind res_bind] in E.
    rewrite bind_lift.
    destruct (rdp_udp2_parse_prefix v) as [p'| |] eqn:Ep; cbn [mbind res_bind] in E; [|by rewrite bind_lift; simplify_eq|done].
    rewrite bind_lift.
    destruct (unwrap_layout_len d p') as [n'| |] eqn:El; cbn [mbind res_bind] in E; [done| |done].
    rewrite bind_lift. by simplify_eq.
Qed.

Lemma udp2_ack_vector_count_runs_witness :
  rdp_udp2_ack_vector_count (mk_udp2_ack_vector 7 2 0 0 0 (Some [0xc2; 0x05])) = Ok (5, 5).
Proof.
  refine (proj1 (udp2_ack_vector_count_runs (mk_udp2_ack_vector 7 2 0 0 0 (Some [0xc2; 0x05])) _)).
  split; [|by vm_compute]. split_and!; try by_evaluation.
  exists [0xc2; 0x05]. split_and!; by_evaluation.
Defined.

Lemma udp2_wrap_roundtrip_witness :
  let wire := wrap_enc RDP_UDP2_PACKET_TYPE_DATA [1; 2; 3; 4; 5; 6; 7; 8] in
  wire = [7; 1; 2; 3; 4; 5; 6; 0xe0; 8] /\
  WritesAtomic (rdp_udp2_unwrap_packet (View wire)) [1; 2; 3; 4; 5; 6; 7; 8]
    (eq (mk_udp2_prefix RDP_UDP2_PACKET_TYPE_DATA 7)).
Proof.
  split; [vm_compute; reflexivity|].
  apply (udp2_wrap_roundtrip RDP_UDP2_PACKET_TYPE_DATA (View [1; 2; 3; 4; 5; 6; 7; 8])
    [1; 2; 3; 4; 5; 6; 7; 8]); [by left|done|done|done|by_evaluation].
Defined.

Lemma udp2_unwrap_safe_witness :
  Rejects (rdp_udp2_unwrap_packet (View [0; 1; 2; 3; 4; 5; 6; 0x20])) LIBRDP_STATUS_PROTOCOL_ERROR /\
  WritesAtomic (rdp_udp2_unwrap_packet (View [0; 9; 0; 0; 0; 0; 0; 0x20])) [9]
    (eq (mk_udp2_prefix 0 1)).
Proof.
  split.
  - apply (udp2_unwrap_safe [0; 1; 2; 3; 4; 5; 6; 0x20]); by_evaluation.
  - apply (udp2_unwrap_safe [0; 9; 0; 0; 0; 0; 0; 0x20]); by_evaluation.
Defined.
