(* ===== verification/Bits.v ===== *)
(** * Bits: what a parser of bits promises

    The bulk decompressors read bits in two orders.  Both readers are instances
    of [BitSource]: a well-formedness invariant and the list of bits that are
    still to be read.  Their clients are verified against two interfaces:
    - [Consumes n m Q]: on a well-formed reader [m] has no undefined behaviour
      and fails only with PROTOCOL_ERROR; when it succeeds it has consumed [n]
      bits or more and its value satisfies [Q];
    - [BitParses m inp rest a]: with the bits [inp] unread, [m] returns [a] and
      leaves [rest] unread. *)

From S2P Require Import Prelude.

Class BitSource (R : Type) := {
  bs_wf : R -> Prop;
  unread_bits : R -> list bool;
}.

Abbreviation pr := (coerce LIBRDP_STATUS_PROTOCOL_ERROR).

Definition Consumes `{BitSource R} {A} (n : Z) (m : M R A) (Q : A -> Prop) : Prop :=
  forall r, bs_wf r ->
  match m r with
  | (Ok a, r') => bs_wf r' /\ Q a /\
      exists k, n <= k <= blen (unread_bits r) /\ unread_bits r' = zdrop k (unread_bits r)
  | (Err st, r') => st = LIBRDP_STATUS_PROTOCOL_ERROR /\ bs_wf r'
  | (Fault, _) => False
  end.

Definition BitParses `{BitSource R} {A} (m : M R A) (inp rest : list bool) (a : A) : Prop :=
  forall r, bs_wf r -> unread_bits r = inp ->
  exists r', m r = (Ok a, r') /\ bs_wf r' /\ unread_bits r' = rest.

Section bit_parsers.
Context `{BitSource R} {A B : Type}.
Implicit Types (m : M R A) (k : A -> M R B) (Q : A -> Prop).

Lemma consumes_ret (a : A) Q : Q a -> Consumes 0 (mret a) Q.
Proof. intros Ha r Hwf. cbn. split; [done|]. split; [done|]. exists 0. zlen. done. Qed.
Lemma consumes_bind n n' m k Q (Q' : B -> Prop) :
  0 <= n -> Consumes n m Q -> (forall a, Q a -> Consumes n' (k a) Q') -> 0 <= n' ->
  Consumes (n + n') (m ≫= k) Q'.
Proof.
  intros Hn Hm Hk Hn' r Hwf. specialize (Hm r Hwf). unfold mbind, M_bind.
  destruct (m r) as [[a|st|] r1]; [|done|done]. destruct Hm as (Hwf1 & Ha & i & Hi & Eu).
  specialize (Hk a Ha _ Hwf1). destruct (k a _) as [[b|st|] r2]; [|done|done].
  destruct Hk as (Hwf2 & Hb & j & Hj & Eu'). rewrite Eu in Hj, Eu'. rewrite blen_zdrop in Hj by lia.
  split; [done|]. split; [done|]. exists (i + j). rewrite Eu', zdrop_zdrop by lia. split; [lia|done].
Qed.
Lemma consumes_weaken n n' m Q (Q' : A -> Prop) :
  n' <= n -> (forall a, Q a -> Q' a) -> Consumes n m Q -> Consumes n' m Q'.
Proof.
  intros Hn HQ Hm r Hwf. specialize (Hm r Hwf). destruct (m r) as [[a|st|] r1]; [|done|done].
  destruct Hm as (Hwf1 & Ha & i & Hi & Eu). split; [done|]. split; [auto|]. exists i. split; [lia|done].
Qed.
Lemma consumes_coerce n m Q : Consumes n m Q -> Consumes n (pr m) Q.
Proof.
  intros Hm r Hwf. specialize (Hm r Hwf). unfold coerce. destruct (m r) as [[a|st|] r1]; naive_solver.
Qed.
Lemma consumes_require n c (k : unit -> M R A) Q :
  Consumes n (k tt) Q -> Consumes n (require c LIBRDP_STATUS_PROTOCOL_ERROR ≫= k) Q.
Proof. intros Hk r Hwf. rewrite bind_require. destruct c; [by apply Hk|done]. Qed.
Lemma consumes_fail n Q : Consumes n (fail LIBRDP_STATUS_PROTOCOL_ERROR) Q.
Proof. by intros r Hwf. Qed.
Lemma consumes_if n (c : bool) m (m' : M R A) Q :
  Consumes n m Q -> Consumes n m' Q -> Consumes n (if c then m else m') Q.
Proof. by destruct c. Qed.

Lemma bitparses_ret (a : A) inp : BitParses (mret a) inp inp a.
Proof. intros r Hwf <-. by exists r. Qed.
Lemma bitparses_bind m k inp mid rest a b :
  BitParses m inp mid a -> BitParses (k a) mid rest b -> BitParses (m ≫= k) inp rest b.
Proof.
  intros Hm Hk r Hwf Hu. destruct (Hm r Hwf Hu) as (r1 & E & Hwf1 & Hu1).
  rewrite (bind_ok _ _ _ _ _ E). by apply Hk.
Qed.
Lemma bitparses_coerce m inp rest a : BitParses m inp rest a -> BitParses (pr m) inp rest a.
Proof. intros Hm r Hwf Hu. unfold coerce. destruct (Hm r Hwf Hu) as (r1 & -> & ?). by exists r1. Qed.
Lemma bitparses_require c (k : unit -> M R A) st inp rest a :
  c = true -> BitParses (k tt) inp rest a -> BitParses (require c st ≫= k) inp rest a.
Proof. intros -> Hk r Hwf Hu. rewrite bind_require. by apply Hk. Qed.
End bit_parsers.
