(* ===== verification/Window.v ===== *)
(** * Window: the history of a decompressor, and LZ77

    Each bulk decompressor keeps a block of memory and a write offset; the bytes
    below the offset are the window later matches refer to.  The class [History]
    says what the common lemmas need of such a state: the block, the offset, the
    well-formedness invariant and the part of the state decoding does not
    change.  [grown st st' out] is the effect of every decoding step, and
    [lz_copy] the meaning of a match. *)

From S2P Require Import Prelude.

Class History (T F : Type) := {
  hist_live : T -> Prop;
  hist_cells : T -> list Z;
  hist_offset : T -> Z;
  hist_frame : T -> F;
  hist_bounds st : hist_live st -> 0 <= hist_offset st <= blen (hist_cells st);
}.
#[export] Hint Mode History ! - : typeclass_instances.

Definition window `{History T F} (st : T) : list Z := ztake (hist_offset st) (hist_cells st).

(** [st'] is live, and its window is that of [st] with [out] appended. *)
Record grown `{History T F} (st st' : T) (out : list Z) : Prop := {
  grown_live : hist_live st';
  grown_frame : hist_frame st' = hist_frame st;
  grown_window : window st' = window st ++ out;
}.

(** The outcome of a decoding loop that started from [st]: no undefined
    behaviour, and what it has written is after the window of [st]. *)
Definition loop_post `{History T F} {R} (st : T) (p : res unit * (R * T)) : Prop :=
  match p.1 with
  | Ok _ => True
  | Err e => e = LIBRDP_STATUS_PROTOCOL_ERROR
  | Fault => False
  end /\ exists out, grown st p.2.2 out.

Section window.
Context `{History T F}.
Implicit Types (st : T) (out : list Z).

Lemma blen_window st : hist_live st -> blen (window st) = hist_offset st.
Proof. intros Hl. apply blen_ztake, hist_bounds, Hl. Qed.
Lemma window_lookup st i v :
  0 <= i < hist_offset st -> rd (hist_cells st) i = Ok v -> window st !! Z.to_nat i = Some v.
Proof. intros Hi [_ E]%rd_Ok_inv. unfold window, ztake. rewrite lookup_take_lt by lia. exact E. Qed.

(** [cells[offset++] = v] *)
Lemma ztake_push (cells : list Z) w v :
  0 <= w < blen cells -> ztake (w + 1) (<[Z.to_nat w := v]> cells) = ztake w cells ++ [v].
Proof.
  intros Hw. unfold ztake, blen in *. rewrite Z2Nat.inj_add, Nat.add_1_r by lia.
  rewrite (take_S_r _ _ v); [|apply list_lookup_insert_eq; lia]. by rewrite take_insert_ge.
Qed.

Lemma grown_refl st : hist_live st -> grown st st [].
Proof. intros Hl. split; [done|done|by rewrite app_nil_r]. Qed.
Lemma grown_trans st1 st2 st3 out out' :
  grown st1 st2 out -> grown st2 st3 out' -> grown st1 st3 (out ++ out').
Proof. intros [Hl1 El1 Ew1] [Hl2 El2 Ew2]. split; [done|congruence|]. by rewrite Ew2, Ew1, app_assoc. Qed.

Lemma grown_offset st st' out :
  hist_live st -> grown st st' out -> hist_offset st' = hist_offset st + blen out.
Proof.
  intros Hl [Hl' _ Ew]. rewrite <- (blen_window st' Hl'), <- (blen_window st Hl), Ew. apply blen_app.
Qed.
(** The bytes a run has appended, as the caller reads them. *)
Lemma grown_slice st st' out :
  hist_live st -> grown st st' out ->
  slice (hist_cells st') (hist_offset st) (hist_offset st' - hist_offset st) = Ok out.
Proof.
  intros Hl G. pose proof (grown_offset st st' out Hl G) as Eo. destruct G as [Hl' _ Ew].
  pose proof (hist_bounds st Hl). pose proof (hist_bounds st' Hl'). pose proof (blen_nonneg out).
  rewrite slice_ok by lia. f_equal. transitivity (zdrop (hist_offset st) (window st')).
  - unfold window, ztake, zdrop. rewrite take_drop_commute. do 2 f_equal. lia.
  - rewrite Ew, <- (blen_window st Hl). apply zdrop_app_blen.
Qed.
(** Restoring the offset restores the window. *)
Lemma grown_restored st st' out :
  hist_live st -> grown st st' out -> ztake (hist_offset st) (hist_cells st') = window st.
Proof.
  intros Hl G. pose proof (grown_offset st st' out Hl G) as Eo. destruct G as [Hl' _ Ew].
  pose proof (blen_nonneg out). transitivity (ztake (hist_offset st) (window st')).
  - unfold window, ztake. rewrite take_take. f_equal. lia.
  - rewrite Ew, <- (blen_window st Hl). apply ztake_app_blen.
Qed.

Lemma loop_post_grown {R} st st' out (p : res unit * (R * T)) :
  grown st st' out -> loop_post st' p -> loop_post st p.
Proof. intros G [Hp [out' G']]. split; [done|]. eexists. by eapply grown_trans. Qed.
Lemma loop_post_err {R} st (r : R) : hist_live st -> loop_post st (Err LIBRDP_STATUS_PROTOCOL_ERROR, (r, st)).
Proof. intros Hl. split; [done|]. exists []. by apply grown_refl. Qed.
Lemma loop_post_ok {R} st (r : R) : hist_live st -> loop_post st (Ok tt, (r, st)).
Proof. intros Hl. split; [done|]. exists []. by apply grown_refl. Qed.
End window.

(** ** Matches *)

(** [n] bytes copied one by one from [off] bytes back. *)
Fixpoint lz_copy (n : nat) (off : Z) (win : list Z) : list Z :=
  match n with
  | O => win
  | S n => lz_copy n off (win ++ [default 0 (win !! Z.to_nat (blen win - off))])
  end.

Lemma blen_lz_copy n off win : blen (lz_copy n off win) = blen win + Z.of_nat n.
Proof. revert win. induction n as [|n IH]; intros win; [cbn; lia|]. cbn [lz_copy]. rewrite IH. zlen. Qed.
Lemma lz_copy_grows n off win : exists out, lz_copy n off win = win ++ out.
Proof.
  revert win. induction n as [|n IH]; intros win; [exists []; by rewrite app_nil_r|].
  cbn [lz_copy]. destruct (IH (win ++ [default 0 (win !! Z.to_nat (blen win - off))])) as [out ->].
  eexists. by rewrite <- app_assoc.
Qed.
