(* ===== verification/BitReader.v ===== *)
(** * BitReader: the bit reader of the bulk decompressors

    Models the [rdp_bulk_bit_reader] of [src/src/protocol/bulk.c]: bits are taken
    from the most significant end of each byte. *)

From S2P Require Import Prelude Bits.

Record rdp_bulk_bit_reader := mk_bit_reader {
  br_data : list Z;
  br_length : Z;
  br_bit : Z;
}.
Abbreviation bitreader := (M rdp_bulk_bit_reader).

(** ** The bit reader *)

Definition rdp_bulk_bits_remaining (r : rdp_bulk_bit_reader) : Z :=
  if SIZE_MAX / 8 <? br_length r then 0
  else
    let total := br_length r * 8 in
    if total <? br_bit r then 0 else total - br_bit r.

Definition set_bit (n : Z) (r : rdp_bulk_bit_reader) : rdp_bulk_bit_reader :=
  mk_bit_reader (br_data r) (br_length r) n.

(** [for (i = 0; i < count; i++) { ... }]: [n] iterations are left. *)
Fixpoint read_bits_loop (n : nat) (result : Z) : bitreader Z :=
  match n with
  | O => mret result
  | S n =>
      r ← gets id;
      let byte_index := br_bit r / 8 in
      let bit_index := u8 (7 - Z.land (br_bit r) 7) in
      byte ← lift (rd (br_data r) byte_index);
      let bit := u8 (Z.land (Z.shiftr byte bit_index) 1) in
      modify (set_bit (size_t (br_bit r + 1)));;
      read_bits_loop n (Z.lor (u32 (Z.shiftl result 1)) bit)
  end.

Definition rdp_bulk_read_bits (count : Z) : bitreader Z :=
  r ← gets id;
  require (negb ((31 <? count) || (rdp_bulk_bits_remaining r <? count))) LIBRDP_STATUS_PROTOCOL_ERROR;;
  read_bits_loop (Z.to_nat count) 0.

(** The arrays [value_bits] and [bases], entry by entry. *)
Fixpoint rdp_bulk_read_prefixed_value (table : list (Z * Z)) : bitreader Z :=
  match table with
  | [] => fail LIBRDP_STATUS_PROTOCOL_ERROR
  | (value_bits, base) :: table =>
      bit ← pr (rdp_bulk_read_bits 1);
      if bit =? 1 then rdp_bulk_read_prefixed_value table
      else
        low ← (if 0 <? value_bits then pr (rdp_bulk_read_bits value_bits) else mret 0);
        mret (u32 (base + low))
  end.

(** ** The bits of a byte string *)

Definition byte_bits (b : Z) : list bool := Z.testbit b <$> [7; 6; 5; 4; 3; 2; 1; 0].
Definition bits_of (data : list Z) : list bool := data ≫= byte_bits.
(** The value of [bs], most significant bit first, after [acc]. *)
Definition bits_value (acc : Z) (bs : list bool) : Z :=
  foldl (fun acc b => 2 * acc + Z.b2z b) acc bs.

Record br_wf (r : rdp_bulk_bit_reader) : Prop := {
  br_wf_length : br_length r = blen (br_data r);
  br_wf_size : blen (br_data r) <= SIZE_MAX / 8;
  br_wf_bit : 0 <= br_bit r <= 8 * blen (br_data r);
}.
#[export] Instance bit_reader_source : BitSource rdp_bulk_bit_reader := {
  bs_wf := br_wf;
  unread_bits r := zdrop (br_bit r) (bits_of (br_data r));
}.
Lemma unread_eq r : unread_bits r = zdrop (br_bit r) (bits_of (br_data r)).
Proof. done. Qed.
Definition advance (n : Z) (r : rdp_bulk_bit_reader) : rdp_bulk_bit_reader :=
  set_bit (br_bit r + n) r.

Lemma blen_bits_of data : blen (bits_of data) = 8 * blen data.
Proof.
  unfold bits_of. induction data; [done|]. cbn [mbind list_bind].
  rewrite blen_app, blen_cons, IHdata. change (blen (byte_bits a)) with 8. lia.
Qed.

Lemma bits_of_lookup data (q j : nat) b :
  data !! q = Some b -> (j < 8)%nat ->
  bits_of data !! (8 * q + j)%nat = Some (Z.testbit b (7 - Z.of_nat j)).
Proof.
  intros E Hj. revert q E. induction data as [|a data IH]; intros q E; [done|].
  destruct q as [|q].
  - injection E as ->. do 8 (destruct j as [|j]; [done|]). lia.
  - replace (8 * S q + j)%nat with (8 + (8 * q + j))%nat by lia. exact (IH q E).
Qed.

Lemma unread_bits_cons r :
  br_wf r -> br_bit r < 8 * blen (br_data r) ->
  exists b, rd (br_data r) (br_bit r / 8) = Ok b /\
    unread_bits r = Z.testbit b (7 - br_bit r mod 8) :: unread_bits (advance 1 r).
Proof.
  intros [_ _ Hb] Hlt. destruct (rd_ok (br_data r) (br_bit r / 8)) as (b & E & El); [bits_lia|].
  exists b. split; [done|]. rewrite !unread_eq. unfold advance, zdrop. cbn [set_bit br_bit br_data].
  rewrite Z2Nat.inj_add, Nat.add_1_r by lia. apply drop_S.
  pose proof (bits_of_lookup _ _ (Z.to_nat (br_bit r mod 8)) _ El ltac:(bits_lia)) as H.
  rewrite Z2Nat.id in H by bits_lia. rewrite <- H. f_equal. bits_lia.
Qed.

Lemma advance_wf n r :
  br_wf r -> 0 <= n <= blen (unread_bits r) -> br_wf (advance n r).
Proof.
  intros [Hl Hs Hb] Hn. rewrite unread_eq in Hn. rewrite blen_zdrop, blen_bits_of in Hn
    by (rewrite blen_bits_of; lia).
  split; cbn; [done|done|lia].
Qed.
Lemma blen_unread r : br_wf r -> blen (unread_bits r) = 8 * blen (br_data r) - br_bit r.
Proof.
  intros [_ _ Hb]. rewrite unread_eq. by rewrite blen_zdrop, blen_bits_of by (rewrite blen_bits_of; lia).
Qed.
Lemma unread_advance n r :
  br_wf r -> 0 <= n -> unread_bits (advance n r) = zdrop n (unread_bits r).
Proof. intros [_ _ Hb] Hn. rewrite !unread_eq. unfold advance. cbn. by rewrite zdrop_zdrop by lia. Qed.
Lemma advance_advance a b r : advance a (advance b r) = advance (b + a) r.
Proof. unfold advance, set_bit. cbn. f_equal. lia. Qed.

Lemma bits_remaining_spec r : br_wf r -> rdp_bulk_bits_remaining r = blen (unread_bits r).
Proof.
  intros Hwf. rewrite blen_unread by done. destruct Hwf as [Hl Hs Hb]. unfold rdp_bulk_bits_remaining.
  rewrite Hl. destruct (Z.ltb_spec (SIZE_MAX / 8) (blen (br_data r))); [lia|].
  destruct (Z.ltb_spec (blen (br_data r) * 8) (br_bit r)); lia.
Qed.

Lemma bits_value_bounds acc bs :
  0 <= acc -> acc * 2 ^ blen bs <= bits_value acc bs < (acc + 1) * 2 ^ blen bs.
Proof.
  revert acc. induction bs as [|b bs IH]; intros acc Ha; [rewrite blen_nil; cbn [bits_value foldl]; lia|].
  rewrite blen_cons, Z.pow_add_r by zlen. cbn [bits_value foldl].
  pose proof (IH (2 * acc + Z.b2z b) ltac:(destruct b; cbn; lia)) as H. cbn [bits_value] in H.
  unfold bits_value in H. pose proof (Z.pow_pos_nonneg 2 (blen bs) ltac:(lia) ltac:(zlen)).
  destruct b; cbn [Z.b2z] in H |- *; nia.
Qed.

Lemma shift_or_bit acc b :
  0 <= acc < 2 ^ 31 -> Z.lor (u32 (Z.shiftl acc 1)) (Z.b2z b) = 2 * acc + Z.b2z b.
Proof.
  intros Ha. unfold u32. rewrite Z.shiftl_mul_pow2, Z.mod_small by lia.
  rewrite Z.lor_comm, (lor_add 1) by (destruct b; cbn; lia). lia.
Qed.
Lemma test_byte_bit b i :
  0 <= i < 8 -> u8 (Z.land (Z.shiftr b i) 1) = Z.b2z (Z.testbit b i).
Proof.
  intros Hi. rewrite Z.testbit_spec' by lia. unfold u8. bits_norm.
  rewrite (Z.mod_small (_ mod 2)) by bits_lia. done.
Qed.

(** Reading bits: all of them, in order, or an error that moves nothing. *)
Lemma read_bits_loop_spec (n : nat) acc r :
  br_wf r -> Z.of_nat n <= blen (unread_bits r) -> 0 <= acc -> (acc + 1) * 2 ^ Z.of_nat n <= 2 ^ 31 ->
  read_bits_loop n acc r = (Ok (bits_value acc (ztake (Z.of_nat n) (unread_bits r))), advance (Z.of_nat n) r).
Proof.
  revert acc r. induction n as [|n IH]; intros acc r Hwf Hn Ha Hm.
  { cbn. unfold advance. rewrite Z.add_0_r. by destruct r. }
  rewrite blen_unread in Hn by done.
  destruct (unread_bits_cons r Hwf) as (b & Eb & Eu); [lia|]. cbn [read_bits_loop].
  rewrite Nat2Z.inj_succ, Z.pow_succ_r in Hm by lia.
  pose proof (Z.pow_pos_nonneg 2 (Z.of_nat n) ltac:(lia) ltac:(lia)).
  assert (Hu : u8 (7 - Z.land (br_bit r) 7) = 7 - br_bit r mod 8) by (unfold u8; bits_lia).
  assert (E1 : set_bit (size_t (br_bit r + 1)) r = advance 1 r).
  { unfold advance. f_equal. destruct Hwf. unfold size_t, SIZE_MAX in *. bits_lia. }
  rewrite bind_gets. unfold id. rewrite Hu, Eb, bind_lift, bind_modify, E1.
  rewrite test_byte_bit by bits_lia.
  rewrite shift_or_bit by nia. rewrite IH.
  - rewrite Eu, advance_advance. f_equal; [|f_equal; lia]. f_equal.
    unfold ztake. rewrite !Nat2Z.id. reflexivity.
  - apply advance_wf; [done|]. rewrite blen_unread by done. lia.
  - rewrite unread_advance, blen_zdrop by (rewrite ?blen_unread by done; done || lia).
    rewrite blen_unread by done. lia.
  - destruct (Z.testbit _ _); cbn; lia.
  - destruct (Z.testbit _ _); cbn; nia.
Qed.

Lemma read_bits_spec n r :
  br_wf r -> 0 <= n <= 31 ->
  rdp_bulk_read_bits n r =
    if blen (unread_bits r) <? n then (Err LIBRDP_STATUS_PROTOCOL_ERROR, r)
    else (Ok (bits_value 0 (ztake n (unread_bits r))), advance n r).
Proof.
  intros Hwf Hn. unfold rdp_bulk_read_bits. rewrite bind_gets. unfold id.
  rewrite bits_remaining_spec by done. destruct (Z.ltb_spec 31 n); [lia|]. cbn [orb].
  destruct (Z.ltb_spec (blen (unread_bits r)) n); [done|]. cbn [negb]. rewrite bind_require.
  rewrite read_bits_loop_spec; [by rewrite Z2Nat.id by lia|done|lia|lia|].
  rewrite Z2Nat.id by lia. rewrite Z.mul_1_l. apply Z.pow_le_mono_r; lia.
Qed.

(** The [n] low bits of [v], most significant first. *)
Fixpoint to_bits (n : nat) (v : Z) : list bool :=
  match n with
  | O => []
  | S n => Z.testbit v (Z.of_nat n) :: to_bits n v
  end.

Lemma blen_to_bits n v : blen (to_bits n v) = Z.of_nat n.
Proof. induction n; [done|]. cbn [to_bits]. rewrite blen_cons. lia. Qed.
Lemma bits_value_to_bits n acc v :
  bits_value acc (to_bits n v) = acc * 2 ^ Z.of_nat n + v mod 2 ^ Z.of_nat n.
Proof.
  revert acc. induction n as [|n IH]; intros acc; [cbn; rewrite Z.mod_1_r; lia|].
  cbn [to_bits]. change (bits_value acc (?b :: ?l)) with (bits_value (2 * acc + Z.b2z b) l).
  rewrite IH, Nat2Z.inj_succ, Z.pow_succ_r, Z.testbit_spec' by lia.
  set (p := 2 ^ Z.of_nat n). assert (0 < p) by (apply Z.pow_pos_nonneg; lia).
  rewrite (Z.mul_comm 2 p), Z.rem_mul_r by lia. lia.
Qed.
#[export] Hint Rewrite blen_to_bits : blen.

Lemma consumes_read_bits n :
  0 <= n <= 31 -> Consumes n (rdp_bulk_read_bits n) (fun v => 0 <= v < 2 ^ n).
Proof.
  intros Hn r Hwf. rewrite read_bits_spec by done.
  destruct (Z.ltb_spec (blen (unread_bits r)) n); [done|].
  split; [by apply advance_wf; [|lia]|]. split.
  - pose proof (bits_value_bounds 0 (ztake n (unread_bits r))) as H1. rewrite blen_ztake in H1; lia.
  - exists n. split; [lia|]. by apply unread_advance; [|lia].
Qed.
Lemma read_bits_parsed (n : nat) v rest r :
  (n <= 31)%nat -> 0 <= v < 2 ^ Z.of_nat n -> br_wf r -> unread_bits r = to_bits n v ++ rest ->
  rdp_bulk_read_bits (Z.of_nat n) r = (Ok v, advance (Z.of_nat n) r) /\
  br_wf (advance (Z.of_nat n) r) /\ unread_bits (advance (Z.of_nat n) r) = rest.
Proof.
  intros Hn Hv Hwf Hu. rewrite read_bits_spec by (done || lia). rewrite Hu, blen_app, blen_to_bits.
  destruct (Z.ltb_spec (Z.of_nat n + blen rest) (Z.of_nat n)); [zlen|].
  pose proof (ztake_app_blen (to_bits n v) rest) as E1.
  pose proof (zdrop_app_blen (to_bits n v) rest) as E2. rewrite blen_to_bits in E1, E2.
  rewrite E1, bits_value_to_bits, Z.mod_small by lia. split; [done|]. split.
  - apply advance_wf; [done|]. rewrite Hu. zlen.
  - rewrite unread_advance by (done || lia). by rewrite Hu.
Qed.
Lemma bitparses_read_bits (n : nat) v rest :
  (n <= 31)%nat -> 0 <= v < 2 ^ Z.of_nat n ->
  BitParses (rdp_bulk_read_bits (Z.of_nat n)) (to_bits n v ++ rest) rest v.
Proof. intros Hn Hv r Hwf Hu. eexists. by apply read_bits_parsed. Qed.
Lemma read_bit r b rest :
  br_wf r -> unread_bits r = b :: rest ->
  rdp_bulk_read_bits 1 r = (Ok (Z.b2z b), advance 1 r) /\ br_wf (advance 1 r) /\ unread_bits (advance 1 r) = rest.
Proof. intros Hwf Hu. apply (read_bits_parsed 1); [lia|by destruct b|done|]. rewrite Hu. by destruct b. Qed.
Lemma bitparses_bit (b : bool) rest :
  BitParses (rdp_bulk_read_bits 1) (b :: rest) rest (Z.b2z b).
Proof. intros r Hwf Hu. eexists. by apply read_bit. Qed.

Lemma consumes_prefixed table :
  Forall (fun e => 0 <= e.1 <= 31) table ->
  Consumes 1 (rdp_bulk_read_prefixed_value table) (fun v => 0 <= v < 2 ^ 32).
Proof.
  intros HF. induction HF as [|[value_bits base] table Hvb HF IH]; [apply consumes_fail|].
  cbn [rdp_bulk_read_prefixed_value fst] in *.
  eapply (consumes_bind 1 0); [lia|by apply consumes_coerce, consumes_read_bits| |lia]. intros bit _.
  apply consumes_if; [exact (consumes_weaken 1 0 _ _ _ ltac:(lia) (fun _ H => H) IH)|].
  eapply (consumes_bind 0 0 _ _ (fun _ => True)); [lia| | |lia].
  - apply consumes_if; [|by apply consumes_ret].
    apply (consumes_weaken value_bits 0 _ (fun v => 0 <= v < 2 ^ value_bits)); [lia|done|].
    by apply consumes_coerce, consumes_read_bits.
  - intros low _. apply consumes_ret. unfold u32. bits_lia.
Qed.

Lemma bitparses_prefixed table (i vb : nat) base low rest :
  table !! i = Some (Z.of_nat vb, base) -> (vb <= 31)%nat ->
  0 <= low < 2 ^ Z.of_nat vb -> 0 <= base -> base + low < 2 ^ 32 ->
  BitParses (rdp_bulk_read_prefixed_value table)
    (replicate i true ++ false :: to_bits vb low ++ rest) rest (base + low).
Proof.
  intros E Hvb Hlow Hbase Hsum. revert table E.
  induction i as [|i IH]; intros [|[vb' base'] table] E; [done| |done|].
  - injection E as -> ->. cbn [rdp_bulk_read_prefixed_value replicate app].
    eapply bitparses_bind; [apply bitparses_coerce, bitparses_bit|]. cbn [Z.b2z]. cbn [Z.eqb].
    eapply (bitparses_bind _ _ _ rest _ low).
    + destruct (Z.ltb_spec 0 (Z.of_nat vb)).
      * by apply bitparses_coerce, bitparses_read_bits.
      * assert (vb = 0%nat) as -> by lia. assert (low = 0) as -> by (cbn in Hlow; lia). apply bitparses_ret.
    + unfold u32. rewrite Z.mod_small by lia. apply bitparses_ret.
  - cbn [rdp_bulk_read_prefixed_value replicate app].
    eapply bitparses_bind; [apply bitparses_coerce, bitparses_bit|]. cbn [Z.b2z]. cbn [Z.eqb].
    by apply IH.
Qed.

(** ** Packing bits into bytes, the last byte padded with zeros *)

Fixpoint pack_bits (bs : list bool) : list Z :=
  match bs with
  | [] => []
  | b7 :: b6 :: b5 :: b4 :: b3 :: b2 :: b1 :: b0 :: rest =>
      bits_value 0 [b7; b6; b5; b4; b3; b2; b1; b0] :: pack_bits rest
  | _ => [bits_value 0 (bs ++ replicate (8 - length bs) false)]
  end.

Lemma byte_bits_value bs : length bs = 8%nat -> byte_bits (bits_value 0 bs) = bs.
Proof.
  intros Hl. do 8 (destruct bs as [|[] bs]; [done| |]); destruct bs; done.
Qed.

Lemma pack_bits_short bs :
  (0 < length bs < 8)%nat -> pack_bits bs = [bits_value 0 (bs ++ replicate (8 - length bs) false)].
Proof. intros Hl. do 8 (destruct bs as [|? bs]; [cbn in Hl; done || lia|]). cbn in Hl. lia. Qed.
Lemma pack_bits_long b8 rest :
  length b8 = 8%nat -> pack_bits (b8 ++ rest) = bits_value 0 b8 :: pack_bits rest.
Proof. intros Hl. do 8 (destruct b8 as [|? b8]; [done|]). destruct b8; done. Qed.

Lemma pack_bits_spec bs :
  exists pad, (pad < 8)%nat /\ bits_of (pack_bits bs) = bs ++ replicate pad false /\ bytes (pack_bits bs).
Proof.
  induction bs as [bs IH] using (induction_ltof1 _ length).
  destruct (decide (length bs = 0)%nat) as [E|E].
  { apply nil_length_inv in E as ->. exists 0%nat. split_and!; [lia|done|done]. }
  assert (Hb : forall l, length l = 8%nat -> is_byte (bits_value 0 l)).
  { intros l Hl. pose proof (bits_value_bounds 0 l) as H. unfold blen in H. rewrite Hl in H.
    unfold is_byte. lia. }
  destruct (decide (length bs < 8)%nat) as [Hlt|Hge].
  - exists (8 - length bs)%nat. rewrite pack_bits_short by lia.
    assert (Hl : length (bs ++ replicate (8 - length bs) false) = 8%nat)
      by (rewrite length_app, length_replicate; lia).
    split; [lia|]. split; [|by apply Forall_singleton, Hb].
    unfold bits_of. cbn [mbind list_bind]. by rewrite byte_bits_value, app_nil_r.
  - assert (Hl : length (take 8 bs) = 8%nat) by (rewrite length_take; lia).
    destruct (IH (drop 8 bs)) as (pad & Hp & E1 & Hb1).
    { unfold ltof. rewrite length_drop. lia. }
    exists pad. rewrite <- (take_drop 8 bs), pack_bits_long by done. split; [done|]. split.
    + unfold bits_of in *. cbn [mbind list_bind]. rewrite byte_bits_value, <- app_assoc by done.
      f_equal. exact E1.
    + by constructor; [apply Hb|].
Qed.
