(* ===== verification/Mppc.v ===== *)
(** * Mppc: the bulk decompressors for 8K and 64K histories

    Models the first part of [src/src/protocol/bulk.c]: the
    prefix codes of match offsets and lengths, and [rdp_bulk_mppc_decompress]
    with the history window it keeps from packet to packet.  The specification
    is LZ77 on the window ([lz_run]): decompressing the encoding of a list of
    tokens appends exactly what the tokens stand for. *)

From S2P Require Import Prelude Stream Buffer Bits BitReader Window.

Definition RDP_BULK_PACKET_COMPRESSED : Z := 0x20.
Definition RDP_BULK_PACKET_AT_FRONT : Z := 0x40.
Definition RDP_BULK_PACKET_FLUSHED : Z := 0x80.

(** [history] is NULL until the first packet. *)
Record rdp_bulk_mppc_state := mk_mppc_state {
  mp_history : option (list Z);
  mp_history_size : Z;
  mp_write_offset : Z;
  mp_level : Z;
}.

(** ** The state of a history *)

Definition rdp_bulk_mppc_state_init (level : Z) : rdp_bulk_mppc_state :=
  mk_mppc_state None (if negb (level =? 0) then 65536 else 8192) 0 level.

Definition set_history (h : option (list Z)) (st : rdp_bulk_mppc_state) : rdp_bulk_mppc_state :=
  mk_mppc_state h (mp_history_size st) (mp_write_offset st) (mp_level st).
Definition set_write_offset (n : Z) (st : rdp_bulk_mppc_state) : rdp_bulk_mppc_state :=
  mk_mppc_state (mp_history st) (mp_history_size st) n (mp_level st).

Definition rdp_bulk_mppc_state_reset (clear : bool) (st : rdp_bulk_mppc_state) :
    rdp_bulk_mppc_state :=
  let st := set_write_offset 0 st in
  match mp_history st with
  | Some _ =>
      if clear then set_history (Some (replicate (Z.to_nat (mp_history_size st)) 0)) st else st
  | None => st
  end.

Definition rdp_bulk_mppc_state_free (st : rdp_bulk_mppc_state) : rdp_bulk_mppc_state :=
  set_write_offset 0 (set_history None st).

(** [calloc] takes its outcome from the heap, as every allocation does. *)
Definition rdp_bulk_mppc_state_ensure : M (rdp_bulk_mppc_state * wstate) unit :=
  st ← gets fst;
  require (negb (mp_history_size st =? 0)) LIBRDP_STATUS_INVALID_ARGUMENT;;
  match mp_history st with
  | Some _ => mret tt
  | None =>
      on_snd alloc;;
      on_fst (modify (set_history (Some (replicate (Z.to_nat (mp_history_size st)) 0))))
  end.

Definition rdp_bulk_mppc_read_offset (level : Z) : bitreader Z :=
  first ← pr (rdp_bulk_read_bits 1);
  second ← pr (rdp_bulk_read_bits 1);
  require (negb (negb (first =? 1) || negb (second =? 1))) LIBRDP_STATUS_PROTOCOL_ERROR;;
  bit ← pr (rdp_bulk_read_bits 1);
  if bit =? 0 then
    low ← pr (rdp_bulk_read_bits (if negb (level =? 0) then 16 else 13));
    mret (u32 ((if negb (level =? 0) then 2368 else 320) + low))
  else
    bit ← pr (rdp_bulk_read_bits 1);
    if bit =? 0 then
      low ← pr (rdp_bulk_read_bits (if negb (level =? 0) then 11 else 8));
      mret (u32 ((if negb (level =? 0) then 320 else 64) + low))
    else if negb (level =? 0) then
      bit ← pr (rdp_bulk_read_bits 1);
      if bit =? 0 then
        low ← pr (rdp_bulk_read_bits 8);
        mret (u32 (64 + low))
      else pr (rdp_bulk_read_bits 6)
    else pr (rdp_bulk_read_bits 6).

Definition bits_common : list (Z * Z) :=
  [(0, 3); (2, 4); (3, 8); (4, 16); (5, 32); (6, 64); (7, 128); (8, 256); (9, 512); (10, 1024);
   (11, 2048); (12, 4096)].
Definition bits64k : list (Z * Z) :=
  [(0, 3); (2, 4); (3, 8); (4, 16); (5, 32); (6, 64); (7, 128); (8, 256); (9, 512); (10, 1024);
   (11, 2048); (12, 4096); (13, 8192); (14, 16384); (15, 32768)].

Definition rdp_bulk_mppc_read_length (level : Z) : bitreader Z :=
  if negb (level =? 0) then rdp_bulk_read_prefixed_value bits64k
  else rdp_bulk_read_prefixed_value bits_common.

(** ** Decompression *)

Abbreviation mppc := (M rdp_bulk_mppc_state).

(** [state->history[state->write_offset++] = value;] *)
Definition store (value : Z) : mppc unit :=
  st ← gets id;
  h ← lift (wr (default [] (mp_history st)) (mp_write_offset st) value);
  modify (fun st => set_write_offset (size_t (mp_write_offset st + 1)) (set_history (Some h) st)).

(** The copy, byte by byte; [n] bytes are left. *)
Fixpoint copy_loop (n : nat) (src : Z) : mppc unit :=
  match n with
  | O => mret tt
  | S n =>
      st ← gets id;
      value ← lift (rd (default [] (mp_history st)) src);
      store value;;
      copy_loop n (size_t (src + 1))
  end.

Definition rdp_bulk_mppc_copy_match (offset length : Z) : mppc unit :=
  st ← gets id;
  require (negb (match mp_history st with None => true | _ => false end || (length =? 0) ||
                 (mp_history_size st <? mp_write_offset st) ||
                 (mp_history_size st - mp_write_offset st <? length))) LIBRDP_STATUS_PROTOCOL_ERROR;;
  let mask := if negb (mp_level st =? 0) then 0xffff else 0x1fff in
  let src := Z.land (size_t (mp_write_offset st - offset)) mask in
  require (negb ((mp_history_size st <=? src) || (mp_history_size st - src <? length)))
    LIBRDP_STATUS_PROTOCOL_ERROR;;
  copy_loop (Z.to_nat length) src.

(** The decoding loop.  Every iteration reads eight bits or more, so one
    iteration per byte, and one to stop, are enough. *)
Fixpoint mppc_loop (fuel : nat) : M (rdp_bulk_bit_reader * rdp_bulk_mppc_state) unit :=
  match fuel with
  | O => lift Fault
  | S fuel =>
      '(reader, st) ← gets id;
      if rdp_bulk_bits_remaining reader <? 8 then mret tt else
      require (negb (mp_history_size st <=? mp_write_offset st)) LIBRDP_STATUS_PROTOCOL_ERROR;;
      first ← on_fst (rdp_bulk_read_bits 1);
      if first =? 0 then
        literal ← on_fst (rdp_bulk_read_bits 7);
        on_snd (store (u8 literal));;
        mppc_loop fuel
      else
        literal ← on_fst (rdp_bulk_read_bits 1);
        if literal =? 0 then
          literal ← on_fst (rdp_bulk_read_bits 7);
          on_snd (store (u8 (0x80 + literal)));;
          mppc_loop fuel
        else
          on_fst (modify (fun r => set_bit (size_t (br_bit r - 2)) r));;
          offset ← on_fst (rdp_bulk_mppc_read_offset (mp_level st));
          length ← on_fst (rdp_bulk_mppc_read_length (mp_level st));
          on_snd (rdp_bulk_mppc_copy_match offset length);;
          mppc_loop fuel
  end.

(** [if (status != LIBRDP_STATUS_OK) { state->write_offset = start; return status; }] *)
Definition restore_offset {A} (start : Z) (m : mppc A) : mppc A := fun st =>
  match m st with
  | (Err e, st') => (Err e, set_write_offset start st')
  | r => r
  end.

(** The (pointer, length) pair [(history + start, write_offset - start)]. *)
Definition decoded_view (start : Z) (st : rdp_bulk_mppc_state) : res view :=
  l ← slice (default [] (mp_history st)) start (mp_write_offset st - start);
  mret (View l).

Definition rdp_bulk_mppc_decompress (flags : Z) (data : view) :
    M (rdp_bulk_mppc_state * wstate) unit :=
  require (negb (view_null data)) LIBRDP_STATUS_INVALID_ARGUMENT;;
  rdp_bulk_mppc_state_ensure;;
  (if has_flag flags RDP_BULK_PACKET_AT_FRONT
   then on_fst (modify (rdp_bulk_mppc_state_reset false)) else mret tt);;
  (if has_flag flags RDP_BULK_PACKET_FLUSHED
   then on_fst (modify (rdp_bulk_mppc_state_reset true)) else mret tt);;
  if negb (has_flag flags RDP_BULK_PACKET_COMPRESSED) then on_snd (rdp_buffer_append data) else
  start ← gets (fun s => mp_write_offset s.1);
  on_fst (restore_offset start
    (with_reader (mk_bit_reader (view_bytes data) (blen (view_bytes data)) 0)
      (mppc_loop (S (length (view_bytes data))))));;
  st ← gets fst;
  out ← lift (decoded_view start st);
  on_snd (rdp_buffer_append out).

(** ** The window: the bytes a later match can refer to *)

(** What holds between calls, before the first packet too. *)
Record mppc_wf (st : rdp_bulk_mppc_state) : Prop := {
  mppc_wf_size : mp_history_size st = if negb (mp_level st =? 0) then 65536 else 8192;
  mppc_wf_offset : 0 <= mp_write_offset st <= mp_history_size st;
  mppc_wf_history : match mp_history st with
                    | Some h => blen h = mp_history_size st /\ bytes h
                    | None => mp_write_offset st = 0
                    end;
}.
Definition mppc_live (st : rdp_bulk_mppc_state) : Prop := mppc_wf st /\ is_Some (mp_history st).

Lemma mppc_size_bounds st : mppc_wf st -> 8192 <= mp_history_size st <= 65536.
Proof. intros [-> _ _]. destruct (mp_level st =? 0); cbn; lia. Qed.
Lemma same_size st st' : mppc_wf st -> mppc_wf st' -> mp_level st' = mp_level st ->
  mp_history_size st' = mp_history_size st.
Proof. by intros [-> _ _] [-> _ _] ->. Qed.
Lemma mppc_bounds st : mppc_live st -> 0 <= mp_write_offset st <= blen (default [] (mp_history st)).
Proof. intros [[Hs Ho Hh] [h Eh]]. rewrite Eh in *. cbn [default id]. destruct Hh. lia. Qed.
#[export] Instance mppc_history : History rdp_bulk_mppc_state Z := {
  hist_live := mppc_live;
  hist_cells st := default [] (mp_history st);
  hist_offset := mp_write_offset;
  hist_frame := mp_level;
  hist_bounds := mppc_bounds;
}.
Lemma mppc_blen_window st : mppc_live st -> blen (window st) = mp_write_offset st.
Proof. exact (blen_window st). Qed.

Lemma store_spec v st :
  mppc_live st -> mp_write_offset st < mp_history_size st -> is_byte v ->
  exists st', store v st = (Ok tt, st') /\ grown st st' [v].
Proof.
  intros [Hwf [h Eh]] Hlt Hv. pose proof (mppc_size_bounds st Hwf) as Hb. destruct Hwf as [Hs Ho Hh].
  rewrite Eh in Hh. destruct Hh as [Hl Hby]. eexists. unfold store. rewrite bind_gets, bind_lift. unfold id.
  rewrite Eh. cbn [default]. rewrite wr_ok by lia. split; [reflexivity|].
  assert (E : size_t (mp_write_offset st + 1) = mp_write_offset st + 1) by (unfold size_t; bits_lia).
  split; [split; [split|]| |].
  - exact Hs.
  - cbn. lia.
  - cbn. split; [unfold blen in *; by rewrite length_insert|by apply Forall_insert].
  - by eexists.
  - done.
  - unfold window. cbn. rewrite E, Eh. cbn. unfold ztake. rewrite Z2Nat.inj_add, Nat.add_1_r by lia.
    rewrite (take_S_r _ _ v); [|apply list_lookup_insert_eq; unfold blen in *; lia].
    by rewrite take_insert_ge.
Qed.

(** ** LZ77: the meaning of a packet *)

Inductive token : Set :=
| Literal (b : Z)
| Match (off len : Z).

Definition lz_token (win : list Z) (t : token) : list Z :=
  match t with
  | Literal b => win ++ [b]
  | Match off len => lz_copy (Z.to_nat len) off win
  end.
Definition lz_run (win : list Z) (ts : list token) : list Z := foldl lz_token win ts.

Lemma copy_loop_spec n src st :
  mppc_live st -> Z.of_nat n <= mp_history_size st - mp_write_offset st ->
  0 <= src -> src + Z.of_nat n <= mp_history_size st ->
  exists st' out, copy_loop n src st = (Ok tt, st') /\ grown st st' out /\ blen out = Z.of_nat n /\
    (forall off, 1 <= off -> src = mp_write_offset st - off -> window st' = lz_copy n off (window st)).
Proof.
  revert src st. induction n as [|n IH]; intros src st Hl Hn Hs Hsn.
  { exists st, []. split_and!; [done|by apply grown_refl|done|done]. }
  pose proof Hl as [Hwf [h Eh]]. pose proof (mppc_size_bounds st Hwf) as Hb.
  pose proof (mppc_wf_history st Hwf) as Hh. rewrite Eh in Hh. destruct Hh as [Hlen Hby].
  destruct (rd_ok h src) as (v & Ev & _); [lia|].
  destruct (store_spec v st Hl) as (st1 & E1 & G1); [lia|by eapply rd_Forall|].
  pose proof (grown_live _ _ _ G1) as Hl1. pose proof (same_size _ _ Hwf (proj1 Hl1) (grown_frame _ _ _ G1)) as Ez.
  pose proof (mppc_blen_window st Hl) as Bw. pose proof (mppc_blen_window st1 Hl1) as Bw1.
  rewrite (grown_window _ _ _ G1), blen_app, Bw in Bw1. change (blen [v]) with 1 in Bw1.
  assert (Eu : size_t (src + 1) = src + 1) by (unfold size_t; bits_lia).
  destruct (IH (src + 1) st1) as (st2 & out & E2 & G2 & Hout & Hlz); [done|lia|lia|lia|].
  exists st2, ([v] ++ out). cbn [copy_loop]. rewrite bind_gets. unfold id. rewrite Eh, bind_lift.
  cbn [default]. rewrite Ev, (bind_ok _ _ _ _ _ E1), Eu. split; [done|].
  split; [by eapply grown_trans|]. split; [rewrite blen_app, Hout; change (blen [v]) with 1; lia|].
  intros off Hoff Esrc. cbn [lz_copy]. rewrite (Hlz off), (grown_window _ _ _ G1) by lia.
  do 4 f_equal. rewrite (window_lookup st (blen (window st) - off) v); [done|cbn; lia|].
  cbn [hist_cells mppc_history]. rewrite Eh. cbn [default id]. rewrite <- Ev. f_equal. lia.
Qed.

Lemma mppc_mask st x :
  mppc_wf st -> Z.land x (if negb (mp_level st =? 0) then 0xffff else 0x1fff) = x mod mp_history_size st.
Proof. intros [-> _ _]. destruct (negb _); bits_norm; done. Qed.

Lemma copy_match_spec off len st :
  mppc_live st -> 0 <= len ->
  (rdp_bulk_mppc_copy_match off len st = (Err LIBRDP_STATUS_PROTOCOL_ERROR, st) \/
   exists st' out, rdp_bulk_mppc_copy_match off len st = (Ok tt, st') /\ grown st st' out) /\
  (1 <= off <= blen (window st) -> 1 <= len -> blen (window st) + len <= mp_history_size st ->
   exists st' out, rdp_bulk_mppc_copy_match off len st = (Ok tt, st') /\ grown st st' out /\
     window st' = lz_token (window st) (Match off len)).
Proof.
  intros Hl Hlen. pose proof Hl as [Hwf [h Eh]]. pose proof (mppc_size_bounds st Hwf) as Hb.
  pose proof (mppc_wf_offset st Hwf) as Ho. rewrite (mppc_blen_window st Hl).
  unfold rdp_bulk_mppc_copy_match. rewrite bind_gets, bind_require. unfold id. rewrite Eh, mppc_mask by done.
  cbn [orb].
  set (src := size_t _ mod _). rewrite bind_require.
  assert (Hsrc : 0 <= src < mp_history_size st) by (apply Z.mod_pos_bound; lia). split.
  - destruct (negb ((len =? 0) || (_ <? _) || _)) eqn:G1; [|by left]. destruct (negb ((_ <=? src) || _)) eqn:G2; [|by left]. right.
    destruct (copy_loop_spec (Z.to_nat len) src st Hl) as (st' & out & E & G & _); [lia|lia|lia|].
    by exists st', out.
  - intros Hoff H1 Hfit.
    assert (Es : src = mp_write_offset st - off).
    { unfold src, size_t. rewrite (Z.mod_small _ 0x10000000000000000), Z.mod_small; lia. }
    destruct (negb ((len =? 0) || (_ <? _) || _)) eqn:G1; [|lia]. destruct (negb ((_ <=? src) || _)) eqn:G2; [|lia].
    destruct (copy_loop_spec (Z.to_nat len) src st Hl) as (st' & out & E & G & _ & Hlz); [lia|lia|lia|].
    exists st', out. split_and!; [done|done|]. apply Hlz; [lia|exact Es].
Qed.

(** ** The codes of offsets and lengths *)

Lemma consumes_offset level :
  Consumes 7 (rdp_bulk_mppc_read_offset level) (fun _ => True).
Proof.
  assert (Hr : forall n, 6 <= n <= 31 -> Consumes 6 (pr (rdp_bulk_read_bits n)) (fun _ => True)).
  { intros n Hn. apply consumes_coerce, (consumes_weaken n 6 _ (fun v => 0 <= v < 2 ^ n)); [lia|done|].
    by apply consumes_read_bits; lia. }
  assert (H1 : Consumes 0 (pr (rdp_bulk_read_bits 1)) (fun _ => True)).
  { apply consumes_coerce, (consumes_weaken 1 0 _ (fun v => 0 <= v < 2)); [lia|done|].
    by apply (consumes_read_bits 1). }
  assert (Hm : forall n (f : Z -> Z), 6 <= n <= 31 ->
            Consumes 6 (low ← pr (rdp_bulk_read_bits n); mret (f low)) (fun _ => True)).
  { intros n f Hn. eapply (consumes_bind 6 0); [lia|by apply Hr| |lia]. intros. by apply consumes_ret. }
  unfold rdp_bulk_mppc_read_offset.
  eapply (consumes_bind 1 6); [lia|by apply consumes_coerce, consumes_read_bits| |lia]. intros first _.
  eapply (consumes_bind 0 6); [lia|exact H1| |lia]. intros second _. apply consumes_require.
  eapply (consumes_bind 0 6); [lia|exact H1| |lia]. intros bit _.
  apply consumes_if; [by destruct (negb (level =? 0)); apply Hm|].
  eapply (consumes_bind 0 6); [lia|exact H1| |lia]. intros bit2 _.
  apply consumes_if; [by destruct (negb (level =? 0)); apply Hm|].
  apply consumes_if; [|by apply Hr].
  eapply (consumes_bind 0 6); [lia|exact H1| |lia]. intros bit3 _.
  apply consumes_if; [by apply Hm|by apply Hr].
Qed.

Lemma consumes_length level :
  Consumes 1 (rdp_bulk_mppc_read_length level) (fun v => 0 <= v < 2 ^ 32).
Proof.
  unfold rdp_bulk_mppc_read_length. apply consumes_if; apply consumes_prefixed; by_evaluation.
Qed.

(** ** The decoding loop *)

(** Reading the two prefix bits again. *)
Lemma rewind r : br_wf r -> 2 <= blen (unread_bits r) ->
  set_bit (size_t (br_bit (advance 2 r) - 2)) (advance 2 r) = r.
Proof.
  intros Hwf H2. rewrite blen_unread in H2 by done. destruct Hwf as [_ Hs Hb], r as [d l b].
  unfold advance, set_bit, size_t, SIZE_MAX in *. cbn in *. f_equal. bits_lia.
Qed.

(** Steps of the loop whose reads cannot fail. *)
Lemma read_some n r :
  br_wf r -> 0 <= n <= 31 -> n <= blen (unread_bits r) ->
  exists v, rdp_bulk_read_bits n r = (Ok v, advance n r) /\ 0 <= v < 2 ^ n.
Proof.
  intros Hwf Hn Hle. rewrite read_bits_spec by done.
  destruct (Z.ltb_spec (blen (unread_bits r)) n); [lia|]. eexists. split; [done|].
  pose proof (bits_value_bounds 0 (ztake n (unread_bits r))) as H1. rewrite blen_ztake in H1; lia.
Qed.

Lemma loop_match_safe r st (k : M (rdp_bulk_bit_reader * rdp_bulk_mppc_state) unit) :
  br_wf r -> mppc_live st ->
  (forall r' st' out, br_wf r' -> blen (unread_bits r') <= blen (unread_bits r) - 8 ->
     grown st st' out -> loop_post st' (k (r', st'))) ->
  loop_post st
    ((offset ← on_fst (rdp_bulk_mppc_read_offset (mp_level st));
      length ← on_fst (rdp_bulk_mppc_read_length (mp_level st));
      on_snd (rdp_bulk_mppc_copy_match offset length);; k) (r, st)).
Proof.
  intros Hwf Hl Hk. rewrite bind_on_fst.
  pose proof (consumes_offset (mp_level st) r Hwf) as Ho.
  destruct (rdp_bulk_mppc_read_offset _ r) as [[off|e|] r1]; [| |done].
  2: destruct Ho as (-> & _); by apply loop_post_err.
  destruct Ho as (Hwf1 & _ & i & Hi & Eu1).
  rewrite bind_on_fst. pose proof (consumes_length (mp_level st) _ Hwf1) as Hlen.
  destruct (rdp_bulk_mppc_read_length _ _) as [[len|e|] r2]; [| |done].
  2: destruct Hlen as (-> & _); by apply loop_post_err.
  destruct Hlen as (Hwf2 & Hv & j & Hj & Eu2). rewrite Eu1 in Hj, Eu2. rewrite blen_zdrop in Hj by lia.
  rewrite bind_on_snd.
  destruct (copy_match_spec off len st Hl ltac:(lia)) as [[E|(st' & out & E & G)] _]; rewrite E.
  - by apply loop_post_err.
  - eapply loop_post_grown; [exact G|]. eapply Hk; [done| |exact G].
    rewrite Eu2, !blen_zdrop by (rewrite ?blen_zdrop; lia). lia.
Qed.

Lemma mppc_loop_safe fuel r st :
  br_wf r -> mppc_live st -> blen (unread_bits r) < 8 * Z.of_nat fuel ->
  loop_post st (mppc_loop fuel (r, st)).
Proof.
  revert r st. induction fuel as [|fuel IH]; intros r st Hwf Hl Hf; [zlen|].
  cbn [mppc_loop]. rewrite bind_gets. unfold id. rewrite bits_remaining_spec by done.
  destruct (Z.ltb_spec (blen (unread_bits r)) 8) as [|H8].
  { split; [done|]. exists []. by apply grown_refl. }
  rewrite bind_require. destruct (Z.leb_spec (mp_history_size st) (mp_write_offset st)) as [|Hfull];
    cbn [negb]; [by apply loop_post_err|].
  assert (Hnext : forall n r', r' = advance n r -> 8 <= n <= blen (unread_bits r) -> br_wf r' /\
    blen (unread_bits r') < 8 * Z.of_nat fuel).
  { intros n r' -> Hn. split; [apply advance_wf; [done|lia]|].
    rewrite unread_advance, blen_zdrop by (done || lia). lia. }
  assert (Hlit : forall n v, 8 <= n <= blen (unread_bits r) -> is_byte v ->
    loop_post st ((on_snd (store v);; mppc_loop fuel) (advance n r, st))).
  { intros n v Hn Hv. rewrite bind_on_snd. destruct (store_spec v st Hl Hfull Hv) as (st' & -> & G).
    destruct (Hnext n _ eq_refl Hn) as [Hwf' Hf'].
    eapply loop_post_grown; [exact G|]. apply IH; [done|apply G|done]. }
  assert (Hadv : forall n, 0 <= n <= blen (unread_bits r) -> br_wf (advance n r) /\
    blen (unread_bits (advance n r)) = blen (unread_bits r) - n).
  { intros n Hn. split; [by apply advance_wf|]. by rewrite unread_advance, blen_zdrop by (done || lia). }
  rewrite bind_on_fst. destruct (read_some 1 r Hwf) as (first & -> & _); [lia|lia|].
  destruct (Hadv 1) as [Hwf1 Hu1]; [lia|].
  destruct (first =? 0).
  { rewrite bind_on_fst. destruct (read_some 7 (advance 1 r) Hwf1) as (v & -> & Hv); [lia|lia|].
    rewrite advance_advance. apply Hlit; [lia|]. unfold is_byte, u8. bits_lia. }
  rewrite bind_on_fst. destruct (read_some 1 (advance 1 r) Hwf1) as (second & -> & _); [lia|lia|].
  rewrite advance_advance. change (1 + 1) with 2. destruct (Hadv 2) as [Hwf2 Hu2]; [lia|].
  destruct (second =? 0).
  { rewrite bind_on_fst, read_bits_spec by (done || lia).
    destruct (Z.ltb_spec (blen (unread_bits (advance 2 r))) 7); [by apply loop_post_err|].
    rewrite advance_advance. apply Hlit; [lia|]. unfold is_byte, u8. bits_lia. }
  rewrite bind_on_fst. unfold modify. rewrite rewind by (done || lia).
  apply loop_match_safe; [done|done|]. intros r' st' out Hwf' Hu' G.
  apply IH; [done|apply G|lia].
Qed.

(** ** A whole packet *)

Lemma run_loop_safe d st :
  mppc_live st -> loop_post st (mppc_loop (S (length d)) (mk_bit_reader d (blen d) 0, st)).
Proof.
  intros Hl. destruct (Z.le_gt_cases (blen d) (SIZE_MAX / 8)) as [Hd|Hd].
  - assert (Hwf : br_wf (mk_bit_reader d (blen d) 0)) by (split; cbn; zlen).
    apply mppc_loop_safe; [done|done|]. rewrite blen_unread by done. cbn [br_data br_bit]. unfold blen. lia.
  - cbn [mppc_loop]. rewrite bind_gets. unfold id, rdp_bulk_bits_remaining. cbn [br_length].
    destruct (Z.ltb_spec (SIZE_MAX / 8) (blen d)); [|lia]. split; [done|]. exists []. by apply grown_refl.
Qed.

(** The window a packet starts from. *)
Definition packet_window (flags : Z) (st : rdp_bulk_mppc_state) : list Z :=
  if has_flag flags RDP_BULK_PACKET_AT_FRONT || has_flag flags RDP_BULK_PACKET_FLUSHED
  then [] else window st.

Lemma reset_live c st :
  mppc_live st -> mppc_live (rdp_bulk_mppc_state_reset c st) /\
  mp_level (rdp_bulk_mppc_state_reset c st) = mp_level st /\ window (rdp_bulk_mppc_state_reset c st) = [].
Proof.
  intros [Hwf [h Eh]]. pose proof (mppc_size_bounds st Hwf). destruct Hwf as [Hs Ho Hh]. rewrite Eh in Hh.
  unfold rdp_bulk_mppc_state_reset. cbn [set_write_offset mp_history]. rewrite Eh.
  destruct c; (split; [split; [split; cbn|by eexists]|done]); try done; try lia.
  - split; [rewrite blen_replicate; lia|by apply Forall_replicate].
  - by rewrite Eh.
Qed.

Lemma state_ensure_spec st b h :
  mppc_wf st ->
  (exists h', rdp_bulk_mppc_state_ensure (st, (b, h)) = (Err LIBRDP_STATUS_NO_MEMORY, (st, (b, h'))) /\
    h <> [] /\ window st = []) \/
  (exists st' h', rdp_bulk_mppc_state_ensure (st, (b, h)) = (Ok tt, (st', (b, h'))) /\
    mppc_live st' /\ mp_level st' = mp_level st /\ window st' = window st /\ (h = [] -> h' = [])).
Proof.
  intros Hwf. pose proof (mppc_size_bounds st Hwf). unfold rdp_bulk_mppc_state_ensure.
  rewrite bind_gets, bind_require. cbn [fst]. destruct (Z.eqb_spec (mp_history_size st) 0); [lia|].
  cbn [negb]. destruct Hwf as [Hs Ho Hh]. destruct (mp_history st) as [hist|] eqn:Eh.
  - right. exists st, h. split; [done|]. split; [|done]. split; [|by rewrite Eh].
    split; [done|done|by rewrite Eh].
  - rewrite bind_on_snd. unfold alloc, heap_alloc. destruct h as [|[] h]; cbn [fst snd].
    3: { left. exists h. split_and!; [done|done|].
         unfold window. cbn [hist_cells hist_offset mppc_history]. by rewrite Hh, Eh. }
    all: right; eexists _, _; split; [reflexivity|]; (split; [|split; [done|]]).
    all: try (split; [split; cbn|by eexists]; try done; split; [rewrite blen_replicate; lia|by apply Forall_replicate]).
    all: unfold window, set_history; cbn; rewrite Eh, Hh; done.
Qed.

Lemma grown_restore st st' out :
  mppc_live st -> grown st st' out ->
  mppc_wf (set_write_offset (mp_write_offset st) st') /\
  window (set_write_offset (mp_write_offset st) st') = window st.
Proof.
  intros Hl G. split; [|exact (@grown_restored _ _ mppc_history st st' out Hl G)]. destruct G as [[[Hs Ho Hh] [h Eh]] El _].
  pose proof (mppc_wf_offset _ (proj1 Hl)). rewrite Eh in Hh.
  split; cbn; [done| |by rewrite Eh]. rewrite Hs. rewrite (mppc_wf_size _ (proj1 Hl)) in *. cbn in El. rewrite El. lia.
Qed.

Lemma decoded_view_spec st st' out :
  mppc_live st -> grown st st' out -> decoded_view (mp_write_offset st) st' = Ok (View out).
Proof.
  intros Hl G. pose proof (@grown_slice _ _ mppc_history st st' out Hl G) as E.
  cbn [hist_cells hist_offset mppc_history] in E. unfold decoded_view. by rewrite E.
Qed.

(** The outcome of a packet, from the point where the history exists. *)
Definition packet_post (flags : Z) (d win : list Z) (b : rdp_buffer) (r : res unit)
    (st' : rdp_bulk_mppc_state) (b' : rdp_buffer) : Prop :=
  match r with
  | Ok _ => exists out, contents b' = contents b ++ out /\
      if has_flag flags RDP_BULK_PACKET_COMPRESSED then window st' = win ++ out
      else out = d /\ window st' = win
  | Err e => contents b' = contents b /\
      (e = LIBRDP_STATUS_NO_MEMORY /\
         (if has_flag flags RDP_BULK_PACKET_COMPRESSED then exists out, window st' = win ++ out
          else window st' = win) \/
       e = LIBRDP_STATUS_PROTOCOL_ERROR /\ window st' = win)
  | Fault => False
  end.

(** Deliver the bytes [out] of a packet. *)
Lemma append_spec {T} (st : T) out b h :
  buffer_wf b ->
  exists r b' h', on_snd (rdp_buffer_append (View out)) (st, (b, h)) = (r, (st, (b', h'))) /\ buffer_wf b' /\
    (r = Ok tt /\ contents b' = contents b ++ out \/
     r = Err LIBRDP_STATUS_NO_MEMORY /\ contents b' = contents b) /\
    (h = [] -> b_length b + blen out <= 2 ^ 63 -> r = Ok tt /\ h' = []).
Proof.
  intros Hb. destruct (append_atomic out (View out) eq_refl eq_refl b h Hb)
    as (r & b' & h' & E & Hwf & Hr & Hok).
  exists r, b', h'. unfold on_snd. cbn [fst snd]. rewrite E. split; [done|]. split; [done|]. split.
  - destruct Hr as [([] & -> & _ & Hc)|[-> Hc]]; [by left|by right].
  - intros Hh Hl. destruct (Hok Hh Hl) as [Ho ->]. by destruct r as [[]| |].
Qed.

(** The part of the function after the history has been set up and reset. *)
Definition decode_packet (flags : Z) (d : list Z) : M (rdp_bulk_mppc_state * wstate) unit :=
  if negb (has_flag flags RDP_BULK_PACKET_COMPRESSED) then on_snd (rdp_buffer_append (View d)) else
  start ← gets (fun s => mp_write_offset s.1);
  on_fst (restore_offset start (with_reader (mk_bit_reader d (blen d) 0) (mppc_loop (S (length d)))));;
  st ← gets fst;
  out ← lift (decoded_view start st);
  on_snd (rdp_buffer_append out).

Lemma decode_packet_spec flags d st b h :
  mppc_live st -> buffer_wf b ->
  exists r st' b' h', decode_packet flags d (st, (b, h)) = (r, (st', (b', h'))) /\
    mppc_wf st' /\ mp_level st' = mp_level st /\ buffer_wf b' /\ packet_post flags d (window st) b r st' b'.
Proof.
  intros Hl Hb. unfold decode_packet, packet_post. destruct (has_flag _ _) eqn:Ef; cbn [negb].
  2: { destruct (append_spec st d b h Hb) as (r & b' & h' & E & Hwf & Hr & _). exists r, st, b', h'.
       split; [done|]. split; [apply Hl|]. split; [done|]. split; [done|].
       destruct Hr as [[-> Hc]|[-> Hc]]; [by eauto|by auto]. }
  rewrite bind_gets. cbn [fst]. rewrite bind_on_fst. unfold restore_offset, with_reader.
  destruct (run_loop_safe d st Hl) as [Hp [out G]].
  destruct (mppc_loop _ _) as [r [br st']]. cbn [fst snd] in Hp, G.
  destruct r as [[]|e|]; [| |done].
  - rewrite bind_gets. cbn [fst]. rewrite (decoded_view_spec st st' out Hl G), bind_lift.
    destruct (append_spec st' out b h Hb) as (r & b' & h' & E & Hwf & Hr & _). exists r, st', b', h'.
    split; [done|]. destruct G as [G1 G2 G3]. split; [apply G1|]. split; [done|]. split; [done|].
    destruct Hr as [[-> Hc]|[-> Hc]]; [by eauto|by eauto 6].
  - subst e. destruct (grown_restore st st' out Hl G) as [Hwf Hw]. eexists _, _, b, h.
    split; [done|]. split; [done|]. split; [apply G|]. split; [done|]. split; [done|]. by right.
Qed.

Lemma prepare_spec flags st (k : M (rdp_bulk_mppc_state * wstate) unit) w :
  mppc_live st ->
  exists st', mppc_live st' /\ mp_level st' = mp_level st /\ window st' = packet_window flags st /\
  ((if has_flag flags RDP_BULK_PACKET_AT_FRONT
    then on_fst (modify (rdp_bulk_mppc_state_reset false)) else mret tt);;
   (if has_flag flags RDP_BULK_PACKET_FLUSHED
    then on_fst (modify (rdp_bulk_mppc_state_reset true)) else mret tt);; k) (st, w) = k (st', w).
Proof.
  intros Hl. unfold packet_window.
  destruct (reset_live false st Hl) as (L1 & E1 & W1), (reset_live true st Hl) as (L2 & E2 & W2).
  destruct (reset_live true _ L1) as (L3 & E3 & W3).
  destruct (has_flag flags RDP_BULK_PACKET_AT_FRONT), (has_flag flags RDP_BULK_PACKET_FLUSHED); cbn [orb].
  - eexists. split; [exact L3|]. rewrite E3, E1, W3. split_and!; done.
  - eexists. split; [exact L1|]. rewrite E1, W1. split_and!; done.
  - eexists. split; [exact L2|]. rewrite E2, W2. split_and!; done.
  - exists st. split_and!; done.
Qed.

Lemma state_init_wf level : mppc_wf (rdp_bulk_mppc_state_init level).
Proof. split; cbn; [done|by destruct (negb _)|done]. Qed.
Lemma state_reset_wf c st : mppc_wf st -> mppc_wf (rdp_bulk_mppc_state_reset c st).
Proof.
  intros Hwf. destruct (mp_history st) as [h|] eqn:Eh.
  - by apply reset_live; split.
  - pose proof (mppc_size_bounds st Hwf). destruct Hwf as [Hs Ho Hh]. unfold rdp_bulk_mppc_state_reset.
    cbn [set_write_offset mp_history]. rewrite Eh. split; cbn; [done|lia|by rewrite Eh].
Qed.
Lemma state_free_wf st : mppc_wf st -> mppc_wf (rdp_bulk_mppc_state_free st).
Proof.
  intros Hwf. pose proof (mppc_size_bounds st Hwf). destruct Hwf as [Hs Ho Hh].
  split; cbn; [done|lia|done].
Qed.

(** A packet, from any state that satisfies the invariant. *)
Lemma mppc_step flags d st b h :
  mppc_wf st -> buffer_wf b ->
  exists r st' b' h',
    rdp_bulk_mppc_decompress flags (View d) (st, (b, h)) = (r, (st', (b', h'))) /\
    mppc_wf st' /\ mp_level st' = mp_level st /\ buffer_wf b' /\
    packet_post flags d (packet_window flags st) b r st' b'.
Proof.
  intros Hwf Hb. unfold rdp_bulk_mppc_decompress. rewrite bind_require. cbn [view_null negb view_bytes].
  destruct (state_ensure_spec st b h Hwf) as [(h' & E & _ & Ew)|(st1 & h1 & E & Hl & El & Ew & _)].
  - rewrite (bind_err _ _ _ _ _ E). exists (Err LIBRDP_STATUS_NO_MEMORY), st, b, h'.
    do 4 (split; [done|]). split; [done|left; split; [done|]].
    assert (Ep : packet_window flags st = []) by (unfold packet_window; by destruct (_ || _)).
    rewrite Ep, Ew. destruct (has_flag _ _); [by exists []|done].
  - rewrite (bind_ok _ _ _ _ _ E).
    destruct (prepare_spec flags st1 (decode_packet flags d) (b, h1) Hl) as (st2 & Hl2 & El2 & Ew2 & Ep).
    destruct (decode_packet_spec flags d st2 b h1 Hl2 Hb) as (r & st' & b' & h' & Ed & Hwf' & El' & Hb' & Hp).
    exists r, st', b', h'. split; [exact (eq_trans Ep Ed)|].
    rewrite El', El2, El. unfold packet_window in *. rewrite Ew2, Ew in Hp. done.
Qed.

(** C33: the state of the 8K/64K decompressor: a fresh, a reset and a freed state
    satisfy its invariant, and for any packet, from any state that satisfies it,
    the call has no undefined behaviour, ends within its fuel and re-establishes
    the invariant. A packet starts from the window there was, or from an empty one
    if its flags say so. A compressed packet that is accepted appends to the
    output exactly the bytes it appends to that window; a packet without the flag
    is appended to the output as it is and leaves the window it started from; a
    malformed packet leaves the output alone, and the window it started from; and
    want of memory leaves the output alone, while a compressed packet's bytes may
    stay in the window. *)
Theorem mppc_decompress_invariant flags d st b h level clear :
  mppc_wf st -> buffer_wf b ->
  (mppc_wf (rdp_bulk_mppc_state_init level) /\ mppc_wf (rdp_bulk_mppc_state_reset clear st) /\
   mppc_wf (rdp_bulk_mppc_state_free st)) /\
  exists r st' b' h',
    rdp_bulk_mppc_decompress flags (View d) (st, (b, h)) = (r, (st', (b', h'))) /\
    mppc_wf st' /\ mp_level st' = mp_level st /\ buffer_wf b' /\
    packet_post flags d (packet_window flags st) b r st' b'.
Proof.
  intros Hwf Hb. split; [|by apply mppc_step].
  by auto using state_init_wf, state_reset_wf, state_free_wf.
Qed.

(** ** Encoding a list of tokens *)

Definition offset_enc (level off : Z) : list bool :=
  if negb (level =? 0) then
    if off <? 64 then [true; true; true; true; true] ++ to_bits 6 off
    else if off <? 320 then [true; true; true; true; false] ++ to_bits 8 (off - 64)
    else if off <? 2368 then [true; true; true; false] ++ to_bits 11 (off - 320)
    else [true; true; false] ++ to_bits 16 (off - 2368)
  else
    if off <? 64 then [true; true; true; true] ++ to_bits 6 off
    else if off <? 320 then [true; true; true; false] ++ to_bits 8 (off - 64)
    else [true; true; false] ++ to_bits 13 (off - 320).

Definition length_enc (len : Z) : list bool :=
  if len =? 3 then [false]
  else
    let k := Z.to_nat (Z.log2 len) in
    replicate (k - 1) true ++ false :: to_bits k (len - 2 ^ Z.log2 len).

Definition token_enc (level : Z) (t : token) : list bool :=
  match t with
  | Literal b => if b <? 128 then false :: to_bits 7 b else true :: false :: to_bits 7 (b - 128)
  | Match off len => offset_enc level off ++ length_enc len
  end.
Definition tokens_enc (level : Z) (ts : list token) : list bool := ts ≫= token_enc level.

(** The tokens a window of [size] bytes has room for. *)
Definition token_ok (size : Z) (win : list Z) (t : token) : Prop :=
  match t with
  | Literal b => is_byte b /\ blen win < size
  | Match off len => 1 <= off <= blen win /\ 3 <= len /\ blen win + len <= size
  end.
Fixpoint tokens_ok (size : Z) (win : list Z) (ts : list token) : Prop :=
  match ts with
  | [] => True
  | t :: ts => token_ok size win t /\ tokens_ok size (lz_token win t) ts
  end.

Lemma offset_parsed level off rest :
  0 <= off < (if negb (level =? 0) then 65536 else 8192) ->
  BitParses (rdp_bulk_mppc_read_offset level) (offset_enc level off ++ rest) rest off.
Proof.
  intros Hoff.
  assert (Hlow : forall (n : nat) base, (n <= 16)%nat -> 0 <= base -> 0 <= off - base < 2 ^ Z.of_nat n -> base < 65536 ->
    BitParses (low ← pr (rdp_bulk_read_bits (Z.of_nat n)); mret (u32 (base + low)))
      (to_bits n (off - base) ++ rest) rest off).
  { intros n base Hn Hb Hr Hm. eapply bitparses_bind;
      [apply bitparses_coerce, bitparses_read_bits; [lia|done]|].
    replace (u32 (base + (off - base))) with off
      by (unfold u32; rewrite Z.mod_small; destruct (negb _); lia). apply bitparses_ret. }
  assert (H6 : off < 64 -> BitParses (pr (rdp_bulk_read_bits 6)) (to_bits 6 off ++ rest) rest off).
  { intros H. apply bitparses_coerce, (bitparses_read_bits 6); [lia|]. cbn. lia. }
  assert (Hbit : forall {B} (k : Z -> bitreader B) b inp (v : B),
    BitParses (k (Z.b2z b)) inp rest v -> BitParses (pr (rdp_bulk_read_bits 1) ≫= k) (b :: inp) rest v).
  { intros B k b inp v Hk. eapply bitparses_bind; [apply bitparses_coerce, bitparses_bit|done]. }
  unfold rdp_bulk_mppc_read_offset, offset_enc.
  destruct (negb (level =? 0));
    repeat match goal with |- context [if ?a <? ?b then _ else _] => destruct (Z.ltb_spec a b) end;
    cbn [app]; do 2 apply Hbit; apply bitparses_require; try done;
    repeat (apply Hbit; cbn [Z.b2z Z.eqb]).
  all: try by apply H6.
  - apply (Hlow 8%nat 64); lia.
  - apply (Hlow 11%nat 320); lia.
  - apply (Hlow 16%nat 2368); lia.
  - apply (Hlow 8%nat 64); lia.
  - apply (Hlow 13%nat 320); lia.
Qed.

Lemma length_table (big : bool) (k : nat) :
  (2 <= k <= (if big then 15 else 12))%nat ->
  (if big then bits64k else bits_common) !! (k - 1)%nat = Some (Z.of_nat k, 2 ^ Z.of_nat k).
Proof.
  intros Hk. assert (k <= 15)%nat by (destruct big; lia).
  do 16 (destruct k as [|k]; [destruct big; reflexivity || (cbn in Hk; lia)|]). lia.
Qed.

Lemma length_parsed level len rest :
  3 <= len < (if negb (level =? 0) then 65536 else 8192) ->
  BitParses (rdp_bulk_mppc_read_length level) (length_enc len ++ rest) rest len.
Proof.
  intros Hlen.
  assert (H : BitParses (rdp_bulk_read_prefixed_value (if negb (level =? 0) then bits64k else bits_common))
                (length_enc len ++ rest) rest len).
  2: { unfold rdp_bulk_mppc_read_length. by destruct (negb _). }
  unfold length_enc. destruct (Z.eqb_spec len 3) as [->|Hne].
  { apply (bitparses_prefixed _ 0 0 3 0); [by destruct (negb _)|lia..]. }
  assert (Hlog : 2 ^ Z.log2 len <= len < 2 ^ Z.succ (Z.log2 len)) by (apply Z.log2_spec; lia).
  assert (H2 : 2 <= Z.log2 len) by (apply Z.log2_le_pow2; lia).
  assert (H16 : Z.log2 len < if negb (level =? 0) then 16 else 13)
    by (apply Z.log2_lt_pow2; destruct (negb _); lia).
  rewrite Z.pow_succ_r in Hlog by lia.
  set (k := Z.to_nat (Z.log2 len)). assert (Ek : Z.of_nat k = Z.log2 len) by (unfold k; lia).
  assert (H32 : 2 ^ Z.log2 len < 2 ^ 16) by (apply Z.pow_lt_mono_r; destruct (negb _); lia).
  pose proof (bitparses_prefixed (if negb (level =? 0) then bits64k else bits_common) (k - 1) k
    (2 ^ Z.of_nat k) (len - 2 ^ Z.log2 len) rest) as Hp. rewrite <- app_assoc. cbn [app].
  rewrite Ek in Hp. rewrite Z.add_sub_assoc, Z.add_simpl_l in Hp.
  apply Hp; [rewrite <- Ek; apply length_table; destruct (negb _); lia|destruct (negb _); lia|lia..].
Qed.

Lemma token_enc_length level t : match t with Match _ len => 3 <= len | _ => True end ->
  8 <= blen (token_enc level t).
Proof.
  assert (Hpos : forall l : list bool, 0 <= blen l) by (intros; apply blen_nonneg).
  destruct t as [b|off len]; intros Hlen; cbn [token_enc].
  - destruct (b <? 128); [done|done].
  - rewrite blen_app. assert (Ho : 10 <= blen (offset_enc level off)).
    { unfold offset_enc. repeat match goal with |- context [if ?c then _ else _] => destruct c end;
        rewrite blen_app, blen_to_bits; zlen. }
    specialize (Hpos (length_enc len)). lia.
Qed.

(** One token through the loop. *)
Lemma loop_match_lz r st off len rest (k : M (rdp_bulk_bit_reader * rdp_bulk_mppc_state) unit) :
  br_wf r -> mppc_live st -> token_ok (mp_history_size st) (window st) (Match off len) ->
  unread_bits r = token_enc (mp_level st) (Match off len) ++ rest ->
  exists r' st' out, br_wf r' /\ unread_bits r' = rest /\ grown st st' out /\
    window st' = lz_token (window st) (Match off len) /\
    ((offset ← on_fst (rdp_bulk_mppc_read_offset (mp_level st));
      length ← on_fst (rdp_bulk_mppc_read_length (mp_level st));
      on_snd (rdp_bulk_mppc_copy_match offset length);; k) (r, st)) = k (r', st').
Proof.
  intros Hwf Hl (Hoff & Hlen & Hfit) Hu. cbn [token_enc] in Hu. rewrite <- app_assoc in Hu.
  pose proof (mppc_wf_size st (proj1 Hl)) as Hs.
  assert (Hp : BitParses (offset ← rdp_bulk_mppc_read_offset (mp_level st);
                          length ← rdp_bulk_mppc_read_length (mp_level st); mret (offset, length))
                 (unread_bits r) rest (off, len)).
  { rewrite Hu. eapply bitparses_bind; [apply offset_parsed; lia|].
    eapply bitparses_bind; [apply length_parsed; lia|apply bitparses_ret]. }
  destruct (Hp r Hwf eq_refl) as (r3 & E & Hwf3 & Hu3).
  destruct (copy_match_spec off len st Hl ltac:(lia)) as [_ Hc].
  destruct (Hc Hoff ltac:(lia) Hfit) as (st' & out & Ec & G & Ew).
  exists r3, st', out. split; [done|]. split; [done|]. split; [done|]. split; [done|].
  rewrite bind_on_fst. unfold mbind, M_bind in E.
  destruct (rdp_bulk_mppc_read_offset _ r) as [[o|?|] r1]; [|done|done]. rewrite bind_on_fst.
  destruct (rdp_bulk_mppc_read_length _ r1) as [[l|?|] r2]; [|done|done].
  injection E as -> -> ->. by rewrite bind_on_snd, Ec.
Qed.

Lemma read_seven r v rest :
  br_wf r -> 0 <= v < 128 -> unread_bits r = to_bits 7 v ++ rest ->
  rdp_bulk_read_bits 7 r = (Ok v, advance 7 r) /\ br_wf (advance 7 r) /\ unread_bits (advance 7 r) = rest.
Proof. intros Hwf Hv Hu. apply (read_bits_parsed 7); [lia|cbn; lia|done|done]. Qed.

Lemma match_enc_head level off len : exists l, token_enc level (Match off len) = true :: true :: l.
Proof.
  cbn [token_enc]. unfold offset_enc.
  repeat match goal with |- context [if ?c then _ else _] => destruct c end; by eexists.
Qed.

(** The loop on one more token. *)
Lemma mppc_loop_token fuel r st t rest :
  br_wf r -> mppc_live st -> token_ok (mp_history_size st) (window st) t ->
  unread_bits r = token_enc (mp_level st) t ++ rest ->
  exists r' st' out, br_wf r' /\ unread_bits r' = rest /\ grown st st' out /\
    window st' = lz_token (window st) t /\ mppc_loop (S fuel) (r, st) = mppc_loop fuel (r', st').
Proof.
  intros Hwf Hl Ht Hu. pose proof (mppc_blen_window st Hl) as Bw.
  assert (H8 : 8 <= blen (token_enc (mp_level st) t))
    by (apply token_enc_length; destruct t; [done|by destruct Ht as (? & ? & ?)]).
  assert (Hroom : mp_write_offset st < mp_history_size st)
    by (rewrite <- Bw; destruct t as [b|off len]; destruct Ht; lia).
  cbn [mppc_loop]. rewrite bind_gets. unfold id. rewrite bits_remaining_spec, Hu, blen_app by done.
  pose proof (blen_nonneg rest). destruct (Z.ltb_spec (blen (token_enc (mp_level st) t) + blen rest) 8); [lia|].
  rewrite bind_require. destruct (Z.leb_spec (mp_history_size st) (mp_write_offset st)); [lia|].
  cbn [negb]. rewrite bind_on_fst. destruct t as [b|off len].
  - destruct Ht as [Hb _]. destruct (store_spec b st Hl Hroom Hb) as (st' & Es & G).
    cbn [token_enc] in Hu. unfold is_byte in Hb. destruct (Z.ltb_spec b 128).
    + destruct (read_bit r _ _ Hwf Hu) as (-> & Hwf1 & Hu1). cbn [Z.b2z Z.eqb]. rewrite bind_on_fst.
      destruct (read_seven _ b rest Hwf1 ltac:(lia) Hu1) as (-> & Hwf2 & Hu2). rewrite bind_on_snd.
      replace (u8 b) with b by (unfold u8; bits_lia). rewrite Es.
      eexists _, st', [b]. split_and!; [exact Hwf2|done|done|apply G|done].
    + destruct (read_bit r _ _ Hwf Hu) as (-> & Hwf1 & Hu1). cbn [Z.b2z Z.eqb]. rewrite bind_on_fst.
      destruct (read_bit _ _ _ Hwf1 Hu1) as (-> & Hwf2 & Hu2). cbn [Z.b2z Z.eqb]. rewrite bind_on_fst.
      destruct (read_seven _ (b - 128) rest Hwf2 ltac:(lia) Hu2) as (-> & Hwf3 & Hu3). rewrite bind_on_snd.
      replace (u8 (0x80 + (b - 128))) with b by (unfold u8; bits_lia). rewrite Es.
      eexists _, st', [b]. split_and!; [exact Hwf3|done|done|apply G|done].
  - destruct (match_enc_head (mp_level st) off len) as [l El].
    assert (Hu' := Hu). rewrite El in Hu'.
    destruct (read_bit r _ _ Hwf Hu') as (-> & Hwf1 & Hu1). cbn [Z.b2z Z.eqb]. rewrite bind_on_fst.
    destruct (read_bit _ _ _ Hwf1 Hu1) as (-> & Hwf2 & Hu2). cbn [Z.b2z Z.eqb]. rewrite bind_on_fst.
    unfold modify. rewrite advance_advance. change (1 + 1) with 2. rewrite rewind by (rewrite ?Hu, ?blen_app; done || lia).
    by apply (loop_match_lz r st off len rest).
Qed.

Lemma mppc_loop_lz ts fuel r st pad :
  br_wf r -> mppc_live st -> tokens_ok (mp_history_size st) (window st) ts ->
  unread_bits r = tokens_enc (mp_level st) ts ++ pad -> blen pad < 8 ->
  blen (unread_bits r) < 8 * Z.of_nat fuel ->
  exists r' st' out, mppc_loop fuel (r, st) = (Ok tt, (r', st')) /\ grown st st' out /\
    window st' = lz_run (window st) ts.
Proof.
  intros Hwf Hl Hts Hu Hpad Hf. revert fuel r st Hwf Hl Hts Hu Hf.
  induction ts as [|t ts IH]; intros fuel r st Hwf Hl Hts Hu Hf.
  - destruct fuel as [|fuel]; [zlen|]. exists r, st, [].
    split; [|split; [by apply grown_refl|done]]. cbn [mppc_loop]. rewrite bind_gets. unfold id.
    rewrite bits_remaining_spec, Hu by done. cbn [tokens_enc mbind list_bind app].
    by destruct (Z.ltb_spec (blen pad) 8); [|lia].
  - destruct fuel as [|fuel]; [zlen|]. destruct Hts as [Ht Hts].
    unfold tokens_enc in Hu. cbn [mbind list_bind] in Hu. rewrite <- app_assoc in Hu.
    destruct (mppc_loop_token fuel r st t _ Hwf Hl Ht Hu) as (r1 & st1 & o1 & Hwf1 & Hu1 & G1 & Ew1 & ->).
    assert (H8 : 8 <= blen (token_enc (mp_level st) t))
      by (apply token_enc_length; destruct t; [done|by destruct Ht as (? & ? & ?)]).
    rewrite Hu, blen_app, <- Hu1 in Hf. pose proof G1 as [Hl1 El1 _]. cbn in El1.
    destruct (IH fuel r1 st1) as (r2 & st2 & o2 & E2 & G2 & Ew2); try done.
    + by rewrite Ew1, (same_size st st1 (proj1 Hl) (proj1 Hl1) El1).
    + by rewrite El1.
    + lia.
    + exists r2, st2, (o1 ++ o2). split; [done|]. split; [by eapply grown_trans|].
      rewrite Ew2, Ew1. done.
Qed.

Lemma lz_token_grows size win t : token_ok size win t -> blen win + 1 <= blen (lz_token win t) <= size.
Proof.
  destruct t as [b|off len]; cbn [token_ok lz_token]; [intros [_ H]; zlen|].
  intros (Ho & Hl & Hs). rewrite blen_lz_copy. lia.
Qed.
Lemma token_enc_short level size win t :
  size <= 65536 -> token_ok size win t -> blen (token_enc level t) <= 64.
Proof.
  intros Hsz Ht. destruct t as [b|off len]; cbn [token_enc]; [by destruct (b <? 128)|].
  destruct Ht as (Ho & Hl & Hs). pose proof (blen_nonneg win). rewrite blen_app.
  assert (Hoff : blen (offset_enc level off) <= 19).
  { unfold offset_enc. repeat match goal with |- context [if ?c then _ else _] => destruct c end;
      rewrite blen_app, blen_to_bits; unfold blen; cbn; lia. }
  assert (Hlen : blen (length_enc len) <= 40).
  { unfold length_enc. destruct (len =? 3); [done|]. rewrite blen_app, blen_cons, blen_replicate, blen_to_bits.
    assert (Z.log2 len < 17) by (apply Z.log2_lt_pow2; lia). lia. }
  lia.
Qed.
Lemma tokens_enc_short level size ts win :
  size <= 65536 -> tokens_ok size win ts -> blen win <= size ->
  blen (tokens_enc level ts) <= 64 * (size - blen win).
Proof.
  intros Hsz. revert win. induction ts as [|t ts IH]; intros win Hts Hw; [zlen|].
  destruct Hts as [Ht Hts]. pose proof (lz_token_grows size win t Ht) as Hg.
  pose proof (token_enc_short level size win t Hsz Ht). unfold tokens_enc in *. cbn [mbind list_bind].
  rewrite blen_app. specialize (IH _ Hts ltac:(lia)). lia.
Qed.

Lemma tokens_window_max size ts win : tokens_ok size win ts -> blen win <= size -> blen (lz_run win ts) <= size.
Proof.
  revert win. induction ts as [|t ts IH]; intros win Hts Hw; [done|]. destruct Hts as [Ht Hts].
  pose proof (lz_token_grows size win t Ht). change (lz_run win (t :: ts)) with (lz_run (lz_token win t) ts).
  apply IH; [done|lia].
Qed.
Lemma window_max st : mppc_wf st -> blen (window st) <= mp_history_size st.
Proof.
  intros Hwf. destruct (mp_history st) as [h|] eqn:Eh.
  - rewrite mppc_blen_window by (by split; [|rewrite Eh]). apply Hwf.
  - pose proof (mppc_size_bounds st Hwf). destruct Hwf as [_ _ Hh]. rewrite Eh in Hh.
    assert (E : window st = []) by (unfold window; cbn [hist_cells hist_offset mppc_history]; by rewrite Hh, Eh).
    rewrite E. change (blen []) with 0. lia.
Qed.

Lemma lz_run_grows ts win : exists out, lz_run win ts = win ++ out.
Proof.
  revert win. induction ts as [|t ts IH]; intros win; [exists []; by rewrite app_nil_r|].
  change (lz_run win (t :: ts)) with (lz_run (lz_token win t) ts). destruct (IH (lz_token win t)) as [o ->].
  assert (Ht : exists o', lz_token win t = win ++ o')
    by (destruct t; cbn [lz_token]; [by eexists|apply lz_copy_grows]).
  destruct Ht as [o' ->]. eexists. by rewrite <- app_assoc.
Qed.

Lemma decode_packet_lz flags ts st b h :
  mppc_live st -> buffer_wf b -> has_flag flags RDP_BULK_PACKET_COMPRESSED = true ->
  tokens_ok (mp_history_size st) (window st) ts ->
  exists r st' b' h' out,
    decode_packet flags (pack_bits (tokens_enc (mp_level st) ts)) (st, (b, h)) = (r, (st', (b', h'))) /\
    buffer_wf b' /\ grown st st' out /\ window st' = lz_run (window st) ts /\
    (r = Ok tt /\ contents b' = contents b ++ out \/
     r = Err LIBRDP_STATUS_NO_MEMORY /\ contents b' = contents b) /\
    (h = [] -> b_length b + blen out <= 2 ^ 63 -> r = Ok tt /\ h' = []).
Proof.
  intros Hl Hb Hf Hts. destruct (pack_bits_spec (tokens_enc (mp_level st) ts)) as (pad & Hpad & Eb & _).
  set (d := pack_bits _) in *. pose proof (blen_bits_of d) as Bd. rewrite Eb, blen_app, blen_replicate in Bd.
  pose proof (mppc_size_bounds st (proj1 Hl)). pose proof (mppc_blen_window st Hl).
  pose proof (mppc_wf_offset st (proj1 Hl)). pose proof (blen_nonneg (tokens_enc (mp_level st) ts)).
  pose proof (tokens_enc_short (mp_level st) (mp_history_size st) ts (window st) ltac:(lia) Hts ltac:(lia)).
  assert (Hwf : br_wf (mk_bit_reader d (blen d) 0)).
  { split; cbn [br_data br_length br_bit]; [done| |lia]. change (SIZE_MAX / 8) with 2305843009213693951. lia. }
  destruct (mppc_loop_lz ts (S (length d)) (mk_bit_reader d (blen d) 0) st (replicate pad false))
    as (r1 & st1 & out & E & G & Ew); try done.
  { rewrite blen_replicate. lia. }
  { rewrite blen_unread by done. cbn [br_data br_bit]. unfold blen. lia. }
  destruct (append_spec st1 out b h Hb) as (r & b' & h' & Ea & Hwf' & Hr & Hok).
  exists r, st1, b', h', out. split; [|done]. unfold decode_packet. rewrite Hf. cbn [negb].
  rewrite bind_gets. cbn [fst]. rewrite bind_on_fst. unfold restore_offset, with_reader. rewrite E.
  rewrite bind_gets. cbn [fst]. by rewrite (decoded_view_spec st st1 out Hl G), bind_lift.
Qed.

(** A compressed packet, from any state. *)
Lemma mppc_run flags ts st b h :
  mppc_wf st -> buffer_wf b -> has_flag flags RDP_BULK_PACKET_COMPRESSED = true ->
  let win := packet_window flags st in
  tokens_ok (mp_history_size st) win ts ->
  exists r st' b' h' out,
    rdp_bulk_mppc_decompress flags (View (pack_bits (tokens_enc (mp_level st) ts))) (st, (b, h)) =
      (r, (st', (b', h'))) /\
    mppc_wf st' /\ mp_level st' = mp_level st /\ buffer_wf b' /\ lz_run win ts = win ++ out /\
    (r = Ok tt /\ contents b' = contents b ++ out /\ window st' = lz_run win ts \/
     r = Err LIBRDP_STATUS_NO_MEMORY /\ contents b' = contents b) /\
    (h = [] -> b_length b + blen out <= 2 ^ 63 -> r = Ok tt /\ h' = []).
Proof.
  intros Hwf Hb Hf win Hts. unfold rdp_bulk_mppc_decompress. rewrite bind_require.
  cbn [view_null negb view_bytes]. set (d := pack_bits _).
  destruct (state_ensure_spec st b h Hwf) as [(h' & E & Hh & _)|(st1 & h1 & E & Hl & El & Ew & Hh)].
  - rewrite (bind_err _ _ _ _ _ E). destruct (lz_run_grows ts win) as [out Eo].
    exists (Err LIBRDP_STATUS_NO_MEMORY), st, b, h', out. do 5 (split; [done|]). split; [by right|done].
  - rewrite (bind_ok _ _ _ _ _ E).
    destruct (prepare_spec flags st1 (decode_packet flags d) (b, h1) Hl) as (st2 & Hl2 & El2 & Ew2 & Ep).
    assert (Ew2' : window st2 = win) by (rewrite Ew2; unfold win, packet_window; by rewrite Ew).
    assert (Es : mp_history_size st2 = mp_history_size st)
      by (apply same_size; [done|apply Hl2|by rewrite El2]).
    destruct (decode_packet_lz flags ts st2 b h1 Hl2 Hb Hf) as (r & st' & b' & h' & out & Ed & Hb' & G & Ew' & Hr & Hok).
    { by rewrite Es, Ew2'. }
    rewrite El2, El in Ed. exists r, st', b', h', out. split; [exact (eq_trans Ep Ed)|].
    pose proof G as [Hl' El' Eg]. cbn in El'. rewrite Ew2' in Eg, Ew'. split; [apply Hl'|].
    split; [by rewrite El', El2, El|]. split; [done|]. split; [by rewrite <- Ew'|]. split.
    + destruct Hr as [[-> Hc]|[-> Hc]]; [left|right]; done.
    + intros Hh0. apply Hok, Hh, Hh0.
Qed.

(** C12: decompression is LZ77: for every list of tokens that fits the window,
    decompressing its encoding appends to the output exactly the bytes the
    tokens stand for, with matches that reach back into earlier packets, and
    leaves them at the end of the window for the packets that follow; only want
    of memory can make the call fail. *)
Theorem mppc_lz77 flags ts st b h :
  mppc_wf st -> buffer_wf b -> has_flag flags RDP_BULK_PACKET_COMPRESSED = true ->
  let win := packet_window flags st in
  tokens_ok (mp_history_size st) win ts ->
  exists r st' b' h' out,
    rdp_bulk_mppc_decompress flags (View (pack_bits (tokens_enc (mp_level st) ts))) (st, (b, h)) =
      (r, (st', (b', h'))) /\
    mppc_wf st' /\ mp_level st' = mp_level st /\ buffer_wf b' /\ lz_run win ts = win ++ out /\
    (r = Ok tt /\ contents b' = contents b ++ out /\ window st' = lz_run win ts \/
     r = Err LIBRDP_STATUS_NO_MEMORY /\ contents b' = contents b) /\
    (h = [] -> b_length b + blen out <= 2 ^ 63 -> r = Ok tt /\ h' = []).
Proof. exact (mppc_run flags ts st b h). Qed.

(** ** Concrete runs *)

Definition sample_tokens : list token := [Literal 97; Literal 200; Match 1 3; Match 5 4].
Example sample_lz : lz_run [] sample_tokens = [97; 200; 200; 200; 200; 97; 200; 200; 200].
Proof. reflexivity. Qed.
Example sample_packet : pack_bits (tokens_enc 0 sample_tokens) = [97; 164; 120; 47; 22; 0].
Proof. vm_compute. reflexivity. Qed.

Lemma mppc_decompress_invariant_witness :
  exists r st' b' h',
    rdp_bulk_mppc_decompress RDP_BULK_PACKET_COMPRESSED (View [97; 255; 255])
      (rdp_bulk_mppc_state_init 0, (rdp_buffer_init, [])) = (r, (st', (b', h'))) /\
    mppc_wf st' /\ mp_level st' = 0 /\ buffer_wf b' /\
    packet_post RDP_BULK_PACKET_COMPRESSED [97; 255; 255] [] rdp_buffer_init r st' b'.
Proof.
  exact (proj2 (mppc_decompress_invariant RDP_BULK_PACKET_COMPRESSED [97; 255; 255]
    (rdp_bulk_mppc_state_init 0) rdp_buffer_init [] 1 true (state_init_wf 0) buffer_init_wf)).
Defined.

Lemma mppc_lz77_witness :
  exists r st' b' h' out,
    rdp_bulk_mppc_decompress RDP_BULK_PACKET_COMPRESSED (View (pack_bits (tokens_enc 1 sample_tokens)))
      (rdp_bulk_mppc_state_init 1, (rdp_buffer_init, [])) = (r, (st', (b', h'))) /\
    mppc_wf st' /\ mp_level st' = 1 /\ buffer_wf b' /\ lz_run [] sample_tokens = [] ++ out /\
    (r = Ok tt /\ contents b' = contents rdp_buffer_init ++ out /\ window st' = lz_run [] sample_tokens \/
     r = Err LIBRDP_STATUS_NO_MEMORY /\ contents b' = contents rdp_buffer_init) /\
    (@nil bool = [] -> b_length rdp_buffer_init + blen out <= 2 ^ 63 -> r = Ok tt /\ h' = []).
Proof.
  apply (mppc_lz77 RDP_BULK_PACKET_COMPRESSED sample_tokens (rdp_bulk_mppc_state_init 1)
    rdp_buffer_init []); [apply state_init_wf|apply buffer_init_wf|reflexivity|].
  cbn -[Z.le Z.lt]. unfold is_byte. repeat split; cbv; done || discriminate.
Defined.
