(* ===== verification/Huffman.v ===== *)
(** * Huffman: the decoding tables of RDP 6.0 compression

    Models the part of [src/src/protocol/bulk.c] that builds the two decoding
    tables from the code lengths ([rdp_bulk_rdp6_build_table]).  A table is
    verified against the canonical Huffman code of its lengths ([canonical]):
    with lengths whose Kraft sum is one the construction never finds an entry
    taken, leaves none empty, and every index holds the symbol whose code is in
    its low bits.  Also here: lists of bits, least significant first. *)

From stdpp Require Import zmap fin_map_dom.
From S2P Require Import Prelude BitReader.

Definition RDP_BULK_RDP6_LEC_TABLE_BITS : Z := 13.
Definition RDP_BULK_RDP6_LOM_TABLE_BITS : Z := 9.
Definition RDP_BULK_RDP6_LEC_TABLE_SIZE : Z := 8192.
Definition RDP_BULK_RDP6_LOM_TABLE_SIZE : Z := 512.

Definition rdp_bulk_rdp6_lec_lengths : list Z :=
  [6; 6; 6; 7; 7; 7; 7; 7; 7; 7; 7; 8; 8; 8; 8; 8; 8; 8; 9; 8; 9; 9; 9; 9; 8; 8; 9; 9; 9; 9; 9;
   9; 8; 9; 9; 10; 9; 9; 9; 9; 9; 9; 9; 10; 9; 10; 10; 10; 9; 9; 10; 9; 10; 9; 10; 9; 9; 9; 10;
   10; 9; 10; 9; 9; 8; 9; 9; 9; 9; 10; 10; 10; 9; 9; 10; 10; 10; 10; 10; 10; 9; 9; 10; 10; 10;
   10; 10; 10; 10; 9; 10; 10; 10; 10; 10; 10; 8; 10; 10; 10; 10; 10; 10; 10; 10; 10; 10; 10; 10;
   10; 10; 10; 9; 10; 10; 10; 10; 10; 10; 10; 9; 10; 10; 10; 10; 10; 10; 9; 7; 9; 9; 10; 9; 10;
   10; 10; 9; 10; 10; 10; 10; 10; 10; 10; 9; 10; 10; 10; 10; 10; 10; 10; 10; 10; 10; 10; 10; 10;
   10; 10; 10; 10; 10; 10; 10; 10; 10; 10; 10; 10; 10; 13; 10; 10; 10; 10; 10; 10; 11; 10; 10;
   10; 10; 10; 10; 10; 10; 10; 10; 10; 10; 10; 9; 10; 10; 10; 10; 10; 9; 10; 10; 10; 10; 10; 9;
   10; 10; 10; 9; 10; 10; 10; 10; 10; 10; 10; 10; 10; 10; 10; 10; 10; 10; 10; 9; 10; 10; 10; 10;
   10; 10; 10; 10; 10; 10; 10; 10; 10; 9; 10; 8; 9; 9; 10; 9; 10; 10; 10; 9; 10; 10; 10; 9; 9; 8;
   7; 13; 13; 7; 7; 10; 7; 7; 6; 6; 6; 6; 5; 6; 6; 6; 5; 6; 5; 6; 6; 6; 6; 6; 6; 6; 6; 6; 6; 6;
   6; 6; 6; 8; 5; 6; 7; 7; 13].

Definition rdp_bulk_rdp6_lom_lengths : list Z :=
  [4; 2; 3; 4; 3; 4; 4; 5; 4; 5; 5; 6; 6; 7; 7; 8; 7; 8; 8; 9; 9; 8; 9; 9; 9; 9; 9; 9; 9; 9; 9;
   9].

Definition u64 (x : Z) : Z := x mod 0x10000000000000000.

Record rdp_bulk_rdp6_decode_entry := mk_entry {
  e6_symbol : Z;
  e6_bit_count : Z;
}.

(** An array of [t_size] entries; those that are not in the map are zero. *)
Record table := mk_table {
  t_size : Z;
  t_entries : Zmap rdp_bulk_rdp6_decode_entry;
}.
Definition table_get (t : table) (i : Z) : res rdp_bulk_rdp6_decode_entry :=
  if (0 <=? i) && (i <? t_size t) then Ok (default (mk_entry 0 0) (t_entries t !! i)) else Fault.
Definition table_set (t : table) (i : Z) (e : rdp_bulk_rdp6_decode_entry) : res table :=
  if (0 <=? i) && (i <? t_size t) then Ok (mk_table (t_size t) (<[i := e]> (t_entries t))) else Fault.

(** ** The decoding tables *)

Fixpoint reverse_loop (n : nat) (reversed value : Z) : Z :=
  match n with
  | O => reversed
  | S n => reverse_loop n (Z.lor (u32 (Z.shiftl reversed 1)) (Z.land value 1)) (Z.shiftr value 1)
  end.
Definition rdp_bulk_rdp6_reverse_bits (value count : Z) : Z :=
  reverse_loop (Z.to_nat count) 0 value.

(** The first loop: how many symbols have each length. *)
Fixpoint count_lengths (table_bits : Z) (lengths counts : list Z) : res (list Z) :=
  match lengths with
  | [] => Ok counts
  | l :: lengths =>
      ensure (negb ((l =? 0) || (table_bits <? l))) LIBRDP_STATUS_PROTOCOL_ERROR;;
      c ← rd counts l;
      counts ← wr counts l (u16 (c + 1));
      count_lengths table_bits lengths counts
  end.

(** The second loop: the first code of each length; [n] iterations are left. *)
Fixpoint next_codes (n : nat) (i code : Z) (counts next_code : list Z) : res (list Z) :=
  match n with
  | O => Ok next_code
  | S n =>
      c ← rd counts (i - 1);
      let code := u32 (Z.shiftl (u32 (code + c)) 1) in
      ensure (negb (0xffff <? code)) LIBRDP_STATUS_PROTOCOL_ERROR;;
      next_code ← wr next_code i (u16 code);
      next_codes n (i + 1) code counts next_code
  end.

(** [for (entry = reversed; entry < table_size; entry += step)] *)
Fixpoint fill_entries (fuel : nat) (entry step : Z) (value : rdp_bulk_rdp6_decode_entry) (t : table) :
    res table :=
  match fuel with
  | O => Fault
  | S fuel =>
      if entry <? t_size t then
        old ← table_get t entry;
        ensure (e6_bit_count old =? 0) LIBRDP_STATUS_PROTOCOL_ERROR;;
        t ← table_set t entry value;
        fill_entries fuel (u64 (entry + step)) step value t
      else Ok t
  end.

(** The third loop, from symbol [i] on. *)
Fixpoint assign_codes (i : Z) (lengths next_code : list Z) (t : table) : res table :=
  match lengths with
  | [] => Ok t
  | bit_count :: lengths =>
      code ← rd next_code bit_count;
      next_code ← wr next_code bit_count (u16 (code + 1));
      let reversed := rdp_bulk_rdp6_reverse_bits code bit_count in
      let step := u64 (Z.shiftl 1 bit_count) in
      t ← fill_entries (S (Z.to_nat (t_size t / step))) reversed step (mk_entry (u16 i) bit_count) t;
      assign_codes (i + 1) lengths next_code t
  end.

(** The last loop: every entry has been assigned; [n] entries are left. *)
Fixpoint check_entries (n : nat) (i : Z) (t : table) : res unit :=
  match n with
  | O => Ok tt
  | S n =>
      e ← table_get t i;
      ensure (negb (e6_bit_count e =? 0)) LIBRDP_STATUS_PROTOCOL_ERROR;;
      check_entries n (i + 1) t
  end.

Definition rdp_bulk_rdp6_build_table (table_size table_bits : Z) (lengths : list Z) : res table :=
  ensure (negb ((16 <=? table_bits) || negb (table_size =? u64 (Z.shiftl 1 table_bits))))
    LIBRDP_STATUS_INVALID_ARGUMENT;;
  length_counts ← count_lengths table_bits lengths (replicate 16 0);
  next_code ← next_codes (Z.to_nat table_bits) 1 0 length_counts (replicate 16 0);
  t ← assign_codes 0 lengths next_code (mk_table table_size ∅);
  check_entries (Z.to_nat table_size) 0 t;;
  Ok t.

(** ** Canonical Huffman codes *)

Section canonical.
Implicit Types (ls : list Z) (l k tb : Z).

(** [2 ^ tb] times the Kraft sum of the lengths. *)
Fixpoint kraft tb ls : Z :=
  match ls with [] => 0 | l :: ls => 2 ^ (tb - l) + kraft tb ls end.
(** The first code of length [l]: the codes of the shorter lengths, extended. *)
Fixpoint first_code l ls : Z :=
  match ls with [] => 0 | k :: ls => (if k <? l then 2 ^ (l - k) else 0) + first_code l ls end.
Fixpoint count l ls : Z :=
  match ls with [] => 0 | k :: ls => (if k =? l then 1 else 0) + count l ls end.
(** The code of symbol [i]: symbols of one length are numbered in order. *)
Definition canonical ls (i : nat) : Z :=
  match ls !! i with
  | Some l => first_code l ls + count l (take i ls)
  | None => 0
  end.

Lemma first_code_nonneg l ls : 0 <= first_code l ls.
Proof.
  induction ls as [|k ls IH]; cbn [first_code]; [lia|].
  destruct (Z.ltb_spec k l); [|lia]. pose proof (Z.pow_nonneg 2 (l - k)). lia.
Qed.
Lemma count_bounds l ls : 0 <= count l ls <= blen ls.
Proof. induction ls as [|k ls IH]; cbn [count]; [done|]. rewrite blen_cons. destruct (k =? l); lia. Qed.
Lemma count_app l ls ls' : count l (ls ++ ls') = count l ls + count l ls'.
Proof. induction ls as [|k ls IH]; cbn [count app]; [done|]. rewrite IH. lia. Qed.
Lemma count_take_lookup l ls (i k : nat) :
  ls !! i = Some l -> (i < k)%nat -> count l (take i ls) + 1 <= count l (take k ls).
Proof.
  intros E Hk. rewrite <- (take_drop i (take k ls)), count_app, take_take, Nat.min_l by lia.
  rewrite (drop_S _ l); [|by rewrite lookup_take_lt].
  cbn [count]. rewrite Z.eqb_refl. pose proof (count_bounds l (drop (S i) (take k ls))). lia.
Qed.
Lemma count_lookup l ls (i : nat) : ls !! i = Some l -> count l (take i ls) + 1 <= count l ls.
Proof.
  intros E. pose proof (lookup_lt_Some _ _ _ E).
  rewrite <- (take_ge ls (length ls)) at 2 by lia. by apply count_take_lookup.
Qed.

(** The recurrence of the code's second loop. *)
Lemma first_code_succ l ls : first_code (l + 1) ls = 2 * (first_code l ls + count l ls).
Proof.
  induction ls as [|k ls IH]; cbn [first_code count]; [lia|]. rewrite IH.
  destruct (Z.ltb_spec k (l + 1)), (Z.ltb_spec k l), (Z.eqb_spec k l); try lia.
  - replace (l + 1 - k) with (Z.succ (l - k)) by lia. rewrite Z.pow_succ_r by lia. lia.
  - subst. replace (l + 1 - l) with 1 by lia. lia.
Qed.
Lemma first_code_one ls : Forall (fun l => 1 <= l) ls -> first_code 1 ls = 0.
Proof.
  induction 1 as [|k ls Hk HF IH]; cbn [first_code]; [done|]. destruct (Z.ltb_spec k 1); lia.
Qed.

(** Codes of length [l] fit in the share of the code space that is left. *)
Lemma first_code_kraft tb l ls :
  0 <= l <= tb -> (first_code l ls + count l ls) * 2 ^ (tb - l) <= kraft tb ls.
Proof.
  intros Hl. induction ls as [|k ls IH]; cbn [first_code count kraft]; [lia|].
  pose proof (Z.pow_nonneg 2 (tb - k)).
  destruct (Z.ltb_spec k l), (Z.eqb_spec k l); try lia.
  - replace (tb - k) with ((l - k) + (tb - l)) by lia. rewrite Z.pow_add_r by lia. nia.
  - subst. nia.
Qed.
Lemma first_code_longer l l' ls :
  0 <= l < l' -> (first_code l ls + count l ls) * 2 ^ (l' - l) <= first_code l' ls.
Proof.
  intros Hl. induction ls as [|k ls IH]; cbn [first_code count]; [lia|].
  destruct (Z.ltb_spec k l), (Z.eqb_spec k l), (Z.ltb_spec k l'); try lia.
  - replace (l' - k) with ((l - k) + (l' - l)) by lia. rewrite Z.pow_add_r by lia. nia.
  - subst. nia.
Qed.

(** The part of the code space [2 ^ tb] that symbol [i] takes. *)
Definition owns tb ls (i : nat) (x : Z) : Prop :=
  exists l, ls !! i = Some l /\ x / 2 ^ (tb - l) = canonical ls i.

Lemma canonical_bounds tb ls (i : nat) l :
  Forall (fun l => 1 <= l <= tb) ls -> kraft tb ls <= 2 ^ tb -> ls !! i = Some l ->
  0 <= canonical ls i < 2 ^ l.
Proof.
  intros HF Hk E. pose proof (Forall_lookup_1 _ _ _ _ HF E) as Hl. cbn beta in Hl.
  unfold canonical. rewrite E. pose proof (first_code_nonneg l ls). pose proof (count_bounds l (take i ls)).
  pose proof (count_lookup l ls i E). pose proof (first_code_kraft tb l ls ltac:(lia)) as H2.
  replace tb with (l + (tb - l)) in Hk at 2 by lia. rewrite Z.pow_add_r in Hk by lia.
  pose proof (Z.pow_pos_nonneg 2 (tb - l) ltac:(lia) ltac:(lia)). split; [lia|]. nia.
Qed.

(** No two symbols own the same point: the code is prefix-free. *)
Lemma owns_before tb ls (i k : nat) l l' x :
  ls !! i = Some l -> ls !! k = Some l' -> 1 <= l -> l <= l' <= tb -> l < l' \/ (i < k)%nat ->
  owns tb ls i x -> owns tb ls k x -> False.
Proof.
  intros Ei Ek Hl Hl' Hlt (l1 & E1 & Hx1) (l2 & E2 & Hx2). simplify_eq.
  unfold canonical in Hx1, Hx2. rewrite Ei in Hx1. rewrite Ek in Hx2.
  pose proof (count_lookup l ls i Ei). pose proof (count_bounds l' (take k ls)).
  destruct (decide (l = l')) as [El|Hne].
  - subst l'. pose proof (count_take_lookup l ls i k Ei ltac:(lia)). lia.
  - pose proof (first_code_longer l l' ls ltac:(lia)).
    pose proof (Z.pow_pos_nonneg 2 (l' - l) ltac:(lia) ltac:(lia)).
    pose proof (Z.pow_pos_nonneg 2 (tb - l') ltac:(lia) ltac:(lia)).
    assert (Ep : 2 ^ (tb - l) = 2 ^ (tb - l') * 2 ^ (l' - l)) by (rewrite <- Z.pow_add_r by lia; f_equal; lia).
    rewrite Ep, <- Z.div_div in Hx1 by lia. rewrite Hx2 in Hx1.
    pose proof (Z.mul_succ_div_gt (first_code l' ls + count l' (take k ls)) (2 ^ (l' - l)) ltac:(lia)). nia.
Qed.
Lemma owns_inj tb ls (i k : nat) x :
  Forall (fun l => 1 <= l <= tb) ls -> owns tb ls i x -> owns tb ls k x -> i = k.
Proof.
  intros HF Hi Hk. pose proof Hi as (l & Ei & _). pose proof Hk as (l' & Ek & _).
  pose proof (Forall_lookup_1 _ _ _ _ HF Ei) as H1. pose proof (Forall_lookup_1 _ _ _ _ HF Ek) as H2.
  cbn beta in H1, H2. destruct (decide (i = k)) as [|Hne]; [done|exfalso].
  destruct (Z.lt_trichotomy l l') as [|[|]].
  - by eapply (owns_before tb ls i k l l'); eauto; lia.
  - subst. destruct (decide (i < k)%nat).
    + by eapply (owns_before tb ls i k l' l'); eauto; lia.
    + by eapply (owns_before tb ls k i l' l'); eauto; lia.
  - by eapply (owns_before tb ls k i l' l); eauto; lia.
Qed.
End canonical.

(** ** Bits, least significant first *)

Fixpoint lsb_bits (n : nat) (v : Z) : list bool :=
  match n with
  | O => []
  | S n => Z.odd v :: lsb_bits n (v / 2)
  end.
Definition lsb_value (bs : list bool) : Z := foldr (fun b v => Z.b2z b + 2 * v) 0 bs.

Lemma blen_lsb_bits n v : blen (lsb_bits n v) = Z.of_nat n.
Proof. revert v. induction n as [|n IH]; intros v; [done|]. cbn [lsb_bits]. rewrite blen_cons, IH. lia. Qed.
#[export] Hint Rewrite blen_lsb_bits : blen.

Lemma odd_mod v : Z.b2z (Z.odd v) = v mod 2.
Proof. rewrite Zmod_odd. by destruct (Z.odd v). Qed.
Lemma lsb_value_bits n v : lsb_value (lsb_bits n v) = v mod 2 ^ Z.of_nat n.
Proof.
  revert v. induction n as [|n IH]; intros v; [by rewrite Z.mod_1_r|]. cbn [lsb_bits lsb_value foldr].
  change (foldr _ 0 ?l) with (lsb_value l). rewrite IH, odd_mod, Nat2Z.inj_succ, Z.pow_succ_r by lia.
  rewrite Z.rem_mul_r by (pose proof (Z.pow_pos_nonneg 2 (Z.of_nat n)); lia). lia.
Qed.
Lemma lsb_value_bounds bs : 0 <= lsb_value bs < 2 ^ blen bs.
Proof.
  induction bs as [|b bs IH]; [done|]. cbn [lsb_value foldr]. change (foldr _ 0 bs) with (lsb_value bs).
  rewrite blen_cons, Z.pow_add_r by zlen. destruct b; cbn [Z.b2z]; lia.
Qed.
Lemma lsb_bits_app a b v : lsb_bits (a + b) v = lsb_bits a v ++ lsb_bits b (v / 2 ^ Z.of_nat a).
Proof.
  revert v. induction a as [|a IH]; intros v; [by rewrite Z.div_1_r|]. cbn [Nat.add lsb_bits app].
  rewrite IH, Nat2Z.inj_succ, Z.pow_succ_r, Z.div_div by (lia || apply Z.pow_pos_nonneg; lia). done.
Qed.
Lemma lsb_bits_mod n m v : (n <= m)%nat -> lsb_bits n (v mod 2 ^ Z.of_nat m) = lsb_bits n v.
Proof.
  revert m v. induction n as [|n IH]; intros [|m] v Hm; [done|done|lia|]. cbn [lsb_bits].
  rewrite Nat2Z.inj_succ, Z.pow_succ_r, Z.rem_mul_r by (pose proof (Z.pow_pos_nonneg 2 (Z.of_nat m)); lia).
  f_equal.
  - rewrite Z.odd_add, Z.odd_mul. cbn [Z.odd andb]. rewrite xorb_false_r.
    rewrite Zmod_odd. by destruct (Z.odd v).
  - rewrite (Z.add_comm (v mod 2)), Z.mul_comm, Z.div_add_l, (Z.div_small (v mod 2)), Z.add_0_r by bits_lia.
    apply IH. lia.
Qed.
Lemma lsb_bits_inj bs : lsb_bits (length bs) (lsb_value bs) = bs.
Proof.
  induction bs as [|b bs IH]; [done|]. cbn [length lsb_bits lsb_value foldr].
  change (foldr _ 0 bs) with (lsb_value bs). f_equal.
  - rewrite Z.odd_add, Z.odd_mul. by destruct b.
  - rewrite Z.add_comm, Z.mul_comm, Z.div_add_l, (Z.div_small (Z.b2z b)), Z.add_0_r by (destruct b; cbn; lia).
    done.
Qed.


(** ** Reversed codes *)

Lemma to_bits_lsb n v : to_bits n v = rev (lsb_bits n v).
Proof.
  induction n as [|n IH]; [done|]. replace (S n) with (n + 1)%nat at 2 by lia.
  rewrite lsb_bits_app, rev_app_distr. cbn [lsb_bits rev app to_bits]. rewrite <- IH. f_equal.
  by rewrite Z.testbit_odd, Z.shiftr_div_pow2 by lia.
Qed.
Lemma lsb_bits_msb bs : lsb_bits (length bs) (bits_value 0 bs) = rev bs.
Proof.
  induction bs as [|b bs IH] using rev_ind; [done|].
  rewrite rev_app_distr, length_app, Nat.add_1_r. cbn [lsb_bits rev app].
  assert (E : bits_value 0 (bs ++ [b]) = 2 * bits_value 0 bs + Z.b2z b) by (unfold bits_value; by rewrite foldl_snoc).
  rewrite E. f_equal.
  - rewrite Z.odd_add, Z.odd_mul. by destruct b.
  - rewrite (Z.mul_comm 2), Z.div_add_l, (Z.div_small (Z.b2z b)), Z.add_0_r by (destruct b; cbn; lia). done.
Qed.
Lemma to_bits_value bs : to_bits (length bs) (bits_value 0 bs) = bs.
Proof. by rewrite to_bits_lsb, lsb_bits_msb, rev_involutive. Qed.
Lemma length_lsb_bits n v : length (lsb_bits n v) = n.
Proof. pose proof (blen_lsb_bits n v) as H. unfold blen in H. lia. Qed.

Lemma reverse_loop_spec n acc v :
  0 <= acc -> (acc + 1) * 2 ^ Z.of_nat n <= 2 ^ 31 -> reverse_loop n acc v = bits_value acc (lsb_bits n v).
Proof.
  revert acc v. induction n as [|n IH]; intros acc v Ha Hb; [done|]. cbn [reverse_loop lsb_bits].
  change (bits_value acc (?b :: ?l)) with (bits_value (2 * acc + Z.b2z b) l).
  rewrite Nat2Z.inj_succ, Z.pow_succ_r in Hb by lia. pose proof (Z.pow_pos_nonneg 2 (Z.of_nat n) ltac:(lia) ltac:(lia)).
  rewrite land_0x01, <- odd_mod, shift_or_bit by nia. rewrite Z.shiftr_div_pow2 by lia.
  apply IH; destruct (Z.odd v); cbn [Z.b2z]; nia.
Qed.
Lemma reverse_bits_spec v (n : nat) :
  (n <= 31)%nat -> rdp_bulk_rdp6_reverse_bits v (Z.of_nat n) = bits_value 0 (lsb_bits n v).
Proof.
  intros Hn. unfold rdp_bulk_rdp6_reverse_bits. rewrite Nat2Z.id. apply reverse_loop_spec; [lia|].
  rewrite Z.mul_1_l. apply Z.pow_le_mono_r; lia.
Qed.
(** An index holds the code of [v] in its low bits exactly when they are the reversed code. *)
Lemma low_bits_reversed e v (n : nat) :
  (n <= 31)%nat ->
  lsb_bits n e = to_bits n v <-> e mod 2 ^ Z.of_nat n = rdp_bulk_rdp6_reverse_bits v (Z.of_nat n).
Proof.
  intros Hn. rewrite reverse_bits_spec by done.
  assert (E : to_bits n v = lsb_bits n (bits_value 0 (lsb_bits n v))).
  { rewrite to_bits_lsb, <- lsb_bits_msb. by rewrite length_lsb_bits. }
  pose proof (bits_value_bounds 0 (lsb_bits n v) ltac:(lia)) as Hb. rewrite blen_lsb_bits in Hb. rewrite E. split.
  - intros H. apply (f_equal lsb_value) in H. rewrite !lsb_value_bits in H. by rewrite H, Z.mod_small by lia.
  - intros H. rewrite <- (lsb_bits_mod n n e), H by lia. done.
Qed.

Definition hits (ls : list Z) (i : nat) (e : Z) : Prop :=
  exists l, ls !! i = Some l /\ lsb_bits (Z.to_nat l) e = to_bits (Z.to_nat l) (canonical ls i).

Lemma bits_value_app acc a b : bits_value acc (a ++ b) = bits_value (bits_value acc a) b.
Proof. apply foldl_app. Qed.

(** In stream order, the index is a point of the code space. *)
Lemma hits_owns tb ls (i : nat) e :
  Forall (fun l => 1 <= l <= tb) ls -> kraft tb ls <= 2 ^ tb -> hits ls i e ->
  owns tb ls i (bits_value 0 (lsb_bits (Z.to_nat tb) e)).
Proof.
  intros HF Hk (l & E & Hb). exists l. split; [done|].
  pose proof (Forall_lookup_1 _ _ _ _ HF E) as Hl. cbn beta in Hl.
  pose proof (canonical_bounds tb ls i l HF Hk E).
  replace (Z.to_nat tb) with (Z.to_nat l + Z.to_nat (tb - l))%nat by lia.
  rewrite lsb_bits_app, Hb, bits_value_app, bits_value_to_bits, Z.mul_0_l, Z.add_0_l, Z2Nat.id by lia.
  rewrite Z.mod_small by lia.
  pose proof (bits_value_bounds (canonical ls i) (lsb_bits (Z.to_nat (tb - l)) (e / 2 ^ l)) ltac:(lia)) as H2.
  rewrite blen_lsb_bits, Z2Nat.id in H2 by lia. symmetry. apply (Z.div_unique_pos _ _ _ (bits_value (canonical ls i) (lsb_bits (Z.to_nat (tb - l)) (e / 2 ^ l)) - canonical ls i * 2 ^ (tb - l))); lia.
Qed.
Lemma hits_inj tb ls (i k : nat) e :
  Forall (fun l => 1 <= l <= tb) ls -> kraft tb ls <= 2 ^ tb -> hits ls i e -> hits ls k e -> i = k.
Proof. intros HF Hk Hi Hj. eapply owns_inj; eauto using hits_owns. Qed.

(** ** The tables are the canonical codes *)

Section map_size.
Context {V : Type}.
(** A map as large as the interval its keys are in has all of them. *)
Lemma full_map (m : Zmap V) (n : Z) :
  0 <= n -> (forall i, is_Some (m !! i) -> 0 <= i < n) -> Z.of_nat (size m) = n ->
  forall i, 0 <= i < n -> is_Some (m !! i).
Proof.
  intros Hn Hr Hs i Hi. rewrite <- elem_of_dom.
  assert (Hsub : dom m ⊆ list_to_set (C := Zset) (seqZ 0 n)).
  { intros k Hk. rewrite elem_of_dom in Hk. rewrite elem_of_list_to_set, elem_of_seqZ.
    apply Hr in Hk. lia. }
  rewrite (set_subseteq_size_equiv _ _ Hsub).
  - rewrite elem_of_list_to_set, elem_of_seqZ. lia.
  - rewrite size_dom, size_list_to_set by apply NoDup_seqZ. rewrite length_seqZ. lia.
Qed.
End map_size.

Lemma count_lengths_spec tb ls counts :
  blen counts = 16 -> 0 <= tb < 16 -> Forall (fun l => 1 <= l <= tb) ls ->
  (forall l c, counts !! Z.to_nat l = Some c -> 0 <= l -> 0 <= c /\ c + count l ls < 0x10000) ->
  exists counts', count_lengths tb ls counts = Ok counts' /\ blen counts' = 16 /\
    forall l c, 0 <= l -> counts !! Z.to_nat l = Some c -> counts' !! Z.to_nat l = Some (c + count l ls).
Proof.
  intros Hlen Htb HF. revert counts Hlen.
  induction HF as [|k ls Hk HF IH]; intros counts Hlen Hb; cbn [count_lengths count].
  { exists counts. split_and!; [done|done|]. intros l c Hl E. by rewrite Z.add_0_r. }
  rewrite ensure_bind. destruct (Z.eqb_spec k 0), (Z.ltb_spec tb k); try lia. cbn [orb negb].
  destruct (rd_ok counts k) as (c & -> & Ec); [lia|]. cbn [mbind res_bind]. rewrite wr_ok by lia. cbn [mbind res_bind].
  destruct (Hb k c Ec ltac:(lia)) as [Hc Hck]. cbn [count] in Hck. rewrite Z.eqb_refl in Hck.
  pose proof (count_bounds k ls). assert (Eu : u16 (c + 1) = c + 1) by (unfold u16; bits_lia). rewrite Eu.
  assert (Hlook : forall l c', 0 <= l -> counts !! Z.to_nat l = Some c' ->
            <[Z.to_nat k:=c + 1]> counts !! Z.to_nat l = Some (c' + if k =? l then 1 else 0)).
  { intros l c' Hl E. destruct (Z.eqb_spec k l) as [->|Hne].
    - rewrite list_lookup_insert_eq by (eapply lookup_lt_Some; eauto). congruence.
    - rewrite list_lookup_insert_ne by lia. by rewrite Z.add_0_r. }
  destruct (IH (<[Z.to_nat k:=c + 1]> counts)) as (counts' & -> & Hlen' & Hc').
  - unfold blen in *. by rewrite length_insert.
  - intros l c' E Hl. destruct (counts !! Z.to_nat l) as [c0|] eqn:E0.
    + rewrite (Hlook l c0 Hl E0) in E. injection E as <-. destruct (Hb l c0 E0 Hl) as [H1 H2].
      cbn [count] in H2. destruct (k =? l); lia.
    + apply lookup_lt_Some in E. rewrite length_insert in E. apply lookup_ge_None in E0. lia.
  - exists counts'. split_and!; [done|done|]. intros l c' Hl E. rewrite (Hc' _ _ Hl (Hlook _ _ Hl E)). f_equal. lia.
Qed.

Lemma next_codes_spec tb ls (n : nat) i counts next :
  blen counts = 16 -> blen next = 16 -> tb < 16 -> 1 <= i -> i + Z.of_nat n = tb + 1 ->
  Forall (fun l => 1 <= l <= tb) ls -> kraft tb ls <= 2 ^ tb ->
  (forall l, 0 <= l <= tb -> counts !! Z.to_nat l = Some (count l ls)) ->
  exists next', next_codes n i (first_code (i - 1) ls) counts next = Ok next' /\ blen next' = 16 /\
    (forall l, i <= l <= tb -> next' !! Z.to_nat l = Some (first_code l ls)) /\
    (forall l, 0 <= l < i -> next' !! Z.to_nat l = next !! Z.to_nat l).
Proof.
  intros Hc Hn Htb Hi Hin HF Hk Hcs. revert i next Hn Hi Hin.
  induction n as [|n IH]; intros i next Hn Hi Hin; cbn [next_codes].
  { exists next. split_and!; [done|done|intros; lia|done]. }
  rewrite (rd_lookup counts (i - 1) (count (i - 1) ls)) by (lia || apply Hcs; lia). cbn [mbind res_bind].
  assert (Hfc : 0 <= first_code i ls <= 2 ^ i).
  { pose proof (first_code_nonneg i ls). pose proof (count_bounds i ls).
    pose proof (first_code_kraft tb i ls ltac:(lia)) as H2.
    replace tb with (i + (tb - i)) in Hk at 2 by lia. rewrite Z.pow_add_r in Hk by lia.
    pose proof (Z.pow_pos_nonneg 2 (tb - i) ltac:(lia) ltac:(lia)). split; [done|]. nia. }
  assert (Hp : 2 ^ i <= 2 ^ 15) by (apply Z.pow_le_mono_r; lia).
  pose proof (first_code_succ (i - 1) ls) as Hs. replace (i - 1 + 1) with i in Hs by lia.
  pose proof (first_code_nonneg (i - 1) ls). pose proof (count_bounds (i - 1) ls).
  assert (E : u32 (Z.shiftl (u32 (first_code (i - 1) ls + count (i - 1) ls)) 1) = first_code i ls).
  { unfold u32. rewrite Z.shiftl_mul_pow2 by lia. rewrite (Z.mod_small (_ + _)) by lia.
    rewrite Z.mod_small; lia. }
  rewrite E, ensure_bind. destruct (Z.ltb_spec 0xffff (first_code i ls)); [lia|]. cbn [negb].
  rewrite wr_ok by lia. cbn [mbind res_bind].
  assert (Eu : u16 (first_code i ls) = first_code i ls) by (unfold u16; bits_lia). rewrite Eu.
  destruct (IH (i + 1) (<[Z.to_nat i:=first_code i ls]> next)) as (next' & E' & Hn' & Hge & Hlt); [|lia|lia|].
  { unfold blen in *. by rewrite length_insert. }
  replace (i + 1 - 1) with i in E' by lia. rewrite E'. exists next'. split_and!; [done|done| |].
  - intros l Hl. destruct (decide (l = i)) as [->|]; [|apply Hge; lia].
    rewrite Hlt by lia. apply list_lookup_insert_eq. unfold blen in Hn. lia.
  - intros l Hl. rewrite Hlt by lia. apply list_lookup_insert_ne. lia.
Qed.

Lemma fill_entries_spec fuel entry step v t (n : nat) :
  0 <= entry -> 0 < step -> (n = 0%nat \/ entry + (Z.of_nat n - 1) * step < t_size t) ->
  t_size t <= entry + Z.of_nat n * step -> t_size t + step <= 2 ^ 63 -> (n < fuel)%nat ->
  (forall k, 0 <= k < Z.of_nat n -> t_entries t !! (entry + k * step) = None) ->
  exists t', fill_entries fuel entry step v t = Ok t' /\ t_size t' = t_size t /\
    size (t_entries t') = (size (t_entries t) + n)%nat /\
    (forall k, 0 <= k < Z.of_nat n -> t_entries t' !! (entry + k * step) = Some v) /\
    (forall e, t_entries t' !! e = t_entries t !! e \/
       t_entries t' !! e = Some v /\ exists k, 0 <= k < Z.of_nat n /\ e = entry + k * step).
Proof.
  revert fuel entry t. induction n as [|n IH]; intros [|fuel] entry t He Hs Hlast Hn Hsz Hf Hfree; try lia; cbn [fill_entries].
  - destruct (Z.ltb_spec entry (t_size t)); [lia|]. exists t. split_and!; [done|done|lia|intros; lia|by left].
  - destruct Hlast as [|Hlast]; [lia|]. rewrite Nat2Z.inj_succ in Hlast, Hn, Hfree.
    assert (H0 : entry < t_size t) by nia. destruct (Z.ltb_spec entry (t_size t)); [|lia].
    pose proof (Hfree 0 ltac:(lia)) as Hf0. rewrite Z.mul_0_l, Z.add_0_r in Hf0.
    assert (Hin : (0 <=? entry) && (entry <? t_size t) = true) by lia.
    unfold table_get at 1, table_set at 1. rewrite Hin. cbn [mbind res_bind]. rewrite Hf0. cbn [default e6_bit_count].
    cbn [ensure Z.eqb res_bind].
    assert (Eu : u64 (entry + step) = entry + step) by (unfold u64; bits_lia). rewrite Eu.
    set (t1 := mk_table (t_size t) (<[entry:=v]> (t_entries t))).
    destruct (IH fuel (entry + step) t1) as (t' & E & Ez & Esz & Hk & He'); cbn [t_size t_entries t1]; try lia.
    { intros k Hk. unfold t1. cbn [t_entries]. rewrite lookup_insert_ne by nia.
      rewrite <- (Hfree (k + 1)) by lia. f_equal. lia. }
    exists t'. split; [exact E|]. split; [done|]. split.
    { rewrite Esz. unfold t1. cbn [t_entries]. rewrite map_size_insert_None by done. lia. }
    split.
    + intros k Hk'. destruct (decide (k = 0)) as [->|].
      * rewrite Z.mul_0_l, Z.add_0_r. destruct (He' entry) as [->|[-> _]]; [|done].
        unfold t1. cbn [t_entries]. apply lookup_insert_eq.
      * rewrite <- (Hk (k - 1)) by lia. f_equal. lia.
    + intros e. destruct (He' e) as [->|[-> (k & Hk' & ->)]].
      * unfold t1. cbn [t_entries]. destruct (decide (e = entry)) as [->|Hne].
        -- right. split; [apply lookup_insert_eq|]. exists 0. lia.
        -- left. by rewrite lookup_insert_ne by done.
      * right. split; [done|]. exists (k + 1). lia.
Qed.

Section build.
Context (tb : Z) (ls : list Z).
Hypothesis (Htb : 1 <= tb < 16).
Hypothesis (HF : Forall (fun l => 1 <= l <= tb) ls).
Hypothesis (Hkraft : kraft tb ls = 2 ^ tb).
Hypothesis (Hsym : blen ls < 0x10000).

(** The table after the first [n] symbols. *)
Record assigned (n : nat) (t : table) : Prop := {
  assigned_size : t_size t = 2 ^ tb;
  assigned_count : Z.of_nat (size (t_entries t)) = kraft tb (take n ls);
  assigned_sound e v : t_entries t !! e = Some v ->
    0 <= e < 2 ^ tb /\ exists j l, (j < n)%nat /\ ls !! j = Some l /\ v = mk_entry (Z.of_nat j) l /\ hits ls j e;
  assigned_complete e j l : 0 <= e < 2 ^ tb -> (j < n)%nat -> ls !! j = Some l -> hits ls j e ->
    t_entries t !! e = Some (mk_entry (Z.of_nat j) l);
}.

Lemma pow_tb : 2 <= 2 ^ tb <= 2 ^ 15.
Proof. split; [apply (Z.pow_le_mono_r 2 1)|apply Z.pow_le_mono_r]; lia. Qed.

Lemma kraft_snoc n l : ls !! n = Some l -> kraft tb (take (S n) ls) = kraft tb (take n ls) + 2 ^ (tb - l).
Proof.
  intros E. rewrite (take_S_r _ _ _ E). generalize (take n ls). induction l0 as [|k l0 IH]; cbn [kraft app]; lia.
Qed.

(** The indices of symbol [n]. *)
Lemma symbol_entries n l c :
  ls !! n = Some l -> c = u16 (first_code l ls + count l (take n ls)) ->
  let r := rdp_bulk_rdp6_reverse_bits c l in
  0 <= r < 2 ^ l /\ forall e, 0 <= e < 2 ^ tb ->
    hits ls n e <-> exists k, 0 <= k < 2 ^ (tb - l) /\ e = r + k * 2 ^ l.
Proof.
  intros E Ec r. pose proof (Forall_lookup_1 _ _ _ _ HF E) as Hl. cbn beta in Hl.
  pose proof (canonical_bounds tb ls n l HF ltac:(lia) E) as Hcan. pose proof Hcan as Hcan'.
  unfold canonical in Hcan'. rewrite E in Hcan'.
  assert (Hp : 2 ^ l <= 2 ^ 15) by (apply Z.pow_le_mono_r; lia).
  assert (Ec' : c = canonical ls n).
  { unfold canonical. rewrite E. subst c. unfold u16. apply Z.mod_small. lia. }
  assert (Hr : r = bits_value 0 (lsb_bits (Z.to_nat l) c)).
  { unfold r. rewrite <- (Z2Nat.id l) at 1 by lia. apply reverse_bits_spec. lia. }
  pose proof (bits_value_bounds 0 (lsb_bits (Z.to_nat l) c) ltac:(lia)) as Hb.
  rewrite blen_lsb_bits, Z2Nat.id in Hb by lia. split; [lia|]. intros e He.
  assert (Hlow : hits ls n e <-> e mod 2 ^ l = r).
  { pose proof (low_bits_reversed e c (Z.to_nat l) ltac:(lia)) as H. rewrite Z2Nat.id in H by lia.
    fold r in H. rewrite <- H, Ec'. split; [intros (l' & E' & H'); congruence|intros H'; by exists l]. }
  rewrite Hlow. assert (Ep : 2 ^ tb = 2 ^ (tb - l) * 2 ^ l) by (rewrite <- Z.pow_add_r by lia; f_equal; lia).
  pose proof (Z.pow_pos_nonneg 2 l ltac:(lia) ltac:(lia)). split.
  - intros Hm. exists (e / 2 ^ l). split; [split; [apply Z.div_pos; lia|apply Z.div_lt_upper_bound; nia]|].
    pose proof (Z.div_mod e (2 ^ l)). lia.
  - intros (k & Hk & ->). rewrite Z_mod_plus_full. apply Z.mod_small. lia.
Qed.

Lemma assign_symbol n l c t :
  ls !! n = Some l -> c = u16 (first_code l ls + count l (take n ls)) -> assigned n t ->
  exists t', fill_entries (S (Z.to_nat (t_size t / u64 (Z.shiftl 1 l)))) (rdp_bulk_rdp6_reverse_bits c l)
    (u64 (Z.shiftl 1 l)) (mk_entry (u16 (Z.of_nat n)) l) t = Ok t' /\ assigned (S n) t'.
Proof.
  intros E Ec Ht. pose proof (Forall_lookup_1 _ _ _ _ HF E) as Hl. cbn beta in Hl. pose proof pow_tb.
  assert (Hp : 2 ^ l <= 2 ^ 15) by (apply Z.pow_le_mono_r; lia).
  pose proof (Z.pow_pos_nonneg 2 l ltac:(lia) ltac:(lia)).
  assert (Es : u64 (Z.shiftl 1 l) = 2 ^ l).
  { unfold u64. rewrite Z.shiftl_1_l, Z.mod_small; lia. }
  assert (En : u16 (Z.of_nat n) = Z.of_nat n).
  { unfold u16. apply lookup_lt_Some in E. unfold blen in Hsym. rewrite Z.mod_small; lia. }
  destruct (symbol_entries n l c E Ec) as [Hr Hhit].
  set (r := rdp_bulk_rdp6_reverse_bits c l) in *. rewrite Es, En, (assigned_size _ _ Ht).
  assert (Ep : 2 ^ tb = 2 ^ (tb - l) * 2 ^ l) by (rewrite <- Z.pow_add_r by lia; f_equal; lia).
  pose proof (Z.pow_pos_nonneg 2 (tb - l) ltac:(lia) ltac:(lia)).
  assert (Hrange : forall k, 0 <= k < 2 ^ (tb - l) -> 0 <= r + k * 2 ^ l < 2 ^ tb) by (intros; nia).
  rewrite Ep, Z.div_mul by lia.
  destruct (fill_entries_spec (S (Z.to_nat (2 ^ (tb - l)))) r (2 ^ l) (mk_entry (Z.of_nat n) l) t
    (Z.to_nat (2 ^ (tb - l)))) as (t' & Ef & Ez & Esz & Hk & He);
    rewrite ?(assigned_size _ _ Ht), ?Z2Nat.id in * by lia; try lia; try nia.
  { intros k Hk. destruct (t_entries t !! (r + k * 2 ^ l)) as [v|] eqn:Ev; [exfalso|done].
    destruct (assigned_sound _ _ Ht _ _ Ev) as (_ & j & l' & Hj & Ej & _ & Hh).
    assert (Hn : hits ls n (r + k * 2 ^ l)) by (apply Hhit; [by apply Hrange|by exists k]).
    pose proof (hits_inj tb ls j n _ HF ltac:(lia) Hh Hn). lia. }
  exists t'. split; [exact Ef|]. split.
  - exact Ez.
  - rewrite Esz, Nat2Z.inj_add, Z2Nat.id, (assigned_count _ _ Ht), (kraft_snoc n l E) by lia. done.
  - intros e v Ev. destruct (He e) as [Eq|[Eq (k & Hk' & Ek)]]; rewrite Eq in Ev.
    + destruct (assigned_sound _ _ Ht _ _ Ev) as (He1 & j & l' & Hj & Ej & Hv & Hh). split; [done|].
      exists j, l'. split; [lia|done].
    + injection Ev as <-. assert (Her : 0 <= e < 2 ^ tb) by (subst e; by apply Hrange). split; [done|].
      exists n, l. split_and!; [lia|done|done|]. apply Hhit; [done|by exists k].
  - intros e j l' Her Hj Ej Hh. destruct (decide (j = n)) as [->|Hne].
    + assert (l' = l) as -> by congruence. apply Hhit in Hh as (k & Hk' & ->); [|done]. by apply Hk.
    + pose proof (assigned_complete _ _ Ht e j l' Her ltac:(lia) Ej Hh) as Hold.
      destruct (He e) as [->|[_ (k & Hk' & Ek)]]; [done|]. exfalso.
      assert (Hn : hits ls n e) by (apply Hhit; [done|by exists k]).
      pose proof (hits_inj tb ls j n _ HF ltac:(lia) Hh Hn). lia.
Qed.
Lemma assign_codes_spec suffix n next_code t :
  drop n ls = suffix -> blen next_code = 16 -> assigned n t ->
  (forall l, 1 <= l <= tb -> next_code !! Z.to_nat l = Some (u16 (first_code l ls + count l (take n ls)))) ->
  exists t', assign_codes (Z.of_nat n) suffix next_code t = Ok t' /\ assigned (length ls) t'.
Proof.
  revert n next_code t. induction suffix as [|l suffix IH]; intros n next_code t Hd Hlen Ht Hnext.
  - exists t. split; [done|]. assert (Hge : (length ls <= n)%nat).
    { apply (f_equal length) in Hd. rewrite length_drop in Hd. cbn in Hd. lia. }
    destruct Ht as [H1 H2 H3 H4]. split; [done| | |].
    + by rewrite H2, !take_ge by lia.
    + intros e v Ev. destruct (H3 e v Ev) as (He & j & l & Hj & Ej & Hv & Hh). split; [done|].
      exists j, l. split_and!; [by eapply lookup_lt_Some|done|done|done].
    + intros e j l He Hj. by apply H4; [|lia].
  - assert (E : ls !! n = Some l).
    { rewrite <- (Nat.add_0_r n), <- lookup_drop, Hd. done. }
    pose proof (Forall_lookup_1 _ _ _ _ HF E) as Hl. cbn beta in Hl. pose proof (Hnext l Hl) as Ec.
    set (c := u16 _) in Ec. cbn [assign_codes].
    rewrite (rd_lookup _ _ c) by (lia || done). cbn [mbind res_bind]. rewrite wr_ok by lia. cbn [mbind res_bind].
    destruct (assign_symbol n l c t E eq_refl Ht) as (t1 & E1 & Ht1). rewrite E1. cbn [mbind res_bind].
    replace (Z.of_nat n + 1) with (Z.of_nat (S n)) by lia. apply IH.
    + rewrite (drop_S _ _ _ E) in Hd. congruence.
    + unfold blen in *. by rewrite length_insert.
    + done.
    + intros l' Hl'. rewrite (take_S_r _ _ _ E), count_app. cbn [count].
      destruct (Z.eqb_spec l l') as [->|Hne].
      * rewrite list_lookup_insert_eq by (unfold blen in *; lia). f_equal. unfold c, u16.
        rewrite Z.add_mod_idemp_l by lia. f_equal. lia.
      * rewrite list_lookup_insert_ne by lia. rewrite Hnext by done. do 2 f_equal. lia.
Qed.

Lemma check_entries_spec (n : nat) i t :
  0 <= i -> i + Z.of_nat n = t_size t ->
  (forall e, i <= e < t_size t -> exists v, t_entries t !! e = Some v /\ e6_bit_count v <> 0) ->
  check_entries n i t = Ok tt.
Proof.
  revert i. induction n as [|n IH]; intros i Hi Hn Hall; cbn [check_entries]; [done|].
  destruct (Hall i) as (v & Ev & Hv); [lia|]. unfold table_get.
  assert (Hin : (0 <=? i) && (i <? t_size t) = true) by lia. rewrite Hin. cbn [mbind res_bind].
  rewrite Ev. cbn [default]. rewrite ensure_bind. destruct (Z.eqb_spec (e6_bit_count (id v)) 0); [done|].
  cbn [negb]. apply IH; [lia|lia|]. intros e He. apply Hall. lia.
Qed.

(** What decoding needs of a table. *)
Record canonical_table (t : table) : Prop := {
  canonical_size : t_size t = 2 ^ tb;
  canonical_hit i l e : ls !! i = Some l -> 0 <= e < 2 ^ tb -> hits ls i e ->
    table_get t e = Ok (mk_entry (Z.of_nat i) l);
  canonical_total e : 0 <= e < 2 ^ tb ->
    exists i l, ls !! i = Some l /\ hits ls i e /\ table_get t e = Ok (mk_entry (Z.of_nat i) l);
}.

Lemma build_table_canonical :
  exists t, rdp_bulk_rdp6_build_table (2 ^ tb) tb ls = Ok t /\ canonical_table t.
Proof.
  pose proof pow_tb as Hpow. unfold rdp_bulk_rdp6_build_table. rewrite ensure_bind.
  destruct (Z.leb_spec 16 tb); [lia|].
  assert (Es : u64 (Z.shiftl 1 tb) = 2 ^ tb) by (unfold u64; rewrite Z.shiftl_1_l, Z.mod_small; lia).
  rewrite Es, Z.eqb_refl. cbn [negb orb].
  destruct (count_lengths_spec tb ls (replicate 16 0)) as (counts & -> & Hlc & Hc); [done|lia|done| |].
  { intros l c E Hl. apply lookup_replicate in E as [-> _]. pose proof (count_bounds l ls). lia. }
  cbn [mbind res_bind].
  assert (H1 : first_code 1 ls = 0) by (apply first_code_one; eapply Forall_impl; [|exact HF]; cbn; lia).
  assert (H0 : first_code (1 - 1) ls = 0).
  { pose proof (first_code_succ 0 ls) as Hs. change (0 + 1) with 1 in Hs. change (1 - 1) with 0.
    pose proof (first_code_nonneg 0 ls). pose proof (count_bounds 0 ls). lia. }
  destruct (next_codes_spec tb ls (Z.to_nat tb) 1 counts (replicate 16 0)) as (next & En & Hln & Hn & _);
    [done|done|lia|lia|lia|done|lia| |].
  { intros l Hl. apply (Hc l 0); [lia|]. apply lookup_replicate_2. lia. }
  rewrite H0 in En. rewrite En. cbn [mbind res_bind].
  destruct (assign_codes_spec ls 0 next (mk_table (2 ^ tb) ∅)) as (t & Et & Ht); [done|done| | |].
  { split; [done|done| |intros; lia]. cbn [t_entries]. intros e v Ev. by rewrite lookup_empty in Ev. }
  { intros l Hl. rewrite Hn by done. f_equal. cbn [take count]. unfold u16.
    pose proof (first_code_nonneg l ls). pose proof (first_code_kraft tb l ls ltac:(lia)) as Hk.
    pose proof (count_bounds l ls). pose proof (Z.pow_pos_nonneg 2 (tb - l) ltac:(lia) ltac:(lia)).
    rewrite Z.add_0_r, Z.mod_small; nia. }
  change (Z.of_nat 0) with 0 in Et. rewrite Et. cbn [mbind res_bind].
  pose proof (assigned_count _ _ Ht) as Hcount. rewrite take_ge, Hkraft in Hcount by lia.
  assert (Hfull : forall e, 0 <= e < 2 ^ tb -> is_Some (t_entries t !! e)).
  { apply full_map; [lia| |done]. intros i [v Ev]. by apply (assigned_sound _ _ Ht) in Ev as [? _]. }
  assert (Hget : forall e v, 0 <= e < 2 ^ tb -> t_entries t !! e = Some v -> table_get t e = Ok v).
  { intros e v He Ev. unfold table_get. rewrite (assigned_size _ _ Ht).
    assert (Hin : (0 <=? e) && (e <? 2 ^ tb) = true) by lia. by rewrite Hin, Ev. }
  rewrite (check_entries_spec _ 0 t); [|lia|rewrite (assigned_size _ _ Ht); lia|].
  - exists t. split; [done|]. split.
    + apply (assigned_size _ _ Ht).
    + intros i l e E He Hh. apply Hget; [done|]. eapply assigned_complete; eauto. by eapply lookup_lt_Some.
    + intros e He. destruct (Hfull e He) as [v Ev].
      destruct (assigned_sound _ _ Ht _ _ Ev) as (_ & j & l & _ & Ej & -> & Hh). exists j, l. eauto.
  - intros e He. rewrite (assigned_size _ _ Ht) in He. destruct (Hfull e He) as [v Ev]. exists v. split; [done|].
    destruct (assigned_sound _ _ Ht _ _ Ev) as (_ & j & l & _ & Ej & -> & _).
    pose proof (Forall_lookup_1 _ _ _ _ HF Ej) as Hl. cbn in *. lia.
Qed.
End build.

Lemma lec_table :
  exists t, rdp_bulk_rdp6_build_table RDP_BULK_RDP6_LEC_TABLE_SIZE RDP_BULK_RDP6_LEC_TABLE_BITS
              rdp_bulk_rdp6_lec_lengths = Ok t /\ canonical_table 13 rdp_bulk_rdp6_lec_lengths t.
Proof.
  change RDP_BULK_RDP6_LEC_TABLE_SIZE with (2 ^ 13). change RDP_BULK_RDP6_LEC_TABLE_BITS with 13.
  apply (build_table_canonical 13 rdp_bulk_rdp6_lec_lengths); [done|by_evaluation|reflexivity|reflexivity].
Qed.
Lemma lom_table :
  exists t, rdp_bulk_rdp6_build_table RDP_BULK_RDP6_LOM_TABLE_SIZE RDP_BULK_RDP6_LOM_TABLE_BITS
              rdp_bulk_rdp6_lom_lengths = Ok t /\ canonical_table 9 rdp_bulk_rdp6_lom_lengths t.
Proof.
  change RDP_BULK_RDP6_LOM_TABLE_SIZE with (2 ^ 9). change RDP_BULK_RDP6_LOM_TABLE_BITS with 9.
  apply (build_table_canonical 9 rdp_bulk_rdp6_lom_lengths); [done|by_evaluation|reflexivity|reflexivity].
Qed.

(** C16: the decoding tables are the canonical Huffman codes: for every list of
    code lengths of at most 15 bits whose Kraft sum is one, the construction
    succeeds, and every index of the table holds the one symbol whose canonical
    code is in the low bits of the index, with its length; the two lists of the
    protocol are such lists. *)
Theorem rdp6_tables_canonical tb ls :
  1 <= tb < 16 -> Forall (fun l => 1 <= l <= tb) ls -> kraft tb ls = 2 ^ tb -> blen ls < 0x10000 ->
  (exists t, rdp_bulk_rdp6_build_table (2 ^ tb) tb ls = Ok t /\ t_size t = 2 ^ tb /\
    forall e, 0 <= e < 2 ^ tb -> exists i l, ls !! i = Some l /\ table_get t e = Ok (mk_entry (Z.of_nat i) l) /\
      lsb_bits (Z.to_nat l) e = to_bits (Z.to_nat l) (canonical ls i) /\
      forall j k, ls !! j = Some k -> lsb_bits (Z.to_nat k) e = to_bits (Z.to_nat k) (canonical ls j) -> j = i) /\
  kraft 13 rdp_bulk_rdp6_lec_lengths = 2 ^ 13 /\ kraft 9 rdp_bulk_rdp6_lom_lengths = 2 ^ 9.
Proof.
  intros Htb HF Hk Hsym. split; [|by split].
  destruct (build_table_canonical tb ls Htb HF Hk Hsym) as (t & E & [Hsz _ Htot]).
  exists t. split; [done|]. split; [done|]. intros e He. destruct (Htot e He) as (i & l & Ei & Hi & Eg).
  exists i, l. split; [done|]. split; [done|]. pose proof Hi as (l' & E' & Hb). split; [congruence|].
  intros j k Ej Hj. apply (hits_inj tb ls j i e HF); [lia|by exists k|done].
Qed.

Lemma rdp6_tables_canonical_witness :
  exists t, rdp_bulk_rdp6_build_table (2 ^ 3) 3 [1; 3; 2; 3] = Ok t /\ t_size t = 2 ^ 3.
Proof.
  destruct (rdp6_tables_canonical 3 [1; 3; 2; 3]) as [(t & E & H & _) _];
    [done|by_evaluation|reflexivity|reflexivity|by exists t].
Defined.
