(* ===== verification/Rdp6.v ===== *)
(** * Rdp6: the Huffman bulk decompressor

    Models the RDP 6.0 part of [src/src/protocol/bulk.c]: the bit reader (least
    significant bit first, with a 64-bit reservoir) and [rdp_bulk_rdp6_decode]
    with its history and its cache of offsets.  The decoder is verified against
    LZ77 with a cache of recent offsets ([lz6_run]).

    The counter [output_offset] is only ever incremented and is not kept.  A
    table that could not be built is left as it was here; the code leaves it half
    built, and clears it before it is used again. *)

From S2P Require Import Prelude Buffer Bits BitReader Window Mppc Huffman.

Definition RDP_BULK_RDP6_HISTORY_SIZE : Z := 65536.
Definition rdp_bulk_rdp6_copy_offset_bits : list Z :=
  [0; 0; 0; 0; 1; 1; 2; 2; 3; 3; 4; 4; 5; 5; 6; 6; 7; 7; 8; 8; 9; 9; 10; 10; 11; 11; 12; 12; 13;
   13; 14; 14].

Definition rdp_bulk_rdp6_copy_offset_base : list Z :=
  [1; 2; 3; 4; 5; 7; 9; 13; 17; 25; 33; 49; 65; 97; 129; 193; 257; 385; 513; 769; 1025; 1537;
   2049; 3073; 4097; 6145; 8193; 12289; 16385; 24577; 32769; 49153].

Definition rdp_bulk_rdp6_lom_bits : list Z :=
  [0; 0; 0; 0; 0; 0; 0; 0; 1; 1; 1; 1; 2; 2; 2; 2; 3; 3; 3; 3; 4; 4; 4; 4; 6; 6; 8; 8; 14; 14].

Definition rdp_bulk_rdp6_lom_base : list Z :=
  [2; 3; 4; 5; 6; 7; 8; 9; 10; 12; 14; 16; 18; 22; 26; 30; 34; 42; 50; 58; 66; 82; 98; 114; 130;
   194; 258; 514; 2; 2].

(** [r6_data] holds the bytes from [ptr] to [end]. *)
Record rdp_bulk_rdp6_bit_reader := mk_rdp6_reader {
  r6_data : list Z;
  r6_bits : Z;
  r6_bit_count : Z;
}.

Record rdp_bulk_rdp6_state := mk_rdp6_state {
  s6_history : list Z;
  s6_write_offset : Z;
  s6_offset_cache : list Z;
  s6_literal_offset : table;
  s6_match_length : table;
  s6_tables_ready : bool;
}.

Definition set_output6 (h : list Z) (n : Z) (st : rdp_bulk_rdp6_state) : rdp_bulk_rdp6_state :=
  mk_rdp6_state h n (s6_offset_cache st) (s6_literal_offset st) (s6_match_length st) (s6_tables_ready st).
Definition set_cache6 (c : list Z) (st : rdp_bulk_rdp6_state) : rdp_bulk_rdp6_state :=
  mk_rdp6_state (s6_history st) (s6_write_offset st) c (s6_literal_offset st) (s6_match_length st)
    (s6_tables_ready st).
Definition set_tables6 (lec lom : table) (st : rdp_bulk_rdp6_state) : rdp_bulk_rdp6_state :=
  mk_rdp6_state (s6_history st) (s6_write_offset st) (s6_offset_cache st) lec lom true.

(** The blocks [memset] writes. *)
Definition zeros_half : list Z := replicate (Z.to_nat 32768) 0.
Definition zeros6 : list Z := replicate (Z.to_nat RDP_BULK_RDP6_HISTORY_SIZE) 0.

Definition rdp_bulk_rdp6_state_init : rdp_bulk_rdp6_state :=
  mk_rdp6_state zeros6 0 [0; 0; 0; 0] (mk_table RDP_BULK_RDP6_LEC_TABLE_SIZE ∅)
    (mk_table RDP_BULK_RDP6_LOM_TABLE_SIZE ∅) false.

Definition rdp_bulk_rdp6_state_reset (clear : bool) (st : rdp_bulk_rdp6_state) : rdp_bulk_rdp6_state :=
  set_cache6 [0; 0; 0; 0] (set_output6 (if clear then zeros6 else s6_history st) 0 st).

Definition rdp_bulk_rdp6_prepare : M rdp_bulk_rdp6_state unit :=
  st ← gets id;
  if s6_tables_ready st then mret tt else
  lec ← lift (rdp_bulk_rdp6_build_table RDP_BULK_RDP6_LEC_TABLE_SIZE RDP_BULK_RDP6_LEC_TABLE_BITS
                rdp_bulk_rdp6_lec_lengths);
  lom ← lift (rdp_bulk_rdp6_build_table RDP_BULK_RDP6_LOM_TABLE_SIZE RDP_BULK_RDP6_LOM_TABLE_BITS
                rdp_bulk_rdp6_lom_lengths);
  modify (set_tables6 lec lom).

(** ** The bit reader *)

Abbreviation reader6 := (M rdp_bulk_rdp6_bit_reader).

Definition rdp_bulk_rdp6_reader_init (data : list Z) : res rdp_bulk_rdp6_bit_reader :=
  ensure (negb (blen data <? 4)) LIBRDP_STATUS_PROTOCOL_ERROR;;
  b0 ← rd data 0; b1 ← rd data 1; b2 ← rd data 2; b3 ← rd data 3;
  Ok (mk_rdp6_reader (zdrop 4 data) (val32 b0 b1 b2 b3) 32).

(** [while (bit_count < count && ptr < end)] *)
Fixpoint refill (count : Z) (data : list Z) (bits bit_count : Z) : rdp_bulk_rdp6_bit_reader :=
  match data with
  | byte :: rest =>
      if bit_count <? count
      then refill count rest (Z.lor bits (u64 (Z.shiftl byte bit_count))) (u8 (bit_count + 8))
      else mk_rdp6_reader data bits bit_count
  | [] => mk_rdp6_reader data bits bit_count
  end.

Definition rdp_bulk_rdp6_reader_ensure (count : Z) : reader6 unit :=
  require (negb (32 <? count)) LIBRDP_STATUS_INVALID_ARGUMENT;;
  modify (fun r => refill count (r6_data r) (r6_bits r) (r6_bit_count r));;
  r ← gets id;
  require (count <=? r6_bit_count r) LIBRDP_STATUS_PROTOCOL_ERROR.

(** [bits >>= count; bit_count -= count;] *)
Definition drop_bits (count : Z) (r : rdp_bulk_rdp6_bit_reader) : rdp_bulk_rdp6_bit_reader :=
  mk_rdp6_reader (r6_data r) (Z.shiftr (r6_bits r) count) (u8 (r6_bit_count r - count)).

Definition rdp_bulk_rdp6_reader_read (count : Z) : reader6 Z :=
  require (negb (31 <? count)) LIBRDP_STATUS_INVALID_ARGUMENT;;
  if count =? 0 then mret 0 else
  rdp_bulk_rdp6_reader_ensure count;;
  r ← gets id;
  let mask := u64 (u64 (Z.shiftl 1 count) - 1) in
  let value := u32 (Z.land (r6_bits r) mask) in
  modify (drop_bits count);;
  mret value.

Definition rdp_bulk_rdp6_decode_symbol (t : table) (table_bits : Z) : reader6 Z :=
  require (negb (15 <? table_bits)) LIBRDP_STATUS_INVALID_ARGUMENT;;
  rdp_bulk_rdp6_reader_ensure table_bits;;
  r ← gets id;
  let mask := u64 (u64 (Z.shiftl 1 table_bits) - 1) in
  let bits := u32 (Z.land (r6_bits r) mask) in
  entry ← lift (table_get t bits);
  require (negb ((e6_bit_count entry =? 0) || (r6_bit_count r <? e6_bit_count entry)))
    LIBRDP_STATUS_PROTOCOL_ERROR;;
  modify (drop_bits (e6_bit_count entry));;
  mret (e6_symbol entry).

(** ** The history *)

Abbreviation rdp6 := (M rdp_bulk_rdp6_state).

Definition rdp_bulk_rdp6_move_front : rdp6 unit :=
  st ← gets id;
  require (negb (s6_write_offset st <=? 32768)) LIBRDP_STATUS_PROTOCOL_ERROR;;
  recent ← lift (slice (s6_history st) (s6_write_offset st - 32768) 32768);
  h ← lift (write_at (s6_history st) 0 recent);
  h ← lift (write_at h 32768 zeros_half);
  modify (set_output6 h 32768).

Definition rdp_bulk_rdp6_emit (value : Z) : rdp6 unit :=
  st ← gets id;
  require (negb (RDP_BULK_RDP6_HISTORY_SIZE - 1 <=? s6_write_offset st)) LIBRDP_STATUS_PROTOCOL_ERROR;;
  h ← lift (wr (s6_history st) (s6_write_offset st) value);
  modify (set_output6 h (size_t (s6_write_offset st + 1))).

(** The copy, byte by byte; [n] bytes are left. *)
Fixpoint copy_loop6 (n : nat) (src : Z) : rdp6 unit :=
  match n with
  | O => mret tt
  | S n =>
      st ← gets id;
      value ← lift (rd (s6_history st) src);
      rdp_bulk_rdp6_emit value;;
      copy_loop6 n (Z.land (size_t (src + 1)) 0xffff)
  end.

Definition rdp_bulk_rdp6_copy (copy_offset length : Z) : rdp6 unit :=
  st ← gets id;
  require (negb ((copy_offset =? 0) || (length <? 2) ||
                 (size_t (RDP_BULK_RDP6_HISTORY_SIZE - s6_write_offset st - 1) <? length)))
    LIBRDP_STATUS_PROTOCOL_ERROR;;
  copy_loop6 (Z.to_nat length) (Z.land (size_t (s6_write_offset st - copy_offset)) 0xffff).

(** ** Decoding *)

Abbreviation decoder6 := (M (rdp_bulk_rdp6_bit_reader * rdp_bulk_rdp6_state)).

Definition rdp_bulk_rdp6_read_match_length (match_length : table) : reader6 Z :=
  symbol ← rdp_bulk_rdp6_decode_symbol match_length RDP_BULK_RDP6_LOM_TABLE_BITS;
  require (negb (blen rdp_bulk_rdp6_lom_bits <=? symbol)) LIBRDP_STATUS_PROTOCOL_ERROR;;
  bits ← lift (rd rdp_bulk_rdp6_lom_bits symbol);
  extra ← rdp_bulk_rdp6_reader_read (u8 bits);
  base ← lift (rd rdp_bulk_rdp6_lom_base symbol);
  mret (u32 (base + extra)).

(** The four words of [offset_cache] after a new offset, and after the use of
    the one at [index]. *)
Definition push_offset (copy_offset : Z) (cache : list Z) : res (list Z) :=
  c2 ← rd cache 2; cache ← wr cache 3 c2;
  c1 ← rd cache 1; cache ← wr cache 2 c1;
  c0 ← rd cache 0; cache ← wr cache 1 c0;
  wr cache 0 copy_offset.
Definition touch_offset (index old : Z) (cache : list Z) : res (list Z) :=
  c0 ← rd cache 0; cache ← wr cache index c0;
  wr cache 0 old.

Definition on_cache (f : list Z -> res (list Z)) : rdp6 unit :=
  st ← gets id;
  cache ← lift (f (s6_offset_cache st));
  modify (set_cache6 cache).

(** The loop.  Every iteration but the last decodes a symbol, which takes a bit
    or more. *)
Fixpoint decode_loop6 (fuel : nat) : decoder6 unit :=
  match fuel with
  | O => lift Fault
  | S fuel =>
      '(_, st) ← gets id;
      symbol ← on_fst (rdp_bulk_rdp6_decode_symbol (s6_literal_offset st) RDP_BULK_RDP6_LEC_TABLE_BITS);
      if symbol <? 256 then
        on_snd (rdp_bulk_rdp6_emit (u8 symbol));;
        decode_loop6 fuel
      else if symbol =? 256 then mret tt
      else if symbol <=? 288 then
        let index := symbol - 257 in
        extra_bits ← lift (rd rdp_bulk_rdp6_copy_offset_bits index);
        extra ← on_fst (rdp_bulk_rdp6_reader_read (u8 extra_bits));
        base ← lift (rd rdp_bulk_rdp6_copy_offset_base index);
        let copy_offset := u32 (u32 (base + extra) - 1) in
        match_length ← on_fst (rdp_bulk_rdp6_read_match_length (s6_match_length st));
        on_snd (on_cache (push_offset copy_offset));;
        on_snd (rdp_bulk_rdp6_copy copy_offset match_length);;
        decode_loop6 fuel
      else if symbol <=? 292 then
        let index := symbol - 289 in
        old ← lift (rd (s6_offset_cache st) index);
        match_length ← on_fst (rdp_bulk_rdp6_read_match_length (s6_match_length st));
        on_snd (on_cache (touch_offset index old));;
        on_snd (rdp_bulk_rdp6_copy old match_length);;
        decode_loop6 fuel
      else lift (Err LIBRDP_STATUS_PROTOCOL_ERROR)
  end.

(** [state->write_offset = start; memcpy(state->offset_cache, saved_cache, ...);] on failure *)
Definition restore6 {A} (start : Z) (saved_cache : list Z) (m : rdp6 A) : rdp6 A := fun st =>
  match m st with
  | (Err e, st') => (Err e, set_cache6 saved_cache (set_output6 (s6_history st') start st'))
  | r => r
  end.

Definition rdp_bulk_rdp6_decode (flags : Z) (data : view) : M (rdp_bulk_rdp6_state * wstate) unit :=
  require (negb (view_null data)) LIBRDP_STATUS_INVALID_ARGUMENT;;
  on_fst rdp_bulk_rdp6_prepare;;
  (if has_flag flags RDP_BULK_PACKET_AT_FRONT then on_fst rdp_bulk_rdp6_move_front else mret tt);;
  (if has_flag flags RDP_BULK_PACKET_FLUSHED
   then on_fst (modify (rdp_bulk_rdp6_state_reset true)) else mret tt);;
  if negb (has_flag flags RDP_BULK_PACKET_COMPRESSED) then on_snd (rdp_buffer_append data) else
  reader ← lift (rdp_bulk_rdp6_reader_init (view_bytes data));
  start ← gets (fun s => s6_write_offset s.1);
  saved_cache ← gets (fun s => s6_offset_cache s.1);
  on_fst (restore6 start saved_cache
    (with_reader reader (decode_loop6 (S (8 * length (view_bytes data))))));;
  st ← gets fst;
  out ← lift (slice (s6_history st) start (s6_write_offset st - start));
  on_snd (rdp_buffer_append (View out)).

(** ** The reader *)

#[local] Opaque rdp_bulk_rdp6_build_table.

Record reader6_wf (r : rdp_bulk_rdp6_bit_reader) : Prop := {
  reader6_count : 0 <= r6_bit_count r <= 39;
  reader6_bits : 0 <= r6_bits r < 2 ^ r6_bit_count r;
  reader6_data : bytes (r6_data r);
}.
Definition stream_bits (data : list Z) : list bool := data ≫= lsb_bits 8.
#[export] Instance reader6_source : BitSource rdp_bulk_rdp6_bit_reader := {
  bs_wf := reader6_wf;
  unread_bits r := lsb_bits (Z.to_nat (r6_bit_count r)) (r6_bits r) ++ stream_bits (r6_data r);
}.
Lemma unread6_eq r :
  unread_bits r = lsb_bits (Z.to_nat (r6_bit_count r)) (r6_bits r) ++ stream_bits (r6_data r).
Proof. done. Qed.

Lemma refill_spec count data bits bit_count :
  count <= 32 -> reader6_wf (mk_rdp6_reader data bits bit_count) ->
  let r := refill count data bits bit_count in
  reader6_wf r /\ unread_bits r = unread_bits (mk_rdp6_reader data bits bit_count) /\
  (count <= r6_bit_count r \/ r6_data r = []).
Proof.
  intros Hc. revert bits bit_count. induction data as [|byte data IH]; intros bits bc Hwf r.
  { subst r. cbn [refill]. split_and!; [done|done|by right]. }
  subst r. cbn [refill]. destruct (Z.ltb_spec bc count); [|split_and!; [done|done|by left]].
  destruct Hwf as [Hbc Hb Hd]. cbn in Hbc, Hb, Hd. apply Forall_cons_1 in Hd as [Hby Hd]. unfold is_byte in Hby.
  pose proof (Z.pow_pos_nonneg 2 bc ltac:(lia) ltac:(lia)).
  assert (Hp : 2 ^ bc <= 2 ^ 31) by (apply Z.pow_le_mono_r; lia).
  assert (E : Z.lor bits (u64 (Z.shiftl byte bc)) = bits + byte * 2 ^ bc).
  { unfold u64. rewrite Z.shiftl_mul_pow2, Z.mod_small by nia. apply lor_add; lia. }
  assert (Ec : u8 (bc + 8) = bc + 8) by (unfold u8; bits_lia). rewrite E, Ec.
  assert (Hwf' : reader6_wf (mk_rdp6_reader data (bits + byte * 2 ^ bc) (bc + 8))).
  { split; cbn; [lia| |done]. rewrite Z.pow_add_r by lia. nia. }
  destruct (IH _ _ Hwf') as (H1 & H2 & H3). split; [exact H1|]. split; [|exact H3].
  rewrite H2, !unread6_eq. cbn [r6_bit_count r6_bits r6_data]. unfold stream_bits. cbn [mbind list_bind].
  rewrite app_assoc. f_equal. replace (Z.to_nat (bc + 8)) with (Z.to_nat bc + 8)%nat by lia.
  rewrite lsb_bits_app, Z2Nat.id by lia. f_equal.
  - rewrite <- (lsb_bits_mod (Z.to_nat bc) (Z.to_nat bc) (bits + byte * 2 ^ bc)), Z2Nat.id, Z_mod_plus_full by lia.
    by rewrite Z.mod_small by lia.
  - rewrite Z.div_add by lia. by rewrite Z.div_small by lia.
Qed.

Lemma reader_ensure_spec count r :
  0 <= count <= 32 -> reader6_wf r ->
  exists r', reader6_wf r' /\ unread_bits r' = unread_bits r /\
    rdp_bulk_rdp6_reader_ensure count r =
      (if blen (unread_bits r) <? count then (Err LIBRDP_STATUS_PROTOCOL_ERROR, r') else (Ok tt, r')) /\
    (count <= blen (unread_bits r) -> count <= r6_bit_count r').
Proof.
  intros Hc Hwf. destruct (refill_spec count (r6_data r) (r6_bits r) (r6_bit_count r)) as (H1 & H2 & H3);
    [lia|by destruct r|]. set (r' := refill _ _ _ _) in *.
  assert (Hu : unread_bits r' = unread_bits r) by (rewrite H2; by destruct r).
  assert (Hl : blen (unread_bits r) = r6_bit_count r' + blen (stream_bits (r6_data r'))).
  { rewrite <- Hu, unread6_eq, blen_app, blen_lsb_bits, Z2Nat.id by apply H1. done. }
  exists r'. split; [done|]. split; [done|]. unfold rdp_bulk_rdp6_reader_ensure.
  rewrite bind_require. destruct (Z.ltb_spec 32 count); [lia|]. cbn [negb].
  rewrite bind_modify, bind_gets. unfold id. fold r'. pose proof (blen_nonneg (stream_bits (r6_data r'))).
  assert (Hn : r6_data r' = [] -> blen (stream_bits (r6_data r')) = 0) by (by intros ->).
  split; [|intros; destruct H3 as [|H3]; [done|]; specialize (Hn H3); lia].
  destruct (Z.ltb_spec (blen (unread_bits r)) count); unfold require.
  - destruct (Z.leb_spec count (r6_bit_count r')); [lia|done].
  - destruct (Z.leb_spec count (r6_bit_count r')); [done|]. destruct H3 as [|H3]; [lia|]. specialize (Hn H3). lia.
Qed.

Lemma drop_bits_spec n r :
  reader6_wf r -> 0 <= n <= r6_bit_count r ->
  reader6_wf (drop_bits n r) /\ unread_bits (drop_bits n r) = zdrop n (unread_bits r) /\
  ztake n (unread_bits r) = lsb_bits (Z.to_nat n) (r6_bits r).
Proof.
  intros [Hc Hb Hd] Hn. rewrite !unread6_eq. unfold drop_bits. cbn [r6_bit_count r6_bits r6_data].
  assert (Eu : u8 (r6_bit_count r - n) = r6_bit_count r - n) by (unfold u8; bits_lia). rewrite Eu.
  pose proof (Z.pow_pos_nonneg 2 n ltac:(lia) ltac:(lia)).
  replace (Z.to_nat (r6_bit_count r)) with (Z.to_nat n + Z.to_nat (r6_bit_count r - n))%nat by lia.
  rewrite lsb_bits_app, <- app_assoc, Z2Nat.id, <- Z.shiftr_div_pow2 by lia.
  pose proof (blen_lsb_bits (Z.to_nat n) (r6_bits r)) as El. rewrite Z2Nat.id in El by lia.
  match goal with |- context [zdrop n (?l1 ++ ?l2)] =>
    pose proof (zdrop_app_blen l1 l2) as E1; pose proof (ztake_app_blen l1 l2) as E2 end.
  rewrite El in E1, E2. rewrite E1, E2. split; [|done].
  split; cbn [r6_bit_count r6_bits r6_data]; [lia| |done]. rewrite Z.shiftr_div_pow2 by lia.
  split; [apply Z.div_pos; lia|]. apply Z.div_lt_upper_bound; [lia|]. rewrite <- Z.pow_add_r by lia.
  replace (n + (r6_bit_count r - n)) with (r6_bit_count r) by lia. lia.
Qed.

Lemma low_bits_value n r :
  0 <= n <= 31 -> u32 (Z.land (r6_bits r) (u64 (u64 (Z.shiftl 1 n) - 1))) = lsb_value (lsb_bits (Z.to_nat n) (r6_bits r)).
Proof.
  intros Hn. assert (Hp : 0 < 2 ^ n <= 2 ^ 31) by (split; [apply Z.pow_pos_nonneg|apply Z.pow_le_mono_r]; lia).
  unfold u64, u32. rewrite Z.shiftl_1_l, (Z.mod_small (2 ^ n)), (Z.mod_small (2 ^ n - 1)) by lia.
  rewrite land_mask, lsb_value_bits, Z2Nat.id by lia.
  pose proof (Z.mod_pos_bound (r6_bits r) (2 ^ n) ltac:(lia)). by rewrite Z.mod_small by lia.
Qed.

Lemma consumes_reader_read n :
  0 <= n <= 31 -> Consumes n (rdp_bulk_rdp6_reader_read n) (fun v => 0 <= v < 2 ^ n).
Proof.
  intros Hn r Hwf. unfold rdp_bulk_rdp6_reader_read. rewrite bind_require.
  destruct (Z.ltb_spec 31 n); [lia|]. cbn [negb]. destruct (Z.eqb_spec n 0) as [->|H0].
  { unfold mret, M_ret. split; [done|]. split; [by cbn|]. exists 0. split; [split; [done|apply blen_nonneg]|done]. }
  destruct (reader_ensure_spec n r ltac:(lia) Hwf) as (r' & Hwf' & Hu & E & Hc).
  pose proof E as E'. destruct (Z.ltb_spec (blen (unread_bits r)) n) in E'.
  { by rewrite (bind_err _ _ _ _ _ E'). }
  rewrite (bind_ok _ _ _ _ _ E'), bind_gets, bind_modify. unfold id.
  destruct (drop_bits_spec n r' Hwf') as (Hwf2 & Hu2 & _); [split; [lia|by apply Hc]|].
  unfold mret, M_ret. split; [done|]. rewrite low_bits_value by done. split.
  - pose proof (lsb_value_bounds (lsb_bits (Z.to_nat n) (r6_bits r'))) as Hb.
    by rewrite blen_lsb_bits, Z2Nat.id in Hb by lia.
  - exists n. split; [lia|]. by rewrite Hu2, Hu.
Qed.

Lemma parses_reader_read n v rest :
  0 <= n <= 31 -> 0 <= v < 2 ^ n ->
  BitParses (rdp_bulk_rdp6_reader_read n) (lsb_bits (Z.to_nat n) v ++ rest) rest v.
Proof.
  intros Hn Hv r Hwf Hu. unfold rdp_bulk_rdp6_reader_read. rewrite bind_require.
  destruct (Z.ltb_spec 31 n); [lia|]. cbn [negb]. destruct (Z.eqb_spec n 0) as [->|H0].
  { change (2 ^ 0) with 1 in Hv. assert (v = 0) as -> by lia. by exists r. }
  destruct (reader_ensure_spec n r ltac:(lia) Hwf) as (r' & Hwf' & Hu' & E & Hc).
  pose proof (blen_lsb_bits (Z.to_nat n) v) as El. rewrite Z2Nat.id in El by lia.
  pose proof (zdrop_app_blen (lsb_bits (Z.to_nat n) v) rest) as E1.
  pose proof (ztake_app_blen (lsb_bits (Z.to_nat n) v) rest) as E2. rewrite El in E1, E2.
  rewrite Hu, blen_app, El in E, Hc. pose proof (blen_nonneg rest).
  destruct (Z.ltb_spec (n + blen rest) n); [lia|].
  rewrite (bind_ok _ _ _ _ _ E), bind_gets, bind_modify. unfold id.
  destruct (drop_bits_spec n r' Hwf') as (Hwf2 & Hu2 & Ht); [split; [lia|apply Hc; lia]|].
  rewrite low_bits_value by done. rewrite <- Ht, Hu', Hu, E2, lsb_value_bits, Z2Nat.id, Z.mod_small by lia.
  eexists. split; [done|]. split; [done|]. by rewrite Hu2, Hu', Hu.
Qed.

Lemma take_lsb_bits (k n : nat) v : (k <= n)%nat -> take k (lsb_bits n v) = lsb_bits k v.
Proof.
  intros Hk. replace n with (k + (n - k))%nat by lia. rewrite lsb_bits_app.
  rewrite <- (length_lsb_bits k v) at 1. apply take_app_length.
Qed.

(** Decoding a symbol with the table of [ls]. *)
Lemma decode_symbol_spec tb ls t r :
  1 <= tb < 16 -> Forall (fun l => 1 <= l <= tb) ls -> canonical_table tb ls t ->
  reader6_wf r -> tb <= blen (unread_bits r) ->
  exists (i : nat) l, ls !! i = Some l /\
    take (Z.to_nat l) (unread_bits r) = to_bits (Z.to_nat l) (canonical ls i) /\
    (forall (j : nat) k, ls !! j = Some k ->
       take (Z.to_nat k) (unread_bits r) = to_bits (Z.to_nat k) (canonical ls j) -> j = i) /\
    exists r', rdp_bulk_rdp6_decode_symbol t tb r = (Ok (Z.of_nat i), r') /\ reader6_wf r' /\
      unread_bits r' = zdrop l (unread_bits r).
Proof.
  intros Htb HF Ht Hwf Hlen. unfold rdp_bulk_rdp6_decode_symbol. rewrite bind_require.
  destruct (Z.ltb_spec 15 tb); [lia|]. cbn [negb].
  destruct (reader_ensure_spec tb r ltac:(lia) Hwf) as (r1 & Hwf1 & Hu1 & E & Hc).
  destruct (Z.ltb_spec (blen (unread_bits r)) tb); [lia|].
  rewrite (bind_ok _ _ _ _ _ E), bind_gets, low_bits_value by lia. unfold id. specialize (Hc Hlen).
  destruct (drop_bits_spec tb r1 Hwf1) as (_ & _ & Htake); [lia|].
  set (e := lsb_value _). assert (He : 0 <= e < 2 ^ tb).
  { pose proof (lsb_value_bounds (lsb_bits (Z.to_nat tb) (r6_bits r1))) as Hb.
    by rewrite blen_lsb_bits, Z2Nat.id in Hb by lia. }
  assert (Hpre : forall k, 0 <= k <= tb -> lsb_bits (Z.to_nat k) e = take (Z.to_nat k) (unread_bits r)).
  { intros k Hk. transitivity (take (Z.to_nat k) (lsb_bits (Z.to_nat tb) (r6_bits r1))).
    - unfold e. rewrite lsb_value_bits, lsb_bits_mod by lia. by rewrite take_lsb_bits by lia.
    - rewrite <- Htake, Hu1. unfold ztake. rewrite take_take. f_equal. lia. }
  assert (Hhit : forall (j : nat) k, ls !! j = Some k ->
    take (Z.to_nat k) (unread_bits r) = to_bits (Z.to_nat k) (canonical ls j) -> hits ls j e).
  { intros j k Ej Hj. exists k. split; [done|]. rewrite Hpre; [done|].
    pose proof (Forall_lookup_1 _ _ _ _ HF Ej). cbn in *. lia. }
  destruct (canonical_total _ _ _ Ht e He) as (i & l & Ei & Hi & Eg).
  pose proof (Forall_lookup_1 _ _ _ _ HF Ei) as Hl. cbn beta in Hl. exists i, l. split; [done|].
  split. { destruct Hi as (l' & E' & Hb). rewrite <- Hpre by lia. congruence. }
  split.
  { intros j k Ej Hj. pose proof (canonical_hit _ _ _ Ht j k e Ej He (Hhit j k Ej Hj)) as Eg'.
    rewrite Eg in Eg'. injection Eg' as Eg' _. lia. }
  rewrite bind_lift, Eg, bind_require. cbn [e6_bit_count].
  destruct (Z.eqb_spec l 0); [lia|]. destruct (Z.ltb_spec (r6_bit_count r1) l); [lia|]. cbn [orb negb].
  rewrite bind_modify. destruct (drop_bits_spec l r1 Hwf1) as (Hwf2 & Hu2 & _); [lia|].
  eexists. split; [done|]. split; [done|]. by rewrite Hu2, Hu1.
Qed.

Section symbol.
Context (tb : Z) (ls : list Z) (t : table).
Hypothesis (Htb : 1 <= tb < 16).
Hypothesis (HF : Forall (fun l => 1 <= l <= tb) ls).
Hypothesis (Ht : canonical_table tb ls t).

Lemma consumes_symbol :
  Consumes 1 (rdp_bulk_rdp6_decode_symbol t tb) (fun s => 0 <= s < blen ls).
Proof.
  intros r Hwf. destruct (Z.lt_ge_cases (blen (unread_bits r)) tb) as [Hlt|Hge].
  - destruct (reader_ensure_spec tb r ltac:(lia) Hwf) as (r1 & Hwf1 & _ & E & _).
    unfold rdp_bulk_rdp6_decode_symbol. rewrite bind_require. destruct (Z.ltb_spec 15 tb); [lia|]. cbn [negb].
    destruct (Z.ltb_spec (blen (unread_bits r)) tb); [|lia]. by rewrite (bind_err _ _ _ _ _ E).
  - destruct (decode_symbol_spec tb ls t r Htb HF Ht Hwf Hge) as (i & l & Ei & _ & _ & r' & -> & Hwf' & Hu).
    pose proof (Forall_lookup_1 _ _ _ _ HF Ei) as Hl. cbn beta in Hl. apply lookup_lt_Some in Ei.
    split; [done|]. split; [unfold blen; lia|]. exists l. split; [lia|done].
Qed.
Lemma parses_symbol (i : nat) l rest :
  ls !! i = Some l -> tb <= l + blen rest ->
  BitParses (rdp_bulk_rdp6_decode_symbol t tb) (to_bits (Z.to_nat l) (canonical ls i) ++ rest) rest (Z.of_nat i).
Proof.
  intros Ei Hlen r Hwf Hu. pose proof (Forall_lookup_1 _ _ _ _ HF Ei) as Hl. cbn beta in Hl.
  set (c := to_bits (Z.to_nat l) (canonical ls i)) in *.
  assert (Hc : length c = Z.to_nat l) by (apply Nat2Z.inj, blen_to_bits).
  assert (Hb : blen (unread_bits r) = l + blen rest) by (rewrite Hu, blen_app; unfold blen; lia).
  destruct (decode_symbol_spec tb ls t r Htb HF Ht Hwf ltac:(lia)) as (j & k & Ej & _ & Huniq & r' & E & Hwf' & Hu').
  assert (Hji : i = j). { apply (Huniq i l Ei). fold c. rewrite Hu, <- Hc. apply take_app_length. }
  subst j. assert (k = l) as -> by congruence. exists r'. split; [done|]. split; [done|].
  rewrite Hu', Hu. unfold zdrop. rewrite <- Hc. apply drop_app_length.
Qed.
End symbol.

(** ** The state *)

Definition lec_ready (t : table) : Prop := canonical_table 13 rdp_bulk_rdp6_lec_lengths t.
Definition lom_ready (t : table) : Prop := canonical_table 9 rdp_bulk_rdp6_lom_lengths t.

Record rdp6_wf (st : rdp_bulk_rdp6_state) : Prop := {
  rdp6_wf_history : blen (s6_history st) = RDP_BULK_RDP6_HISTORY_SIZE;
  rdp6_wf_bytes : bytes (s6_history st);
  rdp6_wf_offset : 0 <= s6_write_offset st < RDP_BULK_RDP6_HISTORY_SIZE;
  rdp6_wf_cache : blen (s6_offset_cache st) = 4 /\ Forall is_u32 (s6_offset_cache st);
  rdp6_wf_tables : s6_tables_ready st = true -> lec_ready (s6_literal_offset st) /\ lom_ready (s6_match_length st);
}.
Lemma rdp6_bounds st : rdp6_wf st -> 0 <= s6_write_offset st <= blen (s6_history st).
Proof. intros [Hh _ Ho _ _]. lia. Qed.
#[export] Instance rdp6_history : History rdp_bulk_rdp6_state (table * table * bool) := {
  hist_live := rdp6_wf;
  hist_cells := s6_history;
  hist_offset := s6_write_offset;
  hist_frame st := (s6_literal_offset st, s6_match_length st, s6_tables_ready st);
  hist_bounds := rdp6_bounds;
}.
Lemma blen_window6 st : rdp6_wf st -> blen (window st) = s6_write_offset st.
Proof. exact (blen_window st). Qed.

#[local] Opaque rdp_bulk_rdp6_build_table zeros6 zeros_half.

Lemma emit_spec v st :
  rdp6_wf st -> s6_write_offset st < 65535 -> is_byte v ->
  exists st', rdp_bulk_rdp6_emit v st = (Ok tt, st') /\ grown st st' [v] /\
    s6_offset_cache st' = s6_offset_cache st.
Proof.
  intros [Hh Hb Ho Hc Ht] Hlt Hv. unfold RDP_BULK_RDP6_HISTORY_SIZE in *. unfold rdp_bulk_rdp6_emit.
  rewrite bind_gets, bind_require. unfold id, RDP_BULK_RDP6_HISTORY_SIZE.
  destruct (Z.leb_spec (65536 - 1) (s6_write_offset st)); [lia|]. cbn [negb].
  rewrite bind_lift, wr_ok by lia. eexists. split; [reflexivity|]. split; [|done].
  assert (E : size_t (s6_write_offset st + 1) = s6_write_offset st + 1) by (unfold size_t; bits_lia). rewrite E.
  split; [split| |].
  - unfold blen in *. cbn [set_output6 s6_history]. by rewrite length_insert.
  - by apply Forall_insert.
  - cbn. unfold RDP_BULK_RDP6_HISTORY_SIZE. lia.
  - done.
  - done.
  - done.
  - unfold window. cbn. apply ztake_push. lia.
Qed.

Lemma copy_loop6_spec n src st :
  rdp6_wf st -> Z.of_nat n <= 65535 - s6_write_offset st -> 0 <= src < 65536 ->
  exists st' out, copy_loop6 n src st = (Ok tt, st') /\ grown st st' out /\
    s6_offset_cache st' = s6_offset_cache st /\
    (forall off, 1 <= off -> src = s6_write_offset st - off -> window st' = lz_copy n off (window st)).
Proof.
  revert src st. induction n as [|n IH]; intros src st Hwf Hn Hs.
  { exists st, []. split_and!; [done|by apply grown_refl|done|done]. }
  destruct (rd_ok (s6_history st) src) as (v & Ev & _).
  { rewrite (rdp6_wf_history _ Hwf). unfold RDP_BULK_RDP6_HISTORY_SIZE. lia. }
  destruct (emit_spec v st Hwf) as (st1 & E1 & G1 & C1); [lia|eapply rd_Forall; [apply Hwf|done]|].
  pose proof G1 as [Hwf1 _ Ew1]. cbn in Hwf1.
  pose proof (blen_window6 st1 Hwf1) as Bw1. rewrite Ew1, blen_app, (blen_window6 st Hwf) in Bw1.
  change (blen [v]) with 1 in Bw1. pose proof (rdp6_wf_offset _ Hwf).
  assert (Eu : Z.land (size_t (src + 1)) 0xffff = (src + 1) mod 65536).
  { unfold size_t. rewrite Z.mod_small by lia. by bits_norm. }
  destruct (IH ((src + 1) mod 65536) st1) as (st2 & out & E2 & G2 & C2 & Hlz); [done|lia|bits_lia|].
  exists st2, ([v] ++ out). cbn [copy_loop6]. rewrite bind_gets, bind_lift. unfold id.
  rewrite Ev, (bind_ok _ _ _ _ _ E1), Eu. split; [done|]. split; [by eapply grown_trans|].
  split; [congruence|]. intros off Hoff Esrc. cbn [lz_copy].
  rewrite (Hlz off), Ew1; [|done|rewrite Z.mod_small by lia; lia].
  do 4 f_equal. rewrite (window_lookup st (blen (window st) - off) v); rewrite ?(blen_window6 st Hwf); [done|cbn; lia|].
  cbn [hist_cells rdp6_history]. by rewrite <- Esrc.
Qed.

Lemma copy6_spec off len st :
  rdp6_wf st -> 0 <= len ->
  (rdp_bulk_rdp6_copy off len st = (Err LIBRDP_STATUS_PROTOCOL_ERROR, st) \/
   exists st' out, rdp_bulk_rdp6_copy off len st = (Ok tt, st') /\ grown st st' out /\
     s6_offset_cache st' = s6_offset_cache st) /\
  (1 <= off <= blen (window st) -> 2 <= len -> blen (window st) + len <= 65535 ->
   exists st' out, rdp_bulk_rdp6_copy off len st = (Ok tt, st') /\ grown st st' out /\
     s6_offset_cache st' = s6_offset_cache st /\ window st' = lz_copy (Z.to_nat len) off (window st)).
Proof.
  intros Hwf Hlen. pose proof (rdp6_wf_offset _ Hwf) as Ho. rewrite (blen_window6 st Hwf).
  unfold RDP_BULK_RDP6_HISTORY_SIZE in Ho. unfold rdp_bulk_rdp6_copy. rewrite bind_gets, bind_require. unfold id.
  assert (Er : size_t (RDP_BULK_RDP6_HISTORY_SIZE - s6_write_offset st - 1) = 65535 - s6_write_offset st)
    by (unfold size_t, RDP_BULK_RDP6_HISTORY_SIZE; bits_lia).
  rewrite Er. assert (Em : forall x, Z.land x 0xffff = x mod 65536) by (intros; by bits_norm). rewrite Em.
  set (src := size_t _ mod _). assert (Hsrc : 0 <= src < 65536) by (apply Z.mod_pos_bound; lia). split.
  - destruct (negb _) eqn:G1; [|by left]. right.
    destruct (copy_loop6_spec (Z.to_nat len) src st Hwf) as (st' & out & E & G & C & _); [lia|lia|].
    by exists st', out.
  - intros Hoff H2 Hfit.
    assert (Es : src = s6_write_offset st - off).
    { unfold src, size_t. rewrite (Z.mod_small _ 0x10000000000000000), Z.mod_small; lia. }
    destruct (negb _) eqn:G1; [|lia].
    destruct (copy_loop6_spec (Z.to_nat len) src st Hwf) as (st' & out & E & G & C & Hlz); [lia|lia|].
    exists st', out. split_and!; [done|done|done|]. apply Hlz; [lia|exact Es].
Qed.

(** The tables of extra bits and bases, entry by entry. *)
Lemma lom_entry s :
  0 <= s < 30 -> exists bits base, rd rdp_bulk_rdp6_lom_bits s = Ok bits /\ rd rdp_bulk_rdp6_lom_base s = Ok base /\
    0 <= bits <= 14 /\ 2 <= base <= 514.
Proof.
  intros Hs. destruct (rd_ok rdp_bulk_rdp6_lom_bits s) as (bits & E1 & L1); [by cbn|].
  destruct (rd_ok rdp_bulk_rdp6_lom_base s) as (base & E2 & L2); [by cbn|].
  exists bits, base. split; [done|]. split; [done|].
  assert (H1 : Forall (fun b => 0 <= b <= 14) rdp_bulk_rdp6_lom_bits) by by_evaluation.
  assert (H2 : Forall (fun b => 2 <= b <= 514) rdp_bulk_rdp6_lom_base) by by_evaluation.
  split; [exact (Forall_lookup_1 _ _ _ _ H1 L1)|exact (Forall_lookup_1 _ _ _ _ H2 L2)].
Qed.
Lemma offset_entry s :
  0 <= s < 32 -> exists bits base, rd rdp_bulk_rdp6_copy_offset_bits s = Ok bits /\
    rd rdp_bulk_rdp6_copy_offset_base s = Ok base /\ 0 <= bits <= 14 /\ 1 <= base <= 49153.
Proof.
  intros Hs. destruct (rd_ok rdp_bulk_rdp6_copy_offset_bits s) as (bits & E1 & L1); [by cbn|].
  destruct (rd_ok rdp_bulk_rdp6_copy_offset_base s) as (base & E2 & L2); [by cbn|].
  exists bits, base. split; [done|]. split; [done|].
  assert (H1 : Forall (fun b => 0 <= b <= 14) rdp_bulk_rdp6_copy_offset_bits) by by_evaluation.
  assert (H2 : Forall (fun b => 1 <= b <= 49153) rdp_bulk_rdp6_copy_offset_base) by by_evaluation.
  split; [exact (Forall_lookup_1 _ _ _ _ H1 L1)|exact (Forall_lookup_1 _ _ _ _ H2 L2)].
Qed.

Lemma lec_lengths_ok : Forall (fun l => 1 <= l <= 13) rdp_bulk_rdp6_lec_lengths.
Proof. by_evaluation. Qed.
Lemma lom_lengths_ok : Forall (fun l => 1 <= l <= 9) rdp_bulk_rdp6_lom_lengths.
Proof. by_evaluation. Qed.

Lemma consumes_match_length t :
  lom_ready t -> Consumes 1 (rdp_bulk_rdp6_read_match_length t) (fun len => 0 <= len < 2 ^ 32).
Proof.
  intros Ht. unfold rdp_bulk_rdp6_read_match_length.
  eapply (consumes_bind 1 0); [lia|by apply (consumes_symbol 9 rdp_bulk_rdp6_lom_lengths); [|apply lom_lengths_ok|]| |lia].
  intros s Hs r Hwf. cbn beta in Hs. rewrite bind_require. change (blen rdp_bulk_rdp6_lom_bits) with 30.
  destruct (Z.leb_spec 30 s); [done|]. cbn [negb].
  destruct (lom_entry s ltac:(lia)) as (bits & base & -> & -> & Hbits & Hbase).
  rewrite bind_lift. assert (Eu : u8 bits = bits) by (unfold u8; bits_lia). rewrite Eu.
  assert (Hbody : Consumes (bits + 0) (extra ← rdp_bulk_rdp6_reader_read bits; base ← lift (Ok base);
                                   mret (u32 (base + extra))) (fun len => 0 <= len < 2 ^ 32)).
  { eapply consumes_bind; [lia|by apply consumes_reader_read; lia| |lia]. intros extra _ r1 Hwf1.
    rewrite bind_lift. by apply (consumes_ret (u32 (base + extra))); [unfold u32; bits_lia|]. }
  exact (consumes_weaken (bits + 0) 0 _ _ _ ltac:(lia) (fun _ H => H) Hbody r Hwf).
Qed.

(** ** The cache of offsets *)

Definition cache_ok (cache : list Z) : Prop := blen cache = 4 /\ Forall is_u32 cache.

Lemma cache_cases cache :
  cache_ok cache -> exists a b c d, cache = [a; b; c; d] /\ is_u32 a /\ is_u32 b /\ is_u32 c /\ is_u32 d.
Proof.
  intros [Hl HF]. destruct cache as [|a [|b [|c [|d [|e cache]]]]]; try (exfalso; clear HF; zlen; fail).
  - exists a, b, c, d. rewrite !Forall_cons_iff in HF. by destruct HF as (? & ? & ? & ? & _).
Qed.
Lemma push_offset_spec off cache :
  cache_ok cache -> is_u32 off ->
  push_offset off cache = Ok (off :: take 3 cache) /\ cache_ok (off :: take 3 cache).
Proof.
  intros (a & b & c & d & -> & Ha & Hb & Hc & Hd)%cache_cases Ho. split; [reflexivity|].
  split; [done|]. cbn [take]. repeat (apply Forall_cons_2; [done|]). by apply Forall_nil_2.
Qed.
Lemma touch_offset_spec index cache :
  cache_ok cache -> 0 <= index < 4 ->
  exists old cache', rd cache index = Ok old /\ is_u32 old /\ touch_offset index old cache = Ok cache' /\
    cache_ok cache' /\ cache' = <[0%nat := old]> (<[Z.to_nat index := default 0 (cache !! 0%nat)]> cache).
Proof.
  intros (a & b & c & d & -> & Ha & Hb & Hc & Hd)%cache_cases Hi.
  assert (Hcase : index = 0 \/ index = 1 \/ index = 2 \/ index = 3) by lia.
  destruct Hcase as [->|[->|[->| ->]]]; (eexists _, _; split; [reflexivity|]; split; [done|];
    split; [reflexivity|]; split; [|reflexivity]; split; [done|]; repeat (apply Forall_cons_2; [done|]); by apply Forall_nil_2).
Qed.

Lemma set_cache_grown cache st :
  rdp6_wf st -> cache_ok cache -> grown st (set_cache6 cache st) [].
Proof. intros [Hh Hb Ho Hc Ht] Hc'. split; [by split|done|by rewrite app_nil_r]. Qed.

Lemma bind_on_cache f cache {R} (k : unit -> M (R * rdp_bulk_rdp6_state) unit) (r : R) st :
  f (s6_offset_cache st) = Ok cache ->
  (on_snd (on_cache f) ≫= k) (r, st) = k tt (r, set_cache6 cache st).
Proof. intros E. rewrite bind_on_snd. unfold on_cache. rewrite bind_gets. unfold id. by rewrite bind_lift, E. Qed.

(** ** The loop *)

Definition rdp6_ready (st : rdp_bulk_rdp6_state) : Prop := rdp6_wf st /\ s6_tables_ready st = true.
Lemma ready_tables st : rdp6_ready st -> lec_ready (s6_literal_offset st) /\ lom_ready (s6_match_length st).
Proof. intros [Hwf Hr]. by apply rdp6_wf_tables. Qed.
Lemma grown_ready st st' out : rdp6_ready st -> grown st st' out -> rdp6_ready st'.
Proof. intros [Hwf Hr] [Hl Hf _]. split; [done|]. cbn in Hf. congruence. Qed.

Lemma loop_match6_safe r st off f cache (k : decoder6 unit) :
  reader6_wf r -> rdp6_ready st -> f (s6_offset_cache st) = Ok cache -> cache_ok cache ->
  (forall r' st' out, reader6_wf r' -> blen (unread_bits r') <= blen (unread_bits r) ->
     grown st st' out -> loop_post st' (k (r', st'))) ->
  loop_post st
    ((match_length ← on_fst (rdp_bulk_rdp6_read_match_length (s6_match_length st));
      on_snd (on_cache f);; on_snd (rdp_bulk_rdp6_copy off match_length);; k) (r, st)).
Proof.
  intros Hwf Hst Ef Hc Hk. rewrite bind_on_fst.
  pose proof (consumes_match_length _ (proj2 (ready_tables st Hst)) r Hwf) as Hm.
  destruct (rdp_bulk_rdp6_read_match_length _ r) as [[len|e|] r1]; [| |done].
  2: destruct Hm as [-> _]; apply loop_post_err; apply Hst.
  destruct Hm as (Hwf1 & Hlen & i & Hi & Eu). rewrite (bind_on_cache _ _ _ _ _ Ef), bind_on_snd.
  pose proof (set_cache_grown cache st (proj1 Hst) Hc) as G0. pose proof G0 as [Hwf0 _ _]. cbn in Hwf0.
  destruct (copy6_spec off len (set_cache6 cache st) Hwf0 ltac:(lia)) as [[E|(st' & out & E & G & _)] _]; rewrite E.
  - eapply loop_post_grown; [exact G0|]. by apply loop_post_err.
  - pose proof (grown_trans _ _ _ _ _ G0 G) as G2. eapply loop_post_grown; [exact G2|].
    eapply Hk; [done| |exact G2]. rewrite Eu, blen_zdrop by lia. lia.
Qed.

Lemma decode_loop6_safe fuel r st :
  reader6_wf r -> rdp6_ready st -> blen (unread_bits r) < Z.of_nat fuel ->
  loop_post st (decode_loop6 fuel (r, st)).
Proof.
  revert r st. induction fuel as [|fuel IH]; intros r st Hwf Hst Hf; [pose proof (blen_nonneg (unread_bits r)); lia|].
  cbn [decode_loop6]. rewrite bind_gets. unfold id. rewrite bind_on_fst.
  pose proof (consumes_symbol 13 _ _ ltac:(lia) lec_lengths_ok (proj1 (ready_tables st Hst)) r Hwf) as Hs.
  destruct (rdp_bulk_rdp6_decode_symbol _ _ r) as [[s|e|] r1]; [| |done].
  2: destruct Hs as [-> _]; apply loop_post_err, Hst.
  destruct Hs as (Hwf1 & Hs & i & Hi & Eu). change (blen rdp_bulk_rdp6_lec_lengths) with 294 in Hs.
  assert (Hf1 : blen (unread_bits r1) < Z.of_nat fuel) by (rewrite Eu, blen_zdrop; lia).
  pose proof (rdp6_wf_cache _ (proj1 Hst)) as Hcache.
  assert (Hnext : forall r' st' out, reader6_wf r' -> blen (unread_bits r') <= blen (unread_bits r1) ->
     grown st st' out -> loop_post st' (decode_loop6 fuel (r', st'))).
  { intros r' st' out Hwf' Hle G. apply IH; [done|by eapply grown_ready|lia]. }
  destruct (Z.ltb_spec s 256).
  { rewrite bind_on_snd. destruct (Z.le_gt_cases 65535 (s6_write_offset st)) as [Hfull|Hroom].
    - unfold rdp_bulk_rdp6_emit. rewrite bind_gets, bind_require. unfold id, RDP_BULK_RDP6_HISTORY_SIZE.
      destruct (Z.leb_spec (65536 - 1) (s6_write_offset st)); [|lia]. apply loop_post_err, Hst.
    - destruct (emit_spec (u8 s) st (proj1 Hst) Hroom) as (st' & -> & G & _); [unfold is_byte, u8; bits_lia|].
      eapply loop_post_grown; [exact G|]. by eapply Hnext; [| |exact G]. }
  destruct (Z.eqb_spec s 256); [apply loop_post_ok, Hst|].
  destruct (Z.leb_spec s 288).
  { destruct (offset_entry (s - 257) ltac:(lia)) as (bits & base & -> & -> & Hbits & Hbase).
    rewrite bind_lift, bind_on_fst. assert (Eb : u8 bits = bits) by (unfold u8; bits_lia). rewrite Eb.
    pose proof (consumes_reader_read bits ltac:(lia) r1 Hwf1) as Hx.
    destruct (rdp_bulk_rdp6_reader_read bits r1) as [[extra|e|] r2]; [| |done].
    2: destruct Hx as [-> _]; apply loop_post_err, Hst.
    destruct Hx as (Hwf2 & _ & j & Hj & Eu2). rewrite bind_lift.
    set (off := u32 (u32 (base + extra) - 1)).
    destruct (push_offset_spec off _ Hcache) as [Ep Hc']; [unfold off, is_u32, u32; bits_lia|].
    eapply loop_match6_safe; [done|done|exact Ep|exact Hc'|].
    intros r' st' out Hwf' Hle. apply Hnext; [done|]. rewrite Eu2, blen_zdrop in Hle by lia. lia. }
  destruct (Z.leb_spec s 292); [|apply loop_post_err, Hst].
  destruct (touch_offset_spec (s - 289) _ Hcache ltac:(lia)) as (old & cache' & -> & _ & Et & Hc' & _).
  rewrite bind_lift. eapply loop_match6_safe; [done|done|exact Et|exact Hc'|]. exact Hnext.
Qed.

(** ** A whole packet *)

Lemma blen_stream_bits d : blen (stream_bits d) = 8 * blen d.
Proof.
  unfold stream_bits. induction d as [|b d IH]; [done|]. cbn [mbind list_bind].
  rewrite blen_app, blen_cons, IH, blen_lsb_bits. lia.
Qed.

Lemma lsb_bits_byte b v (n : nat) : is_byte b -> lsb_bits (8 + n) (b + v * 0x100) = lsb_bits 8 b ++ lsb_bits n v.
Proof.
  unfold is_byte. intros Hb. rewrite lsb_bits_app. change (2 ^ Z.of_nat 8) with 256. f_equal.
  - rewrite <- (lsb_bits_mod 8 8 (b + v * 256)) by lia. change (2 ^ Z.of_nat 8) with 256.
    rewrite Z_mod_plus_full. by rewrite Z.mod_small.
  - rewrite Z.div_add, Z.div_small by lia. done.
Qed.

Lemma reader_init_spec d :
  bytes d ->
  rdp_bulk_rdp6_reader_init d = Err LIBRDP_STATUS_PROTOCOL_ERROR /\ blen d < 4 \/
  4 <= blen d /\ exists r, rdp_bulk_rdp6_reader_init d = Ok r /\ reader6_wf r /\ unread_bits r = stream_bits d.
Proof.
  intros Hd. unfold rdp_bulk_rdp6_reader_init. rewrite ensure_bind.
  destruct (Z.ltb_spec (blen d) 4); [by left|right]. cbn [negb]. split; [done|].
  destruct d as [|b0 [|b1 [|b2 [|b3 d]]]]; try (exfalso; clear Hd; zlen; fail).
  rewrite !Forall_cons_iff in Hd. destruct Hd as (H0 & H1 & H2 & H3 & Hd).
  rewrite (rd_lookup _ 0 b0), (rd_lookup _ 1 b1), (rd_lookup _ 2 b2), (rd_lookup _ 3 b3) by done.
  eexists. split; [reflexivity|]. change (zdrop 4 (b0 :: b1 :: b2 :: b3 :: d)) with d.
  rewrite val32_arith by done.
  split; [unfold is_byte in *; split; cbn [r6_bit_count r6_bits r6_data]; [lia|lia|done]|].
  rewrite unread6_eq. cbn [r6_bit_count r6_bits r6_data]. change (Z.to_nat 32) with (8 + (8 + (8 + (8 + 0))))%nat.
  replace (b0 + b1 * 256 + b2 * 65536 + b3 * 16777216) with (b0 + (b1 + (b2 + (b3 + 0 * 256) * 256) * 256) * 256) by lia.
  rewrite !lsb_bits_byte by done. cbn [lsb_bits]. rewrite app_nil_r, <- !app_assoc. done.
Qed.

Lemma prepare_spec6 st :
  rdp6_wf st -> exists st', rdp_bulk_rdp6_prepare st = (Ok tt, st') /\ rdp6_ready st' /\
    window st' = window st /\ s6_offset_cache st' = s6_offset_cache st.
Proof.
  intros Hwf. unfold rdp_bulk_rdp6_prepare. rewrite bind_gets. unfold id.
  destruct (s6_tables_ready st) eqn:Er; [by exists st|].
  destruct lec_table as (lec & E1 & H1), lom_table as (lom & E2 & H2). rewrite bind_lift, E1, bind_lift, E2.
  clear E1 E2. eexists. split; [reflexivity|]. split; [|done]. split; [|done]. destruct Hwf as [Hh Hb Ho Hc _]. by split.
Qed.

#[local] Transparent zeros6 zeros_half.
Lemma blen_zeros6 : blen zeros6 = RDP_BULK_RDP6_HISTORY_SIZE.
Proof. unfold zeros6. rewrite blen_replicate. apply Z2Nat.id. by unfold RDP_BULK_RDP6_HISTORY_SIZE. Qed.
Lemma bytes_zeros6 : bytes zeros6.
Proof. unfold zeros6. generalize (Z.to_nat RDP_BULK_RDP6_HISTORY_SIZE). intros n. apply Forall_replicate. by unfold is_byte. Qed.
Lemma blen_zeros_half : blen zeros_half = 32768.
Proof. unfold zeros_half. rewrite blen_replicate. by apply Z2Nat.id. Qed.
Lemma bytes_zeros_half : bytes zeros_half.
Proof. unfold zeros_half. generalize (Z.to_nat 32768). intros n. apply Forall_replicate. by unfold is_byte. Qed.
#[local] Opaque zeros6 zeros_half.

Lemma reset_ready c st :
  rdp6_ready st -> let st' := rdp_bulk_rdp6_state_reset c st in
  rdp6_ready st' /\ window st' = [] /\ s6_offset_cache st' = [0; 0; 0; 0].
Proof.
  intros [[Hh Hb Ho Hc Ht] Hr] st'. split; [split; [split; cbn|done]|done].
  - destruct c; [apply blen_zeros6|done].
  - destruct c; [apply bytes_zeros6|done].
  - unfold RDP_BULK_RDP6_HISTORY_SIZE. lia.
  - split; [done|]. repeat (apply Forall_cons_2; [done|]). by apply Forall_nil_2.
  - done.
Qed.

(** The block after [memmove] and [memset]. *)
Lemma move_front_cells (h z : list Z) w n :
  0 < n < w -> w <= blen h -> blen h = n + n -> blen z = n ->
  exists recent h1, slice h (w - n) n = Ok recent /\ write_at h 0 recent = Ok h1 /\
    write_at h1 n z = Ok (recent ++ z) /\ recent = zdrop (w - n) (ztake w h) /\ blen recent = n.
Proof.
  intros Hn Hw Hh Hz. set (recent := ztake n (zdrop (w - n) h)).
  assert (Hrec : blen recent = n).
  { unfold recent. rewrite blen_ztake; [done|]. rewrite blen_zdrop by lia. lia. }
  exists recent, (recent ++ zdrop n h). split; [by apply slice_ok; lia|].
  assert (Hl : blen (recent ++ zdrop n h) = n + n) by (rewrite blen_app, blen_zdrop; lia).
  split; [rewrite write_at_ok by lia; rewrite Hrec; done|]. split; [|split; [|done]].
  - rewrite write_at_ok by lia. pose proof (ztake_app_blen recent (zdrop n h)) as Et. rewrite Hrec in Et.
    rewrite Et, Hz. assert (En : zdrop (n + n) (recent ++ zdrop n h) = []) by (apply drop_ge; unfold blen in Hl; lia).
    by rewrite En, app_nil_r.
  - unfold recent, ztake, zdrop. rewrite take_drop_commute. do 2 f_equal. lia.
Qed.

Lemma move_front_spec st :
  rdp6_ready st ->
  (blen (window st) <= 32768 /\ rdp_bulk_rdp6_move_front st = (Err LIBRDP_STATUS_PROTOCOL_ERROR, st)) \/
  (32768 < blen (window st) /\ exists st', rdp_bulk_rdp6_move_front st = (Ok tt, st') /\ rdp6_ready st' /\
     window st' = zdrop (blen (window st) - 32768) (window st) /\ s6_offset_cache st' = s6_offset_cache st).
Proof.
  intros [Hwf Hr]. rewrite blen_window6 by done. pose proof Hwf as [Hh Hb Ho Hc Ht].
  unfold RDP_BULK_RDP6_HISTORY_SIZE in *.
  unfold rdp_bulk_rdp6_move_front. rewrite bind_gets, bind_require. unfold id.
  destruct (Z.leb_spec (s6_write_offset st) 32768); [by left|right]. cbn [negb]. split; [done|].
  destruct (move_front_cells (s6_history st) zeros_half (s6_write_offset st) 32768)
    as (recent & h1 & -> & E1 & E2 & Er & Hrec); [lia|lia|lia|apply blen_zeros_half|].
  rewrite bind_lift, E1, bind_lift, E2, bind_lift. clear E1 E2.
  exists (set_output6 (recent ++ zeros_half) 32768 st). split; [done|]. split; [split; [split|exact Hr]|split; [|done]].
  - cbn [set_output6 s6_history]. rewrite blen_app, Hrec, blen_zeros_half. done.
  - apply Forall_app_2; [rewrite Er; by apply Forall_zdrop, Forall_ztake|]. apply bytes_zeros_half.
  - cbn [set_output6 s6_write_offset]. unfold RDP_BULK_RDP6_HISTORY_SIZE. lia.
  - exact Hc.
  - exact Ht.
  - unfold window. cbn [hist_cells hist_offset rdp6_history set_output6 s6_history s6_write_offset].
    rewrite <- Er. rewrite <- Hrec at 1. apply ztake_app_blen.
Qed.

(** The window and the cache a packet starts from; [None] when the packet asks
    for the recent half of a window that is not longer than that. *)
Definition packet_start (flags : Z) (win cache : list Z) : option (list Z * list Z) :=
  if has_flag flags RDP_BULK_PACKET_AT_FRONT && (blen win <=? 32768) then None
  else if has_flag flags RDP_BULK_PACKET_FLUSHED then Some ([], [0; 0; 0; 0])
  else if has_flag flags RDP_BULK_PACKET_AT_FRONT then Some (zdrop (blen win - 32768) win, cache)
  else Some (win, cache).

(** The outcome of a packet that starts from [win] and [cache]. *)
Definition packet_post6 (flags : Z) (d win cache : list Z) (b : rdp_buffer) (r : res unit)
    (st' : rdp_bulk_rdp6_state) (b' : rdp_buffer) : Prop :=
  match r with
  | Ok _ => exists out, contents b' = contents b ++ out /\
      if has_flag flags RDP_BULK_PACKET_COMPRESSED then window st' = win ++ out
      else out = d /\ window st' = win /\ s6_offset_cache st' = cache
  | Err e => contents b' = contents b /\
      (e = LIBRDP_STATUS_NO_MEMORY /\
         (if has_flag flags RDP_BULK_PACKET_COMPRESSED then exists out, window st' = win ++ out
          else window st' = win /\ s6_offset_cache st' = cache) \/
       e = LIBRDP_STATUS_PROTOCOL_ERROR /\ window st' = win /\ s6_offset_cache st' = cache)
  | Fault => False
  end.

(** The part of the function after the state has been prepared. *)
Definition decode_packet6 (flags : Z) (d : list Z) : M (rdp_bulk_rdp6_state * wstate) unit :=
  if negb (has_flag flags RDP_BULK_PACKET_COMPRESSED) then on_snd (rdp_buffer_append (View d)) else
  reader ← lift (rdp_bulk_rdp6_reader_init d);
  start ← gets (fun s => s6_write_offset s.1);
  saved_cache ← gets (fun s => s6_offset_cache s.1);
  on_fst (restore6 start saved_cache (with_reader reader (decode_loop6 (S (8 * length d)))));;
  st ← gets fst;
  out ← lift (slice (s6_history st) start (s6_write_offset st - start));
  on_snd (rdp_buffer_append (View out)).

Lemma restore6_wf st st' out cache :
  rdp6_wf st -> grown st st' out -> cache_ok cache ->
  let st2 := set_cache6 cache (set_output6 (s6_history st') (s6_write_offset st) st') in
  rdp6_wf st2 /\ window st2 = window st /\ s6_offset_cache st2 = cache.
Proof.
  intros Hwf G Hc st2. split; [|split; [exact (@grown_restored _ _ rdp6_history st st' out Hwf G)|done]].
  destruct G as [[Hh Hb Ho _ Ht] _ _]. split; cbn; [done|done|apply Hwf|done|done].
Qed.

Lemma decode_packet6_spec flags d st b h :
  rdp6_ready st -> buffer_wf b -> bytes d ->
  exists r st' b' h', decode_packet6 flags d (st, (b, h)) = (r, (st', (b', h'))) /\
    rdp6_wf st' /\ buffer_wf b' /\ packet_post6 flags d (window st) (s6_offset_cache st) b r st' b'.
Proof.
  intros Hst Hb Hd. pose proof (proj1 Hst) as Hwf. unfold decode_packet6, packet_post6.
  destruct (has_flag _ _); cbn [negb].
  2: { destruct (append_spec st d b h Hb) as (r & b' & h' & E & Hwf' & Hr & _). exists r, st, b', h'.
       split; [done|]. split; [done|]. split; [done|]. destruct Hr as [[-> Hc]|[-> Hc]]; [by eauto 6|by auto]. }
  destruct (reader_init_spec d Hd) as [[-> _]|(_ & rd & -> & Hrd & Hu)]; rewrite bind_lift.
  { exists (Err LIBRDP_STATUS_PROTOCOL_ERROR), st, b, h. split_and!; try done. by right. }
  rewrite !bind_gets. cbn [fst]. rewrite bind_on_fst. unfold restore6, with_reader.
  destruct (decode_loop6_safe (S (8 * length d)) rd st Hrd Hst) as [Hp [out G]].
  { rewrite Hu, blen_stream_bits. unfold blen. lia. }
  destruct (decode_loop6 _ _) as [r [rd' st']]. cbn [fst snd] in Hp, G. destruct r as [[]|e|]; [| |done].
  - pose proof (@grown_slice _ _ rdp6_history st st' out Hwf G) as Es.
    cbn [hist_cells hist_offset rdp6_history] in Es. rewrite bind_gets. cbn [fst]. rewrite Es, bind_lift.
    destruct (append_spec st' out b h Hb) as (r & b' & h' & E & Hwf' & Hr & _). exists r, st', b', h'.
    split; [done|]. destruct G as [G1 _ G3]. split; [done|]. split; [done|].
    destruct Hr as [[-> Hc]|[-> Hc]]; [by eauto|by eauto 6].
  - subst e. destruct (restore6_wf st st' out (s6_offset_cache st) Hwf G (rdp6_wf_cache _ Hwf)) as (H1 & H2 & H3).
    eexists _, _, b, h. split; [done|]. split; [exact H1|]. split; [done|]. split; [done|]. by right.
Qed.

(** The setup of a packet, up to the decoding. *)
Lemma prepare_packet6 flags st (k : M (rdp_bulk_rdp6_state * wstate) unit) w :
  rdp6_wf st ->
  match packet_start flags (window st) (s6_offset_cache st) with
  | Some (win, cache) => exists st', rdp6_ready st' /\ window st' = win /\ s6_offset_cache st' = cache /\
      (on_fst rdp_bulk_rdp6_prepare;;
       (if has_flag flags RDP_BULK_PACKET_AT_FRONT then on_fst rdp_bulk_rdp6_move_front else mret tt);;
       (if has_flag flags RDP_BULK_PACKET_FLUSHED
        then on_fst (modify (rdp_bulk_rdp6_state_reset true)) else mret tt);; k) (st, w) = k (st', w)
  | None => exists st', rdp6_wf st' /\ window st' = window st /\ s6_offset_cache st' = s6_offset_cache st /\
      (on_fst rdp_bulk_rdp6_prepare;;
       (if has_flag flags RDP_BULK_PACKET_AT_FRONT then on_fst rdp_bulk_rdp6_move_front else mret tt);;
       (if has_flag flags RDP_BULK_PACKET_FLUSHED
        then on_fst (modify (rdp_bulk_rdp6_state_reset true)) else mret tt);; k) (st, w) =
      (Err LIBRDP_STATUS_PROTOCOL_ERROR, (st', w))
  end.
Proof.
  intros Hwf. destruct (prepare_spec6 st Hwf) as (st1 & E1 & Hr1 & W1 & C1). unfold packet_start.
  rewrite bind_on_fst, E1, <- W1, <- C1.
  assert (Hflush : forall st2, rdp6_ready st2 -> exists st', rdp6_ready st' /\
    (window st', s6_offset_cache st') =
      (if has_flag flags RDP_BULK_PACKET_FLUSHED then ([], [0; 0; 0; 0]) else (window st2, s6_offset_cache st2)) /\
    ((if has_flag flags RDP_BULK_PACKET_FLUSHED
        then on_fst (modify (rdp_bulk_rdp6_state_reset true)) else mret tt);; k) (st2, w) = k (st', w)).
  { intros st2 Hr2. destruct (has_flag flags RDP_BULK_PACKET_FLUSHED); [|by exists st2].
    destruct (reset_ready true st2 Hr2) as (H1 & H2 & H3). eexists. split; [exact H1|]. by rewrite H2, H3. }
  destruct (has_flag flags RDP_BULK_PACKET_AT_FRONT); cbn [andb].
  - rewrite bind_on_fst. destruct (move_front_spec st1 Hr1) as [[Hle ->]|(Hlt & st2 & -> & Hr2 & W2 & C2)].
    + destruct (Z.leb_spec (blen (window st1)) 32768); [|lia]. exists st1. split; [apply Hr1|done].
    + destruct (Z.leb_spec (blen (window st1)) 32768); [lia|].
      destruct (Hflush st2 Hr2) as (st' & Hr' & Ew & Ek).
      destruct (has_flag flags RDP_BULK_PACKET_FLUSHED); injection Ew as Ew Ec;
        exists st'; split_and!; try done; congruence.
  - destruct (Hflush st1 Hr1) as (st' & Hr' & Ew & Ek).
    destruct (has_flag flags RDP_BULK_PACKET_FLUSHED); injection Ew as Ew Ec; exists st'; split_and!; done.
Qed.

Lemma state_init_wf6 : rdp6_wf rdp_bulk_rdp6_state_init.
Proof.
  split; cbn; [apply blen_zeros6|apply bytes_zeros6|by unfold RDP_BULK_RDP6_HISTORY_SIZE| |done].
  split; [done|]. repeat (apply Forall_cons_2; [done|]). by apply Forall_nil_2.
Qed.
Lemma state_reset_wf6 c st : rdp6_wf st -> rdp6_wf (rdp_bulk_rdp6_state_reset c st).
Proof.
  intros [Hh Hb Ho Hc Ht]. split; cbn.
  - destruct c; [apply blen_zeros6|done].
  - destruct c; [apply bytes_zeros6|done].
  - by unfold RDP_BULK_RDP6_HISTORY_SIZE.
  - split; [done|]. repeat (apply Forall_cons_2; [done|]). by apply Forall_nil_2.
  - done.
Qed.

(** A packet, from any state that satisfies the invariant. *)
Lemma rdp6_step flags d st b h :
  rdp6_wf st -> buffer_wf b -> bytes d ->
  exists r st' b' h',
    rdp_bulk_rdp6_decode flags (View d) (st, (b, h)) = (r, (st', (b', h'))) /\
    rdp6_wf st' /\ buffer_wf b' /\
    match packet_start flags (window st) (s6_offset_cache st) with
    | Some (win, cache) => packet_post6 flags d win cache b r st' b'
    | None => r = Err LIBRDP_STATUS_PROTOCOL_ERROR /\ b' = b /\ window st' = window st /\
        s6_offset_cache st' = s6_offset_cache st
    end.
Proof.
  intros Hwf Hb Hd.
  pose proof (prepare_packet6 flags st (decode_packet6 flags d) (b, h) Hwf) as Hp.
  destruct (packet_start _ _ _) as [[win cache]|].
  - destruct Hp as (st1 & Hr1 & <- & <- & E).
    destruct (decode_packet6_spec flags d st1 b h Hr1 Hb Hd) as (r & st' & b' & h' & E' & H1 & H2 & H3).
    exists r, st', b', h'. split; [exact (eq_trans E E')|done].
  - destruct Hp as (st1 & Hwf1 & W1 & C1 & E). eexists _, st1, b, h. split; [exact E|]. done.
Qed.

(** C34: the state of the RDP 6.0 decompressor: for any packet, from any state
    that satisfies its invariant (a fresh and a reset one do), the call has no
    undefined behaviour, ends within its fuel and re-establishes the invariant.
    A packet starts from the window and the cache of offsets there were, from the
    recent half of that window, or from empty ones, as its flags say; one that
    asks for the recent half of a window not longer than that is refused and
    leaves the output, the window and the cache as they were. A compressed packet
    that is accepted appends to the output exactly the bytes it appends to the
    window; a packet without the flag is appended to the output as it is and
    leaves the window and the cache it started from; a malformed packet leaves
    the output alone, and the window and the cache it started from; and want of
    memory leaves the output alone, while a compressed packet's bytes may stay in
    the window. *)
Theorem rdp6_decode_invariant flags d st b h clear :
  rdp6_wf st -> buffer_wf b -> bytes d ->
  (rdp6_wf rdp_bulk_rdp6_state_init /\ rdp6_wf (rdp_bulk_rdp6_state_reset clear st)) /\
  exists r st' b' h',
    rdp_bulk_rdp6_decode flags (View d) (st, (b, h)) = (r, (st', (b', h'))) /\
    rdp6_wf st' /\ buffer_wf b' /\
    match packet_start flags (window st) (s6_offset_cache st) with
    | Some (win, cache) => packet_post6 flags d win cache b r st' b'
    | None => r = Err LIBRDP_STATUS_PROTOCOL_ERROR /\ b' = b /\ window st' = window st /\
        s6_offset_cache st' = s6_offset_cache st
    end.
Proof.
  intros Hwf Hb Hd. split; [by split; [apply state_init_wf6|apply state_reset_wf6]|by apply rdp6_step].
Qed.

(** ** The code of a token list *)

Inductive token6 : Set :=
| Literal6 (b : Z)
| Far (index extra symbol lextra : Z)      (** an explicit offset *)
| Recent (index symbol lextra : Z).        (** an offset from the cache *)

Definition entry (l : list Z) (i : Z) : Z := default 0 (l !! Z.to_nat i).
Definition far_offset (index extra : Z) : Z := entry rdp_bulk_rdp6_copy_offset_base index + extra - 1.
Definition match_len (symbol lextra : Z) : Z := entry rdp_bulk_rdp6_lom_base symbol + lextra.

(** The meaning of a token: the window and the cache after it. *)
Definition lz6_step (s : list Z * list Z) (t : token6) : list Z * list Z :=
  let '(win, cache) := s in
  match t with
  | Literal6 b => (win ++ [b], cache)
  | Far index extra symbol lextra =>
      let off := far_offset index extra in
      (lz_copy (Z.to_nat (match_len symbol lextra)) off win, off :: take 3 cache)
  | Recent index symbol lextra =>
      let old := entry cache index in
      (lz_copy (Z.to_nat (match_len symbol lextra)) old win,
       <[0%nat := old]> (<[Z.to_nat index := entry cache 0]> cache))
  end.
Definition lz6_run (s : list Z * list Z) (ts : list token6) : list Z * list Z := foldl lz6_step s ts.

Definition length_ok (win : list Z) (off symbol lextra : Z) : Prop :=
  0 <= symbol < 30 /\ 0 <= lextra < 2 ^ entry rdp_bulk_rdp6_lom_bits symbol /\
  1 <= off <= blen win /\ blen win + match_len symbol lextra <= 65535.
Definition token6_ok (s : list Z * list Z) (t : token6) : Prop :=
  match t with
  | Literal6 b => is_byte b /\ blen s.1 < 65535
  | Far index extra symbol lextra =>
      0 <= index < 32 /\ 0 <= extra < 2 ^ entry rdp_bulk_rdp6_copy_offset_bits index /\
      length_ok s.1 (far_offset index extra) symbol lextra
  | Recent index symbol lextra => 0 <= index < 4 /\ length_ok s.1 (entry s.2 index) symbol lextra
  end.
Fixpoint tokens6_ok (s : list Z * list Z) (ts : list token6) : Prop :=
  match ts with
  | [] => True
  | t :: ts => token6_ok s t /\ tokens6_ok (lz6_step s t) ts
  end.

(** The canonical code of symbol [s], in stream order. *)
Definition code_bits (ls : list Z) (s : Z) : list bool :=
  to_bits (Z.to_nat (entry ls s)) (canonical ls (Z.to_nat s)).
Definition extra_bits_enc (bits v : Z) : list bool := lsb_bits (Z.to_nat bits) v.
Definition length_enc6 (symbol lextra : Z) : list bool :=
  code_bits rdp_bulk_rdp6_lom_lengths symbol ++ extra_bits_enc (entry rdp_bulk_rdp6_lom_bits symbol) lextra.
Definition token6_enc (t : token6) : list bool :=
  match t with
  | Literal6 b => code_bits rdp_bulk_rdp6_lec_lengths b
  | Far index extra symbol lextra =>
      code_bits rdp_bulk_rdp6_lec_lengths (257 + index) ++
      extra_bits_enc (entry rdp_bulk_rdp6_copy_offset_bits index) extra ++ length_enc6 symbol lextra
  | Recent index symbol lextra =>
      code_bits rdp_bulk_rdp6_lec_lengths (289 + index) ++ length_enc6 symbol lextra
  end.
(** A packet ends with symbol 256, whatever follows. *)
Definition end_enc : list bool := code_bits rdp_bulk_rdp6_lec_lengths 256.
Definition tokens6_enc (ts : list token6) : list bool := (ts ≫= token6_enc) ++ end_enc.

Lemma entry_lookup ls s : 0 <= s < blen ls -> ls !! Z.to_nat s = Some (entry ls s).
Proof.
  intros Hs. unfold entry. destruct (ls !! Z.to_nat s) eqn:E; [done|].
  apply lookup_ge_None in E. unfold blen in Hs. lia.
Qed.
Lemma rd_entry ls s : 0 <= s < blen ls -> rd ls s = Ok (entry ls s).
Proof. intros Hs. apply rd_lookup; [lia|by apply entry_lookup]. Qed.

Lemma parses_code tb ls t s rest :
  1 <= tb < 16 -> Forall (fun l => 1 <= l <= tb) ls -> canonical_table tb ls t ->
  0 <= s < blen ls -> tb <= blen rest ->
  BitParses (rdp_bulk_rdp6_decode_symbol t tb) (code_bits ls s ++ rest) rest s.
Proof.
  intros Htb HF Ht Hs Hr. pose proof (entry_lookup ls s Hs) as E.
  pose proof (Forall_lookup_1 _ _ _ _ HF E) as Hl. cbn beta in Hl.
  pose proof (parses_symbol tb ls t Htb HF Ht (Z.to_nat s) _ rest E ltac:(lia)) as H.
  rewrite Z2Nat.id in H by lia. exact H.
Qed.
(** The last symbol may be at the very end: its code has the length of an index. *)
Lemma parses_end t pad :
  lec_ready t -> BitParses (rdp_bulk_rdp6_decode_symbol t 13) (end_enc ++ pad) pad 256.
Proof.
  intros Ht. pose proof (blen_nonneg pad).
  exact (parses_symbol 13 _ t ltac:(lia) lec_lengths_ok Ht 256 13 pad eq_refl ltac:(lia)).
Qed.

Lemma match_length_parsed t symbol lextra rest :
  lom_ready t -> 0 <= symbol < 30 -> 0 <= lextra < 2 ^ entry rdp_bulk_rdp6_lom_bits symbol -> 13 <= blen rest ->
  BitParses (rdp_bulk_rdp6_read_match_length t) (length_enc6 symbol lextra ++ rest) rest (match_len symbol lextra).
Proof.
  intros Ht Hs Hx Hr. destruct (lom_entry symbol Hs) as (bits & base & E1 & E2 & Hbits & Hbase).
  pose proof E1 as E1'. rewrite rd_entry in E1' by exact Hs. injection E1' as E1'.
  pose proof E2 as E2'. rewrite rd_entry in E2' by exact Hs. injection E2' as E2'.
  unfold match_len, length_enc6, extra_bits_enc. rewrite E1' in *. rewrite E2', <- app_assoc.
  assert (Hp : 2 ^ bits <= 2 ^ 14) by (apply Z.pow_le_mono_r; lia).
  eapply (bitparses_bind _ _ _ (lsb_bits (Z.to_nat bits) lextra ++ rest)).
  - apply (parses_code 9); [lia|apply lom_lengths_ok|done| |rewrite blen_app; zlen].
    change (blen rdp_bulk_rdp6_lom_lengths) with 32. lia.
  - apply bitparses_require; [change (blen rdp_bulk_rdp6_lom_bits) with 30; lia|].
    rewrite E1, E2. assert (Eb : u8 bits = bits) by (unfold u8; bits_lia).
    intros r Hwf Hu. rewrite bind_lift, Eb.
    destruct (parses_reader_read bits lextra rest ltac:(lia) Hx r Hwf Hu) as (r' & E & Hwf' & Hu').
    exists r'. rewrite (bind_ok _ _ _ _ _ E), bind_lift. split; [|done].
    unfold mret, M_ret, u32. by rewrite Z.mod_small by lia.
Qed.

Lemma blen_suffix {A} n (l1 l2 : list A) : n <= blen l2 -> n <= blen (l1 ++ l2).
Proof. rewrite blen_app. pose proof (blen_nonneg l1). lia. Qed.

Lemma loop_match6_lz r st off f cache symbol lextra rest (k : decoder6 unit) :
  reader6_wf r -> rdp6_ready st -> f (s6_offset_cache st) = Ok cache -> cache_ok cache ->
  length_ok (window st) off symbol lextra -> unread_bits r = length_enc6 symbol lextra ++ rest ->
  13 <= blen rest ->
  exists r' st' out, reader6_wf r' /\ unread_bits r' = rest /\ grown st st' out /\
    window st' = lz_copy (Z.to_nat (match_len symbol lextra)) off (window st) /\
    s6_offset_cache st' = cache /\
    ((match_length ← on_fst (rdp_bulk_rdp6_read_match_length (s6_match_length st));
      on_snd (on_cache f);; on_snd (rdp_bulk_rdp6_copy off match_length);; k) (r, st)) = k (r', st').
Proof.
  intros Hwf Hst Ef Hc (Hs & Hx & Hoff & Hfit) Hu Hr.
  destruct (match_length_parsed _ symbol lextra rest (proj2 (ready_tables st Hst)) Hs Hx Hr r Hwf Hu)
    as (r' & E & Hwf' & Hu').
  assert (H2 : 2 <= match_len symbol lextra).
  { destruct (lom_entry symbol Hs) as (bits & base & _ & E2 & _ & Hbase).
    rewrite rd_entry in E2 by exact Hs. injection E2 as E2. unfold match_len. lia. }
  pose proof (set_cache_grown cache st (proj1 Hst) Hc) as G0. pose proof G0 as [Hwf0 _ _]. cbn in Hwf0.
  destruct (copy6_spec off (match_len symbol lextra) (set_cache6 cache st) Hwf0 ltac:(lia)) as [_ Hcopy].
  destruct (Hcopy Hoff H2 Hfit) as (st' & out & Ec & G & C & W).
  exists r', st', ([] ++ out). split; [done|]. split; [done|]. split; [by eapply grown_trans|].
  split; [exact W|]. split; [exact C|]. rewrite bind_on_fst, E, (bind_on_cache _ _ _ _ _ Ef). by rewrite bind_on_snd, Ec.
Qed.

Definition lz6_state (st : rdp_bulk_rdp6_state) : list Z * list Z := (window st, s6_offset_cache st).

(** Decoding the symbol in front of the loop's body. *)
Lemma loop6_symbol r st s rest :
  reader6_wf r -> rdp6_ready st -> 0 <= s < 294 -> 13 <= blen rest ->
  unread_bits r = code_bits rdp_bulk_rdp6_lec_lengths s ++ rest ->
  exists r', rdp_bulk_rdp6_decode_symbol (s6_literal_offset st) RDP_BULK_RDP6_LEC_TABLE_BITS r = (Ok s, r') /\
    reader6_wf r' /\ unread_bits r' = rest.
Proof.
  intros Hwf Hst Hs Hr Hu.
  exact (parses_code 13 _ _ s rest ltac:(lia) lec_lengths_ok (proj1 (ready_tables st Hst)) Hs Hr r Hwf Hu).
Qed.

Lemma decode_loop6_token fuel r st t rest :
  reader6_wf r -> rdp6_ready st -> token6_ok (lz6_state st) t -> 13 <= blen rest ->
  unread_bits r = token6_enc t ++ rest ->
  exists r' st' out, reader6_wf r' /\ unread_bits r' = rest /\ grown st st' out /\
    lz6_state st' = lz6_step (lz6_state st) t /\ decode_loop6 (S fuel) (r, st) = decode_loop6 fuel (r', st').
Proof.
  intros Hwf Hst Ht Hr Hu. pose proof (proj1 Hst) as Hst'. pose proof (rdp6_wf_cache _ Hst') as Hcache.
  cbn [decode_loop6]. rewrite bind_gets. unfold id. rewrite bind_on_fst.
  destruct t as [b|index extra symbol lextra|index symbol lextra]; cbn [token6_enc] in Hu.
  - destruct Ht as [Hb Hroom]. cbn [fst lz6_state] in Hroom. rewrite (blen_window6 st Hst') in Hroom.
    pose proof Hb as Hb'. unfold is_byte in Hb'.
    destruct (loop6_symbol r st b rest Hwf Hst ltac:(lia) Hr Hu) as (r1 & -> & Hwf1 & Hu1).
    destruct (Z.ltb_spec b 256); [|lia]. rewrite bind_on_snd.
    replace (u8 b) with b by (unfold u8; bits_lia).
    destruct (emit_spec b st Hst' Hroom Hb) as (st1 & -> & G & C). exists r1, st1, [b].
    split; [done|]. split; [done|]. split; [done|]. split; [|done]. unfold lz6_state. cbn [lz6_step].
    by rewrite C, (grown_window _ _ _ G).
  - destruct Ht as (Hi & Hx & Hl). cbn [fst lz6_state] in Hl. rewrite <- app_assoc in Hu.
    destruct (offset_entry index Hi) as (bits & base & E1 & E2 & Hbits & Hbase).
    pose proof E1 as E1'. rewrite rd_entry in E1' by exact Hi. injection E1' as E1'.
    pose proof E2 as E2'. rewrite rd_entry in E2' by exact Hi. injection E2' as E2'.
    assert (Hp : 2 ^ bits <= 2 ^ 14) by (apply Z.pow_le_mono_r; lia). rewrite E1' in *.
    rewrite <- app_assoc in Hu.
    assert (Hr1 : 13 <= blen (extra_bits_enc bits extra ++ length_enc6 symbol lextra ++ rest)) by (do 2 apply blen_suffix; exact Hr).
    assert (Hs : 0 <= 257 + index < 294) by lia.
    pose proof (loop6_symbol r st (257 + index) _ Hwf Hst Hs Hr1 Hu) as Hsym.
    destruct Hsym as (r1 & -> & Hwf1 & Hu1).
    destruct (Z.ltb_spec (257 + index) 256), (Z.eqb_spec (257 + index) 256), (Z.leb_spec (257 + index) 288); try lia.
    replace (257 + index - 257) with index by lia. rewrite E1, bind_lift, bind_on_fst.
    assert (Eb : u8 bits = bits) by (unfold u8; bits_lia). rewrite Eb.
    destruct (parses_reader_read bits extra _ ltac:(lia) Hx r1 Hwf1 Hu1) as (r2 & -> & Hwf2 & Hu2).
    rewrite E2, bind_lift. unfold far_offset in Hl. rewrite E2' in Hl.
    assert (Eo : u32 (u32 (base + extra) - 1) = base + extra - 1) 
      by (unfold u32; rewrite (Z.mod_small (base + extra)), Z.mod_small by lia; done).
    rewrite Eo. destruct (push_offset_spec (base + extra - 1) _ Hcache) as [Ep Hc']; [unfold is_u32; lia|].
    destruct (loop_match6_lz r2 st (base + extra - 1) _ _ symbol lextra rest (decode_loop6 fuel)
      Hwf2 Hst Ep Hc' Hl Hu2 Hr) as (r3 & st3 & out & H1 & H2 & H3 & H4 & H5 & ->).
    exists r3, st3, out. split_and!; try done. unfold lz6_state. cbn [lz6_step]. unfold far_offset.
    by rewrite H4, H5, E2'.
  - destruct Ht as (Hi & Hl). cbn [fst snd lz6_state] in Hl. rewrite <- app_assoc in Hu.
    assert (Hr1 : 13 <= blen (length_enc6 symbol lextra ++ rest)) by (apply blen_suffix; exact Hr).
    assert (Hs : 0 <= 289 + index < 294) by lia.
    destruct (loop6_symbol r st (289 + index) _ Hwf Hst Hs Hr1 Hu) as (r1 & -> & Hwf1 & Hu1).
    destruct (Z.ltb_spec (289 + index) 256), (Z.eqb_spec (289 + index) 256), (Z.leb_spec (289 + index) 288),
      (Z.leb_spec (289 + index) 292); try lia.
    replace (289 + index - 289) with index by lia.
    destruct (touch_offset_spec index _ Hcache Hi) as (old & cache' & Eo & _ & Et & Hc' & Ec). rewrite Eo, bind_lift.
    rewrite rd_entry in Eo by (destruct Hcache; lia). injection Eo as Eo. rewrite Eo in Hl.
    destruct (loop_match6_lz r1 st old _ _ symbol lextra rest (decode_loop6 fuel)
      Hwf1 Hst Et Hc' Hl Hu1 Hr) as (r3 & st3 & out & H1' & H2' & H3' & H4' & H5' & ->).
    exists r3, st3, out. split_and!; try done. unfold lz6_state. cbn [lz6_step]. rewrite H4', H5', Eo, Ec. done.
Qed.

Lemma token6_enc_pos s t : token6_ok s t -> 1 <= blen (token6_enc t).
Proof.
  assert (Hcode : forall k l, 0 <= k < 294 -> 1 <= blen (code_bits rdp_bulk_rdp6_lec_lengths k ++ l)).
  { intros k l Hk. rewrite blen_app. unfold code_bits. rewrite blen_to_bits.
    pose proof (Forall_lookup_1 _ _ _ _ lec_lengths_ok (entry_lookup rdp_bulk_rdp6_lec_lengths k Hk)) as Hl.
    cbn beta in Hl. zlen. }
  destruct t as [b|index extra symbol lextra|index symbol lextra]; cbn [token6_enc].
  - intros [Hb _]. rewrite <- (app_nil_r (code_bits _ _)). apply Hcode. unfold is_byte in Hb. lia.
  - intros (Hi & _). apply Hcode. lia.
  - intros (Hi & _). apply Hcode. lia.
Qed.

Lemma decode_loop6_lz ts fuel r st pad :
  reader6_wf r -> rdp6_ready st -> tokens6_ok (lz6_state st) ts ->
  unread_bits r = tokens6_enc ts ++ pad -> blen (unread_bits r) < Z.of_nat fuel ->
  exists r' st' out, decode_loop6 fuel (r, st) = (Ok tt, (r', st')) /\ grown st st' out /\
    lz6_state st' = lz6_run (lz6_state st) ts.
Proof.
  intros Hwf Hst Hts Hu Hf. revert fuel r st Hwf Hst Hts Hu Hf.
  induction ts as [|t ts IH]; intros [|fuel] r st Hwf Hst Hts Hu Hf;
    try (pose proof (blen_nonneg (unread_bits r)); lia).
  - destruct (parses_end (s6_literal_offset st) pad (proj1 (ready_tables st Hst)) r Hwf Hu) as (r1 & E & Hwf1 & _).
    exists r1, st, []. cbn [decode_loop6]. rewrite bind_gets. unfold id. rewrite bind_on_fst.
    unfold RDP_BULK_RDP6_LEC_TABLE_BITS. rewrite E. cbn [Z.ltb Z.compare Pos.compare Pos.compare_cont Z.eqb Pos.eqb].
    split; [done|]. split; [apply grown_refl, Hst|done].
  - destruct Hts as [Ht Hts]. unfold tokens6_enc in Hu. cbn [mbind list_bind] in Hu. rewrite <- !app_assoc in Hu.
    assert (Hr : 13 <= blen ((ts ≫= token6_enc) ++ end_enc ++ pad)).
    { apply blen_suffix. rewrite blen_app. change (blen end_enc) with 13. pose proof (blen_nonneg pad). lia. }
    destruct (decode_loop6_token fuel r st t _ Hwf Hst Ht Hr Hu) as (r1 & st1 & o1 & Hwf1 & Hu1 & G1 & E1 & ->).
    pose proof (token6_enc_pos _ _ Ht) as Hpos. rewrite Hu, blen_app, <- Hu1 in Hf. rewrite <- E1 in Hts.
    destruct (IH fuel r1 st1 Hwf1 (grown_ready _ _ _ Hst G1) Hts) as (r2 & st2 & o2 & E2 & G2 & W2).
    { rewrite Hu1. unfold tokens6_enc. by rewrite <- app_assoc. }
    { lia. }
    exists r2, st2, (o1 ++ o2). split; [done|]. split; [by eapply grown_trans|]. by rewrite W2, E1.
Qed.

Lemma decode_packet6_lz flags ts pad d st b h :
  rdp6_ready st -> buffer_wf b -> bytes d -> 4 <= blen d ->
  has_flag flags RDP_BULK_PACKET_COMPRESSED = true -> tokens6_ok (lz6_state st) ts ->
  stream_bits d = tokens6_enc ts ++ pad ->
  exists r st' b' h' out, decode_packet6 flags d (st, (b, h)) = (r, (st', (b', h'))) /\
    buffer_wf b' /\ grown st st' out /\ lz6_state st' = lz6_run (lz6_state st) ts /\
    (r = Ok tt /\ contents b' = contents b ++ out \/
     r = Err LIBRDP_STATUS_NO_MEMORY /\ contents b' = contents b) /\
    (h = [] -> b_length b + blen out <= 2 ^ 63 -> r = Ok tt /\ h' = []).
Proof.
  intros Hst Hb Hd H4 Hf Hts Hu. pose proof (proj1 Hst) as Hwf.
  destruct (reader_init_spec d Hd) as [[_ Hlt]|(_ & rd & Er & Hrd & Hrdu)]; [lia|]. rewrite Hu in Hrdu.
  destruct (decode_loop6_lz ts (S (8 * length d)) rd st pad Hrd Hst Hts Hrdu) as (rd' & st1 & out & E & G & W).
  { rewrite Hrdu, <- Hu, blen_stream_bits. unfold blen. lia. }
  pose proof (@grown_slice _ _ rdp6_history st st1 out Hwf G) as Es. cbn [hist_cells hist_offset rdp6_history] in Es.
  destruct (append_spec st1 out b h Hb) as (r & b' & h' & Ea & Hwf' & Hr & Hok).
  exists r, st1, b', h', out. split; [|done]. unfold decode_packet6. rewrite Hf. cbn [negb].
  rewrite Er, bind_lift, !bind_gets. cbn [fst]. rewrite bind_on_fst. unfold restore6, with_reader. rewrite E.
  rewrite bind_gets. cbn [fst]. by rewrite Es, bind_lift.
Qed.

Lemma decode_packet6_short flags d st b h :
  bytes d -> blen d < 4 -> has_flag flags RDP_BULK_PACKET_COMPRESSED = true ->
  decode_packet6 flags d (st, (b, h)) = (Err LIBRDP_STATUS_PROTOCOL_ERROR, (st, (b, h))).
Proof.
  intros Hd H4 Hf. unfold decode_packet6. rewrite Hf. cbn [negb].
  destruct (reader_init_spec d Hd) as [[-> _]|[Hge _]]; [by rewrite bind_lift|lia].
Qed.

(** C13: RDP 6.0 decompression is LZ77 over canonical Huffman codes: a compressed
    packet of at least four bytes whose bits are the codes of a list of tokens
    that fits the window it starts from, followed by the end symbol and by
    anything, appends to the output exactly the bytes the tokens stand for,
    whether their offsets are explicit or taken from the cache, and leaves the
    window and the cache as the tokens do; only want of memory can make the call
    fail. A shorter packet is refused with PROTOCOL_ERROR even when its bits are
    such codes, and changes neither the output nor the window and the cache it
    started from. (A packet that asks for the recent half of a window not longer
    than that has no window to start from.) *)
Theorem rdp6_lz77 flags ts pad d st b h win cache :
  rdp6_wf st -> buffer_wf b -> bytes d ->
  has_flag flags RDP_BULK_PACKET_COMPRESSED = true ->
  packet_start flags (window st) (s6_offset_cache st) = Some (win, cache) ->
  tokens6_ok (win, cache) ts -> stream_bits d = tokens6_enc ts ++ pad ->
  exists r st' b' h',
    rdp_bulk_rdp6_decode flags (View d) (st, (b, h)) = (r, (st', (b', h'))) /\
    rdp6_wf st' /\ buffer_wf b' /\
    if blen d <? 4
    then r = Err LIBRDP_STATUS_PROTOCOL_ERROR /\ b' = b /\ h' = h /\ window st' = win /\ s6_offset_cache st' = cache
    else exists out,
      (lz6_run (win, cache) ts).1 = win ++ out /\ (window st', s6_offset_cache st') = lz6_run (win, cache) ts /\
      (r = Ok tt /\ contents b' = contents b ++ out \/
       r = Err LIBRDP_STATUS_NO_MEMORY /\ contents b' = contents b) /\
      (h = [] -> b_length b + blen out <= 2 ^ 63 -> r = Ok tt /\ h' = []).
Proof.
  intros Hwf Hb Hd Hf Hstart Hts Hu.
  pose proof (prepare_packet6 flags st (decode_packet6 flags d) (b, h) Hwf) as Hp. rewrite Hstart in Hp.
  destruct Hp as (st1 & Hr1 & <- & <- & E). destruct (Z.ltb_spec (blen d) 4) as [H4|H4].
  - exists (Err LIBRDP_STATUS_PROTOCOL_ERROR), st1, b, h.
    split; [exact (eq_trans E (decode_packet6_short flags d st1 b h Hd H4 Hf))|]. by split; [apply Hr1|].
  - destruct (decode_packet6_lz flags ts pad d st1 b h Hr1 Hb Hd H4 Hf Hts Hu)
      as (r & st' & b' & h' & out & E' & Hb' & G & W & Hr & Hok).
    exists r, st', b', h'. split; [exact (eq_trans E E')|]. pose proof G as [Hwf' _ Ew].
    split; [done|]. split; [done|]. exists out. split; [|split; [exact W|split; [exact Hr|exact Hok]]].
    change (window st1, s6_offset_cache st1) with (lz6_state st1). by rewrite <- W, <- Ew.
Qed.

(** ** Concrete runs *)

Definition sample_tokens6 : list token6 := [Literal6 97; Literal6 98; Far 2 0 3 0; Recent 0 8 1].
Definition sample_packet6 : list Z := [123; 238; 149; 79; 60; 255; 47].

Example sample_run6 :
  lz6_run ([], [0; 0; 0; 0]) sample_tokens6 =
    ([97; 98; 97; 98; 97; 98; 97; 98; 97; 98; 97; 98; 97; 98; 97; 98; 97; 98], [2; 0; 0; 0]).
Proof. reflexivity. Qed.
Lemma sample_packet6_bits : stream_bits sample_packet6 = tokens6_enc sample_tokens6 ++ [false; false].
Proof. vm_compute. reflexivity. Qed.

Lemma rdp6_decode_invariant_witness :
  (rdp6_wf rdp_bulk_rdp6_state_init /\ rdp6_wf (rdp_bulk_rdp6_state_reset true rdp_bulk_rdp6_state_init)) /\
  exists r st' b' h',
    rdp_bulk_rdp6_decode RDP_BULK_PACKET_COMPRESSED (View [255; 0; 255; 0; 255])
      (rdp_bulk_rdp6_state_init, (rdp_buffer_init, [])) = (r, (st', (b', h'))) /\
    rdp6_wf st' /\ buffer_wf b' /\
    packet_post6 RDP_BULK_PACKET_COMPRESSED [255; 0; 255; 0; 255] [] [0; 0; 0; 0] rdp_buffer_init r st' b'.
Proof.
  apply (rdp6_decode_invariant RDP_BULK_PACKET_COMPRESSED [255; 0; 255; 0; 255] rdp_bulk_rdp6_state_init
    rdp_buffer_init [] true); [apply state_init_wf6|apply buffer_init_wf|by_evaluation].
Defined.

Lemma rdp6_lz77_witness :
  exists r st' b' h',
    rdp_bulk_rdp6_decode RDP_BULK_PACKET_COMPRESSED (View sample_packet6)
      (rdp_bulk_rdp6_state_init, (rdp_buffer_init, [])) = (r, (st', (b', h'))) /\
    rdp6_wf st' /\ buffer_wf b' /\
    exists out,
      (lz6_run ([], [0; 0; 0; 0]) sample_tokens6).1 = [] ++ out /\
      (window st', s6_offset_cache st') = lz6_run ([], [0; 0; 0; 0]) sample_tokens6 /\
      (r = Ok tt /\ contents b' = contents rdp_buffer_init ++ out \/
       r = Err LIBRDP_STATUS_NO_MEMORY /\ contents b' = contents rdp_buffer_init) /\
      (@nil bool = [] -> b_length rdp_buffer_init + blen out <= 2 ^ 63 -> r = Ok tt /\ h' = []).
Proof.
  apply (rdp6_lz77 RDP_BULK_PACKET_COMPRESSED sample_tokens6 [false; false] sample_packet6
    rdp_bulk_rdp6_state_init rdp_buffer_init [] [] [0; 0; 0; 0]).
  - apply state_init_wf6.
  - apply buffer_init_wf.
  - by_evaluation.
  - reflexivity.
  - reflexivity.
  - cbn -[Z.le Z.lt]. unfold length_ok, is_byte. repeat split; vm_compute; done || discriminate.
  - apply sample_packet6_bits.
Defined.
