(* ===== verification/Bulk.v ===== *)
(** * Bulk: RDP 6.1 decompression and the dispatcher

    Models the rest of [src/src/protocol/bulk.c]: the two levels of RDP 6.1
    compression ([rdp_bulk_rdp61_decompress]; the inner level is the 64K
    decompressor of [Mppc]) and [rdp_bulk_decompress], which hands a packet to
    the decompressor of its type. *)

From S2P Require Import Prelude Buffer Bits BitReader Window Mppc Huffman Rdp6.

Definition RDP_BULK_RDP61_L1_COMPRESSED : Z := 0x01.
Definition RDP_BULK_RDP61_L1_NO_COMPRESSION : Z := 0x02.
Definition RDP_BULK_RDP61_L1_PACKET_AT_FRONT : Z := 0x04.
Definition RDP_BULK_RDP61_L1_INNER_COMPRESSION : Z := 0x10.
Definition RDP_BULK_RDP61_L1_KNOWN_MASK : Z := 0x17.
Definition RDP_BULK_RDP61_MATCH_SIZE : Z := 8.
Definition RDP_BULK_RDP61_HISTORY_SIZE : Z := 2000000.
Definition RDP_BULK_TYPE_MASK : Z := 0x0f.
Definition RDP_BULK_FLAGS_MASK : Z := 0xe0.
Definition RDP_BULK_TYPE_8K : Z := 0x00.
Definition RDP_BULK_TYPE_64K : Z := 0x01.
Definition RDP_BULK_TYPE_RDP6 : Z := 0x02.
Definition RDP_BULK_TYPE_RDP61 : Z := 0x03.

Record rdp_bulk_rdp61_state := mk_rdp61_state {
  s61_history : option (list Z);
  s61_write_offset : Z;
}.
Definition zeros61 : list Z := replicate (Z.to_nat RDP_BULK_RDP61_HISTORY_SIZE) 0.
Definition set_offset61 (n : Z) (st : rdp_bulk_rdp61_state) : rdp_bulk_rdp61_state :=
  mk_rdp61_state (s61_history st) n.

Definition rdp_bulk_rdp61_state_init : rdp_bulk_rdp61_state := mk_rdp61_state None 0.
Definition rdp_bulk_rdp61_state_reset (clear : bool) (st : rdp_bulk_rdp61_state) : rdp_bulk_rdp61_state :=
  match s61_history st with
  | Some h => mk_rdp61_state (Some (if clear then zeros61 else h)) 0
  | None => mk_rdp61_state None 0
  end.
Definition rdp_bulk_rdp61_state_free (st : rdp_bulk_rdp61_state) : rdp_bulk_rdp61_state :=
  mk_rdp61_state None 0.

Abbreviation rdp61 := (M (rdp_bulk_rdp61_state * wstate)).

Definition rdp_bulk_rdp61_state_ensure : rdp61 unit :=
  st ← gets fst;
  match s61_history st with
  | Some _ => mret tt
  | None =>
      on_snd alloc;;
      on_fst (modify (fun st => mk_rdp61_state (Some zeros61) (s61_write_offset st)))
  end.

(** ** Level 1: literals and matches at absolute positions *)

Definition rdp_bulk_read_u16_le (data : list Z) : res Z :=
  p0 ← rd data 0; p1 ← rd data 1; Ok (val16 p0 p1).
Definition rdp_bulk_read_u32_le (data : list Z) : res Z :=
  p0 ← rd data 0; p1 ← rd data 1; p2 ← rd data 2; p3 ← rd data 3; Ok (val32 p0 p1 p2 p3).

(** The emitters return the new values of their counters. *)
Definition rdp_bulk_rdp61_emit (value output_offset : Z) : rdp61 Z :=
  st ← gets fst;
  require (negb (RDP_BULK_RDP61_HISTORY_SIZE <=? s61_write_offset st)) LIBRDP_STATUS_PROTOCOL_ERROR;;
  on_snd (rdp_buffer_append_u8 value);;
  h ← lift (wr (default [] (s61_history st)) (s61_write_offset st) value);
  on_fst (modify (fun st => mk_rdp61_state (Some h) (size_t (s61_write_offset st + 1))));;
  mret (size_t (output_offset + 1)).

(** [n] literals are left. *)
Fixpoint literals_loop (n : nat) (literals : list Z) (literal_offset output_offset : Z) : rdp61 (Z * Z) :=
  match n with
  | O => mret (literal_offset, output_offset)
  | S n =>
      value ← lift (rd literals literal_offset);
      output_offset ← rdp_bulk_rdp61_emit value output_offset;
      literals_loop n literals (size_t (literal_offset + 1)) output_offset
  end.

Definition rdp_bulk_rdp61_emit_literals (literals : list Z) (literal_offset count output_offset : Z) :
    rdp61 (Z * Z) :=
  require (negb ((blen literals <? literal_offset) || (blen literals - literal_offset <? count)))
    LIBRDP_STATUS_PROTOCOL_ERROR;;
  literals_loop (Z.to_nat count) literals literal_offset output_offset.

(** [n] bytes of the match are left, the next one at [src]. *)
Fixpoint match_loop (n : nat) (src output_offset : Z) : rdp61 Z :=
  match n with
  | O => mret output_offset
  | S n =>
      st ← gets fst;
      value ← lift (rd (default [] (s61_history st)) src);
      output_offset ← rdp_bulk_rdp61_emit value output_offset;
      match_loop n (src + 1) output_offset
  end.

Definition rdp_bulk_rdp61_emit_match (history_offset length output_offset : Z) : rdp61 Z :=
  st ← gets fst;
  require (negb (match s61_history st with None => true | _ => false end || (length =? 0) ||
                 (RDP_BULK_RDP61_HISTORY_SIZE <=? history_offset) ||
                 (RDP_BULK_RDP61_HISTORY_SIZE <? size_t (history_offset + length))))
    LIBRDP_STATUS_PROTOCOL_ERROR;;
  match_loop (Z.to_nat length) history_offset output_offset.

(** The loop over the match details; [n] matches are left, the next one at
    [match_offset].  The counters are returned. *)
Fixpoint details_loop (n : nat) (payload literals : list Z) (match_offset literal_offset output_offset : Z) :
    rdp61 (Z * Z) :=
  match n with
  | O => mret (literal_offset, output_offset)
  | S n =>
      let detail := zdrop match_offset payload in
      length ← lift (rdp_bulk_read_u16_le detail);
      match_output ← lift (rdp_bulk_read_u16_le (zdrop 2 detail));
      history_offset ← lift (rdp_bulk_read_u32_le (zdrop 4 detail));
      require (negb (match_output <? output_offset)) LIBRDP_STATUS_PROTOCOL_ERROR;;
      '(literal_offset, output_offset) ←
        rdp_bulk_rdp61_emit_literals literals literal_offset (match_output - output_offset) output_offset;
      output_offset ← rdp_bulk_rdp61_emit_match history_offset length output_offset;
      details_loop n payload literals (match_offset + RDP_BULK_RDP61_MATCH_SIZE) literal_offset output_offset
  end.

(** [if (status != LIBRDP_STATUS_OK) state->write_offset = start_offset;] *)
Definition restore61 {A} (start_offset : Z) (m : rdp61 A) : rdp61 unit := fun s =>
  match m s with
  | (Ok _, s') => (Ok tt, s')
  | (Err e, (st, w)) => (Err e, (set_offset61 start_offset st, w))
  | (Fault, s') => (Fault, s')
  end.

Definition rdp_bulk_rdp61_decompress_level1 (data : view) : rdp61 unit :=
  require (negb (view_null data || (view_len data <? 2))) LIBRDP_STATUS_PROTOCOL_ERROR;;
  rdp_bulk_rdp61_state_ensure;;
  l1_flags ← lift (rd (view_bytes data) 0);
  require (negb (negb (Z.land l1_flags (u32 (Z.lnot RDP_BULK_RDP61_L1_KNOWN_MASK)) =? 0) ||
                 (has_flag l1_flags RDP_BULK_RDP61_L1_COMPRESSED &&
                  has_flag l1_flags RDP_BULK_RDP61_L1_NO_COMPRESSION) ||
                 (Z.land l1_flags (Z.lor RDP_BULK_RDP61_L1_COMPRESSED RDP_BULK_RDP61_L1_NO_COMPRESSION) =? 0)))
    LIBRDP_STATUS_PROTOCOL_ERROR;;
  (if has_flag l1_flags RDP_BULK_RDP61_L1_PACKET_AT_FRONT
   then on_fst (modify (rdp_bulk_rdp61_state_reset true)) else mret tt);;
  let payload := zdrop 2 (view_bytes data) in
  let payload_len := view_len data - 2 in
  start_offset ← gets (fun s => s61_write_offset s.1);
  if has_flag l1_flags RDP_BULK_RDP61_L1_NO_COMPRESSION then
    restore61 start_offset (rdp_bulk_rdp61_emit_literals payload 0 payload_len 0)
  else
    require (negb (payload_len <? 2)) LIBRDP_STATUS_PROTOCOL_ERROR;;
    match_count ← lift (rdp_bulk_read_u16_le payload);
    let details_len := size_t (match_count * RDP_BULK_RDP61_MATCH_SIZE) in
    require (negb ((match_count =? 0) || (payload_len <? size_t (2 + details_len))))
      LIBRDP_STATUS_PROTOCOL_ERROR;;
    let literals := zdrop (2 + details_len) payload in
    restore61 start_offset (
      '(literal_offset, output_offset) ← details_loop (Z.to_nat match_count) payload literals 2 0 0;
      rdp_bulk_rdp61_emit_literals literals literal_offset (blen literals - literal_offset) output_offset).

(** ** Level 2 *)

(** Write into a local buffer ([rdp_buffer inner; ... rdp_buffer_free(&inner)])
    that shares the heap of the caller's. *)
Definition with_inner {L A} (m : M (L * wstate) A) : M (L * wstate) rdp_buffer := fun '(l, (b, h)) =>
  match m (l, (rdp_buffer_init, h)) with
  | (Ok _, (l', (inner, h'))) => (Ok inner, (l', (b, h')))
  | (Err e, (l', (_, h'))) => (Err e, (l', (b, h')))
  | (Fault, (l', (_, h'))) => (Fault, (l', (b, h')))
  end.

(** Run a computation on a part of a state that shares the output. *)
Definition on_part {D T A} (get : D -> T) (set : T -> D -> D) (m : M (T * wstate) A) : M (D * wstate) A :=
  fun '(d, w) => let '(r, (t, w')) := m (get d, w) in (r, (set t d, w')).

Definition rdp_bulk_rdp61_decompress (data : view) :
    M ((rdp_bulk_rdp61_state * rdp_bulk_mppc_state) * wstate) unit :=
  let level1 d := on_part fst (fun st p => (st, p.2)) (rdp_bulk_rdp61_decompress_level1 d) in
  require (negb (view_null data || (view_len data <? 2))) LIBRDP_STATUS_PROTOCOL_ERROR;;
  l1_flags ← lift (rd (view_bytes data) 0);
  if negb (has_flag l1_flags RDP_BULK_RDP61_L1_INNER_COMPRESSION) then level1 data
  else
    flags ← lift (rd (view_bytes data) 1);
    inner ← on_part snd (fun st p => (p.1, st)) (with_inner (
      on_snd (rdp_buffer_append_u8 l1_flags);;
      on_snd (rdp_buffer_append_u8 flags);;
      rdp_bulk_mppc_decompress flags (View (zdrop 2 (view_bytes data)))));
    level1 (buffer_view inner).

(** ** The dispatcher *)

Record rdp_bulk_decompressor := mk_decompressor {
  bd_mppc8k : rdp_bulk_mppc_state;
  bd_mppc64k : rdp_bulk_mppc_state;
  bd_rdp6 : rdp_bulk_rdp6_state;
  bd_rdp61_level2 : rdp_bulk_mppc_state;
  bd_rdp61 : rdp_bulk_rdp61_state;
}.

Definition rdp_bulk_decompressor_init : rdp_bulk_decompressor :=
  mk_decompressor (rdp_bulk_mppc_state_init 0) (rdp_bulk_mppc_state_init 1) rdp_bulk_rdp6_state_init
    (rdp_bulk_mppc_state_init 1) rdp_bulk_rdp61_state_init.
Definition rdp_bulk_decompressor_reset (d : rdp_bulk_decompressor) : rdp_bulk_decompressor :=
  mk_decompressor (rdp_bulk_mppc_state_reset true (bd_mppc8k d)) (rdp_bulk_mppc_state_reset true (bd_mppc64k d))
    (rdp_bulk_rdp6_state_reset true (bd_rdp6 d)) (rdp_bulk_mppc_state_reset true (bd_rdp61_level2 d))
    (rdp_bulk_rdp61_state_reset true (bd_rdp61 d)).
Definition rdp_bulk_decompressor_free (d : rdp_bulk_decompressor) : rdp_bulk_decompressor :=
  mk_decompressor (rdp_bulk_mppc_state_free (bd_mppc8k d)) (rdp_bulk_mppc_state_free (bd_mppc64k d))
    (rdp_bulk_rdp6_state_reset true (bd_rdp6 d)) (rdp_bulk_mppc_state_free (bd_rdp61_level2 d))
    (rdp_bulk_rdp61_state_free (bd_rdp61 d)).

Definition set_mppc8k (s : rdp_bulk_mppc_state) (d : rdp_bulk_decompressor) : rdp_bulk_decompressor :=
  mk_decompressor s (bd_mppc64k d) (bd_rdp6 d) (bd_rdp61_level2 d) (bd_rdp61 d).
Definition set_mppc64k (s : rdp_bulk_mppc_state) (d : rdp_bulk_decompressor) : rdp_bulk_decompressor :=
  mk_decompressor (bd_mppc8k d) s (bd_rdp6 d) (bd_rdp61_level2 d) (bd_rdp61 d).
Definition set_rdp6 (s : rdp_bulk_rdp6_state) (d : rdp_bulk_decompressor) : rdp_bulk_decompressor :=
  mk_decompressor (bd_mppc8k d) (bd_mppc64k d) s (bd_rdp61_level2 d) (bd_rdp61 d).
Definition set_rdp61 (s : rdp_bulk_rdp61_state * rdp_bulk_mppc_state) (d : rdp_bulk_decompressor) :
    rdp_bulk_decompressor :=
  mk_decompressor (bd_mppc8k d) (bd_mppc64k d) (bd_rdp6 d) s.2 s.1.

Definition rdp_bulk_decompress (flags : Z) (data : view) : M (rdp_bulk_decompressor * wstate) unit :=
  let type := u8 (Z.land flags RDP_BULK_TYPE_MASK) in
  require (negb (view_null data && (0 <? view_len data))) LIBRDP_STATUS_INVALID_ARGUMENT;;
  if view_len data =? 0 then mret tt
  else if Z.land flags RDP_BULK_FLAGS_MASK =? 0 then on_snd (rdp_buffer_append data)
  else if type =? RDP_BULK_TYPE_8K then
    on_part bd_mppc8k set_mppc8k (rdp_bulk_mppc_decompress flags data)
  else if type =? RDP_BULK_TYPE_64K then
    on_part bd_mppc64k set_mppc64k (rdp_bulk_mppc_decompress flags data)
  else if type =? RDP_BULK_TYPE_RDP6 then
    on_part bd_rdp6 set_rdp6 (rdp_bulk_rdp6_decode flags data)
  else if type =? RDP_BULK_TYPE_RDP61 then
    on_part (fun d => (bd_rdp61 d, bd_rdp61_level2 d)) set_rdp61 (rdp_bulk_rdp61_decompress data)
  else lift (Err LIBRDP_STATUS_UNSUPPORTED).

(** ** The state of level 1 *)

#[local] Opaque zeros61.

Record rdp61_wf (st : rdp_bulk_rdp61_state) : Prop := {
  rdp61_wf_offset : 0 <= s61_write_offset st <= RDP_BULK_RDP61_HISTORY_SIZE;
  rdp61_wf_history : match s61_history st with
                     | Some h => blen h = RDP_BULK_RDP61_HISTORY_SIZE /\ bytes h
                     | None => s61_write_offset st = 0
                     end;
}.
Definition rdp61_live (st : rdp_bulk_rdp61_state) : Prop := rdp61_wf st /\ is_Some (s61_history st).
Lemma rdp61_bounds st : rdp61_live st -> 0 <= s61_write_offset st <= blen (default [] (s61_history st)).
Proof. intros [[Ho Hh] [h Eh]]. rewrite Eh in *. cbn [default id]. destruct Hh. lia. Qed.
#[export] Instance rdp61_history : History rdp_bulk_rdp61_state unit := {
  hist_live := rdp61_live;
  hist_cells st := default [] (s61_history st);
  hist_offset := s61_write_offset;
  hist_frame _ := tt;
  hist_bounds := rdp61_bounds;
}.
Lemma blen_window61 st : rdp61_live st -> blen (window st) = s61_write_offset st.
Proof. exact (blen_window st). Qed.

(** From [s] to [s'], [out] was appended to the window and to the output. *)
Record emitted (s s' : rdp_bulk_rdp61_state * wstate) (out : list Z) : Prop := {
  emitted_grown : grown s.1 s'.1 out;
  emitted_buffer : buffer_wf s'.2.1;
  emitted_contents : contents s'.2.1 = contents s.2.1 ++ out;
}.
Definition ready61 (s : rdp_bulk_rdp61_state * wstate) : Prop := rdp61_live s.1 /\ buffer_wf s.2.1.
(** Enough memory for [n] more bytes of output. *)
Definition room61 (s : rdp_bulk_rdp61_state * wstate) (n : Z) : Prop :=
  s.2.2 = [] /\ b_length s.2.1 + n <= 2 ^ 63.

Lemma emitted_refl s : ready61 s -> emitted s s [].
Proof. intros [Hl Hb]. split; [by apply grown_refl|done|by rewrite app_nil_r]. Qed.
Lemma emitted_trans s1 s2 s3 o o' : emitted s1 s2 o -> emitted s2 s3 o' -> emitted s1 s3 (o ++ o').
Proof.
  intros [G1 B1 C1] [G2 B2 C2]. split; [by eapply grown_trans|done|]. by rewrite C2, C1, app_assoc.
Qed.
Lemma emitted_ready s s' o : emitted s s' o -> ready61 s'.
Proof. intros [[Hl _ _] Hb _]. by split. Qed.
Lemma emitted_length s s' o : ready61 s -> emitted s s' o -> b_length s'.2.1 = b_length s.2.1 + blen o.
Proof.
  intros [_ Hb] [_ Hb' C]. rewrite <- (blen_contents _ Hb), <- (blen_contents _ Hb'), C. apply blen_app.
Qed.

(** What an emitter promises: no undefined behaviour, a value that satisfies
    [Q], and that window and output grow together, whether it succeeds or not. *)
Definition post61 {A} (Q : A -> Prop) (s : rdp_bulk_rdp61_state * wstate)
    (p : res A * (rdp_bulk_rdp61_state * wstate)) : Prop :=
  match p.1 with
  | Ok a => Q a
  | Err e => e = LIBRDP_STATUS_PROTOCOL_ERROR \/ e = LIBRDP_STATUS_NO_MEMORY
  | Fault => False
  end /\ exists out, emitted s p.2 out.

Lemma post61_err {A} (Q : A -> Prop) s : ready61 s -> post61 Q s (Err LIBRDP_STATUS_PROTOCOL_ERROR, s).
Proof. intros Hs. split; [by left|]. exists []. by apply emitted_refl. Qed.
Lemma post61_ok {A} (Q : A -> Prop) s a : ready61 s -> Q a -> post61 Q s (Ok a, s).
Proof. intros Hs Ha. split; [done|]. exists []. by apply emitted_refl. Qed.
Lemma post61_bind {A B} (Q : A -> Prop) (Q' : B -> Prop) s (m : rdp61 A) (k : A -> rdp61 B) :
  post61 Q s (m s) -> (forall a s', Q a -> ready61 s' -> post61 Q' s' (k a s')) -> post61 Q' s ((m ≫= k) s).
Proof.
  intros [Hm [o He]] Hk. unfold mbind, M_bind. destruct (m s) as [[a|e|] s']; [|by split; [|exists o]|done].
  destruct (Hk a s' Hm (emitted_ready _ _ _ He)) as [Hp [o' He']]. split; [done|]. eexists. by eapply emitted_trans.
Qed.

Lemma emit61_spec v n s :
  ready61 s -> is_byte v ->
  post61 (fun n' => n' = size_t (n + 1)) s (rdp_bulk_rdp61_emit v n s) /\
  (s61_write_offset s.1 < RDP_BULK_RDP61_HISTORY_SIZE -> room61 s 1 ->
   exists s', rdp_bulk_rdp61_emit v n s = (Ok (size_t (n + 1)), s') /\ emitted s s' [v] /\ s'.2.2 = []).
Proof.
  intros Hs Hv. destruct s as [st [b h]]. pose proof Hs as [Hl Hb]. cbn [fst snd] in Hl, Hb |- *.
  pose proof Hl as [[Ho Hh] [hist Eh]]. rewrite Eh in Hh. destruct Hh as [Hlen Hby].
  unfold rdp_bulk_rdp61_emit. rewrite bind_gets, bind_require. cbn [fst].
  destruct (Z.leb_spec RDP_BULK_RDP61_HISTORY_SIZE (s61_write_offset st)) as [|Hlt]; cbn [negb].
  { split; [|lia]. by apply post61_err. }
  rewrite bind_on_snd. unfold rdp_buffer_append_u8.
  destruct (append_atomic [v] (View [v]) eq_refl eq_refl b h Hb) as (r & b' & h' & -> & Hb' & Hr & Hok).
  destruct Hr as [([] & -> & _ & Hc)|[-> Hc]].
  - rewrite bind_lift, Eh. cbn [default id]. rewrite wr_ok by lia. rewrite bind_on_fst.
    unfold modify, mret, M_ret.
    assert (E : size_t (s61_write_offset st + 1) = s61_write_offset st + 1)
      by (unfold size_t, RDP_BULK_RDP61_HISTORY_SIZE in *; bits_lia). rewrite E.
    set (st' := mk_rdp61_state _ _).
    assert (He : emitted (st, (b, h)) (st', (b', h')) [v]).
    { split; cbn [fst snd]; [|done|done]. split; [split; [split|by eexists]|done|].
      - cbn [st' s61_write_offset]. lia.
      - cbn [st' s61_history]. split; [unfold blen in *; by rewrite length_insert|by apply Forall_insert].
      - unfold window. cbn [hist_cells hist_offset rdp61_history st' s61_history s61_write_offset]. rewrite Eh.
        cbn [default id]. apply ztake_push. lia. }
    split; [split; [done|by exists [v]]|]. intros _ [Hh0 Hroom]. cbn in Hh0, Hroom.
    eexists. split; [reflexivity|]. split; [done|]. by apply Hok.
  - split.
    + split; [by right|]. exists []. split; cbn [fst snd]; [by apply grown_refl|done|by rewrite app_nil_r].
    + intros _ [Hh0 Hroom]. cbn in Hh0, Hroom. by destruct (Hok Hh0 Hroom) as [? _].
Qed.

Lemma literals_loop_spec (n : nat) literals lo out s :
  ready61 s -> bytes literals -> blen literals <= SIZE_MAX -> 0 <= lo -> lo + Z.of_nat n <= blen literals ->
  post61 (fun p => p.1 = lo + Z.of_nat n) s (literals_loop n literals lo out s) /\
  (s61_write_offset s.1 + Z.of_nat n <= RDP_BULK_RDP61_HISTORY_SIZE -> room61 s (Z.of_nat n) ->
   0 <= out -> out + Z.of_nat n <= SIZE_MAX ->
   exists s', literals_loop n literals lo out s = (Ok (lo + Z.of_nat n, out + Z.of_nat n), s') /\
     emitted s s' (ztake (Z.of_nat n) (zdrop lo literals)) /\ s'.2.2 = []).
Proof.
  revert lo out s. induction n as [|n IH]; intros lo out s Hs Hb Hsz Hlo Hle.
  { cbn [literals_loop]. split; [apply post61_ok; [done|cbn; lia]|]. intros _ [Hh _] _ _.
    exists s. rewrite !Z.add_0_r. split; [done|]. split; [by apply emitted_refl|done]. }
  cbn [literals_loop]. destruct (rd_ok literals lo) as (v & Ev & El); [lia|]. rewrite bind_lift, Ev.
  assert (Hv : is_byte v) by (by eapply rd_Forall). destruct (emit61_spec v out s Hs Hv) as [Hp Hok].
  assert (E : size_t (lo + 1) = lo + 1) by (unfold size_t, SIZE_MAX in *; bits_lia). rewrite E. split.
  - eapply post61_bind; [exact Hp|]. intros out' s' _ Hs'.
    destruct (IH (lo + 1) out' s') as [[Hq He] _]; [done|done|done|lia|lia|]. split; [|done].
    destruct (literals_loop _ _ _ _ _).1; [lia|done|done].
  - intros Hfit Hroom Hout Hmax. destruct Hok as (s1 & E1 & He1 & Hh1); [lia|destruct Hroom; split; [done|lia]|].
    rewrite (bind_ok _ _ _ _ _ E1). pose proof (emitted_length _ _ _ Hs He1) as El1. change (blen [v]) with 1 in El1.
    pose proof (@grown_offset _ _ rdp61_history _ _ _ (proj1 Hs) (emitted_grown _ _ _ He1)) as Eo. change (blen [v]) with 1 in Eo.
    cbn [hist_offset rdp61_history] in Eo.
    assert (E2 : size_t (out + 1) = out + 1) by (unfold size_t, SIZE_MAX in *; bits_lia). rewrite E2.
    destruct (IH (lo + 1) (out + 1) s1) as [_ Hgo]; [by eapply emitted_ready|done|done|lia|lia|].
    destruct Hgo as (s2 & E3 & He2 & Hh2); [lia|split; [done|destruct Hroom; lia]|lia|lia|].
    exists s2. split; [rewrite E3; do 3 f_equal; lia|]. split; [|done].
    replace (ztake (Z.of_nat (S n)) (zdrop lo literals)) with ([v] ++ ztake (Z.of_nat n) (zdrop (lo + 1) literals));
      [by eapply emitted_trans|].
    unfold ztake, zdrop. rewrite !Nat2Z.id, Z2Nat.inj_add, Nat.add_1_r by lia.
    by rewrite (drop_S _ _ _ El).
Qed.

Lemma emit_literals_spec literals lo count out s :
  ready61 s -> bytes literals -> blen literals <= SIZE_MAX -> 0 <= lo -> 0 <= count ->
  post61 (fun p => lo <= p.1 <= blen literals) s (rdp_bulk_rdp61_emit_literals literals lo count out s) /\
  (lo + count <= blen literals -> s61_write_offset s.1 + count <= RDP_BULK_RDP61_HISTORY_SIZE ->
   room61 s count -> 0 <= out -> out + count <= SIZE_MAX ->
   exists s', rdp_bulk_rdp61_emit_literals literals lo count out s = (Ok (lo + count, out + count), s') /\
     emitted s s' (ztake count (zdrop lo literals)) /\ s'.2.2 = []).
Proof.
  intros Hs Hb Hsz Hlo Hc. unfold rdp_bulk_rdp61_emit_literals. rewrite bind_require.
  destruct (negb _) eqn:G; [|split; [by apply post61_err|lia]].
  destruct (literals_loop_spec (Z.to_nat count) literals lo out s Hs Hb Hsz Hlo ltac:(lia)) as [[Hp He] Hok].
  rewrite Z2Nat.id in Hp, Hok by lia. split.
  - split; [|done]. destruct (literals_loop _ _ _ _ _).1; [lia|done|done].
  - intros _ H1 H2 H3 H4. by apply Hok.
Qed.

Lemma match_loop_spec (n : nat) src out s :
  ready61 s -> 0 <= src -> src + Z.of_nat n <= RDP_BULK_RDP61_HISTORY_SIZE ->
  post61 (fun _ => True) s (match_loop n src out s) /\
  (s61_write_offset s.1 + Z.of_nat n <= RDP_BULK_RDP61_HISTORY_SIZE -> room61 s (Z.of_nat n) ->
   0 <= out -> out + Z.of_nat n <= SIZE_MAX -> src < s61_write_offset s.1 ->
   exists s' o, match_loop n src out s = (Ok (out + Z.of_nat n), s') /\ emitted s s' o /\ s'.2.2 = [] /\
     blen o = Z.of_nat n /\ window s'.1 = lz_copy n (s61_write_offset s.1 - src) (window s.1)).
Proof.
  revert src out s. induction n as [|n IH]; intros src out s Hs Hsrc Hle.
  { cbn [match_loop]. split; [by apply post61_ok|]. intros _ [Hh _] _ _ _.
    exists s, []. rewrite Z.add_0_r. split; [done|]. split; [by apply emitted_refl|done]. }
  cbn [match_loop]. rewrite bind_gets. pose proof Hs as [[[Ho Hh] [hist Eh]] Hb]. rewrite Eh in *.
  destruct Hh as [Hlen Hby]. cbn [default id]. destruct (rd_ok hist src) as (v & Ev & El); [lia|]. rewrite bind_lift, Ev.
  assert (Hv : is_byte v) by (by eapply rd_Forall). destruct (emit61_spec v out s Hs Hv) as [Hp Hok]. split.
  - eapply post61_bind; [exact Hp|]. intros out' s' _ Hs'. by apply IH; [|lia|lia].
  - intros Hfit Hroom Hout Hmax Hlt. destruct Hok as (s1 & E1 & He1 & Hh1); [lia|destruct Hroom; split; [done|lia]|].
    rewrite (bind_ok _ _ _ _ _ E1). pose proof (emitted_length _ _ _ Hs He1) as El1. change (blen [v]) with 1 in El1.
    pose proof (@grown_offset _ _ rdp61_history _ _ _ (proj1 Hs) (emitted_grown _ _ _ He1)) as Eo. change (blen [v]) with 1 in Eo.
    cbn [hist_offset rdp61_history] in Eo.
    assert (E2 : size_t (out + 1) = out + 1) by (unfold size_t, SIZE_MAX in *; bits_lia). rewrite E2.
    destruct (IH (src + 1) (out + 1) s1) as [_ Hgo]; [by eapply emitted_ready|lia|lia|].
    destruct Hgo as (s2 & o & E3 & He2 & Hh2 & Hbo & W); [lia|split; [done|destruct Hroom; lia]|lia|lia|lia|].
    exists s2, ([v] ++ o). split; [rewrite E3; do 2 f_equal; lia|]. split; [by eapply emitted_trans|].
    split; [done|]. split; [rewrite blen_app, Hbo; change (blen [v]) with 1; lia|].
    rewrite W, (grown_window _ _ _ (emitted_grown _ _ _ He1)), Eo. cbn [lz_copy].
    replace (s61_write_offset s.1 + 1 - (src + 1)) with (s61_write_offset s.1 - src) by lia. do 4 f_equal.
    rewrite blen_window61 by apply Hs.
    rewrite (window_lookup s.1 (s61_write_offset s.1 - (s61_write_offset s.1 - src)) v); [done|cbn; lia|].
    cbn [hist_cells rdp61_history]. rewrite Eh. cbn [default id]. rewrite <- Ev. f_equal. lia.
Qed.

Lemma emit_match_spec hoff len out s :
  ready61 s -> is_u32 hoff -> 0 <= len < 65536 ->
  post61 (fun _ => True) s (rdp_bulk_rdp61_emit_match hoff len out s) /\
  (1 <= len -> hoff < s61_write_offset s.1 -> s61_write_offset s.1 + len <= RDP_BULK_RDP61_HISTORY_SIZE ->
   room61 s len -> 0 <= out -> out + len <= SIZE_MAX ->
   exists s' o, rdp_bulk_rdp61_emit_match hoff len out s = (Ok (out + len), s') /\ emitted s s' o /\ s'.2.2 = [] /\
     blen o = len /\ window s'.1 = lz_copy (Z.to_nat len) (s61_write_offset s.1 - hoff) (window s.1)).
Proof.
  intros Hs Hh Hl. unfold rdp_bulk_rdp61_emit_match. rewrite bind_gets, bind_require.
  pose proof Hs as [[_ [hist Eh]] _]. rewrite Eh. cbn [orb]. unfold is_u32 in Hh.
  assert (E : size_t (hoff + len) = hoff + len) by (unfold size_t; bits_lia). rewrite E.
  destruct (Z.eqb_spec len 0); cbn [orb negb]; [split; [by apply post61_err|lia]|].
  destruct (Z.leb_spec RDP_BULK_RDP61_HISTORY_SIZE hoff); cbn [orb negb]; [split; [by apply post61_err|lia]|].
  destruct (Z.ltb_spec RDP_BULK_RDP61_HISTORY_SIZE (hoff + len)); cbn [orb negb]; [split; [by apply post61_err|lia]|].
  destruct (match_loop_spec (Z.to_nat len) hoff out s Hs) as [Hp Hok]; [lia|lia|]. split; [done|].
  rewrite Z2Nat.id in Hok by lia. auto.
Qed.

(** ** The match details *)

Lemma read_u16_safe l : 2 <= blen l -> bytes l -> exists v, rdp_bulk_read_u16_le l = Ok v /\ is_u16 v.
Proof.
  intros Hl Hb. unfold rdp_bulk_read_u16_le.
  destruct (rd_ok l 0) as (a & Ea & _); [lia|]. destruct (rd_ok l 1) as (b & Eb & _); [lia|].
  rewrite Ea, Eb. exists (val16 a b). split; [done|]. apply is_u16_val16; by eapply rd_Forall.
Qed.
Lemma read_u32_safe l : 4 <= blen l -> bytes l -> exists v, rdp_bulk_read_u32_le l = Ok v /\ is_u32 v.
Proof.
  intros Hl Hb. unfold rdp_bulk_read_u32_le.
  destruct (rd_ok l 0) as (a & Ea & _); [lia|]. destruct (rd_ok l 1) as (b & Eb & _); [lia|].
  destruct (rd_ok l 2) as (c & Ec & _); [lia|]. destruct (rd_ok l 3) as (d & Ed & _); [lia|].
  rewrite Ea, Eb, Ec, Ed. exists (val32 a b c d). split; [done|]. apply is_u32_val32; by eapply rd_Forall.
Qed.
Lemma read_u16_le16 v l : is_u16 v -> rdp_bulk_read_u16_le (le16 v ++ l) = Ok v.
Proof. intros Hv. unfold rdp_bulk_read_u16_le. rewrite !rd_app_l by (rewrite blen_le16; lia).
  exact (f_equal Ok (val16_le16 v Hv)). Qed.
Lemma read_u32_le32 v l : is_u32 v -> rdp_bulk_read_u32_le (le32 v ++ l) = Ok v.
Proof. intros Hv. unfold rdp_bulk_read_u32_le. rewrite !rd_app_l by (rewrite blen_le32; lia).
  exact (f_equal Ok (val32_le32 v Hv)). Qed.

(** Any details and literals, as long as the details are inside the payload. *)
Lemma details_loop_safe (n : nat) payload literals mo lo out s :
  ready61 s -> bytes payload -> bytes literals -> blen literals <= SIZE_MAX ->
  0 <= mo -> mo + 8 * Z.of_nat n <= blen payload -> 0 <= lo <= blen literals ->
  post61 (fun p => 0 <= p.1 <= blen literals) s (details_loop n payload literals mo lo out s).
Proof.
  revert mo lo out s. induction n as [|n IH]; intros mo lo out s Hs Hbp Hbl Hsz Hmo Hfit Hlo.
  { by apply post61_ok. }
  cbn [details_loop]. set (detail := zdrop mo payload).
  assert (Hd : 8 <= blen detail) by (unfold detail; rewrite blen_zdrop by lia; lia).
  assert (Hbd : forall i, bytes (zdrop i detail)) by (intros; do 2 apply Forall_zdrop; done).
  destruct (read_u16_safe detail) as (len & -> & Hlen); [lia|by apply Forall_zdrop|]. rewrite bind_lift.
  destruct (read_u16_safe (zdrop 2 detail)) as (mout & -> & Hmout); [rewrite blen_zdrop by lia; lia|done|].
  rewrite bind_lift.
  destruct (read_u32_safe (zdrop 4 detail)) as (hoff & -> & Hhoff); [rewrite blen_zdrop by lia; lia|done|].
  rewrite bind_lift, bind_require. destruct (Z.ltb_spec mout out); cbn [negb]; [by apply post61_err|].
  eapply post61_bind; [apply emit_literals_spec; done || lia|]. intros [lo1 out1] s1 Hlo1 Hs1. cbn [fst] in Hlo1.
  eapply post61_bind; [apply (emit_match_spec hoff len out1 s1); done || (unfold is_u16 in Hlen; lia)|].
  intros out2 s2 _ Hs2. unfold RDP_BULK_RDP61_MATCH_SIZE. apply IH; done || lia.
Qed.

(** ** Level 1 as a specification: literals, then a match at an absolute
    position of the window, any number of times, then more literals *)

Record segment := mk_segment { sg_literals : list Z; sg_history_offset : Z; sg_length : Z }.

Definition segment_run (win : list Z) (g : segment) : list Z :=
  let win := win ++ sg_literals g in
  lz_copy (Z.to_nat (sg_length g)) (blen win - sg_history_offset g) win.
Definition segments_run (win : list Z) (gs : list segment) : list Z := foldl segment_run win gs.

(** [out] bytes of output precede the segment in the packet. *)
Definition segment_ok (win : list Z) (out : Z) (g : segment) : Prop :=
  bytes (sg_literals g) /\ 1 <= sg_length g < 65536 /\
  0 <= sg_history_offset g < blen win + blen (sg_literals g) /\
  out + blen (sg_literals g) < 65536 /\
  blen win + blen (sg_literals g) + sg_length g <= RDP_BULK_RDP61_HISTORY_SIZE.
Fixpoint segments_ok (win : list Z) (out : Z) (gs : list segment) : Prop :=
  match gs with
  | [] => True
  | g :: gs => segment_ok win out g /\
               segments_ok (segment_run win g) (out + blen (sg_literals g) + sg_length g) gs
  end.

Definition detail_enc (out : Z) (g : segment) : list Z :=
  le16 (sg_length g) ++ le16 (out + blen (sg_literals g)) ++ le32 (sg_history_offset g).
Fixpoint details_enc (out : Z) (gs : list segment) : list Z :=
  match gs with
  | [] => []
  | g :: gs => detail_enc out g ++ details_enc (out + blen (sg_literals g) + sg_length g) gs
  end.
Definition literals_of (gs : list segment) : list Z := gs ≫= sg_literals.
Fixpoint segments_size (gs : list segment) : Z :=
  match gs with
  | [] => 0
  | g :: gs => blen (sg_literals g) + sg_length g + segments_size gs
  end.
Definition l1_payload (gs : list segment) (trailing : list Z) : list Z :=
  le16 (blen gs) ++ details_enc 0 gs ++ literals_of gs ++ trailing.

Lemma blen_details_enc out gs : blen (details_enc out gs) = 8 * blen gs.
Proof.
  revert out. induction gs as [|g gs IH]; intros out; [done|]. cbn [details_enc].
  rewrite blen_app, IH, blen_cons. unfold detail_enc. rewrite !blen_app, !blen_le16, blen_le32. lia.
Qed.
Lemma blen_segment_run win g : 0 <= sg_length g ->
  blen (segment_run win g) = blen win + blen (sg_literals g) + sg_length g.
Proof. intros H. unfold segment_run. rewrite blen_lz_copy, blen_app. lia. Qed.

Lemma literals_of_cons g gs : literals_of (g :: gs) = sg_literals g ++ literals_of gs.
Proof. done. Qed.
Lemma segments_fit win out gs : segments_ok win out gs ->
  blen win <= RDP_BULK_RDP61_HISTORY_SIZE -> blen win + segments_size gs <= RDP_BULK_RDP61_HISTORY_SIZE.
Proof.
  revert win out. induction gs as [|g gs IH]; intros win out Hg Hw; [cbn; lia|]. destruct Hg as [Hg Hgs].
  destruct Hg as (_ & Hl & _ & _ & Hfit). cbn [segments_size].
  pose proof (blen_segment_run win g ltac:(lia)). specialize (IH _ _ Hgs ltac:(lia)). lia.
Qed.
Lemma segments_size_nonneg win out gs : segments_ok win out gs -> 0 <= segments_size gs.
Proof.
  revert win out. induction gs as [|g gs IH]; intros win out Hg; [cbn; lia|]. destruct Hg as [Hg Hgs].
  destruct Hg as (_ & Hl & _). cbn [segments_size]. specialize (IH _ _ Hgs). pose proof (blen_nonneg (sg_literals g)). lia.
Qed.

Lemma detail_read out g l :
  is_u16 (sg_length g) -> is_u16 (out + blen (sg_literals g)) -> is_u32 (sg_history_offset g) ->
  rdp_bulk_read_u16_le (detail_enc out g ++ l) = Ok (sg_length g) /\
  rdp_bulk_read_u16_le (zdrop 2 (detail_enc out g ++ l)) = Ok (out + blen (sg_literals g)) /\
  rdp_bulk_read_u32_le (zdrop 4 (detail_enc out g ++ l)) = Ok (sg_history_offset g).
Proof.
  intros H1 H2 H3. unfold detail_enc. rewrite <- !app_assoc. split; [by apply read_u16_le16|].
  split; [by apply read_u16_le16|by apply read_u32_le32].
Qed.

(** One segment. *)
Lemma segment_emitted g literals lpre lpost out s :
  ready61 s -> segment_ok (window s.1) out g -> 0 <= out ->
  literals = lpre ++ sg_literals g ++ lpost -> bytes literals -> blen literals <= SIZE_MAX ->
  room61 s (blen (sg_literals g) + sg_length g) ->
  let out' := out + blen (sg_literals g) in
  exists s1 s2 o,
    rdp_bulk_rdp61_emit_literals literals (blen lpre) (out' - out) out s =
      (Ok (blen lpre + blen (sg_literals g), out'), s1) /\
    rdp_bulk_rdp61_emit_match (sg_history_offset g) (sg_length g) out' s1 = (Ok (out' + sg_length g), s2) /\
    emitted s s2 o /\ s2.2.2 = [] /\ blen o = blen (sg_literals g) + sg_length g /\
    window s2.1 = segment_run (window s.1) g.
Proof.
  intros Hs (Hb & Hl & Hoff & Hout & Hfit) Ho El Hbl Hsz [Hh Hroom] out'. subst literals.
  rewrite blen_window61 in Hoff, Hfit by apply Hs. pose proof (blen_nonneg lpre). pose proof (blen_nonneg lpost).
  pose proof (blen_nonneg (sg_literals g)). rewrite !blen_app in Hsz.
  replace (out' - out) with (blen (sg_literals g)) by (subst out'; lia).
  destruct (emit_literals_spec (lpre ++ sg_literals g ++ lpost) (blen lpre) (blen (sg_literals g)) out s Hs Hbl)
    as [_ (s1 & E1 & He1 & Hh1)]; try lia; [rewrite !blen_app; lia|rewrite !blen_app; lia|split; [done|lia]|
      unfold SIZE_MAX in *; lia|].
  rewrite zdrop_app_blen, ztake_app_blen in He1. pose proof (emitted_length _ _ _ Hs He1) as L1.
  pose proof (@grown_offset _ _ rdp61_history _ _ _ (proj1 Hs) (emitted_grown _ _ _ He1)) as O1.
  cbn [hist_offset rdp61_history] in O1.
  destruct (emit_match_spec (sg_history_offset g) (sg_length g) out' s1 (emitted_ready _ _ _ He1))
    as [_ (s2 & o & E2 & He2 & Hh2 & Bo & W)]; try lia;
    [unfold is_u32, RDP_BULK_RDP61_HISTORY_SIZE in *; lia|split; [done|lia]|subst out'; unfold SIZE_MAX in *; lia|].
  exists s1, s2, (sg_literals g ++ o). split; [exact E1|]. split; [exact E2|].
  split; [by eapply emitted_trans|]. split; [done|]. split; [by rewrite blen_app, Bo|].
  rewrite W, (grown_window _ _ _ (emitted_grown _ _ _ He1)). unfold segment_run.
  by rewrite blen_app, blen_window61, O1 by apply Hs.
Qed.

Lemma details_loop_lz gs payload pre post literals lpre lpost out s :
  ready61 s -> segments_ok (window s.1) out gs -> 0 <= out ->
  payload = pre ++ details_enc out gs ++ post ->
  literals = lpre ++ literals_of gs ++ lpost -> bytes literals -> blen literals <= SIZE_MAX ->
  room61 s (segments_size gs) ->
  exists s' o, details_loop (length gs) payload literals (blen pre) (blen lpre) out s =
      (Ok (blen lpre + blen (literals_of gs), out + segments_size gs), s') /\
    emitted s s' o /\ s'.2.2 = [] /\ blen o = segments_size gs /\ window s'.1 = segments_run (window s.1) gs.
Proof.
  revert pre lpre out s. induction gs as [|g gs IH]; intros pre lpre out s Hs Hg Ho Ep El Hbl Hsz Hroom.
  { exists s, []. cbn [details_loop length segments_size]. change (blen (literals_of [])) with 0. rewrite !Z.add_0_r.
    split; [done|]. split; [by apply emitted_refl|]. split; [apply Hroom|done]. }
  destruct Hg as [Hg Hgs]. pose proof Hg as (Hb & Hl & Hoff & Hout & Hfit).
  pose proof (segments_size_nonneg _ _ _ Hgs) as Hge. destruct Hroom as [Hh Hroom]. cbn [segments_size] in Hroom.
  pose proof (blen_nonneg (sg_literals g)). pose proof (blen_nonneg (window s.1)).
  cbn [length details_loop]. cbn [details_enc] in Ep. set (rest := details_enc _ gs) in Ep.
  rewrite <- app_assoc in Ep. rewrite Ep, zdrop_app_blen.
  destruct (detail_read out g (rest ++ post)) as (-> & -> & ->);
    [unfold is_u16, is_u32, RDP_BULK_RDP61_HISTORY_SIZE in *; lia..|].
  rewrite !bind_lift, bind_require. set (out1 := out + blen (sg_literals g)).
  destruct (Z.ltb_spec out1 out); [lia|]. cbn [negb]. rewrite literals_of_cons, <- app_assoc in El.
  destruct (segment_emitted g literals lpre (literals_of gs ++ lpost) out s Hs Hg Ho El Hbl Hsz)
    as (s1 & s2 & o & E1 & E2 & He & Hh2 & Bo & W); [split; [done|lia]|].
  fold out1 in E1, E2. rewrite (bind_ok _ _ _ _ _ E1), (bind_ok _ _ _ _ _ E2).
  pose proof (emitted_length _ _ _ Hs He) as L2.
  destruct (IH (pre ++ detail_enc out g) (lpre ++ sg_literals g) (out1 + sg_length g) s2)
    as (s' & o' & E & He' & Hh' & Bo' & W'); try done.
  - by eapply emitted_ready.
  - by rewrite W.
  - lia.
  - subst rest. by rewrite <- app_assoc.
  - by rewrite <- app_assoc.
  - split; [done|lia].
  - exists s', (o ++ o'). rewrite !blen_app in E. change (blen (detail_enc out g)) with 8 in E.
    rewrite <- Ep. unfold RDP_BULK_RDP61_MATCH_SIZE. rewrite E. cbn [segments_size].
    split; [rewrite literals_of_cons, blen_app; subst out1; do 3 f_equal; lia|].
    split; [by eapply emitted_trans|]. split; [done|]. split; [rewrite blen_app; lia|]. by rewrite W', W.
Qed.

(** ** Level 1 of a packet *)

#[local] Transparent zeros61.
Lemma blen_zeros61 : blen zeros61 = RDP_BULK_RDP61_HISTORY_SIZE.
Proof. unfold zeros61. rewrite blen_replicate. apply Z2Nat.id. by unfold RDP_BULK_RDP61_HISTORY_SIZE. Qed.
Lemma bytes_zeros61 : bytes zeros61.
Proof.
  unfold zeros61. generalize (Z.to_nat RDP_BULK_RDP61_HISTORY_SIZE). intros n. apply Forall_replicate.
  by unfold is_byte.
Qed.
#[local] Opaque zeros61.

Lemma state_ensure61_spec st b h :
  rdp61_wf st ->
  (exists h', rdp_bulk_rdp61_state_ensure (st, (b, h)) = (Err LIBRDP_STATUS_NO_MEMORY, (st, (b, h'))) /\ h <> []) \/
  (exists st' h', rdp_bulk_rdp61_state_ensure (st, (b, h)) = (Ok tt, (st', (b, h'))) /\
    rdp61_live st' /\ window st' = window st /\ (h = [] -> h' = [])).
Proof.
  intros Hwf. unfold rdp_bulk_rdp61_state_ensure. rewrite bind_gets. cbn [fst].
  destruct (s61_history st) as [hist|] eqn:Eh.
  { right. exists st, h. split; [done|]. split; [|done]. by split; [|rewrite Eh]. }
  destruct Hwf as [Ho Hh]. rewrite Eh in Hh. rewrite bind_on_snd. unfold alloc, heap_alloc.
  destruct h as [|[] h]; cbn [fst snd].
  3: left; by exists h.
  all: right; eexists _, _; split; [reflexivity|]; (split; [|split; [|done]]).
  all: try (split; [split; cbn [s61_history s61_write_offset]; [done|by split; [apply blen_zeros61|apply bytes_zeros61]]|by eexists]).
  all: unfold window; cbn [hist_offset hist_cells rdp61_history s61_write_offset s61_history default id]; cbn [fst]; by rewrite Hh, Eh.
Qed.

Definition front_window61 (l1_flags : Z) (win : list Z) : list Z :=
  if has_flag l1_flags RDP_BULK_RDP61_L1_PACKET_AT_FRONT then [] else win.

Lemma reset_live61 c st : rdp61_live st ->
  rdp61_live (rdp_bulk_rdp61_state_reset c st) /\ window (rdp_bulk_rdp61_state_reset c st) = [].
Proof.
  intros [[Ho Hh] [h Eh]]. unfold rdp_bulk_rdp61_state_reset. rewrite Eh in *. split; [|done].
  split; [|by eexists]. split; cbn [s61_history s61_write_offset].
  - by unfold RDP_BULK_RDP61_HISTORY_SIZE.
  - destruct c; [by split; [apply blen_zeros61|apply bytes_zeros61]|done].
Qed.
Lemma front61_spec l1_flags st {A} (k : rdp61 A) w :
  rdp61_live st ->
  exists st', rdp61_live st' /\ window st' = front_window61 l1_flags (window st) /\
    ((if has_flag l1_flags RDP_BULK_RDP61_L1_PACKET_AT_FRONT
      then on_fst (modify (rdp_bulk_rdp61_state_reset true)) else mret tt);; k) (st, w) = k (st', w).
Proof.
  intros Hl. unfold front_window61. destruct (has_flag _ _); [|by exists st].
  destruct (reset_live61 true st Hl) as [H1 H2]. by eexists.
Qed.

(** From [s], a packet that succeeds extends window and output alike; one that
    fails leaves the window as it was (the output may keep some bytes). *)
Definition level1_post {S} (part : S -> rdp_bulk_rdp61_state) (win : list Z) (b : rdp_buffer)
    (p : res unit * (S * wstate)) : Prop :=
  rdp61_wf (part p.2.1) /\ buffer_wf p.2.2.1 /\
  exists out, contents p.2.2.1 = contents b ++ out /\
    match p.1 with
    | Ok _ => window (part p.2.1) = win ++ out
    | Err e => (e = LIBRDP_STATUS_PROTOCOL_ERROR \/ e = LIBRDP_STATUS_NO_MEMORY) /\ window (part p.2.1) = win
    | Fault => False
    end.

Lemma restore61_spec {A} (Q : A -> Prop) s (m : rdp61 A) :
  ready61 s -> post61 Q s (m s) ->
  level1_post id (window s.1) s.2.1 (restore61 (s61_write_offset s.1) m s).
Proof.
  intros Hs [Hp [out [G Hb Hc]]]. unfold restore61, level1_post. pose proof (proj1 Hs) as Hl.
  destruct (m s) as [[a|e|] [st' [b' h']]]; cbn [fst snd id] in *; [| |done].
  - split; [apply G|]. split; [done|]. exists out. split; [done|apply G].
  - split.
    + destruct G as [[[_ Hh] [hist Eh]] _ _]. split; cbn [set_offset61 s61_write_offset s61_history].
      * apply Hl.
      * by rewrite Eh in *.
    + split; [done|]. exists out. split; [done|]. split; [done|].
      exact (@grown_restored _ _ rdp61_history s.1 st' out Hl G).
Qed.
Lemma level1_err s e : ready61 s -> e = LIBRDP_STATUS_PROTOCOL_ERROR \/ e = LIBRDP_STATUS_NO_MEMORY ->
  level1_post id (window s.1) s.2.1 (Err e, s).
Proof.
  intros [Hl Hb] He. split; [apply Hl|]. split; [done|]. exists []. by rewrite app_nil_r.
Qed.

Lemma post61_any {A} (Q : A -> Prop) s p : post61 Q s p -> post61 (fun _ => True) s p.
Proof. intros [Hp He]. split; [by destruct p.1|done]. Qed.

(** The part of the function after the reset. *)
Definition level1_body (l1_flags : Z) (payload : list Z) (payload_len : Z) : rdp61 unit :=
  start_offset ← gets (fun s => s61_write_offset s.1);
  if has_flag l1_flags RDP_BULK_RDP61_L1_NO_COMPRESSION then
    restore61 start_offset (rdp_bulk_rdp61_emit_literals payload 0 payload_len 0)
  else
    require (negb (payload_len <? 2)) LIBRDP_STATUS_PROTOCOL_ERROR;;
    match_count ← lift (rdp_bulk_read_u16_le payload);
    let details_len := size_t (match_count * RDP_BULK_RDP61_MATCH_SIZE) in
    require (negb ((match_count =? 0) || (payload_len <? size_t (2 + details_len))))
      LIBRDP_STATUS_PROTOCOL_ERROR;;
    let literals := zdrop (2 + details_len) payload in
    restore61 start_offset (
      '(literal_offset, output_offset) ← details_loop (Z.to_nat match_count) payload literals 2 0 0;
      rdp_bulk_rdp61_emit_literals literals literal_offset (blen literals - literal_offset) output_offset).

Lemma level1_body_safe l1_flags payload s :
  ready61 s -> bytes payload -> blen payload <= SIZE_MAX ->
  level1_post id (window s.1) s.2.1 (level1_body l1_flags payload (blen payload) s).
Proof.
  intros Hs Hb Hsz. pose proof (blen_nonneg payload). unfold level1_body. rewrite bind_gets.
  destruct (has_flag _ _).
  { eapply restore61_spec; [done|]. apply emit_literals_spec; done || lia. }
  rewrite bind_require. destruct (Z.ltb_spec (blen payload) 2); cbn [negb]; [by apply level1_err; [|left]|].
  destruct (read_u16_safe payload) as (mc & -> & Hmc); [lia|done|]. rewrite bind_lift. unfold is_u16 in Hmc.
  unfold RDP_BULK_RDP61_MATCH_SIZE.
  assert (E : size_t (mc * 8) = mc * 8) by (unfold size_t; bits_lia). rewrite E.
  assert (E' : size_t (2 + mc * 8) = 2 + mc * 8) by (unfold size_t; bits_lia). rewrite E', bind_require.
  destruct (Z.eqb_spec mc 0); cbn [orb negb]; [by apply level1_err; [|left]|].
  destruct (Z.ltb_spec (blen payload) (2 + mc * 8)); cbn [negb]; [by apply level1_err; [|left]|].
  set (literals := zdrop _ payload). assert (bytes literals) by by apply Forall_zdrop.
  assert (blen literals <= blen payload) by (subst literals; rewrite blen_zdrop by lia; lia).
  pose proof (blen_nonneg literals).
  apply (restore61_spec (fun _ => True)); [done|]. eapply post61_bind.
  - apply details_loop_safe; done || lia.
  - intros [lo out] s' Hlo Hs'. cbn [fst] in Hlo.
    eapply post61_any, (emit_literals_spec literals lo _ out s'); done || lia.
Qed.

(** The outcome of level 1 for a packet with these flags, from a window [win]. *)
Definition outcome61 {S} (part : S -> rdp_bulk_rdp61_state) (l1_flags : Z) (win : list Z) (b : rdp_buffer)
    (p : res unit * (S * wstate)) : Prop :=
  exists win', (win' = front_window61 l1_flags win \/ win' = win /\ is_ok p.1 = false) /\ level1_post part win' b p.

Lemma level1_fails st b h win l1_flags e :
  rdp61_wf st -> buffer_wf b -> e = LIBRDP_STATUS_PROTOCOL_ERROR \/ e = LIBRDP_STATUS_NO_MEMORY ->
  window st = win -> outcome61 id l1_flags win b (Err e, (st, (b, h))).
Proof.
  intros Hwf Hb He Hw. exists win. split; [by right|]. split; [done|]. split; [done|]. exists [].
  by rewrite app_nil_r.
Qed.

Lemma level1_safe l1_flags flags payload st b h :
  let d := l1_flags :: flags :: payload in
  rdp61_wf st -> buffer_wf b -> bytes payload -> blen d <= SIZE_MAX ->
  outcome61 id l1_flags (window st) b (rdp_bulk_rdp61_decompress_level1 (View d) (st, (b, h))).
Proof.
  intros d Hwf Hb Hby Hsz. unfold rdp_bulk_rdp61_decompress_level1. rewrite bind_require.
  pose proof (blen_nonneg payload). assert (Hd : blen d = 2 + blen payload) by (subst d; zlen).
  cbn [view_null view_len view_bytes orb]. destruct (Z.ltb_spec (blen d) 2); [lia|]. cbn [negb].
  destruct (state_ensure61_spec st b h Hwf) as [(h' & E & _)|(st1 & h1 & E & Hl & Ew & _)].
  { rewrite (bind_err _ _ _ _ _ E). by apply level1_fails; [..|right|]. }
  rewrite (bind_ok _ _ _ _ _ E). destruct (rd_ok d 0) as (v & -> & Ev); [lia|]. injection Ev as <-.
  rewrite bind_lift, bind_require. destruct (negb _).
  2: { apply level1_fails; [apply Hl|done|by left|done]. }
  destruct (front61_spec l1_flags st1 (level1_body l1_flags payload (blen payload)) (b, h1) Hl) as (st2 & Hl2 & W2 & E2).
  exists (window st2). split; [left; by rewrite W2, Ew|].
  change (zdrop 2 d) with payload. replace (blen d - 2) with (blen payload) by lia.
  match goal with |- level1_post _ _ _ ?p => replace p with (level1_body l1_flags payload (blen payload) (st2, (b, h1))) end.
  apply level1_body_safe; [done|done|lia].
Qed.

(** ** Level 2 *)

Lemma mppc_bytes_window st : mppc_wf st -> bytes (window st).
Proof.
  intros [_ _ Hh]. unfold window. cbn [hist_cells mppc_history]. apply Forall_ztake.
  destruct (mp_history st); [apply Hh|by apply Forall_nil_2].
Qed.

Definition inner_packet (l1_flags flags : Z) (d : list Z) : M (rdp_bulk_mppc_state * wstate) rdp_buffer :=
  with_inner (
    on_snd (rdp_buffer_append_u8 l1_flags);;
    on_snd (rdp_buffer_append_u8 flags);;
    rdp_bulk_mppc_decompress flags (View d)).

(** Two bytes, then what [m] appends. *)
Lemma with_inner_spec {S} (m : M (S * wstate) unit) v1 v2 st b (h : heap) :
  (exists h' : heap, with_inner (on_snd (rdp_buffer_append_u8 v1);; on_snd (rdp_buffer_append_u8 v2);; m) (st, (b, h)) =
     (Err LIBRDP_STATUS_NO_MEMORY, (st, (b, h'))) /\ h <> []) \/
  (exists inner (h1 : heap), buffer_wf inner /\ contents inner = [v1; v2] /\ (h = [] -> h1 = []) /\
     with_inner (on_snd (rdp_buffer_append_u8 v1);; on_snd (rdp_buffer_append_u8 v2);; m) (st, (b, h)) =
     (match m (st, (inner, h1)) with
      | (Ok _, (st', (inner', h'))) => (Ok inner', (st', (b, h')))
      | (Err e, (st', (_, h'))) => (Err e, (st', (b, h')))
      | (Fault, (st', (_, h'))) => (Fault, (st', (b, h')))
      end)).
Proof.
  unfold with_inner. rewrite bind_on_snd.
  destruct (append_atomic [v1] (View [v1]) eq_refl eq_refl rdp_buffer_init h buffer_init_wf)
    as (r & b1 & h1 & E1 & Hwf1 & Hr1 & Hok1). unfold rdp_buffer_append_u8 at 1 3. rewrite E1.
  destruct Hr1 as [([] & -> & _ & C1)|[-> C1]].
  2: { left. exists h1. split; [done|]. intros Hh. by destruct (Hok1 Hh ltac:(done)). }
  rewrite bind_on_snd.
  destruct (append_atomic [v2] (View [v2]) eq_refl eq_refl b1 h1 Hwf1)
    as (r & b2 & h2 & E2 & Hwf2 & Hr2 & Hok2). unfold rdp_buffer_append_u8. rewrite E2.
  assert (L1 : b_length b1 = 1) by (rewrite <- (blen_contents b1 Hwf1), C1; done).
  assert (Hh1 : h = [] -> h1 = []) by (intros Hh; by apply (Hok1 Hh)).
  assert (Hok : h = [] -> is_ok r = true /\ h2 = [])
    by (intros Hh; apply Hok2; [auto|rewrite L1; change (blen [v2]) with 1; lia]).
  destruct Hr2 as [([] & -> & _ & C2)|[-> C2]].
  - right. exists b2, h2. split; [done|]. split; [by rewrite C2, C1|]. split; [intros Hh; by apply Hok|done].
  - left. exists h2. split; [done|]. intros Hh. by destruct (Hok Hh).
Qed.

Lemma inner_packet_safe l1_flags flags d st b h :
  mppc_wf st -> bytes d ->
  exists r st' h', inner_packet l1_flags flags d (st, (b, h)) = (r, (st', (b, h'))) /\
    mppc_wf st' /\ mp_level st' = mp_level st /\
    match r with
    | Ok inner => buffer_wf inner /\ exists out, contents inner = l1_flags :: flags :: out /\ bytes out
    | Err e => e = LIBRDP_STATUS_PROTOCOL_ERROR \/ e = LIBRDP_STATUS_NO_MEMORY
    | Fault => False
    end.
Proof.
  intros Hwf Hd. unfold inner_packet.
  destruct (with_inner_spec (rdp_bulk_mppc_decompress flags (View d)) l1_flags flags st b h)
    as [(h' & -> & _)|(inner & h1 & Hi & Ci & _ & ->)].
  { exists (Err LIBRDP_STATUS_NO_MEMORY), st, h'. do 3 (split; [done|]). by right. }
  destruct (mppc_step flags d st inner h1 Hwf Hi) as (r & st' & i' & h' & -> & Hwf' & El' & Hi' & Hp).
  destruct r as [[]|e|]; [| |done].
  - exists (Ok i'), st', h'. do 3 (split; [done|]). split; [done|]. destruct Hp as (out & Co & Hw).
    exists out. split; [by rewrite Co, Ci|]. destruct (has_flag flags _); [|by destruct Hw as [-> _]].
    pose proof (mppc_bytes_window st' Hwf') as Hb. rewrite Hw in Hb. by apply Forall_app in Hb as [_ Hb].
  - exists (Err e), st', h'. do 3 (split; [done|]). destruct Hp as [_ [[-> _]|[-> _]]]; auto.
Qed.

(** What RDP 6.1 decompression promises of its two histories and the output. *)
Definition wf61 (p : rdp_bulk_rdp61_state * rdp_bulk_mppc_state) : Prop :=
  rdp61_wf p.1 /\ mppc_wf p.2 /\ mp_level p.2 = 1.

Lemma on_part_run {D T A} (get : D -> T) (set : T -> D -> D) (m : M (T * wstate) A) d w r t w' :
  m (get d, w) = (r, (t, w')) -> on_part get set m (d, w) = (r, (set t d, w')).
Proof. unfold on_part. by intros ->. Qed.

(** Level 1 on the buffer of level 2, or on the packet itself. *)
Lemma level1_part st l2 b h l1_flags flags payload :
  let d := l1_flags :: flags :: payload in
  rdp61_wf st -> buffer_wf b -> bytes payload -> blen d <= SIZE_MAX ->
  exists r st' b' h',
    on_part fst (fun st (p : rdp_bulk_rdp61_state * rdp_bulk_mppc_state) => (st, p.2)) (rdp_bulk_rdp61_decompress_level1 (View d)) ((st, l2), (b, h)) =
      (r, ((st', l2), (b', h'))) /\
    outcome61 id l1_flags (window st) b (r, (st', (b', h'))).
Proof.
  intros d Hwf Hb Hby Hsz. pose proof (level1_safe l1_flags flags payload st b h Hwf Hb Hby Hsz) as Ho.
  fold d in Ho. destruct (rdp_bulk_rdp61_decompress_level1 (View d) (st, (b, h))) as [r [st' [b' h']]] eqn:E.
  exists r, st', b', h'. split; [|done]. by apply (on_part_run fst (fun st (p : rdp_bulk_rdp61_state * rdp_bulk_mppc_state) => (st, p.2))) with (d := (st, l2)).
Qed.

(** The outcome of a packet: window and output are extended alike, or the
    packet fails and the window is the one before it, or empty. *)
Definition packet_post61 (v : view) (win : list Z) (b : rdp_buffer) (r : res unit)
    (p' : rdp_bulk_rdp61_state * rdp_bulk_mppc_state) (b' : rdp_buffer) : Prop :=
  wf61 p' /\ buffer_wf b' /\ exists out, contents b' = contents b ++ out /\
  match r with
  | Ok _ => exists l1_flags, rd (view_bytes v) 0 = Ok l1_flags /\ window p'.1 = front_window61 l1_flags win ++ out
  | Err e => (e = LIBRDP_STATUS_PROTOCOL_ERROR \/ e = LIBRDP_STATUS_NO_MEMORY) /\
             (window p'.1 = win \/ window p'.1 = [])
  | Fault => False
  end.

Lemma packet61_err v p b e : wf61 p -> buffer_wf b ->
  e = LIBRDP_STATUS_PROTOCOL_ERROR \/ e = LIBRDP_STATUS_NO_MEMORY -> packet_post61 v (window p.1) b (Err e) p b.
Proof. intros Hp Hb He. split; [done|]. split; [done|]. exists []. rewrite app_nil_r. auto. Qed.

Lemma level1_packet v st l2 b h l1_flags flags payload :
  rd (view_bytes v) 0 = Ok l1_flags ->
  wf61 (st, l2) -> buffer_wf b -> bytes payload -> blen (l1_flags :: flags :: payload) <= SIZE_MAX ->
  exists r p' b' h',
    on_part fst (fun st (p : rdp_bulk_rdp61_state * rdp_bulk_mppc_state) => (st, p.2))
      (rdp_bulk_rdp61_decompress_level1 (View (l1_flags :: flags :: payload))) ((st, l2), (b, h)) =
      (r, (p', (b', h'))) /\
    packet_post61 v (window st) b r p' b'.
Proof.
  intros Ev (Hwf & Hwf2 & El2) Hb Hby Hsz.
  destruct (level1_part st l2 b h l1_flags flags payload Hwf Hb Hby Hsz)
    as (r & st' & b' & h' & -> & win' & Hw & Hwf' & Hb' & out & Hc & Hr). cbn [fst snd id] in *.
  exists r, (st', l2), b', h'. split; [done|]. split; [done|]. split; [done|]. exists out. split; [done|].
  destruct r as [[]|e|]; [| |done].
  - exists l1_flags. split; [done|]. destruct Hw as [<-|[_ Hw]]; [done|done].
  - destruct Hr as [He Hr]. split; [done|]. cbn [fst snd id] in Hr |- *. rewrite Hr. destruct Hw as [->|[-> _]]; [|by left].
    unfold front_window61. destruct (has_flag _ _); auto.
Qed.

Lemma rdp61_step v p b h :
  wf61 p -> buffer_wf b -> bytes (view_bytes v) -> view_len v <= SIZE_MAX ->
  exists r p' b' h', rdp_bulk_rdp61_decompress v (p, (b, h)) = (r, (p', (b', h'))) /\
    packet_post61 v (window p.1) b r p' b'.
Proof.
  intros Hp Hb Hby Hsz. pose proof Hp as (Hwf & Hwf2 & El2). destruct p as [st l2]. cbn [fst snd] in *.
  unfold rdp_bulk_rdp61_decompress. rewrite bind_require.
  destruct v as [n|d]; cbn [view_null view_len view_bytes orb negb] in *.
  { eexists _, _, b, h. split; [done|]. by apply packet61_err; [..|left]. }
  destruct d as [|l1_flags [|flags d]];
    [eexists _, _, b, h; (split; [done|]); by apply packet61_err; [..|left]..|].
  destruct (Z.ltb_spec (blen (l1_flags :: flags :: d)) 2); [zlen|]. cbn [negb].
  assert (E0 : rd (l1_flags :: flags :: d) 0 = Ok l1_flags) by (apply rd_lookup; done).
  assert (E1 : rd (l1_flags :: flags :: d) 1 = Ok flags) by (apply rd_lookup; done).
  assert (Hd : bytes d) by (by do 2 apply Forall_inv_tail in Hby).
  rewrite E0, bind_lift. destruct (negb _).
  { by apply level1_packet. }
  rewrite E1, bind_lift. change (zdrop 2 (l1_flags :: flags :: d)) with d.
  destruct (inner_packet_safe l1_flags flags d l2 b h Hwf2 Hd) as (r & l2' & h1 & Ei & Hwf2' & El2' & Hr).
  pose proof (on_part_run snd (fun l2 (p : rdp_bulk_rdp61_state * rdp_bulk_mppc_state) => (p.1, l2)) _ (st, l2) _ _ _ _ Ei)
    as Ep. cbn [fst] in Ep. unfold inner_packet in Ep.
  assert (Hp' : wf61 (st, l2')) by (split; [done|split; [done|cbn; congruence]]).
  destruct r as [inner|e|]; [| |done].
  - destruct Hr as (Hi & out & Ci & Hout). rewrite (bind_ok _ _ _ _ _ Ep).
    destruct (buffer_view_contents inner Hi) as [Vb Vl]. unfold buffer_view in *.
    assert (Hlen : blen (contents inner) <= SIZE_MAX) by (rewrite blen_contents by done; by apply buffer_length_max).
    rewrite Ci in *. destruct (b_data inner) as [blk|]; cbn [view_bytes view_len] in *; [|done].
    rewrite Vb. by apply level1_packet.
  - rewrite (bind_err _ _ _ _ _ Ep). eexists _, _, b, h1. split; [done|]. by apply packet61_err.
Qed.

(** ** A packet that encodes segments *)

Definition l1_compressed_flags : list Z := [0x01; 0x05; 0x11; 0x15].

(** The segments and the literals after them fit the window [win]. *)
Record l1_ok (win : list Z) (gs : list segment) (trailing : list Z) : Prop := {
  l1_segments : segments_ok win 0 gs;
  l1_count : 1 <= blen gs < 65536;
  l1_trailing : bytes trailing;
  l1_window : blen win <= RDP_BULK_RDP61_HISTORY_SIZE;
  l1_fits : blen win + segments_size gs + blen trailing <= RDP_BULK_RDP61_HISTORY_SIZE;
}.

Lemma literals_of_facts win out gs : segments_ok win out gs ->
  bytes (literals_of gs) /\ blen (literals_of gs) <= segments_size gs.
Proof.
  revert win out. induction gs as [|g gs IH]; intros win out Hg; [by split; [apply Forall_nil_2|]|].
  destruct Hg as [(Hb & Hl & _) Hgs]. destruct (IH _ _ Hgs) as [Hbs Hls]. rewrite literals_of_cons, blen_app.
  cbn [segments_size]. split; [by apply Forall_app_2|lia].
Qed.
Lemma l1_size win gs trailing : l1_ok win gs trailing -> blen (l1_payload gs trailing) <= SIZE_MAX - 2.
Proof.
  intros [Hg Hc Ht Hw Hf]. destruct (literals_of_facts _ _ _ Hg) as [_ Hl]. unfold l1_payload.
  rewrite !blen_app, blen_le16, blen_details_enc. pose proof (blen_nonneg win). pose proof (blen_nonneg trailing).
  pose proof (segments_size_nonneg _ _ _ Hg).
  unfold SIZE_MAX, RDP_BULK_RDP61_HISTORY_SIZE in *. lia.
Qed.

Lemma level1_body_lz l1_flags gs trailing s :
  ready61 s -> has_flag l1_flags RDP_BULK_RDP61_L1_NO_COMPRESSION = false -> l1_ok (window s.1) gs trailing ->
  room61 s (segments_size gs + blen trailing) ->
  let payload := l1_payload gs trailing in
  exists s' o, level1_body l1_flags payload (blen payload) s = (Ok tt, s') /\ emitted s s' o /\ s'.2.2 = [] /\
    window s'.1 = segments_run (window s.1) gs ++ trailing.
Proof.
  intros Hs Hf Hok Hroom payload. pose proof (l1_size _ _ _ Hok) as Hsz. fold payload in Hsz.
  destruct Hok as [Hg Hc Ht Hw Hfit]. destruct (literals_of_facts _ _ _ Hg) as [Hbl Hll].
  set (literals := literals_of gs ++ trailing). assert (Hbytes : bytes literals) by by apply Forall_app_2.
  pose proof (blen_details_enc 0 gs) as Hd. pose proof (blen_nonneg trailing). pose proof (blen_nonneg (window s.1)).
  assert (Ll : blen literals = blen (literals_of gs) + blen trailing) by apply blen_app.
  assert (Lp : blen payload = 2 + 8 * blen gs + blen literals)
    by (subst payload literals; unfold l1_payload; rewrite !blen_app, blen_le16, Hd; lia).
  unfold level1_body. rewrite bind_gets, Hf, bind_require. pose proof (blen_nonneg (literals_of gs)).
  destruct (Z.ltb_spec (blen payload) 2); [lia|]. cbn [negb].
  assert (Er : rdp_bulk_read_u16_le payload = Ok (blen gs)) by (apply read_u16_le16; unfold is_u16; lia).
  rewrite Er, bind_lift. unfold RDP_BULK_RDP61_MATCH_SIZE.
  assert (E : size_t (blen gs * 8) = blen gs * 8) by (unfold size_t; bits_lia). rewrite E.
  assert (E' : size_t (2 + blen gs * 8) = 2 + blen gs * 8) by (unfold size_t; bits_lia). rewrite E', bind_require.
  destruct (Z.eqb_spec (blen gs) 0); [lia|]. destruct (Z.ltb_spec (blen payload) (2 + blen gs * 8)); [lia|].
  cbn [orb negb].
  assert (El : zdrop (2 + blen gs * 8) payload = literals).
  { unfold payload, l1_payload. replace (2 + blen gs * 8) with (blen (le16 (blen gs) ++ details_enc 0 gs))
      by (rewrite blen_app, blen_le16, Hd; lia). rewrite app_assoc. apply zdrop_app_blen. }
  rewrite El. unfold restore61.
  destruct (details_loop_lz gs payload (le16 (blen gs)) literals literals [] trailing 0 s)
    as (s1 & o1 & E1 & He1 & Hh1 & Bo1 & W1); try done; try lia.
  { destruct Hroom. split; [done|lia]. }
  change (blen (le16 (blen gs))) with 2 in E1. change (blen []) with 0 in E1. rewrite !Z.add_0_l in E1.
  replace (Z.to_nat (blen gs)) with (length gs) by (unfold blen; lia). rewrite (bind_ok _ _ _ _ _ E1).
  pose proof (emitted_length _ _ _ Hs He1) as L1.
  pose proof (@grown_offset _ _ rdp61_history _ _ _ (proj1 Hs) (emitted_grown _ _ _ He1)) as O1.
  cbn [hist_offset rdp61_history] in O1. rewrite <- (blen_window61 s.1) in O1 by apply Hs.
  destruct (emit_literals_spec literals (blen (literals_of gs)) (blen trailing) (segments_size gs) s1)
    as [_ (s2 & E2 & He2 & Hh2)]; try done; try lia.
  { by eapply emitted_ready. }
  { destruct Hroom. split; [done|lia]. }
  { unfold SIZE_MAX, RDP_BULK_RDP61_HISTORY_SIZE in *. lia. }
  replace (blen literals - blen (literals_of gs)) with (blen trailing) by lia.
  rewrite E2. exists s2. eexists. split; [done|]. split; [by eapply emitted_trans|]. split; [done|].
  rewrite (grown_window _ _ _ (emitted_grown _ _ _ He2)), W1. f_equal.
  unfold literals. rewrite zdrop_app_blen. by apply ztake_all.
Qed.

Lemma level1_lz l1_flags flags gs trailing st b :
  In l1_flags l1_compressed_flags -> rdp61_wf st -> buffer_wf b ->
  let win := front_window61 l1_flags (window st) in
  l1_ok win gs trailing -> b_length b + segments_size gs + blen trailing <= 2 ^ 63 ->
  exists st' b' out,
    rdp_bulk_rdp61_decompress_level1 (View (l1_flags :: flags :: l1_payload gs trailing)) (st, (b, [])) =
      (Ok tt, (st', (b', []))) /\
    rdp61_wf st' /\ buffer_wf b' /\ contents b' = contents b ++ out /\
    window st' = win ++ out /\ window st' = segments_run win gs ++ trailing.
Proof.
  intros Hin Hwf Hb win Hok Hroom. unfold rdp_bulk_rdp61_decompress_level1. rewrite bind_require.
  set (payload := l1_payload gs trailing). set (d := l1_flags :: flags :: payload).
  pose proof (blen_nonneg payload). assert (Hd : blen d = 2 + blen payload) by (subst d; zlen).
  cbn [view_null view_len view_bytes orb]. destruct (Z.ltb_spec (blen d) 2); [lia|]. cbn [negb].
  destruct (state_ensure61_spec st b [] Hwf) as [(h' & _ & Hh)|(st1 & h1 & E & Hl & Ew & Hh)]; [done|].
  rewrite (bind_ok _ _ _ _ _ E). destruct (rd_ok d 0) as (v & -> & Ev); [lia|]. injection Ev as <-.
  rewrite (Hh eq_refl), bind_lift, bind_require.
  assert (Hnc : has_flag l1_flags RDP_BULK_RDP61_L1_NO_COMPRESSION = false)
    by (destruct Hin as [<-|[<-|[<-|[<-|[]]]]]; done).
  destruct (negb _) eqn:Hv; [|by destruct Hin as [<-|[<-|[<-|[<-|[]]]]]]. clear Hv.
  destruct (front61_spec l1_flags st1 (level1_body l1_flags payload (blen payload)) (b, []) Hl) as (st2 & Hl2 & W2 & E2).
  rewrite Ew in W2. fold win in W2. rewrite <- W2 in Hok |- *.
  destruct (level1_body_lz l1_flags gs trailing (st2, (b, []))) as ([st' [b' h']] & o & Eb & He & Hh' & W); try done.
  { split; [done|cbn [snd fst]; lia]. }
  cbn [fst snd] in *. subst h'. exists st', b', o. split.
  - change (zdrop 2 d) with payload. replace (blen d - 2) with (blen payload) by lia. exact (eq_trans E2 Eb).
  - destruct He as [G Hb' Hc]. split; [apply G|]. split; [done|]. split; [done|]. split; [apply G|done].
Qed.

(** [body] carries the level 1 payload: as it is, or compressed by level 2,
    whose history is [win2] when the packet arrives. *)
Definition carries (l1_flags flags : Z) (win2 payload body : list Z) : Prop :=
  if has_flag l1_flags RDP_BULK_RDP61_L1_INNER_COMPRESSION then
    has_flag flags RDP_BULK_PACKET_COMPRESSED = true /\
    exists ts, tokens_ok 65536 win2 ts /\ lz_run win2 ts = win2 ++ payload /\ body = pack_bits (tokens_enc 1 ts)
  else body = payload.

(** Level 2 gives level 1 the two flag bytes and the payload. *)
Lemma inner_packet_lz l1_flags flags payload body st b (h : heap) :
  h = [] -> mppc_wf st -> mp_level st = 1 ->
  has_flag l1_flags RDP_BULK_RDP61_L1_INNER_COMPRESSION = true ->
  carries l1_flags flags (packet_window flags st) payload body ->
  exists inner st', inner_packet l1_flags flags body (st, (b, h)) = (Ok inner, (st', (b, h))) /\
    mppc_wf st' /\ mp_level st' = 1 /\ buffer_wf inner /\ contents inner = l1_flags :: flags :: payload /\
    window st' = packet_window flags st ++ payload.
Proof.
  intros Hnil Hwf El Hi. unfold carries. rewrite Hi. intros (Hf & ts & Hts & Hlz & ->).
  pose proof (mppc_wf_size st Hwf) as Hsize. rewrite El in Hsize. change (negb (1 =? 0)) with true in Hsize.
  unfold inner_packet. set (body := pack_bits _).
  destruct (with_inner_spec (rdp_bulk_mppc_decompress flags (View body)) l1_flags flags st b h)
    as [(h' & _ & Hh)|(inner & h1 & Hinner & Ci & Hh & ->)]; [done|]. specialize (Hh Hnil).
  destruct (mppc_run flags ts st inner h1 Hwf Hinner Hf) as (r & st' & i' & h' & out & E & Hwf' & El' & Hi' & Ho & Hr & Hok).
  { by rewrite Hsize. }
  rewrite El in E. fold body in E. rewrite E. rewrite Hlz in Ho. apply app_inv_head in Ho. subst out.
  destruct Hok as [-> ->]; [done| |rewrite Hnil].
  { assert (blen payload <= 65536).
    { pose proof (tokens_window_max 65536 ts (packet_window flags st) Hts) as Hm. rewrite Hlz, blen_app in Hm.
      pose proof (blen_nonneg (packet_window flags st)) as Hn.
      assert (blen (packet_window flags st) <= 65536); [|lia].
      unfold packet_window. destruct (_ || _); [done|]. rewrite <- Hsize. by apply window_max. }
    rewrite <- (blen_contents inner Hinner), Ci. change (blen [l1_flags; flags]) with 2. lia. }
  destruct Hr as [(_ & Hc & Hw)|[? _]]; [|done]. exists i', st'. split; [done|]. split; [done|].
  split; [congruence|]. split; [done|]. split; [by rewrite Hc, Ci|]. by rewrite Hw, Hlz.
Qed.

(** C14: RDP 6.1 decompression does what its two levels say: a packet whose
    level 1 payload, sent as it is or compressed by level 2 against its own
    history, lists segments (literals, then a match at an absolute position of
    the 2,000,000 byte window) and the literals after them, appends to the
    output exactly those bytes, which are also what the window gains. *)
Theorem rdp61_lz77 l1_flags flags gs trailing body p b :
  In l1_flags l1_compressed_flags -> wf61 p -> buffer_wf b ->
  let win := front_window61 l1_flags (window p.1) in
  l1_ok win gs trailing ->
  carries l1_flags flags (packet_window flags p.2) (l1_payload gs trailing) body ->
  b_length b + segments_size gs + blen trailing <= 2 ^ 63 ->
  exists p' b' out,
    rdp_bulk_rdp61_decompress (View (l1_flags :: flags :: body)) (p, (b, [])) = (Ok tt, (p', (b', []))) /\
    wf61 p' /\ buffer_wf b' /\ contents b' = contents b ++ out /\
    win ++ out = segments_run win gs ++ trailing /\ window p'.1 = win ++ out.
Proof.
  intros Hin Hp Hb win Hok Hc Hroom. destruct p as [st l2]. pose proof Hp as (Hwf & Hwf2 & El2). cbn [fst snd] in *.
  destruct (level1_lz l1_flags flags gs trailing st b Hin Hwf Hb Hok Hroom)
    as (st' & b' & out & E & Hwf' & Hb' & Hcont & Hw & Hrun).
  unfold rdp_bulk_rdp61_decompress. rewrite bind_require. cbn [view_null view_len view_bytes orb].
  destruct (Z.ltb_spec (blen (l1_flags :: flags :: body)) 2); [zlen|]. cbn [negb].
  assert (E0 : rd (l1_flags :: flags :: body) 0 = Ok l1_flags) by (apply rd_lookup; done).
  assert (E1 : rd (l1_flags :: flags :: body) 1 = Ok flags) by (apply rd_lookup; done).
  rewrite E0, bind_lift. destruct (has_flag l1_flags RDP_BULK_RDP61_L1_INNER_COMPRESSION) eqn:Hi; cbn [negb].
  2: { unfold carries in Hc. rewrite Hi in Hc. subst body. exists (st', l2), b', out.
       split; [by apply (on_part_run fst (fun st p => (st, p.2)) _ (st, l2))|]. split; [done|].
       split; [done|]. split; [done|]. split; [exact (eq_trans (eq_sym Hw) Hrun)|exact Hw]. }
  rewrite E1, bind_lift. change (zdrop 2 (l1_flags :: flags :: body)) with body.
  destruct (inner_packet_lz l1_flags flags (l1_payload gs trailing) body l2 b [] eq_refl Hwf2 El2 Hi Hc)
    as (inner & l2' & Ei & Hwf2' & El2' & Hinner & Ci & _).
  pose proof (on_part_run snd (fun l2 (p : rdp_bulk_rdp61_state * rdp_bulk_mppc_state) => (p.1, l2)) _ (st, l2) _ _ _ _ Ei)
    as Ep. cbn [fst] in Ep. unfold inner_packet in Ep. rewrite (bind_ok _ _ _ _ _ Ep).
  assert (Ev : buffer_view inner = View (l1_flags :: flags :: l1_payload gs trailing)).
  { destruct (buffer_view_contents inner Hinner) as [Vb Vl]. unfold buffer_view in *. rewrite Ci in *.
    destruct (b_data inner); cbn [view_bytes view_len] in *; [by rewrite Vb|done]. }
  rewrite Ev. exists (st', l2'), b', out.
  split; [by apply (on_part_run fst (fun st p => (st, p.2)) _ (st, l2'))|]. split; [done|].
  split; [done|]. split; [done|]. split; [exact (eq_trans (eq_sym Hw) Hrun)|exact Hw].
Qed.

(** ** The dispatcher *)

Record bulk_wf (d : rdp_bulk_decompressor) : Prop := {
  bulk_wf_8k : mppc_wf (bd_mppc8k d) /\ mp_level (bd_mppc8k d) = 0;
  bulk_wf_64k : mppc_wf (bd_mppc64k d) /\ mp_level (bd_mppc64k d) = 1;
  bulk_wf_rdp6 : rdp6_wf (bd_rdp6 d);
  bulk_wf_rdp61 : wf61 (bd_rdp61 d, bd_rdp61_level2 d);
}.

(** The parts of the decompressor a packet of [type] leaves alone. *)
Definition others_unchanged (type : Z) (d d' : rdp_bulk_decompressor) : Prop :=
  (type <> RDP_BULK_TYPE_8K -> bd_mppc8k d' = bd_mppc8k d) /\
  (type <> RDP_BULK_TYPE_64K -> bd_mppc64k d' = bd_mppc64k d) /\
  (type <> RDP_BULK_TYPE_RDP6 -> bd_rdp6 d' = bd_rdp6 d) /\
  (type <> RDP_BULK_TYPE_RDP61 -> bd_rdp61 d' = bd_rdp61 d /\ bd_rdp61_level2 d' = bd_rdp61_level2 d).

Definition bulk_post (flags : Z) (v : view) (d : rdp_bulk_decompressor) (b : rdp_buffer) (r : res unit)
    (d' : rdp_bulk_decompressor) (b' : rdp_buffer) : Prop :=
  bulk_wf d' /\ buffer_wf b' /\ others_unchanged (Z.land flags RDP_BULK_TYPE_MASK) d d' /\
  (Z.land flags RDP_BULK_FLAGS_MASK = 0 -> d' = d) /\
  exists out, contents b' = contents b ++ out /\
  match r with
  | Ok _ => Z.land flags RDP_BULK_FLAGS_MASK = 0 -> out = view_bytes v
  | Err e => Z.land flags RDP_BULK_TYPE_MASK = RDP_BULK_TYPE_RDP61 \/ out = []
  | Fault => False
  end.

Lemma bulk_init_wf : bulk_wf rdp_bulk_decompressor_init.
Proof.
  split; [by split; [apply state_init_wf|]|by split; [apply state_init_wf|]|apply state_init_wf6|].
  split; [by split|split; [apply state_init_wf|done]].
Qed.
Lemma state_reset_wf61 c st : rdp61_wf st -> rdp61_wf (rdp_bulk_rdp61_state_reset c st).
Proof.
  intros Hwf. destruct (s61_history st) as [h|] eqn:Eh; [by apply reset_live61; split; [|rewrite Eh]|].
  unfold rdp_bulk_rdp61_state_reset. rewrite Eh. by split.
Qed.
Lemma mppc_reset_level c st : mp_level (rdp_bulk_mppc_state_reset c st) = mp_level st.
Proof. unfold rdp_bulk_mppc_state_reset. cbn. destruct (mp_history st), c; done. Qed.
Lemma bulk_reset_wf d : bulk_wf d -> bulk_wf (rdp_bulk_decompressor_reset d).
Proof.
  intros [[H1 E1] [H2 E2] H3 (H4 & H5 & E5)].
  split; unfold wf61; cbn [fst snd rdp_bulk_decompressor_reset bd_mppc8k bd_mppc64k bd_rdp6 bd_rdp61 bd_rdp61_level2];
    rewrite ?mppc_reset_level; auto using state_reset_wf, state_reset_wf6, state_reset_wf61.
Qed.
Lemma bulk_free_wf d : bulk_wf d -> bulk_wf (rdp_bulk_decompressor_free d).
Proof.
  intros [[H1 E1] [H2 E2] H3 (H4 & H5 & E5)].
  split; unfold wf61; cbn [fst snd rdp_bulk_decompressor_free bd_mppc8k bd_mppc64k bd_rdp6 bd_rdp61 bd_rdp61_level2];
    auto using state_free_wf, state_reset_wf6. split; [by split|]. auto using state_free_wf.
Qed.

(** A part that keeps its invariant keeps the whole. *)
Lemma bulk_set_8k s d : bulk_wf d -> mppc_wf s -> mp_level s = 0 -> bulk_wf (set_mppc8k s d).
Proof. intros [H1 H2 H3 H4] Hs Hl. by split. Qed.
Lemma bulk_set_64k s d : bulk_wf d -> mppc_wf s -> mp_level s = 1 -> bulk_wf (set_mppc64k s d).
Proof. intros [H1 H2 H3 H4] Hs Hl. by split. Qed.
Lemma bulk_set_rdp6 s d : bulk_wf d -> rdp6_wf s -> bulk_wf (set_rdp6 s d).
Proof. intros [H1 H2 H3 H4] Hs. by split. Qed.
Lemma bulk_set_rdp61 p d : bulk_wf d -> wf61 p -> bulk_wf (set_rdp61 p d).
Proof. intros [H1 H2 H3 H4] Hs. destruct p. by split. Qed.

Lemma packet_post_out flags d win b r st' b' : packet_post flags d win b r st' b' ->
  exists out, contents b' = contents b ++ out /\
  match r with Ok _ => True | Err _ => out = [] | Fault => False end.
Proof.
  unfold packet_post. destruct r as [[]|e|]; [|intros [Hc _]; exists []; by rewrite app_nil_r|done].
  intros (out & Hc & _). by exists out.
Qed.
Lemma packet_post6_out flags d win cache b r st' b' : packet_post6 flags d win cache b r st' b' ->
  exists out, contents b' = contents b ++ out /\
  match r with Ok _ => True | Err _ => out = [] | Fault => False end.
Proof.
  unfold packet_post6. destruct r as [[]|e|]; [|intros [Hc _]; exists []; by rewrite app_nil_r|done].
  intros (out & Hc & _). by exists out.
Qed.

Lemma bulk_part flags v d b b' r d' out :
  bulk_wf d' -> buffer_wf b' -> others_unchanged (Z.land flags RDP_BULK_TYPE_MASK) d d' ->
  Z.land flags RDP_BULK_FLAGS_MASK <> 0 -> contents b' = contents b ++ out ->
  match r with
  | Ok _ => True
  | Err _ => Z.land flags RDP_BULK_TYPE_MASK = RDP_BULK_TYPE_RDP61 \/ out = []
  | Fault => False
  end -> bulk_post flags v d b r d' b'.
Proof.
  intros Hd Hb Ho Hf Hc Hr. split; [done|]. split; [done|]. split; [done|]. split; [done|].
  exists out. split; [done|]. by destruct r.
Qed.
Lemma bulk_fails flags v d b e : bulk_wf d -> buffer_wf b -> bulk_post flags v d b (Err e) d b.
Proof.
  intros Hd Hb. split; [done|]. split; [done|]. split; [done|]. split; [done|]. exists [].
  rewrite app_nil_r. auto.
Qed.

Lemma mppc_arm get set level flags l d b h :
  mppc_wf (get d) -> mp_level (get d) = level -> buffer_wf b -> Z.land flags RDP_BULK_FLAGS_MASK <> 0 ->
  (forall s, mppc_wf s -> mp_level s = level ->
     bulk_wf (set s d) /\ others_unchanged (Z.land flags RDP_BULK_TYPE_MASK) d (set s d)) ->
  exists r d' b' h', on_part get set (rdp_bulk_mppc_decompress flags (View l)) (d, (b, h)) = (r, (d', (b', h'))) /\
    bulk_post flags (View l) d b r d' b'.
Proof.
  intros Hwf Hl Hb Hf Hset.
  destruct (mppc_step flags l (get d) b h Hwf Hb) as (r & s & b' & h' & E & Hs & El & Hb' & Hp).
  destruct (Hset s Hs ltac:(congruence)) as [Hd' Ho]. exists r, (set s d), b', h'. split; [by apply on_part_run|].
  destruct (packet_post_out _ _ _ _ _ _ _ Hp) as (out & Hc & Hr). eapply bulk_part; try done.
  destruct r; auto.
Qed.
Lemma rdp6_arm flags l d b h :
  bulk_wf d -> buffer_wf b -> bytes l -> Z.land flags RDP_BULK_FLAGS_MASK <> 0 ->
  Z.land flags RDP_BULK_TYPE_MASK = RDP_BULK_TYPE_RDP6 ->
  exists r d' b' h', on_part bd_rdp6 set_rdp6 (rdp_bulk_rdp6_decode flags (View l)) (d, (b, h)) = (r, (d', (b', h'))) /\
    bulk_post flags (View l) d b r d' b'.
Proof.
  intros Hd Hb Hby Hf T.
  destruct (rdp6_step flags l (bd_rdp6 d) b h (bulk_wf_rdp6 d Hd) Hb Hby) as (r & s & b' & h' & E & Hs & Hb' & Hp).
  exists r, (set_rdp6 s d), b', h'. split; [by apply on_part_run|].
  assert (Hout : exists out, contents b' = contents b ++ out /\
    match r with Ok _ => True | Err _ => out = [] | Fault => False end).
  { destruct (packet_start _ _ _) as [[win cache]|]; [by eapply packet_post6_out|].
    destruct Hp as (-> & -> & _). exists []. by rewrite app_nil_r. }
  destruct Hout as (out & Hc & Hr).
  eapply bulk_part; [by apply bulk_set_rdp6|done|rewrite T; by repeat split|done|exact Hc|]. destruct r; auto.
Qed.
Lemma rdp61_arm flags l d b h :
  bulk_wf d -> buffer_wf b -> bytes l -> blen l <= SIZE_MAX -> Z.land flags RDP_BULK_FLAGS_MASK <> 0 ->
  Z.land flags RDP_BULK_TYPE_MASK = RDP_BULK_TYPE_RDP61 ->
  exists r d' b' h',
    on_part (fun d => (bd_rdp61 d, bd_rdp61_level2 d)) set_rdp61 (rdp_bulk_rdp61_decompress (View l)) (d, (b, h)) =
      (r, (d', (b', h'))) /\
    bulk_post flags (View l) d b r d' b'.
Proof.
  intros Hd Hb Hby Hsz Hf T.
  destruct (rdp61_step (View l) (bd_rdp61 d, bd_rdp61_level2 d) b h (bulk_wf_rdp61 d Hd) Hb Hby Hsz)
    as (r & p' & b' & h' & E & Hp & Hb' & out & Hc & Hr).
  exists r, (set_rdp61 p' d), b', h'. split; [by apply (on_part_run (fun d => (bd_rdp61 d, bd_rdp61_level2 d)))|].
  eapply bulk_part; [by apply bulk_set_rdp61|done|rewrite T; by repeat split|done|exact Hc|]. destruct r; auto.
Qed.

Lemma bulk_step flags v d b h :
  bulk_wf d -> buffer_wf b -> bytes (view_bytes v) -> 0 <= view_len v <= SIZE_MAX ->
  exists r d' b' h', rdp_bulk_decompress flags v (d, (b, h)) = (r, (d', (b', h'))) /\
    bulk_post flags v d b r d' b'.
Proof.
  intros Hd Hb Hby Hsz. unfold rdp_bulk_decompress. rewrite bind_require.
  destruct v as [n|l]; cbn [view_null view_len view_bytes andb negb] in *.
  { destruct (Z.ltb_spec 0 n); cbn [negb]; [eexists _, d, b, h; (split; [done|]); by apply bulk_fails|].
    destruct (Z.eqb_spec n 0); [|lia]. exists (Ok tt), d, b, h. split; [done|].
    do 4 (split; [done|]). exists []. by rewrite app_nil_r. }
  destruct (Z.eqb_spec (blen l) 0) as [Hl|Hl].
  { exists (Ok tt), d, b, h. split; [done|]. do 4 (split; [done|]). exists []. rewrite app_nil_r.
    split; [done|]. intros _. destruct l; [done|zlen]. }
  destruct (Z.eqb_spec (Z.land flags RDP_BULK_FLAGS_MASK) 0) as [Hf|Hf].
  { destruct (append_spec d l b h Hb) as (r & b' & h' & E & Hb' & Hr & _). exists r, d, b', h'.
    split; [exact E|]. do 4 (split; [done|]). destruct Hr as [[-> Hc]|[-> Hc]]; [by exists l|exists []].
    rewrite app_nil_r. auto. }
  assert (Ht : u8 (Z.land flags RDP_BULK_TYPE_MASK) = Z.land flags RDP_BULK_TYPE_MASK)
    by (unfold u8, RDP_BULK_TYPE_MASK; bits_lia).
  rewrite Ht. pose proof Hd as [[H8 E8] [H64 E64] _ _].
  destruct (Z.eqb_spec (Z.land flags RDP_BULK_TYPE_MASK) RDP_BULK_TYPE_8K) as [T|_].
  { apply (mppc_arm _ _ 0); try done. intros s Hs El. split; [by apply bulk_set_8k|rewrite T; by repeat split]. }
  destruct (Z.eqb_spec (Z.land flags RDP_BULK_TYPE_MASK) RDP_BULK_TYPE_64K) as [T|_].
  { apply (mppc_arm _ _ 1); try done. intros s Hs El. split; [by apply bulk_set_64k|rewrite T; by repeat split]. }
  destruct (Z.eqb_spec (Z.land flags RDP_BULK_TYPE_MASK) RDP_BULK_TYPE_RDP6) as [T|_]; [by apply rdp6_arm|].
  destruct (Z.eqb_spec (Z.land flags RDP_BULK_TYPE_MASK) RDP_BULK_TYPE_RDP61) as [T|_]; [apply rdp61_arm; done || lia|].
  eexists _, d, b, h. split; [done|]. by apply bulk_fails.
Qed.

(** ** Any sequence of calls *)

(** The decompressors a program can hold: a fresh one, and what resets, frees
    and packets (the right ones and the wrong ones) make of it. *)
Inductive bulk_reachable : rdp_bulk_decompressor -> Prop :=
| reach_init : bulk_reachable rdp_bulk_decompressor_init
| reach_reset d : bulk_reachable d -> bulk_reachable (rdp_bulk_decompressor_reset d)
| reach_free d : bulk_reachable d -> bulk_reachable (rdp_bulk_decompressor_free d)
| reach_packet d flags v b h r d' b' h' :
    bulk_reachable d -> buffer_wf b -> bytes (view_bytes v) -> 0 <= view_len v <= SIZE_MAX ->
    rdp_bulk_decompress flags v (d, (b, h)) = (r, (d', (b', h'))) -> bulk_reachable d'.

Lemma bulk_reachable_wf d : bulk_reachable d -> bulk_wf d.
Proof.
  induction 1 as [|d _ IH|d _ IH|d flags v b h r d' b' h' _ IH Hb Hby Hsz E].
  - apply bulk_init_wf.
  - by apply bulk_reset_wf.
  - by apply bulk_free_wf.
  - destruct (bulk_step flags v d b h IH Hb Hby Hsz) as (r1 & d1 & b1 & h1 & E1 & Hd & _).
    rewrite E in E1. by injection E1 as -> -> -> ->.
Qed.

(** C15: the dispatcher, after any sequence of packets, resets and frees: a call
    for any packet has no undefined behaviour and ends within its fuel; every
    history stays well formed, and only those of the packet's type change;
    an unflagged packet is copied to the output; what was in the output before
    stays, and, RDP 6.1 apart, a packet that fails adds nothing to it. *)
Theorem bulk_decompress_safe flags v d b h :
  bulk_reachable d -> buffer_wf b -> bytes (view_bytes v) -> 0 <= view_len v <= SIZE_MAX ->
  exists r d' b' h', rdp_bulk_decompress flags v (d, (b, h)) = (r, (d', (b', h'))) /\
    bulk_post flags v d b r d' b'.
Proof. intros Hd. apply bulk_step. by apply bulk_reachable_wf. Qed.

(** ** Concrete runs *)

Definition sample_segments : list segment := [mk_segment [97; 98] 0 3; mk_segment [99] 5 2].
Example sample_segments_run : segments_run [] sample_segments = [97; 98; 97; 98; 97; 99; 99; 99].
Proof. reflexivity. Qed.

Lemma sample_l1_ok : l1_ok [] sample_segments [100].
Proof. split; [cbn; unfold segment_ok, is_byte|..]; repeat constructor; cbv; done || discriminate. Qed.

Lemma rdp61_lz77_witness :
  exists p' b' out,
    rdp_bulk_rdp61_decompress (View (0x05 :: 0 :: l1_payload sample_segments [100]))
      ((rdp_bulk_rdp61_state_init, rdp_bulk_mppc_state_init 1), (rdp_buffer_init, [])) = (Ok tt, (p', (b', []))) /\
    wf61 p' /\ buffer_wf b' /\ contents b' = contents rdp_buffer_init ++ out /\
    [] ++ out = segments_run [] sample_segments ++ [100] /\ window p'.1 = [] ++ out.
Proof.
  apply (rdp61_lz77 0x05 0 sample_segments [100] (l1_payload sample_segments [100])
    (rdp_bulk_rdp61_state_init, rdp_bulk_mppc_state_init 1) rdp_buffer_init).
  - right. left. reflexivity.
  - split; [by split|split; [apply state_init_wf|done]].
  - apply buffer_init_wf.
  - apply sample_l1_ok.
  - reflexivity.
  - cbv. discriminate.
Defined.

Lemma bulk_decompress_safe_witness :
  exists r d' b' h',
    rdp_bulk_decompress 0x23 (View [0x11; 0x20; 7])
      (rdp_bulk_decompressor_reset rdp_bulk_decompressor_init, (rdp_buffer_init, [])) = (r, (d', (b', h'))) /\
    bulk_post 0x23 (View [0x11; 0x20; 7]) (rdp_bulk_decompressor_reset rdp_bulk_decompressor_init) rdp_buffer_init
      r d' b'.
Proof.
  apply bulk_decompress_safe.
  - apply reach_reset, reach_init.
  - apply buffer_init_wf.
  - cbn [view_bytes]. repeat constructor; discriminate.
  - split; vm_compute; discriminate.
Defined.
