(* ===== verification/Rle.v ===== *)
(** * Rle: run-length decoding of bitmaps

    Models the decoder of [src/src/graphics/bitmap.c]: [rdp_bitmap_rle_decode_stream]
    and the functions it calls.  The specification is a grammar of orders
    ([order_bytes]: runs, color images, foreground masks, in each of their forms)
    and what an order paints ([paint]: a list of pixels, each a function of those
    before it); the decoder accepts exactly the streams of the grammar whose
    orders paint the whole bitmap, and paints that. *)

From S2P Require Import Prelude Window.

Definition RDP_BITMAP_RLE_BG_RUN : Z := 0x00.
Definition RDP_BITMAP_RLE_FG_RUN : Z := 0x01.
Definition RDP_BITMAP_RLE_FGBG_IMAGE : Z := 0x02.
Definition RDP_BITMAP_RLE_COLOR_RUN : Z := 0x03.
Definition RDP_BITMAP_RLE_COLOR_IMAGE : Z := 0x04.
Definition RDP_BITMAP_RLE_SET_FG_FG_RUN : Z := 0x0c.
Definition RDP_BITMAP_RLE_SET_FG_FGBG_IMAGE : Z := 0x0d.
Definition RDP_BITMAP_RLE_DITHERED_RUN : Z := 0x0e.
Definition RDP_BITMAP_RLE_MEGA_BG_RUN : Z := 0xf0.
Definition RDP_BITMAP_RLE_MEGA_FG_RUN : Z := 0xf1.
Definition RDP_BITMAP_RLE_MEGA_FGBG_IMAGE : Z := 0xf2.
Definition RDP_BITMAP_RLE_MEGA_COLOR_RUN : Z := 0xf3.
Definition RDP_BITMAP_RLE_MEGA_COLOR_IMAGE : Z := 0xf4.
Definition RDP_BITMAP_RLE_MEGA_SET_FG_RUN : Z := 0xf6.
Definition RDP_BITMAP_RLE_MEGA_SET_FG_FGBG_IMAGE : Z := 0xf7.
Definition RDP_BITMAP_RLE_MEGA_DITHERED_RUN : Z := 0xf8.
Definition RDP_BITMAP_RLE_SPECIAL_FGBG_1 : Z := 0xf9.
Definition RDP_BITMAP_RLE_SPECIAL_FGBG_2 : Z := 0xfa.
Definition RDP_BITMAP_RLE_SPECIAL_WHITE : Z := 0xfd.
Definition RDP_BITMAP_RLE_SPECIAL_BLACK : Z := 0xfe.

(** The pointers [current] and [end] are an index into [data] and its length. *)
Record rdp_bitmap_rle_reader := mk_rle_reader {
  rl_data : list Z;
  rl_current : Z;
  rl_pixels : list Z;
  rl_position : Z;
  rl_total : Z;
  rl_width : Z;
  rl_bits_per_pixel : Z;
  rl_foreground : Z;
  rl_insert_foreground : Z;
}.
Definition set_current (n : Z) (r : rdp_bitmap_rle_reader) : rdp_bitmap_rle_reader :=
  mk_rle_reader (rl_data r) n (rl_pixels r) (rl_position r) (rl_total r) (rl_width r) (rl_bits_per_pixel r)
    (rl_foreground r) (rl_insert_foreground r).
Definition set_pixels (ps : list Z) (n : Z) (r : rdp_bitmap_rle_reader) : rdp_bitmap_rle_reader :=
  mk_rle_reader (rl_data r) (rl_current r) ps n (rl_total r) (rl_width r) (rl_bits_per_pixel r)
    (rl_foreground r) (rl_insert_foreground r).
Definition set_foreground (c : Z) (r : rdp_bitmap_rle_reader) : rdp_bitmap_rle_reader :=
  mk_rle_reader (rl_data r) (rl_current r) (rl_pixels r) (rl_position r) (rl_total r) (rl_width r)
    (rl_bits_per_pixel r) c (rl_insert_foreground r).
Definition set_insert (b : Z) (r : rdp_bitmap_rle_reader) : rdp_bitmap_rle_reader :=
  mk_rle_reader (rl_data r) (rl_current r) (rl_pixels r) (rl_position r) (rl_total r) (rl_width r)
    (rl_bits_per_pixel r) (rl_foreground r) b.

Abbreviation rle := (M rdp_bitmap_rle_reader).

Definition rdp_bitmap_rle_bytes_per_pixel (bits_per_pixel : Z) : Z :=
  if bits_per_pixel =? 8 then 1
  else if bits_per_pixel =? 15 then 2
  else if bits_per_pixel =? 16 then 2
  else if bits_per_pixel =? 24 then 3
  else if bits_per_pixel =? 32 then 4
  else 0.

Definition rdp_bitmap_rle_white (bits_per_pixel : Z) : Z :=
  if bits_per_pixel =? 8 then 0xff
  else if bits_per_pixel =? 15 then 0x7fff
  else if bits_per_pixel =? 16 then 0xffff
  else 0x00ffffff.

Definition rdp_bitmap_rle_code (header : Z) : Z :=
  if negb (Z.land header 0xc0 =? 0xc0) then u8 (Z.shiftr header 5)
  else if Z.land header 0xf0 =? 0xf0 then header
  else u8 (Z.shiftr header 4).

(** [reader->end - reader->current] *)
Definition rle_remaining (r : rdp_bitmap_rle_reader) : Z := blen (rl_data r) - rl_current r.

Definition rdp_bitmap_rle_read_pixel : rle Z :=
  r ← gets id;
  let bytes := rdp_bitmap_rle_bytes_per_pixel (rl_bits_per_pixel r) in
  let current := rl_current r in
  require (negb ((bytes =? 0) || (rle_remaining r <? bytes))) LIBRDP_STATUS_PROTOCOL_ERROR;;
  pixel ←
    (if (rl_bits_per_pixel r =? 15) || (rl_bits_per_pixel r =? 16) then
       p0 ← lift (rd (rl_data r) current); p1 ← lift (rd (rl_data r) (current + 1));
       mret (Z.lor p0 (Z.shiftl p1 8))
     else if rl_bits_per_pixel r =? 8 then lift (rd (rl_data r) current)
     else
       p0 ← lift (rd (rl_data r) current); p1 ← lift (rd (rl_data r) (current + 1));
       p2 ← lift (rd (rl_data r) (current + 2));
       mret (Z.lor (Z.lor p0 (Z.shiftl p1 8)) (Z.shiftl p2 16)));
  modify (set_current (current + bytes));;
  mret pixel.

Definition rdp_bitmap_rle_write_pixel (pixel : Z) : rle unit :=
  r ← gets id;
  require (negb (rl_total r <=? rl_position r)) LIBRDP_STATUS_PROTOCOL_ERROR;;
  pixels ← lift (wr (rl_pixels r) (rl_position r) pixel);
  modify (set_pixels pixels (size_t (rl_position r + 1))).

Definition rdp_bitmap_rle_previous_pixel (r : rdp_bitmap_rle_reader) : res Z :=
  if rl_position r <? rl_width r then Ok 0 else rd (rl_pixels r) (rl_position r - rl_width r).

Fixpoint rdp_bitmap_rle_repeat (pixel : Z) (count : nat) : rle unit :=
  match count with
  | O => mret tt
  | S count => rdp_bitmap_rle_write_pixel pixel;; rdp_bitmap_rle_repeat pixel count
  end.

Fixpoint rdp_bitmap_rle_write_background (count : nat) : rle unit :=
  match count with
  | O => mret tt
  | S count =>
      r ← gets id;
      pixel ← lift (if rl_position r <? rl_width r then Ok 0 else rdp_bitmap_rle_previous_pixel r);
      rdp_bitmap_rle_write_pixel pixel;;
      rdp_bitmap_rle_write_background count
  end.

Fixpoint rdp_bitmap_rle_write_foreground (count : nat) : rle unit :=
  match count with
  | O => mret tt
  | S count =>
      r ← gets id;
      pixel ← lift (if rl_position r <? rl_width r then Ok (rl_foreground r)
                    else p ← rdp_bitmap_rle_previous_pixel r; Ok (Z.lxor p (rl_foreground r)));
      rdp_bitmap_rle_write_pixel pixel;;
      rdp_bitmap_rle_write_foreground count
  end.

(** [low = order[0] & mask], then [order[1] + base] or [low * scale]: the three
    branches of [rdp_bitmap_rle_run_length] that are not mega orders. *)
Definition regular_length (r : rdp_bitmap_rle_reader) (mask base scale : Z) : res (Z * Z) :=
  order0 ← rd (rl_data r) (rl_current r);
  let low := u8 (Z.land order0 mask) in
  if low =? 0 then
    ensure (negb (rle_remaining r <? 2)) LIBRDP_STATUS_PROTOCOL_ERROR;;
    order1 ← rd (rl_data r) (rl_current r + 1);
    Ok (u32 (order1 + base), 2)
  else Ok (u32 (low * scale), 1).

(** The run length and the number of bytes it takes. *)
Definition rdp_bitmap_rle_run_length (r : rdp_bitmap_rle_reader) (code : Z) : res (Z * Z) :=
  ensure (negb (blen (rl_data r) <=? rl_current r)) LIBRDP_STATUS_PROTOCOL_ERROR;;
  if (code =? RDP_BITMAP_RLE_MEGA_BG_RUN) || (code =? RDP_BITMAP_RLE_MEGA_FG_RUN) ||
     (code =? RDP_BITMAP_RLE_MEGA_SET_FG_RUN) || (code =? RDP_BITMAP_RLE_MEGA_DITHERED_RUN) ||
     (code =? RDP_BITMAP_RLE_MEGA_COLOR_RUN) || (code =? RDP_BITMAP_RLE_MEGA_FGBG_IMAGE) ||
     (code =? RDP_BITMAP_RLE_MEGA_SET_FG_FGBG_IMAGE) || (code =? RDP_BITMAP_RLE_MEGA_COLOR_IMAGE) then
    ensure (negb (rle_remaining r <? 3)) LIBRDP_STATUS_PROTOCOL_ERROR;;
    order1 ← rd (rl_data r) (rl_current r + 1);
    order2 ← rd (rl_data r) (rl_current r + 2);
    let run_length := Z.lor order1 (Z.shiftl order2 8) in
    ensure (negb (run_length =? 0)) LIBRDP_STATUS_PROTOCOL_ERROR;;
    Ok (run_length, 3)
  else if code =? RDP_BITMAP_RLE_FGBG_IMAGE then regular_length r 0x1f 1 8
  else if code =? RDP_BITMAP_RLE_SET_FG_FGBG_IMAGE then regular_length r 0x0f 1 8
  else if (code =? RDP_BITMAP_RLE_SET_FG_FG_RUN) || (code =? RDP_BITMAP_RLE_DITHERED_RUN)
    then regular_length r 0x0f 16 1
  else if (code =? RDP_BITMAP_RLE_BG_RUN) || (code =? RDP_BITMAP_RLE_FG_RUN) ||
          (code =? RDP_BITMAP_RLE_COLOR_RUN) || (code =? RDP_BITMAP_RLE_COLOR_IMAGE)
    then regular_length r 0x1f 32 1
  else Err LIBRDP_STATUS_PROTOCOL_ERROR.

(** Bit [bit] of [count] of the mask is the next one; [n] are left. *)
Fixpoint fgbg_bits (mask bit : Z) (n : nat) : rle unit :=
  match n with
  | O => mret tt
  | S n =>
      r ← gets id;
      let set_ := negb (Z.land mask (u8 (Z.shiftl 1 bit)) =? 0) in
      pixel ← lift (
        if rl_position r <? rl_width r then Ok (if set_ then rl_foreground r else 0)
        else
          p ← rdp_bitmap_rle_previous_pixel r;
          Ok (if set_ then Z.lxor p (rl_foreground r) else p));
      coerce LIBRDP_STATUS_PROTOCOL_ERROR (rdp_bitmap_rle_write_pixel pixel);;
      fgbg_bits mask (bit + 1) n
  end.

Definition rdp_bitmap_rle_write_fgbg (mask count : Z) : rle unit :=
  require (negb (8 <? count)) LIBRDP_STATUS_PROTOCOL_ERROR;;
  fgbg_bits mask 0 (Z.to_nat count).

(** [*reader.current++], after the check of the bound. *)
Definition next_mask : rle Z :=
  r ← gets id;
  require (negb (blen (rl_data r) <=? rl_current r)) LIBRDP_STATUS_PROTOCOL_ERROR;;
  mask ← lift (rd (rl_data r) (rl_current r));
  modify (set_current (rl_current r + 1));;
  mret mask.

(** The loop over the masks of an image; a mask is worth eight pixels. *)
Fixpoint fgbg_loop (fuel : nat) (run : Z) : rle unit :=
  match fuel with
  | O => lift Fault
  | S fuel =>
      if 8 <? run then
        mask ← next_mask;
        rdp_bitmap_rle_write_fgbg mask 8;;
        fgbg_loop fuel (u32 (run - 8))
      else if 0 <? run then
        mask ← next_mask;
        rdp_bitmap_rle_write_fgbg mask run
      else mret tt
  end.

Fixpoint dithered_loop (a b : Z) (n : nat) : rle unit :=
  match n with
  | O => mret tt
  | S n =>
      rdp_bitmap_rle_write_pixel a;;
      rdp_bitmap_rle_write_pixel b;;
      dithered_loop a b n
  end.

Fixpoint color_loop (n : nat) : rle unit :=
  match n with
  | O => mret tt
  | S n =>
      color ← rdp_bitmap_rle_read_pixel;
      rdp_bitmap_rle_write_pixel color;;
      color_loop n
  end.

(** [rdp_bitmap_rle_run_length(&reader, ...); reader.current += consumed;] *)
Definition take_run (code : Z) : rle Z :=
  r ← gets id;
  '(run, consumed) ← lift (rdp_bitmap_rle_run_length r code);
  modify (set_current (rl_current r + consumed));;
  mret run.

(** [rdp_bitmap_rle_read_pixel(&reader, &reader.foreground)] *)
Definition take_foreground : rle unit :=
  color ← rdp_bitmap_rle_read_pixel;
  modify (set_foreground color).

(** The body of the loop. *)
Definition rle_order (bits_per_pixel code : Z) : rle unit :=
  if (code =? RDP_BITMAP_RLE_BG_RUN) || (code =? RDP_BITMAP_RLE_MEGA_BG_RUN) then
    run ← take_run code;
    r ← gets id;
    run ← (if negb (rl_insert_foreground r =? 0) then
             require (negb (run =? 0)) LIBRDP_STATUS_PROTOCOL_ERROR;;
             rdp_bitmap_rle_write_foreground 1;;
             mret (u32 (run - 1))
           else mret run);
    rdp_bitmap_rle_write_background (Z.to_nat run);;
    modify (set_insert 1)
  else
    modify (set_insert 0);;
    if (code =? RDP_BITMAP_RLE_FG_RUN) || (code =? RDP_BITMAP_RLE_MEGA_FG_RUN) ||
       (code =? RDP_BITMAP_RLE_SET_FG_FG_RUN) || (code =? RDP_BITMAP_RLE_MEGA_SET_FG_RUN) then
      run ← take_run code;
      (if (code =? RDP_BITMAP_RLE_SET_FG_FG_RUN) || (code =? RDP_BITMAP_RLE_MEGA_SET_FG_RUN)
       then take_foreground else mret tt);;
      rdp_bitmap_rle_write_foreground (Z.to_nat run)
    else if (code =? RDP_BITMAP_RLE_DITHERED_RUN) || (code =? RDP_BITMAP_RLE_MEGA_DITHERED_RUN) then
      run ← take_run code;
      a ← rdp_bitmap_rle_read_pixel;
      b ← rdp_bitmap_rle_read_pixel;
      dithered_loop a b (Z.to_nat run)
    else if (code =? RDP_BITMAP_RLE_COLOR_RUN) || (code =? RDP_BITMAP_RLE_MEGA_COLOR_RUN) then
      run ← take_run code;
      color ← rdp_bitmap_rle_read_pixel;
      rdp_bitmap_rle_repeat color (Z.to_nat run)
    else if (code =? RDP_BITMAP_RLE_FGBG_IMAGE) || (code =? RDP_BITMAP_RLE_MEGA_FGBG_IMAGE) ||
            (code =? RDP_BITMAP_RLE_SET_FG_FGBG_IMAGE) || (code =? RDP_BITMAP_RLE_MEGA_SET_FG_FGBG_IMAGE) then
      run ← take_run code;
      (if (code =? RDP_BITMAP_RLE_SET_FG_FGBG_IMAGE) || (code =? RDP_BITMAP_RLE_MEGA_SET_FG_FGBG_IMAGE)
       then take_foreground else mret tt);;
      fgbg_loop (S (Z.to_nat run)) run
    else if (code =? RDP_BITMAP_RLE_COLOR_IMAGE) || (code =? RDP_BITMAP_RLE_MEGA_COLOR_IMAGE) then
      run ← take_run code;
      color_loop (Z.to_nat run)
    else if (code =? RDP_BITMAP_RLE_SPECIAL_FGBG_1) || (code =? RDP_BITMAP_RLE_SPECIAL_FGBG_2) then
      modify (fun r => set_current (rl_current r + 1) r);;
      rdp_bitmap_rle_write_fgbg (if code =? RDP_BITMAP_RLE_SPECIAL_FGBG_1 then 0x03 else 0x05) 8
    else if (code =? RDP_BITMAP_RLE_SPECIAL_WHITE) || (code =? RDP_BITMAP_RLE_SPECIAL_BLACK) then
      modify (fun r => set_current (rl_current r + 1) r);;
      rdp_bitmap_rle_write_pixel
        (if code =? RDP_BITMAP_RLE_SPECIAL_WHITE then rdp_bitmap_rle_white bits_per_pixel else 0)
    else lift (Err LIBRDP_STATUS_PROTOCOL_ERROR).

(** Every order takes a byte or more. *)
Fixpoint decode_orders (fuel : nat) (bits_per_pixel : Z) : rle unit :=
  match fuel with
  | O => lift Fault
  | S fuel =>
      r ← gets id;
      if rl_current r <? blen (rl_data r) then
        header ← lift (rd (rl_data r) (rl_current r));
        rle_order bits_per_pixel (rdp_bitmap_rle_code header);;
        decode_orders fuel bits_per_pixel
      else require (rl_position r =? rl_total r) LIBRDP_STATUS_PROTOCOL_ERROR
  end.

(** The outcome, and [pixels] as the call leaves them. *)
Definition rdp_bitmap_rle_decode_stream (data : view) (width height bits_per_pixel : Z) : M (list Z) unit := fun pixels =>
  if view_null data || (width =? 0) || (height =? 0) || (rdp_bitmap_rle_bytes_per_pixel bits_per_pixel =? 0)
  then (Err LIBRDP_STATUS_INVALID_ARGUMENT, pixels)
  else if SIZE_MAX / height <? width then (Err LIBRDP_STATUS_NO_MEMORY, pixels)
  else
    let reader := mk_rle_reader (view_bytes data) 0 pixels 0 (size_t (width * height)) width bits_per_pixel
                    (rdp_bitmap_rle_white bits_per_pixel) 0 in
    let '(r, reader) := decode_orders (S (length (view_bytes data))) bits_per_pixel reader in
    (r, rl_pixels reader).

(** ** Decoding as steps on lists *)

(** The foreground color, the insert flag and the pixels painted so far; with the
    bytes that are still to be read it is the state of the specification. *)
Record canvas := mk_canvas {
  cv_foreground : Z;
  cv_insert : Z;
  cv_image : list Z;
}.
Definition with_image (img : list Z) (c : canvas) : canvas := mk_canvas (cv_foreground c) (cv_insert c) img.
Definition with_foreground (fg : Z) (c : canvas) : canvas := mk_canvas fg (cv_insert c) (cv_image c).
Definition with_insert (i : Z) (c : canvas) : canvas := mk_canvas (cv_foreground c) i (cv_image c).

Abbreviation step A := (canvas * list Z -> option (A * (canvas * list Z))).
Definition step_bind {A B} (f : step A) (g : A -> step B) : step B := fun s =>
  match f s with Some (a, s') => g a s' | None => None end.

(** A pixel as a function of the pixels before it. *)
Definition paint (fs : list (list Z -> Z)) (img : list Z) : list Z := foldl (fun img f => img ++ [f img]) img fs.

Lemma blen_paint fs img : blen (paint fs img) = blen img + blen fs.
Proof.
  revert img. induction fs as [|f fs IH]; intros img; [cbn; zlen|]. change (paint (f :: fs) img) with (paint fs (img ++ [f img])).
  rewrite IH. zlen.
Qed.
Lemma paint_app fs gs img : paint (fs ++ gs) img = paint gs (paint fs img).
Proof. apply foldl_app. Qed.

(** The bitmap being decoded. *)
Record bitmap := mk_bitmap { bm_width : Z; bm_total : Z; bm_bpp : Z }.
Definition bitmap_ok (g : bitmap) : Prop :=
  0 < bm_width g /\ 0 <= bm_total g <= SIZE_MAX /\ In (bm_bpp g) [8; 15; 16; 24; 32].

Record ready (g : bitmap) (r : rdp_bitmap_rle_reader) : Prop := {
  ready_data : bytes (rl_data r) /\ blen (rl_data r) <= SIZE_MAX;
  ready_current : 0 <= rl_current r <= blen (rl_data r);
  ready_pixels : blen (rl_pixels r) = rl_total r;
  ready_position : 0 <= rl_position r <= rl_total r;
  ready_bitmap : mk_bitmap (rl_width r) (rl_total r) (rl_bits_per_pixel r) = g;
}.
Definition canvas_of (r : rdp_bitmap_rle_reader) : canvas :=
  mk_canvas (rl_foreground r) (rl_insert_foreground r) (ztake (rl_position r) (rl_pixels r)).
Definition unread_bytes (r : rdp_bitmap_rle_reader) : list Z := zdrop (rl_current r) (rl_data r).
Definition abs (r : rdp_bitmap_rle_reader) : canvas * list Z := (canvas_of r, unread_bytes r).
Definition valid (g : bitmap) (s : canvas * list Z) : Prop :=
  blen (cv_image s.1) <= bm_total g /\ bytes s.2 /\ blen s.2 <= SIZE_MAX.

Lemma ready_valid g r : ready g r -> valid g (abs r).
Proof.
  intros [[Hb Hl] Hc Hp Ho <-]. split; cbn [abs fst canvas_of cv_image bm_total].
  - rewrite blen_ztake by lia. lia.
  - cbn [abs snd]. unfold unread_bytes. split; [by apply Forall_zdrop|]. rewrite blen_zdrop by lia. lia.
Qed.

(** The concrete [m] does what the step [f] says: it fails, with
    PROTOCOL_ERROR, exactly when [f] does, and never has undefined behaviour. *)
Definition Steps {A} (g : bitmap) (m : rle A) (f : step A) : Prop :=
  forall r, ready g r ->
  match f (abs r) with
  | Some (a, s') => exists r', m r = (Ok a, r') /\ ready g r' /\ abs r' = s'
  | None => exists r', m r = (Err LIBRDP_STATUS_PROTOCOL_ERROR, r') /\ ready g r'
  end.

Section steps.
Context (g : bitmap) {A B : Type}.
Implicit Types (m : rle A) (f : step A).

Lemma steps_ret (a : A) : Steps g (mret a) (fun s => Some (a, s)).
Proof. intros r Hr. by exists r. Qed.
Lemma steps_bind m (k : A -> rle B) f (h : A -> step B) :
  Steps g m f -> (forall a, Steps g (k a) (h a)) -> Steps g (m ≫= k) (step_bind f h).
Proof.
  intros Hm Hk r Hr. specialize (Hm r Hr). unfold step_bind. destruct (f (abs r)) as [[a s']|].
  - destruct Hm as (r1 & E & Hr1 & <-). rewrite (bind_ok _ _ _ _ _ E). by apply Hk.
  - destruct Hm as (r1 & E & Hr1). rewrite (bind_err _ _ _ _ _ E). by exists r1.
Qed.
Lemma steps_ext m f f' : (forall s, valid g s -> f s = f' s) -> Steps g m f' -> Steps g m f.
Proof. intros E Hm r Hr. rewrite E by (by apply ready_valid). by apply Hm. Qed.
Lemma steps_coerce m f : Steps g m f -> Steps g (coerce LIBRDP_STATUS_PROTOCOL_ERROR m) f.
Proof.
  intros Hm r Hr. specialize (Hm r Hr). unfold coerce. destruct (f (abs r)) as [[a s']|].
  - destruct Hm as (r1 & -> & H). by exists r1.
  - destruct Hm as (r1 & -> & H). by exists r1.
Qed.
(** What is read from the state first. *)
Lemma steps_gets {C} (h : rdp_bitmap_rle_reader -> C) (k : C -> rle A) f :
  (forall r, ready g r ->
   match f (abs r) with
   | Some (a, s') => exists r', k (h r) r = (Ok a, r') /\ ready g r' /\ abs r' = s'
   | None => exists r', k (h r) r = (Err LIBRDP_STATUS_PROTOCOL_ERROR, r') /\ ready g r'
   end) -> Steps g (gets h ≫= k) f.
Proof. intros Hk r Hr. rewrite bind_gets. by apply Hk. Qed.
End steps.

(** ** Painting *)

(** Pixels that may depend on the foreground color. *)
Definition paints (g : bitmap) (fs : Z -> list (list Z -> Z)) : step unit := fun s =>
  let img := paint (fs (cv_foreground s.1)) (cv_image s.1) in
  if blen img <=? bm_total g then Some (tt, (with_image img s.1, s.2)) else None.

(** The pixel above the next one. *)
Definition above (w : Z) (img : list Z) : Z :=
  if blen img <? w then 0 else default 0 (img !! Z.to_nat (blen img - w)).
Definition inverted (w fg : Z) (img : list Z) : Z := Z.lxor (above w img) fg.

Lemma write_pixel_steps g v : bitmap_ok g ->
  Steps g (rdp_bitmap_rle_write_pixel v) (paints g (fun _ => [fun _ => v])).
Proof.
  intros (_ & Ht & _). apply steps_gets. intros r [Hd Hc Hp Ho Hg]. unfold paints, id. rewrite <- Hg in *.
  cbn [abs fst snd canvas_of cv_image bm_total paint foldl] in *. rewrite bind_require, blen_app, blen_ztake by lia.
  change (blen [v]) with 1. destruct (Z.leb_spec (rl_total r) (rl_position r)), (Z.leb_spec (rl_position r + 1) (rl_total r));
    try lia; cbn [negb].
  { exists r. split; [done|]. by split. }
  rewrite bind_lift, wr_ok by lia. assert (E : size_t (rl_position r + 1) = rl_position r + 1).
  { unfold size_t, SIZE_MAX in *. bits_lia. }
  eexists. split; [reflexivity|]. rewrite E. split.
  - split; cbn; try done; [unfold blen in *; by rewrite length_insert|lia].
  - unfold abs, canvas_of. cbn. by rewrite ztake_push by lia.
Qed.

Lemma previous_spec g r : bitmap_ok g -> ready g r ->
  (if rl_position r <? rl_width r then Ok 0 else rdp_bitmap_rle_previous_pixel r) =
    Ok (above (bm_width g) (cv_image (canvas_of r))) /\
  rdp_bitmap_rle_previous_pixel r = Ok (above (bm_width g) (cv_image (canvas_of r))).
Proof.
  intros (Hw & _) [Hd Hc Hp Ho <-]. unfold rdp_bitmap_rle_previous_pixel, above. cbn [canvas_of cv_image bm_width] in *.
  rewrite blen_ztake by lia. destruct (Z.ltb_spec (rl_position r) (rl_width r)); [done|].
  enough (E : rd (rl_pixels r) (rl_position r - rl_width r) =
    Ok (default 0 (ztake (rl_position r) (rl_pixels r) !! Z.to_nat (rl_position r - rl_width r)))) by done.
  destruct (rd_ok (rl_pixels r) (rl_position r - rl_width r)) as (v & -> & Ev); [lia|].
  unfold ztake. rewrite lookup_take_lt by lia. by rewrite Ev.
Qed.

Lemma paints_app g fs gs s :
  step_bind (paints g fs) (fun _ => paints g gs) s = paints g (fun fg => fs fg ++ gs fg) s.
Proof.
  unfold step_bind, paints. cbn [with_image fst snd cv_foreground cv_image]. rewrite paint_app.
  set (img := paint _ _). pose proof (blen_paint (gs (cv_foreground s.1)) img).
  pose proof (blen_nonneg (gs (cv_foreground s.1))).
  destruct (Z.leb_spec (blen img) (bm_total g)); [done|]. cbn [with_image].
  by destruct (Z.leb_spec (blen (paint (gs (cv_foreground s.1)) img)) (bm_total g)); [lia|].
Qed.
Lemma paints_nil g s : valid g s -> paints g (fun _ => []) s = Some (tt, s).
Proof.
  intros [Hv _]. unfold paints. cbn [paint foldl]. destruct (Z.leb_spec (blen (cv_image s.1)) (bm_total g)); [|lia].
  by destruct s as [[fg i img] l].
Qed.
(** One more pixel in front of a loop. *)
Lemma paints_cons g (m : rle unit) fs (k : rle unit) gs :
  Steps g m (paints g fs) -> Steps g k (paints g gs) -> Steps g (m;; k) (paints g (fun fg => fs fg ++ gs fg)).
Proof.
  intros Hm Hk. eapply steps_ext; [intros; symmetry; apply paints_app|]. by apply steps_bind.
Qed.
Lemma paints_done g : Steps g (mret tt) (paints g (fun _ => [])).
Proof. eapply steps_ext; [intros; by apply paints_nil|]. apply steps_ret. Qed.

(** A pixel computed from the state, then written. *)
Lemma computed_pixel g (h : rdp_bitmap_rle_reader -> res Z) (pr : rle unit -> rle unit) (f : Z -> list Z -> Z) :
  bitmap_ok g -> (forall m (u : step unit), Steps g m u -> Steps g (pr m) u) ->
  (forall r, ready g r -> h r = Ok (f (rl_foreground r) (cv_image (canvas_of r)))) ->
  Steps g (r ← gets id; pixel ← lift (h r); pr (rdp_bitmap_rle_write_pixel pixel)) (paints g (fun fg => [f fg])).
Proof.
  intros Hg Hpr Hf. apply steps_gets. intros r Hr. unfold id. rewrite bind_lift, (Hf r Hr).
  apply (Hpr _ _ (write_pixel_steps g (f (rl_foreground r) (cv_image (canvas_of r))) Hg) r Hr).
Qed.

(** [m; k] as the loops have it: bind is associative. *)
Lemma steps_pixel_loop g (h : rdp_bitmap_rle_reader -> res Z) (pr : rle unit -> rle unit) (k : rle unit) f gs :
  Steps g (r ← gets id; pixel ← lift (h r); pr (rdp_bitmap_rle_write_pixel pixel)) (paints g (fun fg => [f fg])) ->
  Steps g k (paints g gs) ->
  Steps g (r ← gets id; pixel ← lift (h r); pr (rdp_bitmap_rle_write_pixel pixel);; k)
    (paints g (fun fg => f fg :: gs fg)).
Proof.
  intros Hm Hk r Hr. pose proof (paints_cons g _ _ _ _ Hm Hk r Hr) as H. rewrite bind_gets in *.
  unfold id in *. rewrite bind_lift. destruct (h r) as [v|e|] eqn:E; cbn in H |- *.
  all: unfold mbind, M_bind, gets in H; cbn in H; rewrite E in H; exact H.
Qed.

Section loops.
Context (g : bitmap) (Hg : bitmap_ok g).

Lemma repeat_steps v n :
  Steps g (rdp_bitmap_rle_repeat v n) (paints g (fun _ => replicate n (fun _ => v))).
Proof.
  induction n as [|n IH]; [apply paints_done|]. cbn [rdp_bitmap_rle_repeat replicate].
  apply (paints_cons g _ (fun _ => [fun _ => v])); [by apply write_pixel_steps|done].
Qed.
Lemma dithered_steps a b n :
  Steps g (dithered_loop a b n) (paints g (fun _ => concat (replicate n [fun _ => a; fun _ => b]))).
Proof.
  induction n as [|n IH]; [apply paints_done|]. cbn [dithered_loop replicate concat].
  apply (paints_cons g _ (fun _ => [fun _ => a])); [by apply write_pixel_steps|].
  by apply (paints_cons g _ (fun _ => [fun _ => b])); [apply write_pixel_steps|].
Qed.
Lemma background_steps n :
  Steps g (rdp_bitmap_rle_write_background n) (paints g (fun _ => replicate n (above (bm_width g)))).
Proof.
  induction n as [|n IH]; [apply paints_done|]. cbn [rdp_bitmap_rle_write_background replicate].
  apply (steps_pixel_loop g _ (fun m => m) _ (fun _ => above (bm_width g))); [|done].
  apply (computed_pixel g _ (fun m => m) (fun _ => above (bm_width g))); [done|done|]. intros r Hr.
  by apply previous_spec.
Qed.
Lemma foreground_steps n :
  Steps g (rdp_bitmap_rle_write_foreground n) (paints g (fun fg => replicate n (inverted (bm_width g) fg))).
Proof.
  induction n as [|n IH]; [apply paints_done|]. cbn [rdp_bitmap_rle_write_foreground replicate].
  apply (steps_pixel_loop g _ (fun m => m) _ (inverted (bm_width g))); [|done].
  apply (computed_pixel g _ (fun m => m) (inverted (bm_width g))); [done|done|]. intros r Hr.
  destruct (previous_spec g r Hg Hr) as [E1 E2]. rewrite E2 in *. unfold inverted.
  destruct (_ <? _); [|done]. assert (E0 : above (bm_width g) (cv_image (canvas_of r)) = 0) by congruence.
  by rewrite E0, Z.lxor_0_l.
Qed.

(** ** Foreground masks *)

Definition masked (w fg mask : Z) (bit : nat) (img : list Z) : Z :=
  if Z.testbit mask (Z.of_nat bit) then inverted w fg img else above w img.

Lemma mask_bit mask bit : 0 <= bit < 8 ->
  negb (Z.land mask (u8 (Z.shiftl 1 bit)) =? 0) = Z.testbit mask bit.
Proof.
  intros Hb. assert (E : u8 (Z.shiftl 1 bit) = 2 ^ bit).
  { rewrite Z.shiftl_1_l. unfold u8. apply Z.mod_small. split; [lia|]. change 0x100 with (2 ^ 8).
    apply Z.pow_lt_mono_r; lia. }
  rewrite E. destruct (Z.testbit mask bit) eqn:T.
  - destruct (Z.eqb_spec (Z.land mask (2 ^ bit)) 0) as [Z0|]; [|done].
    pose proof (Z.land_spec mask (2 ^ bit) bit) as H. by rewrite Z0, T, Z.pow2_bits_true, Z.bits_0 in H by lia.
  - enough (Z.land mask (2 ^ bit) = 0) as -> by done. apply Z.bits_inj'. intros i Hi.
    rewrite Z.land_spec, Z.pow2_bits_eqb, Z.bits_0 by lia.
    destruct (Z.eqb_spec bit i) as [<-|]; [by rewrite T|by rewrite andb_false_r].
Qed.

Lemma fgbg_bits_steps mask (bit n : nat) : (bit + n <= 8)%nat ->
  Steps g (fgbg_bits mask (Z.of_nat bit) n) (paints g (fun fg => masked (bm_width g) fg mask <$> seq bit n)).
Proof.
  revert bit. induction n as [|n IH]; intros bit Hb; [apply paints_done|]. cbn [fgbg_bits seq fmap list_fmap].
  apply (steps_pixel_loop g _ (coerce LIBRDP_STATUS_PROTOCOL_ERROR) _ (fun fg => masked (bm_width g) fg mask bit)).
  2: { replace (Z.of_nat bit + 1) with (Z.of_nat (S bit)) by lia. apply IH. lia. }
  apply (computed_pixel g _ (coerce LIBRDP_STATUS_PROTOCOL_ERROR) (fun fg => masked (bm_width g) fg mask bit));
    [done|intros; by apply steps_coerce|]. intros r Hr.
  destruct (previous_spec g r Hg Hr) as [E1 E2]. rewrite E2 in *. unfold masked, inverted.
  rewrite mask_bit by lia. destruct (Z.testbit mask (Z.of_nat bit)), (_ <? _); try done;
    (assert (E0 : above (bm_width g) (cv_image (canvas_of r)) = 0) by congruence); by rewrite E0, ?Z.lxor_0_l.
Qed.
Definition mask_pixels (w : Z) (n : nat) (mask fg : Z) : list (list Z -> Z) := masked w fg mask <$> seq 0 n.
Lemma write_fgbg_steps mask count : 0 <= count <= 8 ->
  Steps g (rdp_bitmap_rle_write_fgbg mask count) (paints g (mask_pixels (bm_width g) (Z.to_nat count) mask)).
Proof.
  intros Hc r Hr. unfold rdp_bitmap_rle_write_fgbg. rewrite bind_require.
  destruct (Z.ltb_spec 8 count); [lia|]. cbn [negb]. apply (fgbg_bits_steps mask 0 (Z.to_nat count)); [lia|done].
Qed.

(** ** Reading bytes *)

(** Reading from the list of unread bytes. *)
Definition take_byte : step Z := fun s =>
  match s.2 with [] => None | b :: l => Some (b, (s.1, l)) end.

Lemma unread_cons r i : ready g r -> 0 <= i -> rl_current r + i < blen (rl_data r) ->
  exists v, rd (rl_data r) (rl_current r + i) = Ok v /\ unread_bytes r !! Z.to_nat i = Some v.
Proof.
  intros [[Hb Hl] Hc Hp Ho _] Hi Hlt. destruct (rd_ok (rl_data r) (rl_current r + i)) as (v & E & El); [lia|].
  exists v. split; [done|]. unfold unread_bytes, zdrop. rewrite lookup_drop, <- El. f_equal. lia.
Qed.
Lemma blen_unread_bytes r : ready g r -> blen (unread_bytes r) = rle_remaining r.
Proof. intros [[Hb Hl] Hc Hp Ho _]. unfold unread_bytes, rle_remaining. rewrite blen_zdrop by lia. lia. Qed.
Lemma set_current_ready r n : ready g r -> 0 <= n <= rle_remaining r ->
  ready g (set_current (rl_current r + n) r) /\
  abs (set_current (rl_current r + n) r) = (canvas_of r, zdrop n (unread_bytes r)).
Proof.
  intros [[Hb Hl] Hc Hp Ho Hbm] Hn. unfold rle_remaining in Hn. split; [split; cbn; done || lia|].
  unfold abs, unread_bytes. cbn. f_equal. by rewrite zdrop_zdrop by lia.
Qed.

Lemma next_mask_steps : Steps g next_mask take_byte.
Proof.
  apply steps_gets. intros r Hr. unfold id, take_byte. cbn [abs snd fst]. rewrite bind_require.
  pose proof (blen_unread_bytes r Hr) as Hu. unfold rle_remaining in Hu.
  destruct (Z.leb_spec (blen (rl_data r)) (rl_current r)); cbn [negb].
  { destruct (unread_bytes r); [by exists r|zlen]. }
  destruct (unread_cons r 0 Hr) as (v & E & El); [lia|lia|]. rewrite Z.add_0_r in E. rewrite E, bind_lift.
  destruct (unread_bytes r) as [|b l] eqn:Eu; [done|]. injection El as ->.
  destruct (set_current_ready r 1 Hr) as [H1 H2]; [unfold rle_remaining; zlen|].
  eexists. split; [reflexivity|]. split; [done|]. rewrite H2, Eu. done.
Qed.
End loops.

(** ** The grammar: pixels and run lengths *)

Definition pixel_value (bs : list Z) : Z :=
  match bs with
  | [] => 0
  | [p0] => p0
  | [p0; p1] => val16 p0 p1
  | p0 :: p1 :: p2 :: _ => val24 p0 p1 p2
  end.
(** The bytes of a pixel; the fourth byte of a 32-bit one is ignored. *)
Definition pixel_bytes (bpp c : Z) (bs : list Z) : Prop :=
  blen bs = rdp_bitmap_rle_bytes_per_pixel bpp /\ c = pixel_value bs.

(** The five families of orders with a run length: the code, the code of the
    long form, the mask of the short length, the base and the unit of lengths. *)
Record family := mk_family { fa_code : Z; fa_mega : Z; fa_mask : Z; fa_base : Z; fa_scale : Z }.
Definition bg_run := mk_family RDP_BITMAP_RLE_BG_RUN RDP_BITMAP_RLE_MEGA_BG_RUN 0x1f 32 1.
Definition fg_run := mk_family RDP_BITMAP_RLE_FG_RUN RDP_BITMAP_RLE_MEGA_FG_RUN 0x1f 32 1.
Definition fgbg_image := mk_family RDP_BITMAP_RLE_FGBG_IMAGE RDP_BITMAP_RLE_MEGA_FGBG_IMAGE 0x1f 1 8.
Definition color_run := mk_family RDP_BITMAP_RLE_COLOR_RUN RDP_BITMAP_RLE_MEGA_COLOR_RUN 0x1f 32 1.
Definition color_image := mk_family RDP_BITMAP_RLE_COLOR_IMAGE RDP_BITMAP_RLE_MEGA_COLOR_IMAGE 0x1f 32 1.
Definition set_fg_run := mk_family RDP_BITMAP_RLE_SET_FG_FG_RUN RDP_BITMAP_RLE_MEGA_SET_FG_RUN 0x0f 16 1.
Definition set_fgbg_image := mk_family RDP_BITMAP_RLE_SET_FG_FGBG_IMAGE RDP_BITMAP_RLE_MEGA_SET_FG_FGBG_IMAGE 0x0f 1 8.
Definition dithered_run := mk_family RDP_BITMAP_RLE_DITHERED_RUN RDP_BITMAP_RLE_MEGA_DITHERED_RUN 0x0f 16 1.
Definition families : list family :=
  [bg_run; fg_run; fgbg_image; color_run; color_image; set_fg_run; set_fgbg_image; dithered_run].

(** A run of [n] in its short, extended or long form. *)
Inductive run_bytes (k : family) : Z -> list Z -> Prop :=
| run_short low : 1 <= low <= fa_mask k ->
    run_bytes k (low * fa_scale k) [fa_code k * (fa_mask k + 1) + low]
| run_extended x : is_byte x -> run_bytes k (x + fa_base k) [fa_code k * (fa_mask k + 1); x]
| run_mega lo hi : is_byte lo -> is_byte hi -> val16 lo hi <> 0 -> run_bytes k (val16 lo hi) [fa_mega k; lo; hi].

(** ** Reading them from a list *)

Definition parser (A : Type) : Type := list Z -> option (A * list Z).
Definition parsed {A} (p : parser A) : step A := fun s =>
  match p s.2 with Some (a, l) => Some (a, (s.1, l)) | None => None end.

Definition parse_pixel (bpp : Z) : parser Z := fun l =>
  let n := rdp_bitmap_rle_bytes_per_pixel bpp in
  if blen l <? n then None else Some (pixel_value (ztake n l), zdrop n l).
Definition parse_run (k : family) (code : Z) : parser Z := fun l =>
  if code =? fa_mega k then
    match l with
    | _ :: lo :: hi :: l => if val16 lo hi =? 0 then None else Some (val16 lo hi, l)
    | _ => None
    end
  else
    match l with
    | header :: l =>
        if Z.land header (fa_mask k) =? 0
        then match l with x :: l => Some (x + fa_base k, l) | [] => None end
        else Some (Z.land header (fa_mask k) * fa_scale k, l)
    | [] => None
    end.

Lemma bpp_bytes bpp : In bpp [8; 15; 16; 24; 32] -> 1 <= rdp_bitmap_rle_bytes_per_pixel bpp <= 4.
Proof. cbn [In]. by intros [<-|[<-|[<-|[<-|[<-|[]]]]]]. Qed.

Lemma parse_pixel_iff bpp l c rest : In bpp [8; 15; 16; 24; 32] ->
  parse_pixel bpp l = Some (c, rest) <-> exists bs, pixel_bytes bpp c bs /\ l = bs ++ rest.
Proof.
  intros Hbpp. pose proof (bpp_bytes bpp Hbpp) as Hn. unfold parse_pixel, pixel_bytes.
  set (n := rdp_bitmap_rle_bytes_per_pixel bpp) in *. split.
  - destruct (Z.ltb_spec (blen l) n); [done|]. intros [= <- <-]. exists (ztake n l).
    rewrite blen_ztake by lia. by rewrite ztake_zdrop.
  - intros (bs & [Hl ->] & ->). rewrite blen_app, Hl. pose proof (blen_nonneg rest).
    destruct (Z.ltb_spec (n + blen rest) n); [lia|]. by rewrite <- Hl, ztake_app_blen, zdrop_app_blen.
Qed.

Lemma run_mask k : In k families -> fa_mask k = 0x1f \/ fa_mask k = 0x0f.
Proof. cbn [families In]. by intros [<-|[<-|[<-|[<-|[<-|[<-|[<-|[<-|[]]]]]]]]]; auto. Qed.
Lemma run_scale k : In k families -> (fa_scale k = 1 \/ fa_scale k = 8) /\ 1 <= fa_base k <= 32.
Proof. cbn [families In]. intros [<-|[<-|[<-|[<-|[<-|[<-|[<-|[<-|[]]]]]]]]]; cbn; lia. Qed.

(** The header of a short or extended run, and that of a long one. *)
Lemma header_code k header : In k families -> is_byte header -> rdp_bitmap_rle_code header = fa_code k ->
  header = fa_code k * (fa_mask k + 1) + Z.land header (fa_mask k).
Proof.
  intros Hk Hh Hc.
  assert (H : forallb (fun k => forallb (fun header => negb (rdp_bitmap_rle_code header =? fa_code k) ||
     (header =? fa_code k * (fa_mask k + 1) + Z.land header (fa_mask k))) all_bytes) families = true)
    by (vm_compute; reflexivity).
  rewrite forallb_forall in H. specialize (H k Hk). rewrite forallb_forall in H.
  assert (Hin : In header all_bytes) by (apply list_elem_of_In, elem_of_seqZ; unfold is_byte in Hh; lia).
  specialize (H header Hin). cbv beta in H. rewrite Hc, Z.eqb_refl in H. cbn [negb orb] in H. lia.
Qed.
Lemma header_mega k header : In k families -> is_byte header ->
  rdp_bitmap_rle_code header = fa_mega k <-> header = fa_mega k.
Proof.
  intros Hk Hh.
  assert (H : forallb (fun k => forallb (fun header => Bool.eqb (rdp_bitmap_rle_code header =? fa_mega k)
     (header =? fa_mega k)) all_bytes) families = true) by (vm_compute; reflexivity).
  rewrite forallb_forall in H. specialize (H k Hk). rewrite forallb_forall in H.
  assert (Hin : In header all_bytes) by (apply list_elem_of_In, elem_of_seqZ; unfold is_byte in Hh; lia).
  specialize (H header Hin). cbv beta in H. apply Bool.eqb_prop in H.
  destruct (Z.eqb_spec (rdp_bitmap_rle_code header) (fa_mega k)), (Z.eqb_spec header (fa_mega k)); done.
Qed.
Lemma header_of_code k low : In k families -> 0 <= low <= fa_mask k ->
  let header := fa_code k * (fa_mask k + 1) + low in
  is_byte header /\ rdp_bitmap_rle_code header = fa_code k /\ Z.land header (fa_mask k) = low.
Proof.
  intros Hk Hl header.
  assert (H : forallb (fun k => forallb (fun low => let header := fa_code k * (fa_mask k + 1) + low in
     negb (low <=? fa_mask k) || ((0 <=? header) && (header <? 0x100) && (rdp_bitmap_rle_code header =? fa_code k) &&
     (Z.land header (fa_mask k) =? low))) (seqZ 0 32)) families = true) by (vm_compute; reflexivity).
  rewrite forallb_forall in H. specialize (H k Hk). rewrite forallb_forall in H.
  assert (Hin : In low (seqZ 0 32)).
  { apply list_elem_of_In, elem_of_seqZ. destruct (run_mask k Hk) as [E|E]; rewrite E in Hl; lia. }
  specialize (H low Hin). cbv zeta beta in H. unfold header, is_byte.
  destruct (Z.leb_spec low (fa_mask k)); [|lia]. cbn [negb orb] in H. bool_prop. lia.
Qed.

Lemma codes_differ k : In k families -> fa_code k <> fa_mega k.
Proof. cbn [families In]. intros [<-|[<-|[<-|[<-|[<-|[<-|[<-|[<-|[]]]]]]]]]; done. Qed.

Lemma parse_run_iff k header l n rest :
  In k families -> bytes (header :: l) ->
  rdp_bitmap_rle_code header = fa_code k \/ rdp_bitmap_rle_code header = fa_mega k ->
  parse_run k (rdp_bitmap_rle_code header) (header :: l) = Some (n, rest) <->
  exists bs, run_bytes k n bs /\ header :: l = bs ++ rest.
Proof.
  intros Hk Hby Hcode. pose proof (codes_differ k Hk) as Hd. inversion Hby as [|? ? Hh Hl]; subst.
  assert (Hm : 0 <= fa_mask k) by (destruct (run_mask k Hk) as [-> | ->]; lia). unfold parse_run. split.
  - destruct (Z.eqb_spec (rdp_bitmap_rle_code header) (fa_mega k)) as [E|E].
    + apply (header_mega k header Hk Hh) in E. destruct l as [|lo [|hi l]]; [done|done|].
      destruct (Z.eqb_spec (val16 lo hi) 0); [done|]. intros [= <- <-]. exists [header; lo; hi].
      apply Forall_cons_iff in Hl as [? [? ?]%Forall_cons_iff]. subst header. split; [by constructor|done].
    + destruct Hcode as [Hcode|]; [|done]. pose proof (header_code k header Hk Hh Hcode) as Eh.
      destruct (Z.eqb_spec (Z.land header (fa_mask k)) 0) as [E0|E0].
      * destruct l as [|x l]; [done|]. intros [= <- <-]. exists [header; x]. rewrite E0, Z.add_0_r in Eh.
        apply Forall_cons_iff in Hl as [? ?]. rewrite Eh. split; [by constructor|done].
      * intros [= <- <-]. exists [header]. split; [|done]. rewrite Eh at 2. constructor.
        destruct (run_mask k Hk) as [Em|Em]; rewrite Em in *; bits_norm; Z.div_mod_to_equations; lia.
  - intros (bs & Hr & El). destruct Hr as [low Hlow|x Hx|lo hi Hlo Hhi Hv]; injection El as -> ->.
    + destruct (header_of_code k low Hk ltac:(lia)) as (_ & Ec & Em). rewrite Ec, Em.
      destruct (Z.eqb_spec (fa_code k) (fa_mega k)); [done|]. by destruct (Z.eqb_spec low 0); [lia|].
    + destruct (header_of_code k 0 Hk ltac:(lia)) as (_ & Ec & Em). rewrite Z.add_0_r in Ec, Em. rewrite Ec, Em.
      by destruct (Z.eqb_spec (fa_code k) (fa_mega k)).
    + assert (Ec : rdp_bitmap_rle_code (fa_mega k) = fa_mega k) by by apply header_mega.
      rewrite Ec, Z.eqb_refl. by destruct (Z.eqb_spec (val16 lo hi) 0).
Qed.

(** ** The readers do this *)

Section readers.
Context (g : bitmap) (Hg : bitmap_ok g).

Lemma bitmap_of r : ready g r -> rl_width r = bm_width g /\ rl_total r = bm_total g /\ rl_bits_per_pixel r = bm_bpp g.
Proof. intros [_ _ _ _ <-]. done. Qed.

Lemma read_pixel_steps : Steps g rdp_bitmap_rle_read_pixel (parsed (parse_pixel (bm_bpp g))).
Proof.
  destruct Hg as (_ & _ & Hbpp). apply steps_gets. intros r Hr. unfold id. destruct (bitmap_of r Hr) as (_ & _ & Eb).
  rewrite Eb. cbv zeta. unfold parsed, parse_pixel. cbn [abs fst snd]. rewrite (blen_unread_bytes g r Hr), bind_require.
  set (n := rdp_bitmap_rle_bytes_per_pixel (bm_bpp g)). pose proof (bpp_bytes (bm_bpp g) Hbpp) as Hn. fold n in Hn.
  destruct (Z.eqb_spec n 0); [lia|]. cbn [orb]. destruct (Z.ltb_spec (rle_remaining r) n); cbn [negb].
  { by exists r. }
  destruct (set_current_ready g r n Hr) as [H1 H2]; [lia|]. exists (set_current (rl_current r + n) r).
  split; [|split; [exact H1|exact H2]]. pose proof (blen_unread_bytes g r Hr) as Hu.
  assert (Hget : forall i, 0 <= i < n -> exists v, rd (rl_data r) (rl_current r + i) = Ok v /\
                   unread_bytes r !! Z.to_nat i = Some v).
  { intros i Hi. apply (unread_cons g); [done|lia|unfold rle_remaining in *; lia]. }
  destruct (Hget 0) as (v0 & E0 & L0); [lia|]. rewrite Z.add_0_r in E0.
  destruct (unread_bytes r) as [|b0 l]; [done|]. injection L0 as ->.
  destruct Hbpp as [Hb|[Hb|[Hb|[Hb|[Hb|[]]]]]]; subst n; rewrite <- Hb in *; cbn [Z.eqb Pos.eqb orb rdp_bitmap_rle_bytes_per_pixel] in *.
  - rewrite bind_lift, E0, bind_modify. done.
  - destruct (Hget 1) as (v1 & E1 & L1); [lia|]. destruct l as [|b1 l]; [done|]. injection L1 as ->.
    unfold mbind, M_bind, lift. rewrite E0, E1. done.
  - destruct (Hget 1) as (v1 & E1 & L1); [lia|]. destruct l as [|b1 l]; [done|]. injection L1 as ->.
    unfold mbind, M_bind, lift. rewrite E0, E1. done.
  - destruct (Hget 1) as (v1 & E1 & L1); [lia|]. destruct (Hget 2) as (v2 & E2 & L2); [lia|].
    destruct l as [|b1 [|b2 l]]; [done|done|]. injection L1 as ->. injection L2 as ->.
    unfold mbind, M_bind, lift. rewrite E0, E1, E2. done.
  - destruct (Hget 1) as (v1 & E1 & L1); [lia|]. destruct (Hget 2) as (v2 & E2 & L2); [lia|].
    destruct (Hget 3) as (v3 & E3 & L3); [lia|]. destruct l as [|b1 [|b2 [|b3 l]]]; [done|done|done|].
    injection L1 as ->. injection L2 as ->. unfold mbind, M_bind, lift. rewrite E0, E1, E2. done.
Qed.
End readers.

(** [rdp_bitmap_rle_run_length] by family. *)
Lemma run_length_regular r k : In k families ->
  rdp_bitmap_rle_run_length r (fa_code k) =
  (ensure (negb (blen (rl_data r) <=? rl_current r)) LIBRDP_STATUS_PROTOCOL_ERROR;;
   regular_length r (fa_mask k) (fa_base k) (fa_scale k)).
Proof. cbn [families In]. by intros [<-|[<-|[<-|[<-|[<-|[<-|[<-|[<-|[]]]]]]]]]. Qed.
Lemma run_length_mega r k : In k families ->
  rdp_bitmap_rle_run_length r (fa_mega k) =
  (ensure (negb (blen (rl_data r) <=? rl_current r)) LIBRDP_STATUS_PROTOCOL_ERROR;;
   ensure (negb (rle_remaining r <? 3)) LIBRDP_STATUS_PROTOCOL_ERROR;;
   order1 ← rd (rl_data r) (rl_current r + 1);
   order2 ← rd (rl_data r) (rl_current r + 2);
   let run_length := Z.lor order1 (Z.shiftl order2 8) in
   ensure (negb (run_length =? 0)) LIBRDP_STATUS_PROTOCOL_ERROR;;
   Ok (run_length, 3)).
Proof. cbn [families In]. by intros [<-|[<-|[<-|[<-|[<-|[<-|[<-|[<-|[]]]]]]]]]. Qed.

Section runs.
Context (g : bitmap) (Hg : bitmap_ok g).

Lemma take_run_step code k r : ready g r -> In k families -> code = fa_code k \/ code = fa_mega k ->
  match parse_run k code (unread_bytes r) with
  | Some (n, l) => exists used, rdp_bitmap_rle_run_length r code = Ok (n, used) /\ 0 <= used <= rle_remaining r /\
                    zdrop used (unread_bytes r) = l
  | None => rdp_bitmap_rle_run_length r code = Err LIBRDP_STATUS_PROTOCOL_ERROR
  end.
Proof.
  intros Hr Hk Hcode. pose proof (codes_differ k Hk) as Hd. pose proof (blen_unread_bytes g r Hr) as Hu.
  pose proof (ready_current g r Hr) as Hc. pose proof (proj1 (proj2 (ready_valid g r Hr))) as Hby. cbn [abs snd] in Hby.
  assert (Hget : forall i, 0 <= i < rle_remaining r -> exists v, rd (rl_data r) (rl_current r + i) = Ok v /\
                   unread_bytes r !! Z.to_nat i = Some v).
  { intros i Hi. apply (unread_cons g); [done|lia|unfold rle_remaining in *; lia]. }
  assert (Hens : negb (blen (rl_data r) <=? rl_current r) = (0 <? rle_remaining r)) by (unfold rle_remaining; lia).
  destruct (run_scale k Hk) as [Hs Hbase]. unfold parse_run. destruct Hcode as [-> | ->].
  - rewrite run_length_regular, Hens by done. destruct (Z.eqb_spec (fa_code k) (fa_mega k)); [done|].
    destruct (unread_bytes r) as [|b0 l]; [by rewrite <- Hu|]. rewrite <- Hu, ensure_true by zlen.
    destruct (Hget 0) as (v0 & E0 & L0); [zlen|]. rewrite Z.add_0_r in E0. injection L0 as ->.
    apply Forall_cons_iff in Hby as [H0 Hby]. unfold regular_length. rewrite E0. change (Ok v0 ≫= ?k) with (k v0).
    assert (Em : u8 (Z.land v0 (fa_mask k)) = Z.land v0 (fa_mask k) /\ 0 <= Z.land v0 (fa_mask k) <= 31).
    { unfold u8. destruct (run_mask k Hk) as [-> | ->]; bits_norm; Z.div_mod_to_equations; lia. }
    destruct Em as [-> Em]. destruct (Z.eqb_spec (Z.land v0 (fa_mask k)) 0).
    + rewrite <- Hu. destruct l as [|b1 l]; [done|]. rewrite ensure_true by zlen.
      destruct (Hget 1) as (v1 & E1 & L1); [zlen|]. injection L1 as ->. rewrite E1. change (Ok v1 ≫= ?k) with (k v1).
      apply Forall_cons_iff in Hby as [H1 _]. unfold is_byte in H1.
      assert (E : u32 (v1 + fa_base k) = v1 + fa_base k) by (unfold u32; rewrite Z.mod_small; lia).
      rewrite E. exists 2. split; [done|]. split; [zlen|done].
    + assert (E : u32 (Z.land v0 (fa_mask k) * fa_scale k) = Z.land v0 (fa_mask k) * fa_scale k).
      { unfold u32. apply Z.mod_small. destruct Hs as [-> | ->]; lia. }
      rewrite E. exists 1. split; [done|]. split; [zlen|done].
  - rewrite run_length_mega, Hens, Z.eqb_refl by done.
    destruct (unread_bytes r) as [|b0 l]; [by rewrite <- Hu|]. rewrite <- Hu, ensure_true by zlen.
    destruct l as [|b1 [|b2 l]]; [done|done|]. rewrite ensure_true by zlen.
    destruct (Hget 1) as (v1 & E1 & L1); [zlen|]. injection L1 as ->.
    destruct (Hget 2) as (v2 & E2 & L2); [zlen|]. injection L2 as ->.
    rewrite E1, E2. change (Ok v1 ≫= ?k) with (k v1). cbv beta. change (Ok v2 ≫= ?k) with (k v2). cbv zeta beta.
    fold (val16 v1 v2). destruct (Z.eqb_spec (val16 v1 v2) 0); [done|].
    exists 3. split; [done|]. split; [zlen|done].
Qed.

Lemma take_run_steps code k : In k families -> code = fa_code k \/ code = fa_mega k ->
  Steps g (take_run code) (parsed (parse_run k code)).
Proof.
  intros Hk Hcode. apply steps_gets. intros r Hr. unfold id, parsed. cbn [abs fst snd].
  pose proof (take_run_step code k r Hr Hk Hcode) as H. destruct (parse_run k code (unread_bytes r)) as [[n l]|].
  - destruct H as (used & E & Hused & <-). rewrite E, bind_lift. destruct (set_current_ready g r used Hr Hused) as [H1 H2].
    eexists. split; [reflexivity|]. by split.
  - rewrite H, bind_lift. by exists r.
Qed.
End runs.

(** ** Sequences of pixels and of masks *)

Fixpoint parse_pixels (bpp : Z) (n : nat) : parser (list Z) := fun l =>
  match n with
  | O => Some ([], l)
  | S n =>
      match parse_pixel bpp l with
      | Some (c, l) => match parse_pixels bpp n l with Some (cs, l) => Some (c :: cs, l) | None => None end
      | None => None
      end
  end.
(** One mask for eight pixels or part of them. *)
Definition mask_count (n : Z) : Z := (n + 7) / 8.
Definition parse_masks (n : Z) : parser (list Z) := fun l =>
  if blen l <? mask_count n then None else Some (ztake (mask_count n) l, zdrop (mask_count n) l).
Definition masks_pixels (w : Z) (masks : list Z) (n : Z) (fg : Z) : list (list Z -> Z) :=
  take (Z.to_nat n) (masks ≫= fun mask => mask_pixels w 8 mask fg).
Definition constants (cs : list Z) : list (list Z -> Z) := (fun c _ => c) <$> cs.

(** Parse, then paint. *)
Definition then_paint {A} (g : bitmap) (p : parser A) (fs : A -> Z -> list (list Z -> Z)) : step unit :=
  step_bind (parsed p) (fun a => paints g (fs a)).

Section sequences.
Context (g : bitmap) (Hg : bitmap_ok g).

(** Painting fails or succeeds on the canvas, whatever is unread. *)
Lemma paints_unread fs c l l' :
  paints g fs (c, l') = match paints g fs (c, l) with Some (u, (c', _)) => Some (u, (c', l')) | None => None end.
Proof. unfold paints. cbn [fst snd]. by destruct (_ <=? _). Qed.

Lemma colors_steps (n : nat) :
  Steps g (color_loop n) (then_paint g (parse_pixels (bm_bpp g) n) (fun cs _ => constants cs)).
Proof.
  induction n as [|n IH].
  { eapply steps_ext; [|apply paints_done]. intros s Hs. unfold then_paint, step_bind, parsed. cbn. by destruct s. }
  cbn [color_loop]. eapply steps_ext.
  2: { apply steps_bind; [apply read_pixel_steps, Hg|]. intros c. apply (steps_bind g); [by apply write_pixel_steps|].
       intros ?. exact IH. }
  intros s _; destruct s as [c l]. unfold then_paint, step_bind, parsed. cbn [fst snd parse_pixels].
  destruct (parse_pixel (bm_bpp g) l) as [[p l1]|]; [|done]. cbn [fst snd].
  rewrite (paints_unread (fun _ => [fun _ => p]) c l l1).
  destruct (parse_pixels (bm_bpp g) n l1) as [[cs l2]|] eqn:E; cbn [fst snd].
  - pose proof (paints_app g (fun _ => [fun _ => p]) (fun _ => constants cs) (c, l2)) as H.
    unfold step_bind in H. rewrite (paints_unread (fun _ => [fun _ => p]) c l l2) in H.
    change ([fun _ => p] ++ constants cs) with (constants (p :: cs)) in H. rewrite <- H.
    destruct (paints g (fun _ => [fun _ => p]) (c, l)) as [[u [c' l']]|]; [|done]. cbn [snd fst]. by rewrite E.
  - destruct (paints g (fun _ => [fun _ => p]) (c, l)) as [[u [c' l']]|]; [|done]. cbn [snd]. by rewrite E.
Qed.

Lemma masks_pixels_cons w m ms n fg : 8 < n ->
  masks_pixels w (m :: ms) n fg = mask_pixels w 8 m fg ++ masks_pixels w ms (n - 8) fg.
Proof.
  intros Hn. unfold masks_pixels. cbn [mbind list_bind]. rewrite take_app_ge.
  - f_equal. f_equal. unfold mask_pixels. rewrite length_fmap, length_seq. lia.
  - unfold mask_pixels. rewrite length_fmap, length_seq. lia.
Qed.
Lemma masks_pixels_last w m n fg : 0 <= n <= 8 ->
  masks_pixels w [m] n fg = mask_pixels w (Z.to_nat n) m fg.
Proof.
  intros Hn. unfold masks_pixels, mask_pixels. cbn [mbind list_bind]. rewrite app_nil_r, <- fmap_take.
  f_equal. replace 8%nat with (Z.to_nat n + (8 - Z.to_nat n))%nat by lia.
  rewrite seq_app, take_app_length'; [done|]. by rewrite length_seq.
Qed.
Lemma mask_count_step n : 8 < n -> mask_count n = 1 + mask_count (n - 8).
Proof. intros Hn. unfold mask_count. replace (n + 7) with (1 * 8 + (n - 8 + 7)) by lia. by rewrite Z.div_add_l. Qed.
Lemma mask_count_one n : 0 < n <= 8 -> mask_count n = 1.
Proof. intros Hn. unfold mask_count. symmetry. apply (Z.div_unique _ 8 _ (n - 1)); lia. Qed.

(** The specification of the masks, one mask at a time. *)
Definition masks_step (n : Z) : step unit :=
  then_paint g (parse_masks n) (fun ms => masks_pixels (bm_width g) ms n).
Lemma masks_more n c l : 8 < n ->
  masks_step n (c, l) = step_bind take_byte (fun m => step_bind (paints g (mask_pixels (bm_width g) 8 m))
    (fun _ => masks_step (n - 8))) (c, l).
Proof.
  intros H8. unfold masks_step. unfold then_paint, step_bind, parsed, take_byte, parse_masks. cbn [fst snd].
  rewrite (mask_count_step n H8). assert (Hmc : 0 <= mask_count (n - 8)) by (unfold mask_count; apply Z.div_pos; lia).
  destruct l as [|m l]; [destruct (Z.ltb_spec (blen (@nil Z)) (1 + mask_count (n - 8))); [done|zlen]|].
  rewrite blen_cons. cbn [fst snd].
  change (Z.to_nat 8) with 8%nat. rewrite (paints_unread (mask_pixels (bm_width g) 8 m) c [] l).
  replace (1 + blen l <? 1 + mask_count (n - 8)) with (blen l <? mask_count (n - 8)) by lia.
  assert (Et : ztake (1 + mask_count (n - 8)) (m :: l) = m :: ztake (mask_count (n - 8)) l)
    by (unfold ztake; by rewrite Z2Nat.inj_add by lia).
  assert (Ed : zdrop (1 + mask_count (n - 8)) (m :: l) = zdrop (mask_count (n - 8)) l)
    by (unfold zdrop; by rewrite Z2Nat.inj_add by lia).
  rewrite Et, Ed. destruct (Z.ltb_spec (blen l) (mask_count (n - 8))) as [Hl|Hl].
  { destruct (paints g _ (c, [])) as [[u [c' l']]|]; [|done]. cbn [snd].
    by destruct (Z.ltb_spec (blen l) (mask_count (n - 8))); [|lia]. }
  set (ms := ztake (mask_count (n - 8)) l). set (rest := zdrop (mask_count (n - 8)) l). cbn [fst snd].
  pose proof (paints_app g (mask_pixels (bm_width g) 8 m) (masks_pixels (bm_width g) ms (n - 8)) (c, rest)) as H.
  unfold step_bind in H. rewrite (paints_unread (mask_pixels (bm_width g) 8 m) c [] rest) in H.
  assert (Er : paints g (masks_pixels (bm_width g) (m :: ms) n) (c, rest) =
    paints g (fun fg => mask_pixels (bm_width g) 8 m fg ++ masks_pixels (bm_width g) ms (n - 8) fg) (c, rest))
    by (unfold paints; cbn [fst snd]; by rewrite masks_pixels_cons).
  rewrite Er, <- H.
  destruct (paints g (mask_pixels (bm_width g) 8 m) (c, [])) as [[u [c' l']]|]; [|done]. cbn [snd fst].
  by destruct (Z.ltb_spec (blen l) (mask_count (n - 8))); [lia|].
Qed.
Lemma masks_last n c l : 0 < n <= 8 ->
  masks_step n (c, l) = step_bind take_byte (fun m => paints g (mask_pixels (bm_width g) (Z.to_nat n) m)) (c, l).
Proof.
  intros Hn. unfold masks_step, then_paint, step_bind, parsed, take_byte, parse_masks. cbn [fst snd].
  rewrite (mask_count_one n) by lia. destruct l as [|m l]; [done|]. cbn [snd fst]. rewrite blen_cons.
  pose proof (blen_nonneg l). destruct (Z.ltb_spec (1 + blen l) 1); [lia|].
  unfold paints. cbn [fst snd]. change (ztake 1 (m :: l)) with [m]. change (zdrop 1 (m :: l)) with l.
  by rewrite masks_pixels_last by lia.
Qed.
Lemma masks_steps fuel n : 0 <= n <= UINT32_MAX -> n < Z.of_nat fuel -> Steps g (fgbg_loop fuel n) (masks_step n).
Proof.
  revert n. induction fuel as [|fuel IH]; intros n Hn Hf; [lia|]. cbn [fgbg_loop]. unfold UINT32_MAX in *.
  destruct (Z.ltb_spec 8 n) as [H8|H8]; [|destruct (Z.ltb_spec 0 n) as [H0|H0]].
  - assert (E : u32 (n - 8) = n - 8) by (unfold u32; rewrite Z.mod_small; lia). rewrite E.
    eapply steps_ext; [intros [c l] _; by apply masks_more|]. apply steps_bind; [apply next_mask_steps|].
    intros m. apply (steps_bind g); [by apply write_fgbg_steps|]. intros ?. apply IH; lia.
  - eapply steps_ext; [intros [c l] _; apply masks_last; lia|]. apply steps_bind; [apply next_mask_steps|].
    intros m. apply write_fgbg_steps; [done|lia].
  - replace n with 0 by lia. eapply steps_ext; [|apply paints_done]. intros [c l] _.
    unfold masks_step, then_paint, step_bind, parsed, parse_masks. cbn [fst snd]. change (mask_count 0) with 0.
    pose proof (blen_nonneg l). by destruct (Z.ltb_spec (blen l) 0); [lia|].
Qed.
End sequences.

(** ** Orders *)

Inductive order : Set :=
| Background (n : Z)                        (** the pixels above *)
| Foreground (n : Z)                        (** the pixels above, inverted with the foreground *)
| SetForeground (c n : Z)
| Dithered (a b n : Z)
| ColorRun (c n : Z)
| Masked (masks : list Z) (n : Z)           (** inverted or not, bit by bit *)
| SetMasked (c : Z) (masks : list Z) (n : Z)
| ColorImage (cs : list Z)
| Special (mask : Z)
| White
| Black.

Definition order_foreground (o : order) (fg : Z) : Z :=
  match o with SetForeground c _ | SetMasked c _ _ => c | _ => fg end.
(** Two background orders in a row: the first pixel of the second is inverted. *)
Definition order_insert (o : order) : Z := match o with Background _ => 1 | _ => 0 end.
Definition order_pixels (g : bitmap) (o : order) (insert fg : Z) : list (list Z -> Z) :=
  let w := bm_width g in
  match o with
  | Background n =>
      if insert =? 0 then replicate (Z.to_nat n) (above w)
      else inverted w fg :: replicate (Z.to_nat (n - 1)) (above w)
  | Foreground n | SetForeground _ n => replicate (Z.to_nat n) (inverted w fg)
  | Dithered a b n => concat (replicate (Z.to_nat n) [fun _ => a; fun _ => b])
  | ColorRun c n => replicate (Z.to_nat n) (fun _ => c)
  | Masked ms n | SetMasked _ ms n => masks_pixels w ms n fg
  | ColorImage cs => constants cs
  | Special mask => mask_pixels w 8 mask fg
  | White => [fun _ => rdp_bitmap_rle_white (bm_bpp g)]
  | Black => [fun _ => 0]
  end.
Definition apply_order (g : bitmap) (o : order) (c : canvas) : canvas :=
  let fg := order_foreground o (cv_foreground c) in
  mk_canvas fg (order_insert o) (paint (order_pixels g o (cv_insert c) fg) (cv_image c)).

(** The bytes of an order. *)
Inductive order_bytes (bpp : Z) : order -> list Z -> Prop :=
| background_bytes n bs : run_bytes bg_run n bs -> order_bytes bpp (Background n) bs
| foreground_bytes n bs : run_bytes fg_run n bs -> order_bytes bpp (Foreground n) bs
| set_foreground_bytes c n bs ps :
    run_bytes set_fg_run n bs -> pixel_bytes bpp c ps -> order_bytes bpp (SetForeground c n) (bs ++ ps)
| dithered_bytes a b n bs ps qs :
    run_bytes dithered_run n bs -> pixel_bytes bpp a ps -> pixel_bytes bpp b qs ->
    order_bytes bpp (Dithered a b n) (bs ++ ps ++ qs)
| color_run_bytes c n bs ps :
    run_bytes color_run n bs -> pixel_bytes bpp c ps -> order_bytes bpp (ColorRun c n) (bs ++ ps)
| masked_bytes ms n bs :
    run_bytes fgbg_image n bs -> blen ms = mask_count n -> order_bytes bpp (Masked ms n) (bs ++ ms)
| set_masked_bytes c ms n bs ps :
    run_bytes set_fgbg_image n bs -> pixel_bytes bpp c ps -> blen ms = mask_count n ->
    order_bytes bpp (SetMasked c ms n) (bs ++ ps ++ ms)
| color_image_bytes cs pss bs :
    run_bytes color_image (blen cs) bs -> Forall2 (pixel_bytes bpp) cs pss ->
    order_bytes bpp (ColorImage cs) (bs ++ concat pss)
| special_1_bytes : order_bytes bpp (Special 0x03) [RDP_BITMAP_RLE_SPECIAL_FGBG_1]
| special_2_bytes : order_bytes bpp (Special 0x05) [RDP_BITMAP_RLE_SPECIAL_FGBG_2]
| white_bytes : order_bytes bpp White [RDP_BITMAP_RLE_SPECIAL_WHITE]
| black_bytes : order_bytes bpp Black [RDP_BITMAP_RLE_SPECIAL_BLACK].

(** ** Reading an order *)

Definition parse_ret {A} (a : A) : parser A := fun l => Some (a, l).
Definition parse_bind {A B} (p : parser A) (k : A -> parser B) : parser B := fun l =>
  match p l with Some (a, l) => k a l | None => None end.
Definition of_family (k : family) (code : Z) : bool := (code =? fa_code k) || (code =? fa_mega k).
Definition parse_special (o : order) : parser order := fun l =>
  match l with _ :: l => Some (o, l) | [] => None end.

Definition parse_order (bpp code : Z) : parser order :=
  if of_family bg_run code then parse_bind (parse_run bg_run code) (fun n => parse_ret (Background n))
  else if of_family fg_run code then parse_bind (parse_run fg_run code) (fun n => parse_ret (Foreground n))
  else if of_family set_fg_run code then
    parse_bind (parse_run set_fg_run code) (fun n =>
    parse_bind (parse_pixel bpp) (fun c => parse_ret (SetForeground c n)))
  else if of_family dithered_run code then
    parse_bind (parse_run dithered_run code) (fun n =>
    parse_bind (parse_pixel bpp) (fun a => parse_bind (parse_pixel bpp) (fun b => parse_ret (Dithered a b n))))
  else if of_family color_run code then
    parse_bind (parse_run color_run code) (fun n =>
    parse_bind (parse_pixel bpp) (fun c => parse_ret (ColorRun c n)))
  else if of_family fgbg_image code then
    parse_bind (parse_run fgbg_image code) (fun n =>
    parse_bind (parse_masks n) (fun ms => parse_ret (Masked ms n)))
  else if of_family set_fgbg_image code then
    parse_bind (parse_run set_fgbg_image code) (fun n =>
    parse_bind (parse_pixel bpp) (fun c =>
    parse_bind (parse_masks n) (fun ms => parse_ret (SetMasked c ms n))))
  else if of_family color_image code then
    parse_bind (parse_run color_image code) (fun n =>
    parse_bind (parse_pixels bpp (Z.to_nat n)) (fun cs => parse_ret (ColorImage cs)))
  else if code =? RDP_BITMAP_RLE_SPECIAL_FGBG_1 then parse_special (Special 0x03)
  else if code =? RDP_BITMAP_RLE_SPECIAL_FGBG_2 then parse_special (Special 0x05)
  else if code =? RDP_BITMAP_RLE_SPECIAL_WHITE then parse_special White
  else if code =? RDP_BITMAP_RLE_SPECIAL_BLACK then parse_special Black
  else fun _ => None.

(** Read an order and paint it, if there is room. *)
Definition order_step (g : bitmap) (code : Z) : step unit := fun s =>
  match parse_order (bm_bpp g) code s.2 with
  | Some (o, l) =>
      let c := apply_order g o s.1 in
      if blen (cv_image c) <=? bm_total g then Some (tt, (c, l)) else None
  | None => None
  end.

(** The effect of an order that is not a background run, the insert flag apart. *)
Definition paint_order (g : bitmap) (o : order) (c : canvas) : canvas :=
  let fg := order_foreground o (cv_foreground c) in
  mk_canvas fg (cv_insert c) (paint (order_pixels g o 0 fg) (cv_image c)).
Definition settle (g : bitmap) (p : parser order) : step unit := fun s =>
  match p s.2 with
  | Some (o, l) =>
      let c := paint_order g o s.1 in
      if blen (cv_image c) <=? bm_total g then Some (tt, (c, l)) else None
  | None => None
  end.
Definition set_canvas (f : canvas -> canvas) : step unit := fun s => Some (tt, (f s.1, s.2)).

Section orders.
Context (g : bitmap) (Hg : bitmap_ok g).

Lemma settle_bind {A} (p : parser A) (k : A -> parser order) s :
  settle g (parse_bind p k) s = step_bind (parsed p) (fun a => settle g (k a)) s.
Proof. unfold settle, parse_bind, step_bind, parsed. by destruct (p s.2) as [[a l]|]. Qed.
Lemma settle_ret o s : (forall fg, order_foreground o fg = fg) ->
  settle g (parse_ret o) s = paints g (order_pixels g o 0) s.
Proof.
  intros Ho. unfold settle, parse_ret, paints, paint_order. cbn [cv_image]. rewrite Ho. by destruct (_ <=? _).
Qed.
Lemma settle_set c o s : (forall fg, order_foreground o fg = c) ->
  settle g (parse_ret o) s = step_bind (set_canvas (with_foreground c)) (fun _ => paints g (order_pixels g o 0)) s.
Proof.
  intros Ho. unfold settle, parse_ret, step_bind, set_canvas, paints, paint_order.
  cbn [cv_image cv_foreground with_foreground fst snd]. rewrite Ho. by destruct (_ <=? _).
Qed.

Lemma steps_bind_post {A B} (Q : A -> Prop) (m : rle A) (k : A -> rle B) f (h : A -> step B) :
  Steps g m f -> (forall s a s', valid g s -> f s = Some (a, s') -> Q a) ->
  (forall a, Q a -> Steps g (k a) (h a)) -> Steps g (m ≫= k) (step_bind f h).
Proof.
  intros Hm HQ Hk r Hr. specialize (Hm r Hr). specialize (HQ (abs r)). unfold step_bind.
  destruct (f (abs r)) as [[a s']|].
  - destruct Hm as (r1 & E & Hr1 & <-). rewrite (bind_ok _ _ _ _ _ E). apply Hk; [|done].
    by eapply HQ; [apply ready_valid|].
  - destruct Hm as (r1 & E & Hr1). rewrite (bind_err _ _ _ _ _ E). by exists r1.
Qed.
Lemma set_insert_steps i : Steps g (modify (set_insert i)) (set_canvas (with_insert i)).
Proof. intros r Hr. eexists. split; [reflexivity|]. split; [|done]. destruct Hr. by split. Qed.
Lemma set_foreground_steps c : Steps g (modify (set_foreground c)) (set_canvas (with_foreground c)).
Proof. intros r Hr. eexists. split; [reflexivity|]. split; [|done]. destruct Hr. by split. Qed.
Lemma take_foreground_steps :
  Steps g take_foreground (step_bind (parsed (parse_pixel (bm_bpp g))) (fun c => set_canvas (with_foreground c))).
Proof. apply steps_bind; [by apply read_pixel_steps|]. intros c. apply set_foreground_steps. Qed.

Lemma run_bounds k code (s : canvas * list Z) n s' : In k families -> bytes s.2 -> parsed (parse_run k code) s = Some (n, s') ->
  1 <= n <= UINT16_MAX.
Proof.
  intros Hk Hby. unfold parsed, parse_run, UINT16_MAX. destruct s as [c l]. cbn [fst snd] in *.
  destruct (run_scale k Hk) as [Hs Hb]. destruct (Z.eqb_spec code (fa_mega k)).
  - destruct l as [|b0 [|lo [|hi l]]]; [done|done|done|].
    apply Forall_cons_iff in Hby as [_ Hby]. apply Forall_cons_iff in Hby as [Hlo Hby].
    apply Forall_cons_iff in Hby as [Hhi _]. pose proof (is_u16_val16 lo hi Hlo Hhi) as Hv. unfold is_u16 in Hv.
    destruct (Z.eqb_spec (val16 lo hi) 0); [done|]. intros [= <- _]. lia.
  - destruct l as [|b0 l]; [done|]. apply Forall_cons_iff in Hby as [H0 Hby].
    assert (Hm : 0 <= Z.land b0 (fa_mask k) <= 31)
      by (destruct (run_mask k Hk) as [-> | ->]; bits_norm; Z.div_mod_to_equations; lia).
    destruct (Z.eqb_spec (Z.land b0 (fa_mask k)) 0).
    + destruct l as [|x l]; [done|]. intros [= <- _]. apply Forall_cons_iff in Hby as [Hx _]. unfold is_byte in Hx. lia.
    + intros [= <- _]. destruct Hs as [-> | ->]; lia.
Qed.

(** The shape of every order but the background run. *)
Lemma family_steps k code (K : Z -> rle unit) (P : Z -> parser order) :
  In k families -> code = fa_code k \/ code = fa_mega k ->
  (forall n, 1 <= n <= UINT16_MAX -> Steps g (K n) (settle g (P n))) ->
  Steps g (modify (set_insert 0);; run ← take_run code; K run)
    (step_bind (set_canvas (with_insert 0)) (fun _ => settle g (parse_bind (parse_run k code) P))).
Proof.
  intros Hk Hc HK. apply steps_bind; [apply set_insert_steps|]. intros _. eapply steps_ext; [intros; apply settle_bind|].
  apply (steps_bind_post (fun n => 1 <= n <= UINT16_MAX)); [by apply take_run_steps| |done].
  intros s n s' (_ & Hs & _). by apply (run_bounds k).
Qed.
End orders.

Section order_steps.
Context (g : bitmap) (Hg : bitmap_ok g).

Lemma foreground_order n : Steps g (mret tt;; rdp_bitmap_rle_write_foreground (Z.to_nat n))
  (settle g (parse_ret (Foreground n))).
Proof. eapply steps_ext; [intros; by apply settle_ret|]. by apply foreground_steps. Qed.
Lemma set_foreground_order n :
  Steps g (take_foreground;; rdp_bitmap_rle_write_foreground (Z.to_nat n))
    (settle g (parse_bind (parse_pixel (bm_bpp g)) (fun c => parse_ret (SetForeground c n)))).
Proof.
  eapply steps_ext; [|apply steps_bind; [by apply take_foreground_steps|intros ?; by apply foreground_steps]].
  intros s _. rewrite settle_bind. unfold step_bind at 1 2 3. destruct (parsed _ s) as [[c s']|]; [|done].
  by rewrite (settle_set g c).
Qed.
Lemma dithered_order n :
  Steps g (a ← rdp_bitmap_rle_read_pixel; b ← rdp_bitmap_rle_read_pixel; dithered_loop a b (Z.to_nat n))
    (settle g (parse_bind (parse_pixel (bm_bpp g)) (fun a =>
       parse_bind (parse_pixel (bm_bpp g)) (fun b => parse_ret (Dithered a b n))))).
Proof.
  eapply steps_ext; [intros; apply settle_bind|]. apply steps_bind; [by apply read_pixel_steps|]. intros a.
  eapply steps_ext; [intros; apply settle_bind|]. apply steps_bind; [by apply read_pixel_steps|]. intros b.
  eapply steps_ext; [intros; by apply settle_ret|]. by apply dithered_steps.
Qed.
Lemma color_run_order n :
  Steps g (color ← rdp_bitmap_rle_read_pixel; rdp_bitmap_rle_repeat color (Z.to_nat n))
    (settle g (parse_bind (parse_pixel (bm_bpp g)) (fun c => parse_ret (ColorRun c n)))).
Proof.
  eapply steps_ext; [intros; apply settle_bind|]. apply steps_bind; [by apply read_pixel_steps|]. intros c.
  eapply steps_ext; [intros; by apply settle_ret|]. by apply repeat_steps.
Qed.
Lemma masked_order n : 1 <= n <= UINT16_MAX ->
  Steps g (mret tt;; fgbg_loop (S (Z.to_nat n)) n)
    (settle g (parse_bind (parse_masks n) (fun ms => parse_ret (Masked ms n)))).
Proof.
  intros Hn. unfold UINT16_MAX in Hn. eapply steps_ext; [|apply (masks_steps g Hg (S (Z.to_nat n)) n); unfold UINT32_MAX; lia].
  intros s _. rewrite settle_bind. unfold masks_step, then_paint, step_bind. destruct (parsed _ s) as [[ms s']|]; [|done].
  by rewrite settle_ret.
Qed.
Lemma set_masked_order n : 1 <= n <= UINT16_MAX ->
  Steps g (take_foreground;; fgbg_loop (S (Z.to_nat n)) n)
    (settle g (parse_bind (parse_pixel (bm_bpp g)) (fun c =>
       parse_bind (parse_masks n) (fun ms => parse_ret (SetMasked c ms n))))).
Proof.
  intros Hn. unfold UINT16_MAX in Hn. eapply steps_ext.
  2: { apply steps_bind; [by apply take_foreground_steps|]. intros ?.
       apply (masks_steps g Hg (S (Z.to_nat n)) n); unfold UINT32_MAX; lia. }
  intros s _. rewrite settle_bind. unfold step_bind at 1 2 3. destruct (parsed _ s) as [[c s']|]; [|done].
  rewrite settle_bind. unfold masks_step, then_paint, set_canvas, step_bind, parsed.
  cbn [fst snd]. destruct (parse_masks n s'.2) as [[ms l]|]; [|done]. cbn [fst snd].
  rewrite (settle_set g c) by done. done.
Qed.
Lemma color_image_order n : 1 <= n <= UINT16_MAX ->
  Steps g (color_loop (Z.to_nat n))
    (settle g (parse_bind (parse_pixels (bm_bpp g) (Z.to_nat n)) (fun cs => parse_ret (ColorImage cs)))).
Proof.
  intros Hn. eapply steps_ext; [|by apply colors_steps].
  intros s _. rewrite settle_bind. unfold then_paint, step_bind. destruct (parsed _ s) as [[cs s']|]; [|done].
  by rewrite settle_ret.
Qed.
(** The background run, with the pixel it may begin with. *)
Lemma background_tail insert n : 1 <= n <= UINT16_MAX ->
  Steps g
    (run ← (if negb (insert =? 0) then
              require (negb (n =? 0)) LIBRDP_STATUS_PROTOCOL_ERROR;;
              rdp_bitmap_rle_write_foreground 1;;
              mret (u32 (n - 1))
            else mret n);
     rdp_bitmap_rle_write_background (Z.to_nat run);;
     modify (set_insert 1))
    (step_bind (paints g (order_pixels g (Background n) insert)) (fun _ => set_canvas (with_insert 1))).
Proof.
  intros Hn. unfold UINT16_MAX in Hn. destruct (Z.eqb_spec insert 0) as [->|E]; cbn [negb].
  - change (Steps g (rdp_bitmap_rle_write_background (Z.to_nat n);; modify (set_insert 1))
      (step_bind (paints g (fun _ => replicate (Z.to_nat n) (above (bm_width g)))) (fun _ => set_canvas (with_insert 1)))).
    apply steps_bind; [by apply background_steps|intros ?; apply set_insert_steps].
  - destruct (Z.eqb_spec n 0); [lia|]. cbn [negb].
    assert (Eu : u32 (n - 1) = n - 1) by (unfold u32; rewrite Z.mod_small; lia). rewrite Eu.
    eapply steps_ext.
    2: { apply (steps_bind g (rdp_bitmap_rle_write_foreground 1;; mret (n - 1)));
           [|intros ?; apply (steps_bind g); [by apply background_steps|intros ?; apply set_insert_steps]].
         apply (steps_bind g); [by apply (foreground_steps g Hg 1)|intros ?; apply steps_ret]. }
    intros s _. assert (Eo : order_pixels g (Background n) insert = fun fg =>
      inverted (bm_width g) fg :: replicate (Z.to_nat (n - 1)) (above (bm_width g)))
      by (unfold order_pixels; by destruct (Z.eqb_spec insert 0)).
    rewrite Eo. pose proof (paints_app g (fun fg => [inverted (bm_width g) fg])
      (fun _ => replicate (Z.to_nat (n - 1)) (above (bm_width g))) s) as H.
    cbn [app] in H. unfold step_bind in *. rewrite <- H. cbn [replicate].
    by destruct (paints g (fun fg => [inverted (bm_width g) fg]) s) as [[u s']|].
Qed.

Lemma background_order code : code = fa_code bg_run \/ code = fa_mega bg_run ->
  Steps g (rle_order (bm_bpp g) code) (order_step g code).
Proof.
  intros Hc. assert (E : rle_order (bm_bpp g) code =
   (run ← take_run code;
    r ← gets id;
    run ← (if negb (rl_insert_foreground r =? 0) then
             require (negb (run =? 0)) LIBRDP_STATUS_PROTOCOL_ERROR;;
             rdp_bitmap_rle_write_foreground 1;;
             mret (u32 (run - 1))
           else mret run);
    rdp_bitmap_rle_write_background (Z.to_nat run);;
    modify (set_insert 1))) by (by destruct Hc as [-> | ->]).
  rewrite E. assert (Ep : parse_order (bm_bpp g) code = parse_bind (parse_run bg_run code) (fun n => parse_ret (Background n)))
    by (by destruct Hc as [-> | ->]).
  eapply steps_ext.
  2: { apply (steps_bind_post g (fun n => 1 <= n <= UINT16_MAX) _ _ (parsed (parse_run bg_run code))
         (fun n s => step_bind (paints g (order_pixels g (Background n) (cv_insert s.1)))
                       (fun _ => set_canvas (with_insert 1)) s)).
       - apply take_run_steps; [by left|done].
       - intros s n s' (_ & Hs & _). apply run_bounds; [by left|done].
       - intros n Hn. apply (steps_gets g). intros r Hr. apply (background_tail (rl_insert_foreground r) n Hn r Hr). }
  intros [c l] _. unfold order_step. rewrite Ep. unfold parse_bind, step_bind, parsed, parse_ret. cbn [fst snd].
  destruct (parse_run bg_run code l) as [[n l']|]; [|done]. cbn [fst snd]. unfold paints, set_canvas, apply_order.
  cbn [fst snd cv_image order_foreground order_insert]. by destruct (_ <=? _).
Qed.
End order_steps.

Section body.
Context (g : bitmap) (Hg : bitmap_ok g).

Lemma family_order k code (K : Z -> rle unit) (P : Z -> parser order) :
  In k families -> code = fa_code k \/ code = fa_mega k ->
  rle_order (bm_bpp g) code = (modify (set_insert 0);; run ← take_run code; K run) ->
  parse_order (bm_bpp g) code = parse_bind (parse_run k code) P ->
  (forall n, 1 <= n <= UINT16_MAX -> Steps g (K n) (settle g (P n))) ->
  (forall n l o l', P n l = Some (o, l') -> order_insert o = 0) ->
  Steps g (rle_order (bm_bpp g) code) (order_step g code).
Proof.
  intros Hk Hc E Ep HK Hins. rewrite E. eapply steps_ext; [|by apply (family_steps g k)]. intros [c l] _.
  unfold order_step, step_bind, set_canvas, settle. rewrite Ep. unfold parse_bind. cbn [fst snd].
  destruct (parse_run k code l) as [[n l1]|]; [|done]. destruct (P n l1) as [[o l2]|] eqn:EP; [|done].
  specialize (Hins _ _ _ _ EP). unfold apply_order, paint_order. cbn [with_insert cv_foreground cv_insert cv_image].
  rewrite Hins. assert (Eo : order_pixels g o (cv_insert c) = order_pixels g o 0) by by destruct o. by rewrite Eo.
Qed.

Lemma families_order k code : In k families -> code = fa_code k \/ code = fa_mega k ->
  Steps g (rle_order (bm_bpp g) code) (order_step g code).
Proof.
  intros Hk Hc. pose proof Hk as Hk'. cbn [families In] in Hk'.
  destruct Hk' as [<-|[<-|[<-|[<-|[<-|[<-|[<-|[<-|[]]]]]]]]].
  - by apply background_order.
  - refine (family_order fg_run code _ _ Hk Hc _ _ (fun n _ => foreground_order g Hg n) _).
    all: try (by destruct Hc as [-> | ->]). by intros n l o l' [= <- _].
  - refine (family_order fgbg_image code _ _ Hk Hc _ _ (masked_order g Hg) _).
    all: try (by destruct Hc as [-> | ->]). intros n l o l'. unfold parse_bind.
    destruct (parse_masks n l) as [[ms l1]|]; [|done]. by intros [= <- _].
  - refine (family_order color_run code _ _ Hk Hc _ _ (fun n _ => color_run_order g Hg n) _).
    all: try (by destruct Hc as [-> | ->]). intros n l o l'. unfold parse_bind.
    destruct (parse_pixel _ l) as [[c l1]|]; [|done]. by intros [= <- _].
  - refine (family_order color_image code _ _ Hk Hc _ _ (color_image_order g Hg) _).
    all: try (by destruct Hc as [-> | ->]). intros n l o l'. unfold parse_bind.
    destruct (parse_pixels _ _ l) as [[cs l1]|]; [|done]. by intros [= <- _].
  - refine (family_order set_fg_run code _ _ Hk Hc _ _ (fun n _ => set_foreground_order g Hg n) _).
    all: try (by destruct Hc as [-> | ->]). intros n l o l'. unfold parse_bind.
    destruct (parse_pixel _ l) as [[c l1]|]; [|done]. by intros [= <- _].
  - refine (family_order set_fgbg_image code _ _ Hk Hc _ _ (set_masked_order g Hg) _).
    all: try (by destruct Hc as [-> | ->]). intros n l o l'. unfold parse_bind.
    destruct (parse_pixel _ l) as [[c l1]|]; [|done]. destruct (parse_masks n l1) as [[ms l2]|]; [|done].
    by intros [= <- _].
  - refine (family_order dithered_run code _ _ Hk Hc _ _ (fun n _ => dithered_order g Hg n) _).
    all: try (by destruct Hc as [-> | ->]). intros n l o l'. unfold parse_bind.
    destruct (parse_pixel _ l) as [[a l1]|]; [|done]. destruct (parse_pixel _ l1) as [[b l2]|]; [|done].
    by intros [= <- _].
Qed.

(** The orders of one byte. *)
Lemma special_order code o (K : rle unit) r header tail :
  ready g r -> unread_bytes r = header :: tail ->
  rle_order (bm_bpp g) code = (modify (set_insert 0);; modify (fun r => set_current (rl_current r + 1) r);; K) ->
  parse_order (bm_bpp g) code = parse_special o ->
  order_insert o = 0 -> (forall fg, order_foreground o fg = fg) -> Steps g K (paints g (order_pixels g o 0)) ->
  match order_step g code (abs r) with
  | Some (a, s') => exists r', rle_order (bm_bpp g) code r = (Ok a, r') /\ ready g r' /\ abs r' = s'
  | None => exists r', rle_order (bm_bpp g) code r = (Err LIBRDP_STATUS_PROTOCOL_ERROR, r') /\ ready g r'
  end.
Proof.
  intros Hr Hu E Ep Hins Hfg HK. rewrite E, !bind_modify. set (r1 := set_insert 0 r).
  destruct (set_insert_steps g 0 r Hr) as (r1' & [= <-] & Hr1 & E1). fold r1 in E1.
  pose proof (blen_unread_bytes g r1 Hr1) as Hb. change (unread_bytes r1) with (unread_bytes r) in Hb.
  rewrite Hu, blen_cons in Hb. pose proof (blen_nonneg tail).
  destruct (set_current_ready g r1 1 Hr1) as [Hr2 E2]; [lia|]. specialize (HK _ Hr2). rewrite E2 in HK.
  change (unread_bytes r1) with (unread_bytes r) in HK. rewrite Hu in HK.
  change (zdrop 1 (header :: tail)) with tail in HK.
  enough (Eq : order_step g code (abs r) = paints g (order_pixels g o 0) (canvas_of r1, tail)) by by rewrite Eq.
  unfold order_step, paints, apply_order. rewrite Ep. unfold parse_special. cbn [abs fst snd]. rewrite Hu, Hins, Hfg.
  assert (Eo : order_pixels g o (cv_insert (canvas_of r)) = order_pixels g o 0) by by destruct o. by rewrite Eo.
Qed.

Lemma rle_order_agrees code r header tail :
  ready g r -> unread_bytes r = header :: tail ->
  match order_step g code (abs r) with
  | Some (a, s') => exists r', rle_order (bm_bpp g) code r = (Ok a, r') /\ ready g r' /\ abs r' = s'
  | None => exists r', rle_order (bm_bpp g) code r = (Err LIBRDP_STATUS_PROTOCOL_ERROR, r') /\ ready g r'
  end.
Proof.
  intros Hr Hu. destruct (existsb (fun k => of_family k code) families) eqn:Ef.
  { apply existsb_exists in Ef as (k & Hk & Hc). apply (families_order k code Hk); [|done].
    unfold of_family in Hc. lia. }
  destruct (Z.eq_dec code RDP_BITMAP_RLE_SPECIAL_FGBG_1) as [->|N1].
  { apply (special_order RDP_BITMAP_RLE_SPECIAL_FGBG_1 (Special 0x03) (rdp_bitmap_rle_write_fgbg 0x03 8) r header tail Hr Hu eq_refl eq_refl); [done|done|by apply write_fgbg_steps]. }
  destruct (Z.eq_dec code RDP_BITMAP_RLE_SPECIAL_FGBG_2) as [->|N2].
  { apply (special_order RDP_BITMAP_RLE_SPECIAL_FGBG_2 (Special 0x05) (rdp_bitmap_rle_write_fgbg 0x05 8) r header tail Hr Hu eq_refl eq_refl); [done|done|by apply write_fgbg_steps]. }
  destruct (Z.eq_dec code RDP_BITMAP_RLE_SPECIAL_WHITE) as [->|N3].
  { apply (special_order RDP_BITMAP_RLE_SPECIAL_WHITE White (rdp_bitmap_rle_write_pixel (rdp_bitmap_rle_white (bm_bpp g))) r header tail Hr Hu eq_refl eq_refl); [done|done|by apply write_pixel_steps]. }
  destruct (Z.eq_dec code RDP_BITMAP_RLE_SPECIAL_BLACK) as [->|N4].
  { apply (special_order RDP_BITMAP_RLE_SPECIAL_BLACK Black (rdp_bitmap_rle_write_pixel 0) r header tail Hr Hu eq_refl eq_refl); [done|done|by apply write_pixel_steps]. }
  apply Z.eqb_neq in N1, N2, N3, N4. cbn [existsb families] in Ef. unfold of_family in Ef.
  cbn [fa_code fa_mega bg_run fg_run fgbg_image color_run color_image set_fg_run set_fgbg_image dithered_run] in Ef.
  rewrite !orb_false_iff in Ef. destruct_and!.
  unfold order_step, parse_order, rle_order, of_family.
  cbn [fa_code fa_mega bg_run fg_run fgbg_image color_run color_image set_fg_run set_fgbg_image dithered_run].
  repeat match goal with H : (code =? _) = false |- _ => rewrite H; clear H end. cbn [orb].
  rewrite bind_modify. destruct (set_insert_steps g 0 r Hr) as (r1' & [= <-] & Hr1 & _). eexists. split; [done|done].
Qed.
End body.

(** ** The parser reads the grammar *)

Lemma parse_bind_Some {A B} (p : parser A) (k : A -> parser B) l b rest :
  parse_bind p k l = Some (b, rest) <-> exists a l1, p l = Some (a, l1) /\ k a l1 = Some (b, rest).
Proof.
  unfold parse_bind. split.
  - destruct (p l) as [[a l1]|]; [|done]. eauto.
  - by intros (a & l1 & -> & E).
Qed.
Lemma parse_ret_Some {A} (a b : A) l rest : parse_ret a l = Some (b, rest) <-> a = b /\ l = rest.
Proof. unfold parse_ret. split; [by intros [= -> ->]|by intros [-> ->]]. Qed.

Lemma parse_masks_iff n l ms rest : 0 <= n ->
  parse_masks n l = Some (ms, rest) <-> blen ms = mask_count n /\ l = ms ++ rest.
Proof.
  intros Hn. assert (Hc : 0 <= mask_count n) by (unfold mask_count; apply Z.div_pos; lia). unfold parse_masks. split.
  - destruct (Z.ltb_spec (blen l) (mask_count n)); [done|]. intros [= <- <-].
    rewrite blen_ztake by lia. by rewrite ztake_zdrop.
  - intros [<- ->]. rewrite blen_app. pose proof (blen_nonneg rest).
    destruct (Z.ltb_spec (blen ms + blen rest) (blen ms)); [lia|]. by rewrite ztake_app_blen, zdrop_app_blen.
Qed.
Lemma parse_pixels_iff bpp n l cs rest : In bpp [8; 15; 16; 24; 32] ->
  parse_pixels bpp n l = Some (cs, rest) <->
  length cs = n /\ exists pss, Forall2 (pixel_bytes bpp) cs pss /\ l = concat pss ++ rest.
Proof.
  intros Hbpp. revert l cs. induction n as [|n IH]; intros l cs; cbn [parse_pixels].
  - split.
    + intros [= <- <-]. split; [done|]. by exists [].
    + intros (Hl & pss & HF & ->). apply nil_length_inv in Hl as ->. apply Forall2_nil_inv_l in HF as ->. done.
  - split.
    + destruct (parse_pixel bpp l) as [[c l1]|] eqn:Ec; [|done].
      destruct (parse_pixels bpp n l1) as [[cs1 l2]|] eqn:Es; [|done]. intros [= <- <-].
      apply (parse_pixel_iff _ _ _ _ Hbpp) in Ec as (ps & Hc & ->). apply IH in Es as (Hl & pss & HF & ->).
      split; [cbn; lia|]. exists (ps :: pss). split; [by constructor|]. cbn [concat]. by rewrite app_assoc.
    + intros (Hl & pss & HF & ->). destruct cs as [|c cs]; [done|].
      apply Forall2_cons_inv_l in HF as (ps & pss' & Hc & HF & ->). cbn [concat]. rewrite <- app_assoc.
      assert (E : parse_pixel bpp (ps ++ concat pss' ++ rest) = Some (c, concat pss' ++ rest))
        by (apply (parse_pixel_iff _ _ _ _ Hbpp); eauto).
      rewrite E. assert (Es : parse_pixels bpp n (concat pss' ++ rest) = Some (cs, rest)); [|by rewrite Es].
      apply IH. split; [cbn in Hl; lia|eauto].
Qed.

(** The header of a run tells its family. *)
Lemma run_bytes_header k n bs : In k families -> run_bytes k n bs -> exists h t, bs = h :: t /\ is_byte h /\
  (rdp_bitmap_rle_code h = fa_code k \/ rdp_bitmap_rle_code h = fa_mega k).
Proof.
  intros Hk H. assert (Hm : 0 <= fa_mask k) by (destruct (run_mask k Hk) as [-> | ->]; lia).
  destruct H as [low Hlow|x Hx|lo hi Hlo Hhi Hv].
  - destruct (header_of_code k low Hk ltac:(lia)) as (Hb & Ec & _). eauto 10.
  - destruct (header_of_code k 0 Hk ltac:(lia)) as (Hb & Ec & _). rewrite Z.add_0_r in *. eauto 10.
  - exists (fa_mega k), [lo; hi]. assert (Hb : is_byte (fa_mega k)).
    { cbn [families In] in Hk. destruct Hk as [<-|[<-|[<-|[<-|[<-|[<-|[<-|[<-|[]]]]]]]]]; by unfold is_byte. }
    split; [done|]. split; [done|]. right. by apply header_mega.
Qed.

Section grammar.
Context (bpp : Z) (Hbpp : In bpp [8; 15; 16; 24; 32]).

(** The parsers that follow a run length, with the bytes they accept. *)
Lemma family_iff k P (R : Z -> order -> list Z -> Prop) header tail o rest :
  In k families -> bytes (header :: tail) ->
  rdp_bitmap_rle_code header = fa_code k \/ rdp_bitmap_rle_code header = fa_mega k ->
  parse_order bpp (rdp_bitmap_rle_code header) = parse_bind (parse_run k (rdp_bitmap_rle_code header)) P ->
  (forall n l o rest, 1 <= n -> P n l = Some (o, rest) <-> exists bs, R n o bs /\ l = bs ++ rest) ->
  parse_order bpp (rdp_bitmap_rle_code header) (header :: tail) = Some (o, rest) <->
  exists n bs bs', run_bytes k n bs /\ R n o bs' /\ header :: tail = bs ++ bs' ++ rest.
Proof.
  intros Hk Hby Hc E HP. rewrite E, parse_bind_Some.
  assert (Hn : forall n l1, parse_run k (rdp_bitmap_rle_code header) (header :: tail) = Some (n, l1) -> 1 <= n <= UINT16_MAX).
  { intros n l1 En. apply (run_bounds k (rdp_bitmap_rle_code header) (mk_canvas 0 0 [], header :: tail) n
      (mk_canvas 0 0 [], l1)); [done|done|unfold parsed; cbn [snd fst]; by rewrite En]. }
  split.
  - intros (n & l1 & En & Eo). pose proof (Hn n l1 En) as Hb. apply HP in Eo as (bs' & HR & ->); [|lia].
    apply (parse_run_iff k header tail n _ Hk Hby Hc) in En as (bs & Hrun & El). by exists n, bs, bs'.
  - intros (n & bs & bs' & Hrun & HR & El).
    assert (En : parse_run k (rdp_bitmap_rle_code header) (header :: tail) = Some (n, bs' ++ rest))
      by (apply parse_run_iff; eauto).
    exists n, (bs' ++ rest). split; [done|]. pose proof (Hn n _ En). apply HP; [lia|eauto].
Qed.

Lemma pixel_then {B} (k : Z -> parser B) l b rest :
  parse_bind (parse_pixel bpp) k l = Some (b, rest) <->
  exists c ps l1, pixel_bytes bpp c ps /\ l = ps ++ l1 /\ k c l1 = Some (b, rest).
Proof.
  rewrite parse_bind_Some. split.
  - intros (c & l1 & (ps & Hp & ->)%(parse_pixel_iff _ _ _ _ Hbpp) & E). eauto 10.
  - intros (c & ps & l1 & Hp & -> & E). exists c, l1. split; [apply (parse_pixel_iff _ _ _ _ Hbpp); eauto|done].
Qed.

(** The bytes after the run length, by family. *)
Definition bg_rest (n : Z) (o : order) (bs : list Z) : Prop := o = Background n /\ bs = [].
Definition fg_rest (n : Z) (o : order) (bs : list Z) : Prop := o = Foreground n /\ bs = [].
Definition set_fg_rest (n : Z) (o : order) (bs : list Z) : Prop :=
  exists c, o = SetForeground c n /\ pixel_bytes bpp c bs.
Definition dithered_rest (n : Z) (o : order) (bs : list Z) : Prop :=
  exists a b ps qs, o = Dithered a b n /\ pixel_bytes bpp a ps /\ pixel_bytes bpp b qs /\ bs = ps ++ qs.
Definition color_rest (n : Z) (o : order) (bs : list Z) : Prop := exists c, o = ColorRun c n /\ pixel_bytes bpp c bs.
Definition masked_rest (n : Z) (o : order) (bs : list Z) : Prop := o = Masked bs n /\ blen bs = mask_count n.
Definition set_masked_rest (n : Z) (o : order) (bs : list Z) : Prop :=
  exists c ms ps, o = SetMasked c ms n /\ pixel_bytes bpp c ps /\ blen ms = mask_count n /\ bs = ps ++ ms.
Definition image_rest (n : Z) (o : order) (bs : list Z) : Prop :=
  exists cs pss, o = ColorImage cs /\ blen cs = n /\ Forall2 (pixel_bytes bpp) cs pss /\ bs = concat pss.

Lemma ret_rest (mk : Z -> order) n l o rest :
  parse_ret (mk n) l = Some (o, rest) <-> exists bs, (o = mk n /\ bs = []) /\ l = bs ++ rest.
Proof. rewrite parse_ret_Some. split; [intros [<- <-]; by exists []|by intros (bs & [-> ->] & ->)]. Qed.
Lemma pixel_rest (mk : Z -> Z -> order) n l o rest :
  parse_bind (parse_pixel bpp) (fun c => parse_ret (mk c n)) l = Some (o, rest) <->
  exists bs, (exists c, o = mk c n /\ pixel_bytes bpp c bs) /\ l = bs ++ rest.
Proof.
  rewrite pixel_then. split.
  - intros (c & ps & l1 & Hp & -> & [<- <-]%parse_ret_Some). eauto 10.
  - intros (bs & (c & -> & Hp) & ->). exists c, bs, rest. split; [done|]. split; [done|]. by apply parse_ret_Some.
Qed.
Lemma dithered_rest_iff n l o rest :
  parse_bind (parse_pixel bpp) (fun a => parse_bind (parse_pixel bpp) (fun b => parse_ret (Dithered a b n))) l =
    Some (o, rest) <-> exists bs, dithered_rest n o bs /\ l = bs ++ rest.
Proof.
  rewrite pixel_then. unfold dithered_rest. split.
  - intros (a & ps & l1 & Ha & -> & (b & qs & l2 & Hb & -> & [<- <-]%parse_ret_Some)%pixel_then).
    exists (ps ++ qs). split; [by exists a, b, ps, qs|by rewrite app_assoc].
  - intros (bs & (a & b & ps & qs & -> & Ha & Hb & ->) & ->). exists a, ps, (qs ++ rest).
    split; [done|]. split; [by rewrite app_assoc|]. apply pixel_then. exists b, qs, rest. by rewrite parse_ret_Some.
Qed.
Lemma masked_rest_iff n l o rest : 1 <= n ->
  parse_bind (parse_masks n) (fun ms => parse_ret (Masked ms n)) l = Some (o, rest) <->
  exists bs, masked_rest n o bs /\ l = bs ++ rest.
Proof.
  intros Hn. rewrite parse_bind_Some. unfold masked_rest. split.
  - intros (ms & l1 & [Hm ->]%parse_masks_iff & [<- <-]%parse_ret_Some); [eauto|lia].
  - intros (bs & [-> Hm] & ->). exists bs, rest. rewrite parse_masks_iff, parse_ret_Some by lia. done.
Qed.
Lemma set_masked_rest_iff n l o rest : 1 <= n ->
  parse_bind (parse_pixel bpp) (fun c => parse_bind (parse_masks n) (fun ms => parse_ret (SetMasked c ms n))) l =
    Some (o, rest) <-> exists bs, set_masked_rest n o bs /\ l = bs ++ rest.
Proof.
  intros Hn. rewrite pixel_then. unfold set_masked_rest. split.
  - intros (c & ps & l1 & Hc & -> & E). apply parse_bind_Some in E as (ms & l2 & Em & Er).
    apply parse_masks_iff in Em as [Hm ->]; [|lia]. apply parse_ret_Some in Er as [<- <-].
    exists (ps ++ ms). split; [by exists c, ms, ps|by rewrite app_assoc].
  - intros (bs & (c & ms & ps & -> & Hc & Hm & ->) & ->). exists c, ps, (ms ++ rest).
    split; [done|]. split; [by rewrite app_assoc|]. apply parse_bind_Some. exists ms, rest.
    rewrite parse_masks_iff, parse_ret_Some by lia. done.
Qed.
Lemma image_rest_iff n l o rest : 1 <= n ->
  parse_bind (parse_pixels bpp (Z.to_nat n)) (fun cs => parse_ret (ColorImage cs)) l = Some (o, rest) <->
  exists bs, image_rest n o bs /\ l = bs ++ rest.
Proof.
  intros Hn. rewrite parse_bind_Some. unfold image_rest. split.
  - intros (cs & l1 & E & Er). apply (parse_pixels_iff _ _ _ _ _ Hbpp) in E as (Hl & pss & HF & ->).
    apply parse_ret_Some in Er as [<- <-]. exists (concat pss). split; [|done]. exists cs, pss.
    split; [done|]. split; [unfold blen; lia|done].
  - intros (bs & (cs & pss & -> & Hl & HF & ->) & ->). exists cs, rest. rewrite parse_ret_Some. split; [|done].
    apply (parse_pixels_iff _ _ _ _ _ Hbpp). split; [unfold blen in Hl; lia|eauto].
Qed.
End grammar.

Section orders_grammar.
Context (bpp : Z) (Hbpp : In bpp [8; 15; 16; 24; 32]).

(** A run order, as [family_iff] gives it: the relation [R] on what follows the length. *)
Definition run_order (k : family) (R : Z -> order -> list Z -> Prop) (o : order) (l rest : list Z) : Prop :=
  exists n bs bs', run_bytes k n bs /\ R n o bs' /\ l = bs ++ bs' ++ rest.

Lemma run_order_sound k R o l rest :
  (forall n bs bs', run_bytes k n bs -> R n o bs' -> order_bytes bpp o (bs ++ bs')) ->
  run_order k R o l rest -> exists bs, order_bytes bpp o bs /\ l = bs ++ rest.
Proof. intros HR (n & bs & bs' & Hn & Ho & ->). exists (bs ++ bs'). split; [by eapply HR|by rewrite app_assoc]. Qed.

Definition family_rest (k : family) (R : Z -> order -> list Z -> Prop) : Prop :=
  forall header tail o rest, bytes (header :: tail) ->
  rdp_bitmap_rle_code header = fa_code k \/ rdp_bitmap_rle_code header = fa_mega k ->
  parse_order bpp (rdp_bitmap_rle_code header) (header :: tail) = Some (o, rest) <->
  run_order k R o (header :: tail) rest.

Ltac by_family P := intros header tail o rest Hby Hc; apply (family_iff bpp _ P);
  [cbn [families In]; tauto|done|done|destruct Hc as [-> | ->]; reflexivity|].
Lemma bg_family : family_rest bg_run bg_rest.
Proof. by_family (fun n => parse_ret (Background n)). intros. apply (ret_rest Background). Qed.
Lemma fg_family : family_rest fg_run fg_rest.
Proof. by_family (fun n => parse_ret (Foreground n)). intros. apply (ret_rest Foreground). Qed.
Lemma set_fg_family : family_rest set_fg_run (set_fg_rest bpp).
Proof.
  by_family (fun n => parse_bind (parse_pixel bpp) (fun c => parse_ret (SetForeground c n))).
  intros. by apply (pixel_rest bpp Hbpp SetForeground).
Qed.
Lemma color_family : family_rest color_run (color_rest bpp).
Proof.
  by_family (fun n => parse_bind (parse_pixel bpp) (fun c => parse_ret (ColorRun c n))).
  intros. by apply (pixel_rest bpp Hbpp ColorRun).
Qed.
Lemma dithered_family : family_rest dithered_run (dithered_rest bpp).
Proof.
  by_family (fun n => parse_bind (parse_pixel bpp) (fun a => parse_bind (parse_pixel bpp) (fun b => parse_ret (Dithered a b n)))).
  intros. by apply dithered_rest_iff.
Qed.
Lemma masked_family : family_rest fgbg_image masked_rest.
Proof.
  by_family (fun n => parse_bind (parse_masks n) (fun ms => parse_ret (Masked ms n))). intros. by apply masked_rest_iff.
Qed.
Lemma set_masked_family : family_rest set_fgbg_image (set_masked_rest bpp).
Proof.
  by_family (fun n => parse_bind (parse_pixel bpp) (fun c => parse_bind (parse_masks n) (fun ms => parse_ret (SetMasked c ms n)))).
  intros. by apply set_masked_rest_iff.
Qed.
Lemma image_family : family_rest color_image (image_rest bpp).
Proof.
  by_family (fun n => parse_bind (parse_pixels bpp (Z.to_nat n)) (fun cs => parse_ret (ColorImage cs))).
  intros. by apply image_rest_iff.
Qed.

Lemma family_sound header tail o rest k : In k families -> bytes (header :: tail) ->
  of_family k (rdp_bitmap_rle_code header) = true ->
  parse_order bpp (rdp_bitmap_rle_code header) (header :: tail) = Some (o, rest) ->
  exists bs, order_bytes bpp o bs /\ header :: tail = bs ++ rest.
Proof.
  intros Hk Hby Hc. assert (Hc' : rdp_bitmap_rle_code header = fa_code k \/ rdp_bitmap_rle_code header = fa_mega k)
    by (unfold of_family in Hc; lia). clear Hc.
  cbn [families In] in Hk. destruct Hk as [<-|[<-|[<-|[<-|[<-|[<-|[<-|[<-|[]]]]]]]]]; intros E.
  - apply bg_family in E; [|done|done]. apply (run_order_sound _ _ _ _ _) in E; [done|].
    intros n bs bs' Hn [-> ->]. rewrite app_nil_r. by constructor.
  - apply fg_family in E; [|done|done]. apply (run_order_sound _ _ _ _ _) in E; [done|].
    intros n bs bs' Hn [-> ->]. rewrite app_nil_r. by constructor.
  - apply masked_family in E; [|done|done]. apply (run_order_sound _ _ _ _ _) in E; [done|].
    intros n bs bs' Hn [-> Hm]. by constructor.
  - apply color_family in E; [|done|done]. apply (run_order_sound _ _ _ _ _) in E; [done|].
    intros n bs bs' Hn (c & -> & Hp). by constructor.
  - apply image_family in E; [|done|done]. apply (run_order_sound _ _ _ _ _) in E; [done|].
    intros n bs bs' Hn (cs & pss & -> & <- & HF & ->). by constructor.
  - apply set_fg_family in E; [|done|done]. apply (run_order_sound _ _ _ _ _) in E; [done|].
    intros n bs bs' Hn (c & -> & Hp). by constructor.
  - apply set_masked_family in E; [|done|done]. apply (run_order_sound _ _ _ _ _) in E; [done|].
    intros n bs bs' Hn (c & ms & ps & -> & Hp & Hm & ->). by constructor.
  - apply dithered_family in E; [|done|done]. apply (run_order_sound _ _ _ _ _) in E; [done|].
    intros n bs bs' Hn (a & b & ps & qs & -> & Ha & Hb & ->). by constructor.
Qed.

Lemma parse_order_sound header tail o rest : bytes (header :: tail) ->
  parse_order bpp (rdp_bitmap_rle_code header) (header :: tail) = Some (o, rest) ->
  exists bs, order_bytes bpp o bs /\ header :: tail = bs ++ rest.
Proof.
  intros Hby E. destruct (existsb (fun k => of_family k (rdp_bitmap_rle_code header)) families) eqn:Ef.
  { apply existsb_exists in Ef as (k & Hk & Hc). by apply (family_sound _ _ _ _ k). }
  cbn [existsb families] in Ef. rewrite !orb_false_iff in Ef. destruct_and!.
  unfold parse_order in E. repeat match goal with H : of_family _ _ = false |- _ => rewrite H in E; clear H end.
  assert (Hs : forall c, In c [0xf9; 0xfa; 0xfd; 0xfe] -> rdp_bitmap_rle_code header = c -> header = c).
  { apply Forall_cons_iff in Hby as [Hh _]. intros c Hc Ec.
    assert (HF : forallb (fun h => negb (existsb (Z.eqb (rdp_bitmap_rle_code h)) [0xf9; 0xfa; 0xfd; 0xfe]) ||
      (rdp_bitmap_rle_code h =? h)) all_bytes = true) by (vm_compute; reflexivity).
    rewrite forallb_forall in HF. specialize (HF header). cbv beta in HF.
    assert (Hin : In header all_bytes) by (apply list_elem_of_In, elem_of_seqZ; unfold is_byte in Hh; lia).
    specialize (HF Hin). rewrite Ec in HF.
    assert (Hx : existsb (Z.eqb c) [0xf9; 0xfa; 0xfd; 0xfe] = true) by (apply existsb_exists; exists c; split; [done|apply Z.eqb_refl]).
    rewrite Hx in HF. cbn [negb orb] in HF. lia. }
  unfold parse_special in E.
  destruct (Z.eqb_spec (rdp_bitmap_rle_code header) RDP_BITMAP_RLE_SPECIAL_FGBG_1) as [Ec|_];
    [injection E as <- <-; apply Hs in Ec as ->; [|by left]; eexists [_]; split; [constructor|done]|].
  destruct (Z.eqb_spec (rdp_bitmap_rle_code header) RDP_BITMAP_RLE_SPECIAL_FGBG_2) as [Ec|_];
    [injection E as <- <-; apply Hs in Ec as ->; [|by right; left]; eexists [_]; split; [constructor|done]|].
  destruct (Z.eqb_spec (rdp_bitmap_rle_code header) RDP_BITMAP_RLE_SPECIAL_WHITE) as [Ec|_];
    [injection E as <- <-; apply Hs in Ec as ->; [|by right; right; left]; eexists [_]; split; [constructor|done]|].
  destruct (Z.eqb_spec (rdp_bitmap_rle_code header) RDP_BITMAP_RLE_SPECIAL_BLACK) as [Ec|_];
    [injection E as <- <-; apply Hs in Ec as ->; [|by right; right; right; left]; eexists [_]; split; [constructor|done]|].
  done.
Qed.

Lemma parse_order_complete o bs rest : bytes (bs ++ rest) -> order_bytes bpp o bs ->
  exists header tail, bs ++ rest = header :: tail /\
    parse_order bpp (rdp_bitmap_rle_code header) (header :: tail) = Some (o, rest).
Proof.
  intros Hby Ho.
  assert (Hrun : forall k R bs1 bs2 n, In k families -> bs = bs1 ++ bs2 -> run_bytes k n bs1 -> R n o bs2 -> family_rest k R ->
    exists header tail, bs ++ rest = header :: tail /\
      parse_order bpp (rdp_bitmap_rle_code header) (header :: tail) = Some (o, rest)).
  { intros k R bs1 bs2 n Hk Eb Hn HR Hfam. destruct (run_bytes_header k n bs1 Hk Hn) as (h & t & E & Hb & Hc).
    exists h, (t ++ bs2 ++ rest). assert (El : bs ++ rest = h :: t ++ bs2 ++ rest) by (subst bs bs1; by rewrite <- app_assoc).
    split; [done|]. rewrite El in Hby. apply (Hfam h (t ++ bs2 ++ rest) o rest Hby Hc). exists n, bs1, bs2.
    split; [done|]. split; [done|]. by subst bs1. }
  destruct Ho as [n bs Hn|n bs Hn|c n bs ps Hn Hp|a b n bs ps qs Hn Ha Hb|c n bs ps Hn Hp|ms n bs Hn Hm|
                  c ms n bs ps Hn Hp Hm|cs pss bs Hn HF| | | |]; [..|by eexists _, rest|by eexists _, rest|by eexists _, rest|by eexists _, rest].
  - apply (Hrun bg_run bg_rest bs [] n); [cbn; tauto|by rewrite app_nil_r|done|done|apply bg_family].
  - apply (Hrun fg_run fg_rest bs [] n); [cbn; tauto|by rewrite app_nil_r|done|done|apply fg_family].
  - apply (Hrun set_fg_run (set_fg_rest bpp) bs ps n); [cbn; tauto|done|done|by exists c|apply set_fg_family].
  - apply (Hrun dithered_run (dithered_rest bpp) bs (ps ++ qs) n);
      [cbn; tauto|done|done|by exists a, b, ps, qs|apply dithered_family].
  - apply (Hrun color_run (color_rest bpp) bs ps n); [cbn; tauto|done|done|by exists c|apply color_family].
  - apply (Hrun fgbg_image masked_rest bs ms n); [cbn; tauto|done|done|done|apply masked_family].
  - apply (Hrun set_fgbg_image (set_masked_rest bpp) bs (ps ++ ms) n);
      [cbn; tauto|done|done|by exists c, ms, ps|apply set_masked_family].
  - apply (Hrun color_image (image_rest bpp) bs (concat pss) (blen cs));
      [cbn; tauto|done|done|by exists cs, pss|apply image_family].
Qed.
End orders_grammar.

(** ** Streams of orders *)

Inductive stream_bytes (bpp : Z) : list order -> list Z -> Prop :=
| no_orders : stream_bytes bpp [] []
| more_orders o os bs rest : order_bytes bpp o bs -> stream_bytes bpp os rest -> stream_bytes bpp (o :: os) (bs ++ rest).

Definition run_orders (g : bitmap) (c : canvas) (os : list order) : canvas := foldl (fun c o => apply_order g o c) c os.

Lemma apply_order_grows g o c : blen (cv_image c) <= blen (cv_image (apply_order g o c)).
Proof. cbn [apply_order cv_image]. rewrite blen_paint. pose proof (blen_nonneg (order_pixels g o (cv_insert c)
  (order_foreground o (cv_foreground c)))). lia. Qed.
Lemma run_orders_grow g os c : blen (cv_image c) <= blen (cv_image (run_orders g c os)).
Proof.
  revert c. induction os as [|o os IH]; intros c; [cbn; lia|]. change (run_orders g c (o :: os)) with
    (run_orders g (apply_order g o c) os). pose proof (apply_order_grows g o c). specialize (IH (apply_order g o c)). lia.
Qed.

Section streams.
Context (bpp : Z) (Hbpp : In bpp [8; 15; 16; 24; 32]).

Lemma stream_nil os : stream_bytes bpp os [] -> os = [].
Proof.
  inversion 1 as [|o os' bs rest Ho Hos E1 E2]; [done|]. subst. exfalso.
  destruct (parse_order_complete bpp Hbpp o bs rest) as (h & t & E & _); [by rewrite E2|done|]. by rewrite E2 in E.
Qed.
Lemma order_bytes_nonempty o bs : order_bytes bpp o bs -> bs <> [].
Proof.
  intros Ho ->. assert (Hd : bytes ([] ++ [])) by by apply Forall_nil_2.
  destruct (parse_order_complete bpp Hbpp o [] [] Hd Ho) as (h & t & E & _). done.
Qed.
(** The first order of a stream is the one the parser finds. *)
Lemma stream_cons os header tail : bytes (header :: tail) -> stream_bytes bpp os (header :: tail) ->
  exists o os' rest, os = o :: os' /\ stream_bytes bpp os' rest /\
    parse_order bpp (rdp_bitmap_rle_code header) (header :: tail) = Some (o, rest).
Proof.
  intros Hby Hs. inversion Hs as [|o os' bs rest Ho Hos E1 E2]. rewrite <- E2 in Hby.
  destruct (parse_order_complete bpp Hbpp o bs rest Hby Ho) as (h & t & E & Ep). rewrite E2 in E. injection E as -> ->.
  exists o, os', rest. split; [congruence|]. split; [done|]. by rewrite E2.
Qed.
Lemma stream_unique os os' l : bytes l -> stream_bytes bpp os l -> stream_bytes bpp os' l -> os = os'.
Proof.
  intros Hby Hs. revert os' Hby. induction Hs as [|o os bs rest Ho Hs IH]; intros os' Hby Hs'.
  { symmetry. by apply stream_nil. }
  destruct (parse_order_complete bpp Hbpp o bs rest Hby Ho) as (h & t & E & Ep). rewrite E in Hby, Hs'.
  destruct (stream_cons os' h t Hby Hs') as (o' & os1 & rest' & -> & Hs1 & Ep'). rewrite Ep in Ep'.
  injection Ep' as <- <-. f_equal. apply IH; [|done]. rewrite <- E in Hby. by apply Forall_app in Hby as [_ ?].
Qed.
End streams.

(** What decoding makes of a reader, in terms of the streams it may hold. *)
Definition decoded (g : bitmap) (c : canvas) (l : list Z) (p : res unit) (pixels : list Z) : Prop :=
  (p = Ok tt /\ exists os, stream_bytes (bm_bpp g) os l /\ pixels = cv_image (run_orders g c os)) \/
  (p = Err LIBRDP_STATUS_PROTOCOL_ERROR /\
   forall os, stream_bytes (bm_bpp g) os l -> blen (cv_image (run_orders g c os)) <> bm_total g).

Lemma decode_end g r : bitmap_ok g -> ready g r -> unread_bytes r = [] ->
  exists p, require (rl_position r =? rl_total r) LIBRDP_STATUS_PROTOCOL_ERROR r = (p, r) /\
    decoded g (canvas_of r) [] p (rl_pixels r).
Proof.
  intros Hg Hr Hu. pose proof Hg as (_ & _ & Hbpp). destruct (bitmap_of g Hg r Hr) as (_ & Et & _). pose proof (ready_position g r Hr).
  pose proof (ready_pixels g r Hr).
  assert (Hi : blen (cv_image (canvas_of r)) = rl_position r) by (cbn; rewrite blen_ztake by lia; done).
  destruct (Z.eqb_spec (rl_position r) (rl_total r)) as [E|E].
  - exists (Ok tt). split; [done|]. left. split; [done|]. exists []. split; [constructor|]. cbn.
    by rewrite ztake_all by lia.
  - exists (Err LIBRDP_STATUS_PROTOCOL_ERROR). split; [done|]. right. split; [done|].
    intros os ->%stream_nil; [|done]. cbn [run_orders foldl]. rewrite Hi. lia.
Qed.

Lemma decode_orders_spec fuel g r : bitmap_ok g -> ready g r -> blen (unread_bytes r) < Z.of_nat fuel ->
  exists p r', decode_orders fuel (bm_bpp g) r = (p, r') /\ ready g r' /\
    decoded g (canvas_of r) (unread_bytes r) p (rl_pixels r').
Proof.
  intros Hg. revert r. induction fuel as [|fuel IH]; intros r Hr Hf; [zlen|]. cbn [decode_orders].
  rewrite bind_gets. unfold id. pose proof (blen_unread_bytes g r Hr) as Hb. unfold rle_remaining in Hb.
  pose proof Hg as (_ & _ & Hbpp). pose proof (ready_valid g r Hr) as (_ & Hby & _). cbn [abs snd] in Hby.
  destruct (unread_bytes r) as [|header tail] eqn:Hu.
  { change (blen []) with 0 in Hb. destruct (Z.ltb_spec (rl_current r) (blen (rl_data r))); [lia|].
    destruct (decode_end g r Hg Hr Hu) as (p & E & Hd). by exists p, r. }
  rewrite blen_cons in Hb. pose proof (blen_nonneg tail). pose proof (ready_current g r Hr) as Hcur.
  destruct (Z.ltb_spec (rl_current r) (blen (rl_data r))); [|lia].
  destruct (unread_cons g r 0 Hr) as (v & Ev & El); [lia|lia|]. rewrite Z.add_0_r in Ev. rewrite Hu in El.
  injection El as <-. rewrite Ev, bind_lift. pose proof (rle_order_agrees g Hg (rdp_bitmap_rle_code header) r header tail Hr Hu) as H1.
  unfold order_step in H1. cbn [abs fst snd] in H1. rewrite Hu in H1.
  destruct (parse_order (bm_bpp g) (rdp_bitmap_rle_code header) (header :: tail)) as [[o l]|] eqn:Ep.
  2: { destruct H1 as (r1 & E1 & Hr1). rewrite (bind_err _ _ _ _ _ E1). eexists _, r1. split; [done|]. split; [done|].
       right. split; [done|]. intros os Hs. destruct (stream_cons _ Hbpp os header tail Hby Hs) as (o & os' & rest & _ & _ & E).
       by rewrite Ep in E. }
  destruct (parse_order_sound _ Hbpp header tail o l Hby Ep) as (bs & Ho & Ebs).
  destruct (Z.leb_spec (blen (cv_image (apply_order g o (canvas_of r)))) (bm_total g)) as [Hfit|Hbig].
  2: { destruct H1 as (r1 & E1 & Hr1). rewrite (bind_err _ _ _ _ _ E1). eexists _, r1. split; [done|]. split; [done|].
       right. split; [done|]. intros os Hs. destruct (stream_cons _ Hbpp os header tail Hby Hs) as (o' & os' & rest & -> & _ & E).
       rewrite Ep in E. injection E as <- <-. pose proof (run_orders_grow g os' (apply_order g o (canvas_of r))) as Hgr.
       change (run_orders g (canvas_of r) (o :: os')) with (run_orders g (apply_order g o (canvas_of r)) os'). lia. }
  destruct H1 as (r1 & E1 & Hr1 & E2). rewrite (bind_ok _ _ _ _ _ E1). pose proof (f_equal fst E2) as Ec. pose proof (f_equal snd E2) as Eu. cbn [abs fst snd] in Ec, Eu.
  assert (Hlen : blen (unread_bytes r1) < Z.of_nat fuel).
  { rewrite Eu. assert (blen (header :: tail) = blen bs + blen l) by (rewrite Ebs; apply blen_app).
    rewrite blen_cons in *. assert (1 <= blen bs); [|lia].
    destruct bs; [|zlen]. exfalso. by apply (order_bytes_nonempty _ Hbpp o []). }
  destruct (IH r1 Hr1 Hlen) as (p & r' & E' & Hr' & Hd). exists p, r'. split; [done|]. split; [done|].
  rewrite Eu in Hd. destruct Hd as [[-> (os & Hs & ->)]|[-> Hno]]; [left|right]; (split; [done|]).
  - exists (o :: os). rewrite Ebs. split; [by constructor|]. by rewrite Ec.
  - intros os Hs. destruct (stream_cons _ Hbpp os header tail Hby Hs) as (o' & os' & rest & -> & Hs' & E).
    rewrite Ep in E. injection E as <- <-. specialize (Hno os' Hs'). by rewrite Ec in Hno.
Qed.

(** ** The decoder *)

Definition white_canvas (bpp : Z) : canvas := mk_canvas (rdp_bitmap_rle_white bpp) 0 [].

(** [data] is a stream of orders that paints [image]. *)
Definition rle_image (width height bpp : Z) (data image : list Z) : Prop :=
  exists os, stream_bytes bpp os data /\ blen image = width * height /\
    cv_image (run_orders (mk_bitmap width (width * height) bpp) (white_canvas bpp) os) = image.

Lemma rle_image_unique width height bpp data image image' : In bpp [8; 15; 16; 24; 32] -> bytes data ->
  rle_image width height bpp data image -> rle_image width height bpp data image' -> image = image'.
Proof.
  intros Hbpp Hby (os & Hs & _ & <-) (os' & Hs' & _ & <-). by rewrite (stream_unique bpp Hbpp os os' data).
Qed.

Lemma width_height_fits width height : 0 < width < 65536 -> 0 < height < 65536 ->
  0 < width * height < 2 ^ 32 /\ (SIZE_MAX / height <? width) = false /\ size_t (width * height) = width * height.
Proof.
  intros Hw Hh. assert (Hp : 0 < width * height < 2 ^ 32) by nia. split; [done|]. split.
  - apply Z.ltb_ge, Z.div_le_lower_bound; [lia|]. unfold SIZE_MAX. lia.
  - apply Z.mod_small. lia.
Qed.

Lemma decode_stream_spec data width height bpp pixels :
  bytes data -> blen data <= SIZE_MAX -> 0 < width < 65536 -> 0 < height < 65536 ->
  In bpp [8; 15; 16; 24; 32] -> blen pixels = width * height ->
  exists r pixels', rdp_bitmap_rle_decode_stream (View data) width height bpp pixels = (r, pixels') /\
    blen pixels' = width * height /\
    ((r = Ok tt /\ rle_image width height bpp data pixels') \/
     (r = Err LIBRDP_STATUS_PROTOCOL_ERROR /\ forall image, ~ rle_image width height bpp data image)).
Proof.
  intros Hby Hl Hw Hh Hbpp Hp. destruct (width_height_fits width height Hw Hh) as (Hwh & E1 & E2).
  pose proof (bpp_bytes bpp Hbpp) as Hb. unfold rdp_bitmap_rle_decode_stream. rewrite E1, E2. cbn [view_null view_bytes orb].
  destruct (Z.eqb_spec width 0); [lia|]. destruct (Z.eqb_spec height 0); [lia|].
  assert (E0 : (rdp_bitmap_rle_bytes_per_pixel bpp =? 0) = false) by (clear -Hb; lia). rewrite E0. cbn [orb].
  set (r0 := mk_rle_reader _ _ _ _ _ _ _ _ _). set (g := mk_bitmap width (width * height) bpp).
  assert (Hg : bitmap_ok g) by (split; [cbn; lia|split; [cbn; unfold SIZE_MAX; lia|done]]).
  assert (Hr : ready g r0) by (constructor; cbn; first [lia|done|zlen]).
  destruct (decode_orders_spec (S (length data)) g r0 Hg Hr) as (p & r' & E & Hr' & Hd).
  { change (unread_bytes r0) with data. unfold blen. lia. }
  cbn [bm_bpp g] in E. rewrite E. exists p, (rl_pixels r').
  assert (Hl' : blen (rl_pixels r') = width * height).
  { rewrite (ready_pixels g r' Hr'). destruct (bitmap_of g Hg r' Hr') as (_ & -> & _). done. }
  split; [done|]. split; [done|]. change (canvas_of r0) with (white_canvas bpp) in Hd. change (unread_bytes r0) with data in Hd.
  destruct Hd as [[-> (os & Hs & Eo)]|[-> Hno]]; [left|right]; (split; [done|]).
  - exists os. by rewrite Hl'.
  - intros image (os & Hs & Hi & <-). by apply (Hno os).
Qed.

(** C17: Decoding a run-length stream ends without undefined behaviour for every
    input: it gives the image the grammar of orders assigns to the stream, or a
    protocol error exactly when the grammar assigns none. *)
Theorem rle_decode_iff data width height bpp pixels :
  bytes data -> blen data <= SIZE_MAX -> 0 < width < 65536 -> 0 < height < 65536 ->
  In bpp [8; 15; 16; 24; 32] -> blen pixels = width * height ->
  exists r pixels', rdp_bitmap_rle_decode_stream (View data) width height bpp pixels = (r, pixels') /\
    blen pixels' = width * height /\
    ((r = Ok tt /\ forall image, rle_image width height bpp data image <-> image = pixels') \/
     (r = Err LIBRDP_STATUS_PROTOCOL_ERROR /\ forall image, ~ rle_image width height bpp data image)).
Proof.
  intros Hby Hl Hw Hh Hbpp Hp.
  destruct (decode_stream_spec data width height bpp pixels Hby Hl Hw Hh Hbpp Hp) as (r & pixels' & E & Hl' & Hd).
  exists r, pixels'. split; [done|]. split; [done|]. destruct Hd as [[-> Hi]|[-> Hno]]; [left|by right]. split; [done|].
  intros image. split; [|by intros ->]. intros Hi'. by apply (rle_image_unique width height bpp data).
Qed.

Lemma rle_decode_iff_witness : exists r pixels',
  rdp_bitmap_rle_decode_stream (View [0x01; 0x01; 0x61; 1; 2; 3; 0xfd]) 2 2 24 [0; 0; 0; 0] = (r, pixels') /\
    blen pixels' = 2 * 2 /\
    ((r = Ok tt /\ forall image, rle_image 2 2 24 [0x01; 0x01; 0x61; 1; 2; 3; 0xfd] image <-> image = pixels') \/
     (r = Err LIBRDP_STATUS_PROTOCOL_ERROR /\
      forall image, ~ rle_image 2 2 24 [0x01; 0x01; 0x61; 1; 2; 3; 0xfd] image)).
Proof.
  apply rle_decode_iff; first [by solve_bytes|reflexivity|by cbn; auto 10|unfold SIZE_MAX, blen; cbn; lia].
Defined.

(** Two runs of the background in a row: the first pixel of the second is the
    foreground; a color run and an inverted pixel follow. *)
Example rle_sample : rdp_bitmap_rle_decode_stream (View [0x01; 0x01; 0x61; 1; 2; 3; 0x21]) 2 2 24 [0; 0; 0; 0] =
  (Ok tt, [0; 0xffffff; 0x030201; 0]).
Proof. reflexivity. Qed.
Example rle_sample_truncated : (rdp_bitmap_rle_decode_stream (View [0x01; 0x01; 0x61; 1; 2]) 2 2 24 [0; 0; 0; 0]).1 =
  Err LIBRDP_STATUS_PROTOCOL_ERROR.
Proof. reflexivity. Qed.

(** ** Pixel values *)

Section pixel_values.
Let nonneg (v : Z) : Prop := 0 <= v.
Let painter (f : list Z -> Z) : Prop := forall img, Forall nonneg img -> nonneg (f img).

Lemma paint_nonneg fs img : Forall painter fs -> Forall nonneg img -> Forall nonneg (paint fs img).
Proof.
  revert img. induction fs as [|f fs IH]; intros img Hf Hi; [done|]. inversion Hf as [|? ? Hp Hfs]; subst.
  change (paint (f :: fs) img) with (paint fs (img ++ [f img])). apply IH; [done|].
  apply Forall_app_2; [done|]. apply Forall_cons_2; [by apply Hp|apply Forall_nil_2].
Qed.
Lemma above_nonneg w : painter (above w).
Proof.
  intros img Hi. unfold above. case_match; [done|]. destruct (img !! _) as [v|] eqn:E; [|done]. cbn.
  by eapply Forall_lookup_1 in Hi.
Qed.
Lemma inverted_nonneg w fg : nonneg fg -> painter (inverted w fg).
Proof. intros Hf img Hi. apply Z.lxor_nonneg. split; intros; [done|by apply above_nonneg]. Qed.
Lemma masked_nonneg w fg mask bit : nonneg fg -> painter (masked w fg mask bit).
Proof. intros Hf img Hi. unfold masked. case_match; [by apply inverted_nonneg|by apply above_nonneg]. Qed.
Lemma mask_pixels_nonneg w n mask fg : nonneg fg -> Forall painter (mask_pixels w n mask fg).
Proof. intros Hf. apply Forall_fmap, Forall_true. intros bit. by apply masked_nonneg. Qed.
Lemma masks_pixels_nonneg w ms n fg : nonneg fg -> Forall painter (masks_pixels w ms n fg).
Proof.
  intros Hf. apply Forall_take. induction ms as [|m ms IH]; [apply Forall_nil_2|].
  apply Forall_app_2; [by apply mask_pixels_nonneg|done].
Qed.

(** The colors an order names. *)
Definition order_colors (o : order) : list Z :=
  match o with
  | SetForeground c _ | SetMasked c _ _ | ColorRun c _ => [c]
  | Dithered a b _ => [a; b]
  | ColorImage cs => cs
  | _ => []
  end.
Lemma order_pixels_nonneg g o insert fg : Forall nonneg (order_colors o) -> nonneg fg ->
  Forall painter (order_pixels g o insert fg).
Proof.
  intros Hc Hf. assert (Hk : forall c, nonneg c -> painter (fun _ => c)) by (intros c H img _; exact H).
  destruct o; cbn [order_pixels order_colors] in *; try (apply Forall_cons_2; [|apply Forall_nil_2]).
  - case_match; [by apply Forall_replicate, above_nonneg|].
    apply Forall_cons_2; [by apply inverted_nonneg|by apply Forall_replicate, above_nonneg].
  - by apply Forall_replicate, inverted_nonneg.
  - by apply Forall_replicate, inverted_nonneg.
  - inversion Hc as [|? ? Ha Hc']; inversion Hc' as [|? ? Hb _]; subst. apply Forall_concat, Forall_replicate.
    apply Forall_cons_2; [by apply Hk|]. apply Forall_cons_2; [by apply Hk|apply Forall_nil_2].
  - inversion Hc; subst. by apply Forall_replicate, Hk.
  - by apply masks_pixels_nonneg.
  - by apply masks_pixels_nonneg.
  - apply Forall_fmap. eapply Forall_impl; [|exact Hc]. intros c H. by apply Hk.
  - by apply mask_pixels_nonneg.
  - apply Hk. unfold rdp_bitmap_rle_white, nonneg. repeat case_match; lia.
  - by apply Hk.
Qed.

Lemma pixel_value_nonneg bpp c bs : bytes bs -> pixel_bytes bpp c bs -> nonneg c.
Proof.
  intros Hb [_ ->]. unfold nonneg, pixel_value. destruct bs as [|p0 [|p1 [|p2 bs]]]; [done|..];
    rewrite !Forall_cons_iff in Hb; destruct_and!; unfold is_byte in *; [lia|rewrite val16_arith|rewrite val24_arith]; unfold is_byte; lia.
Qed.
Lemma colors_nonneg bpp cs pss : Forall2 (pixel_bytes bpp) cs pss -> bytes (concat pss) -> Forall nonneg cs.
Proof.
  induction 1 as [|c ps cs pss Hc Hcs IH]; intros Hb; [apply Forall_nil_2|]. apply Forall_app in Hb as [H1 H2].
  apply Forall_cons_2; [by apply (pixel_value_nonneg bpp c ps)|by apply IH].
Qed.
Lemma order_colors_nonneg bpp o bs : bytes bs -> order_bytes bpp o bs -> Forall nonneg (order_colors o).
Proof.
  intros Hb Ho. destruct Ho; cbn [order_colors]; try apply Forall_nil_2;
    repeat match goal with H : bytes (_ ++ _) |- _ => apply Forall_app in H as [? ?] end;
    repeat (apply Forall_cons_2; [eapply pixel_value_nonneg; [|eassumption]; done|]); try apply Forall_nil_2.
  by eapply colors_nonneg.
Qed.

Lemma run_orders_nonneg g os bs c : bytes bs -> stream_bytes (bm_bpp g) os bs -> nonneg (cv_foreground c) ->
  Forall nonneg (cv_image c) -> Forall nonneg (cv_image (run_orders g c os)).
Proof.
  intros Hb Hs. revert c Hb. induction Hs as [|o os bs rest Ho Hs IH]; intros c Hb Hf Hi; [done|].
  apply Forall_app in Hb as [Hb1 Hb2]. pose proof (order_colors_nonneg _ _ _ Hb1 Ho) as Hc.
  change (run_orders g c (o :: os)) with (run_orders g (apply_order g o c) os).
  assert (Hf' : nonneg (order_foreground o (cv_foreground c))) by (destruct o; cbn in *; try done; by inversion Hc).
  apply IH; [done|done|]. cbn [apply_order cv_image]. by apply paint_nonneg; [apply order_pixels_nonneg|].
Qed.
End pixel_values.

Lemma rle_image_nonneg width height bpp data image : bytes data -> rle_image width height bpp data image ->
  Forall (fun v => 0 <= v) image.
Proof.
  intros Hb (os & Hs & _ & <-). eapply run_orders_nonneg; [exact Hb|exact Hs|..]; cbn; [|apply Forall_nil_2].
  unfold rdp_bitmap_rle_white. repeat case_match; lia.
Qed.

(** Two background runs, the first of which ends the first scan line: the
    foreground is inserted in the second line all the same. *)
Lemma rle_insert_after_first_line :
  rdp_bitmap_rle_decode_stream (View [0x02; 0x02]) 2 2 24 [0; 0; 0; 0] = (Ok tt, [0; 0; 0xffffff; 0]).
Proof. reflexivity. Qed.
