(* ===== verification/Bitmap.v ===== *)
(** * Bitmap: bitmap and palette updates

    Models [src/src/graphics/bitmap.c] apart from its run-length decoder (Rle.v):
    the parsers and writers of bitmap updates and palette updates, and the
    conversion of one rectangle to BGRA pixels.  The parsers are characterised by
    the wire format ([update_enc], [palette_enc]), and the conversion by the
    pixels of the rectangle ([rect_image]). *)

From S2P Require Import Prelude Stream Buffer Codec Window Rle.

Definition RDP_BITMAP_MAX_RECTS : Z := 64.
Definition RDP_BITMAP_PALETTE_MAX_ENTRIES : Z := 256.
Definition RDP_BITMAP_FLAG_COMPRESSED : Z := 0x0001.
Definition RDP_BITMAP_FLAG_NO_COMPRESSION_HEADER : Z := 0x0400.
Definition RDP_UPDATE_TYPE_BITMAP : Z := 0x0001.
Definition RDP_UPDATE_TYPE_PALETTE : Z := 0x0002.

Record rdp_palette_entry := mk_palette_entry { red : Z; green : Z; blue : Z }.
(** [pal_entries] is the whole array of the structure. *)
Record rdp_palette_update := mk_palette_update {
  pal_count : Z;
  pal_entries : list rdp_palette_entry;
}.

(** [rect_data] is the pointer [data] with [data_len]. *)
Record rdp_bitmap_rect := mk_bitmap_rect {
  dest_left : Z;
  dest_top : Z;
  dest_right : Z;
  dest_bottom : Z;
  rect_width : Z;
  rect_height : Z;
  rect_bits_per_pixel : Z;
  rect_flags : Z;
  rect_data : view;
}.

(** The first [up_count] elements of the array [rects]. *)
Record rdp_bitmap_update := mk_bitmap_update {
  up_count : Z;
  up_rects : list rdp_bitmap_rect;
}.
Record rdp_bitmap_update_header := mk_update_header {
  uh_update_type : Z;
  uh_count : Z;
}.

(** Failures of the stream are protocol errors. *)
Abbreviation pe := (coerce LIBRDP_STATUS_PROTOCOL_ERROR).

(** ** Bitmap updates *)

Definition parse_rect : reader rdp_bitmap_rect :=
  left ← pe rdp_stream_read_u16_le;
  top ← pe rdp_stream_read_u16_le;
  right ← pe rdp_stream_read_u16_le;
  bottom ← pe rdp_stream_read_u16_le;
  width ← pe rdp_stream_read_u16_le;
  height ← pe rdp_stream_read_u16_le;
  bits_per_pixel ← pe rdp_stream_read_u16_le;
  flags ← pe rdp_stream_read_u16_le;
  data_len ← pe rdp_stream_read_u16_le;
  require (negb ((width =? 0) || (height =? 0) || (right <? left) || (bottom <? top)))
    LIBRDP_STATUS_PROTOCOL_ERROR;;
  remaining ← rdp_stream_remaining;
  require (data_len <=? remaining) LIBRDP_STATUS_PROTOCOL_ERROR;;
  data ← pe (rdp_stream_read_bytes data_len);
  mret (mk_bitmap_rect left top right bottom width height bits_per_pixel flags (View data)).

Definition rdp_bitmap_parse_rectangles (count : Z) : reader rdp_bitmap_update :=
  require (count <=? RDP_BITMAP_MAX_RECTS) LIBRDP_STATUS_PROTOCOL_ERROR;;
  rects ← read_many parse_rect (Z.to_nat count);
  mret (mk_bitmap_update count rects).

Definition rdp_bitmap_parse_update_header (data : view) : res rdp_bitmap_update_header :=
  ensure (negb (view_null data)) LIBRDP_STATUS_INVALID_ARGUMENT;;
  with_stream data (
    update_type ← pe rdp_stream_read_u16_le;
    count ← pe rdp_stream_read_u16_le;
    mret (mk_update_header update_type count)).

(** The rectangles, and nothing after them. *)
Definition only_rectangles (count : Z) : reader rdp_bitmap_update :=
  parsed ← rdp_bitmap_parse_rectangles count;
  remaining ← rdp_stream_remaining;
  require (remaining =? 0) LIBRDP_STATUS_PROTOCOL_ERROR;;
  mret parsed.

Definition rdp_bitmap_parse_update (data : view) : res rdp_bitmap_update :=
  ensure (negb (view_null data)) LIBRDP_STATUS_INVALID_ARGUMENT;;
  header ← rdp_bitmap_parse_update_header data;
  ensure (uh_update_type header =? RDP_UPDATE_TYPE_BITMAP) LIBRDP_STATUS_PROTOCOL_ERROR;;
  with_stream data (
    pe (rdp_stream_skip 4);;
    only_rectangles (uh_count header)).

(** Run [m] and go on with its outcome. *)
Definition attempt {S A} (m : M S A) : M S (res A) := fun s =>
  match m s with
  | (Fault, s') => (Fault, s')
  | (r, s') => (Ok r, s')
  end.

(** The update without its type is tried first. *)
Definition rdp_bitmap_parse_fastpath_update (data : view) : res rdp_bitmap_update :=
  ensure (negb (view_null data)) LIBRDP_STATUS_INVALID_ARGUMENT;;
  with_stream data (
    first ← pe rdp_stream_read_u16_le;
    untyped ← attempt (only_rectangles first);
    match untyped with
    | Ok parsed => mret parsed
    | Err status =>
        if negb (first =? RDP_UPDATE_TYPE_BITMAP) then fail status
        else lift (with_stream data (
          pe (rdp_stream_skip 2);;
          count ← pe rdp_stream_read_u16_le;
          only_rectangles count))
    | Fault => lift Fault
    end).

Definition rdp_bitmap_validate_rect (rect : rdp_bitmap_rect) : res unit :=
  ensure (negb ((rect_width rect =? 0) || (rect_height rect =? 0) || (dest_right rect <? dest_left rect) ||
                (dest_bottom rect <? dest_top rect) || (rect_bits_per_pixel rect =? 0) ||
                (view_null (rect_data rect) && (0 <? view_len (rect_data rect))) ||
                (0xffff <? view_len (rect_data rect)))) LIBRDP_STATUS_INVALID_ARGUMENT.

Definition rdp_bitmap_write_rect (rect : rdp_bitmap_rect) : writer unit :=
  lift (rdp_bitmap_validate_rect rect);;
  rdp_buffer_append_u16_le (dest_left rect);;
  rdp_buffer_append_u16_le (dest_top rect);;
  rdp_buffer_append_u16_le (dest_right rect);;
  rdp_buffer_append_u16_le (dest_bottom rect);;
  rdp_buffer_append_u16_le (rect_width rect);;
  rdp_buffer_append_u16_le (rect_height rect);;
  rdp_buffer_append_u16_le (rect_bits_per_pixel rect);;
  rdp_buffer_append_u16_le (rect_flags rect);;
  rdp_buffer_append_u16_le (u16 (view_len (rect_data rect)));;
  rdp_buffer_append (rect_data rect).

(** The array [rects] has [count] elements. *)
Definition rdp_bitmap_write_rects (rects : list rdp_bitmap_rect) : writer unit :=
  require (blen rects <=? RDP_BITMAP_MAX_RECTS) LIBRDP_STATUS_INVALID_ARGUMENT;;
  write_each rdp_bitmap_write_rect rects.

Definition rdp_bitmap_write_update (rects : list rdp_bitmap_rect) : writer unit :=
  require (blen rects <=? RDP_BITMAP_MAX_RECTS) LIBRDP_STATUS_INVALID_ARGUMENT;;
  rdp_buffer_append_u16_le RDP_UPDATE_TYPE_BITMAP;;
  rdp_buffer_append_u16_le (blen rects);;
  rdp_bitmap_write_rects rects.

Definition rdp_bitmap_write_fastpath_update (rects : list rdp_bitmap_rect) : writer unit :=
  rdp_bitmap_write_update rects.

(** ** Palette updates *)

Definition parse_entry : reader rdp_palette_entry :=
  r ← pe rdp_stream_read_u8;
  g ← pe rdp_stream_read_u8;
  b ← pe rdp_stream_read_u8;
  mret (mk_palette_entry r g b).

Definition zero_entry : rdp_palette_entry := mk_palette_entry 0 0 0.

Definition rdp_bitmap_parse_palette_body : reader rdp_palette_update :=
  pad ← pe rdp_stream_read_u16_le;
  count ← pe rdp_stream_read_u32_le;
  require (count <=? RDP_BITMAP_PALETTE_MAX_ENTRIES) LIBRDP_STATUS_PROTOCOL_ERROR;;
  remaining ← rdp_stream_remaining;
  require (count * 3 <=? remaining) LIBRDP_STATUS_PROTOCOL_ERROR;;
  entries ← read_many parse_entry (Z.to_nat count);
  mret (mk_palette_update count
          (entries ++ replicate (Z.to_nat (RDP_BITMAP_PALETTE_MAX_ENTRIES - count)) zero_entry)).

Definition rdp_bitmap_parse_palette_update (data : view) : res rdp_palette_update :=
  ensure (negb (view_null data)) LIBRDP_STATUS_INVALID_ARGUMENT;;
  with_stream data (
    update_type ← pe rdp_stream_read_u16_le;
    require (update_type =? RDP_UPDATE_TYPE_PALETTE) LIBRDP_STATUS_PROTOCOL_ERROR;;
    rdp_bitmap_parse_palette_body).

Definition rdp_bitmap_parse_fastpath_palette_update (data : view) : res rdp_palette_update :=
  ensure (negb (view_null data)) LIBRDP_STATUS_INVALID_ARGUMENT;;
  with_stream data (
    first ← pe rdp_stream_read_u16_le;
    if first =? RDP_UPDATE_TYPE_PALETTE then rdp_bitmap_parse_palette_body
    else lift (with_stream data rdp_bitmap_parse_palette_body)).

Definition write_entry (e : rdp_palette_entry) : writer unit :=
  rdp_buffer_append_u8 (red e);;
  rdp_buffer_append_u8 (green e);;
  rdp_buffer_append_u8 (blue e).

Definition rdp_bitmap_write_palette_update (palette : rdp_palette_update) : writer unit :=
  require (pal_count palette <=? RDP_BITMAP_PALETTE_MAX_ENTRIES) LIBRDP_STATUS_INVALID_ARGUMENT;;
  rdp_buffer_append_u16_le RDP_UPDATE_TYPE_PALETTE;;
  rdp_buffer_append_u16_le 0;;
  rdp_buffer_append_u32_le (pal_count palette);;
  write_each write_entry (ztake (pal_count palette) (pal_entries palette)).

Definition rdp_bitmap_write_fastpath_palette_update (palette : rdp_palette_update) : writer unit :=
  rdp_bitmap_write_palette_update palette.

(** ** Decoding a rectangle *)

Definition rdp_scale_5_to_8 (value : Z) : Z := u8 (u32 (value * 255 + 15) / 31).
Definition rdp_scale_6_to_8 (value : Z) : Z := u8 (u32 (value * 255 + 31) / 63).

Definition palette_null (palette : option rdp_palette_update) : bool :=
  match palette with None => true | Some _ => false end.

(** The four bytes stored at [dst]. *)
Definition rdp_bitmap_indexed_pixel_to_bgra (pixel : Z) (palette : option rdp_palette_update) : res (list Z) :=
  match palette with
  | None => Err LIBRDP_STATUS_PROTOCOL_ERROR
  | Some palette =>
      ensure (negb (pal_count palette <=? pixel)) LIBRDP_STATUS_PROTOCOL_ERROR;;
      entry ← rd (pal_entries palette) pixel;
      mret [blue entry; green entry; red entry; 0xff]
  end.

Definition pixel15_to_bgra (pixel : Z) : list Z :=
  [rdp_scale_5_to_8 (Z.land pixel 0x001f); rdp_scale_5_to_8 (Z.land (Z.shiftr pixel 5) 0x001f);
   rdp_scale_5_to_8 (Z.land (Z.shiftr pixel 10) 0x001f); 0xff].
Definition pixel16_to_bgra (pixel : Z) : list Z :=
  [rdp_scale_5_to_8 (Z.land pixel 0x001f); rdp_scale_6_to_8 (Z.land (Z.shiftr pixel 5) 0x003f);
   rdp_scale_5_to_8 (Z.land (Z.shiftr pixel 11) 0x001f); 0xff].

Definition rdp_bitmap_raw_pixel_to_bgra (pixel bits_per_pixel : Z) (palette : option rdp_palette_update) : res (list Z) :=
  if bits_per_pixel =? 8 then rdp_bitmap_indexed_pixel_to_bgra pixel palette
  else if bits_per_pixel =? 15 then Ok (pixel15_to_bgra pixel)
  else if bits_per_pixel =? 16 then Ok (pixel16_to_bgra pixel)
  else Ok [Z.land pixel 0xff; Z.land (Z.shiftr pixel 8) 0xff; Z.land (Z.shiftr pixel 16) 0xff; 0xff].

Definition rdp_bitmap_compressed_payload (rect : rdp_bitmap_rect) : res view :=
  if has_flag (rect_flags rect) RDP_BITMAP_FLAG_NO_COMPRESSION_HEADER then Ok (rect_data rect)
  else
    let data_len := view_len (rect_data rect) in
    ensure (negb (data_len <? 8)) LIBRDP_STATUS_PROTOCOL_ERROR;;
    p2 ← rd (view_bytes (rect_data rect)) 2;
    p3 ← rd (view_bytes (rect_data rect)) 3;
    let body_len := val16 p2 p3 in
    let body_len := if body_len =? 0 then u16 (data_len - 8) else body_len in
    ensure (negb (data_len - 8 <? body_len)) LIBRDP_STATUS_PROTOCOL_ERROR;;
    payload ← slice (view_bytes (rect_data rect)) 8 body_len;
    mret (View payload).

Fixpoint store_pixels (bits_per_pixel : Z) (palette : option rdp_palette_update) (i : Z) (pixels : list Z) : writer unit :=
  match pixels with
  | [] => mret tt
  | pixel :: pixels =>
      bgra ← lift (rdp_bitmap_raw_pixel_to_bgra pixel bits_per_pixel palette);
      store_bytes (i * 4) bgra;;
      store_pixels bits_per_pixel palette (i + 1) pixels
  end.

(** On success the row stride of the output. *)
Definition rdp_bitmap_decode_compressed_bgra32 (rect : rdp_bitmap_rect) (palette : option rdp_palette_update) : writer Z :=
  let width := rect_width rect in
  let height := rect_height rect in
  let bits_per_pixel := rect_bits_per_pixel rect in
  require (Z.land (rect_flags rect)
             (Z.lnot (Z.lor RDP_BITMAP_FLAG_COMPRESSED RDP_BITMAP_FLAG_NO_COMPRESSION_HEADER)) =? 0)
    LIBRDP_STATUS_PROTOCOL_ERROR;;
  require (negb ((width =? 0) || (height =? 0) ||
                 (negb (bits_per_pixel =? 8) && negb (bits_per_pixel =? 15) && negb (bits_per_pixel =? 16) &&
                  negb (bits_per_pixel =? 24) && negb (bits_per_pixel =? 32)))) LIBRDP_STATUS_PROTOCOL_ERROR;;
  require (negb ((bits_per_pixel =? 8) && palette_null palette)) LIBRDP_STATUS_STATE;;
  require (negb (SIZE_MAX / height <? width)) LIBRDP_STATUS_NO_MEMORY;;
  let pixel_count := size_t (width * height) in
  require (negb (SIZE_MAX / 4 <? pixel_count)) LIBRDP_STATUS_NO_MEMORY;;
  let dst_stride := size_t (width * 4) in
  require (negb (SIZE_MAX / dst_stride <? height)) LIBRDP_STATUS_NO_MEMORY;;
  let dst_size := size_t (dst_stride * height) in
  payload ← lift (rdp_bitmap_compressed_payload rect);
  alloc;;
  let '(status, pixels) := rdp_bitmap_rle_decode_stream payload width height bits_per_pixel
                             (replicate (Z.to_nat pixel_count) 0) in
  lift status;;
  resize dst_size;;
  store_pixels bits_per_pixel palette 0 pixels;;
  mret dst_stride.

Definition rdp_bitmap_stride_aligned (stride alignment : Z) : option Z :=
  if alignment =? 0 then None
  else
    let rem := stride mod alignment in
    if rem =? 0 then Some stride
    else if SIZE_MAX - (alignment - rem) <? stride then None
    else Some (stride + alignment - rem).

(** The pixel in [column] of the row at [src], as stored in the output. *)
Definition raw_pixel (bits_per_pixel : Z) (palette : option rdp_palette_update) (data : list Z) (src column : Z) : res (list Z) :=
  if bits_per_pixel =? 1 then
    packed ← rd data (src + column / 8);
    rdp_bitmap_indexed_pixel_to_bgra (Z.land (Z.shiftr packed (7 - column mod 8)) 0x01) palette
  else if bits_per_pixel =? 4 then
    packed ← rd data (src + column / 2);
    rdp_bitmap_indexed_pixel_to_bgra
      (if negb (Z.land column 1 =? 0) then Z.land packed 0x0f else Z.shiftr packed 4) palette
  else if bits_per_pixel =? 8 then
    pixel ← rd data (src + column);
    rdp_bitmap_indexed_pixel_to_bgra pixel palette
  else if bits_per_pixel =? 24 then
    p0 ← rd data (src + (column * 3 + 0));
    p1 ← rd data (src + (column * 3 + 1));
    p2 ← rd data (src + (column * 3 + 2));
    mret [p0; p1; p2; 0xff]
  else
    lo ← rd data (src + column * 2);
    hi ← rd data (src + (column * 2 + 1));
    let pixel := val16 lo hi in
    mret (if bits_per_pixel =? 16 then pixel16_to_bgra pixel else pixel15_to_bgra pixel).

Fixpoint store_columns (bits_per_pixel : Z) (palette : option rdp_palette_update) (data : list Z) (src dst : Z)
    (column : Z) (n : nat) : writer unit :=
  match n with
  | O => mret tt
  | S n =>
      bgra ← lift (raw_pixel bits_per_pixel palette data src column);
      store_bytes (dst + column * 4) bgra;;
      store_columns bits_per_pixel palette data src dst (column + 1) n
  end.

Fixpoint store_rows (rect : rdp_bitmap_rect) (palette : option rdp_palette_update) (src_stride dst_stride : Z)
    (row : Z) (n : nat) : writer unit :=
  match n with
  | O => mret tt
  | S n =>
      let data := view_bytes (rect_data rect) in
      let src := (rect_height rect - 1 - row) * src_stride in
      let dst := row * dst_stride in
      (if rect_bits_per_pixel rect =? 32 then
         bytes ← lift (slice data src dst_stride);
         store_bytes dst bytes
       else store_columns (rect_bits_per_pixel rect) palette data src dst 0 (Z.to_nat (rect_width rect)));;
      store_rows rect palette src_stride dst_stride (row + 1) n
  end.

(** The bytes of a row without padding; fails for a width that overflows. *)
Definition tight_stride (width bits_per_pixel : Z) : res Z :=
  if bits_per_pixel =? 1 then Ok (size_t (width + 7) / 8)
  else if bits_per_pixel =? 4 then Ok (size_t (width + 1) / 2)
  else
    let bytes_per_pixel := if bits_per_pixel =? 15 then 2 else u16 (bits_per_pixel / 8) in
    ensure (negb (SIZE_MAX / bytes_per_pixel <? width)) LIBRDP_STATUS_INVALID_ARGUMENT;;
    Ok (size_t (width * bytes_per_pixel)).

Definition rdp_bitmap_decode_rect_bgra32_with_palette (rect : rdp_bitmap_rect) (palette : option rdp_palette_update) : writer Z :=
  let width := rect_width rect in
  let height := rect_height rect in
  let bits_per_pixel := rect_bits_per_pixel rect in
  let data_len := view_len (rect_data rect) in
  if has_flag (rect_flags rect) RDP_BITMAP_FLAG_COMPRESSED then rdp_bitmap_decode_compressed_bgra32 rect palette
  else
    require (negb (negb (rect_flags rect =? 0) ||
                   (negb (bits_per_pixel =? 1) && negb (bits_per_pixel =? 4) && negb (bits_per_pixel =? 8) &&
                    negb (bits_per_pixel =? 15) && negb (bits_per_pixel =? 16) && negb (bits_per_pixel =? 24) &&
                    negb (bits_per_pixel =? 32)))) LIBRDP_STATUS_PROTOCOL_ERROR;;
    require (negb (((bits_per_pixel =? 1) || (bits_per_pixel =? 4) || (bits_per_pixel =? 8)) &&
                   palette_null palette)) LIBRDP_STATUS_STATE;;
    require (negb ((width =? 0) || (height =? 0))) LIBRDP_STATUS_PROTOCOL_ERROR;;
    src_stride ← lift (tight_stride width bits_per_pixel);
    aligned_src_stride ← lift (from_option Ok (Err LIBRDP_STATUS_INVALID_ARGUMENT)
                                 (rdp_bitmap_stride_aligned src_stride 4));
    require (negb (SIZE_MAX / src_stride <? height)) LIBRDP_STATUS_INVALID_ARGUMENT;;
    require (negb (data_len <? size_t (src_stride * height))) LIBRDP_STATUS_PROTOCOL_ERROR;;
    let src_stride :=
      if (src_stride <? aligned_src_stride) && (height <=? SIZE_MAX / aligned_src_stride) &&
         (size_t (aligned_src_stride * height) <=? data_len)
      then aligned_src_stride else src_stride in
    let dst_stride := size_t (width * 4) in
    require (negb (SIZE_MAX / dst_stride <? height)) LIBRDP_STATUS_INVALID_ARGUMENT;;
    let dst_size := size_t (dst_stride * height) in
    resize dst_size;;
    store_rows rect palette src_stride dst_stride 0 (Z.to_nat height);;
    mret dst_stride.

Definition rdp_bitmap_decode_rect_bgra32 (rect : rdp_bitmap_rect) : writer Z :=
  rdp_bitmap_decode_rect_bgra32_with_palette rect None.

(** ** The wire format *)

Definition rect_enc (r : rdp_bitmap_rect) : list Z :=
  le16 (dest_left r) ++ le16 (dest_top r) ++ le16 (dest_right r) ++ le16 (dest_bottom r) ++
  le16 (rect_width r) ++ le16 (rect_height r) ++ le16 (rect_bits_per_pixel r) ++ le16 (rect_flags r) ++
  le16 (view_len (rect_data r)) ++ view_bytes (rect_data r).

(** What the fields of the structure can hold, the pointer to its data valid. *)
Definition rect_typed (r : rdp_bitmap_rect) : Prop :=
  Forall is_u16 [dest_left r; dest_top r; dest_right r; dest_bottom r; rect_width r; rect_height r;
                 rect_bits_per_pixel r; rect_flags r] /\
  exists data, rect_data r = View data /\ bytes data /\ is_u32 (blen data).
(** What the parser accepts; the writer wants a depth besides. *)
Definition rect_valid (r : rdp_bitmap_rect) : bool :=
  negb (rect_width r =? 0) && negb (rect_height r =? 0) && (dest_left r <=? dest_right r) &&
  (dest_top r <=? dest_bottom r) && (view_len (rect_data r) <=? 0xffff).
Definition rect_ok (r : rdp_bitmap_rect) : Prop := rect_typed r /\ rect_valid r = true.

Definition rects_enc (rects : list rdp_bitmap_rect) : list Z := many_enc rect_enc rects.
Definition update_ok (u : rdp_bitmap_update) : Prop :=
  up_count u = blen (up_rects u) /\ up_count u <= RDP_BITMAP_MAX_RECTS /\ Forall rect_ok (up_rects u).
(** The body of an update: the rectangles with their number before them. *)
Definition body_enc (u : rdp_bitmap_update) : list Z := le16 (up_count u) ++ rects_enc (up_rects u).
Definition update_enc (u : rdp_bitmap_update) : list Z := le16 RDP_UPDATE_TYPE_BITMAP ++ body_enc u.

Lemma bytes_rect_enc r : rect_typed r -> bytes (rect_enc r).
Proof. intros (_ & data & E & Hb & _). unfold rect_enc. rewrite E. cbn [view_bytes]. solve_bytes. Qed.
Lemma bytes_many_enc {A} (enc : A -> list Z) l : Forall (fun a => bytes (enc a)) l -> bytes (many_enc enc l).
Proof. induction 1; [apply Forall_nil_2|]. rewrite many_enc_cons. by apply Forall_app_2. Qed.
Lemma bytes_body_enc u : update_ok u -> bytes (body_enc u).
Proof.
  intros (_ & _ & Hr). apply Forall_app_2; [solve_bytes|]. apply bytes_many_enc.
  eapply Forall_impl; [|exact Hr]. intros r [Ht _]. by apply bytes_rect_enc.
Qed.

(** ** Rectangles *)

Lemma rect_wire : WireReader parse_rect rect_enc rect_ok any_tail.
Proof.
  split.
  - intros [l t r b w h bpp f d] rest [(Hf & data & Hd & Hb & _) Hv] _. unfold rect_valid in Hv.
    cbn [dest_left dest_top dest_right dest_bottom rect_width rect_height rect_bits_per_pixel rect_flags rect_data] in *.
    subst d. rewrite !Forall_cons_iff in Hf. destruct_and!. cbn [view_len] in *. bool_prop.
    pose proof (blen_nonneg data). unfold rect_enc, parse_rect. cbn -[le16 blen]. rewrite <- !app_assoc.
    do 9 (pstep; [first [by apply parses_read_u16_le|apply parses_read_u16_le; unfold is_u16; lia]|]).
    do 3 pstep. pstep; [by apply parses_read_bytes|]. apply parses_ret.
  - intros s r s' Hs H. unfold parse_rect in H. repeat (run_step H; repeat first [read_inv|block_inv]).
    repeat read_inv. unread_chain. bool_prop. subst.
    split; [unfold rect_enc; cbn -[le16 blen]; by rewrite <- !app_assoc|]. split; [|done].
    split; [split; [cbn; repeat (apply Forall_cons_2; [done|]); apply Forall_nil_2|eexists; split; [done|]; split; [done|]; unfold is_u32, is_u16 in *; lia]|]. unfold rect_valid. cbn. unfold is_u16 in *. guard_lia.
  - unfold parse_rect. safe_walk.
  - unfold parse_rect. apply _.
Qed.

(** Reading the rectangles of an update, up to the end of the data. *)
Definition counted_ok (count : Z) (u : rdp_bitmap_update) : Prop := up_count u = count /\ update_ok u.
Lemma only_rectangles_wire count : 0 <= count ->
  WireReader (only_rectangles count) (fun u => rects_enc (up_rects u)) (counted_ok count) no_tail.
Proof.
  intros Hc. destruct (wire_many _ _ _ (Z.to_nat count) rect_wire) as [Hp Hd Hs He].
  unfold only_rectangles, rdp_bitmap_parse_rectangles. split.
  - intros [n rects] rest (Ec & Hn & Hmax & Hr) ->. cbn [up_count up_rects] in *. subst count.
    eapply (parses_bind _ _ _ []); [|pstep; pstep; apply parses_ret]. pstep.
    eapply parses_bind; [|apply parses_ret]. apply Hp; [|done]. split; [unfold blen in Hn; lia|done].
  - intros s u s' Hw H. run_step H. run_step E. read_inv. run_step E.
    apply (Hd _ _ _ Hw) in E0 as (Hu & [Hl Hr] & _ & Hw'). injection E as <- <-.
    repeat (run_step H; repeat read_inv). repeat read_inv. bool_prop.
    match goal with G : blen (unread s') = 0 |- _ => apply blen_0_nil in G end.
    split; [exact Hu|]. unfold counted_ok, update_ok. split_and!; cbn; try done. unfold blen. lia.
  - eapply (safe_bind _ _ (fun _ => True)); [|intros u _; safe_walk]. eapply safe_bind; [apply _|]. intros ? _.
    eapply safe_bind; [exact Hs|]. intros rects _. by apply safe_ret.
  - apply _.
Qed.

(** ** Updates *)

Definition counted : reader rdp_bitmap_update :=
  count ← pe rdp_stream_read_u16_le;
  only_rectangles count.
#[export] Instance only_rectangles_errs count : OnlyErr (only_rectangles count) LIBRDP_STATUS_PROTOCOL_ERROR.
Proof.
  unfold only_rectangles, rdp_bitmap_parse_rectangles.
  pose proof (wire_only_err _ _ _ _ (wire_many _ _ _ (Z.to_nat count) rect_wire)). apply _.
Qed.
Lemma counted_wire : WireReader counted body_enc update_ok no_tail.
Proof.
  unfold counted, body_enc. split.
  - intros u rest Hu ->. pose proof Hu as (Hc & Hmax & _). unfold RDP_BITMAP_MAX_RECTS in Hmax.
    pose proof (blen_nonneg (up_rects u)). rewrite <- app_assoc.
    pstep; [apply parses_read_u16_le; unfold is_u16; lia|].
    by apply only_rectangles_wire; [lia|split|].
  - intros s u s' Hw H. run_step H. read_inv. read_inv.
    apply only_rectangles_wire in H as (Hu & [<- Hok] & Ht & Hw'); [|unfold is_u16 in *; lia|done].
    split; [|done]. unread_chain. by rewrite <- app_assoc.
  - eapply safe_bind; [apply _|]. intros count Hc. apply only_rectangles_wire. unfold is_u16 in Hc. lia.
  - apply _.
Qed.

Lemma header_wire : WireReader (update_type ← pe rdp_stream_read_u16_le; count ← pe rdp_stream_read_u16_le;
    mret (mk_update_header update_type count))
  (fun h => le16 (uh_update_type h) ++ le16 (uh_count h)) (fun h => is_u16 (uh_update_type h) /\ is_u16 (uh_count h)) any_tail.
Proof.
  split.
  - intros [ty n] rest [Ht Hn] _. cbn [uh_update_type uh_count] in *. rewrite <- app_assoc.
    do 2 (pstep; [by apply parses_read_u16_le|]). apply parses_ret.
  - intros s h s' Hw H. repeat (run_step H; repeat read_inv). repeat read_inv. unread_chain.
    cbn [uh_update_type uh_count]. by rewrite <- app_assoc.
  - safe_walk.
  - apply _.
Qed.



Lemma le16_app_inj a b x y : is_u16 a -> is_u16 b -> le16 a ++ x = le16 b ++ y -> a = b /\ x = y.
Proof.
  intros Ha Hb E. cbn [le16 app] in E. injection E as E1 E2 E3. split; [|done].
  by rewrite <- (val16_le16 a), <- (val16_le16 b), E1, E2.
Qed.

Lemma update_ok_u16 u : update_ok u -> is_u16 (up_count u).
Proof. intros (Hc & Hm & _). pose proof (blen_nonneg (up_rects u)). unfold is_u16, RDP_BITMAP_MAX_RECTS in *. lia. Qed.

Section updates.
Context (d : list Z) (Hd : bytes d).

Lemma parse_update_outcome : Outcome update_enc update_ok no_tail d (rdp_bitmap_parse_update (View d)).
Proof.
  unfold rdp_bitmap_parse_update. cbn [view_null negb]. rewrite ensure_true by done.
  unfold rdp_bitmap_parse_update_header. cbn [view_null negb]. rewrite ensure_true by done.
  destruct (wire_view_outcome _ _ _ _ header_wire d Hd) as [([ty n] & rest & -> & [Ht Hn] & _ & ->)|[-> Hno]].
  2: { right. split; [done|]. intros u rest Hu -> E. unfold update_enc, body_enc in E. rewrite <- !app_assoc in E.
       apply (Hno (mk_update_header 1 (up_count u)) (rects_enc (up_rects u) ++ []));
         [split; [done|by apply update_ok_u16]|done|by rewrite <- app_assoc]. }
  cbn [uh_update_type uh_count] in *. change (mbind ?f (Ok ?a)) with (f a). cbv beta. rewrite ensure_bind.
  cbn [uh_update_type uh_count]. unfold RDP_UPDATE_TYPE_BITMAP. destruct (Z.eqb_spec ty 1) as [->|Hty].
  2: { right. split; [done|]. intros u r Hu -> E. unfold update_enc in E. rewrite <- !app_assoc in E.
       by apply le16_app_inj in E as [E _]. }
  destruct (wire_skip_outcome _ _ _ _ (only_rectangles_wire n ltac:(unfold is_u16 in Hn; lia)) (le16 1 ++ le16 n)
    rest 4 LIBRDP_STATUS_PROTOCOL_ERROR Hd eq_refl) as [(u & r & -> & [<- Hu] & -> & ->)|[-> Hno]].
  - left. exists u, []. split; [done|]. split; [done|]. split; [done|]. unfold update_enc, body_enc. by rewrite <- !app_assoc.
  - right. split; [done|]. intros u r Hu -> E. unfold update_enc, body_enc in E. rewrite <- !app_assoc in E.
    apply le16_app_inj in E as [_ E]; [|done|done].
    apply le16_app_inj in E as [-> E]; [|done|by apply update_ok_u16]. by apply (Hno u []).
Qed.
End updates.

Lemma update_iff d u : bytes d ->
  rdp_bitmap_parse_update (View d) = Ok u <-> update_ok u /\ d = update_enc u.
Proof.
  intros Hd. destruct (parse_update_outcome d Hd) as [(v & rest & E & Hv & -> & Ed)|[E Hno]]; rewrite E.
  - rewrite app_nil_r in Ed. split; [intros [= ->]; done|]. intros [Hu Eu]. f_equal. subst d.
    unfold update_enc in Eu, Hd. apply Forall_app in Hd as [_ Hd]. apply app_inv_head in Eu.
    apply (wire_unique _ _ _ _ counted_wire v u [] []); rewrite ?app_nil_r; done.
  - split; [done|]. intros [Hu Eu]. exfalso. apply (Hno u []); rewrite ?app_nil_r; done.
Qed.

(** What a fast-path update means: the body, and the update with its type only
    where it is not a body. *)
Definition fastpath_means (d : list Z) (u : rdp_bitmap_update) : Prop :=
  update_ok u /\ (d = body_enc u \/ (d = update_enc u /\ forall u', update_ok u' -> d <> body_enc u')).

Lemma fastpath_means_unique d u v : bytes d -> fastpath_means d u -> fastpath_means d v -> u = v.
Proof.
  intros Hd [Hu Eu] [Hv Ev]. destruct Eu as [->|[Eu Hno]], Ev as [Ev|[Ev Hno']]; [| |by apply Hno in Ev|].
  - apply (wire_unique _ _ _ _ counted_wire u v [] []); rewrite ?app_nil_r; done.
  - by apply Hno' in Hu.
  - pose proof (proj2 (update_iff d u Hd) (conj Hu Eu)). pose proof (proj2 (update_iff d v Hd) (conj Hv Ev)). congruence.
Qed.

Lemma fastpath_cases d : bytes d ->
  match rdp_bitmap_parse_fastpath_update (View d) with
  | Ok u => fastpath_means d u
  | Err st => st = LIBRDP_STATUS_PROTOCOL_ERROR /\ forall u, ~ fastpath_means d u
  | Fault => False
  end.
Proof.
  intros Hd. unfold rdp_bitmap_parse_fastpath_update. cbn [view_null negb]. rewrite ensure_true by done.
  unfold with_stream at 1. set (s0 := rdp_stream_init (View d)).
  assert (Hw0 : stream_wf s0) by by apply stream_init_wf.
  pose proof (wire_coerce _ _ _ _ wire_u16_le) as Hw16.
  destruct (pe rdp_stream_read_u16_le s0) as [[first|st|] s1] eqn:E.
  - destruct (wire_decodes _ _ _ _ Hw16 s0 first s1 Hw0 E) as (Hu & Hf & _ & Hw1). rewrite (bind_ok _ _ _ _ _ E).
    change (unread s0) with d in Hu.
    assert (Hf0 : 0 <= first) by apply Hf.
    pose proof (wire_outcome _ _ _ _ (only_rectangles_wire first Hf0) s1 Hw1) as Ho.
    unfold attempt.
    destruct Ho as [(u & rest & Er & [Ef Hok] & -> & Eu)|[Er Hno]]; destruct (only_rectangles first s1) as [o s2] eqn:Eo;
      cbn [fst] in Er; subst o.
    + unfold mbind, M_bind. rewrite Eo. split; [done|]. left.
      by rewrite Hu, Eu, app_nil_r, <- Ef.
    + assert (Hbody : forall u', update_ok u' -> d <> body_enc u').
      { intros u' Hu' Ed. unfold body_enc in Ed. rewrite Ed in Hu.
        apply le16_app_inj in Hu as [Ef Eu]; [|by apply update_ok_u16|done].
        apply (Hno u' []); [split; [done|done]|done|]. by rewrite app_nil_r. }
      unfold mbind at 1, M_bind at 1. rewrite Eo. cbv beta iota. unfold RDP_UPDATE_TYPE_BITMAP.
      destruct (Z.eqb_spec first 1) as [->|Hf1]; cbn [negb].
      2: { split; [done|]. intros u [Hok [Ed|[Ed _]]]; [by apply (Hbody u)|]. unfold update_enc in Ed.
           rewrite Ed in Hu. by apply le16_app_inj in Hu as [Hu _]. }
      unfold lift. cbn [fst].
      assert (Hd2 : bytes (le16 1 ++ unread s1)) by by rewrite <- Hu.
      pose proof (wire_skip_outcome _ _ _ _ counted_wire (le16 1) (unread s1) 2 LIBRDP_STATUS_PROTOCOL_ERROR Hd2 eq_refl) as H2.
      rewrite <- Hu in H2. unfold counted in H2.
      destruct H2 as [(u & rest & -> & Hok & -> & Eu)|[-> Hno2]].
      * split; [done|]. right. split; [|done]. unfold update_enc. by rewrite Hu, Eu, app_nil_r.
      * split; [done|]. intros u [Hok [Ed|[Ed _]]]; [by apply (Hbody u)|]. unfold update_enc in Ed. rewrite Ed in Hu.
        apply le16_app_inj in Hu as [_ Hu]; [|done|done]. apply (Hno2 u []); [done|done|]. by rewrite app_nil_r.
  - pose proof (wire_only_err _ _ _ _ Hw16 s0 st) as Hst. rewrite E in Hst. cbn in Hst. rewrite Hst in E by done.
    rewrite (bind_err _ _ _ _ _ E). split; [done|]. intros u [Hok Ed].
    pose proof (wire_outcome _ _ _ _ Hw16 s0 Hw0) as Ho. rewrite E in Ho. destruct Ho as [(? & ? & ? & _)|[_ Hno]]; [done|].
    change (unread s0) with d in Hno. destruct Ed as [Ed|[Ed _]].
    + by apply (Hno (up_count u) (rects_enc (up_rects u))); [apply update_ok_u16| |].
    + by apply (Hno 1 (body_enc u)).
  - exfalso. pose proof (safe_no_fault _ _ _ (wire_safe _ _ _ _ Hw16 s0 Hw0)) as Hnf. by rewrite E in Hnf.
Qed.

Lemma fastpath_iff d u : bytes d -> rdp_bitmap_parse_fastpath_update (View d) = Ok u <-> fastpath_means d u.
Proof.
  intros Hd. pose proof (fastpath_cases d Hd) as Hf. destruct (rdp_bitmap_parse_fastpath_update (View d)) as [v|st|];
    [|naive_solver|done]. split; [by intros [= ->]|]. intros Hu. f_equal. by apply (fastpath_means_unique d).
Qed.

(** C21: The parsers of bitmap updates are exact: an update is accepted if and only
    if its bytes are the encoding of at most 64 rectangles, each with a width and
    a height other than 0, its right edge not left of its left one and its bottom
    edge not above its top one, and then those rectangles are returned (so 65
    good rectangles are refused); a fast-path update may leave out its
    type, and is read that way whenever it can be.  Everything else is a protocol
    error, and no input is read out of bounds. *)
Theorem bitmap_updates_parsed d : bytes d ->
  (forall u, rdp_bitmap_parse_update (View d) = Ok u <-> update_ok u /\ d = update_enc u) /\
  (forall u, rdp_bitmap_parse_fastpath_update (View d) = Ok u <-> fastpath_means d u) /\
  protocol_only (rdp_bitmap_parse_update (View d)) /\
  protocol_only (rdp_bitmap_parse_fastpath_update (View d)).
Proof.
  intros Hd. pose proof (fastpath_cases d Hd) as Hf.
  split; [intros u; by apply update_iff|]. split; [intros u; by apply fastpath_iff|]. split.
  - by destruct (parse_update_outcome d Hd) as [(u & rest & -> & _)|[-> _]].
  - destruct (rdp_bitmap_parse_fastpath_update (View d)); naive_solver.
Qed.

(** ** Writing updates *)

(** What the writer accepts. *)
Definition rect_writable (r : rdp_bitmap_rect) : bool := rect_valid r && negb (rect_bits_per_pixel r =? 0).
Definition update_of (rects : list rdp_bitmap_rect) : rdp_bitmap_update := mk_bitmap_update (blen rects) rects.

Lemma validate_writable r : rect_typed r ->
  rdp_bitmap_validate_rect r = if rect_writable r then Ok tt else Err LIBRDP_STATUS_INVALID_ARGUMENT.
Proof.
  intros (_ & data & E & _). unfold rdp_bitmap_validate_rect, rect_writable, rect_valid, ensure. rewrite E. cbn [view_null view_len].
  match goal with |- (if ?a then _ else _) = (if ?b then _ else _) => assert (a = b) as ->; [|done] end.
  apply eq_true_iff_eq. bool_prop. naive_solver.
Qed.

Lemma write_rect_writes r : rect_typed r -> rect_writable r = true ->
  Writes (rdp_bitmap_write_rect r) (rect_enc r) (fun _ => True).
Proof.
  intros Ht Hv. unfold rdp_bitmap_write_rect. eapply writes_lift; [by rewrite validate_writable, Hv|].
  destruct Ht as (_ & data & E & _ & _). unfold rect_enc, rect_writable, rect_valid in *. rewrite E in *. cbn [view_len view_bytes] in *.
  bool_prop. pose proof (blen_nonneg data). replace (u16 (blen data)) with (blen data) by (unfold u16; rewrite Z.mod_small; lia).
  do 9 wstep. apply writes_append.
Qed.
Lemma write_update_writes rects : Forall rect_typed rects -> Forall (fun r => rect_writable r = true) rects ->
  blen rects <= RDP_BITMAP_MAX_RECTS -> Writes (rdp_bitmap_write_update rects) (update_enc (update_of rects)) (fun _ => True).
Proof.
  intros Ht Hv Hm. unfold rdp_bitmap_write_update, rdp_bitmap_write_rects, update_enc, body_enc, update_of.
  cbn [up_count up_rects]. apply writes_require; [guard_lia|]. do 2 wstep. apply writes_require; [guard_lia|].
  apply many_written. intros r Hr. rewrite Forall_forall in Ht, Hv. apply list_elem_of_In in Hr.
  apply write_rect_writes; auto.
Qed.
Lemma write_each_Ok_inv {A} (w : A -> writer unit) l s s' : write_each w l s = (Ok tt, s') ->
  Forall (fun a => exists s1 s2, w a s1 = (Ok tt, s2)) l.
Proof.
  revert s. induction l as [|a l IH]; intros s E; [apply Forall_nil_2|]. cbn [write_each] in E.
  apply bind_Ok_inv in E as ([] & s1 & E1 & E2). apply Forall_cons_2; [by exists s, s1|by eapply IH].
Qed.
Lemma write_update_Ok_inv rects s s' : Forall rect_typed rects -> rdp_bitmap_write_update rects s = (Ok tt, s') ->
  Forall (fun r => rect_writable r = true) rects /\ blen rects <= RDP_BITMAP_MAX_RECTS.
Proof.
  intros Ht E. unfold rdp_bitmap_write_update, rdp_bitmap_write_rects in E. repeat run_step E.
  apply require_Ok_inv in E0 as [Hm ->]. bool_prop. split; [|done]. apply write_each_Ok_inv in E.
  rewrite Forall_forall in *. intros r Hr. destruct (E r Hr) as (t1 & t2 & Er). unfold rdp_bitmap_write_rect in Er.
  apply bind_Ok_inv in Er as ([] & t3 & E5 & _). apply lift_Ok_inv in E5 as [E5 _].
  rewrite validate_writable in E5 by auto. by destruct (rect_writable r).
Qed.

(** C22: What the writer of bitmap updates appends is read back as the rectangles
    written; by the fast-path parser too, unless the bytes also read as an update
    without its type. *)
Theorem bitmap_update_roundtrip rects b h b' h' : Forall rect_typed rects -> buffer_wf b ->
  rdp_bitmap_write_update rects (b, h) = (Ok tt, (b', h')) ->
  let u := update_of rects in
  contents b' = contents b ++ update_enc u /\ rdp_bitmap_parse_update (View (update_enc u)) = Ok u /\
  (rdp_bitmap_parse_fastpath_update (View (update_enc u)) = Ok u <-> forall v, update_ok v -> update_enc u <> body_enc v).
Proof.
  intros Ht Hwf E u. destruct (write_update_Ok_inv rects _ _ Ht E) as [Hv Hm].
  assert (Hu : update_ok u).
  { split; [done|]. split; [done|]. rewrite Forall_forall in *. intros r Hr. split; [by apply Ht|].
    specialize (Hv r Hr). unfold rect_writable in Hv. by bool_prop. }
  assert (Hb : bytes (update_enc u)) by (apply Forall_app_2; [solve_bytes|by apply bytes_body_enc]).
  split; [|split].
  - by destruct (writes_Ok_inv _ _ _ _ _ _ _ _ (write_update_writes rects Ht Hv Hm) Hwf E) as (_ & _ & Hc).
  - by apply update_iff.
  - rewrite (fastpath_iff _ _ Hb). unfold fastpath_means. split; [|tauto].
    intros [_ [El|[_ Hno]]]; [|done]. apply (f_equal blen) in El. unfold update_enc in El. rewrite blen_app in El.
    change (blen (le16 _)) with 2 in El. lia.
Qed.

Definition sample_rect : rdp_bitmap_rect := mk_bitmap_rect 0 0 1 0 2 1 16 0 (View [1; 2; 3; 4]).
Lemma sample_rect_typed : rect_typed sample_rect.
Proof.
  split; [|by exists [1; 2; 3; 4]; split; [|split; [solve_bytes|]]].
  repeat (apply Forall_cons_2; [unfold is_u16; cbn; lia|]). apply Forall_nil_2.
Qed.

Lemma bitmap_updates_parsed_witness : let d := update_enc (update_of [sample_rect]) in
  (forall u, rdp_bitmap_parse_update (View d) = Ok u <-> update_ok u /\ d = update_enc u) /\
  (forall u, rdp_bitmap_parse_fastpath_update (View d) = Ok u <-> fastpath_means d u) /\
  protocol_only (rdp_bitmap_parse_update (View d)) /\
  protocol_only (rdp_bitmap_parse_fastpath_update (View d)).
Proof. apply bitmap_updates_parsed. unfold is_byte. by_evaluation. Defined.

Lemma bitmap_update_roundtrip_witness : exists b',
  let u := update_of [sample_rect] in
  contents b' = contents rdp_buffer_init ++ update_enc u /\ rdp_bitmap_parse_update (View (update_enc u)) = Ok u /\
  (rdp_bitmap_parse_fastpath_update (View (update_enc u)) = Ok u <-> forall v, update_ok v -> update_enc u <> body_enc v).
Proof.
  eexists _. eapply (bitmap_update_roundtrip [sample_rect] rdp_buffer_init []).
  - apply Forall_cons_2; [apply sample_rect_typed|apply Forall_nil_2].
  - apply buffer_init_wf.
  - vm_compute. reflexivity.
Defined.

(** A rectangle of compressed data whose fast-path update is read as another. *)
Definition ambiguous_rect : rdp_bitmap_rect :=
  mk_bitmap_rect 0 1 31 32 32 32 24 (Z.lor RDP_BITMAP_FLAG_COMPRESSED RDP_BITMAP_FLAG_NO_COMPRESSION_HEADER)
    (View (replicate 1023 0xfd)).

(** The fast-path parser does not read back every update the fast-path writer
    writes. *)
Lemma bitmap_fastpath_misread : rect_writable ambiguous_rect = true /\
  exists b' h' u, rdp_bitmap_write_fastpath_update [ambiguous_rect] (rdp_buffer_init, []) = (Ok tt, (b', h')) /\
    rdp_bitmap_parse_fastpath_update (buffer_view b') = Ok u /\
    (dest_top <$> up_rects u) = [0] /\ (rect_width <$> up_rects u) = [32] /\ (rect_bits_per_pixel <$> up_rects u) = [32] /\
    up_rects u <> [ambiguous_rect].
Proof. split; [reflexivity|]. eexists _, _, _. vm_compute. repeat split. intros [=]. Qed.

(** ** Palettes *)

Definition entry_enc (e : rdp_palette_entry) : list Z := [red e] ++ [green e] ++ [blue e].
Definition entry_typed (e : rdp_palette_entry) : Prop := is_byte (red e) /\ is_byte (green e) /\ is_byte (blue e).
Definition used_entries (p : rdp_palette_update) : list rdp_palette_entry := ztake (pal_count p) (pal_entries p).

(** The array of a palette, and one whose unused entries are zero. *)
Definition palette_typed (p : rdp_palette_update) : Prop :=
  is_u32 (pal_count p) /\ blen (pal_entries p) = RDP_BITMAP_PALETTE_MAX_ENTRIES /\ Forall entry_typed (pal_entries p).
Definition palette_ok (p : rdp_palette_update) : Prop :=
  palette_typed p /\ pal_count p <= RDP_BITMAP_PALETTE_MAX_ENTRIES /\
  pal_entries p = used_entries p ++ replicate (Z.to_nat (RDP_BITMAP_PALETTE_MAX_ENTRIES - pal_count p)) zero_entry.

Definition palette_body (pad : Z) (p : rdp_palette_update) : list Z :=
  le16 pad ++ le32 (pal_count p) ++ many_enc entry_enc (used_entries p).
Definition palette_enc (pad : Z) (p : rdp_palette_update) : list Z := le16 RDP_UPDATE_TYPE_PALETTE ++ palette_body pad p.

Lemma entry_wire : WireReader parse_entry entry_enc entry_typed any_tail.
Proof.
  split.
  - intros [r g b] rest (Hr & Hg & Hb) _. unfold entry_enc, parse_entry. cbn [red green blue] in *. rewrite <- !app_assoc.
    do 3 (pstep; [apply parses_read_u8|]). apply parses_ret.
  - intros s e s' Hw H. unfold parse_entry in H. repeat (run_step H; repeat read_inv). repeat read_inv. unread_chain. done.
  - unfold parse_entry. safe_walk.
  - unfold parse_entry. apply _.
Qed.
Lemma blen_entries l : blen (many_enc entry_enc l) = blen l * 3.
Proof. induction l as [|e l IH]; [done|]. rewrite many_enc_cons, blen_app, IH, blen_cons. change (blen (entry_enc e)) with 3. lia. Qed.

Section palette_body.
Lemma palette_body_parses pad p rest : is_u16 pad -> palette_ok p ->
  Parses rdp_bitmap_parse_palette_body (palette_body pad p ++ rest) rest p.
Proof.
  intros Hpad ((Hc & Hl & He) & Hm & Heq). unfold rdp_bitmap_parse_palette_body, palette_body. rewrite <- !app_assoc.
  assert (Hu : blen (used_entries p) = pal_count p) by (unfold used_entries; apply blen_ztake; unfold is_u32 in Hc; lia).
  pstep; [by apply parses_read_u16_le|]. pstep; [by apply parses_read_u32_le|]. pstep. pstep. pstep.
  { apply Z.leb_le. rewrite blen_app, blen_entries, Hu. zlen. }
  eapply parses_bind.
  - apply (wire_parses _ _ _ _ (wire_many _ _ _ (Z.to_nat (pal_count p)) entry_wire)); [|done].
    split; [rewrite <- Hu; unfold blen; lia|by apply Forall_ztake].
  - apply parses_ret_eq. destruct p as [n es]. cbn [pal_count pal_entries] in *. by rewrite Heq at 2.
Qed.
Lemma palette_body_decodes s p s' : stream_wf s -> rdp_bitmap_parse_palette_body s = (Ok p, s') ->
  exists pad, is_u16 pad /\ unread s = palette_body pad p ++ unread s' /\ palette_ok p.
Proof.
  intros Hw H. unfold rdp_bitmap_parse_palette_body in H. repeat (run_step H; repeat read_inv). repeat read_inv.
  apply (wire_decodes _ _ _ _ (wire_many _ _ _ (Z.to_nat a0) entry_wire)) in E as (Hu & [Hl He] & _ & _); [|done].
  unfold is_u32 in *. bool_prop. assert (Hb : blen a3 = a0) by (unfold blen; lia).
  assert (Hused : ztake a0 (a3 ++ replicate (Z.to_nat (RDP_BITMAP_PALETTE_MAX_ENTRIES - a0)) zero_entry) = a3)
    by (rewrite <- Hb at 1; apply ztake_app_blen).
  exists a. split; [done|]. unfold palette_body, palette_ok, used_entries. cbn [pal_count pal_entries]. rewrite Hused. split.
  - unread_chain. by rewrite <- !app_assoc.
  - split; [|done]. split; [done|]. split; [cbn; rewrite blen_app, blen_replicate; lia|].
    cbn. apply Forall_app_2; [done|]. by apply Forall_replicate.
Qed.
#[export] Instance palette_body_errs : OnlyErr rdp_bitmap_parse_palette_body LIBRDP_STATUS_PROTOCOL_ERROR.
Proof.
  unfold rdp_bitmap_parse_palette_body. apply only_err_bind; [apply _|]. intros _. apply only_err_bind; [apply _|]. intros n.
  pose proof (wire_only_err _ _ _ _ (wire_many _ _ _ (Z.to_nat n) entry_wire)). apply _.
Qed.
#[export] Instance palette_body_safe : Safe rdp_bitmap_parse_palette_body (fun _ => True).
Proof.
  unfold rdp_bitmap_parse_palette_body. do 5 (eapply safe_bind; [apply _|intros ? ?]).
  eapply safe_bind; [apply (wire_safe _ _ _ _ (wire_many _ _ _ _ entry_wire))|]. intros ? _. by apply safe_ret.
Qed.
End palette_body.

Lemma palette_iff d p : bytes d -> rdp_bitmap_parse_palette_update (View d) = Ok p <->
  palette_ok p /\ exists pad rest, is_u16 pad /\ d = palette_enc pad p ++ rest.
Proof.
  intros Hd. unfold rdp_bitmap_parse_palette_update. cbn [view_null negb]. rewrite ensure_true by done. split.
  - intros (s & s' & Hw & <- & H)%with_view_Ok_inv; [|done]. do 2 (run_step H; repeat read_inv). bool_prop.
    subst. apply palette_body_decodes in H as (pad & Hpad & Hu & Hp); [|done]. split; [done|].
    exists pad, (unread s'). split; [done|]. unfold palette_enc. unread_chain. by rewrite <- app_assoc.
  - intros (Hp & pad & rest & Hpad & ->). eapply parses_with_stream; [done|]. unfold palette_enc. rewrite <- app_assoc.
    pstep; [by apply parses_read_u16_le|]. pstep. by apply palette_body_parses.
Qed.
Lemma fastpath_palette_iff d p : bytes d -> rdp_bitmap_parse_fastpath_palette_update (View d) = Ok p <->
  palette_ok p /\ exists pad rest, is_u16 pad /\
    (d = palette_enc pad p ++ rest \/ (d = palette_body pad p ++ rest /\ pad <> RDP_UPDATE_TYPE_PALETTE)).
Proof.
  intros Hd. unfold rdp_bitmap_parse_fastpath_palette_update. cbn [view_null negb]. rewrite ensure_true by done. split.
  - intros (s & s' & Hw & Ed & H)%with_view_Ok_inv; [|done]. run_step H. repeat read_inv. rename a into first.
    destruct (Z.eqb_spec first RDP_UPDATE_TYPE_PALETTE) as [->|Hne].
    + apply palette_body_decodes in H as (pad & Hpad & Hu & Hp); [|done]. split; [done|].
      exists pad, (unread s'). split; [done|]. left. unfold palette_enc. rewrite <- app_assoc, <- Hu. by rewrite <- Ed.
    + apply lift_Ok_inv in H as [H _]. apply with_view_Ok_inv in H as (t & t' & Hwt & Et & H); [|done].
      apply palette_body_decodes in H as (pad & Hpad & Hu & Hp); [|done]. split; [done|].
      exists pad, (unread t'). split; [done|]. right. rewrite <- Et, Hu. split; [done|]. intros ->. apply Hne.
      rewrite <- Ed in Et. rewrite Et in Hu. unfold palette_body in Hu. rewrite <- !app_assoc in Hu.
      match goal with G : _ = le16 first ++ _ |- _ => rewrite G in Hu end. by apply le16_app_inj in Hu as [-> _].
  - intros (Hp & pad & rest & Hpad & [->|[-> Hne]]).
    + eapply parses_with_stream; [done|]. unfold palette_enc. rewrite <- app_assoc.
      pstep; [by apply parses_read_u16_le|]. by apply palette_body_parses.
    + eapply parses_with_stream; [done|]. unfold palette_body at 1. rewrite <- app_assoc.
      pstep; [by apply parses_read_u16_le|]. destruct (Z.eqb_spec pad RDP_UPDATE_TYPE_PALETTE); [done|].
      apply parses_lift. eapply parses_with_stream; [done|]. by apply palette_body_parses.
Qed.

(** The parsers of palette updates are exact up to the bytes they ignore: the
    padding and what follows the entries.  A fast-path update may leave out its
    type; one whose padding is the type is read as if it had not. *)
Theorem bitmap_palettes_parsed d : bytes d ->
  (forall p, rdp_bitmap_parse_palette_update (View d) = Ok p <->
     palette_ok p /\ exists pad rest, is_u16 pad /\ d = palette_enc pad p ++ rest) /\
  (forall p, rdp_bitmap_parse_fastpath_palette_update (View d) = Ok p <->
     palette_ok p /\ exists pad rest, is_u16 pad /\
       (d = palette_enc pad p ++ rest \/ (d = palette_body pad p ++ rest /\ pad <> RDP_UPDATE_TYPE_PALETTE))) /\
  protocol_only (rdp_bitmap_parse_palette_update (View d)) /\
  protocol_only (rdp_bitmap_parse_fastpath_palette_update (View d)).
Proof.
  intros Hd. split; [intros p; by apply palette_iff|]. split; [intros p; by apply fastpath_palette_iff|].
  unfold rdp_bitmap_parse_palette_update, rdp_bitmap_parse_fastpath_palette_update. cbn [view_null negb].
  rewrite !ensure_true by done. split.
  - apply view_protocol_only; [done| |apply _]. safe_walk. apply _.
  - destruct (lift_protocol_only _ (view_protocol_only _ d Hd palette_body_safe palette_body_errs)).
    apply view_protocol_only; [done| |apply _]. eapply safe_bind; [apply _|]. intros ? _. apply safe_if; intros _; apply _.
Qed.

Definition zero_unused (p : rdp_palette_update) : rdp_palette_update :=
  mk_palette_update (pal_count p)
    (used_entries p ++ replicate (Z.to_nat (RDP_BITMAP_PALETTE_MAX_ENTRIES - pal_count p)) zero_entry).

Lemma zero_unused_ok p : palette_typed p -> pal_count p <= RDP_BITMAP_PALETTE_MAX_ENTRIES ->
  palette_ok (zero_unused p) /\ used_entries (zero_unused p) = used_entries p.
Proof.
  intros (Hc & Hl & He) Hm. unfold is_u32 in *.
  assert (Hu : blen (used_entries p) = pal_count p) by (apply blen_ztake; lia).
  assert (E : used_entries (zero_unused p) = used_entries p).
  { unfold used_entries at 1, zero_unused. cbn [pal_count pal_entries]. rewrite <- Hu at 1. apply ztake_app_blen. }
  split; [|done]. unfold palette_ok, palette_typed. rewrite E. cbn [pal_count zero_unused]. split; [|done]. split; [done|].
  cbn [pal_entries zero_unused]. rewrite blen_app, blen_replicate, Hu. split; [lia|].
  apply Forall_app_2; [by apply Forall_ztake|by apply Forall_replicate].
Qed.
Lemma write_palette_writes p : palette_typed p -> pal_count p <= RDP_BITMAP_PALETTE_MAX_ENTRIES ->
  Writes (rdp_bitmap_write_palette_update p) (palette_enc 0 p) (fun _ => True).
Proof.
  intros Hp Hm. unfold rdp_bitmap_write_palette_update, palette_enc, palette_body. apply writes_require; [guard_lia|].
  do 3 wstep. apply many_written. intros e _. unfold write_entry, entry_enc. do 2 wstep. apply writes_u8.
Qed.

(** What the writer of palette updates appends is read back by both parsers,
    with the entries that are not in use zero. *)
Theorem bitmap_palette_roundtrip p b h b' h' : palette_typed p -> buffer_wf b ->
  rdp_bitmap_write_palette_update p (b, h) = (Ok tt, (b', h')) ->
  contents b' = contents b ++ palette_enc 0 p /\ used_entries (zero_unused p) = used_entries p /\
  rdp_bitmap_parse_palette_update (View (palette_enc 0 p)) = Ok (zero_unused p) /\
  rdp_bitmap_parse_fastpath_palette_update (View (palette_enc 0 p)) = Ok (zero_unused p).
Proof.
  intros Hp Hwf E. assert (Hm : pal_count p <= RDP_BITMAP_PALETTE_MAX_ENTRIES).
  { unfold rdp_bitmap_write_palette_update in E. run_step E. apply require_Ok_inv in E0 as [Hm _]. by bool_prop. }
  destruct (zero_unused_ok p Hp Hm) as [Hz Eu].
  split; [by destruct (writes_Ok_inv _ _ _ _ _ _ _ _ (write_palette_writes p Hp Hm) Hwf E) as (_ & _ & Hc)|]. split; [done|].
  assert (Ez : palette_enc 0 p = palette_enc 0 (zero_unused p)) by (unfold palette_enc, palette_body; by rewrite Eu).
  assert (Hb : bytes (palette_enc 0 (zero_unused p))).
  { unfold palette_enc, palette_body. apply Forall_app_2; [solve_bytes|]. apply Forall_app_2; [solve_bytes|].
    apply Forall_app_2; [solve_bytes|]. apply bytes_many_enc. rewrite Eu. destruct Hp as (_ & _ & He).
    apply Forall_ztake. eapply Forall_impl; [|exact He]. intros e (? & ? & ?). unfold entry_enc. solve_bytes. }
  rewrite Ez. split; [apply palette_iff|apply fastpath_palette_iff]; 
    (done || (split; [done|]; exists 0, []; rewrite app_nil_r; split; [done|auto])).
Qed.

Definition sample_palette : rdp_palette_update :=
  mk_palette_update 2 (mk_palette_entry 1 2 3 :: replicate 255 (mk_palette_entry 4 5 6)).
Lemma sample_palette_typed : palette_typed sample_palette.
Proof. unfold palette_typed, entry_typed, is_byte, is_u32. by_evaluation. Qed.

Lemma bitmap_palettes_parsed_witness : let d := palette_enc 0 sample_palette in
  (forall p, rdp_bitmap_parse_palette_update (View d) = Ok p <->
     palette_ok p /\ exists pad rest, is_u16 pad /\ d = palette_enc pad p ++ rest) /\
  (forall p, rdp_bitmap_parse_fastpath_palette_update (View d) = Ok p <->
     palette_ok p /\ exists pad rest, is_u16 pad /\
       (d = palette_enc pad p ++ rest \/ (d = palette_body pad p ++ rest /\ pad <> RDP_UPDATE_TYPE_PALETTE))) /\
  protocol_only (rdp_bitmap_parse_palette_update (View d)) /\
  protocol_only (rdp_bitmap_parse_fastpath_palette_update (View d)).
Proof. apply bitmap_palettes_parsed. unfold is_byte. by_evaluation. Defined.
Lemma bitmap_palette_roundtrip_witness : exists b',
  contents b' = contents rdp_buffer_init ++ palette_enc 0 sample_palette /\
  used_entries (zero_unused sample_palette) = used_entries sample_palette /\
  rdp_bitmap_parse_palette_update (View (palette_enc 0 sample_palette)) = Ok (zero_unused sample_palette) /\
  rdp_bitmap_parse_fastpath_palette_update (View (palette_enc 0 sample_palette)) = Ok (zero_unused sample_palette).
Proof.
  eexists _. eapply (bitmap_palette_roundtrip _ rdp_buffer_init []).
  - apply sample_palette_typed.
  - apply buffer_init_wf.
  - vm_compute. reflexivity.
Defined.

(** ** Filling the output *)

(** With room for [n] bytes at [off], [m] stores [o] there and leaves what is
    before; it fails where there is no [o]. *)
Definition Fills (m : writer unit) (off n : Z) (o : option (list Z)) : Prop :=
  forall b h, buffer_wf b -> 0 <= off -> 0 <= n -> off + n <= b_length b ->
  exists b', buffer_wf b' /\ b_length b' = b_length b /\
    match o with
    | Some l => m (b, h) = (Ok tt, (b', h)) /\ blen l = n /\ ztake (off + n) (block b') = ztake off (block b) ++ l
    | None => m (b, h) = (Err LIBRDP_STATUS_PROTOCOL_ERROR, (b', h))
    end.

(** What the conversions of a list of pixels give together. *)
Fixpoint convert {A} (f : A -> option (list Z)) (l : list A) : option (list Z) :=
  match l with
  | [] => Some []
  | a :: l => x ← f a; y ← convert f l; Some (x ++ y)
  end.

Lemma convert_app {A} (f : A -> option (list Z)) l k :
  convert f (l ++ k) = x ← convert f l; y ← convert f k; Some (x ++ y).
Proof.
  induction l as [|a l IH]; cbn; [by destruct (convert f k)|]. rewrite IH. destruct (f a); [|done]. cbn.
  destruct (convert f l); [|done]. cbn. destruct (convert f k); [|done]. cbn. by rewrite app_assoc.
Qed.

(** A computed pixel is the one expected, or a protocol error. *)
Definition same_pixel (r : res (list Z)) (o : option (list Z)) : Prop :=
  match o with
  | Some l => r = Ok l /\ blen l = 4
  | None => r = Err LIBRDP_STATUS_PROTOCOL_ERROR
  end.

Section fills.
Lemma fills_ret off : Fills (mret tt) off 0 (Some []).
Proof.
  intros b h Hb Ho _ Hl. exists b. split; [done|]. split; [done|]. split; [done|]. split; [done|]. by rewrite Z.add_0_r, app_nil_r.
Qed.

Lemma store_fills off l : Fills (store_bytes off l) off (blen l) (Some l).
Proof.
  intros b h Hb Ho Hn Hl. destruct (store_bytes_spec off l b h Hb Ho Hl) as (b' & E & Hb' & Hl' & Hc).
  exists b'. split; [done|]. split; [done|]. split; [done|]. split; [done|].
  pose proof (blen_contents b Hb). pose proof (blen_contents b' Hb').
  rewrite !(ztake_contents _ _ Hb), (ztake_contents _ _ Hb'), Hc by lia. rewrite app_assoc.
  rewrite <- (blen_ztake off (contents b)) at 1 by lia. by rewrite <- blen_app, ztake_app_blen.
Qed.

(** One pixel and what follows it. *)
Lemma fills_pixel r o (k : writer unit) off n o2 : same_pixel r o -> 0 <= n -> Fills k (off + 4) n o2 ->
  Fills (bgra ← lift r; store_bytes off bgra;; k) off (4 + n) (x ← o; y ← o2; Some (x ++ y)).
Proof.
  intros Hr Hn0 Hk b h Hb Ho Hn Hl. unfold same_pixel in Hr. destruct o as [l|].
  2: { rewrite Hr, bind_lift. exists b. done. }
  destruct Hr as [-> H4]. rewrite bind_lift.
  destruct (store_fills off l b h Hb Ho) as (b1 & Hb1 & Hl1 & E1 & _ & Ht1); [lia|lia|].
  rewrite (bind_ok _ _ _ _ _ E1). destruct (Hk b1 h Hb1) as (b2 & Hb2 & Hl2 & H2); [lia|done|lia|].
  exists b2. split; [done|]. split; [lia|]. cbn. destruct o2 as [l2|]; cbn; [|done].
  destruct H2 as (-> & Hn2 & Ht2). split; [done|]. split; [zlen|]. rewrite Z.add_assoc, Ht2, <- H4, Ht1. by rewrite app_assoc.
Qed.

Lemma fills_bind m1 (m2 : writer unit) off n1 n2 o1 o2 : 0 <= n1 -> 0 <= n2 -> Fills m1 off n1 o1 -> Fills m2 (off + n1) n2 o2 ->
  Fills (m1;; m2) off (n1 + n2) (x ← o1; y ← o2; Some (x ++ y)).
Proof.
  intros Hn1 Hn2 H1 H2 b h Hb Ho Hn Hl. destruct (H1 b h Hb Ho) as (b1 & Hb1 & Hl1 & E1); [done|lia|].
  destruct o1 as [l1|]; [|exists b1; rewrite (bind_err _ _ _ _ _ E1); done].
  destruct E1 as (E1 & Hl1' & Ht1). rewrite (bind_ok _ _ _ _ _ E1).
  destruct (H2 b1 h Hb1) as (b2 & Hb2 & Hl2 & E2); [lia|done|lia|]. exists b2. split; [done|]. split; [lia|]. cbn.
  destruct o2 as [l2|]; cbn; [|done]. destruct E2 as (-> & Hn2' & Ht2). split; [done|]. split; [zlen|].
  by rewrite Z.add_assoc, Ht2, Ht1, app_assoc.
Qed.
End fills.

(** ** The pixels of a rectangle *)

Definition byte_at (l : list Z) (i : Z) : Z := default 0 (l !! Z.to_nat i).

(** The value of the pixel in a column of a row: the high bits of a byte come
    first, the bytes of a pixel are little endian. *)
Definition raw_value (bpp : Z) (row : list Z) (column : Z) : Z :=
  if bpp =? 1 then byte_at row (column / 8) / 2 ^ (7 - column mod 8) mod 2
  else if bpp =? 4 then
    if column mod 2 =? 0 then byte_at row (column / 2) / 16 else byte_at row (column / 2) mod 16
  else if bpp =? 8 then byte_at row column
  else if bpp <=? 16 then byte_at row (2 * column) + byte_at row (2 * column + 1) * 2 ^ 8
  else if bpp =? 24 then
    byte_at row (3 * column) + byte_at row (3 * column + 1) * 2 ^ 8 + byte_at row (3 * column + 2) * 2 ^ 16
  else byte_at row (4 * column) + byte_at row (4 * column + 1) * 2 ^ 8 + byte_at row (4 * column + 2) * 2 ^ 16 +
       byte_at row (4 * column + 3) * 2 ^ 24.

(** A component of [bits] bits as one of eight, to the nearest. *)
Definition expand (bits v : Z) : Z := (v * 255 + (2 ^ bits - 1) / 2) / (2 ^ bits - 1).

(** The color of a pixel value, blue first; [alpha]: the value has its own. *)
Definition pixel_color (alpha : bool) (bpp : Z) (palette : option rdp_palette_update) (v : Z) : option (list Z) :=
  if bpp <=? 8 then
    p ← palette;
    e ← (if v <? pal_count p then pal_entries p !! Z.to_nat v else None);
    Some [blue e; green e; red e; 255]
  else if bpp =? 15 then Some [expand 5 (v mod 32); expand 5 (v / 2 ^ 5 mod 32); expand 5 (v / 2 ^ 10 mod 32); 255]
  else if bpp =? 16 then Some [expand 5 (v mod 32); expand 6 (v / 2 ^ 5 mod 64); expand 5 (v / 2 ^ 11 mod 32); 255]
  else Some [v mod 256; v / 2 ^ 8 mod 256; v / 2 ^ 16 mod 256; if alpha then v / 2 ^ 24 mod 256 else 255].

Definition color_depths : list Z := [1; 4; 8; 15; 16; 24; 32].
Definition rle_depths : list Z := [8; 15; 16; 24; 32].

(** The size of a row of the data, without and with its padding to four bytes. *)
Definition row_bytes (width bpp : Z) : Z := (width * (if bpp =? 15 then 16 else bpp) + 7) / 8.
Definition padded (n : Z) : Z := (n + 3) / 4 * 4.
Definition row_stride (rect : rdp_bitmap_rect) : Z :=
  let tight := row_bytes (rect_width rect) (rect_bits_per_pixel rect) in
  if padded tight * rect_height rect <=? view_len (rect_data rect) then padded tight else tight.

Definition row_of (rect : rdp_bitmap_rect) (row : Z) : list Z :=
  raw_value (rect_bits_per_pixel rect) (zdrop (row * row_stride rect) (view_bytes (rect_data rect)))
    <$> seqZ 0 (rect_width rect).

(** The pixels of an uncompressed rectangle, top row first: the data is bottom up. *)
Definition raw_pixels (rect : rdp_bitmap_rect) : list Z :=
  concat ((fun row => row_of rect (rect_height rect - 1 - row)) <$> seqZ 0 (rect_height rect)).

(** The stream of orders of a compressed rectangle. *)
Definition rle_payload (rect : rdp_bitmap_rect) (payload : list Z) : Prop :=
  let data := view_bytes (rect_data rect) in
  if has_flag (rect_flags rect) RDP_BITMAP_FLAG_NO_COMPRESSION_HEADER then payload = data
  else exists header rest, data = header ++ payload ++ rest /\ blen header = 8 /\
    let body := byte_at header 2 + byte_at header 3 * 2 ^ 8 in
    blen payload = if body =? 0 then (blen data - 8) mod 2 ^ 16 else body.

(** The image of a rectangle: four bytes per pixel, row after row. *)
Inductive rect_image (rect : rdp_bitmap_rect) (palette : option rdp_palette_update) : list Z -> Prop :=
| raw_image image :
    rect_flags rect = 0 -> In (rect_bits_per_pixel rect) color_depths ->
    0 < rect_width rect -> 0 < rect_height rect ->
    row_bytes (rect_width rect) (rect_bits_per_pixel rect) * rect_height rect <= view_len (rect_data rect) ->
    convert (pixel_color (rect_bits_per_pixel rect =? 32) (rect_bits_per_pixel rect) palette) (raw_pixels rect) = Some image ->
    rect_image rect palette image
| rle_image_of image pixels payload :
    In (rect_flags rect) [RDP_BITMAP_FLAG_COMPRESSED;
      Z.lor RDP_BITMAP_FLAG_COMPRESSED RDP_BITMAP_FLAG_NO_COMPRESSION_HEADER] ->
    In (rect_bits_per_pixel rect) rle_depths ->
    0 < rect_width rect -> 0 < rect_height rect ->
    rle_payload rect payload ->
    rle_image (rect_width rect) (rect_height rect) (rect_bits_per_pixel rect) payload pixels ->
    convert (pixel_color false (rect_bits_per_pixel rect) palette) pixels = Some image ->
    rect_image rect palette image.

(** ** Colors *)

Lemma scale_5 v : rdp_scale_5_to_8 (v mod 32) = expand 5 (v mod 32).
Proof.
  unfold rdp_scale_5_to_8, expand, u8, u32. change ((2 ^ 5 - 1) / 2) with 15. change (2 ^ 5 - 1) with 31.
  rewrite (Z.mod_small (_ + _)), Z.mod_small; bits_lia.
Qed.
Lemma scale_6 v : rdp_scale_6_to_8 (v mod 64) = expand 6 (v mod 64).
Proof.
  unfold rdp_scale_6_to_8, expand, u8, u32. change ((2 ^ 6 - 1) / 2) with 31. change (2 ^ 6 - 1) with 63.
  rewrite (Z.mod_small (_ + _)), Z.mod_small; bits_lia.
Qed.

(** The palettes a session holds: the ones the parsers return are of this kind. *)
Definition palette_usable (p : rdp_palette_update) : Prop :=
  palette_typed p /\ pal_count p <= RDP_BITMAP_PALETTE_MAX_ENTRIES.

Section colors.
Context (palette : option rdp_palette_update) (Hpal : forall p, palette = Some p -> palette_usable p).

Lemma indexed_same bpp v : bpp <= 8 -> 0 <= v ->
  same_pixel (rdp_bitmap_indexed_pixel_to_bgra v palette) (pixel_color false bpp palette v).
Proof.
  intros Hb Hv. unfold pixel_color. destruct (Z.leb_spec bpp 8); [|lia]. unfold rdp_bitmap_indexed_pixel_to_bgra.
  destruct palette as [p|]; [|done]. destruct (Hpal p eq_refl) as [(_ & Hl & _) Hm]. cbn. rewrite ensure_bind.
  destruct (Z.ltb_spec v (pal_count p)); destruct (Z.leb_spec (pal_count p) v); try lia; [|done]. cbn.
  destruct (rd_ok (pal_entries p) v) as (e & -> & ->); [lia|]. done.
Qed.

Lemma raw_pixel_same bpp v : In bpp rle_depths -> 0 <= v ->
  same_pixel (rdp_bitmap_raw_pixel_to_bgra v bpp palette) (pixel_color false bpp palette v).
Proof.
  intros Hb Hv. unfold rdp_bitmap_raw_pixel_to_bgra, pixel15_to_bgra, pixel16_to_bgra.
  cbn [In rle_depths] in Hb. destruct Hb as [<-|[<-|[<-|[<-|[<-|[]]]]]]; cbn [Z.eqb Pos.eqb]; [by apply indexed_same|..];
    (split; [|done]); unfold pixel_color; cbn [Z.leb Z.compare Pos.compare Pos.compare_cont Z.eqb Pos.eqb]; f_equal;
    rewrite ?Z.shiftr_div_pow2, ?land_0x1f, ?land_0x3f, ?land_0xff, ?scale_5, ?scale_6 by lia; done.
Qed.
End colors.

(** ** Decoding *)

(** A fill that starts at the beginning and covers the buffer makes its contents. *)
Lemma fills_contents m b h n o : Fills m 0 n o -> buffer_wf b -> b_length b = n ->
  exists b', buffer_wf b' /\
    match o with
    | Some l => m (b, h) = (Ok tt, (b', h)) /\ contents b' = l
    | None => m (b, h) = (Err LIBRDP_STATUS_PROTOCOL_ERROR, (b', h))
    end.
Proof.
  intros Hf Hb Hn. pose proof (buffer_wf_length b Hb). destruct (Hf b h Hb) as (b' & Hb' & Hl & E); [lia..|].
  exists b'. split; [done|]. destruct o; [|done]. destruct E as (-> & _ & Ht). split; [done|].
  unfold contents. rewrite Hl, Hn. exact Ht.
Qed.

Section decode.
Context (palette : option rdp_palette_update) (Hpal : forall p, palette = Some p -> palette_usable p).

Lemma store_pixels_fills bpp i pixels : In bpp rle_depths -> Forall (fun v => 0 <= v) pixels ->
  Fills (store_pixels bpp palette i pixels) (i * 4) (blen pixels * 4) (convert (pixel_color false bpp palette) pixels).
Proof.
  intros Hbpp Hp. revert i. induction Hp as [|v pixels Hv Hp IH]; intros i; cbn [store_pixels convert]; [apply fills_ret|].
  pose proof (blen_nonneg pixels). replace (blen (v :: pixels) * 4) with (4 + blen pixels * 4) by zlen.
  apply fills_pixel; [by apply raw_pixel_same|lia|]. replace (i * 4 + 4) with ((i + 1) * 4) by lia. apply IH.
Qed.
End decode.

(** Where the payload after a compression header is. *)
Definition payload_size (data : list Z) : Z :=
  let body := byte_at data 2 + byte_at data 3 * 2 ^ 8 in
  if body =? 0 then (blen data - 8) mod 2 ^ 16 else body.
Lemma byte_at_app_l l k i : 0 <= i < blen l -> byte_at (l ++ k) i = byte_at l i.
Proof. intros Hi. unfold byte_at. rewrite lookup_app_l by (unfold blen in Hi; lia). done. Qed.
Lemma byte_at_is_byte l i : bytes l -> is_byte (byte_at l i).
Proof.
  intros Hb. unfold byte_at. destruct (l !! Z.to_nat i) eqn:E; [|done]. by eapply Forall_lookup_1 in Hb.
Qed.
Lemma rd_byte_at l i : 0 <= i < blen l -> rd l i = Ok (byte_at l i).
Proof. intros Hi. destruct (rd_ok l i Hi) as (v & -> & E). unfold byte_at. by rewrite E. Qed.

Lemma payload_size_nonneg data : bytes data -> 0 <= payload_size data.
Proof.
  intros Hb. unfold payload_size. pose proof (byte_at_is_byte data 2 Hb). pose proof (byte_at_is_byte data 3 Hb).
  unfold is_byte in *. case_match; [by apply Z.mod_pos_bound|lia].
Qed.

Lemma payload_iff rect payload : has_flag (rect_flags rect) RDP_BITMAP_FLAG_NO_COMPRESSION_HEADER = false ->
  let data := view_bytes (rect_data rect) in bytes data ->
  rle_payload rect payload <-> 8 <= blen data /\ payload_size data <= blen data - 8 /\ payload = ztake (payload_size data) (zdrop 8 data).
Proof.
  intros Hf data Hb. unfold rle_payload. rewrite Hf. fold data. split.
  - intros (header & rest & E & H8 & Hn). unfold payload_size. rewrite E, !byte_at_app_l by lia. rewrite <- E.
    cbv zeta in Hn. rewrite <- Hn. pose proof (blen_nonneg payload). pose proof (blen_nonneg rest).
    assert (blen data = 8 + (blen payload + blen rest)) by (rewrite E; zlen).
    split; [lia|]. split; [lia|]. rewrite E at 1. rewrite <- H8, zdrop_app_blen. by rewrite ztake_app_blen.
  - intros (H8 & Hn & ->). exists (ztake 8 data), (zdrop (payload_size data) (zdrop 8 data)).
    pose proof (payload_size_nonneg data Hb).
    rewrite !ztake_zdrop. split; [done|]. split; [apply blen_ztake; lia|].
    assert (Et : forall i, 0 <= i < 8 -> byte_at (ztake 8 data) i = byte_at data i).
    { intros i Hi. rewrite <- (ztake_zdrop 8 data) at 2. symmetry. apply byte_at_app_l. rewrite blen_ztake; lia. }
    rewrite !Et by lia. change (if _ =? 0 then _ else _) with (payload_size data). apply blen_ztake.
    rewrite blen_zdrop; lia.
Qed.

Lemma compressed_payload_spec rect data : rect_data rect = View data -> bytes data -> is_u32 (blen data) ->
  match rdp_bitmap_compressed_payload rect with
  | Ok v => exists payload, v = View payload /\ rle_payload rect payload /\ bytes payload /\ blen payload <= SIZE_MAX /\
      forall payload', rle_payload rect payload' -> payload' = payload
  | Err st => st = LIBRDP_STATUS_PROTOCOL_ERROR /\ forall payload, ~ rle_payload rect payload
  | Fault => False
  end.
Proof.
  intros E Hb H32. unfold rdp_bitmap_compressed_payload. pose proof (payload_iff rect) as Hiff. rewrite E in *. cbn [view_bytes view_len] in *.
  unfold is_u32 in H32. destruct (has_flag _ _) eqn:Ef.
  { exists data. unfold rle_payload. rewrite Ef, E. split; [done|]. split; [done|]. split; [done|]. split; [unfold SIZE_MAX; lia|]. done. }
  rewrite ensure_bind. destruct (Z.ltb_spec (blen data) 8) as [Hs|Hl]; cbn [negb].
  { split; [done|]. intros payload Hp. apply Hiff in Hp; [lia|done|done]. }
  rewrite !rd_byte_at by lia. do 2 change (mbind ?f (Ok ?a)) with (f a). cbv beta zeta.
  pose proof (byte_at_is_byte data 2 Hb). rewrite val16_arith by done.
  change (if _ =? 0 then _ else _) with (payload_size data). rewrite ensure_bind.
  destruct (Z.ltb_spec (blen data - 8) (payload_size data)) as [Hs|Hfit]; cbn [negb].
  { split; [done|]. intros payload Hp. apply Hiff in Hp; [lia|done|done]. }
  pose proof (payload_size_nonneg data Hb).
  rewrite slice_ok by lia. change (mbind ?f (Ok ?a)) with (f a). cbv beta. eexists. split; [reflexivity|].
  split; [by apply Hiff|]. split; [by apply Forall_ztake, Forall_zdrop|].
  split; [rewrite blen_ztake; [unfold SIZE_MAX; lia|rewrite blen_zdrop; lia]|].
  intros payload' Hp. by apply Hiff in Hp as (_ & _ & ->).
Qed.

(** What decoding must give: the one image of the rectangle; a failure if it has
    none; out of memory only when allocations may fail. *)
Definition decodes_to (rect : rdp_bitmap_rect) (palette : option rdp_palette_update) (h : heap) (r : res Z) (b' : rdp_buffer) : Prop :=
  match r with
  | Ok stride => stride = rect_width rect * 4 /\ forall image, rect_image rect palette image <-> image = contents b'
  | Err LIBRDP_STATUS_NO_MEMORY => h <> []
  | Err st => In st [LIBRDP_STATUS_PROTOCOL_ERROR; LIBRDP_STATUS_STATE] /\ forall image, ~ rect_image rect palette image
  | Fault => False
  end.

(** The sizes never overflow: a rectangle has 16-bit sides. *)
Lemma rect_sizes width height : 0 < width < 65536 -> 0 < height < 65536 ->
  0 < width * 4 * height < 2 ^ 34 /\ size_t (width * 4) = width * 4 /\ size_t (width * 4 * height) = width * 4 * height /\
  (SIZE_MAX / (width * 4) <? height) = false /\ (SIZE_MAX / 4 <? width * height) = false.
Proof.
  intros Hw Hh. assert (Hp : 0 < width * 4 * height < 2 ^ 34) by nia. split; [done|].
  split; [apply Z.mod_small; lia|]. split; [apply Z.mod_small; lia|].
  split; [apply Z.ltb_ge, Z.div_le_lower_bound; unfold SIZE_MAX; lia|]. apply Z.ltb_ge. unfold SIZE_MAX.
  change (0xffffffffffffffff / 4) with 0x3fffffffffffffff. lia.
Qed.

Section decode_rect.
Context (rect : rdp_bitmap_rect) (Hrect : rect_typed rect).
Context (palette : option rdp_palette_update) (Hpal : forall p, palette = Some p -> palette_usable p).
Let width := rect_width rect.
Let height := rect_height rect.
Let bpp := rect_bits_per_pixel rect.

Lemma rect_dimensions : is_u16 width /\ is_u16 height /\ is_u16 bpp /\ is_u16 (rect_flags rect).
Proof. destruct Hrect as [Hf _]. rewrite !Forall_cons_iff in Hf. by destruct_and!. Qed.

Lemma rejected h b st : (forall image, ~ rect_image rect palette image) ->
  In st [LIBRDP_STATUS_PROTOCOL_ERROR; LIBRDP_STATUS_STATE] -> decodes_to rect palette h (Err st) b.
Proof. intros Hno [<-|[<-|[]]]; (split; [cbn; auto|done]). Qed.

(** The end of both decoders: make room, fill, return the stride. *)
Lemma fill_output m o b h : 0 < width -> 0 < height -> buffer_wf b -> Fills m 0 (width * 4 * height) o ->
  (forall image, rect_image rect palette image <-> o = Some image) ->
  exists r b' h', (resize (width * 4 * height);; m;; mret (width * 4)) (b, h) = (r, (b', h')) /\ buffer_wf b' /\
    decodes_to rect palette h r b'.
Proof.
  intros Hw Hh Hb Hm Ho. destruct rect_dimensions as (Hwr & Hhr & _).
  destruct (rect_sizes width height) as (Hsz & _); [unfold is_u16 in *; lia..|].
  destruct (resize_spec (width * 4 * height) b h Hb) as (r & b1 & h1 & E & Hb1 & Hr & Hok); [unfold SIZE_MAX; lia|].
  destruct Hr as [[-> Hl]| ->].
  - rewrite (bind_ok _ _ _ _ _ E). destruct (fills_contents m b1 h1 _ o Hm Hb1 Hl) as (b2 & Hb2 & H2).
    destruct o as [image|].
    + destruct H2 as [E2 Hc]. rewrite (bind_ok _ _ _ _ _ E2). exists (Ok (width * 4)), b2, h1. split; [done|]. split; [done|].
      split; [done|]. intros image'. rewrite Ho, Hc. split; [by intros [= ->]|by intros ->].
    + rewrite (bind_err _ _ _ _ _ H2). eexists _, b2, h1. split; [done|]. split; [done|]. apply rejected; [|cbn; auto].
      intros image Hi. by apply Ho in Hi.
  - rewrite (bind_err _ _ _ _ _ E). eexists _, b1, h1. split; [done|]. split; [done|]. intros Hh0. destruct (Hok Hh0); [lia|done].
Qed.
End decode_rect.

Lemma compressed_flags f :
  has_flag f RDP_BITMAP_FLAG_COMPRESSED = true /\
  Z.land f (Z.lnot (Z.lor RDP_BITMAP_FLAG_COMPRESSED RDP_BITMAP_FLAG_NO_COMPRESSION_HEADER)) = 0 <->
  In f [RDP_BITMAP_FLAG_COMPRESSED; Z.lor RDP_BITMAP_FLAG_COMPRESSED RDP_BITMAP_FLAG_NO_COMPRESSION_HEADER].
Proof.
  split; [|by intros [<-|[<-|[]]]]. intros [Hc H0]. unfold has_flag, RDP_BITMAP_FLAG_COMPRESSED in *.
  set (m := Z.lor _ _) in *.
  assert (Hf : f = Z.land f m).
  { rewrite <- (Z.lor_0_r (Z.land f m)), <- H0, <- Z.land_lor_distr_r, Z.lor_lnot_diag. by rewrite Z.land_m1_r. }
  assert (E10 : Z.land f 0x400 = 0 \/ Z.land f 0x400 = 0x400).
  { change 0x400 with (2 ^ 10). destruct (Z.testbit f 10) eqn:E; [right|left]; apply Z.bits_inj'; intros i Hi;
      rewrite Z.land_spec, ?Z.bits_0, Z.pow2_bits_eqb by lia; destruct (Z.eqb_spec 10 i) as [<-|]; by rewrite ?E, ?andb_false_r. }
  assert (E1 : Z.land f 1 = 1) by (rewrite land_0x01 in *; bool_prop; Z.div_mod_to_equations; lia).
  rewrite Hf. unfold m, RDP_BITMAP_FLAG_NO_COMPRESSION_HEADER. rewrite Z.land_lor_distr_r, E1. cbn.
  destruct E10 as [-> | ->]; auto.
Qed.

(** Without a palette there is no color for an indexed pixel. *)
Lemma no_palette_no_image palette alpha bpp pixels : bpp <= 8 -> palette_null palette = true -> pixels <> [] ->
  convert (pixel_color alpha bpp palette) pixels = None.
Proof.
  intros Hb Hn Hp. destruct palette; [done|]. destruct pixels; [done|]. cbn. unfold pixel_color. by destruct (Z.leb_spec bpp 8); [|lia].
Qed.

Section decode_compressed.
Context (rect : rdp_bitmap_rect) (Hrect : rect_typed rect).
Context (palette : option rdp_palette_update) (Hpal : forall p, palette = Some p -> palette_usable p).
Hypothesis compressed : has_flag (rect_flags rect) RDP_BITMAP_FLAG_COMPRESSED = true.

(** The images of a compressed rectangle are those its stream of orders paints. *)
Lemma compressed_image_inv image : rect_image rect palette image ->
  In (rect_flags rect) [RDP_BITMAP_FLAG_COMPRESSED; Z.lor RDP_BITMAP_FLAG_COMPRESSED RDP_BITMAP_FLAG_NO_COMPRESSION_HEADER] /\
  In (rect_bits_per_pixel rect) rle_depths /\ 0 < rect_width rect /\ 0 < rect_height rect /\
  exists payload pixels, rle_payload rect payload /\
    rle_image (rect_width rect) (rect_height rect) (rect_bits_per_pixel rect) payload pixels /\
    convert (pixel_color false (rect_bits_per_pixel rect) palette) pixels = Some image.
Proof.
  destruct 1 as [image Hf _ _ _ _ _|image pixels payload Hf Hb Hw Hh Hp Hi Hc]; [by rewrite Hf in compressed|].
  do 4 (split; [done|]). by exists payload, pixels.
Qed.

Lemma depth_test : negb (negb (rect_bits_per_pixel rect =? 8) && negb (rect_bits_per_pixel rect =? 15) &&
    negb (rect_bits_per_pixel rect =? 16) && negb (rect_bits_per_pixel rect =? 24) && negb (rect_bits_per_pixel rect =? 32)) = true <->
  In (rect_bits_per_pixel rect) rle_depths.
Proof. cbn [In rle_depths]. bool_prop. lia. Qed.

Lemma decode_compressed_spec b h : buffer_wf b ->
  exists r b' h', rdp_bitmap_decode_compressed_bgra32 rect palette (b, h) = (r, (b', h')) /\ buffer_wf b' /\
    decodes_to rect palette h r b'.
Proof.
  intros Hb. unfold rdp_bitmap_decode_compressed_bgra32.
  assert (Hrej : forall st, (forall image, ~ rect_image rect palette image) -> In st [LIBRDP_STATUS_PROTOCOL_ERROR; LIBRDP_STATUS_STATE] ->
    exists (r : res Z) b' (h' : heap), (@Err Z st, (b, h)) = (r, (b', h')) /\ buffer_wf b' /\ decodes_to rect palette h r b').
  { intros st Hno Hst. exists (Err st), b, h. split; [done|]. split; [done|]. by apply rejected. }
  rewrite bind_require. destruct (Z.eqb_spec (Z.land (rect_flags rect) (Z.lnot (Z.lor RDP_BITMAP_FLAG_COMPRESSED
    RDP_BITMAP_FLAG_NO_COMPRESSION_HEADER))) 0) as [Hf|Hf].
  2: { apply Hrej; [|cbn; auto]. intros image (Hfl & _)%compressed_image_inv. by apply compressed_flags in Hfl as [_ ?]. }
  pose proof (proj1 (compressed_flags _) (conj compressed Hf)) as Hflags. rewrite bind_require.
  match goal with |- context [if ?c then _ else _] => destruct c eqn:Hd end.
  2: { apply Hrej; [|cbn; auto]. intros image (_ & Hbpp & Hw & Hh & _)%compressed_image_inv. apply depth_test in Hbpp.
       apply not_true_iff_false in Hd. apply Hd. rewrite negb_orb, Hbpp. guard_lia. }
  rewrite negb_orb, andb_true_iff, depth_test in Hd. destruct Hd as [Hwh Hbpp]. bool_prop.
  destruct (rect_dimensions rect Hrect) as (Hw & Hh & _). unfold is_u16 in *.
  assert (Hw0 : 0 < rect_width rect < 65536) by lia. assert (Hh0 : 0 < rect_height rect < 65536) by lia. clear Hw Hh.
  destruct (width_height_fits _ _ Hw0 Hh0) as (Hwh & Eh & Ec). destruct (rect_sizes _ _ Hw0 Hh0) as (Hsz & E4 & Es & E5 & E6).
  rewrite bind_require. match goal with |- context [if ?c then _ else _] => destruct c eqn:Hpl end.
  2: { apply Hrej; [|cbn; auto]. intros image (_ & _ & _ & _ & payload & pixels & _ & (os & _ & Hl & Hi) & Hc)%compressed_image_inv.
       apply negb_false_iff, andb_true_iff in Hpl as [H8 Hn].
       rewrite no_palette_no_image in Hc; [done|guard_lia|done|intros ->; change (blen []) with 0 in Hl; lia]. }
  rewrite Eh, Ec, E4, Es, E5, E6. cbn [negb]. rewrite !bind_require.
  destruct Hrect as (_ & data & Ed & Hbd & H32). pose proof (compressed_payload_spec rect data Ed Hbd H32) as Hp.
  destruct (rdp_bitmap_compressed_payload rect) as [v|st|]; [|rewrite bind_lift|done].
  2: { destruct Hp as [-> Hno]. apply Hrej; [|cbn; auto].
       intros image (_ & _ & _ & _ & payload & pixels & Hp & _)%compressed_image_inv. by apply Hno in Hp. }
  destruct Hp as (payload & -> & Hp & Hbp & Hlp & Hup). rewrite bind_lift.
  unfold alloc at 1. unfold mbind at 1, M_bind at 1. cbn [fst snd]. destruct (heap_alloc h) as [ok h1] eqn:Eha.
  assert (Hh1 : ok = true -> h = [] -> h1 = []).
  { intros -> ->. by injection Eha. }
  destruct ok; [|exists (Err LIBRDP_STATUS_NO_MEMORY), b, h1; split; [done|]; split; [done|]; intros ->; done].
  destruct (decode_stream_spec payload (rect_width rect) (rect_height rect) (rect_bits_per_pixel rect)
    (replicate (Z.to_nat (rect_width rect * rect_height rect)) 0)) as (r & pixels & E & Hl & Hd); try done.
  { rewrite blen_replicate. lia. }
  rewrite E. destruct Hd as [[-> Hi]|[-> Hno]].
  2: { rewrite bind_lift. eexists _, b, h1. split; [done|]. split; [done|]. apply rejected; [|cbn; auto].
       intros image (_ & _ & _ & _ & payload' & pixels' & Hp' & Hi' & _)%compressed_image_inv.
       apply Hup in Hp' as ->. by apply Hno in Hi'. }
  rewrite bind_lift.
  assert (Hfill := store_pixels_fills palette Hpal (rect_bits_per_pixel rect) 0 pixels Hbpp (rle_image_nonneg _ _ _ _ _ Hbp Hi)).
  rewrite Hl in Hfill. replace (rect_width rect * rect_height rect * 4) with (rect_width rect * 4 * rect_height rect) in Hfill by lia.
  destruct (fill_output rect Hrect palette _ _ b h1 ltac:(lia) ltac:(lia) Hb Hfill) as (r & b' & h' & E' & Hb' & Hr).
  - intros image. split.
    + intros (_ & _ & _ & _ & payload' & pixels' & Hp' & Hi' & Hc)%compressed_image_inv. apply Hup in Hp' as ->.
      by rewrite (rle_image_unique _ _ _ _ _ _ Hbpp Hbp Hi Hi').
    + intros Hc. by apply (rle_image_of rect palette image pixels payload); try done; lia.
  - exists r, b', h'. split; [exact E'|]. split; [done|]. destruct r as [|[]|]; try done. intros Hnil. by apply Hr, Hh1.
Qed.
End decode_compressed.

(** ** Uncompressed rows *)

Lemma byte_at_zdrop l src i : 0 <= src -> 0 <= i -> byte_at (zdrop src l) i = byte_at l (src + i).
Proof. intros Hs Hi. unfold byte_at, zdrop. rewrite lookup_drop. do 2 f_equal. lia. Qed.
Lemma rd_row l src i : 0 <= src -> 0 <= i -> src + i < blen l -> rd l (src + i) = Ok (byte_at (zdrop src l) i).
Proof. intros Hs Hi Hl. rewrite byte_at_zdrop by done. apply rd_byte_at. lia. Qed.

Lemma pixel15_color palette v : pixel_color false 15 palette v = Some (pixel15_to_bgra v).
Proof.
  unfold pixel_color, pixel15_to_bgra. cbn [Z.leb Z.compare Pos.compare Pos.compare_cont Z.eqb Pos.eqb].
  by rewrite !Z.shiftr_div_pow2, !land_0x1f, !scale_5 by lia.
Qed.
Lemma pixel16_color palette v : pixel_color false 16 palette v = Some (pixel16_to_bgra v).
Proof.
  unfold pixel_color, pixel16_to_bgra. cbn [Z.leb Z.compare Pos.compare Pos.compare_cont Z.eqb Pos.eqb].
  by rewrite !Z.shiftr_div_pow2, !land_0x1f, !land_0x3f, !scale_5, !scale_6 by lia.
Qed.
(** The components of a pixel of three or four bytes. *)
Lemma components b0 b1 b2 b3 : is_byte b0 -> is_byte b1 -> is_byte b2 -> is_byte b3 ->
  let v := b0 + b1 * 2 ^ 8 + b2 * 2 ^ 16 + b3 * 2 ^ 24 in
  v mod 256 = b0 /\ v / 2 ^ 8 mod 256 = b1 /\ v / 2 ^ 16 mod 256 = b2 /\ v / 2 ^ 24 mod 256 = b3.
Proof. unfold is_byte. cbv zeta. intros. repeat split; Z.div_mod_to_equations; lia. Qed.

Section rows.
Context (palette : option rdp_palette_update) (Hpal : forall p, palette = Some p -> palette_usable p).
Context (data : list Z) (Hdata : bytes data) (src : Z) (Hsrc : 0 <= src).
Let row := zdrop src data.

Lemma row_byte i : is_byte (byte_at row i).
Proof. by apply byte_at_is_byte, Forall_zdrop. Qed.

(** A pixel of one, two or four... bits: computed from the bytes of the row as
    its value says. *)
Lemma raw_pixel_color bpp width column : In bpp color_depths -> bpp <> 32 -> 0 <= column < width ->
  src + row_bytes width bpp <= blen data ->
  same_pixel (raw_pixel bpp palette data src column) (pixel_color false bpp palette (raw_value bpp row column)).
Proof.
  intros Hb H32 Hc Hfit. unfold raw_pixel, row_bytes in *. cbn [In color_depths] in Hb.
  destruct Hb as [<-|[<-|[<-|[<-|[<-|[<-|[<-|[]]]]]]]]; cbn [Z.eqb Pos.eqb] in *; try done.
  - rewrite rd_row by (try lia; Z.div_mod_to_equations; lia). fold row. change (mbind ?f (Ok ?a)) with (f a). cbv beta.
    rewrite land_0x01, Z.shiftr_div_pow2 by (Z.div_mod_to_equations; lia).
    change (pixel_color false 1 palette) with (pixel_color false 8 palette).
    apply indexed_same; [done|lia|]. by apply Z.mod_pos_bound.
  - rewrite rd_row by (try lia; Z.div_mod_to_equations; lia). fold row. change (mbind ?f (Ok ?a)) with (f a). cbv beta.
    rewrite land_0x01, land_0x0f, Z.shiftr_div_pow2 by lia. pose proof (row_byte (column / 2)) as Hr. unfold is_byte in Hr.
    unfold raw_value. cbn [Z.eqb Pos.eqb]. destruct (Z.eqb_spec (column mod 2) 0); cbn [negb];
      (apply indexed_same; [done|lia|Z.div_mod_to_equations; lia]).
  - rewrite rd_row by (try lia; Z.div_mod_to_equations; lia). fold row. change (mbind ?f (Ok ?a)) with (f a). cbv beta.
    apply indexed_same; [done|lia|]. apply row_byte.
  - rewrite !rd_row by (try lia; Z.div_mod_to_equations; lia). fold row. do 2 change (mbind ?f (Ok ?a)) with (f a). cbv beta zeta.
    rewrite val16_arith, (Z.mul_comm column) by apply row_byte. rewrite pixel15_color. done.
  - rewrite !rd_row by (try lia; Z.div_mod_to_equations; lia). fold row. do 2 change (mbind ?f (Ok ?a)) with (f a). cbv beta zeta.
    rewrite val16_arith, (Z.mul_comm column) by apply row_byte. rewrite pixel16_color. done.
  - rewrite !rd_row by (try lia; Z.div_mod_to_equations; lia). fold row. do 3 change (mbind ?f (Ok ?a)) with (f a). cbv beta zeta.
    unfold raw_value, pixel_color. cbn [Z.leb Z.compare Pos.compare Pos.compare_cont Z.eqb Pos.eqb].
    rewrite (Z.mul_comm column), Z.add_0_r.
    destruct (components (byte_at row (3 * column)) (byte_at row (3 * column + 1)) (byte_at row (3 * column + 2)) 0
      (row_byte _) (row_byte _) (row_byte _)) as (E0 & E1 & E2 & _); [done|].
    rewrite Z.mul_0_l, Z.add_0_r in *. rewrite E0, E1, E2. done.
Qed.

Lemma store_columns_fills bpp width dst column n : In bpp color_depths -> bpp <> 32 -> src + row_bytes width bpp <= blen data ->
  0 <= column -> column + Z.of_nat n <= width ->
  Fills (store_columns bpp palette data src dst column n) (dst + column * 4) (Z.of_nat n * 4)
    (convert (pixel_color false bpp palette) (raw_value bpp row <$> seqZ column (Z.of_nat n))).
Proof.
  intros Hb H32 Hfit. revert column. induction n as [|n IH]; intros column Hc Hn.
  { cbn. apply fills_ret. }
  cbn [store_columns]. rewrite seqZ_cons by lia. cbn [fmap list_fmap convert].
  replace (Z.of_nat (S n) * 4) with (4 + Z.of_nat n * 4) by lia.
  apply fills_pixel; [by apply (raw_pixel_color bpp width column); [..|lia|]|lia|].
  replace (dst + column * 4 + 4) with (dst + (column + 1) * 4) by lia.
  replace (Z.pred (Z.of_nat (S n))) with (Z.of_nat n) by lia. apply IH; lia.
Qed.

(** A row of 32-bit pixels is its own image. *)
Lemma row_32 column n : 0 <= column -> column * 4 + Z.of_nat n * 4 <= blen row ->
  convert (pixel_color true 32 palette) (raw_value 32 row <$> seqZ column (Z.of_nat n)) =
  Some (ztake (Z.of_nat n * 4) (zdrop (column * 4) row)).
Proof.
  revert column. induction n as [|n IH]; intros column Hc Hn; [done|]. rewrite seqZ_cons by lia. cbn [fmap list_fmap convert].
  replace (Z.pred (Z.of_nat (S n))) with (Z.of_nat n) by lia. fold (raw_value 32 row <$> seqZ (Z.succ column) (Z.of_nat n)).
  rewrite IH by lia. unfold pixel_color, raw_value. cbn [Z.leb Z.compare Pos.compare Pos.compare_cont Z.eqb Pos.eqb].
  destruct (components (byte_at row (4 * column)) (byte_at row (4 * column + 1)) (byte_at row (4 * column + 2))
      (byte_at row (4 * column + 3)) (row_byte _) (row_byte _) (row_byte _) (row_byte _)) as (-> & -> & -> & ->).
  replace (Z.succ column * 4) with (column * 4 + 4) by lia. rewrite <- zdrop_zdrop by lia.
  pose proof (blen_zdrop (column * 4) row ltac:(lia)) as Hl.
  replace (4 * column) with (column * 4 + 0) by lia. rewrite <- !Z.add_assoc, <- !byte_at_zdrop by lia.
  destruct (zdrop (column * 4) row) as [|a [|b [|c [|d R]]]]; try zlen. cbn -[ztake Z.mul Z.of_nat].
  replace (Z.of_nat (S n) * 4) with (4 + Z.of_nat n * 4) by lia. unfold ztake.
  by replace (Z.to_nat (4 + Z.of_nat n * 4)) with (S (S (S (S (Z.to_nat (Z.of_nat n * 4)))))) by lia.
Qed.
End rows.

Section decode_raw.
Context (rect : rdp_bitmap_rect) (Hrect : rect_typed rect).
Context (palette : option rdp_palette_update) (Hpal : forall p, palette = Some p -> palette_usable p).
Hypothesis depth : In (rect_bits_per_pixel rect) color_depths.
Let width := rect_width rect.
Let height := rect_height rect.
Let bpp := rect_bits_per_pixel rect.
Let data := view_bytes (rect_data rect).
Let color := pixel_color (bpp =? 32) bpp palette.
Context (stride : Z) (Hstride : row_stride rect = stride).
Hypothesis room : 0 < width /\ 0 <= stride /\ stride * (height - 1) + row_bytes width bpp <= blen data.

Lemma store_rows_fills row n : 0 <= row -> row + Z.of_nat n <= height ->
  Fills (store_rows rect palette stride (width * 4) row n) (row * (width * 4)) (Z.of_nat n * (width * 4))
    (convert color (concat ((fun row => row_of rect (height - 1 - row)) <$> seqZ row (Z.of_nat n)))).
Proof.
  assert (Hb : bytes data) by (destruct Hrect as (_ & d & E & Hb & _); unfold data; by rewrite E).
  revert row. induction n as [|n IH]; intros row Hr Hn; [apply fills_ret|]. cbn [store_rows].
  rewrite seqZ_cons by lia. cbn [fmap list_fmap concat]. rewrite convert_app.
  replace (Z.of_nat (S n) * (width * 4)) with (width * 4 + Z.of_nat n * (width * 4)) by lia.
  replace (Z.pred (Z.of_nat (S n))) with (Z.of_nat n) by lia.
  assert (Hsrc : 0 <= (height - 1 - row) * stride) by (apply Z.mul_nonneg_nonneg; lia).
  assert (Hfit : (height - 1 - row) * stride + row_bytes width bpp <= blen data) by nia.
  apply fills_bind; [lia|lia| |].
  2: { replace (row * (width * 4) + width * 4) with ((row + 1) * (width * 4)) by lia. apply IH; lia. }
  unfold row_of. rewrite Hstride. fold data bpp width. unfold color.
  destruct (Z.eqb_spec bpp 32) as [E32|E32].
  - rewrite E32 in Hfit |- *. assert (Hw4 : row_bytes width 32 = width * 4)
      by (unfold row_bytes; cbn [Z.eqb Pos.eqb]; Z.div_mod_to_equations; lia). rewrite Hw4 in Hfit.
    rewrite slice_ok by lia. set (src := (height - 1 - row) * stride) in *.
    pose proof (row_32 palette data Hb src 0 (Z.to_nat width)) as H.
    rewrite blen_zdrop, Z2Nat.id, Z.mul_0_l, zdrop_0 in H by lia. rewrite H by lia.
    set (l := ztake _ _). assert (Hl : blen l = width * 4) by (unfold l; rewrite blen_ztake; rewrite ?blen_zdrop; lia).
    rewrite <- Hl. intros b h. rewrite bind_lift. apply store_fills.
  - pose proof (store_columns_fills palette Hpal data Hb _ Hsrc bpp width (row * (width * 4)) 0 (Z.to_nat width)) as H.
    rewrite Z2Nat.id, Z.add_0_r in H by lia. apply H; try done; lia.
Qed.
End decode_raw.

(** The stride arithmetic of the code, without the overflows that cannot happen. *)
Lemma strides width bpp : In bpp color_depths -> 0 < width < 65536 ->
  let n := row_bytes width bpp in
  tight_stride width bpp = Ok n /\ 0 < n <= padded n /\ padded n < 2 ^ 20 /\ rdp_bitmap_stride_aligned n 4 = Some (padded n).
Proof.
  intros Hb Hw n. assert (Hk : forall k, 0 < k <= 4 -> (SIZE_MAX / k <? width) = false).
  { intros k Hk. apply Z.ltb_ge, Z.div_le_lower_bound; unfold SIZE_MAX; nia. }
  assert (Hn : tight_stride width bpp = Ok n /\ 0 < n < 2 ^ 19).
  { unfold tight_stride, n, row_bytes, size_t. cbn [In color_depths] in Hb.
    destruct Hb as [<-|[<-|[<-|[<-|[<-|[<-|[<-|[]]]]]]]]; cbn [Z.eqb Pos.eqb];
      change (u16 (8 / 8)) with 1; change (u16 (16 / 8)) with 2; change (u16 (24 / 8)) with 3; change (u16 (32 / 8)) with 4;
      rewrite ?Hk by lia; cbn [negb]; rewrite ?ensure_true by done; cbv beta;
      (split; [f_equal|]; Z.div_mod_to_equations; lia). }
  destruct Hn as [Et Hn]. split; [done|]. unfold padded, rdp_bitmap_stride_aligned. change (4 =? 0) with false. cbv iota zeta.
  split; [Z.div_mod_to_equations; lia|]. split; [Z.div_mod_to_equations; lia|].
  destruct (Z.eqb_spec (n mod 4) 0); [f_equal; Z.div_mod_to_equations; lia|].
  destruct (Z.ltb_spec (SIZE_MAX - (4 - n mod 4)) n); [unfold SIZE_MAX in *; Z.div_mod_to_equations; lia|].
  f_equal. Z.div_mod_to_equations. lia.
Qed.

Section decode_rect_raw.
Context (rect : rdp_bitmap_rect) (Hrect : rect_typed rect).
Context (palette : option rdp_palette_update) (Hpal : forall p, palette = Some p -> palette_usable p).
Hypothesis raw : has_flag (rect_flags rect) RDP_BITMAP_FLAG_COMPRESSED = false.
Let width := rect_width rect.
Let height := rect_height rect.
Let bpp := rect_bits_per_pixel rect.

Lemma raw_image_inv image : rect_image rect palette image <->
  rect_flags rect = 0 /\ In bpp color_depths /\ 0 < width /\ 0 < height /\
  row_bytes width bpp * height <= view_len (rect_data rect) /\
  convert (pixel_color (bpp =? 32) bpp palette) (raw_pixels rect) = Some image.
Proof.
  split; [|intros (? & ? & ? & ? & ? & ?); by apply raw_image].
  destruct 1 as [image|image pixels payload Hf]; [done|]. exfalso. by destruct Hf as [Hf|[Hf|[]]]; rewrite <- Hf in raw.
Qed.

Lemma raw_depth_test : negb (negb (rect_flags rect =? 0) ||
    (negb (bpp =? 1) && negb (bpp =? 4) && negb (bpp =? 8) && negb (bpp =? 15) && negb (bpp =? 16) && negb (bpp =? 24) &&
     negb (bpp =? 32))) = true <-> rect_flags rect = 0 /\ In bpp color_depths.
Proof. cbn [In color_depths]. bool_prop. lia. Qed.

Lemma raw_pixels_nonempty : 0 < width -> 0 < height -> raw_pixels rect <> [].
Proof.
  intros Hw Hh. unfold raw_pixels, row_of. fold width height. rewrite (seqZ_cons 0 height), (seqZ_cons 0 width) by lia. done.
Qed.

Lemma decode_raw_spec b h : buffer_wf b ->
  exists r b' h', rdp_bitmap_decode_rect_bgra32_with_palette rect palette (b, h) = (r, (b', h')) /\ buffer_wf b' /\
    decodes_to rect palette h r b'.
Proof.
  intros Hb. unfold rdp_bitmap_decode_rect_bgra32_with_palette. rewrite raw. fold width height bpp.
  assert (Hrej : forall st, (forall image, ~ rect_image rect palette image) -> In st [LIBRDP_STATUS_PROTOCOL_ERROR; LIBRDP_STATUS_STATE] ->
    exists (r : res Z) b' (h' : heap), (@Err Z st, (b, h)) = (r, (b', h')) /\ buffer_wf b' /\ decodes_to rect palette h r b').
  { intros st Hno Hst. exists (Err st), b, h. split; [done|]. split; [done|]. by apply rejected. }
  rewrite bind_require. match goal with |- context [if ?c then _ else _] => destruct c eqn:Hd end.
  2: { apply Hrej; [|cbn; auto]. intros image (Hf & Hbpp & _)%raw_image_inv. by rewrite (proj2 raw_depth_test) in Hd. }
  apply raw_depth_test in Hd as [Hflags Hbpp].
  rewrite bind_require. match goal with |- context [if ?c then _ else _] => destruct c eqn:Hpl end.
  2: { apply Hrej; [|cbn; auto]. intros image (_ & _ & Hw & Hh & _ & Hc)%raw_image_inv.
       apply negb_false_iff, andb_true_iff in Hpl as [H8 Hn].
       rewrite no_palette_no_image in Hc; [done|unfold bpp in *; bool_prop; lia|done|by apply raw_pixels_nonempty]. }
  rewrite bind_require. match goal with |- context [if ?c then _ else _] => destruct c eqn:Hwh end.
  2: { apply Hrej; [|cbn; auto]. intros image (_ & _ & Hw & Hh & _)%raw_image_inv. guard_lia. }
  destruct (rect_dimensions rect Hrect) as (Hw & Hh & _). unfold is_u16 in *. fold width in Hw. fold height in Hh. bool_prop.
  assert (Hw0 : 0 < width < 65536) by lia. assert (Hh0 : 0 < height < 65536) by lia.
  destruct (rect_sizes _ _ Hw0 Hh0) as (Hsz & E4 & Es & E5 & _).
  destruct (strides width bpp Hbpp Hw0) as (Et & Hn & Hp20 & Ea). rewrite Et, bind_lift, Ea. cbn [from_option].
  rewrite bind_lift. set (n := row_bytes width bpp) in *.
  assert (Hov : forall k, 0 < k < 2 ^ 20 -> (SIZE_MAX / k <? height) = false /\ (height <=? SIZE_MAX / k) = true /\
    size_t (k * height) = k * height).
  { intros k Hk. assert (height <= SIZE_MAX / k) by (apply Z.div_le_lower_bound; unfold SIZE_MAX; nia).
    split; [by apply Z.ltb_ge|]. split; [by apply Z.leb_le|]. apply Z.mod_small. nia. }
  destruct (Hov n ltac:(lia)) as (Eh & _ & Enh). destruct (Hov (padded n) ltac:(lia)) as (_ & Eph & Epn).
  rewrite Eh, Enh, Eph, Epn, E4, E5, Es. cbn [negb]. rewrite bind_require, bind_require.
  destruct (Z.ltb_spec (view_len (rect_data rect)) (n * height)) as [Hs|Hfit]; cbn [negb].
  { apply Hrej; [|cbn; auto]. intros image (_ & _ & _ & _ & Hl & _)%raw_image_inv. fold n in Hl. lia. }
  rewrite bind_require.
  match goal with |- context [store_rows _ _ ?s _ _ _] => assert (Estr : row_stride rect = s) end.
  { unfold row_stride. fold width height bpp n. rewrite andb_true_r. destruct (Z.ltb_spec n (padded n)); [done|]. cbn [andb].
    case_match; lia. }
  set (s := if _ && _ then _ else _) in *.
  assert (Hroom : 0 < width /\ 0 <= s /\ s * (height - 1) + n <= blen (view_bytes (rect_data rect))).
  { assert (Ev : view_len (rect_data rect) = blen (view_bytes (rect_data rect)))
      by (destruct Hrect as (_ & d & -> & _); done). rewrite <- Ev.
    split; [lia|]. unfold s. destruct (Z.leb_spec (padded n * height) (view_len (rect_data rect)));
      destruct (n <? padded n); cbn [andb]; split; nia. }
  pose proof (store_rows_fills rect Hrect palette Hpal Hbpp s Estr Hroom 0 (Z.to_nat height) ltac:(lia)) as Hfill.
  fold width height bpp in Hfill. rewrite Z2Nat.id, Z.mul_0_l, (Z.mul_comm height) in Hfill by lia.
  destruct (fill_output rect Hrect palette _ _ b h ltac:(lia) ltac:(lia) Hb (Hfill ltac:(lia))) as (r & b' & h' & E & Hb' & Hr).
  - intros image. rewrite raw_image_inv. fold n. split; [by intros (_ & _ & _ & _ & _ & Hc)|].
    intros Hc. do 4 (split; [done || lia|]). split; [lia|exact Hc].
  - by exists r, b', h'.
Qed.
End decode_rect_raw.

(** C18: Converting a bitmap rectangle, compressed or not, of any of the seven color
    depths, gives the one image the rectangle has -- every pixel through the
    palette or the color masks, an uncompressed rectangle from the bottom row up,
    its rows padded to four bytes where the data is long enough -- or fails if
    it has none; nothing is read or written out of bounds, and the output buffer
    stays well formed whatever the data. *)
Theorem bitmap_decode_rect rect palette b h : rect_typed rect -> (forall p, palette = Some p -> palette_usable p) ->
  buffer_wf b ->
  exists r b' h', rdp_bitmap_decode_rect_bgra32_with_palette rect palette (b, h) = (r, (b', h')) /\ buffer_wf b' /\
    decodes_to rect palette h r b'.
Proof.
  intros Hrect Hpal Hb. destruct (has_flag (rect_flags rect) RDP_BITMAP_FLAG_COMPRESSED) eqn:Ef; [|by apply decode_raw_spec].
  unfold rdp_bitmap_decode_rect_bgra32_with_palette. rewrite Ef. by apply decode_compressed_spec.
Qed.

Lemma bitmap_decode_rect_witness : exists r b' h',
  rdp_bitmap_decode_rect_bgra32_with_palette sample_rect None (rdp_buffer_init, []) = (r, (b', h')) /\ buffer_wf b' /\
    decodes_to sample_rect None [] r b'.
Proof. apply bitmap_decode_rect; [apply sample_rect_typed|done|apply buffer_init_wf]. Defined.

(** The rows of a compressed rectangle are not reversed: the same pixels stored in
    the same order give the image upside down. *)
Lemma bitmap_compressed_upside_down :
  let pixels := [1; 2; 3; 4; 5; 6] in
  let raw := mk_bitmap_rect 0 0 0 1 1 2 24 0 (View pixels) in
  let compressed := mk_bitmap_rect 0 0 0 1 1 2 24
    (Z.lor RDP_BITMAP_FLAG_COMPRESSED RDP_BITMAP_FLAG_NO_COMPRESSION_HEADER) (View (0x82 :: pixels)) in
  (exists b h, rdp_bitmap_decode_rect_bgra32 raw (rdp_buffer_init, []) = (Ok 4, (b, h)) /\
     contents b = [4; 5; 6; 255; 1; 2; 3; 255]) /\
  (exists b h, rdp_bitmap_decode_rect_bgra32 compressed (rdp_buffer_init, []) = (Ok 4, (b, h)) /\
     contents b = [1; 2; 3; 255; 4; 5; 6; 255]).
Proof. split; eexists _, _; vm_compute; split; reflexivity. Qed.
