(* ===== verification/Charset.v ===== *)
(** * Charset: conversion of text

    Models [src/src/common/charset.c]: conversion between UTF-8 and UTF-16LE.
    The conversion itself is the C library's [iconv], the class [Iconv]; the
    model has the loop around it, which gives it a larger block whenever it asks
    for one, and the callers that add or look for a terminator. *)

From S2P Require Import Prelude Buffer.

(** The names passed to [iconv_open], and what [iconv] can answer. *)
Inductive charset : Set := UTF_8 | UTF_16LE.
Inductive iconv_result : Set := ICONV_DONE | ICONV_E2BIG | ICONV_ERROR.

(** [iconv cd input out_left]: its answer, the bytes it stored, the input it
    left, and the descriptor. *)
Class Iconv := {
  iconv_t : Type;
  iconv_open : charset -> charset -> option iconv_t;
  iconv : iconv_t -> list Z -> Z -> iconv_result * list Z * list Z * iconv_t;
}.

(** Its documentation: [transcode cd] is the conversion of an input that a
    descriptor would make with room enough, [None] for an input that is not
    valid.  A call converts all of it, or stops where the output is full, which
    it does only when there is too little room. *)
Class IconvLaws `{Iconv} := {
  transcode : iconv_t -> list Z -> option (list Z);
  iconv_room cd l n o l' cd' st : iconv cd l n = (st, o, l', cd') -> 0 <= n -> blen o <= n;
  iconv_done cd l n o l' cd' : iconv cd l n = (ICONV_DONE, o, l', cd') -> transcode cd l = Some o;
  iconv_full cd l n o l' cd' : iconv cd l n = (ICONV_E2BIG, o, l', cd') ->
    transcode cd l = (fun k => o ++ k) <$> transcode cd' l' /\
    (forall k, transcode cd l = Some k -> n < blen k);
  iconv_error cd l n o l' cd' : iconv cd l n = (ICONV_ERROR, o, l', cd') -> transcode cd l = None;
  transcode_bytes cd l k : transcode cd l = Some k -> bytes k;
}.

Section charset.
Context `{Iconv}.

(** [output] holds the bytes stored so far in a block of [capacity] bytes;
    [iconv] writing past the block is undefined behaviour. *)
Fixpoint convert_loop (fuel : nat) (cd : iconv_t) (input output : list Z) (capacity : Z) : writer (list Z) :=
  match fuel with
  | O => lift Fault
  | S fuel =>
      let '(answer, stored, input, cd) := iconv cd input (capacity - blen output) in
      if capacity - blen output <? blen stored then lift Fault else
      match answer with
      | ICONV_DONE => mret (output ++ stored)
      | ICONV_ERROR => fail LIBRDP_STATUS_PROTOCOL_ERROR
      | ICONV_E2BIG =>
          let next := size_t (capacity * 2) in
          require (negb (next <=? capacity)) LIBRDP_STATUS_NO_MEMORY;;
          alloc;;
          convert_loop fuel cd input (output ++ stored) next
      end
  end.

(** Doubling a capacity of 16 or more wraps around after 60 rounds. *)
Definition convert_fuel : nat := 65.

Definition rdp_charset_convert (to from : charset) (input : view) : writer (list Z) :=
  require (negb (view_null input && (0 <? view_len input))) LIBRDP_STATUS_INVALID_ARGUMENT;;
  let capacity := if 0 <? view_len input then size_t (view_len input * 4 + 16) else 16 in
  require (negb (capacity <? view_len input)) LIBRDP_STATUS_NO_MEMORY;;
  alloc;;
  match iconv_open to from with
  | None => fail LIBRDP_STATUS_UNSUPPORTED
  | Some cd => convert_loop convert_fuel cd (view_bytes input) [] capacity
  end.

Definition rdp_charset_utf8_bytes_to_utf16le_alloc (data : view) (append_null : bool) : writer (list Z) :=
  require (negb (view_null data && (0 <? view_len data))) LIBRDP_STATUS_INVALID_ARGUMENT;;
  converted ← rdp_charset_convert UTF_16LE UTF_8 data;
  if append_null then
    require (negb (SIZE_MAX - 2 <? blen converted)) LIBRDP_STATUS_NO_MEMORY;;
    alloc;;
    mret (converted ++ [0; 0])
  else mret converted.

(** [text] is a C string without its terminator, or NULL. *)
Definition rdp_charset_utf8_to_utf16le_buffer (text : option (list Z)) (append_null : bool) : writer unit :=
  converted ← rdp_charset_utf8_bytes_to_utf16le_alloc (View (default [] text)) append_null;
  rdp_buffer_append (View converted).

(** The search for a terminator: the bytes before the first pair of zeros. *)
Fixpoint before_null (data : list Z) : list Z :=
  match data with
  | a :: b :: data' => if (a =? 0) && (b =? 0) then [] else a :: b :: before_null data'
  | _ => data
  end.

(** The text with its terminator; [*out_len] does not count it. *)
Definition rdp_charset_utf16le_to_utf8_alloc (data : view) (stop_at_null : bool) : writer (list Z) :=
  require (negb ((view_null data && (0 <? view_len data)) || negb (Z.land (view_len data) 1 =? 0)))
    LIBRDP_STATUS_INVALID_ARGUMENT;;
  let input := if stop_at_null then before_null (view_bytes data) else view_bytes data in
  converted ← rdp_charset_convert UTF_8 UTF_16LE (if view_null data then data else View input);
  alloc;;
  mret (converted ++ [0]).
End charset.

(** ** Lemmas *)

Lemma writes_alloc : Writes alloc [] (fun _ => True).
Proof.
  intros b h Hb. unfold alloc, heap_alloc. cbn [snd fst]. destruct h as [|[] h]; eexists _, b, _; (split; [reflexivity|]);
    (split; [done|]); (split; [|done]).
  - left. exists tt. by rewrite app_nil_r.
  - left. exists tt. by rewrite app_nil_r.
  - right. split; [done|]. exists 0%nat. by rewrite app_nil_r.
Qed.

Lemma bind_alloc {A} (k : unit -> writer A) b h :
  (alloc ≫= k) (b, h) = let '(ok, h1) := heap_alloc h in if ok then k tt (b, h1) else (Err LIBRDP_STATUS_NO_MEMORY, (b, h1)).
Proof. unfold mbind, M_bind, alloc. cbn [snd fst]. by destruct (heap_alloc h) as [[] h1]. Qed.

Section convert.
Context `{Iconv, !IconvLaws}.

(** What the conversion of [l] may give, when [iconv] makes [o] of it. *)
Definition converted (o : option (list Z)) (r : res (list Z)) : Prop :=
  match r with
  | Ok k => o = Some k
  | Err st => st = LIBRDP_STATUS_NO_MEMORY \/ (st = LIBRDP_STATUS_PROTOCOL_ERROR /\ o = None)
  | Fault => False
  end.

Lemma convert_loop_spec fuel cd input output capacity b h :
  blen output <= capacity -> 16 <= capacity <= SIZE_MAX -> 2 ^ 64 < capacity * 2 ^ Z.of_nat fuel ->
  exists r h', convert_loop fuel cd input output capacity (b, h) = (r, (b, h')) /\
    converted ((fun k => output ++ k) <$> transcode cd input) r /\
    (forall w, transcode cd input = Some w -> blen (output ++ w) <= 2 ^ 62 -> h = [] -> r = Ok (output ++ w) /\ h' = []).
Proof.
  revert cd input output capacity h. induction fuel as [|fuel IH]; intros cd input output capacity h Ho Hc Hf.
  { exfalso. unfold SIZE_MAX in Hc. cbn in Hf. lia. }
  cbn [convert_loop]. destruct (iconv cd input (capacity - blen output)) as [[[answer stored] input'] cd'] eqn:E.
  pose proof (iconv_room _ _ _ _ _ _ _ E ltac:(lia)) as Hr. destruct (Z.ltb_spec (capacity - blen output) (blen stored)); [lia|].
  destruct answer.
  - apply iconv_done in E. exists (Ok (output ++ stored)), h. split; [done|]. rewrite E. split; [done|].
    intros w [= <-] _ ->. done.
  - apply iconv_full in E as [E Hfull]. cbv zeta. rewrite E.
    destruct (Z.leb_spec (size_t (capacity * 2)) capacity) as [Hw|Hw]; rewrite bind_require; cbn [negb].
    { exists (Err LIBRDP_STATUS_NO_MEMORY), h. split; [done|]. split; [by left|]. intros w Hs Hl _. exfalso.
      rewrite <- E in Hs. specialize (Hfull w Hs). rewrite blen_app in Hl. unfold size_t in Hw.
      rewrite Z.mod_small in Hw by (unfold SIZE_MAX in *; lia). lia. }
    assert (Hs : size_t (capacity * 2) = capacity * 2).
    { unfold size_t, SIZE_MAX in *. destruct (Z_lt_dec (capacity * 2) 0x10000000000000000); [apply Z.mod_small; lia|].
      exfalso. Z.div_mod_to_equations. lia. }
    rewrite Hs, bind_alloc. destruct (heap_alloc h) as [[] h1] eqn:Eh.
    2: { exists (Err LIBRDP_STATUS_NO_MEMORY), h1. split; [done|]. split; [by left|]. intros w _ _ ->. done. }
    destruct (IH cd' input' (output ++ stored) (capacity * 2) h1) as (r & h' & E2 & Hcv & Hok).
    { rewrite blen_app. lia. } { unfold size_t, SIZE_MAX in *. Z.div_mod_to_equations. lia. }
    { rewrite Nat2Z.inj_succ, Z.pow_succ_r in Hf by lia. lia. }
    exists r, h'. split; [done|]. destruct (transcode cd' input') as [w'|]; cbn in *; [|done].
    rewrite <- app_assoc in Hcv. split; [done|]. intros w [= <-] Hl ->. injection Eh as <-. rewrite app_assoc in *. by apply Hok.
  - apply iconv_error in E. exists (Err LIBRDP_STATUS_PROTOCOL_ERROR), h. split; [done|]. rewrite E. split; [by right|done].
Qed.

(** The conversion of [v], of which [iconv] makes [o]. *)
Lemma convert_spec to from v cd b h : iconv_open to from = Some cd -> view_len v = blen (view_bytes v) ->
  blen (view_bytes v) <= 2 ^ 60 ->
  exists r h', rdp_charset_convert to from v (b, h) = (r, (b, h')) /\
    converted (transcode cd (view_bytes v)) r /\
    (forall w, transcode cd (view_bytes v) = Some w -> blen w <= 2 ^ 62 -> h = [] -> r = Ok w /\ h' = []).
Proof.
  intros Ho Hv Hl. pose proof (blen_nonneg (view_bytes v)). unfold rdp_charset_convert. rewrite bind_require.
  assert (view_null v && (0 <? view_len v) = false) as ->.
  { destruct v as [n|l]; cbn in *; [by rewrite Hv|done]. }
  cbn [negb]. set (capacity := if 0 <? view_len v then _ else _). cbv zeta.
  assert (Hc : capacity = view_len v * 4 + 16).
  { unfold capacity. destruct (Z.ltb_spec 0 (view_len v)); [|lia]. unfold size_t. rewrite Z.mod_small; lia. }
  rewrite bind_require. destruct (Z.ltb_spec capacity (view_len v)); [lia|]. cbn [negb]. rewrite bind_alloc, Ho.
  destruct (heap_alloc h) as [[] h1] eqn:Eh.
  2: { exists (Err LIBRDP_STATUS_NO_MEMORY), h1. split; [done|]. split; [by left|]. by intros w _ _ ->. }
  destruct (convert_loop_spec convert_fuel cd (view_bytes v) [] capacity b h1) as (r & h' & E & Hcv & Hok).
  { rewrite blen_nil. lia. } { unfold SIZE_MAX. lia. } { unfold convert_fuel. cbn. lia. }
  exists r, h'. split; [done|]. cbn [app] in *. split; [by destruct (transcode cd _)|].
  intros w Hw Hlw ->. injection Eh as <-. by apply Hok.
Qed.
Lemma convert_writes to from v cd w : iconv_open to from = Some cd -> view_len v = blen (view_bytes v) ->
  blen (view_bytes v) <= 2 ^ 60 -> transcode cd (view_bytes v) = Some w -> blen w <= 2 ^ 62 ->
  Writes (rdp_charset_convert to from v) [] (fun k => k = w).
Proof.
  intros Ho Hv Hl Hw Hlw b h Hb. destruct (convert_spec to from v cd b h Ho Hv Hl) as (r & h' & E & Hc & Hn).
  exists r, b, h'. rewrite app_nil_r. split; [done|]. split; [done|]. rewrite Hw in *. split.
  - destruct r as [k|st|]; cbn in Hc; [|destruct Hc as [->|[_ ?]]; [|done]|done].
    + injection Hc as <-. left. by exists w.
    + right. split; [done|]. exists 0%nat. by rewrite app_nil_r.
  - intros -> _. destruct (Hn w eq_refl Hlw eq_refl) as [-> ->]. done.
Qed.

(** Text written in UTF-16LE. *)
Definition with_null (append_null : bool) (w : list Z) : list Z := if append_null then w ++ [0; 0] else w.
Lemma utf16_writes text null cd w : iconv_open UTF_16LE UTF_8 = Some cd -> transcode cd (default [] text) = Some w ->
  blen (default [] text) <= 2 ^ 60 -> blen w <= 2 ^ 62 ->
  Writes (rdp_charset_utf8_to_utf16le_buffer text null) (with_null null w) (fun _ => True).
Proof.
  intros Ho Ht Hl Hw. unfold rdp_charset_utf8_to_utf16le_buffer.
  apply (writes_bind _ _ [] (with_null null w) (fun k => k = with_null null w)).
  - unfold rdp_charset_utf8_bytes_to_utf16le_alloc. apply writes_require; [done|].
    apply (writes_bind _ _ [] [] (fun k => k = w)); [by eapply convert_writes|]. intros k ->. unfold with_null.
    destruct null; [|by apply writes_ret]. apply writes_require.
    { unfold SIZE_MAX. apply negb_true_iff, Z.ltb_ge. lia. }
    apply (writes_bind _ _ [] [] (fun _ => True)); [apply writes_alloc|]. intros _ _. by apply writes_ret.
  - intros k ->. apply writes_append.
Qed.
End convert.

(** ** Properties *)

(** C30: the conversion loop computes what [iconv] makes of the whole input, however
    small the block it starts with: it always ends, succeeds only with that
    conversion, fails with PROTOCOL_ERROR only when there is none, otherwise
    only with NO_MEMORY, and with memory it succeeds when there is one. *)
Theorem charset_converts `{Iconv, !IconvLaws} to from v cd b h :
  iconv_open to from = Some cd -> view_len v = blen (view_bytes v) -> blen (view_bytes v) <= 2 ^ 60 ->
  exists r h', rdp_charset_convert to from v (b, h) = (r, (b, h')) /\
    converted (transcode cd (view_bytes v)) r /\
    (forall w, transcode cd (view_bytes v) = Some w -> blen w <= 2 ^ 62 -> h = [] -> r = Ok w /\ h' = []).
Proof. intros Ho Hv Hl. by apply convert_spec. Qed.

(** ** Witness *)

(** A converter for the examples: 7-bit text to UTF-16. *)
Definition seven_bit (a : Z) : bool := (0 <=? a) && (a <? 128).
Fixpoint sample_widen (l : list Z) (n : Z) : iconv_result * list Z * list Z :=
  match l with
  | [] => (ICONV_DONE, [], [])
  | a :: l' =>
      if negb (seven_bit a) then (ICONV_ERROR, [], l)
      else if n <? 2 then (ICONV_E2BIG, [], l)
      else let '(r, o, l'') := sample_widen l' (n - 2) in (r, a :: 0 :: o, l'')
  end.
Fixpoint widened (l : list Z) : option (list Z) :=
  match l with
  | [] => Some []
  | a :: l => if seven_bit a then (fun k => a :: 0 :: k) <$> widened l else None
  end.
Definition sample_iconv : Iconv := {|
  iconv_t := unit;
  iconv_open to from := match to, from with UTF_16LE, UTF_8 => Some tt | _, _ => None end;
  iconv cd l n := (sample_widen l n, cd);
|}.

Lemma seven_bit_byte a : seven_bit a = true -> is_byte a.
Proof. unfold seven_bit. intros [? ?]%andb_true_iff. unfold is_byte. lia. Qed.
Lemma sample_widen_spec l n : (0 <= n -> blen (sample_widen l n).1.2 <= n) /\
  match (sample_widen l n).1.1 with
  | ICONV_DONE => widened l = Some (sample_widen l n).1.2
  | ICONV_E2BIG => widened l = (fun k => (sample_widen l n).1.2 ++ k) <$> widened (sample_widen l n).2 /\
      (forall k, widened l = Some k -> n < blen k)
  | ICONV_ERROR => widened l = None
  end.
Proof.
  revert n. induction l as [|a l IH]; intros n; [done|]. cbn [sample_widen widened].
  destruct (seven_bit a) eqn:Ea; cbn [negb fst snd]; [|done]. destruct (Z.ltb_spec n 2).
  - cbn [fst snd]. split; [done|]. cbn [widened]. rewrite Ea. split; [by destruct (widened l)|].
    intros k Hk. destruct (widened l) as [w|]; [|done]. injection Hk as <-. rewrite !blen_cons. pose proof (blen_nonneg w). lia.
  - destruct (IH (n - 2)) as [Hr Hm]. destruct (sample_widen l (n - 2)) as [[r o] l']. cbn [fst snd] in *. split.
    { intros _. rewrite !blen_cons. specialize (Hr ltac:(lia)). lia. }
    destruct r; [by rewrite Hm| |by rewrite Hm]. destruct Hm as [Hm Hk]. split; [rewrite Hm; by destruct (widened l')|].
    intros k E. destruct (widened l) as [w|]; [|done]. injection E as <-. rewrite !blen_cons. specialize (Hk w eq_refl). lia.
Qed.
Lemma widened_bytes l k : widened l = Some k -> bytes k.
Proof.
  revert k. induction l as [|a l IH]; intros k; cbn; [intros [= <-]; by apply Forall_nil_2|].
  destruct (seven_bit a) eqn:Ea; [|done]. destruct (widened l) as [w|]; [|done]. intros [= <-].
  apply Forall_cons_2; [by apply seven_bit_byte|]. apply Forall_cons_2; [done|by apply IH].
Qed.
#[refine] Definition sample_iconv_laws : @IconvLaws sample_iconv := {| transcode _ := widened |}.
Proof.
  all: cbn [iconv sample_iconv].
  - intros cd l n o l' cd' st E. pose proof (sample_widen_spec l n) as [Hr _].
    injection E as E <-. by rewrite E in Hr.
  - intros cd l n o l' cd' E. pose proof (sample_widen_spec l n) as [_ Hm]. injection E as E <-. by rewrite E in Hm.
  - intros cd l n o l' cd' E. pose proof (sample_widen_spec l n) as [_ Hm]. injection E as E <-. by rewrite E in Hm.
  - intros cd l n o l' cd' E. pose proof (sample_widen_spec l n) as [_ Hm]. injection E as E <-. by rewrite E in Hm.
  - intros _. apply widened_bytes.
Defined.
Lemma charset_converts_witness :
  exists r h', rdp_charset_convert (H := sample_iconv) UTF_16LE UTF_8 (View [72; 105]) (rdp_buffer_init, [true; true]) =
      (r, (rdp_buffer_init, h')) /\
    converted (Some [72; 0; 105; 0]) r /\
    (forall w, Some [72; 0; 105; 0] = Some w -> blen w <= 2 ^ 62 -> [true; true] = [] -> r = Ok w /\ h' = []).
Proof.
  apply (@charset_converts sample_iconv sample_iconv_laws UTF_16LE UTF_8 (View [72; 105]) tt rdp_buffer_init [true; true]).
  - reflexivity.
  - reflexivity.
  - vm_compute. discriminate.
Defined.
