(* ===== verification/Security.v ===== *)
(** * Security: Standard Security

    Models [src/src/security/security.c]: the derivation of keys, the RC4 streams
    with their periodic key updates, the plain and the salted signature, and the
    packets they protect.  MD5, SHA-1 and RC4 are OpenSSL's and are the class
    [OpenSSL]; which of its calls fail is read off a list, the [provider], as the
    outcomes of allocations are.  The context with its provider is an instance of
    the interface [StandardSecurity] of Fastpath.v. *)

From S2P Require Import Prelude Stream Buffer Fastpath Codec.

Definition RDP_SEC_EXCHANGE_PKT : Z := 0x0001.
Definition RDP_SEC_ENCRYPT : Z := 0x0008.
Definition RDP_SEC_INFO_PKT : Z := 0x0040.
Definition RDP_SEC_LICENSE_ENCRYPT_SC : Z := 0x0200.
Definition RDP_SEC_SECURE_CHECKSUM : Z := 0x0800.
Definition RDP_SECURITY_LICENSE_KEY_LEN : Z := 16.
Definition RDP_SECURITY_METHOD_40BIT : Z := 0x00000001.
Definition RDP_SECURITY_METHOD_128BIT : Z := 0x00000002.
Definition RDP_SECURITY_METHOD_56BIT : Z := 0x00000008.
Definition RDP_SECURITY_METHOD_FIPS : Z := 0x00000010.
Definition INT_MAX : Z := 0x7fffffff.

(** ** The cryptographic provider *)

(** The functions OpenSSL computes: the digests, and RC4 with its key schedule. *)
Class OpenSSL := {
  md5 : list Z -> list Z;
  sha1 : list Z -> list Z;
  rc4 : Type;
  rc4_schedule : list Z -> rc4;
  rc4_run : rc4 -> list Z -> list Z * rc4;
}.

(** What they are documented to be: digests of 16 and 20 bytes, and a stream
    cipher, which treats a text piece by piece and undoes itself. *)
Class OpenSSLLaws `{OpenSSL} : Prop := {
  md5_size l : blen (md5 l) = 16;
  md5_bytes l : bytes (md5 l);
  sha1_size l : blen (sha1 l) = 20;
  sha1_bytes l : bytes (sha1 l);
  rc4_nil c : rc4_run c [] = ([], c);
  rc4_size c l : blen (rc4_run c l).1 = blen l;
  rc4_bytes c l : bytes l -> bytes (rc4_run c l).1;
  rc4_app c l k : rc4_run c (l ++ k) =
    ((rc4_run c l).1 ++ (rc4_run (rc4_run c l).2 k).1, (rc4_run (rc4_run c l).2 k).2);
  rc4_undo c l : bytes l -> rc4_run c (rc4_run c l).1 = (l, (rc4_run c l).2);
}.

(** The next [false] is a call that fails; an exhausted list means success. *)
Definition provider : Type := list bool.
Definition evp {S} : M (S * provider) bool := fun s =>
  match s.2 with
  | [] => (Ok true, s)
  | ok :: p => (Ok ok, (s.1, p))
  end.
(** [n] calls, given up with [st] at the first that fails. *)
Fixpoint evp_calls {S} (n : nat) (st : librdp_status) : M (S * provider) unit :=
  match n with
  | O => mret tt
  | S n => ok ← evp; require ok st;; evp_calls n st
  end.

(** The same as a condition: [f() == 1 && g() == 1 ...]. *)
Fixpoint evp_all {S} (n : nat) : M (S * provider) bool :=
  match n with
  | O => mret true
  | S n => ok ← evp; if ok : bool then evp_all n else mret false
  end.

(** Run [m] on a part of the state. *)
Definition on_part {S T A} (get : S -> T) (set : T -> S -> S) (m : M (T * provider) A) : M (S * provider) A := fun s =>
  let '(r, (t, p)) := m (get s.1, s.2) in (r, (set t s.1, p)).

(** Run [m] on a local object, dropped whatever happens. *)
Definition with_local {S T A} (t : T) (m : M (T * provider) A) : M (S * provider) A := fun s =>
  let '(r, (_, p)) := m (t, s.2) in (r, (s.1, p)).

Section security.
Context `{OpenSSL}.

Inductive md : Set := EVP_md5 | EVP_sha1.
Definition digest (m : md) : list Z -> list Z := match m with EVP_md5 => md5 | EVP_sha1 => sha1 end.

(** [EVP_DigestInit_ex], one [EVP_DigestUpdate] per part that is not empty (an
    empty part is not passed on), [EVP_DigestFinal_ex]. *)
Definition evp_digest {S} (m : md) (output_len : Z) (parts : list (list Z)) : M (S * provider) (list Z) :=
  evp_calls 1 LIBRDP_STATUS_NO_MEMORY;;
  evp_calls (2 + length (filter (fun part => 0 < blen part) parts)) LIBRDP_STATUS_PROTOCOL_ERROR;;
  let output := digest m (concat parts) in
  require (blen output <=? output_len) LIBRDP_STATUS_PROTOCOL_ERROR;;
  mret output.

Definition rdp_digest_concat {S} (m : md) (output_len : Z) (a b c d : list Z) : M (S * provider) (list Z) :=
  evp_digest m output_len [a; b; c; d].

(** ** RC4 *)

(** [cipher]: NULL, a context without a key, or one with a key. *)
Record rdp_rc4_context := mk_rc4_context {
  rc4_cipher : option (option rc4);
  rc4_initialized : bool;
}.
Definition rc4_cleared : rdp_rc4_context := mk_rc4_context None false.

Definition put {S} (c : S) : M (S * provider) unit := modify (fun s => (c, s.2)).

Definition rdp_rc4_clear : M (rdp_rc4_context * provider) unit := put rc4_cleared.

Definition rdp_rc4_provider_ensure {S} : M (S * provider) unit :=
  evp_calls 1 LIBRDP_STATUS_PROTOCOL_ERROR;;
  evp_calls 1 LIBRDP_STATUS_UNSUPPORTED.

Definition rdp_rc4_init (key : list Z) : M (rdp_rc4_context * provider) unit :=
  require (negb ((blen key =? 0) || (INT_MAX <? blen key))) LIBRDP_STATUS_INVALID_ARGUMENT;;
  rdp_rc4_provider_ensure;;
  context ← gets fst;
  match rc4_cipher context with
  | None =>
      evp_calls 1 LIBRDP_STATUS_NO_MEMORY;;
      put (mk_rc4_context (Some None) (rc4_initialized context))
  | Some _ =>
      put (mk_rc4_context (Some None) (rc4_initialized context));;
      evp_calls 1 LIBRDP_STATUS_PROTOCOL_ERROR
  end;;
  evp_calls 1 LIBRDP_STATUS_UNSUPPORTED;;
  set_key ← evp_all 3;
  (if negb set_key then rdp_rc4_clear;; fail LIBRDP_STATUS_PROTOCOL_ERROR else mret tt);;
  put (mk_rc4_context (Some (Some (rc4_schedule key))) true).

(** [EVP_EncryptUpdate], which fails on a context without a key. *)
Definition evp_crypt (data : list Z) : M (rdp_rc4_context * provider) (list Z) :=
  evp_calls 1 LIBRDP_STATUS_PROTOCOL_ERROR;;
  context ← gets fst;
  match rc4_cipher context with
  | Some (Some c) =>
      let '(output, c) := rc4_run c data in
      put (mk_rc4_context (Some (Some c)) (rc4_initialized context));;
      mret output
  | _ => fail LIBRDP_STATUS_PROTOCOL_ERROR
  end.

(** The loop over chunks of at most [INT_MAX] bytes. *)
Fixpoint crypt_chunks (fuel : nat) (data : list Z) : M (rdp_rc4_context * provider) (list Z) :=
  if blen data =? 0 then mret [] else
  match fuel with
  | O => lift Fault
  | S fuel =>
      let chunk := if INT_MAX <? blen data then INT_MAX else blen data in
      output ← evp_crypt (ztake chunk data);
      require (blen output =? chunk) LIBRDP_STATUS_PROTOCOL_ERROR;;
      rest ← crypt_chunks fuel (zdrop chunk data);
      mret (output ++ rest)
  end.

(** In place in C: the result is what [data] holds when the call succeeds. *)
Definition rdp_rc4_crypt (data : list Z) : M (rdp_rc4_context * provider) (list Z) :=
  context ← gets fst;
  require (negb (match rc4_cipher context with None => true | _ => false end || negb (rc4_initialized context)))
    LIBRDP_STATUS_INVALID_ARGUMENT;;
  crypt_chunks (length data) data.

(** ** Keys *)

Definition rdp_pad1 : list Z := replicate 40 0x36.
Definition rdp_pad2 : list Z := replicate 48 0x5c.
Definition salt : list Z := [0xd1; 0x26; 0x9e].

(** [secret] has 48 bytes in every call. *)
Definition rdp_salted_hash {S} (secret label random1 random2 : list Z) : M (S * provider) (list Z) :=
  require (blen secret =? 48) LIBRDP_STATUS_INVALID_ARGUMENT;;
  sha1 ← rdp_digest_concat EVP_sha1 20 label secret random1 random2;
  rdp_digest_concat EVP_md5 16 secret sha1 [] [].

Definition rdp_secret_triplet {S} (secret first second third random1 random2 : list Z) : M (S * provider) (list Z) :=
  a ← rdp_salted_hash secret first random1 random2;
  b ← rdp_salted_hash secret second random1 random2;
  c ← rdp_salted_hash secret third random1 random2;
  mret (a ++ b ++ c).

Definition rdp_md5_key {S} (seed client_random server_random : list Z) : M (S * provider) (list Z) :=
  rdp_digest_concat EVP_md5 16 (ztake 16 seed) client_random server_random [].

(** The first bytes of a key replaced: [memcpy(key, bytes, n)]. *)
Definition overwrite (bytes key : list Z) : list Z := bytes ++ zdrop (blen bytes) key.

(** How a method weakens a key. *)
Definition weaken (method : Z) (key : list Z) : list Z :=
  if method =? RDP_SECURITY_METHOD_40BIT then overwrite salt key
  else if method =? RDP_SECURITY_METHOD_56BIT then overwrite [0xd1] key
  else key.

(** The three keys and [*key_len]. *)
Definition rdp_security_apply_method (sign_key encrypt_key decrypt_key : list Z) (method : Z) :
    res (list Z * list Z * list Z * Z) :=
  if method =? RDP_SECURITY_METHOD_128BIT then Ok (sign_key, encrypt_key, decrypt_key, 16)
  else if method =? RDP_SECURITY_METHOD_56BIT then
    Ok (overwrite [0xd1] sign_key, overwrite [0xd1] encrypt_key, overwrite [0xd1] decrypt_key, 8)
  else if method =? RDP_SECURITY_METHOD_40BIT then
    Ok (overwrite salt sign_key, overwrite salt encrypt_key, overwrite salt decrypt_key, 8)
  else Err LIBRDP_STATUS_UNSUPPORTED.

Definition valid_key_len (key_len : Z) : bool := (key_len =? 8) || (key_len =? 16).

(** The state is [key], which the failing calls leave half updated. *)
Definition rdp_security_key_update (update_key : list Z) (key_len method : Z) : M (list Z * provider) unit :=
  require (valid_key_len key_len) LIBRDP_STATUS_INVALID_ARGUMENT;;
  key ← gets fst;
  sha1 ← rdp_digest_concat EVP_sha1 20 (ztake key_len update_key) rdp_pad1 (ztake key_len key) [];
  md5 ← rdp_digest_concat EVP_md5 16 (ztake key_len update_key) rdp_pad2 sha1 [];
  put (overwrite md5 key);;
  key ← gets fst;
  head ← with_local rc4_cleared (
    rdp_rc4_init (ztake key_len key);;
    rdp_rc4_crypt (ztake key_len key));
  put (weaken method (overwrite head key)).

(** ** Contexts *)

(** One direction of a context: the fields [encrypt_*] or [decrypt_*]. *)
Record half := mk_half {
  h_key : list Z;
  h_update_key : list Z;
  h_count : Z;
  h_rc4 : rdp_rc4_context;
}.
Definition set_key (key : list Z) (h : half) : half := mk_half key (h_update_key h) (h_count h) (h_rc4 h).
Definition set_count (n : Z) (h : half) : half := mk_half (h_key h) (h_update_key h) n (h_rc4 h).
Definition set_rc4 (c : rdp_rc4_context) (h : half) : half := mk_half (h_key h) (h_update_key h) (h_count h) c.

Record rdp_standard_security_context := mk_security_context {
  sc_sign_key : list Z;
  sc_key_len : Z;
  sc_method : Z;
  sc_encrypt : half;
  sc_decrypt : half;
}.
Definition set_encrypt (h : half) (c : rdp_standard_security_context) : rdp_standard_security_context :=
  mk_security_context (sc_sign_key c) (sc_key_len c) (sc_method c) h (sc_decrypt c).
Definition set_decrypt (h : half) (c : rdp_standard_security_context) : rdp_standard_security_context :=
  mk_security_context (sc_sign_key c) (sc_key_len c) (sc_method c) (sc_encrypt c) h.

Definition zeros (n : nat) : list Z := replicate n 0.
Definition cleared_half : half := mk_half (zeros 16) (zeros 16) 0 rc4_cleared.
Definition rdp_security_standard_clear : rdp_standard_security_context :=
  mk_security_context (zeros 16) 0 0 cleared_half cleared_half.

(** The body of the initialisation: [memset], the derivation of the keys, the two
    RC4 contexts.  The randoms have 32 bytes. *)
Definition init_keys (method : Z) (client_random server_random : list Z) (server_side : bool) :
    M (rdp_standard_security_context * provider) unit :=
  let pre_master := ztake 24 client_random ++ ztake 24 server_random in
  master ← rdp_secret_triplet pre_master [0x41] [0x42; 0x42] [0x43; 0x43; 0x43] client_random server_random;
  session_blob ← rdp_secret_triplet master [0x58] [0x59; 0x59] [0x5a; 0x5a; 0x5a] client_random server_random;
  let sign_key := ztake 16 session_blob in
  server_encrypt_key ← rdp_md5_key (zdrop 16 session_blob) client_random server_random;
  client_encrypt_key ← rdp_md5_key (zdrop 32 session_blob) client_random server_random;
  let '(encrypt_key, decrypt_key) :=
    if server_side then (server_encrypt_key, client_encrypt_key) else (client_encrypt_key, server_encrypt_key) in
  '(sign_key, encrypt_key, decrypt_key, key_len) ← lift (rdp_security_apply_method sign_key encrypt_key decrypt_key method);
  put (mk_security_context sign_key key_len method
         (mk_half encrypt_key encrypt_key 0 rc4_cleared) (mk_half decrypt_key decrypt_key 0 rc4_cleared));;
  on_part (fun c => h_rc4 (sc_encrypt c)) (fun r c => set_encrypt (set_rc4 r (sc_encrypt c)) c)
    (rdp_rc4_init (ztake key_len encrypt_key));;
  on_part (fun c => h_rc4 (sc_decrypt c)) (fun r c => set_decrypt (set_rc4 r (sc_decrypt c)) c)
    (rdp_rc4_init (ztake key_len decrypt_key)).

Definition clear_on_error (m : M (rdp_standard_security_context * provider) unit) :
    M (rdp_standard_security_context * provider) unit := fun s =>
  match m s with
  | (Err st, s) => (Err st, (rdp_security_standard_clear, s.2))
  | r => r
  end.

Definition rdp_security_standard_init_direction (method : Z) (client_random server_random : list Z) (server_side : bool) :
    M (rdp_standard_security_context * provider) unit :=
  require (negb ((method =? 0) || (method =? RDP_SECURITY_METHOD_FIPS))) LIBRDP_STATUS_UNSUPPORTED;;
  put rdp_security_standard_clear;;
  clear_on_error (init_keys method client_random server_random server_side).
Definition rdp_security_standard_client_init (method : Z) (client_random server_random : list Z) :=
  rdp_security_standard_init_direction method client_random server_random false.
Definition rdp_security_standard_server_init (method : Z) (client_random server_random : list Z) :=
  rdp_security_standard_init_direction method client_random server_random true.

(** ** Encryption *)

(** The code of [rdp_security_encrypt_payload] and [rdp_security_decrypt_payload],
    which differ in the fields they use: the key is updated after 4096 packets. *)
Definition crypt_half (key_len method : Z) (data : list Z) : M (half * provider) (list Z) :=
  h ← gets fst;
  (if 4096 <=? h_count h then
     on_part h_key set_key (rdp_security_key_update (h_update_key h) key_len method);;
     h ← gets fst;
     on_part h_rc4 set_rc4 (rdp_rc4_init (ztake key_len (h_key h)));;
     modify (fun s => (set_count 0 s.1, s.2))
   else mret tt);;
  output ← on_part h_rc4 set_rc4 (rdp_rc4_crypt data);
  modify (fun s => (set_count (u32 (h_count s.1 + 1)) s.1, s.2));;
  mret output.

Definition rdp_security_encrypt_payload (data : list Z) : M (rdp_standard_security_context * provider) (list Z) :=
  c ← gets fst;
  require (valid_key_len (sc_key_len c)) LIBRDP_STATUS_INVALID_ARGUMENT;;
  on_part sc_encrypt set_encrypt (crypt_half (sc_key_len c) (sc_method c) data).
Definition rdp_security_decrypt_payload (data : list Z) : M (rdp_standard_security_context * provider) (list Z) :=
  c ← gets fst;
  require (valid_key_len (sc_key_len c)) LIBRDP_STATUS_INVALID_ARGUMENT;;
  on_part sc_decrypt set_decrypt (crypt_half (sc_key_len c) (sc_method c) data).

(** ** Signatures *)

(** [count] is the use count of the salted signature, none for the plain one. *)
Definition rdp_security_mac_signature (data : list Z) : M (rdp_standard_security_context * provider) (list Z) :=
  c ← gets fst;
  require (negb ((UINT32_MAX <? blen data) || negb (valid_key_len (sc_key_len c)))) LIBRDP_STATUS_INVALID_ARGUMENT;;
  let key := ztake (sc_key_len c) (sc_sign_key c) in
  sha1 ← rdp_digest_concat EVP_sha1 20 key rdp_pad1 (le32 (u32 (blen data))) data;
  md5 ← rdp_digest_concat EVP_md5 16 key rdp_pad2 sha1 [];
  mret (ztake 8 md5).

(** One digest context serves both digests. *)
Definition rdp_security_salted_mac_signature (data : list Z) (use_count : Z) :
    M (rdp_standard_security_context * provider) (list Z) :=
  c ← gets fst;
  require (negb ((UINT32_MAX <? blen data) || negb (valid_key_len (sc_key_len c)))) LIBRDP_STATUS_INVALID_ARGUMENT;;
  let key := ztake (sc_key_len c) (sc_sign_key c) in
  evp_calls 1 LIBRDP_STATUS_NO_MEMORY;;
  evp_calls (6 + (if 0 <? blen data then 1 else 0)) LIBRDP_STATUS_PROTOCOL_ERROR;;
  let sha1 := digest EVP_sha1 (key ++ rdp_pad1 ++ le32 (u32 (blen data)) ++ data ++ le32 use_count) in
  require (blen sha1 =? 20) LIBRDP_STATUS_PROTOCOL_ERROR;;
  evp_calls 5 LIBRDP_STATUS_PROTOCOL_ERROR;;
  let md5 := digest EVP_md5 (key ++ rdp_pad2 ++ sha1) in
  require (blen md5 =? 16) LIBRDP_STATUS_PROTOCOL_ERROR;;
  mret (ztake 8 md5).

(** ** Packets *)

(** The writer's buffer and heap, with the context and its provider. *)
Abbreviation sec := (M (ustate (ctx := rdp_standard_security_context * provider))).
Definition on_context {C A} (m : M C A) : M (ustate (ctx := C)) A := on_snd m.

Definition rdp_security_write_header (flags : Z) : writer unit :=
  rdp_buffer_append_u16_le flags;;
  rdp_buffer_append_u16_le 0.

Definition rdp_security_write_exchange_pdu (encrypted_client_random : view) : writer unit :=
  require (negb ((view_null encrypted_client_random && (0 <? view_len encrypted_client_random)) ||
                 (0xffff - 8 <? view_len encrypted_client_random))) LIBRDP_STATUS_INVALID_ARGUMENT;;
  rdp_security_write_header (Z.lor RDP_SEC_EXCHANGE_PKT RDP_SEC_LICENSE_ENCRYPT_SC);;
  rdp_buffer_append_u32_le (u32 (view_len encrypted_client_random + 8));;
  rdp_buffer_append encrypted_client_random;;
  rdp_buffer_append (View (zeros 8)).

(** Encrypt [len] bytes of the block at [offset] in place. *)
Definition in_place {C} (offset len : Z) (crypt : list Z -> M C (list Z)) : M (ustate (ctx := C)) unit :=
  b ← on_buffer get_buffer;
  text ← lift (slice (block b) offset len);
  text ← on_context (crypt text);
  on_buffer (store_bytes offset text).

Definition rdp_security_write_encrypted_pdu (flags : Z) (payload : view) : sec unit :=
  require (negb (view_null payload && (0 <? view_len payload))) LIBRDP_STATUS_INVALID_ARGUMENT;;
  c ← gets (fun s => s.2.1);
  signature ← on_context (
    if negb (Z.land flags RDP_SEC_SECURE_CHECKSUM =? 0)
    then rdp_security_salted_mac_signature (view_bytes payload) (h_count (sc_encrypt c))
    else rdp_security_mac_signature (view_bytes payload));
  on_buffer (rdp_security_write_header (u16 (Z.lor flags RDP_SEC_ENCRYPT)));;
  on_buffer (rdp_buffer_append (View signature));;
  encrypted_offset ← on_buffer (gets (fun s => b_length s.1));
  on_buffer (rdp_buffer_append payload);;
  in_place encrypted_offset (view_len payload) rdp_security_encrypt_payload.

(** [OPENSSL_cleanse(decrypted, body_len); payload->length = output_offset; return st;] *)
Definition abandon {C A} (output_offset body_len : Z) (st : librdp_status) : M (ustate (ctx := C)) A :=
  on_buffer (
    store_bytes output_offset (zeros (Z.to_nat body_len));;
    b ← get_buffer;
    put_buffer (set_length output_offset b));;
  fail st.

(** The result is [*flags].  [context] may be NULL: [secured] is false then. *)
Definition rdp_security_unwrap_pdu (secured : bool) (data : view) : sec Z :=
  require (negb (view_null data)) LIBRDP_STATUS_INVALID_ARGUMENT;;
  '(parsed_flags, signature, body) ← lift (with_stream data (
    parsed_flags ← coerce LIBRDP_STATUS_PROTOCOL_ERROR rdp_stream_read_u16_le;
    flags_hi ← coerce LIBRDP_STATUS_PROTOCOL_ERROR rdp_stream_read_u16_le;
    require (flags_hi =? 0) LIBRDP_STATUS_PROTOCOL_ERROR;;
    signature ← (if has_flag parsed_flags RDP_SEC_ENCRYPT then
      require secured LIBRDP_STATUS_INVALID_ARGUMENT;;
      remaining ← rdp_stream_remaining;
      require (8 <=? remaining) LIBRDP_STATUS_PROTOCOL_ERROR;;
      coerce LIBRDP_STATUS_PROTOCOL_ERROR (rdp_stream_read_bytes 8)
    else mret []);
    body_len ← rdp_stream_remaining;
    body ← coerce LIBRDP_STATUS_PROTOCOL_ERROR (rdp_stream_read_bytes body_len);
    mret (parsed_flags, signature, body)));
  output_offset ← on_buffer (gets (fun s => b_length s.1));
  on_buffer (rdp_buffer_append (View body));;
  if has_flag parsed_flags RDP_SEC_ENCRYPT then
    catch (in_place output_offset (blen body) rdp_security_decrypt_payload) (abandon output_offset (blen body));;
    b ← on_buffer get_buffer;
    decrypted ← lift (slice (block b) output_offset (blen body));
    c ← gets (fun s => s.2.1);
    expected ← catch (on_context (
        if Z.land parsed_flags RDP_SEC_SECURE_CHECKSUM =? 0 then rdp_security_mac_signature decrypted
        else rdp_security_salted_mac_signature decrypted
               (if h_count (sc_decrypt c) =? 0 then 0 else u32 (h_count (sc_decrypt c) - 1)))) (abandon output_offset (blen body));
    if bool_decide (signature = expected) then mret parsed_flags
    else abandon output_offset (blen body) LIBRDP_STATUS_PROTOCOL_ERROR
  else mret parsed_flags.

(** ** Licensing *)

(** The key of the MAC and the key of the encryption. *)
Definition rdp_security_license_keys {S} (premaster_secret client_random server_random : list Z) :
    M (S * provider) (list Z * list Z) :=
  master ← rdp_secret_triplet premaster_secret [0x41] [0x42; 0x42] [0x43; 0x43; 0x43] client_random server_random;
  session_blob ← rdp_secret_triplet master [0x41] [0x42; 0x42] [0x43; 0x43; 0x43] server_random client_random;
  encryption_key ← rdp_digest_concat EVP_md5 16 (ztake 16 (zdrop 16 session_blob)) client_random server_random [];
  mret (ztake 16 session_blob, encryption_key).

Definition rdp_security_license_mac {S} (mac_salt_key : list Z) (data : view) : M (S * provider) (list Z) :=
  require (negb ((view_null data && (0 <? view_len data)) || (UINT32_MAX <? view_len data))) LIBRDP_STATUS_INVALID_ARGUMENT;;
  evp_calls 1 LIBRDP_STATUS_NO_MEMORY;;
  evp_calls (5 + (if 0 <? view_len data then 1 else 0)) LIBRDP_STATUS_PROTOCOL_ERROR;;
  let sha1 := digest EVP_sha1 (mac_salt_key ++ rdp_pad1 ++ le32 (u32 (view_len data)) ++ view_bytes data) in
  require (blen sha1 =? 20) LIBRDP_STATUS_PROTOCOL_ERROR;;
  evp_calls 5 LIBRDP_STATUS_PROTOCOL_ERROR;;
  let md5 := digest EVP_md5 (mac_salt_key ++ rdp_pad2 ++ sha1) in
  require (blen md5 =? RDP_SECURITY_LICENSE_KEY_LEN) LIBRDP_STATUS_PROTOCOL_ERROR;;
  mret md5.

(** The stream of a key of its own. *)
Definition license_stream {S} (encryption_key data : list Z) : M (S * provider) (list Z) :=
  with_local rc4_cleared (rdp_rc4_init encryption_key;; rdp_rc4_crypt data).
Definition rdp_security_license_crypt {S} (encryption_key : list Z) (input : view) : M (ustate (ctx := S * provider)) unit :=
  require (negb ((view_null input && (0 <? view_len input)) || (UINT16_MAX <? view_len input))) LIBRDP_STATUS_INVALID_ARGUMENT;;
  start ← on_buffer (gets (fun s => b_length s.1));
  catch (on_buffer (rdp_buffer_append input);; in_place start (view_len input) (license_stream encryption_key))
    (fun st => b ← on_buffer get_buffer; abandon start (b_length b - start) st).
End security.

(** ** What a call computes when the provider works *)

(** [m] from the state [s] gives [a] and the state [t], or the provider made it
    fail; a provider without failures stays so. *)
Definition Computes {S A} (m : M (S * provider) A) (s : S) (a : A) (t : S) : Prop :=
  forall p, exists r s' p', m (s, p) = (r, (s', p')) /\
    ((r = Ok a /\ s' = t) \/ (exists st, r = Err st)) /\ (p = [] -> r = Ok a /\ p' = []).

Section computes.
Context {S : Type}.
Implicit Types (s t u : S).

Lemma computes_ret {A} s (a : A) : Computes (mret a) s a s.
Proof. intros p. exists (Ok a), s, p. naive_solver. Qed.
Lemma computes_bind {A B} (m : M (S * provider) A) (k : A -> M (S * provider) B) s a t b u :
  Computes m s a t -> Computes (k a) t b u -> Computes (m ≫= k) s b u.
Proof.
  intros Hm Hk p. destruct (Hm p) as (r & s' & p' & E & Hr & Hn). destruct Hr as [[-> ->]|[st ->]].
  - rewrite (bind_ok _ _ _ _ _ E). destruct (Hk p') as (r2 & s2 & p2 & E2 & Hr2 & Hn2). exists r2, s2, p2.
    split; [done|]. split; [done|]. intros ->. destruct (Hn eq_refl) as [_ ->]. by apply Hn2.
  - rewrite (bind_err _ _ _ _ _ E). exists (Err st), s', p'. split; [done|]. split; [right; by exists st|].
    intros ->. by destruct (Hn eq_refl).
Qed.
Lemma computes_require {A} (k : unit -> M (S * provider) A) c st s a t :
  c = true -> Computes (k tt) s a t -> Computes (require c st ≫= k) s a t.
Proof. intros -> Hk. exact Hk. Qed.
Lemma computes_gets {A} (k : S -> M (S * provider) A) s a t :
  Computes (k s) s a t -> Computes (gets fst ≫= k) s a t.
Proof. intros Hk p. rewrite bind_gets. apply Hk. Qed.
Lemma computes_modify f s t : (forall p, f (s, p) = (t, p)) -> Computes (modify f) s tt t.
Proof. intros Hf p. exists (Ok tt), t, p. unfold modify. rewrite Hf. naive_solver. Qed.
Lemma computes_put s t : Computes (put t) s tt t.
Proof. by apply computes_modify. Qed.
Lemma computes_lift {A B} (r : res A) (k : A -> M (S * provider) B) v s a t :
  r = Ok v -> Computes (k v) s a t -> Computes (lift r ≫= k) s a t.
Proof. intros ->. done. Qed.
(** The next call of the provider: [k] goes on, or fails. *)
Lemma computes_evp {A} (k : bool -> M (S * provider) A) s a t :
  Computes (k true) s a t -> (forall p, exists st s' p', k false (s, p) = (Err st, (s', p'))) ->
  Computes (evp ≫= k) s a t.
Proof.
  intros Hk Hf [|[] p].
  - destruct (Hk []) as (r & s' & p' & E). exists r, s', p'. by rewrite (bind_ok evp k _ true (s, [])).
  - destruct (Hk p) as (r & s' & p' & E & Hr & _). exists r, s', p'. by rewrite (bind_ok evp k _ true (s, p)).
  - destruct (Hf p) as (st & s' & p' & E). exists (Err st), s', p'. rewrite (bind_ok evp k _ false (s, p)) by done.
    split; [done|]. split; [right; by exists st|done].
Qed.
Lemma computes_calls n st s : Computes (evp_calls n st) s tt s.
Proof.
  induction n as [|n IH]; [apply computes_ret|]. apply computes_evp; [exact IH|]. intros p. by exists st, s, p.
Qed.
(** A condition over several calls, and a branch that fails without them. *)
Lemma computes_all {A} n (k : bool -> M (S * provider) A) s a t :
  Computes (k true) s a t -> (forall p, exists st s' p', k false (s, p) = (Err st, (s', p'))) ->
  Computes (evp_all n ≫= k) s a t.
Proof.
  intros Hk Hf. induction n as [|n IH]; [exact Hk|].
  enough (Computes (evp ≫= fun ok => (if ok : bool then evp_all n else mret false) ≫= k) s a t) as Hw.
  { intros p. destruct (Hw p) as (r & s' & p' & E & H'). exists r, s', p'. split; [|done]. rewrite <- E.
    by destruct p as [|[]]. }
  apply computes_evp; [exact IH|exact Hf].
Qed.
Lemma computes_to {A} (m : M (S * provider) A) s a t u : Computes m s a t -> t = u -> Computes m s a u.
Proof. by intros Hm <-. Qed.
(** The same call on a part of the state. *)
Lemma computes_on_part {T A} (get : S -> T) (set : T -> S -> S) m s (a : A) v :
  Computes m (get s) a v -> Computes (on_part get set m) s a (set v s).
Proof.
  intros Hm p. destruct (Hm p) as (r & s' & p' & E & Hr & Hn). exists r, (set s' s), p'. unfold on_part. cbn [fst snd].
  rewrite E. split; [done|]. split; [|done]. destruct Hr as [[-> ->]|Hr]; [by left|by right].
Qed.
Lemma computes_with_local {T A} (v w : T) (m : M (T * provider) A) s a :
  Computes m v a w -> Computes (with_local v m) s a s.
Proof.
  intros Hm p. destruct (Hm p) as (r & s' & p' & E & Hr & Hn). exists r, s, p'. unfold with_local. cbn [snd].
  rewrite E. split; [done|]. split; [|done]. destruct Hr as [[-> ->]|Hr]; [by left|by right].
Qed.
Lemma computes_no_fault {A} (m : M (S * provider) A) s a t p : Computes m s a t -> (m (s, p)).1 <> Fault.
Proof. intros Hm. destruct (Hm p) as (r & s' & p' & E & [[-> _]|[st ->]] & _); by rewrite E. Qed.
Lemma computes_Ok_inv {A} (m : M (S * provider) A) s a t p a' t' p' :
  Computes m s a t -> m (s, p) = (Ok a', (t', p')) -> a' = a /\ t' = t.
Proof. intros Hm E'. destruct (Hm p) as (r & s' & q & E & [[-> ->]|[st ->]] & _); rewrite E in E'; by simplify_eq. Qed.
Lemma computes_run {A} (m : M (S * provider) A) s a t : Computes m s a t -> m (s, []) = (Ok a, (t, [])).
Proof. intros Hm. destruct (Hm []) as (r & s' & q & E & Hr & Hn). destruct (Hn eq_refl) as [-> ->].
  destruct Hr as [[_ ->]|[st ?]]; [done|done]. Qed.
End computes.

(** ** The values the calls compute *)

Section values.
Context `{OpenSSL, !OpenSSLLaws}.

Definition salted_hash (secret label random1 random2 : list Z) : list Z :=
  md5 (secret ++ sha1 (label ++ secret ++ random1 ++ random2)).
Definition secret_triplet (secret first second third random1 random2 : list Z) : list Z :=
  salted_hash secret first random1 random2 ++ salted_hash secret second random1 random2 ++
  salted_hash secret third random1 random2.

(** A context with a key, and what it makes of [data]. *)
Definition keyed (c : rc4) : rdp_rc4_context := mk_rc4_context (Some (Some c)) true.

(** The key after an update, a MAC. *)
Definition next_key (update_key : list Z) (key_len method : Z) (key : list Z) : list Z :=
  let u := ztake key_len update_key in
  let key' := overwrite (md5 (u ++ rdp_pad2 ++ sha1 (u ++ rdp_pad1 ++ ztake key_len key))) key in
  weaken method (overwrite (rc4_run (rc4_schedule (ztake key_len key')) (ztake key_len key')).1 key').
Definition mac (sign_key data suffix : list Z) : list Z :=
  ztake 8 (md5 (sign_key ++ rdp_pad2 ++ sha1 (sign_key ++ rdp_pad1 ++ le32 (u32 (blen data)) ++ data ++ suffix))).

Lemma blen_digest m l : blen (digest m l) = match m with EVP_md5 => 16 | EVP_sha1 => 20 end.
Proof. destruct m; [apply md5_size|apply sha1_size]. Qed.
Lemma computes_digest {S} m output_len a b c d (s : S) :
  (match m with EVP_md5 => 16 | EVP_sha1 => 20 end <= output_len) ->
  Computes (rdp_digest_concat m output_len a b c d) s (digest m (a ++ b ++ c ++ d)) s.
Proof.
  intros Hl. unfold rdp_digest_concat, evp_digest.
  eapply computes_bind; [apply computes_calls|]. eapply computes_bind; [apply computes_calls|].
  cbv zeta. cbn [concat]. rewrite app_nil_r.
  apply computes_require; [|apply computes_ret]. rewrite blen_digest. by apply Z.leb_le.
Qed.
Lemma computes_salted_hash {S} secret label random1 random2 (s : S) : blen secret = 48 ->
  Computes (rdp_salted_hash secret label random1 random2) s (salted_hash secret label random1 random2) s.
Proof.
  intros Hs. apply computes_require; [by rewrite Hs|].
  eapply computes_bind; [by apply computes_digest|]. unfold salted_hash.
  pose proof (computes_digest EVP_md5 16 secret (sha1 (label ++ secret ++ random1 ++ random2)) [] [] s) as Hd.
  rewrite app_nil_r in Hd. by apply Hd.
Qed.
Lemma computes_triplet {S} secret first second third random1 random2 (s : S) : blen secret = 48 ->
  Computes (rdp_secret_triplet secret first second third random1 random2) s
    (secret_triplet secret first second third random1 random2) s.
Proof.
  intros Hs. unfold rdp_secret_triplet.
  do 3 (eapply computes_bind; [by apply computes_salted_hash|]). apply computes_ret.
Qed.
Lemma computes_rc4_init key s : 0 < blen key <= INT_MAX ->
  Computes (rdp_rc4_init key) s tt (keyed (rc4_schedule key)).
Proof.
  intros Hk. apply computes_require; [guard_lia|]. eapply (computes_bind _ _ _ tt s).
  { eapply computes_bind; apply computes_calls. }
  apply computes_gets. cbn [fst].
  assert (Hput : forall u, Computes (S := rdp_rc4_context) (put u) s tt u) by (intros; apply computes_put).
  eapply (computes_bind _ _ _ tt (mk_rc4_context (Some None) (rc4_initialized s))).
  { destruct (rc4_cipher s); (eapply computes_bind; [|]); try apply computes_calls; apply computes_put. }
  eapply computes_bind; [apply computes_calls|]. apply computes_all.
  - apply computes_put.
  - intros p. by exists LIBRDP_STATUS_PROTOCOL_ERROR, rc4_cleared, p.
Qed.
Lemma computes_evp_crypt data c i :
  Computes (evp_crypt data) (mk_rc4_context (Some (Some c)) i) (rc4_run c data).1
    (mk_rc4_context (Some (Some (rc4_run c data).2)) i).
Proof.
  unfold evp_crypt. eapply computes_bind; [apply computes_calls|]. apply computes_gets.
  cbn [rc4_cipher rc4_initialized]. destruct (rc4_run c data) as [o c'].
  eapply computes_bind; [apply computes_put|apply computes_ret].
Qed.
Lemma computes_crypt_chunks n data c i : blen data <= Z.of_nat n ->
  Computes (crypt_chunks n data) (mk_rc4_context (Some (Some c)) i) (rc4_run c data).1
    (mk_rc4_context (Some (Some (rc4_run c data).2)) i).
Proof.
  revert data c. induction n as [|n IH]; intros data c Hn; cbn [crypt_chunks].
  - rewrite (blen_0_nil data) by zlen. rewrite rc4_nil. apply computes_ret.
  - destruct (Z.eqb_spec (blen data) 0) as [E|E].
    { rewrite (blen_0_nil data E), rc4_nil. apply computes_ret. }
    set (chunk := if INT_MAX <? blen data then INT_MAX else blen data).
    assert (Hc : 1 <= chunk <= blen data).
    { unfold chunk, INT_MAX in *. destruct (Z.ltb_spec 0x7fffffff (blen data)); zlen. }
    cbv zeta. eapply computes_bind; [apply computes_evp_crypt|].
    pose proof (rc4_app c (ztake chunk data) (zdrop chunk data)) as Ha. rewrite ztake_zdrop in Ha.
    pose proof (rc4_size c (ztake chunk data)) as Hs.
    destruct (rc4_run c (ztake chunk data)) as [o c'] eqn:Eo. cbn [fst snd] in *.
    rewrite blen_ztake in Hs by lia.
    apply computes_require; [by rewrite Hs, Z.eqb_refl|].
    eapply computes_bind; [apply IH; rewrite blen_zdrop by lia; lia|].
    rewrite Ha. apply computes_ret.
Qed.
Lemma computes_rc4_crypt data c :
  Computes (rdp_rc4_crypt data) (keyed c) (rc4_run c data).1 (keyed (rc4_run c data).2).
Proof.
  unfold rdp_rc4_crypt. apply computes_gets. apply computes_require; [done|].
  by apply computes_crypt_chunks.
Qed.

Lemma blen_overwrite b key : blen b <= blen key -> blen (overwrite b key) = blen key.
Proof. intros Hb. unfold overwrite. rewrite blen_app, blen_zdrop; zlen. Qed.
Lemma blen_weaken method key : 3 <= blen key -> blen (weaken method key) = blen key.
Proof. intros Hk. unfold weaken. repeat case_match; [| |done]; apply blen_overwrite; unfold salt; zlen. Qed.
Lemma valid_key_len_iff n : valid_key_len n = true <-> n = 8 \/ n = 16.
Proof. unfold valid_key_len. rewrite orb_true_iff, !Z.eqb_eq. done. Qed.
Lemma blen_next_key u n method key : valid_key_len n = true -> blen key = 16 -> blen (next_key u n method key) = 16.
Proof.
  intros Hn%valid_key_len_iff Hk. unfold next_key. cbv zeta. set (d := md5 _).
  assert (Ho : blen (overwrite d key) = 16) by (rewrite blen_overwrite; rewrite ?Hk; [done|subst d; rewrite md5_size; done]).
  assert (Hr : blen (overwrite (rc4_run (rc4_schedule (ztake n (overwrite d key))) (ztake n (overwrite d key))).1
                       (overwrite d key)) = 16).
  { rewrite blen_overwrite; [done|]. rewrite rc4_size, blen_ztake; lia. }
  rewrite blen_weaken; lia.
Qed.
Lemma computes_key_update u n method key : valid_key_len n = true -> blen key = 16 ->
  Computes (rdp_security_key_update u n method) key tt (next_key u n method key).
Proof.
  intros Hn Hk. apply computes_require; [done|]. apply computes_gets. apply valid_key_len_iff in Hn.
  pose proof (fun m l a b c => computes_digest m l a b c [] key) as Hd.
  eapply computes_bind; [by apply Hd|]. eapply computes_bind; [by apply Hd|].
  eapply computes_bind; [apply computes_put|]. apply computes_gets. cbn [digest]. rewrite !app_nil_r.
  unfold next_key. cbv zeta. set (d := md5 _).
  assert (Ho : blen (overwrite d key) = 16) by (rewrite blen_overwrite; rewrite ?Hk; [done|subst d; rewrite md5_size; done]).
  eapply computes_bind; [|apply computes_put]. eapply computes_with_local.
  eapply computes_bind; [apply computes_rc4_init|apply computes_rc4_crypt].
  rewrite blen_ztake; unfold INT_MAX; lia.
Qed.

(** One direction, when it has its keys: the state of a stream. *)
Definition half_ok (h : half) : Prop :=
  blen (h_key h) = 16 /\ blen (h_update_key h) = 16 /\ 0 <= h_count h <= 4096 /\ exists c, h_rc4 h = keyed c.

(** The key update due after 4096 packets, and the next packet. *)
Definition turned (key_len method : Z) (h : half) : half :=
  if 4096 <=? h_count h then
    let key := next_key (h_update_key h) key_len method (h_key h) in
    mk_half key (h_update_key h) 0 (keyed (rc4_schedule (ztake key_len key)))
  else h.
Definition stream_run (r : rdp_rc4_context) (data : list Z) : list Z * rdp_rc4_context :=
  match rc4_cipher r with
  | Some (Some c) => ((rc4_run c data).1, mk_rc4_context (Some (Some (rc4_run c data).2)) (rc4_initialized r))
  | _ => (data, r)
  end.
Definition half_text (key_len method : Z) (data : list Z) (h : half) : list Z :=
  (stream_run (h_rc4 (turned key_len method h)) data).1.
Definition half_next (key_len method : Z) (data : list Z) (h : half) : half :=
  let h := turned key_len method h in
  mk_half (h_key h) (h_update_key h) (h_count h + 1) (stream_run (h_rc4 h) data).2.

Lemma turned_ok n method h : valid_key_len n = true -> half_ok h ->
  half_ok (turned n method h) /\ h_count (turned n method h) < 4096.
Proof.
  intros Hn (Hk & Hu & Hc & r & Hr). unfold turned, half_ok. destruct (Z.leb_spec 4096 (h_count h)) as [E|E]; cbn.
  - rewrite blen_next_key by done. split; [|lia]. split; [done|]. split; [done|]. split; [lia|by eexists].
  - split; [|lia]. split; [done|]. split; [done|]. split; [lia|by eexists].
Qed.
Lemma half_next_ok n method data h : valid_key_len n = true -> half_ok h -> half_ok (half_next n method data h).
Proof.
  intros Hn Hh. destruct (turned_ok n method h Hn Hh) as [(Hk & Hu & Hc & r & Hr) Hlt].
  unfold half_next, half_ok, stream_run. cbn. rewrite Hr. cbn. repeat split; try done; [lia|lia|by eexists].
Qed.
Lemma computes_crypt_half n method data h : valid_key_len n = true -> half_ok h ->
  Computes (crypt_half n method data) h (half_text n method data h) (half_next n method data h).
Proof.
  intros Hn Hh. pose proof (turned_ok n method h Hn Hh) as [(_ & _ & Hc & r & Hr) Hlt].
  destruct Hh as (Hk & Hu & Hc0 & r0 & Hr0). unfold crypt_half. apply computes_gets.
  eapply (computes_bind _ _ _ tt (turned n method h)).
  - unfold turned. destruct (4096 <=? h_count h); [|apply computes_ret]. apply valid_key_len_iff in Hn as Hn'.
    eapply computes_bind; [apply computes_on_part; by apply computes_key_update|]. apply computes_gets.
    eapply computes_bind; [apply computes_on_part; apply computes_rc4_init|].
    { cbn. rewrite blen_ztake; rewrite ?blen_next_key by done; unfold INT_MAX; lia. }
    by apply computes_modify.
  - unfold half_text, half_next, stream_run. cbv zeta. rewrite Hr.
    set (t := turned n method h) in *. eapply computes_bind.
    { apply computes_on_part. rewrite Hr. apply computes_rc4_crypt. }
    eapply computes_bind; [|apply computes_ret]. apply computes_modify. intros p. cbn.
    unfold set_count. cbn. f_equal. f_equal. unfold u32. rewrite Z.mod_small; lia.
Qed.

(** ** Contexts that have their keys *)

Definition context_ok (c : rdp_standard_security_context) : Prop :=
  valid_key_len (sc_key_len c) = true /\ blen (sc_sign_key c) = 16 /\ half_ok (sc_encrypt c) /\ half_ok (sc_decrypt c).

(** The two ends of a connection: what one encrypts the other decrypts. *)
Definition peers (a b : rdp_standard_security_context) : Prop :=
  sc_sign_key b = sc_sign_key a /\ sc_key_len b = sc_key_len a /\ sc_method b = sc_method a /\
  sc_decrypt b = sc_encrypt a /\ sc_encrypt b = sc_decrypt a.
Lemma peers_sym a b : peers a b -> peers b a.
Proof. unfold peers. naive_solver. Qed.

Lemma computes_encrypt data c : context_ok c ->
  Computes (rdp_security_encrypt_payload data) c (half_text (sc_key_len c) (sc_method c) data (sc_encrypt c))
    (set_encrypt (half_next (sc_key_len c) (sc_method c) data (sc_encrypt c)) c).
Proof.
  intros (Hl & _ & He & _). apply computes_gets. apply computes_require; [done|].
  by apply computes_on_part, computes_crypt_half.
Qed.
Lemma computes_decrypt data c : context_ok c ->
  Computes (rdp_security_decrypt_payload data) c (half_text (sc_key_len c) (sc_method c) data (sc_decrypt c))
    (set_decrypt (half_next (sc_key_len c) (sc_method c) data (sc_decrypt c)) c).
Proof.
  intros (Hl & _ & _ & Hd). apply computes_gets. apply computes_require; [done|].
  by apply computes_on_part, computes_crypt_half.
Qed.
Definition sc_mac (c : rdp_standard_security_context) : list Z -> list Z -> list Z :=
  mac (ztake (sc_key_len c) (sc_sign_key c)).
Lemma computes_mac data c : context_ok c -> blen data <= UINT32_MAX ->
  Computes (rdp_security_mac_signature data) c (sc_mac c data []) c.
Proof.
  intros (Hl & _) Hd. apply computes_gets. apply computes_require.
  { rewrite Hl. apply negb_true_iff, orb_false_iff. split; [by apply Z.ltb_ge|done]. }
  cbv zeta. eapply computes_bind; [by apply computes_digest|].
  eapply computes_bind; [by apply computes_digest|]. cbn [digest]. rewrite app_nil_r.
  unfold sc_mac, mac. rewrite app_nil_r. apply computes_ret.
Qed.
Lemma computes_salted_mac data n c : context_ok c -> blen data <= UINT32_MAX ->
  Computes (rdp_security_salted_mac_signature data n) c (sc_mac c data (le32 n)) c.
Proof.
  intros (Hl & _) Hd. apply computes_gets. apply computes_require.
  { rewrite Hl. apply negb_true_iff, orb_false_iff. split; [by apply Z.ltb_ge|done]. }
  cbv zeta. do 2 (eapply computes_bind; [apply computes_calls|]).
  apply computes_require; [by rewrite blen_digest|]. eapply computes_bind; [apply computes_calls|].
  apply computes_require; [by rewrite blen_digest|]. apply computes_ret.
Qed.

(** *** The keys of a connection *)

Definition key_len_of (method : Z) : Z := if method =? RDP_SECURITY_METHOD_128BIT then 16 else 8.
Definition fresh (method : Z) (key : list Z) : half :=
  mk_half key key 0 (keyed (rc4_schedule (ztake (key_len_of method) key))).
Definition initial_context (method : Z) (client_random server_random : list Z) (server_side : bool) :
    rdp_standard_security_context :=
  let pre_master := ztake 24 client_random ++ ztake 24 server_random in
  let master := secret_triplet pre_master [0x41] [0x42; 0x42] [0x43; 0x43; 0x43] client_random server_random in
  let blob := secret_triplet master [0x58] [0x59; 0x59] [0x5a; 0x5a; 0x5a] client_random server_random in
  let key seed := weaken method (md5 (ztake 16 seed ++ client_random ++ server_random)) in
  let server_key := fresh method (key (zdrop 16 blob)) in
  let client_key := fresh method (key (zdrop 32 blob)) in
  mk_security_context (weaken method (ztake 16 blob)) (key_len_of method) method
    (if server_side then server_key else client_key) (if server_side then client_key else server_key).

Definition known_method (method : Z) : Prop :=
  method = RDP_SECURITY_METHOD_40BIT \/ method = RDP_SECURITY_METHOD_128BIT \/ method = RDP_SECURITY_METHOD_56BIT.

Lemma blen_triplet secret a b c r1 r2 : blen (secret_triplet secret a b c r1 r2) = 48.
Proof. unfold secret_triplet, salted_hash. rewrite !blen_app, !md5_size. done. Qed.
Lemma key_len_valid method : valid_key_len (key_len_of method) = true.
Proof. unfold key_len_of. by case_match. Qed.
Lemma apply_method s e d method : known_method method ->
  rdp_security_apply_method s e d method =
    Ok (weaken method s, weaken method e, weaken method d, key_len_of method).
Proof. by intros [->|[->| ->]]. Qed.
Lemma fresh_ok method key : blen key = 16 -> half_ok (fresh method key).
Proof. intros Hk. unfold half_ok, fresh. cbn. repeat split; try done. by eexists. Qed.
Lemma initial_context_ok method cr sr server : context_ok (initial_context method cr sr server).
Proof.
  assert (Hw : forall l, blen (weaken method (md5 l)) = 16).
  { intros l. rewrite blen_weaken; rewrite md5_size; lia. }
  split; [apply key_len_valid|]. unfold initial_context. cbv zeta. cbn [sc_sign_key sc_encrypt sc_decrypt].
  rewrite blen_weaken; rewrite blen_ztake; rewrite ?blen_triplet; try lia.
  split; [done|]. split; destruct server; apply fresh_ok, Hw.
Qed.
Lemma initial_peers method cr sr : peers (initial_context method cr sr false) (initial_context method cr sr true).
Proof. done. Qed.
Lemma computes_init_keys method cr sr server s : known_method method -> blen cr = 32 -> blen sr = 32 ->
  Computes (init_keys method cr sr server) s tt (initial_context method cr sr server).
Proof.
  intros Hm Hc Hs. unfold init_keys. cbv zeta.
  eapply computes_bind; [apply computes_triplet; rewrite blen_app, !blen_ztake; lia|].
  eapply computes_bind; [apply computes_triplet, blen_triplet|].
  pose proof (fun seed => computes_digest EVP_md5 16 seed cr sr [] s) as Hk.
  eapply computes_bind; [by apply Hk|]. eapply computes_bind; [by apply Hk|].
  rewrite !app_nil_r. cbn [digest].
  pose proof (initial_context_ok method cr sr server) as Hok. unfold initial_context in *. cbv zeta in *.
  set (blob := secret_triplet _ [0x58] _ _ _ _) in *.
  set (sk := md5 (ztake 16 (zdrop 16 blob) ++ cr ++ sr)) in *.
  set (ck := md5 (ztake 16 (zdrop 32 blob) ++ cr ++ sr)) in *.
  assert (Hl : forall k, blen k = 16 -> 0 < blen (ztake (key_len_of method) (weaken method k)) <= INT_MAX).
  { intros k E. pose proof (key_len_valid method) as Hv%valid_key_len_iff. rewrite blen_ztake; rewrite ?blen_weaken;
      unfold INT_MAX; lia. }
  assert (Hsk : blen sk = 16) by apply md5_size. assert (Hck : blen ck = 16) by apply md5_size.
  clearbody sk ck blob.
  destruct server; (eapply computes_lift; [by apply apply_method|]; eapply computes_bind; [apply computes_put|];
    eapply computes_bind; [apply computes_on_part, computes_rc4_init, Hl; done|];
    eapply computes_to; [apply computes_on_part, computes_rc4_init, Hl; done|done]).
Qed.
Lemma init_direction_spec method cr sr server c p : known_method method -> blen cr = 32 -> blen sr = 32 ->
  exists r c' p', rdp_security_standard_init_direction method cr sr server (c, p) = (r, (c', p')) /\
    ((r = Ok tt /\ c' = initial_context method cr sr server) \/
     ((exists st, r = Err st) /\ c' = rdp_security_standard_clear)) /\
    (p = [] -> r = Ok tt /\ p' = []).
Proof.
  intros Hm Hc Hs. unfold rdp_security_standard_init_direction. rewrite bind_require.
  assert (negb ((method =? 0) || (method =? RDP_SECURITY_METHOD_FIPS)) = true) as ->.
  { by destruct Hm as [->|[->| ->]]. }
  rewrite (bind_ok (put _) _ _ tt (rdp_security_standard_clear, p)) by done.
  destruct (computes_init_keys method cr sr server rdp_security_standard_clear Hm Hc Hs p)
    as (r & s' & p' & E & Hr & Hn).
  unfold clear_on_error. rewrite E. destruct Hr as [[-> ->]|[st ->]].
  - eexists _, _, _. split; [done|]. split; [by left|done].
  - eexists _, _, _. split; [done|]. split; [right; by eauto|]. intros ->. by destruct (Hn eq_refl).
Qed.
End values.

(** ** What holds of any context and any provider *)

(** [m] has no undefined behaviour, and a result of it satisfies [Q]. *)
Definition Yields {S A} (m : M S A) (Q : A -> Prop) : Prop :=
  forall s, match (m s).1 with Ok a => Q a | Err _ => True | Fault => False end.

Section yields.
Context {S : Type}.
Lemma yields_ret {A} (a : A) (Q : A -> Prop) : Q a -> Yields (S := S) (mret a) Q.
Proof. by intros Ha s. Qed.
Lemma yields_fail {A} st (Q : A -> Prop) : Yields (S := S) (fail st) Q.
Proof. by intros s. Qed.
Lemma yields_bind {A B} (m : M S A) (k : A -> M S B) P Q :
  Yields m P -> (forall a, P a -> Yields (k a) Q) -> Yields (m ≫= k) Q.
Proof.
  intros Hm Hk s. specialize (Hm s). destruct (m s) as [[a|st|] s'] eqn:E; [|by rewrite (bind_err _ _ _ _ _ E)|done].
  rewrite (bind_ok _ _ _ _ _ E). by apply Hk.
Qed.
(** A step whose value does not matter, a test, and a reading of the state. *)
Lemma yields_next {A B} (m : M S A) (k : A -> M S B) Q :
  Yields m (fun _ => True) -> (forall a, Yields (k a) Q) -> Yields (m ≫= k) Q.
Proof. intros Hm Hk. eapply yields_bind; [exact Hm|]. intros a _. apply Hk. Qed.
Lemma yields_require {A} c st (k : unit -> M S A) Q : (c = true -> Yields (k tt) Q) -> Yields (require c st ≫= k) Q.
Proof. intros Hk s. rewrite bind_require. destruct c; [by apply Hk|done]. Qed.
Lemma yields_gets {A} (f : S -> A) : Yields (gets f) (fun _ => True).
Proof. done. Qed.
Lemma yields_modify (f : S -> S) : Yields (modify f) (fun _ => True).
Proof. done. Qed.
Lemma yields_weaken {A} (m : M S A) (P Q : A -> Prop) : Yields m P -> (forall a, P a -> Q a) -> Yields m Q.
Proof. intros Hm H s. specialize (Hm s). destruct (m s) as [[] ?]; cbn in *; eauto. Qed.
End yields.

Section provider_yields.
Context {S : Type}.
Lemma yields_put (t : S) : Yields (put t) (fun _ => True).
Proof. done. Qed.
Lemma yields_evp : Yields (S := S * provider) evp (fun _ => True).
Proof. by intros [s [|[] p]]. Qed.
Lemma yields_calls n st : Yields (S := S * provider) (evp_calls n st) (fun _ => True).
Proof.
  induction n as [|n IH]; [by apply yields_ret|]. apply yields_next; [apply yields_evp|].
  intros ok. by apply yields_require.
Qed.
Lemma yields_all n : Yields (S := S * provider) (evp_all n) (fun _ => True).
Proof.
  induction n as [|n IH]; [by apply yields_ret|]. apply yields_next; [apply yields_evp|].
  intros []; [done|by apply yields_ret].
Qed.
Lemma yields_on_part {T A} (get : S -> T) set (m : M (T * provider) A) Q : Yields m Q -> Yields (on_part get set m) Q.
Proof. intros Hm s. unfold on_part. specialize (Hm (get s.1, s.2)). by destruct (m _) as [r []]. Qed.
Lemma yields_with_local {T A} (t : T) (m : M (T * provider) A) Q :
  Yields m Q -> Yields (S := S * provider) (with_local t m) Q.
Proof. intros Hm s. unfold with_local. specialize (Hm (t, s.2)). by destruct (m _) as [r []]. Qed.
End provider_yields.

Create HintDb yields.
#[export] Hint Resolve yields_fail yields_gets yields_modify yields_put yields_evp yields_calls yields_all : yields.
#[export] Hint Extern 1 (Yields (mret _) _) => apply yields_ret : yields.

(** One step of a call: a test, or a step whose value does not matter. *)
Ltac ystep := first [apply yields_require; intros ?|apply yields_next; [solve [eauto with yields]|intros ?]].

Section any_context.
Context `{OpenSSL, !OpenSSLLaws}.

Lemma yields_digest {S} m n a b c d : Yields (S := S * provider) (rdp_digest_concat m n a b c d) (fun _ => True).
Proof. unfold rdp_digest_concat, evp_digest. do 2 ystep. cbv zeta. ystep. by apply yields_ret. Qed.
Lemma yields_rc4_init key : Yields (rdp_rc4_init key) (fun _ => True).
Proof.
  unfold rdp_rc4_init. ystep. apply yields_next. { unfold rdp_rc4_provider_ensure. ystep. apply yields_calls. }
  intros _. ystep. apply yields_next. { destruct (rc4_cipher _); ystep; eauto with yields. }
  intros _. do 2 ystep. apply yields_next; [|eauto with yields]. match goal with |- Yields (if ?c then _ else _) _ => destruct c end; [|by apply yields_ret].
  unfold rdp_rc4_clear. ystep. apply yields_fail.
Qed.
(** What an in-place call leaves of [data]. *)
Definition same_size (data o : list Z) : Prop := blen o = blen data /\ (bytes data -> bytes o).
Lemma yields_evp_crypt data : Yields (evp_crypt data) (fun o => bytes data -> bytes o).
Proof.
  unfold evp_crypt. do 2 ystep. destruct (rc4_cipher _) as [[c|]|]; [|apply yields_fail..].
  pose proof (rc4_bytes c data) as Ho. destruct (rc4_run c data) as [o c']. ystep. by apply yields_ret.
Qed.
Lemma yields_crypt_chunks n data : blen data <= Z.of_nat n -> Yields (crypt_chunks n data) (same_size data).
Proof.
  revert data. induction n as [|n IH]; intros data Hn; cbn [crypt_chunks].
  - rewrite (blen_0_nil data) by zlen. by apply yields_ret.
  - destruct (Z.eqb_spec (blen data) 0) as [E|E].
    { apply yields_ret. split; [done|]. intros _. by apply Forall_nil_2. }
    set (chunk := if INT_MAX <? blen data then INT_MAX else blen data).
    assert (Hc : 1 <= chunk <= blen data).
    { unfold chunk, INT_MAX in *. destruct (Z.ltb_spec 0x7fffffff (blen data)); zlen. }
    cbv zeta. eapply yields_bind; [by apply yields_evp_crypt|]. intros o Ho.
    apply yields_require. intros Hs%Z.eqb_eq.
    eapply yields_bind; [apply IH; rewrite blen_zdrop by lia; lia|].
    intros rest [Hr Hrb]. apply yields_ret. split; [rewrite blen_app, Hr, blen_zdrop by lia; lia|].
    intros Hb. apply Forall_app_2; [by apply Ho, Forall_ztake|by apply Hrb, Forall_zdrop].
Qed.
Lemma yields_rc4_crypt data : Yields (rdp_rc4_crypt data) (same_size data).
Proof. unfold rdp_rc4_crypt. do 2 ystep. by apply yields_crypt_chunks. Qed.
Lemma yields_key_update u n method : Yields (rdp_security_key_update u n method) (fun _ => True).
Proof.
  unfold rdp_security_key_update. do 2 ystep. do 2 (apply yields_next; [apply yields_digest|intros ?]). do 2 ystep.
  apply yields_next; [|eauto with yields]. apply yields_with_local.
  apply yields_next; [apply yields_rc4_init|]. intros _. eapply yields_weaken; [apply yields_rc4_crypt|done].
Qed.
Lemma yields_crypt_half n method data : Yields (crypt_half n method data) (same_size data).
Proof.
  unfold crypt_half. ystep. apply yields_next.
  - destruct (4096 <=? _); [|by apply yields_ret]. apply yields_next; [apply yields_on_part, yields_key_update|].
    intros _. ystep. apply yields_next; [apply yields_on_part, yields_rc4_init|]. intros _. apply yields_modify.
  - intros _. eapply yields_bind; [apply yields_on_part, yields_rc4_crypt|]. intros o Ho. ystep. by apply yields_ret.
Qed.
Lemma yields_encrypt data : Yields (rdp_security_encrypt_payload data) (same_size data).
Proof. unfold rdp_security_encrypt_payload. do 2 ystep. apply yields_on_part, yields_crypt_half. Qed.
Lemma yields_decrypt data : Yields (rdp_security_decrypt_payload data) (same_size data).
Proof. unfold rdp_security_decrypt_payload. do 2 ystep. apply yields_on_part, yields_crypt_half. Qed.
Lemma yields_mac data : Yields (rdp_security_mac_signature data) (fun _ => True).
Proof.
  unfold rdp_security_mac_signature. do 2 ystep. cbv zeta. do 2 (apply yields_next; [apply yields_digest|intros ?]).
  by apply yields_ret.
Qed.
Lemma yields_salted_mac data n : Yields (rdp_security_salted_mac_signature data n) (fun _ => True).
Proof. unfold rdp_security_salted_mac_signature. do 2 ystep. cbv zeta. repeat ystep. by apply yields_ret. Qed.
End any_context.

(** ** The interface of the fast path *)

#[export] Instance rdp_standard_security `{OpenSSL} : StandardSecurity (rdp_standard_security_context * provider) := {
  security_decrypt c data := rdp_security_decrypt_payload data c;
  security_mac c data := rdp_security_mac_signature data c;
  security_salted_mac c data n := rdp_security_salted_mac_signature data n c;
  security_decrypt_count c := h_count (sc_decrypt c.1);
}.
#[export] Instance rdp_standard_security_laws `{OpenSSLLaws} :
  StandardSecurityLaws (rdp_standard_security_context * provider).
Proof.
  split; cbn [security_decrypt security_mac security_salted_mac rdp_standard_security].
  - intros c l l' c' E Hl. pose proof (yields_decrypt l c) as Hy. rewrite E in Hy. destruct Hy as [Hs Hb].
    split; [done|by apply Hb].
  - intros c l. pose proof (yields_decrypt l c) as Hy. by destruct (_ c).1.
  - intros c l. pose proof (yields_mac l c) as Hy. by destruct (_ c).1.
  - intros c l n. pose proof (yields_salted_mac l n c) as Hy. by destruct (_ c).1.
Qed.

(** ** Packets: the specification of unwrapping *)

Section packets.
Context `{OpenSSL, !OpenSSLLaws}.
Abbreviation ctx := (rdp_standard_security_context * provider)%type.
Abbreviation sec := (M (ustate (ctx := rdp_standard_security_context * provider))).

(** The flags, the signature and the body of a packet. *)
Definition split_pdu (secured : bool) (d : list Z) : res (Z * list Z * list Z) :=
  match d with
  | f0 :: f1 :: h0 :: h1 :: rest =>
      if negb (val16 h0 h1 =? 0) then Err LIBRDP_STATUS_PROTOCOL_ERROR
      else if negb (has_flag (val16 f0 f1) RDP_SEC_ENCRYPT) then Ok (val16 f0 f1, [], rest)
      else if negb secured then Err LIBRDP_STATUS_INVALID_ARGUMENT
      else if blen rest <? 8 then Err LIBRDP_STATUS_PROTOCOL_ERROR
      else Ok (val16 f0 f1, ztake 8 rest, zdrop 8 rest)
  | _ => Err LIBRDP_STATUS_PROTOCOL_ERROR
  end.

(** What a packet means: its body when it is not encrypted, else the text under
    the key stream, provided that the signature of the text is the packet's. *)
Definition received_signature (flags : Z) (text : list Z) (c : rdp_standard_security_context) : M ctx (list Z) :=
  if Z.land flags RDP_SEC_SECURE_CHECKSUM =? 0 then rdp_security_mac_signature text
  else rdp_security_salted_mac_signature text
         (if h_count (sc_decrypt c) =? 0 then 0 else u32 (h_count (sc_decrypt c) - 1)).
Definition verified (flags : Z) (signature body : list Z) : M ctx (Z * list Z) :=
  text ← rdp_security_decrypt_payload body;
  c ← gets fst;
  expected ← received_signature flags text c;
  require (bool_decide (signature = expected)) LIBRDP_STATUS_PROTOCOL_ERROR;;
  mret (flags, text).
Definition opened (secured : bool) (d : list Z) : M ctx (Z * list Z) :=
  '(flags, signature, body) ← lift (split_pdu secured d);
  if has_flag flags RDP_SEC_ENCRYPT then verified flags signature body else mret (flags, body).

(** The same parser as the one in [rdp_security_unwrap_pdu]. *)
Definition read_pdu (secured : bool) : reader (Z * list Z * list Z) :=
  parsed_flags ← coerce LIBRDP_STATUS_PROTOCOL_ERROR rdp_stream_read_u16_le;
  flags_hi ← coerce LIBRDP_STATUS_PROTOCOL_ERROR rdp_stream_read_u16_le;
  require (flags_hi =? 0) LIBRDP_STATUS_PROTOCOL_ERROR;;
  signature ← (if has_flag parsed_flags RDP_SEC_ENCRYPT then
    require secured LIBRDP_STATUS_INVALID_ARGUMENT;;
    remaining ← rdp_stream_remaining;
    require (8 <=? remaining) LIBRDP_STATUS_PROTOCOL_ERROR;;
    coerce LIBRDP_STATUS_PROTOCOL_ERROR (rdp_stream_read_bytes 8)
  else mret []);
  body_len ← rdp_stream_remaining;
  body ← coerce LIBRDP_STATUS_PROTOCOL_ERROR (rdp_stream_read_bytes body_len);
  mret (parsed_flags, signature, body).

Lemma coerce_read_bytes s n : stream_wf s -> 0 <= n <= blen (unread s) ->
  coerce LIBRDP_STATUS_PROTOCOL_ERROR (rdp_stream_read_bytes n) s =
    (Ok (ztake n (unread s)), set_position (s_position s + n) s).
Proof.
  intros Hs Hn. unfold coerce. rewrite rdp_stream_read_bytes_spec by (done || lia).
  destruct (Z.ltb_spec (blen (unread s)) n); [lia|done].
Qed.
Lemma read_rest {A} s (k : list Z -> A) : stream_wf s ->
  ((body_len ← rdp_stream_remaining;
    body ← coerce LIBRDP_STATUS_PROTOCOL_ERROR (rdp_stream_read_bytes body_len); mret (k body)) s).1 = Ok (k (unread s)).
Proof.
  intros Hs. pose proof (blen_nonneg (unread s)). unfold rdp_stream_remaining. rewrite bind_gets, stream_remaining_unread by done.
  rewrite (bind_ok _ _ _ _ _ (coerce_read_bytes s (blen (unread s)) Hs ltac:(lia))). by rewrite ztake_all.
Qed.
Lemma split_pdu_short secured d : blen d < 4 -> split_pdu secured d = Err LIBRDP_STATUS_PROTOCOL_ERROR.
Proof. destruct d as [|? [|? [|? [|? l]]]]; try done. rewrite !blen_cons. pose proof (blen_nonneg l). lia. Qed.
Lemma split_pdu_eq secured f h rest : is_u16 f -> is_u16 h ->
  split_pdu secured (le16 f ++ le16 h ++ rest) =
    if negb (h =? 0) then Err LIBRDP_STATUS_PROTOCOL_ERROR
    else if negb (has_flag f RDP_SEC_ENCRYPT) then Ok (f, [], rest)
    else if negb secured then Err LIBRDP_STATUS_INVALID_ARGUMENT
    else if blen rest <? 8 then Err LIBRDP_STATUS_PROTOCOL_ERROR
    else Ok (f, ztake 8 rest, zdrop 8 rest).
Proof. intros Hf Hh. unfold split_pdu, le16. cbn [app]. by rewrite !val16_le16. Qed.
Lemma read_pdu_eq secured d : bytes d -> with_stream (View d) (read_pdu secured) = split_pdu secured d.
Proof.
  intros Hd. unfold with_stream, read_pdu. pose proof (stream_init_wf (View d) Hd) as Hs.
  pose proof (unread_init (View d)) as Hu. cbn [view_bytes] in Hu.
  destruct (read_u16_le_cases _ Hs) as [(f & s1 & E1 & Hu1 & Hf & Hs1)|[E1 Hl]]; rewrite Hu in *.
  2: { rewrite split_pdu_short by lia. rewrite (bind_err _ _ _ LIBRDP_STATUS_PROTOCOL_ERROR (rdp_stream_init (View d))); [done|].
       unfold coerce. by rewrite E1. }
  rewrite (bind_ok _ _ _ f s1) by (unfold coerce; by rewrite E1).
  destruct (read_u16_le_cases _ Hs1) as [(h & s2 & E2 & Hu2 & Hh & Hs2)|[E2 Hl]].
  2: { rewrite split_pdu_short by (rewrite Hu1; zlen).
       rewrite (bind_err _ _ _ LIBRDP_STATUS_PROTOCOL_ERROR s1); [done|]. unfold coerce. by rewrite E2. }
  rewrite (bind_ok _ _ _ h s2) by (unfold coerce; by rewrite E2).
  rewrite Hu1, Hu2, split_pdu_eq by done. rewrite bind_require. destruct (h =? 0); [cbn [negb]|done].
  destruct (has_flag f RDP_SEC_ENCRYPT); cbn [negb].
  2: { rewrite (bind_ok _ _ _ [] s2) by done. by apply (read_rest s2 (fun body => (f, [], body))). }
  destruct secured; [cbn [negb]|done].
  destruct (Z.ltb_spec (blen (unread s2)) 8) as [Hb|Hb].
  - rewrite (bind_err _ _ _ LIBRDP_STATUS_PROTOCOL_ERROR s2); [done|]. rewrite bind_require. unfold rdp_stream_remaining.
    rewrite bind_gets, stream_remaining_unread, bind_require by done. destruct (Z.leb_spec 8 (blen (unread s2))); [lia|done].
  - rewrite (bind_ok _ _ _ (ztake 8 (unread s2)) (set_position (s_position s2 + 8) s2)).
    + rewrite <- unread_set_position by (done || lia).
      apply (read_rest _ (fun body => (f, ztake 8 (unread s2), body))), set_position_wf; [done|].
      rewrite stream_remaining_unread by done. lia.
    + rewrite bind_require. unfold rdp_stream_remaining. rewrite bind_gets, stream_remaining_unread, bind_require by done.
      destruct (Z.leb_spec 8 (blen (unread s2))); [|lia]. by apply coerce_read_bytes.
Qed.

(** *** The buffer *)

Lemma on_context_run {C A} (m : M C A) w s r s' : m s = (r, s') -> on_context m (w, s) = (r, (w, s')).
Proof. intros E. unfold on_context, on_snd. cbn [fst snd]. by rewrite E. Qed.
Lemma on_buffer_run {C A} (m : writer A) w (s : C) r w' : m w = (r, w') -> on_buffer m (w, s) = (r, (w', s)).
Proof. intros E. unfold on_buffer. cbn [fst snd]. by rewrite E. Qed.
Lemma in_place_spec {C} (crypt : list Z -> M C (list Z)) b (h : heap) s l text o s' :
  buffer_wf b -> contents b = l ++ text -> Yields (crypt text) (same_size text) -> crypt text s = (o, s') ->
  match o with
  | Ok t => exists b', in_place (blen l) (blen text) crypt ((b, h), s) = (Ok tt, ((b', h), s')) /\ buffer_wf b' /\
      contents b' = l ++ t /\ blen t = blen text
  | Err st => in_place (blen l) (blen text) crypt ((b, h), s) = (Err st, ((b, h), s'))
  | Fault => False
  end.
Proof.
  intros Hb Hc Hy E. pose proof (Hy s) as Ho. pose proof (blen_contents b Hb) as Hl. rewrite Hc, blen_app in Hl.
  pose proof (blen_nonneg l). unfold in_place.
  rewrite (bind_ok (on_buffer get_buffer) _ _ b ((b, h), s)) by done.
  rewrite bind_lift, (slice_tail b l text) by done.
  rewrite E in Ho. destruct o as [t|st|]; cbn [fst] in Ho; [|by apply bind_err, on_context_run|done].
  destruct Ho as [Ho _]. destruct (store_bytes_spec (blen l) t b h Hb) as (b' & E' & Hb' & _ & Hc'); [lia|lia|].
  exists b'. rewrite (bind_ok _ _ _ t ((b, h), s')) by (by apply on_context_run).
  unfold on_buffer. cbn [fst snd]. rewrite E'. split; [done|]. split; [done|]. split; [|done].
  pose proof (zdrop_app_blen (l ++ text) []) as Hz. rewrite app_nil_r, blen_app in Hz.
  by rewrite Hc', Hc, Ho, ztake_app_blen, Hz, app_nil_r.
Qed.
Lemma abandon_spec {C A} b (h : heap) (s : C) l text st : buffer_wf b -> contents b = l ++ text ->
  exists b', abandon (C := C) (A := A) (blen l) (blen text) st ((b, h), s) = (Err st, ((b', h), s)) /\ buffer_wf b' /\ contents b' = l.
Proof.
  intros Hb Hc. pose proof (blen_contents b Hb) as Hl. rewrite Hc, blen_app in Hl.
  pose proof (blen_nonneg l). pose proof (blen_nonneg text). unfold abandon, zeros.
  set (z := replicate _ 0). assert (Hz : blen z = blen text) by (unfold z; rewrite blen_replicate; lia).
  destruct (store_bytes_spec (blen l) z b h Hb) as (b1 & E1 & Hb1 & Hl1 & Hc1); [lia|lia|].
  exists (set_length (blen l) b1). split; [|split].
  - unfold on_buffer, mbind, M_bind. cbn [fst snd]. rewrite E1. done.
  - destruct Hb1 as [Hv Hbl Hn Hcap]. apply state_valid_iff in Hv as [Hv1 Hv2].
    split; cbn; try done. apply state_valid_iff. cbn. split; [lia|done].
  - unfold contents at 1. cbn [set_length b_length]. change (block (set_length _ b1)) with (block b1).
    rewrite ztake_contents by (done || lia). rewrite Hc1, Hc, ztake_app_blen. apply ztake_app_blen.
Qed.

(** What unwrapping leaves: the result [r] and the new contents [l'], when the
    packet means [o]. *)
Definition unwraps (o : res (Z * list Z)) (r : res Z) (l l' : list Z) : Prop :=
  match o with
  | Ok (flags, text) => r = Ok flags /\ l' = l ++ text
  | Err st => r = Err st /\ l' = l
  | Fault => False
  end.

(** The part of [rdp_security_unwrap_pdu] for an encrypted packet. *)
Definition verify (flags : Z) (signature : list Z) (output_offset body_len : Z) : sec Z :=
  catch (in_place output_offset body_len rdp_security_decrypt_payload) (abandon output_offset body_len);;
  b ← on_buffer get_buffer;
  decrypted ← lift (slice (block b) output_offset body_len);
  c ← gets (fun s => s.2.1);
  expected ← catch (on_context (received_signature flags decrypted c)) (abandon output_offset body_len);
  if bool_decide (signature = expected) then mret flags
  else abandon output_offset body_len LIBRDP_STATUS_PROTOCOL_ERROR.

Lemma yields_received flags text c : Yields (received_signature flags text c) (fun _ => True).
Proof. unfold received_signature. case_match; [apply yields_mac|apply yields_salted_mac]. Qed.
Lemma verify_spec flags sig b (h : heap) s l body : buffer_wf b -> contents b = l ++ body ->
  exists r b', verify flags sig (blen l) (blen body) ((b, h), s) =
      (r, ((b', h), (verified flags sig body s).2)) /\
    buffer_wf b' /\ unwraps (verified flags sig body s).1 r l (contents b').
Proof.
  intros Hb Hc. unfold verify, verified.
  destruct (rdp_security_decrypt_payload body s) as [o s1] eqn:Ed.
  pose proof (in_place_spec _ _ h _ _ _ _ _ Hb Hc (yields_decrypt body) Ed) as Hp.
  destruct o as [text|st|]; [|destruct (abandon_spec (C := ctx) (A := unit) b h s1 l body st Hb Hc) as (b2 & E2 & Hb2 & Hc2)|done].
  2: { exists (Err st), b2. rewrite (bind_err _ _ _ _ _ Ed), (bind_err _ _ _ st ((b2, h), s1)); [done|].
       by rewrite (catch_err _ _ _ st ((b, h), s1)). }
  destruct Hp as (b1 & E1 & Hb1 & Hc1 & Hl1). rewrite (bind_ok _ _ _ _ _ Ed), (bind_ok _ _ _ tt ((b1, h), s1)) by (by apply catch_ok).
  rewrite <- Hl1. rewrite (bind_ok (on_buffer get_buffer) _ _ b1 ((b1, h), s1)) by done.
  rewrite (bind_ok (lift _) _ _ text ((b1, h), s1)) by (unfold lift; by rewrite (slice_tail b1 l text)).
  rewrite (bind_ok (gets _) _ _ s1.1 ((b1, h), s1)), (bind_ok (gets _) _ _ s1.1 s1) by done.
  destruct (received_signature flags text s1.1 s1) as [o s2] eqn:Em.
  pose proof (yields_received flags text s1.1 s1) as Hy. rewrite Em in Hy. destruct o as [ex|st|]; [| |done].
  2: { destruct (abandon_spec (C := ctx) (A := list Z) b1 h s2 l text st Hb1 Hc1) as (b2 & E2 & Hb2 & Hc2).
       exists (Err st), b2. rewrite (bind_err _ _ _ _ _ Em), (bind_err _ _ _ st ((b2, h), s2)); [done|].
       rewrite (catch_err _ _ _ st ((b1, h), s2)); [done|]. by apply on_context_run. }
  rewrite (bind_ok _ _ _ _ _ Em), (bind_ok _ _ _ ex ((b1, h), s2)) by (by apply catch_ok, on_context_run).
  rewrite bind_require. destruct (bool_decide (sig = ex)); [by exists (Ok flags), b1|].
  destruct (abandon_spec (C := ctx) (A := Z) b1 h s2 l text LIBRDP_STATUS_PROTOCOL_ERROR Hb1 Hc1) as (b2 & E2 & Hb2 & Hc2).
  by exists (Err LIBRDP_STATUS_PROTOCOL_ERROR), b2.
Qed.
Lemma split_pdu_body secured d flags sig body : split_pdu secured d = Ok (flags, sig, body) -> blen body <= blen d.
Proof.
  destruct d as [|? [|? [|? [|? l]]]]; try done. cbn [split_pdu]. rewrite !blen_cons. repeat case_match; try done.
  - intros [= <- <- <-]. lia.
  - intros [= <- <- <-]. bool_prop. rewrite blen_zdrop; lia.
Qed.
Lemma unwrap_spec secured d b h s : buffer_wf b -> bytes d ->
  exists r b' h' s', rdp_security_unwrap_pdu secured (View d) ((b, h), s) = (r, ((b', h'), s')) /\ buffer_wf b' /\
    ((r = Err LIBRDP_STATUS_NO_MEMORY /\ s' = s /\ contents b' = contents b) \/
     (s' = (opened secured d s).2 /\ unwraps (opened secured d s).1 r (contents b) (contents b'))) /\
    (h = [] -> b_length b + blen d <= 2 ^ 63 ->
     h' = [] /\ s' = (opened secured d s).2 /\ unwraps (opened secured d s).1 r (contents b) (contents b')).
Proof.
  intros Hb Hd. unfold rdp_security_unwrap_pdu. rewrite bind_require. cbn [view_null negb].
  fold (read_pdu secured). rewrite bind_lift, read_pdu_eq by done.
  unfold opened. rewrite bind_lift.
  destruct (split_pdu secured d) as [[[flags sig] body]|st|] eqn:Es.
  2: { eexists _, b, h, s. split; [reflexivity|]. split; [done|]. split; [by right|done]. }
  2: { clear -Es. destruct d as [|? [|? [|? [|? l]]]]; try done. cbn [split_pdu] in Es. by repeat case_match. }
  cbv beta iota. rewrite (bind_ok (on_buffer _) _ _ (b_length b) ((b, h), s)) by done.
  destruct (append_atomic body (View body) eq_refl eq_refl b h Hb) as (r1 & b1 & h1 & E1 & Hb1 & Hr1 & Hn1).
  pose proof (split_pdu_body _ _ _ _ _ Es) as Hs.
  destruct Hr1 as [([] & -> & _ & Hc1)|[-> Hc1]].
  2: { rewrite (bind_err _ _ _ LIBRDP_STATUS_NO_MEMORY ((b1, h1), s)) by (by apply on_buffer_run).
       eexists _, b1, h1, s. split; [reflexivity|]. split; [done|]. split; [by left|]. intros Hh Hl.
       by destruct (Hn1 Hh ltac:(lia)). }
  rewrite (bind_ok _ _ _ tt ((b1, h1), s)) by (by apply on_buffer_run).
  assert (Hn : h = [] -> b_length b + blen d <= 2 ^ 63 -> h1 = []) by (intros Hh Hl; by destruct (Hn1 Hh ltac:(lia))).
  destruct (has_flag flags RDP_SEC_ENCRYPT).
  - pose proof (blen_contents b Hb) as Hbl. rewrite <- Hbl. destruct (verify_spec flags sig b1 h1 s (contents b) body Hb1 Hc1) as (r & b2 & E2 & Hb2 & Hu).
    eexists r, b2, h1, _. split; [exact E2|]. split; [done|]. split; [by right|]. intros Hh Hl. split; [apply Hn; [done|lia]|done].
  - eexists _, b1, h1, s. split; [reflexivity|]. split; [done|]. split; [by right|]. intros Hh Hl. split; [apply Hn; [done|lia]|done].
Qed.
End packets.

(** ** Packets: what is sent *)

Section sending.
Context `{OpenSSL, !OpenSSLLaws}.
Abbreviation sec := (M (ustate (ctx := rdp_standard_security_context * provider))).

(** [m] from the context [c] appends [l] and leaves [c'], or an allocation or
    the provider made it fail. *)
Definition Protects {A} (m : sec A) (c : rdp_standard_security_context) (l : list Z) (a : A)
    (c' : rdp_standard_security_context) : Prop :=
  forall b h p, buffer_wf b -> exists r b' h' c2 p', m ((b, h), (c, p)) = (r, ((b', h'), (c2, p'))) /\ buffer_wf b' /\
    ((r = Ok a /\ contents b' = contents b ++ l /\ c2 = c') \/ (exists st, r = Err st)) /\
    (h = [] -> p = [] -> b_length b + blen l <= 2 ^ 63 -> r = Ok a /\ h' = [] /\ p' = []).

Lemma protects_bind {A B} (m : sec A) (k : A -> sec B) c l1 l2 a c1 v c2 :
  Protects m c l1 a c1 -> Protects (k a) c1 l2 v c2 -> Protects (m ≫= k) c (l1 ++ l2) v c2.
Proof.
  intros Hm Hk b h p Hb. destruct (Hm b h p Hb) as (r & b1 & h1 & c1' & p1 & E1 & Hb1 & Hr & Hn).
  rewrite blen_app. pose proof (blen_nonneg l2). destruct Hr as [(-> & Hc1 & ->)|[st ->]].
  - rewrite (bind_ok _ _ _ _ _ E1). destruct (Hk b1 h1 p1 Hb1) as (r2 & b2 & h2 & c2' & p2 & E2 & Hb2 & Hr2 & Hn2).
    exists r2, b2, h2, c2', p2. split; [done|]. split; [done|]. split.
    + destruct Hr2 as [(-> & Hc2 & ->)|Hr2]; [left|by right]. by rewrite Hc2, Hc1, <- app_assoc.
    + intros Hh Hp Hl. destruct (Hn Hh Hp ltac:(lia)) as (_ & -> & ->). apply Hn2; [done|done|].
      pose proof (blen_contents b1 Hb1) as E. rewrite Hc1, blen_app, blen_contents in E by done. lia.
  - rewrite (bind_err _ _ _ _ _ E1). exists (Err st), b1, h1, c1', p1. split; [done|]. split; [done|].
    split; [right; by exists st|]. intros Hh Hp Hl. by destruct (Hn Hh Hp ltac:(lia)).
Qed.
Lemma protects_nil {A} (m : sec A) c l1 a c1 : Protects m c (l1 ++ []) a c1 -> Protects m c l1 a c1.
Proof. by rewrite app_nil_r. Qed.
Lemma protects_require {A} (k : unit -> sec A) cond st c l a c1 :
  cond = true -> Protects (k tt) c l a c1 -> Protects (require cond st ≫= k) c l a c1.
Proof. by intros ->. Qed.
Lemma protects_gets {A} (k : rdp_standard_security_context -> sec A) c l a c1 :
  Protects (k c) c l a c1 -> Protects (gets (fun s => s.2.1) ≫= k) c l a c1.
Proof. intros Hk b h p Hb. rewrite bind_gets. by apply Hk. Qed.
Lemma protects_context {A} (m : M (rdp_standard_security_context * provider) A) c a c1 :
  Computes m c a c1 -> Protects (on_context m) c [] a c1.
Proof.
  intros Hm b h p Hb. destruct (Hm p) as (r & c2 & p' & E & Hr & Hn).
  exists r, b, h, c2, p'. rewrite (on_context_run m _ _ _ _ E), app_nil_r. split; [done|]. split; [done|]. split; [tauto|].
  intros Hh Hp _. by destruct (Hn Hp) as [-> ->].
Qed.
Lemma protects_buffer (m : writer unit) c l : Writes m l (fun _ => True) -> Protects (on_buffer m) c l tt c.
Proof.
  intros Hm b h p Hb. destruct (Hm b h Hb) as (r & b' & h' & E & Hb' & Hr & Hn).
  exists r, b', h', c, p. rewrite (on_buffer_run m _ _ _ _ E). split; [done|]. split; [done|]. split.
  - destruct Hr as [([] & -> & _ & Hc)|[-> _]]; [by left|right; by eexists].
  - intros Hh Hp Hl. destruct (Hn Hh Hl) as [Hok ->]. destruct Hr as [([] & -> & _)|[-> _]]; done.
Qed.
(** The payload appended, then encrypted in place. *)
Lemma protects_payload crypt data c t c1 : Computes (crypt data) c t c1 -> Yields (crypt data) (same_size data) ->
  Protects (encrypted_offset ← on_buffer (gets (fun s => b_length s.1));
            on_buffer (rdp_buffer_append (View data));;
            in_place encrypted_offset (blen data) crypt) c t tt c1.
Proof.
  intros Hm Hy b h p Hb.
  rewrite (bind_ok (on_buffer _) _ _ (blen (contents b)) ((b, h), (c, p))) by (by rewrite blen_contents).
  assert (Ht : blen t = blen data).
  { pose proof (Hy (c, [])) as Hs. rewrite (computes_run _ _ _ _ Hm) in Hs. apply Hs. }
  destruct (writes_append data b h Hb) as (r & b1 & h1 & E1 & Hb1 & Hr & Hn).
  destruct Hr as [([] & -> & _ & Hc1)|[-> _]].
  2: { rewrite (bind_err _ _ _ LIBRDP_STATUS_NO_MEMORY ((b1, h1), (c, p))) by (by apply on_buffer_run).
       eexists _, b1, h1, c, p. split; [done|]. split; [done|]. split; [right; by eexists|].
       intros Hh _ Hl. by destruct (Hn Hh ltac:(lia)). }
  rewrite (bind_ok _ _ _ tt ((b1, h1), (c, p))) by (by apply on_buffer_run).
  destruct (Hm p) as (o & c2 & p2 & E2 & Ho & Hn2).
  pose proof (in_place_spec crypt b1 h1 (c, p) _ _ _ _ Hb1 Hc1 Hy E2) as Hi.
  destruct Ho as [[-> ->]|[st ->]].
  - destruct Hi as (b2 & E3 & Hb2 & Hc2 & _). exists (Ok tt), b2, h1, c1, p2. split; [done|]. split; [done|].
    split; [by left|]. intros Hh Hp Hl. destruct (Hn Hh ltac:(lia)) as [_ ->]. by destruct (Hn2 Hp) as [_ ->].
  - exists (Err st), b1, h1, c2, p2. split; [done|]. split; [done|]. split; [right; by eexists|].
    intros _ Hp _. by destruct (Hn2 Hp).
Qed.

(** The packet for [data], and the context after it. *)
Definition sent_signature (flags : Z) (data : list Z) (c : rdp_standard_security_context) : list Z :=
  sc_mac c data (if Z.land flags RDP_SEC_SECURE_CHECKSUM =? 0 then [] else le32 (h_count (sc_encrypt c))).
Definition sent (flags : Z) (data : list Z) (c : rdp_standard_security_context) : list Z :=
  le16 (u16 (Z.lor flags RDP_SEC_ENCRYPT)) ++ le16 0 ++ sent_signature flags data c ++
  half_text (sc_key_len c) (sc_method c) data (sc_encrypt c).
Definition after_sending (data : list Z) (c : rdp_standard_security_context) : rdp_standard_security_context :=
  set_encrypt (half_next (sc_key_len c) (sc_method c) data (sc_encrypt c)) c.

Lemma header_writes f : Writes (rdp_security_write_header f) (le16 f ++ le16 0) (fun _ => True).
Proof. unfold rdp_security_write_header. wstep. eauto with writes. Qed.
Lemma encrypted_protects flags data c : context_ok c -> blen data <= UINT32_MAX ->
  Protects (rdp_security_write_encrypted_pdu flags (View data)) c (sent flags data c) tt (after_sending data c).
Proof.
  intros Hc Hd. unfold rdp_security_write_encrypted_pdu. apply protects_require; [done|]. apply protects_gets.
  change (sent flags data c) with ([] ++ sent flags data c).
  apply (protects_bind _ _ _ _ _ (sent_signature flags data c) c).
  { apply protects_context. unfold sent_signature. destruct (Z.land flags RDP_SEC_SECURE_CHECKSUM =? 0); cbn [negb].
    - by apply computes_mac.
    - by apply computes_salted_mac. }
  unfold sent. rewrite app_assoc. eapply protects_bind; [apply protects_buffer, header_writes|].
  eapply protects_bind; [apply protects_buffer; eauto with writes|].
  apply (protects_payload rdp_security_encrypt_payload); [by apply computes_encrypt|apply yields_encrypt].
Qed.
End sending.

(** ** Packets from one end to the other *)

Section receiving.
Context `{OpenSSL, !OpenSSLLaws}.
Abbreviation context := rdp_standard_security_context.

Lemma u16_encrypt flags : is_u16 flags -> u16 (Z.lor flags RDP_SEC_ENCRYPT) = Z.lor flags RDP_SEC_ENCRYPT.
Proof.
  intros Hf. unfold u16. apply Z.mod_small. split; [apply Z.lor_nonneg; unfold is_u16, RDP_SEC_ENCRYPT in *; lia|].
  change 0x10000 with (2 ^ 16). destruct (Z.eq_dec flags 0) as [->|]; [done|].
  apply Z.log2_lt_pow2; [|rewrite Z.log2_lor by (unfold is_u16, RDP_SEC_ENCRYPT in *; lia)].
  - assert (Z.lor flags RDP_SEC_ENCRYPT <> 0) by (intros [? _]%Z.lor_eq_0_iff; done).
    assert (0 <= Z.lor flags RDP_SEC_ENCRYPT) by (apply Z.lor_nonneg; unfold is_u16, RDP_SEC_ENCRYPT in *; lia). lia.
  - apply Z.max_lub_lt; [|done]. apply Z.log2_lt_pow2; unfold is_u16 in *; lia.
Qed.
Lemma encrypt_flag flags : has_flag (Z.lor flags RDP_SEC_ENCRYPT) RDP_SEC_ENCRYPT = true.
Proof.
  unfold has_flag. rewrite Z.land_lor_distr_l, Z.land_diag. apply negb_true_iff, Z.eqb_neq.
  by intros [_ ?]%Z.lor_eq_0_iff.
Qed.
Lemma checksum_flag flags : Z.land (Z.lor flags RDP_SEC_ENCRYPT) RDP_SEC_SECURE_CHECKSUM = Z.land flags RDP_SEC_SECURE_CHECKSUM.
Proof. rewrite Z.land_lor_distr_l. change (Z.land RDP_SEC_ENCRYPT RDP_SEC_SECURE_CHECKSUM) with 0. apply Z.lor_0_r. Qed.

Lemma blen_mac k data suffix : blen (mac k data suffix) = 8.
Proof. unfold mac. rewrite blen_ztake; rewrite ?md5_size; lia. Qed.
Lemma split_sent flags data c : is_u16 flags ->
  split_pdu true (sent flags data c) =
    Ok (Z.lor flags RDP_SEC_ENCRYPT, sent_signature flags data c, half_text (sc_key_len c) (sc_method c) data (sc_encrypt c)).
Proof.
  intros Hf. unfold sent. rewrite split_pdu_eq by (unfold is_u16, u16; try split; try apply Z.mod_pos_bound; lia).
  rewrite u16_encrypt, encrypt_flag by done. cbn [negb Z.eqb].
  pose proof (blen_mac (ztake (sc_key_len c) (sc_sign_key c)) data
    (if Z.land flags RDP_SEC_SECURE_CHECKSUM =? 0 then [] else le32 (h_count (sc_encrypt c)))) as Hm.
  fold (sc_mac c) in Hm. fold (sent_signature flags data c) in Hm.
  destruct (Z.ltb_spec (blen (sent_signature flags data c ++ half_text (sc_key_len c) (sc_method c) data (sc_encrypt c))) 8) as [Hl|_].
  { rewrite blen_app, Hm in Hl. zlen. }
  by rewrite <- Hm, ztake_app_blen, zdrop_app_blen.
Qed.

(** Decryption undoes encryption, and leaves the stream where encryption did. *)
Lemma half_undo n m data h : valid_key_len n = true -> half_ok h -> bytes data ->
  half_text n m (half_text n m data h) h = data /\ half_next n m (half_text n m data h) h = half_next n m data h.
Proof.
  intros Hn Hh Hd. destruct (turned_ok n m h Hn Hh) as [(_ & _ & _ & c & Hc) _].
  unfold half_text, half_next, stream_run. rewrite Hc. cbn. by rewrite rc4_undo.
Qed.
Lemma blen_half_text n m data h : blen (half_text n m data h) = blen data.
Proof. unfold half_text, stream_run. destruct (rc4_cipher _) as [[c|]|]; [apply rc4_size|done|done]. Qed.
Lemma half_next_count n m data h : half_ok h ->
  h_count (half_next n m data h) = (if h_count h =? 4096 then 0 else h_count h) + 1.
Proof.
  intros (_ & _ & Hc & _). unfold half_next, turned. destruct (Z.leb_spec 4096 (h_count h)); cbn.
  - by replace (h_count h) with 4096 by lia.
  - destruct (Z.eqb_spec (h_count h) 4096); [lia|done].
Qed.

Definition after_receiving (data : list Z) (c : context) : context :=
  set_decrypt (half_next (sc_key_len c) (sc_method c) data (sc_decrypt c)) c.
Lemma after_peers data a b : peers a b -> peers (after_sending data a) (after_receiving data b).
Proof. intros (H1 & H2 & H3 & H4 & H5). unfold peers, after_sending, after_receiving. cbn. by rewrite H1, H2, H3, H4, H5. Qed.
Lemma after_sending_ok data a : context_ok a -> context_ok (after_sending data a).
Proof. intros (H1 & H2 & H3 & H4). unfold context_ok, after_sending. cbn. split_and!; try done. by apply half_next_ok. Qed.
Lemma peers_ok a b : peers a b -> context_ok a -> context_ok b.
Proof. intros (H1 & H2 & H3 & H4 & H5). unfold context_ok. rewrite H1, H2, H4, H5. tauto. Qed.

(** The signature the receiver computes for the text of a packet. *)
Definition checked_signature (flags : Z) (data : list Z) (a : context) : list Z :=
  sc_mac a data (if Z.land flags RDP_SEC_SECURE_CHECKSUM =? 0 then []
                 else le32 (if h_count (sc_encrypt a) =? 4096 then 0 else h_count (sc_encrypt a))).
Lemma computes_received flags data a b : peers a b -> context_ok a -> blen data <= UINT32_MAX ->
  Computes (received_signature (Z.lor flags RDP_SEC_ENCRYPT) data (after_receiving data b)) (after_receiving data b)
    (checked_signature flags data a) (after_receiving data b).
Proof.
  intros Hp Ha Hd. pose proof (peers_ok _ _ (after_peers data a b Hp) (after_sending_ok data a Ha)) as Hb'.
  pose proof Hp as (H1 & H2 & H3 & H4 & H5). pose proof Ha as (_ & _ & He & _).
  unfold received_signature, checked_signature. rewrite checksum_flag.
  assert (Hm : forall suffix, sc_mac a data suffix = sc_mac (after_receiving data b) data suffix).
  { intros suffix. unfold sc_mac, after_receiving. cbn. by rewrite H1, H2. }
  destruct (Z.land flags RDP_SEC_SECURE_CHECKSUM =? 0); rewrite Hm; [by apply computes_mac|].
  cbn [after_receiving set_decrypt sc_decrypt]. rewrite H4, H2, H3, half_next_count by done.
  pose proof He as (_ & _ & Hc & _).
  set (n := if h_count (sc_encrypt a) =? 4096 then 0 else h_count (sc_encrypt a)) in *.
  assert (Hn : 0 <= n <= 4096) by (subst n; case_match; lia).
  destruct (Z.eqb_spec (n + 1) 0); [lia|]. rewrite Z.add_simpl_r. unfold u32. rewrite Z.mod_small by lia.
  by apply computes_salted_mac.
Qed.
End receiving.

(** ** Sessions *)

Section sessions.
Context `{OpenSSL}.
Abbreviation context := rdp_standard_security_context.

(** One packet: the first context writes [payload] into an empty buffer, the
    second unwraps what was written into another one; the result is the packet,
    and the flags and the bytes that arrive.  No allocation and no call of the
    provider fails. *)
Definition quiet (c : context) : ustate (ctx := context * provider) := ((rdp_buffer_init, []), (c, [])).
Definition transfer (flags : Z) (payload : list Z) : M (context * context) (list Z * (Z * list Z)) := fun '(sender, receiver) =>
  match rdp_security_write_encrypted_pdu flags (View payload) (quiet sender) with
  | (Ok tt, ((packet, _), (sender, _))) =>
      match rdp_security_unwrap_pdu true (View (contents packet)) (quiet receiver) with
      | (Ok flags, ((output, _), (receiver, _))) => (Ok (contents packet, (flags, contents output)), (sender, receiver))
      | (Err st, (_, (receiver, _))) => (Err st, (sender, receiver))
      | (Fault, (_, (receiver, _))) => (Fault, (sender, receiver))
      end
  | (Err st, (_, (sender, _))) => (Err st, (sender, receiver))
  | (Fault, (_, (sender, _))) => (Fault, (sender, receiver))
  end.

(** A message of the client or of the server. *)
Record message := mk_message { m_from_client : bool; m_flags : Z; m_payload : list Z }.
Definition swapped {A} (m : M (context * context) A) : M (context * context) A := fun '(a, b) =>
  let '(r, (b, a)) := m (b, a) in (r, (a, b)).
Definition deliver (m : message) : M (context * context) (list Z * (Z * list Z)) :=
  if m_from_client m then transfer (m_flags m) (m_payload m) else swapped (transfer (m_flags m) (m_payload m)).

(** The state is the context of the client and that of the server. *)
Fixpoint session (ms : list message) : M (context * context) (list (list Z * (Z * list Z))) :=
  match ms with
  | [] => mret []
  | m :: ms => x ← deliver m; xs ← session ms; mret (x :: xs)
  end.

Definition message_ok (m : message) : Prop :=
  is_u16 (m_flags m) /\ bytes (m_payload m) /\ blen (m_payload m) <= UINT32_MAX.
Definition checksummed (m : message) : bool := negb (Z.land (m_flags m) RDP_SEC_SECURE_CHECKSUM =? 0).
(** What arrives. *)
Definition received (m : message) : Z * list Z := (Z.lor (m_flags m) RDP_SEC_ENCRYPT, m_payload m).

(** A key serves 4096 packets: the position of the next packet among those of
    its key, after [k] packets of the direction. *)
Definition use_count (k : nat) : Z := if Nat.eqb k 0 then 0 else (Z.of_nat k - 1) mod 4096 + 1.
(** The packet that has a salted signature is not the one that turns the key. *)
Definition turns_key (k : nat) : bool := use_count k =? 4096.
Fixpoint no_salt_at_turn (from_client from_server : nat) (ms : list message) : Prop :=
  match ms with
  | [] => True
  | m :: ms =>
      (checksummed m = true -> turns_key (if m_from_client m then from_client else from_server) = false) /\
      (if m_from_client m then no_salt_at_turn (S from_client) from_server ms
       else no_salt_at_turn from_client (S from_server) ms)
  end.

(** Under what key a direction goes on after [k] packets, counted from its first
    key, and under what key its last packet was. *)
Definition epoch (k : nat) : Z := Z.of_nat k / 4096.
Definition last_epoch (k : nat) : Z := Z.max 0 ((Z.of_nat k - 1) / 4096).
Definition epoch_key (n method : Z) (key : list Z) (e : Z) : list Z :=
  Nat.iter (Z.to_nat e) (next_key key n method) key.
(** A direction under its key [e], a fresh stream of which took [texts]. *)
Definition key_stream (n : Z) (key : list Z) (texts : list (list Z)) : rc4 :=
  (rc4_run (rc4_schedule (ztake n key)) (concat texts)).2.
Definition half_at (n method : Z) (key : list Z) (e count : Z) (texts : list (list Z)) : half :=
  mk_half (epoch_key n method key e) key count (keyed (key_stream n (epoch_key n method key e) texts)).

(** A direction that began with [key], after the payloads [texts]; and the bytes
    that carry the next payload. *)
Definition half_after (n method : Z) (key : list Z) (texts : list (list Z)) : half :=
  let e := last_epoch (length texts) in
  half_at n method key e (use_count (length texts)) (zdrop (4096 * e) texts).
Definition wire_text (n method : Z) (key : list Z) (texts : list (list Z)) (data : list Z) : list Z :=
  let e := epoch (length texts) in
  (rc4_run (key_stream n (epoch_key n method key e) (zdrop (4096 * e) texts)) data).1.

(** The context that began as [c], after it sent [out] and received [inn]; and the
    packet it then makes of a message. *)
Definition context_after (c : context) (out inn : list (list Z)) : context :=
  mk_security_context (sc_sign_key c) (sc_key_len c) (sc_method c)
    (half_after (sc_key_len c) (sc_method c) (h_key (sc_encrypt c)) out)
    (half_after (sc_key_len c) (sc_method c) (h_key (sc_decrypt c)) inn).
Definition packet_of (c : context) (out : list (list Z)) (m : message) : list Z :=
  le16 (Z.lor (m_flags m) RDP_SEC_ENCRYPT) ++ le16 0 ++
  sc_mac c (m_payload m) (if checksummed m then le32 (use_count (length out)) else []) ++
  wire_text (sc_key_len c) (sc_method c) (h_key (sc_encrypt c)) out (m_payload m).
(** The packets of a session that goes on after the payloads [cs] and [ss]. *)
Fixpoint packets (client server : context) (cs ss : list (list Z)) (ms : list message) : list (list Z) :=
  match ms with
  | [] => []
  | m :: ms =>
      if m_from_client m then packet_of client cs m :: packets client server (cs ++ [m_payload m]) ss ms
      else packet_of server ss m :: packets client server cs (ss ++ [m_payload m]) ms
  end.
(** What one side sends in a session. *)
Definition payloads (from_client : bool) (ms : list message) : list (list Z) :=
  m_payload <$> List.filter (fun m => Bool.eqb (m_from_client m) from_client) ms.

Lemma use_count_bound k : 0 <= use_count k <= 4096.
Proof. unfold use_count. case_match; [lia|]. pose proof (Z.mod_pos_bound (Z.of_nat k - 1) 4096). lia. Qed.
Lemma use_count_next k : use_count (S k) = (if use_count k =? 4096 then 0 else use_count k) + 1.
Proof.
  unfold use_count. destruct (Nat.eqb_spec k 0) as [->|Hk]; [done|]. cbn [Nat.eqb].
  destruct (Z.eqb_spec ((Z.of_nat k - 1) mod 4096 + 1) 4096); Z.div_mod_to_equations; lia.
Qed.

Lemma turn_epoch k : use_count k = 4096 -> (0 < k)%nat /\ epoch k = last_epoch k + 1 /\ 4096 * epoch k = Z.of_nat k.
Proof.
  unfold use_count, epoch, last_epoch. destruct (Nat.eqb_spec k 0) as [->|Hk]; [done|].
  intros H'. split; [lia|]. rewrite Z.max_r by (apply Z.div_pos; lia). Z.div_mod_to_equations; lia.
Qed.
Lemma same_epoch k : use_count k <> 4096 -> epoch k = last_epoch k /\ use_count k = Z.of_nat k - 4096 * epoch k.
Proof.
  unfold use_count, epoch, last_epoch. destruct (Nat.eqb_spec k 0) as [->|Hk]; [done|].
  intros H'. rewrite Z.max_r by (apply Z.div_pos; lia). Z.div_mod_to_equations; lia.
Qed.
Lemma next_epoch k : last_epoch (S k) = epoch k /\ use_count (S k) = Z.of_nat k - 4096 * epoch k + 1.
Proof.
  unfold use_count, epoch, last_epoch. cbn [Nat.eqb]. replace (Z.of_nat (S k) - 1) with (Z.of_nat k) by lia.
  rewrite Z.max_r by (apply Z.div_pos; lia). Z.div_mod_to_equations; lia.
Qed.
Lemma epoch_bounds k : 0 <= epoch k /\ 4096 * epoch k <= Z.of_nat k.
Proof. unfold epoch. split; [apply Z.div_pos; lia|]. Z.div_mod_to_equations; lia. Qed.

Context `{!OpenSSLLaws}.

Lemma sent_bytes flags data a : context_ok a -> bytes data -> bytes (sent flags data a).
Proof.
  intros Ha Hd. unfold sent, sent_signature, sc_mac, mac, half_text, stream_run.
  repeat apply Forall_app_2; try apply bytes_le16; [apply Forall_ztake, md5_bytes|].
  destruct (rc4_cipher _) as [[c|]|]; [by apply rc4_bytes|done|done].
Qed.
Lemma opened_sent flags data a b : peers a b -> context_ok a -> is_u16 flags -> bytes data -> blen data <= UINT32_MAX ->
  opened true (sent flags data a) (b, []) =
    (if bool_decide (sent_signature flags data a = checked_signature flags data a)
     then Ok (Z.lor flags RDP_SEC_ENCRYPT, data) else Err LIBRDP_STATUS_PROTOCOL_ERROR,
     (after_receiving data b, [])).
Proof.
  intros Hp Ha Hf Hd Hl. unfold opened. rewrite bind_lift, split_sent by done. rewrite encrypt_flag.
  pose proof Hp as (H1 & H2 & H3 & H4 & H5). pose proof Ha as (Hk & _ & He & _).
  destruct (half_undo (sc_key_len a) (sc_method a) data (sc_encrypt a) Hk He Hd) as [Ht Hx].
  pose proof (computes_decrypt (half_text (sc_key_len a) (sc_method a) data (sc_encrypt a)) b (peers_ok a b Hp Ha)) as Hc.
  rewrite H2, H3, H4, Ht, Hx in Hc. unfold verified. rewrite (bind_ok _ _ _ _ _ (computes_run _ _ _ _ Hc)), bind_gets.
  assert (set_decrypt (half_next (sc_key_len a) (sc_method a) data (sc_encrypt a)) b = after_receiving data b) as ->.
  { unfold after_receiving. by rewrite H2, H3, H4. }
  cbn [fst]. rewrite (bind_ok _ _ _ _ _ (computes_run _ _ _ _ (computes_received flags data a b Hp Ha Hl))), bind_require.
  by case_bool_decide.
Qed.
Lemma transfer_spec flags data a b : peers a b -> context_ok a -> is_u16 flags -> bytes data -> blen data <= UINT32_MAX ->
  transfer flags data (a, b) =
    (if bool_decide (sent_signature flags data a = checked_signature flags data a)
     then Ok (sent flags data a, (Z.lor flags RDP_SEC_ENCRYPT, data)) else Err LIBRDP_STATUS_PROTOCOL_ERROR,
     (after_sending data a, after_receiving data b)).
Proof.
  intros Hp Ha Hf Hd Hl. unfold transfer.
  destruct (encrypted_protects flags data a Ha Hl rdp_buffer_init [] [] buffer_init_wf)
    as (r & o & h & a' & p & E & Ho & Hr & Hn).
  assert (Hs : blen (sent flags data a) <= blen data + 12).
  { unfold sent. rewrite !blen_app, blen_half_text, !blen_le16. unfold sent_signature. unfold sc_mac.
    rewrite blen_mac. lia. }
  destruct (Hn eq_refl eq_refl) as (-> & -> & ->).
  { change (b_length rdp_buffer_init) with 0. unfold UINT32_MAX in *. lia. }
  destruct Hr as [(_ & Hc & ->)|[st ?]]; [|done]. rewrite (E : rdp_security_write_encrypted_pdu flags (View data) (quiet a) = _).
  rewrite contents_init in Hc. cbn [app] in Hc.
  rewrite Hc.
  destruct (unwrap_spec true (sent flags data a) rdp_buffer_init [] (b, []) buffer_init_wf (sent_bytes flags data a Ha Hd))
    as (r2 & o2 & h2 & s2 & E2 & Ho2 & _ & Hr2).
  destruct (Hr2 eq_refl) as (-> & -> & Hu).
  { change (b_length rdp_buffer_init) with 0. unfold UINT32_MAX in *. lia. }
  rewrite (E2 : rdp_security_unwrap_pdu true (View (sent flags data a)) (quiet b) = _).
  rewrite (opened_sent flags data a b) in * by done. cbn [fst snd] in *.
  destruct (bool_decide _); cbn [unwraps] in Hu; destruct Hu as [-> Hc2]; [|done]. by rewrite Hc2.
Qed.
End sessions.

Section unknown.
Context `{OpenSSLLaws}.
#[export] Instance known_method_dec method : Decision (known_method method).
Proof. unfold known_method. apply _. Defined.
Lemma apply_method_unknown s e d method : ~ known_method method ->
  rdp_security_apply_method s e d method = Err LIBRDP_STATUS_UNSUPPORTED.
Proof.
  intros Hm. unfold rdp_security_apply_method, known_method in *.
  repeat (match goal with |- context [?x =? ?y] => destruct (Z.eqb_spec x y); [naive_solver|] end). done.
Qed.
(** A call that fails in the end whatever the provider does. *)
Definition Fails {S A} (m : M S A) : Prop := forall s, exists st, (m s).1 = Err st.
Lemma fails_bind {S A B} (m : M S A) (k : A -> M S B) (P : A -> Prop) :
  Yields m P -> (forall a, P a -> Fails (k a)) -> Fails (m ≫= k).
Proof.
  intros Hm Hk s. specialize (Hm s). destruct (m s) as [[a|st|] s'] eqn:E; [| |done].
  - rewrite (bind_ok _ _ _ _ _ E). by apply Hk.
  - rewrite (bind_err _ _ _ _ _ E). by exists st.
Qed.
Lemma yields_salted_hash {S} secret label r1 r2 : Yields (S := S * provider) (rdp_salted_hash secret label r1 r2) (fun _ => True).
Proof. unfold rdp_salted_hash. ystep. apply yields_next; [apply yields_digest|]. intros ?. apply yields_digest. Qed.
Lemma yields_triplet {S} s a b c r1 r2 : Yields (S := S * provider) (rdp_secret_triplet s a b c r1 r2) (fun _ => True).
Proof.
  unfold rdp_secret_triplet. do 3 (apply yields_next; [apply yields_salted_hash|intros ?]). by apply yields_ret.
Qed.
Lemma init_keys_unknown method cr sr server : ~ known_method method -> Fails (init_keys method cr sr server).
Proof.
  intros Hm. unfold init_keys. cbv zeta. do 2 (eapply fails_bind; [apply yields_triplet|intros ? _]).
  do 2 (eapply fails_bind; [apply yields_digest|intros ? _]). destruct server; intros s;
    rewrite (bind_err (lift _) _ s LIBRDP_STATUS_UNSUPPORTED s) by (unfold lift; by rewrite apply_method_unknown);
    by eexists.
Qed.
Lemma init_direction_unknown method cr sr server c p : ~ known_method method ->
  exists st c' p', rdp_security_standard_init_direction method cr sr server (c, p) = (Err st, (c', p')) /\
    (c' = rdp_security_standard_clear \/ ((method = 0 \/ method = RDP_SECURITY_METHOD_FIPS) /\ c' = c)).
Proof.
  intros Hm. unfold rdp_security_standard_init_direction. rewrite bind_require.
  destruct (Z.eqb_spec method 0), (Z.eqb_spec method RDP_SECURITY_METHOD_FIPS); cbn [orb negb]; try (by eexists _, c, p; eauto).
  rewrite (bind_ok (put _) _ _ tt (rdp_security_standard_clear, p)) by done. unfold clear_on_error.
  destruct (init_keys_unknown method cr sr server Hm (rdp_security_standard_clear, p)) as [st E].
  destruct (init_keys method cr sr server _) as [r [c' p']]. cbn in E. subst r. by eexists _, _, p'; eauto.
Qed.
End unknown.

(** ** Properties *)

Section security_properties.
Context `{OpenSSLLaws}.
Abbreviation context := rdp_standard_security_context.

(** C25: the initialisation, for any state of the context and any outcomes of the
    provider: a success is one of the three methods and gives the derived
    context; a failure leaves a cleared context, or, for the methods refused at
    once, the one there was; with a working provider the three methods
    succeed.  The two ends then decrypt each what the other encrypts. *)
Theorem security_init_derives method client_random server_random server c p :
  blen client_random = 32 -> blen server_random = 32 ->
  (exists r c' p', rdp_security_standard_init_direction method client_random server_random server (c, p) = (r, (c', p')) /\
    match r with
    | Ok _ => known_method method /\ c' = initial_context method client_random server_random server
    | Err _ => c' = rdp_security_standard_clear \/
        ((method = 0 \/ method = RDP_SECURITY_METHOD_FIPS) /\ c' = c)
    | Fault => False
    end /\
    (known_method method -> p = [] -> r = Ok tt /\ p' = [])) /\
  context_ok (initial_context method client_random server_random server) /\
  peers (initial_context method client_random server_random false) (initial_context method client_random server_random true).
Proof.
  intros Hc Hs. split; [|split; [apply initial_context_ok|done]].
  destruct (decide (known_method method)) as [Hm|Hm].
  - destruct (init_direction_spec method client_random server_random server c p Hm Hc Hs) as (r & c' & p' & E & Hr & Hn).
    exists r, c', p'. split; [done|]. split; [|by intros _]. destruct Hr as [[-> ->]|[[st ->] ->]]; by eauto.
  - destruct (init_direction_unknown method client_random server_random server c p Hm) as (st & c' & p' & E & Hr).
    by eexists (Err st), c', p'.
Qed.
End security_properties.

Section session_properties.
Context `{OpenSSLLaws}.
Abbreviation context := rdp_standard_security_context.

Lemma same_signature flags data a k : h_count (sc_encrypt a) = use_count k ->
  (negb (Z.land flags RDP_SEC_SECURE_CHECKSUM =? 0) = true -> turns_key k = false) ->
  sent_signature flags data a = checked_signature flags data a.
Proof.
  intros Hk Ht. unfold sent_signature, checked_signature, turns_key in *. rewrite Hk.
  destruct (Z.land flags RDP_SEC_SECURE_CHECKSUM =? 0); [done|]. by rewrite Ht.
Qed.
(** A direction goes through its keys: the next packet is the first of a fresh
    key every 4096 packets, and otherwise goes on with the stream. *)
Lemma turned_after n method key texts :
  let k := length texts in
  turned n method (half_after n method key texts) =
    half_at n method key (epoch k) (Z.of_nat k - 4096 * epoch k) (zdrop (4096 * epoch k) texts).
Proof.
  intros k. unfold turned, half_after. fold k. cbn [half_at h_count h_key h_update_key].
  pose proof (use_count_bound k) as Hb. destruct (Z.leb_spec 4096 (use_count k)) as [Hk|Hk].
  - destruct (turn_epoch k ltac:(lia)) as (_ & He & Hd). rewrite Hd, Z.sub_diag.
    assert (Hnil : zdrop (Z.of_nat k) texts = []) by (unfold zdrop; rewrite Nat2Z.id; apply drop_ge; done).
    rewrite Hnil. unfold half_at, key_stream. cbn [concat]. rewrite rc4_nil.
    assert (Hkey : epoch_key n method key (epoch k) = next_key key n method (epoch_key n method key (last_epoch k))).
    { unfold epoch_key. rewrite He, Z.add_1_r, Z2Nat.inj_succ by (unfold last_epoch; lia). done. }
    by rewrite Hkey.
  - destruct (same_epoch k ltac:(lia)) as [He Hc]. by rewrite <- He, <- Hc.
Qed.
Lemma half_text_after n method key texts data :
  half_text n method data (half_after n method key texts) = wire_text n method key texts data.
Proof. unfold half_text. by rewrite turned_after. Qed.
Lemma half_next_after n method key texts data :
  half_next n method data (half_after n method key texts) = half_after n method key (texts ++ [data]).
Proof.
  unfold half_next. rewrite turned_after. unfold half_after. rewrite length_app, Nat.add_1_r.
  destruct (next_epoch (length texts)) as [-> ->], (epoch_bounds (length texts)) as [He1 He2].
  unfold half_at, stream_run, keyed, key_stream. cbn.
  unfold zdrop. rewrite drop_app_le by lia. rewrite concat_app, rc4_app. cbn [concat snd]. by rewrite app_nil_r.
Qed.
Lemma half_after_ok n method key texts : valid_key_len n = true -> blen key = 16 ->
  half_ok (half_after n method key texts).
Proof.
  intros Hn Hk. pose proof (use_count_bound (length texts)). split; [|split; [done|split; [done|by eexists]]].
  cbn [half_after half_at h_key]. unfold epoch_key. induction (Z.to_nat _) as [|e IH]; [done|]. by apply blen_next_key.
Qed.

(** The two ends of a session. *)
Lemma context_after_ok c out inn : context_ok c -> context_ok (context_after c out inn).
Proof.
  intros (Hl & Hs & (He & _) & (Hd & _)). split; [done|]. split; [done|]. by split; apply half_after_ok.
Qed.
Lemma context_after_peers a b out inn : peers a b -> peers (context_after a out inn) (context_after b inn out).
Proof. intros (H1 & H2 & H3 & H4 & H5). unfold peers, context_after. cbn. by rewrite H1, H2, H3, H4, H5. Qed.
Lemma after_sending_text data c out inn :
  after_sending data (context_after c out inn) = context_after c (out ++ [data]) inn.
Proof. unfold after_sending, context_after, set_encrypt. cbn. by rewrite half_next_after. Qed.
Lemma after_receiving_text data c out inn :
  after_receiving data (context_after c out inn) = context_after c out (inn ++ [data]).
Proof. unfold after_receiving, context_after, set_decrypt. cbn. by rewrite half_next_after. Qed.
Lemma sent_packet c out inn m : is_u16 (m_flags m) ->
  sent (m_flags m) (m_payload m) (context_after c out inn) = packet_of c out m.
Proof.
  intros Hf. unfold sent, packet_of. rewrite u16_encrypt by done. unfold sent_signature, checksummed.
  cbn [context_after sc_key_len sc_method sc_encrypt sc_sign_key]. rewrite half_text_after.
  by destruct (Z.land (m_flags m) RDP_SEC_SECURE_CHECKSUM =? 0).
Qed.
Lemma initial_after method cr sr server :
  context_after (initial_context method cr sr server) [] [] = initial_context method cr sr server.
Proof.
  unfold context_after, half_after, half_at, key_stream, initial_context. cbn. rewrite !rc4_nil.
  by destruct server.
Qed.

(** One packet of a session. *)
Lemma transfer_after m a b out inn : peers a b -> context_ok a -> message_ok m ->
  (checksummed m = true -> turns_key (length out) = false) ->
  transfer (m_flags m) (m_payload m) (context_after a out inn, context_after b inn out) =
    (Ok (packet_of a out m, received m),
     (context_after a (out ++ [m_payload m]) inn, context_after b inn (out ++ [m_payload m]))).
Proof.
  intros Hp Ha (Hf & Hd & Hl) Ht. pose proof (context_after_ok a out inn Ha) as Ha'.
  rewrite (transfer_spec _ _ _ _ (context_after_peers a b out inn Hp) Ha' Hf Hd Hl).
  rewrite bool_decide_eq_true_2, sent_packet, after_sending_text, after_receiving_text by
    (done || by apply (same_signature _ _ _ (length out))). done.
Qed.
Lemma session_after ms a b cs ss : peers a b -> context_ok a -> Forall message_ok ms ->
  no_salt_at_turn (length cs) (length ss) ms ->
  session ms (context_after a cs ss, context_after b ss cs) =
    (Ok (zip (packets a b cs ss ms) (received <$> ms)),
     (context_after a (cs ++ payloads true ms) (ss ++ payloads false ms),
      context_after b (ss ++ payloads false ms) (cs ++ payloads true ms))).
Proof.
  intros Hp Ha. revert cs ss. induction ms as [|m ms IH]; intros cs ss Hms Ht.
  { unfold payloads. cbn. by rewrite !app_nil_r. }
  apply Forall_cons_iff in Hms as [Hm Hms]. cbn [no_salt_at_turn session packets] in *. destruct Ht as [Hsalt Ht].
  unfold deliver, payloads in *. cbn [List.filter]. destruct (m_from_client m); cbn [Bool.eqb].
  - rewrite (bind_ok _ _ _ _ _ (transfer_after m a b cs ss Hp Ha Hm Hsalt)).
    rewrite (bind_ok _ _ _ _ _ (IH (cs ++ [m_payload m]) ss Hms ltac:(by rewrite length_app, Nat.add_1_r))).
    by rewrite fmap_cons, <- app_assoc.
  - pose proof (transfer_after m b a ss cs (peers_sym _ _ Hp) (peers_ok _ _ Hp Ha) Hm Hsalt) as E.
    rewrite (bind_ok (swapped _) _ _ (packet_of b ss m, received m)
      (context_after a cs (ss ++ [m_payload m]), context_after b (ss ++ [m_payload m]) cs)) by (unfold swapped; by rewrite E).
    rewrite (bind_ok _ _ _ _ _ (IH cs (ss ++ [m_payload m]) Hms ltac:(by rewrite length_app, Nat.add_1_r))).
    by rewrite fmap_cons, <- app_assoc.
Qed.

(** C1: a session under Standard Security: from the same method and randoms both
    ends initialise, and then any sequence of packets in both directions, each of
    fewer than 2^32 bytes, however interleaved and however long the sequence,
    arrives in order and unchanged, across every key update, as long as no
    allocation and no call of the provider fails.  Every packet on the wire is
    given: packet [k] of a direction, counted from 0, is encrypted under key
    [k / 4096] of the direction, the keys being the session key and its successive
    updates, with a fresh RC4 stream that only the packets of that key before it
    went through; so no key serves more than 4096 packets.  So are the contexts
    both ends have in the end.  Of the packets with a salted signature those that
    come first under an updated key are excepted. *)
Theorem security_session_delivers method client_random server_random ms c1 c2 :
  known_method method -> blen client_random = 32 -> blen server_random = 32 ->
  Forall message_ok ms -> no_salt_at_turn 0 0 ms ->
  let a := initial_context method client_random server_random false in
  let b := initial_context method client_random server_random true in
  rdp_security_standard_client_init method client_random server_random (c1, []) = (Ok tt, (a, [])) /\
  rdp_security_standard_server_init method client_random server_random (c2, []) = (Ok tt, (b, [])) /\
  session ms (a, b) =
    (Ok (zip (packets a b [] [] ms) (received <$> ms)),
     (context_after a (payloads true ms) (payloads false ms),
      context_after b (payloads false ms) (payloads true ms))).
Proof.
  intros Hm Hc Hs Hms Ht.
  assert (Hi : forall c server, rdp_security_standard_init_direction method client_random server_random server (c, []) =
    (Ok tt, (initial_context method client_random server_random server, []))).
  { intros c server. destruct (init_direction_spec method client_random server_random server c [] Hm Hc Hs)
      as (r & c' & p' & E & Hr & Hn). destruct (Hn eq_refl) as [-> ->].
    destruct Hr as [[_ ->]|[[st ?] _]]; [exact E|done]. }
  split; [apply Hi|]. split; [apply Hi|].
  pose proof (session_after ms _ _ [] [] (initial_peers method client_random server_random)
    (initial_context_ok _ _ _ _) Hms Ht) as E. by rewrite !initial_after in E.
Qed.

(** C26: when the packet that turns the key, the first after 4096, has a salted
    signature, it is refused, although nothing is wrong with it: the sender signs
    with the count 4096, before it updates the key, and the receiver checks with
    the count 0, after it did, and the packet is refused whenever these two
    signatures differ.  Both ends have then updated the key and are in step again:
    the next packet of the direction, salted or not, arrives, for any payload of
    fewer than 2^32 bytes. *)
Theorem security_salted_turn_refused flags data a b :
  peers a b -> context_ok a -> h_count (sc_encrypt a) = 4096 -> checksummed (mk_message true flags data) = true ->
  is_u16 flags -> bytes data -> blen data <= UINT32_MAX ->
  sc_mac a data (le32 4096) <> sc_mac a data (le32 0) ->
  exists a' b', transfer flags data (a, b) = (Err LIBRDP_STATUS_PROTOCOL_ERROR, (a', b')) /\
    peers a' b' /\ context_ok a' /\
    h_key (sc_encrypt a') = next_key (h_update_key (sc_encrypt a)) (sc_key_len a) (sc_method a) (h_key (sc_encrypt a)) /\
    h_count (sc_encrypt a') = 1 /\
    forall m, message_ok m -> exists wire s,
      transfer (m_flags m) (m_payload m) (a', b') = (Ok (wire, received m), s).
Proof.
  intros Hp Ha Hc Hs Hf Hd Hl Hm. exists (after_sending data a), (after_receiving data b).
  pose proof (after_peers data a b Hp) as Hp'. pose proof (after_sending_ok data a Ha) as Ha'.
  assert (Hc' : h_count (sc_encrypt (after_sending data a)) = 1).
  { cbn [after_sending set_encrypt sc_encrypt]. rewrite half_next_count by apply Ha. by rewrite Hc. }
  split; [|split_and!; try done].
  - rewrite transfer_spec, bool_decide_eq_false_2; try done. unfold sent_signature, checked_signature, checksummed in *.
    cbn [m_flags] in Hs. apply negb_true_iff in Hs. by rewrite Hs, Hc.
  - cbn [after_sending set_encrypt sc_encrypt half_next h_key]. unfold turned. by rewrite Hc.
  - intros m (Hf' & Hd' & Hl').
    rewrite transfer_spec, bool_decide_eq_true_2 by (done || by apply (same_signature _ _ _ 1)). by eexists _, _.
Qed.

(** C2: unwrapping a packet, for any context, provider, heap and bytes: the call
    has no undefined behaviour and does to the buffer what the packet means:
    the text is appended when the packet is plain or its signature is that of
    the decrypted text; in every other case, a failing allocation included, the
    contents are what they were, and no unverified byte is left in them. *)
Theorem security_unwrap_refines secured d b h s r b' h' s' :
  buffer_wf b -> bytes d ->
  rdp_security_unwrap_pdu secured (View d) ((b, h), s) = (r, ((b', h'), s')) ->
  buffer_wf b' /\
  ((r = Err LIBRDP_STATUS_NO_MEMORY /\ h <> [] /\ s' = s /\ contents b' = contents b) \/
   (r = Err LIBRDP_STATUS_NO_MEMORY /\ 2 ^ 63 < b_length b + blen d /\ s' = s /\ contents b' = contents b) \/
   (s' = (opened secured d s).2 /\ unwraps (opened secured d s).1 r (contents b) (contents b'))).
Proof.
  intros Hb Hd E. destruct (unwrap_spec secured d b h s Hb Hd) as (r1 & b1 & h1 & s1 & E1 & Hb1 & Hr & Hn).
  rewrite E1 in E. injection E as -> -> -> ->. split; [done|]. destruct Hr as [(-> & -> & Hc)|Hr]; [|by right; right].
  destruct (decide (2 ^ 63 < b_length b + blen d)) as [Hl|Hl]; [by right; left|].
  destruct (decide (h = [])) as [Hh|Hh]; [|by left]. right. right. by destruct (Hn Hh ltac:(lia)).
Qed.
End session_properties.

(** ** Licensing *)

Section licensing.
Context `{OpenSSLLaws} {S : Type}.

Definition license_text (key data : list Z) : list Z := (rc4_run (rc4_schedule key) data).1.
Lemma computes_license key data (s : S) : blen key = RDP_SECURITY_LICENSE_KEY_LEN ->
  Computes (license_stream key data) s (license_text key data) s.
Proof.
  intros Hk. unfold license_stream. eapply computes_with_local.
  eapply computes_bind; [apply computes_rc4_init; rewrite Hk; done|apply computes_rc4_crypt].
Qed.
Lemma yields_license key data : Yields (S := S * provider) (license_stream key data) (same_size data).
Proof. apply yields_with_local, yields_next; [apply yields_rc4_init|]. intros _. apply yields_rc4_crypt. Qed.

(** C27: the cipher of licensing: the call appends the data, of at most 65535
    bytes, under the key's stream, or leaves the contents as they were, with
    nothing of the data in them; when no allocation and no call of the provider
    fails and the buffer stays under 2^63 bytes it succeeds; more data is refused
    with INVALID_ARGUMENT before anything is done; and the same call with the
    same key undoes it. *)
Theorem license_crypt_involutive key v data b h (s : S) p :
  blen key = RDP_SECURITY_LICENSE_KEY_LEN -> view_bytes v = data -> view_len v = blen data -> bytes data ->
  buffer_wf b ->
  (exists r b' h' p', rdp_security_license_crypt key v ((b, h), (s, p)) = (r, ((b', h'), (s, p'))) /\ buffer_wf b' /\
    match r with
    | Ok _ => contents b' = contents b ++ license_text key data
    | Err _ => contents b' = contents b
    | Fault => False
    end /\
    (if UINT16_MAX <? blen data
     then r = Err LIBRDP_STATUS_INVALID_ARGUMENT /\ b' = b /\ h' = h /\ p' = p
     else h = [] -> p = [] -> b_length b + blen data <= 2 ^ 63 -> r = Ok tt)) /\
  license_text key (license_text key data) = data.
Proof.
  intros Hk Hv Hl Hd Hb. split; [|unfold license_text; by rewrite rc4_undo].
  unfold rdp_security_license_crypt. rewrite bind_require, Hl. destruct (Z.ltb_spec UINT16_MAX (blen data)) as [Hmax|Hmax].
  { rewrite orb_true_r. by exists (Err LIBRDP_STATUS_INVALID_ARGUMENT), b, h, p. }
  assert (negb ((view_null v && (0 <? blen data)) || false) = true) as ->.
  { destruct v; cbn in *; [subst data; cbn in *|]; guard_lia. }
  rewrite (bind_ok (on_buffer _) _ _ (b_length b) ((b, h), (s, p))) by done.
  destruct (append_atomic data v Hv Hl b h Hb) as (r & b1 & h1 & E1 & Hb1 & Hr & Hn). rewrite <- (blen_contents b Hb).
  destruct Hr as [([] & -> & _ & Hc1)|[-> Hc1]].
  2: { destruct (abandon_spec (C := S * provider) (A := unit) b1 h1 (s, p) (contents b) [] LIBRDP_STATUS_NO_MEMORY Hb1)
         as (b2 & E2 & Hb2 & Hc2); [by rewrite app_nil_r|].
       exists (Err LIBRDP_STATUS_NO_MEMORY), b2, h1, p. split; [|split; [done|split; [done|]]].
       - rewrite (catch_err _ _ _ LIBRDP_STATUS_NO_MEMORY ((b1, h1), (s, p))) by (by apply bind_err, on_buffer_run).
         rewrite (bind_ok (on_buffer get_buffer) _ _ b1 ((b1, h1), (s, p))) by done.
         pose proof (blen_contents b1 Hb1) as Hlb. rewrite Hc1 in Hlb. by rewrite <- Hlb, Z.sub_diag.
       - intros Hh _ Hs. rewrite blen_contents in Hs by done. by destruct (Hn Hh Hs). }
  destruct (computes_license key data s Hk p) as (o & s2 & p2 & E2 & Ho & Hn2).
  pose proof (in_place_spec (license_stream key) b1 h1 (s, p) _ _ _ _ Hb1 Hc1 (yields_license key data) E2) as Hi.
  assert (Hs2 : s2 = s).
  { clear -E2. unfold license_stream, with_local in E2. cbn [fst snd] in E2. destruct ((rdp_rc4_init key;; rdp_rc4_crypt data) (rc4_cleared, p)) as [? []]. by injection E2. }
  subst s2. destruct Ho as [[-> _]|[st ->]].
  - destruct Hi as (b2 & E3 & Hb2 & Hc2 & _). exists (Ok tt), b2, h1, p2. split; [|done].
    apply catch_ok. by rewrite (bind_ok _ _ _ tt ((b1, h1), (s, p))) by (by apply on_buffer_run).
  - destruct (abandon_spec (C := S * provider) (A := unit) b1 h1 (s, p2) (contents b) data st Hb1 Hc1) as (b2 & E3 & Hb2 & Hc2).
    exists (Err st), b2, h1, p2. split; [|split; [done|split; [done|]]].
    + rewrite (catch_err _ _ _ st ((b1, h1), (s, p2))) by (by rewrite (bind_ok _ _ _ tt ((b1, h1), (s, p))) by (by apply on_buffer_run)).
      rewrite (bind_ok (on_buffer get_buffer) _ _ b1 ((b1, h1), (s, p2))) by done.
      pose proof (blen_contents b1 Hb1) as Hlb. rewrite Hc1, blen_app in Hlb.
      replace (b_length b1 - blen (contents b)) with (blen data) by lia. exact E3.
    + intros _ Hp _. by destruct (Hn2 Hp).
Qed.
End licensing.

(** ** Witnesses *)

(** A provider for the examples: digests that repeat a sum, and a stream cipher
    that subtracts the text from a counter. *)
Definition sample_sum (l : list Z) : Z := foldr Z.add 0 l mod 256.
Fixpoint sample_run (c : Z) (l : list Z) : list Z * Z :=
  match l with
  | [] => ([], c)
  | b :: l => let '(o, c') := sample_run (c + 1) l in ((c - b) mod 256 :: o, c')
  end.
Definition sample_openssl : OpenSSL := {|
  md5 l := replicate 16 (sample_sum l);
  sha1 l := replicate 20 (sample_sum l);
  rc4 := Z;
  rc4_schedule key := sample_sum key;
  rc4_run := sample_run;
|}.
Lemma sample_openssl_laws : @OpenSSLLaws sample_openssl.
Proof.
  assert (Hb : forall n l, bytes (replicate n (sample_sum l))).
  { intros n l. apply Forall_replicate. unfold sample_sum. split; [|change 0x100 with 256]; apply Z.mod_pos_bound; lia. }
  split; intros; try apply Hb; try (unfold blen; by rewrite length_replicate); cbn [rc4_run sample_openssl] in *; try done.
  - revert c. induction l as [|b l IH]; intros c; [done|]. cbn. specialize (IH (c + 1)).
    destruct (sample_run (c + 1) l) as [o c']. cbn in *. rewrite !blen_cons. lia.
  - revert c. induction l as [|b l IH]; intros c; [by apply Forall_nil_2|]. cbn.
    apply Forall_cons_iff in H as [_ Hl]. specialize (IH Hl (c + 1)). destruct (sample_run (c + 1) l) as [o c']. cbn in *.
    apply Forall_cons_2; [apply Z.mod_pos_bound; lia|done].
  - revert c. induction l as [|b l IH]; intros c; cbn; [by destruct (sample_run c k)|]. rewrite IH.
    destruct (sample_run (c + 1) l) as [o c']. cbn. done.
  - revert c. induction l as [|b l IH]; intros c; [done|]. cbn. apply Forall_cons_iff in H as [Hbt Hl].
    specialize (IH Hl (c + 1)). destruct (sample_run (c + 1) l) as [o c'] eqn:E. cbn in *. rewrite IH. cbn.
    f_equal. f_equal. unfold is_byte in Hbt. Z.div_mod_to_equations. lia.
Qed.
Definition sample_random : list Z := replicate 32 7.

Lemma security_init_derives_witness :
  context_ok (H := sample_openssl) (initial_context (H := sample_openssl) 1 sample_random sample_random true).
Proof.
  apply (@security_init_derives sample_openssl sample_openssl_laws 1 sample_random sample_random true
    (rdp_security_standard_clear (H := sample_openssl)) []); reflexivity.
Defined.
(** Three packets, the first of them with a salted signature. *)
Lemma security_session_delivers_witness :
  let ms := [mk_message false RDP_SEC_SECURE_CHECKSUM [4; 5]; mk_message true 0x40 [1; 2; 3]; mk_message true 0 []] in
  let a := initial_context (H := sample_openssl) 2 sample_random sample_random false in
  let b := initial_context (H := sample_openssl) 2 sample_random sample_random true in
  let c := rdp_security_standard_clear (H := sample_openssl) in
  rdp_security_standard_client_init 2 sample_random sample_random (c, []) = (Ok tt, (a, [])) /\
  rdp_security_standard_server_init 2 sample_random sample_random (c, []) = (Ok tt, (b, [])) /\
  session ms (a, b) =
    (Ok (zip (packets a b [] [] ms) (received <$> ms)),
     (context_after a [[1; 2; 3]; []] [[4; 5]], context_after b [[4; 5]] [[1; 2; 3]; []])).
Proof.
  intros ms a b c. apply (@security_session_delivers sample_openssl sample_openssl_laws 2 sample_random sample_random ms).
  - right. left. reflexivity.
  - reflexivity.
  - reflexivity.
  - repeat apply Forall_cons_2; try apply Forall_nil_2; by_evaluation.
  - repeat split; intros; (discriminate || reflexivity).
Defined.

(** The two ends after 4096 packets of the client. *)
Definition sample_used (server : bool) : rdp_standard_security_context (H := sample_openssl) :=
  let c := initial_context (H := sample_openssl) 2 sample_random sample_random server in
  if server then set_decrypt (set_count 4096 (sc_decrypt c)) c else set_encrypt (set_count 4096 (sc_encrypt c)) c.
Lemma security_salted_turn_refused_witness :
  let a := sample_used false in
  exists a' b',
    transfer (H := sample_openssl) RDP_SEC_SECURE_CHECKSUM [1; 2; 3] (a, sample_used true) =
      (Err LIBRDP_STATUS_PROTOCOL_ERROR, (a', b')) /\
    peers a' b' /\ context_ok a' /\
    h_key (sc_encrypt a') = next_key (H := sample_openssl) (h_update_key (sc_encrypt a)) (sc_key_len a) (sc_method a) (h_key (sc_encrypt a)) /\
    h_count (sc_encrypt a') = 1 /\
    forall m, message_ok m -> exists wire s,
      transfer (H := sample_openssl) (m_flags m) (m_payload m) (a', b') = (Ok (wire, received m), s).
Proof.
  apply (@security_salted_turn_refused sample_openssl sample_openssl_laws RDP_SEC_SECURE_CHECKSUM [1; 2; 3]
    (sample_used false) (sample_used true)).
  - repeat split.
  - split; [reflexivity|]. split; [reflexivity|]. split.
    + repeat split; try discriminate. by eexists.
    + repeat split; try discriminate. by eexists.
  - reflexivity.
  - reflexivity.
  - by_evaluation.
  - by_evaluation.
  - vm_compute. discriminate.
  - vm_compute. discriminate.
Defined.
(** A forged packet: the contents of the output stay [9]. *)
Lemma security_unwrap_refines_witness :
  let d := [0x48; 0; 0; 0; 1; 2; 3; 4; 5; 6; 7; 8; 0xaa; 0xbb] in
  let b := (rdp_buffer_append_u8 9 (rdp_buffer_init, [])).2.1 in
  let c := initial_context (H := sample_openssl) 2 sample_random sample_random true in
  let run := rdp_security_unwrap_pdu (H := sample_openssl) true (View d) ((b, []), (c, [])) in
  run.1 = Err LIBRDP_STATUS_PROTOCOL_ERROR /\
  unwraps (opened (H := sample_openssl) true d (c, [])).1 run.1 [9] (contents run.2.1.1).
Proof.
  intros d b c run. split; [vm_compute; reflexivity|].
  assert (Hrun : run = (run.1, ((run.2.1.1, run.2.1.2), run.2.2))) by (clearbody run; by destruct run as [? [[] ?]]).
  destruct (@security_unwrap_refines sample_openssl sample_openssl_laws true d b [] (c, []) run.1 run.2.1.1 run.2.1.2 run.2.2)
    as (_ & [(Hr & _)|[(_ & Hl & _)|[_ Hu]]]).
  - split; vm_compute; try reflexivity; discriminate.
  - by_evaluation.
  - exact Hrun.
  - vm_compute in Hr. discriminate Hr.
  - vm_compute in Hl. discriminate Hl.
  - exact Hu.
Defined.
Lemma license_crypt_involutive_witness :
  (exists r b' h' p', rdp_security_license_crypt (H := sample_openssl) (replicate 16 3) (View [1; 2; 3])
      ((rdp_buffer_init, [true]), (tt, [true; true; false])) = (r, ((b', h'), (tt, p'))) /\ buffer_wf b' /\
    match r with
    | Ok _ => contents b' = contents rdp_buffer_init ++ license_text (H := sample_openssl) (replicate 16 3) [1; 2; 3]
    | Err _ => contents b' = contents rdp_buffer_init
    | Fault => False
    end /\
    (if UINT16_MAX <? 3
     then r = Err LIBRDP_STATUS_INVALID_ARGUMENT /\ b' = rdp_buffer_init /\ h' = [true] /\ p' = [true; true; false]
     else [true] = [] -> [true; true; false] = [] -> b_length rdp_buffer_init + 3 <= 2 ^ 63 -> r = Ok tt)) /\
  license_text (H := sample_openssl) (replicate 16 3) (license_text (H := sample_openssl) (replicate 16 3) [1; 2; 3]) = [1; 2; 3].
Proof.
  apply (@license_crypt_involutive sample_openssl sample_openssl_laws unit (replicate 16 3) (View [1; 2; 3]) [1; 2; 3]
    rdp_buffer_init [true] tt [true; true; false]).
  - reflexivity.
  - reflexivity.
  - reflexivity.
  - by_evaluation.
  - apply buffer_init_wf.
Defined.
