(* ===== verification/ClientInfo.v ===== *)
(** * ClientInfo: the other messages of [security.c]

    The selection of a security protocol, the client info PDU, plain and
    encrypted, and the send-data request a client wraps its PDUs in.  The text
    of the client info goes through [Charset]. *)

From S2P Require Import Prelude Stream Buffer X224 Mcs Fastpath Codec Charset Security.

Definition RDP_INFO_MOUSE : Z := 0x00000001.
Definition RDP_INFO_DISABLE_CTRL_ALT_DEL : Z := 0x00000002.
Definition RDP_INFO_AUTOLOGON : Z := 0x00000008.
Definition RDP_INFO_UNICODE : Z := 0x00000010.
Definition RDP_INFO_MAXIMIZE_SHELL : Z := 0x00000020.
Definition RDP_INFO_ENABLE_WINDOWS_KEY : Z := 0x00000100.
Definition RDP_INFO_FORCE_ENCRYPTED_CS_PDU : Z := 0x00004000.
Definition RDP_INFO_LOGON_ERRORS : Z := 0x00010000.
Definition RDP_INFO_MOUSE_HAS_WHEEL : Z := 0x00020000.
Definition RDP_X224_PROTOCOL_TLS : Z := 0x00000001.
Definition RDP_X224_PROTOCOL_NLA : Z := 0x00000002.

(** ** The security protocol *)

(** [UNKNOWN]: a value of the enumeration's type that is none of its members. *)
Inductive librdp_security_mode : Set :=
| LIBRDP_SECURITY_AUTO
| LIBRDP_SECURITY_STANDARD
| LIBRDP_SECURITY_TLS
| LIBRDP_SECURITY_NLA
| UNKNOWN_SECURITY (mode : Z).

Definition rdp_security_protocol_mask (mode : librdp_security_mode) : Z :=
  match mode with
  | LIBRDP_SECURITY_STANDARD => RDP_X224_PROTOCOL_STANDARD
  | LIBRDP_SECURITY_TLS => RDP_X224_PROTOCOL_TLS
  | LIBRDP_SECURITY_NLA => RDP_X224_PROTOCOL_NLA
  | LIBRDP_SECURITY_AUTO | UNKNOWN_SECURITY _ => Z.lor RDP_X224_PROTOCOL_TLS RDP_X224_PROTOCOL_NLA
  end.

Definition rdp_security_protocol_supported (selected_protocol : Z) : bool :=
  (selected_protocol =? RDP_X224_PROTOCOL_STANDARD) || (selected_protocol =? RDP_X224_PROTOCOL_TLS) ||
  (selected_protocol =? RDP_X224_PROTOCOL_NLA).

Definition rdp_security_protocol_allowed (mode : librdp_security_mode) (negotiation_present : bool)
    (selected_protocol : Z) : bool :=
  if negb (rdp_security_protocol_supported selected_protocol) then false
  else if negb negotiation_present then match mode with LIBRDP_SECURITY_STANDARD => true | _ => false end
  else match mode with
  | LIBRDP_SECURITY_STANDARD => selected_protocol =? RDP_X224_PROTOCOL_STANDARD
  | LIBRDP_SECURITY_TLS => selected_protocol =? RDP_X224_PROTOCOL_TLS
  | LIBRDP_SECURITY_NLA => selected_protocol =? RDP_X224_PROTOCOL_NLA
  | LIBRDP_SECURITY_AUTO =>
      (selected_protocol =? RDP_X224_PROTOCOL_TLS) || (selected_protocol =? RDP_X224_PROTOCOL_NLA)
  | UNKNOWN_SECURITY _ => false
  end.

(** ** The client info *)

(** C strings, or NULL; the whole structure may be NULL too. *)
Record rdp_client_info := mk_client_info {
  ci_domain : option (list Z);
  ci_username : option (list Z);
  ci_password : option (list Z);
  ci_alternate_shell : option (list Z);
  ci_working_dir : option (list Z);
}.
(** [info ? info->field : NULL] *)
Definition field (info : option rdp_client_info) (f : rdp_client_info -> option (list Z)) : option (list Z) :=
  match info with Some info => f info | None => None end.

Record rdp_client_info_summary := mk_client_info_summary {
  cs_code_page : Z;
  cs_flags : Z;
  cs_domain_bytes : Z;
  cs_username_bytes : Z;
  cs_password_bytes : Z;
  cs_alternate_shell_bytes : Z;
  cs_working_dir_bytes : Z;
}.

Definition rdp_security_write_extended_info : writer unit :=
  rdp_buffer_append_u16_le 2;;
  rdp_buffer_append_u16_le 0;;
  rdp_buffer_append_u16_le 0;;
  rdp_buffer_append (View (replicate 172 0));;
  rdp_buffer_append_u32_le 0;;
  rdp_buffer_append_u32_le 0;;
  rdp_buffer_append_u16_le 0.

Section client_info.
Context `{Iconv}.

Definition rdp_utf16le_text_len (text : option (list Z)) : writer Z :=
  '(_, converted) ← with_local_buffer (rdp_charset_utf8_to_utf16le_buffer text false);
  require (negb (UINT16_MAX <? b_length converted)) LIBRDP_STATUS_INVALID_ARGUMENT;;
  mret (u16 (b_length converted)).

Definition rdp_write_utf16le_text (text : option (list Z)) : writer unit :=
  rdp_charset_utf8_to_utf16le_buffer text true.

Definition rdp_security_write_client_info_body (info : option rdp_client_info) : writer unit :=
  domain_len ← rdp_utf16le_text_len (field info ci_domain);
  username_len ← rdp_utf16le_text_len (field info ci_username);
  password_len ← rdp_utf16le_text_len (field info ci_password);
  shell_len ← rdp_utf16le_text_len (field info ci_alternate_shell);
  work_len ← rdp_utf16le_text_len (field info ci_working_dir);
  let flags := Z.lor (Z.lor (Z.lor (Z.lor (Z.lor (Z.lor (Z.lor RDP_INFO_MOUSE RDP_INFO_UNICODE)
    RDP_INFO_LOGON_ERRORS) RDP_INFO_MAXIMIZE_SHELL) RDP_INFO_ENABLE_WINDOWS_KEY) RDP_INFO_DISABLE_CTRL_ALT_DEL)
    RDP_INFO_MOUSE_HAS_WHEEL) RDP_INFO_FORCE_ENCRYPTED_CS_PDU in
  let flags := match field info ci_password with Some _ => Z.lor flags RDP_INFO_AUTOLOGON | None => flags end in
  rdp_buffer_append_u32_le 0;;
  rdp_buffer_append_u32_le flags;;
  rdp_buffer_append_u16_le domain_len;;
  rdp_buffer_append_u16_le username_len;;
  rdp_buffer_append_u16_le password_len;;
  rdp_buffer_append_u16_le shell_len;;
  rdp_buffer_append_u16_le work_len;;
  rdp_write_utf16le_text (field info ci_domain);;
  rdp_write_utf16le_text (field info ci_username);;
  rdp_write_utf16le_text (field info ci_password);;
  rdp_write_utf16le_text (field info ci_alternate_shell);;
  rdp_write_utf16le_text (field info ci_working_dir);;
  rdp_security_write_extended_info.

Definition rdp_security_write_client_info_pdu (info : option rdp_client_info) : writer unit :=
  rdp_security_write_header RDP_SEC_INFO_PKT;;
  rdp_security_write_client_info_body info.

Definition rdp_security_write_encrypted_client_info_pdu `{OpenSSL} (info : option rdp_client_info) :
    M (ustate (ctx := rdp_standard_security_context * provider)) unit :=
  '(_, body) ← on_buffer (with_local_buffer (rdp_security_write_client_info_body info));
  rdp_security_write_encrypted_pdu RDP_SEC_INFO_PKT (buffer_view body).
End client_info.

(** The sum of five 16-bit lengths does not wrap around a [size_t]. *)
Definition rdp_security_parse_client_info_pdu (data : view) : res rdp_client_info_summary :=
  ensure (negb (view_null data)) LIBRDP_STATUS_INVALID_ARGUMENT;;
  with_stream data (
    flags ← coerce LIBRDP_STATUS_PROTOCOL_ERROR rdp_stream_read_u16_le;
    flags_hi ← coerce LIBRDP_STATUS_PROTOCOL_ERROR rdp_stream_read_u16_le;
    require (negb ((Z.land flags RDP_SEC_INFO_PKT =? 0) || negb (flags_hi =? 0))) LIBRDP_STATUS_PROTOCOL_ERROR;;
    code_page ← coerce LIBRDP_STATUS_PROTOCOL_ERROR rdp_stream_read_u32_le;
    info_flags ← coerce LIBRDP_STATUS_PROTOCOL_ERROR rdp_stream_read_u32_le;
    domain_bytes ← coerce LIBRDP_STATUS_PROTOCOL_ERROR rdp_stream_read_u16_le;
    username_bytes ← coerce LIBRDP_STATUS_PROTOCOL_ERROR rdp_stream_read_u16_le;
    password_bytes ← coerce LIBRDP_STATUS_PROTOCOL_ERROR rdp_stream_read_u16_le;
    alternate_shell_bytes ← coerce LIBRDP_STATUS_PROTOCOL_ERROR rdp_stream_read_u16_le;
    working_dir_bytes ← coerce LIBRDP_STATUS_PROTOCOL_ERROR rdp_stream_read_u16_le;
    let need := domain_bytes + username_bytes + password_bytes + alternate_shell_bytes + working_dir_bytes + 10 in
    remaining ← rdp_stream_remaining;
    require (negb (remaining <? need)) LIBRDP_STATUS_PROTOCOL_ERROR;;
    mret (mk_client_info_summary code_page info_flags domain_bytes username_bytes password_bytes
            alternate_shell_bytes working_dir_bytes)).

(** ** The send-data request *)

Definition rdp_security_write_per_length (length : Z) : writer unit :=
  require (negb (0x7fff <? length)) LIBRDP_STATUS_INVALID_ARGUMENT;;
  if 0x7f <? length then rdp_buffer_append_u16_be (u16 (Z.lor length 0x8000))
  else rdp_buffer_append_u8 (u8 length).

Definition rdp_security_write_per_integer16 (value min : Z) : writer unit :=
  require (negb (value <? min)) LIBRDP_STATUS_INVALID_ARGUMENT;;
  rdp_buffer_append_u16_be (u16 (value - min)).

Definition rdp_security_write_send_data_request (user_id channel_id : Z) (payload : view) : writer unit :=
  require (negb ((user_id <? RDP_MCS_BASE_CHANNEL_ID) || (view_null payload && (0 <? view_len payload)) ||
                 (0x7fff <? view_len payload))) LIBRDP_STATUS_INVALID_ARGUMENT;;
  rdp_buffer_append_u8 (u8 (Z.shiftl 25 2));;
  rdp_security_write_per_integer16 user_id RDP_MCS_BASE_CHANNEL_ID;;
  rdp_security_write_per_integer16 channel_id 0;;
  rdp_buffer_append_u8 0x70;;
  rdp_security_write_per_length (view_len payload);;
  rdp_buffer_append payload.

(** ** Lemmas *)

Section lemmas.
Context `{Iconv, !IconvLaws} (cd : iconv_t).
Hypothesis Hcd : iconv_open UTF_16LE UTF_8 = Some cd.

(** The text becomes [w], whose length fits its field. *)
Definition encodes (text : option (list Z)) (w : list Z) : Prop :=
  transcode cd (default [] text) = Some w /\ blen (default [] text) <= 2 ^ 60 /\ blen w <= UINT16_MAX.

Lemma text_len_writes text w : encodes text w -> Writes (rdp_utf16le_text_len text) [] (fun n => n = blen w).
Proof.
  intros (Ht & Hl & Hw). unfold UINT16_MAX in Hw. unfold rdp_utf16le_text_len.
  apply (writes_bind _ _ [] [] (fun r => buffer_wf r.2 /\ contents r.2 = w)).
  - eapply writes_weaken; [|apply (writes_local _ w (fun _ => True)); [lia|]].
    + intros [[] b] (_ & Hb & Hc). done.
    + apply (utf16_writes text false cd w Hcd Ht Hl). lia.
  - intros [[] b] [Hb Hc]. cbn [snd] in *. pose proof (blen_contents b Hb) as Hlb. rewrite Hc in Hlb.
    pose proof (blen_nonneg w). rewrite <- Hlb. apply writes_require; [unfold UINT16_MAX; guard_lia|].
    apply writes_ret. unfold u16. apply Z.mod_small. lia.
Qed.
Lemma text_writes text w : encodes text w -> Writes (rdp_write_utf16le_text text) (w ++ [0; 0]) (fun _ => True).
Proof. intros (Ht & Hl & Hw). apply (utf16_writes text true cd w Hcd Ht Hl). unfold UINT16_MAX in Hw. lia. Qed.

Definition extended_info_enc : list Z :=
  le16 2 ++ le16 0 ++ le16 0 ++ replicate 172 0 ++ le32 0 ++ le32 0 ++ le16 0.
Lemma extended_info_writes : Writes rdp_security_write_extended_info extended_info_enc (fun _ => True).
Proof. unfold rdp_security_write_extended_info, extended_info_enc. do 6 wstep. eauto with writes. Qed.

(** The flags of the packet: those every client sends, and AUTOLOGON when there
    is a password. *)
Definition info_flags (info : option rdp_client_info) : Z :=
  match field info ci_password with Some _ => 0x3413b | None => 0x34133 end.
Definition client_info_enc (flags : Z) (ws : list (list Z)) : list Z :=
  le32 0 ++ le32 flags ++ concat ((fun w => le16 (blen w)) <$> ws) ++ concat ((fun w => w ++ [0; 0]) <$> ws) ++
  extended_info_enc.
Lemma body_writes info d u p s w :
  encodes (field info ci_domain) d -> encodes (field info ci_username) u -> encodes (field info ci_password) p ->
  encodes (field info ci_alternate_shell) s -> encodes (field info ci_working_dir) w ->
  Writes (rdp_security_write_client_info_body info) (client_info_enc (info_flags info) [d; u; p; s; w]) (fun _ => True).
Proof.
  intros Hd Hu Hp Hs Hw. unfold rdp_security_write_client_info_body.
  change (client_info_enc (info_flags info) [d; u; p; s; w]) with
    ([] ++ [] ++ [] ++ [] ++ [] ++ client_info_enc (info_flags info) [d; u; p; s; w]).
  do 5 (eapply writes_bind; [apply text_len_writes; eassumption|intros ? ->]). cbv zeta.
  unfold client_info_enc. cbn [fmap list_fmap concat]. rewrite !app_nil_r, <- !app_assoc.
  wstep. eapply writes_bind; [unfold info_flags; destruct (field info ci_password); apply writes_u32_le|intros [] _].
  do 5 wstep. do 5 (rewrite app_assoc; eapply writes_bind; [apply text_writes; eassumption|intros [] _]).
  apply extended_info_writes.
Qed.
End lemmas.

(** *** The parser *)

Definition summary_of (flags : Z) (ws : list (list Z)) : option rdp_client_info_summary :=
  match ws with
  | [d; u; p; s; w] => Some (mk_client_info_summary 0 flags (blen d) (blen u) (blen p) (blen s) (blen w))
  | _ => None
  end.
(** The fixed part of the packet, and the room its texts need. *)
Definition summary_ok (s : rdp_client_info_summary) : Prop :=
  is_u32 (cs_code_page s) /\ is_u32 (cs_flags s) /\ is_u16 (cs_domain_bytes s) /\ is_u16 (cs_username_bytes s) /\
  is_u16 (cs_password_bytes s) /\ is_u16 (cs_alternate_shell_bytes s) /\ is_u16 (cs_working_dir_bytes s).
Definition summary_enc (flags : Z) (s : rdp_client_info_summary) : list Z :=
  le16 flags ++ le16 0 ++ le32 (cs_code_page s) ++ le32 (cs_flags s) ++ le16 (cs_domain_bytes s) ++
  le16 (cs_username_bytes s) ++ le16 (cs_password_bytes s) ++ le16 (cs_alternate_shell_bytes s) ++
  le16 (cs_working_dir_bytes s).
Definition summary_need (s : rdp_client_info_summary) : Z :=
  cs_domain_bytes s + cs_username_bytes s + cs_password_bytes s + cs_alternate_shell_bytes s + cs_working_dir_bytes s + 10.

Lemma client_info_parsed flags s rest : is_u16 flags -> has_flag flags RDP_SEC_INFO_PKT = true -> summary_ok s ->
  bytes rest -> summary_need s <= blen rest ->
  rdp_security_parse_client_info_pdu (View (summary_enc flags s ++ rest)) = Ok s.
Proof.
  intros Hf Hi (H1 & H2 & H3 & H4 & H5 & H6 & H7) Hr Hn. unfold rdp_security_parse_client_info_pdu.
  rewrite ensure_true by done. apply (parses_with_stream _ _ rest).
  { unfold summary_enc. solve_bytes. }
  unfold summary_enc. rewrite <- !app_assoc. unfold has_flag in Hi.
  do 2 (pstep; [apply parses_read_u16_le; (done || unfold is_u16; lia)|]).
  eapply parses_bind; [apply parses_require|].
  { destruct (Z.land flags RDP_SEC_INFO_PKT =? 0); done. }
  do 2 (pstep; [by apply parses_read_u32_le|]). do 5 (pstep; [by apply parses_read_u16_le|]).
  cbv zeta. pstep. eapply parses_bind; [apply parses_require|].
  { apply negb_true_iff, Z.ltb_ge. exact Hn. }
  destruct s. apply parses_ret.
Qed.
Lemma client_info_inv d s : bytes d -> rdp_security_parse_client_info_pdu (View d) = Ok s ->
  exists flags rest, d = summary_enc flags s ++ rest /\ is_u16 flags /\ has_flag flags RDP_SEC_INFO_PKT = true /\
    summary_ok s /\ summary_need s <= blen rest.
Proof.
  intros Hd H. unfold rdp_security_parse_client_info_pdu in H. rewrite ensure_true in H by done.
  apply with_view_Ok_inv in H as (s0 & s1 & Hs & Hu & H); [|done].
  parse_inv H. repeat read_inv. unread_chain. bool_prop. exists a, (unread s1).
  unfold summary_ok, summary_need, has_flag. cbn [cs_code_page cs_flags cs_domain_bytes cs_username_bytes
    cs_password_bytes cs_alternate_shell_bytes cs_working_dir_bytes].
  assert ((Z.land a RDP_SEC_INFO_PKT =? 0) = false) as -> by (by apply Z.eqb_neq).
  split; [unfold summary_enc; cbn [cs_code_page cs_flags cs_domain_bytes cs_username_bytes cs_password_bytes
    cs_alternate_shell_bytes cs_working_dir_bytes]; by rewrite <- !app_assoc|]. tauto.
Qed.

(** *** The send-data request *)

Lemma security_per_length n : rdp_security_write_per_length n = rdp_mcs_write_per_length n.
Proof. unfold rdp_security_write_per_length, rdp_mcs_write_per_length. by rewrite Z.leb_antisym. Qed.
Lemma security_per_integer16 v min : rdp_security_write_per_integer16 v min = rdp_mcs_write_per_integer16 v min.
Proof. reflexivity. Qed.
Lemma send_data_request_writes user_id channel_id v l :
  is_user_id user_id -> is_u16 channel_id -> view_bytes v = l -> view_len v = blen l -> blen l <= 0x7fff ->
  Writes (rdp_security_write_send_data_request user_id channel_id v)
    (send_data_enc RDP_MCS_PDU_SEND_DATA_REQUEST user_id channel_id l) (fun _ => True).
Proof.
  intros Hu Hc Hv Hl Hmax. pose proof (blen_nonneg l). unfold rdp_security_write_send_data_request, send_data_enc. rewrite Hl.
  apply writes_require.
  { apply user_id_guard in Hu as Hg. destruct v; cbn in *; [subst l; cbn in *|]; guard_lia. }
  rewrite !security_per_integer16. do 4 wstep. rewrite security_per_length.
  eapply writes_bind; [apply writes_per_length; lia|]. intros [] _. by apply writes_append_bytes.
Qed.

(** ** Properties *)

(** C28: a client never accepts less security than it asked for: what is allowed after
    a negotiation is a protocol the request offered, TLS or NLA unless Standard
    Security alone was asked for, and a server that does not negotiate is
    accepted by nothing else than Standard Security. *)
Theorem security_no_downgrade mode present selected :
  rdp_security_protocol_allowed mode present selected = true ->
  (mode = LIBRDP_SECURITY_STANDARD /\ rdp_security_protocol_mask mode = 0 /\ (present = true -> selected = 0)) \/
  (present = true /\ selected <> RDP_X224_PROTOCOL_STANDARD /\
   Z.land selected (rdp_security_protocol_mask mode) = selected).
Proof.
  unfold rdp_security_protocol_allowed, rdp_security_protocol_supported, RDP_X224_PROTOCOL_STANDARD,
    RDP_X224_PROTOCOL_TLS, RDP_X224_PROTOCOL_NLA.
  destruct (Z.eqb_spec selected 0) as [->|]; [|destruct (Z.eqb_spec selected 1) as [->|]; [|destruct (Z.eqb_spec selected 2) as [->|]]];
    cbn [orb negb]; try done; destruct present, mode; try done; intros _; try (by left); by right.
Qed.

(** C29: the client info packet: for texts whose UTF-16 form fits the 16-bit length
    fields the writer emits the packet with those lengths and texts, and the
    parser of the server reads the lengths and flags back, whatever follows;
    and the parser accepts nothing but such a fixed part followed by room for
    the texts it announces. *)
Theorem client_info_roundtrip `{Iconv, !IconvLaws} cd info d u p s w rest :
  iconv_open UTF_16LE UTF_8 = Some cd ->
  encodes cd (field info ci_domain) d -> encodes cd (field info ci_username) u ->
  encodes cd (field info ci_password) p -> encodes cd (field info ci_alternate_shell) s ->
  encodes cd (field info ci_working_dir) w -> bytes rest ->
  let packet := le16 RDP_SEC_INFO_PKT ++ le16 0 ++ client_info_enc (info_flags info) [d; u; p; s; w] in
  Writes (rdp_security_write_client_info_pdu info) packet (fun _ => True) /\
  rdp_security_parse_client_info_pdu (View (packet ++ rest)) =
    Ok (mk_client_info_summary 0 (info_flags info) (blen d) (blen u) (blen p) (blen s) (blen w)) /\
  (forall data summary, bytes data -> rdp_security_parse_client_info_pdu (View data) = Ok summary <->
     exists flags tail, data = summary_enc flags summary ++ tail /\ is_u16 flags /\
       has_flag flags RDP_SEC_INFO_PKT = true /\ summary_ok summary /\ summary_need summary <= blen tail).
Proof.
  intros Hcd Hd Hu Hp Hs Hw Hr packet. split; [|split].
  - unfold rdp_security_write_client_info_pdu, packet. rewrite app_assoc.
    eapply writes_bind; [apply header_writes|]. intros [] _. by eapply body_writes.
  - set (texts := concat ((fun w => w ++ [0; 0]) <$> [d; u; p; s; w]) ++ extended_info_enc).
    set (summary := mk_client_info_summary _ _ _ _ _ _ _).
    assert (packet ++ rest = summary_enc RDP_SEC_INFO_PKT summary ++ (texts ++ rest)) as ->.
    { unfold packet, client_info_enc, summary_enc, texts, summary. cbn [fmap list_fmap concat cs_code_page cs_flags cs_domain_bytes
        cs_username_bytes cs_password_bytes cs_alternate_shell_bytes cs_working_dir_bytes]. by rewrite !app_nil_r, <- !app_assoc. }
    apply client_info_parsed; [done|done| | |].
    + assert (Hl : forall text k, encodes cd text k -> is_u16 (blen k)).
      { intros text k (_ & _ & Hk). pose proof (blen_nonneg k). unfold is_u16, UINT16_MAX in *. lia. }
      unfold summary_ok, summary. cbn. repeat split; unfold is_u32, info_flags; try (destruct (field info ci_password); lia); by eapply Hl.
    + assert (Hb : forall text k, encodes cd text k -> bytes k).
      { intros text k (Hk & _). by eapply transcode_bytes. }
      unfold texts. cbn [fmap list_fmap concat]. repeat apply Forall_app_2; first [by_evaluation|assumption|by eapply Hb].
    + unfold summary_need, summary, texts. cbn [fmap list_fmap concat cs_domain_bytes cs_username_bytes cs_password_bytes
        cs_alternate_shell_bytes cs_working_dir_bytes]. rewrite !blen_app. pose proof (blen_nonneg rest).
      pose proof (blen_nonneg extended_info_enc). change (blen [0; 0]) with 2. unfold blen in *. cbn [length]. lia.
  - intros data summary Hb. split; [by apply client_info_inv|]. intros (f & t & -> & Hf & Hi & Ho & Hn).
    apply client_info_parsed; try done. by apply Forall_app in Hb as [_ ?].
Qed.

(** The send-data request of a client: what this writer emits is the PDU the
    parser of [mcs.c] on the server accepts, with the same user, channel and
    payload, for every payload of 1 to 32767 bytes, whatever follows. *)
Theorem send_data_request_parsed user_id channel_id v l rest :
  is_user_id user_id -> is_u16 channel_id -> view_bytes v = l -> view_len v = blen l -> 0 < blen l <= 0x7fff ->
  bytes l -> bytes rest ->
  Writes (rdp_security_write_send_data_request user_id channel_id v)
    (send_data_enc RDP_MCS_PDU_SEND_DATA_REQUEST user_id channel_id l) (fun _ => True) /\
  rdp_mcs_parse_send_data_request (View (send_data_enc RDP_MCS_PDU_SEND_DATA_REQUEST user_id channel_id l ++ rest)) =
    Ok (mk_send_data_indication user_id channel_id l (blen l)).
Proof.
  intros Hu Hc Hv Hl Hmax Hb Hr. split; [apply send_data_request_writes; (done || lia)|].
  apply send_data_parsed; (done || lia).
Qed.

(** ** Witnesses *)

Lemma security_no_downgrade_witness :
  Z.land RDP_X224_PROTOCOL_NLA (rdp_security_protocol_mask LIBRDP_SECURITY_AUTO) = RDP_X224_PROTOCOL_NLA.
Proof.
  destruct (security_no_downgrade LIBRDP_SECURITY_AUTO true RDP_X224_PROTOCOL_NLA) as [(H & _)|(_ & _ & H)];
    [reflexivity|discriminate H|exact H].
Defined.
Lemma client_info_roundtrip_witness :
  let info := mk_client_info (Some [68]) (Some [117; 49]) (Some [112]) None None in
  let packet := le16 RDP_SEC_INFO_PKT ++ le16 0 ++
    client_info_enc (info_flags (Some info)) [[68; 0]; [117; 0; 49; 0]; [112; 0]; []; []] in
  rdp_security_parse_client_info_pdu (View (packet ++ [7])) = Ok (mk_client_info_summary 0 0x3413b 2 4 2 0 0).
Proof.
  intros info packet.
  destruct (@client_info_roundtrip sample_iconv sample_iconv_laws tt (Some info) [68; 0] [117; 0; 49; 0] [112; 0] [] [] [7])
    as (_ & H & _); try (split; [reflexivity|split; vm_compute; discriminate]);
    [reflexivity|by_evaluation|exact H].
Defined.
Lemma send_data_request_parsed_witness :
  rdp_mcs_parse_send_data_request (View (send_data_enc RDP_MCS_PDU_SEND_DATA_REQUEST 1007 1003 [1; 2; 3] ++ [])) =
    Ok (mk_send_data_indication 1007 1003 [1; 2; 3] 3).
Proof.
  apply (send_data_request_parsed 1007 1003 (View [1; 2; 3]) [1; 2; 3] []);
    [by_evaluation|by_evaluation|reflexivity|reflexivity|split; vm_compute; (reflexivity || discriminate)|by_evaluation|by_evaluation].
Defined.
