(* ===== verification/Planar.v ===== *)
(** * Planar: the planar bitmap codec

    Models [src/src/graphics/planar.c]: the run-length decoder of one plane and
    the conversion of the planes, red, green and blue or luma and two chroma
    planes, with or without alpha, to BGRA.  [segment] is the grammar of an
    encoded scan line and [painted] what a list of segments paints. *)

From S2P Require Import Prelude Buffer.

Definition RDP_PLANAR_FORMAT_CLL_MASK : Z := 0x07.
Definition RDP_PLANAR_FORMAT_CHROMA_SUBSAMPLING : Z := 0x08.
Definition RDP_PLANAR_FORMAT_RLE : Z := 0x10.
Definition RDP_PLANAR_FORMAT_NO_ALPHA : Z := 0x20.
Definition RDP_PLANAR_FORMAT_RESERVED_MASK : Z := 0xc0.

Definition rdp_planar_clip_i32 (value : Z) : Z :=
  if value <? 0 then 0 else if 255 <? value then 255 else value.

(** A byte as an [int8_t]. *)
Definition int8 (value : Z) : Z := if value <? 128 then value else value - 256.

Definition rdp_planar_decode_chroma (value cll : Z) : Z := int8 (u8 (Z.shiftl value (cll - 1))).

Definition rdp_planar_decode_rle_delta (value : Z) : Z :=
  if negb (Z.land value 1 =? 0) then - (Z.shiftr value 1 + 1) else Z.shiftr value 1.

(** ** One plane *)

(** The pixel [x] of a scan line: [previous] is the line above, if there is one. *)
Definition plane_pixel (previous : option (list Z)) (x value : Z) : res Z :=
  match previous with
  | Some line => above ← rd line x; Ok (rdp_planar_clip_i32 (above + value))
  | None => Ok (rdp_planar_clip_i32 value)
  end.

(** The loop over [raw_count]: [data] is what is left of the input and [current]
    the line so far, so that [x] is its length.  The results are the rest of the
    input, the line and [value]. *)
Fixpoint raw_loop (raw_count : nat) (previous : option (list Z)) (data current : list Z) (value : Z) :
    res (list Z * list Z * Z) :=
  match raw_count with
  | O => Ok (data, current, value)
  | S raw_count =>
      b ← rd data 0;
      let value := match previous with Some _ => rdp_planar_decode_rle_delta b | None => b end in
      pixel ← plane_pixel previous (blen current) value;
      raw_loop raw_count previous (zdrop 1 data) (current ++ [pixel]) value
  end.

(** The loop over [run_count]. *)
Fixpoint run_loop (run_count : nat) (previous : option (list Z)) (current : list Z) (value : Z) : res (list Z) :=
  match run_count with
  | O => Ok current
  | S run_count =>
      pixel ← plane_pixel previous (blen current) value;
      run_loop run_count previous (current ++ [pixel]) value
  end.

(** One scan line; an iteration takes a byte of the input at least, so the bytes
    that are left and one more are enough fuel. *)
Fixpoint line_loop (fuel : nat) (width : Z) (previous : option (list Z)) (data current : list Z) (value : Z) :
    res (list Z * list Z) :=
  if negb (blen current <? width) then Ok (data, current) else
  match fuel with
  | O => Fault
  | S fuel =>
      match data with
      | [] => Err LIBRDP_STATUS_PROTOCOL_ERROR
      | control :: data =>
          ensure (negb (control =? 0)) LIBRDP_STATUS_PROTOCOL_ERROR;;
          let run_count := Z.land control 0x0f in
          let raw_count := Z.shiftr control 4 in
          let '(run_count, raw_count) :=
            if run_count =? 1 then (raw_count + 16, 0)
            else if run_count =? 2 then (raw_count + 32, 0)
            else (run_count, raw_count) in
          ensure (negb ((width - blen current <? raw_count + run_count) || (blen data <? raw_count)))
            LIBRDP_STATUS_PROTOCOL_ERROR;;
          '(data, current, value) ← raw_loop (Z.to_nat raw_count) previous data current value;
          current ← run_loop (Z.to_nat run_count) previous current value;
          line_loop fuel width previous data current value
      end
  end.

(** [height] more scan lines below [previous]. *)
Fixpoint plane_loop (height : nat) (width : Z) (previous : option (list Z)) (data : list Z) :
    res (list Z * list Z) :=
  match height with
  | O => Ok (data, [])
  | S height =>
      '(data, line) ← line_loop (S (length data)) width previous data [] 0;
      '(data, plane) ← plane_loop height width (Some line) data;
      Ok (data, line ++ plane)
  end.

(** The plane, which the C code stores at [output], and [*consumed]. *)
Definition rdp_planar_decode_rle_plane (data : list Z) (width height : Z) : res (list Z * Z) :=
  ensure (negb ((width =? 0) || (height =? 0))) LIBRDP_STATUS_INVALID_ARGUMENT;;
  '(rest, plane) ← plane_loop (Z.to_nat height) width None data;
  Ok (plane, blen data - blen rest).

(** ** The image *)

(** The planes: alpha if there is one, then the three others. *)
Definition planes : Type := option (list Z) * list Z * list Z * list Z.

(** One run-length encoded plane, from [position] of the data to [write] of the
    buffer; the result is the position after it. *)
Definition rle_plane (data : list Z) (position write width height : Z) : writer Z :=
  '(plane, consumed) ← lift (rdp_planar_decode_rle_plane (zdrop position data) width height);
  store_bytes write plane;;
  mret (position + consumed).

(** The planes of a run-length encoded bitmap, decoded one after the other into
    the buffer, and pointers to them. *)
Definition rle_planes (data : list Z) (has_alpha : bool)
    (width height chroma_width chroma_height pixel_count chroma_count : Z) : writer planes :=
  position ← (if has_alpha then rle_plane data 1 0 width height else mret 1);
  let plane0 := if has_alpha then pixel_count else 0 in
  position ← rle_plane data position plane0 width height;
  let plane1 := plane0 + pixel_count in
  position ← rle_plane data position plane1 chroma_width chroma_height;
  let plane2 := plane1 + chroma_count in
  position ← rle_plane data position plane2 chroma_width chroma_height;
  require (position =? blen data) LIBRDP_STATUS_PROTOCOL_ERROR;;
  b ← get_buffer;
  mret (if has_alpha then Some (block b) else None, zdrop plane0 (block b), zdrop plane1 (block b), zdrop plane2 (block b)).

(** Those of an uncompressed one, which point into the data. *)
Definition raw_planes (data : list Z) (has_alpha : bool) (cll pixel_count chroma_count : Z) : planes :=
  let plane0 := 1 + (if has_alpha then pixel_count else 0) in
  let plane1 := plane0 + pixel_count in
  let plane2 := plane1 + (if cll =? 0 then pixel_count else chroma_count) in
  (if has_alpha then Some (zdrop 1 data) else None, zdrop plane0 data, zdrop plane1 data, zdrop plane2 data).

(** The four bytes of the pixel [i]. *)
Definition planar_pixel (width chroma_width : Z) (chroma_subsampled : bool) (cll : Z) (p : planes) (i : Z) :
    res (list Z) :=
  let '(alpha, plane0, plane1, plane2) := p in
  color ← (if cll =? 0 then
    b ← rd plane2 i;
    g ← rd plane1 i;
    r ← rd plane0 i;
    Ok [b; g; r]
  else
    let x := i mod width in
    let y := i / width in
    let chroma_index := if chroma_subsampled then y / 2 * chroma_width + x / 2 else i in
    co ← rd plane1 chroma_index;
    cg ← rd plane2 chroma_index;
    yy ← rd plane0 i;
    let co := rdp_planar_decode_chroma co cll in
    let cg := rdp_planar_decode_chroma cg cll in
    let t := yy - cg in
    Ok [rdp_planar_clip_i32 (t + co); rdp_planar_clip_i32 (yy + cg); rdp_planar_clip_i32 (t - co)]);
  a ← (match alpha with Some alpha => rd alpha i | None => Ok 0xff end);
  Ok (color ++ [a]).

Fixpoint planar_pixels (n : nat) (width chroma_width : Z) (chroma_subsampled : bool) (cll : Z) (p : planes) (i : Z) :
    res (list Z) :=
  match n with
  | O => Ok []
  | S n =>
      pixel ← planar_pixel width chroma_width chroma_subsampled cll p i;
      pixels ← planar_pixels n width chroma_width chroma_subsampled cll p (i + 1);
      Ok (pixel ++ pixels)
  end.

(** The result is [*stride]. *)
Definition rdp_planar_decode_argb (data : view) (width height : Z) : writer Z :=
  require (negb (view_null data)) LIBRDP_STATUS_INVALID_ARGUMENT;;
  require (negb ((width =? 0) || (height =? 0))) LIBRDP_STATUS_PROTOCOL_ERROR;;
  require (negb ((view_len data <? 1) || (SIZE_MAX / height <? width))) LIBRDP_STATUS_PROTOCOL_ERROR;;
  let bytes := view_bytes data in
  header ← lift (rd bytes 0);
  require (Z.land header RDP_PLANAR_FORMAT_RESERVED_MASK =? 0) LIBRDP_STATUS_PROTOCOL_ERROR;;
  let cll := Z.land header RDP_PLANAR_FORMAT_CLL_MASK in
  let chroma_subsampled := has_flag header RDP_PLANAR_FORMAT_CHROMA_SUBSAMPLING in
  require (negb (chroma_subsampled && (cll =? 0))) LIBRDP_STATUS_PROTOCOL_ERROR;;
  let rle := has_flag header RDP_PLANAR_FORMAT_RLE in
  let pixel_count := size_t (width * height) in
  let chroma_width := if chroma_subsampled then (width + 1) / 2 else width in
  let chroma_height := if chroma_subsampled then (height + 1) / 2 else height in
  require (negb ((chroma_width =? 0) || (chroma_height =? 0) || (SIZE_MAX / chroma_height <? chroma_width)))
    LIBRDP_STATUS_PROTOCOL_ERROR;;
  let chroma_count := size_t (chroma_width * chroma_height) in
  let has_alpha := negb (has_flag header RDP_PLANAR_FORMAT_NO_ALPHA) in
  payload_size ← (if cll =? 0 then
    let n := if has_alpha then 4 else 3 in
    require (negb ((SIZE_MAX - 1) / n <? pixel_count)) LIBRDP_STATUS_PROTOCOL_ERROR;;
    mret (size_t (pixel_count * n))
  else
    require (negb ((SIZE_MAX - pixel_count) / 2 <? chroma_count)) LIBRDP_STATUS_PROTOCOL_ERROR;;
    let payload_size := size_t (pixel_count + chroma_count * 2) in
    if has_alpha then
      require (negb (SIZE_MAX - pixel_count <? payload_size)) LIBRDP_STATUS_PROTOCOL_ERROR;;
      mret (size_t (payload_size + pixel_count))
    else mret payload_size);
  require (negb (SIZE_MAX - 1 <? payload_size)) LIBRDP_STATUS_PROTOCOL_ERROR;;
  require (rle || (view_len data =? 1 + payload_size) || (view_len data =? 1 + payload_size + 1))
    LIBRDP_STATUS_PROTOCOL_ERROR;;
  let output_stride := size_t (width * 4) in
  require (negb (SIZE_MAX / output_stride <? height)) LIBRDP_STATUS_PROTOCOL_ERROR;;
  let output_size := size_t (height * output_stride) in
  '(_, output) ← with_local_buffer (
    resize output_size;;
    p ← (if rle then
      '(p, _) ← with_local_buffer (
        resize payload_size;;
        rle_planes bytes has_alpha width height chroma_width chroma_height pixel_count chroma_count);
      mret p
    else mret (raw_planes bytes has_alpha cll pixel_count chroma_count));
    pixels ← lift (planar_pixels (Z.to_nat pixel_count) width chroma_width chroma_subsampled cll p 0);
    store_bytes 0 pixels);
  put_buffer output;;
  mret output_stride.

(** ** The grammar of an encoded plane *)

(** A segment: a few values, then a run of the last one. *)
Record segment := mk_segment { s_raw : list Z; s_run : Z }.
Definition segment_ok (s : segment) : Prop :=
  bytes (s_raw s) /\
  ((blen (s_raw s) <= 15 /\ (3 <= s_run s <= 15 \/ (s_run s = 0 /\ 0 < blen (s_raw s)))) \/
   (s_raw s = [] /\ 16 <= s_run s <= 47)).
Definition segment_control (s : segment) : Z :=
  if s_run s <? 16 then s_run s + 16 * blen (s_raw s)
  else if s_run s <? 32 then 1 + 16 * (s_run s - 16)
  else 2 + 16 * (s_run s - 32).
Definition segment_enc (s : segment) : list Z := segment_control s :: s_raw s.
Definition segment_size (s : segment) : Z := blen (s_raw s) + s_run s.
Definition segments_size (l : list segment) : Z := foldr (fun s n => segment_size s + n) 0 l.

(** What segments paint: the line so far and the last value. *)
Definition above (previous : option (list Z)) (x : nat) : Z :=
  match previous with Some line => line !!! x | None => 0 end.
Definition paint_pixel (previous : option (list Z)) (current : list Z) (value : Z) : list Z :=
  current ++ [rdp_planar_clip_i32 (above previous (length current) + value)].
Definition raw_value (previous : option (list Z)) (b : Z) : Z :=
  match previous with Some _ => rdp_planar_decode_rle_delta b | None => b end.
Fixpoint paint_raw (previous : option (list Z)) (raw : list Z) (current : list Z) (value : Z) : list Z * Z :=
  match raw with
  | [] => (current, value)
  | b :: raw => let value := raw_value previous b in paint_raw previous raw (paint_pixel previous current value) value
  end.
Fixpoint paint_run (n : nat) (previous : option (list Z)) (current : list Z) (value : Z) : list Z :=
  match n with
  | O => current
  | S n => paint_run n previous (paint_pixel previous current value) value
  end.
Definition paint_segment (previous : option (list Z)) (s : segment) (current : list Z) (value : Z) : list Z * Z :=
  let '(current, value) := paint_raw previous (s_raw s) current value in
  (paint_run (Z.to_nat (s_run s)) previous current value, value).
Fixpoint paint_line (previous : option (list Z)) (l : list segment) (current : list Z) (value : Z) : list Z :=
  match l with
  | [] => current
  | s :: l => let '(current, value) := paint_segment previous s current value in paint_line previous l current value
  end.
Definition line_ok (width : Z) (l : list segment) : Prop := Forall segment_ok l /\ segments_size l = width.
Definition line_enc (l : list segment) : list Z := concat (segment_enc <$> l).
Definition plane_enc (lines : list (list segment)) : list Z := concat (line_enc <$> lines).
Fixpoint painted (previous : option (list Z)) (lines : list (list segment)) : list Z :=
  match lines with
  | [] => []
  | l :: lines => let line := paint_line previous l [] 0 in line ++ painted (Some line) lines
  end.

(** ** Lemmas *)

(** The two counts of a control byte. *)
Definition counts (control : Z) : Z * Z :=
  let run_count := Z.land control 0x0f in
  let raw_count := Z.shiftr control 4 in
  if run_count =? 1 then (raw_count + 16, 0) else if run_count =? 2 then (raw_count + 32, 0) else (run_count, raw_count).
Lemma segment_control_spec s : segment_ok s ->
  is_byte (segment_control s) /\ segment_control s <> 0 /\ counts (segment_control s) = (s_run s, blen (s_raw s)).
Proof.
  intros [_ H]. unfold segment_control, counts. pose proof (blen_nonneg (s_raw s)) as H0.
  set (n := blen (s_raw s)) in *.
  assert (Hl : forall c, Z.land c 0x0f = c mod 16) by apply land_0x0f.
  assert (Hs : forall c, Z.shiftr c 4 = c / 16) by (intros; by rewrite Z.shiftr_div_pow2).
  assert (Hd : forall q r, 0 <= r < 16 -> (r + 16 * q) mod 16 = r /\ (r + 16 * q) / 16 = q).
  { intros q r Hr. split; Z.div_mod_to_equations; lia. }
  destruct H as [[Hn Hr]|[E Hr]].
  - destruct (Z.ltb_spec (s_run s) 16); [|lia]. rewrite Hl, Hs. destruct (Hd n (s_run s) ltac:(lia)) as [-> ->].
    unfold is_byte. destruct (Z.eqb_spec (s_run s) 1), (Z.eqb_spec (s_run s) 2); try lia. split; [lia|]. split; [lia|done].
  - assert (n = 0) as Hn by (subst n; by rewrite E).
    destruct (Z.ltb_spec (s_run s) 16); [lia|]. unfold is_byte. rewrite Hl, Hs. destruct (Z.ltb_spec (s_run s) 32).
    + destruct (Hd (s_run s - 16) 1 ltac:(lia)) as [-> ->]. cbn [Z.eqb]. rewrite Hn. split; [lia|]. split; [lia|f_equal; lia].
    + destruct (Hd (s_run s - 32) 2 ltac:(lia)) as [-> ->]. cbn [Z.eqb]. rewrite Hn. split; [lia|]. split; [lia|f_equal; lia].
Qed.
Lemma counts_segment control raw : is_byte control -> control <> 0 -> bytes raw -> blen raw = (counts control).2 ->
  let s := mk_segment raw (counts control).1 in segment_ok s /\ segment_control s = control.
Proof.
  intros Hc H0 Hb Hr. cbv zeta. assert (Hl : Z.land control 0x0f = control mod 16) by apply land_0x0f.
  assert (Hs : Z.shiftr control 4 = control / 16) by (by rewrite Z.shiftr_div_pow2).
  unfold counts in *. rewrite Hl, Hs in *. unfold is_byte in Hc.
  assert (Hq : 0 <= control / 16 <= 15 /\ 0 <= control mod 16 < 16 /\ control = control mod 16 + 16 * (control / 16)).
  { Z.div_mod_to_equations. lia. }
  destruct Hq as (Hq & Hm & E). set (q := control / 16) in *. set (m := control mod 16) in *. clearbody q m.
  unfold segment_ok, segment_control. cbn [s_raw s_run].
  destruct (Z.eqb_spec m 1) as [E1|E1]; [|destruct (Z.eqb_spec m 2) as [E2|E2]]; cbn [fst snd] in *.
  - destruct (Z.ltb_spec (q + 16) 16); [lia|]. destruct (Z.ltb_spec (q + 16) 32); [|lia].
    split; [|lia]. split; [done|]. right. split; [by apply blen_0_nil|lia].
  - destruct (Z.ltb_spec (q + 32) 16); [lia|]. destruct (Z.ltb_spec (q + 32) 32); [lia|].
    split; [|lia]. split; [done|]. right. split; [by apply blen_0_nil|lia].
  - destruct (Z.ltb_spec m 16); [|lia]. split; [|lia]. split; [done|]. left. lia.
Qed.

(** The line above has the width of this one. *)
Definition line_above (width : Z) (previous : option (list Z)) : Prop :=
  match previous with Some line => blen line = width | None => True end.
Lemma plane_pixel_eq width previous (current : list Z) value : line_above width previous -> blen current < width ->
  plane_pixel previous (blen current) value =
    Ok (rdp_planar_clip_i32 (above previous (length current) + value)).
Proof.
  intros Hp Hc. unfold plane_pixel, above. destruct previous as [line|]; [|done]. cbn in Hp.
  destruct (rd_ok line (blen current)) as (a & E & El); [pose proof (blen_nonneg current); lia|]. rewrite E.
  cbn [mbind res_bind]. unfold blen in El. rewrite Nat2Z.id in El. by rewrite (list_lookup_total_correct _ _ _ El).
Qed.
Lemma blen_paint_pixel previous current value : blen (paint_pixel previous current value) = blen current + 1.
Proof. unfold paint_pixel. by rewrite blen_app. Qed.
Lemma raw_loop_eq width previous raw rest current value : line_above width previous ->
  blen current + blen raw <= width ->
  raw_loop (length raw) previous (raw ++ rest) current value =
    let '(current, value) := paint_raw previous raw current value in Ok (rest, current, value).
Proof.
  intros Hp. revert current value. induction raw as [|b raw IH]; intros current value Hl; [done|].
  rewrite blen_cons in Hl. pose proof (blen_nonneg raw). cbn [length raw_loop app paint_raw].
  change (rd (b :: raw ++ rest) 0) with (Ok b). cbn [mbind res_bind]. fold (raw_value previous b).
  rewrite (plane_pixel_eq width) by (done || lia). cbn [mbind res_bind].
  change (zdrop 1 (b :: raw ++ rest)) with (raw ++ rest). apply IH. fold (paint_pixel previous current (raw_value previous b)).
  rewrite blen_paint_pixel. lia.
Qed.
Lemma run_loop_eq width previous n current value : line_above width previous -> blen current + Z.of_nat n <= width ->
  run_loop n previous current value = Ok (paint_run n previous current value).
Proof.
  intros Hp. revert current. induction n as [|n IH]; intros current Hl; [done|]. cbn [run_loop paint_run].
  rewrite (plane_pixel_eq width) by (done || lia). cbn [mbind res_bind]. apply IH.
  fold (paint_pixel previous current value). rewrite blen_paint_pixel. lia.
Qed.

Lemma blen_paint_raw previous raw current value :
  blen (paint_raw previous raw current value).1 = blen current + blen raw.
Proof.
  revert current value. induction raw as [|b raw IH]; intros current value; cbn [paint_raw].
  - rewrite blen_nil. cbn. lia.
  - rewrite IH, blen_paint_pixel, blen_cons. lia.
Qed.
Lemma blen_paint_run n previous current value : blen (paint_run n previous current value) = blen current + Z.of_nat n.
Proof. revert current. induction n as [|n IH]; intros current; cbn [paint_run]; [lia|]. rewrite IH, blen_paint_pixel. lia. Qed.
Lemma segment_run_nonneg s : segment_ok s -> 0 <= s_run s.
Proof. intros [_ H]. lia. Qed.
Lemma blen_paint_segment previous s current value : segment_ok s ->
  blen (paint_segment previous s current value).1 = blen current + segment_size s.
Proof.
  intros Hs%segment_run_nonneg. unfold paint_segment, segment_size.
  pose proof (blen_paint_raw previous (s_raw s) current value) as E. destruct (paint_raw _ _ _ _) as [c v].
  cbn [fst] in *. rewrite blen_paint_run. lia.
Qed.
Lemma segment_size_pos s : segment_ok s -> 0 < segment_size s.
Proof. intros [_ H]. unfold segment_size. pose proof (blen_nonneg (s_raw s)). lia. Qed.

(** One segment of a line. *)
Lemma line_segment fuel width previous s rest current value :
  line_above width previous -> segment_ok s -> blen current + segment_size s <= width ->
  line_loop (S fuel) width previous (segment_enc s ++ rest) current value =
    let '(current, value) := paint_segment previous s current value in line_loop fuel width previous rest current value.
Proof.
  intros Hp Hs Hw. pose proof (segment_size_pos s Hs) as Hpos. pose proof (segment_run_nonneg s Hs) as Hr.
  destruct (segment_control_spec s Hs) as (Hb & Hc & Hn). unfold segment_size in *. cbn [line_loop].
  destruct (Z.ltb_spec (blen current) width); [cbn [negb]|lia].
  unfold segment_enc. cbn [app]. rewrite ensure_true by (by apply negb_true_iff, Z.eqb_neq).
  fold (counts (segment_control s)). rewrite Hn. cbv beta iota.
  rewrite blen_app. pose proof (blen_nonneg rest). pose proof (blen_nonneg (s_raw s)).
  rewrite ensure_true.
  2: { apply negb_true_iff, orb_false_iff. split; apply Z.ltb_ge; lia. }
  unfold blen at 1. rewrite Nat2Z.id, (raw_loop_eq width) by (done || lia).
  pose proof (blen_paint_raw previous (s_raw s) current value) as E. unfold paint_segment.
  destruct (paint_raw previous (s_raw s) current value) as [c v]. cbn [mbind res_bind fst] in *.
  by rewrite (run_loop_eq width) by (done || lia).
Qed.
(** What a line begins with, if it is not refused. *)
Lemma line_next fuel width previous data current value : bytes data -> blen current < width ->
  line_loop (S fuel) width previous data current value = Err LIBRDP_STATUS_PROTOCOL_ERROR \/
  exists s rest, segment_ok s /\ data = segment_enc s ++ rest /\ blen current + segment_size s <= width.
Proof.
  intros Hd Hw. cbn [line_loop]. destruct (Z.ltb_spec (blen current) width); [cbn [negb]|lia].
  destruct data as [|control data]; [by left|]. apply Forall_cons_iff in Hd as [Hc Hd]. rewrite ensure_bind.
  destruct (Z.eqb_spec control 0) as [E|E]; cbn [negb]; [by left|]. fold (counts control).
  destruct (counts control) as [run raw] eqn:En. cbv beta iota. rewrite ensure_bind.
  destruct (negb _) eqn:Eg; [|by left]. apply negb_true_iff, orb_false_iff in Eg as [Eg1%Z.ltb_ge Eg2%Z.ltb_ge].
  assert (Hraw : 0 <= raw).
  { unfold counts in En. rewrite Z.shiftr_div_pow2 in En by lia. unfold is_byte in Hc.
    repeat case_match; injection En as <- <-; try lia; apply Z.div_pos; lia. }
  right. destruct (counts_segment control (ztake raw data) Hc E) as [Hs Hsc].
  { by apply Forall_ztake. } { rewrite En, blen_ztake; cbn; lia. }
  rewrite En in *. cbn [fst] in *. eexists _, (zdrop raw data). split; [exact Hs|].
  unfold segment_enc, segment_size. rewrite Hsc. cbn [s_raw s_run app]. rewrite ztake_zdrop, blen_ztake by lia.
  split; [done|lia].
Qed.

Lemma line_outcome fuel width previous data current value :
  bytes data -> blen data < Z.of_nat fuel -> line_above width previous -> blen current <= width ->
  line_loop fuel width previous data current value = Err LIBRDP_STATUS_PROTOCOL_ERROR \/
  exists rest l, line_loop fuel width previous data current value = Ok (rest, paint_line previous l current value) /\
    line_ok (width - blen current) l /\ data = line_enc l ++ rest.
Proof.
  revert data current value. induction fuel as [|fuel IH]; intros data current value Hd Hf Hp Hc.
  - pose proof (blen_nonneg data). lia.
  - destruct (Z.lt_ge_cases (blen current) width) as [Hw|Hw].
    2: { right. exists data, []. cbn [line_loop]. destruct (Z.ltb_spec (blen current) width); [lia|]. split; [done|].
         split; [|done]. split; [by apply Forall_nil_2|]. cbn. lia. }
    destruct (line_next fuel width previous data current value Hd Hw) as [E|(s & rest & Hs & -> & Hsz)]; [by left|].
    rewrite line_segment by done. apply Forall_app in Hd as [_ Hd].
    pose proof (blen_paint_segment previous s current value Hs) as Hb.
    destruct (paint_segment previous s current value) as [c v] eqn:Ep. cbn [fst] in Hb.
    rewrite blen_app in Hf. unfold segment_enc in Hf. rewrite blen_cons in Hf. pose proof (blen_nonneg (s_raw s)).
    destruct (IH rest c v Hd ltac:(lia) Hp ltac:(lia)) as [E|(rest' & l & E & [Hl Hsum] & ->)]; [by left|].
    right. exists rest', (s :: l). cbn [paint_line]. rewrite Ep. split; [done|]. split.
    + split; [by apply Forall_cons_2|]. cbn. fold (segments_size l). lia.
    + unfold line_enc. cbn [fmap list_fmap concat]. by rewrite <- app_assoc.
Qed.
Lemma line_encoded l fuel width previous rest current value :
  (length l <= fuel)%nat -> line_above width previous -> line_ok (width - blen current) l ->
  line_loop fuel width previous (line_enc l ++ rest) current value = Ok (rest, paint_line previous l current value).
Proof.
  revert fuel current value. induction l as [|s l IH]; intros fuel current value Hf Hp [Hs Hsum].
  - cbn in Hsum. destruct fuel; cbn [line_loop]; (destruct (Z.ltb_spec (blen current) width); [lia|done]).
  - apply Forall_cons_iff in Hs as [Hs Hl]. cbn in Hsum. fold (segments_size l) in Hsum. destruct fuel as [|fuel]; [cbn in Hf; lia|].
    assert (Hpos : 0 <= segments_size l).
    { clear -Hl. induction Hl as [|s l Hs _ IH]; [done|]. apply segment_size_pos in Hs. cbn. fold (segments_size l). lia. }
    unfold line_enc. cbn [fmap list_fmap concat]. rewrite <- app_assoc, line_segment by (done || lia).
    cbn [paint_line]. pose proof (blen_paint_segment previous s current value Hs) as Hb.
    destruct (paint_segment previous s current value) as [c v]. cbn [fst] in Hb. apply IH; [cbn in Hf; lia|done|].
    split; [done|lia].
Qed.
Lemma blen_paint_line previous l current value : Forall segment_ok l ->
  blen (paint_line previous l current value) = blen current + segments_size l.
Proof.
  revert current value. induction l as [|s l IH]; intros current value; [cbn; lia|]. intros [Hs Hl]%Forall_cons_iff.
  cbn [paint_line]. pose proof (blen_paint_segment previous s current value Hs) as Hb.
  destruct (paint_segment previous s current value) as [c v]. cbn [fst] in Hb. rewrite IH by done. cbn.
  fold (segments_size l). lia.
Qed.
Lemma length_line_enc l rest : (length l <= length (line_enc l ++ rest))%nat.
Proof. induction l as [|s l IH]; [cbn; lia|]. unfold line_enc in *. cbn in *. rewrite <- app_assoc, length_app. lia. Qed.

(** The lines of a plane. *)
Lemma plane_outcome height width previous data : bytes data -> 0 <= width -> line_above width previous ->
  plane_loop height width previous data = Err LIBRDP_STATUS_PROTOCOL_ERROR \/
  exists rest lines, plane_loop height width previous data = Ok (rest, painted previous lines) /\
    length lines = height /\ Forall (line_ok width) lines /\ data = plane_enc lines ++ rest.
Proof.
  revert previous data. induction height as [|height IH]; intros previous data Hd Hw Hp.
  - right. by exists data, [].
  - cbn [plane_loop]. destruct (line_outcome (S (length data)) width previous data [] 0) as [E|(rest & l & E & Hl & ->)];
      [done|unfold blen; lia|done|rewrite blen_nil; lia|rewrite E; by left|]. rewrite E. cbn [mbind res_bind].
    rewrite blen_nil, Z.sub_0_r in Hl. apply Forall_app in Hd as [_ Hd].
    destruct (IH (Some (paint_line previous l [] 0)) rest Hd Hw) as [E2|(rest' & lines & E2 & Hn & Hls & ->)].
    { cbn. destruct Hl as [Hl Hs]. rewrite blen_paint_line by done. rewrite blen_nil. lia. }
    { rewrite E2. by left. }
    rewrite E2. right. exists rest', (l :: lines). cbn [painted mbind res_bind]. split; [done|]. split; [cbn; lia|].
    split; [by apply Forall_cons_2|]. unfold plane_enc. cbn [fmap list_fmap concat]. by rewrite <- app_assoc.
Qed.
Lemma plane_encoded lines width previous rest : line_above width previous -> Forall (line_ok width) lines ->
  plane_loop (length lines) width previous (plane_enc lines ++ rest) = Ok (rest, painted previous lines).
Proof.
  revert previous. induction lines as [|l lines IH]; intros previous Hp; [done|]. intros [Hl Hls]%Forall_cons_iff.
  unfold plane_enc. cbn [length fmap list_fmap concat plane_loop]. fold (plane_enc lines). rewrite <- app_assoc, line_encoded; [|pose proof (length_line_enc l (plane_enc lines ++ rest)); lia|done|].
  2: { by rewrite blen_nil, Z.sub_0_r. }
  cbn [mbind res_bind painted]. rewrite IH; [done| |done]. cbn. destruct Hl as [Hl Hs].
  rewrite blen_paint_line by done. rewrite blen_nil. lia.
Qed.
Lemma blen_painted lines width previous : Forall (line_ok width) lines ->
  blen (painted previous lines) = Z.of_nat (length lines) * width.
Proof.
  revert previous. induction lines as [|l lines IH]; intros previous; [done|]. intros [[Hl Hs] Hls]%Forall_cons_iff.
  cbn [painted]. rewrite blen_app, blen_paint_line, IH by done. rewrite blen_nil. cbn [length]. lia.
Qed.

Lemma plane_decode_outcome data width height : bytes data -> 0 < width -> 0 < height ->
  rdp_planar_decode_rle_plane data width height = Err LIBRDP_STATUS_PROTOCOL_ERROR \/
  exists lines rest, blen lines = height /\ Forall (line_ok width) lines /\ data = plane_enc lines ++ rest /\
    rdp_planar_decode_rle_plane data width height = Ok (painted None lines, blen (plane_enc lines)).
Proof.
  intros Hd Hw Hh. unfold rdp_planar_decode_rle_plane. rewrite ensure_true.
  2: { apply negb_true_iff, orb_false_iff. split; apply Z.eqb_neq; lia. }
  destruct (plane_outcome (Z.to_nat height) width None data Hd ltac:(lia) I) as [->|(rest & lines & -> & Hn & Hl & E)]; [by left|].
  right. exists lines, rest. split; [unfold blen; lia|]. split; [done|]. split; [done|]. cbn [mbind res_bind].
  rewrite E, blen_app. do 2 f_equal. lia.
Qed.
Lemma plane_decode_encoded lines rest width height : 0 < width -> 0 < height -> blen lines = height ->
  Forall (line_ok width) lines ->
  rdp_planar_decode_rle_plane (plane_enc lines ++ rest) width height = Ok (painted None lines, blen (plane_enc lines)).
Proof.
  intros Hw Hh Hn Hl. unfold rdp_planar_decode_rle_plane. rewrite ensure_true.
  2: { apply negb_true_iff, orb_false_iff. split; apply Z.eqb_neq; lia. }
  replace (Z.to_nat height) with (length lines) by (unfold blen in Hn; lia). rewrite plane_encoded by done. cbn [mbind res_bind].
  rewrite blen_app. do 2 f_equal. lia.
Qed.

(** ** The bitmap as a whole *)

(** [e] encodes the plane [p]. *)
Definition is_plane (rle : bool) (width height : Z) (e p : list Z) : Prop :=
  if rle then exists lines, blen lines = height /\ Forall (line_ok width) lines /\ e = plane_enc lines /\ p = painted None lines
  else e = p /\ blen p = width * height.
Lemma is_plane_size rle w h e p : is_plane rle w h e p -> blen p = w * h.
Proof. destruct rle; [|by intros [_ ?]]. intros (lines & <- & Hl & _ & ->). rewrite (blen_painted _ w) by done. unfold blen. lia. Qed.

(** What the format byte says. *)
Definition header_cll (header : Z) : Z := Z.land header RDP_PLANAR_FORMAT_CLL_MASK.
Definition header_subsampled (header : Z) : bool := has_flag header RDP_PLANAR_FORMAT_CHROMA_SUBSAMPLING.
Definition header_rle (header : Z) : bool := has_flag header RDP_PLANAR_FORMAT_RLE.
Definition header_alpha (header : Z) : bool := negb (has_flag header RDP_PLANAR_FORMAT_NO_ALPHA).
Definition header_ok (header : Z) : Prop :=
  Z.land header RDP_PLANAR_FORMAT_RESERVED_MASK = 0 /\ (header_subsampled header = true -> header_cll header <> 0).
Definition chroma_size (header n : Z) : Z := if header_subsampled header then (n + 1) / 2 else n.

(** [d] is a planar bitmap with these planes. *)
Definition planar_bitmap (d : list Z) (width height header : Z) (p : planes) : Prop :=
  let '(alpha, p0, p1, p2) := p in
  let rle := header_rle header in
  let cw := chroma_size header width in
  let ch := chroma_size header height in
  exists ea e0 e1 e2 pad, d = header :: ea ++ e0 ++ e1 ++ e2 ++ pad /\ header_ok header /\
    match alpha with
    | Some a => header_alpha header = true /\ is_plane rle width height ea a
    | None => header_alpha header = false /\ ea = []
    end /\
    is_plane rle width height e0 p0 /\ is_plane rle cw ch e1 p1 /\ is_plane rle cw ch e2 p2 /\
    (if rle then pad = [] else blen pad <= 1).

(** The colour of the pixel [i]: blue, green, red and alpha. *)
Definition planar_color (width header : Z) (p : planes) (i : nat) : list Z :=
  let '(alpha, p0, p1, p2) := p in
  let cll := header_cll header in
  let c := if header_subsampled header
           then Z.to_nat (Z.of_nat i / width / 2 * chroma_size header width + Z.of_nat i mod width / 2) else i in
  let co := rdp_planar_decode_chroma (p1 !!! c) cll in
  let cg := rdp_planar_decode_chroma (p2 !!! c) cll in
  (if cll =? 0 then [p2 !!! i; p1 !!! i; p0 !!! i]
   else [rdp_planar_clip_i32 (p0 !!! i - cg + co); rdp_planar_clip_i32 (p0 !!! i + cg);
         rdp_planar_clip_i32 (p0 !!! i - cg - co)]) ++
  [match alpha with Some a => a !!! i | None => 0xff end].
Definition planar_image (width height header : Z) (p : planes) : list Z :=
  concat (planar_color width header p <$> seq 0 (Z.to_nat (width * height))).

(** The planes as the code holds them: with whatever follows each of them. *)
Definition extends (p q : planes) : Prop :=
  let '(alpha, p0, p1, p2) := p in
  let '(alpha', q0, q1, q2) := q in
  match alpha, alpha' with
  | Some a, Some a' => exists t, a' = a ++ t
  | None, None => True
  | _, _ => False
  end /\ (exists t, q0 = p0 ++ t) /\ (exists t, q1 = p1 ++ t) /\ (exists t, q2 = p2 ++ t).
Definition planes_sized (width height header : Z) (p : planes) : Prop :=
  let '(alpha, p0, p1, p2) := p in
  match alpha with Some a => blen a = width * height | None => True end /\ blen p0 = width * height /\
  blen p1 = chroma_size header width * chroma_size header height /\
  blen p2 = chroma_size header width * chroma_size header height.
Lemma rd_prefix (p t : list Z) i : 0 <= i < blen p -> rd (p ++ t) i = Ok (p !!! Z.to_nat i).
Proof.
  intros Hi. rewrite rd_app_l by lia. destruct (rd_ok p i Hi) as (a & -> & E). by rewrite (list_lookup_total_correct _ _ _ E).
Qed.
Lemma chroma_index_bound width height header i : 0 < width -> 0 <= i < width * height ->
  0 <= (if header_subsampled header then i / width / 2 * chroma_size header width + i mod width / 2 else i) <
    chroma_size header width * chroma_size header height.
Proof.
  intros Hw Hi. unfold chroma_size. destruct (header_subsampled header); [|done].
  assert (Hy : 0 <= i / width < height) by (split; [apply Z.div_pos; lia|apply Z.div_lt_upper_bound; lia]).
  pose proof (Z.mod_pos_bound i width Hw) as Hx.
  assert (H1 : 0 <= i / width / 2 <= (height + 1) / 2 - 1) by (Z.div_mod_to_equations; lia).
  assert (H2 : 0 <= i mod width / 2 < (width + 1) / 2) by (clear Hi Hy H1; Z.div_mod_to_equations; lia).
  nia.
Qed.
Lemma planar_pixel_eq width height header p q i : 0 < width -> header_ok header -> planes_sized width height header p -> extends p q ->
  Z.of_nat i < width * height ->
  planar_pixel width (chroma_size header width) (header_subsampled header) (header_cll header) q (Z.of_nat i) =
    Ok (planar_color width header p i).
Proof.
  intros Hw [_ Hok] Hs He Hi. destruct p as [[[alpha p0] p1] p2], q as [[[alpha' q0] q1] q2].
  destruct Hs as (Ha & H0 & H1 & H2), He as (Hea & [t0 ->] & [t1 ->] & [t2 ->]).
  unfold planar_pixel, planar_color. pose proof (chroma_index_bound width height header (Z.of_nat i) Hw ltac:(lia)) as Hc.
  set (c := if header_subsampled header then _ else Z.of_nat i) in *.
  assert (Ec : (if header_subsampled header then Z.to_nat (Z.of_nat i / width / 2 * chroma_size header width + Z.of_nat i mod width / 2) else i)
    = Z.to_nat c) by (unfold c; destruct (header_subsampled header); [done|by rewrite Nat2Z.id]).
  rewrite Ec.
  assert (Halpha : (match alpha' with Some alpha => rd alpha (Z.of_nat i) | None => Ok 0xff end) =
    Ok (match alpha with Some a => a !!! i | None => 0xff end)).
  { destruct alpha as [a|], alpha' as [a'|]; try done. destruct Hea as [t ->]. rewrite rd_prefix by lia. by rewrite Nat2Z.id. }
  destruct (Z.eqb_spec (header_cll header) 0) as [E|E].
  - assert (Hsub : chroma_size header width * chroma_size header height = width * height).
    { unfold chroma_size. destruct (header_subsampled header); [by destruct (Hok eq_refl)|done]. }
    rewrite !rd_prefix by lia. rewrite !Nat2Z.id. cbn [mbind res_bind]. by rewrite Halpha.
  - cbv zeta. rewrite !rd_prefix by lia. rewrite !Nat2Z.id. cbn [mbind res_bind]. by rewrite Halpha.
Qed.

Lemma planar_pixels_eq width height header p q n i : 0 < width -> header_ok header -> planes_sized width height header p ->
  extends p q -> Z.of_nat (i + n) <= width * height ->
  planar_pixels n width (chroma_size header width) (header_subsampled header) (header_cll header) q (Z.of_nat i) =
    Ok (concat (planar_color width header p <$> seq i n)).
Proof.
  intros Hw Hok Hs He. revert i. induction n as [|n IH]; intros i Hi; [done|]. cbn [planar_pixels].
  rewrite (planar_pixel_eq width height header p q i) by (done || lia). cbn [mbind res_bind].
  replace (Z.of_nat i + 1) with (Z.of_nat (S i)) by lia. rewrite IH by lia. done.
Qed.
Lemma blen_planar_color width header p i : blen (planar_color width header p i) = 4.
Proof. destruct p as [[[alpha p0] p1] p2]. unfold planar_color. by destruct (header_cll header =? 0). Qed.
Lemma blen_planar_image width height header p : 0 <= width * height ->
  blen (planar_image width height header p) = 4 * (width * height).
Proof.
  intros H0. unfold planar_image.
  assert (Hg : forall n i, blen (concat (planar_color width header p <$> seq i n)) = 4 * Z.of_nat n).
  { induction n as [|n IH]; intros i; [done|]. cbn [seq fmap list_fmap concat]. rewrite blen_app, blen_planar_color, IH. lia. }
  rewrite Hg. lia.
Qed.

(** *** Run-length encoded planes in the buffer *)

Lemma rle_plane_encoded data position w h b (hp : heap) front tail lines rest :
  buffer_wf b -> contents b = front ++ tail -> zdrop position data = plane_enc lines ++ rest ->
  0 < w -> 0 < h -> blen lines = h -> Forall (line_ok w) lines -> w * h <= blen tail ->
  exists b' tail', rle_plane data position (blen front) w h (b, hp) = (Ok (position + blen (plane_enc lines)), (b', hp)) /\
    buffer_wf b' /\ b_length b' = b_length b /\ contents b' = (front ++ painted None lines) ++ tail' /\
    blen tail' = blen tail - w * h.
Proof.
  intros Hb Hc Hd Hw Hh Hn Hl Ht. unfold rle_plane. rewrite bind_lift, Hd, plane_decode_encoded by done. cbv beta iota.
  pose proof (blen_painted lines w None Hl) as Hp. replace (Z.of_nat (length lines)) with h in Hp by (unfold blen in Hn; lia).
  pose proof (blen_contents b Hb) as Hlen. rewrite Hc, blen_app in Hlen. pose proof (blen_nonneg front).
  destruct (store_bytes_spec (blen front) (painted None lines) b hp Hb) as (b' & E & Hb' & Hl' & Hc'); [lia|nia|].
  exists b', (zdrop (w * h) tail). rewrite (bind_ok _ _ _ _ _ E). split; [done|]. split; [done|]. split; [done|].
  rewrite blen_zdrop by nia. split; [|done]. rewrite Hc', Hc, ztake_app_blen, <- app_assoc. do 2 f_equal.
  rewrite <- (zdrop_zdrop (blen (painted None lines)) (blen front)) by nia. rewrite zdrop_app_blen. f_equal. nia.
Qed.
Lemma rle_plane_outcome data position w h b (hp : heap) write : bytes data -> 0 < w -> 0 < h ->
  rle_plane data position write w h (b, hp) = (Err LIBRDP_STATUS_PROTOCOL_ERROR, (b, hp)) \/
  exists lines rest, blen lines = h /\ Forall (line_ok w) lines /\ zdrop position data = plane_enc lines ++ rest.
Proof.
  intros Hd Hw Hh. unfold rle_plane. rewrite bind_lift.
  destruct (plane_decode_outcome (zdrop position data) w h) as [->|(lines & rest & Hn & Hl & E & _)]; [by apply Forall_zdrop|done|done|by left|].
  right. by exists lines, rest.
Qed.
Lemma zdrop_shift {A} (data : list A) position e rest : 0 <= position -> zdrop position data = e ++ rest ->
  zdrop (position + blen e) data = rest.
Proof. intros Hp E. rewrite <- zdrop_zdrop by (done || apply blen_nonneg). rewrite E. apply zdrop_app_blen. Qed.

Lemma zdrop_room {A} (data : list A) position e rest : 0 <= position <= blen data -> zdrop position data = e ++ rest ->
  position + blen e + blen rest = blen data.
Proof. intros Hp E. apply (f_equal blen) in E. rewrite blen_zdrop, blen_app in E by done. lia. Qed.

Section three_planes.
Context (data : list Z) (has_alpha : bool) (w h cw ch : Z).
Hypothesis (Hw : 0 < w) (Hh : 0 < h) (Hcw : 0 < cw) (Hch : 0 < ch).

(** The part of [rle_planes] after alpha. *)
Definition three_planes (position : Z) : writer planes :=
  let plane0 := if has_alpha then w * h else 0 in
  position ← rle_plane data position plane0 w h;
  let plane1 := plane0 + w * h in
  position ← rle_plane data position plane1 cw ch;
  let plane2 := plane1 + cw * ch in
  position ← rle_plane data position plane2 cw ch;
  require (position =? blen data) LIBRDP_STATUS_PROTOCOL_ERROR;;
  b ← get_buffer;
  mret (if has_alpha then Some (block b) else None, zdrop plane0 (block b), zdrop plane1 (block b), zdrop plane2 (block b)).

Lemma three_encoded b (hp : heap) front tail position l0 l1 l2 :
  buffer_wf b -> contents b = front ++ tail -> blen front = (if has_alpha then w * h else 0) ->
  w * h + 2 * (cw * ch) <= blen tail -> 0 <= position <= blen data ->
  zdrop position data = plane_enc l0 ++ plane_enc l1 ++ plane_enc l2 ->
  blen l0 = h -> Forall (line_ok w) l0 -> blen l1 = ch -> Forall (line_ok cw) l1 -> blen l2 = ch -> Forall (line_ok cw) l2 ->
  exists b' q, three_planes position (b, hp) = (Ok q, (b', hp)) /\
    extends (if has_alpha then Some front else None, painted None l0, painted None l1, painted None l2) q.
Proof.
  intros Hb Hc Hf Ht Hp Hd Hn0 Hl0 Hn1 Hl1 Hn2 Hl2. unfold three_planes. rewrite <- Hf. cbv zeta.
  assert (Hs : forall w' h' l, blen l = h' -> Forall (line_ok w') l -> blen (painted None l) = w' * h').
  { intros w' h' l Hn Hl. rewrite (blen_painted _ w') by done. unfold blen in Hn. lia. }
  pose proof (blen_nonneg (plane_enc l0)). pose proof (blen_nonneg (plane_enc l1)). pose proof (blen_nonneg (plane_enc l2)).
  destruct (rle_plane_encoded data position w h b hp front tail l0 _ Hb Hc Hd Hw Hh Hn0 Hl0 ltac:(nia))
    as (b1 & t1 & E1 & Hb1 & _ & Hc1 & Ht1). rewrite (bind_ok _ _ _ _ _ E1).
  pose proof (zdrop_room _ _ _ _ Hp Hd) as Hr1. rewrite !blen_app in Hr1. apply zdrop_shift in Hd; [|lia].
  replace (blen front + w * h) with (blen (front ++ painted None l0)) by (by rewrite blen_app, (Hs w h)).
  destruct (rle_plane_encoded data _ cw ch b1 hp _ t1 l1 _ Hb1 Hc1 Hd Hcw Hch Hn1 Hl1 ltac:(nia))
    as (b2 & t2 & E2 & Hb2 & _ & Hc2 & Ht2). rewrite (bind_ok _ _ _ _ _ E2).
  apply zdrop_shift in Hd; [|lia]. rewrite <- (app_nil_r (plane_enc l2)) in Hd.
  replace (blen (front ++ painted None l0) + cw * ch) with (blen ((front ++ painted None l0) ++ painted None l1))
    by (by rewrite (blen_app (front ++ _)), (Hs cw ch)).
  destruct (rle_plane_encoded data _ cw ch b2 hp _ t2 l2 _ Hb2 Hc2 Hd Hcw Hch Hn2 Hl2 ltac:(nia))
    as (b3 & t3 & E3 & Hb3 & _ & Hc3 & Ht3). rewrite (bind_ok _ _ _ _ _ E3).
  assert (Hend : position + blen (plane_enc l0) + blen (plane_enc l1) + blen (plane_enc l2) = blen data).
  { lia. }
  rewrite bind_require, Hend, Z.eqb_refl. rewrite bind_get_buffer.
  assert (Hblk : exists j, block b3 = contents b3 ++ j) by (exists (zdrop (b_length b3) (block b3)); symmetry; apply ztake_zdrop).
  destruct Hblk as [j ->]. rewrite Hc3. eexists b3, _. split; [done|].
  split; [destruct has_alpha; [rewrite <- !app_assoc; by eexists|done]|]. split; [|split].
  - rewrite <- !app_assoc, zdrop_app_blen. by eexists.
  - rewrite <- !(app_assoc (front ++ painted None l0)), zdrop_app_blen, <- !app_assoc. by eexists.
  - rewrite <- !(app_assoc ((front ++ painted None l0) ++ painted None l1)), zdrop_app_blen, <- ?app_assoc. by eexists.
Qed.
Lemma three_outcome b (hp : heap) front tail position : bytes data ->
  buffer_wf b -> contents b = front ++ tail -> blen front = (if has_alpha then w * h else 0) ->
  w * h + 2 * (cw * ch) <= blen tail -> 0 <= position <= blen data ->
  (exists b', three_planes position (b, hp) = (Err LIBRDP_STATUS_PROTOCOL_ERROR, (b', hp))) \/
  exists l0 l1 l2, zdrop position data = plane_enc l0 ++ plane_enc l1 ++ plane_enc l2 /\
    blen l0 = h /\ Forall (line_ok w) l0 /\ blen l1 = ch /\ Forall (line_ok cw) l1 /\ blen l2 = ch /\ Forall (line_ok cw) l2.
Proof.
  intros Hdb Hb Hc Hf Ht Hp. unfold three_planes. rewrite <- Hf. cbv zeta.
  assert (Hs : forall w' h' l, blen l = h' -> Forall (line_ok w') l -> blen (painted None l) = w' * h').
  { intros w' h' l Hn Hl. rewrite (blen_painted _ w') by done. unfold blen in Hn. lia. }
  destruct (rle_plane_outcome data position w h b hp (blen front) Hdb Hw Hh) as [E|(l0 & r0 & Hn0 & Hl0 & Hd)].
  { left. eexists. by rewrite (bind_err _ _ _ _ _ E). }
  destruct (rle_plane_encoded data position w h b hp front tail l0 _ Hb Hc Hd Hw Hh Hn0 Hl0 ltac:(nia))
    as (b1 & t1 & E1 & Hb1 & _ & Hc1 & Ht1). rewrite (bind_ok _ _ _ _ _ E1).
  pose proof (zdrop_shift _ _ _ _ (proj1 Hp) Hd) as Hd1. pose proof (blen_nonneg (plane_enc l0)).
  pose proof (zdrop_room _ _ _ _ Hp Hd) as Hr1. pose proof (blen_nonneg r0).
  replace (blen front + w * h) with (blen (front ++ painted None l0)) by (by rewrite blen_app, (Hs w h)).
  destruct (rle_plane_outcome data (position + blen (plane_enc l0)) cw ch b1 hp (blen (front ++ painted None l0)) Hdb Hcw Hch)
    as [E|(l1 & r1 & Hn1 & Hl1 & Hd2)].
  { left. eexists. by rewrite (bind_err _ _ _ _ _ E). }
  destruct (rle_plane_encoded data _ cw ch b1 hp _ t1 l1 _ Hb1 Hc1 Hd2 Hcw Hch Hn1 Hl1 ltac:(nia))
    as (b2 & t2 & E2 & Hb2 & _ & Hc2 & Ht2). rewrite (bind_ok _ _ _ _ _ E2).
  pose proof (zdrop_shift data (position + blen (plane_enc l0)) _ _ ltac:(lia) Hd2) as Hd3. pose proof (blen_nonneg (plane_enc l1)).
  pose proof (zdrop_room data (position + blen (plane_enc l0)) _ _ ltac:(lia) Hd2) as Hr2. pose proof (blen_nonneg r1).
  replace (blen (front ++ painted None l0) + cw * ch) with (blen ((front ++ painted None l0) ++ painted None l1))
    by (by rewrite (blen_app (front ++ _)), (Hs cw ch)).
  destruct (rle_plane_outcome data (position + blen (plane_enc l0) + blen (plane_enc l1)) cw ch b2 hp
    (blen ((front ++ painted None l0) ++ painted None l1)) Hdb Hcw Hch) as [E|(l2 & r2 & Hn2 & Hl2 & Hd4)].
  { left. eexists. by rewrite (bind_err _ _ _ _ _ E). }
  destruct (rle_plane_encoded data _ cw ch b2 hp _ t2 l2 _ Hb2 Hc2 Hd4 Hcw Hch Hn2 Hl2 ltac:(nia))
    as (b3 & t3 & E3 & Hb3 & _). rewrite (bind_ok _ _ _ _ _ E3), bind_require.
  destruct (Z.eqb_spec (position + blen (plane_enc l0) + blen (plane_enc l1) + blen (plane_enc l2)) (blen data)) as [He|He].
  - right. exists l0, l1, l2. split; [|done].
    assert (r2 = []) as ->.
    { apply blen_0_nil. pose proof (zdrop_room data (position + blen (plane_enc l0) + blen (plane_enc l1)) _ _ ltac:(lia) Hd4). lia. }
    rewrite app_nil_r in Hd4. rewrite Hd, <- Hd1, Hd2, <- Hd3, Hd4. done.
  - left. by eexists.
Qed.
End three_planes.

(** The size of the planes. *)
Definition planes_size (width height header : Z) : Z :=
  (if header_alpha header then width * height else 0) + width * height +
  2 * (chroma_size header width * chroma_size header height).

Lemma rle_planes_alpha data has_alpha w h cw ch :
  rle_planes data has_alpha w h cw ch (w * h) (cw * ch) =
    (position ← (if has_alpha then rle_plane data 1 0 w h else mret 1); three_planes data has_alpha w h cw ch position).
Proof. done. Qed.
Lemma chroma_size_pos header n : 0 < n -> 0 < chroma_size header n.
Proof. intros Hn. unfold chroma_size. destruct (header_subsampled header); [Z.div_mod_to_equations; lia|done]. Qed.

Lemma rle_planes_encoded d w h header p b (hp : heap) : 0 < w -> 0 < h -> buffer_wf b -> b_length b = planes_size w h header ->
  header_rle header = true -> planar_bitmap d w h header p ->
  exists b' q, rle_planes d (header_alpha header) w h (chroma_size header w) (chroma_size header h) (w * h)
    (chroma_size header w * chroma_size header h) (b, hp) = (Ok q, (b', hp)) /\ extends p q.
Proof.
  intros Hw Hh Hb Hlen Hrle Hbm. destruct p as [[[alpha p0] p1] p2].
  destruct Hbm as (ea & e0 & e1 & e2 & pad & Hd & Hok & Ha & H0 & H1 & H2 & Hpad).
  rewrite Hrle in Ha, H0, H1, H2, Hpad. subst pad. rewrite app_nil_r in Hd.
  destruct H0 as (l0 & Hn0 & Hl0 & -> & ->), H1 as (l1 & Hn1 & Hl1 & -> & ->), H2 as (l2 & Hn2 & Hl2 & -> & ->).
  pose proof (chroma_size_pos header w Hw) as Hcw. pose proof (chroma_size_pos header h Hh) as Hch.
  pose proof (blen_contents b Hb) as Hbl. rewrite Hlen in Hbl. unfold planes_size in Hbl.
  assert (Hwh : 0 < w * h) by nia. rewrite rle_planes_alpha. destruct alpha as [a|].
  - destruct Ha as [Ha (la & Hna & Hla & -> & ->)]. rewrite Ha in Hbl |- *.
    destruct (rle_plane_encoded d 1 w h b hp [] (contents b) la (plane_enc l0 ++ plane_enc l1 ++ plane_enc l2) Hb eq_refl)
      as (b1 & t1 & E1 & Hb1 & _ & Hc1 & Ht1); [by rewrite Hd|done..|nia|].
    rewrite (bind_ok _ _ _ _ _ E1). pose proof (blen_painted la w None Hla) as Hp.
    edestruct (three_encoded d true w h _ _ Hw Hh Hcw Hch b1 hp _ t1 (1 + blen (plane_enc la)) l0 l1 l2 Hb1 Hc1) as (b' & q & E & He); try done.
    + rewrite app_nil_l, Hp. unfold blen in Hna. cbn. lia.
    + nia.
    + rewrite Hd, blen_cons, blen_app. pose proof (blen_nonneg (plane_enc la)).
      pose proof (blen_nonneg (plane_enc l0 ++ plane_enc l1 ++ plane_enc l2)). lia.
    + apply zdrop_shift; [lia|]. by rewrite Hd.
    + exists b', q. by split.
  - destruct Ha as [Ha ->]. rewrite Ha in Hbl |- *.
    edestruct (three_encoded d false w h _ _ Hw Hh Hcw Hch b hp [] (contents b) 1 l0 l1 l2 Hb eq_refl) as (b' & q & E & He); try done.
    + lia.
    + rewrite Hd, blen_cons. pose proof (blen_nonneg ([] ++ plane_enc l0 ++ plane_enc l1 ++ plane_enc l2)). lia.
    + by rewrite Hd.
    + exists b', q. by split.
Qed.

Lemma rle_planes_outcome d w h header b (hp : heap) : bytes d -> 0 < w -> 0 < h -> buffer_wf b ->
  b_length b = planes_size w h header -> header_rle header = true -> header_ok header -> rd d 0 = Ok header ->
  (exists b', rle_planes d (header_alpha header) w h (chroma_size header w) (chroma_size header h) (w * h)
    (chroma_size header w * chroma_size header h) (b, hp) = (Err LIBRDP_STATUS_PROTOCOL_ERROR, (b', hp))) \/
  exists p, planar_bitmap d w h header p.
Proof.
  intros Hdb Hw Hh Hb Hlen Hrle Hok Hd0.
  assert (Hd : d = header :: zdrop 1 d) by (destruct d; by inversion Hd0).
  assert (Hd1 : 1 <= blen d) by (rewrite Hd, blen_cons; pose proof (blen_nonneg (zdrop 1 d)); lia).
  pose proof (chroma_size_pos header w Hw) as Hcw. pose proof (chroma_size_pos header h Hh) as Hch.
  pose proof (blen_contents b Hb) as Hbl. rewrite Hlen in Hbl. unfold planes_size in Hbl.
  assert (Hwh : 0 < w * h) by nia. rewrite rle_planes_alpha.
  assert (Hmk : forall alpha ea l0 l1 l2,
    zdrop 1 d = ea ++ plane_enc l0 ++ plane_enc l1 ++ plane_enc l2 ->
    match alpha with
    | Some a => header_alpha header = true /\ is_plane true w h ea a
    | None => header_alpha header = false /\ ea = []
    end ->
    blen l0 = h -> Forall (line_ok w) l0 -> blen l1 = chroma_size header h -> Forall (line_ok (chroma_size header w)) l1 ->
    blen l2 = chroma_size header h -> Forall (line_ok (chroma_size header w)) l2 ->
    exists p, planar_bitmap d w h header p).
  { intros alpha ea l0 l1 l2 E Ha ? ? ? ? ? ?. exists (alpha, painted None l0, painted None l1, painted None l2).
    unfold planar_bitmap. rewrite Hrle. exists ea, (plane_enc l0), (plane_enc l1), (plane_enc l2), []. split.
    { rewrite Hd, E. by rewrite app_nil_r. }
    split; [done|]. split; [done|]. split; [by exists l0|]. split; [by exists l1|]. split; [by exists l2|done]. }
  destruct (header_alpha header) eqn:Ha.
  - destruct (rle_plane_outcome d 1 w h b hp 0 Hdb Hw Hh) as [E|(la & r & Hna & Hla & Er)].
    { left. exists b. by rewrite (bind_err _ _ _ _ _ E). }
    destruct (rle_plane_encoded d 1 w h b hp [] (contents b) la r Hb eq_refl) as (b1 & t1 & E1 & Hb1 & _ & Hc1 & Ht1);
      [done..|nia|].
    rewrite (bind_ok _ _ _ _ _ E1). pose proof (blen_painted la w None Hla) as Hp.
    pose proof (zdrop_room d 1 _ _ ltac:(lia) Er) as Hroom. pose proof (blen_nonneg r). pose proof (blen_nonneg (plane_enc la)).
    edestruct (three_outcome d true w h _ _ Hw Hh Hcw Hch b1 hp _ t1 (1 + blen (plane_enc la)) Hdb Hb1 Hc1)
      as [[b' E]|(l0 & l1 & l2 & E & ?)].
    + rewrite app_nil_l, Hp. unfold blen in Hna. cbn. lia.
    + nia.
    + lia.
    + left. by exists b'.
    + right. rewrite (zdrop_shift d 1 _ _ ltac:(lia) Er) in E. subst r. destruct_and!.
      apply (Hmk (Some (painted None la)) (plane_enc la) l0 l1 l2); try done. split; [done|]. by exists la.
  - edestruct (three_outcome d false w h _ _ Hw Hh Hcw Hch b hp [] (contents b) 1 Hdb Hb eq_refl)
      as [[b' E]|(l0 & l1 & l2 & E & ?)]; [done|lia|lia|left; by exists b'|].
    right. destruct_and!. by apply (Hmk None [] l0 l1 l2).
Qed.

(** *** The decoder *)

(** What is left after the checks on the sizes and the format byte. *)
Definition planar_rest (d : list Z) (w h header : Z) : writer Z :=
  let size := planes_size w h header in
  let cw := chroma_size header w in
  let ch := chroma_size header h in
  require (header_rle header || (blen d =? 1 + size) || (blen d =? 1 + size + 1)) LIBRDP_STATUS_PROTOCOL_ERROR;;
  '(_, output) ← with_local_buffer (
    resize (h * (w * 4));;
    p ← (if header_rle header then
      '(p, _) ← with_local_buffer (resize size;; rle_planes d (header_alpha header) w h cw ch (w * h) (cw * ch));
      mret p
    else mret (raw_planes d (header_alpha header) (header_cll header) (w * h) (cw * ch)));
    pixels ← lift (planar_pixels (Z.to_nat (w * h)) w cw (header_subsampled header) (header_cll header) p 0);
    store_bytes 0 pixels);
  put_buffer output;;
  mret (w * 4).

(** The sizes that the decoder accepts. *)
Definition planar_sizes (w h : Z) : Prop := 0 < w /\ 0 < h /\ 4 * (w * h) <= SIZE_MAX.

Lemma chroma_size_le header n : 0 < n -> chroma_size header n <= n.
Proof. intros Hn. unfold chroma_size. destruct (header_subsampled header); [Z.div_mod_to_equations; lia|done]. Qed.
Lemma chroma_count_le header w h : 0 < w -> 0 < h ->
  0 < chroma_size header w * chroma_size header h <= w * h.
Proof.
  intros Hw Hh. pose proof (chroma_size_pos header w Hw). pose proof (chroma_size_pos header h Hh).
  pose proof (chroma_size_le header w Hw). pose proof (chroma_size_le header h Hh). nia.
Qed.
Lemma div_ltb_false m a n : 0 < a -> a * n <= m -> (m / a <? n) = false.
Proof. intros Ha Hn. apply Z.ltb_ge, Z.div_le_lower_bound; lia. Qed.
Lemma div_ltb_true m a n : 0 < a -> m < a * n -> (m / a <? n) = true.
Proof. intros Ha Hn. apply Z.ltb_lt, Z.div_lt_upper_bound; lia. Qed.
Lemma size_t_id n : 0 <= n <= SIZE_MAX -> size_t n = n.
Proof. intros Hn. unfold size_t. apply Z.mod_small. unfold SIZE_MAX in Hn. lia. Qed.

Lemma planar_good_size d w h header s : planar_sizes w h -> rd d 0 = Ok header -> header_ok header ->
  rdp_planar_decode_argb (View d) w h s = planar_rest d w h header s.
Proof.
  intros (Hw & Hh & Hs) Hd [Hres Hok]. unfold rdp_planar_decode_argb.
  pose proof (chroma_count_le header w h Hw Hh) as Hc.
  pose proof (chroma_size_pos header w Hw) as Hcw. pose proof (chroma_size_pos header h Hh) as Hch.
  pose proof (chroma_size_le header w Hw) as Hcw'. pose proof (chroma_size_le header h Hh) as Hch'.
  assert (Hd1 : 1 <= blen d).
  { destruct d as [|x d]; [done|]. rewrite blen_cons. pose proof (blen_nonneg d). lia. }
  cbn [view_null view_len view_bytes]. rewrite bind_require. cbn [negb].
  rewrite bind_require, (proj2 (Z.eqb_neq w 0)), (proj2 (Z.eqb_neq h 0)) by lia. cbn [orb negb].
  rewrite bind_require, (proj2 (Z.ltb_ge (blen d) 1)), div_ltb_false by nia. cbn [orb negb]. cbv zeta.
  rewrite bind_lift, Hd. rewrite bind_require, Hres. cbn [Z.eqb].
  rewrite bind_require. fold (header_cll header). fold (header_subsampled header). fold (header_rle header).
  rewrite (negb_andb (header_subsampled header)).
  replace (negb (header_subsampled header) || negb (header_cll header =? 0)) with true.
  2: { destruct (header_subsampled header); [|done]. by rewrite (proj2 (Z.eqb_neq _ _) (Hok eq_refl)). }
  fold (chroma_size header w). fold (chroma_size header h).
  rewrite bind_require, (proj2 (Z.eqb_neq (chroma_size header w) 0)), (proj2 (Z.eqb_neq (chroma_size header h) 0)), div_ltb_false by nia.
  cbn [orb negb]. fold (header_alpha header).
  rewrite (size_t_id (w * h)), (size_t_id (chroma_size header w * chroma_size header h)) by nia.
  rewrite (bind_ok _ _ s (planes_size w h header) s).
  2: { unfold planes_size. destruct (Z.eqb_spec (header_cll header) 0) as [E|E].
    - assert (Hsub : header_subsampled header = false).
      { destruct (header_subsampled header); [by destruct (Hok eq_refl)|done]. }
      unfold chroma_size. rewrite Hsub.
      assert (Hn : (if header_alpha header then 4 else 3) * (w * h) <= SIZE_MAX - 1).
      { destruct (header_alpha header); unfold SIZE_MAX in *; lia. }
      rewrite bind_require, div_ltb_false by (destruct (header_alpha header); nia). cbn [negb].
      rewrite size_t_id by (destruct (header_alpha header); nia).
      unfold mret, M_ret. do 2 f_equal. destruct (header_alpha header); lia.
    - rewrite bind_require, div_ltb_false by nia. cbn [negb].
      rewrite (size_t_id (w * h + chroma_size header w * chroma_size header h * 2)) by nia. destruct (header_alpha header).
      + rewrite bind_require, (proj2 (Z.ltb_ge (SIZE_MAX - w * h) _)) by nia. cbn [negb]. rewrite size_t_id by nia.
        unfold mret, M_ret. do 2 f_equal. lia.
      + unfold mret, M_ret. do 2 f_equal. lia. }
  assert (Hps : 0 < planes_size w h header <= SIZE_MAX - 1).
  { unfold planes_size, SIZE_MAX in *. destruct (header_alpha header); nia. }
  rewrite bind_require, (proj2 (Z.ltb_ge (SIZE_MAX - 1) (planes_size w h header))) by lia. cbn [negb].
  rewrite (size_t_id (w * 4)) by nia.
  unfold planar_rest. cbv zeta. rewrite !bind_require. destruct (header_rle header || _ || _); [cbv beta iota|done].
  rewrite div_ltb_false by nia. cbn [negb]. by rewrite (size_t_id (h * (w * 4))) by nia.
Qed.

(** A bitmap starts with its format byte. *)
Lemma planar_bitmap_header d w h header p : planar_bitmap d w h header p -> rd d 0 = Ok header /\ header_ok header.
Proof. destruct p as [[[alpha p0] p1] p2]. by intros (ea & e0 & e1 & e2 & pad & -> & Hok & _). Qed.

(** The checks refuse everything else. *)
Lemma planar_bad_size d w h s : 0 <= w <= 0xffffffff -> 0 <= h <= 0xffffffff ->
  ~ planar_sizes w h \/ (forall header, rd d 0 = Ok header -> ~ header_ok header) ->
  rdp_planar_decode_argb (View d) w h s = (Err LIBRDP_STATUS_PROTOCOL_ERROR, s).
Proof.
  intros Hw Hh Hbad. unfold rdp_planar_decode_argb. cbn [view_null view_len view_bytes]. rewrite bind_require. cbn [negb].
  rewrite bind_require. destruct (Z.eqb_spec w 0) as [|Hw0]; [done|]. destruct (Z.eqb_spec h 0) as [|Hh0]; [done|]. cbn [orb negb].
  rewrite bind_require. destruct (Z.ltb_spec (blen d) 1) as [|Hd]; [done|]. cbn [orb].
  rewrite div_ltb_false by (unfold SIZE_MAX; nia). cbn [negb]. cbv zeta. rewrite bind_lift.
  destruct (rd_ok d 0) as (header & Hd0 & _); [lia|]. rewrite Hd0.
  rewrite bind_require. destruct (Z.eqb_spec (Z.land header RDP_PLANAR_FORMAT_RESERVED_MASK) 0) as [Hres|]; [|done].
  rewrite bind_require. fold (header_cll header). fold (header_subsampled header). fold (header_rle header).
  destruct (header_subsampled header && (header_cll header =? 0)) eqn:Hsub; [done|]. cbn [negb].
  assert (Hok : header_ok header).
  { split; [done|]. intros E. rewrite E in Hsub. by apply Z.eqb_neq in Hsub. }
  assert (Hsz : SIZE_MAX < 4 * (w * h)).
  { destruct Hbad as [Hbad|Hbad]; [|by destruct (Hbad header)]. unfold planar_sizes in Hbad. lia. }
  fold (chroma_size header w). fold (chroma_size header h).
  rewrite bind_require. destruct (_ || _ || _); [done|]. cbn [negb].
  match goal with |- (mbind ?k ?m) s = _ =>
    assert (Hm : m s = (Err LIBRDP_STATUS_PROTOCOL_ERROR, s) \/ exists n, m s = (Ok n, s)) end.
  { destruct (header_cll header =? 0); rewrite bind_require; (destruct (negb _); [|by left]); [right; by eexists|].
    destruct (negb (has_flag _ _)); [|right; by eexists]. rewrite bind_require. destruct (negb _); [right; by eexists|by left]. }
  destruct Hm as [E|[n E]]; [by rewrite (bind_err _ _ _ _ _ E)|]. rewrite (bind_ok _ _ _ _ _ E).
  rewrite bind_require. destruct (negb (_ <? n)); [|done]. rewrite bind_require. destruct (header_rle header || _ || _); [|done].
  rewrite bind_require, size_t_id, div_ltb_true by (unfold SIZE_MAX in *; lia). done.
Qed.

Lemma planar_bitmap_sized d w h header p : planar_bitmap d w h header p -> planes_sized w h header p.
Proof.
  destruct p as [[[alpha p0] p1] p2]. intros (ea & e0 & e1 & e2 & pad & _ & _ & Ha & H0 & H1 & H2 & _).
  apply is_plane_size in H0, H1, H2. split; [|done]. destruct alpha as [a|]; [|done]. destruct Ha as [_ Ha].
  by apply is_plane_size in Ha.
Qed.

(** *** Uncompressed planes *)

Lemma raw_planes_extends d w h header p : 0 < w -> 0 < h -> header_rle header = false -> planar_bitmap d w h header p ->
  extends p (raw_planes d (header_alpha header) (header_cll header) (w * h) (chroma_size header w * chroma_size header h)) /\
  (blen d = 1 + planes_size w h header \/ blen d = 1 + planes_size w h header + 1).
Proof.
  intros Hw Hh Hrle Hbm. pose proof (planar_bitmap_sized _ _ _ _ _ Hbm) as Hs. pose proof (planar_bitmap_header _ _ _ _ _ Hbm) as [_ [_ Hok]].
  destruct p as [[[alpha p0] p1] p2]. destruct Hbm as (ea & e0 & e1 & e2 & pad & Hd & _ & Ha & H0 & H1 & H2 & Hpad).
  rewrite Hrle in Ha, H0, H1, H2, Hpad. destruct Hs as (Hsa & Hs0 & Hs1 & Hs2).
  destruct H0 as [-> _], H1 as [-> _], H2 as [-> _].
  assert (Hc : (if header_cll header =? 0 then w * h else chroma_size header w * chroma_size header h) = blen p1).
  { rewrite Hs1. destruct (Z.eqb_spec (header_cll header) 0) as [E|]; [|done]. unfold chroma_size.
    destruct (header_subsampled header); [by destruct (Hok eq_refl)|done]. }
  assert (Hea : (if header_alpha header then w * h else 0) = blen ea).
  { destruct alpha as [a|]; destruct Ha as [-> Ha]; [by destruct Ha as [-> ->]|by subst ea]. }
  unfold raw_planes, planes_size. cbv zeta. rewrite Hc, Hea. rewrite <- Hs0.
  assert (H1 : forall x (l : list Z), blen (x :: l) = 1 + blen l) by (intros; rewrite blen_cons; lia).
  pose proof (blen_nonneg ea). pose proof (blen_nonneg p0). pose proof (blen_nonneg p1). pose proof (blen_nonneg pad).
  assert (E : forall a l, 0 <= a -> zdrop (1 + a) (header :: l) = zdrop a l).
  { intros a l Ha0. rewrite <- zdrop_zdrop by lia. done. }
  rewrite Hd. split.
  - split; [|split; [|split]].
    + destruct alpha as [a|]; destruct Ha as [-> Ha]; [|done]. destruct Ha as [-> _]. by eexists.
    + rewrite E, zdrop_app_blen by done. by eexists.
    + rewrite <- Z.add_assoc, E by lia. rewrite <- zdrop_zdrop, !zdrop_app_blen by lia. by eexists.
    + rewrite <- !Z.add_assoc, E by lia. rewrite <- !zdrop_zdrop, !zdrop_app_blen by lia. by eexists.
  - rewrite blen_cons, !blen_app. lia.
Qed.
Lemma raw_planes_outcome d w h header : 0 < w -> 0 < h -> header_rle header = false -> header_ok header -> rd d 0 = Ok header ->
  blen d = 1 + planes_size w h header \/ blen d = 1 + planes_size w h header + 1 ->
  exists p, planar_bitmap d w h header p.
Proof.
  intros Hw Hh Hrle Hok Hd0 Hlen. assert (Hd : d = header :: zdrop 1 d) by (destruct d; by inversion Hd0).
  pose proof (chroma_count_le header w h Hw Hh) as Hc. set (cc := chroma_size header w * chroma_size header h) in *.
  assert (Hwh : 0 < w * h) by nia. unfold planes_size in Hlen. fold cc in Hlen.
  set (na := if header_alpha header then w * h else 0) in *.
  assert (Hna : 0 <= na) by (unfold na; destruct (header_alpha header); lia).
  set (body := zdrop 1 d) in *. assert (Hb : blen body = blen d - 1) by (rewrite Hd, blen_cons; lia).
  set (ea := ztake na body). set (r0 := zdrop na body). set (e0 := ztake (w * h) r0). set (r1 := zdrop (w * h) r0).
  set (e1 := ztake cc r1). set (r2 := zdrop cc r1). set (e2 := ztake cc r2). set (pad := zdrop cc r2).
  assert (Hsplit : body = ea ++ e0 ++ e1 ++ e2 ++ pad).
  { unfold ea, e0, e1, e2, pad. rewrite !ztake_zdrop. unfold r2. rewrite ztake_zdrop. unfold r1. rewrite ztake_zdrop.
    unfold r0. by rewrite ztake_zdrop. }
  assert (Hr0 : blen r0 = blen body - na) by (apply blen_zdrop; lia).
  assert (Hr1 : blen r1 = blen r0 - w * h) by (apply blen_zdrop; lia).
  assert (Hr2 : blen r2 = blen r1 - cc) by (apply blen_zdrop; lia).
  assert (Hpd : blen pad = blen r2 - cc) by (apply blen_zdrop; lia).
  assert (Hea : blen ea = na) by (apply blen_ztake; lia).
  assert (He0 : blen e0 = w * h) by (apply blen_ztake; lia).
  assert (He1 : blen e1 = cc) by (apply blen_ztake; lia).
  assert (He2 : blen e2 = cc) by (apply blen_ztake; lia).
  exists (if header_alpha header then Some ea else None, e0, e1, e2). exists ea, e0, e1, e2, pad. rewrite Hrle.
  split; [by rewrite Hd, Hsplit|]. split; [done|]. split.
  { unfold na in Hea. destruct (header_alpha header); [done|]. split; [done|]. by apply blen_0_nil. }
  do 3 (split; [done|]). lia.
Qed.

(** *** The two parts together *)

(** The planes, from the data or decoded into a buffer of their own. *)
Definition get_planes (d : list Z) (w h header : Z) : writer planes :=
  let cw := chroma_size header w in
  let ch := chroma_size header h in
  if header_rle header then
    '(p, _) ← with_local_buffer (
      resize (planes_size w h header);; rle_planes d (header_alpha header) w h cw ch (w * h) (cw * ch));
    mret p
  else mret (raw_planes d (header_alpha header) (header_cll header) (w * h) (cw * ch)).

Lemma planes_size_bound w h header : planar_sizes w h -> 0 < planes_size w h header <= 4 * (w * h).
Proof.
  intros (Hw & Hh & _). pose proof (chroma_count_le header w h Hw Hh). unfold planes_size. destruct (header_alpha header); nia.
Qed.

Lemma get_planes_spec d w h header b (hp : heap) : bytes d -> planar_sizes w h -> rd d 0 = Ok header -> header_ok header ->
  header_rle header = true \/ blen d = 1 + planes_size w h header \/ blen d = 1 + planes_size w h header + 1 ->
  exists r hp', get_planes d w h header (b, hp) = (r, (b, hp')) /\
    (r = Err LIBRDP_STATUS_NO_MEMORY \/
     (r = Err LIBRDP_STATUS_PROTOCOL_ERROR /\ forall p, ~ planar_bitmap d w h header p) \/
     (exists q, r = Ok q /\ (exists p, planar_bitmap d w h header p) /\ forall p, planar_bitmap d w h header p -> extends p q)) /\
    (hp = [] -> 4 * (w * h) <= 2 ^ 63 -> r <> Err LIBRDP_STATUS_NO_MEMORY /\ hp' = []).
Proof.
  intros Hd Hs Hd0 Hok Hlen. pose proof (planes_size_bound w h header Hs) as Hn. pose proof Hs as (Hw & Hh & Hmax).
  unfold get_planes. cbv zeta. destruct (header_rle header) eqn:Hrle.
  2: { exists (Ok (raw_planes d (header_alpha header) (header_cll header) (w * h) (chroma_size header w * chroma_size header h))), hp.
    split; [done|]. split; [|done]. right; right. eexists. split; [done|]. destruct Hlen as [|Hlen]; [done|].
    split; [by apply raw_planes_outcome|]. intros p Hp. by apply (raw_planes_extends d w h header p). }
  destruct (resize_spec (planes_size w h header) rdp_buffer_init hp buffer_init_wf) as (r & b1 & h1 & E & Hb1 & [[-> Hl]| ->] & Hheap); [lia|..].
  2: { rewrite (bind_local_err _ _ _ _ _ b1 h1) by apply (bind_err _ _ _ _ _ E). exists (Err LIBRDP_STATUS_NO_MEMORY), h1. split; [done|]. split; [by left|].
    intros Hh0 H63. destruct (Hheap Hh0) as [? _]; [lia|done]. }
  assert (Hh1 : hp = [] -> 4 * (w * h) <= 2 ^ 63 -> h1 = []) by (intros Hh0 H63; apply (Hheap Hh0); lia).
  assert (Henc := fun p => rle_planes_encoded d w h header p b1 h1 Hw Hh Hb1 Hl Hrle).
  destruct (rle_planes_outcome d w h header b1 h1 Hd Hw Hh Hb1 Hl Hrle Hok Hd0) as [[b2 E2]|[p Hp]].
  - rewrite (bind_local_err _ _ _ _ _ b2 h1) by (by rewrite (bind_ok _ _ _ _ _ E)). exists (Err LIBRDP_STATUS_PROTOCOL_ERROR), h1. split; [done|]. split.
    + right; left. split; [done|]. intros p Hp. destruct (Henc p Hp) as (b' & q & E3 & _). congruence.
    + intros Hh0 H63. split; [done|by apply Hh1].
  - destruct (Henc p Hp) as (b' & q & E3 & He). rewrite (bind_local_ok _ _ _ _ q b' h1) by (by rewrite (bind_ok _ _ _ _ _ E)). exists (Ok q), h1. split; [done|]. split.
    + right; right. exists q. split; [done|]. split; [by exists p|]. intros p' Hp'.
      destruct (Henc p' Hp') as (b3 & q3 & E4 & He4). congruence.
    + intros Hh0 H63. split; [done|by apply Hh1].
Qed.

Lemma planar_rest_spec d w h header b (hp : heap) : bytes d -> planar_sizes w h -> rd d 0 = Ok header -> header_ok header ->
  exists r b' hp', planar_rest d w h header (b, hp) = (r, (b', hp')) /\
    ((r = Err LIBRDP_STATUS_NO_MEMORY /\ b' = b) \/
     (r = Err LIBRDP_STATUS_PROTOCOL_ERROR /\ b' = b /\ forall p, ~ planar_bitmap d w h header p) \/
     (r = Ok (w * 4) /\ buffer_wf b' /\ (exists p, planar_bitmap d w h header p) /\
      forall p, planar_bitmap d w h header p -> contents b' = planar_image w h header p)) /\
    (hp = [] -> 4 * (w * h) <= 2 ^ 63 -> r <> Err LIBRDP_STATUS_NO_MEMORY).
Proof.
  intros Hd Hs Hd0 Hok. pose proof Hs as (Hw & Hh & Hmax). assert (Hwh : 0 < w * h) by nia.
  unfold planar_rest. cbv zeta. rewrite bind_require.
  destruct (header_rle header || (blen d =? 1 + planes_size w h header) || (blen d =? 1 + planes_size w h header + 1)) eqn:Hlen.
  2: { exists (Err LIBRDP_STATUS_PROTOCOL_ERROR), b, hp. split; [done|]. split; [|done]. right; left. split; [done|]. split; [done|].
    intros p Hp. rewrite !orb_false_iff, !Z.eqb_neq in Hlen. destruct Hlen as [[Hr H1] H2].
    destruct (raw_planes_extends d w h header p Hw Hh Hr Hp) as [_ [?|?]]; lia. }
  rewrite !orb_true_iff, !Z.eqb_eq in Hlen.
  fold (get_planes d w h header).
  destruct (resize_spec (h * (w * 4)) rdp_buffer_init hp buffer_init_wf) as (r & b1 & h1 & E & Hb1 & [[-> Hl]| ->] & Hheap); [lia|..].
  2: { rewrite (bind_local_err _ _ _ _ _ b1 h1) by apply (bind_err _ _ _ _ _ E). exists (Err LIBRDP_STATUS_NO_MEMORY), b, h1. split; [done|]. split; [by left|].
    intros Hh0 H63. destruct (Hheap Hh0) as [? _]; [lia|done]. }
  destruct (get_planes_spec d w h header b1 h1 Hd Hs Hd0 Hok) as (rp & h2 & Ep & Hp & Hheap2); [tauto|].
  assert (Hno : hp = [] -> 4 * (w * h) <= 2 ^ 63 -> rp <> Err LIBRDP_STATUS_NO_MEMORY).
  { intros Hh0 H63. apply Hheap2; [|done]. apply (Hheap Hh0). lia. }
  destruct Hp as [->|[[-> Hnone]|(q & -> & [p Hp] & Hall)]].
  - erewrite bind_local_err by (rewrite (bind_ok _ _ _ _ _ E); apply (bind_err _ _ _ _ _ Ep)). exists (Err LIBRDP_STATUS_NO_MEMORY), b, h2. split; [done|]. split; [by left|intros Hh0 H63; by destruct (Hno Hh0 H63)].
  - erewrite bind_local_err by (rewrite (bind_ok _ _ _ _ _ E); apply (bind_err _ _ _ _ _ Ep)). exists (Err LIBRDP_STATUS_PROTOCOL_ERROR), b, h2. split; [done|]. split; [by right; left|done].
  - assert (Himg : forall p', planar_bitmap d w h header p' ->
      planar_pixels (Z.to_nat (w * h)) w (chroma_size header w) (header_subsampled header) (header_cll header) q 0 =
        Ok (planar_image w h header p')).
    { intros p' Hp'. apply (planar_pixels_eq w h header p' q (Z.to_nat (w * h)) 0 Hw Hok (planar_bitmap_sized _ _ _ _ _ Hp') (Hall _ Hp')). lia. }
    pose proof (blen_planar_image w h header p ltac:(lia)) as Hi.
    destruct (store_bytes_spec 0 (planar_image w h header p) b1 h2 Hb1) as (b2 & E2 & Hb2 & Hl2 & Hc2); [lia|lia|].
    rewrite (bind_local_ok _ _ _ _ tt b2 h2) by (rewrite (bind_ok _ _ _ _ _ E), (bind_ok _ _ _ _ _ Ep), bind_lift, (Himg p Hp); done).
    exists (Ok (w * 4)), b2, h2. split; [done|]. split; [|done]. right; right. split; [done|]. split; [done|].
    split; [by exists p|]. intros p' Hp'.
    assert (planar_image w h header p' = planar_image w h header p) as -> by (specialize (Himg p' Hp') as E3; rewrite (Himg p Hp) in E3; congruence).
    assert (zdrop (0 + blen (planar_image w h header p)) (contents b1) = []) as E0.
    { apply blen_0_nil. pose proof (blen_contents b1 Hb1). rewrite blen_zdrop; lia. }
    by rewrite Hc2, E0, app_nil_r.
Qed.

(** ** Properties *)

(** C19: the decoder accepts exactly the planar bitmaps: if the bytes are one of
    this size, with planes coded by the run-length grammar or copied, the
    output holds the image of the planes, whose rows are [4 * width] bytes
    apart; it answers [PROTOCOL_ERROR] only if the bytes are none or the sizes
    are not those of an image that fits a [size_t], [NO_MEMORY] only if an
    allocation fails, and on every error the caller's buffer is as it was. *)
Theorem planar_decode_iff d w h b (hp : heap) :
  bytes d -> 0 <= w <= 0xffffffff -> 0 <= h <= 0xffffffff ->
  exists r b' hp', rdp_planar_decode_argb (View d) w h (b, hp) = (r, (b', hp')) /\
    ((r = Err LIBRDP_STATUS_NO_MEMORY /\ b' = b) \/
     (r = Err LIBRDP_STATUS_PROTOCOL_ERROR /\ b' = b /\
      ~ (planar_sizes w h /\ exists header p, planar_bitmap d w h header p)) \/
     (r = Ok (w * 4) /\ buffer_wf b' /\ planar_sizes w h /\ (exists header p, planar_bitmap d w h header p) /\
      forall header p, planar_bitmap d w h header p -> contents b' = planar_image w h header p)) /\
    (hp = [] -> 4 * (w * h) <= 2 ^ 63 -> r <> Err LIBRDP_STATUS_NO_MEMORY).
Proof.
  intros Hd Hw Hh.
  assert (Hone : forall header header' p, rd d 0 = Ok header -> planar_bitmap d w h header' p -> header' = header).
  { intros header header' p E Hp. apply planar_bitmap_header in Hp as [E' _]. congruence. }
  assert (Hcase : (exists header, planar_sizes w h /\ rd d 0 = Ok header /\ header_ok header) \/
    (~ planar_sizes w h \/ forall header, rd d 0 = Ok header -> ~ header_ok header)).
  { assert (Decision (planar_sizes w h)) as [Hs|Hs] by apply _; [|by right; left].
    destruct (rd d 0) as [header| |] eqn:E; [|by right; right; intros ? ?..].
    assert (Decision (header_ok header)) as [Hok|Hok] by apply _; [by left; exists header|]. right; right. by intros ? [= <-]. }
  destruct Hcase as [(header & Hs & Hd0 & Hok)|Hbad].
  - rewrite (planar_good_size d w h header) by done.
    destruct (planar_rest_spec d w h header b hp Hd Hs Hd0 Hok) as (r & b' & hp' & E & H & Hheap).
    exists r, b', hp'. split; [done|]. split; [|done]. destruct H as [H|[(-> & -> & Hnone)|(-> & Hb & [p Hp] & Hall)]]; [by left|..].
    + right; left. split; [done|]. split; [done|]. intros (_ & header' & p & Hp).
      rewrite (Hone _ _ _ Hd0 Hp) in Hp. by apply (Hnone p).
    + right; right. split; [done|]. split; [done|]. split; [done|]. split; [by exists header, p|].
      intros header' p' Hp'. pose proof (Hone _ _ _ Hd0 Hp') as ->. by apply Hall.
  - rewrite planar_bad_size by done. eexists _, _, _. split; [done|]. split; [|done]. right; left. split; [done|]. split; [done|].
    intros (Hs & header & p & Hp). apply planar_bitmap_header in Hp as [E Hok]. destruct Hbad as [Hbad|Hbad]; [done|].
    by apply (Hbad header).
Qed.

(** Two lines of four pixels, run-length encoded, without alpha. *)
Definition sample_planar : list Z := [0x30; 0x13; 10; 0x13; 4; 0x13; 20; 0x13; 0; 0x13; 30; 0x13; 1].
Definition sample_line (b : Z) : list segment := [mk_segment [b] 3].
Definition sample_planar_planes : planes :=
  (None, painted None [sample_line 10; sample_line 4], painted None [sample_line 20; sample_line 0],
   painted None [sample_line 30; sample_line 1]).
Example sample_planar_planes_values : sample_planar_planes =
  (None, [10; 10; 10; 10; 12; 12; 12; 12], [20; 20; 20; 20; 20; 20; 20; 20], [30; 30; 30; 30; 29; 29; 29; 29]).
Proof. reflexivity. Qed.
Lemma sample_planar_bitmap : planar_bitmap sample_planar 4 2 0x30 sample_planar_planes.
Proof.
  assert (Hl : forall b, is_byte b -> line_ok 4 (sample_line b)).
  { intros b Hb. split; [|done]. apply Forall_singleton. split; [by apply Forall_singleton|]. left. split; [done|]. by left. }
  assert (Hp : forall b c, is_byte b -> is_byte c ->
    is_plane true 4 2 [0x13; b; 0x13; c] (painted None [sample_line b; sample_line c])).
  { intros b c Hb Hc. exists [sample_line b; sample_line c]. split; [done|]. split; [|done].
    apply Forall_cons_2, Forall_singleton; by apply Hl. }
  exists [], [0x13; 10; 0x13; 4], [0x13; 20; 0x13; 0], [0x13; 30; 0x13; 1], [].
  split; [done|]. split; [done|]. split; [done|]. split; [by apply Hp|]. split; [by apply Hp|]. split; [by apply Hp|done].
Qed.

Lemma planar_decode_iff_witness :
  exists b', rdp_planar_decode_argb (View sample_planar) 4 2 (rdp_buffer_init, []) = (Ok 16, (b', [])) /\
    contents b' = concat (replicate 4 [30; 20; 10; 255]) ++ concat (replicate 4 [29; 20; 12; 255]).
Proof.
  assert (Hs : planar_sizes 4 2) by done. pose proof sample_planar_bitmap as Hp.
  destruct (planar_decode_iff sample_planar 4 2 rdp_buffer_init []) as (r & b' & hp' & E & H & Hheap);
    [by repeat constructor|done|done|].
  destruct H as [[-> _]|[(_ & _ & Hnone)|(-> & _ & _ & _ & Hall)]].
  - by destruct (Hheap eq_refl).
  - destruct Hnone. split; [done|]. by exists 0x30, sample_planar_planes.
  - exists b'. split; [|by rewrite (Hall _ _ Hp)]. refine (eq_trans E _). assert (hp' = []) as -> by (vm_compute in E; by injection E). done.
Defined.
