(* ===== verification/Nscodec.v ===== *)
(** * Nscodec: the NSCodec bitmap codec

    Models [src/src/graphics/nscodec.c]: the capability, the stream header, the
    run-length decoder of one plane, the planes kept in the context, and the
    conversion of luma, chroma and alpha planes to a region of a BGRA surface.
    [rle_encodes] is the grammar of a run-length encoded plane. *)

From S2P Require Import Prelude Stream Buffer Planar.

Definition RDP_NSCODEC_CAPABILITY_LENGTH : Z := 3.
Definition RDP_NSCODEC_STREAM_HEADER_LENGTH : Z := 20.
Definition RDP_NSCODEC_MAX_DIMENSION : Z := 8192.

Record rdp_nscodec_capability := mk_nscodec_capability {
  nc_allow_dynamic_fidelity : Z;
  nc_allow_subsampling : Z;
  nc_color_loss_level : Z;
}.

Record rdp_nscodec_stream := mk_nscodec_stream {
  ns_luma_len : Z;
  ns_orange_chroma_len : Z;
  ns_green_chroma_len : Z;
  ns_alpha_len : Z;
  ns_color_loss_level : Z;
  ns_chroma_subsampling_level : Z;
  ns_luma : list Z;
  ns_orange_chroma : list Z;
  ns_green_chroma : list Z;
  ns_alpha : option (list Z);
  ns_luma_width : Z;
  ns_luma_height : Z;
  ns_chroma_width : Z;
  ns_chroma_height : Z;
  ns_alpha_width : Z;
  ns_alpha_height : Z;
}.

(** [c_planes]: four pointers, [None] for NULL. *)
Record rdp_nscodec_context := mk_nscodec_context {
  c_planes : list (option (list Z));
  c_capacity : Z;
}.

(** ** Operations *)

(** [*rounded], or nothing when the result is 0. *)
Definition rdp_nscodec_round_up (value alignment : Z) : option Z :=
  if alignment =? 0 then Some value else
  let remainder := value mod alignment in
  if remainder =? 0 then Some value else
  if SIZE_MAX - (alignment - remainder) <? value then None
  else Some (size_t (value + alignment - remainder)).

Definition rdp_nscodec_clamp_i32 (value : Z) : Z :=
  if value <? 0 then 0 else if 255 <? value then 255 else value.

Definition rdp_nscodec_recover_chroma (value color_loss_level : Z) : Z :=
  let shifted := u8 (Z.shiftl value (color_loss_level - 1)) in
  if shifted <? 128 then shifted else shifted - 256.

Definition rdp_nscodec_context_init : rdp_nscodec_context := mk_nscodec_context (replicate 4 None) 0.
Definition rdp_nscodec_context_reset (context : rdp_nscodec_context) : rdp_nscodec_context := context.
Definition rdp_nscodec_context_free (context : rdp_nscodec_context) : rdp_nscodec_context :=
  mk_nscodec_context (replicate 4 None) 0.

(** The state of the decoder: the context, and the outcomes of allocations. *)
Definition nstate : Type := rdp_nscodec_context * heap.

(** [count] calls of malloc, up to the first that fails. *)
Fixpoint mallocs (count : nat) : M nstate unit :=
  match count with
  | O => mret tt
  | S count => fun s =>
      let '(ok, h) := heap_alloc s.2 in
      if ok then mallocs count (s.1, h) else (Err LIBRDP_STATUS_NO_MEMORY, (s.1, h))
  end.

(** [resized[i]]: the old bytes and zeros.  What malloc leaves in a part that is
    not copied, because the old pointer is NULL, is 0 here. *)
Definition resized (old_capacity capacity : Z) (plane : option (list Z)) : option (list Z) :=
  Some (ztake old_capacity (default [] plane ++ replicate (Z.to_nat old_capacity) 0) ++
        replicate (Z.to_nat (capacity - old_capacity)) 0).

Definition rdp_nscodec_ensure_planes (capacity : Z) : M nstate unit :=
  old_capacity ← gets (fun s => c_capacity s.1);
  if capacity <=? old_capacity then mret tt else
  mallocs 4;;
  modify (fun s => (mk_nscodec_context (resized old_capacity capacity <$> c_planes s.1) capacity, s.2)).

Definition capability_valid (capability : rdp_nscodec_capability) : bool :=
  negb ((1 <? nc_allow_dynamic_fidelity capability) || (1 <? nc_allow_subsampling capability) ||
        (nc_color_loss_level capability <? 1) || (7 <? nc_color_loss_level capability)).

Definition rdp_nscodec_parse_capability (data : view) : res rdp_nscodec_capability :=
  ensure (negb (view_null data)) LIBRDP_STATUS_INVALID_ARGUMENT;;
  ensure (view_len data =? RDP_NSCODEC_CAPABILITY_LENGTH) LIBRDP_STATUS_PROTOCOL_ERROR;;
  let bytes := view_bytes data in
  b0 ← rd bytes 0; b1 ← rd bytes 1; b2 ← rd bytes 2;
  let parsed := mk_nscodec_capability b0 b1 b2 in
  ensure (capability_valid parsed) LIBRDP_STATUS_PROTOCOL_ERROR;;
  Ok parsed.

Definition rdp_nscodec_write_capability (capability : rdp_nscodec_capability) : writer unit :=
  require (capability_valid capability) LIBRDP_STATUS_INVALID_ARGUMENT;;
  restore_on_error (
    rdp_buffer_append_u8 (nc_allow_dynamic_fidelity capability);;
    rdp_buffer_append_u8 (nc_allow_subsampling capability);;
    rdp_buffer_append_u8 (nc_color_loss_level capability)).

Definition rdp_nscodec_plane_size (width height : Z) : res Z :=
  ensure (negb ((width =? 0) || (height =? 0) || (SIZE_MAX / height <? width))) LIBRDP_STATUS_PROTOCOL_ERROR;;
  Ok (size_t (width * height)).

Definition rdp_nscodec_dimensions_valid (width height : Z) : bool :=
  (0 <? width) && (0 <? height) && (width <=? RDP_NSCODEC_MAX_DIMENSION) && (height <=? RDP_NSCODEC_MAX_DIMENSION).

Definition rdp_nscodec_parse_stream (data : view) (width height : Z) : res rdp_nscodec_stream :=
  ensure (negb (view_null data)) LIBRDP_STATUS_INVALID_ARGUMENT;;
  ensure (rdp_nscodec_dimensions_valid width height && negb (view_len data <? RDP_NSCODEC_STREAM_HEADER_LENGTH))
    LIBRDP_STATUS_PROTOCOL_ERROR;;
  with_stream data (
    luma_len ← coerce LIBRDP_STATUS_PROTOCOL_ERROR rdp_stream_read_u32_le;
    orange_chroma_len ← coerce LIBRDP_STATUS_PROTOCOL_ERROR rdp_stream_read_u32_le;
    green_chroma_len ← coerce LIBRDP_STATUS_PROTOCOL_ERROR rdp_stream_read_u32_le;
    alpha_len ← coerce LIBRDP_STATUS_PROTOCOL_ERROR rdp_stream_read_u32_le;
    color_loss_level ← coerce LIBRDP_STATUS_PROTOCOL_ERROR rdp_stream_read_u8;
    chroma_subsampling_level ← coerce LIBRDP_STATUS_PROTOCOL_ERROR rdp_stream_read_u8;
    reserved ← coerce LIBRDP_STATUS_PROTOCOL_ERROR rdp_stream_read_u16_le;
    require (negb ((luma_len =? 0) || (orange_chroma_len =? 0) || (green_chroma_len =? 0) ||
                   (color_loss_level <? 1) || (7 <? color_loss_level) || (1 <? chroma_subsampling_level) ||
                   negb (reserved =? 0))) LIBRDP_STATUS_PROTOCOL_ERROR;;
    '(rounded_width, rounded_height) ← lift (
      match rdp_nscodec_round_up width 8, rdp_nscodec_round_up height 2 with
      | Some rounded_width, Some rounded_height =>
          if (rounded_width <? width) || (rounded_height <? height) then Err LIBRDP_STATUS_PROTOCOL_ERROR
          else Ok (rounded_width, rounded_height)
      | _, _ => Err LIBRDP_STATUS_PROTOCOL_ERROR
      end);
    let subsampled := negb (chroma_subsampling_level =? 0) in
    let luma_width := if subsampled then rounded_width else width in
    let luma_height := height in
    let chroma_width := if subsampled then rounded_width / 2 else width in
    let chroma_height := if subsampled then rounded_height / 2 else height in
    luma_expected ← lift (rdp_nscodec_plane_size luma_width luma_height);
    chroma_expected ← lift (rdp_nscodec_plane_size chroma_width chroma_height);
    alpha_expected ← lift (rdp_nscodec_plane_size width height);
    require (negb ((luma_expected <? luma_len) || (chroma_expected <? orange_chroma_len) ||
                   (chroma_expected <? green_chroma_len) || (alpha_expected <? alpha_len))) LIBRDP_STATUS_PROTOCOL_ERROR;;
    let total := luma_len in
    require (negb (SIZE_MAX - total <? orange_chroma_len)) LIBRDP_STATUS_PROTOCOL_ERROR;;
    let total := size_t (total + orange_chroma_len) in
    require (negb (SIZE_MAX - total <? green_chroma_len)) LIBRDP_STATUS_PROTOCOL_ERROR;;
    let total := size_t (total + green_chroma_len) in
    require (negb (SIZE_MAX - total <? alpha_len)) LIBRDP_STATUS_PROTOCOL_ERROR;;
    let total := size_t (total + alpha_len) in
    require (total =? view_len data - RDP_NSCODEC_STREAM_HEADER_LENGTH) LIBRDP_STATUS_PROTOCOL_ERROR;;
    planes ← coerce LIBRDP_STATUS_PROTOCOL_ERROR (rdp_stream_read_bytes total);
    let luma := planes in
    let orange_chroma := zdrop luma_len luma in
    let green_chroma := zdrop orange_chroma_len orange_chroma in
    let alpha := if 0 <? alpha_len then Some (zdrop green_chroma_len green_chroma) else None in
    mret (mk_nscodec_stream luma_len orange_chroma_len green_chroma_len alpha_len color_loss_level
      chroma_subsampling_level luma orange_chroma green_chroma alpha
      luma_width luma_height chroma_width chroma_height width height)).

(** ** One plane *)

(** The loop of [rdp_nscodec_decode_rle_plane_into]: [input] is what is left of
    the input and [output] what is written; an iteration takes a byte at least,
    so the bytes that are left and one more are enough fuel. *)
Fixpoint rle_loop (fuel : nat) (output_len left : Z) (input output : list Z) : res (list Z * list Z * Z) :=
  if negb (4 <? left) then Ok (input, output, left) else
  match fuel with
  | O => Fault
  | S fuel =>
      match input with
      | [] => Err LIBRDP_STATUS_PROTOCOL_ERROR
      | value :: input =>
          if left =? 5 then rle_loop fuel output_len (left - 1) input (output ++ [value]) else
          match input with
          | [] => Err LIBRDP_STATUS_PROTOCOL_ERROR
          | next :: tail =>
              if value =? next then
                match tail with
                | [] => Err LIBRDP_STATUS_PROTOCOL_ERROR
                | b :: tail =>
                    '(run, tail) ← (if b <? 0xff then Ok (b + 2, tail) else
                      ensure (negb (blen tail <? 4)) LIBRDP_STATUS_PROTOCOL_ERROR;;
                      b0 ← rd tail 0; b1 ← rd tail 1; b2 ← rd tail 2; b3 ← rd tail 3;
                      Ok (val32 b0 b1 b2 b3, zdrop 4 tail));
                    ensure (negb ((run =? 0) || (left <? run) || (output_len - blen output <? run)))
                      LIBRDP_STATUS_PROTOCOL_ERROR;;
                    rle_loop fuel output_len (left - run) tail (output ++ replicate (Z.to_nat run) value)
                end
              else rle_loop fuel output_len (left - 1) input (output ++ [value])
          end
      end
  end.

(** The bytes stored at [output]. *)
Definition rdp_nscodec_decode_rle_plane_into (input : list Z) (output_len : Z) : res (list Z) :=
  ensure (negb (output_len =? 0)) LIBRDP_STATUS_INVALID_ARGUMENT;;
  if output_len <=? 4 then
    ensure (blen input =? output_len) LIBRDP_STATUS_PROTOCOL_ERROR;;
    Ok input
  else
    '(rest, output, left_len) ← rle_loop (S (length input)) output_len output_len input [];
    ensure (negb (negb (left_len =? 4) || negb (blen rest =? 4) || (output_len - blen output <? 4))) LIBRDP_STATUS_PROTOCOL_ERROR;;
    last ← slice rest 0 4;
    Ok (output ++ last).

Definition rdp_nscodec_decode_rle_plane (input : view) (output_len : Z) : M nstate (list Z) :=
  require (negb (view_null input || (output_len =? 0))) LIBRDP_STATUS_INVALID_ARGUMENT;;
  if output_len <=? 4 then
    require (view_len input =? output_len) LIBRDP_STATUS_PROTOCOL_ERROR;;
    lift (slice (view_bytes input) 0 output_len)
  else
    mallocs 1;;
    lift (rdp_nscodec_decode_rle_plane_into (view_bytes input) output_len).

(** [encoded_len] bytes at [encoded]. *)
Definition rdp_nscodec_decode_plane (encoded : list Z) (encoded_len expected_len : Z) : res (list Z) :=
  ensure (negb (expected_len =? 0)) LIBRDP_STATUS_INVALID_ARGUMENT;;
  if encoded_len =? expected_len then slice encoded 0 expected_len else
  ensure (negb (expected_len <? encoded_len)) LIBRDP_STATUS_PROTOCOL_ERROR;;
  encoded ← slice encoded 0 encoded_len;
  rdp_nscodec_decode_rle_plane_into encoded expected_len.

(** memcpy to the start of [context->planes[i]]. *)
Definition store_plane (i : Z) (l : list Z) : M nstate unit :=
  context ← gets fst;
  plane ← lift (rd (c_planes context) i);
  match plane with
  | None => lift Fault
  | Some block =>
      block ← lift (write_at block 0 l);
      all ← lift (wr (c_planes context) i (Some block));
      modify (fun s => (mk_nscodec_context all (c_capacity context), s.2))
  end.

Definition rdp_nscodec_decode_planes (stream : rdp_nscodec_stream) (width height : Z) : M nstate unit :=
  luma_expected ← lift (rdp_nscodec_plane_size (ns_luma_width stream) (ns_luma_height stream));
  chroma_expected ← lift (rdp_nscodec_plane_size (ns_chroma_width stream) (ns_chroma_height stream));
  alpha_expected ← lift (rdp_nscodec_plane_size width height);
  let capacity := luma_expected in
  let capacity := if capacity <? chroma_expected then chroma_expected else capacity in
  let capacity := if capacity <? alpha_expected then alpha_expected else capacity in
  mallocs 4;;
  p0 ← lift (rdp_nscodec_decode_plane (ns_luma stream) (ns_luma_len stream) luma_expected);
  p1 ← lift (rdp_nscodec_decode_plane (ns_orange_chroma stream) (ns_orange_chroma_len stream) chroma_expected);
  p2 ← lift (rdp_nscodec_decode_plane (ns_green_chroma stream) (ns_green_chroma_len stream) chroma_expected);
  p3 ← lift (if ns_alpha_len stream =? 0 then Ok (replicate (Z.to_nat alpha_expected) 0xff)
             else match ns_alpha stream with
                  | None => Err LIBRDP_STATUS_INVALID_ARGUMENT
                  | Some alpha => rdp_nscodec_decode_plane alpha (ns_alpha_len stream) alpha_expected
                  end);
  rdp_nscodec_ensure_planes capacity;;
  store_plane 0 p0;;
  store_plane 1 p1;;
  store_plane 2 p2;;
  store_plane 3 p3.

(** ** The image *)

(** A cell of [context->planes[i]]. *)
Definition plane_at (context : rdp_nscodec_context) (i index : Z) : res Z :=
  plane ← rd (c_planes context) i;
  match plane with None => Fault | Some block => rd block index end.

Definition nscodec_pixel (context : rdp_nscodec_context) (stream : rdp_nscodec_stream) (width x y : Z) : res (list Z) :=
  let subsampled := negb (ns_chroma_subsampling_level stream =? 0) in
  let chroma_row := (if subsampled then y / 2 else y) * ns_chroma_width stream in
  let chroma_x := if subsampled then x / 2 else x in
  y_value ← plane_at context 0 (y * ns_luma_width stream + x);
  co ← plane_at context 1 (chroma_row + chroma_x);
  cg ← plane_at context 2 (chroma_row + chroma_x);
  let co_value := rdp_nscodec_recover_chroma co (ns_color_loss_level stream) in
  let cg_value := rdp_nscodec_recover_chroma cg (ns_color_loss_level stream) in
  a ← plane_at context 3 (y * width + x);
  Ok [rdp_nscodec_clamp_i32 (y_value - co_value - cg_value); rdp_nscodec_clamp_i32 (y_value + cg_value);
      rdp_nscodec_clamp_i32 (y_value + co_value - cg_value); a].

(** The row [y] from the column [x] on: [row] is its offset in [dest]. *)
Fixpoint row_loop (n : nat) (context : rdp_nscodec_context) (stream : rdp_nscodec_stream) (width row x y : Z)
    (dest : list Z) : res (list Z) :=
  match n with
  | O => Ok dest
  | S n =>
      pixel ← nscodec_pixel context stream width x y;
      dest ← write_at dest (row + x * 4) pixel;
      row_loop n context stream width row (x + 1) y dest
  end.
Fixpoint region_loop (n : nat) (context : rdp_nscodec_context) (stream : rdp_nscodec_stream)
    (width dest_stride dest_x dest_y y : Z) (dest : list Z) : res (list Z) :=
  match n with
  | O => Ok dest
  | S n =>
      let row := (dest_y + y) * dest_stride + dest_x * 4 in
      dest ← row_loop (Z.to_nat width) context stream width row 0 y dest;
      region_loop n context stream width dest_stride dest_x dest_y (y + 1) dest
  end.

(** The memory at [dest] is the second component of the state. *)
Definition rdp_nscodec_decode_region_bgra32 (data : view)
    (width height dest_stride dest_x dest_y dest_width dest_height : Z) : M (nstate * list Z) unit :=
  require (negb (view_null data)) LIBRDP_STATUS_INVALID_ARGUMENT;;
  require (rdp_nscodec_dimensions_valid width height && rdp_nscodec_dimensions_valid dest_width dest_height &&
           negb ((dest_width <? dest_x) || (dest_height <? dest_y) || (dest_width - dest_x <? width) ||
                 (dest_height - dest_y <? height))) LIBRDP_STATUS_PROTOCOL_ERROR;;
  let min_stride := size_t (dest_width * 4) in
  require (negb (dest_stride <? min_stride)) LIBRDP_STATUS_PROTOCOL_ERROR;;
  stream ← lift (rdp_nscodec_parse_stream data width height);
  on_fst (rdp_nscodec_decode_planes stream width height);;
  context ← gets (fun s => s.1.1);
  dest ← gets snd;
  dest ← lift (region_loop (Z.to_nat height) context stream width dest_stride dest_x dest_y 0 dest);
  modify (fun s => (s.1, dest)).

(** The memory is the block of a buffer: [pixels->data]. *)
Definition on_block {A} (m : M (nstate * list Z) A) : M (rdp_nscodec_context * wstate) A := fun '(context, (pixels, h)) =>
  let '(r, ((context, h), block)) := m ((context, h), block pixels) in
  (r, (context, (set_block block (b_capacity pixels) pixels, h))).

(** The result is [*stride]. *)
Definition rdp_nscodec_decode_bgra32 (data : view) (width height : Z) : M (rdp_nscodec_context * wstate) Z :=
  require (negb (view_null data)) LIBRDP_STATUS_INVALID_ARGUMENT;;
  require (rdp_nscodec_dimensions_valid width height) LIBRDP_STATUS_PROTOCOL_ERROR;;
  let output_stride := size_t (width * 4) in
  require (negb (SIZE_MAX / output_stride <? height)) LIBRDP_STATUS_PROTOCOL_ERROR;;
  let output_size := size_t (height * output_stride) in
  on_snd (rdp_buffer_reserve output_size);;
  on_block (rdp_nscodec_decode_region_bgra32 data width height output_stride 0 0 width height);;
  on_snd (b ← get_buffer; put_buffer (set_length output_size b));;
  mret output_stride.

(** ** The grammar of an encoded plane *)

(** [rle_encodes left e p]: [e] encodes the [left] bytes [p].  The last four are
    copied, and so is the one before them; among the others two equal bytes
    start a run, whose length follows. *)
Inductive rle_encodes : Z -> list Z -> list Z -> Prop :=
| rle_last e : blen e = 4 -> rle_encodes 4 e e
| rle_fifth b e p : rle_encodes 4 e p -> rle_encodes 5 (b :: e) (b :: p)
| rle_single left_ b c e p : 5 < left_ -> b <> c -> rle_encodes (left_ - 1) (c :: e) p ->
    rle_encodes left_ (b :: c :: e) (b :: p)
| rle_run left_ b n e p : 5 < left_ -> 2 <= n <= 256 -> rle_encodes (left_ - n) e p ->
    rle_encodes left_ (b :: b :: (n - 2) :: e) (replicate (Z.to_nat n) b ++ p)
| rle_long_run left_ b n e p : 5 < left_ -> is_u32 n -> 0 < n -> rle_encodes (left_ - n) e p ->
    rle_encodes left_ (b :: b :: 0xff :: le32 n ++ e) (replicate (Z.to_nat n) b ++ p).

Lemma rle_encodes_length left_ e p : rle_encodes left_ e p -> blen p = left_ /\ 4 <= left_.
Proof.
  induction 1 as [e He|b e p _ [IH _]|left_ b c e p _ _ _ [IH IH']|left_ b n e p _ Hn _ [IH IH']|left_ b n e p _ _ Hn _ [IH IH']];
    rewrite ?blen_cons, ?blen_app, ?blen_replicate; lia.
Qed.

(** The loop and what follows it. *)
Definition rle_rest (fuel : nat) (output_len left_ : Z) (input output : list Z) : res (list Z) :=
  '(rest, output, left_) ← rle_loop fuel output_len left_ input output;
  ensure (negb (negb (left_ =? 4) || negb (blen rest =? 4) || (output_len - blen output <? 4))) LIBRDP_STATUS_PROTOCOL_ERROR;;
  last ← slice rest 0 4;
  Ok (output ++ last).

(** The length of a long run. *)
Definition long_run (tail : list Z) : res (Z * list Z) :=
  ensure (negb (blen tail <? 4)) LIBRDP_STATUS_PROTOCOL_ERROR;;
  b0 ← rd tail 0; b1 ← rd tail 1; b2 ← rd tail 2; b3 ← rd tail 3;
  Ok (val32 b0 b1 b2 b3, zdrop 4 tail).
Lemma long_run_le32 n e : is_u32 n -> long_run (le32 n ++ e) = Ok (n, e).
Proof.
  intros Hn. unfold long_run. pose proof (blen_nonneg e).
  rewrite ensure_true by (rewrite blen_app; change (blen (le32 n)) with 4; guard_lia).
  rewrite (rd_app_l _ _ 0), (rd_app_l _ _ 1), (rd_app_l _ _ 2), (rd_app_l _ _ 3) by done. cbn [mbind res_bind].
  rd_eval. cbn [mbind res_bind]. by rewrite val32_le32.
Qed.
Lemma long_run_outcome tail : bytes tail ->
  long_run tail = Err LIBRDP_STATUS_PROTOCOL_ERROR \/ exists n e, is_u32 n /\ tail = le32 n ++ e.
Proof.
  intros Hb. unfold long_run. rewrite ensure_bind. destruct (Z.ltb_spec (blen tail) 4); [by left|]. right. cbn [negb].
  destruct tail as [|b0 [|b1 [|b2 [|b3 e]]]]; try (exfalso; unfold blen in *; cbn in *; lia). exists (val32 b0 b1 b2 b3), e.
  repeat (apply Forall_cons_iff in Hb as [? Hb]). rewrite le32_val32 by done. split; [|done].
  rewrite val32_arith by done. unfold is_byte, is_u32 in *. lia.
Qed.

Lemma rle_rest_encoded left_ input p fuel output_len output :
  rle_encodes left_ input p -> (length input < fuel)%nat -> blen output + left_ = output_len ->
  rle_rest fuel output_len left_ input output = Ok (output ++ p).
Proof.
  intros H. revert fuel output. unfold rle_rest.
  induction H as [e He|b e p H IH|left_ b c e p Hl Hbc _ IH|left_ b n e p Hl Hn H IH|left_ b n e p Hl Hu Hn H IH];
    intros [|fuel] output Hf Hout; try (cbn in Hf; lia).
  - cbn [rle_loop]. cbn [Z.ltb Z.compare Pos.compare Pos.compare_cont negb mbind res_bind]. rewrite He.
    replace (output_len - blen output) with 4 by lia. apply blen_4 in He as (b0 & b1 & b2 & b3 & ->). done.
  - cbn [rle_loop]. cbn [Z.ltb Z.compare Pos.compare Pos.compare_cont negb Z.eqb Pos.eqb Z.sub Z.add Z.opp Z.pos_sub].
    change (5 - 1) with 4. rewrite IH; [by rewrite <- app_assoc|cbn in Hf; lia|rewrite blen_app, blen_cons, blen_nil; lia].
  - cbn [rle_loop]. destruct (Z.ltb_spec 4 left_), (Z.eqb_spec left_ 5); try lia. cbn [negb].
    destruct (Z.eqb_spec b c); [done|]. rewrite IH; [by rewrite <- app_assoc|cbn in *; lia|rewrite blen_app, blen_cons, blen_nil; lia].
  - cbn [rle_loop]. destruct (Z.ltb_spec 4 left_), (Z.eqb_spec left_ 5); try lia. cbn [negb].
    rewrite Z.eqb_refl. destruct (Z.ltb_spec (n - 2) 0xff); [|lia]. cbn [mbind res_bind]. replace (n - 2 + 2) with n by lia.
    apply rle_encodes_length in H as [_ H]. rewrite ensure_true by guard_lia.
    rewrite IH; [by rewrite <- app_assoc|cbn in *; lia|rewrite blen_app, blen_replicate; lia].
  - cbn [rle_loop]. destruct (Z.ltb_spec 4 left_), (Z.eqb_spec left_ 5); try lia. cbn [negb].
    rewrite Z.eqb_refl. change (0xff <? 0xff) with false. cbv iota.
    fold (long_run (le32 n ++ e)). rewrite long_run_le32 by done. cbn [mbind res_bind].
    apply rle_encodes_length in H as [_ H]. rewrite ensure_true by guard_lia.
    rewrite IH; [by rewrite <- app_assoc|cbn in *; lia|rewrite blen_app, blen_replicate; lia].
Qed.

Lemma rle_rest_outcome fuel left_ input output_len output :
  bytes input -> (length input < fuel)%nat -> blen output + left_ = output_len -> 0 <= left_ ->
  rle_rest fuel output_len left_ input output = Err LIBRDP_STATUS_PROTOCOL_ERROR \/ exists p, rle_encodes left_ input p.
Proof.
  revert left_ input output. unfold rle_rest.
  induction fuel as [|fuel IH]; intros left_ input output Hb Hf Hout Hl; [lia|]. cbn [rle_loop].
  destruct (Z.ltb_spec 4 left_) as [H4|H4]; cbn [negb].
  2: { cbn [mbind res_bind]. rewrite ensure_bind. destruct (negb _) eqn:E; [|by left]. right. exists input.
    apply negb_true_iff in E. rewrite !orb_false_iff, !negb_false_iff, !Z.eqb_eq in E. destruct E as [[-> E] _].
    by constructor. }
  destruct input as [|b input]; [by left|]. apply Forall_cons_iff in Hb as [Hbb Hb]. cbn [length] in Hf.
  destruct (Z.eqb_spec left_ 5) as [->|H5].
  { destruct (IH (5 - 1) input (output ++ [b]) Hb) as [E|[p Hp]]; [lia|rewrite blen_app, blen_cons, blen_nil; lia|lia|by left|].
    right. exists (b :: p). by constructor. }
  destruct input as [|c input]; [by left|].
  destruct (Z.eqb_spec b c) as [<-|Hbc].
  2: { destruct (IH (left_ - 1) (c :: input) (output ++ [b]) Hb) as [E|[p Hp]]; [lia|rewrite blen_app, blen_cons, blen_nil; lia|lia|by left|].
    right. exists (b :: p). constructor; [lia|done|done]. }
  destruct input as [|n input]; [by left|]. apply Forall_cons_iff in Hb as [_ Hb]. apply Forall_cons_iff in Hb as [Hn Hb].
  cbn [length] in Hf.
  assert (Hrun : forall run tail, bytes tail -> (length tail < fuel)%nat -> 0 <= run ->
    (forall p, rle_encodes (left_ - run) tail p -> 0 < run -> exists p', rle_encodes left_ (b :: b :: n :: input) p') ->
    ('(rest, output, left_) ← (ensure (negb ((run =? 0) || (left_ <? run) || (output_len - blen output <? run)))
        LIBRDP_STATUS_PROTOCOL_ERROR;;
      rle_loop fuel output_len (left_ - run) tail (output ++ replicate (Z.to_nat run) b));
     ensure (negb (negb (left_ =? 4) || negb (blen rest =? 4) || (output_len - blen output <? 4))) LIBRDP_STATUS_PROTOCOL_ERROR;;
     last ← slice rest 0 4;
     Ok (output ++ last)) = Err LIBRDP_STATUS_PROTOCOL_ERROR \/ exists p, rle_encodes left_ (b :: b :: n :: input) p).
  { intros run tail Ht Hft H0 Hk. rewrite ensure_bind. destruct (negb _) eqn:E; [|by left].
    apply negb_true_iff in E. rewrite !orb_false_iff, !Z.ltb_ge, Z.eqb_neq in E.
    destruct (IH (left_ - run) tail (output ++ replicate (Z.to_nat run) b) Ht Hft) as [E2|[p Hp]];
      [rewrite blen_app, blen_replicate; lia|lia|by left|]. right. apply (Hk p Hp). lia. }
  destruct (Z.ltb_spec n 0xff) as [Hn2|Hn2].
  - cbn [mbind res_bind] in *. unfold is_byte in Hn. apply Hrun; [done|lia|lia|]. intros p Hp _.
    exists (replicate (Z.to_nat (n + 2)) b ++ p). replace n with (n + 2 - 2) at 1 by lia. apply rle_run; [lia|lia|done].
  - fold (long_run input). destruct (long_run_outcome input Hb) as [->|(m & e & Hm & ->)]; [by left|].
    rewrite long_run_le32 by done. cbn [mbind res_bind] in *. apply Forall_app in Hb as [_ He].
    rewrite length_app in Hf. unfold is_u32 in Hm. apply Hrun; [done|lia|lia|]. intros p Hp Hm0.
    assert (n = 0xff) as -> by (unfold is_byte in Hn; lia). exists (replicate (Z.to_nat m) b ++ p). apply rle_long_run; [lia|done|done|done].
Qed.

(** ** The planes *)

(** [e] encodes the plane [p] of [n] bytes: all of it, or less, run-length
    encoded. *)
Definition plane_coded (n : Z) (e p : list Z) : Prop := (blen e = n /\ p = e) \/ (blen e < n /\ rle_encodes n e p).

Lemma plane_coded_size n e p : plane_coded n e p -> blen p = n.
Proof. intros [[H ->]|[_ H]]; [done|]. by apply rle_encodes_length in H as [? _]. Qed.
Lemma rle_encodes_nonempty left_ e p : rle_encodes left_ e p -> 0 < blen e.
Proof. destruct 1; rewrite ?blen_cons; pose proof (blen_nonneg e); rewrite ?blen_cons; try lia. pose proof (blen_nonneg (le32 n ++ e)). lia. Qed.
Lemma plane_coded_range n e p : 0 < n -> plane_coded n e p -> 0 < blen e <= n.
Proof. intros Hn [[H _]|[H Hr]]; [lia|]. apply rle_encodes_nonempty in Hr. lia. Qed.

Lemma decode_plane_coded n e p junk : 0 < n -> plane_coded n e p -> rdp_nscodec_decode_plane (e ++ junk) (blen e) n = Ok p.
Proof.
  intros Hn H. unfold rdp_nscodec_decode_plane. rewrite ensure_true by guard_lia.
  assert (Hs : slice (e ++ junk) 0 (blen e) = Ok e).
  { unfold slice. rewrite blen_app. pose proof (blen_nonneg e). pose proof (blen_nonneg junk).
    rewrite (proj2 (Z.leb_le (0 + blen e) _)), (proj2 (Z.leb_le 0 (blen e))) by lia. cbn [andb Z.leb Z.compare]. rewrite zdrop_0. by rewrite ztake_app_blen. }
  destruct H as [[<- ->]|[Hl H]].
  { by rewrite Z.eqb_refl, Hs. }
  destruct (Z.eqb_spec (blen e) n); [lia|]. rewrite ensure_true by guard_lia. rewrite Hs. cbn [mbind res_bind].
  unfold rdp_nscodec_decode_rle_plane_into. rewrite ensure_true by guard_lia.
  pose proof (rle_encodes_length _ _ _ H) as [_ H4]. destruct (Z.leb_spec n 4).
  { assert (n = 4) as -> by lia. inversion H; subst; lia. }
  fold (rle_rest (S (length e)) n n e []). by rewrite (rle_rest_encoded n e p) by (done || lia).
Qed.
Lemma decode_plane_outcome n e junk : bytes e -> 0 < n ->
  rdp_nscodec_decode_plane (e ++ junk) (blen e) n = Err LIBRDP_STATUS_PROTOCOL_ERROR \/ exists p, plane_coded n e p.
Proof.
  intros Hb Hn. destruct (Z.eq_dec (blen e) n) as [E|E]; [right; exists e; by left|].
  unfold rdp_nscodec_decode_plane. rewrite ensure_true by guard_lia. rewrite (proj2 (Z.eqb_neq _ _)) by done.
  rewrite ensure_bind. destruct (Z.ltb_spec n (blen e)); [by left|]. cbn [negb].
  unfold slice. rewrite blen_app. pose proof (blen_nonneg e). pose proof (blen_nonneg junk).
  rewrite (proj2 (Z.leb_le (0 + blen e) _)), (proj2 (Z.leb_le 0 (blen e))) by lia. cbn [andb Z.leb Z.compare mbind res_bind].
  rewrite zdrop_0, ztake_app_blen. unfold rdp_nscodec_decode_rle_plane_into. rewrite ensure_true by guard_lia.
  destruct (Z.leb_spec n 4); [left; by rewrite (proj2 (Z.eqb_neq _ _))|].
  fold (rle_rest (S (length e)) n n e []).
  destruct (rle_rest_outcome (S (length e)) n e n [] Hb) as [Er|[p Hp]]; [lia|rewrite blen_nil; lia|lia|by left|].
  right. exists p. right. split; [lia|done].
Qed.

(** ** The stream *)

(** The sizes of the planes: with subsampling the luma rows are padded to
    multiples of eight, and a chroma sample covers a square of four pixels. *)
Definition luma_width (sub : bool) (w : Z) : Z := if sub then (w + 7) / 8 * 8 else w.
Definition chroma_width (sub : bool) (w : Z) : Z := if sub then (w + 7) / 8 * 8 / 2 else w.
Definition chroma_height (sub : bool) (h : Z) : Z := if sub then (h + 1) / 2 else h.

Definition dims_ok (w h : Z) : Prop := 0 < w <= RDP_NSCODEC_MAX_DIMENSION /\ 0 < h <= RDP_NSCODEC_MAX_DIMENSION.
Lemma dimensions_valid_iff w h : rdp_nscodec_dimensions_valid w h = true <-> dims_ok w h.
Proof. unfold rdp_nscodec_dimensions_valid, dims_ok. rewrite !andb_true_iff, !Z.ltb_lt, !Z.leb_le. lia. Qed.

Lemma round_up_8 w : 0 <= w <= RDP_NSCODEC_MAX_DIMENSION -> rdp_nscodec_round_up w 8 = Some ((w + 7) / 8 * 8).
Proof.
  unfold RDP_NSCODEC_MAX_DIMENSION. intros Hw. unfold rdp_nscodec_round_up. cbn [Z.eqb].
  destruct (Z.eqb_spec (w mod 8) 0); [f_equal; Z.div_mod_to_equations; lia|].
  rewrite (proj2 (Z.ltb_ge _ _)) by (unfold SIZE_MAX; Z.div_mod_to_equations; lia).
  f_equal. unfold size_t. rewrite Z.mod_small; Z.div_mod_to_equations; lia.
Qed.
Lemma round_up_2 h : 0 <= h <= RDP_NSCODEC_MAX_DIMENSION -> rdp_nscodec_round_up h 2 = Some ((h + 1) / 2 * 2).
Proof.
  unfold RDP_NSCODEC_MAX_DIMENSION. intros Hw. unfold rdp_nscodec_round_up. cbn [Z.eqb].
  destruct (Z.eqb_spec (h mod 2) 0); [f_equal; Z.div_mod_to_equations; lia|].
  rewrite (proj2 (Z.ltb_ge _ _)) by (unfold SIZE_MAX; Z.div_mod_to_equations; lia).
  f_equal. unfold size_t. rewrite Z.mod_small; Z.div_mod_to_equations; lia.
Qed.
Lemma plane_dims sub w h : dims_ok w h ->
  w <= luma_width sub w <= 8192 /\ 0 < chroma_width sub w <= 8192 /\ 0 < chroma_height sub h <= 8192.
Proof.
  unfold dims_ok, RDP_NSCODEC_MAX_DIMENSION, luma_width, chroma_width, chroma_height. destruct sub; [|lia].
  intros []. Z.div_mod_to_equations. lia.
Qed.
Lemma plane_size_eq w h : 0 < w <= 8192 -> 0 < h <= 8192 -> rdp_nscodec_plane_size w h = Ok (w * h).
Proof.
  intros Hw Hh. unfold rdp_nscodec_plane_size. rewrite (proj2 (Z.eqb_neq w 0)), (proj2 (Z.eqb_neq h 0)) by lia.
  rewrite (proj2 (Z.ltb_ge _ _)) by (apply Z.div_le_lower_bound; unfold SIZE_MAX; nia). rewrite ensure_true by done.
  unfold size_t. by rewrite Z.mod_small by nia.
Qed.

(** The encoded planes and what the header says of them. *)
Record encoding := mk_encoding { n_cll : Z; n_sub : bool; n_luma : list Z; n_orange : list Z; n_green : list Z; n_alpha : list Z }.
Definition stream_header (e : encoding) : list Z :=
  le32 (blen (n_luma e)) ++ le32 (blen (n_orange e)) ++ le32 (blen (n_green e)) ++ le32 (blen (n_alpha e)) ++
  [n_cll e; if n_sub e then 1 else 0] ++ le16 0.
Definition stream_enc (e : encoding) : list Z := stream_header e ++ n_luma e ++ n_orange e ++ n_green e ++ n_alpha e.
Definition encoding_ok (w h : Z) (e : encoding) : Prop :=
  1 <= n_cll e <= 7 /\ 0 < blen (n_luma e) <= luma_width (n_sub e) w * h /\
  0 < blen (n_orange e) <= chroma_width (n_sub e) w * chroma_height (n_sub e) h /\
  0 < blen (n_green e) <= chroma_width (n_sub e) w * chroma_height (n_sub e) h /\ blen (n_alpha e) <= w * h.
Definition stream_of (w h : Z) (e : encoding) : rdp_nscodec_stream :=
  mk_nscodec_stream (blen (n_luma e)) (blen (n_orange e)) (blen (n_green e)) (blen (n_alpha e)) (n_cll e)
    (if n_sub e then 1 else 0)
    (n_luma e ++ n_orange e ++ n_green e ++ n_alpha e) (n_orange e ++ n_green e ++ n_alpha e) (n_green e ++ n_alpha e)
    (if 0 <? blen (n_alpha e) then Some (n_alpha e) else None)
    (luma_width (n_sub e) w) h (chroma_width (n_sub e) w) (chroma_height (n_sub e) h) w h.

Lemma parse_stream_encoded w h e : dims_ok w h -> encoding_ok w h e -> bytes (stream_enc e) ->
  rdp_nscodec_parse_stream (View (stream_enc e)) w h = Ok (stream_of w h e).
Proof.
  intros Hd (Hc & Hl & Ho & Hg & Ha) Hb. unfold rdp_nscodec_parse_stream. rewrite ensure_true by done.
  pose proof (plane_dims (n_sub e) w h Hd) as (Hlw & Hcw & Hch). pose proof Hd as [Hw Hh].
  unfold RDP_NSCODEC_MAX_DIMENSION in Hw, Hh. pose proof (blen_nonneg (n_alpha e)).
  assert (Hlen : blen (stream_enc e) = 20 + (blen (n_luma e) + blen (n_orange e) + blen (n_green e) + blen (n_alpha e))).
  { unfold stream_enc, stream_header. zlen. }
  rewrite (proj2 (dimensions_valid_iff w h) Hd). cbn [view_len andb]. rewrite ensure_true.
  2: { apply negb_true_iff, Z.ltb_ge. rewrite Hlen. unfold RDP_NSCODEC_STREAM_HEADER_LENGTH. lia. }
  rewrite Hlen. unfold stream_enc at 1, stream_header.
  assert (H26 : forall a b, 0 < a <= 8192 -> 0 < b <= 8192 -> a * b <= 0x4000000) by (intros; nia).
  pose proof (H26 _ _ (conj (proj1 Hcw) (proj2 Hcw)) Hch). pose proof (H26 (luma_width (n_sub e) w) h ltac:(lia) Hh).
  pose proof (H26 w h Hw Hh).
  rewrite <- !app_assoc. apply (parses_with_stream _ _ []).
  { unfold stream_enc, stream_header in Hb. rewrite <- !app_assoc in Hb. exact Hb. }
  pstep; [apply parses_read_u32_le; guard_lia|]. pstep; [apply parses_read_u32_le; guard_lia|].
  pstep; [apply parses_read_u32_le; guard_lia|]. pstep; [apply parses_read_u32_le; guard_lia|].
  pstep; [apply parses_read_u8|]. pstep; [apply parses_read_u8|]. pstep; [by apply parses_read_u16_le|].
  pstep. { destruct (n_sub e); guard_lia. }
  rewrite round_up_8, round_up_2 by (unfold RDP_NSCODEC_MAX_DIMENSION; lia).
  rewrite (proj2 (Z.ltb_ge ((w + 7) / 8 * 8) w)), (proj2 (Z.ltb_ge ((h + 1) / 2 * 2) h)) by (clear -Hw Hh; Z.div_mod_to_equations; lia).
  cbn [orb]. pstep; [done|]. cbv beta iota zeta.
  replace (negb ((if n_sub e then 1 else 0) =? 0)) with (n_sub e) by (by destruct (n_sub e)).
  fold (luma_width (n_sub e) w). fold (chroma_width (n_sub e) w).
  replace (if n_sub e then (h + 1) / 2 * 2 / 2 else h) with (chroma_height (n_sub e) h)
    by (unfold chroma_height; destruct (n_sub e); [by rewrite Z.div_mul|done]).
  pstep; [apply plane_size_eq; lia|]. pstep; [apply plane_size_eq; lia|]. pstep; [apply plane_size_eq; lia|].
  assert (Hst : forall n, 0 <= n <= 0x40000000 -> size_t n = n) by (intros; apply Z.mod_small; lia).
  pstep. pstep. rewrite !(Hst (blen (n_luma e) + _)) by lia.
  pstep. rewrite !(Hst (_ + blen (n_green e))) by lia.
  pstep. rewrite !(Hst (_ + blen (n_alpha e))) by lia.
  pstep. { unfold RDP_NSCODEC_STREAM_HEADER_LENGTH. guard_lia. }
  rewrite <- (app_nil_r (n_luma e ++ _)). pstep; [apply parses_read_bytes; rewrite !blen_app; lia|].
  rewrite zdrop_app_blen, zdrop_app_blen, zdrop_app_blen. apply parses_ret.
Qed.

(** The fields of a header. *)
Lemma stream_header_split d : bytes d -> 20 <= blen d ->
  exists n0 n1 n2 n3 cll css reserved rest, d = le32 n0 ++ le32 n1 ++ le32 n2 ++ le32 n3 ++ cll :: css :: le16 reserved ++ rest /\
    is_u32 n0 /\ is_u32 n1 /\ is_u32 n2 /\ is_u32 n3 /\ is_byte cll /\ is_byte css /\ is_u16 reserved.
Proof.
  intros Hb Hl.
  assert (H4 : forall l, bytes l -> 4 <= blen l -> exists n r, is_u32 n /\ l = le32 n ++ r /\ bytes r /\ blen l = 4 + blen r).
  { intros l Hbl Hll. destruct l as [|b0 [|b1 [|b2 [|b3 r]]]]; try (exfalso; unfold blen in *; cbn in *; lia).
    exists (val32 b0 b1 b2 b3), r. repeat (apply Forall_cons_iff in Hbl as [? Hbl]). rewrite le32_val32 by done.
    split; [|split; [done|]; split; [done|zlen]]. rewrite val32_arith by done. unfold is_byte, is_u32 in *. lia. }
  destruct (H4 d Hb ltac:(lia)) as (n0 & r0 & ? & -> & Hb0 & Hl0). destruct (H4 r0 Hb0 ltac:(lia)) as (n1 & r1 & ? & -> & Hb1 & Hl1).
  destruct (H4 r1 Hb1 ltac:(lia)) as (n2 & r2 & ? & -> & Hb2 & Hl2). destruct (H4 r2 Hb2 ltac:(lia)) as (n3 & r3 & ? & -> & Hb3 & Hl3).
  destruct r3 as [|cll [|css [|a [|b rest]]]]; try (exfalso; unfold blen in *; cbn in *; lia).
  repeat (apply Forall_cons_iff in Hb3 as [? Hb3]).
  exists n0, n1, n2, n3, cll, css, (val16 a b), rest. rewrite le16_val16 by done. split; [done|]. repeat (split; [done|]).
  rewrite val16_arith by done. unfold is_byte, is_u16 in *. lia.
Qed.

Local Ltac header_steps :=
  do 4 (eapply refuses_bind; [by apply parses_coerce, parses_read_u32_le|]);
  do 2 (eapply refuses_bind; [apply parses_coerce, parses_read_u8|]);
  eapply refuses_bind; [by apply parses_coerce, parses_read_u16_le|].

Lemma parse_stream_outcome w h d : dims_ok w h -> bytes d ->
  rdp_nscodec_parse_stream (View d) w h = Err LIBRDP_STATUS_PROTOCOL_ERROR \/
  exists e, d = stream_enc e /\ encoding_ok w h e.
Proof.
  intros Hd Hb. unfold rdp_nscodec_parse_stream. rewrite ensure_true by done.
  rewrite (proj2 (dimensions_valid_iff w h) Hd). cbn [view_len andb]. rewrite ensure_bind.
  destruct (Z.ltb_spec (blen d) RDP_NSCODEC_STREAM_HEADER_LENGTH) as [|Hl]; [by left|]. cbn [negb].
  unfold RDP_NSCODEC_STREAM_HEADER_LENGTH in *.
  destruct (stream_header_split d Hb Hl) as (n0 & n1 & n2 & n3 & cll & css & reserved & rest & -> & H0 & H1 & H2 & H3 & Hcll & Hcss & Hres).
  pose proof Hd as [Hw Hh]. unfold RDP_NSCODEC_MAX_DIMENSION in Hw, Hh.
  set (bad := (n0 =? 0) || (n1 =? 0) || (n2 =? 0) || (cll <? 1) || (7 <? cll) || (1 <? css) || negb (reserved =? 0)).
  destruct bad eqn:Hbad; unfold bad in Hbad.
  { left. apply refuses_with_stream; [done|]. header_steps. apply refuses_head, refuses_require. by rewrite Hbad. }
  pose proof Hbad as Hgood. rewrite !orb_false_iff, !Z.ltb_ge, !Z.eqb_neq, negb_false_iff, Z.eqb_eq in Hgood.
  destruct Hgood as ((((((Hn0 & Hn1) & Hn2) & Hc1) & Hc7) & Hcs) & Hr0).
  set (sub := negb (css =? 0)).
  pose proof (plane_dims sub w h Hd) as (Hlw & Hcw & Hch).
  set (small := negb ((luma_width sub w * h <? n0) || (chroma_width sub w * chroma_height sub h <? n1) ||
    (chroma_width sub w * chroma_height sub h <? n2) || (w * h <? n3))).
  assert (H26 : forall a b, 0 < a <= 8192 -> 0 < b <= 8192 -> a * b <= 0x4000000) by (intros; nia).
  pose proof (H26 _ _ Hcw Hch). pose proof (H26 (luma_width sub w) h ltac:(lia) Hh). pose proof (H26 w h Hw Hh).
  destruct (small && (n0 + n1 + n2 + n3 =? blen rest)) eqn:Hfits; [right|left].
  - apply andb_true_iff in Hfits as [Hs Hsum]. unfold small in Hs. apply negb_true_iff in Hs.
    rewrite !orb_false_iff, !Z.ltb_ge in Hs. destruct Hs as (((Hs0 & Hs1) & Hs2) & Hs3). apply Z.eqb_eq in Hsum.
    unfold is_u32, is_byte in *.
    set (r1 := zdrop n0 rest). set (r2 := zdrop n1 r1). set (r3 := zdrop n2 r2).
    assert (L1 : blen r1 = blen rest - n0) by (apply blen_zdrop; lia).
    assert (L2 : blen r2 = blen r1 - n1) by (apply blen_zdrop; lia).
    assert (L3 : blen r3 = blen r2 - n2) by (apply blen_zdrop; lia).
    assert (E0 : blen (ztake n0 rest) = n0) by (apply blen_ztake; lia).
    assert (E1 : blen (ztake n1 r1) = n1) by (apply blen_ztake; lia).
    assert (E2 : blen (ztake n2 r2) = n2) by (apply blen_ztake; lia).
    exists (mk_encoding cll sub (ztake n0 rest) (ztake n1 r1) (ztake n2 r2) r3).
    unfold stream_enc, stream_header, encoding_ok. cbn [n_cll n_sub n_luma n_orange n_green n_alpha].
    rewrite E0, E1, E2. replace (blen r3) with n3 by lia. split; [|lia].
    assert (Hsub : (if sub then 1 else 0) = css) by (unfold sub; destruct (Z.eqb_spec css 0); cbn [negb]; lia).
    rewrite Hsub, Hr0. rewrite <- !app_assoc. cbn [app]. do 4 f_equal. unfold le16. cbn [app]. do 4 f_equal.
    unfold r3. rewrite ztake_zdrop. unfold r2. rewrite ztake_zdrop. unfold r1. by rewrite ztake_zdrop.
  - apply refuses_with_stream; [done|]. header_steps.
    eapply refuses_bind; [apply parses_require; by rewrite Hbad|].
    rewrite round_up_8, round_up_2 by (unfold RDP_NSCODEC_MAX_DIMENSION; lia).
    rewrite (proj2 (Z.ltb_ge ((w + 7) / 8 * 8) w)), (proj2 (Z.ltb_ge ((h + 1) / 2 * 2) h)) by (clear -Hw Hh; Z.div_mod_to_equations; lia).
    cbn [orb]. eapply refuses_bind; [by apply parses_lift|]. cbv beta iota zeta. fold sub.
    fold (luma_width sub w). fold (chroma_width sub w).
    replace (if sub then (h + 1) / 2 * 2 / 2 else h) with (chroma_height sub h)
      by (unfold chroma_height; destruct sub; [by rewrite Z.div_mul|done]).
    do 3 (eapply refuses_bind; [apply parses_lift, plane_size_eq; lia|]). fold small.
    destruct small eqn:Es; [|by apply refuses_head, refuses_require]. cbn [andb] in Hfits.
    unfold small in Es. apply negb_true_iff in Es. rewrite !orb_false_iff, !Z.ltb_ge in Es. unfold is_u32 in *.
    eapply refuses_bind; [by apply parses_require|].
    assert (Hst : forall n, 0 <= n <= 0x40000000 -> size_t n = n) by (intros; apply Z.mod_small; lia).
    rewrite (Hst (n0 + n1)) by lia. rewrite (Hst (n0 + n1 + n2)) by lia. rewrite (Hst (n0 + n1 + n2 + n3)) by lia.
    do 3 (eapply refuses_bind; [apply parses_require; unfold SIZE_MAX; guard_lia|]).
    apply refuses_head, refuses_require. apply Z.eqb_neq in Hfits. apply Z.eqb_neq.
    rewrite !blen_app, !blen_cons, !blen_app. change (blen (le16 reserved)) with 2.
    change (blen (le32 n0)) with 4. change (blen (le32 n1)) with 4. change (blen (le32 n2)) with 4. change (blen (le32 n3)) with 4. lia.
Qed.

(** ** The context *)

(** Every plane holds [c_capacity] bytes; before the first bitmap there are none. *)
Record context_ok (c : rdp_nscodec_context) : Prop := {
  context_ok_planes : length (c_planes c) = 4%nat;
  context_ok_capacity : 0 <= c_capacity c;
  context_ok_blocks : Forall (fun p => match p with Some b => blen b = c_capacity c | None => c_capacity c = 0 end) (c_planes c);
}.
Lemma context_init_ok : context_ok rdp_nscodec_context_init.
Proof. split; [done|done|]. by repeat constructor. Qed.

(** The plane [i] starts with [l]. *)
Definition holds (c : rdp_nscodec_context) (i : nat) (l : list Z) : Prop := exists t, c_planes c !! i = Some (Some (l ++ t)).

Lemma mallocs_spec n c (h : heap) : exists r h', mallocs n (c, h) = (r, (c, h')) /\
  (r = Ok tt \/ r = Err LIBRDP_STATUS_NO_MEMORY) /\ (h = [] -> r = Ok tt /\ h' = []).
Proof.
  revert h. induction n as [|n IH]; intros h; [exists (Ok tt), h; auto|]. cbn [mallocs snd fst].
  destruct (heap_alloc h) as [[] h1] eqn:E.
  - destruct (IH h1) as (r & h' & E' & Hr & Hh). exists r, h'. split; [done|]. split; [done|]. intros ->. injection E as <-. by apply Hh.
  - exists (Err LIBRDP_STATUS_NO_MEMORY), h1. split; [done|]. split; [by right|]. by intros ->.
Qed.

Lemma ensure_planes_spec n c (h : heap) : 0 < n -> context_ok c ->
  exists r c' h', rdp_nscodec_ensure_planes n (c, h) = (r, (c', h')) /\
    ((r = Ok tt /\ context_ok c' /\ n <= c_capacity c') \/ (r = Err LIBRDP_STATUS_NO_MEMORY /\ c' = c)) /\
    (h = [] -> r = Ok tt /\ h' = []).
Proof.
  intros Hn Hc. pose proof Hc as [H4 H0 Hb]. unfold rdp_nscodec_ensure_planes. rewrite bind_gets. cbn [fst].
  destruct (Z.leb_spec n (c_capacity c)); [exists (Ok tt), c, h; by auto 6|].
  destruct (mallocs_spec 4 c h) as (r & h' & E & [->| ->] & Hh).
  2: { rewrite (bind_err _ _ _ _ _ E). eexists _, c, h'. split; [done|]. split; [by right|]. intros Hh0. by destruct (Hh Hh0). }
  rewrite (bind_ok _ _ _ _ _ E). eexists (Ok tt), _, h'. split; [done|]. split; [|done]. left. split; [done|]. split; [|done].
  split; cbn [c_planes c_capacity fst]; [by rewrite length_fmap|lia|].
  assert (Hlen : forall l, c_capacity c <= blen l -> blen (ztake (c_capacity c) l ++ replicate (Z.to_nat (n - c_capacity c)) 0) = n).
  { intros l Hl. rewrite blen_app, blen_replicate, blen_ztake by lia. lia. }
  apply Forall_fmap. eapply Forall_impl; [|exact Hb]. intros p Hp. apply Hlen. rewrite blen_app, blen_replicate.
  pose proof (blen_nonneg (default [] p)). lia.
Qed.

Lemma rd_nth {A} (l : list A) i a : l !! i = Some a -> rd l (Z.of_nat i) = Ok a.
Proof. intros E. apply rd_lookup; [lia|by rewrite Nat2Z.id]. Qed.
Lemma store_plane_spec (i : nat) l c (h : heap) : context_ok c -> (i < 4)%nat -> 0 < c_capacity c -> blen l <= c_capacity c ->
  exists c', store_plane (Z.of_nat i) l (c, h) = (Ok tt, (c', h)) /\ context_ok c' /\ c_capacity c' = c_capacity c /\ holds c' i l /\
    forall j l', j <> i -> holds c j l' -> holds c' j l'.
Proof.
  intros [H4 H0 Hb] Hi Hcap Hl. unfold store_plane. rewrite bind_gets. cbn [fst]. rewrite bind_lift.
  destruct (lookup_lt_is_Some_2 (c_planes c) i) as [p Hp]; [lia|].
  rewrite (rd_nth _ _ _ Hp). destruct p as [b|].
  2: { pose proof (Forall_lookup_1 _ _ _ _ Hb Hp) as E0. cbv beta iota in E0. lia. }
  pose proof (Forall_lookup_1 _ _ _ _ Hb Hp) as Hbl. cbv beta iota in Hbl.
  rewrite bind_lift, write_at_ok by lia. rewrite bind_lift. unfold wr, blen at 1. rewrite H4, Nat2Z.id.
  rewrite (proj2 (Z.leb_le _ _)), (proj2 (Z.ltb_lt _ _)) by lia. cbn [andb].
  set (b' := ztake 0 b ++ l ++ zdrop (0 + blen l) b). eexists. split; [done|].
  assert (Hb' : blen b' = c_capacity c) by (rewrite <- Hbl; apply (blen_write_at b 0 l); by rewrite write_at_ok by lia).
  cbn [fst snd]. split; [split; cbn [c_planes c_capacity]; [by rewrite length_insert|done|]|]. { by apply Forall_insert. }
  split; [done|]. split.
  - exists (zdrop (0 + blen l) b). cbn [c_planes]. rewrite list_lookup_insert_eq by lia. done.
  - intros j l' Hj [t Ht]. exists t. cbn [c_planes]. by rewrite list_lookup_insert_ne.
Qed.

Lemma decode_plane_cases n e junk : bytes e -> 0 < n ->
  (rdp_nscodec_decode_plane (e ++ junk) (blen e) n = Err LIBRDP_STATUS_PROTOCOL_ERROR /\ forall p, ~ plane_coded n e p) \/
  exists p, rdp_nscodec_decode_plane (e ++ junk) (blen e) n = Ok p /\ plane_coded n e p /\
    forall p', plane_coded n e p' -> p' = p.
Proof.
  intros Hb Hn. pose proof (fun p => decode_plane_coded n e p junk Hn) as Henc.
  destruct (decode_plane_outcome n e junk Hb Hn) as [E|[p Hp]].
  - left. split; [done|]. intros p Hp. specialize (Henc p Hp). congruence.
  - right. exists p. split; [by apply Henc|]. split; [done|]. intros p' Hp'.
    pose proof (Henc p Hp). pose proof (Henc p' Hp'). congruence.
Qed.

(** The planes of an encoding; without alpha the image is opaque. *)
Definition alpha_coded (n : Z) (e p : list Z) : Prop :=
  (e = [] /\ p = replicate (Z.to_nat n) 0xff) \/ (e <> [] /\ plane_coded n e p).
Definition planes_coded (w h : Z) (e : encoding) (p : list Z * list Z * list Z * list Z) : Prop :=
  let '(p0, p1, p2, p3) := p in
  let n := chroma_width (n_sub e) w * chroma_height (n_sub e) h in
  plane_coded (luma_width (n_sub e) w * h) (n_luma e) p0 /\ plane_coded n (n_orange e) p1 /\
  plane_coded n (n_green e) p2 /\ alpha_coded (w * h) (n_alpha e) p3.

Lemma alpha_cases n e : bytes e -> 0 < n ->
  let r := if blen e =? 0 then Ok (replicate (Z.to_nat n) 0xff)
           else match (if 0 <? blen e then Some e else None) with
                | None => Err LIBRDP_STATUS_INVALID_ARGUMENT
                | Some alpha => rdp_nscodec_decode_plane alpha (blen e) n
                end in
  (r = Err LIBRDP_STATUS_PROTOCOL_ERROR /\ forall p, ~ alpha_coded n e p) \/
  exists p, r = Ok p /\ alpha_coded n e p /\ forall p', alpha_coded n e p' -> p' = p.
Proof.
  intros Hb Hn r. subst r. destruct (Z.eqb_spec (blen e) 0) as [E|E].
  - apply blen_0_nil in E as ->. right. eexists. split; [done|]. split; [by left|]. by intros p' [[_ ->]|[? _]].
  - pose proof (blen_nonneg e). rewrite (proj2 (Z.ltb_lt _ _)) by lia.
    assert (He : e <> []) by (intros ->; done).
    destruct (decode_plane_cases n e [] Hb Hn) as [[Er Hno]|(p & Er & Hp & Hu)]; rewrite app_nil_r in Er.
    + left. split; [done|]. intros p [[? _]|[_ ?]]; [done|by apply (Hno p)].
    + right. exists p. split; [done|]. split; [by right|]. intros p' [[? _]|[_ ?]]; [done|by apply Hu].
Qed.

Lemma store_planes_spec p0 p1 p2 p3 c (h : heap) : context_ok c -> 0 < c_capacity c ->
  blen p0 <= c_capacity c -> blen p1 <= c_capacity c -> blen p2 <= c_capacity c -> blen p3 <= c_capacity c ->
  exists c', (store_plane 0 p0;; store_plane 1 p1;; store_plane 2 p2;; store_plane 3 p3) (c, h) = (Ok tt, (c', h)) /\
    context_ok c' /\ holds c' 0 p0 /\ holds c' 1 p1 /\ holds c' 2 p2 /\ holds c' 3 p3.
Proof.
  intros Hc Hcap ? ? ? ?.
  destruct (store_plane_spec 0 p0 c h Hc) as (c2 & E3 & Hc2 & Hk2 & Hh0 & _); [lia..|].
  destruct (store_plane_spec 1 p1 c2 h Hc2) as (c3 & E4 & Hc3 & Hk3 & Hs1 & Hs1'); [lia..|].
  destruct (store_plane_spec 2 p2 c3 h Hc3) as (c4 & E5 & Hc4 & Hk4 & Hs2 & Hs2'); [lia..|].
  destruct (store_plane_spec 3 p3 c4 h Hc4) as (c5 & E6 & Hc5 & Hk5 & Hs3 & Hs3'); [lia..|].
  rewrite (bind_ok _ _ _ _ _ E3), (bind_ok _ _ _ _ _ E4), (bind_ok _ _ _ _ _ E5). exists c5. split; [exact E6|].
  split; [done|]. repeat split; auto.
Qed.

Lemma decode_planes_spec w h e c (hp : heap) : dims_ok w h -> encoding_ok w h e -> bytes (stream_enc e) -> context_ok c ->
  exists r c' hp', rdp_nscodec_decode_planes (stream_of w h e) w h (c, hp) = (r, (c', hp')) /\
    ((r = Err LIBRDP_STATUS_NO_MEMORY /\ c' = c) \/
     (r = Err LIBRDP_STATUS_PROTOCOL_ERROR /\ c' = c /\ forall p, ~ planes_coded w h e p) \/
     (r = Ok tt /\ context_ok c' /\ (exists p, planes_coded w h e p) /\
      forall p0 p1 p2 p3, planes_coded w h e (p0, p1, p2, p3) -> holds c' 0 p0 /\ holds c' 1 p1 /\ holds c' 2 p2 /\ holds c' 3 p3)) /\
    (hp = [] -> r <> Err LIBRDP_STATUS_NO_MEMORY /\ hp' = []).
Proof.
  intros Hd He Hb Hc. pose proof (plane_dims (n_sub e) w h Hd) as (Hlw & Hcw & Hch). pose proof Hd as [Hw Hh].
  unfold RDP_NSCODEC_MAX_DIMENSION in Hw, Hh. unfold rdp_nscodec_decode_planes, stream_of.
  cbn [ns_luma_len ns_orange_chroma_len ns_green_chroma_len ns_alpha_len ns_luma ns_orange_chroma ns_green_chroma ns_alpha
    ns_luma_width ns_luma_height ns_chroma_width ns_chroma_height].
  rewrite bind_lift, plane_size_eq, bind_lift, plane_size_eq, bind_lift, plane_size_eq by lia. cbv zeta.
  set (nl := luma_width (n_sub e) w * h). set (nc := chroma_width (n_sub e) w * chroma_height (n_sub e) h).
  set (cap := if (if nl <? nc then nc else nl) <? w * h then w * h else _).
  assert (Hnl : 0 < nl) by (unfold nl; nia). assert (Hnc : 0 < nc) by (unfold nc; nia). assert (Hna : 0 < w * h) by nia.
  assert (Hcap : nl <= cap /\ nc <= cap /\ w * h <= cap).
  { unfold cap. destruct (Z.ltb_spec nl nc); destruct (Z.ltb_spec nl (w * h)), (Z.ltb_spec nc (w * h)); lia. }
  unfold stream_enc in Hb. rewrite !Forall_app in Hb. destruct Hb as (_ & Hbl & Hbo & Hbg & Hba).
  destruct (mallocs_spec 4 c hp) as (r & h1 & E & [->| ->] & Hh1).
  2: { rewrite (bind_err _ _ _ _ _ E). eexists _, c, h1. split; [done|]. split; [by left|]. intros Hh0. by destruct (Hh1 Hh0). }
  rewrite (bind_ok _ _ _ _ _ E). assert (Hh1' : hp = [] -> h1 = []) by (intros Hh0; by apply Hh1).
  rewrite bind_lift. destruct (decode_plane_cases nl (n_luma e) (n_orange e ++ n_green e ++ n_alpha e) Hbl Hnl) as [[-> Hno]|(p0 & -> & Hp0 & Hu0)].
  { eexists _, c, h1. split; [done|]. split; [|intros Hh0; split; [done|auto]]. right; left. split; [done|]. split; [done|].
    intros [[[? ?] ?] ?] (Hp & _). by apply (Hno _ Hp). }
  rewrite bind_lift. destruct (decode_plane_cases nc (n_orange e) (n_green e ++ n_alpha e) Hbo Hnc) as [[-> Hno]|(p1 & -> & Hp1 & Hu1)].
  { eexists _, c, h1. split; [done|]. split; [|intros Hh0; split; [done|auto]]. right; left. split; [done|]. split; [done|].
    intros [[[? ?] ?] ?] (_ & Hp & _). by apply (Hno _ Hp). }
  rewrite bind_lift. destruct (decode_plane_cases nc (n_green e) (n_alpha e) Hbg Hnc) as [[-> Hno]|(p2 & -> & Hp2 & Hu2)].
  { eexists _, c, h1. split; [done|]. split; [|intros Hh0; split; [done|auto]]. right; left. split; [done|]. split; [done|].
    intros [[[? ?] ?] ?] (_ & _ & Hp & _). by apply (Hno _ Hp). }
  rewrite bind_lift. destruct (alpha_cases (w * h) (n_alpha e) Hba Hna) as [[-> Hno]|(p3 & -> & Hp3 & Hu3)].
  { eexists _, c, h1. split; [done|]. split; [|intros Hh0; split; [done|auto]]. right; left. split; [done|]. split; [done|].
    intros [[[? ?] ?] ?] (_ & _ & _ & Hp). by apply (Hno _ Hp). }
  destruct (ensure_planes_spec cap c h1) as (r & c1 & h2 & E2 & [(-> & Hc1 & Hcc)|[-> ->]] & Hh2); [lia|done|..].
  2: { rewrite (bind_err _ _ _ _ _ E2). eexists _, c, h2. split; [done|]. split; [by left|]. intros Hh0. by destruct (Hh2 (Hh1' Hh0)). }
  rewrite (bind_ok _ _ _ _ _ E2).
  assert (Ha3 : blen p3 = w * h).
  { destruct Hp3 as [[_ ->]|[_ Hp]]; [rewrite blen_replicate; lia|by apply plane_coded_size in Hp]. }
  pose proof (plane_coded_size _ _ _ Hp0). pose proof (plane_coded_size _ _ _ Hp1). pose proof (plane_coded_size _ _ _ Hp2).
  destruct (store_planes_spec p0 p1 p2 p3 c1 h2 Hc1) as (c5 & E3 & Hc5 & Hs0 & Hs1 & Hs2 & Hs3); [lia..|]. rewrite E3.
  eexists _, c5, h2. split; [done|]. split; [|intros Hx; split; [done|by apply Hh2, Hh1']]. right; right. split; [done|]. split; [done|].
  split; [by exists (p0, p1, p2, p3)|]. intros q0 q1 q2 q3 (G0 & G1 & G2 & G3).
  apply Hu0 in G0 as ->. apply Hu1 in G1 as ->. apply Hu2 in G2 as ->. apply Hu3 in G3 as ->. done.
Qed.

(** ** The image *)

(** The pixel in column [x] of row [y]: blue, green, red and alpha. *)
Definition ycocg_color (cll y co cg a : Z) : list Z :=
  let co := rdp_nscodec_recover_chroma co cll in
  let cg := rdp_nscodec_recover_chroma cg cll in
  [rdp_nscodec_clamp_i32 (y - co - cg); rdp_nscodec_clamp_i32 (y + cg); rdp_nscodec_clamp_i32 (y + co - cg); a].
Definition chroma_index (w : Z) (sub : bool) (x y : Z) : Z :=
  if sub then y / 2 * chroma_width sub w + x / 2 else y * chroma_width sub w + x.
Definition nscodec_color (w : Z) (e : encoding) (p : list Z * list Z * list Z * list Z) (x y : Z) : list Z :=
  let '(p0, p1, p2, p3) := p in
  let i := chroma_index w (n_sub e) x y in
  ycocg_color (n_cll e) (p0 !!! Z.to_nat (y * luma_width (n_sub e) w + x)) (p1 !!! Z.to_nat i) (p2 !!! Z.to_nat i)
    (p3 !!! Z.to_nat (y * w + x)).

Lemma chroma_index_range w h sub x y : dims_ok w h -> 0 <= x < w -> 0 <= y < h ->
  0 <= chroma_index w sub x y < chroma_width sub w * chroma_height sub h.
Proof.
  unfold dims_ok. intros [Hw Hh] Hx Hy. unfold chroma_index, chroma_height. destruct sub; [|unfold chroma_width; nia].
  assert (H1 : 0 <= y / 2 <= (h + 1) / 2 - 1) by (clear Hx Hw; Z.div_mod_to_equations; lia).
  assert (H2 : 0 <= x / 2 < chroma_width true w) by (unfold chroma_width; clear Hy Hh H1; Z.div_mod_to_equations; lia).
  nia.
Qed.
Lemma plane_at_holds c i p k : holds c i p -> 0 <= k < blen p ->
  plane_at c (Z.of_nat i) k = Ok (p !!! Z.to_nat k).
Proof.
  intros [t Ht] Hk. unfold plane_at. rewrite (rd_nth _ _ _ Ht). cbn [mbind res_bind].
  rewrite rd_app_l by lia. destruct (rd_ok p k Hk) as (a & -> & E). by rewrite (list_lookup_total_correct _ _ _ E).
Qed.

Lemma planes_coded_sizes w h e p0 p1 p2 p3 : 0 <= w * h -> planes_coded w h e (p0, p1, p2, p3) ->
  blen p0 = luma_width (n_sub e) w * h /\ blen p1 = chroma_width (n_sub e) w * chroma_height (n_sub e) h /\
  blen p2 = chroma_width (n_sub e) w * chroma_height (n_sub e) h /\ blen p3 = w * h.
Proof.
  intros H0 (H1 & H2 & H3 & Ha). apply plane_coded_size in H1, H2, H3. split; [done|]. split; [done|]. split; [done|].
  destruct Ha as [[_ ->]|[_ Ha]]; [rewrite blen_replicate; lia|by apply plane_coded_size in Ha].
Qed.

Lemma written_lookup (l k : list Z) off i : 0 <= off -> off + blen k <= blen l -> 0 <= i < blen l ->
  (ztake off l ++ k ++ zdrop (off + blen k) l) !!! Z.to_nat i =
    if (off <=? i) && (i <? off + blen k) then k !!! Z.to_nat (i - off) else l !!! Z.to_nat i.
Proof.
  intros H0 Hl Hi. pose proof (blen_nonneg k). unfold ztake, zdrop, blen in *.
  rewrite !list_lookup_total_alt.
  destruct (Z.leb_spec off i); cbn [andb].
  2: { rewrite lookup_app_l by (rewrite length_take; lia). by rewrite lookup_take_lt by lia. }
  rewrite lookup_app_r by (rewrite length_take; lia). rewrite length_take.
  destruct (Z.ltb_spec i (off + Z.of_nat (length k))).
  - rewrite lookup_app_l by lia. do 2 f_equal. lia.
  - rewrite lookup_app_r by lia. rewrite lookup_drop. do 2 f_equal. lia.
Qed.

Section image.
Context (w h : Z) (e : encoding) (c : rdp_nscodec_context) (p0 p1 p2 p3 : list Z).
Hypothesis (Hd : dims_ok w h) (Hcoded : planes_coded w h e (p0, p1, p2, p3)).
Hypothesis (Hh0 : holds c 0 p0) (Hh1 : holds c 1 p1) (Hh2 : holds c 2 p2) (Hh3 : holds c 3 p3).
Let color := nscodec_color w e (p0, p1, p2, p3).

Lemma nscodec_pixel_eq x y : 0 <= x < w -> 0 <= y < h -> nscodec_pixel c (stream_of w h e) w x y = Ok (color x y).
Proof.
  intros Hx Hy. pose proof Hd as [Hw Hh].
  destruct (planes_coded_sizes w h e p0 p1 p2 p3) as (S0 & S1 & S2 & S3); [nia|done|].
  pose proof (chroma_index_range w h (n_sub e) x y Hd Hx Hy) as Hi. pose proof (plane_dims (n_sub e) w h Hd) as (Hlw & _).
  unfold nscodec_pixel, stream_of. cbn [ns_chroma_subsampling_level ns_chroma_width ns_luma_width ns_color_loss_level].
  replace (negb ((if n_sub e then 1 else 0) =? 0)) with (n_sub e) by (by destruct (n_sub e)).
  replace ((if n_sub e then y / 2 else y) * chroma_width (n_sub e) w + (if n_sub e then x / 2 else x))
    with (chroma_index w (n_sub e) x y) by (unfold chroma_index; by destruct (n_sub e)).
  rewrite (plane_at_holds c 0 p0) by (done || lia || nia). cbn [mbind res_bind].
  rewrite (plane_at_holds c 1 p1) by (done || lia). cbn [mbind res_bind].
  rewrite (plane_at_holds c 2 p2) by (done || lia). cbn [mbind res_bind].
  rewrite (plane_at_holds c 3 p3) by (done || lia || nia). done.
Qed.
Lemma blen_color x y : blen (color x y) = 4.
Proof. done. Qed.

Lemma row_loop_spec n row x y dest : 0 <= x -> x + Z.of_nat n <= w -> 0 <= y < h -> 0 <= row -> row + 4 * w <= blen dest ->
  exists dest', row_loop n c (stream_of w h e) w row x y dest = Ok dest' /\ blen dest' = blen dest /\
    forall i, 0 <= i < blen dest ->
      dest' !!! Z.to_nat i =
        if (row + 4 * x <=? i) && (i <? row + 4 * (x + Z.of_nat n))
        then color ((i - row) / 4) y !!! Z.to_nat ((i - row) mod 4) else dest !!! Z.to_nat i.
Proof.
  revert x dest. induction n as [|n IH]; intros x dest Hx Hn Hy Hrow Hlen.
  { exists dest. split; [done|]. split; [done|]. intros i Hi. rewrite Z.add_0_r.
    destruct (Z.leb_spec (row + 4 * x) i), (Z.ltb_spec i (row + 4 * x)); (lia || done). }
  cbn [row_loop]. rewrite nscodec_pixel_eq by lia. cbn [mbind res_bind].
  pose proof (blen_color x y) as Hc4.
  assert (Ew := write_at_ok dest (row + x * 4) (color x y)). rewrite Ew by lia. cbn [mbind res_bind].
  set (dest1 := ztake _ dest ++ _). assert (Hl1 : blen dest1 = blen dest).
  { apply (blen_write_at dest (row + x * 4) (color x y)). by rewrite Ew by lia. }
  destruct (IH (x + 1) dest1) as (dest' & E & Hl & Hs); [lia|lia|done|done|lia|].
  exists dest'. split; [done|]. split; [lia|]. intros i Hi. rewrite Hs by lia. clear Ew E Hs IH.
  unfold dest1. rewrite written_lookup, Hc4 by lia.
  destruct (Z.leb_spec (row + 4 * (x + 1)) i), (Z.ltb_spec i (row + 4 * (x + 1 + Z.of_nat n))),
    (Z.leb_spec (row + x * 4) i), (Z.ltb_spec i (row + x * 4 + 4)), (Z.leb_spec (row + 4 * x) i),
    (Z.ltb_spec i (row + 4 * (x + Z.of_nat (S n)))); cbn [andb]; try (lia || done).
  all: replace (i - row) with (i - (row + x * 4) + x * 4) by lia; rewrite Z.div_add, Z_mod_plus_full by lia.
  all: by rewrite Z.div_small, Z.mod_small by lia.
Qed.

Lemma region_loop_spec n stride dx dy y dest : 0 <= dx -> 0 <= dy -> 0 <= y -> y + Z.of_nat n <= h ->
  4 * (dx + w) <= stride -> (0 < Z.of_nat n -> (dy + h - 1) * stride + 4 * (dx + w) <= blen dest) ->
  exists dest', region_loop n c (stream_of w h e) w stride dx dy y dest = Ok dest' /\ blen dest' = blen dest /\ forall i, 0 <= i < blen dest ->
      dest' !!! Z.to_nat i =
        if (y <=? i / stride - dy) && (i / stride - dy <? y + Z.of_nat n) &&
           (4 * dx <=? i mod stride) && (i mod stride <? 4 * (dx + w))
        then color ((i mod stride - 4 * dx) / 4) (i / stride - dy) !!! Z.to_nat ((i mod stride - 4 * dx) mod 4)
        else dest !!! Z.to_nat i.
Proof.
  intros Hx Hy. pose proof Hd as [Hw Hh]. revert y dest. induction n as [|n IH]; intros y dest Hy0 Hn Hst Hlen.
  { exists dest. split; [done|]. split; [done|]. intros i Hi. rewrite Z.add_0_r.
    destruct (Z.leb_spec y (i / stride - dy)), (Z.ltb_spec (i / stride - dy) y); (lia || done). }
  cbn [region_loop]. set (row := (dy + y) * stride + dx * 4).
  assert (Hrow : row + 4 * w <= blen dest) by (specialize (Hlen ltac:(lia)); unfold row; nia).
  destruct (row_loop_spec (Z.to_nat w) row 0 y dest) as (dest1 & -> & Hl1 & Hs1); [lia|lia|lia|unfold row; nia|done|].
  cbn [mbind res_bind]. destruct (IH (y + 1) dest1) as (dest' & E & Hl & Hs); [lia|lia|done|rewrite Hl1; intros; apply Hlen; lia|].
  exists dest'. split; [done|]. split; [lia|]. intros i Hi. rewrite Hs, Hs1 by lia. clear E Hs Hs1 IH Hlen.
  rewrite Z2Nat.id, Z.mul_0_r, Z.add_0_l, Z.add_0_r by lia.
  pose proof (Z.div_mod i stride ltac:(lia)) as Hdm. pose proof (Z.mod_pos_bound i stride ltac:(lia)) as Hm.
  set (q := i / stride) in *. set (m := i mod stride) in *.
  assert (Hoff : i - row = stride * (q - dy - y) + (m - 4 * dx)) by (unfold row; lia).
  assert (Hin : (row <=? i) && (i <? row + 4 * w) = (q - dy =? y) && (4 * dx <=? m) && (m <? 4 * (dx + w))).
  { apply eq_true_iff_eq. rewrite !andb_true_iff, !Z.leb_le, !Z.ltb_lt, Z.eqb_eq. split.
    - intros [Hge Hlt]. assert (q - dy - y = 0) by nia. nia.
    - intros [[Hq Hge] Hlt]. assert (E0 : q - dy - y = 0) by lia. rewrite E0 in Hoff. lia. }
  rewrite Hin. clear Hin.
  destruct (Z.eqb_spec (q - dy) y) as [E0|E0].
  - rewrite (proj2 (Z.leb_gt (y + 1) (q - dy))), (proj2 (Z.leb_le y (q - dy))), (proj2 (Z.ltb_lt (q - dy) (y + Z.of_nat (S n)))) by lia. cbn [andb].
    destruct ((4 * dx <=? m) && (m <? 4 * (dx + w))); [|done]. replace (i - row) with (m - 4 * dx) by nia. by rewrite E0.
  - cbn [andb]. replace (y + 1 <=? q - dy) with (y <=? q - dy)
      by (destruct (Z.leb_spec y (q - dy)), (Z.leb_spec (y + 1) (q - dy)); lia).
    replace (y + 1 + Z.of_nat n) with (y + Z.of_nat (S n)) by lia. done.
Qed.
End image.

(** ** The whole decoder *)

(** [d] is an NSCodec bitmap with these planes. *)
Definition nscodec_bitmap (d : list Z) (w h : Z) (e : encoding) (p : list Z * list Z * list Z * list Z) : Prop :=
  d = stream_enc e /\ 1 <= n_cll e <= 7 /\ planes_coded w h e p.

Lemma nscodec_bitmap_ok d w h e p : dims_ok w h -> nscodec_bitmap d w h e p -> encoding_ok w h e.
Proof.
  intros Hd (_ & Hc & Hp). destruct p as [[[p0 p1] p2] p3]. destruct Hp as (H0 & H1 & H2 & H3).
  pose proof (plane_dims (n_sub e) w h Hd) as (Hlw & Hcw & Hch). pose proof Hd as [Hw Hh].
  apply plane_coded_range in H0; [|nia]. apply plane_coded_range in H1; [|nia]. apply plane_coded_range in H2; [|nia].
  repeat (split; [lia|]). destruct H3 as [[-> _]|[_ H3]]; [rewrite blen_nil; nia|]. apply plane_coded_range in H3; [lia|nia].
Qed.

Lemma app_inj_blen (l1 l2 k1 k2 : list Z) : blen l1 = blen l2 -> l1 ++ k1 = l2 ++ k2 -> l1 = l2 /\ k1 = k2.
Proof. unfold blen. intros Hl E. apply app_inj_1 in E; [done|lia]. Qed.
Lemma stream_of_inj w h e e' : stream_of w h e = stream_of w h e' -> e = e'.
Proof.
  destruct e as [cll sub l o g a], e' as [cll' sub' l' o' g' a']. unfold stream_of. cbn [n_cll n_sub n_luma n_orange n_green n_alpha].
  intros E. injection E as Hl Ho Hg Ha -> Hs E1 E2 E3 _ _ _ _.
  apply app_inj_blen in E1 as [-> _]; [|done]. apply app_inj_blen in E2 as [-> _]; [|done].
  apply app_inj_blen in E3 as [-> ->]; [|done]. f_equal. by destruct sub, sub'.
Qed.

Lemma nscodec_bitmap_unique w h e e' p : dims_ok w h -> encoding_ok w h e -> bytes (stream_enc e) ->
  nscodec_bitmap (stream_enc e) w h e' p -> e' = e.
Proof.
  intros Hd He Hb Hp. pose proof Hp as [E' _]. apply nscodec_bitmap_ok in Hp; [|done].
  pose proof (parse_stream_encoded w h e Hd He Hb) as E1. rewrite E' in Hb, E1. rewrite parse_stream_encoded in E1 by done.
  assert (E2 : stream_of w h e' = stream_of w h e) by congruence. by apply stream_of_inj in E2.
Qed.

(** The region of the destination that the bitmap fills. *)
Definition region_ok (w h stride dx dy dw dh : Z) : Prop :=
  dims_ok w h /\ dims_ok dw dh /\ dx + w <= dw /\ dy + h <= dh /\ 4 * dw <= stride.

(** The destination afterwards: byte [i] of it. *)
Definition region_byte (w h stride dx dy : Z) (color : Z -> Z -> list Z) (dest : list Z) (i : Z) : Z :=
  let y := i / stride - dy in
  let b := i mod stride - 4 * dx in
  if (0 <=? y) && (y <? h) && (0 <=? b) && (b <? 4 * w) then color (b / 4) y !!! Z.to_nat (b mod 4) else dest !!! Z.to_nat i.

Lemma region_painted w h e c p0 p1 p2 p3 stride dx dy dest : dims_ok w h -> planes_coded w h e (p0, p1, p2, p3) ->
  holds c 0 p0 -> holds c 1 p1 -> holds c 2 p2 -> holds c 3 p3 -> 0 <= dx -> 0 <= dy -> 4 * (dx + w) <= stride ->
  (dy + h - 1) * stride + 4 * (dx + w) <= blen dest ->
  exists dest', region_loop (Z.to_nat h) c (stream_of w h e) w stride dx dy 0 dest = Ok dest' /\ blen dest' = blen dest /\
    forall i, 0 <= i < blen dest ->
      dest' !!! Z.to_nat i = region_byte w h stride dx dy (nscodec_color w e (p0, p1, p2, p3)) dest i.
Proof.
  intros Hd Hp H0 H1 H2 H3 Hx Hy Hst Hlen. pose proof Hd as [Hw Hh].
  destruct (region_loop_spec w h e c p0 p1 p2 p3 Hd Hp H0 H1 H2 H3 (Z.to_nat h) stride dx dy 0 dest) as (dest' & E & Hl & Hs);
    [done|done|lia|lia|lia|done|].
  exists dest'. split; [done|]. split; [done|]. intros i Hi. rewrite Hs by done. unfold region_byte. cbv zeta.
  rewrite Z2Nat.id, Z.add_0_l by lia.
  replace (0 <=? i mod stride - 4 * dx) with (4 * dx <=? i mod stride)
    by (destruct (Z.leb_spec (4 * dx) (i mod stride)), (Z.leb_spec 0 (i mod stride - 4 * dx)); lia).
  replace (i mod stride - 4 * dx <? 4 * w) with (i mod stride <? 4 * (dx + w)); [done|].
  destruct (Z.ltb_spec (i mod stride) (4 * (dx + w))), (Z.ltb_spec (i mod stride - 4 * dx) (4 * w)); lia.
Qed.

Lemma region_guards d w h stride dx dy dw dh s : 0 <= dx -> 0 <= dy ->
  rdp_nscodec_decode_region_bgra32 (View d) w h stride dx dy dw dh s = (Err LIBRDP_STATUS_PROTOCOL_ERROR, s) /\
    ~ region_ok w h stride dx dy dw dh \/
  region_ok w h stride dx dy dw dh /\
  rdp_nscodec_decode_region_bgra32 (View d) w h stride dx dy dw dh s =
    (stream ← lift (rdp_nscodec_parse_stream (View d) w h);
     on_fst (rdp_nscodec_decode_planes stream w h);;
     context ← gets (fun s => s.1.1);
     dest ← gets snd;
     dest ← lift (region_loop (Z.to_nat h) context stream w stride dx dy 0 dest);
     modify (fun s => (s.1, dest))) s.
Proof.
  intros Hx Hy. unfold rdp_nscodec_decode_region_bgra32, region_ok. cbn [view_null negb]. rewrite bind_require.
  rewrite bind_require. destruct (rdp_nscodec_dimensions_valid w h) eqn:E1; cbn [andb].
  2: { left. split; [done|]. intros [H _]. apply dimensions_valid_iff in H. congruence. }
  apply dimensions_valid_iff in E1. destruct (rdp_nscodec_dimensions_valid dw dh) eqn:E2; cbn [andb].
  2: { left. split; [done|]. intros (_ & H & _). apply dimensions_valid_iff in H. congruence. }
  apply dimensions_valid_iff in E2. pose proof E1 as [Hw Hh]. pose proof E2 as [Hdw Hdh]. unfold RDP_NSCODEC_MAX_DIMENSION in *.
  destruct (negb _) eqn:E3.
  2: { left. split; [done|]. apply negb_false_iff in E3. rewrite !orb_true_iff, !Z.ltb_lt in E3. lia. }
  apply negb_true_iff in E3. rewrite !orb_false_iff, !Z.ltb_ge in E3. cbv zeta. rewrite bind_require.
  replace (size_t (dw * 4)) with (dw * 4) by (symmetry; apply Z.mod_small; lia). destruct (Z.ltb_spec stride (dw * 4)); cbn [negb].
  - left. split; [done|]. lia.
  - right. split; [|done]. split; [done|]. split; [done|]. lia.
Qed.

Lemma region_outcome d w h stride dx dy dw dh c (hp : heap) dest :
  bytes d -> 0 <= dx -> 0 <= dy -> context_ok c ->
  (region_ok w h stride dx dy dw dh -> (dy + h - 1) * stride + 4 * (dx + w) <= blen dest) ->
  exists r c' hp' dest', rdp_nscodec_decode_region_bgra32 (View d) w h stride dx dy dw dh ((c, hp), dest) = (r, ((c', hp'), dest')) /\
    ((r = Err LIBRDP_STATUS_NO_MEMORY /\ c' = c /\ dest' = dest) \/
     (r = Err LIBRDP_STATUS_PROTOCOL_ERROR /\ c' = c /\ dest' = dest /\
      ~ (region_ok w h stride dx dy dw dh /\ exists e p, nscodec_bitmap d w h e p)) \/
     (r = Ok tt /\ context_ok c' /\ region_ok w h stride dx dy dw dh /\ (exists e p, nscodec_bitmap d w h e p) /\
      blen dest' = blen dest /\
      forall e p i, nscodec_bitmap d w h e p -> 0 <= i < blen dest ->
        dest' !!! Z.to_nat i = region_byte w h stride dx dy (nscodec_color w e p) dest i)) /\
    (hp = [] -> r <> Err LIBRDP_STATUS_NO_MEMORY /\ hp' = []).
Proof.
  intros Hb Hx Hy Hc Hdest. destruct (region_guards d w h stride dx dy dw dh ((c, hp), dest) Hx Hy) as [[-> Hno]|[Hreg ->]].
  { eexists _, c, hp, dest. split; [done|]. split; [|done]. right; left. repeat (split; [done|]). by intros [? _]. }
  specialize (Hdest Hreg). pose proof Hreg as (Hd & _ & _ & _ & Hst). rewrite bind_lift.
  destruct (parse_stream_outcome w h d Hd Hb) as [E|(e & -> & He)].
  { rewrite E. eexists _, c, hp, dest. split; [done|]. split; [|done]. right; left. repeat (split; [done|]).
    intros (_ & e & p & Hp). pose proof Hp as [-> _]. apply nscodec_bitmap_ok in Hp; [|done].
    rewrite parse_stream_encoded in E by done. done. }
  rewrite parse_stream_encoded by done. rewrite bind_on_fst.
  pose proof (fun e' p => nscodec_bitmap_unique w h e e' p Hd He Hb) as Huniq.
  destruct (decode_planes_spec w h e c hp Hd He Hb Hc) as (r & c' & hp' & -> & H & Hheap).
  destruct H as [[-> ->]|[(-> & -> & Hno)|(-> & Hc' & [[[[p0 p1] p2] p3] Hp] & Hall)]].
  { eexists _, c, hp', dest. split; [done|]. split; [by left|]. intros Hh0. by destruct (Hheap Hh0). }
  { eexists _, c, hp', dest. split; [done|]. split; [|intros Hh0; split; [done|by apply Hheap]]. right; left.
    repeat (split; [done|]). intros (_ & e' & p & Hp). pose proof (Huniq _ _ Hp) as ->. destruct Hp as (_ & _ & Hp). by apply (Hno p). }
  rewrite bind_gets, bind_gets. cbn [fst snd]. rewrite bind_lift. pose proof Hd as [Hw Hh]. pose proof Hreg as (_ & _ & Hrx & Hry & _).
  assert (Hloop : forall q0 q1 q2 q3, planes_coded w h e (q0, q1, q2, q3) -> exists dest',
    region_loop (Z.to_nat h) c' (stream_of w h e) w stride dx dy 0 dest = Ok dest' /\ blen dest' = blen dest /\
    forall i, 0 <= i < blen dest ->
      dest' !!! Z.to_nat i = region_byte w h stride dx dy (nscodec_color w e (q0, q1, q2, q3)) dest i).
  { intros q0 q1 q2 q3 Hq. destruct (Hall _ _ _ _ Hq) as (H0 & H1 & H2 & H3). apply region_painted; (done || lia). }
  destruct (Hloop _ _ _ _ Hp) as (dest' & E & Hl & _). rewrite E.
  eexists _, c', hp', dest'. split; [done|]. split; [|intros Hh0; split; [done|by apply Hheap]]. right; right.
  split; [done|]. split; [done|]. split; [done|]. split; [by exists e, (p0, p1, p2, p3); destruct He|]. split; [done|].
  intros e' [[[q0 q1] q2] q3] i Hq Hi. pose proof (Huniq _ _ Hq) as ->. destruct Hq as (_ & _ & Hq).
  destruct (Hloop _ _ _ _ Hq) as (dest'' & E' & _ & Hs). rewrite E in E'. injection E' as <-. by apply Hs.
Qed.

(** The image as a list of bytes, [4 * w] to a row. *)
Definition nscodec_image (w h : Z) (e : encoding) (p : list Z * list Z * list Z * list Z) : list Z :=
  (fun i => nscodec_color w e p (i mod (4 * w) / 4) (i / (4 * w)) !!! Z.to_nat (i mod (4 * w) mod 4)) <$> seqZ 0 (4 * (w * h)).

Lemma region_byte_image w h color dest i : 0 < w -> 0 <= i < 4 * (w * h) ->
  region_byte w h (4 * w) 0 0 color dest i = color (i mod (4 * w) / 4) (i / (4 * w)) !!! Z.to_nat (i mod (4 * w) mod 4).
Proof.
  intros Hw Hi. unfold region_byte. rewrite !Z.mul_0_r, !Z.sub_0_r.
  pose proof (Z.mod_pos_bound i (4 * w) ltac:(lia)).
  assert (0 <= i / (4 * w) < h) by (split; [apply Z.div_pos; lia|apply Z.div_lt_upper_bound; lia]).
  by rewrite (proj2 (Z.leb_le 0 (i / (4 * w)))), (proj2 (Z.ltb_lt (i / (4 * w)) h)), (proj2 (Z.leb_le 0 (i mod (4 * w)))),
    (proj2 (Z.ltb_lt (i mod (4 * w)) (4 * w))) by lia.
Qed.

Lemma set_block_wf b blk : buffer_wf b -> blen blk = b_capacity b -> 0 < b_capacity b ->
  buffer_wf (set_block blk (b_capacity b) b).
Proof.
  intros [Hv Hbl Hlen Hcap] Hb H0. apply state_valid_iff in Hv as [Hle _].
  split; [apply state_valid_iff; cbn; split; [lia|]|done|done|done]. split; [done|lia].
Qed.
Lemma image_contents w h e p dest dest' : 0 < w -> 0 < h -> 4 * (w * h) <= blen dest' ->
  (forall i, 0 <= i < blen dest' -> dest' !!! Z.to_nat i = region_byte w h (4 * w) 0 0 (nscodec_color w e p) dest i) ->
  ztake (4 * (w * h)) dest' = nscodec_image w h e p.
Proof.
  intros Hw Hh Hl Hs. assert (Hwh : 0 < w * h) by nia. unfold ztake, blen in *. apply list_eq. intros i. unfold nscodec_image.
  rewrite list_lookup_fmap. destruct (decide (i < Z.to_nat (4 * (w * h)))%nat) as [Hi|Hi].
  - rewrite lookup_take_lt, lookup_seqZ_lt by lia. cbn [fmap option_fmap option_map]. rewrite Z.add_0_l.
    rewrite list_lookup_lookup_total_lt by lia. f_equal. rewrite <- (Nat2Z.id i) at 1. rewrite Hs by lia.
    by rewrite region_byte_image by lia.
  - rewrite lookup_take_ge, lookup_seqZ_ge by lia. done.
Qed.

Lemma decode_outcome d w h c b (hp : heap) :
  bytes d -> buffer_wf b -> context_ok c ->
  exists r c' b' hp', rdp_nscodec_decode_bgra32 (View d) w h (c, (b, hp)) = (r, (c', (b', hp'))) /\ buffer_wf b' /\
    ((r = Err LIBRDP_STATUS_NO_MEMORY /\ c' = c /\ contents b' = contents b) \/
     (r = Err LIBRDP_STATUS_PROTOCOL_ERROR /\ c' = c /\ contents b' = contents b /\
      ~ (dims_ok w h /\ exists e p, nscodec_bitmap d w h e p)) \/
     (r = Ok (4 * w) /\ context_ok c' /\ dims_ok w h /\ (exists e p, nscodec_bitmap d w h e p) /\
      forall e p, nscodec_bitmap d w h e p -> contents b' = nscodec_image w h e p)) /\
    (hp = [] -> r <> Err LIBRDP_STATUS_NO_MEMORY /\ hp' = []).
Proof.
  intros Hb Hwf Hc. unfold rdp_nscodec_decode_bgra32. cbn [view_null negb]. rewrite bind_require, bind_require.
  destruct (rdp_nscodec_dimensions_valid w h) eqn:E1.
  2: { eexists _, c, b, hp. split; [done|]. split; [done|]. split; [|done]. right; left. repeat (split; [done|]).
    intros [H _]. apply dimensions_valid_iff in H. congruence. }
  apply dimensions_valid_iff in E1. pose proof E1 as [Hw Hh]. unfold RDP_NSCODEC_MAX_DIMENSION in *. cbv zeta.
  assert (Hwh : w * h <= 0x4000000) by nia. assert (Hwh0 : 0 < w * h) by nia.
  replace (size_t (w * 4)) with (4 * w) by (unfold size_t; rewrite Z.mod_small; lia).
  rewrite bind_require, (proj2 (Z.ltb_ge _ _)) by (apply Z.div_le_lower_bound; unfold SIZE_MAX; lia). cbn [negb].
  replace (size_t (h * (4 * w))) with (4 * (w * h)) by (unfold size_t; rewrite Z.mod_small; lia).
  rewrite bind_on_snd.
  destruct (rdp_buffer_reserve_spec b hp (4 * (w * h)) Hwf) as (r & b1 & h1 & E & Hwf1 & Hcont & Hlen & Hr & Hok).
  rewrite E. destruct Hr as [[-> Hcap]|[-> ->]].
  2: { eexists _, c, b, h1. split; [done|]. split; [done|]. split; [by left|]. intros Hh0. destruct (Hok Hh0); [lia|done]. }
  unfold mbind at 1, M_bind, on_block.
  destruct (region_outcome d w h (4 * w) 0 0 w h c h1 (block b1) Hb) as (r & c' & h2 & dest' & -> & H & Hheap); [done..| |].
  { intros _. rewrite (buffer_wf_block b1 Hwf1). lia. }
  assert (Hpos : 0 < b_capacity b1) by lia. pose proof (buffer_wf_block b1 Hwf1) as Hblk.
  assert (Hh2 : hp = [] -> r <> Err LIBRDP_STATUS_NO_MEMORY /\ h2 = []) by (intros Hh0; apply Hheap; by destruct (Hok Hh0); [lia|]).
  assert (Hsame : contents (set_block (block b1) (b_capacity b1) b1) = contents b) by exact Hcont.
  destruct H as [(-> & -> & ->)|[(-> & -> & -> & Hno)|(-> & Hc' & _ & Hex & Hl & Hs)]].
  - eexists _, c, _, h2. split; [done|]. split; [by apply set_block_wf|]. split; [by left|]. intros Hh0. by destruct (Hh2 Hh0).
  - eexists _, c, _, h2. split; [done|]. split; [by apply set_block_wf|]. split; [right; left|intros Hh0; split; [done|by apply Hh2]].
    split; [done|]. split; [done|]. split; [done|]. intros [_ Hbm]. apply Hno. split; [|done].
    split; [done|]. split; [done|]. lia.
  - eexists (Ok (4 * w)), c', _, h2. split; [reflexivity|]. cbn [fst snd].
    pose proof (set_block_wf b1 dest' Hwf1 ltac:(congruence) Hpos) as [Hv Hb2 Hn2 Hc2]. apply state_valid_iff in Hv as [_ Hv].
    split; [split; cbn in *; try done; try lia; apply state_valid_iff; cbn; split; [lia|done]|].
    split; [right; right|intros Hh0; split; [done|by apply Hh2]]. repeat (split; [done|]). intros e p Hp.
    apply (image_contents w h e p (block b1) dest'); [lia|lia|lia|]. intros i Hi. apply Hs; [done|lia].
Qed.

(** ** Properties *)

(** C20: decoding into a surface whose buffer holds the rows of the region.  Call
    the sizes fit when the sides of the bitmap and of the surface are between 1
    and 8192, the region lies in the surface, and a row of the buffer has room
    for one of the surface (four bytes a pixel).  If the sizes fit and the bytes
    are an NSCodec bitmap of this size (a header with a colour loss level between
    1 and 7, then luma, two chroma planes and an alpha plane that may be missing,
    each copied or coded by the run-length grammar, and nothing after them),
    every byte of the region becomes that of the pixel computed from the planes,
    and every other byte of the buffer stays; otherwise, so for a well-formed
    bitmap with a side above 8192, the answer is [PROTOCOL_ERROR] and nothing
    changes, neither the buffer nor the context; [NO_MEMORY] needs a failing
    allocation and changes nothing either.  The invariant of the context is
    kept. *)
Theorem nscodec_region_iff d w h stride dx dy dw dh c (hp : heap) dest :
  bytes d -> 0 <= dx -> 0 <= dy -> context_ok c ->
  (region_ok w h stride dx dy dw dh -> (dy + h - 1) * stride + 4 * (dx + w) <= blen dest) ->
  exists r c' hp' dest', rdp_nscodec_decode_region_bgra32 (View d) w h stride dx dy dw dh ((c, hp), dest) = (r, ((c', hp'), dest')) /\
    ((r = Err LIBRDP_STATUS_NO_MEMORY /\ c' = c /\ dest' = dest) \/
     (r = Err LIBRDP_STATUS_PROTOCOL_ERROR /\ c' = c /\ dest' = dest /\
      ~ (region_ok w h stride dx dy dw dh /\ exists e p, nscodec_bitmap d w h e p)) \/
     (r = Ok tt /\ context_ok c' /\ region_ok w h stride dx dy dw dh /\ (exists e p, nscodec_bitmap d w h e p) /\
      blen dest' = blen dest /\
      forall e p i, nscodec_bitmap d w h e p -> 0 <= i < blen dest ->
        dest' !!! Z.to_nat i = region_byte w h stride dx dy (nscodec_color w e p) dest i)) /\
    (hp = [] -> r <> Err LIBRDP_STATUS_NO_MEMORY /\ hp' = []).
Proof. apply region_outcome. Qed.

(** Decoding into a buffer: the same, and the contents are the image. *)
Theorem nscodec_decode_iff d w h c b (hp : heap) :
  bytes d -> buffer_wf b -> context_ok c ->
  exists r c' b' hp', rdp_nscodec_decode_bgra32 (View d) w h (c, (b, hp)) = (r, (c', (b', hp'))) /\ buffer_wf b' /\
    ((r = Err LIBRDP_STATUS_NO_MEMORY /\ c' = c /\ contents b' = contents b) \/
     (r = Err LIBRDP_STATUS_PROTOCOL_ERROR /\ c' = c /\ contents b' = contents b /\
      ~ (dims_ok w h /\ exists e p, nscodec_bitmap d w h e p)) \/
     (r = Ok (4 * w) /\ context_ok c' /\ dims_ok w h /\ (exists e p, nscodec_bitmap d w h e p) /\
      forall e p, nscodec_bitmap d w h e p -> contents b' = nscodec_image w h e p)) /\
    (hp = [] -> r <> Err LIBRDP_STATUS_NO_MEMORY /\ hp' = []).
Proof. apply decode_outcome. Qed.

(** The run-length decoder by itself. *)
Theorem nscodec_rle_plane_iff e n c p : bytes e -> 4 < n ->
  (rdp_nscodec_decode_rle_plane (View e) n (c, [])).1 = Ok p <-> rle_encodes n e p.
Proof.
  intros Hb Hn. unfold rdp_nscodec_decode_rle_plane. cbn [view_null view_bytes orb].
  rewrite bind_require, (proj2 (Z.eqb_neq n 0)) by lia. cbn [negb]. rewrite (proj2 (Z.leb_gt n 4)) by lia.
  assert (E : (mallocs 1;; lift (rdp_nscodec_decode_rle_plane_into e n)) (c, []) = (rdp_nscodec_decode_rle_plane_into e n, (c, []))) by done.
  rewrite E. cbn [fst]. unfold rdp_nscodec_decode_rle_plane_into. rewrite ensure_true by guard_lia.
  rewrite (proj2 (Z.leb_gt n 4)) by lia. fold (rle_rest (S (length e)) n n e []).
  assert (Henc : forall q, rle_encodes n e q -> rle_rest (S (length e)) n n e [] = Ok q) by (intros q Hq; apply (rle_rest_encoded n e q); (done || lia)).
  split; [|apply Henc]. intros Er. destruct (rle_rest_outcome (S (length e)) n e n [] Hb) as [E2|[q Hq]]; [lia|rewrite blen_nil; lia|lia|congruence|].
  pose proof (Henc q Hq). congruence.
Qed.

(** The capability: what is written parses back. *)
Theorem nscodec_capability_roundtrip capability :
  capability_valid capability = true -> 0 <= nc_allow_dynamic_fidelity capability -> 0 <= nc_allow_subsampling capability ->
  let l := [nc_allow_dynamic_fidelity capability; nc_allow_subsampling capability; nc_color_loss_level capability] in
  WritesAtomic (rdp_nscodec_write_capability capability) l (fun _ => True) /\
  rdp_nscodec_parse_capability (View l) = Ok capability.
Proof.
  intros Hv H0 H1 l. pose proof Hv as Hv'. destruct capability as [a s cll]. unfold capability_valid in Hv'.
  cbn [nc_allow_dynamic_fidelity nc_allow_subsampling nc_color_loss_level] in *.
  apply negb_true_iff in Hv'. rewrite !orb_false_iff, !Z.ltb_ge in Hv'. split.
  - unfold rdp_nscodec_write_capability. rewrite Hv. cbn [nc_allow_dynamic_fidelity nc_allow_subsampling nc_color_loss_level].
    intros b h Hwf. rewrite bind_require. revert b h Hwf. apply writes_atomic.
    eapply writes_eq; [|do 2 wstep; apply writes_u8; unfold is_byte; lia]. done.
  - unfold rdp_nscodec_parse_capability. rewrite !ensure_true by done. cbv zeta. unfold l. cbn [view_bytes]. rd_eval.
    cbn [mbind res_bind]. by rewrite ensure_true.
Qed.

(** The two codecs exchange red and blue: of the same luma and chroma samples
    [Planar] makes the pixel of this one with these bytes in the other order. *)
Theorem nscodec_planar_exchange cll y co cg a : 1 <= cll <= 7 ->
  exists b g r, ycocg_color cll y co cg a = [b; g; r; a] /\
    planar_color 1 cll (Some [a], [y], [co], [cg]) 0 = [r; g; b; a].
Proof.
  intros Hc. assert (Hcll : header_cll cll = cll /\ header_subsampled cll = false).
  { assert (cll = 1 \/ cll = 2 \/ cll = 3 \/ cll = 4 \/ cll = 5 \/ cll = 6 \/ cll = 7) as H by lia.
    by destruct H as [->|[->|[->|[->|[->|[->| ->]]]]]]. }
  destruct Hcll as [E1 E2]. unfold planar_color. rewrite E1, E2, (proj2 (Z.eqb_neq cll 0)) by lia.
  eexists _, _, _. split; [done|]. cbn [app].
  change ([co] !!! 0%nat) with co. change ([cg] !!! 0%nat) with cg. change ([y] !!! 0%nat) with y.
  change (rdp_planar_decode_chroma co cll) with (rdp_nscodec_recover_chroma co cll).
  change (rdp_planar_decode_chroma cg cll) with (rdp_nscodec_recover_chroma cg cll).
  change rdp_planar_clip_i32 with rdp_nscodec_clamp_i32.
  set (CO := rdp_nscodec_recover_chroma co cll). set (CG := rdp_nscodec_recover_chroma cg cll).
  replace (y - CG + CO) with (y + CO - CG) by lia. by replace (y - CG - CO) with (y - CO - CG) by lia.
Qed.

(** A row of eight pixels; the luma plane is a run of four and the four last. *)
Definition sample_encoding : encoding :=
  mk_encoding 1 false [100; 100; 2; 90; 91; 92; 93] (replicate 8 10) (replicate 8 250) [].
Definition sample_nscodec_planes : list Z * list Z * list Z * list Z :=
  ([100; 100; 100; 100; 90; 91; 92; 93], replicate 8 10, replicate 8 250, replicate 8 255).
Lemma sample_nscodec_bitmap : nscodec_bitmap (stream_enc sample_encoding) 8 1 sample_encoding sample_nscodec_planes.
Proof.
  split; [done|]. split; [done|]. split; [|split; [by left|split; [by left|by left]]]. right. split; [done|].
  apply (rle_run 8 100 4 [90; 91; 92; 93] [90; 91; 92; 93]); [done|done|]. by apply rle_last.
Qed.

Lemma nscodec_region_iff_witness :
  exists c' dest', rdp_nscodec_decode_region_bgra32 (View (stream_enc sample_encoding)) 8 1 32 0 0 8 1
      ((rdp_nscodec_context_init, []), replicate 32 0) = (Ok tt, ((c', []), dest')) /\
    dest' !!! 0%nat = 96 /\ dest' !!! 1%nat = 94 /\ dest' !!! 2%nat = 116 /\ dest' !!! 3%nat = 255 /\ dest' !!! 28%nat = 89.
Proof.
  assert (Hr : region_ok 8 1 32 0 0 8 1) by done. pose proof sample_nscodec_bitmap as Hp.
  destruct (nscodec_region_iff (stream_enc sample_encoding) 8 1 32 0 0 8 1 rdp_nscodec_context_init [] (replicate 32 0))
    as (r & c' & hp' & dest' & E & H & Hheap); [by repeat constructor|done|done|apply context_init_ok|by intros _|].
  destruct (Hheap eq_refl) as [Hno ->].
  destruct H as [(-> & _)|[(_ & _ & _ & Hbad)|(-> & _ & _ & _ & _ & Hs)]].
  - by destruct Hno.
  - destruct Hbad. split; [done|]. by exists sample_encoding, sample_nscodec_planes.
  - exists c', dest'. split; [exact E|].
    clear E. assert (Hbyte : forall i v, 0 <= i < 32 ->
      region_byte 8 1 32 0 0 (nscodec_color 8 sample_encoding sample_nscodec_planes) (replicate 32 0) i = v ->
      dest' !!! Z.to_nat i = v).
    { intros i v Hi <-. refine (Hs _ _ i Hp _). change (blen (replicate 32 0)) with 32. exact Hi. }
    split; [apply (Hbyte 0 96); [done|by vm_compute]|]. split; [apply (Hbyte 1 94); [done|by vm_compute]|].
    split; [apply (Hbyte 2 116); [done|by vm_compute]|]. split; [apply (Hbyte 3 255); [done|by vm_compute]|].
    apply (Hbyte 28 89); [done|by vm_compute].
Defined.
