(* ===== verification/Reassembly.v ===== *)
(** * Reassembly: messages over static virtual channels

    Models how both ends cut a message into channel fragments and put it
    together again: the send loop of [src/src/server/server_channels.c]
    ([librdp_server_peer_send_channel_data]) and the receivers
    [rdp_server_handle_static_channel_message] (same file) and
    [rdp_session_handle_static_channel] ([src/src/client/session_channels.c]).
    The packets are those of [VirtualChannel]; what a complete message is handed
    to, and the connection below the sender, are parameters.  [server_recv] and
    [client_recv] are the receivers as automata over packets. *)

From S2P Require Import Prelude Stream Buffer VirtualChannel.

Definition RDP_SERVER_STATIC_MESSAGE_MAX : Z := 64 * 1024 * 1024.
Definition RDP_SERVER_STATIC_CHANNEL_CHUNK_SIZE : Z := 1600.

(** The reassembly fields of a channel. *)
Record rdp_server_static_channel := mk_channel {
  fragment : rdp_buffer;
  fragment_expected : Z;
  fragmenting : bool;
}.

(** [rdp_buffer_free; rdp_buffer_init] of the fragment and no message pending. *)
Definition idle_channel : rdp_server_static_channel := mk_channel rdp_buffer_init 0 false.

Section receivers.
(** The state of the code a complete message is dispatched to. *)
Context {D : Type} (dispatch : list Z -> M D unit).

Definition rstate : Type := rdp_server_static_channel * heap * D.

Definition get_channel : M rstate rdp_server_static_channel := gets (fun s => s.1.1).
Definition put_channel (c : rdp_server_static_channel) : M rstate unit := modify (fun s => ((c, s.1.2), s.2)).

Definition append_fragment (payload : view) : M rstate unit := fun '((c, h), d) =>
  let '(r, (b, h)) := rdp_buffer_append payload (fragment c, h) in
  (r, ((mk_channel b (fragment_expected c) (fragmenting c), h), d)).

(** [goto reset] on an error. *)
Definition or_reset {A} (m : M rstate A) : M rstate A := fun s =>
  match m s with
  | (Err st, s) => (Err st, ((idle_channel, s.1.2), s.2))
  | r => r
  end.

(** ** The server *)

Definition rdp_server_handle_static_channel_message (data : view) : M rstate unit :=
  require (negb (view_null data && (0 <? view_len data))) LIBRDP_STATUS_INVALID_ARGUMENT;;
  packet ← or_reset (
    packet ← lift (rdp_virtual_channel_parse_packet data);
    require (negb ((size_t (view_len data - 8) <? vcp_payload_len packet) ||
                   negb (size_t (vcp_payload_len packet + 8) =? view_len data) ||
                   (RDP_SERVER_STATIC_MESSAGE_MAX <? vcp_length packet))) LIBRDP_STATUS_PROTOCOL_ERROR;;
    mret packet);
  let fragment_flags := Z.land (vcp_flags packet) flags_first_last in
  if fragment_flags =? flags_first_last then
    or_reset (
      c ← get_channel;
      require (negb (fragmenting c || negb (vcp_payload_len packet =? vcp_length packet))) LIBRDP_STATUS_PROTOCOL_ERROR);;
    on_snd (dispatch (vcp_payload packet))
  else if has_flag fragment_flags RDP_VIRTUAL_CHANNEL_FLAG_FIRST then
    or_reset (
      c ← get_channel;
      require (negb (fragmenting c || (vcp_length packet =? 0) || (vcp_payload_len packet =? 0) ||
                     (vcp_length packet <=? vcp_payload_len packet))) LIBRDP_STATUS_PROTOCOL_ERROR;;
      put_channel (mk_channel rdp_buffer_init (fragment_expected c) (fragmenting c));;
      append_fragment (View (vcp_payload packet));;
      c ← get_channel;
      put_channel (mk_channel (fragment c) (vcp_length packet) true))
  else
    or_reset (
      c ← get_channel;
      require (negb (negb (fragmenting c) || negb (fragment_expected c =? vcp_length packet) || (vcp_payload_len packet =? 0) ||
                     (size_t (fragment_expected c - vcp_payload_len packet) <? b_length (fragment c)))) LIBRDP_STATUS_PROTOCOL_ERROR;;
      append_fragment (View (vcp_payload packet));;
      c ← get_channel;
      if negb (has_flag fragment_flags RDP_VIRTUAL_CHANNEL_FLAG_LAST) then
        require (negb (fragment_expected c <=? b_length (fragment c))) LIBRDP_STATUS_PROTOCOL_ERROR
      else
        require (b_length (fragment c) =? fragment_expected c) LIBRDP_STATUS_PROTOCOL_ERROR;;
        on_snd (dispatch (contents (fragment c)));;
        put_channel idle_channel).

(** ** The client *)

(** [limit]: [session->limits.channel_buffer_bytes].  The dispatch is
    [rdp_session_multiparty_dispatch], on its channel, and then
    [rdp_session_emit_channel_payload]. *)
Definition rdp_session_handle_static_channel (limit : Z) (packet : rdp_virtual_channel_packet) : M rstate unit :=
  require (negb (limit <? vcp_length packet)) LIBRDP_STATUS_LIMIT_EXCEEDED;;
  let fragment_flags := Z.land (vcp_flags packet) flags_first_last in
  if fragment_flags =? flags_first_last then
    put_channel idle_channel;;
    on_snd (dispatch (vcp_payload packet))
  else
    c ← get_channel;
    (if has_flag (vcp_flags packet) RDP_VIRTUAL_CHANNEL_FLAG_FIRST then
       put_channel (mk_channel rdp_buffer_init (vcp_length packet) true)
     else require (fragmenting c) LIBRDP_STATUS_PROTOCOL_ERROR);;
    c ← get_channel;
    require (negb ((fragment_expected c <? vcp_payload_len packet) ||
                   (size_t (fragment_expected c - vcp_payload_len packet) <? b_length (fragment c)))) LIBRDP_STATUS_PROTOCOL_ERROR;;
    coerce LIBRDP_STATUS_NO_MEMORY (append_fragment (View (vcp_payload packet)));;
    if has_flag (vcp_flags packet) RDP_VIRTUAL_CHANNEL_FLAG_LAST then
      c ← get_channel;
      require (b_length (fragment c) =? fragment_expected c) LIBRDP_STATUS_PROTOCOL_ERROR;;
      on_snd (dispatch (contents (fragment c)));;
      put_channel idle_channel
    else mret tt.

(** The data of a send-data indication on a static channel. *)
Definition client_static_data (limit : Z) (data : view) : M rstate unit :=
  packet ← lift (rdp_virtual_channel_parse_packet data);
  rdp_session_handle_static_channel limit packet.

(** The packets of a sequence, one after the other. *)
Fixpoint feed (handle : view -> M rstate unit) (packets : list (list Z)) : M rstate unit :=
  match packets with
  | [] => mret tt
  | p :: packets => handle (View p);; feed handle packets
  end.
End receivers.

(** ** The sender *)

Section sender.
(** The connection: Standard Security, the send-data indication and the socket
    take a channel packet.  [overhead] is [rdp_server_outbound_security_overhead]. *)
Context {N : Type} (send : list Z -> M N unit) (overhead : Z).

Definition sstate : Type := heap * N.

(** A buffer local to a function. *)
Definition written (w : writer unit) : M sstate rdp_buffer := fun '(h, n) =>
  let '(r, (b, h)) := w (rdp_buffer_init, h) in
  match r with
  | Ok _ => (Ok b, (h, n))
  | Err st => (Err st, (h, n))
  | Fault => (Fault, (h, n))
  end.

Definition rdp_server_send_static_channel_fragment (data : view) (total_len flags : Z) : M sstate unit :=
  require (negb (view_null data && (0 <? view_len data))) LIBRDP_STATUS_INVALID_ARGUMENT;;
  channel_packet ← written (rdp_virtual_channel_write_fragment data total_len flags);
  require (negb ((0x7fff <? b_length channel_packet) || (size_t (0x7fff - b_length channel_packet) <? overhead)))
    LIBRDP_STATUS_LIMIT_EXCEEDED;;
  on_snd (send (contents channel_packet)).

(** [(bytes ? bytes + offset : NULL, chunk)]. *)
Definition chunk_view (data : view) (offset chunk : Z) : res view :=
  match data with
  | NullView _ => Ok (NullView chunk)
  | View l => part ← slice l offset chunk; Ok (View part)
  end.

(** The do-while loop: an iteration sends a byte at least, except the only one of
    an empty message, so the bytes and one more are enough fuel. *)
Fixpoint send_loop (fuel : nat) (data : view) (offset : Z) : M sstate unit :=
  match fuel with
  | O => lift Fault
  | S fuel =>
      let chunk := view_len data - offset in
      let chunk := if RDP_SERVER_STATIC_CHANNEL_CHUNK_SIZE <? chunk then RDP_SERVER_STATIC_CHANNEL_CHUNK_SIZE else chunk in
      let flags := if offset =? 0 then RDP_VIRTUAL_CHANNEL_FLAG_FIRST else 0 in
      let flags := if offset + chunk =? view_len data then Z.lor flags RDP_VIRTUAL_CHANNEL_FLAG_LAST else flags in
      part ← lift (chunk_view data offset chunk);
      rdp_server_send_static_channel_fragment part (view_len data) flags;;
      let offset := offset + chunk in
      if offset <? view_len data then send_loop fuel data offset else mret tt
  end.

(** [active]: the peer is in the state [LIBRDP_SERVER_PEER_ACTIVE]; [joined]: the
    channel is one of the peer's static channels and was joined. *)
Definition librdp_server_peer_send_channel_data (active joined : bool) (data : view) : M sstate unit :=
  require (negb (view_null data && (0 <? view_len data))) LIBRDP_STATUS_INVALID_ARGUMENT;;
  require active LIBRDP_STATUS_STATE;;
  require joined LIBRDP_STATUS_INVALID_ARGUMENT;;
  require (negb (RDP_SERVER_STATIC_MESSAGE_MAX <? view_len data)) LIBRDP_STATUS_LIMIT_EXCEEDED;;
  send_loop (S (length (view_bytes data))) data 0.
End sender.

(** ** The receivers as automata *)

(** A message in progress: its total length and the bytes so far. *)
Definition progress : Type := option (Z * list Z).
Inductive received :=
| Refused (a : progress)
| Waiting (a : progress)
| Complete (message : list Z).

Definition first_flag (flags : Z) : bool := has_flag flags RDP_VIRTUAL_CHANNEL_FLAG_FIRST.
Definition last_flag (flags : Z) : bool := has_flag flags RDP_VIRTUAL_CHANNEL_FLAG_LAST.

(** The server: every fragment repeats the total length, a first one needs a
    free channel, and the last one, no other, completes the message. *)
Definition server_recv (a : progress) (total flags : Z) (payload : list Z) : received :=
  if first_flag flags && last_flag flags then
    match a with
    | None => if blen payload =? total then Complete payload else Refused None
    | Some _ => Refused None
    end
  else if first_flag flags then
    match a with
    | None => if (0 <? blen payload) && (blen payload <? total) then Waiting (Some (total, payload)) else Refused None
    | Some _ => Refused None
    end
  else
    match a with
    | None => Refused None
    | Some (expected, got) =>
        let got := got ++ payload in
        if (expected =? total) && (0 <? blen payload) then
          if last_flag flags then if blen got =? expected then Complete got else Refused None
          else if blen got <? expected then Waiting (Some (expected, got)) else Refused None
        else Refused None
    end.

(** The client: a first fragment starts over, only its total length counts, and
    what was received stays after an error. *)
Definition client_recv (a : progress) (total flags : Z) (payload : list Z) : received :=
  if first_flag flags && last_flag flags then Complete payload
  else
    match (if first_flag flags then Some (total, []) else a) with
    | None => Refused None
    | Some (expected, got) =>
        if expected <? blen got + blen payload then Refused (Some (expected, got))
        else
          let got := got ++ payload in
          if last_flag flags then if blen got =? expected then Complete got else Refused (Some (expected, got))
          else Waiting (Some (expected, got))
    end.

(** ** Lemmas *)

(** A reader that can only fail with the status [st]. *)
Definition OnlyErr {S A} (m : M S A) (st : librdp_status) : Prop := forall s st' s', m s = (Err st', s') -> st' = st.
Section only_err.
Context {S A B : Type}.
Lemma only_err_bind (m : M S A) (k : A -> M S B) st : OnlyErr m st -> (forall a, OnlyErr (k a) st) -> OnlyErr (m ≫= k) st.
Proof.
  intros Hm Hk s st' s'. unfold mbind, M_bind. destruct (m s) as [[a|e|] s1] eqn:E; [apply Hk| |done].
  intros [= <- <-]. by apply (Hm _ _ _ E).
Qed.
Lemma only_err_coerce (m : M S A) st : OnlyErr (coerce st m) st.
Proof. intros s st' s'. unfold coerce. destruct (m s) as [[] s1]; congruence. Qed.
Lemma only_err_require c st : OnlyErr (@require S c st) st.
Proof. intros s st' s'. destruct c; unfold require, fail, mret, M_ret; congruence. Qed.
Lemma only_err_gets (f : S -> A) st : OnlyErr (gets f) st.
Proof. intros s st' s'. unfold gets. congruence. Qed.
Lemma only_err_ret (a : A) st : OnlyErr (mret a : M S A) st.
Proof. intros s st' s'. unfold mret, M_ret. congruence. Qed.
End only_err.
Lemma only_err_read_bytes n : OnlyErr (rdp_stream_read_bytes n) LIBRDP_STATUS_PROTOCOL_ERROR.
Proof.
  intros s st s'. unfold rdp_stream_read_bytes. destruct (_ <? n); [congruence|]. intros [= E _].
  unfold slice in E. by destruct (_ && _).
Qed.

Lemma parse_packet_cases d : bytes d ->
  rdp_virtual_channel_parse_packet (View d) = Err LIBRDP_STATUS_PROTOCOL_ERROR \/
  exists p, rdp_virtual_channel_parse_packet (View d) = Ok p /\ vcp_payload_len p = blen (vcp_payload p) /\
    is_u32 (vcp_length p) /\ vcp_payload_len p <= vcp_length p /\ 8 + vcp_payload_len p <= blen d /\ bytes (vcp_payload p) /\
    (Z.land (vcp_flags p) flags_first_last = flags_first_last -> vcp_payload_len p = vcp_length p).
Proof.
  intros Hb. destruct (virtual_channel_parse_safe d Hb) as [Hf Hok].
  destruct (rdp_virtual_channel_parse_packet (View d)) as [p|st|] eqn:E; [right|left|done].
  - destruct (Hok p eq_refl) as (Hl & Hd & Hm & Hfl). exists p. split; [done|]. split; [done|].
    assert (Hlen : is_u32 (vcp_length p) /\ bytes (vcp_payload p)).
    { unfold rdp_virtual_channel_parse_packet in E. rewrite ensure_true in E by done.
      revert E. refine (proj2 (with_stream_safe (View d) _ (fun p => is_u32 (vcp_length p) /\ bytes (vcp_payload p)) _ Hb) p).
      repeat safe_step; [unfold is_u32 in *; case_match; lia|]. by split. }
    split; [apply Hlen|]. pose proof (blen_nonneg (vcp_payload p)). split; [lia|]. split; [lia|]. split; [apply Hlen|done].
  - f_equal. unfold rdp_virtual_channel_parse_packet in E. rewrite ensure_true in E by done. unfold with_stream in E.
    match type of E with (?r ?s).1 = _ => destruct (r s) as [o s'] eqn:Er; cbn [fst] in E; subst o;
      apply (fun H : OnlyErr r LIBRDP_STATUS_PROTOCOL_ERROR => H _ _ _ Er) end.
    apply only_err_bind; [apply only_err_coerce|]. intros length. apply only_err_bind; [apply only_err_coerce|]. intros flags.
    apply only_err_bind; [apply only_err_gets|]. intros remaining. apply only_err_bind; [apply only_err_require|]. intros _.
    apply only_err_bind; [apply only_err_read_bytes|]. intros payload. apply only_err_ret.
Qed.

Lemma flags_both flags : (Z.land flags flags_first_last =? flags_first_last) = first_flag flags && last_flag flags.
Proof.
  unfold first_flag, last_flag, has_flag. change RDP_VIRTUAL_CHANNEL_FLAG_FIRST with 1. change RDP_VIRTUAL_CHANNEL_FLAG_LAST with 2.
  change flags_first_last with 3. change 1 with (Z.land 3 1) at 1. change 2 with (Z.land 3 2) at 1. rewrite !Z.land_assoc.
  assert (H : 0 <= Z.land flags 3 < 4).
  { change 3 with (Z.ones 2). rewrite Z.land_ones by lia. apply Z.mod_pos_bound. lia. }
  set (x := Z.land flags 3) in *. assert (x = 0 \/ x = 1 \/ x = 2 \/ x = 3) as [-> |[-> |[-> | ->]]] by lia; done.
Qed.
Lemma flag_first_land flags : has_flag (Z.land flags flags_first_last) RDP_VIRTUAL_CHANNEL_FLAG_FIRST = first_flag flags.
Proof. unfold first_flag, has_flag. by rewrite <- Z.land_assoc. Qed.
Lemma flag_last_land flags : has_flag (Z.land flags flags_first_last) RDP_VIRTUAL_CHANNEL_FLAG_LAST = last_flag flags.
Proof. unfold last_flag, has_flag. by rewrite <- Z.land_assoc. Qed.

(** The channel is in the state [a] of the automaton. *)
Definition represents (c : rdp_server_static_channel) (a : progress) : Prop :=
  buffer_wf (fragment c) /\
  match a with
  | None => fragmenting c = false
  | Some (expected, got) =>
      fragmenting c = true /\ fragment_expected c = expected /\ contents (fragment c) = got /\ is_u32 expected /\ blen got <= expected
  end.
Lemma idle_represents : represents idle_channel None.
Proof. split; [apply buffer_init_wf|done]. Qed.

Section refinement.
Context {D : Type} (dispatch : list Z -> M D unit).

Lemma append_fragment_spec payload c h (d : D) : buffer_wf (fragment c) ->
  exists r b h', append_fragment (View payload) ((c, h), d) = (r, ((mk_channel b (fragment_expected c) (fragmenting c), h'), d)) /\
    buffer_wf b /\
    ((r = Ok tt /\ contents b = contents (fragment c) ++ payload) \/
     (r = Err LIBRDP_STATUS_NO_MEMORY /\ contents b = contents (fragment c))) /\
    (h = [] -> blen (contents (fragment c)) + blen payload <= 2 ^ 63 -> r = Ok tt /\ h' = []).
Proof.
  intros Hwf. unfold append_fragment. destruct (append_atomic payload (View payload) eq_refl eq_refl (fragment c) h Hwf)
    as (r & b & h' & E & Hb & Hr & Hok).
  rewrite E. exists r, b, h'. split; [done|]. split; [done|]. rewrite blen_contents by done. split.
  - destruct Hr as [([] & -> & _ & Hc)|Hr]; [by left|by right].
  - intros Hh Hl. destruct (Hok Hh Hl) as [Hr' ->]. by destruct Hr as [([] & -> & _)|[-> _]].
Qed.

(** What a call answers, and the state after it, when the automaton says [o]: a
    channel whose message is complete is free after a dispatch that answers what
    [free] says. *)
Definition realizes (free : res unit -> Prop) (o : received) (d : D) (r : res unit) (c' : rdp_server_static_channel) (d' : D) : Prop :=
  match o with
  | Refused a => r = Err LIBRDP_STATUS_PROTOCOL_ERROR /\ d' = d /\ represents c' a
  | Waiting a => r = Ok tt /\ d' = d /\ represents c' a
  | Complete message => dispatch message d = (r, d') /\ (free r -> represents c' None)
  end.

(** The call does what the automaton says, unless it runs out of memory. *)
Definition Runs (free : res unit -> Prop) (m : M (rstate (D := D)) unit) (c : rdp_server_static_channel) (o : received)
    (failed : progress) : Prop :=
  forall h d, exists r c' h' d', m ((c, h), d) = (r, ((c', h'), d')) /\
    (realizes free o d r c' d' \/ (r = Err LIBRDP_STATUS_NO_MEMORY /\ d' = d /\ represents c' failed)) /\
    (h = [] -> realizes free o d r c' d' /\ h' = []).
(** The channel is free when the dispatch succeeds. *)
Definition Realizes := Runs (fun r => r = Ok tt).
(** The channel is free whatever status the dispatch answers. *)
Definition Frees := Runs (fun r => r <> Fault).

Lemma frees_realizes m c o failed : Frees m c o failed -> Realizes m c o failed.
Proof.
  assert (Hw : forall d r c' d', realizes (fun r => r <> Fault) o d r c' d' -> realizes (fun r => r = Ok tt) o d r c' d').
  { intros d r c' d'. destruct o; cbn [realizes]; [done|done|]. intros [Hd Hf]. split; [done|]. intros ->. by apply Hf. }
  intros H h d. destruct (H h d) as (r & c' & h' & d' & E & Ho & Hh). exists r, c', h', d'. split; [done|]. split.
  - destruct Ho as [Ho|Ho]; [left; by apply Hw|by right].
  - intros Hn. destruct (Hh Hn) as [Ho' ->]. split; [by apply Hw|done].
Qed.

Lemma realizes_sure {free} m c o failed :
  (forall h d, exists r c' d', m ((c, h), d) = (r, ((c', h), d')) /\ realizes free o d r c' d') -> Runs free m c o failed.
Proof.
  intros H h d. destruct (H h d) as (r & c' & d' & E & Ho). exists r, c', h, d'. split; [done|]. split; [by left|]. by intros ->.
Qed.

Lemma realizes_ext {free} m m' c o failed : (forall s, m s = m' s) -> Runs free m' c o failed -> Runs free m c o failed.
Proof. intros Hm H h d. rewrite Hm. apply H. Qed.
Lemma or_reset_ok {A} (m : M rstate A) s a s' : m s = (Ok a, s') -> or_reset (D := D) m s = (Ok a, s').
Proof. unfold or_reset. by intros ->. Qed.
Lemma or_reset_err {A} (m : M rstate A) s st s' : m s = (Err st, s') -> or_reset (D := D) m s = (Err st, ((idle_channel, s'.1.2), s'.2)).
Proof. unfold or_reset. by intros ->. Qed.

(** The outcome of a packet at the server. *)
Definition server_input (a : progress) (data : list Z) : received :=
  match rdp_virtual_channel_parse_packet (View data) with
  | Ok p =>
      if (blen data =? 8 + blen (vcp_payload p)) && (vcp_length p <=? RDP_SERVER_STATIC_MESSAGE_MAX)
      then server_recv a (vcp_length p) (vcp_flags p) (vcp_payload p) else Refused None
  | _ => Refused None
  end.

Lemma realizes_idle_err {free} (d : D) : realizes free (Refused None) d (Err LIBRDP_STATUS_PROTOCOL_ERROR) idle_channel d.
Proof. split; [done|]. split; [done|apply idle_represents]. Qed.

(** Storing the payload and going on. *)
Lemma realizes_append payload (k : M rstate unit) c o :
  buffer_wf (fragment c) -> blen (contents (fragment c)) + blen payload <= 2 ^ 63 ->
  (forall b h d, buffer_wf b -> contents b = contents (fragment c) ++ payload ->
    exists r c' d', or_reset k ((mk_channel b (fragment_expected c) (fragmenting c), h), d) = (r, ((c', h), d')) /\ realizes (fun r => r <> Fault) o d r c' d') ->
  Frees (or_reset (append_fragment (View payload);; k)) c o None.
Proof.
  intros Hwf Hlen Hk h d. destruct (append_fragment_spec payload c h d Hwf) as (r & b & h' & E & Hb & [[-> Hc]|[-> Hc]] & Hok).
  - destruct (Hk b h' d Hb Hc) as (r & c' & d' & E2 & Ho). exists r, c', h', d'.
    assert (E3 : or_reset (append_fragment (View payload);; k) (c, h, d) = (r, ((c', h'), d'))).
    { unfold or_reset in *. by rewrite (bind_ok _ _ _ _ _ E). }
    split; [done|]. split; [by left|]. intros Hh. split; [done|by apply Hok].
  - exists (Err LIBRDP_STATUS_NO_MEMORY), idle_channel, h', d. split.
    { by rewrite (or_reset_err _ _ _ _ (bind_err _ _ _ _ _ E)). }
    split; [right; split; [done|split; [done|apply idle_represents]]|]. intros Hh. by destruct (Hok Hh Hlen).
Qed.

Lemma bind_dispatch {B} message (k : unit -> M rstate B) (c : rdp_server_static_channel) (h : heap) (d : D) :
  (on_snd (dispatch message) ≫= k) ((c, h), d) =
    match dispatch message d with
    | (Ok a, d') => k a ((c, h), d')
    | (Err e, d') => (Err e, ((c, h), d'))
    | (Fault, d') => (Fault, ((c, h), d'))
    end.
Proof. apply bind_on_snd. Qed.

Section branches.
Context (c : rdp_server_static_channel) (a : progress) (total : Z) (payload : list Z).
Hypothesis (Hrep : represents c a) (Hu : is_u32 total) (Hle : blen payload <= total).

Lemma guard_run (b : rdp_server_static_channel -> bool) h (d : D) :
  or_reset (c ← get_channel; require (b c) LIBRDP_STATUS_PROTOCOL_ERROR) ((c, h), d) =
    if b c then (Ok tt, ((c, h), d)) else (Err LIBRDP_STATUS_PROTOCOL_ERROR, ((idle_channel, h), d)).
Proof. unfold or_reset, get_channel. rewrite bind_gets. cbn [fst]. by destruct (b c). Qed.
Lemma server_single :
  Frees (or_reset (
      c ← get_channel;
      require (negb (fragmenting c || negb (blen payload =? total))) LIBRDP_STATUS_PROTOCOL_ERROR);;
    on_snd (dispatch payload)) c
    (match a with None => if blen payload =? total then Complete payload else Refused None | Some _ => Refused None end) None.
Proof.
  destruct Hrep as [Hwf Ha]. apply realizes_sure. intros h d.
  pose proof (guard_run (fun c => negb (fragmenting c || negb (blen payload =? total))) h d) as Hg. cbv beta in Hg.
  destruct (negb (fragmenting c || negb (blen payload =? total))) eqn:Eb.
  - apply negb_true_iff, orb_false_iff in Eb as [Ef Ep]. apply negb_false_iff in Ep.
    destruct a as [[expected got]|]; [destruct Ha; congruence|].
    destruct (dispatch payload d) as [r d'] eqn:Ed. exists r, c, d'.
    split; [refine (eq_trans (bind_ok _ _ _ _ _ Hg) _); unfold on_snd; cbn [fst snd]; by rewrite Ed|]. rewrite Ep. by split.
  - eexists _, _, _. split; [exact (bind_err _ _ _ _ _ Hg)|].
    replace (match a with None => _ | Some _ => _ end) with (Refused None); [apply realizes_idle_err|].
    apply negb_false_iff, orb_true_iff in Eb. destruct a as [[expected got]|]; [done|].
    destruct Eb as [Eb|Eb%negb_true_iff]; [congruence|by rewrite Eb].
Qed.

(** A test that fails in front of a body that resets the channel on errors. *)
Lemma realizes_refuse (b : rdp_server_static_channel -> bool) (k : rdp_server_static_channel -> M rstate unit) : b c = false ->
  Frees (or_reset (c ← get_channel; require (b c) LIBRDP_STATUS_PROTOCOL_ERROR;; k c)) c (Refused None) None.
Proof.
  intros E. apply realizes_sure. intros h d. eexists _, _, _. split; [|apply realizes_idle_err].
  apply (or_reset_err _ _ _ (c, h, d)). unfold get_channel. rewrite bind_gets. cbn [fst]. by rewrite bind_require, E.
Qed.
Lemma realizes_accept (b : rdp_server_static_channel -> bool) (k : rdp_server_static_channel -> M rstate unit) o : b c = true ->
  Frees (or_reset (k c)) c o None ->
  Frees (or_reset (c ← get_channel; require (b c) LIBRDP_STATUS_PROTOCOL_ERROR;; k c)) c o None.
Proof.
  intros E H h d. destruct (H h d) as (r & c' & h' & d' & E' & Ho). exists r, c', h', d'. split; [|done].
  unfold or_reset in *. unfold get_channel. rewrite bind_gets. cbn [fst]. by rewrite bind_require, E.
Qed.

Lemma server_first : 0 <= total <= RDP_SERVER_STATIC_MESSAGE_MAX ->
  Frees (or_reset (
      c ← get_channel;
      require (negb (fragmenting c || (total =? 0) || (blen payload =? 0) || (total <=? blen payload))) LIBRDP_STATUS_PROTOCOL_ERROR;;
      put_channel (mk_channel rdp_buffer_init (fragment_expected c) (fragmenting c));;
      append_fragment (View payload);;
      c ← get_channel;
      put_channel (mk_channel (fragment c) total true))) c
    (match a with
     | None => if (0 <? blen payload) && (blen payload <? total) then Waiting (Some (total, payload)) else Refused None
     | Some _ => Refused None
     end) None.
Proof.
  intros Ht. destruct Hrep as [Hwf Ha]. pose proof (blen_nonneg payload).
  set (guard := fun c => negb (fragmenting c || (total =? 0) || (blen payload =? 0) || (total <=? blen payload))).
  destruct (guard c) eqn:Eb; unfold guard in Eb.
  - apply negb_true_iff in Eb. rewrite !orb_false_iff, !Z.eqb_neq, Z.leb_gt in Eb.
    destruct a as [[expected got]|]; [destruct Ha; destruct_and!; congruence|].
    rewrite (proj2 (Z.ltb_lt 0 _)), (proj2 (Z.ltb_lt (blen payload) total)) by lia. cbn [andb].
    apply (realizes_accept guard (fun c => put_channel (mk_channel rdp_buffer_init (fragment_expected c) (fragmenting c));;
      append_fragment (View payload);; c ← get_channel; put_channel (mk_channel (fragment c) total true))).
    { unfold guard. apply negb_true_iff. rewrite !orb_false_iff, !Z.eqb_neq, Z.leb_gt. tauto. }
    set (c0 := mk_channel rdp_buffer_init (fragment_expected c) (fragmenting c)).
    assert (Hr : Frees (or_reset (append_fragment (View payload);; c ← get_channel; put_channel (mk_channel (fragment c) total true))) c0
      (Waiting (Some (total, payload))) None).
    { apply realizes_append; [apply buffer_init_wf|cbn [c0 fragment]; rewrite contents_init, blen_nil; unfold RDP_SERVER_STATIC_MESSAGE_MAX in Ht; lia|].
      intros b h d Hb Hc. eexists _, _, _. split; [reflexivity|]. split; [done|]. split; [done|]. split; [done|]. cbn [fst snd fragmenting fragment_expected fragment].
      rewrite Hc. cbn [c0 fragment]. rewrite contents_init. repeat (split; [done|]). lia. }
    intros h d. destruct (Hr h d) as (r & c' & h' & d' & E & Ho). exists r, c', h', d'. split; [exact E|done].
  - replace (match a with None => _ | Some _ => _ end) with (Refused None); [by apply (realizes_refuse guard)|].
    apply negb_false_iff in Eb. rewrite !orb_true_iff, !Z.eqb_eq, Z.leb_le in Eb.
    destruct a as [[expected got]|]; [done|]. rewrite Ha in Eb.
    destruct (Z.ltb_spec 0 (blen payload)), (Z.ltb_spec (blen payload) total); cbn [andb]; (done || lia).
Qed.

Lemma server_next flags : first_flag flags = false ->
  Frees (or_reset (
      c ← get_channel;
      require (negb (negb (fragmenting c) || negb (fragment_expected c =? total) || (blen payload =? 0) ||
                     (size_t (fragment_expected c - blen payload) <? b_length (fragment c)))) LIBRDP_STATUS_PROTOCOL_ERROR;;
      append_fragment (View payload);;
      c ← get_channel;
      if negb (last_flag flags) then
        require (negb (fragment_expected c <=? b_length (fragment c))) LIBRDP_STATUS_PROTOCOL_ERROR
      else
        require (b_length (fragment c) =? fragment_expected c) LIBRDP_STATUS_PROTOCOL_ERROR;;
        on_snd (dispatch (contents (fragment c)));;
        put_channel idle_channel)) c (server_recv a total flags payload) None.
Proof.
  intros Hf. destruct Hrep as [Hwf Ha]. pose proof (blen_nonneg payload). unfold server_recv. rewrite Hf. cbn [andb].
  set (guard := fun c => negb (negb (fragmenting c) || negb (fragment_expected c =? total) || (blen payload =? 0) ||
                     (size_t (fragment_expected c - blen payload) <? b_length (fragment c)))).
  destruct a as [[expected got]|].
  2: { apply (realizes_refuse guard). unfold guard. by rewrite Ha. }
  destruct Ha as (Ht & He & Hg & Hue & Hge). unfold is_u32 in *. pose proof (blen_contents (fragment c) Hwf) as Hlen. rewrite Hg in Hlen.
  destruct ((expected =? total) && (0 <? blen payload)) eqn:Eb.
  2: { apply (realizes_refuse guard). unfold guard. rewrite Ht, He. cbn [negb orb]. apply negb_false_iff.
    rewrite !orb_true_iff, negb_true_iff, Z.eqb_neq, Z.eqb_eq. rewrite andb_false_iff, Z.eqb_neq, Z.ltb_ge in Eb. lia. }
  apply andb_true_iff in Eb as [Eb1%Z.eqb_eq Eb2%Z.ltb_lt].
  assert (Hgc : guard c = negb (expected <? blen got + blen payload)).
  { unfold guard. rewrite Ht, He, Eb1, Z.eqb_refl, (proj2 (Z.eqb_neq (blen payload) 0)) by lia. cbn [negb orb]. f_equal.
    unfold size_t. rewrite Z.mod_small by lia. rewrite <- Hlen. rewrite <- Eb1.
    destruct (Z.ltb_spec (expected - blen payload) (blen got)), (Z.ltb_spec expected (blen got + blen payload)); lia. }
  rewrite blen_app. destruct (Z.ltb_spec expected (blen got + blen payload)) as [Hbig|Hfit]; cbn [negb] in Hgc.
  { replace (if last_flag flags then _ else _) with (Refused None); [by apply (realizes_refuse guard)|].
    rewrite (proj2 (Z.eqb_neq _ _)), (proj2 (Z.ltb_ge _ _)) by lia. by destruct (last_flag flags). }
  eapply (realizes_accept guard (fun _ => append_fragment (View payload);; _)); [done|].
  apply realizes_append; [done|rewrite Hg; unfold RDP_SERVER_STATIC_MESSAGE_MAX in *; lia|].
  intros b h d Hb Hc. rewrite Hg in Hc. pose proof (blen_contents b Hb) as Hbl. rewrite Hc, blen_app in Hbl.
  unfold or_reset, get_channel. rewrite bind_gets. cbn [fst fragment fragment_expected]. rewrite He, <- Hbl.
  destruct (last_flag flags); cbn [negb].
  - rewrite bind_require. destruct (Z.eqb_spec (blen got + blen payload) expected) as [Ee|Ee].
    + rewrite bind_dispatch, Hc. destruct (dispatch (got ++ payload) d) as [[[]|st|] d'] eqn:Ed.
      * eexists (Ok tt), idle_channel, d'. split; [done|]. split; [done|]. intros _. apply idle_represents.
      * eexists _, idle_channel, d'. split; [done|]. split; [done|]. intros _. apply idle_represents.
      * eexists _, _, d'. split; [reflexivity|]. by split.
    + eexists _, _, _. split; [|apply realizes_idle_err]. done.
  - destruct (Z.leb_spec expected (blen got + blen payload)), (Z.ltb_spec (blen got + blen payload) expected); try lia.
    + eexists _, _, _. split; [|apply realizes_idle_err]. done.
    + eexists _, _, _. split; [reflexivity|]. split; [done|]. split; [done|]. split; [done|]. cbn [fragment fragmenting fragment_expected].
      repeat (split; [done|]). rewrite blen_app. lia.
Qed.
End branches.

Lemma server_static_frees c a data : represents c a -> bytes data ->
  Frees (rdp_server_handle_static_channel_message dispatch (View data)) c (server_input a data) None.
Proof.
  intros [Hwf Ha] Hb. unfold rdp_server_handle_static_channel_message, server_input. cbn [view_null view_len andb negb].
  destruct (parse_packet_cases data Hb) as [E|(p & E & Hpl & Hu & Hple & Hd & Hpb & Hfull)].
  { rewrite E. apply realizes_sure. intros h d. eexists _, _, _. split; [|by apply realizes_idle_err]. done. }
  rewrite E. set (payload := vcp_payload p) in *. pose proof (blen_nonneg payload) as Hpn.
  destruct ((blen data =? 8 + blen payload) && (vcp_length p <=? RDP_SERVER_STATIC_MESSAGE_MAX)) eqn:Hwhole.
  2: { apply realizes_sure. intros h d. eexists _, _, _. split; [|by apply realizes_idle_err].
    rewrite bind_require, (bind_err _ _ _ LIBRDP_STATUS_PROTOCOL_ERROR ((idle_channel, h), d)); [done|]. apply (or_reset_err _ _ _ (c, h, d)).
    rewrite bind_lift. rewrite bind_require. rewrite andb_false_iff, Z.eqb_neq, Z.leb_gt in Hwhole.
    replace (negb _) with false; [done|]. symmetry. apply negb_false_iff. rewrite !orb_true_iff, negb_true_iff, Z.eqb_neq, !Z.ltb_lt.
    unfold size_t, is_u32 in *. rewrite (Z.mod_small (vcp_payload_len p + 8)) by lia. lia. }
  apply andb_true_iff in Hwhole as [Hw Hmax]. apply Z.eqb_eq in Hw. apply Z.leb_le in Hmax.
  assert (Hpre : forall s : rstate, or_reset (D := D) (packet ← lift (Ok p);
      require (negb ((size_t (blen data - 8) <? vcp_payload_len packet) || negb (size_t (vcp_payload_len packet + 8) =? blen data) ||
        (RDP_SERVER_STATIC_MESSAGE_MAX <? vcp_length packet))) LIBRDP_STATUS_PROTOCOL_ERROR;; mret packet) s = (Ok p, s)).
  { intros s. apply or_reset_ok. rewrite bind_lift, bind_require. replace (negb _) with true; [done|].
    symmetry. apply negb_true_iff. rewrite !orb_false_iff, negb_false_iff, Z.eqb_eq, !Z.ltb_ge.
    unfold size_t, is_u32 in *. rewrite !Z.mod_small by lia. lia. }
  eapply realizes_ext; [intros s; rewrite bind_require, (bind_ok _ _ _ _ _ (Hpre s)); reflexivity|]. cbv beta zeta. clear Hpre.
  rewrite flags_both, flag_first_land. unfold server_recv. fold payload.
  destruct (first_flag (vcp_flags p) && last_flag (vcp_flags p)) eqn:Hboth; [|destruct (first_flag (vcp_flags p)) eqn:Hfirst].
  - rewrite Hpl. by apply server_single.
  - rewrite Hpl. apply server_first; (done || (unfold is_u32 in *; lia)).
  - rewrite Hpl. rewrite flag_last_land.
    pose proof (server_next c a (vcp_length p) payload (conj Hwf Ha) ltac:(lia) (vcp_flags p) Hfirst) as H.
    unfold server_recv in H. rewrite Hfirst in H. apply H.
Qed.
Lemma server_static_step c a data : represents c a -> bytes data ->
  Realizes (rdp_server_handle_static_channel_message dispatch (View data)) c (server_input a data) None.
Proof. intros Hc Hd. by apply frees_realizes, server_static_frees. Qed.
End refinement.

(** ** The client *)

(** The outcome of a packet at the client, and the state that a failing
    allocation leaves. *)
Definition client_input (a : progress) (data : list Z) : received :=
  match rdp_virtual_channel_parse_packet (View data) with
  | Ok p => client_recv a (vcp_length p) (vcp_flags p) (vcp_payload p)
  | _ => Refused a
  end.
Definition client_started (a : progress) (data : list Z) : progress :=
  match rdp_virtual_channel_parse_packet (View data) with
  | Ok p => if first_flag (vcp_flags p) then Some (vcp_length p, []) else a
  | _ => a
  end.

Section client.
Context {D : Type} (dispatch : list Z -> M D unit).

(** The part after the channel is in the state of a message in progress. *)
Definition client_tail (p : rdp_virtual_channel_packet) : M (rstate (D := D)) unit :=
  c ← get_channel;
  require (negb ((fragment_expected c <? vcp_payload_len p) ||
                 (size_t (fragment_expected c - vcp_payload_len p) <? b_length (fragment c)))) LIBRDP_STATUS_PROTOCOL_ERROR;;
  coerce LIBRDP_STATUS_NO_MEMORY (append_fragment (View (vcp_payload p)));;
  if has_flag (vcp_flags p) RDP_VIRTUAL_CHANNEL_FLAG_LAST then
    c ← get_channel;
    require (b_length (fragment c) =? fragment_expected c) LIBRDP_STATUS_PROTOCOL_ERROR;;
    on_snd (dispatch (contents (fragment c)));;
    put_channel idle_channel
  else mret tt.

Lemma client_tail_step c expected got p : represents c (Some (expected, got)) -> vcp_payload_len p = blen (vcp_payload p) ->
  let payload := vcp_payload p in
  Realizes dispatch (client_tail p) c
    (if expected <? blen got + blen payload then Refused (Some (expected, got))
     else if last_flag (vcp_flags p) then if blen (got ++ payload) =? expected then Complete (got ++ payload)
                                          else Refused (Some (expected, got ++ payload))
     else Waiting (Some (expected, got ++ payload))) (Some (expected, got)).
Proof.
  intros Hrep Hpl payload. pose proof Hrep as [Hwf (Ht & He & Hg & Hu & Hge)]. unfold is_u32 in Hu.
  pose proof (blen_nonneg payload). pose proof (blen_contents (fragment c) Hwf) as Hlen. rewrite Hg in Hlen.
  unfold client_tail. rewrite Hpl. fold payload.
  intros h d. unfold get_channel. rewrite bind_gets. cbn [fst]. rewrite bind_require, He, <- Hlen.
  assert (Hguard : (expected <? blen payload) || (size_t (expected - blen payload) <? blen got) = (expected <? blen got + blen payload)).
  { pose proof (blen_nonneg got). destruct (Z.ltb_spec expected (blen payload)); cbn [orb].
    - symmetry. apply Z.ltb_lt. lia.
    - unfold size_t. rewrite Z.mod_small by lia.
      destruct (Z.ltb_spec (expected - blen payload) (blen got)), (Z.ltb_spec expected (blen got + blen payload)); lia. }
  rewrite Hguard. destruct (Z.ltb_spec expected (blen got + blen payload)) as [Hbig|Hfit]; cbn [negb].
  { eexists _, c, h, d. split; [done|]. split; [by left|]. by intros ->. }
  destruct (append_fragment_spec payload c h d Hwf) as (r & b & h' & E & Hb & [[-> Hc]|[-> Hc]] & Hok); rewrite Hg in Hc, Hok.
  2: { eexists _, _, h', d. split; [apply bind_err; unfold coerce; rewrite E; reflexivity|].
    split; [right; split; [done|]; split; [done|]; split; [done|]; cbn [fragment fragmenting fragment_expected]; repeat (split; [done|]); done|].
    intros Hh. destruct (Hok Hh); [lia|done]. }
  assert (E2 : coerce LIBRDP_STATUS_NO_MEMORY (append_fragment (View payload)) (c, h, d) =
    (Ok tt, (mk_channel b (fragment_expected c) (fragmenting c), h', d))) by (unfold coerce; by rewrite E).
  rewrite He in E2. rewrite (bind_ok _ _ _ _ _ E2). fold (last_flag (vcp_flags p)).
  pose proof (blen_contents b Hb) as Hbl. rewrite Hc in Hbl.
  assert (Hnew : represents (mk_channel b expected (fragmenting c)) (Some (expected, got ++ payload))).
  { split; [done|]. cbn [fragment fragmenting fragment_expected]. repeat (split; [done|]). rewrite blen_app. lia. }
  assert (Hh : h = [] -> h' = []) by (intros Hh; apply Hok; [done|lia]).
  destruct (last_flag (vcp_flags p)); [|eexists _, _, h', d; split; [reflexivity|]; split; [by left|]; intros Hx; split; [done|auto]].
  rewrite bind_gets. cbn [fst fragment fragment_expected]. rewrite bind_require, <- Hbl.
  destruct (Z.eqb_spec (blen (got ++ payload)) expected) as [Ee|Ee].
  2: { eexists _, _, h', d. split; [reflexivity|]. split; [by left|]. intros Hx. split; [done|auto]. }
  rewrite bind_dispatch, Hc. destruct (dispatch (got ++ payload) d) as [[[]|st|] d'] eqn:Ed;
    (eexists _, _, h', d'; split; [reflexivity|]; split; [left|intros Hx; split; [|by apply Hh]]; (split; [done|]; intros Hx'; (apply idle_represents || done))).
Qed.
End client.

Section client_steps.
Context {D : Type} (dispatch : list Z -> M D unit).

Lemma client_static_step limit c a data : represents c a -> bytes data ->
  (forall p, rdp_virtual_channel_parse_packet (View data) = Ok p -> vcp_length p <= limit) ->
  Realizes dispatch (client_static_data dispatch limit (View data)) c (client_input a data) (client_started a data).
Proof.
  intros Hrep Hb Hlimit. unfold client_static_data, client_input, client_started.
  destruct (parse_packet_cases data Hb) as [E|(p & E & Hpl & Hu & Hple & Hd & Hpb & Hfull)].
  { rewrite E. apply realizes_sure. intros h d. eexists _, _, _. split; [reflexivity|]. by split. }
  rewrite E. specialize (Hlimit p E). apply (realizes_ext _ _ (rdp_session_handle_static_channel dispatch limit p)); [done|].
  unfold rdp_session_handle_static_channel. rewrite flags_both. unfold client_recv.
  apply (realizes_ext _ _ (if first_flag (vcp_flags p) && last_flag (vcp_flags p)
    then put_channel idle_channel;; on_snd (dispatch (vcp_payload p))
    else c ← get_channel;
      (if first_flag (vcp_flags p) then put_channel (mk_channel rdp_buffer_init (vcp_length p) true)
       else require (fragmenting c) LIBRDP_STATUS_PROTOCOL_ERROR);;
      client_tail dispatch p)).
  { intros s. rewrite bind_require, (proj2 (Z.ltb_ge limit (vcp_length p))) by lia. done. }
  destruct (first_flag (vcp_flags p) && last_flag (vcp_flags p)).
  { apply realizes_sure. intros h d. destruct (dispatch (vcp_payload p) d) as [r d'] eqn:Ed. exists r, idle_channel, d'. split.
    - unfold put_channel. rewrite bind_modify. cbn [fst snd]. unfold on_snd. cbn [fst snd]. by rewrite Ed.
    - split; [done|]. intros _. apply idle_represents. }
  destruct (first_flag (vcp_flags p)).
  - set (c1 := mk_channel rdp_buffer_init (vcp_length p) true).
    assert (Hr1 : represents c1 (Some (vcp_length p, []))).
    { split; [apply buffer_init_wf|]. cbn [c1 fragment fragmenting fragment_expected]. rewrite contents_init.
      repeat (split; [done|]). unfold is_u32 in *. rewrite blen_nil. lia. }
    intros h d. exact (client_tail_step dispatch c1 _ [] p Hr1 Hpl h d).
  - destruct a as [[expected got]|].
    + intros h d. destruct (client_tail_step dispatch c expected got p Hrep Hpl h d) as (r & c' & h' & d' & E' & Ho).
      exists r, c', h', d'. split; [|exact Ho]. destruct Hrep as [_ [Ht _]].
      unfold get_channel. rewrite bind_gets. cbn [fst]. by rewrite Ht, bind_require.
    + apply realizes_sure. intros h d. destruct Hrep as [Hwf Hf]. eexists _, c, d. split; [|split; [done|split; [done|split; [done|exact Hf]]]].
      unfold get_channel. rewrite bind_gets. cbn [fst]. by rewrite Hf.
Qed.
End client_steps.

(** ** Delivery *)

(** The packets bring the automaton from [a] to the message with the last of them. *)
Fixpoint completes (input : progress -> list Z -> received) (a : progress) (packets : list (list Z)) (message : list Z) : Prop :=
  match packets with
  | [] => False
  | p :: packets =>
      match packets with
      | [] => input a p = Complete message
      | _ => exists a', input a p = Waiting a' /\ completes input a' packets message
      end
  end.

Lemma completes_cons input a p ps a' message : input a p = Waiting a' -> completes input a' ps message ->
  completes input a (p :: ps) message.
Proof. intros E H. destruct ps; [done|]. by exists a'. Qed.

Lemma bind_fault {S A B} (m : M S A) (k : A -> M S B) s s' : m s = (Fault, s') -> (m ≫= k) s = (Fault, s').
Proof. unfold mbind, M_bind. by intros ->. Qed.

Section delivery.
Context {D : Type} (dispatch : list Z -> M D unit).

Lemma feed_completes handle input failed packets message c a d :
  (forall c a p, p ∈ packets -> represents c a -> Realizes dispatch (handle (View p)) c (input a p) (failed a p)) ->
  represents c a -> completes input a packets message ->
  exists r c' d', feed handle packets ((c, []), d) = (r, ((c', []), d')) /\ dispatch message d = (r, d') /\
    (r = Ok tt -> represents c' None).
Proof.
  revert c a d. induction packets as [|p packets IH]; intros c a d Hh Hc Hm; [done|].
  destruct (Hh c a p ltac:(by left) Hc [] d) as (r & c' & h' & d' & E & _ & Hok). destruct (Hok eq_refl) as [Ho ->]. clear Hok.
  cbn [feed]. destruct packets as [|p2 packets].
  - cbn [completes] in Hm. rewrite Hm in Ho. destruct Ho as [Hd Hc']. exists r, c', d'. split; [|done].
    cbn [feed]. destruct r as [[]|st|]; [exact (bind_ok _ _ _ _ _ E)|exact (bind_err _ _ _ _ _ E)|].
    exact (bind_fault _ _ _ _ E).
  - destruct Hm as (a' & Ea & Hm). rewrite Ea in Ho. destruct Ho as (-> & -> & Hc'). 
    destruct (IH c' a' d) as (r & c2 & d2 & E2 & Ho); [|done|done|].
    { intros c2 a2 p' Hp'. apply Hh. by right. }
    exists r, c2, d2. split; [exact (eq_trans (bind_ok _ _ _ _ _ E) E2)|exact Ho].
Qed.
End delivery.

(** A connection that keeps the packets. *)
Definition log_send (p : list Z) : M (list (list Z)) unit := modify (fun log => log ++ [p]).

Section sending.
Context (overhead : Z) (Hoverhead : 0 <= overhead <= 0x7fff - 1608).

(** A fragment reaches the connection, whatever that does with it. *)
Lemma send_fragment_run {N} (send : list Z -> M N unit) v part total flags n : view_bytes v = part -> view_len v = blen part ->
  fragment_ok part total flags -> blen part <= RDP_SERVER_STATIC_CHANNEL_CHUNK_SIZE ->
  rdp_server_send_static_channel_fragment send overhead v total flags ([], n) =
    ((send (fragment_enc part total flags) n).1, ([], (send (fragment_enc part total flags) n).2)).
Proof.
  intros Hv Hvl Hok Hl. unfold RDP_SERVER_STATIC_CHANNEL_CHUNK_SIZE in Hl. unfold rdp_server_send_static_channel_fragment.
  pose proof (blen_nonneg part) as Hn.
  rewrite bind_require. replace (negb _) with true by (destruct v; cbn [view_null view_bytes view_len] in *; [subst part; cbn in *|]; guard_lia).
  destruct (fragment_written v part total flags Hv Hvl Hok rdp_buffer_init [] buffer_init_wf)
    as (r & b & h' & E & Hb & Hr & Hh).
  assert (Hlen : blen (fragment_enc part total flags) = 8 + blen part).
  { unfold fragment_enc. rewrite !blen_app. change (blen (le32 total)) with 4. change (blen (le32 flags)) with 4. lia. }
  destruct (Hh eq_refl) as [Hr' ->]; [rewrite Hlen; cbn [rdp_buffer_init b_length]; lia|].
  destruct Hr as [(u & -> & _ & Hc)|[-> _]]; [|done]. rewrite contents_init in Hc. cbn [app] in Hc.
  pose proof (blen_contents b Hb) as Hbl. rewrite Hc, Hlen in Hbl.
  assert (E2 : written (rdp_virtual_channel_write_fragment v total flags) ([], n) = (Ok b, ([], n))).
  { unfold written. by rewrite E. }
  rewrite (bind_ok _ _ _ _ _ E2), bind_require, <- Hbl.
  rewrite (proj2 (Z.ltb_ge _ _)) by lia. cbn [orb].
  unfold size_t. rewrite Z.mod_small by lia. rewrite (proj2 (Z.ltb_ge _ _)) by lia. cbn [negb]. rewrite Hc.
  unfold on_snd. cbn [fst snd]. by destruct (send _ n).
Qed.
Lemma send_fragment_spec part total flags log : fragment_ok part total flags ->
  blen part <= RDP_SERVER_STATIC_CHANNEL_CHUNK_SIZE ->
  rdp_server_send_static_channel_fragment log_send overhead (View part) total flags ([], log) =
    (Ok tt, ([], log ++ [fragment_enc part total flags])).
Proof. intros Hok Hl. by rewrite (send_fragment_run log_send (View part) part). Qed.

(** The state of both automata in front of the byte at [offset]. *)
Definition sent (l : list Z) (offset : Z) : progress := if offset =? 0 then None else Some (blen l, ztake offset l).

(** A chunk at the automata. *)
Lemma chunk_received (l : list Z) offset chunk flags : 0 <= offset -> offset + chunk <= blen l ->
  0 < chunk \/ (offset = 0 /\ chunk = 0 /\ l = []) ->
  first_flag flags = (offset =? 0) -> last_flag flags = (offset + chunk =? blen l) ->
  let o := if offset + chunk =? blen l then Complete l else Waiting (sent l (offset + chunk)) in
  server_recv (sent l offset) (blen l) flags (ztake chunk (zdrop offset l)) = o /\
  client_recv (sent l offset) (blen l) flags (ztake chunk (zdrop offset l)) = o.
Proof.
  intros H0 Hfit Hc Hfirst Hlast o. assert (Hc0 : 0 <= chunk) by lia.
  assert (Hc1 : offset + chunk <> blen l \/ offset <> 0 -> 0 < chunk).
  { destruct Hc as [|(-> & -> & ->)]; [done|]. change (blen (@nil Z)) with 0. lia. }
  set (part := ztake chunk (zdrop offset l)).
  assert (Hpart : blen part = chunk) by (unfold part; rewrite blen_ztake; [done|rewrite blen_zdrop; lia]).
  assert (Hgot : ztake offset l ++ part = ztake (offset + chunk) l) by (symmetry; by apply ztake_snoc_slice).
  assert (Hgl : blen (ztake (offset + chunk) l) = offset + chunk) by (apply blen_ztake; lia).
  unfold server_recv, client_recv. rewrite Hfirst, Hlast. subst o. unfold sent.
  destruct (Z.eqb_spec offset 0) as [->|Hne]; cbn [andb].
  - change (ztake 0 l) with (@nil Z) in Hgot. cbn [app] in Hgot. rewrite Z.add_0_l in *. rewrite Hgot, Hgl.
    destruct (Z.eqb_spec chunk (blen l)) as [E|E].
    + rewrite E, ztake_all by lia. done.
    + rewrite (proj2 (Z.eqb_neq chunk 0)), (proj2 (Z.ltb_lt 0 chunk)), (proj2 (Z.ltb_lt chunk (blen l))) by lia. split; [done|].
      rewrite app_nil_l. change (blen (@nil Z)) with 0. by rewrite (proj2 (Z.ltb_ge _ _)) by lia.
  - rewrite Hgot, Hgl, Hpart, Z.eqb_refl. rewrite (proj2 (Z.ltb_lt 0 chunk)), (proj2 (Z.eqb_neq (offset + chunk) 0)) by lia.
    cbn [andb]. rewrite blen_ztake by lia. rewrite (proj2 (Z.ltb_ge (blen l) (offset + chunk))) by lia.
    destruct (Z.eqb_spec (offset + chunk) (blen l)) as [E|E].
    + by rewrite E, ztake_all by lia.
    + by rewrite (proj2 (Z.ltb_lt _ _)) by lia.
Qed.

Lemma send_loop_completes fuel l offset log :
  bytes l -> blen l <= RDP_SERVER_STATIC_MESSAGE_MAX -> 0 <= offset -> (offset < blen l \/ (offset = 0 /\ l = [])) ->
  (length l - Z.to_nat offset < fuel)%nat ->
  exists packets, send_loop log_send overhead fuel (View l) offset ([], log) = (Ok tt, ([], log ++ packets)) /\
    Forall bytes packets /\
    (forall p q, p ∈ packets -> rdp_virtual_channel_parse_packet (View p) = Ok q -> vcp_length q = blen l) /\
    completes server_input (sent l offset) packets l /\ completes client_input (sent l offset) packets l.
Proof.
  intros Hb Hmax. revert offset log. induction fuel as [|fuel IH]; intros offset log H0 Hoff Hf; [lia|].
  cbn [send_loop view_len]. set (rest := blen l - offset).
  set (chunk := if RDP_SERVER_STATIC_CHANNEL_CHUNK_SIZE <? rest then RDP_SERVER_STATIC_CHANNEL_CHUNK_SIZE else rest). cbv zeta.
  pose proof (blen_nonneg l). unfold RDP_SERVER_STATIC_CHANNEL_CHUNK_SIZE in chunk.
  assert (Hchunk : 0 <= chunk <= 1600 /\ offset + chunk <= blen l /\ (offset + chunk = blen l \/ 0 < chunk) /\ (offset < blen l -> 0 < chunk)).
  { unfold chunk, rest. destruct (Z.ltb_spec 1600 (blen l - offset)); destruct Hoff as [|[-> ->]]; assert (blen (@nil Z) = 0) by done; lia. }
  destruct Hchunk as (Hc & Hfit & Hprog & Hpos).
  set (flags := if offset + chunk =? blen l then _ else _). set (part := ztake chunk (zdrop offset l)).
  assert (Hpart : blen part = chunk) by (unfold part; rewrite blen_ztake; [done|rewrite blen_zdrop; lia]).
  assert (Hslice : chunk_view (View l) offset chunk = Ok (View part)).
  { cbn [chunk_view]. unfold slice. by rewrite !(proj2 (Z.leb_le _ _)) by lia. }
  assert (Hpb : bytes part) by (by apply Forall_ztake, Forall_zdrop).
  assert (Hflags : first_flag flags = (offset =? 0) /\ last_flag flags = (offset + chunk =? blen l) /\ is_u32 flags).
  { unfold flags. destruct (offset + chunk =? blen l), (offset =? 0); done. }
  destruct Hflags as (Hfirst & Hlast & Hfu).
  assert (Hfok : fragment_ok part (blen l) flags).
  { unfold RDP_SERVER_STATIC_MESSAGE_MAX in Hmax. split; [unfold UINT32_MAX; lia|]. intros E. apply Z.eqb_eq in E.
    rewrite flags_both, Hfirst, Hlast in E. apply andb_true_iff in E as [E1%Z.eqb_eq E2%Z.eqb_eq]. lia. }
  rewrite bind_lift, Hslice. pose proof (send_fragment_spec part (blen l) flags log Hfok) as Es.
  set (packet := fragment_enc part (blen l) flags) in *.
  pose proof (fragment_parsed part (blen l) flags Hpb Hfu Hfok) as Ep. fold packet in Ep.
  assert (Hpkb : bytes packet) by (unfold packet, fragment_enc; solve_bytes).
  assert (Hpl : blen packet = 8 + chunk).
  { unfold packet, fragment_enc. rewrite !blen_app. change (blen (le32 (blen l))) with 4. change (blen (le32 flags)) with 4. lia. }
  destruct (chunk_received l offset chunk flags H0 Hfit) as [Hs Hcl]; [|done|done|].
  { destruct Hoff as [|[Ho Hl]]; [left; lia|right]. split; [done|]. split; [|done].
    apply (f_equal blen) in Hl. change (blen (@nil Z)) with 0 in Hl. lia. }
  fold part in Hs, Hcl.
  assert (Hsi : server_input (sent l offset) packet = if offset + chunk =? blen l then Complete l else Waiting (sent l (offset + chunk))).
  { unfold server_input. rewrite Ep. cbn [vcp_payload vcp_length vcp_flags]. rewrite Hpl, Hpart, Z.eqb_refl, (proj2 (Z.leb_le _ _)) by lia. exact Hs. }
  assert (Hci : client_input (sent l offset) packet = if offset + chunk =? blen l then Complete l else Waiting (sent l (offset + chunk))).
  { unfold client_input. rewrite Ep. exact Hcl. }
  specialize (Es ltac:(unfold RDP_SERVER_STATIC_CHANNEL_CHUNK_SIZE; lia)). rewrite (bind_ok _ _ _ _ _ Es).
  destruct (Z.eqb_spec (offset + chunk) (blen l)) as [Elast|Emore].
  - rewrite (proj2 (Z.ltb_ge _ _)) by lia. exists [packet]. split; [done|]. split; [by apply Forall_singleton|].
    split; [|done]. intros p q Hp%list_elem_of_singleton Hq. subst p. rewrite Ep in Hq. by injection Hq as <-.
  - rewrite (proj2 (Z.ltb_lt _ _)) by lia.
    destruct (IH (offset + chunk) (log ++ [packet])) as (packets & E & Hbs & Hq & Hcs & Hcc); [lia|lia|unfold blen in *; lia|].
    exists (packet :: packets). rewrite <- app_assoc in E. split; [exact E|]. split; [by apply Forall_cons_2|]. split.
    + intros p q [->|Hp]%elem_of_cons Hp2; [rewrite Ep in Hp2; by injection Hp2 as <-|by apply (Hq p q)].
    + split; by eapply completes_cons.
Qed.
End sending.

(** ** Properties *)

(** C6: the server's receiver is an automaton over packets: whatever bytes
    arrive, a packet that does not parse, is cut short or does not fit the
    message in progress is refused and leaves the channel free, a fragment that
    does is kept, and the last one dispatches the message put together, exactly
    once, answers the status of the dispatch, and leaves the channel free
    whatever that status is; an allocation that fails frees the channel too, and
    dispatches nothing. *)
Theorem server_static_refines {D} (dispatch : list Z -> M D unit) c a data :
  represents c a -> bytes data ->
  Frees dispatch (rdp_server_handle_static_channel_message dispatch (View data)) c (server_input a data) None.
Proof. apply server_static_frees. Qed.

(** C7: the client's receiver is an automaton over packets as well, within the
    limit of the session: it keeps fragments while they fit the total length of
    the first one, dispatches the message when the last one fills it, and, unlike
    the server, keeps what it has when it refuses a packet.  A packet above the
    limit is refused and nothing changes. *)
Theorem client_static_refines {D} (dispatch : list Z -> M D unit) limit c a data :
  represents c a -> bytes data ->
  match rdp_virtual_channel_parse_packet (View data) with
  | Ok p =>
      if limit <? vcp_length p
      then forall h d, client_static_data dispatch limit (View data) ((c, h), d) = (Err LIBRDP_STATUS_LIMIT_EXCEEDED, ((c, h), d))
      else Realizes dispatch (client_static_data dispatch limit (View data)) c (client_input a data) (client_started a data)
  | _ => Realizes dispatch (client_static_data dispatch limit (View data)) c (Refused a) a
  end.
Proof.
  intros Hrep Hb. pose proof (client_static_step dispatch limit c a data Hrep Hb) as H. unfold client_started, client_input in *. destruct (rdp_virtual_channel_parse_packet (View data)) as [p|st|] eqn:E.
  - destruct (Z.ltb_spec limit (vcp_length p)) as [Hl|Hl].
    + intros h d. unfold client_static_data. rewrite bind_lift, E. unfold rdp_session_handle_static_channel.
      by rewrite bind_require, (proj2 (Z.ltb_lt _ _)).
    + apply H. by intros q [= <-].
  - by apply H.
  - by apply H.
Qed.

(** C3: a message is delivered: whatever the server sends on a channel, at most 64
    MiB, is cut into packets; the client, given them in order on a free channel,
    and the server's own receiver as well, hand exactly that message to their
    dispatch, once, after the last packet, and are free again if it succeeds. *)
Theorem static_channel_delivers overhead message log :
  0 <= overhead <= 0x7fff - 1608 -> bytes message -> blen message <= RDP_SERVER_STATIC_MESSAGE_MAX ->
  exists packets,
    librdp_server_peer_send_channel_data log_send overhead true true (View message) ([], log) = (Ok tt, ([], log ++ packets)) /\
    forall D (dispatch : list Z -> M D unit) limit c d, represents c None -> blen message <= limit ->
      (exists r c' d', feed (client_static_data dispatch limit) packets ((c, []), d) = (r, ((c', []), d')) /\
         dispatch message d = (r, d') /\ (r = Ok tt -> represents c' None)) /\
      (exists r c' d', feed (rdp_server_handle_static_channel_message dispatch) packets ((c, []), d) = (r, ((c', []), d')) /\
         dispatch message d = (r, d') /\ (r = Ok tt -> represents c' None)).
Proof.
  intros Ho Hb Hmax. pose proof (blen_nonneg message).
  destruct (send_loop_completes overhead Ho (S (length message)) message 0 log Hb Hmax) as (packets & E & Hbs & Hlen & Hs & Hc);
    [lia|destruct message; [by right|left; rewrite blen_cons in *; pose proof (blen_nonneg message); lia]|lia|].
  exists packets. split.
  { unfold librdp_server_peer_send_channel_data. cbn [view_null view_len view_bytes andb negb].
    rewrite !bind_require. rewrite (proj2 (Z.ltb_ge _ _)) by lia. exact E. }
  intros D dispatch limit c d Hfree Hlimit. split.
  - apply (feed_completes dispatch _ client_input client_started packets message c None d); [|done|done].
    intros c2 a2 p Hp Hr. apply client_static_step; [done|by apply (list.Forall_forall bytes packets)|].
    intros q Hq. by rewrite (Hlen p q Hp Hq).
  - apply (feed_completes dispatch _ server_input (fun _ _ => None) packets message c None d); [|done|done].
    intros c2 a2 p Hp Hr. apply server_static_step; [done|]. by apply (list.Forall_forall bytes packets).
Qed.

(** A dispatch that keeps the messages. *)
Definition log_message (message : list Z) : M (list (list Z)) unit := log_send message.

(** The comment before [rdp_session_handle_static_channel] says that a malformed
    fragment discards the partial buffer: here one does not, and the message it
    interrupts is completed by the next packet. *)
Lemma client_fragment_kept :
  let first := View (fragment_enc [1; 2] 3 1) in
  let bad := View (fragment_enc [7; 7; 7; 7] 4 0) in
  let last_ := View (fragment_enc [3] 3 2) in
  let '(r1, s1) := client_static_data log_message 100 first ((idle_channel, []), []) in
  let '(r2, s2) := client_static_data log_message 100 bad s1 in
  let '(r3, s3) := client_static_data log_message 100 last_ s2 in
  r1 = Ok tt /\ r2 = Err LIBRDP_STATUS_PROTOCOL_ERROR /\ r3 = Ok tt /\ s3.2 = [[1; 2; 3]].
Proof. vm_compute. done. Qed.

(** A dispatch that fails. *)
Definition refuse_message (message : list Z) : M (list (list Z)) unit := log_message message;; fail LIBRDP_STATUS_STATE.
Lemma server_static_refines_witness :
  Frees refuse_message (rdp_server_handle_static_channel_message refuse_message (View (fragment_enc [1; 2] 2 3)))
    idle_channel (Complete [1; 2]) None.
Proof. apply (server_static_refines refuse_message idle_channel None (fragment_enc [1; 2] 2 3)); [apply idle_represents|by_evaluation]. Defined.

Lemma client_static_refines_witness :
  Realizes log_message (client_static_data log_message 100 (View (fragment_enc [1; 2] 3 1)))
    idle_channel (Waiting (Some (3, [1; 2]))) (Some (3, [])).
Proof. apply (client_static_refines log_message 100 idle_channel None (fragment_enc [1; 2] 3 1)); [apply idle_represents|by_evaluation]. Defined.

Lemma static_channel_delivers_witness :
  exists packets d', feed (client_static_data log_message 100) packets ((idle_channel, []), []) = (Ok tt, ((idle_channel, []), d')) /\
    d' = [[5; 6; 7]].
Proof.
  destruct (static_channel_delivers 0 [5; 6; 7] []) as (packets & E & H); [lia|by_evaluation|by vm_compute|].
  assert (Ep : packets = [fragment_enc [5; 6; 7] 3 3]) by (vm_compute in E; by injection E).
  destruct (H _ log_message 100 idle_channel []) as [(r & c' & d' & E1 & Ed & Hc) _]; [apply idle_represents|by vm_compute|].
  injection Ed as <- <-. exists packets, [[5; 6; 7]]. split; [|done]. subst packets. by vm_compute.
Defined.
