(* ===== verification/ServerDvc.v ===== *)
(** * ServerDvc: the dynamic channels of a server peer

    Models the table of dynamic channels in [src/src/server/server_channels.c]:
    opening by the server and by the client, cancelled and late responses,
    fragmentation and reassembly, closing by either end, soft-sync, reset.  The
    channels live in 64 slots with flags; [table_of] reads them as a finite map
    from channel numbers to phases, and the operations are proved to be those of
    that map.  Everything the code tells its surroundings goes through the class
    [DvcHost]. *)

From stdpp Require Import gmap.
From S2P Require Import Prelude Stream Buffer VirtualChannel DynamicChannel Reassembly.

Definition RDP_SERVER_MAX_DYNAMIC_CHANNELS : Z := 64.
Definition RDP_SERVER_DYNAMIC_CHANNEL_NAME_CAPACITY : Z := 64.
Definition RDP_SERVER_DYNAMIC_MESSAGE_MAX : Z := 64 * 1024 * 1024.
Definition RDP_DYNAMIC_CHANNEL_SINGLE_MESSAGE_LIMIT : Z := 1590.
Definition RDP_DYNAMIC_CHANNEL_STATUS_OK : Z := 0.
Definition RDP_DYNAMIC_CHANNEL_STATUS_NOT_SUPPORTED : Z := 0xc00000bb.
Definition RDP_GCC_MULTITRANSPORT_UDP_FECR : Z := 1.
Definition RDP_GCC_MULTITRANSPORT_UDP_FECL : Z := 4.
Definition LIBRDP_FEATURE_UDP_TRANSPORT : Z := 0x8000.

(** A slot; [sd_name] is the string, without its terminator. *)
Record rdp_server_dynamic_channel := mk_slot {
  sd_channel_id : Z;
  sd_channel_id_bytes : Z;
  sd_priority : Z;
  sd_open : bool;
  sd_pending_open : bool;
  sd_closing : bool;
  sd_cancelled_open : bool;
  sd_name : list Z;
  sd_fragment : rdp_buffer;
  sd_fragment_expected : Z;
}.

(** [memset(channel, 0, sizeof( *channel))]. *)
Definition zero_slot : rdp_server_dynamic_channel := mk_slot 0 0 0 false false false false [] rdp_buffer_init 0.

(** The fields of the peer beside the slots and their count.
    [static_channel_id] is what [rdp_server_dynamic_static_channel_id] gives. *)
Record dvc_control := mk_control {
  active : bool;                               (** [state == LIBRDP_SERVER_PEER_ACTIVE] *)
  static_channel_id : Z;
  static_joined : bool;
  dynamic_channels_ready : bool;
  dynamic_channel_capabilities_sent : bool;
  dynamic_channel_version : Z;
  multitransport_negotiated : bool;
  multitransport_flags : Z;
  requested_features : Z;
  multitransport_udp_selected : bool * bool;   (** lossy, reliable *)
}.
Record dvc_peer := mk_peer {
  dynamic_channels : list rdp_server_dynamic_channel;
  dynamic_channel_count : Z;
  control : dvc_control;
}.

Definition set_ready (version : Z) (c : dvc_control) : dvc_control :=
  mk_control (active c) (static_channel_id c) (static_joined c) true (dynamic_channel_capabilities_sent c) version
    (multitransport_negotiated c) (multitransport_flags c) (requested_features c) (multitransport_udp_selected c).
Definition set_sent (c : dvc_control) : dvc_control :=
  mk_control (active c) (static_channel_id c) (static_joined c) (dynamic_channels_ready c) true (dynamic_channel_version c)
    (multitransport_negotiated c) (multitransport_flags c) (requested_features c) (multitransport_udp_selected c).
Definition set_selected (s : bool * bool) (c : dvc_control) : dvc_control :=
  mk_control (active c) (static_channel_id c) (static_joined c) (dynamic_channels_ready c) (dynamic_channel_capabilities_sent c)
    (dynamic_channel_version c) (multitransport_negotiated c) (multitransport_flags c) (requested_features c) s.
(** What [rdp_server_dynamic_channels_reset] and [rdp_server_multitransport_reset] leave. *)
Definition reset_control (c : dvc_control) : dvc_control :=
  mk_control (active c) 0 (static_joined c) false false 0 false 0 (requested_features c) (false, false).

(** ** The surroundings *)

(** What the surroundings learn of a channel. *)
Record dvc_identity := mk_identity { di_channel_id : Z; di_priority : Z; di_name : list Z }.
Definition identity (c : rdp_server_dynamic_channel) : dvc_identity :=
  mk_identity (sd_channel_id c) (sd_priority c) (sd_name c).

(** The changes of the extension states, the metrics and the events for the
    application. *)
Inductive dvc_event :=
| DVC_PENDING (c : dvc_identity)            (** [rdp_server_extension_state_mark_pending_open] *)
| DVC_OPEN (c : dvc_identity)               (** [..._mark_open], then the event DYNAMIC_OPEN *)
| DVC_REJECTED (c : dvc_identity)           (** [..._mark_close] *)
| DVC_CLOSE (c : dvc_identity)              (** [..._mark_close], then the event DYNAMIC_CLOSE *)
| DVC_TX (c : dvc_identity) (len : Z).      (** the metrics of a message sent *)

(** The rest of the peer, of state [D]: the connection under the static channel,
    the decision about a channel the client asks for
    ([rdp_server_dynamic_provider_ready] and the accept callback), the receiver
    of complete messages ([rdp_server_dynamic_emit_reassembled]) and of the
    events above, and the extension a name belongs to. *)
Class DvcHost (D : Type) := {
  host_send : list Z -> M D unit;
  host_overhead : Z;
  host_accept : dvc_identity -> M D bool;
  host_deliver : dvc_identity -> list Z -> M D unit;
  host_notify : dvc_event -> D -> D;
  host_family : list Z -> Z;
}.

(** ** Slots *)

Definition sd_used (c : rdp_server_dynamic_channel) : bool := sd_open c || sd_pending_open c || sd_closing c.

(** The first slot that satisfies a condition. *)
Definition find_slot (f : rdp_server_dynamic_channel -> bool) (peer : dvc_peer) : option (nat * rdp_server_dynamic_channel) :=
  list_find (fun c => f c = true) (dynamic_channels peer).

Definition rdp_server_find_dynamic_channel (peer : dvc_peer) (channel_id : Z) : option (nat * rdp_server_dynamic_channel) :=
  find_slot (fun c => sd_open c && (sd_channel_id c =? channel_id)) peer.
Definition rdp_server_find_dynamic_channel_any (peer : dvc_peer) (channel_id : Z) : option (nat * rdp_server_dynamic_channel) :=
  find_slot (fun c => sd_used c && (sd_channel_id c =? channel_id)) peer.
Definition rdp_server_find_pending_dynamic_channel (peer : dvc_peer) (channel_id : Z) : option (nat * rdp_server_dynamic_channel) :=
  match rdp_server_find_dynamic_channel_any peer channel_id with
  | Some (i, c) => if sd_pending_open c then Some (i, c) else None
  | None => None
  end.
Definition rdp_server_allocate_dynamic_channel (peer : dvc_peer) : option (nat * rdp_server_dynamic_channel) :=
  find_slot (fun c => negb (sd_used c)) peer.

(** [length] characters are in front of the rest. *)
Fixpoint name_valid_loop (name : list Z) (length : Z) : option Z :=
  match name with
  | [] => Some length
  | ch :: name =>
      if (RDP_SERVER_DYNAMIC_CHANNEL_NAME_CAPACITY - 1 <=? length) || (ch <? 0x21) || (0x7e <? ch) then None
      else name_valid_loop name (length + 1)
  end.
(** A C string or NULL. *)
Definition rdp_server_dynamic_channel_name_valid (name : option (list Z)) : bool :=
  match name with
  | None => false
  | Some name => match name_valid_loop name 0 with Some length => negb (length =? 0) | None => false end
  end.

Definition librdp_server_peer_dynamic_channel_count (peer : dvc_peer) : Z := dynamic_channel_count peer.

Fixpoint channel_at_loop (slots : list rdp_server_dynamic_channel) (index seen : Z) : option dvc_identity :=
  match slots with
  | [] => None
  | c :: slots =>
      if negb (sd_open c) then channel_at_loop slots index seen
      else if seen =? index then Some (identity c)
      else channel_at_loop slots index (seen + 1)
  end.
Definition librdp_server_peer_dynamic_channel_at (peer : dvc_peer) (index : Z) : res dvc_identity :=
  match channel_at_loop (dynamic_channels peer) index 0 with
  | Some info => Ok info
  | None => Err LIBRDP_STATUS_INVALID_ARGUMENT
  end.

Definition slot_with (open pending_open closing cancelled_open : bool) (c : rdp_server_dynamic_channel) : rdp_server_dynamic_channel :=
  mk_slot (sd_channel_id c) (sd_channel_id_bytes c) (sd_priority c) open pending_open closing cancelled_open (sd_name c)
    (sd_fragment c) (sd_fragment_expected c).
Definition set_fragment (b : rdp_buffer) (expected : Z) (c : rdp_server_dynamic_channel) : rdp_server_dynamic_channel :=
  mk_slot (sd_channel_id c) (sd_channel_id_bytes c) (sd_priority c) (sd_open c) (sd_pending_open c) (sd_closing c)
    (sd_cancelled_open c) (sd_name c) b expected.

Definition set_slot (i : nat) (c : rdp_server_dynamic_channel) (peer : dvc_peer) : dvc_peer :=
  mk_peer (<[i := c]> (dynamic_channels peer)) (dynamic_channel_count peer) (control peer).
Definition set_count (n : Z) (peer : dvc_peer) : dvc_peer := mk_peer (dynamic_channels peer) n (control peer).
Definition set_control (c : dvc_control) (peer : dvc_peer) : dvc_peer := mk_peer (dynamic_channels peer) (dynamic_channel_count peer) c.

(** ** The surroundings as computations *)

Section surroundings.
Context {D : Type} `{!DvcHost D} {P : Type}.

(** Some channels [P], the heap, the surroundings. *)
Definition on_channels (f : P -> P) : M (P * (heap * D)) unit := modify (fun s => (f s.1, s.2)).
Definition host {A} (m : M D A) : M (P * (heap * D)) A := on_snd (on_snd m).
Definition notify (e : dvc_event) : M (P * (heap * D)) unit := host (modify (host_notify e)).
Definition opt_require {A} (o : option A) (st : librdp_status) : M (P * (heap * D)) A :=
  match o with Some a => mret a | None => fail st end.

(** A call whose status is looked at later, and one whose status is not. *)
Definition attempt {A} (m : M (P * (heap * D)) A) : M (P * (heap * D)) (res A) := fun s =>
  match m s with (Fault, s) => (Fault, s) | (r, s) => (Ok r, s) end.
Definition ignore {A} (m : M (P * (heap * D)) A) : M (P * (heap * D)) unit := attempt m;; mret tt.

(** A packet buffer of the function, new, and used again from its start. *)
Definition packet (w : writer unit) : M (P * (heap * D)) rdp_buffer := on_snd (written w).
Definition packet_again (b : rdp_buffer) (w : writer unit) : M (P * (heap * D)) rdp_buffer := on_snd (fun '(h, d) =>
  let '(r, (b, h)) := w (set_length 0 b, h) in
  match r with
  | Ok _ => (Ok b, (h, d))
  | Err st => (Err st, (h, d))
  | Fault => (Fault, (h, d))
  end).

(** [c] is the peer the packet is sent to. *)
Definition rdp_server_send_dynamic_packet (c : dvc_control) (b : rdp_buffer) : M (P * (heap * D)) unit :=
  require (negb (static_channel_id c =? 0)) LIBRDP_STATUS_INVALID_ARGUMENT;;
  on_snd (librdp_server_peer_send_channel_data host_send host_overhead (active c) (static_joined c) (buffer_view b)).

(** The loop over the data after the first packet: the packet is used again. *)
Fixpoint send_data_loop (fuel : nat) (c : dvc_control) (channel_id channel_id_bytes priority : Z) (data : list Z) (data_capacity : Z)
    (b : rdp_buffer) (offset : Z) : M (P * (heap * D)) unit :=
  match fuel with
  | O => lift Fault
  | S fuel =>
      if offset <? blen data then
        let chunk := if blen data - offset <? data_capacity then blen data - offset else data_capacity in
        part ← lift (slice data offset chunk);
        b ← packet_again b (rdp_dynamic_channel_write_data_ex channel_id channel_id_bytes priority (View part));
        rdp_server_send_dynamic_packet c b;;
        send_data_loop fuel c channel_id channel_id_bytes priority data data_capacity b (offset + chunk)
      else mret tt
  end.

(** A message in one packet, or in a first packet and more. *)
Definition send_message (c : dvc_control) (channel_id channel_id_bytes priority : Z) (data : view) : M (P * (heap * D)) unit :=
  if view_len data <=? RDP_DYNAMIC_CHANNEL_SINGLE_MESSAGE_LIMIT then
    b ← packet (rdp_dynamic_channel_write_data_ex channel_id channel_id_bytes priority data);
    rdp_server_send_dynamic_packet c b
  else
    let first_capacity :=
      size_t (RDP_DYNAMIC_CHANNEL_MAX_PDU_SIZE - rdp_dynamic_channel_data_first_pdu_header_size channel_id_bytes (u32 (view_len data))) in
    let data_capacity := size_t (RDP_DYNAMIC_CHANNEL_MAX_PDU_SIZE - rdp_dynamic_channel_data_pdu_header_size channel_id_bytes) in
    let chunk := if view_len data <? first_capacity then view_len data else first_capacity in
    require (negb ((first_capacity =? 0) || (data_capacity =? 0) || (UINT32_MAX <? view_len data))) LIBRDP_STATUS_LIMIT_EXCEEDED;;
    part ← lift (slice (view_bytes data) 0 chunk);
    b ← packet (rdp_dynamic_channel_write_data_first_ex channel_id channel_id_bytes priority (u32 (view_len data)) (View part));
    rdp_server_send_dynamic_packet c b;;
    send_data_loop (S (length (view_bytes data))) c channel_id channel_id_bytes priority (view_bytes data) data_capacity b chunk.
End surroundings.

(** ** The operations *)

Section operations.
Context {D : Type} `{!DvcHost D}.

Definition dstate : Type := dvc_peer * (heap * D).

Definition get_peer : M dstate dvc_peer := gets fst.
Definition on_peer (f : dvc_peer -> dvc_peer) : M dstate unit := on_channels f.
Definition put_slot (i : nat) (c : rdp_server_dynamic_channel) : M dstate unit := on_peer (set_slot i c).
Definition get_slot (i : nat) : M dstate rdp_server_dynamic_channel := fun s =>
  match dynamic_channels s.1 !! i with Some c => (Ok c, s) | None => (Fault, s) end.

Definition rdp_server_dynamic_channels_start : M dstate unit :=
  peer ← get_peer;
  let c := control peer in
  if static_channel_id c =? 0 then mret tt
  else
    require (active c) LIBRDP_STATUS_STATE;;
    if dynamic_channel_capabilities_sent c || dynamic_channels_ready c || negb (dynamic_channel_version c =? 0) then mret tt
    else
      request ← packet (rdp_dynamic_channel_write_capabilities_request 3 (Some (936, 3276, 9362, 21845)));
      rdp_server_send_dynamic_packet c request;;
      on_peer (set_control (set_sent c)).

Definition librdp_server_peer_open_dynamic_channel (dynamic_channel_id priority : Z) (name : option (list Z)) : M dstate unit :=
  require (negb ((dynamic_channel_id =? 0) || (3 <? priority) || negb (rdp_server_dynamic_channel_name_valid name)))
    LIBRDP_STATUS_INVALID_ARGUMENT;;
  let name := default [] name in
  peer ← get_peer;
  let c := control peer in
  require (negb (negb (active c) || negb (dynamic_channels_ready c) || (static_channel_id c =? 0))) LIBRDP_STATUS_STATE;;
  require (negb (bool_decide (is_Some (rdp_server_find_dynamic_channel_any peer dynamic_channel_id)))) LIBRDP_STATUS_INVALID_ARGUMENT;;
  '(i, _) ← opt_require (rdp_server_allocate_dynamic_channel peer) LIBRDP_STATUS_LIMIT_EXCEEDED;
  let channel_id_bytes := rdp_dynamic_channel_select_channel_id_bytes dynamic_channel_id in
  require (negb (channel_id_bytes =? 0)) LIBRDP_STATUS_INVALID_ARGUMENT;;
  request ← packet (rdp_dynamic_channel_write_create_request dynamic_channel_id channel_id_bytes priority (View name));
  rdp_server_send_dynamic_packet c request;;
  let channel := mk_slot dynamic_channel_id channel_id_bytes priority false true false false name rdp_buffer_init 0 in
  put_slot i channel;;
  notify (DVC_PENDING (identity channel)).

Definition librdp_server_peer_send_dynamic_channel_data (dynamic_channel_id : Z) (data : view) : M dstate unit :=
  require (negb (view_null data && (0 <? view_len data))) LIBRDP_STATUS_INVALID_ARGUMENT;;
  peer ← get_peer;
  require (active (control peer)) LIBRDP_STATUS_STATE;;
  require (negb (RDP_SERVER_DYNAMIC_MESSAGE_MAX <? view_len data)) LIBRDP_STATUS_LIMIT_EXCEEDED;;
  '(_, channel) ← opt_require (rdp_server_find_dynamic_channel peer dynamic_channel_id) LIBRDP_STATUS_INVALID_ARGUMENT;
  send_message (control peer) dynamic_channel_id (sd_channel_id_bytes channel) (sd_priority channel) data;;
  notify (DVC_TX (identity channel) (view_len data)).

Definition librdp_server_peer_close_dynamic_channel (dynamic_channel_id : Z) : M dstate unit :=
  peer ← get_peer;
  require (active (control peer)) LIBRDP_STATUS_STATE;;
  '(i, channel) ← opt_require (rdp_server_find_dynamic_channel peer dynamic_channel_id) LIBRDP_STATUS_INVALID_ARGUMENT;
  b ← packet (rdp_dynamic_channel_write_close dynamic_channel_id (sd_channel_id_bytes channel));
  rdp_server_send_dynamic_packet (control peer) b;;
  put_slot i (set_fragment rdp_buffer_init (sd_fragment_expected channel)
    (slot_with false (sd_pending_open channel) true (sd_cancelled_open channel) channel));;
  on_peer (fun peer => set_count (u32 (dynamic_channel_count peer - 1)) peer);;
  notify (DVC_CLOSE (identity channel)).

(** The body of the loop. *)
Definition cancel_slot (family : Z) (c : rdp_server_dynamic_channel) : rdp_server_dynamic_channel :=
  if negb (sd_pending_open c) || sd_cancelled_open c then c
  else if host_family (sd_name c) =? family then slot_with (sd_open c) (sd_pending_open c) (sd_closing c) true c
  else c.
Definition rdp_server_dynamic_channels_cancel_pending_family (family : Z) : M dstate unit :=
  on_peer (fun peer => mk_peer (cancel_slot family <$> dynamic_channels peer) (dynamic_channel_count peer) (control peer)).

(** The close events of the channels in use, in order. *)
Fixpoint close_events (slots : list rdp_server_dynamic_channel) : M dstate unit :=
  match slots with
  | [] => mret tt
  | c :: slots => (if sd_used c then notify (DVC_CLOSE (identity c)) else mret tt);; close_events slots
  end.
Definition rdp_server_dynamic_channels_reset (emit_close_events : bool) : M dstate unit :=
  peer ← get_peer;
  (if emit_close_events then close_events (dynamic_channels peer) else mret tt);;
  on_peer (fun peer => mk_peer (replicate (Z.to_nat RDP_SERVER_MAX_DYNAMIC_CHANNELS) zero_slot) 0 (reset_control (control peer))).

(** *** The client's PDUs *)

Definition rdp_server_dynamic_handle_create (data : view) : M dstate unit :=
  request ← lift (rdp_dynamic_channel_parse_create_request data);
  let info := mk_identity (dcr_channel_id request) (dcr_priority request) (dcr_name request) in
  outcome ← attempt (
    require (negb (RDP_SERVER_DYNAMIC_CHANNEL_NAME_CAPACITY <=? blen (dcr_name request))) LIBRDP_STATUS_LIMIT_EXCEEDED;;
    peer ← get_peer;
    require (negb (bool_decide (is_Some (rdp_server_find_dynamic_channel_any peer (dcr_channel_id request))))) LIBRDP_STATUS_PROTOCOL_ERROR;;
    accepted ← host (host_accept info);
    if (accepted : bool) then
      peer ← get_peer;
      '(i, _) ← opt_require (rdp_server_allocate_dynamic_channel peer) LIBRDP_STATUS_LIMIT_EXCEEDED;
      mret (Some i)
    else mret None);
  peer ← get_peer;
  let status_code := match outcome with Ok (Some _) => RDP_DYNAMIC_CHANNEL_STATUS_OK | _ => RDP_DYNAMIC_CHANNEL_STATUS_NOT_SUPPORTED end in
  ignore (
    b ← packet (rdp_dynamic_channel_write_create_response (dcr_channel_id request) (dcr_channel_id_bytes request) status_code);
    rdp_server_send_dynamic_packet (control peer) b);;
  match outcome with
  | Ok (Some i) =>
      put_slot i (mk_slot (dcr_channel_id request) (dcr_channel_id_bytes request) (dcr_priority request)
                    true false false false (dcr_name request) rdp_buffer_init 0);;
      on_peer (fun peer => set_count (u32 (dynamic_channel_count peer + 1)) peer);;
      notify (DVC_OPEN info)
  | Ok None => mret tt
  | Err st => fail st
  | Fault => lift Fault
  end.

Definition rdp_server_dynamic_handle_create_response (response : rdp_dynamic_channel_create_response) : M dstate unit :=
  peer ← get_peer;
  '(i, channel) ← opt_require (rdp_server_find_pending_dynamic_channel peer (dcs_channel_id response)) LIBRDP_STATUS_PROTOCOL_ERROR;
  if sd_cancelled_open channel then put_slot i zero_slot
  else if negb (dcs_status_code response =? RDP_DYNAMIC_CHANNEL_STATUS_OK) then
    notify (DVC_REJECTED (identity channel));;
    put_slot i zero_slot
  else
    put_slot i (slot_with true false (sd_closing channel) (sd_cancelled_open channel) channel);;
    on_peer (fun peer => set_count (u32 (dynamic_channel_count peer + 1)) peer);;
    notify (DVC_OPEN (identity channel)).

(** Append to the fragment of a slot. *)
Definition append_data (i : nat) (data : view) : M dstate unit := fun '(peer, (h, d)) =>
  match dynamic_channels peer !! i with
  | Some c =>
      let '(r, (b, h)) := rdp_buffer_append data (sd_fragment c, h) in
      (r, (set_slot i (set_fragment b (sd_fragment_expected c) c) peer, (h, d)))
  | None => (Fault, (peer, (h, d)))
  end.

(** The message is complete when the fragment has its length; its status is that
    of the dispatch, and the fragment is empty either way. *)
Definition finish_message (i : nat) : M dstate unit :=
  c ← get_slot i;
  if b_length (sd_fragment c) =? sd_fragment_expected c then
    status ← attempt (host (host_deliver (identity c) (contents (sd_fragment c))));
    put_slot i (set_fragment (set_length 0 (sd_fragment c)) 0 c);;
    lift status
  else mret tt.

Definition rdp_server_dynamic_handle_data_first (data : view) : M dstate unit :=
  pdu ← lift (rdp_dynamic_channel_parse_data_first data);
  peer ← get_peer;
  '(i, channel) ← opt_require (rdp_server_find_dynamic_channel peer (df_channel_id pdu)) LIBRDP_STATUS_PROTOCOL_ERROR;
  require (negb (negb (b_length (sd_fragment channel) =? 0) || (df_total_length pdu <? view_len (df_data pdu)))) LIBRDP_STATUS_PROTOCOL_ERROR;;
  require (negb (RDP_SERVER_DYNAMIC_MESSAGE_MAX <? df_total_length pdu)) LIBRDP_STATUS_LIMIT_EXCEEDED;;
  put_slot i (set_fragment (sd_fragment channel) (df_total_length pdu) channel);;
  append_data i (df_data pdu);;
  finish_message i.

Definition rdp_server_dynamic_handle_data (data : view) : M dstate unit :=
  pdu ← lift (rdp_dynamic_channel_parse_data data);
  peer ← get_peer;
  '(i, channel) ← opt_require (rdp_server_find_dynamic_channel peer (dd_channel_id pdu)) LIBRDP_STATUS_PROTOCOL_ERROR;
  if b_length (sd_fragment channel) =? 0 then host (host_deliver (identity channel) (view_bytes (dd_data pdu)))
  else
    require (negb ((sd_fragment_expected channel <? b_length (sd_fragment channel)) || (view_len (dd_data pdu) =? 0) ||
                   (size_t (sd_fragment_expected channel - b_length (sd_fragment channel)) <? view_len (dd_data pdu)))) LIBRDP_STATUS_PROTOCOL_ERROR;;
    append_data i (dd_data pdu);;
    finish_message i.

Definition rdp_server_dynamic_handle_close (data : view) : M dstate unit :=
  pdu ← lift (rdp_dynamic_channel_parse_close data);
  peer ← get_peer;
  '(i, channel) ← opt_require (rdp_server_find_dynamic_channel_any peer (dx_channel_id pdu)) LIBRDP_STATUS_PROTOCOL_ERROR;
  if sd_closing channel then put_slot i zero_slot
  else
    require (negb (negb (sd_open channel) || sd_pending_open channel)) LIBRDP_STATUS_PROTOCOL_ERROR;;
    on_peer (fun peer => set_count (u32 (dynamic_channel_count peer - 1)) peer);;
    notify (DVC_CLOSE (identity channel));;
    put_slot i zero_slot.

(** *** Soft-sync *)

Definition rdp_server_multitransport_tunnel_allowed (c : dvc_control) (tunnel_type : Z) : bool :=
  if negb (multitransport_negotiated c) then false
  else if tunnel_type =? RDP_DYNAMIC_CHANNEL_TUNNEL_UDP_RELIABLE then has_flag (multitransport_flags c) RDP_GCC_MULTITRANSPORT_UDP_FECR
  else if tunnel_type =? RDP_DYNAMIC_CHANNEL_TUNNEL_UDP_LOSSY then has_flag (multitransport_flags c) RDP_GCC_MULTITRANSPORT_UDP_FECL
  else false.

(** The loop over the channels of a list; [open]: the test for one of them. *)
Fixpoint channels_open_loop (open : Z -> bool) (list : rdp_dynamic_channel_soft_sync_channel_list) (n : nat) (i : Z) : res bool :=
  match n with
  | O => Ok true
  | S n =>
      match rdp_dynamic_channel_soft_sync_channel_list_get_id list i with
      | Ok channel_id => if open channel_id then channels_open_loop open list n (i + 1) else Ok false
      | Err _ => Ok false
      | Fault => Fault
      end
  end.
Definition rdp_server_soft_sync_channels_open (open : Z -> bool) (list : rdp_dynamic_channel_soft_sync_channel_list) : res bool :=
  channels_open_loop open list (Z.to_nat (sl_channel_count list)) 0.

(** The loop over the lists of a request: the tunnel types chosen so far, at most
    [tunnel_capacity]. *)
Fixpoint select_tunnels_loop (c : dvc_control) (open : Z -> bool) (request : rdp_dynamic_channel_soft_sync_request)
    (tunnel_capacity : Z) (n : nat) (i : Z) (tunnel_types : list Z) : res (list Z) :=
  match n with
  | O => Ok tunnel_types
  | S n =>
      list ← rdp_dynamic_channel_soft_sync_request_get_list request i;
      is_open ← rdp_server_soft_sync_channels_open open list;
      if negb is_open || negb (rdp_server_multitransport_tunnel_allowed c (sl_tunnel_type list)) ||
         existsb (Z.eqb (sl_tunnel_type list)) tunnel_types
      then select_tunnels_loop c open request tunnel_capacity n (i + 1) tunnel_types
      else if tunnel_capacity <=? blen tunnel_types then Err LIBRDP_STATUS_LIMIT_EXCEEDED
      else select_tunnels_loop c open request tunnel_capacity n (i + 1) (tunnel_types ++ [sl_tunnel_type list])
  end.
Definition rdp_server_select_soft_sync_tunnels (c : dvc_control) (open : Z -> bool)
    (request : rdp_dynamic_channel_soft_sync_request) (tunnel_capacity : Z) : res (list Z) :=
  if negb (multitransport_negotiated c) || negb (has_flag (requested_features c) LIBRDP_FEATURE_UDP_TRANSPORT) then Ok []
  else select_tunnels_loop c open request tunnel_capacity (Z.to_nat (ss_tunnel_count request)) 0 [].

(** The modes a response selects. *)
Fixpoint select_modes (tunnel_types : list Z) (selected : bool * bool) : bool * bool :=
  match tunnel_types with
  | [] => selected
  | t :: tunnel_types =>
      select_modes tunnel_types
        (if t =? RDP_DYNAMIC_CHANNEL_TUNNEL_UDP_RELIABLE then (selected.1, true)
         else if t =? RDP_DYNAMIC_CHANNEL_TUNNEL_UDP_LOSSY then (true, selected.2)
         else selected)
  end.

Definition is_open (peer : dvc_peer) (channel_id : Z) : bool :=
  bool_decide (is_Some (rdp_server_find_dynamic_channel peer channel_id)).

Definition rdp_server_handle_dynamic_channel_message (data : view) : M dstate unit :=
  require (negb (view_null data && (0 <? view_len data))) LIBRDP_STATUS_INVALID_ARGUMENT;;
  header ← lift (rdp_dynamic_channel_parse_header data);
  let command := dh_command header in
  peer ← get_peer;
  let c := control peer in
  if command =? RDP_DYNAMIC_CHANNEL_CMD_CAPABILITIES then
    caps ← lift (rdp_dynamic_channel_parse_capabilities data);
    require (negb (negb (dynamic_channel_capabilities_sent c) || dc_has_priority_charges caps || negb (view_len data =? 4) ||
                   (3 <? dc_version caps))) LIBRDP_STATUS_PROTOCOL_ERROR;;
    on_peer (set_control (set_ready (dc_version caps) c))
  else if negb (dynamic_channels_ready c) then fail LIBRDP_STATUS_PROTOCOL_ERROR
  else if command =? RDP_DYNAMIC_CHANNEL_CMD_CREATE then
    match rdp_dynamic_channel_parse_create_response data with
    | Ok response =>
        if bool_decide (is_Some (rdp_server_find_pending_dynamic_channel peer (dcs_channel_id response)))
        then rdp_server_dynamic_handle_create_response response
        else rdp_server_dynamic_handle_create data
    | Err _ => rdp_server_dynamic_handle_create data
    | Fault => lift Fault
    end
  else if command =? RDP_DYNAMIC_CHANNEL_CMD_DATA_FIRST then rdp_server_dynamic_handle_data_first data
  else if command =? RDP_DYNAMIC_CHANNEL_CMD_DATA then rdp_server_dynamic_handle_data data
  else if command =? RDP_DYNAMIC_CHANNEL_CMD_CLOSE then rdp_server_dynamic_handle_close data
  else if command =? RDP_DYNAMIC_CHANNEL_CMD_SOFT_SYNC_REQUEST then
    request ← lift (rdp_dynamic_channel_parse_soft_sync_request data);
    tunnel_types ← lift (rdp_server_select_soft_sync_tunnels c (is_open peer) request 2);
    response ← packet (rdp_dynamic_channel_write_soft_sync_response tunnel_types);
    rdp_server_send_dynamic_packet c response;;
    on_peer (fun peer => set_control (set_selected (select_modes tunnel_types (multitransport_udp_selected (control peer))) (control peer)) peer)
  else fail LIBRDP_STATUS_UNSUPPORTED.

(** The calls that change the table. *)
Inductive dvc_call :=
| CallStart
| CallOpen (dynamic_channel_id priority : Z) (name : option (list Z))
| CallSend (dynamic_channel_id : Z) (data : view)
| CallClose (dynamic_channel_id : Z)
| CallCancel (family : Z)
| CallReset (emit_close_events : bool)
| CallMessage (data : view).
Definition run_call (call : dvc_call) : M dstate unit :=
  match call with
  | CallStart => rdp_server_dynamic_channels_start
  | CallOpen id priority name => librdp_server_peer_open_dynamic_channel id priority name
  | CallSend id data => librdp_server_peer_send_dynamic_channel_data id data
  | CallClose id => librdp_server_peer_close_dynamic_channel id
  | CallCancel family => rdp_server_dynamic_channels_cancel_pending_family family
  | CallReset emit => rdp_server_dynamic_channels_reset emit
  | CallMessage data => rdp_server_handle_dynamic_channel_message data
  end.
End operations.

(** ** The specification: a finite map of channels *)

(** The life of a channel number: asked for by the server, and cancelled
    meanwhile; open, with the message in progress; closed by the server, until
    the client answers. *)
Inductive dvc_phase :=
| Pending
| Cancelled
| Opened (a : progress)
| Closing.
Record dvc_entry := mk_entry { en_channel_id_bytes : Z; en_priority : Z; en_name : list Z; en_phase : dvc_phase }.
Abbreviation dvc_table := (gmap Z dvc_entry).

Definition with_phase (ph : dvc_phase) (e : dvc_entry) : dvc_entry :=
  mk_entry (en_channel_id_bytes e) (en_priority e) (en_name e) ph.
Definition entry_identity (id : Z) (e : dvc_entry) : dvc_identity := mk_identity id (en_priority e) (en_name e).
Definition opened (t : dvc_table) (id : Z) : option (dvc_entry * progress) :=
  match t !! id with
  | Some e => match en_phase e with Opened a => Some (e, a) | _ => None end
  | None => None
  end.
Definition awaited (t : dvc_table) (id : Z) : bool :=
  match t !! id with
  | Some e => match en_phase e with Pending | Cancelled => true | _ => false end
  | None => false
  end.

Section specification.
Context {D : Type} `{!DvcHost D}.

Definition astate : Type := (dvc_table * dvc_control) * (heap * D).

Definition get_table : M astate (dvc_table * dvc_control) := gets fst.
Definition on_table (f : dvc_table -> dvc_table) : M astate unit := on_channels (fun s => (f s.1, s.2)).
Definition on_control (f : dvc_control -> dvc_control) : M astate unit := on_channels (fun s => (s.1, f s.2)).

Definition spec_start : M astate unit :=
  '(t, c) ← get_table;
  if static_channel_id c =? 0 then mret tt
  else
    require (active c) LIBRDP_STATUS_STATE;;
    if dynamic_channel_capabilities_sent c || dynamic_channels_ready c || negb (dynamic_channel_version c =? 0) then mret tt
    else
      request ← packet (rdp_dynamic_channel_write_capabilities_request 3 (Some (936, 3276, 9362, 21845)));
      rdp_server_send_dynamic_packet c request;;
      on_control set_sent.

Definition spec_open (id priority : Z) (name : option (list Z)) : M astate unit :=
  require (negb ((id =? 0) || (3 <? priority) || negb (rdp_server_dynamic_channel_name_valid name))) LIBRDP_STATUS_INVALID_ARGUMENT;;
  let name := default [] name in
  '(t, c) ← get_table;
  require (active c && dynamic_channels_ready c && negb (static_channel_id c =? 0)) LIBRDP_STATUS_STATE;;
  require (bool_decide (t !! id = None)) LIBRDP_STATUS_INVALID_ARGUMENT;;
  require (Z.of_nat (size t) <? RDP_SERVER_MAX_DYNAMIC_CHANNELS) LIBRDP_STATUS_LIMIT_EXCEEDED;;
  let width := rdp_dynamic_channel_select_channel_id_bytes id in
  request ← packet (rdp_dynamic_channel_write_create_request id width priority (View name));
  rdp_server_send_dynamic_packet c request;;
  on_table <[id := mk_entry width priority name Pending]>;;
  notify (DVC_PENDING (mk_identity id priority name)).

Definition spec_send (id : Z) (data : view) : M astate unit :=
  require (negb (view_null data && (0 <? view_len data))) LIBRDP_STATUS_INVALID_ARGUMENT;;
  '(t, c) ← get_table;
  require (active c) LIBRDP_STATUS_STATE;;
  require (view_len data <=? RDP_SERVER_DYNAMIC_MESSAGE_MAX) LIBRDP_STATUS_LIMIT_EXCEEDED;;
  '(e, _) ← opt_require (opened t id) LIBRDP_STATUS_INVALID_ARGUMENT;
  send_message c id (en_channel_id_bytes e) (en_priority e) data;;
  notify (DVC_TX (entry_identity id e) (view_len data)).

Definition spec_close (id : Z) : M astate unit :=
  '(t, c) ← get_table;
  require (active c) LIBRDP_STATUS_STATE;;
  '(e, _) ← opt_require (opened t id) LIBRDP_STATUS_INVALID_ARGUMENT;
  b ← packet (rdp_dynamic_channel_write_close id (en_channel_id_bytes e));
  rdp_server_send_dynamic_packet c b;;
  on_table <[id := with_phase Closing e]>;;
  notify (DVC_CLOSE (entry_identity id e)).

Definition cancel_entry (family : Z) (e : dvc_entry) : dvc_entry :=
  match en_phase e with
  | Pending => if host_family (en_name e) =? family then with_phase Cancelled e else e
  | _ => e
  end.

(** [order]: the channels of the table, in some order. *)
Fixpoint spec_close_events (order : list (Z * dvc_entry)) : M astate unit :=
  match order with
  | [] => mret tt
  | (id, e) :: order => notify (DVC_CLOSE (entry_identity id e));; spec_close_events order
  end.
Definition spec_reset (order : list (Z * dvc_entry)) (emit_close_events : bool) : M astate unit :=
  (if emit_close_events then spec_close_events order else mret tt);;
  on_channels (fun s => (∅, reset_control s.2)).

Definition spec_create (data : view) : M astate unit :=
  request ← lift (rdp_dynamic_channel_parse_create_request data);
  let id := dcr_channel_id request in
  let info := mk_identity id (dcr_priority request) (dcr_name request) in
  '(t, c) ← get_table;
  outcome ← attempt (
    require (blen (dcr_name request) <? RDP_SERVER_DYNAMIC_CHANNEL_NAME_CAPACITY) LIBRDP_STATUS_LIMIT_EXCEEDED;;
    require (bool_decide (t !! id = None)) LIBRDP_STATUS_PROTOCOL_ERROR;;
    accepted ← host (host_accept info);
    if (accepted : bool) then require (Z.of_nat (size t) <? RDP_SERVER_MAX_DYNAMIC_CHANNELS) LIBRDP_STATUS_LIMIT_EXCEEDED;; mret true
    else mret false);
  let status_code := match outcome with Ok true => RDP_DYNAMIC_CHANNEL_STATUS_OK | _ => RDP_DYNAMIC_CHANNEL_STATUS_NOT_SUPPORTED end in
  ignore (
    b ← packet (rdp_dynamic_channel_write_create_response id (dcr_channel_id_bytes request) status_code);
    rdp_server_send_dynamic_packet c b);;
  match outcome with
  | Ok true =>
      on_table <[id := mk_entry (dcr_channel_id_bytes request) (dcr_priority request) (dcr_name request) (Opened None)]>;;
      notify (DVC_OPEN info)
  | Ok false => mret tt
  | Err st => fail st
  | Fault => lift Fault
  end.

Definition spec_create_response (response : rdp_dynamic_channel_create_response) : M astate unit :=
  let id := dcs_channel_id response in
  '(t, c) ← get_table;
  e ← opt_require (t !! id) LIBRDP_STATUS_PROTOCOL_ERROR;
  match en_phase e with
  | Cancelled => on_table (delete id)
  | Pending =>
      if dcs_status_code response =? RDP_DYNAMIC_CHANNEL_STATUS_OK then
        on_table <[id := with_phase (Opened None) e]>;;
        notify (DVC_OPEN (entry_identity id e))
      else
        notify (DVC_REJECTED (entry_identity id e));;
        on_table (delete id)
  | _ => fail LIBRDP_STATUS_PROTOCOL_ERROR
  end.

(** [got] of the [total] bytes of a message are there. *)
Definition spec_receive (id : Z) (e : dvc_entry) (total : Z) (got : list Z) : M astate unit :=
  if blen got =? total then
    status ← attempt (host (host_deliver (entry_identity id e) got));
    on_table <[id := with_phase (Opened None) e]>;;
    lift status
  else on_table <[id := with_phase (Opened (if blen got =? 0 then None else Some (total, got))) e]>.

Definition spec_data_first (data : view) : M astate unit :=
  pdu ← lift (rdp_dynamic_channel_parse_data_first data);
  '(t, c) ← get_table;
  '(e, a) ← opt_require (opened t (df_channel_id pdu)) LIBRDP_STATUS_PROTOCOL_ERROR;
  require (bool_decide (a = None) && (view_len (df_data pdu) <=? df_total_length pdu)) LIBRDP_STATUS_PROTOCOL_ERROR;;
  require (df_total_length pdu <=? RDP_SERVER_DYNAMIC_MESSAGE_MAX) LIBRDP_STATUS_LIMIT_EXCEEDED;;
  spec_receive (df_channel_id pdu) e (df_total_length pdu) (view_bytes (df_data pdu)).

Definition spec_data (data : view) : M astate unit :=
  pdu ← lift (rdp_dynamic_channel_parse_data data);
  '(t, c) ← get_table;
  '(e, a) ← opt_require (opened t (dd_channel_id pdu)) LIBRDP_STATUS_PROTOCOL_ERROR;
  let part := view_bytes (dd_data pdu) in
  match a with
  | None => host (host_deliver (entry_identity (dd_channel_id pdu) e) part)
  | Some (expected, got) =>
      require (negb (blen part =? 0) && (blen got + blen part <=? expected)) LIBRDP_STATUS_PROTOCOL_ERROR;;
      spec_receive (dd_channel_id pdu) e expected (got ++ part)
  end.

Definition spec_peer_close (data : view) : M astate unit :=
  pdu ← lift (rdp_dynamic_channel_parse_close data);
  '(t, c) ← get_table;
  e ← opt_require (t !! dx_channel_id pdu) LIBRDP_STATUS_PROTOCOL_ERROR;
  match en_phase e with
  | Closing => on_table (delete (dx_channel_id pdu))
  | Opened _ => notify (DVC_CLOSE (entry_identity (dx_channel_id pdu) e));; on_table (delete (dx_channel_id pdu))
  | _ => fail LIBRDP_STATUS_PROTOCOL_ERROR
  end.

Definition spec_message (data : view) : M astate unit :=
  require (negb (view_null data && (0 <? view_len data))) LIBRDP_STATUS_INVALID_ARGUMENT;;
  header ← lift (rdp_dynamic_channel_parse_header data);
  let command := dh_command header in
  '(t, c) ← get_table;
  if command =? RDP_DYNAMIC_CHANNEL_CMD_CAPABILITIES then
    caps ← lift (rdp_dynamic_channel_parse_capabilities data);
    require (negb (negb (dynamic_channel_capabilities_sent c) || dc_has_priority_charges caps || negb (view_len data =? 4) ||
                   (3 <? dc_version caps))) LIBRDP_STATUS_PROTOCOL_ERROR;;
    on_control (set_ready (dc_version caps))
  else if negb (dynamic_channels_ready c) then fail LIBRDP_STATUS_PROTOCOL_ERROR
  else if command =? RDP_DYNAMIC_CHANNEL_CMD_CREATE then
    match rdp_dynamic_channel_parse_create_response data with
    | Ok response => if awaited t (dcs_channel_id response) then spec_create_response response else spec_create data
    | Err _ => spec_create data
    | Fault => lift Fault
    end
  else if command =? RDP_DYNAMIC_CHANNEL_CMD_DATA_FIRST then spec_data_first data
  else if command =? RDP_DYNAMIC_CHANNEL_CMD_DATA then spec_data data
  else if command =? RDP_DYNAMIC_CHANNEL_CMD_CLOSE then spec_peer_close data
  else if command =? RDP_DYNAMIC_CHANNEL_CMD_SOFT_SYNC_REQUEST then
    request ← lift (rdp_dynamic_channel_parse_soft_sync_request data);
    tunnel_types ← lift (rdp_server_select_soft_sync_tunnels c (fun id => bool_decide (is_Some (opened t id))) request 2);
    response ← packet (rdp_dynamic_channel_write_soft_sync_response tunnel_types);
    rdp_server_send_dynamic_packet c response;;
    on_control (fun c => set_selected (select_modes tunnel_types (multitransport_udp_selected c)) c)
  else fail LIBRDP_STATUS_UNSUPPORTED.

Definition spec_call (order : list (Z * dvc_entry)) (call : dvc_call) : M astate unit :=
  match call with
  | CallStart => spec_start
  | CallOpen id priority name => spec_open id priority name
  | CallSend id data => spec_send id data
  | CallClose id => spec_close id
  | CallCancel family => on_table (fmap (cancel_entry family))
  | CallReset emit => spec_reset order emit
  | CallMessage data => spec_message data
  end.
End specification.

(** ** The slots as a map *)

Definition progress_of (c : rdp_server_dynamic_channel) : progress :=
  if b_length (sd_fragment c) =? 0 then None else Some (sd_fragment_expected c, contents (sd_fragment c)).
Definition phase_of (c : rdp_server_dynamic_channel) : dvc_phase :=
  if sd_open c then Opened (progress_of c)
  else if sd_pending_open c then if sd_cancelled_open c then Cancelled else Pending
  else Closing.
Definition entry_of (c : rdp_server_dynamic_channel) : dvc_entry :=
  mk_entry (sd_channel_id_bytes c) (sd_priority c) (sd_name c) (phase_of c).

Abbreviation used_slots := (filter (fun c => sd_used c = true)).
Definition keyed (slots : list rdp_server_dynamic_channel) : list (Z * dvc_entry) :=
  (fun c => (sd_channel_id c, entry_of c)) <$> used_slots slots.
Definition slots_table (slots : list rdp_server_dynamic_channel) : dvc_table := list_to_map (keyed slots).
Definition table_of (p : dvc_peer) : dvc_table := slots_table (dynamic_channels p).
Definition open_count (slots : list rdp_server_dynamic_channel) : Z := blen (filter (fun c => sd_open c = true) slots).

(** A slot: at most one of the three phases, a message in progress only when
    open and then shorter than announced, a name that fits. *)
Record slot_ok (c : rdp_server_dynamic_channel) : Prop := {
  so_flags : (if sd_open c then negb (sd_pending_open c) && negb (sd_closing c) && negb (sd_cancelled_open c)
              else if sd_pending_open c then negb (sd_closing c) else true) = true;
  so_buffer : buffer_wf (sd_fragment c);
  so_fragment : b_length (sd_fragment c) = 0 \/
                (sd_open c = true /\ b_length (sd_fragment c) < sd_fragment_expected c <= RDP_SERVER_DYNAMIC_MESSAGE_MAX);
  so_name : blen (sd_name c) < RDP_SERVER_DYNAMIC_CHANNEL_NAME_CAPACITY;
  so_id : sd_used c = true -> id_fits (sd_channel_id_bytes c) (sd_channel_id c) /\ 0 <= sd_priority c <= 3;
}.

(** The slots: 64, no channel number in two of them. *)
Record slots_ok (slots : list rdp_server_dynamic_channel) : Prop := {
  ss_size : blen slots = RDP_SERVER_MAX_DYNAMIC_CHANNELS;
  ss_distinct : NoDup (keyed slots).*1;
  ss_slots : Forall slot_ok slots;
}.
(** The peer: and the count is the number of open ones. *)
Record peer_ok (p : dvc_peer) : Prop := {
  pk_slots : slots_ok (dynamic_channels p);
  pk_count : dynamic_channel_count p = open_count (dynamic_channels p);
}.

Lemma zero_slot_ok : slot_ok zero_slot.
Proof. split; [done|apply buffer_init_wf|by left|done|done]. Qed.

Lemma keyed_cons c slots : keyed (c :: slots) = if sd_used c then (sd_channel_id c, entry_of c) :: keyed slots else keyed slots.
Proof. unfold keyed. rewrite filter_cons. destruct (sd_used c); by case_decide. Qed.
Lemma open_count_cons c slots : open_count (c :: slots) = Z.b2z (sd_open c) + open_count slots.
Proof. unfold open_count. rewrite filter_cons. destruct (sd_open c); case_decide; rewrite ?blen_cons; by try lia. Qed.

#[export] Instance keyed_proper : Proper ((≡ₚ) ==> (≡ₚ)) keyed.
Proof. intros l l' Hl. unfold keyed. by rewrite Hl. Qed.
#[export] Instance open_count_proper : Proper ((≡ₚ) ==> (=)) open_count.
Proof. intros l l' Hl. unfold open_count, blen. by rewrite Hl. Qed.

(** What a change of the slot [i] does is seen with that slot in front. *)
Section one_slot.
Context (slots : list rdp_server_dynamic_channel) (i : nat) (c : rdp_server_dynamic_channel) (Hi : slots !! i = Some c).

Lemma slots_front : slots ≡ₚ c :: delete i slots.
Proof. by apply delete_Permutation. Qed.
Lemma slots_insert c' : <[i := c']> slots ≡ₚ c' :: delete i slots.
Proof.
  assert (Hlt : (i < length slots)%nat) by (by eapply lookup_lt_Some).
  rewrite insert_take_drop, delete_take_drop by done. symmetry. apply Permutation_middle.
Qed.

Context (Hok : slots_ok slots).

Lemma front_distinct : NoDup (keyed (c :: delete i slots)).*1.
Proof. rewrite <- (keyed_proper _ _ slots_front). apply Hok. Qed.
Lemma slots_table_front : slots_table slots = slots_table (c :: delete i slots).
Proof. apply list_to_map_proper; [apply Hok|]. apply keyed_proper, slots_front. Qed.
Lemma open_count_insert c' : open_count (<[i := c']> slots) = open_count slots - Z.b2z (sd_open c) + Z.b2z (sd_open c').
Proof.
  rewrite (open_count_proper _ _ slots_front), (open_count_proper _ _ (slots_insert c')), !open_count_cons. lia.
Qed.

(** A change of the slot in front. *)
Lemma set_slot_table c' : slot_ok c' ->
  (if sd_used c' then (sd_used c = true /\ sd_channel_id c' = sd_channel_id c) \/ slots_table slots !! sd_channel_id c' = None else True) ->
  slots_ok (<[i := c']> slots) /\ slots_table (<[i := c']> slots) =
    (let rest := if sd_used c then delete (sd_channel_id c) (slots_table slots) else slots_table slots in
     if sd_used c' then <[sd_channel_id c' := entry_of c']> rest else rest).
Proof.
  intros Hc' Hid. pose proof front_distinct as Hd. rewrite keyed_cons in Hd.
  assert (Hrest : (if sd_used c then delete (sd_channel_id c) (slots_table slots) else slots_table slots) = slots_table (delete i slots)).
  { rewrite slots_table_front. unfold slots_table. rewrite keyed_cons. destruct (sd_used c); [|done].
    rewrite list_to_map_cons. cbn [fmap list_fmap fst] in Hd. apply list.NoDup_cons in Hd as [Hd _].
    rewrite delete_insert_id; [done|]. by apply not_elem_of_list_to_map. }
  assert (Hd' : NoDup (keyed (c' :: delete i slots)).*1).
  { rewrite keyed_cons. assert (Hr : NoDup (keyed (delete i slots)).*1) by (destruct (sd_used c); [by apply list.NoDup_cons in Hd as [_ ?]|done]).
    destruct (sd_used c') eqn:Hu; [|done]. cbn [fmap list_fmap fst]. apply list.NoDup_cons. split; [|done].
    apply not_elem_of_list_to_map. fold (slots_table (delete i slots)). rewrite <- Hrest.
    destruct Hid as [[Hu' ->]|Hn]; [rewrite Hu'; apply lookup_delete_eq|].
    destruct (sd_used c); [|done]. by rewrite lookup_delete_None; right. }
  split.
  - split.
    + unfold blen. rewrite length_insert. apply Hok.
    + rewrite (keyed_proper _ _ (slots_insert c')). exact Hd'.
    + apply Forall_insert; [apply Hok|done].
  - transitivity (slots_table (c' :: delete i slots)).
    { symmetry. apply list_to_map_proper; [exact Hd'|]. symmetry. apply keyed_proper, slots_insert. }
    cbv zeta. rewrite Hrest. unfold slots_table. rewrite keyed_cons. by destruct (sd_used c').
Qed.
End one_slot.

Lemma filter_Forall {A} (P : A -> Prop) `{!forall x, Decision (P x)} l : Forall P l -> filter P l = l.
Proof. induction 1 as [|x l Hx _ IH]; [done|]. rewrite filter_cons_True by done. by f_equal. Qed.

(** Searching the slots is looking up the map. *)
Section searches.
Context (p : dvc_peer) (Hok : slots_ok (dynamic_channels p)).

Lemma used_lookup i c : dynamic_channels p !! i = Some c -> sd_used c = true -> table_of p !! sd_channel_id c = Some (entry_of c).
Proof.
  intros Hi Hu. unfold table_of. rewrite (slots_table_front _ i c) by done. unfold slots_table. rewrite keyed_cons, Hu, list_to_map_cons.
  apply lookup_insert_eq.
Qed.
Lemma used_slot_ok i c : dynamic_channels p !! i = Some c -> slot_ok c.
Proof. intros Hi. eapply Forall_lookup_1; [apply Hok|done]. Qed.

Lemma find_any_table id :
  match rdp_server_find_dynamic_channel_any p id with
  | Some (i, c) => dynamic_channels p !! i = Some c /\ sd_used c = true /\ sd_channel_id c = id /\ table_of p !! id = Some (entry_of c)
  | None => table_of p !! id = None
  end.
Proof.
  unfold rdp_server_find_dynamic_channel_any, find_slot. destruct (list_find _ _) as [[i c]|] eqn:E.
  - apply list_find_Some in E as (Hi & [Hu Hid%Z.eqb_eq]%andb_true_iff & _). subst id. split; [done|]. split; [done|]. split; [done|].
    by eapply used_lookup.
  - apply list_find_None in E. apply not_elem_of_list_to_map. unfold keyed. rewrite <- list_fmap_compose, list_elem_of_fmap.
    intros (c & Hid & [Hu Hc]%list_elem_of_filter). rewrite list.Forall_forall in E. apply (E c Hc). cbn in Hid.
    by rewrite Hu, Hid, Z.eqb_refl.
Qed.

Lemma find_open_table id :
  match rdp_server_find_dynamic_channel p id with
  | Some (i, c) => dynamic_channels p !! i = Some c /\ sd_open c = true /\ sd_channel_id c = id /\
                   opened (table_of p) id = Some (entry_of c, progress_of c)
  | None => opened (table_of p) id = None
  end.
Proof.
  unfold rdp_server_find_dynamic_channel, find_slot, opened. destruct (list_find _ _) as [[i c]|] eqn:E.
  - apply list_find_Some in E as (Hi & [Ho Hid%Z.eqb_eq]%andb_true_iff & _). subst id. split; [done|]. split; [done|]. split; [done|].
    rewrite (used_lookup i c) by (done || by unfold sd_used; rewrite Ho). cbn [en_phase entry_of]. unfold phase_of. by rewrite Ho.
  - apply list_find_None in E. pose proof (find_any_table id) as H.
    destruct (rdp_server_find_dynamic_channel_any p id) as [[i c]|]; [|by rewrite H]. destruct H as (Hi & Hu & Hid & ->).
    rewrite list.Forall_forall in E. specialize (E c (list_elem_of_lookup_2 _ _ _ Hi)). rewrite Hid, Z.eqb_refl, andb_true_r in E.
    cbn [en_phase entry_of]. unfold phase_of. destruct (sd_open c); [done|]. by destruct (sd_pending_open c), (sd_cancelled_open c).
Qed.

Lemma find_pending_table id :
  match rdp_server_find_pending_dynamic_channel p id with
  | Some (i, c) => dynamic_channels p !! i = Some c /\ sd_pending_open c = true /\ sd_open c = false /\ sd_channel_id c = id /\
                   awaited (table_of p) id = true /\ table_of p !! id = Some (entry_of c)
  | None => awaited (table_of p) id = false
  end.
Proof.
  unfold rdp_server_find_pending_dynamic_channel, awaited. pose proof (find_any_table id) as H.
  destruct (rdp_server_find_dynamic_channel_any p id) as [[i c]|]; [|by rewrite H]. destruct H as (Hi & Hu & Hid & ->).
  pose proof (so_flags _ (used_slot_ok i c Hi)) as Hf. cbn [en_phase entry_of]. unfold phase_of.
  destruct (sd_open c) eqn:?, (sd_pending_open c) eqn:?, (sd_cancelled_open c) eqn:?; cbn in Hf |- *; done || by split_and!.
Qed.

Lemma table_size : size (table_of p) = length (used_slots (dynamic_channels p)).
Proof.
  unfold table_of, slots_table. rewrite map_size_list_to_map by apply Hok. unfold keyed. by rewrite length_fmap.
Qed.
Lemma allocate_table :
  match rdp_server_allocate_dynamic_channel p with
  | Some (i, c) => dynamic_channels p !! i = Some c /\ sd_used c = false /\ Z.of_nat (size (table_of p)) < RDP_SERVER_MAX_DYNAMIC_CHANNELS
  | None => Z.of_nat (size (table_of p)) = RDP_SERVER_MAX_DYNAMIC_CHANNELS
  end.
Proof.
  pose proof (ss_size _ Hok) as Hs. unfold blen in Hs. rewrite table_size.
  unfold rdp_server_allocate_dynamic_channel, find_slot. destruct (list_find _ _) as [[i c]|] eqn:E.
  - apply list_find_Some in E as (Hi & Hu%negb_true_iff & _). split; [done|]. split; [done|].
    assert (H : length (used_slots (dynamic_channels p)) = length (used_slots (delete i (dynamic_channels p)))).
    { rewrite <- (length_fmap (fun c => (sd_channel_id c, entry_of c))).
      fold (keyed (dynamic_channels p)). rewrite (keyed_proper _ _ (slots_front _ i c Hi)), keyed_cons, Hu. unfold keyed. by rewrite length_fmap. }
    pose proof (length_filter (fun c => sd_used c = true) (delete i (dynamic_channels p))) as Hle.
    rewrite length_delete in Hle by by eexists. rewrite H. unfold RDP_SERVER_MAX_DYNAMIC_CHANNELS in *. apply lookup_lt_Some in Hi. lia.
  - apply list_find_None in E. rewrite filter_Forall; [done|]. apply (list.Forall_impl _ _ _ E). intros c. cbn. by destruct (sd_used c).
Qed.
End searches.

(** ** The writers always answer *)

Lemma channel_id_code_total id n : rdp_dynamic_channel_channel_id_code id n <> Fault.
Proof. unfold rdp_dynamic_channel_channel_id_code. repeat case_match; rewrite ?ensure_bind; by repeat case_match. Qed.
Lemma total_channel_id_code id n : Total (lift (rdp_dynamic_channel_channel_id_code id n)).
Proof. apply total_lift, channel_id_code_total. Qed.
#[export] Hint Resolve total_channel_id_code : total.
Lemma total_priority p : Total (lift (rdp_dynamic_channel_validate_priority p)).
Proof. apply total_lift. unfold rdp_dynamic_channel_validate_priority. by case_match. Qed.
#[export] Hint Resolve total_priority : total.
Lemma total_write_channel_id id n : Total (rdp_dynamic_channel_write_channel_id id n).
Proof. unfold rdp_dynamic_channel_write_channel_id. solve_total. Qed.
#[export] Hint Resolve total_write_channel_id : total.
Lemma total_write_length l n : Total (rdp_dynamic_channel_write_length l n).
Proof. unfold rdp_dynamic_channel_write_length. solve_total. Qed.
#[export] Hint Resolve total_write_length : total.
Lemma total_append_charges l : Total (append_charges l).
Proof. induction l; cbn [append_charges]; solve_total. Qed.
#[export] Hint Resolve total_append_charges : total.
Lemma total_append_tunnels l : Total (append_tunnels l).
Proof. induction l; cbn [append_tunnels]; solve_total. Qed.
#[export] Hint Resolve total_append_tunnels : total.
Lemma total_capabilities_request v c : Total (rdp_dynamic_channel_write_capabilities_request v (Some c)).
Proof. destruct c as [[[c0 c1] c2] c3]. unfold rdp_dynamic_channel_write_capabilities_request. solve_total. Qed.
#[export] Hint Resolve total_capabilities_request : total.
Lemma total_create_request id n p l : Total (rdp_dynamic_channel_write_create_request id n p (View l)).
Proof. unfold rdp_dynamic_channel_write_create_request. solve_total. Qed.
#[export] Hint Resolve total_create_request : total.
Lemma total_create_response id n st : Total (rdp_dynamic_channel_write_create_response id n st).
Proof. unfold rdp_dynamic_channel_write_create_response. solve_total. Qed.
#[export] Hint Resolve total_create_response : total.
Lemma total_close id n : Total (rdp_dynamic_channel_write_close id n).
Proof. unfold rdp_dynamic_channel_write_close. solve_total. Qed.
#[export] Hint Resolve total_close : total.
Lemma total_data id n p l : Total (rdp_dynamic_channel_write_data_ex id n p (View l)).
Proof. unfold rdp_dynamic_channel_write_data_ex. solve_total. Qed.
#[export] Hint Resolve total_data : total.
Lemma total_data_view id n p v : 0 <= view_len v -> Total (rdp_dynamic_channel_write_data_ex id n p v).
Proof.
  destruct v as [k|l]; [|intros _; solve_total]. cbn [view_len]. intros Hk. unfold rdp_dynamic_channel_write_data_ex. cbn [view_null view_len andb].
  destruct (Z.ltb_spec 0 k) as [|Hk']; cbn [negb].
  - apply total_same. intros s. exists (Err LIBRDP_STATUS_INVALID_ARGUMENT). by rewrite bind_require.
  - replace k with 0 by lia. solve_total.
Qed.
Lemma total_data_first id n p t l : Total (rdp_dynamic_channel_write_data_first_ex id n p t (View l)).
Proof. unfold rdp_dynamic_channel_write_data_first_ex. solve_total. Qed.
#[export] Hint Resolve total_data_first : total.
Lemma total_soft_sync_response l : Total (rdp_dynamic_channel_write_soft_sync_response l).
Proof. unfold rdp_dynamic_channel_write_soft_sync_response. solve_total. Qed.
#[export] Hint Resolve total_soft_sync_response : total.
Lemma total_fragment l t f : Total (rdp_virtual_channel_write_fragment (View l) t f).
Proof. unfold rdp_virtual_channel_write_fragment. solve_total. Qed.
#[export] Hint Resolve total_fragment : total.

(** ** Calls that do not touch the channels *)

(** The surroundings never run into undefined behaviour. *)
Class DvcHostLaws (D : Type) `{!DvcHost D} : Prop := {
  host_send_safe : forall p d, (host_send p d).1 <> Fault;
  host_accept_safe : forall i d, (host_accept i d).1 <> Fault;
  host_deliver_safe : forall i m d, (host_deliver i m d).1 <> Fault;
}.

Section tame.
Context {D : Type} `{!DvcHost D} `{!DvcHostLaws D}.

(** A call on the heap and the surroundings that answers and leaves the exhausted
    heap exhausted. *)
Definition Tame {A} (m : M (heap * D) A) : Prop :=
  forall h d, exists r h' d', m (h, d) = (r, (h', d')) /\ r <> Fault /\ (h = [] -> h' = []).

Lemma tame_bind {A B} (m : M (heap * D) A) (k : A -> M (heap * D) B) : Tame m -> (forall a, Tame (k a)) -> Tame (m ≫= k).
Proof.
  intros Hm Hk h d. destruct (Hm h d) as (r & h1 & d1 & E & Hr & Hh1). destruct r as [a|st|]; [| |done].
  - destruct (Hk a h1 d1) as (r2 & h2 & d2 & E2 & Hr2 & Hh2). exists r2, h2, d2.
    split; [exact (eq_trans (bind_ok _ _ _ _ _ E) E2)|]. split; [done|]. auto.
  - exists (Err st), h1, d1. split; [exact (bind_err _ _ _ _ _ E)|done].
Qed.
Lemma tame_ret {A} (a : A) : Tame (mret a).
Proof. intros h d. by exists (Ok a), h, d. Qed.
Lemma tame_require c st : Tame (require c st).
Proof. intros h d. destruct c; [by exists (Ok tt), h, d|by exists (Err st), h, d]. Qed.
Lemma tame_host {A} (m : M D A) : (forall d, (m d).1 <> Fault) -> Tame (on_snd m).
Proof. intros Hm h d. specialize (Hm d). destruct (m d) as [r d'] eqn:E. exists r, h, d'. unfold on_snd. cbn [snd]. by rewrite E. Qed.
Lemma tame_written w : Total w -> Tame (written w).
Proof.
  intros Hw h d. unfold written. destruct (Hw rdp_buffer_init h buffer_init_wf) as (r & b & h1 & -> & _ & _ & Hr & Hh).
  destruct r as [u|st|]; [by exists (Ok b), h1, d|by exists (Err st), h1, d|done].
Qed.
Lemma tame_fragment l total flags : Tame (rdp_server_send_static_channel_fragment host_send host_overhead (View l) total flags).
Proof.
  apply tame_bind; [apply tame_require|]. intros _. apply tame_bind; [apply tame_written; auto with total nocore|]. intros b.
  apply tame_bind; [apply tame_require|]. intros _. apply tame_host, host_send_safe.
Qed.
Lemma tame_fragment_null total flags :
  Tame (rdp_server_send_static_channel_fragment host_send host_overhead (NullView 0) total flags).
Proof.
  apply tame_bind; [apply tame_require|]. intros _. apply tame_bind; [apply tame_written|].
  { unfold rdp_virtual_channel_write_fragment. solve_total. }
  intros b. apply tame_bind; [apply tame_require|]. intros _. apply tame_host, host_send_safe.
Qed.
Lemma tame_lift {A B} (o : res A) (k : A -> M (heap * D) B) : o <> Fault -> (forall a, o = Ok a -> Tame (k a)) -> Tame (lift o ≫= k).
Proof.
  intros Ho Hk h d. rewrite bind_lift. destruct o as [a|st|]; [by apply Hk|by exists (Err st), h, d|done].
Qed.
Lemma tame_send_loop fuel l offset : 0 <= offset <= blen l -> (offset < blen l \/ offset = 0) -> (length l - Z.to_nat offset < fuel)%nat ->
  Tame (send_loop host_send host_overhead fuel (View l) offset).
Proof.
  revert offset. induction fuel as [|fuel IH]; intros offset Ho Hp Hf; [lia|]. cbn [send_loop view_len].
  set (chunk := if RDP_SERVER_STATIC_CHANNEL_CHUNK_SIZE <? blen l - offset then _ else _). unfold RDP_SERVER_STATIC_CHANNEL_CHUNK_SIZE in chunk.
  assert (Hc : 0 <= chunk /\ offset + chunk <= blen l /\ (offset < blen l -> 0 < chunk)).
  { unfold chunk. destruct (Z.ltb_spec 1600 (blen l - offset)); lia. }
  cbn [chunk_view]. rewrite slice_ok by lia. apply tame_lift; [done|]. intros part [= <-].
  apply tame_bind; [apply tame_fragment|intros _]. destruct (Z.ltb_spec (offset + chunk) (blen l)); [|apply tame_ret].
  apply IH; unfold blen in *; lia.
Qed.
Lemma tame_send_channel_data is_active is_joined v : 0 <= view_len v ->
  Tame (librdp_server_peer_send_channel_data host_send host_overhead is_active is_joined v).
Proof.
  intros Hv. unfold librdp_server_peer_send_channel_data. destruct v as [n|l]; cbn [view_null view_len view_bytes andb] in *.
  - destruct (Z.ltb_spec 0 n); [by intros h d; exists (Err LIBRDP_STATUS_INVALID_ARGUMENT), h, d|]. replace n with 0 by lia.
    do 4 (apply tame_bind; [apply tame_require|intros _]). cbn [length]. cbn [send_loop view_len chunk_view].
    apply tame_lift; [done|]. intros part [= <-]. apply tame_bind; [apply tame_fragment_null|]. intros _. apply tame_ret.
  - do 4 (apply tame_bind; [apply tame_require|intros _]). pose proof (blen_nonneg l). apply tame_send_loop; unfold blen in *; lia.
Qed.
End tame.

(** The same call beside two states of the channels, which it leaves alone; [Q]
    holds of what it returns. *)
Section same.
Context {D : Type} `{!DvcHost D} `{!DvcHostLaws D} {P P' : Type}.

Definition Same {A} (Q : A -> Prop) (m : M (P * (heap * D)) A) (n : M (P' * (heap * D)) A) : Prop :=
  forall p q h d, exists r h' d', m (p, (h, d)) = (r, (p, (h', d'))) /\ n (q, (h, d)) = (r, (q, (h', d'))) /\
    r <> Fault /\ (h = [] -> h' = []) /\ (forall a, r = Ok a -> Q a).

Lemma same_bind {A B} (Q : A -> Prop) (R : B -> Prop) m n (k : A -> M (P * (heap * D)) B) (k' : A -> M (P' * (heap * D)) B) :
  Same Q m n -> (forall a, Q a -> Same R (k a) (k' a)) -> Same R (m ≫= k) (n ≫= k').
Proof.
  intros Hm Hk p q h d. destruct (Hm p q h d) as (r & h1 & d1 & E & E' & Hr & Hh1 & HQ). destruct r as [a|st|]; [| |done].
  - destruct (Hk a (HQ a eq_refl) p q h1 d1) as (r2 & h2 & d2 & E2 & E2' & Hr2 & Hh2 & HR). exists r2, h2, d2.
    split; [exact (eq_trans (bind_ok _ _ _ _ _ E) E2)|]. split; [exact (eq_trans (bind_ok _ _ _ _ _ E') E2')|]. split; [done|]. auto.
  - exists (Err st), h1, d1. split; [exact (bind_err _ _ _ _ _ E)|]. split; [exact (bind_err _ _ _ _ _ E')|]. done.
Qed.
Lemma same_ret {A} (Q : A -> Prop) a : Q a -> Same Q (mret a) (mret a).
Proof. intros Ha p q h d. exists (Ok a), h, d. split_and!; try done. by intros ? [= <-]. Qed.
Lemma same_require c st : Same (fun _ => True) (require c st) (require c st).
Proof. intros p q h d. by destruct c; [exists (Ok tt), h, d|exists (Err st), h, d]. Qed.
Lemma same_lift {A} (o : res A) : o <> Fault -> Same (fun a => o = Ok a) (lift o) (lift o).
Proof. intros Ho p q h d. by exists o, h, d. Qed.
Lemma same_on_snd {A} (m : M (heap * D) A) : Tame m -> Same (fun _ => True) (on_snd m) (on_snd m).
Proof. intros Hm p q h d. destruct (Hm h d) as (r & h' & d' & E & Hr & Hh). exists r, h', d'. unfold on_snd. cbn [fst snd]. by rewrite E. Qed.
Lemma same_host {A} (m : M D A) : (forall d, (m d).1 <> Fault) -> Same (fun _ => True) (host m) (host m).
Proof. intros Hm. by apply same_on_snd, tame_host. Qed.
Lemma same_notify e : Same (fun _ => True) (notify e) (notify e).
Proof. by apply same_host. Qed.
Lemma same_attempt {A} (Q : A -> Prop) m n : Same Q m n -> Same (fun r : res A => r <> Fault /\ forall a, r = Ok a -> Q a) (attempt m) (attempt n).
Proof.
  intros Hm p q h d. destruct (Hm p q h d) as (r & h' & d' & E & E' & Hr & Hh & HQ). exists (Ok r), h', d'. unfold attempt. rewrite E, E'.
  destruct r; split_and!; done || by intros ? [= <-].
Qed.
Lemma same_ignore {A} (Q : A -> Prop) (m : M (P * (heap * D)) A) n : Same Q m n -> Same (fun _ => True) (ignore m) (ignore n).
Proof. intros Hm. eapply same_bind; [by apply same_attempt|]. intros. by apply same_ret. Qed.

Lemma same_packet w : Total w -> Same buffer_wf (packet w) (packet w).
Proof.
  intros Hw p q h d. unfold packet, on_snd, written. cbn [fst snd].
  destruct (Hw rdp_buffer_init h buffer_init_wf) as (r & b & h1 & -> & Hb & _ & Hr & Hh).
  destruct r as [u|st|]; [exists (Ok b), h1, d|by exists (Err st), h1, d|done]. split_and!; try done. by intros ? [= <-].
Qed.
Lemma same_packet_again b w : buffer_wf b -> Total w -> Same buffer_wf (packet_again b w) (packet_again b w).
Proof.
  intros Hwf Hw p q h d. unfold packet_again, on_snd. cbn [fst snd].
  assert (Hwf0 : buffer_wf (set_length 0 b)).
  { destruct Hwf as [Hv Hb Hl Hc]. apply state_valid_iff in Hv as [Hle Hn]. split; cbn; try done. apply state_valid_iff. cbn. split; [lia|done]. }
  destruct (Hw (set_length 0 b) h Hwf0) as (r & b1 & h1 & -> & Hb1 & _ & Hr & Hh).
  destruct r as [u|st|]; [exists (Ok b1), h1, d|by exists (Err st), h1, d|done]. split_and!; try done. by intros ? [= <-].
Qed.
Lemma same_send_packet c b : buffer_wf b -> Same (fun _ => True) (rdp_server_send_dynamic_packet c b) (rdp_server_send_dynamic_packet c b).
Proof.
  intros Hwf. eapply same_bind; [apply same_require|]. intros _ _. apply same_on_snd, tame_send_channel_data.
  destruct (buffer_view_contents b Hwf) as [_ ->]. apply blen_nonneg.
Qed.
Lemma same_send_data_loop fuel c id n prio l capacity b offset : 0 < capacity -> buffer_wf b -> 0 <= offset ->
  (length l - Z.to_nat offset < fuel)%nat ->
  Same (fun _ => True) (send_data_loop fuel c id n prio l capacity b offset) (send_data_loop fuel c id n prio l capacity b offset).
Proof.
  intros Hcap. revert b offset. induction fuel as [|fuel IH]; intros b offset Hb Ho Hf; [lia|]. cbn [send_data_loop].
  destruct (Z.ltb_spec offset (blen l)) as [Hl|Hl]; [|by apply same_ret].
  set (chunk := if blen l - offset <? capacity then _ else _).
  assert (Hc : 0 < chunk /\ offset + chunk <= blen l) by (unfold chunk; destruct (Z.ltb_spec (blen l - offset) capacity); lia).
  rewrite slice_ok by lia. eapply same_bind; [by apply same_lift|]. intros part _.
  eapply same_bind; [apply same_packet_again; [done|auto with total nocore]|]. intros b1 Hb1.
  eapply same_bind; [by apply same_send_packet|]. intros _ _. apply IH; [done|lia|unfold blen in *; lia].
Qed.
Lemma same_send_message c id n prio v : 0 <= view_len v -> (view_null v = true -> view_len v = 0) ->
  Same (fun _ => True) (send_message c id n prio v) (send_message c id n prio v).
Proof.
  intros Hv Hnull. unfold send_message. destruct (Z.leb_spec (view_len v) RDP_DYNAMIC_CHANNEL_SINGLE_MESSAGE_LIMIT) as [Hl|Hl].
  - eapply same_bind; [by apply same_packet, total_data_view|]. intros b. apply same_send_packet.
  - destruct v as [k|l]; [unfold RDP_DYNAMIC_CHANNEL_SINGLE_MESSAGE_LIMIT in Hl; rewrite Hnull in Hl by done; lia|]. cbn [view_len view_bytes] in *.
    set (first_capacity := size_t (RDP_DYNAMIC_CHANNEL_MAX_PDU_SIZE - rdp_dynamic_channel_data_first_pdu_header_size n (u32 (blen l)))).
    set (data_capacity := size_t (RDP_DYNAMIC_CHANNEL_MAX_PDU_SIZE - rdp_dynamic_channel_data_pdu_header_size n)).
    assert (0 <= first_capacity /\ 0 <= data_capacity) as [H1 H2] by (unfold first_capacity, data_capacity, size_t; split; apply Z.mod_pos_bound; lia).
    set (chunk := if blen l <? first_capacity then _ else _).
    assert (Hc : 0 <= chunk <= blen l) by (unfold chunk; destruct (Z.ltb_spec (blen l) first_capacity); lia).
    destruct (Z.eqb_spec data_capacity 0) as [E|E].
    { intros p q h d. exists (Err LIBRDP_STATUS_LIMIT_EXCEEDED), h, d. by rewrite !bind_require, orb_true_r. }
    eapply same_bind; [apply same_require|]. intros _ _. rewrite slice_ok by lia. eapply same_bind; [by apply same_lift|]. intros part _.
    eapply same_bind; [apply same_packet; auto with total nocore|]. intros b Hb. eapply same_bind; [by apply same_send_packet|]. intros _ _.
    apply same_send_data_loop; [lia|done|lia|lia].
Qed.
End same.

(** ** The simulation *)

Section simulation.
Context {D : Type} `{!DvcHost D} `{!DvcHostLaws D}.

(** What the specification sees of a peer. *)
Definition view_of (p : dvc_peer) : dvc_table * dvc_control := (table_of p, control p).

(** From the peer [p]: the call ends in a well-formed peer, without undefined
    behaviour, for every outcome of the allocations; if they succeed, it does
    what the specification does. *)
Definition Simulates (p : dvc_peer) {A} (m : M (dstate (D := D)) A) (n : M (astate (D := D)) A) : Prop :=
  forall h d, exists r p' h' d', m (p, (h, d)) = (r, (p', (h', d'))) /\ peer_ok p' /\ r <> Fault /\
    (h = [] -> h' = [] /\ n (view_of p, (h, d)) = (r, (view_of p', (h', d')))).

Section rules.
Context (p : dvc_peer) (Hp : peer_ok p) {A : Type}.
Implicit Types (m : M (dstate (D := D)) A) (n : M (astate (D := D)) A).

Lemma sim_ret (a : A) : Simulates p (mret a) (mret a).
Proof. intros h d. by exists (Ok a), p, h, d. Qed.
Lemma sim_fail st : Simulates p (@fail _ A st) (fail st).
Proof. intros h d. by exists (Err st), p, h, d. Qed.
Lemma sim_lift_last (o : res A) : o <> Fault -> Simulates p (lift o) (lift o).
Proof. intros Ho h d. by exists o, p, h, d. Qed.
Lemma sim_lift {C} (o : res C) (k : C -> M (dstate (D := D)) A) k' :
  o <> Fault -> (forall a, o = Ok a -> Simulates p (k a) (k' a)) -> Simulates p (lift o ≫= k) (lift o ≫= k').
Proof.
  intros Ho Hk h d. rewrite !bind_lift. destruct o as [a|st|]; [by apply Hk|by exists (Err st), p, h, d|done].
Qed.
Lemma sim_require c c' st (k : unit -> M (dstate (D := D)) A) k' :
  c = c' -> (c' = true -> Simulates p (k tt) (k' tt)) -> Simulates p (require c st ≫= k) (require c' st ≫= k').
Proof. intros -> Hk h d. rewrite !bind_require. destruct c'; [by apply Hk|by exists (Err st), p, h, d]. Qed.
Lemma sim_get (k : dvc_peer -> M (dstate (D := D)) A) k' :
  Simulates p (k p) (k' (view_of p)) -> Simulates p (get_peer ≫= k) (get_table ≫= k').
Proof. intros Hk h d. apply Hk. Qed.
Lemma sim_opt {C C'} (o : option C) (o' : option C') st (k : C -> M (dstate (D := D)) A) k' :
  match o, o' with
  | Some a, Some a' => Simulates p (k a) (k' a')
  | None, None => True
  | _, _ => False
  end -> Simulates p (opt_require o st ≫= k) (opt_require o' st ≫= k').
Proof. destruct o, o'; try done. intros _ h d. by exists (Err st), p, h, d. Qed.
(** A search that the specification makes as a test. *)
Lemma sim_opt_require {C} (o : option C) c st (k : C -> M (dstate (D := D)) A) k' :
  match o with
  | Some a => c = true /\ Simulates p (k a) (k' tt)
  | None => c = false
  end -> Simulates p (opt_require o st ≫= k) (require c st ≫= k').
Proof. destruct o; [by intros [-> ?]|intros -> h d]. by exists (Err st), p, h, d. Qed.
Lemma sim_same {C} (Q : C -> Prop) (m : M (dstate (D := D)) C) (n : M (astate (D := D)) C) (k : C -> M (dstate (D := D)) A) k' :
  Same Q m n -> (forall a, Q a -> Simulates p (k a) (k' a)) -> Simulates p (m ≫= k) (n ≫= k').
Proof.
  intros Hm Hk h d. destruct (Hm p (view_of p) h d) as (r & h1 & d1 & E & E' & Hr & Hh1 & HQ). destruct r as [a|st|]; [| |done].
  - destruct (Hk a (HQ a eq_refl) h1 d1) as (r2 & p2 & h2 & d2 & E2 & Hp2 & Hr2 & Hs). exists r2, p2, h2, d2.
    split; [exact (eq_trans (bind_ok _ _ _ _ _ E) E2)|]. split; [done|]. split; [done|]. intros Hh. destruct (Hs (Hh1 Hh)) as [Hh2 Es].
    split; [done|]. exact (eq_trans (bind_ok _ _ _ _ _ E') Es).
  - exists (Err st), p, h1, d1. split; [exact (bind_err _ _ _ _ _ E)|]. split; [done|]. split; [done|]. intros Hh.
    split; [auto|]. exact (bind_err _ _ _ _ _ E').
Qed.
Lemma sim_same_last (Q : A -> Prop) m n : Same Q m n -> Simulates p m n.
Proof.
  intros Hm h d. destruct (Hm p (view_of p) h d) as (r & h1 & d1 & E & E' & Hr & Hh1 & _). exists r, p, h1, d1. split_and!; auto.
Qed.
End rules.

Lemma sim_update {A} p f g (k : unit -> M (dstate (D := D)) A) k' :
  view_of (f p) = g (view_of p) -> Simulates (f p) (k tt) (k' tt) -> Simulates p (on_peer f ≫= k) (on_channels g ≫= k').
Proof.
  intros Hv Hk h d. destruct (Hk h d) as (r & p' & h' & d' & E & Hp' & Hr & Hs). exists r, p', h', d'.
  split; [exact E|]. split; [done|]. split; [done|]. intros Hh. destruct (Hs Hh) as [Hh' E']. split; [done|]. rewrite <- E', Hv. done.
Qed.
Lemma sim_update_last p f g : peer_ok (f p) -> view_of (f p) = g (view_of p) ->
  Simulates p (on_peer f) (on_channels g).
Proof. intros Hp' Hv h d. exists (Ok tt), (f p), h, d. split; [done|]. split; [done|]. split; [done|]. intros ->. split; [done|]. by rewrite Hv. Qed.
(** An update the specification does not make (yet). *)
Lemma sim_step {A} p f (k : unit -> M (dstate (D := D)) A) n :
  view_of (f p) = view_of p -> Simulates (f p) (k tt) n -> Simulates p (on_peer f ≫= k) n.
Proof.
  intros Hv Hk h d. destruct (Hk h d) as (r & p' & h' & d' & E & Hp' & Hr & Hs). exists r, p', h', d'.
  split; [exact E|]. split; [done|]. split; [done|]. rewrite Hv in Hs. exact Hs.
Qed.
End simulation.

(** A rule at a well-formed peer. *)
Tactic Notation "sim_rule" uconstr(rule) := eapply rule; [assumption|..].

Section calls.
Context {D : Type} `{!DvcHost D} `{!DvcHostLaws D}.

Lemma open_count_bound p : peer_ok p -> 0 <= dynamic_channel_count p <= RDP_SERVER_MAX_DYNAMIC_CHANNELS.
Proof.
  intros [Hs ->]. rewrite <- (ss_size _ Hs). unfold open_count, blen.
  pose proof (length_filter (fun c => sd_open c = true) (dynamic_channels p)). lia.
Qed.

(** A change of one slot and of the count with it. *)
Section change.
Context (p : dvc_peer) (Hp : peer_ok p) (i : nat) (c : rdp_server_dynamic_channel) (Hi : dynamic_channels p !! i = Some c).

Lemma change_ok c' n : slot_ok c' ->
  (if sd_used c' then (sd_used c = true /\ sd_channel_id c' = sd_channel_id c) \/ table_of p !! sd_channel_id c' = None else True) ->
  n = dynamic_channel_count p - Z.b2z (sd_open c) + Z.b2z (sd_open c') ->
  peer_ok (set_count n (set_slot i c' p)).
Proof.
  intros Hc' Hid ->. destruct (set_slot_table _ i c Hi (pk_slots _ Hp) c' Hc' Hid) as [Hs _]. split; [exact Hs|]. cbn.
  rewrite (open_count_insert _ i c Hi), <- (pk_count _ Hp). done.
Qed.
Lemma change_replace c' n : slot_ok c' -> sd_used c = true -> sd_used c' = true -> sd_channel_id c' = sd_channel_id c ->
  view_of (set_count n (set_slot i c' p)) = (<[sd_channel_id c := entry_of c']> (table_of p), control p).
Proof.
  intros Hc' Hu Hu' Hid. destruct (set_slot_table _ i c Hi (pk_slots _ Hp) c' Hc') as [_ H].
  { rewrite Hu'. by left. }
  unfold view_of, table_of. cbn [dynamic_channels set_count set_slot control]. rewrite H, Hu, Hu', Hid. cbv zeta. by rewrite insert_delete_eq.
Qed.
Lemma change_insert c' n : slot_ok c' -> sd_used c = false -> sd_used c' = true -> table_of p !! sd_channel_id c' = None ->
  view_of (set_count n (set_slot i c' p)) = (<[sd_channel_id c' := entry_of c']> (table_of p), control p).
Proof.
  intros Hc' Hu Hu' Hid. destruct (set_slot_table _ i c Hi (pk_slots _ Hp) c' Hc') as [_ H].
  { rewrite Hu'. by right. }
  unfold view_of, table_of. cbn [dynamic_channels set_count set_slot control]. by rewrite H, Hu, Hu'.
Qed.
Lemma change_clear n : sd_used c = true ->
  view_of (set_count n (set_slot i zero_slot p)) = (delete (sd_channel_id c) (table_of p), control p).
Proof.
  intros Hu. destruct (set_slot_table _ i c Hi (pk_slots _ Hp) zero_slot zero_slot_ok) as [_ H]; [done|].
  unfold view_of, table_of. cbn [dynamic_channels set_count set_slot control]. by rewrite H, Hu.
Qed.
End change.
Lemma open_positive p i c : peer_ok p -> dynamic_channels p !! i = Some c -> sd_open c = true -> 1 <= dynamic_channel_count p.
Proof.
  intros Hp Hi Ho. rewrite (pk_count _ Hp), (open_count_proper _ _ (slots_front _ i c Hi)), open_count_cons, Ho.
  pose proof (blen_nonneg (filter (fun c => sd_open c = true) (delete i (dynamic_channels p)))). unfold open_count. cbn [Z.b2z]. lia.
Qed.
Lemma used_open c : sd_open c = true -> sd_used c = true.
Proof. unfold sd_used. by intros ->. Qed.
Lemma u32_count n : -1 <= n - 1 -> n <= RDP_SERVER_MAX_DYNAMIC_CHANNELS -> 0 <= n -> u32 (n + 1) = n + 1.
Proof. unfold RDP_SERVER_MAX_DYNAMIC_CHANNELS, u32. intros. apply Z.mod_small. lia. Qed.

Lemma control_ok p c : peer_ok p -> peer_ok (set_control c p).
Proof. intros [Hs Hc]. by split. Qed.

(** *** The calls of the server *)

Lemma start_simulates p : peer_ok p -> Simulates p rdp_server_dynamic_channels_start spec_start.
Proof.
  intros Hp. apply sim_get. cbn [view_of]. destruct (_ =? 0); [by apply sim_ret|]. sim_rule sim_require; [done|]. intros _.
  destruct (_ || _); [by apply sim_ret|]. sim_rule sim_same; [apply same_packet; auto with total nocore|]. intros b Hb.
  sim_rule sim_same; [by apply same_send_packet|]. intros _ _. apply sim_update_last; [by apply control_ok|done].
Qed.

Lemma send_simulates p id v : peer_ok p -> 0 <= view_len v ->
  Simulates p (librdp_server_peer_send_dynamic_channel_data id v) (spec_send id v).
Proof.
  intros Hp Hv. sim_rule sim_require; [done|]. intros Hnull. apply sim_get. cbn [view_of]. sim_rule sim_require; [done|]. intros _.
  sim_rule sim_require; [by rewrite Z.leb_antisym|]. intros _. sim_rule sim_opt.
  pose proof (find_open_table p (pk_slots _ Hp) id) as Hf. destruct (rdp_server_find_dynamic_channel p id) as [[i c]|]; [|by rewrite Hf].
  destruct Hf as (Hi & Ho & Hid & ->). cbn [en_channel_id_bytes en_priority entry_of].
  sim_rule sim_same; [apply same_send_message; [done|]|].
  { intros Hn. rewrite Hn in Hnull. cbn [andb] in Hnull. guard_lia. }
  intros _ _. unfold entry_identity, identity. cbn [en_priority en_name entry_of]. rewrite Hid.
  sim_rule sim_same_last. apply same_notify.
Qed.

Lemma close_simulates p id : peer_ok p -> Simulates p (librdp_server_peer_close_dynamic_channel id) (spec_close id).
Proof.
  intros Hp. apply sim_get. cbn [view_of]. sim_rule sim_require; [done|]. intros _. sim_rule sim_opt.
  pose proof (find_open_table p (pk_slots _ Hp) id) as Hf. destruct (rdp_server_find_dynamic_channel p id) as [[i c]|]; [|by rewrite Hf].
  destruct Hf as (Hi & Ho & Hid & ->). cbn [en_channel_id_bytes entry_of].
  pose proof (used_slot_ok p (pk_slots _ Hp) i c Hi) as [Hfl Hbuf Hfr Hname Hids].
  sim_rule sim_same; [apply same_packet; auto with total nocore|]. intros b Hb.
  sim_rule sim_same; [by apply same_send_packet|]. intros _ _.
  set (c' := set_fragment _ _ _). rewrite Ho in Hfl. bool_prop.
  pose proof (used_open c Ho) as Hu.
  assert (Hc' : slot_ok c').
  { split; cbn; [|apply buffer_init_wf|by left|done|]; [by repeat match goal with H : _ = false |- _ => rewrite H end|]. intros _. by apply Hids. }
  pose proof (open_count_bound p Hp) as Hn. pose proof (open_positive p i c Hp Hi Ho) as Hpos.
  assert (Hu' : sd_used c' = true) by (unfold sd_used; cbn; by rewrite orb_true_r).
  apply sim_update; [|apply sim_step; [done|]].
  { rewrite <- Hid. change (set_slot i c' p) with (set_count (dynamic_channel_count p) (set_slot i c' p)).
    rewrite (change_replace p Hp i c Hi c') by done. unfold with_phase, entry_of, phase_of. cbn. by repeat match goal with H : _ = false |- _ => rewrite H end. }
  unfold entry_identity, identity. cbn [en_priority en_name entry_of]. rewrite Hid.
  eapply sim_same_last; [|apply same_notify]. apply (change_ok p Hp i c Hi); [done|rewrite Hu'; by left|].
  rewrite Ho. cbn. unfold u32. rewrite Z.mod_small; [lia|]. unfold RDP_SERVER_MAX_DYNAMIC_CHANNELS in Hn. lia.
Qed.

Lemma sim_require_true {A} p c st (k : unit -> M (dstate (D := D)) A) n :
  c = true -> Simulates p (k tt) n -> Simulates p (require c st ≫= k) n.
Proof. intros -> Hk h d. rewrite bind_require. apply Hk. Qed.

Lemma find_any_none p id : peer_ok p ->
  negb (bool_decide (is_Some (rdp_server_find_dynamic_channel_any p id))) = bool_decide (table_of p !! id = None).
Proof.
  intros Hp. pose proof (find_any_table p (pk_slots _ Hp) id) as H. destruct (rdp_server_find_dynamic_channel_any p id) as [[i c]|].
  - destruct H as (_ & _ & _ & ->). by rewrite bool_decide_true by done.
  - by rewrite H.
Qed.
Lemma select_id_fits id : is_u32 id -> id_fits (rdp_dynamic_channel_select_channel_id_bytes id) id.
Proof.
  unfold is_u32, id_fits, rdp_dynamic_channel_select_channel_id_bytes, UINT32_MAX. intros.
  destruct (Z.leb_spec id 0xff); [|destruct (Z.leb_spec id 0xffff)]; lia.
Qed.
Lemma name_valid_length name : rdp_server_dynamic_channel_name_valid (Some name) = true -> blen name < RDP_SERVER_DYNAMIC_CHANNEL_NAME_CAPACITY.
Proof.
  assert (H : forall l n m, 0 <= n < 64 -> name_valid_loop l n = Some m -> m = n + blen l /\ m < 64).
  { induction l as [|ch l IH]; intros n m Hn; cbn [name_valid_loop]; [intros [= <-]; change (blen (@nil Z)) with 0; lia|].
    unfold RDP_SERVER_DYNAMIC_CHANNEL_NAME_CAPACITY. destruct (Z.leb_spec (64 - 1) n); [done|]. cbn [orb]. destruct (_ || _); [done|].
    intros E%IH; [|lia]. rewrite blen_cons. lia. }
  unfold rdp_server_dynamic_channel_name_valid. destruct (name_valid_loop name 0) as [m|] eqn:E; [|done]. intros _.
  apply H in E; [|lia]. unfold RDP_SERVER_DYNAMIC_CHANNEL_NAME_CAPACITY. lia.
Qed.

Lemma open_simulates p id prio name : peer_ok p -> is_u32 id -> 0 <= prio ->
  Simulates p (librdp_server_peer_open_dynamic_channel id prio name) (spec_open id prio name).
Proof.
  intros Hp Hid Hprio. sim_rule sim_require; [done|]. intros [[_ Hpr%Z.ltb_ge]%orb_false_iff Hname%negb_false_iff]%negb_true_iff%orb_false_iff. apply sim_get. cbn [view_of].
  sim_rule sim_require; [by destruct (active (control p)), (dynamic_channels_ready (control p)), (static_channel_id (control p) =? 0)|]. intros _.
  sim_rule sim_require; [by apply find_any_none|]. intros Hfree%bool_decide_eq_true.
  sim_rule sim_opt_require. pose proof (allocate_table p (pk_slots _ Hp)) as Ha.
  destruct (rdp_server_allocate_dynamic_channel p) as [[i c]|]; [|by rewrite Ha, Z.ltb_irrefl]. destruct Ha as (Hi & Hu & Hsize).
  split; [by apply Z.ltb_lt|].
  apply sim_require_true.
  { unfold rdp_dynamic_channel_select_channel_id_bytes. by repeat case_match. }
  set (name' := default [] name).
  sim_rule sim_same; [apply same_packet; auto with total nocore|]. intros b Hb. sim_rule sim_same; [by apply same_send_packet|]. intros _ _.
  set (c' := mk_slot _ _ _ _ _ _ _ _ _ _).
  assert (Hc' : slot_ok c').
  { split; cbn; [done|apply buffer_init_wf|by left| |].
    - destruct name as [l|]; [|done]. by apply name_valid_length.
    - intros _. split; [by apply select_id_fits|lia]. }
  assert (Hu0 : sd_open c = false) by (unfold sd_used in Hu; by destruct (sd_open c)).
  apply sim_update.
  { change (set_slot i c' p) with (set_count (dynamic_channel_count p) (set_slot i c' p)). by rewrite (change_insert p Hp i c Hi c'). }
  eapply sim_same_last; [|apply same_notify].
  apply (change_ok p Hp i c Hi c' (dynamic_channel_count p) Hc'); [by right|]. rewrite Hu0. cbn. lia.
Qed.

Lemma cancel_slot_ok family c : slot_ok c ->
  slot_ok (cancel_slot family c) /\ sd_used (cancel_slot family c) = sd_used c /\ sd_open (cancel_slot family c) = sd_open c /\
  sd_channel_id (cancel_slot family c) = sd_channel_id c /\ entry_of (cancel_slot family c) = cancel_entry family (entry_of c).
Proof.
  intros Hok. pose proof (so_flags _ Hok) as Hfl. unfold cancel_slot, cancel_entry. cbn [en_phase en_name entry_of].
  unfold phase_of. destruct (sd_pending_open c) eqn:Hpe; cbn [negb orb].
  2: { split_and!; try done. by destruct (sd_open c). }
  destruct (sd_open c) eqn:Ho; cbn in Hfl; [discriminate|].
  destruct (sd_cancelled_open c) eqn:Hc; [done|]. destruct (host_family (sd_name c) =? family); [|done].
  split; [|unfold sd_used, slot_with, entry_of, with_phase, phase_of; cbn; by rewrite Ho, Hpe].
  destruct Hok as [_ Hb Hfr Hn Hi]. split; cbn; try done; rewrite ?Ho, ?Hpe; try done; [rewrite <- Ho; exact Hfr|].
  intros _. apply Hi. unfold sd_used. by rewrite Hpe, orb_true_r.
Qed.
Lemma keyed_cancel family slots : Forall slot_ok slots ->
  keyed (cancel_slot family <$> slots) = prod_map id (cancel_entry family) <$> keyed slots /\
  open_count (cancel_slot family <$> slots) = open_count slots.
Proof.
  induction 1 as [|c slots Hc _ [IHk IHc]]; [done|]. rewrite fmap_cons, !keyed_cons, !open_count_cons.
  destruct (cancel_slot_ok family c Hc) as (_ & -> & -> & -> & ->). rewrite IHc, IHk. by destruct (sd_used c).
Qed.

Lemma cancel_simulates p family : peer_ok p ->
  Simulates p (rdp_server_dynamic_channels_cancel_pending_family family) (on_table (fmap (cancel_entry family))).
Proof.
  intros [[Hsize Hd Hall] Hcount]. destruct (keyed_cancel family _ Hall) as [Hk Ho]. apply sim_update_last.
  - split; [split|]; cbn [dynamic_channels dynamic_channel_count].
    + unfold blen. by rewrite length_fmap.
    + rewrite Hk, <- list_fmap_compose. exact Hd.
    + apply Forall_fmap. eapply list.Forall_impl; [exact Hall|]. intros c Hc. by apply cancel_slot_ok.
    + by rewrite Ho.
  - unfold view_of, table_of, slots_table. cbn [dynamic_channels control fst snd]. by rewrite Hk, list_to_map_fmap.
Qed.

(** A peer without channels. *)
Definition empty_slots : list rdp_server_dynamic_channel := replicate (Z.to_nat RDP_SERVER_MAX_DYNAMIC_CHANNELS) zero_slot.
Lemma empty_peer_ok c : peer_ok (mk_peer empty_slots 0 c) /\ table_of (mk_peer empty_slots 0 c) = ∅.
Proof.
  split; [|done]. split; [split|done]; [done|apply NoDup_nil_2|]. apply Forall_replicate, zero_slot_ok.
Qed.
Lemma close_events_same (slots : list rdp_server_dynamic_channel) : Same (fun _ => True) (close_events slots) (spec_close_events (keyed slots)).
Proof.
  induction slots as [|c slots IH]; [by apply same_ret|]. rewrite keyed_cons. cbn [close_events]. destruct (sd_used c).
  - cbn [spec_close_events]. eapply same_bind; [apply same_notify|]. intros _ _. exact IH.
  - intros p q h d. destruct (IH p q h d) as (r & h' & d' & H). by exists r, h', d'.
Qed.
Lemma reset_simulates p emit : peer_ok p ->
  Simulates p (rdp_server_dynamic_channels_reset emit) (spec_reset (keyed (dynamic_channels p)) emit).
Proof.
  intros Hp.
  assert (Hlast : Simulates p (on_peer (D := D) (fun peer => mk_peer empty_slots 0 (reset_control (control peer))))
                    (on_channels (fun s => (∅, reset_control s.2)))).
  { destruct (empty_peer_ok (reset_control (control p))) as [Hok Ht]. apply sim_update_last; [done|]. unfold view_of. by rewrite Ht. }
  intros h d. unfold rdp_server_dynamic_channels_reset, spec_reset. destruct emit.
  - refine (sim_same p Hp _ _ _ _ _ (close_events_same (dynamic_channels p)) _ h d). intros _ _. exact Hlast.
  - apply Hlast.
Qed.

(** *** The client's PDUs *)

Lemma create_response_simulates p response : peer_ok p ->
  Simulates p (rdp_server_dynamic_handle_create_response response) (spec_create_response response).
Proof.
  intros Hp. set (rid := dcs_channel_id response).
  pose proof (find_pending_table p (pk_slots _ Hp) rid) as Hf. unfold rdp_server_dynamic_handle_create_response, spec_create_response.
  apply sim_get. cbn [view_of]. fold rid. destruct (rdp_server_find_pending_dynamic_channel p rid) as [[i c]|].
  2: { intros h d. exists (Err LIBRDP_STATUS_PROTOCOL_ERROR), p, h, d. split; [done|]. split; [done|]. split; [done|]. intros ->. split; [done|].
       unfold awaited in Hf. destruct (table_of p !! rid) as [[w prio nm []]|]; done. }
  destruct Hf as (Hi & Hpe & Ho & Hid & _ & Hl). rewrite Hl. sim_rule sim_opt. cbn [en_phase entry_of]. unfold phase_of.
  rewrite Ho, Hpe.
  assert (Hu : sd_used c = true) by (unfold sd_used; by rewrite Hpe, orb_true_r).
  pose proof (used_slot_ok p (pk_slots _ Hp) i c Hi) as [Hfl Hbuf Hfr Hname Hids]. rewrite Ho, Hpe in Hfl.
  pose proof (change_clear p Hp i c Hi (dynamic_channel_count p) Hu) as Hclear. rewrite Hid in Hclear.
  assert (Hzero : peer_ok (set_count (dynamic_channel_count p) (set_slot i zero_slot p))).
  { apply (change_ok p Hp i c Hi); [apply zero_slot_ok|done|]. rewrite Ho. cbn. lia. }
  assert (Hident : identity c = entry_identity rid (entry_of c)) by (unfold identity, entry_identity; by rewrite Hid).
  destruct (sd_cancelled_open c) eqn:Hc; [apply sim_update_last; [exact Hzero|exact Hclear]|].
  destruct (dcs_status_code response =? RDP_DYNAMIC_CHANNEL_STATUS_OK); cbn [negb]; rewrite Hident.
  - set (c' := slot_with _ _ _ _ c). apply negb_true_iff in Hfl.
    assert (H0 : b_length (sd_fragment c) = 0) by (destruct Hfr as [|[? _]]; [done|congruence]).
    assert (Hc' : slot_ok c') by (split; cbn; try done; [by rewrite Hfl, ?Hc|by left|intros _; by apply Hids]).
    apply sim_update; [|apply sim_step; [done|]].
    { rewrite <- Hid. change (set_slot i c' p) with (set_count (dynamic_channel_count p) (set_slot i c' p)).
      rewrite (change_replace p Hp i c Hi c') by done. unfold with_phase, entry_of, phase_of, progress_of. cbn. by rewrite H0. }
    eapply sim_same_last; [|apply same_notify]. pose proof (open_count_bound p Hp).
    apply (change_ok p Hp i c Hi); [done|by left|]. rewrite Ho. cbn. unfold u32, RDP_SERVER_MAX_DYNAMIC_CHANNELS in *.
    rewrite Z.mod_small; lia.
  - sim_rule sim_same; [apply same_notify|]. intros _ _. apply sim_update_last; [exact Hzero|exact Hclear].
Qed.

Lemma set_slot_twice i c1 c2 p : set_slot i c2 (set_slot i c1 p) = set_slot i c2 p.
Proof. unfold set_slot. cbn. by rewrite list_insert_insert_eq. Qed.
Lemma set_slot_same i c p : dynamic_channels p !! i = Some c -> set_slot i c p = p.
Proof. intros Hi. unfold set_slot. rewrite list_insert_id by done. by destruct p. Qed.
Lemma set_length_0_wf b : buffer_wf b -> buffer_wf (set_length 0 b).
Proof.
  intros [Hv Hb Hl Hc]. apply state_valid_iff in Hv as [Hle Hn]. split; cbn; try done. apply state_valid_iff. cbn. split; [lia|done].
Qed.

(** More bytes for the message of an open channel. *)
Section receive.
Context (p : dvc_peer) (Hp : peer_ok p) (i : nat) (c : rdp_server_dynamic_channel) (Hi : dynamic_channels p !! i = Some c)
  (Ho : sd_open c = true) (total : Z) (l : list Z).
Hypothesis (Hfits : b_length (sd_fragment c) + blen l <= total) (Hmax : total <= RDP_SERVER_DYNAMIC_MESSAGE_MAX)
  (Hstart : b_length (sd_fragment c) = 0 \/ total = sd_fragment_expected c).

Let got := contents (sd_fragment c).
Let start := set_slot i (set_fragment (sd_fragment c) total c) p.

(** The slot with another fragment. *)
Lemma fragment_change b expected : buffer_wf b ->
  b_length b = 0 \/ b_length b < expected <= RDP_SERVER_DYNAMIC_MESSAGE_MAX ->
  peer_ok (set_slot i (set_fragment b expected c) p) /\
  view_of (set_slot i (set_fragment b expected c) p) =
    (<[sd_channel_id c := with_phase (Opened (if b_length b =? 0 then None else Some (expected, contents b))) (entry_of c)]> (table_of p), control p).
Proof.
  intros Hb Hlen. pose proof (used_slot_ok p (pk_slots _ Hp) i c Hi) as [Hfl Hbuf Hfr Hname Hids].
  pose proof (used_open c Ho) as Hu. set (c' := set_fragment b expected c).
  assert (Hc' : slot_ok c') by (split; cbn; try done; destruct Hlen; [by left|by right]).
  change (set_slot i c' p) with (set_count (dynamic_channel_count p) (set_slot i c' p)). split.
  - apply (change_ok p Hp i c Hi); [done|cbn; unfold sd_used in *; cbn in *; rewrite Hu; by left|cbn; lia].
  - rewrite (change_replace p Hp i c Hi c') by done. unfold entry_of at 1, phase_of, progress_of, with_phase. cbn. by rewrite Ho.
Qed.

Lemma receive_simulates h d : exists r p' h' d',
  (append_data i (optional_view l);; finish_message i) (start, (h, d)) = (r, (p', (h', d'))) /\ peer_ok p' /\ r <> Fault /\
  (h = [] -> h' = [] /\ spec_receive (sd_channel_id c) (entry_of c) total (got ++ l) (view_of p, (h, d)) = (r, (view_of p', (h', d')))).
Proof.
  assert (Hlt : (i < length (dynamic_channels p))%nat) by (by eapply lookup_lt_Some).
  pose proof (used_slot_ok p (pk_slots _ Hp) i c Hi) as [Hfl Hbuf Hfr Hname Hids]. destruct (optional_view_len l) as [Hvl Hvb].
  destruct (append_atomic l (optional_view l) Hvb Hvl (sd_fragment c) h Hbuf) as (r & b & h1 & E & Hb & Hr & Hok).
  assert (Ea : append_data i (optional_view l) (start, (h, d)) = (r, (set_slot i (set_fragment b total c) p, (h1, d)))).
  { unfold append_data, start. cbn [dynamic_channels set_slot]. rewrite list_lookup_insert_eq by done. cbn [sd_fragment set_fragment].
    rewrite E. by rewrite set_slot_twice. }
  pose proof (blen_contents _ Hbuf) as Hcl. pose proof (blen_contents _ Hb) as Hbl. pose proof (blen_nonneg l). pose proof (buffer_wf_length _ Hbuf).
  destruct Hr as [([] & -> & _ & Hc)|[-> Hc]].
  2: { exists (Err LIBRDP_STATUS_NO_MEMORY), (set_slot i (set_fragment b total c) p), h1, d.
       assert (Hbe : b_length b = b_length (sd_fragment c)) by (rewrite <- Hbl, Hc; exact Hcl).
       split; [exact (bind_err _ _ _ _ _ Ea)|]. split; [|split; [done|]].
       - apply fragment_change; [done|]. rewrite Hbe. destruct Hfr as [|[_ Hfr]], Hstart as [|Hs]; try (by left). right. by rewrite Hs.
       - intros ->. destruct Hok; [done| |done]. unfold RDP_SERVER_DYNAMIC_MESSAGE_MAX in Hmax. lia. }
  rewrite Hc, blen_app, Hcl in Hbl.
  assert (Hh : h = [] -> h1 = []).
  { intros Hh. destruct (Hok Hh) as [_ ->]; [|done]. unfold RDP_SERVER_DYNAMIC_MESSAGE_MAX in Hmax. lia. }
  rewrite (bind_ok _ _ _ _ _ Ea). unfold finish_message, spec_receive.
  set (c1 := set_fragment b total c). set (p1 := set_slot i c1 p).
  assert (Eg : get_slot (D := D) i (p1, (h1, d)) = (Ok c1, (p1, (h1, d)))).
  { unfold get_slot, p1. cbn [dynamic_channels set_slot fst]. by rewrite list_lookup_insert_eq. }
  rewrite (bind_ok _ _ _ _ _ Eg). cbn [sd_fragment sd_fragment_expected c1 set_fragment]. fold got in Hc. rewrite <- Hc.
  rewrite (blen_contents b Hb). destruct (Z.eqb_spec (b_length b) total) as [Et|Et].
  - assert (Hd : forall P (q : P), exists r2 d2, attempt (host (host_deliver (identity c1) (contents b))) (q, (h1, d)) = (Ok r2, (q, (h1, d2))) /\ r2 <> Fault /\
                   host_deliver (identity c1) (contents b) d = (r2, d2)).
    { intros P q. pose proof (host_deliver_safe (identity c1) (contents b) d) as Hf. unfold attempt, host, on_snd. cbn [fst snd].
      destruct (host_deliver (identity c1) (contents b) d) as [r2 d2]. exists r2, d2. by destruct r2. }
    destruct (Hd _ p1) as (r2 & d2 & E2 & Hr2 & E3).
    destruct (fragment_change (set_length 0 b) 0 (set_length_0_wf b Hb)) as [Hp2 Hv2]; [by left|].
    set (p2 := set_slot i (set_fragment (set_length 0 b) 0 c) p) in *. exists r2, p2, h1, d2. split; [|split; [done|split; [done|]]].
    + rewrite (bind_ok _ _ _ _ _ E2). transitivity (r2, (set_slot i (set_fragment (set_length 0 b) 0 c) p1, (h1, d2))); [done|].
      unfold p1. by rewrite set_slot_twice.
    + intros Hh'. split; [auto|]. destruct (Hd _ (view_of p)) as (r4 & d4 & E4 & _ & E5). rewrite E3 in E5. injection E5 as <- <-.
      specialize (Hh Hh'). subst h h1. change (entry_identity (sd_channel_id c) (entry_of c)) with (identity c1).
      rewrite (bind_ok _ _ _ _ _ E4), Hv2. done.
  - destruct (fragment_change b total Hb) as [Hp1 Hv1]; [right; lia|].
    exists (Ok tt), p1, h1, d. split; [done|]. split; [exact Hp1|]. split; [done|]. intros Hh'. specialize (Hh Hh'). subst h h1. split; [done|].
    unfold p1, c1. rewrite Hv1. done.
Qed.
End receive.

Section pdus.
Context (p : dvc_peer) (Hp : peer_ok p) (bs : list Z) (Hbs : bytes bs).

Lemma data_first_simulates : Simulates p (rdp_server_dynamic_handle_data_first (View bs)) (spec_data_first (View bs)).
Proof.
  sim_rule sim_lift; [by apply (dvc_parsers_safe bs Hbs)|]. intros pdu Hpdu. apply data_first_parsed in Hpdu as (_ & _ & Htot & l & Hl & _ & Hll); [|done].
  apply sim_get. cbn [view_of]. sim_rule sim_opt.
  pose proof (find_open_table p (pk_slots _ Hp) (df_channel_id pdu)) as Hf.
  destruct (rdp_server_find_dynamic_channel p (df_channel_id pdu)) as [[i c]|]; [|by rewrite Hf]. destruct Hf as (Hi & Ho & Hid & ->).
  pose proof (used_slot_ok p (pk_slots _ Hp) i c Hi) as [_ Hbuf _ _ _]. destruct (optional_view_len l) as [Hvl Hvb].
  sim_rule sim_require.
  { unfold progress_of. destruct (b_length (sd_fragment c) =? 0); [|done]. rewrite bool_decide_true by done. cbn. by rewrite Z.leb_antisym. }
  intros [Hnone%bool_decide_eq_true _]%andb_true_iff. sim_rule sim_require; [by rewrite Z.leb_antisym|]. intros Hmax%Z.leb_le.
  assert (H0 : b_length (sd_fragment c) = 0) by (unfold progress_of in Hnone; by destruct (Z.eqb_spec (b_length (sd_fragment c)) 0)).
  rewrite Hl, Hvb, <- Hid. intros h d.
  destruct (receive_simulates p Hp i c Hi Ho (df_total_length pdu) l) with (h := h) (d := d) as (r & p' & h' & d' & E & H); [lia|done|by left|].
  exists r, p', h', d'. split; [exact E|]. unfold contents in H. rewrite H0 in H. exact H.
Qed.

Lemma data_simulates : Simulates p (rdp_server_dynamic_handle_data (View bs)) (spec_data (View bs)).
Proof.
  sim_rule sim_lift; [by apply (dvc_parsers_safe bs Hbs)|]. intros pdu Hpdu. apply data_parsed in Hpdu as (_ & l & Hl & _); [|done].
  apply sim_get. cbn [view_of]. sim_rule sim_opt.
  pose proof (find_open_table p (pk_slots _ Hp) (dd_channel_id pdu)) as Hf.
  destruct (rdp_server_find_dynamic_channel p (dd_channel_id pdu)) as [[i c]|]; [|by rewrite Hf]. destruct Hf as (Hi & Ho & Hid & ->).
  pose proof (used_slot_ok p (pk_slots _ Hp) i c Hi) as [_ Hbuf Hfr _ _]. destruct (optional_view_len l) as [Hvl Hvb]. rewrite Hl, Hvl, Hvb.
  unfold progress_of. destruct (Z.eqb_spec (b_length (sd_fragment c)) 0) as [H0|H0].
  { rewrite <- Hid. eapply sim_same_last; [done|]. apply same_host, host_deliver_safe. }
  destruct Hfr as [|[_ Hfr]]; [done|]. pose proof (buffer_wf_length _ Hbuf). pose proof (blen_contents _ Hbuf) as Hcl. pose proof (blen_nonneg l).
  unfold RDP_SERVER_DYNAMIC_MESSAGE_MAX in Hfr.
  sim_rule sim_require.
  { rewrite Hcl, (proj2 (Z.ltb_ge _ _)) by lia. cbn [orb]. unfold size_t. rewrite Z.mod_small by lia. rewrite negb_orb. f_equal.
    destruct (Z.ltb_spec (sd_fragment_expected c - b_length (sd_fragment c)) (blen l)), (Z.leb_spec (b_length (sd_fragment c) + blen l) (sd_fragment_expected c)); done || lia. }
  intros [_ Hfits%Z.leb_le]%andb_true_iff. rewrite Hcl in Hfits. rewrite <- Hid. intros h d.
  destruct (receive_simulates p Hp i c Hi Ho (sd_fragment_expected c) l) with (h := h) (d := d) as (r & p' & h' & d' & E & H');
    [lia|unfold RDP_SERVER_DYNAMIC_MESSAGE_MAX; lia|by right|].
  exists r, p', h', d'. split; [|exact H'].
  assert (Hsame : set_slot i (set_fragment (sd_fragment c) (sd_fragment_expected c) c) p = p) by (apply set_slot_same; rewrite Hi; by destruct c).
  by rewrite Hsame in E.
Qed.

Lemma peer_close_simulates : Simulates p (rdp_server_dynamic_handle_close (View bs)) (spec_peer_close (View bs)).
Proof.
  sim_rule sim_lift; [by apply (dvc_parsers_safe bs Hbs)|]. intros pdu _. apply sim_get. cbn [view_of]. sim_rule sim_opt.
  pose proof (find_any_table p (pk_slots _ Hp) (dx_channel_id pdu)) as Hf.
  destruct (rdp_server_find_dynamic_channel_any p (dx_channel_id pdu)) as [[i c]|]; [|by rewrite Hf]. destruct Hf as (Hi & Hu & Hid & ->).
  pose proof (used_slot_ok p (pk_slots _ Hp) i c Hi) as [Hfl _ _ _ _]. pose proof (open_count_bound p Hp) as Hn.
  pose proof (fun n => change_clear p Hp i c Hi n Hu) as Hclear. rewrite Hid in Hclear.
  assert (Hident : identity c = entry_identity (dx_channel_id pdu) (entry_of c)) by (unfold identity, entry_identity; by rewrite Hid).
  cbn [en_phase entry_of]. unfold phase_of. unfold sd_used in Hu.
  destruct (sd_open c) eqn:Ho; [|destruct (sd_pending_open c) eqn:Hpe].
  - apply andb_true_iff in Hfl as [[Hpe%negb_true_iff Hcl%negb_true_iff]%andb_true_iff _]. rewrite Hcl, Hpe. cbn [negb orb].
    apply sim_require_true; [done|]. pose proof (open_positive p i c Hp Hi Ho) as Hpos.
    assert (Hu32 : u32 (dynamic_channel_count p - 1) = dynamic_channel_count p - 1).
    { unfold u32, RDP_SERVER_MAX_DYNAMIC_CHANNELS in *. rewrite Z.mod_small; lia. }
    rewrite Hident. intros h d. set (n := u32 (dynamic_channel_count p - 1)) in *.
    exists (Ok tt), (set_count n (set_slot i zero_slot p)), h, (host_notify (DVC_CLOSE (entry_identity (dx_channel_id pdu) (entry_of c))) d).
    split; [done|]. split; [|split; [done|]].
    + apply (change_ok p Hp i c Hi); [apply zero_slot_ok|done|]. rewrite Ho. cbn. lia.
    + intros Hh. split; [done|]. by rewrite Hclear.
  - apply negb_true_iff in Hfl. rewrite Hfl. cbn [negb orb]. intros h d. 
    exists (Err LIBRDP_STATUS_PROTOCOL_ERROR), p, h, d. destruct (sd_cancelled_open c); (split; [done|]); (split; [done|]); (split; [done|]); by intros ->.
  - cbn in Hu. rewrite Hu. apply sim_update_last.
    + apply (change_ok p Hp i c Hi zero_slot (dynamic_channel_count p)); [apply zero_slot_ok|done|]. rewrite Ho. cbn. lia.
    + exact (Hclear (dynamic_channel_count p)).
Qed.

(** The decision about a channel the client asks for. *)
Lemma sim_attempt_require {A B C} c c' st (k : unit -> M (dstate (D := D)) A) k' (K : res A -> M (dstate (D := D)) C) (K' : res B -> M (astate (D := D)) C) :
  c = c' -> (c' = true -> Simulates p (attempt (k tt) ≫= K) (attempt (k' tt) ≫= K')) -> (c' = false -> Simulates p (K (Err st)) (K' (Err st))) ->
  Simulates p (attempt (require c st ≫= k) ≫= K) (attempt (require c' st ≫= k') ≫= K').
Proof. intros -> Ht Hf. destruct c'; [by apply Ht|by apply Hf]. Qed.
Lemma sim_attempt_get {A C} (k : dvc_peer -> M (dstate (D := D)) A) (K : res A -> M (dstate (D := D)) C) n :
  Simulates p (attempt (k p) ≫= K) n -> Simulates p (attempt (get_peer ≫= k) ≫= K) n.
Proof. intros H h d. apply H. Qed.
Lemma sim_attempt_host {A B C X} (m : M D X) (k : X -> M (dstate (D := D)) A) k' (K : res A -> M (dstate (D := D)) C) (K' : res B -> M (astate (D := D)) C) :
  (forall d, (m d).1 <> Fault) -> (forall x, Simulates p (attempt (k x) ≫= K) (attempt (k' x) ≫= K')) ->
  (forall st, Simulates p (K (Err st)) (K' (Err st))) ->
  Simulates p (attempt (host m ≫= k) ≫= K) (attempt (host m ≫= k') ≫= K').
Proof.
  intros Hm Hk He h d. specialize (Hm d). destruct (m d) as [r d1] eqn:Em.
  assert (Eh : forall P (q : P), host m (q, (h, d)) = (r, (q, (h, d1)))) by (intros P q; unfold host, on_snd; cbn [fst snd]; by rewrite Em).
  destruct r as [x|st|]; [| |done].
  - destruct (Hk x h d1) as (r & p' & h' & d' & E & H). exists r, p', h', d'.
    split; [|destruct H as (? & ? & H); split; [done|]; split; [done|]; intros Hh; destruct (H Hh) as [? E']; split; [done|]].
    + rewrite <- E. unfold mbind at 1 3, M_bind, attempt. by rewrite (bind_ok _ _ _ _ _ (Eh _ p)).
    + rewrite <- E'. unfold mbind at 1 3, M_bind, attempt. by rewrite (bind_ok _ _ _ _ _ (Eh _ (view_of p))).
  - destruct (He st h d1) as (r & p' & h' & d' & E & H). exists r, p', h', d'.
    split; [|destruct H as (? & ? & H); split; [done|]; split; [done|]; intros Hh; destruct (H Hh) as [? E']; split; [done|]].
    + rewrite <- E. unfold mbind at 1, M_bind, attempt. by rewrite (bind_err _ _ _ _ _ (Eh _ p)).
    + rewrite <- E'. unfold mbind at 1, M_bind, attempt. by rewrite (bind_err _ _ _ _ _ (Eh _ (view_of p))).
Qed.

Lemma sim_attempt_ret {A B C} (a : A) (b : B) (K : res A -> M (dstate (D := D)) C) (K' : res B -> M (astate (D := D)) C) :
  Simulates p (K (Ok a)) (K' (Ok b)) -> Simulates p (attempt (mret a) ≫= K) (attempt (mret b) ≫= K').
Proof. intros H h d. apply H. Qed.
Lemma sim_attempt_opt {A B C X} (o : option X) c (k : X -> M (dstate (D := D)) A) (b : B) st (K : res A -> M (dstate (D := D)) C) (K' : res B -> M (astate (D := D)) C) :
  match o with
  | Some x => c = true /\ exists a, k x = mret a /\ Simulates p (K (Ok a)) (K' (Ok b))
  | None => c = false /\ Simulates p (K (Err st)) (K' (Err st))
  end ->
  Simulates p (attempt (opt_require o st ≫= k) ≫= K) (attempt (require c st;; mret b) ≫= K').
Proof.
  destruct o as [x|]; [|intros [-> H] h d; apply H]. intros (-> & a & Hk & H) h d. destruct (H h d) as (r & p' & h' & d' & E & H').
  exists r, p', h', d'. split; [|exact H']. rewrite <- E. unfold mbind at 1 2, M_bind, attempt, opt_require, mret, M_ret. by rewrite Hk.
Qed.
(** The specification looks first. *)
Lemma sim_get_spec {A} m (k' : dvc_table * dvc_control -> M (astate (D := D)) A) : Simulates p m (k' (view_of p)) -> Simulates p m (get_table ≫= k').
Proof. intros H h d. apply H. Qed.
Lemma sim_get_code {A} (k : dvc_peer -> M (dstate (D := D)) A) n : Simulates p (k p) n -> Simulates p (get_peer ≫= k) n.
Proof. intros H h d. apply H. Qed.

Lemma create_simulates : Simulates p (rdp_server_dynamic_handle_create (View bs)) (spec_create (View bs)).
Proof.
  sim_rule sim_lift; [by apply (dvc_parsers_safe bs Hbs)|]. intros request Hreq. apply create_request_parsed in Hreq as [Hid Hprio]; [|done].
  apply sim_get_spec. cbn [view_of]. 
  set (info := mk_identity _ _ _).
  assert (Hrespond : forall status, Same (P := dvc_peer) (P' := dvc_table * dvc_control) (fun _ => True)
    (ignore (b ← packet (rdp_dynamic_channel_write_create_response (dcr_channel_id request) (dcr_channel_id_bytes request) status);
             rdp_server_send_dynamic_packet (control p) b))
    (ignore (b ← packet (rdp_dynamic_channel_write_create_response (dcr_channel_id request) (dcr_channel_id_bytes request) status);
             rdp_server_send_dynamic_packet (control p) b))).
  { intros status. eapply same_ignore. eapply same_bind; [apply same_packet; auto with total nocore|]. intros b. apply same_send_packet. }
  apply sim_attempt_require; [by rewrite <- Z.ltb_antisym| |].
  2: { intros _. apply sim_get_code. sim_rule sim_same; [apply Hrespond|]. intros _ _. by apply sim_fail. }
  intros Hname%Z.ltb_lt. apply sim_attempt_get. apply sim_attempt_require; [by apply find_any_none| |].
  2: { intros _. apply sim_get_code. sim_rule sim_same; [apply Hrespond|]. intros _ _. by apply sim_fail. }
  intros Hfree%bool_decide_eq_true. apply sim_attempt_host; [apply host_accept_safe| |].
  2: { intros st. apply sim_get_code. sim_rule sim_same; [apply Hrespond|]. intros _ _. by apply sim_fail. }
  intros [].
  2: { apply sim_attempt_ret, sim_get_code. sim_rule sim_same; [apply Hrespond|]. intros _ _. by apply sim_ret. }
  apply sim_attempt_get, sim_attempt_opt. pose proof (allocate_table p (pk_slots _ Hp)) as Ha.
  destruct (rdp_server_allocate_dynamic_channel p) as [[i c]|].
  2: { split; [by rewrite Ha|]. apply sim_get_code. sim_rule sim_same; [apply Hrespond|]. intros _ _. by apply sim_fail. }
  destruct Ha as (Hi & Hu & Hsize). split; [by apply Z.ltb_lt|]. exists (Some i). split; [done|]. apply sim_get_code. sim_rule sim_same; [apply Hrespond|]. intros _ _.
  set (c' := mk_slot _ _ _ _ _ _ _ _ _ _).
  assert (Hc' : slot_ok c') by (split; cbn; [done|apply buffer_init_wf|by left|done|done]).
  assert (Ho : sd_open c = false) by (unfold sd_used in Hu; by destruct (sd_open c)).
  assert (Hn : dynamic_channel_count p < RDP_SERVER_MAX_DYNAMIC_CHANNELS /\ 0 <= dynamic_channel_count p).
  { pose proof (open_count_bound p Hp) as Hn. split; [|lia]. pose proof (ss_size _ (pk_slots _ Hp)) as Hs.
    rewrite (pk_count _ Hp), <- Hs. unfold open_count, blen.
    assert (length (filter (fun c => sd_open c = true) (dynamic_channels p)) < length (dynamic_channels p))%nat; [|lia].
    apply (length_filter_lt _ _ c); [by eapply list_elem_of_lookup_2|by rewrite Ho]. }
  apply sim_update.
  { change (set_slot i c' p) with (set_count (dynamic_channel_count p) (set_slot i c' p)). by rewrite (change_insert p Hp i c Hi c'). }
  apply sim_step; [done|]. eapply sim_same_last; [|apply same_notify].
  apply (change_ok p Hp i c Hi c'); [done|by right|]. rewrite Ho. cbn. unfold u32, RDP_SERVER_MAX_DYNAMIC_CHANNELS in *. rewrite Z.mod_small; lia.
Qed.

(** *** Soft-sync and the dispatch *)

Lemma is_open_table id : is_open p id = bool_decide (is_Some (opened (table_of p) id)).
Proof.
  unfold is_open. pose proof (find_open_table p (pk_slots _ Hp) id) as H. destruct (rdp_server_find_dynamic_channel p id) as [[i c]|].
  - destruct H as (_ & _ & _ & ->). by rewrite !bool_decide_true.
  - by rewrite H, !bool_decide_false.
Qed.
Lemma channels_open_ext f g list n i : (forall id, f id = g id) -> channels_open_loop f list n i = channels_open_loop g list n i.
Proof.
  intros H. revert i. induction n as [|n IH]; intros i; [done|]. cbn [channels_open_loop]. destruct (rdp_dynamic_channel_soft_sync_channel_list_get_id list i); [|done..].
  by rewrite H, IH.
Qed.
Lemma select_ext c f g request k n i ts : (forall id, f id = g id) ->
  select_tunnels_loop c f request k n i ts = select_tunnels_loop c g request k n i ts.
Proof.
  intros H. revert i ts. induction n as [|n IH]; intros i ts; [done|]. cbn [select_tunnels_loop].
  destruct (rdp_dynamic_channel_soft_sync_request_get_list request i) as [list| |]; [|done..]. cbn [mbind res_bind].
  unfold rdp_server_soft_sync_channels_open. rewrite (channels_open_ext f g) by done. destruct (channels_open_loop g list _ 0); [|done..]. cbn.
  by rewrite !IH.
Qed.

Lemma channels_open_safe f l : tunnel_list_ok l ->
  (forall j id, is_u16 j -> l.2 !! Z.to_nat j = Some id -> rdp_dynamic_channel_soft_sync_channel_list_get_id (tunnel_list_view l) j = Ok id) ->
  rdp_server_soft_sync_channels_open f (tunnel_list_view l) <> Fault.
Proof.
  intros (_ & Hl16 & _) Hids. unfold UINT16_MAX in Hl16.
  assert (Hk : forall k j, 0 <= j -> j + Z.of_nat k <= blen l.2 -> channels_open_loop f (tunnel_list_view l) k j <> Fault).
  { induction k as [|k IHk]; intros j Hj Hjk; [done|]. cbn [channels_open_loop].
    destruct (lookup_lt_is_Some_2 l.2 (Z.to_nat j)) as [id Hid]; [unfold blen in *; lia|].
    rewrite (Hids j id) by (done || unfold is_u16; lia). destruct (f id); [|done]. apply IHk; lia. }
  apply Hk; cbn [sl_channel_count tunnel_list_view]; lia.
Qed.
Lemma select_safe c f request : rdp_dynamic_channel_parse_soft_sync_request (View bs) = Ok request ->
  rdp_server_select_soft_sync_tunnels c f request 2 <> Fault.
Proof.
  intros Hreq. unfold rdp_server_select_soft_sync_tunnels. destruct (_ || _); [done|].
  destruct (Z.eqb_spec (ss_tunnel_count request) 0) as [->|Hn]; [done|].
  apply soft_sync_request_inv in Hreq as (ls & Hls & Hlen & _ & _ & ->); [|done|done]. cbn [ss_tunnel_count]. unfold UINT16_MAX in Hlen.
  set (request := mk_soft_sync_request _ _ _ _).
  destruct (dvc_soft_sync_access request ls Hls eq_refl eq_refl) as [Hacc _].
  assert (H : forall n i ts, 0 <= i -> (i + Z.of_nat n <= blen ls) -> select_tunnels_loop c f request 2 n i ts <> Fault).
  { induction n as [|n IH]; intros i ts Hi Hin; [done|]. cbn [select_tunnels_loop].
    destruct (lookup_lt_is_Some_2 ls (Z.to_nat i)) as [l Hl]; [unfold blen in *; lia|].
    destruct (Hacc i l) as (-> & Hids & _); [unfold is_u16; lia|done|]. cbn [mbind res_bind].
    pose proof (channels_open_safe f l (Forall_lookup_1 _ _ _ _ Hls Hl) Hids) as Hch.
    destruct (rdp_server_soft_sync_channels_open f (tunnel_list_view l)) as [b| |]; [|done..]. cbn [mbind res_bind].
    destruct (_ || _); [apply IH; lia|]. destruct (_ <=? _); [done|]. apply IH; lia. }
  apply H; pose proof (blen_nonneg ls); lia.
Qed.

Lemma message_simulates : Simulates p (rdp_server_handle_dynamic_channel_message (View bs)) (spec_message (View bs)).
Proof.
  destruct (dvc_parsers_safe bs Hbs) as (H1 & H2 & H3 & H4 & H5 & H6 & H7 & H8 & H9 & H10 & _).
  sim_rule sim_require; [done|]. intros _. sim_rule sim_lift; [done|]. intros header _. apply sim_get. cbn [view_of].
  destruct (dh_command header =? RDP_DYNAMIC_CHANNEL_CMD_CAPABILITIES).
  { sim_rule sim_lift; [done|]. intros caps _. sim_rule sim_require; [done|]. intros _. by apply sim_update_last; [apply control_ok|]. }
  destruct (dynamic_channels_ready (control p)); cbn [negb]; [|by apply sim_fail].
  destruct (dh_command header =? RDP_DYNAMIC_CHANNEL_CMD_CREATE).
  { destruct (rdp_dynamic_channel_parse_create_response (View bs)) as [response|st|]; [|apply create_simulates|done].
    pose proof (find_pending_table p (pk_slots _ Hp) (dcs_channel_id response)) as Hf.
    destruct (rdp_server_find_pending_dynamic_channel p (dcs_channel_id response)) as [[i c]|].
    - destruct Hf as (_ & _ & _ & _ & -> & _). rewrite bool_decide_true by done. by apply create_response_simulates.
    - rewrite Hf, bool_decide_false by by intros []. apply create_simulates. }
  destruct (dh_command header =? RDP_DYNAMIC_CHANNEL_CMD_DATA_FIRST); [apply data_first_simulates|].
  destruct (dh_command header =? RDP_DYNAMIC_CHANNEL_CMD_DATA); [apply data_simulates|].
  destruct (dh_command header =? RDP_DYNAMIC_CHANNEL_CMD_CLOSE); [apply peer_close_simulates|].
  destruct (dh_command header =? RDP_DYNAMIC_CHANNEL_CMD_SOFT_SYNC_REQUEST); [|by apply sim_fail].
  sim_rule sim_lift; [done|]. intros request Hreq.
  assert (Hsel : rdp_server_select_soft_sync_tunnels (control p) (is_open p) request 2 =
                 rdp_server_select_soft_sync_tunnels (control p) (fun id => bool_decide (is_Some (opened (table_of p) id))) request 2).
  { unfold rdp_server_select_soft_sync_tunnels. destruct (_ || _); [done|]. apply select_ext, is_open_table. }
  rewrite Hsel. sim_rule sim_lift; [by apply select_safe|]. intros ts _. sim_rule sim_same; [apply same_packet; auto with total nocore|]. intros b Hb.
  sim_rule sim_same; [by apply same_send_packet|]. intros _ _. by apply sim_update_last; [apply control_ok|].
Qed.
End pdus.
End calls.

(** ** What the calls do together *)

Section reachability.
Context {D : Type} `{!DvcHost D}.

(** The arguments of a call: the widths of the C types, a message of octets. *)
Definition call_ok (call : dvc_call) : Prop :=
  match call with
  | CallOpen id priority _ => is_u32 id /\ 0 <= priority
  | CallSend _ v => 0 <= view_len v
  | CallMessage v => 0 <= view_len v /\ bytes (view_bytes v)
  | _ => True
  end.

(** The peer [rdp_server_dynamic_channels_reset] leaves, and what calls make of
    it, whatever their statuses; in between the rest of the server may change its
    own fields, the heap and the surroundings. *)
Inductive reachable : dstate (D := D) -> Prop :=
| reach_empty c h d : reachable (mk_peer empty_slots 0 c, (h, d))
| reach_call call r s s' : reachable s -> call_ok call -> run_call call s = (r, s') -> reachable s'
| reach_around p c h d h' d' : reachable (p, (h, d)) -> reachable (set_control c p, (h', d')).

Context `{!DvcHostLaws D}.

Lemma keyed_order p : peer_ok p -> keyed (dynamic_channels p) ≡ₚ map_to_list (table_of p).
Proof. intros Hp. symmetry. apply map_to_list_to_map, (ss_distinct _ (pk_slots _ Hp)). Qed.

Lemma null_message_simulates p n : peer_ok p -> 0 <= n ->
  Simulates p (rdp_server_handle_dynamic_channel_message (NullView n)) (spec_message (NullView n)).
Proof.
  intros Hp Hn. sim_rule sim_require; [done|]. intros _. sim_rule sim_lift; [done|]. intros header H. done.
Qed.

Lemma call_simulates p call : peer_ok p -> call_ok call -> Simulates p (run_call call) (spec_call (keyed (dynamic_channels p)) call).
Proof.
  intros Hp Hc. destruct call as [|id prio name|id v|id|family|emit|[n|bs]].
  - by apply start_simulates.
  - by apply open_simulates; [|apply Hc..].
  - by apply send_simulates.
  - by apply close_simulates.
  - by apply cancel_simulates.
  - by apply reset_simulates.
  - by apply null_message_simulates; [|apply Hc].
  - by apply message_simulates; [|apply Hc].
Qed.
Lemma reachable_ok s : reachable s -> peer_ok s.1.
Proof.
  induction 1 as [c h d|call r [p [h d]] s' _ Hp Hc E|p c h d h' d' _ Hp].
  - apply empty_peer_ok.
  - destruct (call_simulates p call Hp Hc h d) as (r' & p' & h' & d' & E' & Hp' & _). rewrite E in E'. by injection E' as -> ->.
  - by apply control_ok.
Qed.

(** The open channels in the order of their slots. *)
Definition listed (p : dvc_peer) : list rdp_server_dynamic_channel := filter (fun c => sd_open c = true) (dynamic_channels p).

Lemma channel_at_listed slots index seen : seen <= index ->
  channel_at_loop slots index seen = identity <$> filter (fun c => sd_open c = true) slots !! Z.to_nat (index - seen).
Proof.
  revert seen. induction slots as [|c slots IH]; intros seen Hs; [done|]. cbn [channel_at_loop]. rewrite filter_cons.
  destruct (sd_open c); cbn [negb]; case_decide; try done; [|by apply IH]. destruct (Z.eqb_spec seen index) as [->|Hne].
  - by rewrite Z.sub_diag.
  - rewrite IH by lia. by replace (Z.to_nat (index - seen)) with (S (Z.to_nat (index - (seen + 1)))) by lia.
Qed.
Lemma channel_at_Ok p k i : 0 <= k ->
  librdp_server_peer_dynamic_channel_at p k = Ok i <-> exists c, listed p !! Z.to_nat k = Some c /\ i = identity c.
Proof.
  intros Hk. unfold librdp_server_peer_dynamic_channel_at. rewrite channel_at_listed, Z.sub_0_r by done. fold (listed p).
  destruct (listed p !! Z.to_nat k) as [c|]; cbn; split; try done.
  - intros [= <-]. eauto.
  - by intros (c' & [= <-] & ->).
  - by intros (c' & ? & _).
Qed.
Lemma listed_used p c : c ∈ listed p <-> sd_open c = true /\ c ∈ dynamic_channels p.
Proof. unfold listed. by rewrite list_elem_of_filter. Qed.
Lemma listed_distinct slots : NoDup (keyed slots).*1 -> NoDup (sd_channel_id <$> filter (fun c => sd_open c = true) slots).
Proof.
  unfold keyed. rewrite <- list_fmap_compose. induction slots as [|c slots IH]; [by intros; apply NoDup_nil_2|].
  pose proof (used_open c) as Huo. rewrite !filter_cons.
  destruct (sd_open c), (sd_used c); repeat case_decide; try done; [|by specialize (Huo eq_refl)|].
  - rewrite !fmap_cons, !list.NoDup_cons. intros [Hc Hn]. split; [|by apply IH]. intros (c' & Hid & [Ho Hin]%list_elem_of_filter)%list_elem_of_fmap.
    apply Hc, list_elem_of_fmap. exists c'. split; [exact Hid|]. apply list_elem_of_filter. by rewrite (used_open c').
  - rewrite fmap_cons, list.NoDup_cons. intros [_ Hn]. by apply IH.
Qed.
Lemma opened_slot p id e a : peer_ok p -> opened (table_of p) id = Some (e, a) <->
  exists c, c ∈ listed p /\ sd_channel_id c = id /\ e = entry_of c /\ a = progress_of c.
Proof.
  intros Hp. split.
  - pose proof (find_open_table p (pk_slots _ Hp) id) as H. destruct (rdp_server_find_dynamic_channel p id) as [[i c]|]; [|by rewrite H].
    destruct H as (Hi & Ho & Hid & ->). intros [= <- <-]. exists c. split; [|done]. apply listed_used. split; [done|]. by eapply list_elem_of_lookup_2.
  - intros (c & [Ho [i Hi]%list_elem_of_lookup_1]%listed_used & <- & -> & ->). unfold opened.
    rewrite (used_lookup p (pk_slots _ Hp) i c Hi (used_open c Ho)). cbn [en_phase entry_of]. unfold phase_of. by rewrite Ho.
Qed.

Lemma listed_count p k : peer_ok p -> 0 <= k ->
  (exists i, librdp_server_peer_dynamic_channel_at p k = Ok i) <-> k < librdp_server_peer_dynamic_channel_count p.
Proof.
  intros Hp Hk. unfold librdp_server_peer_dynamic_channel_count. rewrite (pk_count _ Hp). unfold open_count. fold (listed p). split.
  - intros [i (c & Hc%lookup_lt_Some & _)%channel_at_Ok]; [|done]. unfold blen. lia.
  - unfold blen. intros Hlt. destruct (lookup_lt_is_Some_2 (listed p) (Z.to_nat k)) as [c Hc]; [lia|]. exists (identity c).
    apply channel_at_Ok; [done|]. eauto.
Qed.
Lemma listed_once p k k' i i' : peer_ok p -> 0 <= k -> 0 <= k' -> librdp_server_peer_dynamic_channel_at p k = Ok i ->
  librdp_server_peer_dynamic_channel_at p k' = Ok i' -> di_channel_id i = di_channel_id i' -> k = k'.
Proof.
  intros Hp Hk Hk' (c & Hc & ->)%channel_at_Ok (c' & Hc' & ->)%channel_at_Ok Hid; [|done..].
  pose proof (listed_distinct _ (ss_distinct _ (pk_slots _ Hp))) as Hn. fold (listed p) in Hn.
  assert (Z.to_nat k = Z.to_nat k'); [|lia]. apply (NoDup_lookup _ _ _ (sd_channel_id c) Hn).
  - by rewrite list_lookup_fmap, Hc.
  - rewrite list_lookup_fmap, Hc'. cbn. f_equal. by symmetry.
Qed.
Lemma listed_opened p i : peer_ok p -> (exists k, 0 <= k /\ librdp_server_peer_dynamic_channel_at p k = Ok i) <->
  (exists e a, opened (table_of p) (di_channel_id i) = Some (e, a) /\ i = entry_identity (di_channel_id i) e).
Proof.
  intros Hp. split.
  - intros (k & Hk & (c & Hc%list_elem_of_lookup_2 & ->)%channel_at_Ok); [|done]. exists (entry_of c), (progress_of c).
    split; [|done]. apply opened_slot; [done|]. by exists c.
  - intros (e & a & (c & Hc & Hid & -> & _)%opened_slot & Hi); [|done]. apply list_elem_of_lookup_1 in Hc as [k Hc]. exists (Z.of_nat k).
    split; [lia|]. apply channel_at_Ok; [lia|]. exists c. rewrite Nat2Z.id. split; [done|]. rewrite Hi, <- Hid. done.
Qed.
Lemma opened_progress p id e total got : peer_ok p -> opened (table_of p) id = Some (e, Some (total, got)) ->
  0 < blen got < total /\ total <= RDP_SERVER_DYNAMIC_MESSAGE_MAX.
Proof.
  intros Hp (c & [_ Hc]%listed_used & _ & _ & Ha)%opened_slot; [|done]. pose proof (ss_slots _ (pk_slots _ Hp)) as Hs.
  rewrite list.Forall_forall in Hs. destruct (Hs c Hc) as [_ Hb Hf _ _]. unfold progress_of in Ha.
  destruct (Z.eqb_spec (b_length (sd_fragment c)) 0) as [|Hne]; [done|]. injection Ha as -> ->. destruct Hf as [|[_ Hf]]; [done|].
  pose proof (buffer_wf_length _ Hb). rewrite blen_contents by done. lia.
Qed.

(** C8: The slots of the server's dynamic channels implement a finite map from
    channel numbers to the phase of their life: from every well-formed peer, every
    call of [server_channels.c] that changes the table - opening, sending, closing,
    cancelling, reset, and every PDU of the client, with its refusals - ends in a
    well-formed peer without undefined behaviour whatever allocations fail, and if
    they succeed it has the status, the packets, the events and the table that the
    specification of the call gives; the close events of a reset come in some
    order of the table. *)
Theorem server_dvc_refines p call : peer_ok p -> call_ok call ->
  exists order, order ≡ₚ map_to_list (table_of p) /\ Simulates p (run_call call) (spec_call order call).
Proof.
  intros Hp Hc. exists (keyed (dynamic_channels p)). split; [by apply keyed_order|by apply call_simulates].
Qed.

(** C9: Whatever the calls so far and their failures, no call of the table is
    undefined, at most 64 channels are open, the enumeration
    [librdp_server_peer_dynamic_channel_at] gives exactly [count] of them, never
    the same channel number twice, and it gives a channel exactly if it is open in
    the table; and a message in progress is shorter than announced, and at most
    64 MiB. *)
Theorem server_dvc_invariant s : reachable s ->
  let p := s.1 in
  (forall call, call_ok call -> (run_call call s).1 <> Fault) /\
  0 <= librdp_server_peer_dynamic_channel_count p <= RDP_SERVER_MAX_DYNAMIC_CHANNELS /\
  (forall k, 0 <= k -> (exists i, librdp_server_peer_dynamic_channel_at p k = Ok i) <-> k < librdp_server_peer_dynamic_channel_count p) /\
  (forall k k' i i', 0 <= k -> 0 <= k' -> librdp_server_peer_dynamic_channel_at p k = Ok i ->
     librdp_server_peer_dynamic_channel_at p k' = Ok i' -> di_channel_id i = di_channel_id i' -> k = k') /\
  (forall i, (exists k, 0 <= k /\ librdp_server_peer_dynamic_channel_at p k = Ok i) <->
     (exists e a, opened (table_of p) (di_channel_id i) = Some (e, a) /\ i = entry_identity (di_channel_id i) e)) /\
  (forall id e total got, opened (table_of p) id = Some (e, Some (total, got)) -> 0 < blen got < total /\ total <= RDP_SERVER_DYNAMIC_MESSAGE_MAX).
Proof.
  intros Hs%reachable_ok. destruct s as [p [h d]]. cbn [fst] in *. split_and!.
  - intros call Hc. by destruct (call_simulates p call Hs Hc h d) as (r & p' & h' & d' & -> & _ & Hr & _).
  - by apply open_count_bound.
  - by apply open_count_bound.
  - intros k Hk. by apply listed_count.
  - intros k k' i i' Hk Hk' Hi Hi'. by apply (listed_once p k k' i i').
  - intros i. by apply listed_opened.
  - intros id e total got. by apply opened_progress.
Qed.
End reachability.

(** ** At concrete inputs *)

(** Surroundings that keep a log, accept every channel and take a name's length
    for its family. *)
Inductive log_item :=
| LogPacket (l : list Z)
| LogMessage (channel : dvc_identity) (l : list Z)
| LogEvent (e : dvc_event).
#[local] Instance log_host : DvcHost (list log_item) := {
  host_send l := modify (fun log => log ++ [LogPacket l]);
  host_overhead := 15;
  host_accept _ := mret true;
  host_deliver i l := modify (fun log => log ++ [LogMessage i l]);
  host_notify e log := log ++ [LogEvent e];
  host_family := blen;
}.
#[local] Instance log_host_laws : DvcHostLaws (list log_item).
Proof. split; done. Qed.

Definition sample_control : dvc_control := mk_control true 1004 true false false 0 true 5 0x8000 (false, false).
Definition run_calls (calls : list dvc_call) (s : dstate (D := list log_item)) : dstate (D := list log_item) :=
  foldl (fun s call => (run_call call s).2) s calls.
Lemma run_calls_reachable calls s : Forall call_ok calls -> reachable s -> reachable (run_calls calls s).
Proof.
  intros Hc. revert s. induction Hc as [|call calls Hok _ IH]; intros s Hs; [done|]. cbn [run_calls foldl]. apply IH.
  apply (reach_call call (run_call call s).1 s); [done..|]. by destruct (run_call call s).
Qed.

(** Capabilities; the client opens the channel 7; a first part of a message; the
    server asks for the channel 300. *)
Definition sample_calls : list dvc_call :=
  [CallStart; CallMessage (View [0x50; 0; 3; 0]); CallMessage (View [0x10; 7; 97; 98; 0]);
   CallMessage (View [0x20; 7; 4; 1; 2]); CallOpen 300 1 (Some [99; 100])].
Definition sample_state : dstate (D := list log_item) := run_calls sample_calls (mk_peer empty_slots 0 sample_control, ([], [])).
Lemma sample_reachable : reachable sample_state.
Proof. apply run_calls_reachable; [|apply reach_empty]. repeat constructor; try done; by_evaluation. Qed.

Lemma server_dvc_invariant_witness :
  librdp_server_peer_dynamic_channel_at sample_state.1 0 = Ok (mk_identity 7 0 [97; 98]) /\
  table_of sample_state.1 !! 300 = Some (mk_entry 2 1 [99; 100] Pending) /\
  (exists e, opened (table_of sample_state.1) 7 = Some (e, Some (4, [1; 2]))) /\
  (forall call, call_ok call -> (run_call call sample_state).1 <> Fault).
Proof.
  split; [by vm_compute|]. split; [by vm_compute|]. split; [by eexists; vm_compute|].
  apply (server_dvc_invariant sample_state sample_reachable).
Defined.

Lemma server_dvc_refines_witness :
  exists order, order ≡ₚ map_to_list (table_of sample_state.1) /\
    Simulates sample_state.1 (run_call (CallMessage (View [0x30; 7; 3; 4]))) (spec_call order (CallMessage (View [0x30; 7; 3; 4]))) /\
  (run_call (CallMessage (View [0x30; 7; 3; 4])) sample_state).2.2.2 =
    sample_state.2.2 ++ [LogMessage (mk_identity 7 0 [97; 98]) [1; 2; 3; 4]].
Proof.
  destruct (server_dvc_refines sample_state.1 (CallMessage (View [0x30; 7; 3; 4]))) as (order & Ho & Hs);
    [apply reachable_ok, sample_reachable|split; [done|by_evaluation]|].
  exists order. split; [exact Ho|]. split; [exact Hs|by vm_compute].
Defined.

(** A message announced by a first PDU without data is lost as a message: whether
    one is in progress is read off the length of the fragment, so the next data
    PDUs are dispatched as messages of their own. *)
Lemma server_empty_first_dispatched :
  let s := run_calls [CallStart; CallMessage (View [0x50; 0; 3; 0]); CallMessage (View [0x10; 7; 97; 98; 0])]
             (mk_peer empty_slots 0 sample_control, ([], [])) in
  let '(r1, s1) := run_call (CallMessage (View [0x20; 7; 4])) s in
  let '(r2, s2) := run_call (CallMessage (View [0x30; 7; 1; 2])) s1 in
  r1 = Ok tt /\ r2 = Ok tt /\ s2.2.2 = s.2.2 ++ [LogMessage (mk_identity 7 0 [97; 98]) [1; 2]].
Proof. by vm_compute. Qed.
