(* ===== verification/ClientDvc.v ===== *)
(** * ClientDvc: the dynamic channels of a client session

    Models the table of dynamic channels in [src/src/client/session_channels.c],
    the sending of their data in [src/src/client/session_protocol_io.c] and the
    handler of their PDUs, [rdp_session_handle_dynamic_channel] of
    [src/src/client/session.c]: channel numbers, handles with generations,
    opening by either end, reassembly of plain and compressed data, closing.
    The connection, the features behind the internal channels and the
    application are the class [ClientHost], the decompressor of a channel is the
    class [SegmentedDecoder]. *)

From stdpp Require Import strings.
From S2P Require Import Prelude Stream Buffer VirtualChannel DynamicChannel Reassembly ServerDvc.

Definition RDP_SESSION_MAX_DYNAMIC_CHANNELS : Z := 64.
Definition RDP_SESSION_DYNAMIC_CHANNEL_NAME_MAX : Z := 96.
Definition LIBRDP_CHANNEL_NAME_MAX : Z := 63.
Definition LIBRDP_CHANNEL_PRIORITY_REALTIME : Z := 3.
Definition RDP_SETTINGS_LIMIT_DYNAMIC_MESSAGE_BYTES : Z := 64 * 1024 * 1024.

(** [rdp_graphics_decompressor]: freed and cleared, initialised, reset, and
    [rdp_graphics_decode_segmented_data]. *)
Class SegmentedDecoder (G : Type) := {
  decoder_cleared : G;
  decoder_init : G;
  decoder_reset : G -> G;
  decode_segmented_data : list Z -> M G (list Z);
}.

(** An entry; [cd_name] is the string, without its terminator. *)
Record rdp_session_dynamic_channel (G : Type) := mk_channel_entry {
  cd_channel_id : Z;
  cd_generation : Z;
  cd_channel_id_bytes : Z;
  cd_priority : Z;
  cd_active : bool;
  cd_opening : bool;
  cd_client_initiated : bool;
  cd_fragmenting : bool;
  cd_fragment_expected : Z;
  cd_fragment : rdp_buffer;
  cd_decompressor : G;
  cd_name : list Z;
}.
Arguments mk_channel_entry {G}.
Arguments cd_channel_id {G}.
Arguments cd_generation {G}.
Arguments cd_channel_id_bytes {G}.
Arguments cd_priority {G}.
Arguments cd_active {G}.
Arguments cd_opening {G}.
Arguments cd_client_initiated {G}.
Arguments cd_fragmenting {G}.
Arguments cd_fragment_expected {G}.
Arguments cd_fragment {G}.
Arguments cd_decompressor {G}.
Arguments cd_name {G}.

(** The fields of the session beside the entries and the next number. *)
Record client_control := mk_client_control {
  cs_owner : bool;                        (** [rdp_session_require_owner] succeeds *)
  cs_connected : bool;                    (** [state] is CONNECTED or ACTIVE *)
  cs_dynamic_channel_id : Z;              (** the static channel *)
  limit_dynamic_channel_count : Z;
  limit_dynamic_channel_message_bytes : Z;
}.
Record client_session (G : Type) := mk_client_session {
  cs_dynamic_channels : list (rdp_session_dynamic_channel G);
  cs_next_dynamic_channel_id : Z;
  cs_control : client_control;
}.
Arguments mk_client_session {G}.
Arguments cs_dynamic_channels {G}.
Arguments cs_next_dynamic_channel_id {G}.
Arguments cs_control {G}.

(** What the surroundings learn of a channel. *)
Record client_identity := mk_client_identity { ci_channel_id : Z; ci_channel_id_bytes : Z; ci_name : list Z }.
(** A [librdp_channel_info] of its full size. *)
Record librdp_channel_info := mk_channel_info {
  info_handle : Z;
  info_channel_id : Z;
  info_priority : Z;
  info_active : bool;
  info_application_owned : bool;
  info_name : list Z;
}.

(** The rest of the session, of state [D]: the connection that takes a packet for a
    static channel (Standard Security, the send-data request and the socket in
    [rdp_session_write_channel_pdu]), the status for a channel the server asks for, what is set up once it is there
    (the branches over [request.name]), the event of a channel opened, the
    receiver of complete messages, the event and the resets of a channel closed,
    and the UDP transport that soft-sync selects. *)
Class ClientHost (D : Type) := {
  client_write : Z -> list Z -> M D unit;
  client_create_status : rdp_dynamic_channel_create_request -> D -> Z;
  client_created : rdp_dynamic_channel_create_request -> option client_identity -> M D unit;
  client_opened : client_identity -> D -> D;
  client_message : client_identity -> list Z -> M D unit;
  client_closed : client_identity -> D -> D;
  client_udp_ready : D -> bool;
  client_soft_synced : list Z -> D -> D;
}.

(** ** Internal channels *)

Definition c_string (s : string) : list Z := (fun a => Z.of_N (Ascii.N_of_ascii a)) <$> String.list_ascii_of_string s.
Definition internal_names : list (list Z) := c_string <$>
  ["ECHO"; "Microsoft::Windows::RDS::DisplayControl"; "Microsoft::Windows::RDS::CoreInput"; "Microsoft::Windows::RDS::Input";
   "Microsoft::Windows::RDS::Graphics"; "Microsoft::Windows::RDS::MouseCursor"; "Microsoft::Windows::RDS::AuthRedirection";
   "WebAuthN_Channel"; "urbdrc"; "Microsoft::Windows::RDS::Telemetry"; "dwmprox"; "Microsoft::Windows::RDS::Geometry::v08.01";
   "TSMF"; "Microsoft::Windows::RDS::Video::Control::v08.01"; "Microsoft::Windows::RDS::Video::Data::v08.01";
   "RDCamera_Device_Enumerator"; "rdpecam"; "AUDIO_INPUT"]%string.
Definition rdp_session_dynamic_channel_is_internal_name (name : list Z) : bool := bool_decide (name ∈ internal_names).

(** [i] characters are in front of the rest. *)
Fixpoint name_public_valid_loop (name : list Z) (i : Z) : option Z :=
  match name with
  | [] => Some i
  | ch :: name =>
      if (LIBRDP_CHANNEL_NAME_MAX <=? i) || (ch <? 0x21) || (0x7e <? ch) then None
      else name_public_valid_loop name (i + 1)
  end.
(** A C string or NULL. *)
Definition rdp_session_dynamic_channel_name_public_valid (name : option (list Z)) : bool :=
  match name with
  | None => false
  | Some name => match name_public_valid_loop name 0 with Some i => negb (i =? 0) | None => false end
  end.

Section entries.
Context {G : Type} `{!SegmentedDecoder G}.
Abbreviation entry := (rdp_session_dynamic_channel G).
Abbreviation session := (client_session G).

Definition cd_used (c : entry) : bool := cd_active c || cd_opening c.
Definition client_ident (c : entry) : client_identity := mk_client_identity (cd_channel_id c) (cd_channel_id_bytes c) (cd_name c).
(** With a message comes the width of the number in its PDU. *)
Definition message_ident (channel_id_bytes : Z) (c : entry) : client_identity := mk_client_identity (cd_channel_id c) channel_id_bytes (cd_name c).
Definition rdp_session_dynamic_channel_is_internal (c : entry) : bool := rdp_session_dynamic_channel_is_internal_name (cd_name c).

(** ** Entries and handles *)

(** The first entry that satisfies a condition. *)
Definition find_entry (f : entry -> bool) (s : session) : option (nat * entry) := list_find (fun c => f c = true) (cs_dynamic_channels s).

Definition rdp_session_dynamic_channel_find (s : session) (channel_id : Z) : option (nat * entry) :=
  find_entry (fun c => cd_active c && (cd_channel_id c =? channel_id)) s.
Definition rdp_session_dynamic_channel_find_any (s : session) (channel_id : Z) : option (nat * entry) :=
  find_entry (fun c => (cd_active c || cd_opening c) && (cd_channel_id c =? channel_id)) s.
Definition rdp_session_dynamic_channel_find_opening (s : session) (channel_id : Z) : option (nat * entry) :=
  match rdp_session_dynamic_channel_find_any s channel_id with
  | Some (i, c) => if cd_opening c && cd_client_initiated c then Some (i, c) else None
  | None => None
  end.

(** The entry at [i]: its slot, from 1, above its generation. *)
Definition rdp_session_dynamic_channel_handle (i : nat) (c : entry) : Z :=
  if cd_generation c =? 0 then 0 else Z.lor (size_t (Z.shiftl (Z.of_nat i + 1) 32)) (cd_generation c).
Definition rdp_session_dynamic_channel_from_handle (s : session) (handle : Z) : option (nat * entry) :=
  if handle =? 0 then None
  else
    let slot := Z.land (Z.shiftr handle 32) 0xffffffff in
    let generation := Z.land handle 0xffffffff in
    if (slot =? 0) || (RDP_SESSION_MAX_DYNAMIC_CHANNELS <? slot) || (generation =? 0) then None
    else
      match cs_dynamic_channels s !! Z.to_nat (slot - 1) with
      | Some c => if (negb (cd_active c) && negb (cd_opening c)) || negb (cd_generation c =? generation) then None
                  else Some (Z.to_nat (slot - 1), c)
      | None => None
      end.

Definition rdp_session_dynamic_channel_copy_info (i : nat) (c : entry) : librdp_channel_info :=
  mk_channel_info (rdp_session_dynamic_channel_handle i c) (cd_channel_id c) (cd_priority c) (cd_active c)
    (negb (rdp_session_dynamic_channel_is_internal c)) (ztake LIBRDP_CHANNEL_NAME_MAX (cd_name c)).

(** The search reads the entries up to the limit. *)
Definition rdp_session_dynamic_channel_free_slot (s : session) : res (option (nat * entry)) :=
  let limit := limit_dynamic_channel_count (cs_control s) in
  match list_find (fun c => negb (cd_active c) && negb (cd_opening c) = true) (ztake limit (cs_dynamic_channels s)) with
  | Some found => Ok (Some found)
  | None => if limit <=? blen (cs_dynamic_channels s) then Ok None else Fault
  end.

(** The loop over the candidates, [attempts] of them. *)
Fixpoint allocate_id_loop (attempts : nat) (s : session) (candidate : Z) : option Z :=
  match attempts with
  | O => None
  | S attempts =>
      let candidate := if candidate =? 0 then 1 else candidate in
      match rdp_session_dynamic_channel_find_any s candidate with
      | None => Some candidate
      | Some _ => allocate_id_loop attempts s (u32 (candidate + 1))
      end
  end.
Definition next_nonzero (n : Z) : Z := if u32 (n + 1) =? 0 then 1 else u32 (n + 1).

Definition rdp_session_dynamic_channel_clear_entry (c : entry) : entry :=
  mk_channel_entry 0 (next_nonzero (cd_generation c)) 0 0 false false false false 0 rdp_buffer_init decoder_cleared [].

Definition put_entry (i : nat) (c : entry) (s : session) : session :=
  mk_client_session (<[i := c]> (cs_dynamic_channels s)) (cs_next_dynamic_channel_id s) (cs_control s).
Definition set_next (n : Z) (s : session) : session := mk_client_session (cs_dynamic_channels s) n (cs_control s).
Definition set_client_control (k : client_control) (s : session) : session :=
  mk_client_session (cs_dynamic_channels s) (cs_next_dynamic_channel_id s) k.
(** The fields of an entry that change while it is in use. *)
Definition entry_with (active opening : bool) (c : entry) : entry :=
  mk_channel_entry (cd_channel_id c) (cd_generation c) (cd_channel_id_bytes c) (cd_priority c) active opening (cd_client_initiated c)
    (cd_fragmenting c) (cd_fragment_expected c) (cd_fragment c) (cd_decompressor c) (cd_name c).
Definition entry_fragment (fragmenting : bool) (expected : Z) (b : rdp_buffer) (c : entry) : entry :=
  mk_channel_entry (cd_channel_id c) (cd_generation c) (cd_channel_id_bytes c) (cd_priority c) (cd_active c) (cd_opening c)
    (cd_client_initiated c) fragmenting expected b (cd_decompressor c) (cd_name c).
Definition entry_decompressor (g : G) (c : entry) : entry :=
  mk_channel_entry (cd_channel_id c) (cd_generation c) (cd_channel_id_bytes c) (cd_priority c) (cd_active c) (cd_opening c)
    (cd_client_initiated c) (cd_fragmenting c) (cd_fragment_expected c) (cd_fragment c) g (cd_name c).
End entries.

(** ** The operations *)

Section operations.
Context {G D : Type} `{!SegmentedDecoder G} `{!ClientHost D}.
Abbreviation entry := (rdp_session_dynamic_channel G).
Abbreviation session := (client_session G).

Definition cstate : Type := session * (heap * D).

Definition get_session : M cstate session := gets fst.
Definition on_session (f : session -> session) : M cstate unit := on_channels f.
Definition store_entry (i : nat) (c : entry) : M cstate unit := on_session (put_entry i c).
Definition get_entry (i : nat) : M cstate entry := fun s =>
  match cs_dynamic_channels s.1 !! i with Some c => (Ok c, s) | None => (Fault, s) end.
Definition tell (f : D -> D) : M cstate unit := host (modify f).
Definition ask {A} (f : D -> A) : M cstate A := host (gets f).

Definition rdp_session_write_channel_pdu (channel_id : Z) (payload : rdp_buffer) : M cstate unit :=
  channel_packet ← packet (rdp_virtual_channel_write_packet (buffer_view payload) 3);
  host (client_write channel_id (contents channel_packet)).

Definition rdp_session_dynamic_channel_allocate_id : M cstate Z :=
  s ← get_session;
  let candidate := if cs_next_dynamic_channel_id s =? 0 then 1 else cs_next_dynamic_channel_id s in
  id ← opt_require (allocate_id_loop (Z.to_nat (RDP_SESSION_MAX_DYNAMIC_CHANNELS + 1)) s candidate) LIBRDP_STATUS_LIMIT_EXCEEDED;
  on_session (set_next (next_nonzero id));;
  mret id.

Definition rdp_session_dynamic_channel_add (request : rdp_dynamic_channel_create_request) : M cstate unit :=
  s ← get_session;
  require (negb (bool_decide (is_Some (rdp_session_dynamic_channel_find_any s (dcr_channel_id request))))) LIBRDP_STATUS_PROTOCOL_ERROR;;
  slot ← lift (rdp_session_dynamic_channel_free_slot s);
  '(i, c) ← opt_require slot LIBRDP_STATUS_LIMIT_EXCEEDED;
  store_entry i (mk_channel_entry (dcr_channel_id request) (cd_generation (rdp_session_dynamic_channel_clear_entry c))
    (dcr_channel_id_bytes request) (if dcr_priority request <=? 2 then dcr_priority request else 0) true false false false 0
    rdp_buffer_init decoder_init (ztake (RDP_SESSION_DYNAMIC_CHANNEL_NAME_MAX - 1) (dcr_name request))).

Definition rdp_session_dynamic_channel_add_opening (channel_id channel_id_bytes priority : Z) (name : list Z) : M cstate Z :=
  require (negb (blen name =? 0)) LIBRDP_STATUS_INVALID_ARGUMENT;;
  s ← get_session;
  require (negb (bool_decide (is_Some (rdp_session_dynamic_channel_find_any s channel_id)))) LIBRDP_STATUS_STATE;;
  slot ← lift (rdp_session_dynamic_channel_free_slot s);
  '(i, c) ← opt_require slot LIBRDP_STATUS_LIMIT_EXCEEDED;
  let c := mk_channel_entry channel_id (cd_generation (rdp_session_dynamic_channel_clear_entry c)) channel_id_bytes (u8 priority)
    false true true false 0 rdp_buffer_init decoder_init (ztake (RDP_SESSION_DYNAMIC_CHANNEL_NAME_MAX - 1) name) in
  store_entry i c;;
  let handle := rdp_session_dynamic_channel_handle i c in
  require (negb (handle =? 0)) LIBRDP_STATUS_STATE;;
  mret handle.

Definition rdp_session_dynamic_channels_clear : M cstate unit :=
  on_session (fun s => mk_client_session (rdp_session_dynamic_channel_clear_entry <$> cs_dynamic_channels s)
    (cs_next_dynamic_channel_id s) (cs_control s)).

(** The part over the dynamic channels. *)
Definition reset_fragment (c : entry) : entry :=
  if negb (cd_active c) && negb (cd_opening c) then c
  else entry_decompressor (decoder_reset (cd_decompressor c)) (entry_fragment false 0 (set_length 0 (cd_fragment c)) c).
Definition rdp_session_channels_reset_activation_fragments : M cstate unit :=
  on_session (fun s => mk_client_session (reset_fragment <$> cs_dynamic_channels s) (cs_next_dynamic_channel_id s) (cs_control s)).

(** *** The calls of the application *)

Definition ready (c : client_control) : bool := cs_connected c && negb (cs_dynamic_channel_id c =? 0).

Definition rdp_session_require_user_channel (channel_id : Z) : M cstate (nat * entry) :=
  require (negb (channel_id =? 0)) LIBRDP_STATUS_INVALID_ARGUMENT;;
  s ← get_session;
  require (ready (cs_control s)) LIBRDP_STATUS_STATE;;
  '(i, c) ← opt_require (rdp_session_dynamic_channel_find s channel_id) LIBRDP_STATUS_STATE;
  require (cd_active c) LIBRDP_STATUS_STATE;;
  require (negb (rdp_session_dynamic_channel_is_internal c)) LIBRDP_STATUS_UNSUPPORTED;;
  mret (i, c).

(** The entry of an open that failed is cleared. *)
Definition librdp_session_channel_open (name : option (list Z)) (priority : Z) : M cstate Z :=
  require (negb (negb (rdp_session_dynamic_channel_name_public_valid name) || (LIBRDP_CHANNEL_PRIORITY_REALTIME <? priority) ||
                 rdp_session_dynamic_channel_is_internal_name (default [] name))) LIBRDP_STATUS_INVALID_ARGUMENT;;
  let name := default [] name in
  s ← get_session;
  require (cs_owner (cs_control s)) LIBRDP_STATUS_STATE;;
  require (ready (cs_control s)) LIBRDP_STATUS_STATE;;
  allocated ← attempt rdp_session_dynamic_channel_allocate_id;
  let channel_id := match allocated with Ok id => id | _ => 0 end in
  outcome ← attempt (
    channel_id ← lift allocated;
    let channel_id_bytes := rdp_dynamic_channel_select_channel_id_bytes channel_id in
    handle ← rdp_session_dynamic_channel_add_opening channel_id channel_id_bytes priority name;
    create ← packet (rdp_dynamic_channel_write_create_request channel_id channel_id_bytes (u8 priority) (View name));
    rdp_session_write_channel_pdu (cs_dynamic_channel_id (cs_control s)) create;;
    mret handle);
  match outcome with
  | Ok handle => mret handle
  | Err st =>
      s ← get_session;
      match rdp_session_dynamic_channel_find_opening s channel_id with
      | Some (i, c) => store_entry i (rdp_session_dynamic_channel_clear_entry c)
      | None => mret tt
      end;;
      fail st
  | Fault => lift Fault
  end.

(** The infos of the active entries, the first [room] of them, and their number. *)
Fixpoint channel_list_loop (slots : list entry) (i : nat) (room : Z) : list librdp_channel_info * Z :=
  match slots with
  | [] => ([], 0)
  | c :: slots =>
      if negb (cd_active c) then channel_list_loop slots (S i) room
      else if 0 <? room then
        let '(infos, total) := channel_list_loop slots (S i) (room - 1) in
        (rdp_session_dynamic_channel_copy_info i c :: infos, total + 1)
      else let '(infos, total) := channel_list_loop slots (S i) room in (infos, total + 1)
  end.
Definition librdp_session_channel_list (capacity : Z) : M cstate (list librdp_channel_info * Z) :=
  s ← get_session;
  require (cs_owner (cs_control s)) LIBRDP_STATUS_STATE;;
  mret (channel_list_loop (cs_dynamic_channels s) 0 capacity).

Definition librdp_session_channel_handle_for_id (channel_id : Z) : M cstate Z :=
  require (negb (channel_id =? 0)) LIBRDP_STATUS_INVALID_ARGUMENT;;
  s ← get_session;
  require (cs_owner (cs_control s)) LIBRDP_STATUS_STATE;;
  '(i, c) ← opt_require (rdp_session_dynamic_channel_find s channel_id) LIBRDP_STATUS_STATE;
  require (cd_active c) LIBRDP_STATUS_STATE;;
  let handle := rdp_session_dynamic_channel_handle i c in
  require (negb (handle =? 0)) LIBRDP_STATUS_STATE;;
  mret handle.

Definition librdp_session_channel_get_info (handle : Z) : M cstate librdp_channel_info :=
  s ← get_session;
  require (cs_owner (cs_control s)) LIBRDP_STATUS_STATE;;
  '(i, c) ← opt_require (rdp_session_dynamic_channel_from_handle s handle) LIBRDP_STATUS_STATE;
  mret (rdp_session_dynamic_channel_copy_info i c).

Definition rdp_session_dynamic_channel_header_size (channel_id_bytes : Z) : Z := 1 + channel_id_bytes.
Definition rdp_session_dynamic_length_bytes (length : Z) : Z := if length <=? 0xff then 1 else if length <=? 0xffff then 2 else 4.

(** The loop over the data after the first packet: the packet is used again. *)
Fixpoint client_send_loop (fuel : nat) (static channel_id channel_id_bytes priority : Z) (data : list Z) (chunk_max : Z)
    (b : rdp_buffer) (offset : Z) : M cstate unit :=
  match fuel with
  | O => lift Fault
  | S fuel =>
      if offset <? blen data then
        let remaining := blen data - offset in
        let chunk := if remaining <? chunk_max then remaining else chunk_max in
        part ← lift (slice data offset chunk);
        b ← packet_again b (rdp_dynamic_channel_write_data_ex channel_id channel_id_bytes priority (View part));
        rdp_session_write_channel_pdu static b;;
        client_send_loop fuel static channel_id channel_id_bytes priority data chunk_max b (offset + chunk)
      else mret tt
  end.
Definition rdp_session_send_dynamic_channel_data_priority (channel_id channel_id_bytes priority : Z) (data : view) : M cstate unit :=
  s ← get_session;
  let static := cs_dynamic_channel_id (cs_control s) in
  require (negb ((view_null data && (0 <? view_len data)) || (static =? 0))) LIBRDP_STATUS_INVALID_ARGUMENT;;
  require (negb (UINT32_MAX <? view_len data)) LIBRDP_STATUS_INVALID_ARGUMENT;;
  let header_size := rdp_session_dynamic_channel_header_size channel_id_bytes in
  require (negb (RDP_DYNAMIC_CHANNEL_MAX_PDU_SIZE <=? header_size)) LIBRDP_STATUS_INVALID_ARGUMENT;;
  if view_len data <=? RDP_DYNAMIC_CHANNEL_MAX_PDU_SIZE - header_size then
    b ← packet (rdp_dynamic_channel_write_data_ex channel_id channel_id_bytes priority data);
    rdp_session_write_channel_pdu static b
  else
    let chunk_max := size_t (RDP_DYNAMIC_CHANNEL_MAX_PDU_SIZE - header_size - rdp_session_dynamic_length_bytes (view_len data)) in
    require (negb (chunk_max =? 0)) LIBRDP_STATUS_INVALID_ARGUMENT;;
    let chunk := if view_len data <? chunk_max then view_len data else chunk_max in
    part ← lift (slice (view_bytes data) 0 chunk);
    b ← packet (rdp_dynamic_channel_write_data_first_ex channel_id channel_id_bytes priority (u32 (view_len data)) (View part));
    rdp_session_write_channel_pdu static b;;
    client_send_loop (S (length (view_bytes data))) static channel_id channel_id_bytes priority (view_bytes data)
      (RDP_DYNAMIC_CHANNEL_MAX_PDU_SIZE - header_size) b chunk.
Definition rdp_session_send_dynamic_channel_data (channel_id channel_id_bytes : Z) (data : view) : M cstate unit :=
  rdp_session_send_dynamic_channel_data_priority channel_id channel_id_bytes 0 data.

(** [options]: a handle and a priority. *)
Definition librdp_session_channel_send_ex (handle priority : Z) (data : view) : M cstate unit :=
  require (negb ((view_null data && (0 <? view_len data)) || (LIBRDP_CHANNEL_PRIORITY_REALTIME <? priority))) LIBRDP_STATUS_INVALID_ARGUMENT;;
  s ← get_session;
  require (cs_owner (cs_control s)) LIBRDP_STATUS_STATE;;
  require (negb (limit_dynamic_channel_message_bytes (cs_control s) <? view_len data)) LIBRDP_STATUS_LIMIT_EXCEEDED;;
  require (ready (cs_control s)) LIBRDP_STATUS_STATE;;
  '(_, c) ← opt_require (rdp_session_dynamic_channel_from_handle s handle) LIBRDP_STATUS_STATE;
  require (cd_active c) LIBRDP_STATUS_STATE;;
  require (negb (rdp_session_dynamic_channel_is_internal c)) LIBRDP_STATUS_UNSUPPORTED;;
  rdp_session_send_dynamic_channel_data_priority (cd_channel_id c) (cd_channel_id_bytes c) (u8 priority) data.

Definition librdp_session_channel_send (channel_id : Z) (data : view) : M cstate unit :=
  require (negb (view_null data && (0 <? view_len data))) LIBRDP_STATUS_INVALID_ARGUMENT;;
  s ← get_session;
  require (cs_owner (cs_control s)) LIBRDP_STATUS_STATE;;
  require (negb (limit_dynamic_channel_message_bytes (cs_control s) <? view_len data)) LIBRDP_STATUS_LIMIT_EXCEEDED;;
  '(_, c) ← rdp_session_require_user_channel channel_id;
  rdp_session_send_dynamic_channel_data (cd_channel_id c) (cd_channel_id_bytes c) data.

Definition librdp_session_channel_close (channel_id : Z) : M cstate unit :=
  s ← get_session;
  require (cs_owner (cs_control s)) LIBRDP_STATUS_STATE;;
  '(i, c) ← rdp_session_require_user_channel channel_id;
  close_pdu ← packet (rdp_dynamic_channel_write_close (cd_channel_id c) (cd_channel_id_bytes c));
  rdp_session_write_channel_pdu (cs_dynamic_channel_id (cs_control s)) close_pdu;;
  store_entry i (rdp_session_dynamic_channel_clear_entry c).

Definition librdp_session_channel_close_handle (handle : Z) : M cstate unit :=
  require (negb (handle =? 0)) LIBRDP_STATUS_INVALID_ARGUMENT;;
  s ← get_session;
  require (cs_owner (cs_control s)) LIBRDP_STATUS_STATE;;
  require (ready (cs_control s)) LIBRDP_STATUS_STATE;;
  '(_, c) ← opt_require (rdp_session_dynamic_channel_from_handle s handle) LIBRDP_STATUS_STATE;
  require (cd_active c) LIBRDP_STATUS_STATE;;
  require (negb (rdp_session_dynamic_channel_is_internal c)) LIBRDP_STATUS_UNSUPPORTED;;
  librdp_session_channel_close (cd_channel_id c).

(** *** The PDUs of the server *)

Definition on_fragment (i : nat) (w : writer unit) : M cstate unit := fun '(s, (h, d)) =>
  match cs_dynamic_channels s !! i with
  | Some c =>
      let '(r, (b, h)) := w (cd_fragment c, h) in
      (r, (put_entry i (entry_fragment (cd_fragmenting c) (cd_fragment_expected c) b c) s, (h, d)))
  | None => (Fault, (s, (h, d)))
  end.
(** [rdp_graphics_decode_segmented_data] with the decompressor of an entry. *)
Definition on_decompressor (i : nat) (data : view) : M cstate (list Z) := fun '(s, hd) =>
  match cs_dynamic_channels s !! i with
  | Some c =>
      let '(r, g) := decode_segmented_data (view_bytes data) (cd_decompressor c) in
      (r, (put_entry i (entry_decompressor g c) s, hd))
  | None => (Fault, (s, hd))
  end.

(** The message is handed on, its status kept, and the fragment freed. *)
Definition dispatch_fragment (i : nat) (channel_id_bytes : Z) : M cstate unit :=
  c ← get_entry i;
  status ← attempt (host (client_message (message_ident channel_id_bytes c) (contents (cd_fragment c))));
  store_entry i (entry_fragment (cd_fragmenting c) 0 (rdp_buffer_free (cd_fragment c)) c);;
  lift status.

(** The first bytes of a message of [total_length] bytes. *)
Definition first_fragment (i : nat) (channel_id_bytes total_length : Z) (data : view) : M cstate unit :=
  c ← get_entry i;
  store_entry i (entry_fragment (cd_fragmenting c) (cd_fragment_expected c) rdp_buffer_init c);;
  on_fragment i (rdp_buffer_reserve total_length);;
  on_fragment i (rdp_buffer_append data);;
  c ← get_entry i;
  store_entry i (entry_fragment (b_length (cd_fragment c) <? total_length) total_length (cd_fragment c) c);;
  if b_length (cd_fragment c) <? total_length then mret tt else dispatch_fragment i channel_id_bytes.
(** More bytes of it. *)
Definition next_fragment (i : nat) (channel_id_bytes : Z) (data : view) : M cstate unit :=
  on_fragment i (rdp_buffer_append data);;
  c ← get_entry i;
  if b_length (cd_fragment c) <? cd_fragment_expected c then mret tt
  else
    store_entry i (entry_fragment false (cd_fragment_expected c) (cd_fragment c) c);;
    dispatch_fragment i channel_id_bytes.

Definition handle_capabilities (payload : view) : M cstate unit :=
  s ← get_session;
  capabilities ← lift (rdp_dynamic_channel_parse_capabilities payload);
  let client_version := rdp_dynamic_channel_select_version (dc_version capabilities) in
  require (negb (client_version =? 0)) LIBRDP_STATUS_PROTOCOL_ERROR;;
  response ← packet (rdp_dynamic_channel_write_capabilities_response client_version);
  rdp_session_write_channel_pdu (cs_dynamic_channel_id (cs_control s)) response.

Definition handle_create_request (payload : view) : M cstate unit :=
  request ← lift (rdp_dynamic_channel_parse_create_request payload);
  create_status_code ← ask (client_create_status request);
  response ← packet (rdp_dynamic_channel_write_create_response (dcr_channel_id request) (dcr_channel_id_bytes request) create_status_code);
  (if create_status_code =? RDP_DYNAMIC_CHANNEL_STATUS_OK then rdp_session_dynamic_channel_add request else mret tt);;
  s ← get_session;
  rdp_session_write_channel_pdu (cs_dynamic_channel_id (cs_control s)) response;;
  if negb (create_status_code =? RDP_DYNAMIC_CHANNEL_STATUS_OK) then mret tt
  else host (client_created request (client_ident ∘ snd <$> rdp_session_dynamic_channel_find s (dcr_channel_id request))).
Definition handle_create (payload : view) : M cstate unit :=
  s ← get_session;
  match rdp_dynamic_channel_parse_create_response payload with
  | Ok response =>
      match rdp_session_dynamic_channel_find_opening s (dcs_channel_id response) with
      | Some (i, c) =>
          require (cd_channel_id_bytes c =? dcs_channel_id_bytes response) LIBRDP_STATUS_PROTOCOL_ERROR;;
          if dcs_status_code response =? RDP_DYNAMIC_CHANNEL_STATUS_OK then
            store_entry i (entry_with true false c);;
            tell (client_opened (client_ident c))
          else store_entry i (rdp_session_dynamic_channel_clear_entry c)
      | None => handle_create_request payload
      end
  | Err _ => handle_create_request payload
  | Fault => lift Fault
  end.

Definition handle_data_first (payload : view) : M cstate unit :=
  first_pdu ← lift (rdp_dynamic_channel_parse_data_first payload);
  require (negb (df_total_length first_pdu =? 0)) LIBRDP_STATUS_PROTOCOL_ERROR;;
  s ← get_session;
  require (negb (limit_dynamic_channel_message_bytes (cs_control s) <? df_total_length first_pdu)) LIBRDP_STATUS_LIMIT_EXCEEDED;;
  '(i, c) ← opt_require (rdp_session_dynamic_channel_find s (df_channel_id first_pdu)) LIBRDP_STATUS_PROTOCOL_ERROR;
  require (negb (cd_fragmenting c)) LIBRDP_STATUS_PROTOCOL_ERROR;;
  first_fragment i (df_channel_id_bytes first_pdu) (df_total_length first_pdu) (df_data first_pdu).

Definition handle_data (payload : view) : M cstate unit :=
  data_pdu ← lift (rdp_dynamic_channel_parse_data payload);
  s ← get_session;
  '(i, c) ← opt_require (rdp_session_dynamic_channel_find s (dd_channel_id data_pdu)) LIBRDP_STATUS_PROTOCOL_ERROR;
  if cd_fragmenting c then
    require (negb (view_len (dd_data data_pdu) =? 0)) LIBRDP_STATUS_PROTOCOL_ERROR;;
    require (negb (size_t (cd_fragment_expected c - b_length (cd_fragment c)) <? view_len (dd_data data_pdu))) LIBRDP_STATUS_PROTOCOL_ERROR;;
    next_fragment i (dd_channel_id_bytes data_pdu) (dd_data data_pdu)
  else host (client_message (message_ident (dd_channel_id_bytes data_pdu) c) (view_bytes (dd_data data_pdu))).

Definition handle_compressed_data_first (payload : view) : M cstate unit :=
  first_pdu ← lift (rdp_dynamic_channel_parse_compressed_data_first payload);
  require (negb (df_total_length first_pdu =? 0)) LIBRDP_STATUS_PROTOCOL_ERROR;;
  s ← get_session;
  require (negb (limit_dynamic_channel_message_bytes (cs_control s) <? df_total_length first_pdu)) LIBRDP_STATUS_LIMIT_EXCEEDED;;
  '(i, c) ← opt_require (rdp_session_dynamic_channel_find s (df_channel_id first_pdu)) LIBRDP_STATUS_PROTOCOL_ERROR;
  require (negb (cd_fragmenting c)) LIBRDP_STATUS_PROTOCOL_ERROR;;
  decoded ← on_decompressor i (df_data first_pdu);
  require (negb (blen decoded =? 0)) LIBRDP_STATUS_PROTOCOL_ERROR;;
  require (negb (df_total_length first_pdu <? blen decoded)) LIBRDP_STATUS_PROTOCOL_ERROR;;
  first_fragment i (df_channel_id_bytes first_pdu) (df_total_length first_pdu) (View decoded).

Definition handle_compressed_data (payload : view) : M cstate unit :=
  data_pdu ← lift (rdp_dynamic_channel_parse_compressed_data payload);
  s ← get_session;
  '(i, c) ← opt_require (rdp_session_dynamic_channel_find s (dd_channel_id data_pdu)) LIBRDP_STATUS_PROTOCOL_ERROR;
  decoded ← on_decompressor i (dd_data data_pdu);
  if cd_fragmenting c then
    require (negb ((blen decoded =? 0) || (cd_fragment_expected c <? b_length (cd_fragment c)) ||
                   (size_t (cd_fragment_expected c - b_length (cd_fragment c)) <? blen decoded))) LIBRDP_STATUS_PROTOCOL_ERROR;;
    next_fragment i (dd_channel_id_bytes data_pdu) (View decoded)
  else host (client_message (message_ident (dd_channel_id_bytes data_pdu) c) decoded).

Definition handle_close (payload : view) : M cstate unit :=
  close_pdu ← lift (rdp_dynamic_channel_parse_close payload);
  s ← get_session;
  match rdp_session_dynamic_channel_find s (dx_channel_id close_pdu) with
  | Some (i, c) =>
      tell (client_closed (client_ident c));;
      store_entry i (rdp_session_dynamic_channel_clear_entry c)
  | None => mret tt
  end.

(** The loop over the channels of a list, from the [j]th, [n] of them. *)
Fixpoint eligible_loop (s : session) (list : rdp_dynamic_channel_soft_sync_channel_list) (n : nat) (j : Z) (eligible : bool) : res bool :=
  match n with
  | O => Ok eligible
  | S n =>
      channel_id ← rdp_dynamic_channel_soft_sync_channel_list_get_id list j;
      eligible_loop s list n (j + 1) (eligible && bool_decide (is_Some (rdp_session_dynamic_channel_find s channel_id)))
  end.
(** The loop over the lists of a request; [udp]: the UDP transport may be used. *)
Fixpoint client_tunnels_loop (s : session) (udp : bool) (request : rdp_dynamic_channel_soft_sync_request) (n : nat) (i : Z)
    (tunnels : list Z) : res (list Z) :=
  match n with
  | O => Ok tunnels
  | S n =>
      if blen tunnels <? 2 then
        list ← rdp_dynamic_channel_soft_sync_request_get_list request i;
        eligible ← eligible_loop s list (Z.to_nat (sl_channel_count list)) 0 true;
        let t := sl_tunnel_type list in
        client_tunnels_loop s udp request n (i + 1)
          (if eligible && udp && ((t =? RDP_DYNAMIC_CHANNEL_TUNNEL_UDP_RELIABLE) || (t =? RDP_DYNAMIC_CHANNEL_TUNNEL_UDP_LOSSY)) &&
              negb (existsb (Z.eqb t) tunnels) then tunnels ++ [t] else tunnels)
      else Ok tunnels
  end.
Definition handle_soft_sync_request (payload : view) : M cstate unit :=
  s ← get_session;
  request ← lift (rdp_dynamic_channel_parse_soft_sync_request payload);
  udp ← ask client_udp_ready;
  tunnels ← lift (client_tunnels_loop s udp request (Z.to_nat (ss_tunnel_count request)) 0 []);
  response ← packet (rdp_dynamic_channel_write_soft_sync_response tunnels);
  rdp_session_write_channel_pdu (cs_dynamic_channel_id (cs_control s)) response;;
  if blen tunnels =? 0 then mret tt else tell (client_soft_synced tunnels).

(** [payload]: of a packet on the static channel. *)
Definition rdp_session_handle_dynamic_channel (payload : view) : M cstate unit :=
  header ← lift (rdp_dynamic_channel_parse_header payload);
  let command := dh_command header in
  if command =? RDP_DYNAMIC_CHANNEL_CMD_CAPABILITIES then handle_capabilities payload
  else if command =? RDP_DYNAMIC_CHANNEL_CMD_CREATE then handle_create payload
  else if command =? RDP_DYNAMIC_CHANNEL_CMD_DATA_FIRST then handle_data_first payload
  else if command =? RDP_DYNAMIC_CHANNEL_CMD_DATA then handle_data payload
  else if command =? RDP_DYNAMIC_CHANNEL_CMD_DATA_FIRST_COMPRESSED then handle_compressed_data_first payload
  else if command =? RDP_DYNAMIC_CHANNEL_CMD_DATA_COMPRESSED then handle_compressed_data payload
  else if command =? RDP_DYNAMIC_CHANNEL_CMD_CLOSE then handle_close payload
  else if command =? RDP_DYNAMIC_CHANNEL_CMD_SOFT_SYNC_REQUEST then handle_soft_sync_request payload
  else if command =? RDP_DYNAMIC_CHANNEL_CMD_SOFT_SYNC_RESPONSE then
    _ ← lift (rdp_dynamic_channel_parse_soft_sync_response payload);
    mret tt
  else mret tt.

(** A packet on the static channel, in the loop that reads them. *)
Definition client_dynamic_packet (data : view) : M cstate unit :=
  channel_packet ← lift (rdp_virtual_channel_parse_packet data);
  rdp_session_handle_dynamic_channel (View (vcp_payload channel_packet)).

(** The calls that change the table. *)
Inductive client_call :=
| ClientOpen (name : option (list Z)) (priority : Z)
| ClientSend (channel_id : Z) (data : view)
| ClientSendEx (handle priority : Z) (data : view)
| ClientClose (channel_id : Z)
| ClientCloseHandle (handle : Z)
| ClientClear
| ClientResetFragments
| ClientPacket (data : view).
Definition client_run (call : client_call) : M cstate unit :=
  match call with
  | ClientOpen name priority => librdp_session_channel_open name priority;; mret tt
  | ClientSend channel_id data => librdp_session_channel_send channel_id data
  | ClientSendEx handle priority data => librdp_session_channel_send_ex handle priority data
  | ClientClose channel_id => librdp_session_channel_close channel_id
  | ClientCloseHandle handle => librdp_session_channel_close_handle handle
  | ClientClear => rdp_session_dynamic_channels_clear
  | ClientResetFragments => rdp_session_channels_reset_activation_fragments
  | ClientPacket data => client_dynamic_packet data
  end.
End operations.

(** ** The invariant *)

Section invariant.
Context {G : Type} `{!SegmentedDecoder G}.
Abbreviation entry := (rdp_session_dynamic_channel G).
Abbreviation session := (client_session G).

Record control_ok (k : client_control) : Prop := {
  ko_count : 1 <= limit_dynamic_channel_count k <= RDP_SESSION_MAX_DYNAMIC_CHANNELS;
  ko_bytes : 1 <= limit_dynamic_channel_message_bytes k <= RDP_SETTINGS_LIMIT_DYNAMIC_MESSAGE_BYTES;
}.

Definition is_generation (g : Z) : Prop := 1 <= g <= UINT32_MAX.
(** An entry in use: its number fits its width, its handle is valid; a message in
    progress is shorter than announced. *)
Record entry_ok (c : entry) : Prop := {
  eo_buffer : buffer_wf (cd_fragment c);
  eo_generation : is_u32 (cd_generation c);
  eo_fragment : cd_fragmenting c = true ->
    b_length (cd_fragment c) < cd_fragment_expected c <= RDP_SETTINGS_LIMIT_DYNAMIC_MESSAGE_BYTES;
  eo_name : blen (cd_name c) < RDP_SESSION_DYNAMIC_CHANNEL_NAME_MAX;
  eo_used : cd_used c = true ->
    id_fits (cd_channel_id_bytes c) (cd_channel_id c) /\ 0 <= cd_priority c <= 3 /\ is_generation (cd_generation c);
}.
(** The session: 64 entries, no number in two of them. *)
Record session_ok (s : session) : Prop := {
  sk_size : blen (cs_dynamic_channels s) = RDP_SESSION_MAX_DYNAMIC_CHANNELS;
  sk_entries : forall i c, cs_dynamic_channels s !! i = Some c -> entry_ok c;
  sk_distinct : forall i j c c', cs_dynamic_channels s !! i = Some c -> cs_dynamic_channels s !! j = Some c' ->
    cd_used c = true -> cd_used c' = true -> cd_channel_id c = cd_channel_id c' -> i = j;
  sk_next : is_u32 (cs_next_dynamic_channel_id s);
  sk_control : control_ok (cs_control s);
}.

(** What happens to an entry: it keeps its generation and, if in use, its
    channel; or it is cleared, up to [n] times. *)
Definition same_channel (c c' : entry) : Prop :=
  cd_generation c' = cd_generation c /\ cd_used c' = cd_used c /\
  (cd_used c = true -> cd_channel_id c' = cd_channel_id c /\ cd_channel_id_bytes c' = cd_channel_id_bytes c /\
    cd_priority c' = cd_priority c /\ cd_name c' = cd_name c /\ (cd_active c = true -> cd_active c' = true)).
Definition moved (n : nat) (c c' : entry) : Prop :=
  same_channel c c' \/ exists j, (1 <= j <= n)%nat /\ cd_generation c' = Nat.iter j next_nonzero (cd_generation c).
Definition evolves (n : nat) (s s' : session) : Prop :=
  session_ok s' /\ forall i c c', cs_dynamic_channels s !! i = Some c -> cs_dynamic_channels s' !! i = Some c' -> moved n c c'.

Lemma next_nonzero_mod g : is_u32 g -> next_nonzero g = g mod UINT32_MAX + 1 /\ is_generation (next_nonzero g).
Proof.
  unfold is_u32, next_nonzero, is_generation, u32, UINT32_MAX. intros H. destruct (Z.eq_dec g (2 ^ 32 - 1)) as [->|Hne]; [done|].
  rewrite !(Z.mod_small (g + 1)) by lia. rewrite Z.mod_small by lia. destruct (Z.eqb_spec (g + 1) 0); lia.
Qed.
Lemma next_nonzero_iter j g : is_generation g -> Nat.iter j next_nonzero g = (g - 1 + Z.of_nat j) mod UINT32_MAX + 1.
Proof.
  intros Hg. induction j as [|j IH].
  - change (g = (g - 1 + 0) mod UINT32_MAX + 1). unfold is_generation, UINT32_MAX in *. rewrite Z.mod_small by lia. lia.
  - change (next_nonzero (Nat.iter j next_nonzero g) = (g - 1 + Z.of_nat (S j)) mod UINT32_MAX + 1). rewrite IH.
    set (x := g - 1 + Z.of_nat j). destruct (next_nonzero_mod (x mod UINT32_MAX + 1)) as [-> _].
    { pose proof (Z.mod_pos_bound x UINT32_MAX ltac:(done)). unfold is_u32, UINT32_MAX in *. lia. }
    rewrite Zplus_mod_idemp_l. f_equal. f_equal. lia.
Qed.
(** A generation comes back after 2^32 - 1 clearings, not before. *)
Lemma next_nonzero_fresh j g : is_generation g -> (1 <= j)%nat -> Z.of_nat j < UINT32_MAX -> Nat.iter j next_nonzero g <> g.
Proof.
  intros Hg Hj Hlt. rewrite next_nonzero_iter by done. intros H.
  assert (Hm : (g - 1 + Z.of_nat j) mod UINT32_MAX = g - 1) by lia.
  pose proof (Z.div_mod (g - 1 + Z.of_nat j) UINT32_MAX ltac:(done)) as Hd. rewrite Hm in Hd.
  set (q := (g - 1 + Z.of_nat j) / UINT32_MAX) in *. unfold is_generation, UINT32_MAX in *. nia.
Qed.

Lemma same_channel_refl c : same_channel c c.
Proof. unfold same_channel. naive_solver. Qed.
Lemma moved_refl n c : moved n c c.
Proof. left. apply same_channel_refl. Qed.
Lemma moved_trans n m c c' c'' : moved n c c' -> moved m c' c'' -> moved (n + m) c c''.
Proof.
  intros [[Hg [Hu Hs]]|(j & Hj & Hg)] [[Hg' [Hu' Hs']]|(j' & Hj' & Hg')].
  - left. split; [congruence|]. split; [congruence|]. intros Hc. destruct (Hs Hc) as (? & ? & ? & ? & ?).
    rewrite <- Hu in Hc. destruct (Hs' Hc) as (? & ? & ? & ? & ?). split_and!; congruence || auto.
  - right. exists j'. split; [lia|congruence].
  - right. exists j. split; [lia|congruence].
  - right. exists (j' + j)%nat. split; [lia|]. by rewrite Nat.iter_add, <- Hg.
Qed.
Lemma moved_weaken n m c c' : (n <= m)%nat -> moved n c c' -> moved m c c'.
Proof. intros Hle [H|(j & Hj & H)]; [by left|right]. exists j. split; [lia|done]. Qed.
Lemma evolves_refl n s : session_ok s -> evolves n s s.
Proof. intros Hs. split; [done|]. intros i c c' -> [= ->]. apply moved_refl. Qed.
Lemma same_length s s' : session_ok s -> session_ok s' -> length (cs_dynamic_channels s) = length (cs_dynamic_channels s').
Proof. intros Hs Hs'. apply Nat2Z.inj. exact (eq_trans (sk_size _ Hs) (eq_sym (sk_size _ Hs'))). Qed.
Lemma evolves_trans n m s s' s'' : session_ok s -> evolves n s s' -> evolves m s' s'' -> evolves (n + m) s s''.
Proof.
  intros Hs [Hs' H] [Hs'' H']. split; [done|]. intros i c c'' Hc Hc''.
  destruct (lookup_lt_is_Some_2 (cs_dynamic_channels s') i) as [c' Hc'].
  { rewrite <- (same_length s s') by done. by eapply lookup_lt_Some. }
  eapply moved_trans; eauto.
Qed.
Lemma evolves_weaken n m s s' : (n <= m)%nat -> evolves n s s' -> evolves m s s'.
Proof. intros Hle [Hs H]. split; [done|]. intros i c c' Hc Hc'. by apply (moved_weaken n), (H i). Qed.
Lemma evolves_ok n s s' : evolves n s s' -> session_ok s'.
Proof. by intros [? _]. Qed.

(** One entry changes. *)
Lemma evolves_put n s i c c' : session_ok s -> cs_dynamic_channels s !! i = Some c -> entry_ok c' -> moved n c c' ->
  (cd_used c' = true -> (cd_used c = true /\ cd_channel_id c' = cd_channel_id c) \/
     forall j d, cs_dynamic_channels s !! j = Some d -> cd_used d = true -> cd_channel_id d <> cd_channel_id c') ->
  evolves n s (put_entry i c' s).
Proof.
  intros Hs Hi Hc' Hm Hid. pose proof (lookup_lt_Some _ _ _ Hi) as Hlt. split.
  - split; cbn [cs_dynamic_channels put_entry cs_next_dynamic_channel_id cs_control]; [| | |apply Hs|apply Hs].
    + unfold blen. rewrite length_insert. apply Hs.
    + intros j d. destruct (decide (i = j)) as [<-|Hne]; [rewrite list_lookup_insert_eq by done; by intros [= <-]|].
      rewrite list_lookup_insert_ne by done. apply Hs.
    + assert (Hother : forall j d, i <> j -> cs_dynamic_channels s !! j = Some d -> cd_used d = true -> cd_used c' = true ->
        cd_channel_id c' = cd_channel_id d -> False).
      { intros j d Hne Hd Hud Huc Heq. destruct (Hid Huc) as [[Hu Hidc]|Hfree]; [|by apply (Hfree j d)].
        apply Hne, (sk_distinct _ Hs i j c d); congruence. }
      intros j k d d'. destruct (decide (i = j)) as [<-|Hj], (decide (i = k)) as [<-|Hk]; [done|..];
        rewrite ?list_lookup_insert_eq, ?list_lookup_insert_ne by done.
      * intros [= <-] Hd' Hu Hu' Heq. exfalso. by apply (Hother k d').
      * intros Hd [= <-] Hu Hu' Heq. exfalso. by apply (Hother j d).
      * apply Hs.
  - cbn [cs_dynamic_channels put_entry]. intros j d d' Hd. destruct (decide (i = j)) as [<-|Hne].
    + rewrite list_lookup_insert_eq by done. intros [= <-]. by simplify_eq.
    + rewrite list_lookup_insert_ne by done. rewrite Hd. intros [= <-]. apply moved_refl.
Qed.
Lemma put_lookup i (c : entry) (s : session) : (i < length (cs_dynamic_channels s))%nat -> cs_dynamic_channels (put_entry i c s) !! i = Some c.
Proof. intros. cbn. by apply list_lookup_insert_eq. Qed.
Lemma put_put i (c c' : entry) (s : session) : put_entry i c' (put_entry i c s) = put_entry i c' s.
Proof. unfold put_entry. cbn. by rewrite list_insert_insert_eq. Qed.

Lemma clear_entry_ok c : entry_ok c -> entry_ok (rdp_session_dynamic_channel_clear_entry c) /\
  moved 1 c (rdp_session_dynamic_channel_clear_entry c).
Proof.
  intros Hc. destruct (next_nonzero_mod (cd_generation c) (eo_generation _ Hc)) as [_ Hg]. split.
  - split; cbn; [apply buffer_init_wf| |done|done|done]. unfold is_generation, UINT32_MAX in Hg. unfold is_u32. lia.
  - right. exists 1%nat. split; [lia|done].
Qed.
Lemma evolves_clear s i c : session_ok s -> cs_dynamic_channels s !! i = Some c ->
  evolves 1 s (put_entry i (rdp_session_dynamic_channel_clear_entry c) s).
Proof.
  intros Hs Hi. destruct (clear_entry_ok c (sk_entries _ Hs _ _ Hi)) as [Hc Hm]. by apply (evolves_put 1 s i c).
Qed.
End invariant.

(** ** Searches and handles *)

Section searches.
Context {G : Type} `{!SegmentedDecoder G}.
Abbreviation entry := (rdp_session_dynamic_channel G).
Abbreviation session := (client_session G).
Implicit Types (s : session) (c : entry).

Lemma find_entry_Some f s i c : find_entry f s = Some (i, c) -> cs_dynamic_channels s !! i = Some c /\ f c = true.
Proof. unfold find_entry. intros (? & ? & _)%list_find_Some. done. Qed.
Lemma find_entry_None f s : find_entry f s = None <-> forall i c, cs_dynamic_channels s !! i = Some c -> f c = false.
Proof.
  unfold find_entry. rewrite list_find_None, list.Forall_forall. split.
  - intros H i c Hc%list_elem_of_lookup_2. specialize (H c Hc). by destruct (f c).
  - intros H c [i Hc]%list_elem_of_lookup_1. by rewrite (H i c Hc).
Qed.
Lemma find_active s id i c : rdp_session_dynamic_channel_find s id = Some (i, c) ->
  cs_dynamic_channels s !! i = Some c /\ cd_active c = true /\ cd_channel_id c = id.
Proof. intros (Hi & [Ha ?%Z.eqb_eq]%andb_true_iff)%find_entry_Some. done. Qed.
Lemma active_used c : cd_active c = true -> cd_used c = true.
Proof. unfold cd_used. by intros ->. Qed.
Lemma find_any_free s id : rdp_session_dynamic_channel_find_any s id = None <->
  forall i c, cs_dynamic_channels s !! i = Some c -> cd_used c = true -> cd_channel_id c <> id.
Proof.
  unfold rdp_session_dynamic_channel_find_any. rewrite find_entry_None. split.
  - intros H i c Hc Hu Hid. specialize (H i c Hc). unfold cd_used in Hu. by rewrite Hu, Hid, Z.eqb_refl in H.
  - intros H i c Hc. specialize (H i c Hc). unfold cd_used in H. destruct (cd_active c || cd_opening c); [|done].
    destruct (Z.eqb_spec (cd_channel_id c) id); [|done]. by destruct H.
Qed.
Lemma find_any_used s id i c : rdp_session_dynamic_channel_find_any s id = Some (i, c) ->
  cs_dynamic_channels s !! i = Some c /\ cd_used c = true /\ cd_channel_id c = id.
Proof. intros (Hi & [Ha ?%Z.eqb_eq]%andb_true_iff)%find_entry_Some. done. Qed.
Lemma find_opening_used s id i c : rdp_session_dynamic_channel_find_opening s id = Some (i, c) ->
  cs_dynamic_channels s !! i = Some c /\ cd_used c = true /\ cd_channel_id c = id.
Proof.
  unfold rdp_session_dynamic_channel_find_opening. destruct (rdp_session_dynamic_channel_find_any s id) as [[j d]|] eqn:E; [|done].
  destruct (_ && _); [|done]. intros [= <- <-]. by apply find_any_used.
Qed.

Lemma free_slot_ok s : session_ok s ->
  match rdp_session_dynamic_channel_free_slot s with
  | Ok (Some (i, c)) => cs_dynamic_channels s !! i = Some c /\ cd_used c = false
  | Ok None => True
  | _ => False
  end.
Proof.
  intros Hs. unfold rdp_session_dynamic_channel_free_slot. destruct (list_find _ _) as [[i c]|] eqn:E.
  - apply list_find_Some in E as (Hi & Hu & _). split.
    + unfold ztake in Hi. apply lookup_take_Some in Hi. apply Hi.
    + unfold cd_used. by destruct (cd_active c), (cd_opening c).
  - rewrite (sk_size _ Hs). pose proof (ko_count _ (sk_control _ Hs)). by rewrite (proj2 (Z.leb_le _ _)) by lia.
Qed.

(** *** Handles *)

Lemma handle_bits slot g : 0 <= slot < 2 ^ 32 -> is_u32 g ->
  Z.lor (Z.shiftl slot 32) g = slot * 2 ^ 32 + g /\
  Z.land (Z.shiftr (slot * 2 ^ 32 + g) 32) 0xffffffff = slot /\ Z.land (slot * 2 ^ 32 + g) 0xffffffff = g.
Proof.
  unfold is_u32. intros Hs Hg.
  assert (Hdiv : (slot * 2 ^ 32 + g) / 2 ^ 32 = slot) by (rewrite Z.add_comm, Z.div_add, Z.div_small by lia; lia).
  assert (Hmod : (slot * 2 ^ 32 + g) mod 2 ^ 32 = g) by (rewrite Z.add_comm, Z.mod_add, Z.mod_small by lia; lia).
  change 0xffffffff with (Z.ones 32). rewrite !Z.land_ones, Z.shiftr_div_pow2, Hdiv, Hmod by lia.
  split; [|split; [by apply Z.mod_small|done]].
  rewrite Z.shiftl_mul_pow2 by lia. symmetry. apply Z.bits_inj'. intros n Hn.
  rewrite Z.lor_spec. destruct (Z.lt_ge_cases n 32) as [Hlt|Hge].
  - rewrite Z.mul_pow2_bits_low by done. cbn [orb]. rewrite <- (Z.mod_pow2_bits_low _ 32) by done. by rewrite Hmod.
  - rewrite Z.mul_pow2_bits by lia. rewrite <- (Z.mod_small g (2 ^ 32)) at 2 by lia. rewrite (Z.mod_pow2_bits_high g) by lia.
    rewrite orb_false_r. replace n with ((n - 32) + 32) at 1 by lia. rewrite <- Z.shiftr_spec by lia.
    by rewrite Z.shiftr_div_pow2, Hdiv by lia.
Qed.
Lemma handle_value i c : (i < Z.to_nat RDP_SESSION_MAX_DYNAMIC_CHANNELS)%nat -> is_generation (cd_generation c) ->
  rdp_session_dynamic_channel_handle i c = (Z.of_nat i + 1) * 2 ^ 32 + cd_generation c.
Proof.
  unfold rdp_session_dynamic_channel_handle, RDP_SESSION_MAX_DYNAMIC_CHANNELS, is_generation, UINT32_MAX. intros Hi Hg.
  destruct (Z.eqb_spec (cd_generation c) 0); [lia|].
  destruct (handle_bits (Z.of_nat i + 1) (cd_generation c)) as [<- _]; [lia|unfold is_u32; lia|]. f_equal.
  unfold size_t. rewrite Z.shiftl_mul_pow2 by lia. apply Z.mod_small. lia.
Qed.
(** A handle names the entry in use at its slot, if that still has its generation. *)
Lemma from_handle_iff s handle i c : session_ok s -> 0 <= handle < 2 ^ 64 ->
  rdp_session_dynamic_channel_from_handle s handle = Some (i, c) <->
  cs_dynamic_channels s !! i = Some c /\ cd_used c = true /\ handle = (Z.of_nat i + 1) * 2 ^ 32 + cd_generation c.
Proof.
  intros Hs Hh. unfold rdp_session_dynamic_channel_from_handle. set (slot := handle / 2 ^ 32). set (g := handle mod 2 ^ 32).
  pose proof (Z.div_mod handle (2 ^ 32) ltac:(lia)) as Hdm. fold slot g in Hdm.
  assert (Hg : 0 <= g < 2 ^ 32) by (apply Z.mod_pos_bound; lia).
  assert (Hslot : 0 <= slot < 2 ^ 32) by (split; [apply Z.div_pos; lia|apply Z.div_lt_upper_bound; lia]).
  destruct (handle_bits slot g Hslot) as (_ & H1 & H2); [unfold is_u32; lia|]. rewrite (Z.mul_comm slot), <- Hdm in H1, H2.
  rewrite H1, H2. pose proof (sk_size _ Hs) as Hsize. unfold blen, RDP_SESSION_MAX_DYNAMIC_CHANNELS in *. split.
  - destruct (Z.eqb_spec handle 0); [done|]. destruct (_ || _) eqn:Eg; [done|].
    destruct (cs_dynamic_channels s !! Z.to_nat (slot - 1)) as [d|] eqn:Ed; [|done]. destruct (_ || negb _) eqn:Eu; [done|]. intros [= <- <-].
    apply orb_false_iff in Eu as [Eu Egen%negb_false_iff%Z.eqb_eq]. apply orb_false_iff in Eg as [[E1%Z.eqb_neq E2%Z.ltb_ge]%orb_false_iff _].
    split; [done|]. unfold cd_used. split; [by destruct (cd_active d), (cd_opening d)|]. lia.
  - intros (Hi & Hu & He). pose proof (lookup_lt_Some _ _ _ Hi) as Hlt. destruct (eo_used _ (sk_entries _ Hs _ _ Hi) Hu) as (_ & _ & Hgen).
    unfold is_generation, UINT32_MAX in Hgen.
    assert (slot = Z.of_nat i + 1 /\ g = cd_generation c) as [-> ->] by lia.
    destruct (Z.eqb_spec handle 0); [lia|]. rewrite (proj2 (Z.eqb_neq _ _)), (proj2 (Z.ltb_ge _ _)), (proj2 (Z.eqb_neq _ _)) by lia. cbn [orb].
    replace (Z.to_nat (Z.of_nat i + 1 - 1)) with i by lia. rewrite Hi, Z.eqb_refl. unfold cd_used in Hu. by destruct (cd_active c), (cd_opening c).
Qed.

(** *** Channel numbers *)

Lemma allocate_loop_spec n s (c : Z) : is_generation c ->
  match allocate_id_loop n s c with
  | Some id => rdp_session_dynamic_channel_find_any s id = None /\ is_generation id
  | None => forall k, (k < n)%nat -> rdp_session_dynamic_channel_find_any s (Nat.iter k next_nonzero c) <> None
  end.
Proof.
  revert c. induction n as [|n IH]; intros c Hc; [cbn; intros; lia|]. cbn [allocate_id_loop].
  rewrite (proj2 (Z.eqb_neq c 0)) by (unfold is_generation in Hc; lia).
  destruct (rdp_session_dynamic_channel_find_any s c) eqn:E; [|done].
  assert (Hu : is_u32 c) by (unfold is_generation, UINT32_MAX, is_u32 in *; lia).
  destruct (next_nonzero_mod c Hu) as [_ Hnext]. specialize (IH _ Hnext).
  assert (Hl : allocate_id_loop n s (u32 (c + 1)) = allocate_id_loop n s (next_nonzero c)).
  { destruct n; [done|]. cbn [allocate_id_loop]. unfold next_nonzero. by destruct (u32 (c + 1) =? 0) eqn:Ez; rewrite ?Ez. }
  rewrite Hl. destruct (allocate_id_loop n s (next_nonzero c)); [done|]. intros [|k] Hk; [intros E'; change (rdp_session_dynamic_channel_find_any s c = None) in E'; by rewrite E in E'|].
  specialize (IH k ltac:(lia)). by rewrite Nat.iter_succ_r.
Qed.
(** There is always a free number among 65 candidates. *)
Lemma allocate_loop_total s (c : Z) : session_ok s -> is_generation c ->
  exists id, allocate_id_loop (Z.to_nat (RDP_SESSION_MAX_DYNAMIC_CHANNELS + 1)) s c = Some id /\
    rdp_session_dynamic_channel_find_any s id = None /\ is_generation id.
Proof.
  intros Hs Hc. pose proof (allocate_loop_spec (Z.to_nat (RDP_SESSION_MAX_DYNAMIC_CHANNELS + 1)) s c Hc) as H.
  destruct (allocate_id_loop _ s c) as [id|]; [by exists id|exfalso].
  set (ids := (fun k => Nat.iter k next_nonzero c) <$> seq 0 65).
  assert (Hn : NoDup ids).
  { apply NoDup_fmap_2_strong; [|apply NoDup_seq]. intros j k Hj%elem_of_seq Hk%elem_of_seq.
    rewrite !next_nonzero_iter by done. intros E. unfold is_generation in Hc.
    assert (Em : (c - 1 + Z.of_nat j) mod UINT32_MAX = (c - 1 + Z.of_nat k) mod UINT32_MAX) by lia.
    pose proof (Z.div_mod (c - 1 + Z.of_nat j) UINT32_MAX ltac:(done)) as H1.
    pose proof (Z.div_mod (c - 1 + Z.of_nat k) UINT32_MAX ltac:(done)) as H2. rewrite Em in H1.
    set (q := (c - 1 + Z.of_nat j) / UINT32_MAX) in *. set (q' := (c - 1 + Z.of_nat k) / UINT32_MAX) in *.
    unfold UINT32_MAX in *. assert (q = q') by nia. nia. }
  assert (Hsub : ids ⊆ (cd_channel_id <$> cs_dynamic_channels s)).
  { intros id (k & -> & Hk%elem_of_seq)%list_elem_of_fmap. specialize (H k ltac:(unfold RDP_SESSION_MAX_DYNAMIC_CHANNELS; lia)).
    destruct (rdp_session_dynamic_channel_find_any s _) as [[i d]|] eqn:E; [|done]. apply find_any_used in E as (Hi & _ & <-).
    apply list_elem_of_fmap. exists d. split; [done|]. by eapply list_elem_of_lookup_2. }
  apply NoDup_submseteq in Hsub; [|done]. apply submseteq_length in Hsub. unfold ids in Hsub. rewrite !length_fmap, length_seq in Hsub.
  pose proof (sk_size _ Hs) as Hsize. unfold blen, RDP_SESSION_MAX_DYNAMIC_CHANNELS in Hsize. lia.
Qed.
End searches.

(** ** What calls leave *)

(** Laws of the surroundings: no undefined behaviour. *)
Class SegmentedDecoderLaws (G : Type) `{!SegmentedDecoder G} : Prop := {
  decode_safe : forall l g, (decode_segmented_data l g).1 <> Fault;
}.
Class ClientHostLaws (D : Type) `{!ClientHost D} : Prop := {
  client_write_safe : forall k l d, (client_write k l d).1 <> Fault;
  client_created_safe : forall q i d, (client_created q i d).1 <> Fault;
  client_message_safe : forall i l d, (client_message i l d).1 <> Fault;
}.

Section wp.
Context {G D : Type} `{!SegmentedDecoder G} `{!SegmentedDecoderLaws G} `{!ClientHost D} `{!ClientHostLaws D}.
Abbreviation entry := (rdp_session_dynamic_channel G).
Abbreviation session := (client_session G).
Abbreviation cs := (cstate (G := G) (D := D)).
Implicit Types (c : entry) (s : session).

(** The call answers, and its outcome satisfies [Q]. *)
Definition wp {A} (m : M cs A) (st : cs) (Q : res A -> cs -> Prop) : Prop := (m st).1 <> Fault /\ Q (m st).1 (m st).2.

Lemma wp_ret {A} (a : A) st Q : Q (Ok a) st -> wp (mret a) st Q.
Proof. done. Qed.
Lemma wp_fail {A} e st (Q : res A -> cs -> Prop) : Q (Err e) st -> wp (fail e) st Q.
Proof. done. Qed.
Lemma wp_bind {A B} (m : M cs A) (k : A -> M cs B) st Q :
  wp m st (fun r st' => match r with Ok a => wp (k a) st' Q | Err e => Q (Err e) st' | Fault => True end) -> wp (m ≫= k) st Q.
Proof. intros [Hr H]. unfold wp, mbind, M_bind in *. by destruct (m st) as [[a|e|] st']. Qed.
Lemma wp_conseq {A} (m : M cs A) st (Q Q' : res A -> cs -> Prop) : wp m st Q' -> (forall r st', Q' r st' -> Q r st') -> wp m st Q.
Proof. intros [Hr H] HQ. split; [done|]. by apply HQ. Qed.
Lemma wp_require (c : bool) e st (Q : res unit -> cs -> Prop) : (c = true -> Q (Ok tt) st) -> (c = false -> Q (Err e) st) -> wp (require c e) st Q.
Proof. destruct c; intros H1 H2; (split; [done|]); [by apply H1|by apply H2]. Qed.
Lemma wp_lift {A} (o : res A) st (Q : res A -> cs -> Prop) : o <> Fault -> Q o st -> wp (lift o) st Q.
Proof. done. Qed.
Lemma wp_opt {A} (o : option A) e st (Q : res A -> cs -> Prop) : (forall a, o = Some a -> Q (Ok a) st) -> (o = None -> Q (Err e) st) ->
  wp (opt_require o e) st Q.
Proof. destruct o; intros H1 H2; (split; [done|]); [by apply H1|by apply H2]. Qed.
Lemma wp_get st (Q : res session -> cs -> Prop) : Q (Ok st.1) st -> wp get_session st Q.
Proof. done. Qed.
Lemma wp_session f st (Q : res unit -> cs -> Prop) : Q (Ok tt) (f st.1, st.2) -> wp (on_session f) st Q.
Proof. done. Qed.
Lemma wp_entry i c s hd (Q : res entry -> cs -> Prop) : cs_dynamic_channels s !! i = Some c -> Q (Ok c) (s, hd) -> wp (get_entry i) (s, hd) Q.
Proof. intros Hi H. unfold wp, get_entry. cbn [fst]. by rewrite Hi. Qed.
Lemma wp_attempt {A} (m : M cs A) st (Q : res (res A) -> cs -> Prop) : wp m st (fun r st' => r <> Fault -> Q (Ok r) st') -> wp (attempt m) st Q.
Proof. intros [Hr H]. unfold wp, attempt in *. destruct (m st) as [[a|e|] st']; [split; [done|by apply H]..|done]. Qed.
Lemma wp_same {A} (P : A -> Prop) (m : M cs A) s (h : heap) d (Q : res A -> cs -> Prop) : Same P m m ->
  (forall r (h' : heap) d', r <> Fault -> (h = [] -> h' = []) -> (forall a, r = Ok a -> P a) -> Q r (s, (h', d'))) -> wp m (s, (h, d)) Q.
Proof. intros Hm H. destruct (Hm s s h d) as (r & h' & d' & E & _ & Hr & Hh & HP). unfold wp. rewrite E. split; [done|]. by apply H. Qed.
Lemma wp_host {A} (m : M D A) s (h : heap) d (Q : res A -> cs -> Prop) : (m d).1 <> Fault -> Q (m d).1 (s, (h, (m d).2)) -> wp (host m) (s, (h, d)) Q.
Proof. intros Hr H. unfold wp, host, on_snd. cbn [fst snd]. by destruct (m d). Qed.

(** A run that ends a call may be weakened to the session it leaves. *)
Lemma wp_fragment i (w : writer unit) c s (h : heap) d (Q : res unit -> cs -> Prop) : cs_dynamic_channels s !! i = Some c ->
  (let '(r, (b, h')) := w (cd_fragment c, h) in
   r <> Fault /\ Q r (put_entry i (entry_fragment (cd_fragmenting c) (cd_fragment_expected c) b c) s, (h', d))) ->
  wp (on_fragment i w) (s, (h, d)) Q.
Proof. intros Hi H. unfold wp, on_fragment. rewrite Hi. by destruct (w (cd_fragment c, h)) as [r [b h']]. Qed.
Lemma wp_decompressor i v c s hd (Q : res (list Z) -> cs -> Prop) : cs_dynamic_channels s !! i = Some c ->
  (forall r g, r <> Fault -> Q r (put_entry i (entry_decompressor g c) s, hd)) -> wp (on_decompressor i v) (s, hd) Q.
Proof.
  intros Hi H. unfold wp, on_decompressor. rewrite Hi. pose proof (decode_safe (view_bytes v) (cd_decompressor c)) as Hs.
  destruct (decode_segmented_data (view_bytes v) (cd_decompressor c)) as [r g]. cbn [fst snd]. auto.
Qed.
Lemma total_channel_packet b : buffer_wf b -> Total (rdp_virtual_channel_write_packet (buffer_view b) 3).
Proof.
  intros Hb. unfold rdp_virtual_channel_write_packet, buffer_view. destruct (b_data b) eqn:E; [auto with total nocore|].
  assert (Hl : b_length b = 0).
  { pose proof (buffer_wf_valid _ Hb) as [Hle [Hn _]]%state_valid_iff. pose proof (buffer_wf_length _ Hb). specialize (Hn E). lia. }
  rewrite Hl. unfold rdp_virtual_channel_write_fragment. solve_total.
Qed.
Lemma write_pdu_same k b : buffer_wf b ->
  Same (fun _ => True) (rdp_session_write_channel_pdu (G := G) k b) (rdp_session_write_channel_pdu (G := G) k b).
Proof.
  intros Hb. eapply same_bind; [by apply same_packet, total_channel_packet|]. intros p _. apply same_host, client_write_safe.
Qed.

(** *** A message in progress *)

Definition Touched (i : nat) (c : entry) (s s' : session) : Prop := exists c', s' = put_entry i c' s /\ entry_ok c' /\ same_channel c c'.

Lemma touched_evolves i c s s' : session_ok s -> cs_dynamic_channels s !! i = Some c -> Touched i c s s' -> evolves 0 s s'.
Proof.
  intros Hs Hi (c' & -> & Hc' & Hsame). apply (evolves_put 0 s i c); [done|done|done|by left|]. intros Hu. left.
  destruct Hsame as (_ & Hu' & Hid). rewrite Hu' in Hu. split; [done|]. by apply Hid.
Qed.
Lemma touched_put i c c' s : entry_ok c' -> same_channel c c' -> Touched i c s (put_entry i c' s).
Proof. intros. by exists c'. Qed.
Lemma entry_fragment_same fragmenting expected b c : same_channel c (entry_fragment fragmenting expected b c).
Proof. unfold same_channel. naive_solver. Qed.
Lemma entry_fragment_ok fragmenting expected b c : entry_ok c -> buffer_wf b ->
  (fragmenting = true -> b_length b < expected <= RDP_SETTINGS_LIMIT_DYNAMIC_MESSAGE_BYTES) ->
  entry_ok (entry_fragment fragmenting expected b c).
Proof. intros [Hb Hg Hf Hn Hu] Hb' Hlen. by split. Qed.
Lemma touched_fragment i c s fragmenting expected b : entry_ok c -> buffer_wf b ->
  (fragmenting = true -> b_length b < expected <= RDP_SETTINGS_LIMIT_DYNAMIC_MESSAGE_BYTES) ->
  Touched i c s (put_entry i (entry_fragment fragmenting expected b c) s).
Proof. intros. apply touched_put; [by apply entry_fragment_ok|apply entry_fragment_same]. Qed.
Lemma fragment_twice f e b f' e' b' c : entry_fragment f e b (entry_fragment f' e' b' c) = entry_fragment f e b c.
Proof. done. Qed.

Section message.
Context (s : session) (i : nat) (c : entry) (Hi : cs_dynamic_channels s !! i = Some c) (Hc : entry_ok c).

Lemma message_lt : (i < length (cs_dynamic_channels s))%nat.
Proof using Hi. by eapply lookup_lt_Some. Qed.

(** The dispatch of the fragment [b]. *)
Lemma wp_dispatch w expected b (h : heap) d (Q : res unit -> cs -> Prop) : buffer_wf b ->
  let '(r, d') := client_message (message_ident w c) (contents b) d in
  (Touched i c s (put_entry i (entry_fragment false 0 rdp_buffer_init c) s) -> r <> Fault ->
   Q r (put_entry i (entry_fragment false 0 rdp_buffer_init c) s, (h, d'))) ->
  wp (dispatch_fragment i w) (put_entry i (entry_fragment false expected b c) s, (h, d)) Q.
Proof using Hc Hi ClientHostLaws0.
  intros Hb. pose proof (client_message_safe (message_ident w c) (contents b) d) as Hsafe.
  destruct (client_message (message_ident w c) (contents b) d) as [r d'] eqn:Em. cbn [fst] in Hsafe. intros HQ.
  apply wp_bind. apply (wp_entry i (entry_fragment false expected b c)); [apply put_lookup, message_lt|].
  apply wp_bind, wp_attempt. change (message_ident w (entry_fragment false expected b c)) with (message_ident w c). cbn [cd_fragment entry_fragment].
  apply wp_host; rewrite Em; [done|]. cbn [fst snd]. intros Hr.
  apply wp_bind, wp_session. cbn [fst snd]. rewrite put_put. apply wp_lift; [done|].
  apply HQ; [|done]. apply touched_fragment; [done|apply buffer_init_wf|done].
Qed.
(** What [msg] of the [total] bytes of a message leads to. *)
Definition progressed (w total : Z) (msg : list Z) (r : res unit) (d : D) (s' : session) (d' : D) : Prop :=
  if blen msg <? total then
    r = Ok tt /\ d' = d /\ exists b, s' = put_entry i (entry_fragment true total b c) s /\ buffer_wf b /\ contents b = msg
  else client_message (message_ident w c) msg d = (r, d') /\ s' = put_entry i (entry_fragment false 0 rdp_buffer_init c) s.

Lemma wp_append v l f e b (h : heap) d (Q : res unit -> cs -> Prop) : view_bytes v = l -> view_len v = blen l -> buffer_wf b ->
  (forall r b' (h' : heap), r <> Fault -> buffer_wf b' -> (r = Ok tt -> contents b' = contents b ++ l) -> (r <> Ok tt -> contents b' = contents b) ->
     (h = [] -> b_length b + blen l <= 2 ^ 63 -> r = Ok tt /\ h' = []) ->
     Q r (put_entry i (entry_fragment f e b' c) s, (h', d))) ->
  wp (on_fragment i (rdp_buffer_append v)) (put_entry i (entry_fragment f e b c) s, (h, d)) Q.
Proof using Hi.
  intros Hv Hl Hb HQ. apply (wp_fragment i _ (entry_fragment f e b c)); [apply put_lookup, message_lt|]. cbn [cd_fragment entry_fragment].
  destruct (append_atomic l v Hv Hl b h Hb) as (r & b' & h' & -> & Hb' & Hr & Hok). rewrite put_put.
  assert (Hf : r <> Fault) by (destruct Hr as [([] & -> & _)|[-> _]]; done). split; [done|]. apply HQ; [done|done| | |].
  - intros ->. by destruct Hr as [(a & _ & _ & ?)|[? _]].
  - intros Hn. by destruct Hr as [([] & -> & _)|[_ ?]].
  - intros Hh Hsz. destruct (Hok Hh Hsz) as [Ho ->]. split; [|done]. destruct Hr as [([] & -> & _)|[-> _]]; done.
Qed.

(** After the bytes are there: the message goes on or is dispatched. *)
Lemma progressed_or_dispatched w e total b msg (h : heap) d (Q : res unit -> cs -> Prop) : buffer_wf b -> contents b = msg ->
  total <= RDP_SETTINGS_LIMIT_DYNAMIC_MESSAGE_BYTES ->
  (forall r s' d', Touched i c s s' -> r <> Fault -> progressed w total msg r d s' d' -> Q r (s', (h, d'))) ->
  if blen msg <? total then Q (Ok tt) (put_entry i (entry_fragment true total b c) s, (h, d))
  else wp (dispatch_fragment i w) (put_entry i (entry_fragment false e b c) s, (h, d)) Q.
Proof using Hc Hi ClientHostLaws0.
  intros Hb Hmsg Hmax HQ. pose proof (blen_contents b Hb) as Hlen. rewrite Hmsg in Hlen. unfold progressed in HQ.
  destruct (Z.ltb_spec (blen msg) total) as [Hlt|Hge].
  - apply HQ; [|done|]; [apply touched_fragment; [done|done|]; lia|]. split; [done|]. split; [done|]. by exists b.
  - pose proof (wp_dispatch w e b h d Q Hb) as Hd. rewrite Hmsg in Hd. destruct (client_message (message_ident w c) msg d) as [r d'].
    apply Hd. intros Ht Hr. by apply HQ.
Qed.

Lemma wp_first w total v l (h : heap) d (Q : res unit -> cs -> Prop) : view_bytes v = l -> view_len v = blen l -> cd_fragmenting c = false ->
  total <= RDP_SETTINGS_LIMIT_DYNAMIC_MESSAGE_BYTES ->
  (forall r s' (h' : heap) d', Touched i c s s' -> r <> Fault ->
     (h = [] -> blen l <= RDP_SETTINGS_LIMIT_DYNAMIC_MESSAGE_BYTES -> h' = [] /\ progressed w total l r d s' d') -> Q r (s', (h', d'))) ->
  wp (first_fragment i w total v) (s, (h, d)) Q.
Proof using Hc Hi ClientHostLaws0.
  intros Hv Hl Hfr Hmax HQ. unfold RDP_SETTINGS_LIMIT_DYNAMIC_MESSAGE_BYTES in *. apply wp_bind, (wp_entry i c); [done|]. apply wp_bind, wp_session. cbn [fst snd]. rewrite Hfr.
  apply wp_bind, (wp_fragment i _ (entry_fragment false (cd_fragment_expected c) rdp_buffer_init c)); [apply put_lookup, message_lt|].
  cbn [cd_fragment entry_fragment].
  destruct (rdp_buffer_reserve_spec rdp_buffer_init h total buffer_init_wf) as (r & b & h1 & -> & Hb & Hcb & Hlb & Hr & Hok).
  rewrite contents_init in Hcb. rewrite put_put. split; [by destruct Hr as [[-> _]|[-> _]]|]. change (entry_fragment _ _ b _) with (entry_fragment false (cd_fragment_expected c) b c).
  assert (Htouch : forall b', buffer_wf b' -> Touched i c s (put_entry i (entry_fragment false (cd_fragment_expected c) b' c) s)).
  { intros b' Hb'. by apply touched_fragment. }
  destruct Hr as [[-> _]|[-> _]].
  2: { apply HQ; [by apply Htouch|done|]. intros Hh. destruct (Hok Hh); [lia|done]. }
  apply wp_bind, (wp_append v l); [done|done|done|]. intros r b1 h2 Hr Hb1 Hc1 _ Hok1. rewrite Hcb in Hc1. cbn [app] in Hc1.
  assert (Hh2 : h = [] -> blen l <= 64 * 1024 * 1024 -> r = Ok tt /\ h2 = []).
  { intros Hh Hlen. destruct (Hok Hh) as [_ ->]; [lia|]. apply Hok1; [done|]. rewrite Hlb. cbn. lia. }
  destruct r as [[]|st|]; [|apply HQ; [by apply Htouch|done|]; intros Hh Hlen; by destruct (Hh2 Hh Hlen)|done].
  apply wp_bind, (wp_entry i (entry_fragment false (cd_fragment_expected c) b1 c)); [apply put_lookup, message_lt|].
  apply wp_bind, wp_session. cbn [fst snd cd_fragment entry_fragment]. rewrite put_put, <- (blen_contents b1 Hb1), Hc1 by done.
  pose proof (progressed_or_dispatched w total total b1 l h2 d Q Hb1 (Hc1 eq_refl) Hmax) as Hp.
  destruct (blen l <? total) eqn:El; [apply wp_ret|]; apply Hp; intros r' s' d' Ht Hr' Hpr; (apply HQ; [done|done|]); intros Hh Hlen; (split; [by apply Hh2|done]).
Qed.

Lemma wp_next w v l (h : heap) d (Q : res unit -> cs -> Prop) : view_bytes v = l -> view_len v = blen l -> cd_fragmenting c = true ->
  blen (contents (cd_fragment c)) + blen l <= cd_fragment_expected c ->
  (forall r s' (h' : heap) d', Touched i c s s' -> r <> Fault ->
     (h = [] -> h' = [] /\ progressed w (cd_fragment_expected c) (contents (cd_fragment c) ++ l) r d s' d') -> Q r (s', (h', d'))) ->
  wp (next_fragment i w v) (s, (h, d)) Q.
Proof using Hc Hi ClientHostLaws0.
  intros Hv Hl Hfr Hfits HQ. pose proof (eo_buffer _ Hc) as Hbuf. pose proof (eo_fragment _ Hc Hfr) as Hexp. pose proof (blen_contents _ Hbuf) as Hlc.
  unfold RDP_SETTINGS_LIMIT_DYNAMIC_MESSAGE_BYTES in Hexp.
  assert (Hs : (s, (h, d)) = (put_entry i (entry_fragment true (cd_fragment_expected c) (cd_fragment c) c) s, (h, d))).
  { f_equal. unfold put_entry. destruct s as [l0 n k]. cbn [cs_dynamic_channels cs_next_dynamic_channel_id cs_control] in *. f_equal.
    rewrite list_insert_id; [done|]. rewrite <- Hfr. by destruct c. }
  rewrite Hs. apply wp_bind, (wp_append v l); [done|done|done|]. intros r b h1 Hr Hb Hcb Hcb' Hok.
  assert (Hh1 : h = [] -> r = Ok tt /\ h1 = []) by (intros Hh; apply Hok; [done|lia]).
  destruct r as [[]|st|]; [| |done].
  2: { apply HQ; [|done|intros Hh; by destruct (Hh1 Hh)]. apply touched_fragment; [done|done|]. intros _.
       rewrite <- (blen_contents b Hb), Hcb', Hlc by done. unfold RDP_SETTINGS_LIMIT_DYNAMIC_MESSAGE_BYTES. lia. }
  specialize (Hcb eq_refl).
  apply wp_bind, (wp_entry i (entry_fragment true (cd_fragment_expected c) b c)); [apply put_lookup, message_lt|].
  cbn [cd_fragment cd_fragment_expected entry_fragment]. rewrite <- (blen_contents b Hb), Hcb.
  pose proof (progressed_or_dispatched w (cd_fragment_expected c) (cd_fragment_expected c) b _ h1 d Q Hb Hcb) as Hp.
  unfold RDP_SETTINGS_LIMIT_DYNAMIC_MESSAGE_BYTES in Hp.
  destruct (blen (contents (cd_fragment c) ++ l) <? cd_fragment_expected c) eqn:El.
  - apply wp_ret, Hp; [lia|]. intros r' s' d' Ht Hr' Hpr. apply HQ; [done|done|]. intros Hh. split; [by apply Hh1|done].
  - apply wp_bind, wp_session. cbn [fst snd]. rewrite put_put. change (entry_fragment false _ _ (entry_fragment _ _ _ c)) with (entry_fragment false (cd_fragment_expected c) b c).
    apply Hp; [lia|]. intros r' s' d' Ht Hr' Hpr. apply HQ; [done|done|]. intros Hh. split; [by apply Hh1|done].
Qed.
End message.
End wp.

(** ** Every call keeps the invariant *)

Section keeps.
Context {G D : Type} `{!SegmentedDecoder G} `{!SegmentedDecoderLaws G} `{!ClientHost D} `{!ClientHostLaws D}.
Abbreviation entry := (rdp_session_dynamic_channel G).
Abbreviation session := (client_session G).
Abbreviation cs := (cstate (G := G) (D := D)).

(** From the session [s], whatever the heap and the surroundings: the call
    answers, and each entry has been cleared [n] times at most. *)
Definition Keeps (n : nat) (s : session) {A} (m : M cs A) : Prop :=
  forall h d, wp m (s, (h, d)) (fun _ st' => evolves n s st'.1).

Section rules.
Context (n : nat) (s : session) (Hs : session_ok s) {A : Type}.
Implicit Types (m : M cs A).

Lemma keeps_ret (a : A) : Keeps n s (mret a).
Proof using Hs. intros h d. by apply wp_ret, evolves_refl. Qed.
Lemma keeps_fail e : Keeps n s (@fail _ A e).
Proof using Hs. intros h d. by apply wp_fail, evolves_refl. Qed.
Lemma keeps_lift_last (o : res A) : o <> Fault -> Keeps n s (lift o).
Proof using Hs. intros Ho h d. by apply wp_lift, evolves_refl. Qed.
Lemma keeps_require (c : bool) e (k : unit -> M cs A) : (c = true -> Keeps n s (k tt)) -> Keeps n s (require c e ≫= k).
Proof using Hs. intros Hk h d. apply wp_bind, wp_require; intros Hc; [by apply Hk|by apply evolves_refl]. Qed.
Lemma keeps_lift {B} (o : res B) (k : B -> M cs A) : o <> Fault -> (forall a, o = Ok a -> Keeps n s (k a)) -> Keeps n s (lift o ≫= k).
Proof using Hs. intros Ho Hk h d. apply wp_bind, wp_lift; [done|]. destruct o; [by apply Hk|by apply evolves_refl|done]. Qed.
Lemma keeps_get (k : session -> M cs A) : Keeps n s (k s) -> Keeps n s (get_session ≫= k).
Proof using Type. intros Hk h d. apply wp_bind, wp_get, Hk. Qed.
Lemma keeps_opt {B} (o : option B) e (k : B -> M cs A) : (forall a, o = Some a -> Keeps n s (k a)) -> Keeps n s (opt_require o e ≫= k).
Proof using Hs. intros Hk h d. apply wp_bind, wp_opt; [intros a Ha; by apply Hk|intros _; by apply evolves_refl]. Qed.
Lemma keeps_same {B} (P : B -> Prop) (m : M cs B) (k : B -> M cs A) : Same P m m -> (forall a, P a -> Keeps n s (k a)) -> Keeps n s (m ≫= k).
Proof using Hs.
  intros Hm Hk h d. apply wp_bind. eapply wp_same; [exact Hm|]. intros [a|e|] h' d' Hr _ HP; [by apply Hk, HP|by apply evolves_refl|done].
Qed.
Lemma keeps_same_last (P : A -> Prop) m : Same P m m -> Keeps n s m.
Proof using Hs. intros Hm h d. eapply wp_same; [exact Hm|]. intros. by apply evolves_refl. Qed.
Lemma keeps_touched m i c : cs_dynamic_channels s !! i = Some c ->
  (forall h d, wp m (s, (h, d)) (fun _ st' => Touched i c s st'.1)) -> Keeps n s m.
Proof using Hs.
  intros Hi Hm h d. eapply wp_conseq; [apply Hm|]. intros r st' Ht. apply (evolves_weaken 0); [lia|]. by eapply touched_evolves.
Qed.
End rules.
Lemma keeps_store n s i c : evolves n s (put_entry i c s) -> Keeps n s (store_entry i c).
Proof. intros H h d. by apply wp_session. Qed.
Lemma keeps_store_same {A} n s i c (m : M cs A) : evolves n s (put_entry i c s) ->
  Same (D := D) (P := session) (P' := session) (fun _ => True) m m -> Keeps n s (store_entry i c;; m).
Proof. intros H Hm h d. apply wp_bind, wp_session. cbn [fst snd]. by eapply wp_same; [exact Hm|]. Qed.
Lemma keeps_weaken {A} n m s (k : M cs A) : (n <= m)%nat -> Keeps n s k -> Keeps m s k.
Proof. intros Hle Hk h d. eapply wp_conseq; [apply Hk|]. intros r st'. by apply evolves_weaken. Qed.
Lemma keeps_trans {A B} n m s (x : M cs A) (k : A -> M cs B) : session_ok s -> Keeps n s x ->
  (forall a s', evolves n s s' -> Keeps m s' (k a)) -> Keeps (n + m) s (x ≫= k).
Proof.
  intros Hs Hx Hk h d. apply wp_bind. eapply wp_conseq; [apply Hx|]. intros [a|e|] [s' [h' d']] He; cbn [fst] in He.
  - eapply wp_conseq; [by apply (Hk a s' He)|]. intros r st' He'. by eapply evolves_trans.
  - apply (evolves_weaken n); [lia|done].
  - done.
Qed.
Lemma tell_same f : Same (fun _ => True) (tell (G := G) (D := D) f) (tell (G := G) f).
Proof. by apply same_host. Qed.
Lemma ask_same {A} (f : D -> A) : Same (fun _ => True) (ask (G := G) f) (ask (G := G) f).
Proof. by apply same_host. Qed.

(** A rule at a well-formed session. *)
Tactic Notation "keep_rule" uconstr(rule) := eapply rule; [assumption|..].

(** *** Data *)

Lemma send_loop_same fuel k id w prio l chunk b offset : 0 < chunk -> buffer_wf b -> 0 <= offset -> (length l - Z.to_nat offset < fuel)%nat ->
  Same (fun _ => True) (client_send_loop (G := G) fuel k id w prio l chunk b offset) (client_send_loop (G := G) fuel k id w prio l chunk b offset).
Proof.
  intros Hch. revert b offset. induction fuel as [|fuel IH]; intros b offset Hb Ho Hf; [lia|]. cbn [client_send_loop].
  destruct (Z.ltb_spec offset (blen l)) as [Hl|Hl]; [|by apply same_ret]. cbv zeta.
  set (n := if blen l - offset <? chunk then _ else _).
  assert (Hn : 0 < n /\ offset + n <= blen l) by (unfold n; destruct (Z.ltb_spec (blen l - offset) chunk); lia).
  rewrite slice_ok by lia. eapply same_bind; [by apply same_lift|]. intros part _.
  eapply same_bind; [apply same_packet_again; [done|auto with total nocore]|]. intros b1 Hb1.
  eapply same_bind; [by apply write_pdu_same|]. intros _ _. apply IH; [done|lia|unfold blen in *; lia].
Qed.
Lemma send_keeps n s id w prio v : session_ok s -> 0 <= view_len v -> 1 <= w <= 4 ->
  Keeps n s (rdp_session_send_dynamic_channel_data_priority id w prio v).
Proof.
  intros Hs Hv Hw. apply keeps_get. keep_rule keeps_require. intros Hnull. keep_rule keeps_require. intros _.
  unfold rdp_session_dynamic_channel_header_size, RDP_DYNAMIC_CHANNEL_MAX_PDU_SIZE in *. keep_rule keeps_require. intros _.
  destruct (Z.leb_spec (view_len v) (1600 - (1 + w))) as [Hl|Hl].
  - keep_rule keeps_same; [by apply same_packet, total_data_view|]. intros b Hb. keep_rule keeps_same_last. by apply write_pdu_same.
  - destruct v as [k|l]; cbn [view_null view_len view_bytes] in *; [destruct (Z.ltb_spec 0 k); [done|lia]|].
    assert (Hlb : 1 <= rdp_session_dynamic_length_bytes (blen l) <= 4) by (unfold rdp_session_dynamic_length_bytes; repeat case_match; lia).
    unfold size_t. rewrite Z.mod_small by lia.
    set (n0 := if blen l <? _ then _ else _). assert (Hn : 0 < n0 <= blen l) by (unfold n0; destruct (Z.ltb_spec (blen l) (1600 - (1 + w) - rdp_session_dynamic_length_bytes (blen l))); lia).
    keep_rule keeps_require. intros _. rewrite slice_ok by lia. keep_rule keeps_lift; [done|]. intros part _.
    keep_rule keeps_same; [apply same_packet; auto with total nocore|]. intros b Hb. keep_rule keeps_same; [by apply write_pdu_same|]. intros _ _.
    keep_rule keeps_same_last. apply send_loop_same; [lia|done|lia|lia].
Qed.

(** *** Opening and closing *)

Lemma set_next_ok id (s : session) : session_ok s -> is_u32 id -> evolves 0 s (set_next id s).
Proof.
  intros Hs Hid. split.
  - destruct Hs. by split.
  - intros i c c'. cbn [cs_dynamic_channels set_next]. intros -> [= <-]. apply moved_refl.
Qed.
Lemma generation_u32 g : is_generation g -> is_u32 g.
Proof. unfold is_generation, is_u32, UINT32_MAX. lia. Qed.

Lemma allocate_id_wp (s : session) (hd : heap * D) : session_ok s ->
  wp rdp_session_dynamic_channel_allocate_id (s, hd) (fun r st' => exists id, r = Ok id /\
    st' = (set_next (next_nonzero id) s, hd) /\ rdp_session_dynamic_channel_find_any s id = None /\ is_generation id).
Proof.
  intros Hs. apply wp_bind, wp_get. cbv zeta. cbn [fst].
  set (cand := if cs_next_dynamic_channel_id s =? 0 then 1 else cs_next_dynamic_channel_id s).
  assert (Hc : is_generation cand).
  { pose proof (sk_next _ Hs). unfold cand, is_generation, is_u32, UINT32_MAX in *. destruct (Z.eqb_spec (cs_next_dynamic_channel_id s) 0); lia. }
  destruct (allocate_loop_total s cand Hs Hc) as (id & -> & Hf & Hid). apply wp_bind, wp_opt; [|done]. intros id' [= <-].
  apply wp_bind, wp_session, wp_ret. by exists id.
Qed.

(** A new entry in a free slot. *)
Lemma new_entry_evolves (s : session) i c id w prio active opening initiated name : session_ok s -> cs_dynamic_channels s !! i = Some c ->
  cd_used c = false -> rdp_session_dynamic_channel_find_any s id = None -> id_fits w id -> 0 <= prio <= 3 ->
  blen name < RDP_SESSION_DYNAMIC_CHANNEL_NAME_MAX ->
  evolves 1 s (put_entry i (mk_channel_entry id (cd_generation (rdp_session_dynamic_channel_clear_entry c)) w prio active opening initiated
    false 0 rdp_buffer_init decoder_init name) s).
Proof.
  intros Hs Hi Hu Hf Hid Hprio Hname. destruct (next_nonzero_mod (cd_generation c)) as [_ Hg]; [apply (eo_generation _ (sk_entries _ Hs _ _ Hi))|].
  apply (evolves_put 1 s i c); [done|done| | |].
  - split; cbn; [apply buffer_init_wf|by apply generation_u32|done|done|done].
  - right. exists 1%nat. split; [lia|done].
  - intros _. right. intros j d Hj Hd. cbn [cd_channel_id]. by apply (proj1 (find_any_free s id) Hf j d).
Qed.
Lemma name_fits (name : list Z) : blen (ztake (RDP_SESSION_DYNAMIC_CHANNEL_NAME_MAX - 1) name) < RDP_SESSION_DYNAMIC_CHANNEL_NAME_MAX.
Proof. unfold ztake, blen, RDP_SESSION_DYNAMIC_CHANNEL_NAME_MAX. rewrite length_take. lia. Qed.

Lemma add_keeps (s : session) request : session_ok s -> id_fits (dcr_channel_id_bytes request) (dcr_channel_id request) -> 0 <= dcr_priority request ->
  Keeps 1 s (rdp_session_dynamic_channel_add (D := D) request).
Proof.
  intros Hs Hid Hprio. apply keeps_get. keep_rule keeps_require. intros Hfree%negb_true_iff%bool_decide_eq_false.
  apply eq_None_not_Some in Hfree. pose proof (free_slot_ok s Hs) as Hslot. keep_rule keeps_lift.
  { by destruct (rdp_session_dynamic_channel_free_slot s). }
  intros o Ho. rewrite Ho in Hslot. keep_rule keeps_opt. intros [i c] ->. destruct Hslot as [Hi Hu].
  apply keeps_store, new_entry_evolves; [done..| |apply name_fits]. destruct (Z.leb_spec (dcr_priority request) 2); lia.
Qed.
Lemma add_opening_keeps (s : session) id w prio name : session_ok s -> id_fits w id -> 0 <= prio <= 3 ->
  Keeps 1 s (rdp_session_dynamic_channel_add_opening id w prio name).
Proof.
  intros Hs Hid Hprio. keep_rule keeps_require. intros _. apply keeps_get. keep_rule keeps_require. intros Hfree%negb_true_iff%bool_decide_eq_false.
  apply eq_None_not_Some in Hfree. pose proof (free_slot_ok s Hs) as Hslot. keep_rule keeps_lift.
  { by destruct (rdp_session_dynamic_channel_free_slot s). }
  intros o Ho. rewrite Ho in Hslot. keep_rule keeps_opt. intros [i c] ->. destruct Hslot as [Hi Hu]. cbv zeta.
  apply keeps_store_same.
  - apply new_entry_evolves; [done..| |apply name_fits]. unfold u8. rewrite Z.mod_small; lia.
  - eapply same_bind; [apply same_require|]. intros _ _. by apply same_ret.
Qed.

Lemma open_keeps (s : session) name prio : session_ok s -> 0 <= prio -> Keeps 2 s (librdp_session_channel_open name prio).
Proof.
  intros Hs Hprio. keep_rule keeps_require. intros Hok. apply negb_true_iff in Hok. apply orb_false_iff in Hok as [[_ Hp%Z.ltb_ge]%orb_false_iff _].
  unfold LIBRDP_CHANNEL_PRIORITY_REALTIME in Hp. cbv zeta. apply keeps_get. keep_rule keeps_require. intros _. keep_rule keeps_require. intros _.
  intros h d. apply wp_bind, wp_attempt. eapply wp_conseq; [by apply allocate_id_wp|]. intros r st' (id & -> & -> & Hfree & Hid) _.
  set (s1 := set_next (next_nonzero id) s).
  pose proof (generation_u32 id Hid) as Hu. destruct (next_nonzero_mod id Hu) as [_ Hnext%generation_u32].
  pose proof (set_next_ok _ s Hs Hnext) as He1. pose proof (evolves_ok _ _ _ He1) as Hs1. fold s1 in He1, Hs1.
  apply wp_bind, wp_attempt.
  match goal with |- wp ?m _ _ => assert (Hk : Keeps 1 s1 m) end.
  { keep_rule keeps_lift; [done|]. intros id' [= <-]. cbv zeta. change 1%nat with (1 + 0)%nat. apply keeps_trans; [done| |].
    - apply add_opening_keeps; [done|by apply select_id_fits|lia].
    - intros handle s2 He2. pose proof (evolves_ok _ _ _ He2) as Hs2. keep_rule keeps_same; [apply same_packet; auto with total nocore|]. intros b Hb.
      keep_rule keeps_same; [by apply write_pdu_same|]. intros _ _. by apply keeps_ret. }
  eapply wp_conseq; [apply Hk|]. intros r [s2 [h2 d2]] He2 Hr. cbn [fst] in He2. pose proof (evolves_ok _ _ _ He2) as Hs2.
  assert (He : evolves 1 s s2) by (change 1%nat with (0 + 1)%nat; by apply (evolves_trans 0 1 s s1 s2)).
  destruct r as [handle|e|]; [by apply wp_ret, (evolves_weaken 1); [lia|]| |by destruct Hr].
  apply wp_bind, wp_get. cbn [fst].
  destruct (rdp_session_dynamic_channel_find_opening s2 id) as [[i c]|] eqn:Ef.
  - apply find_opening_used in Ef as (Hi & _). apply wp_bind, wp_session. apply wp_fail. cbn [fst snd].
    change 2%nat with (1 + 1)%nat. apply (evolves_trans 1 1 s s2); [exact Hs|exact He|]. by apply evolves_clear.
  - apply wp_bind, wp_ret, wp_fail. apply (evolves_weaken 1); [lia|done].
Qed.

Lemma user_channel_wp (s : session) id (h : heap) (d : D) : wp (rdp_session_require_user_channel id) (s, (h, d)) (fun r st' => st' = (s, (h, d)) /\
  forall i c, r = Ok (i, c) -> cs_dynamic_channels s !! i = Some c /\ cd_active c = true /\ cd_channel_id c = id).
Proof.
  apply wp_bind, wp_require; intros _; [|done]. apply wp_bind, wp_get. apply wp_bind, wp_require; intros _; [|done]. cbn [fst].
  apply wp_bind, wp_opt; [|done]. intros [i c] Hf. apply wp_bind, wp_require; intros Ha; [|done]. apply wp_bind, wp_require; intros _; [|done].
  apply wp_ret. split; [done|]. intros i' c' [= <- <-]. apply find_active in Hf. naive_solver.
Qed.
Lemma keeps_user {A} n s id (k : nat * entry -> M cs A) : session_ok s ->
  (forall i c, cs_dynamic_channels s !! i = Some c -> cd_active c = true -> Keeps n s (k (i, c))) ->
  Keeps n s (rdp_session_require_user_channel id ≫= k).
Proof.
  intros Hs Hk h d. apply wp_bind. eapply wp_conseq; [apply user_channel_wp|]. intros [[i c]|e|] st' [-> H]; [|by apply evolves_refl|done].
  destruct (H i c eq_refl) as (Hi & Ha & _). by apply Hk.
Qed.
Lemma used_width (s : session) i c : session_ok s -> cs_dynamic_channels s !! i = Some c -> cd_used c = true -> 1 <= cd_channel_id_bytes c <= 4.
Proof. intros Hs Hi Hu. destruct (eo_used _ (sk_entries _ Hs _ _ Hi) Hu) as [Hid _]. apply id_fits_width in Hid. lia. Qed.

Lemma channel_send_keeps (s : session) id v : session_ok s -> 0 <= view_len v -> Keeps 2 s (librdp_session_channel_send id v).
Proof.
  intros Hs Hv. keep_rule keeps_require. intros _. apply keeps_get. keep_rule keeps_require. intros _. keep_rule keeps_require. intros _.
  apply keeps_user; [done|]. intros i c Hi Ha. apply send_keeps; [done|done|]. by eapply used_width, active_used.
Qed.
Lemma channel_close_keeps (s : session) id : session_ok s -> Keeps 2 s (librdp_session_channel_close id).
Proof.
  intros Hs. apply keeps_get. keep_rule keeps_require. intros _. apply keeps_user; [done|]. intros i c Hi Ha.
  keep_rule keeps_same; [apply same_packet; auto with total nocore|]. intros b Hb. keep_rule keeps_same; [by apply write_pdu_same|]. intros _ _.
  apply keeps_store, (evolves_weaken 1); [lia|by apply evolves_clear].
Qed.
End keeps.

Section client_calls.
Context {G D : Type} `{!SegmentedDecoder G} `{!SegmentedDecoderLaws G} `{!ClientHost D} `{!ClientHostLaws D}.
Abbreviation entry := (rdp_session_dynamic_channel G).
Abbreviation session := (client_session G).
Abbreviation cs := (cstate (G := G) (D := D)).
Abbreviation keeps := (Keeps (G := G) (D := D)).

Tactic Notation "keep_rule" uconstr(rule) := eapply rule; [assumption|..].

Lemma from_handle_used (s : session) h i c : rdp_session_dynamic_channel_from_handle s h = Some (i, c) ->
  cs_dynamic_channels s !! i = Some c /\ cd_used c = true.
Proof.
  unfold rdp_session_dynamic_channel_from_handle. destruct (h =? 0); [done|]. destruct (_ || (Z.land _ _ =? 0)); [done|].
  destruct (cs_dynamic_channels s !! _) as [d|] eqn:E; [|done]. destruct (_ || negb _) eqn:Eu; [done|]. intros [= <- <-].
  apply orb_false_iff in Eu as [Eu _]. split; [done|]. unfold cd_used. by destruct (cd_active d), (cd_opening d).
Qed.
Lemma channel_send_ex_keeps s h prio v : session_ok s -> 0 <= view_len v -> keeps 2 s (librdp_session_channel_send_ex h prio v).
Proof.
  intros Hs Hv. keep_rule keeps_require. intros _. apply keeps_get. do 3 (keep_rule keeps_require; intros _).
  keep_rule keeps_opt. intros [i c] [Hi Hu]%from_handle_used. do 2 (keep_rule keeps_require; intros _).
  apply send_keeps; [done|done|]. by eapply used_width.
Qed.
Lemma channel_close_handle_keeps s h : session_ok s -> keeps 2 s (librdp_session_channel_close_handle h).
Proof.
  intros Hs. keep_rule keeps_require. intros _. apply keeps_get. do 2 (keep_rule keeps_require; intros _).
  keep_rule keeps_opt. intros [i c] _. do 2 (keep_rule keeps_require; intros _). by apply channel_close_keeps.
Qed.

(** All entries change. *)
Lemma evolves_fmap n (f : entry -> entry) (s : session) : session_ok s ->
  (forall c, entry_ok c -> entry_ok (f c) /\ moved n c (f c) /\ (cd_used (f c) = true -> cd_used c = true /\ cd_channel_id (f c) = cd_channel_id c)) ->
  evolves n s (mk_client_session (f <$> cs_dynamic_channels s) (cs_next_dynamic_channel_id s) (cs_control s)).
Proof.
  intros Hs Hf. assert (Hl : forall i c', (f <$> cs_dynamic_channels s) !! i = Some c' -> exists c, cs_dynamic_channels s !! i = Some c /\ c' = f c).
  { intros i c' (c & -> & Hi)%list_lookup_fmap_Some. eauto. }
  split.
  - split; cbn [cs_dynamic_channels cs_next_dynamic_channel_id cs_control]; [| | |apply Hs|apply Hs].
    + unfold blen. rewrite length_fmap. apply Hs.
    + intros i c' (c & Hi & ->)%Hl. by apply Hf, (sk_entries _ Hs i).
    + intros i j c1 c2 (c & Hi & ->)%Hl (c' & Hj & ->)%Hl Hu Hu' Hid.
      destruct (Hf c (sk_entries _ Hs _ _ Hi)) as (_ & _ & H1). destruct (Hf c' (sk_entries _ Hs _ _ Hj)) as (_ & _ & H2).
      destruct (H1 Hu), (H2 Hu'). apply (sk_distinct _ Hs i j c c'); congruence.
  - cbn [cs_dynamic_channels]. intros i c c' Hi (d & Hd & ->)%Hl. rewrite Hi in Hd. injection Hd as <-. by apply Hf, (sk_entries _ Hs i).
Qed.
Lemma clear_keeps s : session_ok s -> keeps 2 s rdp_session_dynamic_channels_clear.
Proof.
  intros Hs h d. apply wp_session. cbn [fst snd]. apply evolves_fmap; [done|]. intros c Hc. destruct (clear_entry_ok c Hc) as [Hok Hm].
  split; [done|]. split; [|done]. by apply (moved_weaken 1); [lia|].
Qed.
Lemma reset_fragments_keeps s : session_ok s -> keeps 2 s rdp_session_channels_reset_activation_fragments.
Proof.
  intros Hs h d. apply wp_session. cbn [fst snd]. apply evolves_fmap; [done|]. intros c Hc. unfold reset_fragment.
  destruct (_ && _); [split; [done|]; split; [apply moved_refl|done]|]. split; [|split; [left; unfold same_channel; naive_solver|done]].
  destruct Hc as [Hb Hg Hf Hn Hu]. split; cbn; try done. by apply set_length_0_wf.
Qed.

(** *** The PDUs *)

Section client_pdus.
Context (s : session) (Hs : session_ok s) (bs : list Z) (Hbs : bytes bs).

Lemma capabilities_response_total v : Total (rdp_dynamic_channel_write_capabilities_response v).
Proof using Type. unfold rdp_dynamic_channel_write_capabilities_response. solve_total. Qed.
Lemma handle_capabilities_keeps : keeps 2 s (handle_capabilities (View bs)).
Proof using All.
  destruct (dvc_parsers_safe bs Hbs) as (_ & Hsafe & _). apply keeps_get. keep_rule keeps_lift; [done|]. intros caps _. cbv zeta.
  keep_rule keeps_require. intros _. keep_rule keeps_same; [apply same_packet, capabilities_response_total|]. intros b Hb.
  keep_rule keeps_same_last. by apply write_pdu_same.
Qed.
Lemma handle_create_request_keeps : keeps 2 s (handle_create_request (View bs)).
Proof using All.
  destruct (dvc_parsers_safe bs Hbs) as (_ & _ & Hsafe & _). keep_rule keeps_lift; [done|]. intros request Hreq.
  destruct (create_request_parsed bs Hbs request Hreq) as [Hid Hprio]. keep_rule keeps_same; [apply ask_same|]. intros code _.
  keep_rule keeps_same; [apply same_packet; auto with total nocore|]. intros b Hb.
  change 2%nat with (1 + 1)%nat. apply keeps_trans; [done| |].
  - destruct (code =? _); [by apply add_keeps; [| |lia]|by apply keeps_ret].
  - intros [] s' Hs'%evolves_ok. apply keeps_get. keep_rule keeps_same; [by apply write_pdu_same|]. intros _ _. destruct (negb _); [by apply keeps_ret|].
    keep_rule keeps_same_last. apply same_host, client_created_safe.
Qed.
Lemma handle_create_keeps : keeps 2 s (handle_create (View bs)).
Proof using All.
  destruct (dvc_parsers_safe bs Hbs) as (_ & _ & _ & Hsafe & _). apply keeps_get.
  destruct (rdp_dynamic_channel_parse_create_response (View bs)) as [response|e|]; [|apply handle_create_request_keeps|done].
  destruct (rdp_session_dynamic_channel_find_opening s (dcs_channel_id response)) as [[i c]|] eqn:Ef; [|apply handle_create_request_keeps].
  apply find_opening_used in Ef as (Hi & Hu & _). keep_rule keeps_require. intros _. destruct (_ =? _).
  - apply keeps_store_same; [|apply tell_same]. apply (evolves_weaken 0); [lia|]. apply (touched_evolves i c); [done|done|]. apply touched_put.
    + destruct (sk_entries _ Hs _ _ Hi) as [Hb Hg Hf Hn Hused]. split; cbn; try done. intros _. by apply Hused.
    + split; [done|]. split; [by rewrite Hu|]. done.
  - apply keeps_store, (evolves_weaken 1); [lia|by apply evolves_clear].
Qed.
Lemma active_entry id i c : rdp_session_dynamic_channel_find s id = Some (i, c) -> cs_dynamic_channels s !! i = Some c /\ entry_ok c.
Proof using Hs. intros (Hi & _)%find_active. split; [done|]. by apply (sk_entries _ Hs i). Qed.
Lemma limit_total total : negb (limit_dynamic_channel_message_bytes (cs_control s) <? total) = true -> total <= RDP_SETTINGS_LIMIT_DYNAMIC_MESSAGE_BYTES.
Proof using Hs. intros H%negb_true_iff%Z.ltb_ge. pose proof (ko_bytes _ (sk_control _ Hs)). lia. Qed.
Lemma handle_data_first_keeps : keeps 2 s (handle_data_first (View bs)).
Proof using All.
  destruct (dvc_parsers_safe bs Hbs) as (_ & _ & _ & _ & _ & Hsafe & _). keep_rule keeps_lift; [done|]. intros pdu Hpdu.
  apply data_first_parsed in Hpdu as (_ & _ & _ & l & Hl & _); [|done]. rewrite Hl. destruct (optional_view_len l) as [Hvl Hvb].
  keep_rule keeps_require. intros _. apply keeps_get. keep_rule keeps_require. intros Hmax%limit_total.
  keep_rule keeps_opt. intros [i c] [Hi Hc]%active_entry. keep_rule keeps_require. intros Hf%negb_true_iff.
  keep_rule keeps_touched; [exact Hi|]. intros h d. by apply (wp_first s i c Hi Hc _ _ _ l).
Qed.
Lemma remaining_fits (c : entry) (l : list Z) : entry_ok c -> cd_fragmenting c = true ->
  (size_t (cd_fragment_expected c - b_length (cd_fragment c)) <? blen l) = false ->
  blen (contents (cd_fragment c)) + blen l <= cd_fragment_expected c.
Proof using Type.
  intros Hc Hf Hl%Z.ltb_ge. pose proof (eo_fragment _ Hc Hf) as Hexp. pose proof (buffer_wf_length _ (eo_buffer _ Hc)).
  unfold size_t, RDP_SETTINGS_LIMIT_DYNAMIC_MESSAGE_BYTES in *. rewrite Z.mod_small in Hl by lia. rewrite blen_contents by apply Hc. lia.
Qed.
Lemma handle_data_keeps : keeps 2 s (handle_data (View bs)).
Proof using All.
  destruct (dvc_parsers_safe bs Hbs) as (_ & _ & _ & _ & Hsafe & _). keep_rule keeps_lift; [done|]. intros pdu Hpdu.
  apply data_parsed in Hpdu as (_ & l & Hl & _); [|done]. rewrite Hl. destruct (optional_view_len l) as [Hvl Hvb].
  apply keeps_get. keep_rule keeps_opt. intros [i c] [Hi Hc]%active_entry. destruct (cd_fragmenting c) eqn:Hf.
  - keep_rule keeps_require. intros _. keep_rule keeps_require. rewrite Hvl. intros Hrem%negb_true_iff.
    keep_rule keeps_touched; [exact Hi|]. intros h d. apply (wp_next s i c Hi Hc _ _ l); [done..| |done]. by apply remaining_fits.
  - keep_rule keeps_same_last. apply same_host, client_message_safe.
Qed.
(** The decompressor of an entry changes. *)
Lemma decompressed i c (k : list Z -> M cs unit) : cs_dynamic_channels s !! i = Some c -> entry_ok c ->
  (forall l c', entry_ok c' -> same_channel c c' -> cd_fragmenting c' = cd_fragmenting c -> cd_fragment c' = cd_fragment c ->
     cd_fragment_expected c' = cd_fragment_expected c -> client_ident c' = client_ident c ->
     keeps 2 (put_entry i c' s) (k l)) ->
  forall v, keeps 2 s (on_decompressor i v ≫= k).
Proof using All.
  intros Hi Hc Hk v h d. apply wp_bind, (wp_decompressor i v c); [done|]. intros r g Hr.
  assert (Hc' : entry_ok (entry_decompressor g c)) by (destruct Hc; by split).
  assert (Hsame : same_channel c (entry_decompressor g c)) by (unfold same_channel; naive_solver).
  assert (He : evolves 0 s (put_entry i (entry_decompressor g c) s)) by (apply (touched_evolves i c); [done|done|by apply touched_put]).
  destruct r as [l|e|]; [|by apply (evolves_weaken 0); [lia|]|done].
  eapply wp_conseq; [by apply (Hk l (entry_decompressor g c))|]. intros r st' He'. change 2%nat with (0 + 2)%nat. by eapply evolves_trans.
Qed.
Lemma put_ok i c c' : cs_dynamic_channels s !! i = Some c -> entry_ok c' -> same_channel c c' ->
  session_ok (put_entry i c' s) /\ cs_dynamic_channels (put_entry i c' s) !! i = Some c'.
Proof using Hs.
  intros Hi Hc' Hsame. split; [|by apply put_lookup; eapply lookup_lt_Some]. eapply evolves_ok, (touched_evolves i c); [done|done|by apply touched_put].
Qed.
Lemma handle_compressed_data_first_keeps : keeps 2 s (handle_compressed_data_first (View bs)).
Proof using All.
  destruct (dvc_parsers_safe bs Hbs) as (_ & _ & _ & _ & _ & _ & _ & _ & Hsafe & _). keep_rule keeps_lift; [done|]. intros pdu _.
  keep_rule keeps_require. intros _. apply keeps_get. keep_rule keeps_require. intros Hmax%limit_total.
  keep_rule keeps_opt. intros [i c] [Hi Hc]%active_entry. keep_rule keeps_require. intros Hf%negb_true_iff.
  apply (decompressed i c _ Hi Hc). intros l c' Hc' Hsame Hf' _ _ _. destruct (put_ok i c c' Hi Hc' Hsame) as [Hs' Hi'].
  keep_rule keeps_require. intros _. keep_rule keeps_require. intros _.
  keep_rule keeps_touched; [exact Hi'|]. intros h d. apply (wp_first _ i c' Hi' Hc' _ _ _ l); [done..|congruence|done|done].
Qed.
Lemma handle_compressed_data_keeps : keeps 2 s (handle_compressed_data (View bs)).
Proof using All.
  destruct (dvc_parsers_safe bs Hbs) as (_ & _ & _ & _ & _ & _ & _ & Hsafe & _). keep_rule keeps_lift; [done|]. intros pdu _.
  apply keeps_get. keep_rule keeps_opt. intros [i c] [Hi Hc]%active_entry.
  apply (decompressed i c _ Hi Hc). intros l c' Hc' Hsame Hf' Hb' He' Hid. destruct (put_ok i c c' Hi Hc' Hsame) as [Hs' Hi'].
  rewrite <- Hf'. destruct (cd_fragmenting c') eqn:Hf.
  - keep_rule keeps_require. intros [_ Hrem]%negb_true_iff%orb_false_iff. rewrite <- Hb', <- He' in Hrem.
    keep_rule keeps_touched; [exact Hi'|]. intros h d. apply (wp_next _ i c' Hi' Hc' _ _ l); [done..| |done]. by apply remaining_fits.
  - keep_rule keeps_same_last. apply same_host, client_message_safe.
Qed.
Lemma handle_close_keeps : keeps 2 s (handle_close (View bs)).
Proof using All.
  destruct (dvc_parsers_safe bs Hbs) as (_ & _ & _ & _ & _ & _ & Hsafe & _). keep_rule keeps_lift; [done|]. intros pdu _. apply keeps_get.
  destruct (rdp_session_dynamic_channel_find s (dx_channel_id pdu)) as [[i c]|] eqn:Ef; [|by apply keeps_ret].
  apply active_entry in Ef as [Hi _]. keep_rule keeps_same; [apply tell_same|]. intros _ _.
  apply keeps_store, (evolves_weaken 1); [lia|by apply evolves_clear].
Qed.

Lemma eligible_safe l : tunnel_list_ok l ->
  (forall j id, is_u16 j -> l.2 !! Z.to_nat j = Some id -> rdp_dynamic_channel_soft_sync_channel_list_get_id (tunnel_list_view l) j = Ok id) ->
  exists b, eligible_loop s (tunnel_list_view l) (Z.to_nat (sl_channel_count (tunnel_list_view l))) 0 true = Ok b.
Proof using Type.
  intros (_ & Hl16 & _) Hids. unfold UINT16_MAX in Hl16.
  assert (Hk : forall k j e, 0 <= j -> j + Z.of_nat k <= blen l.2 -> exists b, eligible_loop s (tunnel_list_view l) k j e = Ok b).
  { induction k as [|k IHk]; intros j e Hj Hjk; [by exists e|]. cbn [eligible_loop].
    destruct (lookup_lt_is_Some_2 l.2 (Z.to_nat j)) as [id Hid]; [unfold blen in *; lia|].
    rewrite (Hids j id) by (done || unfold is_u16; lia). cbn [mbind res_bind]. apply IHk; lia. }
  apply Hk; cbn [sl_channel_count tunnel_list_view]; lia.
Qed.
Lemma client_tunnels_safe udp request : rdp_dynamic_channel_parse_soft_sync_request (View bs) = Ok request ->
  client_tunnels_loop s udp request (Z.to_nat (ss_tunnel_count request)) 0 [] <> Fault.
Proof using Hbs.
  intros Hreq. destruct (Z.eqb_spec (ss_tunnel_count request) 0) as [->|Hn]; [done|].
  apply soft_sync_request_inv in Hreq as (ls & Hls & Hlen & _ & _ & ->); [|done|done]. cbn [ss_tunnel_count]. unfold UINT16_MAX in Hlen.
  set (request := mk_soft_sync_request _ _ _ _).
  destruct (dvc_soft_sync_access request ls Hls eq_refl eq_refl) as [Hacc _].
  assert (H : forall n i ts, 0 <= i -> (i + Z.of_nat n <= blen ls) -> client_tunnels_loop s udp request n i ts <> Fault).
  { induction n as [|n IH]; intros i ts Hi Hin; [done|]. cbn [client_tunnels_loop]. destruct (blen ts <? 2); [|done].
    destruct (lookup_lt_is_Some_2 ls (Z.to_nat i)) as [l Hl]; [unfold blen in *; lia|].
    destruct (Hacc i l) as (-> & Hids & _); [unfold is_u16; lia|done|]. cbn [mbind res_bind].
    destruct (eligible_safe l (Forall_lookup_1 _ _ _ _ Hls Hl) Hids) as [b ->]. cbn [mbind res_bind]. apply IH; lia. }
  apply H; pose proof (blen_nonneg ls); lia.
Qed.
Lemma handle_soft_sync_keeps : keeps 2 s (handle_soft_sync_request (View bs)).
Proof using All.
  destruct (dvc_parsers_safe bs Hbs) as (_ & _ & _ & _ & _ & _ & _ & _ & _ & Hsafe & _). apply keeps_get. keep_rule keeps_lift; [done|].
  intros request Hreq. keep_rule keeps_same; [apply ask_same|]. intros udp _. keep_rule keeps_lift; [by apply client_tunnels_safe|]. intros ts _.
  keep_rule keeps_same; [apply same_packet; auto with total nocore|]. intros b Hb. keep_rule keeps_same; [by apply write_pdu_same|]. intros _ _.
  destruct (blen ts =? 0); [by apply keeps_ret|]. keep_rule keeps_same_last. apply tell_same.
Qed.

Lemma handle_pdu_keeps : keeps 2 s (rdp_session_handle_dynamic_channel (View bs)).
Proof using All.
  destruct (dvc_parsers_safe bs Hbs) as (Hh & _ & _ & _ & _ & _ & _ & _ & _ & _ & Hsr). keep_rule keeps_lift; [done|]. intros header _. cbv zeta.
  repeat match goal with |- Keeps _ _ (if ?c then _ else _) => destruct c end.
  - apply handle_capabilities_keeps.
  - apply handle_create_keeps.
  - apply handle_data_first_keeps.
  - apply handle_data_keeps.
  - apply handle_compressed_data_first_keeps.
  - apply handle_compressed_data_keeps.
  - apply handle_close_keeps.
  - apply handle_soft_sync_keeps.
  - keep_rule keeps_lift; [done|]. intros r _. by apply keeps_ret.
  - by apply keeps_ret.
Qed.
End client_pdus.

(** The arguments of a call: the widths of the C types, a packet of octets. *)
Definition client_call_ok (call : client_call) : Prop :=
  match call with
  | ClientOpen _ priority => 0 <= priority
  | ClientSend _ v => 0 <= view_len v
  | ClientSendEx _ _ v => 0 <= view_len v
  | ClientPacket v => bytes (view_bytes v)
  | _ => True
  end.
Lemma client_run_keeps s call : session_ok s -> client_call_ok call -> keeps 2 s (client_run call).
Proof.
  intros Hs Hc. destruct call as [name prio|id v|h prio v|id|h| | |[n|bs]]; cbn [client_run client_call_ok view_bytes] in *.
  - change 2%nat with (2 + 0)%nat. apply keeps_trans; [done|by apply open_keeps|]. intros handle s' Hs'%evolves_ok. by apply keeps_ret.
  - by apply channel_send_keeps.
  - by apply channel_send_ex_keeps.
  - by apply channel_close_keeps.
  - by apply channel_close_handle_keeps.
  - by apply clear_keeps.
  - by apply reset_fragments_keeps.
  - by apply keeps_lift_last.
  - destruct (parse_packet_cases bs Hc) as [E|(p & E & _ & _ & _ & _ & Hb & _)]; unfold client_dynamic_packet; rewrite E.
    + by apply keeps_lift_last.
    + keep_rule keeps_lift; [done|]. intros q [= <-]. by apply handle_pdu_keeps.
Qed.

(** ** Sequences of calls *)

(** The session of a new client. *)
Definition cleared_entry : entry := mk_channel_entry 0 0 0 0 false false false false 0 rdp_buffer_init decoder_cleared [].
Definition new_session (k : client_control) : session :=
  mk_client_session (replicate (Z.to_nat RDP_SESSION_MAX_DYNAMIC_CHANNELS) cleared_entry) 1 k.

(** [n] calls, whatever their statuses; in between the rest of the session may
    change its own fields, the heap and the surroundings. *)
Inductive client_steps : nat -> session -> session -> Prop :=
| client_done s : client_steps 0 s s
| client_step n s h d call r s1 h1 d1 s2 : client_call_ok call -> client_run call (s, (h, d)) = (r, (s1, (h1, d1))) ->
    client_steps n s1 s2 -> client_steps (S n) s s2
| client_around n s k s2 : control_ok k -> client_steps n (set_client_control k s) s2 -> client_steps n s s2.
Definition client_reachable (s : session) : Prop := exists k n, control_ok k /\ client_steps n (new_session k) s.

Lemma new_session_ok k : control_ok k -> session_ok (new_session k).
Proof.
  intros Hk. split; cbn [cs_dynamic_channels new_session cs_next_dynamic_channel_id cs_control]; [done| | |done|done].
  - intros i c [-> _]%lookup_replicate. by split.
  - intros i j c c' [-> _]%lookup_replicate _. done.
Qed.
Lemma steps_evolve n s s' : session_ok s -> client_steps n s s' -> evolves (2 * n) s s'.
Proof.
  intros Hs Hn. revert Hs. induction Hn as [s|n s h d call r s1 h1 d1 s2 Hc E _ IH|n s k s2 Hk _ IH]; intros Hs.
  - by apply evolves_refl.
  - destruct (client_run_keeps s call Hs Hc h d) as [_ He]. rewrite E in He. cbn [fst snd] in He.
    replace (2 * S n)%nat with (2 + 2 * n)%nat by lia. eapply evolves_trans; [done|exact He|]. eapply IH, evolves_ok, He.
  - assert (He : evolves 0 s (set_client_control k s)).
    { split; [destruct Hs; by split|]. cbn [cs_dynamic_channels set_client_control]. intros i c c' -> [= <-]. apply moved_refl. }
    change (2 * n)%nat with (0 + 2 * n)%nat. eapply evolves_trans; [done|exact He|]. eapply IH, evolves_ok, He.
Qed.
Lemma client_reachable_ok s : client_reachable s -> session_ok s.
Proof. intros (k & n & Hk & Hn). eapply evolves_ok, steps_evolve; [|exact Hn]. by apply new_session_ok. Qed.

Lemma handle_resolves (s : session) i c : session_ok s -> cs_dynamic_channels s !! i = Some c -> cd_used c = true ->
  0 < rdp_session_dynamic_channel_handle i c < 2 ^ 64 /\
  rdp_session_dynamic_channel_from_handle s (rdp_session_dynamic_channel_handle i c) = Some (i, c).
Proof.
  intros Hs Hi Hu. pose proof (lookup_lt_Some _ _ _ Hi) as Hlt. pose proof (sk_size _ Hs) as Hsize. unfold blen in Hsize.
  destruct (eo_used _ (sk_entries _ Hs _ _ Hi) Hu) as (_ & _ & Hg). rewrite handle_value by (done || lia).
  unfold is_generation, UINT32_MAX, RDP_SESSION_MAX_DYNAMIC_CHANNELS in *. split; [lia|]. apply from_handle_iff; [done|lia|done].
Qed.
(** Two entries with the same handle are in the same slot. *)
Lemma handle_slot i j g g' : is_generation g -> is_generation g' -> (Z.of_nat i + 1) * 2 ^ 32 + g = (Z.of_nat j + 1) * 2 ^ 32 + g' -> i = j /\ g = g'.
Proof. unfold is_generation, UINT32_MAX. lia. Qed.
Lemma resolved (s : session) h i c : session_ok s -> 0 <= h < 2 ^ 64 -> rdp_session_dynamic_channel_from_handle s h = Some (i, c) ->
  cs_dynamic_channels s !! i = Some c /\ cd_used c = true /\ is_generation (cd_generation c) /\ h = (Z.of_nat i + 1) * 2 ^ 32 + cd_generation c.
Proof.
  intros Hs Hh (Hi & Hu & He)%from_handle_iff; [|done|done]. destruct (eo_used _ (sk_entries _ Hs _ _ Hi) Hu) as (_ & _ & Hg). done.
Qed.

(** C11: Whatever the calls and the PDUs so far and their failures, no call is
    undefined; a channel number belongs to one entry at most; there is always a
    free number for [rdp_session_dynamic_channel_allocate_id], which gives one; the
    handle of a channel in use is valid and leads to it; and a message in progress
    is shorter than announced, and at most 64 MiB. *)
Theorem client_dvc_invariant (s : session) : client_reachable s ->
  (forall call h d, client_call_ok call -> (client_run call (s, (h, d))).1 <> Fault) /\
  (forall i j c c', cs_dynamic_channels s !! i = Some c -> cs_dynamic_channels s !! j = Some c' ->
     cd_used c = true -> cd_used c' = true -> cd_channel_id c = cd_channel_id c' -> i = j) /\
  (forall h d, exists id s', rdp_session_dynamic_channel_allocate_id (D := D) (s, (h, d)) = (Ok id, s') /\ 1 <= id <= UINT32_MAX /\
     rdp_session_dynamic_channel_find_any s id = None) /\
  (forall i c, cs_dynamic_channels s !! i = Some c -> cd_used c = true -> 0 < rdp_session_dynamic_channel_handle i c < 2 ^ 64 /\
     rdp_session_dynamic_channel_from_handle s (rdp_session_dynamic_channel_handle i c) = Some (i, c)) /\
  (forall i c, cs_dynamic_channels s !! i = Some c -> cd_fragmenting c = true ->
     blen (contents (cd_fragment c)) < cd_fragment_expected c /\ cd_fragment_expected c <= RDP_SETTINGS_LIMIT_DYNAMIC_MESSAGE_BYTES).
Proof.
  intros Hs%client_reachable_ok. split_and!.
  - intros call h d Hc. by apply (client_run_keeps s call Hs Hc h d).
  - apply Hs.
  - intros h d. destruct (allocate_id_wp s (h, d) Hs) as [_ (id & Hr & _ & Hf & Hid)]. exists id, (rdp_session_dynamic_channel_allocate_id (s, (h, d))).2.
    split; [|done]. rewrite <- Hr. by destruct (rdp_session_dynamic_channel_allocate_id (s, (h, d))).
  - intros i c Hi Hu. by apply handle_resolves.
  - intros i c Hi Hf. pose proof (sk_entries _ Hs _ _ Hi) as Hc. rewrite blen_contents by apply Hc. split; by apply Hc.
Qed.

(** C10: A handle stands for one channel for its whole life, and for none after:
    over any sequence of calls and PDUs - fewer than 2^31 of them, each of which
    clears an entry twice at most - it leads to the channel it led to first, the
    same number, width and name, or it is refused; and once refused it is refused
    for good, even if the slot is in use again by then. *)
Theorem client_handle_lifetime (s : session) h i c n s1 m s2 :
  client_reachable s -> 0 <= h < 2 ^ 64 -> rdp_session_dynamic_channel_from_handle s h = Some (i, c) ->
  client_steps n s s1 -> client_steps m s1 s2 -> 2 * Z.of_nat (n + m) < UINT32_MAX ->
  match rdp_session_dynamic_channel_from_handle s1 h with
  | Some (i1, c1) => i1 = i /\ client_ident c1 = client_ident c /\ cd_priority c1 = cd_priority c /\ (cd_active c = true -> cd_active c1 = true)
  | None => rdp_session_dynamic_channel_from_handle s2 h = None
  end.
Proof.
  intros Hs%client_reachable_ok Hh Hc Hn Hm Hlt. apply (resolved s h) in Hc as (Hi & Hu & Hg & He); [|done|done].
  pose proof (steps_evolve n s s1 Hs Hn) as [Hs1 Hev1]. pose proof (steps_evolve m s1 s2 Hs1 Hm) as [Hs2 Hev2].
  destruct (lookup_lt_is_Some_2 (cs_dynamic_channels s1) i) as [c1 Hi1]; [rewrite <- (same_length s s1) by done; by eapply lookup_lt_Some|].
  pose proof (Hev1 i c c1 Hi Hi1) as Hm1. destruct (rdp_session_dynamic_channel_from_handle s1 h) as [[i1 c1']|] eqn:E1.
  - apply (resolved s1 h) in E1 as (Hi1' & _ & Hg1 & He1); [|done|done]. rewrite He in He1. apply handle_slot in He1 as [<- Hgen]; [|done|done].
    rewrite Hi1 in Hi1'. injection Hi1' as <-. split; [done|]. destruct Hm1 as [(_ & _ & H)|(j & Hj & Hgj)].
    + destruct (H Hu) as (H1 & H2 & H3 & H4 & H5). unfold client_ident. by rewrite H1, H2, H4.
    + destruct (next_nonzero_fresh j (cd_generation c) Hg); [lia|lia|congruence].
  - destruct (rdp_session_dynamic_channel_from_handle s2 h) as [[i2 c2]|] eqn:E2; [exfalso|done].
    apply (resolved s2 h) in E2 as (Hi2 & _ & Hg2 & He2); [|done|done]. rewrite He in He2. apply handle_slot in He2 as [<- Hgen]; [|done|done].
    destruct Hm1 as [(Hg1 & Hu1 & _)|(j & Hj & Hgj)].
    + rewrite Hu in Hu1. destruct (handle_resolves s1 i c1 Hs1 Hi1 Hu1) as [_ Hr]. pose proof (lookup_lt_Some _ _ _ Hi1) as Hl.
      pose proof (sk_size _ Hs1) as Hsize. unfold blen in Hsize. rewrite handle_value in Hr; [|lia|by rewrite Hg1]. rewrite Hg1, <- He, E1 in Hr. done.
    + destruct (Hev2 i c1 c2 Hi1 Hi2) as [(Hg2' & _)|(j' & Hj' & Hgj')].
      * destruct (next_nonzero_fresh j (cd_generation c) Hg); [lia|lia|congruence].
      * destruct (next_nonzero_fresh (j' + j) (cd_generation c) Hg); [lia|lia|]. rewrite Nat.iter_add, <- Hgj. congruence.
Qed.
End client_calls.

(** ** At concrete inputs *)

(** A decoder of raw segments, and surroundings that keep a log and accept every
    channel. *)
#[local] Instance raw_decoder : SegmentedDecoder unit := {
  decoder_cleared := tt;
  decoder_init := tt;
  decoder_reset := id;
  decode_segmented_data l := mret l;
}.
#[local] Instance raw_decoder_laws : SegmentedDecoderLaws unit.
Proof. split; done. Qed.

Inductive client_log_item :=
| LogWritten (channel_id : Z) (l : list Z)
| LogOpened (channel : client_identity)
| LogReceived (channel : client_identity) (l : list Z)
| LogClosed (channel : client_identity).
#[local] Instance client_log_host : ClientHost (list client_log_item) := {
  client_write k l := modify (fun log => log ++ [LogWritten k l]);
  client_create_status _ _ := 0;
  client_created _ _ := mret tt;
  client_opened i log := log ++ [LogOpened i];
  client_message i l := modify (fun log => log ++ [LogReceived i l]);
  client_closed i log := log ++ [LogClosed i];
  client_udp_ready _ := true;
  client_soft_synced _ log := log;
}.
#[local] Instance client_log_laws : ClientHostLaws (list client_log_item).
Proof. split; done. Qed.

Definition sample_client_control : client_control := mk_client_control true true 1005 64 RDP_SETTINGS_LIMIT_DYNAMIC_MESSAGE_BYTES.
Definition client_runs (calls : list client_call) (s : cstate (G := unit) (D := list client_log_item)) : cstate (G := unit) (D := list client_log_item) :=
  foldl (fun s call => (client_run call s).2) s calls.
Lemma client_runs_steps calls s : Forall client_call_ok calls -> client_steps (D := list client_log_item) (length calls) s.1 (client_runs calls s).1.
Proof.
  intros Hc. revert s. induction Hc as [|call calls Hok _ IH]; intros s; [constructor|]. cbn [length client_runs foldl].
  destruct (client_run call s) as [r [s1 [h1 d1]]] eqn:E. destruct s as [s [h d]].
  eapply client_step; [exact Hok|exact E|]. pose proof (IH (s1, (h1, d1))) as H. unfold client_runs in H. cbn [fst snd] in *. exact H.
Qed.
Definition whole_packet_of (pdu : list Z) : list Z := le32 (blen pdu) ++ le32 3 ++ pdu.
(** Capabilities; the server asks for the channel 7, and the application for one of
    its own, 1; a first part of a message on the channel 7. *)
Definition sample_client_calls : list client_call :=
  [ClientPacket (View (whole_packet_of [0x50; 0; 3; 0; 0; 0; 0; 0; 0; 0; 0; 0])); ClientPacket (View (whole_packet_of [0x10; 7; 97; 98; 0]));
   ClientOpen (Some [99; 100]) 1; ClientPacket (View (whole_packet_of [0x20; 7; 4; 1; 2]))].
Definition sample_session : cstate (G := unit) (D := list client_log_item) :=
  client_runs sample_client_calls (new_session sample_client_control, ([], [])).
Lemma sample_session_reachable : client_reachable (D := list client_log_item) sample_session.1.
Proof.
  exists sample_client_control, (length sample_client_calls). split; [by split|].
  apply (client_runs_steps sample_client_calls (new_session sample_client_control, ([], []))). repeat constructor; try done; by_evaluation.
Qed.

Lemma client_dvc_invariant_witness :
  (fun e => (e.1, cd_fragmenting e.2)) <$> rdp_session_dynamic_channel_find sample_session.1 7 = Some (0%nat, true) /\
  (forall call h d, client_call_ok call -> (client_run (D := list client_log_item) call (sample_session.1, (h, d))).1 <> Fault).
Proof.
  split; [by vm_compute|]. apply (client_dvc_invariant (D := list client_log_item) sample_session.1 sample_session_reachable).
Defined.

(** The server closes the channel 7 and asks for a new one of the same number: it
    is in the same slot, and the handle of the first one is no longer good, nor
    after the number is closed again. *)
Definition reopened_session : cstate (G := unit) (D := list client_log_item) :=
  client_runs [ClientPacket (View (whole_packet_of [0x40; 7])); ClientPacket (View (whole_packet_of [0x10; 7; 97; 98; 0]))] sample_session.
Definition reclosed_session : cstate (G := unit) (D := list client_log_item) :=
  client_runs [ClientClose 7] reopened_session.
Lemma client_handle_lifetime_witness :
  fst <$> rdp_session_dynamic_channel_from_handle sample_session.1 0x100000001 = Some 0%nat /\
  fst <$> rdp_session_dynamic_channel_find reopened_session.1 7 = Some 0%nat /\
  match rdp_session_dynamic_channel_from_handle reopened_session.1 0x100000001 with
  | Some _ => False
  | None => rdp_session_dynamic_channel_from_handle reclosed_session.1 0x100000001 = None
  end.
Proof.
  split; [by vm_compute|]. split; [by vm_compute|].
  assert (H1 : client_steps (D := list client_log_item) 2 sample_session.1 reopened_session.1).
  { apply (client_runs_steps [_; _] sample_session). repeat constructor; try done; by_evaluation. }
  assert (H2 : client_steps (D := list client_log_item) 1 reopened_session.1 reclosed_session.1).
  { apply (client_runs_steps [_] reopened_session). by repeat constructor. }
  pose proof (client_handle_lifetime (D := list client_log_item) sample_session.1 0x100000001 0
    (default cleared_entry (cs_dynamic_channels sample_session.1 !! 0%nat)) 2 reopened_session.1 1 reclosed_session.1
    sample_session_reachable ltac:(lia) ltac:(by vm_compute) H1 H2 ltac:(unfold UINT32_MAX; lia)) as H.
  replace (rdp_session_dynamic_channel_from_handle reopened_session.1 0x100000001)
    with (@None (nat * rdp_session_dynamic_channel unit)) in * by (by vm_compute).
  exact H.
Defined.
