(* ===== verification/DvcDelivery.v ===== *)
(** * DvcDelivery: messages of dynamic channels from end to end

    A message sent on a dynamic channel leaves as one DATA PDU or as a DATA_FIRST
    PDU and DATA PDUs, each in a packet of the static channel.  The senders of
    [ServerDvc] and [ClientDvc] and their receivers meet in [message_packets]:
    what both senders write, and what both receivers put together again. *)

From stdpp Require Import gmap.
From S2P Require Import Prelude Stream Buffer VirtualChannel DynamicChannel Reassembly ServerDvc ClientDvc.

(** ** The packets of a message *)

Definition data_enc (w id priority : Z) (l : list Z) : list Z := pdu_enc RDP_DYNAMIC_CHANNEL_CMD_DATA priority w id l.
Definition first_enc (w id total : Z) (l : list Z) : list Z :=
  pdu_enc RDP_DYNAMIC_CHANNEL_CMD_DATA_FIRST (rdp_dynamic_channel_length_code (rdp_dynamic_channel_length_bytes total)) w id
    (length_enc total ++ l).
(** A PDU in a packet of its own on the static channel. *)
Definition static_enc (p : list Z) : list Z := fragment_enc p (blen p) 3.

(** The PDUs that carry a message: at most 1600 bytes each. *)
Inductive message_packets (w id : Z) (message : list Z) : list (list Z) -> Prop :=
| one_packet priority : 0 <= priority <= 3 -> w + blen message + 1 <= RDP_DYNAMIC_CHANNEL_MAX_PDU_SIZE ->
    message_packets w id message [data_enc w id priority message]
| whole_packet : 0 < blen message -> fragment_size w (blen message) message <= RDP_DYNAMIC_CHANNEL_MAX_PDU_SIZE ->
    message_packets w id message [first_enc w id (blen message) message]
| more_packets priority first parts : 0 <= priority <= 3 -> message = first ++ concat parts -> 0 < blen first -> parts <> [] ->
    fragment_size w (blen message) first <= RDP_DYNAMIC_CHANNEL_MAX_PDU_SIZE ->
    Forall (fun part => 0 < blen part /\ w + blen part + 1 <= RDP_DYNAMIC_CHANNEL_MAX_PDU_SIZE) parts ->
    message_packets w id message (first_enc w id (blen message) first :: (data_enc w id priority <$> parts)).

Section pdus.
Context (w id : Z) (Hid : id_fits w id).

Lemma data_pdu priority l v : 0 <= priority <= 3 -> bytes l -> view_bytes v = l -> view_len v = blen l ->
  bytes (data_enc w id priority l) /\ blen (data_enc w id priority l) = w + blen l + 1 /\
  rdp_dynamic_channel_parse_header (View (data_enc w id priority l)) = Ok (pdu_header RDP_DYNAMIC_CHANNEL_CMD_DATA priority w) /\
  rdp_dynamic_channel_parse_data (View (data_enc w id priority l)) = Ok (mk_dvc_data id w (optional_view l)) /\
  WritesAtomic (rdp_dynamic_channel_write_data_ex id w priority v) (data_enc w id priority l) (fun _ => True).
Proof using Hid.
  intros Hp Hl Hv Hvl. destruct (dvc_data_roundtrip w id priority 0 v l Hid Hp Hv Hvl Hl ltac:(done)) as ((Hw & Hd) & _).
  assert (Hok : header_ok RDP_DYNAMIC_CHANNEL_CMD_DATA priority w) by (by apply (header_ok_plain _ _ _ id)).
  split; [by apply bytes_pdu_enc|]. split; [|split; [by apply dvc_header_parsed|done]].
  unfold data_enc, pdu_enc. rewrite !blen_app, blen_id_enc by done. unfold blen. cbn [length]. lia.
Qed.
Lemma first_pdu total l : bytes l -> is_u32 total -> 1 <= total -> blen l <= total ->
  fragment_size w total l <= RDP_DYNAMIC_CHANNEL_MAX_PDU_SIZE ->
  bytes (first_enc w id total l) /\ blen (first_enc w id total l) <= RDP_DYNAMIC_CHANNEL_MAX_PDU_SIZE /\
  (exists sp, rdp_dynamic_channel_parse_header (View (first_enc w id total l)) = Ok (pdu_header RDP_DYNAMIC_CHANNEL_CMD_DATA_FIRST sp w)) /\
  rdp_dynamic_channel_parse_data_first (View (first_enc w id total l)) = Ok (mk_dvc_data_first id w total (optional_view l)) /\
  forall priority, 0 <= priority <= 3 ->
    WritesAtomic (rdp_dynamic_channel_write_data_first_ex id w priority total (View l)) (first_enc w id total l) (fun _ => True).
Proof using Hid.
  intros Hl Ht Hpos Hle Hsz.
  assert (Hr : forall priority, 0 <= priority <= 3 ->
    WritesAtomic (rdp_dynamic_channel_write_data_first_ex id w priority total (View l)) (first_enc w id total l) (fun _ => True) /\
    rdp_dynamic_channel_parse_data_first (View (first_enc w id total l)) = Ok (mk_dvc_data_first id w total (optional_view l))).
  { intros priority Hp. destruct (dvc_data_roundtrip w id priority total (View l) l Hid Hp eq_refl eq_refl Hl Ht) as (_ & Hf & _). by apply Hf. }
  destruct (length_code_ok RDP_DYNAMIC_CHANNEL_CMD_DATA_FIRST w total id) as (Hok & _); [by left|done|done|].
  assert (Hlen : bytes (length_enc total ++ l)) by (apply Forall_app_2; [by apply bytes_id_enc, length_fits|done]).
  split; [by apply bytes_pdu_enc|]. split.
  { unfold first_enc, pdu_enc, fragment_size, length_enc in *. rewrite !blen_app, !blen_id_enc by (done || by apply length_fits).
    unfold blen in *. cbn [length]. lia. }
  split; [eexists; by apply dvc_header_parsed|]. split; [by apply (Hr 0)|]. intros priority Hp. by apply Hr.
Qed.
End pdus.

(** Every packet is whole in its static packet. *)
Lemma static_packet p : bytes p -> blen p <= RDP_DYNAMIC_CHANNEL_MAX_PDU_SIZE ->
  fragment_ok p (blen p) 3 /\ bytes (static_enc p) /\
  rdp_virtual_channel_parse_packet (View (static_enc p)) = Ok (mk_virtual_channel_packet (blen p) 3 p (blen p)).
Proof.
  unfold RDP_DYNAMIC_CHANNEL_MAX_PDU_SIZE. intros Hb Hl. pose proof (blen_nonneg p).
  assert (Hok : fragment_ok p (blen p) 3) by (split; [unfold UINT32_MAX; lia|done]). split; [done|]. split.
  - unfold static_enc, fragment_enc. repeat apply Forall_app_2; [solve_bytes..|done].
  - by apply fragment_parsed.
Qed.

(** ** The server receives *)

Section server_receives.
Context {D : Type} `{!DvcHost D} `{!DvcHostLaws D}.

(** The PDUs, one after the other. *)
Fixpoint server_feed (pdus : list (list Z)) : M (dstate (D := D)) unit :=
  match pdus with
  | [] => mret tt
  | p :: pdus => run_call (CallMessage (View p));; server_feed pdus
  end.

Lemma server_message p bs d r t' c' d' : peer_ok p -> bytes bs ->
  spec_message (View bs) (view_of p, ([], d)) = (r, ((t', c'), ([], d'))) ->
  exists p', run_call (CallMessage (View bs)) (p, ([], d)) = (r, (p', ([], d'))) /\ peer_ok p' /\ table_of p' = t' /\ control p' = c'.
Proof.
  intros Hp Hb E. destruct (message_simulates p Hp bs Hb [] d) as (r1 & p1 & h1 & d1 & E1 & Hp1 & _ & H). destruct (H eq_refl) as [-> E2].
  pose proof (eq_trans (eq_sym E) E2) as E3. injection E3 as -> -> -> ->. by exists p1.
Qed.

Section one_pdu.
Context (t : dvc_table) (c : dvc_control) (w id : Z) (l : list Z) (e : dvc_entry) (a : progress) (d : D).
Context (Hready : dynamic_channels_ready c = true) (Hid : id_fits w id) (Hl : bytes l) (Ho : opened t id = Some (e, a)).

Lemma spec_data_pdu priority : 0 <= priority <= 3 ->
  spec_message (View (data_enc w id priority l)) ((t, c), ([], d)) =
  match a with
  | None => host (host_deliver (entry_identity id e) l) ((t, c), ([], d))
  | Some (expected, got) =>
      if negb (blen l =? 0) && (blen got + blen l <=? expected) then spec_receive id e expected (got ++ l) ((t, c), ([], d))
      else (Err LIBRDP_STATUS_PROTOCOL_ERROR, ((t, c), ([], d)))
  end.
Proof using Hready Hid Hl Ho.
  intros Hp. destruct (optional_view_len l) as [Hvl Hvb].
  destruct (data_pdu w id Hid priority l (View l) Hp Hl eq_refl eq_refl) as (Hb & _ & Hh & Hd & _).
  transitivity (spec_data (View (data_enc w id priority l)) ((t, c), ([], d))).
  { unfold spec_message, get_table. rewrite bind_require, bind_lift, Hh, bind_gets. cbn [fst]. rewrite Hready. reflexivity. }
  unfold spec_data, get_table. rewrite bind_lift, Hd, bind_gets. cbn [fst dd_channel_id dd_data]. rewrite Ho, Hvb.
  change (opt_require (Some (e, a)) LIBRDP_STATUS_PROTOCOL_ERROR) with (mret (e, a) : M (dvc_table * dvc_control * (heap * D)) (dvc_entry * progress)).
  destruct a as [[expected got]|]; [|done]. cbv beta zeta. etransitivity; [apply bind_require|]. by destruct (_ && _).
Qed.
Lemma spec_first_pdu total : a = None -> is_u32 total -> 1 <= total <= RDP_SERVER_DYNAMIC_MESSAGE_MAX -> blen l <= total ->
  fragment_size w total l <= RDP_DYNAMIC_CHANNEL_MAX_PDU_SIZE ->
  spec_message (View (first_enc w id total l)) ((t, c), ([], d)) = spec_receive id e total l ((t, c), ([], d)).
Proof using Hready Hid Hl Ho.
  intros Ha Ht Hmax Hle Hsz. destruct (optional_view_len l) as [Hvl Hvb].
  destruct (first_pdu w id Hid total l Hl Ht ltac:(lia) Hle Hsz) as (Hb & _ & [sp Hh] & Hd & _).
  transitivity (spec_data_first (View (first_enc w id total l)) ((t, c), ([], d))).
  { unfold spec_message, get_table. rewrite bind_require, bind_lift, Hh, bind_gets. cbn [fst]. rewrite Hready. reflexivity. }
  unfold spec_data_first, get_table. rewrite bind_lift, Hd, bind_gets. cbn [fst df_channel_id df_data df_total_length]. rewrite Ho, Hvb, Hvl, Ha.
  change (opt_require (Some (e, None)) LIBRDP_STATUS_PROTOCOL_ERROR) with (mret (e, None) : M (dvc_table * dvc_control * (heap * D)) (dvc_entry * progress)).
  cbv beta zeta. etransitivity; [apply bind_require|]. cbn [bool_decide]. rewrite (proj2 (Z.leb_le _ _)) by lia. cbn [andb].
  etransitivity; [apply bind_require|]. by rewrite (proj2 (Z.leb_le _ _)) by lia.
Qed.
(** A complete message is delivered, and the channel waits for the next one. *)
Lemma spec_receive_complete r d' expected : blen l = expected -> host_deliver (entry_identity id e) l d = (r, d') -> r <> Fault ->
  spec_receive id e expected l ((t, c), ([], d)) = (r, ((<[id := with_phase (Opened None) e]> t, c), ([], d'))).
Proof using Type.
  intros <- Hd Hr. unfold spec_receive. rewrite Z.eqb_refl.
  assert (E : attempt (host (host_deliver (entry_identity id e) l)) ((t, c), ([], d)) = (Ok r, ((t, c), ([], d')))).
  { unfold attempt, host, on_snd. cbn [fst snd]. rewrite Hd. by destruct r. }
  rewrite (bind_ok _ _ _ _ _ E). reflexivity.
Qed.
Lemma spec_receive_more expected : 0 < blen l < expected ->
  spec_receive id e expected l ((t, c), ([], d)) = (Ok tt, ((<[id := with_phase (Opened (Some (expected, l))) e]> t, c), ([], d))).
Proof using Type. intros Hlen. unfold spec_receive. rewrite (proj2 (Z.eqb_neq (blen l) expected)), (proj2 (Z.eqb_neq (blen l) 0)) by lia. done. Qed.
End one_pdu.

Lemma opened_phase (t : dvc_table) id e a : opened (<[id := with_phase (Opened a) e]> t) id = Some (with_phase (Opened a) e, a).
Proof. unfold opened. by rewrite lookup_insert_eq. Qed.

(** An idle open channel is as [opened] gives it. *)
Lemma opened_idle (t : dvc_table) id e : opened t id = Some (e, None) -> <[id := with_phase (Opened None) e]> t = t.
Proof.
  intros Ho. apply insert_id. unfold opened in Ho. destruct (t !! id) as [e'|]; [|done]. destruct (en_phase e') eqn:Eph; try done.
  injection Ho as <- ->. f_equal. unfold with_phase. rewrite <- Eph. by destruct e'.
Qed.

(** What a run does that delivers [message] on the channel [id]. *)
Definition Delivers (m : M (dstate (D := D)) unit) (p : dvc_peer) (id : Z) (e : dvc_entry) (t : dvc_table) (message : list Z) (d : D) : Prop :=
  exists r p' d', m (p, ([], d)) = (r, (p', ([], d'))) /\ host_deliver (entry_identity id e) message d = (r, d') /\
    peer_ok p' /\ control p' = control p /\ table_of p' = <[id := with_phase (Opened None) e]> t.

Lemma feed_last bs p p' r d d' : run_call (CallMessage (View bs)) (p, ([], d)) = (r, (p', ([], d'))) ->
  server_feed [bs] (p, ([], d)) = (r, (p', ([], d'))).
Proof.
  intros E. cbn [server_feed]. destruct r as [[]|st|]; [exact (bind_ok _ _ _ _ _ E)|exact (bind_err _ _ _ _ _ E)|exact (bind_fault _ _ _ _ E)].
Qed.

Section one_message.
Context (w id priority : Z) (Hid : id_fits w id) (Hprio : 0 <= priority <= 3) (e : dvc_entry) (t : dvc_table).

Lemma server_parts parts p got total d : parts <> [] -> Forall (fun part => 0 < blen part /\ bytes part) parts -> peer_ok p ->
  dynamic_channels_ready (control p) = true -> table_of p = <[id := with_phase (Opened (Some (total, got))) e]> t ->
  total = blen (got ++ concat parts) -> 0 < blen got ->
  Delivers (server_feed (data_enc w id priority <$> parts)) p id e t (got ++ concat parts) d.
Proof using Hid Hprio DvcHostLaws0.
  revert p got d. induction parts as [|part parts IH]; intros p got d Hne Hparts Hp Hready Ht Htotal Hgot; [done|].
  apply list.Forall_cons in Hparts as [[Hpart Hb] Hparts]. rewrite fmap_cons. cbn [concat] in Htotal.
  rewrite !blen_app in Htotal. pose proof (blen_nonneg (concat parts)) as Hn.
  set (e1 := with_phase (Opened (Some (total, got))) e) in *.
  assert (Ho : opened (table_of p) id = Some (e1, Some (total, got))) by (rewrite Ht; apply opened_phase).
  assert (Hs : forall d, spec_message (View (data_enc w id priority part)) (view_of p, ([], d)) =
                spec_receive id e1 total (got ++ part) (view_of p, ([], d))).
  { intros d0. unfold view_of. rewrite (spec_data_pdu (table_of p) (control p) w id part e1 _ d0 Hready Hid Hb Ho priority Hprio).
    rewrite (proj2 (Z.eqb_neq (blen part) 0)), (proj2 (Z.leb_le _ _)) by lia. done. }
  destruct (data_pdu w id Hid priority part (View part) Hprio Hb eq_refl eq_refl) as (Hbs & _).
  destruct parts as [|part2 parts].
  - cbn [concat] in *. rewrite app_nil_r in *. pose proof (host_deliver_safe (entry_identity id e) (got ++ part) d) as Hsafe.
    destruct (host_deliver (entry_identity id e) (got ++ part) d) as [r d'] eqn:Ed. cbn [fst] in Hsafe.
    pose proof (Hs d) as Hsd. unfold view_of in Hsd at 2. rewrite (spec_receive_complete (table_of p) (control p) id (got ++ part) e1 d r d') in Hsd;
      [|rewrite blen_app; change (blen (@nil Z)) with 0 in *; lia|done|done].
    destruct (server_message p _ d _ _ _ _ Hp Hbs Hsd) as (p' & E & Hp' & Ht' & Hc'). exists r, p', d'.
    split; [by apply feed_last|]. split; [done|]. split; [done|]. split; [done|].
    rewrite Ht', Ht. unfold e1. rewrite insert_insert_eq. done.
  - pose proof (Hs d) as Hsd. unfold view_of in Hsd at 2.
    assert (Hmore : 0 < blen (concat (part2 :: parts))).
    { cbn [concat]. rewrite blen_app. apply list.Forall_cons in Hparts as [[? _] _]. pose proof (blen_nonneg (concat parts)). lia. }
    rewrite (spec_receive_more (table_of p) (control p) id (got ++ part) e1 d total) in Hsd by (rewrite blen_app; lia).
    destruct (server_message p _ d _ _ _ _ Hp Hbs Hsd) as (p' & E & Hp' & Ht' & Hc').
    destruct (IH p' (got ++ part) d) as (r & p2 & d2 & E2 & Hd2 & Hp2 & Hc2 & Ht2); [done|done|done|by rewrite Hc'| | | |].
    + rewrite Ht', Ht. unfold e1. by rewrite insert_insert_eq.
    + rewrite !blen_app in *. lia.
    + rewrite blen_app. lia.
    + exists r, p2, d2. split; [cbn [server_feed]; exact (eq_trans (bind_ok _ _ _ _ _ E) E2)|]. rewrite <- app_assoc in Hd2.
      split; [exact Hd2|]. split; [done|]. split; [congruence|done].
Qed.
End one_message.

(** The packets of a message bring the message, once, to an idle open channel. *)
Lemma server_receives_message w id message pdus p e d : message_packets w id message pdus -> id_fits w id -> bytes message ->
  blen message <= RDP_SERVER_DYNAMIC_MESSAGE_MAX -> peer_ok p -> dynamic_channels_ready (control p) = true ->
  opened (table_of p) id = Some (e, None) ->
  Delivers (server_feed pdus) p id e (table_of p) message d.
Proof.
  intros Hm Hid Hb Hmax Hp Hready Ho. destruct Hm as [priority Hprio Hsz|Hpos Hsz|priority first parts Hprio Hmsg Hfirst Hne Hsz Hparts].
  - pose proof (host_deliver_safe (entry_identity id e) message d) as Hsafe.
    destruct (host_deliver (entry_identity id e) message d) as [r d'] eqn:Ed. cbn [fst] in Hsafe.
    destruct (data_pdu w id Hid priority message (View message) Hprio Hb eq_refl eq_refl) as (Hbs & _).
    destruct (server_message p (data_enc w id priority message) d r (table_of p) (control p) d' Hp Hbs) as (p' & E & Hp' & Ht' & Hc').
    { unfold view_of. rewrite (spec_data_pdu (table_of p) (control p) w id message e None d Hready Hid Hb Ho priority Hprio).
      unfold host, on_snd. cbn [fst snd]. by rewrite Ed. }
    exists r, p', d'. split; [by apply feed_last|]. split; [done|]. split; [done|]. split; [done|]. rewrite Ht'.
    symmetry. by apply opened_idle.
  - pose proof (host_deliver_safe (entry_identity id e) message d) as Hsafe.
    destruct (host_deliver (entry_identity id e) message d) as [r d'] eqn:Ed. cbn [fst] in Hsafe.
    assert (Hu : is_u32 (blen message)) by (unfold is_u32, RDP_SERVER_DYNAMIC_MESSAGE_MAX in *; lia).
    destruct (first_pdu w id Hid (blen message) message Hb Hu ltac:(lia) ltac:(lia) Hsz) as (Hbs & _).
    pose proof (spec_first_pdu (table_of p) (control p) w id message e None d Hready Hid Hb Ho (blen message) eq_refl Hu ltac:(lia) ltac:(lia) Hsz) as Hs.
    rewrite (spec_receive_complete (table_of p) (control p) id message e d r d' (blen message) eq_refl Ed Hsafe) in Hs.
    destruct (server_message p _ d _ _ _ _ Hp Hbs Hs) as (p' & E & Hp' & Ht' & Hc'). exists r, p', d'. split; [by apply feed_last|]. done.
  - rewrite Hmsg in Hb. apply Forall_app in Hb as [Hbf Hbp].
    assert (Htot : blen message = blen first + blen (concat parts)) by (rewrite Hmsg; apply blen_app).
    assert (Hpos : 0 < blen (concat parts)).
    { destruct parts as [|part parts]; [done|]. cbn [concat]. rewrite blen_app. apply list.Forall_cons in Hparts as [[? _] _].
      pose proof (blen_nonneg (concat parts)). lia. }
    assert (Hu : is_u32 (blen message)) by (unfold is_u32, RDP_SERVER_DYNAMIC_MESSAGE_MAX in *; lia).
    destruct (first_pdu w id Hid (blen message) first Hbf Hu ltac:(lia) ltac:(lia) Hsz) as (Hbs & _).
    pose proof (spec_first_pdu (table_of p) (control p) w id first e None d Hready Hid Hbf Ho (blen message) eq_refl Hu ltac:(lia) ltac:(lia) Hsz) as Hs.
    rewrite (spec_receive_more (table_of p) (control p) id first e d (blen message)) in Hs by lia.
    destruct (server_message p _ d _ _ _ _ Hp Hbs Hs) as (p1 & E & Hp1 & Ht1 & Hc1).
    destruct (server_parts w id priority Hid Hprio e (table_of p) parts p1 first (blen message) d) as (r & p2 & d2 & E2 & Hd2 & Hp2 & Hc2 & Ht2);
      [done| |done|by rewrite Hc1|done|by rewrite <- Hmsg|done|].
    { rewrite list.Forall_forall in Hparts |- *. intros part Hpart. split; [by apply Hparts|]. rewrite list.Forall_forall in Hbp |- *.
      intros x Hx. apply Hbp. apply list_elem_of_In, in_concat. exists part. by rewrite <- !list_elem_of_In. }
    rewrite <- Hmsg in Hd2. exists r, p2, d2. split; [cbn [server_feed]; exact (eq_trans (bind_ok _ _ _ _ _ E) E2)|]. split; [done|]. split; [done|].
    split; [congruence|done].
Qed.
End server_receives.

(** ** The static channel between *)

Definition pdu_ok (p : list Z) : Prop := bytes p /\ 0 < blen p <= RDP_DYNAMIC_CHANNEL_MAX_PDU_SIZE.

Lemma first_enc_pos w id total l : 0 < blen (first_enc w id total l).
Proof.
  unfold first_enc, pdu_enc. rewrite blen_app. pose proof (blen_nonneg (id_enc w id ++ length_enc total ++ l)).
  unfold blen at 1. cbn [length]. lia.
Qed.
Lemma message_packets_ok w id message pdus : message_packets w id message pdus -> id_fits w id -> bytes message -> blen message <= UINT32_MAX ->
  Forall pdu_ok pdus.
Proof.
  intros Hm Hid Hb Hmax. pose proof (id_fits_width w id Hid) as Hw.
  assert (Hdata : forall priority l, 0 <= priority <= 3 -> bytes l -> w + blen l + 1 <= RDP_DYNAMIC_CHANNEL_MAX_PDU_SIZE -> pdu_ok (data_enc w id priority l)).
  { intros priority l Hp Hl Hsz. destruct (data_pdu w id Hid priority l (View l) Hp Hl eq_refl eq_refl) as (Hbs & Hlen & _).
    pose proof (blen_nonneg l). split; [done|]. lia. }
  destruct Hm as [priority Hprio Hsz|Hpos Hsz|priority first parts Hprio Hmsg Hfirst Hne Hsz Hparts].
  - constructor; [by apply Hdata|done].
  - destruct (first_pdu w id Hid (blen message) message Hb) as (Hbs & Hlen & _); [unfold is_u32, UINT32_MAX in *; lia|lia|lia|done|].
    constructor; [|done]. split; [done|]. split; [|done]. apply first_enc_pos.
  - rewrite Hmsg in Hb. apply Forall_app in Hb as [Hbf Hbp].
    assert (Htot : blen message = blen first + blen (concat parts)) by (rewrite Hmsg; apply blen_app). pose proof (blen_nonneg (concat parts)).
    destruct (first_pdu w id Hid (blen message) first Hbf) as (Hbs & Hlen & _); [unfold is_u32, UINT32_MAX in *; lia|lia|lia|done|].
    constructor.
    + split; [done|]. split; [apply first_enc_pos|done].
    + apply Forall_fmap, list.Forall_forall. intros part Hpart. rewrite list.Forall_forall in Hparts. destruct (Hparts part Hpart). apply Hdata; [done| |done].
      rewrite list.Forall_forall in Hbp |- *. intros x Hx. apply Hbp. apply list_elem_of_In, in_concat. exists part. by rewrite <- !list_elem_of_In.
Qed.

Section static_server.
Context {D : Type} `{!DvcHost D} `{!DvcHostLaws D}.

(** What [rdp_server_handle_static_channel_message] hands to the table. *)
Definition server_dispatch (l : list Z) : M (dstate (D := D)) unit := run_call (CallMessage (View l)).

Lemma static_input (p : list Z) : pdu_ok p -> server_input None (static_enc p) = Complete p.
Proof using Type.
  intros [Hb [_ Hl]]. destruct (static_packet p Hb Hl) as (_ & _ & E). unfold server_input. rewrite E.
  assert (Hlen : blen (static_enc p) = 8 + blen p).
  { unfold static_enc, fragment_enc. rewrite !blen_app. change (blen (le32 (blen p))) with 4. change (blen (le32 3)) with 4. lia. }
  cbn [vcp_payload vcp_length vcp_flags]. rewrite Hlen, Z.eqb_refl. unfold RDP_SERVER_STATIC_MESSAGE_MAX, RDP_DYNAMIC_CHANNEL_MAX_PDU_SIZE in *.
  rewrite (proj2 (Z.leb_le _ _)) by lia. cbn [andb]. unfold server_recv. cbn. by rewrite Z.eqb_refl.
Qed.
Lemma static_feed pdus c st r st' : represents c None -> Forall pdu_ok pdus -> server_feed pdus st = (r, st') -> r <> Fault ->
  exists c', feed (rdp_server_handle_static_channel_message server_dispatch) (static_enc <$> pdus) ((c, []), st) = (r, ((c', []), st')) /\
    (r = Ok tt -> represents c' None).
Proof using Type.
  revert c st. induction pdus as [|p pdus IH]; intros c st Hc Hok E Hr.
  - injection E as <- <-. by exists c.
  - apply list.Forall_cons in Hok as [Hp Hok]. destruct (static_packet p (proj1 Hp) ltac:(apply Hp)) as (_ & Hbs & _).
    destruct (server_static_step server_dispatch c None (static_enc p) Hc Hbs [] st) as (r1 & c1 & h1 & st1 & E1 & _ & Ho).
    destruct (Ho eq_refl) as [Hreal ->]. rewrite (static_input p Hp) in Hreal. destruct Hreal as [Ed Hc1].
    rewrite fmap_cons. cbn [feed]. cbn [server_feed] in E. change (run_call (CallMessage (View p)) st = (r1, st1)) in Ed.
    destruct r1 as [[]|e|].
    + pose proof (eq_trans (eq_sym (bind_ok _ _ _ _ _ Ed)) E) as E'. destruct (IH c1 st1) as (c' & E2 & Hc'); [by apply Hc1|done|exact E'|done|].
      exists c'. split; [exact (eq_trans (bind_ok _ _ _ _ _ E1) E2)|done].
    + pose proof (eq_trans (eq_sym (bind_err _ _ _ _ _ Ed)) E) as E'. injection E' as <- <-. exists c1. split; [exact (bind_err _ _ _ _ _ E1)|done].
    + pose proof (eq_trans (eq_sym (bind_fault _ _ _ _ Ed)) E) as E'. by injection E' as <- <-.
Qed.
End static_server.

(** ** The client receives *)

Section client_receives.
Context {G D : Type} `{!SegmentedDecoder G} `{!SegmentedDecoderLaws G} `{!ClientHost D} `{!ClientHostLaws D}.
Abbreviation session := (client_session G).

(** The packets of the static channel, one after the other. *)
Fixpoint client_feed (packets : list (list Z)) : M (cstate (G := G) (D := D)) unit :=
  match packets with
  | [] => mret tt
  | p :: packets => client_dynamic_packet (View p);; client_feed packets
  end.

Lemma packet_handled (p : list Z) st : pdu_ok p ->
  client_dynamic_packet (View (static_enc p)) st = rdp_session_handle_dynamic_channel (G := G) (D := D) (View p) st.
Proof using Type.
  intros [Hb [_ Hl]]. destruct (static_packet p Hb Hl) as (_ & _ & E). unfold client_dynamic_packet. by rewrite bind_lift, E.
Qed.

Section client_message.
Context (w id priority : Z) (Hid : id_fits w id) (Hprio : 0 <= priority <= 3).
Context (s : session) (Hs : session_ok s) (i : nat) (c : rdp_session_dynamic_channel G).
Context (Hfind : rdp_session_dynamic_channel_find s id = Some (i, c)).

Lemma data_handled l d : bytes l -> pdu_ok (data_enc w id priority l) ->
  client_dynamic_packet (View (static_enc (data_enc w id priority l))) (s, ([], d)) =
  if cd_fragmenting c then
    (require (negb (blen l =? 0)) LIBRDP_STATUS_PROTOCOL_ERROR;;
     require (negb (size_t (cd_fragment_expected c - b_length (cd_fragment c)) <? blen l)) LIBRDP_STATUS_PROTOCOL_ERROR;;
     next_fragment i w (optional_view l)) (s, ([], d))
  else host (client_message (message_ident w c) l) (s, ([], d)).
Proof using Hid Hprio Hfind.
  intros Hl Hok. rewrite packet_handled by done. destruct (optional_view_len l) as [Hvl Hvb].
  destruct (data_pdu w id Hid priority l (View l) Hprio Hl eq_refl eq_refl) as (_ & _ & Hh & Hd & _).
  transitivity (handle_data (D := D) (View (data_enc w id priority l)) (s, ([], d))).
  { unfold rdp_session_handle_dynamic_channel. rewrite bind_lift, Hh. reflexivity. }
  unfold handle_data, get_session. rewrite bind_lift, Hd, bind_gets. cbn [fst dd_channel_id dd_data]. rewrite Hfind, Hvl, Hvb.
  change (opt_require (Some (i, c)) LIBRDP_STATUS_PROTOCOL_ERROR) with (mret (i, c) : M (cstate (G := G) (D := D)) (nat * rdp_session_dynamic_channel G)).
  etransitivity; [by apply bind_ok|]. cbv beta iota. by destruct (cd_fragmenting c).
Qed.
Lemma first_handled total l d : bytes l -> is_u32 total -> 1 <= total -> blen l <= total ->
  fragment_size w total l <= RDP_DYNAMIC_CHANNEL_MAX_PDU_SIZE -> total <= limit_dynamic_channel_message_bytes (cs_control s) ->
  cd_fragmenting c = false -> pdu_ok (first_enc w id total l) ->
  client_dynamic_packet (View (static_enc (first_enc w id total l))) (s, ([], d)) = first_fragment i w total (optional_view l) (s, ([], d)).
Proof using Hid Hfind.
  intros Hl Ht Hpos Hle Hsz Hlim Hf Hok. rewrite packet_handled by done. destruct (optional_view_len l) as [Hvl Hvb].
  destruct (first_pdu w id Hid total l Hl Ht Hpos Hle Hsz) as (_ & _ & [sp Hh] & Hd & _).
  transitivity (handle_data_first (D := D) (View (first_enc w id total l)) (s, ([], d))).
  { unfold rdp_session_handle_dynamic_channel. rewrite bind_lift, Hh. reflexivity. }
  unfold handle_data_first, get_session. rewrite bind_lift, Hd. cbn [df_channel_id df_data df_total_length].
  rewrite bind_require, (proj2 (Z.eqb_neq total 0)) by lia. cbn [negb]. rewrite bind_gets. cbn [fst].
  rewrite bind_require, (proj2 (Z.ltb_ge _ _)) by lia. cbn [negb]. rewrite Hfind.
  change (opt_require (Some (i, c)) LIBRDP_STATUS_PROTOCOL_ERROR) with (mret (i, c) : M (cstate (G := G) (D := D)) (nat * rdp_session_dynamic_channel G)).
  etransitivity; [by apply bind_ok|]. cbv beta iota. etransitivity; [apply bind_require|]. by rewrite Hf.
Qed.
End client_message.
End client_receives.

Section client_messages.
Context {G D : Type} `{!SegmentedDecoder G} `{!SegmentedDecoderLaws G} `{!ClientHost D} `{!ClientHostLaws D}.
Abbreviation session := (client_session G).
Context (w id priority : Z) (Hid : id_fits w id) (Hprio : 0 <= priority <= 3).

Lemma find_put (s : session) i c f e b : rdp_session_dynamic_channel_find s id = Some (i, c) ->
  rdp_session_dynamic_channel_find (put_entry i (entry_fragment f e b c) s) id = Some (i, entry_fragment f e b c).
Proof using Type.
  unfold rdp_session_dynamic_channel_find, find_entry. intros (Hi & Hf & Hbefore)%list_find_Some. apply list_find_Some.
  cbn [cs_dynamic_channels put_entry]. split; [by apply list_lookup_insert_eq; eapply lookup_lt_Some|]. split; [done|].
  intros j y Hy Hj. rewrite list_lookup_insert_ne in Hy by lia. by apply (Hbefore j).
Qed.
Lemma next_exact (s : session) i c v l d : cs_dynamic_channels s !! i = Some c -> entry_ok c -> view_bytes v = l -> view_len v = blen l ->
  cd_fragmenting c = true -> blen (contents (cd_fragment c)) + blen l <= cd_fragment_expected c ->
  exists r s' d', next_fragment i w v (s, ([], d)) = (r, (s', ([], d'))) /\
    progressed s i c w (cd_fragment_expected c) (contents (cd_fragment c) ++ l) r d s' d'.
Proof using SegmentedDecoderLaws0 ClientHostLaws0.
  intros Hi Hc Hv Hvl Hf Hfits.
  assert (H : wp (next_fragment (D := D) i w v) (s, ([], d)) (fun r st' => exists s' d', st' = (s', ([], d')) /\
    progressed s i c w (cd_fragment_expected c) (contents (cd_fragment c) ++ l) r d s' d')).
  { apply (wp_next s i c Hi Hc w v l); [done..|]. intros r s' h' d' _ _ Ho. destruct (Ho eq_refl) as [-> Hp]. eauto. }
  destruct H as [_ (s' & d' & E & Hp)]. exists (next_fragment i w v (s, ([], d))).1, s', d'. split; [|done]. rewrite <- E.
  by destruct (next_fragment i w v (s, ([], d))).
Qed.
Lemma first_exact (s : session) i c v l total d : cs_dynamic_channels s !! i = Some c -> entry_ok c -> view_bytes v = l -> view_len v = blen l ->
  cd_fragmenting c = false -> total <= RDP_SETTINGS_LIMIT_DYNAMIC_MESSAGE_BYTES -> blen l <= total ->
  exists r s' d', first_fragment i w total v (s, ([], d)) = (r, (s', ([], d'))) /\ progressed s i c w total l r d s' d'.
Proof using SegmentedDecoderLaws0 ClientHostLaws0.
  intros Hi Hc Hv Hvl Hf Hmax Hle.
  assert (H : wp (first_fragment (D := D) i w total v) (s, ([], d)) (fun r st' => exists s' d', st' = (s', ([], d')) /\ progressed s i c w total l r d s' d')).
  { apply (wp_first s i c Hi Hc w total v l); [done..|]. intros r s' h' d' _ _ Ho. destruct (Ho eq_refl) as [-> Hp]; [lia|]. eauto. }
  destruct H as [_ (s' & d' & E & Hp)]. exists (first_fragment i w total v (s, ([], d))).1, s', d'. split; [|done]. rewrite <- E.
  by destruct (first_fragment i w total v (s, ([], d))).
Qed.
Lemma client_feed_last (packet : list Z) (s s' : session) (d d' : D) r : client_dynamic_packet (View packet) (s, ([], d)) = (r, (s', ([], d'))) ->
  client_feed [packet] (s, ([], d)) = (r, (s', ([], d'))).
Proof using Type.
  intros E. cbn [client_feed]. destruct r as [[]|st|]; [exact (bind_ok _ _ _ _ _ E)|exact (bind_err _ _ _ _ _ E)|exact (bind_fault _ _ _ _ E)].
Qed.

Lemma client_parts parts : forall (s : session) i c b total d, rdp_session_dynamic_channel_find s id = Some (i, c) -> entry_ok c -> parts <> [] ->
  Forall (fun part => 0 < blen part /\ bytes part /\ pdu_ok (data_enc w id priority part)) parts -> buffer_wf b ->
  total = blen (contents b ++ concat parts) -> total <= RDP_SETTINGS_LIMIT_DYNAMIC_MESSAGE_BYTES ->
  exists r d', client_feed (static_enc <$> (data_enc w id priority <$> parts)) (put_entry i (entry_fragment true total b c) s, ([], d)) =
      (r, (put_entry i (entry_fragment false 0 rdp_buffer_init c) s, ([], d'))) /\
    client_message (message_ident w c) (contents b ++ concat parts) d = (r, d').
Proof using Hid Hprio SegmentedDecoderLaws0 ClientHostLaws0.
  induction parts as [|part parts IH]; intros s i c b total d Hfind Hc Hne Hparts Hb Htotal Hmax; [done|].
  apply list.Forall_cons in Hparts as [(Hpart & Hbp & Hpdu) Hparts]. rewrite !fmap_cons. cbn [concat] in *. rewrite !blen_app in Htotal.
  pose proof (blen_nonneg (concat parts)) as Hn. pose proof (blen_contents b Hb) as Hlb.
  assert (Hlt : (i < length (cs_dynamic_channels s))%nat) by (apply find_active in Hfind as [Hi _]; by eapply lookup_lt_Some).
  set (c1 := entry_fragment true total b c). set (s1 := put_entry i c1 s).
  assert (Hc1 : entry_ok c1) by (apply entry_fragment_ok; [done|done|]; lia).
  assert (Hfind1 : rdp_session_dynamic_channel_find s1 id = Some (i, c1)) by (by apply find_put).
  destruct (optional_view_len part) as [Hvl Hvb].
  destruct (next_exact s1 i c1 (optional_view part) part d) as (r & s2 & d2 & E & Hp);
    [by apply put_lookup|done|done|done|done|cbn [cd_fragment cd_fragment_expected c1 entry_fragment]; lia|].
  assert (E1 : client_dynamic_packet (View (static_enc (data_enc w id priority part))) (s1, ([], d)) = (r, (s2, ([], d2)))).
  { rewrite (data_handled w id priority Hid Hprio s1 i c1 Hfind1 part d Hbp Hpdu). cbn [cd_fragmenting c1 entry_fragment].
    etransitivity; [apply bind_require|]. rewrite (proj2 (Z.eqb_neq _ _)) by lia. cbn [negb]. etransitivity; [apply bind_require|].
    cbn [cd_fragment cd_fragment_expected c1 entry_fragment]. unfold size_t, RDP_SETTINGS_LIMIT_DYNAMIC_MESSAGE_BYTES in *.
    pose proof (buffer_wf_length b Hb). rewrite Z.mod_small by lia. rewrite (proj2 (Z.ltb_ge _ _)) by lia. exact E. }
  cbn [cd_fragment cd_fragment_expected c1 entry_fragment] in Hp. fold c1 in Hp. unfold progressed in Hp. rewrite blen_app in Hp.
  destruct parts as [|part2 parts].
  - cbn [concat] in *. change (blen (@nil Z)) with 0 in *. rewrite (proj2 (Z.ltb_ge _ _)) in Hp by lia. destruct Hp as [Hm ->].
    rewrite app_nil_r. exists r, d2. split; [|exact Hm]. apply client_feed_last. rewrite E1. unfold s1. by rewrite put_put.
  - assert (Hmore : 0 < blen (concat (part2 :: parts))).
    { cbn [concat]. rewrite blen_app. apply list.Forall_cons in Hparts as [[? _] _]. pose proof (blen_nonneg (concat parts)). lia. }
    rewrite (proj2 (Z.ltb_lt _ _)) in Hp by lia. destruct Hp as (-> & -> & b' & -> & Hb' & Hcb').
    unfold s1 in E1. rewrite put_put in E1. change (entry_fragment true total b' c1) with (entry_fragment true total b' c) in E1.
    destruct (IH s i c b' total d Hfind Hc) as (r2 & d3 & E2 & Hm); [done|done|done|rewrite Hcb', !blen_app; lia|done|].
    exists r2, d3. rewrite Hcb', <- app_assoc in Hm. split; [cbn [client_feed]; exact (eq_trans (bind_ok _ _ _ _ _ E1) E2)|exact Hm].
Qed.
End client_messages.

(** The packets of a message bring the message, once, to an idle entry. *)
Lemma client_receives_message {G D} `{!SegmentedDecoder G} `{!SegmentedDecoderLaws G} `{!ClientHost D} `{!ClientHostLaws D}
    w id message pdus (s : client_session G) i c (d : D) :
  message_packets w id message pdus -> id_fits w id -> bytes message -> session_ok s ->
  rdp_session_dynamic_channel_find s id = Some (i, c) -> cd_fragmenting c = false ->
  blen message <= limit_dynamic_channel_message_bytes (cs_control s) ->
  exists r s' d', client_feed (static_enc <$> pdus) (s, ([], d)) = (r, (s', ([], d'))) /\
    client_message (message_ident w c) message d = (r, d') /\ (s' = s \/ s' = put_entry i (entry_fragment false 0 rdp_buffer_init c) s).
Proof.
  intros Hm Hid Hb Hs Hfind Hf Hlim. pose proof (ko_bytes _ (sk_control _ Hs)) as Hmax. unfold RDP_SETTINGS_LIMIT_DYNAMIC_MESSAGE_BYTES in Hmax.
  pose proof (message_packets_ok w id message pdus Hm Hid Hb ltac:(unfold UINT32_MAX; lia)) as Hok.
  pose proof (find_active _ _ _ _ Hfind) as (Hi & _). pose proof (sk_entries _ Hs _ _ Hi) as Hc.
  destruct Hm as [priority Hprio Hsz|Hpos Hsz|priority first parts Hprio Hmsg Hfirst Hne Hsz Hparts].
  - apply list.Forall_cons in Hok as [Hpdu _]. pose proof (client_message_safe (message_ident w c) message d) as Hsafe.
    destruct (client_message (message_ident w c) message d) as [r d'] eqn:Ed. exists r, s, d'. split; [|split; [done|by left]].
    apply client_feed_last. rewrite (data_handled w id priority Hid Hprio s i c Hfind message d Hb Hpdu), Hf.
    unfold host, on_snd. cbn [fst snd]. by rewrite Ed.
  - apply list.Forall_cons in Hok as [Hpdu _]. destruct (optional_view_len message) as [Hvl Hvb].
    destruct (first_exact w s i c (optional_view message) message (blen message) d) as (r & s1 & d1 & E & Hp);
      [done|done|done|done|done|unfold RDP_SETTINGS_LIMIT_DYNAMIC_MESSAGE_BYTES; lia|lia|].
    unfold progressed in Hp. rewrite (proj2 (Z.ltb_ge _ _)) in Hp by lia. destruct Hp as [Hmm ->].
    rewrite <- (first_handled w id Hid s i c Hfind (blen message) message d) in E;
      [|done|unfold is_u32; lia|lia|lia|done|done|done|done].
    exists r, (put_entry i (entry_fragment false 0 rdp_buffer_init c) s), d1. split; [by apply client_feed_last|]. split; [done|by right].
  - apply list.Forall_cons in Hok as [Hpdu Hpdus]. rewrite Hmsg in Hb. apply Forall_app in Hb as [Hbf Hbp].
    assert (Htot : blen message = blen first + blen (concat parts)) by (rewrite Hmsg; apply blen_app).
    assert (Hpos : 0 < blen (concat parts)).
    { destruct parts as [|part parts]; [done|]. cbn [concat]. rewrite blen_app. apply list.Forall_cons in Hparts as [[? _] _].
      pose proof (blen_nonneg (concat parts)). lia. }
    destruct (optional_view_len first) as [Hvl Hvb].
    destruct (first_exact w s i c (optional_view first) first (blen message) d) as (r & s1 & d1 & E & Hp);
      [done|done|done|done|done|unfold RDP_SETTINGS_LIMIT_DYNAMIC_MESSAGE_BYTES; lia|lia|].
    unfold progressed in Hp. rewrite (proj2 (Z.ltb_lt _ _)) in Hp by lia. destruct Hp as (-> & -> & b & -> & Hwf & Hcb).
    rewrite <- (first_handled w id Hid s i c Hfind (blen message) first d) in E;
      [|done|unfold is_u32; lia|lia|lia|done|done|done|done].
    destruct (client_parts w id priority Hid Hprio parts s i c b (blen message) d Hfind Hc Hne) as (r2 & d2 & E2 & Hmm).
    + rewrite list.Forall_forall in Hparts |- *. intros part Hpart. split; [by apply Hparts|]. split.
      * rewrite list.Forall_forall in Hbp |- *. intros x Hx. apply Hbp. apply list_elem_of_In, in_concat. exists part. by rewrite <- !list_elem_of_In.
      * rewrite list.Forall_forall in Hpdus. apply Hpdus. by apply list_elem_of_fmap_2.
    + done.
    + by rewrite Hcb, Hmsg.
    + unfold RDP_SETTINGS_LIMIT_DYNAMIC_MESSAGE_BYTES. lia.
    + rewrite Hcb, <- Hmsg in Hmm. exists r2, (put_entry i (entry_fragment false 0 rdp_buffer_init c) s), d2.
      split; [|split; [done|by right]]. rewrite fmap_cons. cbn [client_feed]. exact (eq_trans (bind_ok _ _ _ _ _ E) E2).
Qed.

(** ** Sending *)

Section sending.
Context {P D : Type} (emit : rdp_buffer -> M (P * (heap * D)) unit) (sent : list Z -> D -> D).

(** A packet in a buffer goes out, and is all that goes out. *)
Definition Emits : Prop := forall b p s d, buffer_wf b -> contents b = p -> pdu_ok p -> emit b (s, ([], d)) = (Ok tt, (s, ([], sent p d))).
Definition send_all (pdus : list (list Z)) (d : D) : D := foldl (fun d p => sent p d) d pdus.

Lemma packet_exact (wr : writer unit) l (s : P) (d : D) : WritesAtomic wr l (fun _ => True) -> blen l <= RDP_DYNAMIC_CHANNEL_MAX_PDU_SIZE ->
  exists b, packet wr (s, ([], d)) = (Ok b, (s, ([], d))) /\ buffer_wf b /\ contents b = l.
Proof using Type.
  unfold RDP_DYNAMIC_CHANNEL_MAX_PDU_SIZE. intros Hw Hl.
  destruct (Hw rdp_buffer_init [] buffer_init_wf) as (r & b & h' & E & Hb & Hr & Hh). destruct (Hh eq_refl) as [Hok ->]; [cbn; lia|].
  destruct Hr as [(u & -> & _ & Hc)|[-> _]]; [|done]. exists b. rewrite contents_init in Hc. split; [|done].
  unfold packet, on_snd, written. cbn [fst snd]. by rewrite E.
Qed.
Lemma packet_again_exact b0 (wr : writer unit) l (s : P) (d : D) : buffer_wf b0 -> WritesAtomic wr l (fun _ => True) ->
  blen l <= RDP_DYNAMIC_CHANNEL_MAX_PDU_SIZE ->
  exists b, packet_again b0 wr (s, ([], d)) = (Ok b, (s, ([], d))) /\ buffer_wf b /\ contents b = l.
Proof using Type.
  unfold RDP_DYNAMIC_CHANNEL_MAX_PDU_SIZE. intros Hb0 Hw Hl.
  destruct (Hw (set_length 0 b0) [] (set_length_0_wf b0 Hb0)) as (r & b & h' & E & Hb & Hr & Hh). destruct (Hh eq_refl) as [Hok ->]; [cbn; lia|].
  destruct Hr as [(u & -> & _ & Hc)|[-> _]]; [|done]. exists b. change (contents (set_length 0 b0)) with (@nil Z) in Hc. split; [|done].
  unfold packet_again, on_snd. cbn [fst snd]. by rewrite E.
Qed.

(** The loop of both senders, over what they do with a packet. *)
Fixpoint chunk_loop (fuel : nat) (w id priority : Z) (data : list Z) (capacity : Z) (b : rdp_buffer) (offset : Z) : M (P * (heap * D)) unit :=
  match fuel with
  | O => lift Fault
  | S fuel =>
      if offset <? blen data then
        let chunk := if blen data - offset <? capacity then blen data - offset else capacity in
        part ← lift (slice data offset chunk);
        b ← packet_again b (rdp_dynamic_channel_write_data_ex id w priority (View part));
        emit b;;
        chunk_loop fuel w id priority data capacity b (offset + chunk)
      else mret tt
  end.

Lemma chunk_loop_sends w id priority data capacity : Emits -> id_fits w id -> 0 <= priority <= 3 -> bytes data -> 0 < capacity ->
  w + capacity + 1 <= RDP_DYNAMIC_CHANNEL_MAX_PDU_SIZE -> forall fuel offset b s d,
  buffer_wf b -> 0 <= offset <= blen data -> (length data - Z.to_nat offset < fuel)%nat ->
  exists parts, concat parts = zdrop offset data /\
    Forall (fun part => 0 < blen part /\ w + blen part + 1 <= RDP_DYNAMIC_CHANNEL_MAX_PDU_SIZE) parts /\
    chunk_loop fuel w id priority data capacity b offset (s, ([], d)) = (Ok tt, (s, ([], send_all (data_enc w id priority <$> parts) d))).
Proof using Type.
  intros He Hid Hp Hb Hcap Hsz. induction fuel as [|fuel IH]; intros offset b s d Hwf Ho Hf; [lia|]. cbn [chunk_loop].
  destruct (Z.ltb_spec offset (blen data)) as [Hlt|Hge].
  2: { exists []. split; [unfold zdrop; rewrite drop_ge by (unfold blen in *; lia); done|]. split; [constructor|done]. }
  cbv zeta. set (chunk := if blen data - offset <? capacity then _ else _).
  assert (Hc : 0 < chunk <= capacity /\ offset + chunk <= blen data) by (unfold chunk; destruct (Z.ltb_spec (blen data - offset) capacity); lia).
  rewrite slice_ok by lia. rewrite bind_lift. set (part := ztake chunk (zdrop offset data)).
  assert (Hpart : blen part = chunk /\ bytes part).
  { split; [unfold part; rewrite blen_ztake; [done|]; rewrite blen_zdrop; lia|]. unfold part, ztake, zdrop. by apply Forall_take, Forall_drop. }
  destruct Hpart as [Hlen Hpb]. destruct (data_pdu w id Hid priority part (View part) Hp Hpb eq_refl eq_refl) as (Hbs & Hpl & _ & _ & Hw).
  pose proof (id_fits_width w id Hid) as Hwid.
  destruct (packet_again_exact b _ _ s d Hwf Hw) as (b1 & E1 & Hb1 & Hc1); [lia|]. rewrite (bind_ok _ _ _ _ _ E1).
  rewrite (bind_ok _ _ _ _ _ (He b1 _ s d Hb1 Hc1 ltac:(split; [done|lia]))).
  destruct (IH (offset + chunk) b1 s (sent (data_enc w id priority part) d)) as (parts & Hcat & Hall & E); [done|lia|unfold blen in *; lia|].
  exists (part :: parts). split; [|split].
  - cbn [concat]. rewrite Hcat, <- (zdrop_zdrop chunk offset) by lia. apply ztake_zdrop.
  - constructor; [split; lia|done].
  - exact E.
Qed.
(** A message that needs more than one PDU: DATA_FIRST with [n] bytes of it, and the loop. *)
Definition long_message (w id priority : Z) (message : list Z) (n capacity : Z) : M (P * (heap * D)) unit :=
  b ← packet (rdp_dynamic_channel_write_data_first_ex id w priority (blen message) (View (ztake n message)));
  emit b;;
  chunk_loop (S (length message)) w id priority message capacity b n.
Lemma long_message_sends w id priority message n capacity : Emits -> id_fits w id -> 0 <= priority <= 3 -> bytes message ->
  is_u32 (blen message) -> 0 < n <= blen message ->
  w + rdp_dynamic_channel_length_bytes (blen message) + n + 1 <= RDP_DYNAMIC_CHANNEL_MAX_PDU_SIZE ->
  0 < capacity -> w + capacity + 1 <= RDP_DYNAMIC_CHANNEL_MAX_PDU_SIZE -> forall s d,
  exists pdus, message_packets w id message pdus /\ long_message w id priority message n capacity (s, ([], d)) = (Ok tt, (s, ([], send_all pdus d))).
Proof using Type.
  intros He Hid Hp Hb Hu Hn Hsize Hcap Hsz s d. unfold long_message. set (first := ztake n message).
  assert (Hfl : blen first = n) by (unfold first; apply blen_ztake; lia).
  assert (Hbf : bytes first) by (unfold first, ztake; by apply Forall_take).
  assert (Hfs : fragment_size w (blen message) first <= RDP_DYNAMIC_CHANNEL_MAX_PDU_SIZE) by (unfold fragment_size; lia).
  destruct (first_pdu w id Hid (blen message) first Hbf) as (Hbs & Hlen & _ & _ & Hwr); [done|lia|lia|done|].
  destruct (packet_exact _ _ s d (Hwr priority Hp)) as (b & E & Hwf & Hc); [done|].
  rewrite (bind_ok _ _ _ _ _ E).
  rewrite (bind_ok _ _ _ _ _ (He b _ s d Hwf Hc ltac:(split; [done|split; [apply first_enc_pos|done]]))).
  destruct (chunk_loop_sends w id priority message capacity He Hid Hp Hb Hcap Hsz (S (length message)) n b s
    (sent (first_enc w id (blen message) first) d)) as (parts & Hcat & Hall & El); [done|lia|lia|].
  exists (first_enc w id (blen message) first :: (data_enc w id priority <$> parts)).
  split; [|exact El]. assert (Hmsg : message = first ++ concat parts) by (rewrite Hcat; unfold first; by rewrite ztake_zdrop).
  destruct parts as [|part parts].
  - cbn [concat] in Hmsg. rewrite app_nil_r in Hmsg. rewrite fmap_nil, <- Hmsg in *. constructor; [lia|done].
  - by constructor; [done|done|lia|done|done|done].
Qed.
End sending.

Lemma bind_ext {S A B} (m : M S A) (k k' : A -> M S B) s : (forall a s, k a s = k' a s) -> (m ≫= k) s = (m ≫= k') s.
Proof. intros H. unfold mbind, M_bind. by destruct (m s) as [[a|st|] s']. Qed.

(** *** The server sends *)

Section server_sends.
Context {D : Type} `{!DvcHost D} (pushed : list Z -> D -> D).
Context (Hsend : forall l d, host_send l d = (Ok tt, pushed l d)) (Hoverhead : 0 <= host_overhead <= 0x7fff - 1608).
Context (c : dvc_control) (Hactive : active c = true) (Hstatic : static_channel_id c <> 0) (Hjoined : static_joined c = true).

Definition server_sent (p : list Z) (d : D) : D := pushed (static_enc p) d.

Lemma server_emits {P} : Emits (P := P) (rdp_server_send_dynamic_packet c) server_sent.
Proof using All.
  intros b p s d Hb Hc [Hpb [Hpos Hmax]]. destruct (static_packet p Hpb Hmax) as (Hok & _ & _).
  unfold RDP_DYNAMIC_CHANNEL_MAX_PDU_SIZE in Hmax.
  assert (Hv : buffer_view b = View p).
  { destruct (buffer_view_contents b Hb) as [Hvb Hvl]. rewrite Hc in Hvb, Hvl. destruct (buffer_view b); cbn in *; [|by rewrite Hvb].
    rewrite <- Hvb in Hpos. by cbn in Hpos. }
  unfold rdp_server_send_dynamic_packet. rewrite bind_require, (proj2 (Z.eqb_neq _ _)) by done. cbn [negb]. rewrite Hv.
  assert (E : librdp_server_peer_send_channel_data host_send host_overhead (active c) (static_joined c) (View p) ([], d) = (Ok tt, ([], server_sent p d))).
  { unfold librdp_server_peer_send_channel_data. rewrite bind_require. cbn [view_null view_len view_bytes andb negb].
    rewrite bind_require, Hactive, bind_require, Hjoined, bind_require. unfold RDP_SERVER_STATIC_MESSAGE_MAX. rewrite (proj2 (Z.ltb_ge _ _)) by lia. cbn [negb send_loop].
    cbn [view_len]. cbv zeta. rewrite Z.sub_0_r. unfold RDP_SERVER_STATIC_CHANNEL_CHUNK_SIZE. rewrite (proj2 (Z.ltb_ge 1600 (blen p))) by lia.
    rewrite Z.add_0_l, Z.eqb_refl. change (0 =? 0) with true. cbv iota. rewrite bind_lift. cbn [chunk_view]. rewrite slice_ok by lia.
    cbn [mbind res_bind mret res_ret]. change (Z.lor RDP_VIRTUAL_CHANNEL_FLAG_FIRST RDP_VIRTUAL_CHANNEL_FLAG_LAST) with 3.
    assert (Hall : ztake (blen p) (zdrop 0 p) = p) by (rewrite zdrop_0; by apply ztake_all).
    rewrite Hall. pose proof (send_fragment_run host_overhead Hoverhead host_send (View p) p (blen p) 3 d eq_refl eq_refl Hok) as Es.
    fold (static_enc p) in Es. rewrite Hsend in Es. cbn [fst snd] in Es. rewrite (bind_ok _ _ _ _ _ (Es ltac:(unfold RDP_SERVER_STATIC_CHANNEL_CHUNK_SIZE; lia))).
    rewrite (proj2 (Z.ltb_ge (blen p) (blen p))) by lia. done. }
  unfold on_snd. cbn [fst snd]. by rewrite E.
Qed.
Lemma server_loop_eq {P} fuel w id priority data capacity b offset (st : P * (heap * D)) :
  send_data_loop fuel c id w priority data capacity b offset st =
  chunk_loop (rdp_server_send_dynamic_packet c) fuel w id priority data capacity b offset st.
Proof using Type.
  revert b offset st. induction fuel as [|fuel IH]; intros b offset st; [done|]. cbn [send_data_loop chunk_loop].
  destruct (offset <? blen data); [|done]. cbv zeta. repeat (apply bind_ext; intros ? ?). apply IH.
Qed.
(** The PDUs of a message go out, one static packet each. *)
Lemma server_message_sent {P} w id priority message (s : P) d : id_fits w id -> 0 <= priority <= 3 -> bytes message ->
  blen message <= RDP_SERVER_DYNAMIC_MESSAGE_MAX ->
  exists pdus, message_packets w id message pdus /\
    send_message c id w priority (View message) (s, ([], d)) = (Ok tt, (s, ([], send_all server_sent pdus d))).
Proof using All.
  intros Hid Hp Hb Hmax. pose proof (id_fits_width w id Hid) as Hw. pose proof (blen_nonneg message) as Hn.
  unfold send_message. cbn [view_len view_bytes]. unfold RDP_DYNAMIC_CHANNEL_SINGLE_MESSAGE_LIMIT, RDP_SERVER_DYNAMIC_MESSAGE_MAX in *.
  destruct (Z.leb_spec (blen message) 1590) as [Hs|Hl].
  - exists [data_enc w id priority message]. split; [constructor; [done|unfold RDP_DYNAMIC_CHANNEL_MAX_PDU_SIZE; lia]|].
    destruct (data_pdu w id Hid priority message (View message) Hp Hb eq_refl eq_refl) as (Hbs & Hlen & _ & _ & Hwr).
    destruct (packet_exact (P := P) (D := D) _ _ s d Hwr) as (b & E & Hwf & Hc); [unfold RDP_DYNAMIC_CHANNEL_MAX_PDU_SIZE; lia|].
    rewrite (bind_ok _ _ _ _ _ E). apply (server_emits b _ s d Hwf Hc). split; [done|unfold RDP_DYNAMIC_CHANNEL_MAX_PDU_SIZE; lia].
  - pose proof (length_bytes_range (blen message)) as Hlb.
    assert (Hu : u32 (blen message) = blen message) by (unfold u32; apply Z.mod_small; lia).
    rewrite Hu. cbv zeta. set (lb := rdp_dynamic_channel_length_bytes (blen message)) in *.
    assert (Hf : size_t (RDP_DYNAMIC_CHANNEL_MAX_PDU_SIZE - rdp_dynamic_channel_data_first_pdu_header_size w (blen message)) = 1600 - (1 + w + lb)).
    { assert (Hh : rdp_dynamic_channel_data_first_pdu_header_size w (blen message) = 1 + w + lb) by (by destruct Hw as [-> |[-> | ->]]).
      rewrite Hh. unfold size_t, RDP_DYNAMIC_CHANNEL_MAX_PDU_SIZE. apply Z.mod_small. lia. }
    assert (Hd : size_t (RDP_DYNAMIC_CHANNEL_MAX_PDU_SIZE - rdp_dynamic_channel_data_pdu_header_size w) = 1600 - (1 + w)).
    { destruct Hw as [-> |[-> | ->]]; done. }
    rewrite Hf, Hd. set (cap := 1600 - (1 + w + lb)). set (dcap := 1600 - (1 + w)). set (n := if blen message <? cap then _ else _).
    assert (Hn1 : 0 < n <= cap /\ n <= blen message) by (unfold n; destruct (Z.ltb_spec (blen message) cap); lia).
    rewrite bind_require. rewrite (proj2 (Z.eqb_neq cap 0)), (proj2 (Z.eqb_neq dcap 0)), (proj2 (Z.ltb_ge _ _)) by (unfold UINT32_MAX; lia). cbn [orb negb].
    rewrite slice_ok by lia. rewrite zdrop_0, bind_lift.
    destruct (long_message_sends (P := P) (rdp_server_send_dynamic_packet c) server_sent w id priority message n dcap server_emits Hid Hp Hb)
      with (s := s) (d := d) as (pdus & Hpk & E); [unfold is_u32; lia|lia|fold lb; unfold RDP_DYNAMIC_CHANNEL_MAX_PDU_SIZE; lia..|].
    exists pdus. split; [done|]. rewrite <- E. unfold long_message. repeat (apply bind_ext; intros ? ?). apply server_loop_eq.
Qed.
End server_sends.

(** *** The client sends *)

Section client_sends.
Context {G D : Type} `{!SegmentedDecoder G} `{!ClientHost D} (pushed : Z -> list Z -> D -> D).
Context (Hwrite : forall k l d, client_write k l d = (Ok tt, pushed k l d)).
Context (static : Z).

Definition client_sent (p : list Z) (d : D) : D := pushed static (static_enc p) d.

Lemma client_emits : Emits (P := client_session G) (rdp_session_write_channel_pdu static) client_sent.
Proof using Hwrite.
  intros b p s d Hb Hc [Hpb [Hpos Hmax]]. destruct (static_packet p Hpb Hmax) as (Hok & _ & _).
  unfold RDP_DYNAMIC_CHANNEL_MAX_PDU_SIZE in Hmax. destruct (buffer_view_contents b Hb) as [Hv Hvl]. rewrite Hc in Hv, Hvl.
  assert (Hpe : blen (static_enc p) = 8 + blen p).
  { unfold static_enc, fragment_enc. rewrite !blen_app. change (blen (le32 (blen p))) with 4. change (blen (le32 3)) with 4. lia. }
  destruct (fragment_written (buffer_view b) p (blen p) 3 Hv Hvl Hok rdp_buffer_init [] buffer_init_wf) as (r & b' & h' & E & Hb' & Hr & Hh).
  fold (static_enc p) in Hr, Hh. destruct (Hh eq_refl) as [Hrok ->]; [cbn [b_length rdp_buffer_init]; lia|].
  destruct Hr as [(u & -> & _ & Hcb)|[-> _]]; [|done]. rewrite contents_init in Hcb. cbn [app] in Hcb.
  unfold rdp_session_write_channel_pdu, rdp_virtual_channel_write_packet. rewrite Hvl.
  assert (Ep : packet (rdp_virtual_channel_write_fragment (buffer_view b) (blen p) 3) (s, ([], d)) = (Ok b', (s, ([], d)))).
  { unfold packet, on_snd, written. cbn [fst snd]. by rewrite E. }
  rewrite (bind_ok _ _ _ _ _ Ep). unfold host, on_snd. cbn [fst snd]. by rewrite Hwrite, Hcb.
Qed.
Lemma client_loop_eq fuel w id priority data capacity b offset (st : cstate (G := G) (D := D)) :
  client_send_loop fuel static id w priority data capacity b offset st =
  chunk_loop (rdp_session_write_channel_pdu static) fuel w id priority data capacity b offset st.
Proof using Type.
  revert b offset st. induction fuel as [|fuel IH]; intros b offset st; [done|]. cbn [client_send_loop chunk_loop].
  destruct (offset <? blen data); [|done]. cbv zeta. repeat (apply bind_ext; intros ? ?). apply IH.
Qed.
Lemma client_length_bytes n : rdp_session_dynamic_length_bytes n = rdp_dynamic_channel_length_bytes n.
Proof using Type. reflexivity. Qed.
(** The PDUs of a message go out, one static packet each. *)
Lemma client_message_sent w id priority message (s : client_session G) d : id_fits w id -> 0 <= priority <= 3 -> bytes message ->
  blen message <= UINT32_MAX -> cs_dynamic_channel_id (cs_control s) = static -> static <> 0 ->
  exists pdus, message_packets w id message pdus /\
    rdp_session_send_dynamic_channel_data_priority id w priority (View message) (s, ([], d)) =
      (Ok tt, (s, ([], send_all client_sent pdus d))).
Proof using Hwrite.
  intros Hid Hp Hb Hmax Hst Hst0. pose proof (id_fits_width w id Hid) as Hw. pose proof (blen_nonneg message) as Hn.
  unfold UINT32_MAX in Hmax. unfold rdp_session_send_dynamic_channel_data_priority, get_session. rewrite bind_gets. cbn [fst]. cbv zeta. rewrite Hst.
  cbn [view_null view_len view_bytes andb orb]. rewrite bind_require, (proj2 (Z.eqb_neq static 0)) by done. cbn [negb].
  rewrite bind_require, (proj2 (Z.ltb_ge _ _)) by (unfold UINT32_MAX; lia). cbn [negb].
  unfold rdp_session_dynamic_channel_header_size, RDP_DYNAMIC_CHANNEL_MAX_PDU_SIZE. rewrite bind_require, (proj2 (Z.leb_gt 1600 (1 + w))) by lia. cbn [negb].
  destruct (Z.leb_spec (blen message) (1600 - (1 + w))) as [Hs|Hl].
  - exists [data_enc w id priority message]. split; [constructor; [done|unfold RDP_DYNAMIC_CHANNEL_MAX_PDU_SIZE; lia]|].
    destruct (data_pdu w id Hid priority message (View message) Hp Hb eq_refl eq_refl) as (Hbs & Hlen & _ & _ & Hwr).
    destruct (packet_exact (P := client_session G) (D := D) _ _ s d Hwr) as (b & E & Hwf & Hc); [unfold RDP_DYNAMIC_CHANNEL_MAX_PDU_SIZE; lia|].
    rewrite (bind_ok _ _ _ _ _ E). apply (client_emits b _ s d Hwf Hc). split; [done|unfold RDP_DYNAMIC_CHANNEL_MAX_PDU_SIZE; lia].
  - pose proof (length_bytes_range (blen message)) as Hlb. rewrite client_length_bytes.
    assert (Hu : u32 (blen message) = blen message) by (unfold u32; apply Z.mod_small; lia).
    rewrite Hu. set (lb := rdp_dynamic_channel_length_bytes (blen message)) in *.
    assert (Hz : size_t (1600 - (1 + w) - lb) = 1600 - (1 + w) - lb) by (unfold size_t; apply Z.mod_small; lia).
    rewrite Hz, bind_require, (proj2 (Z.eqb_neq _ 0)) by lia. cbn [negb]. set (n := if blen message <? _ then _ else _).
    assert (Hn1 : 0 < n <= 1600 - (1 + w) - lb /\ n <= blen message).
    { unfold n. destruct (Z.ltb_spec (blen message) (1600 - (1 + w) - lb)); lia. }
    rewrite slice_ok by lia. rewrite zdrop_0, bind_lift.
    destruct (long_message_sends (P := client_session G) (rdp_session_write_channel_pdu static) client_sent w id priority message n
      (1600 - (1 + w)) client_emits Hid Hp Hb) with (s := s) (d := d) as (pdus & Hpk & E);
      [unfold is_u32; lia|lia|fold lb; unfold RDP_DYNAMIC_CHANNEL_MAX_PDU_SIZE; lia..|].
    exists pdus. split; [done|]. rewrite <- E. unfold long_message. repeat (apply bind_ext; intros ? ?). apply client_loop_eq.
Qed.
End client_sends.

(** ** From end to end *)

Lemma send_all_packets {D} (pushed : list Z -> D -> D) pdus d :
  send_all (fun p d => pushed (static_enc p) d) pdus d = foldl (fun d packet => pushed packet d) d (static_enc <$> pdus).
Proof. revert d. induction pdus as [|p pdus IH]; intros d; [done|]. exact (IH (pushed (static_enc p) d)). Qed.

(** C4: a message the server sends on an open dynamic channel, at most 64 MiB,
    goes out as packets of the static channel and is then counted; given these
    packets in order, a client that has the channel and no message in progress on
    it, and accepts messages of that size, hands exactly that message to its
    callback, once, whatever the callback answers, and nothing of it stays behind:
    only that entry has changed, and it is idle. *)
Theorem dvc_server_message_delivered {D} `{!DvcHost D} (pushed : list Z -> D -> D) (p : dvc_peer) id e a message d :
  (forall l d, host_send l d = (Ok tt, pushed l d)) -> 0 <= host_overhead <= 0x7fff - 1608 ->
  peer_ok p -> active (control p) = true -> static_joined (control p) = true -> static_channel_id (control p) <> 0 ->
  opened (table_of p) id = Some (e, a) -> bytes message -> blen message <= RDP_SERVER_DYNAMIC_MESSAGE_MAX ->
  exists packets,
    librdp_server_peer_send_dynamic_channel_data id (View message) (p, ([], d)) =
      (Ok tt, (p, ([], host_notify (DVC_TX (entry_identity id e) (blen message)) (foldl (fun d packet => pushed packet d) d packets)))) /\
    forall G K (HG : SegmentedDecoder G) (HGL : SegmentedDecoderLaws G) (HK : ClientHost K) (HKL : ClientHostLaws K)
        (s : client_session G) i c (k : K),
      session_ok s -> rdp_session_dynamic_channel_find s id = Some (i, c) -> cd_fragmenting c = false ->
      blen message <= limit_dynamic_channel_message_bytes (cs_control s) ->
      exists r s' k', client_feed packets (s, ([], k)) = (r, (s', ([], k'))) /\ client_message (message_ident (en_channel_id_bytes e) c) message k = (r, k') /\
        (s' = s \/ s' = put_entry i (entry_fragment false 0 rdp_buffer_init c) s).
Proof.
  intros Hsend Hover Hp Hactive Hjoined Hstatic Ho Hb Hmax.
  pose proof (find_open_table p (pk_slots _ Hp) id) as Hfind.
  destruct (rdp_server_find_dynamic_channel p id) as [[j c]|] eqn:Ef; [|by rewrite Hfind in Ho].
  destruct Hfind as (Hj & Hopen & Hid & Ht). rewrite Ho in Ht. injection Ht as -> _.
  pose proof (used_slot_ok p (pk_slots _ Hp) j c Hj) as Hc.
  destruct (so_id _ Hc ltac:(unfold sd_used; by rewrite Hopen)) as [Hfits Hprio]. rewrite Hid in Hfits.
  destruct (server_message_sent pushed Hsend Hover (control p) Hactive Hstatic Hjoined (sd_channel_id_bytes c) id (sd_priority c) message p d
    Hfits Hprio Hb Hmax) as (pdus & Hm & Es).
  exists (static_enc <$> pdus). split.
  - unfold librdp_server_peer_send_dynamic_channel_data, get_peer. cbn [view_null view_len andb negb]. rewrite bind_require, bind_gets. cbn [fst].
    rewrite bind_require, Hactive, bind_require, (proj2 (Z.ltb_ge _ _)) by done. cbn [negb]. rewrite Ef.
    change (opt_require (Some (j, c)) LIBRDP_STATUS_INVALID_ARGUMENT) with (mret (j, c) : M (dstate (D := D)) (nat * rdp_server_dynamic_channel)).
    etransitivity; [by apply bind_ok|]. cbv beta iota. etransitivity; [exact (bind_ok _ _ _ _ _ Es)|].
    unfold server_sent. rewrite send_all_packets. unfold identity, entry_identity. cbn [en_priority en_name entry_of]. by rewrite Hid.
  - intros. eapply client_receives_message; done.
Qed.

(** C5: and the other way: a message the application of the client sends through
    the handle of a channel, within its limit, goes out as packets of the static
    channel; given these packets in order, a server that has the channel open and
    no message in progress on it hands exactly that message to its dispatch, once,
    whatever that answers, and the table of channels is as before. *)
Theorem dvc_client_message_delivered {G D} `{!SegmentedDecoder G} `{!ClientHost D} (pushed : Z -> list Z -> D -> D)
    (s : client_session G) handle priority i c message d :
  (forall k l d, client_write k l d = (Ok tt, pushed k l d)) ->
  session_ok s -> cs_owner (cs_control s) = true -> ready (cs_control s) = true -> 0 <= handle < 2 ^ 64 ->
  rdp_session_dynamic_channel_from_handle s handle = Some (i, c) -> cd_active c = true ->
  rdp_session_dynamic_channel_is_internal c = false -> 0 <= priority <= LIBRDP_CHANNEL_PRIORITY_REALTIME ->
  bytes message -> blen message <= limit_dynamic_channel_message_bytes (cs_control s) ->
  exists packets,
    librdp_session_channel_send_ex handle priority (View message) (s, ([], d)) =
      (Ok tt, (s, ([], foldl (fun d packet => pushed (cs_dynamic_channel_id (cs_control s)) packet d) d packets))) /\
    forall K (HK : DvcHost K) (HKL : DvcHostLaws K) (p : dvc_peer) e (channel : rdp_server_static_channel) (k : K),
      peer_ok p -> dynamic_channels_ready (control p) = true -> opened (table_of p) (cd_channel_id c) = Some (e, None) ->
      represents channel None ->
      exists r channel' p' k',
        feed (rdp_server_handle_static_channel_message server_dispatch) packets ((channel, []), (p, ([], k))) =
          (r, ((channel', []), (p', ([], k')))) /\
        host_deliver (entry_identity (cd_channel_id c) e) message k = (r, k') /\
        peer_ok p' /\ control p' = control p /\ table_of p' = table_of p /\ (r = Ok tt -> represents channel' None).
Proof.
  intros Hwrite Hs Howner Hready Hh Hc Hactive Hinternal Hprio Hb Hlim.
  destruct (resolved s handle i c Hs Hh Hc) as (Hi & Hu & _). destruct (eo_used _ (sk_entries _ Hs _ _ Hi) Hu) as (Hid & _).
  pose proof (ko_bytes _ (sk_control _ Hs)) as Hmax. unfold RDP_SETTINGS_LIMIT_DYNAMIC_MESSAGE_BYTES in Hmax.
  unfold LIBRDP_CHANNEL_PRIORITY_REALTIME in Hprio.
  assert (Hst : cs_dynamic_channel_id (cs_control s) <> 0) by (unfold ready in Hready; bool_prop; lia).
  destruct (client_message_sent pushed Hwrite (cs_dynamic_channel_id (cs_control s)) (cd_channel_id_bytes c) (cd_channel_id c) priority message s d
    Hid Hprio Hb ltac:(unfold UINT32_MAX; lia) eq_refl Hst) as (pdus & Hm & Es).
  exists (static_enc <$> pdus). split.
  - unfold librdp_session_channel_send_ex, get_session. cbn [view_null view_len andb orb negb]. rewrite bind_require.
    unfold LIBRDP_CHANNEL_PRIORITY_REALTIME. rewrite (proj2 (Z.ltb_ge 3 priority)) by lia. cbn [negb]. rewrite bind_gets. cbn [fst].
    rewrite bind_require, Howner, bind_require, (proj2 (Z.ltb_ge _ _)) by done. cbn [negb]. rewrite bind_require, Hready, Hc.
    change (opt_require (Some (i, c)) LIBRDP_STATUS_STATE) with (mret (i, c) : M (cstate (G := G) (D := D)) (nat * rdp_session_dynamic_channel G)).
    etransitivity; [by apply bind_ok|]. cbv beta iota. etransitivity; [apply bind_require|]. rewrite Hactive.
    etransitivity; [apply bind_require|]. rewrite Hinternal. cbn [negb].
    assert (Hu8 : u8 priority = priority) by (unfold u8; apply Z.mod_small; lia). rewrite Hu8, Es.
    unfold client_sent. by rewrite send_all_packets.
  - intros K HK HKL p e channel k Hp Hr Ho Hchan.
    destruct (server_receives_message (cd_channel_id_bytes c) (cd_channel_id c) message pdus p e k Hm Hid Hb)
      as (r & p' & k' & E & Hd & Hp' & Hc' & Ht'); [unfold RDP_SERVER_DYNAMIC_MESSAGE_MAX; lia|done..|].
    pose proof (host_deliver_safe (entry_identity (cd_channel_id c) e) message k) as Hsafe. rewrite Hd in Hsafe.
    destruct (static_feed pdus channel (p, ([], k)) r (p', ([], k')) Hchan) as (channel' & Ef & Hch'); [|done|done|].
    { eapply message_packets_ok; [done..|]. unfold UINT32_MAX. lia. }
    exists r, channel', p', k'. split; [exact Ef|]. split; [done|]. split; [done|]. split; [done|]. split; [|done].
    rewrite Ht'. by apply opened_idle.
Qed.

(** ** At concrete inputs *)

#[local] Existing Instances log_host log_host_laws raw_decoder raw_decoder_laws client_log_host client_log_laws.

(** The server of [ServerDvc] with its channel 7 open, and the session of
    [ClientDvc] with the same number. *)
Definition open_peer : dstate (D := list log_item) :=
  run_calls [CallStart; CallMessage (View [0x50; 0; 3; 0]); CallMessage (View [0x10; 7; 97; 98; 0])]
    (mk_peer empty_slots 0 sample_control, ([], [])).
Definition open_session : cstate (G := unit) (D := list client_log_item) :=
  client_runs [ClientPacket (View (whole_packet_of [0x10; 7; 97; 98; 0]))] (new_session sample_client_control, ([], [])).
Definition long_text : list Z := (fun n => Z.of_nat n mod 251) <$> seq 0 2000.

Lemma open_peer_ok : peer_ok open_peer.1.
Proof. apply reachable_ok, run_calls_reachable; [|apply reach_empty]. repeat constructor; try done; by_evaluation. Qed.
Lemma open_session_ok : session_ok open_session.1.
Proof.
  apply (client_reachable_ok (D := list client_log_item)). exists sample_client_control, 1%nat. split; [by split|].
  apply (client_runs_steps [_] (new_session sample_client_control, ([], []))). repeat constructor; try done; by_evaluation.
Qed.
Lemma bytes_forallb l : forallb (fun x => (0 <=? x) && (x <=? 255)) l = true -> bytes l.
Proof. intros H. apply list.Forall_forall. intros x Hx. rewrite forallb_forall in H. specialize (H x (proj1 (list_elem_of_In _ _) Hx)). unfold is_byte. bool_prop. lia. Qed.
Lemma long_text_bytes : bytes long_text.
Proof. apply bytes_forallb. by vm_compute. Qed.

Lemma dvc_server_message_delivered_witness : exists packets,
  librdp_server_peer_send_dynamic_channel_data 7 (View long_text) (open_peer.1, ([], [])) =
    (Ok tt, (open_peer.1, ([], foldl (fun log packet => log ++ [LogPacket packet]) [] packets ++ [LogEvent (DVC_TX (mk_identity 7 0 [97; 98]) (blen long_text))]))) /\
  exists r s' log, client_feed packets (open_session.1, ([], [])) = (r, (s', ([], log))) /\
    client_message (mk_client_identity 7 1 [97; 98]) long_text [] = (r, log).
Proof.
  destruct (dvc_server_message_delivered (fun l log => log ++ [LogPacket l]) open_peer.1 7
    (mk_entry 1 0 [97; 98] (Opened None)) None long_text []) as (packets & Es & Hc);
    [done|done|exact open_peer_ok|by vm_compute|by vm_compute|by vm_compute|by vm_compute|exact long_text_bytes|by vm_compute|].
  exists packets. split; [exact Es|].
  destruct (Hc unit (list client_log_item) raw_decoder raw_decoder_laws client_log_host client_log_laws open_session.1 0%nat
    (mk_channel_entry 7 1 1 0 true false false false 0 rdp_buffer_init tt [97; 98]) [] open_session_ok) as (r & s' & log & E & Hm & _);
    [by vm_compute|done|by vm_compute|]. exists r, s', log. split; [exact E|exact Hm].
Defined.
Lemma dvc_client_message_delivered_witness : exists packets,
  librdp_session_channel_send_ex 0x100000001 2 (View long_text) (open_session.1, ([], [])) =
    (Ok tt, (open_session.1, ([], foldl (fun log packet => log ++ [LogWritten 1005 packet]) [] packets))) /\
  exists r channel' p' log,
    feed (rdp_server_handle_static_channel_message server_dispatch) packets ((idle_channel, []), (open_peer.1, ([], []))) =
      (r, ((channel', []), (p', ([], log)))) /\
    host_deliver (mk_identity 7 0 [97; 98]) long_text [] = (r, log).
Proof.
  destruct (dvc_client_message_delivered (fun k l log => log ++ [LogWritten k l]) open_session.1 0x100000001 2 0
    (mk_channel_entry 7 1 1 0 true false false false 0 rdp_buffer_init tt [97; 98]) long_text []) as (packets & Es & Hc);
    [done|exact open_session_ok|by vm_compute|by vm_compute|lia|by vm_compute|done|by vm_compute|by vm_compute|exact long_text_bytes|by vm_compute|].
  exists packets. split; [exact Es|].
  destruct (Hc (list log_item) log_host log_host_laws open_peer.1 (mk_entry 1 0 [97; 98] (Opened None)) idle_channel [] open_peer_ok)
    as (r & ch & p' & log & E & Hd & _); [by vm_compute|by vm_compute|apply idle_represents|]. exists r, ch, p', log. split; [exact E|exact Hd].
Defined.

(** A close of the server stays unanswered: the client clears its entry and writes
    nothing back, while the server keeps the slot until a CLOSE comes; the number
    cannot be opened again before the channels are reset. *)
Lemma server_close_unanswered :
  let close := whole_packet_of [0x40; 7] in
  let '(r, s) := run_call (CallClose 7) open_peer in
  let '(rc, c) := client_run (ClientPacket (View close)) open_session in
  r = Ok tt /\ s.2.2 = open_peer.2.2 ++ [LogPacket close; LogEvent (DVC_CLOSE (mk_identity 7 0 [97; 98]))] /\
  rc = Ok tt /\ c.2.2 = open_session.2.2 ++ [LogClosed (mk_client_identity 7 1 [97; 98])] /\
  rdp_session_dynamic_channel_find_any c.1 7 = None /\
  en_phase <$> (table_of s.1 !! 7) = Some Closing /\
  (run_call (CallOpen 7 0 (Some [97; 98])) s).1 = Err LIBRDP_STATUS_INVALID_ARGUMENT.
Proof. by vm_compute. Qed.
